(* ===== verification/_CoqProject ===== *)
-Q . S2P
Prelude.v
RustStr.v
Identifiers.v
Primitives.v
Path.v
Connection.v
Channel.v
Context.v
Merkle.v
Events.v
EventStructs.v
ConnHandlers.v
Module.v
ChanHandlers.v
PacketHandlers.v
PacketSpec.v
PacketSafety.v
ClientHandlers.v
MockClient.v
TmTypes.v
TmClient.v
TmSafety.v
Query.v
Entrypoint.v
Text.v
Messages.v
Codecs.v
Wasm.v
AckStatus.v
Denom.v
Transfer.v
TokenSupply.v
NftTypes.v
NftTransfer.v
NftSafety.v
NftSystem.v
Cosmos.v
Services.v
Chain.v
Answers.v
Network.v
TmNetwork.v
TransferNetwork.v
AnyClient.v
Fixtures.v
Testkit.v
TestChain.v
TestScript.v
TestNetwork.v
TestTransfer.v
TestTendermint.v
TestTmNetwork.v
TestTransferNetwork.v
TestMessages.v
TestQuery.v
TestNft.v
TestAny.v
TestWasm.v
TestCosmos.v
TestCodecs.v
Witnesses.v
