(* ===== verification/Prelude.v ===== *)
(** * A verification of ibc-rs

    ibc-rs implements the Inter-Blockchain Communication protocol: a chain keeps
    light clients of other chains, opens connections over clients and channels
    over connections by four-step handshakes, and moves packets of applications
    over channels.  Every message goes through [dispatch], which first runs a
    [validate] function that only reads and then an [execute] function that
    writes; the host chain supplies the store, the clock and the block height,
    light clients supply the verification of proofs about the other chain's
    store, and applications are called back through the trait [Module].

    Definitions are translated one by one from the sources: a pure function is a
    Rocq function, fallible code returns an [outcome] ([Ok], [Err], [Panic]),
    stateful code is an [exec]: explicit state passing in which the state survives
    an error, as it does in Rust when [?] returns early.

    ** Files and the code they model

    Foundations:
    - [Prelude]: outcomes, stateful code, checked [u64] arithmetic, the tactics and
      hint databases used throughout.
    - [RustStr]: UTF-8 strings, [split], [trim], decimal printing and parsing of
      integers as [core] has them, big-endian bytes and the order of byte slices.

    Data (ibc-core/*/types, ibc-primitives):
    - [Identifiers]: ics24-host/types/src/validate.rs and src/identifiers/ (client,
      connection, channel, port and chain identifiers, sequences; the borsh and
      JSON decoders of chain identifiers).
    - [Primitives]: ibc-primitives/src/types/timestamp.rs; heights, statuses and
      errors of ics02-client/types/src.
    - [Path]: ics24-host/types/src/path.rs, the keys of the provable store: printing,
      groups and iteration keys, and the whole parser.
    - [Connection], [Channel]: the data of ics03-connection/types/src and
      ics04-channel/types/src: versions and their negotiation, ends, packets,
      timeouts, commitments, and their protobuf conversions.
    - [Merkle]: ics23-commitment/types/src: proof specifications, keys under a
      prefix, chained proofs.
    - [Events], [EventStructs]: the events of ics02, ics03, ics04 and ics25: their
      conversion to ABCI, and their structs with constructors and accessors.
    - [Messages]: the eighteen messages and their protobuf forms (msgs/ of ics02,
      ics03, ics04) and [MsgEnvelope::try_from].
    - [Codecs]: the borsh, SCALE and serde implementations that are written out:
      timestamps, connection ends and messages, timeout heights, hexadecimal fields.
    - [Text]: [Display] of channels, packets, timeouts and slices, and the parser of
      orderings.
    - [AckStatus]: acknowledgement statuses, ics04-channel/types/src/acknowledgement.rs.

    The core:
    - [Context]: the store [MockIbcStore] of ibc-testkit/src/testapp/ibc/core with
      the reads and writes of core_ctx.rs and client_ctx.rs as functions and
      [action]s; the errors and events of ics25-handler/types; and, as type classes,
      the interfaces between components: [Host] (what a chain knows of itself,
      ics24-host/src/context.rs) and [LightClient] (the traits of
      ics02-client/context/src).
    - [ConnHandlers]: ics03-connection/src (delay.rs and the four handlers).
    - [Module]: the trait of ics26-routing/src/module.rs as a class over the state
      [App] of the application.
    - [ChanHandlers], [PacketHandlers]: the handlers of ics04-channel/src/handler.  A
      handler named [x_validate] in the code calls a private [validate]; the latter
      is [x_check] here.
    - [PacketSpec], [PacketSafety]: the abstract packet machine, the proof that the
      handlers implement it, and what one accepted message says of the other chain.
    - [ClientHandlers]: ics02-client/src/handler.
    - [Entrypoint]: ics25-handler/src/entrypoint.rs with the router of the testkit:
      [validate], [execute], [dispatch].
    - [Query], [Services]: ibc-query: the queries and the gRPC methods over them.

    Light clients:
    - [TmTypes], [TmClient], [TmSafety]: ICS-07, ibc-clients/ics07-tendermint: its
      data, its five client_state/ files as an instance of [LightClient], and what
      it guarantees.
    - [Wasm]: ICS-08, ibc-clients/ics08-wasm/types.
    - [MockClient]: the mock client of the testkit as an instance of [LightClient],
      and the mock host as one of [Host].
    - [AnyClient]: the sums [AnyClientState] and [AnyConsensusState] of the testkit
      with the methods that the macros of ibc-derive generate for them, as an
      instance of [LightClient].

    Applications:
    - [Denom], [Transfer], [TokenSupply]: ICS-20, ibc-apps/ics20-transfer: its data,
      its handlers and callbacks, and the conservation of tokens.
    - [NftTypes], [NftTransfer], [NftSafety], [NftSystem]: the same for ICS-721,
      ibc-apps/ics721-nft-transfer.

    Hosts and whole systems:
    - [Cosmos]: ics24-host/cosmos: self-client validation, upgrade proposals, escrow
      addresses.
    - [Chain], [Answers]: runs of a chain: any sequence of dispatched messages, of packets
      sent by applications and of other steps of applications, each in a host of its own
      time and height, kept only when it succeeds, as a transaction is; the history
      theorems; and what the applications answered along a run.
    - [Network], [TmNetwork]: two chains, each with its blocks, whose clients follow each
      other; and the proof that Tendermint clients do, whatever is submitted to them.
    - [TransferNetwork]: two such chains with ICS-20 on the ends of a channel: the books
      of the packets of both histories, and the banks.
    - [Testkit]: the context of ibc-testkit (testapp/ibc/core/types.rs, hosts/,
      fixtures/core/context.rs, relayer/): hosts, builders, delivery of messages.
    - [Fixtures]: the dummy messages, client states and applications of
      ibc-testkit/src/fixtures and testapp/ibc/applications.

    Concrete instances, on which each theorem with hypotheses is applied:
    [TestChain], [TestScript] (scripts of messages and the lives of chains they make),
    [TestNetwork], [TestTransfer], [TestTendermint], [TestTmNetwork],
    [TestTransferNetwork], [TestMessages],
    [TestQuery], [TestNft], [TestAny], [TestWasm], [TestCosmos], [TestCodecs], [Witnesses].

    ** What is proved

    - Data: identifiers that are accepted or generated are valid and free of
      separators, generated ones are distinct; printing and parsing of paths,
      heights, timestamps, denominations and class identifiers, and the protobuf,
      JSON, borsh and [Any] forms of packets, ends, states and messages, are inverse
      to each other where the code means them to be; no two paths share a key;
      iteration keys sort as heights; version negotiation picks the least common
      version, which the other side accepts; commitments bind packets up to
      collisions between the two packets at hand; an ABCI event determines the
      event it was made from.
    - Handlers: [conn_transition], [chan_transition], [packet_transition] and
      [send_transition] are the state machines of the protocol, on abstract
      states; the refinement theorems say that a validated and executed message
      makes exactly one of their steps and touches nothing else.  Invariants of
      connections, channels and clients are preserved, states only move forward,
      and a validated connection message cannot fail in [execute], the overflow of the
      counter apart.
    - Chains: from genesis, under any messages, every channel end delivers each
      packet at most once (in order on ordered channels), sends with consecutive
      sequence numbers, and resolves each packet at most once, by acknowledgement
      or timeout, and only if it was sent; frozen clients never change again; the
      clients of a chain with several kinds never mix.
    - One message across chains: with a sound light client ([SoundClient], and
      [SoundAbsence] for absence proofs), the ends of a connection or channel agree
      when a handshake step succeeds, received packets were sent, acknowledgements
      were written, and a packet that timed out is not received.
    - Two chains ([Network]): when the clients behind a channel have headers of the
      other chain's blocks only, and proofs about blocks are faithful, every
      delivered packet was sent, every acknowledged packet was delivered, and a
      packet that was timed out, or closed on, is never delivered, before or after.  Two chains with
      Tendermint clients of each other are such chains ([tm_chains_linked]): no message,
      header, evidence or upgrade makes a client leave the chain it was created for, as long
      as the channel runs over that client, roots commit to states, no block commits to an
      upgraded client state, hashes do not collide, and the verifier accepts, from a block of
      a chain, headers of that chain only.
    - Tendermint: the consensus states a client stores form a history whose times
      grow with the heights, an update leaves exactly the states that have not expired
      and the new one, misbehaviour is detected exactly when a header breaks
      that history and freezes the client for the rest of any run of its chain, pruning
      ends and removes what expired, headers are accepted only when the verifier accepts
      them from the trusted block of the client's chain, and proofs of presence and absence
      are about the path they are given for and never contradict each other.
    - Tokens: over any sequence of transfers in both directions the escrow of a
      channel equals the vouchers of the other chain plus what is under way, so
      every return is covered; a refund undoes a transfer.  The same holds end to end, of
      two linked chains with all their messages and applications: the escrow is the
      vouchers plus the packets that are not resolved ([transfer_books_close], and
      [tm_chains_backed] for Tendermint clients).  A non-fungible token
      is in one place as long as no receive that failed had handed it out.
    - Queries: what a query returns is what its proof proves, for every query that returns
      one, and a sent packet passes the receiving chain's validation with the answer of the
      query for its commitment, when that chain is ready for it.  The testkit: a session with it is
      a run of a chain, and its fixtures convert to messages exactly when the heights
      they are given are not zero.
    - Deviations of the code are theorems too: [path_from_str_panics],
      [unordered_redelivery_rejected], [timeout_on_close_never_acts],
      [ordered_timeout_proves_own_sequence], [open_init_ignores_module_version],
      [close_init_fails_after_write], [chain_id_length_unbounded],
      [chain_id_borsh_breaks_invariant], [chain_id_json_order],
      [coin_from_str_panics], [quoted_error_never_refunded],
      [denom_display_ambiguous], [apply_prefix_collides],
      [tm_single_upgrade_key_panics], [tm_header_height_panics],
      [partial_receive_duplicates], [voucher_transfer_fails],
      [packet_data_not_validated], [raw_uris_not_sorted], [packet_event_ends],
      [channel_closed_accessors], [with_ack_sequence_copies_send],
      [connection_end_borsh_panics], [hex_fields_unreadable], [timeout_height_serde],
      [timestamp_binary_roundtrip], [order_texts].

    ** Bounds and termination

    All definitions are total functions.  Fuel is used in four places, and is
    proved to be enough: in [show_digits], where it exceeds the number of decimal
    digits ([show_digits_spec]); in [chunks_exact], where it is the length of the
    slice; in [trim_start_matches], where it is the length of the text
    ([trim_start_matches_done]); and in [advance_while], the loop of [with_height], where it is the number
    of blocks to produce ([with_height_fuel]).  [u64] values are [N]; additions that
    overflow are [Panic], as in builds with overflow checks, and theorems state the
    bound where it matters.  256-bit amounts are [N] below their size.  Durations
    are nanoseconds in [N] and are cut to 64 bits where the code casts them.

    ** Parameters

    Code that is not in the repository is a class, with what is relied on in a
    second class of laws, of which a Test file has an instance:
    - the [tendermint] crates: [TmTime], [TmLib], [TmText], [TmCodec], [TmVerifier],
      [TmTestgen] (generated test blocks), [Abci];
    - [ics23]: [Ics23], [Ics23Check] with [Ics23Laws];
    - [sha2]: [Sha256], of which only the length of the output is assumed;
    - prost and the generated structs: [Codec], [MockCodec], [Prost], [MsgCodec],
      [TransferProto], [NftProto], [WasmCodec], [PlanCodec]; generated structs are
      records;
    - serde_json, borsh and SCALE strings, base64, http, mime, primitive-types:
      [AckJson], [TransferJson], [NftJson], [StringCodec], [BinaryCodec], [Derived],
      [SerdeLib], [Base64], [HttpUri], [MimeLib], [U256Dec], [U256Arith];
    - character classes and case beyond ASCII: [Unicode], [UnicodeNumeric], [UnicodeCase];
    - the proof specifications of Cosmos chains in ics23: [CosmosSpecs];
    - texts of errors and Debug output inside messages: [MsgText], [QueryText],
      [WasmText], [StatusText].
    Traits that a host or another component implements are classes as well: [Host],
    [LightClient], [Module] ([Ics20App] for modules that call back ICS-20),
    [TokenContext] (with [Bank] and [BankLaws]),
    [NftTransferContext] (with [NftLedger] and [NftLaws]), [ProvableContext],
    [QueryContext] (with [QueryLaws]), [AnyStates], [HostBytes], [UpgradeContext] (with
    [UpgradeLaws], the documented ones only), [SelfHost], and the conversions
    [TmConverter] and [MockConverter].  What is asked of light clients is in
    [ClientFrame] (proved for all clients here), [SoundClient], [SoundAbsence],
    [SingleKeyProofs], [HonestProofs] and [FaithfulProofs].

    ** Not modelled

    What derive macros generate for serde, borsh, SCALE and JSON schemas (classes where
    other code depends on it), and derived Debug output; the parsing of attributes and
    the generation of tokens in the macros of ibc-derive (the code they generate is
    in [AnyClient]); the asynchronous transport of the gRPC services; constructors and
    accessors that only build a record or read a field; the cryptography of headers and
    Merkle trees, which is in other crates. *)

From stdpp Require Export base tactics list gmap strings countable.
From Stdlib Require Export Ascii NArith ZArith Lia.

#[export] Set Default Goal Selector "!".
#[export] Set Warnings "-clear-no-such-hyp".
#[global] Open Scope N_scope.

(** ** Outcomes of Rust functions

    [Ok]/[Err] are the two constructors of [core::result::Result]; [Panic]
    is an unwinding panic: an index out of bounds, a failed [expect] or an
    arithmetic overflow in a build with overflow checks. *)

Inductive outcome (E A : Type) : Type :=
| Ok (a : A)
| Err (e : E)
| Panic.
Arguments Ok {E A} a.
Arguments Err {E A} e.
Arguments Panic {E A}.

#[export] Instance outcome_eq_dec `{EqDecision E, EqDecision A} :
  EqDecision (outcome E A).
Proof. solve_decision. Defined.

#[export] Instance outcome_ret {E} : MRet (outcome E) := λ A a, Ok a.
#[export] Instance outcome_bind {E} : MBind (outcome E) := λ A B f m,
  match m with Ok a => f a | Err e => Err e | Panic => Panic end.
#[export] Instance outcome_fmap {E} : FMap (outcome E) := λ A B f m,
  match m with Ok a => Ok (f a) | Err e => Err e | Panic => Panic end.

(** [Result::map_err], also the conversion the [?] operator inserts. *)
Definition map_err {E E' A} (f : E → E') (m : outcome E A) : outcome E' A :=
  match m with Ok a => Ok a | Err e => Err (f e) | Panic => Panic end.

(** [Option::ok_or]. *)
Definition ok_or {E A} (o : option A) (e : E) : outcome E A :=
  match o with Some a => Ok a | None => Err e end.

(** [Result::ok]; a panic is not caught by it, so it only appears on results
    that do not panic. *)
Definition ok {E A} (m : outcome E A) : option A :=
  match m with Ok a => Some a | _ => None end.

(** [Result::is_ok]. *)
Definition is_ok {E A} (m : outcome E A) : bool :=
  match m with Ok _ => true | _ => false end.

(** [if b { return Err(e) }]. *)
Definition fail_if {E} (b : bool) (e : E) : outcome E () :=
  if b then Err e else Ok tt.

(** [v[i]] on a slice: a panic when out of bounds. *)
Definition index {E A} (l : list A) (i : nat) : outcome E A :=
  match l !! i with Some a => Ok a | None => Panic end.

(** The computation does not panic. *)
Definition total {E A} (m : outcome E A) : Prop := m ≠ Panic.

Section outcome.
Context {E : Type}.

Lemma bind_Ok {A B} (m : outcome E A) (f : A → outcome E B) b :
  m ≫= f = Ok b ↔ ∃ a, m = Ok a ∧ f a = Ok b.
Proof. destruct m; cbn; naive_solver. Qed.

Lemma bind_Panic {A B} (m : outcome E A) (f : A → outcome E B) :
  m ≫= f = Panic ↔ m = Panic ∨ ∃ a, m = Ok a ∧ f a = Panic.
Proof. destruct m; cbn; naive_solver. Qed.

Lemma fmap_Ok {A B} (m : outcome E A) (f : A → B) b :
  f <$> m = Ok b ↔ ∃ a, m = Ok a ∧ b = f a.
Proof. destruct m; cbn; naive_solver. Qed.

Lemma map_err_Ok {E' A} (f : E → E') (m : outcome E A) a :
  map_err f m = Ok a ↔ m = Ok a.
Proof. destruct m; naive_solver. Qed.

Lemma map_err_Panic {E' A} (f : E → E') (m : outcome E A) :
  map_err f m = Panic ↔ m = Panic.
Proof. destruct m; naive_solver. Qed.

Lemma ok_or_Ok {A} (o : option A) (e : E) a : ok_or o e = Ok a ↔ o = Some a.
Proof. destruct o; naive_solver. Qed.

Lemma ok_or_Panic {A} (o : option A) (e : E) : ok_or o e = Panic ↔ False.
Proof. destruct o; naive_solver. Qed.

Lemma fail_if_Ok b (e : E) u : fail_if b e = Ok u ↔ b = false.
Proof. destruct b, u; naive_solver. Qed.

Lemma fail_if_Panic b (e : E) : fail_if b e = Panic ↔ False.
Proof. destruct b; naive_solver. Qed.

Lemma index_Ok {A} (l : list A) i a : index (E:=E) l i = Ok a ↔ l !! i = Some a.
Proof. unfold index. destruct (l !! i); naive_solver. Qed.

Lemma index_Panic {A} (l : list A) i : index (E:=E) l i = Panic ↔ l !! i = None.
Proof. unfold index. destruct (l !! i); naive_solver. Qed.

Lemma is_ok_true {A} (m : outcome E A) : is_ok m = true ↔ ∃ a, m = Ok a.
Proof. destruct m; naive_solver. Qed.

Lemma ok_Some {A} (m : outcome E A) a : ok m = Some a ↔ m = Ok a.
Proof. destruct m; naive_solver. Qed.
End outcome.

(** ** State and errors

    A method that takes [&mut self] and returns a [Result].  The state is
    returned on every branch: Rust does not undo the writes made before an
    [Err] is returned, the host does. *)

Definition exec (S E A : Type) : Type := S → S * outcome E A.

#[export] Instance exec_ret {S E} : MRet (exec S E) := λ A a s, (s, Ok a).
#[export] Instance exec_bind {S E} : MBind (exec S E) := λ A B f m s,
  match m s with
  | (s', Ok a) => f a s'
  | (s', Err e) => (s', Err e)
  | (s', Panic) => (s', Panic)
  end.

(** A read of the state ([&self] method) and a write that cannot fail. *)
Definition reads {S E A} (f : S → outcome E A) : exec S E A := λ s, (s, f s).
Definition lift {S E A} (m : outcome E A) : exec S E A := λ s, (s, m).
Definition modify {S E} (f : S → S) : exec S E () := λ s, (f s, Ok tt).

(** Run an action on one component of a pair of states. *)
Definition on_fst {S T E A} (m : exec S E A) : exec (S * T) E A := λ st,
  let '(s', r) := m st.1 in ((s', st.2), r).
Definition on_snd {S T E A} (m : exec T E A) : exec (S * T) E A := λ st,
  let '(t', r) := m st.2 in ((st.1, t'), r).

(** [for x in l { f(x)?; }]. *)
Fixpoint for_each {S E A} (f : A → exec S E ()) (l : list A) : exec S E () :=
  match l with
  | [] => mret tt
  | x :: l => f x ;; for_each f l
  end.

Section exec.
Context {S E : Type}.

Lemma exec_bind_Ok {A B} (m : exec S E A) (f : A → exec S E B) s s' b :
  (m ≫= f) s = (s', Ok b) ↔
  ∃ s1 a, m s = (s1, Ok a) ∧ f a s1 = (s', Ok b).
Proof.
  unfold mbind, exec_bind. destruct (m s) as [s1 [a|e|]]; naive_solver.
Qed.

Lemma exec_bind_Panic {A B} (m : exec S E A) (f : A → exec S E B) s s' :
  (m ≫= f) s = (s', Panic) ↔
  m s = (s', Panic) ∨ ∃ s1 a, m s = (s1, Ok a) ∧ f a s1 = (s', Panic).
Proof.
  unfold mbind, exec_bind. destruct (m s) as [s1 [a|e|]]; naive_solver.
Qed.

Lemma exec_bind_Err {A B} (m : exec S E A) (f : A → exec S E B) s s' e :
  (m ≫= f) s = (s', Err e) ↔
  m s = (s', Err e) ∨ ∃ s1 a, m s = (s1, Ok a) ∧ f a s1 = (s', Err e).
Proof.
  unfold mbind, exec_bind. destruct (m s) as [s1 [a|e'|]]; naive_solver.
Qed.

Lemma exec_ret_Ok {A} (a b : A) (s s' : S) :
  (mret a : exec S E A) s = (s', Ok b) ↔ s' = s ∧ b = a.
Proof. unfold mret, exec_ret. split; [intros [= -> ->]|intros [-> ->]]; done. Qed.

Lemma reads_Ok {A} (f : S → outcome E A) s s' a :
  reads f s = (s', Ok a) ↔ s' = s ∧ f s = Ok a.
Proof. unfold reads. split; [intros [= <- ->]|intros [-> ->]]; done. Qed.

Lemma lift_Ok {A} (m : outcome E A) (s s' : S) a :
  lift m s = (s', Ok a) ↔ s' = s ∧ m = Ok a.
Proof. unfold lift. split; [intros [= <- ->]|intros [-> ->]]; done. Qed.

(** Reads leave the state alone whatever they return. *)
Lemma reads_state {A} (f : S → outcome E A) s s' r : reads f s = (s', r) → s' = s.
Proof. by intros [= <- _]. Qed.
Lemma lift_state {A} (m : outcome E A) (s s' : S) r : lift m s = (s', r) → s' = s.
Proof. by intros [= <- _]. Qed.

Lemma modify_Ok (f : S → S) s s' u :
  (modify f : exec S E ()) s = (s', Ok u) ↔ s' = f s.
Proof. unfold modify. destruct u. naive_solver. Qed.

Lemma on_fst_Ok {T A} (m : exec S E A) (s : S) (t : T) st' a :
  on_fst m (s, t) = (st', Ok a) ↔ ∃ s', m s = (s', Ok a) ∧ st' = (s', t).
Proof. unfold on_fst. cbn. destruct (m s). naive_solver. Qed.

Lemma on_snd_Ok {T A} (m : exec S E A) (s : S) (t : T) st' a :
  on_snd m (t, s) = (st', Ok a) ↔ ∃ s', m s = (s', Ok a) ∧ st' = (t, s').
Proof. unfold on_snd. cbn. destruct (m s). naive_solver. Qed.
End exec.

(** ** Unsigned 64-bit integers: [N] with the range written out. *)

Definition U64_SIZE : N := 18446744073709551616.
Definition U64_MAX : N := 18446744073709551615.
Definition is_u64 (n : N) : Prop := n < U64_SIZE.
#[export] Instance is_u64_dec n : Decision (is_u64 n).
Proof. unfold is_u64. apply _. Defined.

(** [a + b] on [u64]: a panic on overflow. *)
Definition u64_add {E} (a b : N) : outcome E N :=
  if a + b <? U64_SIZE then Ok (a + b) else Panic.
(** [u64::checked_add], [u64::saturating_sub]. *)
Definition u64_checked_add (a b : N) : option N :=
  if a + b <? U64_SIZE then Some (a + b) else None.
Definition u64_saturating_sub (a b : N) : N := a - b.

Lemma u64_add_Ok {E} a b c :
  u64_add (E:=E) a b = Ok c ↔ c = a + b ∧ is_u64 c.
Proof.
  unfold u64_add, is_u64. destruct (N.ltb_spec (a + b) U64_SIZE); naive_solver lia.
Qed.

Lemma u64_add_fits {E} a b : is_u64 (a + b) → u64_add (E:=E) a b = Ok (a + b).
Proof. intros ?. by apply u64_add_Ok. Qed.
Lemma u64_succ {E} a : is_u64 a → u64_add (E:=E) a 1 = if a =? U64_SIZE - 1 then Panic else Ok (a + 1).
Proof.
  unfold is_u64, u64_add. intros Ha. destruct (N.eqb_spec a (U64_SIZE - 1)), (N.ltb_spec (a + 1) U64_SIZE); done || lia.
Qed.

Lemma u64_checked_add_Some a b c :
  u64_checked_add a b = Some c ↔ c = a + b ∧ is_u64 c.
Proof.
  unfold u64_checked_add, is_u64.
  destruct (N.ltb_spec (a + b) U64_SIZE); naive_solver lia.
Qed.

(** ** Automation

    [outcome] collects the inversion lemmas of the two monads; [inv_ok]
    destructs every hypothesis that says a composite computation returned
    [Ok], down to the equations of its steps. *)

Create HintDb ibc.
#[export] Hint Rewrite @bind_Ok @fmap_Ok @map_err_Ok @ok_or_Ok @fail_if_Ok
  @index_Ok @u64_add_Ok @exec_bind_Ok @exec_ret_Ok @reads_Ok @lift_Ok
  @modify_Ok @on_fst_Ok @on_snd_Ok : outcome.

(** Computes the steps of a monadic term whose results are known. *)
Ltac mstep :=
  cbn [mbind mret fmap outcome_bind outcome_ret outcome_fmap exec_bind exec_ret
       ok_or map_err fail_if].

Ltac inv_ok_step :=
  match goal with
  | H : ∃ _, _ |- _ => destruct H
  | H : _ ∧ _ |- _ => destruct H
  | H : ?x = _ |- _ => is_var x; subst x
  | H : Ok _ = Ok _ |- _ => injection H as H; try subst
  | H : (_, Ok _) = (_, Ok _) |- _ => injection H; clear H; intros; try subst
  | H : Some _ = Some _ |- _ => injection H as H; try subst
  | H : Err _ = Ok _ |- _ => discriminate H
  | H : Panic = Ok _ |- _ => discriminate H
  | H : (_, Err _) = (_, Ok _) |- _ => discriminate H
  | H : (_, Panic) = (_, Ok _) |- _ => discriminate H
  | H : mret _ = Ok _ |- _ => unfold mret, outcome_ret in H
  | H : _ = Ok _ |- _ => progress (autorewrite with outcome in H)
  | H : _ = (_, Ok _) |- _ => progress (autorewrite with outcome in H)
  end.
Ltac inv_ok := repeat inv_ok_step.
Ltac destruct_units := repeat match goal with x : () |- _ => destruct x end.

(** Runs an action whose steps are known, in the goal. *)
Ltac run_exec :=
  unfold mbind, mret, exec_bind, exec_ret, lift, reads, modify;
  cbn [outcome_bind ok_or map_err fail_if].

(** [solve_total] proves that a computation does not panic, along its
    structure; what it cannot decide is left to the [total] hints. *)

Create HintDb total.

Section total.
Context {E : Type}.

Lemma total_Ok {A} (a : A) : total (Ok (E:=E) a).
Proof. done. Qed.
Lemma total_mret {A} (a : A) : total (mret (M:=outcome E) a).
Proof. done. Qed.
Lemma total_Err {A} (e : E) : total (Err (A:=A) e).
Proof. done. Qed.
Lemma total_ok_or {A} (o : option A) (e : E) : total (ok_or o e).
Proof. by destruct o. Qed.
Lemma total_fail_if b (e : E) : total (fail_if b e).
Proof. by destruct b. Qed.
Lemma total_bind {A B} (m : outcome E A) (f : A → outcome E B) :
  total m → (∀ a, m = Ok a → total (f a)) → total (m ≫= f).
Proof. destruct m; cbn; unfold total; naive_solver. Qed.
Lemma total_fmap {A B} (m : outcome E A) (f : A → B) : total m → total (f <$> m).
Proof. by destruct m. Qed.
Lemma total_map_err {E' A} (f : E → E') (m : outcome E A) : total m → total (map_err f m).
Proof. by destruct m. Qed.
Lemma total_index {A} (l : list A) i : (i < length l)%nat → total (index (E:=E) l i).
Proof.
  intros [x Hx]%lookup_lt_is_Some. unfold index. by rewrite Hx.
Qed.
End total.
#[export] Hint Resolve total_Ok total_mret total_Err total_ok_or total_fail_if : total.

Ltac solve_total :=
  repeat first
    [ progress intros
    | solve [eauto 3 with total]
    | apply total_map_err
    | apply total_fmap
    | apply total_bind
    | match goal with
      | |- total (if ?b then _ else _) => destruct b eqn:?
      | |- total (match ?m with _ => _ end) => destruct m eqn:?
      | |- total (let '(_, _) := ?p in _) => destruct p
      end ].

(** ** The two ends of a channel *)

Inductive side := SideA | SideB.
#[export] Instance side_eq_dec : EqDecision side.
Proof. solve_decision. Defined.
Definition other (σ : side) : side := match σ with SideA => SideB | SideB => SideA end.

Lemma other_involutive σ : other (other σ) = σ.
Proof. by destruct σ. Qed.
Lemma other_ne σ : σ ≠ other σ.
Proof. by destruct σ. Qed.
Lemma side_cases (σ τ : side) : σ = τ ∨ σ = other τ.
Proof. destruct σ, τ; auto. Qed.
