(* ===== verification/RustStr.v ===== *)
(** * Rust strings

    The operations of [core::str], [core::char] and [u64]'s [FromStr]/[Display]
    that the sources use.  A [&str] is the string of its UTF-8 bytes, so
    [str::len] is [String.length] and equality is equality of bytes. *)

From S2P Require Import Prelude.
From Stdlib Require Strings.Byte.

Local Open Scope string_scope.
Local Open Scope N_scope.

Definition SLASH : ascii := "/"%char.
Definition DASH : ascii := "-"%char.

(** [s.len() as u64]: the number of bytes. *)
Definition len (s : string) : N := N.of_nat (String.length s).

(** Whether the byte [c] occurs in [s] ([str::contains] of an ASCII [char]). *)
Fixpoint contains (c : ascii) (s : string) : bool :=
  match s with
  | EmptyString => false
  | String a s => bool_decide (a = c) || contains c s
  end.

(** ** Characters *)

(** [str::chars]: the Unicode scalar values encoded by the bytes.  A Rust
    [str] is well-formed UTF-8, so the branches for malformed sequences (which
    yield the lead byte alone) are not reached by one. *)
Definition low6 (a : ascii) : N := N_of_ascii a mod 64.
Definition is_cont (a : ascii) : bool :=
  (128 <=? N_of_ascii a) && (N_of_ascii a <? 192).

Fixpoint chars (s : string) : list N :=
  match s with
  | EmptyString => []
  | String a s1 =>
    let b := N_of_ascii a in
    match s1 with
    | String a2 s2 =>
      if (b <? 128) || negb (is_cont a2) then b :: chars s1 else
      if b <? 224 then (b mod 32 * 64 + low6 a2) :: chars s2 else
      match s2 with
      | String a3 s3 =>
        if negb (is_cont a3) then b :: chars s1 else
        if b <? 240 then
          (b mod 16 * 4096 + low6 a2 * 64 + low6 a3) :: chars s3 else
        match s3 with
        | String a4 s4 =>
          if negb (is_cont a4) then b :: chars s1 else
          (b mod 8 * 262144 + low6 a2 * 4096 + low6 a3 * 64 + low6 a4) :: chars s4
        | EmptyString => b :: chars s1
        end
      | EmptyString => b :: chars s1
      end
    | EmptyString => [b]
    end
  end.

(** [char::encode_utf8]. *)
Definition encode_char (c : N) : string :=
  if c <? 128 then String (ascii_of_N c) ""
  else if c <? 2048 then
    String (ascii_of_N (192 + c / 64)) (String (ascii_of_N (128 + c mod 64)) "")
  else if c <? 65536 then
    String (ascii_of_N (224 + c / 4096))
      (String (ascii_of_N (128 + c / 64 mod 64))
        (String (ascii_of_N (128 + c mod 64)) ""))
  else
    String (ascii_of_N (240 + c / 262144))
      (String (ascii_of_N (128 + c / 4096 mod 64))
        (String (ascii_of_N (128 + c / 64 mod 64))
          (String (ascii_of_N (128 + c mod 64)) ""))).

Definition of_chars (l : list N) : string := String.concat "" (encode_char <$> l).

(** [char::is_alphanumeric] consults the Unicode tables beyond ASCII; they
    are the only part of the standard library left as a parameter. *)
Class Unicode := alphanumeric_beyond_ascii : N → bool.

Definition is_ascii_alphanumeric (c : N) : bool :=
  ((48 <=? c) && (c <=? 57)) || ((65 <=? c) && (c <=? 90)) || ((97 <=? c) && (c <=? 122)).

Definition is_alphanumeric `{Unicode} (c : N) : bool :=
  if c <? 128 then is_ascii_alphanumeric c else alphanumeric_beyond_ascii c.

(** [char::is_whitespace]: the [White_Space] property. *)
Definition is_whitespace (c : N) : bool :=
  ((9 <=? c) && (c <=? 13)) || (c =? 32) || (c =? 133) || (c =? 160)
  || (c =? 5760) || ((8192 <=? c) && (c <=? 8202)) || (c =? 8232) || (c =? 8233)
  || (c =? 8239) || (c =? 8287) || (c =? 12288).

Fixpoint drop_while {A} (p : A → bool) (l : list A) : list A :=
  match l with
  | [] => []
  | x :: l' => if p x then drop_while p l' else l
  end.

(** [str::trim]. *)
Definition trim (s : string) : string :=
  of_chars (reverse (drop_while is_whitespace
    (reverse (drop_while is_whitespace (chars s))))).

(** ** Splitting *)

(** [s.split(c).collect()]: never empty. *)
Fixpoint split (c : ascii) (s : string) : list string :=
  match s with
  | EmptyString => [""]
  | String a s' =>
    if bool_decide (a = c) then "" :: split c s'
    else match split c s' with
         | p :: ps => String a p :: ps
         | [] => [String a ""]
         end
  end.

(** [str::split_once], [str::rsplit_once]. *)
Fixpoint split_once (c : ascii) (s : string) : option (string * string) :=
  match s with
  | EmptyString => None
  | String a s' =>
    if bool_decide (a = c) then Some ("", s')
    else '(l, r) ← split_once c s'; Some (String a l, r)
  end.

Fixpoint rsplit_once (c : ascii) (s : string) : option (string * string) :=
  match s with
  | EmptyString => None
  | String a s' =>
    match rsplit_once c s' with
    | Some (l, r) => Some (String a l, r)
    | None => if bool_decide (a = c) then Some ("", s') else None
    end
  end.

(** ** Decimal numbers *)

Inductive IntErrorKind := IntEmpty | IntInvalidDigit | IntPosOverflow.
#[export] Instance IntErrorKind_eq_dec : EqDecision IntErrorKind.
Proof. solve_decision. Defined.

(** [(c as char).to_digit(10)]. *)
Definition to_digit (a : ascii) : option N :=
  let b := N_of_ascii a in
  if (48 <=? b) && (b <=? 57) then Some (b - 48) else None.

Fixpoint parse_digits (acc : N) (s : string) : outcome IntErrorKind N :=
  match s with
  | EmptyString => Ok acc
  | String a s' =>
    x ← ok_or (to_digit a) IntInvalidDigit;
    fail_if (U64_SIZE <=? acc * 10) IntPosOverflow;;
    fail_if (U64_SIZE <=? acc * 10 + x) IntPosOverflow;;
    parse_digits (acc * 10 + x) s'
  end.

(** [<u64 as FromStr>::from_str]: a leading ['+'] is accepted, as are leading
    zeros. *)
Definition parse_u64 (s : string) : outcome IntErrorKind N :=
  match s with
  | EmptyString => Err IntEmpty
  | String a EmptyString =>
    if bool_decide (a = "+"%char) || bool_decide (a = "-"%char)
    then Err IntInvalidDigit else parse_digits 0 s
  | String a s' =>
    if bool_decide (a = "+"%char) then parse_digits 0 s' else parse_digits 0 s
  end.

(** [<u64 as Display>::fmt]. *)
Definition digit (n : N) : ascii := ascii_of_N (48 + n).

Fixpoint show_digits (fuel : nat) (n : N) (acc : string) : string :=
  match fuel with
  | O => acc
  | S fuel =>
    let acc' := String (digit (n mod 10)) acc in
    if n / 10 =? 0 then acc' else show_digits fuel (n / 10) acc'
  end.

Definition show_u64 (n : N) : string := show_digits (S (N.to_nat (N.size n))) n "".

(** ** Lemmas on occurrence and concatenation *)

Local Arguments String.append !_ _ / : simpl nomatch.

Section strings.
Implicit Types (s l r : string) (c a : ascii).

Lemma app_cons a s t : (String a s ++ t) = String a (s ++ t).
Proof. done. Qed.

Lemma app_nil_r_str s : s ++ "" = s.
Proof. induction s; cbn; congruence. Qed.

Lemma app_assoc_str s t u : (s ++ t) ++ u = s ++ (t ++ u).
Proof. induction s; cbn; congruence. Qed.

Lemma length_app_str s t :
  String.length (s ++ t) = (String.length s + String.length t)%nat.
Proof. induction s; cbn; congruence. Qed.

Lemma len_app s t : len (s ++ t) = len s + len t.
Proof. unfold len. rewrite length_app_str. lia. Qed.

Lemma contains_app c s t : contains c (s ++ t) = contains c s || contains c t.
Proof. induction s as [|a s IH]; [done|]. cbn. by rewrite IH, orb_assoc. Qed.

Lemma split_nil c s : split c s ≠ [].
Proof.
  destruct s as [|a s]; cbn; [done|]. case_bool_decide; [done|].
  by destruct (split c s).
Qed.

Lemma split_none c s : contains c s = false → split c s = [s].
Proof.
  induction s as [|a s IH]; cbn; [done|]. intros [Ha Hs]%orb_false_iff.
  rewrite Ha. by rewrite IH.
Qed.

Lemma split_app c s t :
  contains c s = false → split c (s ++ String c t) = s :: split c t.
Proof.
  induction s as [|a s IH]; cbn.
  - intros _. by rewrite bool_decide_eq_true_2.
  - intros [Ha Hs]%orb_false_iff. rewrite Ha. by rewrite IH.
Qed.

Lemma split_once_app c s t :
  contains c s = false → split_once c (s ++ String c t) = Some (s, t).
Proof.
  induction s as [|a s IH]; cbn.
  - intros _. by rewrite bool_decide_eq_true_2.
  - intros [Ha Hs]%orb_false_iff. rewrite Ha. by rewrite IH.
Qed.

Lemma rsplit_once_none c s : contains c s = false → rsplit_once c s = None.
Proof.
  induction s as [|a s IH]; cbn; [done|]. intros [Ha Hs]%orb_false_iff.
  rewrite IH by done. by rewrite Ha.
Qed.

Lemma rsplit_once_app c s t :
  contains c t = false → rsplit_once c (s ++ String c t) = Some (s, t).
Proof.
  intros Ht. induction s as [|a s IH]; cbn.
  - rewrite rsplit_once_none by done. by rewrite bool_decide_eq_true_2.
  - by rewrite IH.
Qed.

Lemma rsplit_once_Some c s l r :
  rsplit_once c s = Some (l, r) → s = l ++ String c r ∧ contains c r = false.
Proof.
  revert l. induction s as [|a s IH]; intros l; cbn; [done|].
  destruct (rsplit_once c s) as [[l' r']|] eqn:E.
  - intros [= <- <-]. destruct (IH l') as [-> ?]; done.
  - case_bool_decide as Ha; intros [= <- <-]. subst. split; [done|].
    clear IH. induction s as [|b s IH]; [done|]. cbn in *.
    destruct (rsplit_once c s) as [[]|]; [done|].
    case_bool_decide; [done|]. auto.
Qed.
End strings.

(** ** Lemmas on characters *)

Section chars.
Lemma chars_unfold a s1 :
  chars (String a s1) =
  let b := N_of_ascii a in
  match s1 with
  | String a2 s2 =>
    if (b <? 128) || negb (is_cont a2) then b :: chars s1 else
    if b <? 224 then (b mod 32 * 64 + low6 a2) :: chars s2 else
    match s2 with
    | String a3 s3 =>
      if negb (is_cont a3) then b :: chars s1 else
      if b <? 240 then
        (b mod 16 * 4096 + low6 a2 * 64 + low6 a3) :: chars s3 else
      match s3 with
      | String a4 s4 =>
        if negb (is_cont a4) then b :: chars s1 else
        (b mod 8 * 262144 + low6 a2 * 4096 + low6 a3 * 64 + low6 a4) :: chars s4
      | EmptyString => b :: chars s1
      end
    | EmptyString => b :: chars s1
    end
  | EmptyString => [b]
  end.
Proof. done. Qed.

(** An ASCII byte of a string is one of its characters. *)
Lemma chars_contains c s :
  N_of_ascii c < 128 → contains c s = true → N_of_ascii c ∈ chars s.
Proof.
  intros Hc. remember (String.length s) as n eqn:Hn.
  assert (String.length s ≤ n)%nat as Hle by lia. clear Hn. revert s Hle.
  assert (∀ a, is_cont a = true → a ≠ c) as Hcont.
  { intros a [?%N.leb_le _]%andb_true_iff ->. lia. }
  induction n as [|n IH]; intros [|a s1] Hle; cbn in Hle; [done|lia|done|].
  assert (contains c (String a s1) = true → N_of_ascii c ∈ N_of_ascii a :: chars s1)
    as Hstep.
  { cbn. intros [->%bool_decide_eq_true|H]%orb_true_iff; [left|right].
    apply IH; [lia|done]. }
  intros Hin. apply Hstep in Hin as Hfall. clear Hstep. destruct s1 as [|a2 s2]; [done|].
  rewrite chars_unfold; cbv zeta.
  destruct (N.ltb_spec (N_of_ascii a) 128) as [|Ha]; [done|].
  destruct (is_cont a2) eqn:H2; [|done]. cbn [orb negb].
  assert (a ≠ c) as Hac by (intros ->; lia).
  cbn [contains] in Hin.
  rewrite (bool_decide_eq_false_2 _ Hac), (bool_decide_eq_false_2 _ (Hcont _ H2)) in Hin.
  cbn [orb] in Hin. destruct (_ <? 224).
  { right. apply IH; [cbn in Hle; lia|done]. }
  destruct s2 as [|a3 s3]; [done|].
  destruct (is_cont a3) eqn:H3; cbn [negb]; [|done].
  cbn [contains] in Hin. rewrite (bool_decide_eq_false_2 _ (Hcont _ H3)) in Hin.
  cbn [orb] in Hin. destruct (_ <? 240).
  { right. apply IH; [cbn in Hle; lia|done]. }
  destruct s3 as [|a4 s4]; [done|].
  destruct (is_cont a4) eqn:H4; cbn [negb]; [|done].
  cbn [contains] in Hin. rewrite (bool_decide_eq_false_2 _ (Hcont _ H4)) in Hin.
  right. apply IH; [cbn in Hle; lia|done].
Qed.

Lemma chars_cons_ascii a s :
  N_of_ascii a < 128 → chars (String a s) = N_of_ascii a :: chars s.
Proof.
  intros Ha%N.ltb_lt. destruct s as [|a2 s]; [done|]. cbn [chars]. by rewrite Ha.
Qed.

(** Decoding stops at an ASCII byte. *)
Lemma chars_app_ascii s a t :
  N_of_ascii a < 128 → chars (s ++ String a t) = (chars s ++ chars (String a t))%list.
Proof.
  intros Ha. assert (is_cont a = false) as Hca.
  { unfold is_cont. apply andb_false_iff. left. by apply N.leb_gt. }
  remember (String.length s) as n eqn:Hn.
  assert (String.length s ≤ n)%nat as Hle by lia. clear Hn. revert s Hle.
  induction n as [|n IH]; intros [|a1 s1] Hle; cbn in Hle; [done|lia|done|].
  rewrite app_cons. destruct s1 as [|a2 s2].
  { rewrite chars_unfold. cbn [String.append]. rewrite Hca. by rewrite orb_true_r. }
  assert (chars (String a2 s2 ++ String a t) =
          chars (String a2 s2) ++ chars (String a t))%list as H1
    by (apply IH; cbn in *; lia).
  rewrite app_cons in *. rewrite (chars_unfold a1), (chars_unfold a1). cbv zeta.
  destruct ((_ <? 128) || _); [cbn; by f_equal|].
  destruct (_ <? 224). { cbn [app]. f_equal. apply IH. cbn in Hle. lia. }
  destruct s2 as [|a3 s3].
  { cbn [String.append]. rewrite Hca. cbn [negb app]. by f_equal. }
  rewrite app_cons in *. destruct (negb (is_cont a3)); [cbn [app]; by f_equal|].
  destruct (_ <? 240). { cbn [app]. f_equal. apply IH. cbn in Hle. lia. }
  destruct s3 as [|a4 s4].
  { cbn [String.append]. rewrite Hca. cbn [negb app]. by f_equal. }
  rewrite app_cons in *. destruct (negb (is_cont a4)); [cbn [app]; by f_equal|].
  cbn [app]. f_equal. apply IH. cbn in Hle. lia.
Qed.
End chars.

(** ** Lemmas on decimal numbers *)

(** All bytes are ASCII digits; the number they denote after a prefix of
    value [acc]. *)
Fixpoint all_digits (s : string) : bool :=
  match s with
  | EmptyString => true
  | String a s => bool_decide (is_Some (to_digit a)) && all_digits s
  end.

Fixpoint dec_value (acc : N) (s : string) : N :=
  match s with
  | EmptyString => acc
  | String a s => dec_value (acc * 10 + default 0 (to_digit a)) s
  end.

Section decimal.
Lemma to_digit_digit n : n < 10 → to_digit (digit n) = Some n.
Proof.
  intros Hn. unfold to_digit, digit. rewrite N_ascii_embedding by lia.
  destruct (N.leb_spec 48 (48 + n)), (N.leb_spec (48 + n) 57); cbn; try lia.
  f_equal. lia.
Qed.

Lemma all_digits_app s t : all_digits (s ++ t) = all_digits s && all_digits t.
Proof. induction s as [|a s IH]; cbn; [done|]. by rewrite IH, andb_assoc. Qed.

Lemma contains_all_digits c s :
  to_digit c = None → all_digits s = true → contains c s = false.
Proof.
  intros Hc. induction s as [|a s IH]; cbn; [done|].
  intros [Ha Hs]%andb_true_iff. rewrite IH by done.
  apply bool_decide_eq_true in Ha. case_bool_decide; [|done].
  subst. rewrite Hc in Ha. by destruct Ha.
Qed.

Lemma dec_value_app acc s t : dec_value acc (s ++ t) = dec_value (dec_value acc s) t.
Proof. revert acc. induction s; cbn; auto. Qed.

Lemma dec_value_mono acc s : acc <= dec_value acc s.
Proof.
  revert acc. induction s as [|a s IH]; intros acc; cbn; [lia|].
  etrans; [|apply IH]. lia.
Qed.

(** The overflow checks fire exactly when the value does not fit. *)
Lemma parse_digits_spec s : ∀ acc,
  all_digits s = true →
  parse_digits acc s =
    if dec_value acc s <? U64_SIZE then Ok (dec_value acc s)
    else match s with EmptyString => Ok acc | _ => Err IntPosOverflow end.
Proof.
  induction s as [|a s IH]; intros acc; cbn.
  { intros _. by destruct (_ <? _). }
  intros [[x Hx]%bool_decide_eq_true Hs]%andb_true_iff. rewrite Hx. cbn.
  pose proof (dec_value_mono (acc * 10 + x) s) as Hmono.
  destruct (N.ltb_spec (dec_value (acc * 10 + x) s) U64_SIZE) as [Hlt|Hge].
  - destruct (N.leb_spec U64_SIZE (acc * 10)); [lia|].
    destruct (N.leb_spec U64_SIZE (acc * 10 + x)); [lia|]. cbn.
    rewrite IH by done. by rewrite (proj2 (N.ltb_lt _ _)).
  - destruct (N.leb_spec U64_SIZE (acc * 10)); [done|].
    destruct (N.leb_spec U64_SIZE (acc * 10 + x)); [done|]. cbn.
    rewrite IH by done. rewrite (proj2 (N.ltb_ge _ _)) by lia.
    destruct s; [cbn in *; lia|done].
Qed.

Lemma parse_digits_Ok s : ∀ acc n,
  parse_digits acc s = Ok n → all_digits s = true ∧ n = dec_value acc s.
Proof.
  induction s as [|a s IH]; intros acc n H; cbn in H; [naive_solver|].
  inv_ok. cbn.
  match goal with Hd : to_digit a = Some _ |- _ => rewrite Hd end.
  match goal with Hp : parse_digits _ s = Ok _ |- _ => apply IH in Hp as [? ->] end.
  done.
Qed.

Lemma parse_u64_total s : total (parse_u64 s).
Proof.
  assert (∀ t acc, total (parse_digits acc t)) as Ht.
  { induction t as [|a t IH]; intros acc; cbn; solve_total. }
  unfold parse_u64. solve_total; apply Ht.
Qed.

Lemma parse_digits_bound s : ∀ acc n,
  is_u64 acc → parse_digits acc s = Ok n → is_u64 n.
Proof.
  induction s as [|a s IH]; intros acc n Hacc H; cbn in H; inv_ok; [done|].
  eapply IH; [|done]. unfold is_u64.
  repeat match goal with H : _ = false |- _ => apply N.leb_gt in H end. done.
Qed.

(** What [parse::<u64>] accepts: an optional ['+'] and at least one digit,
    denoting a number that fits. *)
Lemma parse_u64_Ok s n :
  parse_u64 s = Ok n →
  is_u64 n ∧ ∃ t, (s = t ∨ s = String "+" t) ∧ t ≠ "" ∧ all_digits t = true
                  ∧ n = dec_value 0 t.
Proof.
  destruct s as [|a [|b s]]; cbn -[parse_digits]; [done|..].
  - destruct (bool_decide (a = "+"%char) || bool_decide (a = "-"%char)); [done|].
    intros H. split; [by eapply (parse_digits_bound _ 0)|].
    apply parse_digits_Ok in H as [? ?]. eexists. split_and!; [by left|done..].
  - case_bool_decide as Hc; intros Hp; (split; [by eapply (parse_digits_bound _ 0)|]);
      apply parse_digits_Ok in Hp as [? ?]; subst; eexists;
      (split_and!; [by (left + right)|done..]).
Qed.

Lemma parse_u64_digits s :
  s ≠ "" → all_digits s = true → is_u64 (dec_value 0 s) →
  parse_u64 s = Ok (dec_value 0 s).
Proof.
  intros Hne Hd Hv.
  assert (parse_digits 0 s = Ok (dec_value 0 s)) as Hp.
  { rewrite parse_digits_spec by done. by rewrite (proj2 (N.ltb_lt _ _)). }
  destruct s as [|a s]; [done|].
  assert (∃ x, to_digit a = Some x) as [x Hx].
  { apply andb_true_iff in Hd as [Hd _]. by apply bool_decide_eq_true in Hd. }
  assert (a ≠ "+"%char) by (intros ->; done).
  assert (a ≠ "-"%char) by (intros ->; done).
  destruct s; cbn -[parse_digits dec_value];
    rewrite !bool_decide_eq_false_2 by done; done.
Qed.

Lemma parse_u64_plus s :
  s ≠ "" → all_digits s = true → is_u64 (dec_value 0 s) →
  parse_u64 (String "+" s) = Ok (dec_value 0 s).
Proof.
  intros Hne Hd Hv. destruct s as [|a s]; [done|].
  change (parse_digits 0 (String a s) = Ok (dec_value 0 (String a s))).
  rewrite parse_digits_spec by done. by rewrite (proj2 (N.ltb_lt _ _)).
Qed.
End decimal.
#[export] Hint Resolve parse_u64_total : total.

(** Printing: the digits of [n], most significant first, without a leading
    zero unless [n] is zero. *)
Section show.
Lemma show_digits_spec fuel : ∀ n acc,
  n < 10 ^ N.of_nat fuel → fuel ≠ O →
  ∃ p, show_digits fuel n acc = p ++ acc ∧ p ≠ "" ∧ all_digits p = true
       ∧ (∀ a, dec_value a p = a * 10 ^ len p + n)
       ∧ (∀ k, n < 10 ^ k → 1 <= k → len p <= k)
       ∧ (String.get 0 p = Some "0"%char → p = "0").
Proof.
  induction fuel as [|fuel IH]; intros n acc Hn Hf; [done|].
  cbn [show_digits]. pose proof (N.mod_lt n 10 ltac:(done)) as Hmod.
  pose proof (N.div_mod n 10 ltac:(done)) as Hdiv.
  assert (all_digits (String (digit (n mod 10)) "") = true) as Hdig.
  { cbn. rewrite to_digit_digit by done. done. }
  destruct (N.eqb_spec (n / 10) 0) as [Hz|Hz].
  - exists (String (digit (n mod 10)) ""). rewrite Hz in Hdiv.
    split_and!; [done|done|done|..].
    + intros a. cbn [dec_value]. rewrite to_digit_digit by done.
      change (10 ^ len (String _ "")) with 10. cbn [default from_option id]. lia.
    + intros k _ Hk. change (len (String _ "")) with 1. lia.
    + cbn. intros [= Hd]. f_equal. by rewrite Hd.
  - destruct fuel as [|fuel].
    { change (10 ^ N.of_nat 1) with 10 in Hn. rewrite N.div_small in Hz by done. done. }
    destruct (IH (n / 10) (String (digit (n mod 10)) acc)) as (p & -> & Hne & Hd & Hv & Hl & H0).
    { apply N.Div0.div_lt_upper_bound.
      rewrite <- N.pow_succ_r', <- Nat2N.inj_succ. done. }
    { done. }
    exists (p ++ String (digit (n mod 10)) ""). split_and!.
    + by rewrite app_assoc_str.
    + by destruct p.
    + by rewrite all_digits_app, Hd.
    + intros a. rewrite dec_value_app, Hv, len_app. cbn [dec_value].
      rewrite to_digit_digit by done. change (len (String _ "")) with 1.
      cbn [default from_option id]. rewrite N.pow_add_r. change (10 ^ 1) with 10. lia.
    + intros k Hk Hk1. rewrite len_app. change (len (String _ "")) with 1.
      assert (k = 1 ∨ 2 <= k) as [->|Hk2] by lia.
      { change (10 ^ 1) with 10 in Hk. rewrite N.div_small in Hz by done. done. }
      enough (len p <= k - 1) by lia. apply Hl; [|lia].
      apply N.Div0.div_lt_upper_bound. rewrite <- N.pow_succ_r'.
      by replace (N.succ (k - 1)) with k by lia.
    + intros Hg. exfalso. destruct p as [|a p]; [done|]. cbn in Hg.
      specialize (H0 Hg). injection H0 as -> ->.
      specialize (Hv 0). rewrite N.mul_0_l in Hv. by apply Hz.
Qed.

Lemma show_u64_spec n :
  show_u64 n ≠ "" ∧ all_digits (show_u64 n) = true
  ∧ dec_value 0 (show_u64 n) = n
  ∧ (∀ k, n < 10 ^ k → 1 <= k → len (show_u64 n) <= k)
  ∧ (String.get 0 (show_u64 n) = Some "0"%char → show_u64 n = "0").
Proof.
  unfold show_u64.
  destruct (show_digits_spec (S (N.to_nat (N.size n))) n "") as (p & -> & ? & ? & Hv & ? & ?).
  { rewrite Nat2N.inj_succ, N2Nat.id. pose proof (N.size_gt n).
    eapply N.lt_le_trans; [done|]. apply (N.le_trans _ (10 ^ N.size n)).
    - apply N.pow_le_mono_l. lia.
    - apply N.pow_le_mono_r; lia. }
  { done. }
  rewrite app_nil_r_str. by split_and!.
Qed.

(** Printing then parsing a [u64] gives it back. *)
Lemma parse_show_u64 n : is_u64 n → parse_u64 (show_u64 n) = Ok n.
Proof.
  intros Hn. destruct (show_u64_spec n) as (? & ? & Hv & _).
  rewrite <- Hv at 2. apply parse_u64_digits; [done..|]. by rewrite Hv.
Qed.

Lemma show_u64_inj n m : show_u64 n = show_u64 m → n = m.
Proof.
  intros H. destruct (show_u64_spec n) as (_ & _ & <- & _).
  destruct (show_u64_spec m) as (_ & _ & <- & _). by rewrite H.
Qed.

Lemma contains_show_u64 c n : to_digit c = None → contains c (show_u64 n) = false.
Proof. intros. apply contains_all_digits; [done|]. apply show_u64_spec. Qed.

(** At most 20 digits, the bound the identifier validators rely on. *)
Lemma len_show_u64 n : is_u64 n → 1 <= len (show_u64 n) <= 20.
Proof.
  intros Hn. destruct (show_u64_spec n) as (Hne & _ & _ & Hl & _). split.
  - destruct (show_u64 n); [done|]. unfold len. cbn. lia.
  - apply Hl; [|lia]. unfold is_u64, U64_SIZE in Hn.
    change (10 ^ 20) with 100000000000000000000. lia.
Qed.
End show.

#[export] Hint Resolve contains_show_u64 parse_show_u64 : ibc.

#[global] Arguments parse_u64 : simpl never.
#[global] Arguments show_u64 : simpl never.
#[global] Arguments chars : simpl never.
#[global] Arguments len : simpl never.

(** ** Bytes *)


Notation bytes := (list Byte.byte) (only parsing).

#[export] Instance byte_eq_dec : EqDecision Byte.byte := Byte.byte_eq_dec.

Definition byte_of_N (n : N) : Byte.byte := default Byte.x00 (Byte.of_N (n mod 256)).

Fixpoint be_bytes (k : nat) (n : N) : list Byte.byte :=
  match k with
  | O => []
  | S k => (be_bytes k (n / 256) ++ [byte_of_N n])%list
  end.

(** [u64::to_be_bytes]. *)
Definition to_be_bytes (n : N) : list Byte.byte := be_bytes 8 n.

(** [str::as_bytes]. *)
Definition as_bytes (s : string) : list Byte.byte := String.list_byte_of_string s.

Definition be_value (l : list Byte.byte) : N :=
  foldl (λ acc b, acc * 256 + Byte.to_N b) 0 l.

Lemma to_N_byte_of_N n : Byte.to_N (byte_of_N n) = n mod 256.
Proof.
  unfold byte_of_N. assert (n mod 256 < 256) as Hlt by (apply N.mod_lt; done).
  destruct (Byte.of_N (n mod 256)) as [b|] eqn:E.
  - cbn. by apply Byte.to_of_N.
  - apply Byte.of_N_None_iff in E. lia.
Qed.

Lemma be_value_be_bytes k : ∀ n, be_value (be_bytes k n) = n mod 256 ^ N.of_nat k.
Proof.
  induction k as [|k IH]; intros n.
  - by rewrite N.mod_1_r.
  - unfold be_value in *. cbn [be_bytes]. rewrite foldl_app, IH. cbn [foldl].
    rewrite to_N_byte_of_N, Nat2N.inj_succ, N.pow_succ_r', N.Div0.mod_mul_r. lia.
Qed.

Lemma as_bytes_inj s t : as_bytes s = as_bytes t → s = t.
Proof.
  intros E%(f_equal String.string_of_list_byte). unfold as_bytes in E.
  by rewrite !String.string_of_list_byte_of_string in E.
Qed.

Lemma length_to_be_bytes n : length (to_be_bytes n) = 8%nat.
Proof. reflexivity. Qed.

Lemma to_be_bytes_inj n m :
  is_u64 n → is_u64 m → to_be_bytes n = to_be_bytes m → n = m.
Proof.
  intros Hn Hm E. apply (f_equal be_value) in E. unfold to_be_bytes in E.
  rewrite !be_value_be_bytes in E. change (256 ^ N.of_nat 8) with U64_SIZE in E.
  by rewrite !N.mod_small in E.
Qed.

(** [Ord] of byte slices. *)
Fixpoint bytes_cmp (l l' : list Byte.byte) : comparison :=
  match l, l' with
  | [], [] => Eq
  | [], _ => Lt
  | _, [] => Gt
  | b :: l, b' :: l' =>
    match Byte.to_N b ?= Byte.to_N b' with Eq => bytes_cmp l l' | c => c end
  end.

Lemma bytes_cmp_refl l : bytes_cmp l l = Eq.
Proof. induction l as [|b l IH]; cbn; [done|]. by rewrite N.compare_refl. Qed.

Lemma bytes_cmp_app l1 l2 k1 k2 :
  length l1 = length l2 →
  bytes_cmp (l1 ++ k1) (l2 ++ k2)
  = match bytes_cmp l1 l2 with Eq => bytes_cmp k1 k2 | c => c end.
Proof.
  revert l2. induction l1 as [|b l1 IH]; intros [|b2 l2] Hl; try done. cbn.
  injection Hl as Hl. rewrite (IH l2 Hl). by destruct (Byte.to_N b ?= Byte.to_N b2).
Qed.

Lemma be_value_foldl l a : foldl (λ acc b, acc * 256 + Byte.to_N b) a l
  = a * 256 ^ N.of_nat (length l) + be_value l.
Proof.
  unfold be_value. revert a. induction l as [|b l IH]; intros a; cbn [foldl length].
  - change (256 ^ N.of_nat 0) with 1. lia.
  - rewrite IH, (IH (0 * 256 + Byte.to_N b)), Nat2N.inj_succ, N.pow_succ_r'. lia.
Qed.

Lemma be_value_cons b l :
  be_value (b :: l) = Byte.to_N b * 256 ^ N.of_nat (length l) + be_value l.
Proof. unfold be_value at 1. cbn [foldl]. rewrite be_value_foldl. lia. Qed.

Lemma be_value_lt l : be_value l < 256 ^ N.of_nat (length l).
Proof.
  induction l as [|b l IH]; [done|]. cbn [length]. rewrite be_value_cons, Nat2N.inj_succ, N.pow_succ_r'.
  pose proof (Byte.to_N_bounded b). nia.
Qed.

(** Bytes of a given number are read back from their value. *)
Lemma be_value_inj l l' : length l = length l' → be_value l = be_value l' → l = l'.
Proof.
  revert l'. induction l as [|b l IH]; intros [|b' l'] Hl; try done.
  injection Hl as Hl. rewrite !be_value_cons, Hl. intros E.
  pose proof (be_value_lt l) as H1. pose proof (be_value_lt l') as H2. rewrite Hl in H1.
  assert (Byte.to_N b = Byte.to_N b') as Eb by nia. f_equal; [|apply IH; [done|nia]].
  apply (f_equal Byte.of_N) in Eb. rewrite !Byte.of_to_N in Eb. by injection Eb.
Qed.
Lemma to_be_bytes_be_value l : length l = 8%nat → to_be_bytes (be_value l) = l.
Proof.
  intros Hl. apply be_value_inj; [by rewrite length_to_be_bytes|]. unfold to_be_bytes.
  rewrite be_value_be_bytes. apply N.mod_small. pose proof (be_value_lt l). by rewrite Hl in *.
Qed.

(** On slices of one length the order is that of the numbers they spell. *)
Lemma bytes_cmp_be_value l l' :
  length l = length l' → bytes_cmp l l' = (be_value l ?= be_value l').
Proof.
  revert l'. induction l as [|b l IH]; intros [|b' l'] Hl; try done. cbn [bytes_cmp].
  injection Hl as Hl. rewrite (IH l' Hl), !be_value_cons, Hl. pose proof (be_value_lt l) as H1. pose proof (be_value_lt l') as H2.
  rewrite Hl in H1. symmetry. destruct (N.compare_spec (Byte.to_N b) (Byte.to_N b')) as [->|Hb|Hb].
  - destruct (N.compare_spec (be_value l) (be_value l')) as [->|?|?].
    + apply N.compare_refl.
    + apply N.compare_lt_iff. lia.
    + apply N.compare_gt_iff. lia.
  - apply N.compare_lt_iff. nia.
  - apply N.compare_gt_iff. nia.
Qed.

Lemma bytes_cmp_to_be_bytes n m :
  is_u64 n → is_u64 m → bytes_cmp (to_be_bytes n) (to_be_bytes m) = (n ?= m).
Proof.
  intros Hn Hm. rewrite bytes_cmp_be_value by done. unfold to_be_bytes. rewrite !be_value_be_bytes.
  change (256 ^ N.of_nat 8) with U64_SIZE. by rewrite !N.mod_small.
Qed.

(** ** Joining *)

(** [Vec<String>::join("/")]. *)
Definition join_slash (l : list string) : string := String.concat "/" l.

Section join.
Lemma join_slash_cons s t l : join_slash (s :: t :: l) = s ++ "/" ++ join_slash (t :: l).
Proof. done. Qed.

Lemma join_slash_app l1 l2 :
  l1 ≠ [] → l2 ≠ [] → join_slash (l1 ++ l2) = join_slash l1 ++ "/" ++ join_slash l2.
Proof.
  intros H1 H2. induction l1 as [|s [|t l1] IH]; [done| |].
  - by destruct l2.
  - cbn [app]. rewrite !join_slash_cons. cbn [app] in IH. rewrite IH by done.
    by rewrite !app_assoc_str.
Qed.

(** Joining the parts of a string gives it back, and parts without a separator
    are the parts of their join. *)
Lemma join_split s : join_slash (split SLASH s) = s.
Proof.
  induction s as [|a s IH]; [done|]. cbn [split]. case_bool_decide as Ha.
  - subst a. pose proof (split_nil SLASH s) as Hn. destruct (split SLASH s) as [|p l]; [done|].
    rewrite join_slash_cons, IH. done.
  - pose proof (split_nil SLASH s) as Hn. destruct (split SLASH s) as [|p l]; [done|].
    destruct l; cbn in *; by rewrite IH.
Qed.

Lemma split_join l :
  l ≠ [] → Forall (λ p, contains SLASH p = false) l → split SLASH (join_slash l) = l.
Proof.
  intros Hn Hl. induction Hl as [|p l Hp Hl IH]; [done|]. destruct l as [|q l].
  - by apply split_none.
  - rewrite join_slash_cons. change ("/" ++ ?s) with (String SLASH s).
    rewrite split_app by done. by rewrite IH.
Qed.

Lemma split_parts s : Forall (λ p, contains SLASH p = false) (split SLASH s).
Proof.
  induction s as [|a s IH]; cbn [split]; [by repeat constructor|].
  case_bool_decide as Ha; [by constructor|].
  destruct (split SLASH s) as [|p l]; [by constructor; [cbn; rewrite bool_decide_eq_false_2|]|].
  inversion IH; subst.
  constructor; [|done]. cbn. by rewrite bool_decide_eq_false_2.
Qed.
End join.

(** ** [String::from_utf8] *)

(** The well-formed byte sequences of UTF-8: no overlong forms, no surrogates,
    nothing beyond U+10FFFF. *)
Definition in_range (lo hi : N) (a : ascii) : bool := (lo <=? N_of_ascii a) && (N_of_ascii a <=? hi).
Fixpoint valid_utf8 (s : string) : bool :=
  match s with
  | EmptyString => true
  | String a s1 =>
    if in_range 0 127 a then valid_utf8 s1 else
    match s1 with
    | EmptyString => false
    | String a2 s2 =>
      if in_range 194 223 a then is_cont a2 && valid_utf8 s2 else
      match s2 with
      | EmptyString => false
      | String a3 s3 =>
        if in_range 224 239 a then
          in_range (if N_of_ascii a =? 224 then 160 else 128)
                   (if N_of_ascii a =? 237 then 159 else 191) a2
          && is_cont a3 && valid_utf8 s3
        else
        match s3 with
        | EmptyString => false
        | String a4 s4 =>
          in_range 240 244 a
          && in_range (if N_of_ascii a =? 240 then 144 else 128)
                      (if N_of_ascii a =? 244 then 143 else 191) a2
          && is_cont a3 && is_cont a4 && valid_utf8 s4
        end
      end
    end
  end.
Definition from_utf8 (b : list Byte.byte) : option string :=
  let s := String.string_of_list_byte b in if valid_utf8 s then Some s else None.

Lemma from_utf8_as_bytes s : valid_utf8 s = true → from_utf8 (as_bytes s) = Some s.
Proof.
  intros Hs. unfold from_utf8, as_bytes. rewrite String.string_of_list_byte_of_string.
  by rewrite Hs.
Qed.

(** ** Base 64 *)

(** [BASE64_STANDARD]. *)
Class Base64 := {
  base64_encode : list Byte.byte → string;
  base64_decode : string → option (list Byte.byte);
}.
Class Base64Laws `{Base64} := {
  base64_decode_encode b : base64_decode (base64_encode b) = Some b;
}.
