(* ===== verification/Identifiers.v ===== *)
(** * ICS-24 identifiers

    Models [ibc-core/ics24-host/types/src/validate.rs] and
    [.../src/identifiers/*.rs]: the validators, the identifier types, their
    constructors and the chain identifier with its revision number. *)

From S2P Require Import Prelude RustStr.
Local Open Scope string_scope.
Local Open Scope N_scope.

Inductive IdentifierError :=
| InvalidLength (id : string) (min max : N)
| InvalidCharacter (id : string)
| InvalidPrefix (prefix : string)
| UnformattedRevisionNumber (chain_id : string)
| RevisionNumberOverflow
| InvalidStringAsSequence (value : string) (reason : IntErrorKind).
#[export] Instance IdentifierError_eq_dec : EqDecision IdentifierError.
Proof. solve_decision. Defined.

(** ** Validators *)

Definition VALID_SPECIAL_CHARS : string := "._+-#[]<>".

Definition valid_identifier_char `{Unicode} (c : N) : bool :=
  is_alphanumeric c || bool_decide (c ∈ chars VALID_SPECIAL_CHARS).

Definition validate_identifier_chars `{Unicode} (id : string) : outcome IdentifierError () :=
  fail_if (negb (forallb valid_identifier_char (chars id))) (InvalidCharacter id).

Definition validate_identifier_length (id : string) (min max : N) : outcome IdentifierError () :=
  let min := N.max min 1 in
  let length := len id in
  if (min <=? length) && (length <=? max) then Ok tt
  else Err (InvalidLength id min max).

Definition validate_prefix_length (prefix : string) (min_id_length max_id_length : N) :
    outcome IdentifierError () :=
  let min := u64_saturating_sub min_id_length 2 in
  let max := u64_saturating_sub max_id_length 21 in
  validate_identifier_length prefix min max.

Definition validate_client_type `{Unicode} (id : string) : outcome IdentifierError () :=
  validate_identifier_chars id;; validate_prefix_length id 9 64.

Definition validate_client_identifier `{Unicode} (id : string) : outcome IdentifierError () :=
  validate_identifier_chars id;; validate_identifier_length id 9 64.

Definition validate_connection_identifier `{Unicode} (id : string) : outcome IdentifierError () :=
  validate_identifier_chars id;; validate_identifier_length id 10 64.

Definition validate_port_identifier `{Unicode} (id : string) : outcome IdentifierError () :=
  validate_identifier_chars id;; validate_identifier_length id 2 128.

Definition validate_channel_identifier `{Unicode} (id : string) : outcome IdentifierError () :=
  validate_identifier_chars id;; validate_identifier_length id 8 64.

(** ** Identifier types *)

Record ClientId := mkClientId { client_id_str : string }.
Record ClientType := mkClientType { client_type_str : string }.
Record ConnectionId := mkConnectionId { connection_id_str : string }.
Record ChannelId := mkChannelId { channel_id_str : string }.
Record PortId := mkPortId { port_id_str : string }.
(** [Sequence] wraps a [u64]. *)
Notation Sequence := N (only parsing).

#[export] Instance ClientId_eq_dec : EqDecision ClientId.
Proof. solve_decision. Defined.
#[export] Instance ClientType_eq_dec : EqDecision ClientType.
Proof. solve_decision. Defined.
#[export] Instance ConnectionId_eq_dec : EqDecision ConnectionId.
Proof. solve_decision. Defined.
#[export] Instance ChannelId_eq_dec : EqDecision ChannelId.
Proof. solve_decision. Defined.
#[export] Instance PortId_eq_dec : EqDecision PortId.
Proof. solve_decision. Defined.

#[export] Program Instance ClientId_countable : Countable ClientId :=
  inj_countable' client_id_str mkClientId _.
Next Obligation. by intros []. Qed.
#[export] Program Instance ConnectionId_countable : Countable ConnectionId :=
  inj_countable' connection_id_str mkConnectionId _.
Next Obligation. by intros []. Qed.
#[export] Program Instance ChannelId_countable : Countable ChannelId :=
  inj_countable' channel_id_str mkChannelId _.
Next Obligation. by intros []. Qed.
#[export] Program Instance PortId_countable : Countable PortId :=
  inj_countable' port_id_str mkPortId _.
Next Obligation. by intros []. Qed.

(** [ConnectionId::new], [ChannelId::new]: the prefix, a dash, the counter. *)
Definition CONNECTION_ID_PREFIX : string := "connection".
Definition CHANNEL_ID_PREFIX : string := "channel".

Definition ConnectionId_new (identifier : N) : ConnectionId :=
  mkConnectionId (CONNECTION_ID_PREFIX ++ "-" ++ show_u64 identifier).
Definition ConnectionId_from_str `{Unicode} (s : string) : outcome IdentifierError ConnectionId :=
  (λ _, mkConnectionId s) <$> validate_connection_identifier s.

Definition ChannelId_new (identifier : N) : ChannelId :=
  mkChannelId (CHANNEL_ID_PREFIX ++ "-" ++ show_u64 identifier).
Definition ChannelId_from_str `{Unicode} (s : string) : outcome IdentifierError ChannelId :=
  (λ _, mkChannelId s) <$> validate_channel_identifier s.

Definition TRANSFER_PORT_ID : string := "transfer".
Definition PortId_from_str `{Unicode} (s : string) : outcome IdentifierError PortId :=
  (λ _, mkPortId s) <$> validate_port_identifier s.
Definition PortId_new `{Unicode} (id : string) : outcome IdentifierError PortId :=
  PortId_from_str id.
Definition PortId_transfer : PortId := mkPortId TRANSFER_PORT_ID.
Definition PortId_validate `{Unicode} (p : PortId) : outcome IdentifierError () :=
  validate_port_identifier (port_id_str p).

(** [ClientId::format]; its two validations only run in debug builds. *)
Definition ClientId_format (client_type : string) (counter : N) : ClientId :=
  mkClientId (client_type ++ "-" ++ show_u64 counter).
Definition ClientId_new `{Unicode} (client_type : string) (counter : N) :
    outcome IdentifierError ClientId :=
  let client_type := trim client_type in
  (λ _, ClientId_format client_type counter) <$> validate_client_type client_type.
Definition ClientId_from_str `{Unicode} (s : string) : outcome IdentifierError ClientId :=
  (λ _, mkClientId s) <$> validate_client_identifier s.

Definition ClientType_new `{Unicode} (client_type : string) : outcome IdentifierError ClientType :=
  let client_type := trim client_type in
  (λ _, mkClientType client_type) <$> validate_client_type client_type.
Definition ClientType_from_str `{Unicode} (s : string) : outcome IdentifierError ClientType :=
  ClientType_new s.
Definition ClientType_build_client_id (t : ClientType) (counter : N) : ClientId :=
  ClientId_format (client_type_str t) counter.

(** [Sequence::from_str], [Sequence::increment]. *)
Definition Sequence_from_str (s : string) : outcome IdentifierError Sequence :=
  map_err (InvalidStringAsSequence s) (parse_u64 s).
Definition Sequence_increment {E} (s : Sequence) : outcome E Sequence := u64_add s 1.
Definition Sequence_is_zero (s : Sequence) : bool := s =? 0.

(** ** Chain identifiers *)

Record ChainId := mkChainId { chain_id : string; revision_number : N }.
#[export] Instance ChainId_eq_dec : EqDecision ChainId.
Proof. solve_decision. Defined.

Definition parse_chain_id_string (s : string) : outcome IdentifierError (string * N) :=
  ok_or
    ('(chain_name, rev_number_str) ←
        (p ← rsplit_once DASH s;
         if bool_decide (String.get 0 p.2 ≠ Some "0"%char) || (len p.2 =? 1)
         then Some p else None);
     revision_number ← ok (parse_u64 rev_number_str);
     Some (chain_name, revision_number))
    (UnformattedRevisionNumber s).

Definition ChainId_from_str `{Unicode} (id : string) : outcome IdentifierError ChainId :=
  validate_identifier_chars id;;
  match parse_chain_id_string id with
  | Ok (chain_name, revision_number) =>
    validate_prefix_length chain_name 1 64;; Ok (mkChainId id revision_number)
  | _ => validate_identifier_length id 1 64;; Ok (mkChainId id 0)
  end.

Definition ChainId_new `{Unicode} (chain_id : string) : outcome IdentifierError ChainId :=
  ChainId_from_str chain_id.

Definition ChainId_split_chain_id (c : ChainId) : outcome IdentifierError (string * N) :=
  parse_chain_id_string (chain_id c).

Definition ChainId_increment_revision_number : exec ChainId IdentifierError () :=
  '(chain_name, _) ← reads ChainId_split_chain_id;
  inc_revision_number ← reads (λ c,
    ok_or (u64_checked_add (revision_number c) 1) RevisionNumberOverflow);
  modify (λ c, mkChainId (chain_name ++ "-" ++ show_u64 inc_revision_number)
                         inc_revision_number).

Definition ChainId_validate_length (c : ChainId) (min_length max_length : N) :
    outcome IdentifierError () :=
  match ChainId_split_chain_id c with
  | Ok (chain_name, _) => validate_prefix_length chain_name min_length max_length
  | _ => validate_identifier_length (chain_id c) min_length max_length
  end.

(** [BorshDeserialize for ChainId], after the pair has been read. *)
Inductive BorshError := RevisionNumbersDoNotMatch | FailedToParseChainId.
Definition ChainId_borsh_deserialize (id : string) (revision_number : N) :
    outcome BorshError ChainId :=
  match parse_chain_id_string id with
  | Ok (_, rn) =>
    fail_if (negb (revision_number =? 0) && negb (rn =? revision_number))
      RevisionNumbersDoNotMatch
  | _ => fail_if (negb (revision_number =? 0)) FailedToParseChainId
  end;;
  Ok (mkChainId id revision_number).

(** [Deserialize for ChainId]: [visit_map] over the entries of an object whose values
    are strings, in the order they are written; its state is what has been read of
    [id] and of [revision_number]. *)
Inductive ChainIdJsonError :=
| UnknownField (name : string)
| DuplicateField (name : string)
| MissingField (name : string)
| InvalidIdField
| JsonRevisionsDoNotMatch (rn rev : N).
Inductive ChainIdField := FieldId | FieldRevisionNumber.
Definition ChainIdField_visit_str (value : string) : outcome ChainIdJsonError ChainIdField :=
  if (value =? "id")%string then Ok FieldId
  else if (value =? "revisionNumber")%string || (value =? "revision_number")%string
  then Ok FieldRevisionNumber
  else Err (UnknownField value).

Definition ChainId_visit_entry `{Unicode} (key next_value : string) :
    exec (option string * option N) ChainIdJsonError () := λ '(id, revision_number),
  match ChainIdField_visit_str key with
  | Ok FieldId =>
    if bool_decide (is_Some id) then (id, revision_number, Err (DuplicateField "id"))
    else match ChainId_from_str next_value with
    | Ok c => (Some (chain_id c), Some (Identifiers.revision_number c), Ok tt)
    | _ => (id, revision_number, Err InvalidIdField)
    end
  | Ok FieldRevisionNumber =>
    let rev := match parse_u64 next_value with Ok n => n | _ => 0 end in
    match revision_number with
    | Some rn =>
      if negb (rev =? 0) && negb (rn =? rev)
      then (id, revision_number, Err (JsonRevisionsDoNotMatch rn rev))
      else (id, revision_number, Ok tt)
    | None => (id, Some rev, Ok tt)
    end
  | Err e => (id, revision_number, Err e)
  | Panic => (id, revision_number, Panic)
  end.
Definition ChainId_visit_map `{Unicode} (entries : list (string * string)) :
    outcome ChainIdJsonError ChainId :=
  let '((id, revision_number), r) :=
    for_each (λ '(key, value), ChainId_visit_entry key value) entries (None, None) in
  r;;
  id ← ok_or id (MissingField "id");
  Ok (mkChainId id (default 0 revision_number)).

(** ** Lemmas *)

Section validators.
Context `{Unicode}.

Lemma validate_identifier_chars_Ok id u :
  validate_identifier_chars id = Ok u ↔ forallb valid_identifier_char (chars id) = true.
Proof. unfold validate_identifier_chars. rewrite fail_if_Ok. by rewrite negb_false_iff. Qed.

Lemma validate_identifier_length_Ok id min max u :
  validate_identifier_length id min max = Ok u ↔ N.max min 1 <= len id <= max.
Proof.
  unfold validate_identifier_length. destruct u.
  destruct (N.leb_spec (N.max min 1) (len id)), (N.leb_spec (len id) max);
    cbn; split; (done || lia).
Qed.

Lemma validate_prefix_length_Ok id min max u :
  validate_prefix_length id min max = Ok u ↔ N.max (min - 2) 1 <= len id <= max - 21.
Proof. apply validate_identifier_length_Ok. Qed.

Lemma validate_identifier_length_total id min max :
  total (validate_identifier_length id min max).
Proof. unfold validate_identifier_length. solve_total. Qed.
#[local] Hint Resolve validate_identifier_length_total : total.
Lemma ids_from_str_total s :
  total (ClientId_from_str s) ∧ total (ConnectionId_from_str s)
  ∧ total (ChannelId_from_str s) ∧ total (PortId_from_str s).
Proof.
  unfold ClientId_from_str, ConnectionId_from_str, ChannelId_from_str, PortId_from_str,
    validate_client_identifier, validate_connection_identifier,
    validate_channel_identifier, validate_port_identifier, validate_identifier_chars.
  split_and!; solve_total.
Qed.

(** The validators of the form "characters, then length". *)
Lemma chars_then_length_Ok id min max u :
  (validate_identifier_chars id;; validate_identifier_length id min max) = Ok u ↔
  forallb valid_identifier_char (chars id) = true ∧ N.max min 1 <= len id <= max.
Proof.
  rewrite bind_Ok. setoid_rewrite validate_identifier_chars_Ok.
  setoid_rewrite validate_identifier_length_Ok. naive_solver (exact tt).
Qed.

(** An invalid ASCII character does not occur in a validated identifier. *)
Lemma valid_chars_not_contains c id :
  N_of_ascii c < 128 → valid_identifier_char (N_of_ascii c) = false →
  forallb valid_identifier_char (chars id) = true → contains c id = false.
Proof.
  intros Hc Hv Hall. apply not_true_iff_false. intros Hin.
  apply chars_contains in Hin; [|done].
  rewrite forallb_forall in Hall. setoid_rewrite <- list_elem_of_In in Hall.
  apply Hall in Hin. congruence.
Qed.

Lemma valid_chars_no_slash id :
  forallb valid_identifier_char (chars id) = true → contains SLASH id = false.
Proof. by apply valid_chars_not_contains. Qed.

Lemma chars_digits s :
  all_digits s = true → forallb valid_identifier_char (chars s) = true.
Proof.
  induction s as [|a s IH]; [done|]. cbn [all_digits].
  intros [[x Hx]%bool_decide_eq_true Hs]%andb_true_iff. unfold to_digit in Hx.
  destruct (N.leb_spec 48 (N_of_ascii a)), (N.leb_spec (N_of_ascii a) 57); try done.
  rewrite chars_cons_ascii by lia. cbn [forallb]. rewrite IH by done.
  unfold valid_identifier_char, is_alphanumeric, is_ascii_alphanumeric.
  rewrite (proj2 (N.ltb_lt _ 128)) by lia. rewrite (proj2 (N.leb_le 48 _)) by done.
  by rewrite (proj2 (N.leb_le _ 57)) by done.
Qed.

(** [{s}-{n}] is made of valid characters iff [s] is. *)
Lemma chars_dash_number s n :
  forallb valid_identifier_char (chars (s ++ "-" ++ show_u64 n)) =
  forallb valid_identifier_char (chars s).
Proof.
  change ("-" ++ show_u64 n) with (String DASH (show_u64 n)).
  rewrite chars_app_ascii, forallb_app, chars_cons_ascii by done. cbn [forallb].
  rewrite (chars_digits (show_u64 n)) by apply show_u64_spec. by rewrite !andb_true_r.
Qed.

Lemma len_dash_number s n :
  is_u64 n → len s + 2 <= len (s ++ "-" ++ show_u64 n) <= len s + 21.
Proof.
  intros ?%len_show_u64. rewrite !len_app. change (len "-") with 1. lia.
Qed.
End validators.

(** ** Valid identifiers: those their own parser accepts *)

Section valid.
Context `{Unicode}.

Definition client_ok (i : ClientId) : Prop := ClientId_from_str (client_id_str i) = Ok i.
Definition connection_ok (i : ConnectionId) : Prop :=
  ConnectionId_from_str (connection_id_str i) = Ok i.
Definition port_ok (i : PortId) : Prop := PortId_from_str (port_id_str i) = Ok i.
Definition channel_ok (i : ChannelId) : Prop := ChannelId_from_str (channel_id_str i) = Ok i.

Lemma client_ok_no_slash i : client_ok i → contains SLASH (client_id_str i) = false.
Proof.
  intros Hi. apply fmap_Ok in Hi as ([] & [Hs _]%chars_then_length_Ok & _).
  by apply valid_chars_no_slash.
Qed.
Lemma connection_ok_no_slash i : connection_ok i → contains SLASH (connection_id_str i) = false.
Proof.
  intros Hi. apply fmap_Ok in Hi as ([] & [Hs _]%chars_then_length_Ok & _).
  by apply valid_chars_no_slash.
Qed.
Lemma port_ok_no_slash i : port_ok i → contains SLASH (port_id_str i) = false.
Proof.
  intros Hi. apply fmap_Ok in Hi as ([] & [Hs _]%chars_then_length_Ok & _).
  by apply valid_chars_no_slash.
Qed.
Lemma channel_ok_no_slash i : channel_ok i → contains SLASH (channel_id_str i) = false.
Proof.
  intros Hi. apply fmap_Ok in Hi as ([] & [Hs _]%chars_then_length_Ok & _).
  by apply valid_chars_no_slash.
Qed.

Lemma ClientId_parsed s i : ClientId_from_str s = Ok i → client_ok i.
Proof. unfold client_ok. intros Hi. pose proof Hi as H'. by apply fmap_Ok in Hi as (? & _ & ->). Qed.
Lemma ConnectionId_parsed s i : ConnectionId_from_str s = Ok i → connection_ok i.
Proof. unfold connection_ok. intros Hi. pose proof Hi as H'. by apply fmap_Ok in Hi as (? & _ & ->). Qed.
Lemma PortId_parsed s i : PortId_from_str s = Ok i → port_ok i.
Proof. unfold port_ok. intros Hi. pose proof Hi as H'. by apply fmap_Ok in Hi as (? & _ & ->). Qed.
Lemma ChannelId_parsed s i : ChannelId_from_str s = Ok i → channel_ok i.
Proof. unfold channel_ok. intros Hi. pose proof Hi as H'. by apply fmap_Ok in Hi as (? & _ & ->). Qed.
End valid.

(** [{s}-{n}] determines [s] and [n]. *)
Lemma dash_number_rsplit s n :
  rsplit_once DASH (s ++ "-" ++ show_u64 n) = Some (s, show_u64 n).
Proof. apply rsplit_once_app. by apply contains_show_u64. Qed.

Lemma dash_number_inj s1 n1 s2 n2 :
  s1 ++ "-" ++ show_u64 n1 = s2 ++ "-" ++ show_u64 n2 → s1 = s2 ∧ n1 = n2.
Proof.
  intros E. pose proof (dash_number_rsplit s1 n1) as H1.
  rewrite E, dash_number_rsplit in H1. injection H1 as -> Hn.
  split; [done|]. by apply show_u64_inj.
Qed.

(** Parsing a chain identifier in canonical form. *)
Lemma parse_chain_id_string_show name n :
  is_u64 n → parse_chain_id_string (name ++ "-" ++ show_u64 n) = Ok (name, n).
Proof.
  intros Hn. unfold parse_chain_id_string. rewrite dash_number_rsplit.
  cbn [mbind option_bind snd].
  assert (bool_decide (String.get 0 (show_u64 n) ≠ Some "0"%char)
          || (len (show_u64 n) =? 1) = true) as ->.
  { destruct (decide (String.get 0 (show_u64 n) = Some "0"%char)) as [E|E].
    - destruct (show_u64_spec n) as (_ & _ & _ & _ & H0). by rewrite (H0 E).
    - by rewrite bool_decide_eq_true_2. }
  cbn. by rewrite parse_show_u64.
Qed.

Lemma parse_chain_id_string_Ok s name rev :
  parse_chain_id_string s = Ok (name, rev) →
  is_u64 rev ∧ ∃ r, s = name ++ String DASH r ∧ parse_u64 r = Ok rev.
Proof.
  unfold parse_chain_id_string. intros Hp. apply ok_or_Ok in Hp.
  destruct (rsplit_once DASH s) as [[l r]|] eqn:E; cbn in Hp; [|done].
  destruct (bool_decide _ || _); cbn in Hp; [|done].
  destruct (parse_u64 r) eqn:Er; cbn in Hp; simplify_eq.
  split; [by apply parse_u64_Ok in Er as [??]|].
  apply rsplit_once_Some in E as [-> _]. eauto.
Qed.

(** The type invariant of [ChainId]: the number it stores is the one its
    string carries, zero when it carries none. *)
Definition ChainId_wf (c : ChainId) : Prop :=
  revision_number c =
  match parse_chain_id_string (chain_id c) with Ok (_, rn) => rn | _ => 0 end.

Lemma chain_id_parts `{Unicode} s c :
  ChainId_from_str s = Ok c →
  chain_id c = s ∧ ChainId_wf c ∧ is_u64 (revision_number c)
  ∧ ∀ name rev, parse_chain_id_string s = Ok (name, rev) →
      forallb valid_identifier_char (chars name) = true ∧ 1 <= len name <= 43.
Proof.
  unfold ChainId_from_str, ChainId_wf. intros Hc. inv_ok.
  rewrite validate_identifier_chars_Ok in *.
  destruct (parse_chain_id_string s) as [[name rev]| |] eqn:E; inv_ok; cbn; rewrite E;
    split_and!; try done.
  - by apply parse_chain_id_string_Ok in E as [? _].
  - intros ?? [= <- <-]. rewrite validate_prefix_length_Ok in *.
    apply parse_chain_id_string_Ok in E as (_ & r & -> & _).
    rewrite chars_app_ascii, forallb_app in * by done. split; [|lia].
    by apply andb_true_iff in H0 as [? _].
Qed.

(** [k] times the digit zero. *)
Fixpoint zeros (k : nat) : string :=
  match k with O => "" | S k => String "0" (zeros k) end.

(** ** Theorems *)

Section theorems.
Context `{Unicode}.

(** A client identifier built from a valid client type and any [u64]
    counter passes the client identifier validator and parses back to
    itself: the bounds of [validate_prefix_length] (minimum less two, maximum
    less twenty-one) are exactly right, and the release build may skip the
    debug assertions of [ClientId::format]. *)
Theorem build_client_id_valid t n :
  validate_client_type (client_type_str t) = Ok tt → is_u64 n →
  ClientId_from_str (client_id_str (ClientType_build_client_id t n)) =
    Ok (ClientType_build_client_id t n).
Proof.
  destruct t as [t]. cbn. intros Ht Hn. unfold validate_client_type in Ht.
  inv_ok. unfold ClientId_from_str. apply fmap_Ok. exists tt. split; [|done].
  apply chars_then_length_Ok. cbn.
  rewrite chars_dash_number. rewrite validate_identifier_chars_Ok in *.
  rewrite validate_prefix_length_Ok in *. pose proof (len_dash_number t n Hn).
  split; [done|lia].
Qed.

(** Every generated connection and channel identifier is one its own
    validator accepts, for all [u64] counters, and distinct counters give
    distinct identifiers. *)
Theorem generated_ids_valid n m :
  is_u64 n →
  ConnectionId_from_str (connection_id_str (ConnectionId_new n)) = Ok (ConnectionId_new n)
  ∧ ChannelId_from_str (channel_id_str (ChannelId_new n)) = Ok (ChannelId_new n)
  ∧ (ConnectionId_new n = ConnectionId_new m → n = m)
  ∧ (ChannelId_new n = ChannelId_new m → n = m).
Proof.
  intros Hn. pose proof (len_dash_number CONNECTION_ID_PREFIX n Hn) as H1.
  pose proof (len_dash_number CHANNEL_ID_PREFIX n Hn) as H2.
  change (len CONNECTION_ID_PREFIX) with 10 in H1. change (len CHANNEL_ID_PREFIX) with 7 in H2.
  split_and!.
  - apply fmap_Ok. exists tt. split; [|done]. apply chars_then_length_Ok. cbn [connection_id_str ConnectionId_new].
    rewrite chars_dash_number. split; [done|lia].
  - apply fmap_Ok. exists tt. split; [|done]. apply chars_then_length_Ok. cbn [channel_id_str ChannelId_new].
    rewrite chars_dash_number. split; [done|lia].
  - intros E%(f_equal connection_id_str). by apply dash_number_inj in E as [_ ?].
  - intros E%(f_equal channel_id_str). by apply dash_number_inj in E as [_ ?].
Qed.

(** Identifiers built from a client type and a counter collide only when
    both agree, so clients of different types never share an identifier. *)
Theorem client_id_format_inj t1 n1 t2 n2 :
  ClientId_format t1 n1 = ClientId_format t2 n2 ↔ t1 = t2 ∧ n1 = n2.
Proof. split; [|by intros [-> ->]]. intros [= E]. by apply dash_number_inj. Qed.

(** No identifier the parsers accept contains the path separator, and each
    has the length ICS-24 gives for its kind. *)
Theorem parsed_ids_safe s :
  (∀ i, ClientId_from_str s = Ok i →
    client_id_str i = s ∧ contains SLASH s = false ∧ 9 <= len s <= 64)
  ∧ (∀ i, ConnectionId_from_str s = Ok i →
    connection_id_str i = s ∧ contains SLASH s = false ∧ 10 <= len s <= 64)
  ∧ (∀ i, ChannelId_from_str s = Ok i →
    channel_id_str i = s ∧ contains SLASH s = false ∧ 8 <= len s <= 64)
  ∧ (∀ i, PortId_from_str s = Ok i →
    port_id_str i = s ∧ contains SLASH s = false ∧ 2 <= len s <= 128).
Proof.
  split_and!; intros i Hi; apply fmap_Ok in Hi as ([] & [Hs ?]%chars_then_length_Ok & ->);
    (split; [done|]; split; [exact (valid_chars_no_slash _ Hs)|lia]).
Qed.

(** Parsing a chain identifier keeps the string and yields a value that
    satisfies the type invariant: the stored revision number is a [u64] and
    the one the string carries. *)
Theorem chain_id_from_str_wf s c :
  ChainId_from_str s = Ok c →
  chain_id c = s ∧ ChainId_wf c ∧ is_u64 (revision_number c).
Proof.
  intros Hc. destruct (chain_id_parts s c Hc) as (? & ? & ? & _). done.
Qed.

(** [increment_revision_number] on a parsed chain identifier fails without
    a change exactly when the identifier carries no revision number or the
    number is [u64::MAX]; otherwise the result has the same chain name, the
    next revision, and is again an identifier the parser accepts. *)
Theorem increment_revision_number_spec s c :
  ChainId_from_str s = Ok c →
  match ChainId_increment_revision_number c with
  | (c', Ok _) => ∃ name, ChainId_split_chain_id c = Ok (name, revision_number c)
      ∧ revision_number c' = revision_number c + 1
      ∧ ChainId_split_chain_id c' = Ok (name, revision_number c + 1)
      ∧ ChainId_from_str (chain_id c') = Ok c'
  | (c', Err e) => c' = c ∧ (ok (ChainId_split_chain_id c) = None ∨ revision_number c = U64_MAX)
  | (_, Panic) => False
  end.
Proof.
  intros Hc. destruct (chain_id_parts s c Hc) as (Hid & Hwf & Hrev & Hvalid).
  unfold ChainId_increment_revision_number, mbind, exec_bind, reads, modify.
  unfold ChainId_split_chain_id, ChainId_wf in *. rewrite Hid in *.
  destruct (parse_chain_id_string s) as [[name rev]|e|] eqn:E; cbn; [|by auto|by apply ok_or_Panic in E].
  unfold u64_checked_add.
  destruct (N.ltb_spec (revision_number c + 1) U64_SIZE) as [Hlt|Hge]; cbn.
  - exists name. rewrite Hwf. split_and!; try done.
    + rewrite parse_chain_id_string_show; [done|]. unfold is_u64. by rewrite <- Hwf.
    + destruct (Hvalid name rev) as [Hch Hlen]; [done|].
      unfold ChainId_from_str. rewrite parse_chain_id_string_show by (unfold is_u64; lia).
      apply bind_Ok. exists tt. rewrite validate_identifier_chars_Ok, chars_dash_number.
      split; [done|]. apply bind_Ok. exists tt. split; [|done].
      by apply validate_prefix_length_Ok.
  - split; [done|]. right. unfold is_u64, U64_SIZE, U64_MAX in *. lia.
Qed.
End theorems.

(** The 64-character limit that [ChainId::from_str] states is not enforced:
    [u64]'s parser accepts a plus sign and any number of zeros, and only the
    part before the last dash is measured. *)
Theorem chain_id_length_unbounded `{Unicode} (k : nat) :
  ∃ c, ChainId_from_str ("a-+" ++ zeros k ++ "1") = Ok c
       ∧ revision_number c = 1 ∧ len (chain_id c) = 4 + N.of_nat k.
Proof.
  assert (all_digits (zeros k ++ "1") = true ∧ dec_value 0 (zeros k ++ "1") = 1
          ∧ contains DASH (zeros k ++ "1") = false) as (Hd & Hv & Hc).
  { induction k as [|k (? & ? & ?)]; [done|]. by split_and!. }
  assert (parse_chain_id_string ("a-+" ++ zeros k ++ "1") = Ok ("a", 1)) as Hp.
  { unfold parse_chain_id_string.
    change ("a-+" ++ zeros k ++ "1") with ("a" ++ String DASH ("+" ++ zeros k ++ "1")).
    rewrite rsplit_once_app by exact Hc.
    change ("+" ++ zeros k ++ "1") with (String "+" (zeros k ++ "1")).
    cbn [mbind option_bind snd String.get]. rewrite bool_decide_eq_true_2 by done.
    cbn [orb mbind option_bind]. rewrite parse_u64_plus, Hv; [done|by destruct k|done|]. by rewrite Hv. }
  eexists. unfold ChainId_from_str. rewrite Hp. split_and!.
  - apply bind_Ok. exists tt. split.
    + apply validate_identifier_chars_Ok.
      change ("a-+" ++ zeros k ++ "1") with (String "a" (String "-" (String "+" (zeros k ++ "1")))).
      rewrite !chars_cons_ascii by done. cbn [forallb]. by rewrite chars_digits.
    + done.
  - done.
  - cbn [chain_id]. rewrite !len_app. clear. change (len "a-+") with 3. change (len "1") with 1.
    assert (len (zeros k) = N.of_nat k) as ->; [|lia].
    unfold len. f_equal. induction k; cbn; lia.
Qed.

(** Deserialising a chain identifier with borsh does not re-establish the
    type invariant: a stored revision number of zero is accepted next to a
    string that carries another one. *)
Theorem chain_id_borsh_breaks_invariant :
  ∃ id c, ChainId_borsh_deserialize id 0 = Ok c ∧ ¬ ChainId_wf c.
Proof. exists "chain-5". eexists. split; [reflexivity|]. by vm_compute. Qed.

(** ** Chain identifiers from JSON *)

Section chain_id_json.
Context `{Unicode}.

(** What has been read is a chain identifier, or nothing but a revision number. *)
Definition read_ok (st : option string * option N) : Prop :=
  match st.1 with
  | Some id => ∃ c, ChainId_from_str id = Ok c ∧ chain_id c = id ∧ st.2 = Some (revision_number c)
  | None => True
  end.

Lemma ChainId_from_str_id s c : ChainId_from_str s = Ok c → chain_id c = s.
Proof.
  unfold ChainId_from_str. destruct (parse_chain_id_string s) as [[]| |]; intros Hc; inv_ok; done.
Qed.

Lemma visit_entry_read key value st st' :
  ChainId_visit_entry key value st = (st', Ok tt) → read_ok st → read_ok st'.
Proof.
  destruct st as [id rn]. cbn. destruct (ChainIdField_visit_str key) as [[]| |]; [..|done|done].
  - case_bool_decide; [done|]. destruct (ChainId_from_str value) as [c| |] eqn:Ec; [|done..].
    intros [= <-] _. cbn. pose proof (ChainId_from_str_id _ _ Ec) as E. rewrite E. by exists c.
  - destruct rn as [rn|]; [destruct (_ && _); [done|]|]; intros [= <-]; [done|].
    unfold read_ok. cbn. destruct id; [|done]. by intros (c & _ & _ & ?).
Qed.

(** A chain identifier read from JSON is one that its text alone determines: the
    revision number in the object cannot make it inconsistent, in whatever order
    the entries come. *)
Theorem chain_id_json_consistent entries c :
  ChainId_visit_map entries = Ok c → ChainId_from_str (chain_id c) = Ok c.
Proof.
  unfold ChainId_visit_map.
  assert (∀ st st', for_each (λ '(key, value), ChainId_visit_entry key value) entries st = (st', Ok tt) →
    read_ok st → read_ok st') as Hread.
  { induction entries as [|[key value] entries IH]; intros st st'; cbn [for_each]; [by intros [= <-]|].
    intros (st1 & [] & He & Hx)%exec_bind_Ok Hs. eapply IH, visit_entry_read; done. }
  destruct (for_each _ entries (None, None)) as [[id rn] r] eqn:E. intros Hc. inv_ok.
  destruct_units. destruct (Hread _ _ E I) as (c & Hc & Hi & Hr). cbn in *. subst. cbn.
  rewrite Hc. by destruct c.
Qed.

(** The check of the revision number depends on the order of the entries: a number
    that contradicts the identifier is rejected after it and ignored before it. *)
Theorem chain_id_json_order id c rev n :
  ChainId_from_str id = Ok c → parse_u64 rev = Ok n → n ≠ 0 → n ≠ revision_number c →
  ChainId_visit_map [("id", id); ("revision_number", rev)]
    = Err (JsonRevisionsDoNotMatch (revision_number c) n)
  ∧ ChainId_visit_map [("revision_number", rev); ("id", id)] = Ok c.
Proof.
  intros Hc Hr Hn Hne. pose proof (ChainId_from_str_id _ _ Hc) as Hi.
  unfold ChainId_visit_map, for_each, ChainId_visit_entry, mbind, exec_bind. cbn.
  rewrite Hr, Hc. cbn. split; [|by destruct c; simplify_eq/=].
  by rewrite (proj2 (N.eqb_neq n 0)), (proj2 (N.eqb_neq (revision_number c) n)).
Qed.
End chain_id_json.
