(* ===== verification/Primitives.v ===== *)
(** * Time and height

    [ibc-primitives/src/types/timestamp.rs] and
    [ibc-core/ics02-client/types/src/{height,status,error}.rs].  The date type
    under a [Timestamp] is [tendermint::Time]: the class [TmTime] has the
    operations the sources call on it and [TmTimeLaws] their documented
    meaning in UNIX nanoseconds. *)

From S2P Require Import Prelude RustStr Identifiers.
Local Open Scope string_scope.
Local Open Scope N_scope.

(** ** [core::time::Duration]: a number of nanoseconds. *)
Definition Duration := N.
Definition NANOS_PER_SEC : N := 1000000000.
Definition Duration_from_secs (s : N) : Duration := s * NANOS_PER_SEC.
Definition Duration_from_nanos (n : N) : Duration := n.
Definition as_secs (d : Duration) : N := d / NANOS_PER_SEC.
(** [d.as_nanos() as u64]: truncating. *)
Definition as_nanos_u64 (d : Duration) : N := d mod U64_SIZE.

(** ** [tendermint::Time] *)
Class TmTime := {
  Time : Type;
  Time_eq_dec :: EqDecision Time;
  unix_nanos : Time → Z;
  (** [OffsetDateTime::from_unix_timestamp_nanos(n)?.try_into()]. *)
  of_unix_nanos : Z → option Time;
  time_add : Time → Duration → option Time;
  time_sub : Time → Duration → option Time;
  time_duration_since : Time → Time → option Duration;
}.

Class TmTimeLaws `{TmTime} := {
  unix_nanos_inj : Inj (=) (=) unix_nanos;
  of_unix_nanos_Some n t : of_unix_nanos n = Some t → unix_nanos t = n;
  of_unix_nanos_u64 n : is_u64 n → is_Some (of_unix_nanos (Z.of_N n));
  time_add_Some t d t' :
    time_add t d = Some t' → unix_nanos t' = (unix_nanos t + Z.of_N d)%Z;
  time_sub_Some t d t' :
    time_sub t d = Some t' → unix_nanos t' = (unix_nanos t - Z.of_N d)%Z;
}.

(** ** [Timestamp] *)
Section timestamp.
Context `{TmTime}.

Record Timestamp := mkTimestamp { time : option Time }.
#[export] Instance Timestamp_eq_dec : EqDecision Timestamp.
Proof. solve_decision. Defined.

Inductive ParseTimestampError := ParseInt (e : IntErrorKind) | DataOutOfRange.
#[export] Instance ParseTimestampError_eq_dec : EqDecision ParseTimestampError.
Proof. solve_decision. Defined.
Inductive TimestampOverflowError := TimestampOverflow.
#[export] Instance TimestampOverflowError_eq_dec : EqDecision TimestampOverflowError.
Proof. solve_decision. Defined.

Definition Timestamp_from_nanoseconds (nanoseconds : N) : outcome ParseTimestampError Timestamp :=
  if nanoseconds =? 0 then Ok (mkTimestamp None)
  else ts ← ok_or (of_unix_nanos (Z.of_N nanoseconds)) DataOutOfRange;
       Ok (mkTimestamp (Some ts)).

Definition Timestamp_none : Timestamp := mkTimestamp None.

Definition Timestamp_duration_since (self other : Timestamp) : option Duration :=
  match time self, time other with
  | Some time1, Some time2 => time_duration_since time1 time2
  | _, _ => None
  end.

(** [nanoseconds]: zero for an unset time; the assertion and the conversion to
    [u64] panic on a date before 1970 or past the range of [u64]. *)
Definition Timestamp_nanoseconds {E} (self : Timestamp) : outcome E N :=
  match time self with
  | None => Ok 0
  | Some t =>
    let s := unix_nanos t in
    if (0 <=? s)%Z && (s <? Z.of_N U64_SIZE)%Z then Ok (Z.to_N s) else Panic
  end.

Definition Timestamp_is_set (self : Timestamp) : bool := bool_decide (is_Some (time self)).

Inductive Expiry := Expired | NotExpired | InvalidTimestamp.
#[export] Instance Expiry_eq_dec : EqDecision Expiry.
Proof. solve_decision. Defined.

Definition Timestamp_check_expiry (self other : Timestamp) : Expiry :=
  match time self, time other with
  | Some time1, Some time2 =>
    if (unix_nanos time2 <? unix_nanos time1)%Z then Expired else NotExpired
  | _, _ => InvalidTimestamp
  end.

(** The derived order: an unset time is below every set one. *)
Definition Timestamp_ltb (self other : Timestamp) : bool :=
  match time self, time other with
  | None, Some _ => true
  | Some t1, Some t2 => (unix_nanos t1 <? unix_nanos t2)%Z
  | _, None => false
  end.

Definition Timestamp_add (self : Timestamp) (duration : Duration) :
    outcome TimestampOverflowError Timestamp :=
  match time self with
  | None => Ok (mkTimestamp None)
  | Some t => t' ← ok_or (time_add t duration) TimestampOverflow; Ok (mkTimestamp (Some t'))
  end.

Definition Timestamp_sub (self : Timestamp) (duration : Duration) :
    outcome TimestampOverflowError Timestamp :=
  match time self with
  | None => Ok (mkTimestamp None)
  | Some t => t' ← ok_or (time_sub t duration) TimestampOverflow; Ok (mkTimestamp (Some t'))
  end.

Definition Timestamp_from_str (s : string) : outcome ParseTimestampError Timestamp :=
  nanoseconds ← map_err ParseInt (parse_u64 s);
  Timestamp_from_nanoseconds nanoseconds.
End timestamp.

(** A concrete [tendermint::Time]: the nanoseconds of the years 1 to 9999. *)
Definition TIME_MIN : Z := -62135596800000000000.
Definition TIME_MAX : Z := 253402300799999999999.
Definition in_time_range (n : Z) : option Z :=
  if (TIME_MIN <=? n)%Z && (n <=? TIME_MAX)%Z then Some n else None.

Definition nanos_time : TmTime := {|
  Time := Z;
  unix_nanos := id;
  of_unix_nanos := in_time_range;
  time_add t d := in_time_range (t + Z.of_N d)%Z;
  time_sub t d := in_time_range (t - Z.of_N d)%Z;
  time_duration_since t t' := if (t' <=? t)%Z then Some (Z.to_N (t - t')) else None;
|}.

Lemma nanos_time_laws : @TmTimeLaws nanos_time.
Proof.
  unfold nanos_time, in_time_range. split; cbn.
  - by intros ??.
  - intros n t. destruct (_ && _); naive_solver.
  - unfold is_u64. intros n Hn. rewrite (proj2 (Z.leb_le _ _)) by (unfold TIME_MIN; lia).
    rewrite (proj2 (Z.leb_le _ _)) by (unfold TIME_MAX, U64_SIZE in *; lia). eauto.
  - intros t d t'. destruct (_ && _); naive_solver.
  - intros t d t'. destruct (_ && _); naive_solver.
Qed.

(** ** [Height] *)
Record Height := mkHeight { height_revision_number : N; revision_height : N }.
#[export] Instance Height_eq_dec : EqDecision Height.
Proof. solve_decision. Defined.
#[export] Program Instance Height_countable : Countable Height :=
  inj_countable' (λ h, (height_revision_number h, revision_height h))
                 (λ p, mkHeight p.1 p.2) _.
Next Obligation. by intros []. Qed.

Inductive Status := Active | Frozen | StatusExpired | Unauthorized.
#[export] Instance Status_eq_dec : EqDecision Status.
Proof. solve_decision. Defined.

Inductive UpdateKind := UpdateKind_UpdateClient | UpdateKind_SubmitMisbehaviour.

Inductive CommitmentError :=
| EmptyCommitmentPrefix | EmptyMerkleProof | EmptyMerkleRoot | EmptyVerifiedValue
| EmptyProofSpecs | InvalidDepthRange (min max : Z) | NumberOfSpecsMismatch
| NumberOfKeysMismatch | InvalidMerkleProof | VerificationFailure
| EncodingFailure (e : string) | DecodingFailure (e : string).
#[export] Instance CommitmentError_eq_dec : EqDecision CommitmentError.
Proof. solve_decision. Defined.

Inductive UpgradeClientError :=
| InvalidUpgradeClientProof (e : CommitmentError)
| InvalidUpgradeConsensusStateProof (e : CommitmentError)
| LowUpgradeHeight (upgraded_height client_height : Height)
| InvalidUpgradeProposal (reason : string)
| InvalidUpgradePlan (reason : string)
| UpgradeOther (reason : string).

Section client_error.
Context `{TmTime}.
Inductive ClientError :=
| Upgrade (e : UpgradeClientError)
| ClientFrozen (description : string)
| ClientNotActive (status : Status)
| ClientStateNotFound (client_id : ClientId)
| ClientStateAlreadyExists (client_id : ClientId)
| ConsensusStateNotFound (client_id : ClientId) (height : Height)
| UpdateMetaDataNotFound (client_id : ClientId) (height : Height)
| HeaderVerificationFailure (reason : string)
| InvalidTrustThreshold (numerator denominator : N)
| FailedTrustThresholdConversion (numerator denominator : N)
| UnknownClientStateType (client_state_type : string)
| EmptyPrefix
| UnknownConsensusStateType (consensus_state_type : string)
| UnknownHeaderType (header_type : string)
| UnknownMisbehaviourType (misbehaviour_type : string)
| MissingRawClientState
| MissingRawConsensusState
| InvalidMsgUpdateClientId (e : IdentifierError)
| InvalidClientIdentifier (e : IdentifierError)
| InvalidRawHeader (reason : string)
| MissingClientMessage
| InvalidRawMisbehaviour (e : IdentifierError)
| MissingRawMisbehaviour
| InvalidHeight
| InvalidHeightResult
| InvalidProofHeight (latest_height proof_height : Height)
| InvalidCommitmentProof (e : CommitmentError)
| ClientInvalidPacketTimestamp (e : ParseTimestampError)
| ClientArgsTypeMismatch (client_type : ClientType)
| InvalidConsensusStateTimestamp (time1 time2 : Timestamp)
| MissingLocalConsensusState (height : Height)
| ClientInvalidSigner (reason : string)
| Ics23Verification (e : CommitmentError)
| MisbehaviourHandlingFailure (reason : string)
| ClientSpecific (description : string)
| ClientCounterOverflow
| InvalidUpdateClientMessage
| ClientOther (description : string).

Definition Height_new (revision_number revision_height : N) : outcome ClientError Height :=
  fail_if (revision_height =? 0) InvalidHeight;;
  Ok (mkHeight revision_number revision_height).

Definition Height_min (revision_number : N) : Height := mkHeight revision_number 1.

Definition Height_add {E} (self : Height) (delta : N) : outcome E Height :=
  h ← u64_add (revision_height self) delta;
  Ok (mkHeight (height_revision_number self) h).

Definition Height_increment {E} (self : Height) : outcome E Height := Height_add self 1.

Definition Height_sub (self : Height) (delta : N) : outcome ClientError Height :=
  fail_if (revision_height self <=? delta) InvalidHeightResult;;
  Ok (mkHeight (height_revision_number self) (revision_height self - delta)).

Definition Height_decrement (self : Height) : outcome ClientError Height := Height_sub self 1.

Definition Status_verify_is_active (self : Status) : outcome ClientError () :=
  match self with
  | Active => Ok tt
  | status => Err (ClientNotActive status)
  end.
End client_error.

Definition Status_is_frozen (self : Status) : bool := bool_decide (self = Frozen).

(** [Ord for Height]. *)
Definition Height_cmp (self other : Height) : comparison :=
  if height_revision_number self <? height_revision_number other then Lt
  else if height_revision_number other <? height_revision_number self then Gt
  else if revision_height self <? revision_height other then Lt
  else if revision_height other <? revision_height self then Gt
  else Eq.
Definition Height_ltb (h1 h2 : Height) : bool :=
  match Height_cmp h1 h2 with Lt => true | _ => false end.
Definition Height_gtb (h1 h2 : Height) : bool := Height_ltb h2 h1.

(** [Display for Height], [TryFrom<&str> for Height]. *)
Definition Height_to_string (h : Height) : string :=
  show_u64 (height_revision_number h) ++ "-" ++ show_u64 (revision_height h).

Inductive HeightError :=
| HeightConversion (height : string) (error : IntErrorKind)
| ZeroHeight
| InvalidFormat (raw_height : string).

Definition Height_try_from_str `{TmTime} (value : string) : outcome HeightError Height :=
  '(rev_number_str, rev_height_str) ← ok_or (split_once DASH value) (InvalidFormat value);
  revision_number ← map_err (HeightConversion value) (parse_u64 rev_number_str);
  revision_height ← map_err (HeightConversion value) (parse_u64 rev_height_str);
  map_err (λ _, ZeroHeight) (Height_new revision_number revision_height).

(** [Height]'s type invariant, established by [Height::new]. *)
Definition Height_wf (h : Height) : Prop :=
  is_u64 (height_revision_number h) ∧ is_u64 (revision_height h) ∧ revision_height h ≠ 0.

(** ** Lemmas and theorems on heights *)

(** The reference order: lexicographic. *)
Definition height_lt (h1 h2 : Height) : Prop :=
  height_revision_number h1 < height_revision_number h2
  ∨ height_revision_number h1 = height_revision_number h2
    ∧ revision_height h1 < revision_height h2.

Lemma Height_cmp_cases h1 h2 :
  match Height_cmp h1 h2 with
  | Lt => height_lt h1 h2 | Eq => h1 = h2 | Gt => height_lt h2 h1
  end.
Proof.
  destruct h1 as [r1 k1], h2 as [r2 k2]. unfold Height_cmp, height_lt. cbn.
  destruct (N.ltb_spec r1 r2); [lia|]. destruct (N.ltb_spec r2 r1); [lia|].
  destruct (N.ltb_spec k1 k2); [lia|]. destruct (N.ltb_spec k2 k1); [lia|].
  f_equal; lia.
Qed.

Lemma height_lt_asym h1 h2 : height_lt h1 h2 → ¬ height_lt h2 h1.
Proof. unfold height_lt. lia. Qed.
Lemma height_lt_irrefl h : ¬ height_lt h h.
Proof. unfold height_lt. lia. Qed.
Lemma height_lt_trans h1 h2 h3 : height_lt h1 h2 → height_lt h2 h3 → height_lt h1 h3.
Proof. unfold height_lt. lia. Qed.

Lemma Height_ltb_spec h1 h2 : Height_ltb h1 h2 = true ↔ height_lt h1 h2.
Proof.
  unfold Height_ltb. pose proof (Height_cmp_cases h1 h2) as Hc.
  destruct (Height_cmp h1 h2); split; try done.
  - subst. unfold height_lt. lia.
  - intros ?. by destruct (height_lt_asym h1 h2).
Qed.

Lemma Height_gtb_spec h1 h2 : Height_gtb h1 h2 = true ↔ height_lt h2 h1.
Proof. apply Height_ltb_spec. Qed.

(** [Ord for Height] is the lexicographic order on (revision number, revision
    height): the three answers of [cmp] are exactly less, equal and greater, and
    the order it decides is transitive. *)
Theorem height_cmp_lexicographic h1 h2 h3 :
  (Height_cmp h1 h2 = Lt ↔ height_lt h1 h2)
  ∧ (Height_cmp h1 h2 = Eq ↔ h1 = h2)
  ∧ (Height_cmp h1 h2 = Gt ↔ height_lt h2 h1)
  ∧ (Height_cmp h1 h2 = Lt → Height_cmp h2 h3 = Lt → Height_cmp h1 h3 = Lt).
Proof.
  assert (∀ a b, (Height_cmp a b = Lt ↔ height_lt a b)
                 ∧ (Height_cmp a b = Eq ↔ a = b)
                 ∧ (Height_cmp a b = Gt ↔ height_lt b a)) as Hall.
  { intros a b. pose proof (Height_cmp_cases a b) as Hc.
    assert (¬ height_lt a a) by (unfold height_lt; lia).
    pose proof (height_lt_asym a b). destruct (Height_cmp a b); naive_solver. }
  split_and!; try apply Hall. rewrite !(proj1 (Hall _ _)). unfold height_lt. lia.
Qed.

Section height_theorems.
Context `{TmTime}.

Lemma Height_new_Ok r k h :
  Height_new r k = Ok h ↔ h = mkHeight r k ∧ k ≠ 0.
Proof.
  unfold Height_new. destruct (N.eqb_spec k 0); cbn; naive_solver.
Qed.

(** Printing a height and parsing it back gives the height, for every height
    [Height::new] can build from [u64]s; what parses is always such a height. *)
Theorem height_display_roundtrip h :
  (Height_wf h → Height_try_from_str (Height_to_string h) = Ok h)
  ∧ (∀ s, Height_try_from_str s = Ok h → Height_wf h).
Proof.
  split.
  - intros (Hr & Hk & Hnz). unfold Height_try_from_str, Height_to_string.
    change ("-" ++ ?t) with (String DASH t).
    rewrite split_once_app by (by apply contains_show_u64). cbn.
    rewrite !parse_show_u64 by done. cbn. apply map_err_Ok, Height_new_Ok.
    by destruct h.
  - intros s Hs. unfold Height_try_from_str in Hs. inv_ok.
    destruct x as [a b]. inv_ok.
    repeat match goal with
    | H : parse_u64 _ = Ok _ |- _ => apply parse_u64_Ok in H as [? _]
    | H : Height_new _ _ = Ok _ |- _ => apply Height_new_Ok in H as [-> ?]
    end.
    by split_and!.
Qed.

(** [sub] succeeds exactly on a smaller delta, never produces height zero,
    goes strictly down, and [add] undoes it; [add] on [u64] values panics exactly
    when the sum does not fit. *)
Theorem height_sub_add h d :
  Height_wf h →
  (∀ h', Height_sub h d = Ok h' →
     Height_wf h' ∧ (0 < d → height_lt h' h) ∧ Height_add (E:=ClientError) h' d = Ok h)
  ∧ (Height_sub h d = Err InvalidHeightResult ↔ revision_height h <= d)
  ∧ (Height_add (E:=ClientError) h d = Panic ↔ U64_SIZE <= revision_height h + d).
Proof.
  destruct h as [r k]. intros (Hr & Hk & Hnz). cbn in *.
  unfold Height_sub, Height_add, u64_add. cbn.
  destruct (N.leb_spec k d); cbn; (split; [|split]).
  - done.
  - naive_solver.
  - destruct (N.ltb_spec (k + d) U64_SIZE); cbn; naive_solver lia.
  - intros h' [= <-]. unfold Height_wf, height_lt, is_u64 in *. cbn.
    rewrite (proj2 (N.ltb_lt _ _)) by lia. cbn.
    split_and!; [lia..|]. do 2 f_equal. lia.
  - split; [done|lia].
  - destruct (N.ltb_spec (k + d) U64_SIZE); cbn; naive_solver lia.
Qed.

(** Every [u64] of nanoseconds is accepted as a timestamp and read back
    unchanged without a panic, and expiry compares the nanoseconds: a time
    expires against a bound exactly when both are set and it is strictly later. *)
Theorem timestamp_nanoseconds_roundtrip `{!TmTimeLaws} n m :
  is_u64 n → is_u64 m →
  ∃ tn tm, Timestamp_from_nanoseconds n = Ok tn ∧ Timestamp_from_nanoseconds m = Ok tm
    ∧ Timestamp_nanoseconds (E:=ParseTimestampError) tn = Ok n
    ∧ Timestamp_is_set tn = negb (n =? 0)
    ∧ (Timestamp_check_expiry tn tm = Expired ↔ n ≠ 0 ∧ m ≠ 0 ∧ m < n)
    ∧ (Timestamp_ltb tn tm = true ↔ n < m).
Proof.
  assert (∀ k, is_u64 k → ∃ t, Timestamp_from_nanoseconds k = Ok t
    ∧ match time t with None => k = 0 | Some t => k ≠ 0 ∧ unix_nanos t = Z.of_N k end) as Hex.
  { intros k Hk. unfold Timestamp_from_nanoseconds.
    destruct (N.eqb_spec k 0); [by eexists|].
    destruct (of_unix_nanos_u64 k Hk) as [t Ht]. rewrite Ht. eexists. split; [done|].
    cbn. split; [done|]. by apply of_unix_nanos_Some. }
  intros Hn Hm. destruct (Hex n Hn) as (tn & ? & Htn), (Hex m Hm) as (tm & ? & Htm).
  exists tn, tm. split_and!; [done..| | | |].
  - unfold Timestamp_nanoseconds. destruct (time tn) as [t|]; [|by subst].
    destruct Htn as [? ->]. unfold is_u64 in *.
    rewrite (proj2 (Z.leb_le _ _)), (proj2 (Z.ltb_lt _ _)) by lia. cbn. by rewrite N2Z.id.
  - unfold Timestamp_is_set. destruct (time tn) as [t|]; cbn.
    + destruct Htn as [? _]. by rewrite (proj2 (N.eqb_neq _ _)).
    + by subst.
  - unfold Timestamp_check_expiry.
    destruct (time tn) as [t|], (time tm) as [t'|]; try naive_solver.
    destruct Htn as [? ->], Htm as [? ->].
    destruct (Z.ltb_spec (Z.of_N m) (Z.of_N n)); naive_solver lia.
  - unfold Timestamp_ltb. destruct (time tn) as [t|], (time tm) as [t'|].
    + destruct Htn as [? ->], Htm as [? ->].
      destruct (Z.ltb_spec (Z.of_N n) (Z.of_N m)); naive_solver lia.
    + split; [done|]. lia.
    + split; [lia|done].
    + split; [done|lia].
Qed.
End height_theorems.
