(* ===== verification/Path.v ===== *)
(** * ICS-24 store paths

    [ibc-core/ics24-host/types/src/path.rs]: the path types, their [Display]
    and the parser [FromStr for Path]. *)

From S2P Require Import Prelude RustStr Identifiers Primitives.
Local Open Scope string_scope.
Local Open Scope N_scope.

Definition NEXT_CLIENT_SEQUENCE : string := "nextClientSequence".
Definition NEXT_CONNECTION_SEQUENCE : string := "nextConnectionSequence".
Definition NEXT_CHANNEL_SEQUENCE : string := "nextChannelSequence".
Definition CLIENT_PREFIX : string := "clients".
Definition CLIENT_STATE : string := "clientState".
Definition CONSENSUS_STATE_PREFIX : string := "consensusStates".
Definition CONNECTION_PREFIX : string := "connections".
Definition CHANNEL_PREFIX : string := "channels".
Definition CHANNEL_END_PREFIX : string := "channelEnds".
Definition PORT_PREFIX : string := "ports".
Definition SEQUENCE_PREFIX : string := "sequences".
Definition NEXT_SEQ_SEND_PREFIX : string := "nextSequenceSend".
Definition NEXT_SEQ_RECV_PREFIX : string := "nextSequenceRecv".
Definition NEXT_SEQ_ACK_PREFIX : string := "nextSequenceAck".
Definition PACKET_COMMITMENT_PREFIX : string := "commitments".
Definition PACKET_ACK_PREFIX : string := "acks".
Definition PACKET_RECEIPT_PREFIX : string := "receipts".
Definition ITERATE_CONSENSUS_STATE_PREFIX : string := "iterateConsensusStates".
Definition PROCESSED_TIME : string := "processedTime".
Definition PROCESSED_HEIGHT : string := "processedHeight".
Definition UPGRADED_IBC_STATE : string := "upgradedIBCState".
Definition UPGRADED_CLIENT_STATE : string := "upgradedClient".
Definition UPGRADED_CLIENT_CONSENSUS_STATE : string := "upgradedConsState".

(** ** Path types *)

Record ClientStatePath := mkClientStatePath { csp_client_id : ClientId }.
Record ClientConsensusStatePath := mkClientConsensusStatePath {
  ccsp_client_id : ClientId;
  ccsp_revision_number : N;
  ccsp_revision_height : N }.
Record ClientUpdateTimePath := mkClientUpdateTimePath {
  cutp_client_id : ClientId;
  cutp_revision_number : N;
  cutp_revision_height : N }.
Record ClientUpdateHeightPath := mkClientUpdateHeightPath {
  cuhp_client_id : ClientId;
  cuhp_revision_number : N;
  cuhp_revision_height : N }.
Record ClientConnectionPath := mkClientConnectionPath { ccp_client_id : ClientId }.
Record ConnectionPath := mkConnectionPath { cp_connection_id : ConnectionId }.
Record PortPath := mkPortPath { pp_port_id : PortId }.
Record ChannelEndPath := mkChannelEndPath { cep_port_id : PortId; cep_channel_id : ChannelId }.
Record SeqSendPath := mkSeqSendPath { ssp_port_id : PortId; ssp_channel_id : ChannelId }.
Record SeqRecvPath := mkSeqRecvPath { srp_port_id : PortId; srp_channel_id : ChannelId }.
Record SeqAckPath := mkSeqAckPath { sap_port_id : PortId; sap_channel_id : ChannelId }.
Record CommitmentPath := mkCommitmentPath {
  cmp_port_id : PortId; cmp_channel_id : ChannelId; cmp_sequence : Sequence }.
Record AckPath := mkAckPath {
  ap_port_id : PortId; ap_channel_id : ChannelId; ap_sequence : Sequence }.
Record ReceiptPath := mkReceiptPath {
  rp_port_id : PortId; rp_channel_id : ChannelId; rp_sequence : Sequence }.
Inductive UpgradeClientPath :=
| UpgradedClientState (height : N)
| UpgradedClientConsensusState (height : N).

Inductive Path :=
| NextClientSequence
| NextConnectionSequence
| NextChannelSequence
| PathClientState (p : ClientStatePath)
| PathClientConsensusState (p : ClientConsensusStatePath)
| PathClientUpdateTime (p : ClientUpdateTimePath)
| PathClientUpdateHeight (p : ClientUpdateHeightPath)
| PathClientConnection (p : ClientConnectionPath)
| PathConnection (p : ConnectionPath)
| PathPorts (p : PortPath)
| PathChannelEnd (p : ChannelEndPath)
| PathSeqSend (p : SeqSendPath)
| PathSeqRecv (p : SeqRecvPath)
| PathSeqAck (p : SeqAckPath)
| PathCommitment (p : CommitmentPath)
| PathAck (p : AckPath)
| PathReceipt (p : ReceiptPath)
| PathUpgradeClient (p : UpgradeClientPath).

#[export] Instance Path_eq_dec : EqDecision Path.
Proof.
  assert (EqDecision ClientStatePath) by solve_decision.
  assert (EqDecision ClientConsensusStatePath) by solve_decision.
  assert (EqDecision ClientUpdateTimePath) by solve_decision.
  assert (EqDecision ClientUpdateHeightPath) by solve_decision.
  assert (EqDecision ClientConnectionPath) by solve_decision.
  assert (EqDecision ConnectionPath) by solve_decision.
  assert (EqDecision PortPath) by solve_decision.
  assert (EqDecision ChannelEndPath) by solve_decision.
  assert (EqDecision SeqSendPath) by solve_decision.
  assert (EqDecision SeqRecvPath) by solve_decision.
  assert (EqDecision SeqAckPath) by solve_decision.
  assert (EqDecision CommitmentPath) by solve_decision.
  assert (EqDecision AckPath) by solve_decision.
  assert (EqDecision ReceiptPath) by solve_decision.
  assert (EqDecision UpgradeClientPath) by solve_decision.
  solve_decision.
Defined.

(** ** [Display] *)

(** [{a}/{b}]. *)
Definition seg (a b : string) : string := a ++ String SLASH b.
Infix "//" := seg (at level 60, right associativity) : string_scope.

Definition ClientStatePath_to_string (p : ClientStatePath) : string :=
  CLIENT_PREFIX // client_id_str (csp_client_id p) // CLIENT_STATE.

Definition full_consensus_state_path (client_id : ClientId) : string :=
  CLIENT_PREFIX // client_id_str client_id // CONSENSUS_STATE_PREFIX.

Definition revision (number height : N) : string :=
  show_u64 number ++ "-" ++ show_u64 height.

Definition ClientConsensusStatePath_to_string (p : ClientConsensusStatePath) : string :=
  CLIENT_PREFIX // client_id_str (ccsp_client_id p) // CONSENSUS_STATE_PREFIX
  // revision (ccsp_revision_number p) (ccsp_revision_height p).

Definition ClientConsensusStatePath_leaf (p : ClientConsensusStatePath) : string :=
  CONSENSUS_STATE_PREFIX // revision (ccsp_revision_number p) (ccsp_revision_height p).

Definition ClientConsensusStatePath_parent (p : ClientConsensusStatePath) : string :=
  full_consensus_state_path (ccsp_client_id p).

Definition ClientUpdateTimePath_to_string (p : ClientUpdateTimePath) : string :=
  CLIENT_PREFIX // client_id_str (cutp_client_id p) // CONSENSUS_STATE_PREFIX
  // revision (cutp_revision_number p) (cutp_revision_height p) // PROCESSED_TIME.

Definition ClientUpdateHeightPath_to_string (p : ClientUpdateHeightPath) : string :=
  CLIENT_PREFIX // client_id_str (cuhp_client_id p) // CONSENSUS_STATE_PREFIX
  // revision (cuhp_revision_number p) (cuhp_revision_height p) // PROCESSED_HEIGHT.

Definition ClientUpdateTimePath_parent (p : ClientUpdateTimePath) : string :=
  full_consensus_state_path (cutp_client_id p).
Definition ClientUpdateTimePath_leaf (p : ClientUpdateTimePath) : string :=
  CONSENSUS_STATE_PREFIX // revision (cutp_revision_number p) (cutp_revision_height p)
  // PROCESSED_TIME.
Definition ClientUpdateHeightPath_parent (p : ClientUpdateHeightPath) : string :=
  full_consensus_state_path (cuhp_client_id p).
Definition ClientUpdateHeightPath_leaf (p : ClientUpdateHeightPath) : string :=
  CONSENSUS_STATE_PREFIX // revision (cuhp_revision_number p) (cuhp_revision_height p)
  // PROCESSED_HEIGHT.

(** The store prefixes of the kinds of paths. *)
Definition ClientStatePath_prefix : string := CLIENT_PREFIX.
Definition ClientStatePath_leaf : string := CLIENT_STATE.
Definition ConnectionPath_prefix : string := CONNECTION_PREFIX.
Definition ChannelEndPath_prefix : string := CHANNEL_END_PREFIX.
Definition CommitmentPath_prefix : string := PACKET_COMMITMENT_PREFIX.
Definition AckPath_prefix : string := PACKET_ACK_PREFIX.
Definition ReceiptPath_prefix : string := PACKET_RECEIPT_PREFIX.

Definition iteration_key (revision_number revision_height : N) : list Byte.byte :=
  (as_bytes ITERATE_CONSENSUS_STATE_PREFIX
   ++ to_be_bytes revision_number ++ to_be_bytes revision_height)%list.

Definition ClientConnectionPath_to_string (p : ClientConnectionPath) : string :=
  CLIENT_PREFIX // client_id_str (ccp_client_id p) // CONNECTION_PREFIX.

Definition ConnectionPath_to_string (p : ConnectionPath) : string :=
  CONNECTION_PREFIX // connection_id_str (cp_connection_id p).

Definition PortPath_to_string (p : PortPath) : string :=
  PORT_PREFIX // port_id_str (pp_port_id p).

Definition port_channel (port : PortId) (channel : ChannelId) : string :=
  PORT_PREFIX // port_id_str port // CHANNEL_PREFIX // channel_id_str channel.

Definition port_channel_sequence (port : PortId) (channel : ChannelId) (seq : Sequence) : string :=
  PORT_PREFIX // port_id_str port // CHANNEL_PREFIX // channel_id_str channel
  // SEQUENCE_PREFIX // show_u64 seq.

Definition ChannelEndPath_to_string (p : ChannelEndPath) : string :=
  CHANNEL_END_PREFIX // port_channel (cep_port_id p) (cep_channel_id p).

Definition ChannelEndPath_full_sequences_path (p : ChannelEndPath) (prefix : string) : string :=
  prefix // PORT_PREFIX // port_id_str (cep_port_id p)
  // CHANNEL_PREFIX // channel_id_str (cep_channel_id p) // SEQUENCE_PREFIX.
Definition commitments_path (p : ChannelEndPath) : string :=
  ChannelEndPath_full_sequences_path p PACKET_COMMITMENT_PREFIX.
Definition acks_path (p : ChannelEndPath) : string :=
  ChannelEndPath_full_sequences_path p PACKET_ACK_PREFIX.
Definition receipts_path (p : ChannelEndPath) : string :=
  ChannelEndPath_full_sequences_path p PACKET_RECEIPT_PREFIX.

Definition SeqSendPath_to_string (p : SeqSendPath) : string :=
  NEXT_SEQ_SEND_PREFIX // port_channel (ssp_port_id p) (ssp_channel_id p).
Definition SeqRecvPath_to_string (p : SeqRecvPath) : string :=
  NEXT_SEQ_RECV_PREFIX // port_channel (srp_port_id p) (srp_channel_id p).
Definition SeqAckPath_to_string (p : SeqAckPath) : string :=
  NEXT_SEQ_ACK_PREFIX // port_channel (sap_port_id p) (sap_channel_id p).
Definition CommitmentPath_to_string (p : CommitmentPath) : string :=
  PACKET_COMMITMENT_PREFIX
  // port_channel_sequence (cmp_port_id p) (cmp_channel_id p) (cmp_sequence p).
Definition AckPath_to_string (p : AckPath) : string :=
  PACKET_ACK_PREFIX // port_channel_sequence (ap_port_id p) (ap_channel_id p) (ap_sequence p).
Definition ReceiptPath_to_string (p : ReceiptPath) : string :=
  PACKET_RECEIPT_PREFIX // port_channel_sequence (rp_port_id p) (rp_channel_id p) (rp_sequence p).
Definition UpgradeClientPath_to_string (p : UpgradeClientPath) : string :=
  match p with
  | UpgradedClientState h => UPGRADED_IBC_STATE // show_u64 h // UPGRADED_CLIENT_STATE
  | UpgradedClientConsensusState h =>
    UPGRADED_IBC_STATE // show_u64 h // UPGRADED_CLIENT_CONSENSUS_STATE
  end.

Definition Path_to_string (p : Path) : string :=
  match p with
  | NextClientSequence => NEXT_CLIENT_SEQUENCE
  | NextConnectionSequence => NEXT_CONNECTION_SEQUENCE
  | NextChannelSequence => NEXT_CHANNEL_SEQUENCE
  | PathClientState p => ClientStatePath_to_string p
  | PathClientConsensusState p => ClientConsensusStatePath_to_string p
  | PathClientUpdateTime p => ClientUpdateTimePath_to_string p
  | PathClientUpdateHeight p => ClientUpdateHeightPath_to_string p
  | PathClientConnection p => ClientConnectionPath_to_string p
  | PathConnection p => ConnectionPath_to_string p
  | PathPorts p => PortPath_to_string p
  | PathChannelEnd p => ChannelEndPath_to_string p
  | PathSeqSend p => SeqSendPath_to_string p
  | PathSeqRecv p => SeqRecvPath_to_string p
  | PathSeqAck p => SeqAckPath_to_string p
  | PathCommitment p => CommitmentPath_to_string p
  | PathAck p => AckPath_to_string p
  | PathReceipt p => ReceiptPath_to_string p
  | PathUpgradeClient p => UpgradeClientPath_to_string p
  end.

Definition Path_is_provable (p : Path) : bool :=
  match p with PathClientConnection _ | PathPorts _ => false | _ => true end.

Definition Path_into_bytes (p : Path) : list Byte.byte := as_bytes (Path_to_string p).

(** ** Parsing

    A function that returns an [Option] and may panic: [Err tt] is [None]. *)

Notation opt := (outcome unit) (only parsing).

(** [a.or_else(|| b)]: the alternative is only run on [None]. *)
Definition or_else {A} (a b : opt A) : opt A :=
  match a with Err _ => b | _ => a end.
Definition guard_opt (b : bool) : opt () := if b then Ok tt else Err tt.
(** [l.first()?], [l.last()?], [r.ok()?]. *)
Definition first {A} (l : list A) : opt A := ok_or (head l) tt.
Definition last_opt {A} (l : list A) : opt A := ok_or (list.last l) tt.
Definition ok_opt {E A} (m : outcome E A) : opt A := map_err (λ _, tt) m.

Inductive SubPath := SubChannels (c : ChannelId) | SubSequences (s : Sequence).

Inductive PathError := ParseFailure (path : string).

Definition len_is (n : nat) (components : list string) : bool :=
  (length components =? n)%nat.

Definition parse_next_sequence (components : list string) : opt Path :=
  guard_opt (len_is 1 components);;
  first ← first components;
  if (first =? NEXT_CLIENT_SEQUENCE)%string then Ok NextClientSequence
  else if (first =? NEXT_CONNECTION_SEQUENCE)%string then Ok NextConnectionSequence
  else if (first =? NEXT_CHANNEL_SEQUENCE)%string then Ok NextChannelSequence
  else Err tt.

Section parser.
Context `{Unicode}.

(** [components[1]] is read before the length is checked. *)
Definition parse_client_paths (components : list string) : opt Path :=
  first ← first components;
  guard_opt (first =? CLIENT_PREFIX)%string;;
  id ← index components 1;
  client_id ← ok_opt (ClientId_from_str id);
  if len_is 3 components then
    c2 ← index components 2;
    if (c2 =? CLIENT_STATE)%string then Ok (PathClientState (mkClientStatePath client_id))
    else if (c2 =? CONNECTION_PREFIX)%string
    then Ok (PathClientConnection (mkClientConnectionPath client_id))
    else Err tt
  else if len_is 4 components || len_is 5 components then
    c2 ← index components 2;
    guard_opt (c2 =? CONSENSUS_STATE_PREFIX)%string;;
    c3 ← index components 3;
    let epoch_height := split DASH c3 in
    guard_opt (len_is 2 epoch_height);;
    revision_number ← index epoch_height 0;
    revision_height ← index epoch_height 1;
    revision_number ← ok_opt (parse_u64 revision_number);
    revision_height ← ok_opt (parse_u64 revision_height);
    if len_is 4 components then
      Ok (PathClientConsensusState
            (mkClientConsensusStatePath client_id revision_number revision_height))
    else
      c4 ← index components 4;
      if (c4 =? PROCESSED_TIME)%string then
        Ok (PathClientUpdateTime
              (mkClientUpdateTimePath client_id revision_number revision_height))
      else if (c4 =? PROCESSED_HEIGHT)%string then
        Ok (PathClientUpdateHeight
              (mkClientUpdateHeightPath client_id revision_number revision_height))
      else Err tt
  else Err tt.

Definition parse_connections (components : list string) : opt Path :=
  guard_opt (len_is 2 components);;
  first ← first components;
  guard_opt (first =? CONNECTION_PREFIX)%string;;
  connection_id ← last_opt components;
  connection_id ← ok_opt (ConnectionId_from_str connection_id);
  Ok (PathConnection (mkConnectionPath connection_id)).

Definition parse_ports (components : list string) : opt Path :=
  guard_opt (len_is 2 components);;
  first ← first components;
  guard_opt (first =? PORT_PREFIX)%string;;
  port_id ← last_opt components;
  port_id ← ok_opt (PortId_from_str port_id);
  Ok (PathPorts (mkPortPath port_id)).

Definition parse_channels (components : list string) : opt SubPath :=
  guard_opt (len_is 2 components);;
  first ← first components;
  guard_opt (first =? CHANNEL_PREFIX)%string;;
  channel_id ← last_opt components;
  channel_id ← ok_opt (ChannelId_from_str channel_id);
  Ok (SubChannels channel_id).

Definition parse_sequences (components : list string) : opt SubPath :=
  guard_opt (len_is 2 components);;
  first ← first components;
  guard_opt (first =? SEQUENCE_PREFIX)%string;;
  sequence_number ← last_opt components;
  match Sequence_from_str sequence_number with
  | Ok seq => Ok (SubSequences seq)
  | _ => Err tt
  end.

(** [let Some(Path::Ports(PortPath(port_id))) = port else { return None }] and
    the same for the two kinds of [SubPath]. *)
Definition as_port (p : opt Path) : opt PortId :=
  match p with Ok (PathPorts p) => Ok (pp_port_id p) | Panic => Panic | _ => Err tt end.
Definition as_channel (p : opt SubPath) : opt ChannelId :=
  match p with Ok (SubChannels c) => Ok c | Panic => Panic | _ => Err tt end.
Definition as_sequence (p : opt SubPath) : opt Sequence :=
  match p with Ok (SubSequences s) => Ok s | Panic => Panic | _ => Err tt end.

(** [&components[i..=j]] for lengths that were checked before. *)
Definition slice {A} (i j : nat) (l : list A) : list A := take (S j - i) (drop i l).

Definition parse_channel_ends (components : list string) : opt Path :=
  guard_opt (len_is 5 components);;
  first ← first components;
  guard_opt (first =? CHANNEL_END_PREFIX)%string;;
  port_id ← as_port (parse_ports (slice 1 2 components));
  channel_id ← as_channel (parse_channels (slice 3 4 components));
  Ok (PathChannelEnd (mkChannelEndPath port_id channel_id)).

Definition parse_seqs (components : list string) : opt Path :=
  guard_opt (len_is 5 components);;
  first ← first components;
  port_id ← as_port (parse_ports (slice 1 2 components));
  channel_id ← as_channel (parse_channels (slice 3 4 components));
  if (first =? NEXT_SEQ_SEND_PREFIX)%string then Ok (PathSeqSend (mkSeqSendPath port_id channel_id))
  else if (first =? NEXT_SEQ_RECV_PREFIX)%string
  then Ok (PathSeqRecv (mkSeqRecvPath port_id channel_id))
  else if (first =? NEXT_SEQ_ACK_PREFIX)%string
  then Ok (PathSeqAck (mkSeqAckPath port_id channel_id))
  else Err tt.

(** The shared shape of [parse_commitments], [parse_acks], [parse_receipts]. *)
Definition parse_packet_path (prefix : string) (components : list string) :
    opt (PortId * ChannelId * Sequence) :=
  guard_opt (len_is 7 components);;
  first ← first components;
  guard_opt (first =? prefix)%string;;
  port_id ← as_port (parse_ports (slice 1 2 components));
  channel_id ← as_channel (parse_channels (slice 3 4 components));
  sequence ← as_sequence (parse_sequences (drop 5 components));
  Ok (port_id, channel_id, sequence).

Definition parse_commitments (components : list string) : opt Path :=
  '(port_id, channel_id, sequence) ← parse_packet_path PACKET_COMMITMENT_PREFIX components;
  Ok (PathCommitment (mkCommitmentPath port_id channel_id sequence)).

Definition parse_acks (components : list string) : opt Path :=
  '(port_id, channel_id, sequence) ← parse_packet_path PACKET_ACK_PREFIX components;
  Ok (PathAck (mkAckPath port_id channel_id sequence)).

Definition parse_receipts (components : list string) : opt Path :=
  '(port_id, channel_id, sequence) ← parse_packet_path PACKET_RECEIPT_PREFIX components;
  Ok (PathReceipt (mkReceiptPath port_id channel_id sequence)).

Definition parse_upgrades (components : list string) : opt Path :=
  guard_opt (len_is 3 components);;
  first ← first components;
  guard_opt (first =? UPGRADED_IBC_STATE)%string;;
  last ← last_opt components;
  c1 ← index components 1;
  height ← ok_opt (parse_u64 c1);
  if (last =? UPGRADED_CLIENT_STATE)%string then Ok (PathUpgradeClient (UpgradedClientState height))
  else if (last =? UPGRADED_CLIENT_CONSENSUS_STATE)%string
  then Ok (PathUpgradeClient (UpgradedClientConsensusState height))
  else Err tt.

Definition Path_from_str (s : string) : outcome PathError Path :=
  let components := split SLASH s in
  map_err (λ _, ParseFailure s)
    (or_else (parse_next_sequence components)
    (or_else (parse_client_paths components)
    (or_else (parse_connections components)
    (or_else (parse_ports components)
    (or_else (parse_channel_ends components)
    (or_else (parse_seqs components)
    (or_else (parse_commitments components)
    (or_else (parse_acks components)
    (or_else (parse_receipts components)
             (parse_upgrades components)))))))))).
End parser.

(** ** Well-formed paths: identifiers their own parsers accept, [u64] numbers. *)

Section wf.
Context `{Unicode}.

Definition Path_wf (p : Path) : Prop :=
  match p with
  | NextClientSequence | NextConnectionSequence | NextChannelSequence => True
  | PathClientState p => client_ok (csp_client_id p)
  | PathClientConsensusState p =>
    client_ok (ccsp_client_id p) ∧ is_u64 (ccsp_revision_number p) ∧ is_u64 (ccsp_revision_height p)
  | PathClientUpdateTime p =>
    client_ok (cutp_client_id p) ∧ is_u64 (cutp_revision_number p) ∧ is_u64 (cutp_revision_height p)
  | PathClientUpdateHeight p =>
    client_ok (cuhp_client_id p) ∧ is_u64 (cuhp_revision_number p) ∧ is_u64 (cuhp_revision_height p)
  | PathClientConnection p => client_ok (ccp_client_id p)
  | PathConnection p => connection_ok (cp_connection_id p)
  | PathPorts p => port_ok (pp_port_id p)
  | PathChannelEnd p => port_ok (cep_port_id p) ∧ channel_ok (cep_channel_id p)
  | PathSeqSend p => port_ok (ssp_port_id p) ∧ channel_ok (ssp_channel_id p)
  | PathSeqRecv p => port_ok (srp_port_id p) ∧ channel_ok (srp_channel_id p)
  | PathSeqAck p => port_ok (sap_port_id p) ∧ channel_ok (sap_channel_id p)
  | PathCommitment p =>
    port_ok (cmp_port_id p) ∧ channel_ok (cmp_channel_id p) ∧ is_u64 (cmp_sequence p)
  | PathAck p => port_ok (ap_port_id p) ∧ channel_ok (ap_channel_id p) ∧ is_u64 (ap_sequence p)
  | PathReceipt p =>
    port_ok (rp_port_id p) ∧ channel_ok (rp_channel_id p) ∧ is_u64 (rp_sequence p)
  | PathUpgradeClient (UpgradedClientState h)
  | PathUpgradeClient (UpgradedClientConsensusState h) => is_u64 h
  end.

(** The parts of a path between the separators. *)
Definition Path_components (p : Path) : list string :=
  match p with
  | NextClientSequence => [NEXT_CLIENT_SEQUENCE]
  | NextConnectionSequence => [NEXT_CONNECTION_SEQUENCE]
  | NextChannelSequence => [NEXT_CHANNEL_SEQUENCE]
  | PathClientState p => [CLIENT_PREFIX; client_id_str (csp_client_id p); CLIENT_STATE]
  | PathClientConsensusState p =>
    [CLIENT_PREFIX; client_id_str (ccsp_client_id p); CONSENSUS_STATE_PREFIX;
     revision (ccsp_revision_number p) (ccsp_revision_height p)]
  | PathClientUpdateTime p =>
    [CLIENT_PREFIX; client_id_str (cutp_client_id p); CONSENSUS_STATE_PREFIX;
     revision (cutp_revision_number p) (cutp_revision_height p); PROCESSED_TIME]
  | PathClientUpdateHeight p =>
    [CLIENT_PREFIX; client_id_str (cuhp_client_id p); CONSENSUS_STATE_PREFIX;
     revision (cuhp_revision_number p) (cuhp_revision_height p); PROCESSED_HEIGHT]
  | PathClientConnection p => [CLIENT_PREFIX; client_id_str (ccp_client_id p); CONNECTION_PREFIX]
  | PathConnection p => [CONNECTION_PREFIX; connection_id_str (cp_connection_id p)]
  | PathPorts p => [PORT_PREFIX; port_id_str (pp_port_id p)]
  | PathChannelEnd p =>
    [CHANNEL_END_PREFIX; PORT_PREFIX; port_id_str (cep_port_id p);
     CHANNEL_PREFIX; channel_id_str (cep_channel_id p)]
  | PathSeqSend p =>
    [NEXT_SEQ_SEND_PREFIX; PORT_PREFIX; port_id_str (ssp_port_id p);
     CHANNEL_PREFIX; channel_id_str (ssp_channel_id p)]
  | PathSeqRecv p =>
    [NEXT_SEQ_RECV_PREFIX; PORT_PREFIX; port_id_str (srp_port_id p);
     CHANNEL_PREFIX; channel_id_str (srp_channel_id p)]
  | PathSeqAck p =>
    [NEXT_SEQ_ACK_PREFIX; PORT_PREFIX; port_id_str (sap_port_id p);
     CHANNEL_PREFIX; channel_id_str (sap_channel_id p)]
  | PathCommitment p =>
    [PACKET_COMMITMENT_PREFIX; PORT_PREFIX; port_id_str (cmp_port_id p);
     CHANNEL_PREFIX; channel_id_str (cmp_channel_id p); SEQUENCE_PREFIX; show_u64 (cmp_sequence p)]
  | PathAck p =>
    [PACKET_ACK_PREFIX; PORT_PREFIX; port_id_str (ap_port_id p);
     CHANNEL_PREFIX; channel_id_str (ap_channel_id p); SEQUENCE_PREFIX; show_u64 (ap_sequence p)]
  | PathReceipt p =>
    [PACKET_RECEIPT_PREFIX; PORT_PREFIX; port_id_str (rp_port_id p);
     CHANNEL_PREFIX; channel_id_str (rp_channel_id p); SEQUENCE_PREFIX; show_u64 (rp_sequence p)]
  | PathUpgradeClient (UpgradedClientState h) =>
    [UPGRADED_IBC_STATE; show_u64 h; UPGRADED_CLIENT_STATE]
  | PathUpgradeClient (UpgradedClientConsensusState h) =>
    [UPGRADED_IBC_STATE; show_u64 h; UPGRADED_CLIENT_CONSENSUS_STATE]
  end.

Lemma split_seg a b : contains SLASH a = false → split SLASH (a // b) = a :: split SLASH b.
Proof. apply split_app. Qed.

Lemma revision_no_slash n h : contains SLASH (revision n h) = false.
Proof.
  unfold revision. rewrite !contains_app.
  rewrite !contains_show_u64 by done. done.
Qed.

Lemma split_revision n h : split DASH (revision n h) = [show_u64 n; show_u64 h].
Proof.
  unfold revision. change ("-" ++ show_u64 h) with (String DASH (show_u64 h)).
  rewrite split_app by by apply contains_show_u64.
  by rewrite split_none by by apply contains_show_u64.
Qed.

Ltac no_slash :=
  first [ reflexivity
        | by apply contains_show_u64 | apply revision_no_slash
        | by apply client_ok_no_slash | by apply connection_ok_no_slash
        | by apply port_ok_no_slash | by apply channel_ok_no_slash ].

Lemma split_Path_to_string p :
  Path_wf p → split SLASH (Path_to_string p) = Path_components p.
Proof.
  intros Hwf. destruct p as [| | |[]|[]|[]|[]|[]|[]|[]|[]|[]|[]|[]|[]|[]|[]|[]];
    cbn [Path_wf csp_client_id ccsp_client_id ccsp_revision_number ccsp_revision_height] in Hwf;
    destruct_and?;
    cbv [Path_to_string ClientStatePath_to_string ClientConsensusStatePath_to_string
         ClientUpdateTimePath_to_string ClientUpdateHeightPath_to_string
         ClientConnectionPath_to_string ConnectionPath_to_string PortPath_to_string
         ChannelEndPath_to_string SeqSendPath_to_string SeqRecvPath_to_string
         SeqAckPath_to_string CommitmentPath_to_string AckPath_to_string
         ReceiptPath_to_string UpgradeClientPath_to_string port_channel
         port_channel_sequence Path_components];
    repeat (rewrite split_seg by no_slash); rewrite split_none by no_slash; reflexivity.
Qed.

(** The parser on components that are already split. *)
Definition parse_components (components : list string) : opt Path :=
  or_else (parse_next_sequence components)
  (or_else (parse_client_paths components)
  (or_else (parse_connections components)
  (or_else (parse_ports components)
  (or_else (parse_channel_ends components)
  (or_else (parse_seqs components)
  (or_else (parse_commitments components)
  (or_else (parse_acks components)
  (or_else (parse_receipts components)
           (parse_upgrades components))))))))).

Lemma Path_from_str_components s :
  Path_from_str s = map_err (λ _, ParseFailure s) (parse_components (split SLASH s)).
Proof. done. Qed.

Lemma Sequence_from_show n : is_u64 n → Sequence_from_str (show_u64 n) = Ok n.
Proof. intros Hn. unfold Sequence_from_str. by rewrite parse_show_u64. Qed.

Local Arguments ClientId_from_str : simpl never.
Local Arguments ConnectionId_from_str : simpl never.
Local Arguments PortId_from_str : simpl never.
Local Arguments ChannelId_from_str : simpl never.
Local Arguments Sequence_from_str : simpl never.
Local Arguments revision : simpl never.

Lemma parse_Path_components p : Path_wf p → parse_components (Path_components p) = Ok p.
Proof.
  intros Hwf. destruct p as [| | |[]|[]|[]|[]|[]|[]|[]|[]|[]|[]|[]|[]|[]|[]|[]];
    cbn in Hwf; unfold client_ok, connection_ok, port_ok, channel_ok, parse_components in *;
    destruct_and?; cbn;
    repeat match goal with
    | H : _ = Ok _ |- _ => progress (rewrite H; cbn)
    | |- context [split DASH (revision _ _)] => rewrite split_revision; cbn
    | |- context [parse_u64 (show_u64 _)] => rewrite parse_show_u64 by done; cbn
    | |- context [Sequence_from_str (show_u64 _)] => rewrite Sequence_from_show by done; cbn
    end; reflexivity.
Qed.

(** *** What the parser returns is well-formed *)

Lemma parse_u64_bound s n : parse_u64 s = Ok n → is_u64 n.
Proof. by intros [? _]%parse_u64_Ok. Qed.

Lemma or_else_Ok {A} (a b : opt A) x : or_else a b = Ok x → a = Ok x ∨ b = Ok x.
Proof. destruct a; auto. Qed.
Lemma or_else_Panic {A} (a b : opt A) :
  or_else a b = Panic ↔ a = Panic ∨ (a = Err tt ∧ b = Panic).
Proof. destruct a as [|[]|]; naive_solver. Qed.

Lemma parse_ports_Ok l p : parse_ports l = Ok p → ∃ i, p = PathPorts (mkPortPath i) ∧ port_ok i.
Proof.
  unfold parse_ports, ok_opt. intros Hp. inv_ok. eauto using PortId_parsed.
Qed.
Lemma as_port_Ok l i : as_port (parse_ports l) = Ok i → port_ok i.
Proof.
  destruct (parse_ports l) as [p| |] eqn:E; cbn; try done.
  apply parse_ports_Ok in E as (j & -> & ?). by intros [= <-].
Qed.
Lemma as_channel_Ok l i : as_channel (parse_channels l) = Ok i → channel_ok i.
Proof.
  destruct (parse_channels l) as [[]| |] eqn:E; cbn; try done.
  unfold parse_channels, ok_opt in E. inv_ok. intros ?. inv_ok. eauto using ChannelId_parsed.
Qed.
Lemma as_sequence_Ok l n : as_sequence (parse_sequences l) = Ok n → is_u64 n.
Proof.
  destruct (parse_sequences l) as [[]| |] eqn:E; cbn; try done.
  unfold parse_sequences, Sequence_from_str in E. inv_ok.
  destruct (parse_u64 _) eqn:?; cbn in *; inv_ok. intros ?. inv_ok. eauto using parse_u64_bound.
Qed.

Ltac case_ifs := repeat match goal with
  | H : (if ?b then _ else _) = Ok _ |- _ => destruct b; inv_ok end.

Lemma parse_components_wf l p : parse_components l = Ok p → Path_wf p.
Proof.
  unfold parse_components. intros Hp.
  repeat (apply or_else_Ok in Hp as [Hp|Hp]).
  all: unfold parse_next_sequence, parse_client_paths, parse_connections,
    parse_channel_ends, parse_seqs, parse_commitments, parse_acks, parse_receipts,
    parse_packet_path, parse_upgrades, ok_opt in Hp.
  all: try (apply parse_ports_Ok in Hp as (? & -> & ?); done).
  all: inv_ok; case_ifs; cbn;
    eauto 6 using ClientId_parsed, ConnectionId_parsed, parse_u64_bound,
      as_port_Ok, as_channel_Ok, as_sequence_Ok.
Qed.

(** *** Where the parser panics *)

Lemma guard_opt_total b : total (guard_opt b).
Proof. by destruct b. Qed.
Lemma first_total {A} (l : list A) : total (first l).
Proof. apply total_ok_or. Qed.
Lemma last_opt_total {A} (l : list A) : total (last_opt l).
Proof. apply total_ok_or. Qed.
Lemma ok_opt_total {E A} (m : outcome E A) : total m → total (ok_opt m).
Proof. apply total_map_err. Qed.
Lemma index_len_is n i l : len_is n l = true → (i < n)%nat → total (index (E:=()) l i).
Proof. unfold len_is. intros <-%Nat.eqb_eq ?. by apply total_index. Qed.
Lemma from_str_total s :
  total (ok_opt (ClientId_from_str s)) ∧ total (ok_opt (ConnectionId_from_str s))
  ∧ total (ok_opt (ChannelId_from_str s)) ∧ total (ok_opt (PortId_from_str s))
  ∧ total (ok_opt (parse_u64 s)).
Proof. destruct (ids_from_str_total s) as (? & ? & ? & ?). split_and!; apply ok_opt_total; eauto with total. Qed.

#[local] Hint Resolve guard_opt_total first_total last_opt_total : total.
#[local] Hint Extern 1 (total (ok_opt _)) => apply from_str_total : total.

Lemma parse_ports_total l : total (parse_ports l).
Proof. unfold parse_ports. solve_total. Qed.
Lemma as_port_total l : total (as_port (parse_ports l)).
Proof. pose proof (parse_ports_total l). unfold as_port. by destruct (parse_ports l) as [[]| |]. Qed.
Lemma as_channel_total l : total (as_channel (parse_channels l)).
Proof.
  assert (total (parse_channels l)) by (unfold parse_channels; solve_total).
  unfold as_channel. by destruct (parse_channels l) as [[]| |].
Qed.
Lemma as_sequence_total l : total (as_sequence (parse_sequences l)).
Proof.
  assert (total (parse_sequences l)) by (unfold parse_sequences; solve_total).
  unfold as_sequence. by destruct (parse_sequences l) as [[]| |].
Qed.
#[local] Hint Resolve parse_ports_total as_port_total as_channel_total as_sequence_total : total.

(** Every index of [parse_client_paths] but the first is guarded. *)
Lemma parse_client_paths_total l : l ≠ [CLIENT_PREFIX] → total (parse_client_paths l).
Proof.
  intros Hl. destruct l as [|x [|y l]]; unfold parse_client_paths; [done| |].
  - cbn. destruct (String.eqb_spec x CLIENT_PREFIX) as [->|]; done.
  - destruct l as [|c2 [|c3 [|c4 [|c5 l]]]]; cbn; solve_total;
      (apply (index_len_is 2); [by destruct (len_is 2 _)|lia]).
Qed.

Lemma parse_upgrades_total l : total (parse_upgrades l).
Proof.
  unfold parse_upgrades. destruct l as [|x [|y [|z [|? l]]]]; cbn; solve_total.
Qed.

Lemma parse_components_Panic l : parse_components l = Panic ↔ l = [CLIENT_PREFIX].
Proof.
  split; [|by intros ->]. intros Hp. apply dec_stable. intros Hl. revert Hp.
  apply parse_client_paths_total in Hl. pose proof (parse_upgrades_total l).
  unfold parse_components. rewrite !or_else_Panic.
  assert (total (parse_next_sequence l)) by (unfold parse_next_sequence; solve_total).
  assert (total (parse_connections l)) by (unfold parse_connections; solve_total).
  assert (total (parse_ports l)) by apply parse_ports_total.
  assert (total (parse_channel_ends l)) by (unfold parse_channel_ends; solve_total).
  assert (total (parse_seqs l)) by (unfold parse_seqs; solve_total).
  assert (total (parse_commitments l)) by (unfold parse_commitments, parse_packet_path; solve_total).
  assert (total (parse_acks l)) by (unfold parse_acks, parse_packet_path; solve_total).
  assert (total (parse_receipts l)) by (unfold parse_receipts, parse_packet_path; solve_total).
  unfold total in *. tauto.
Qed.

Lemma split_singleton s t : split SLASH s = [t] → s = t.
Proof.
  revert t. induction s as [|a s IH]; intros t; cbn; [by intros [= <-]|].
  case_bool_decide; [by intros [= _ ?%split_nil]|].
  destruct (split SLASH s) as [|x l] eqn:E; [by apply split_nil in E|].
  intros [= <- ->]. f_equal. by apply IH.
Qed.
End wf.

(** ** Theorems *)

Section theorems.
Context `{Unicode}.

(** Printing a path and parsing it back gives the path, for every path whose
    identifiers are valid and whose numbers are [u64]; and every path the
    parser returns is of that form. *)
Theorem path_display_parse_roundtrip p :
  (Path_wf p → Path_from_str (Path_to_string p) = Ok p)
  ∧ (∀ s, Path_from_str s = Ok p → Path_wf p).
Proof.
  split.
  - intros Hwf. rewrite Path_from_str_components, split_Path_to_string by done.
    by rewrite parse_Path_components.
  - intros s Hs. rewrite Path_from_str_components in Hs. inv_ok.
    by eapply parse_components_wf.
Qed.

Lemma Path_to_string_inj p q :
  Path_wf p → Path_wf q → Path_to_string p = Path_to_string q → p = q.
Proof.
  intros Hp Hq E. apply parse_Path_components in Hp as Hp'. apply parse_Path_components in Hq as Hq'.
  rewrite <- split_Path_to_string in Hp', Hq' by done. congruence.
Qed.

(** C36: No two well-formed paths share a store key, whatever their kinds: the
    stores of the different path kinds never overlap. *)
Theorem path_keys_disjoint p q :
  Path_wf p → Path_wf q → Path_into_bytes p = Path_into_bytes q → p = q.
Proof. intros Hp Hq E%as_bytes_inj. by apply Path_to_string_inj. Qed.

(** Parsing a path panics on exactly one string, the bare prefix of the
    client paths, whose second component is read before the number of
    components is checked; on every other string it returns. *)
Theorem path_from_str_panics s : Path_from_str s = Panic ↔ s = "clients".
Proof.
  rewrite Path_from_str_components, map_err_Panic, parse_components_Panic. split.
  - apply split_singleton.
  - by intros ->.
Qed.

(** The group under which a host iterates is the parent of its keys, and of no others: with
    [p] a path of a sequence number, the key of [p] is [commitments_path] (or [acks_path],
    [receipts_path]) of its channel end followed by the number, and the key of a consensus state
    or of the time or height it was processed at is its [parent] followed by the revision;
    [leaf] is what follows the client's own group. *)
Theorem path_groups (port : PortId) (chan : ChannelId) (n : Sequence) (id : ClientId) (rn rh : N) :
  let e := mkChannelEndPath port chan in
  CommitmentPath_to_string (mkCommitmentPath port chan n) = commitments_path e // show_u64 n
  ∧ AckPath_to_string (mkAckPath port chan n) = acks_path e // show_u64 n
  ∧ ReceiptPath_to_string (mkReceiptPath port chan n) = receipts_path e // show_u64 n
  ∧ (let p := mkClientConsensusStatePath id rn rh in
     ClientConsensusStatePath_to_string p = ClientConsensusStatePath_parent p // revision rn rh
     ∧ ClientConsensusStatePath_to_string p
       = ClientStatePath_prefix // client_id_str id // ClientConsensusStatePath_leaf p)
  ∧ (let p := mkClientUpdateTimePath id rn rh in
     ClientUpdateTimePath_to_string p
     = ClientUpdateTimePath_parent p // revision rn rh // PROCESSED_TIME
     ∧ ClientUpdateTimePath_to_string p
       = ClientStatePath_prefix // client_id_str id // ClientUpdateTimePath_leaf p)
  ∧ (let p := mkClientUpdateHeightPath id rn rh in
     ClientUpdateHeightPath_to_string p
     = ClientUpdateHeightPath_parent p // revision rn rh // PROCESSED_HEIGHT
     ∧ ClientUpdateHeightPath_to_string p
       = ClientStatePath_prefix // client_id_str id // ClientUpdateHeightPath_leaf p).
Proof.
  assert (∀ a b c, (a // b) // c = a // b // c) as Hassoc.
  { intros a b c. unfold seg. by rewrite app_assoc_str. }
  cbn zeta. unfold CommitmentPath_to_string, AckPath_to_string, ReceiptPath_to_string,
    commitments_path, acks_path, receipts_path, ChannelEndPath_full_sequences_path,
    port_channel_sequence, ClientConsensusStatePath_to_string, ClientConsensusStatePath_parent,
    ClientUpdateTimePath_to_string, ClientUpdateTimePath_parent,
    ClientUpdateHeightPath_to_string, ClientUpdateHeightPath_parent, full_consensus_state_path.
  rewrite !Hassoc. by split_and!.
Qed.

(** The keys by which consensus states are iterated sort as their heights do. *)
Theorem iteration_key_order (h h' : Height) :
  Height_wf h → Height_wf h' →
  bytes_cmp (iteration_key (height_revision_number h) (revision_height h))
            (iteration_key (height_revision_number h') (revision_height h'))
  = Height_cmp h h'.
Proof.
  intros Hh Hh'. unfold Height_wf in Hh, Hh'. destruct_and!. unfold iteration_key.
  rewrite !bytes_cmp_app, bytes_cmp_refl, !bytes_cmp_to_be_bytes by done. unfold Height_cmp.
  destruct (N.compare_spec (height_revision_number h) (height_revision_number h')),
    (N.compare_spec (revision_height h) (revision_height h'));
    repeat case_match; rewrite ?N.ltb_lt, ?N.ltb_ge in *; done || lia.
Qed.
End theorems.
