(* ===== verification/Connection.v ===== *)
(** * ICS-3 connection types

    [ibc-core/ics03-connection/types/src/{connection,version,error}.rs] and the
    commitment types of [ibc-core/ics23-commitment/types/src/commitment.rs]:
    connection ends, counterparties, version negotiation, and the conversions
    from and to the protobuf messages (records [Raw...], with the fields the
    conversions use). *)

From S2P Require Import Prelude RustStr Identifiers Primitives.
Local Open Scope string_scope.
Local Open Scope N_scope.

(** ** Commitment types *)

Record CommitmentPrefix := mkCommitmentPrefix { prefix_bytes : bytes }.
Record CommitmentRoot := mkCommitmentRoot { root_bytes : bytes }.
Record CommitmentProofBytes := mkCommitmentProofBytes { proof_bytes : bytes }.
#[export] Instance CommitmentPrefix_eq_dec : EqDecision CommitmentPrefix.
Proof. solve_decision. Defined.
#[export] Instance CommitmentRoot_eq_dec : EqDecision CommitmentRoot.
Proof. solve_decision. Defined.
#[export] Instance CommitmentProofBytes_eq_dec : EqDecision CommitmentProofBytes.
Proof. solve_decision. Defined.

Definition is_empty {A} (l : list A) : bool := match l with [] => true | _ => false end.

Definition CommitmentPrefix_try_from (b : bytes) : outcome CommitmentError CommitmentPrefix :=
  if is_empty b then Err EmptyCommitmentPrefix else Ok (mkCommitmentPrefix b).
Definition CommitmentProofBytes_try_from (b : bytes) :
    outcome CommitmentError CommitmentProofBytes :=
  if is_empty b then Err EmptyMerkleProof else Ok (mkCommitmentProofBytes b).

(** [google.protobuf.Any] and [Signer]. *)
Record Any := mkAny { type_url : string; any_value : bytes }.
#[export] Instance Any_eq_dec : EqDecision Any.
Proof. solve_decision. Defined.
Notation Signer := string (only parsing).

(** ** Versions *)

Record Version := mkVersion { identifier : string; features : list string }.
#[export] Instance Version_eq_dec : EqDecision Version.
Proof. solve_decision. Defined.

Inductive ConnectionState := ConnUninitialized | ConnInit | ConnTryOpen | ConnOpen.
#[export] Instance ConnectionState_eq_dec : EqDecision ConnectionState.
Proof. solve_decision. Defined.

Section error.
Context `{TmTime}.
Inductive ConnectionError :=
| ConnClient (e : ClientError)
| ConnInvalidState (expected actual : string)
| InvalidConsensusHeight (target_height current_height : Height)
| ConnInvalidIdentifier (e : IdentifierError)
| EmptyProtoConnectionEnd
| EmptyVersions
| InvalidVersionLength
| VersionNotSupported (version : Version)
| NoCommonVersion
| EmptyFeatures
| FeatureNotSupported (feature : string)
| NoCommonFeatures
| ConnMissingProofHeight
| MissingConsensusHeight
| ConnInvalidProof
| VerifyConnectionState (e : ClientError)
| ConnInvalidSigner (reason : string)
| ConnectionNotFound (connection_id : ConnectionId)
| ConnInvalidCounterparty
| ConnMissingCounterparty
| MissingClientState
| ConsensusStateVerificationFailure (height : Height) (client_error : ClientError)
| ClientStateVerificationFailure (client_id : ClientId) (client_error : ClientError)
| ConnInvalidClientState (reason : string)
| NotEnoughBlocksElapsed (current_host_height earliest_valid_height : Height)
| NotEnoughTimeElapsed (current_host_time earliest_valid_time : Timestamp)
| ConnTimestampOverflow (e : TimestampOverflowError)
| ConnCounterOverflow
| ConnOther (description : string).
End error.

Section versions.
Context `{TmTime}.

(** [iter().find(p)]. *)
Fixpoint find {A} (p : A → bool) (l : list A) : option A :=
  match l with [] => None | x :: l => if p x then Some x else find p l end.

Definition find_supported_version (version : Version) (supported_versions : list Version) :
    outcome ConnectionError Version :=
  ok_or (find (λ sv, identifier sv =? identifier version)%string supported_versions)
        (VersionNotSupported version).

Definition contains_feature (l : list string) (f : string) : bool := bool_decide (f ∈ l).

Definition verify_feature_supported (self : Version) (feature : string) :
    outcome ConnectionError () :=
  fail_if (negb (contains_feature (features self) feature)) (FeatureNotSupported feature).

(** [for f in l { check(f)?; }]. *)
Fixpoint check_all {E A} (check : A → outcome E ()) (l : list A) : outcome E () :=
  match l with [] => Ok tt | x :: l => check x;; check_all check l end.

Definition verify_is_supported (self : Version) (supported_versions : list Version) :
    outcome ConnectionError () :=
  maybe_supported_version ← find_supported_version self supported_versions;
  fail_if (is_empty (features self)) EmptyFeatures;;
  check_all (verify_feature_supported maybe_supported_version) (features self).

Definition compatibles : list Version := [mkVersion "1" ["ORDER_ORDERED"; "ORDER_UNORDERED"]].

Definition get_feature_set_intersection (supported_features counterparty_features : list string) :
    outcome ConnectionError (list string) :=
  let feature_set_intersection :=
    List.filter (contains_feature counterparty_features) supported_features in
  fail_if (is_empty feature_set_intersection) NoCommonFeatures;;
  Ok feature_set_intersection.

(** [v.sort_by(|a, b| a.identifier.cmp(&b.identifier))]: a stable sort; the
    order of strings is the one of their bytes. *)
Definition identifier_le (a b : Version) : bool := String.leb (identifier a) (identifier b).
Fixpoint insert_version (v : Version) (l : list Version) : list Version :=
  match l with
  | [] => [v]
  | w :: l' => if identifier_le v w then v :: l else w :: insert_version v l'
  end.
Fixpoint sort_versions (l : list Version) : list Version :=
  match l with [] => [] | v :: l => insert_version v (sort_versions l) end.

(** The body of the loop of [pick_version]: what one supported version adds. *)
Definition common_version (counterparty_versions : list Version) (sv : Version) : list Version :=
  match find_supported_version sv counterparty_versions with
  | Ok cv =>
    match get_feature_set_intersection (features sv) (features cv) with
    | Ok feature_set => [mkVersion (identifier cv) feature_set]
    | _ => []
    end
  | _ => []
  end.

Fixpoint push_common (counterparty_versions supported_versions intersection : list Version) :
    list Version :=
  match supported_versions with
  | [] => intersection
  | sv :: svs =>
    push_common counterparty_versions svs (intersection ++ common_version counterparty_versions sv)%list
  end.

Definition pick_version (supported_versions counterparty_versions : list Version) :
    outcome ConnectionError Version :=
  let intersection := push_common counterparty_versions supported_versions [] in
  fail_if (is_empty intersection) NoCommonVersion;;
  index (sort_versions intersection) 0.
End versions.

(** ** Connection ends *)

Record ConnCounterparty := mkConnCounterparty {
  cpty_client_id : ClientId;
  cpty_connection_id : option ConnectionId;
  cpty_prefix : CommitmentPrefix }.
#[export] Instance ConnCounterparty_eq_dec : EqDecision ConnCounterparty.
Proof. solve_decision. Defined.

Record ConnectionEnd := mkConnectionEnd {
  conn_state : ConnectionState;
  conn_client_id : ClientId;
  conn_counterparty : ConnCounterparty;
  conn_versions : list Version;
  conn_delay_period : Duration }.
#[export] Instance ConnectionEnd_eq_dec : EqDecision ConnectionEnd.
Proof. unfold Duration. solve_decision. Defined.

Definition ConnectionState_as_str (s : ConnectionState) : string :=
  match s with
  | ConnUninitialized => "UNINITIALIZED"
  | ConnInit => "INIT"
  | ConnTryOpen => "TRYOPEN"
  | ConnOpen => "OPEN"
  end.

(** [value as i32] and [TryFrom<i32>]. *)
Definition ConnectionState_as_i32 (s : ConnectionState) : Z :=
  match s with ConnUninitialized => 0 | ConnInit => 1 | ConnTryOpen => 2 | ConnOpen => 3 end.

Definition less_or_equal_progress (self other : ConnectionState) : bool :=
  (ConnectionState_as_i32 self <=? ConnectionState_as_i32 other)%Z.

(** [i32::to_string]. *)
Definition show_i32 (z : Z) : string :=
  if (z <? 0)%Z then "-" ++ show_u64 (Z.abs_N z) else show_u64 (Z.to_N z).

Section ends.
Context `{TmTime}.

Definition ConnectionState_from_i32 (s : Z) : outcome ConnectionError ConnectionState :=
  if (s =? 0)%Z then Ok ConnUninitialized
  else if (s =? 1)%Z then Ok ConnInit
  else if (s =? 2)%Z then Ok ConnTryOpen
  else if (s =? 3)%Z then Ok ConnOpen
  else Err (ConnInvalidState "Must be one of: 0, 1, 2, 3" (show_i32 s)).

Definition ConnectionEnd_new (state : ConnectionState) (client_id : ClientId)
    (counterparty : ConnCounterparty) (versions : list Version) (delay_period : Duration) :
    outcome ConnectionError ConnectionEnd :=
  fail_if (bool_decide (state ≠ ConnInit) && negb (length versions =? 1)%nat)
    InvalidVersionLength;;
  Ok (mkConnectionEnd state client_id counterparty versions delay_period).

Definition ConnectionEnd_verify_state_matches (self : ConnectionEnd) (expected : ConnectionState) :
    outcome ConnectionError () :=
  fail_if (negb (bool_decide (conn_state self = expected)))
    (ConnInvalidState (ConnectionState_as_str expected) (ConnectionState_as_str (conn_state self))).
End ends.

Definition ConnectionEnd_set_state (c : ConnectionEnd) (new_state : ConnectionState) :=
  mkConnectionEnd new_state (conn_client_id c) (conn_counterparty c) (conn_versions c)
    (conn_delay_period c).
Definition ConnectionEnd_set_counterparty (c : ConnectionEnd) (new_cparty : ConnCounterparty) :=
  mkConnectionEnd (conn_state c) (conn_client_id c) new_cparty (conn_versions c)
    (conn_delay_period c).
Definition ConnectionEnd_set_version (c : ConnectionEnd) (new_version : Version) :=
  mkConnectionEnd (conn_state c) (conn_client_id c) (conn_counterparty c) [new_version]
    (conn_delay_period c).

(** ** Protobuf conversions *)

Record RawVersion := mkRawVersion { raw_identifier : string; raw_features : list string }.
Record RawConnCounterparty := mkRawConnCounterparty {
  raw_cpty_client_id : string;
  raw_cpty_connection_id : string;
  raw_cpty_prefix : option bytes (* MerklePrefix { key_prefix } *) }.
Record RawConnectionEnd := mkRawConnectionEnd {
  raw_conn_client_id : string;
  raw_conn_versions : list RawVersion;
  raw_conn_state : Z;
  raw_conn_counterparty : option RawConnCounterparty;
  raw_conn_delay_period : N }.

(** [iter.map(f).collect::<Result<Vec<_>, _>>()]: the first error. *)
Fixpoint try_map {E A B} (f : A → outcome E B) (l : list A) : outcome E (list B) :=
  match l with
  | [] => Ok []
  | x :: l => y ← f x; ys ← try_map f l; Ok (y :: ys)
  end.

Definition is_blank (s : string) : bool := (trim s =? "")%string.

Section raw.
Context `{Unicode, TmTime}.

Definition Version_try_from (value : RawVersion) : outcome ConnectionError Version :=
  fail_if (is_blank (raw_identifier value)) EmptyVersions;;
  check_all (λ feature, fail_if (is_blank feature) EmptyFeatures) (raw_features value);;
  Ok (mkVersion (raw_identifier value) (raw_features value)).
Definition Version_into (value : Version) : RawVersion :=
  mkRawVersion (identifier value) (features value).

Definition ConnCounterparty_try_from (raw : RawConnCounterparty) :
    outcome ConnectionError ConnCounterparty :=
  connection_id ← (if (raw_cpty_connection_id raw =? "")%string then Ok None
                   else Some <$> map_err ConnInvalidIdentifier
                                   (ConnectionId_from_str (raw_cpty_connection_id raw)));
  client_id ← map_err ConnInvalidIdentifier (ClientId_from_str (raw_cpty_client_id raw));
  key_prefix ← ok_or (raw_cpty_prefix raw) ConnMissingCounterparty;
  prefix ← map_err (λ _, ConnClient EmptyPrefix) (CommitmentPrefix_try_from key_prefix);
  Ok (mkConnCounterparty client_id connection_id prefix).
Definition ConnCounterparty_into (value : ConnCounterparty) : RawConnCounterparty :=
  mkRawConnCounterparty
    (client_id_str (cpty_client_id value))
    (match cpty_connection_id value with None => "" | Some v => connection_id_str v end)
    (Some (prefix_bytes (cpty_prefix value))).
Definition verify_empty_connection_id (self : ConnCounterparty) : outcome ConnectionError () :=
  fail_if (bool_decide (is_Some (cpty_connection_id self))) ConnInvalidCounterparty.

Definition ConnectionEnd_try_from (value : RawConnectionEnd) :
    outcome ConnectionError ConnectionEnd :=
  state ← ConnectionState_from_i32 (raw_conn_state value);
  fail_if (raw_conn_client_id value =? "")%string EmptyProtoConnectionEnd;;
  fail_if (is_empty (raw_conn_versions value)) EmptyVersions;;
  client_id ← map_err ConnInvalidIdentifier (ClientId_from_str (raw_conn_client_id value));
  raw_counterparty ← ok_or (raw_conn_counterparty value) ConnMissingCounterparty;
  counterparty ← ConnCounterparty_try_from raw_counterparty;
  versions ← try_map Version_try_from (raw_conn_versions value);
  ConnectionEnd_new state client_id counterparty versions
    (Duration_from_nanos (raw_conn_delay_period value)).
Definition ConnectionEnd_into (value : ConnectionEnd) : RawConnectionEnd :=
  mkRawConnectionEnd
    (client_id_str (conn_client_id value))
    (Version_into <$> conn_versions value)
    (ConnectionState_as_i32 (conn_state value))
    (Some (ConnCounterparty_into (conn_counterparty value)))
    (as_nanos_u64 (conn_delay_period value)).
End raw.

(** ** Lemmas on version negotiation *)

Lemma string_leb_trans s t u :
  String.leb s t = true → String.leb t u = true → String.leb s u = true.
Proof.
  unfold String.leb. revert t u.
  induction s as [|a s IH]; intros [|b t] [|c u]; cbn; try done.
  unfold Ascii.compare.
  destruct (N.compare_spec (N_of_ascii a) (N_of_ascii b)),
           (N.compare_spec (N_of_ascii b) (N_of_ascii c)),
           (N.compare_spec (N_of_ascii a) (N_of_ascii c)); try done; try lia.
  apply IH.
Qed.

Lemma insert_version_elem v w l : w ∈ insert_version v l ↔ w = v ∨ w ∈ l.
Proof.
  induction l as [|x l IH]; cbn [insert_version].
  - set_solver.
  - destruct (identifier_le v x); rewrite !elem_of_cons, ?IH; naive_solver.
Qed.

Lemma sort_versions_elem w l : w ∈ sort_versions l ↔ w ∈ l.
Proof.
  induction l as [|v l IH]; [done|]. cbn [sort_versions].
  by rewrite insert_version_elem, elem_of_cons, IH.
Qed.

(** The head of the sorted list has the smallest identifier. *)
Lemma sort_versions_head v l l' :
  sort_versions l = v :: l' → ∀ w, w ∈ l → identifier_le v w = true.
Proof.
  revert v l'. induction l as [|x l IH]; intros v l'; [done|]. cbn [sort_versions].
  assert (identifier_le x x = true) as Hxx.
  { unfold identifier_le. by destruct (String.leb_total (identifier x) (identifier x)). }
  destruct (sort_versions l) as [|y ys] eqn:E; cbn [insert_version].
  - intros [= <- <-] w. destruct l as [|z l]; [|exfalso].
    + by intros ->%list_elem_of_singleton.
    + assert (z ∈ []) as []%elem_of_nil. rewrite <- E. apply sort_versions_elem. left.
  - specialize (IH y ys eq_refl). destruct (identifier_le x y) eqn:Hxy; intros [= <- <-] w [->|Hw]%elem_of_cons.
    + done.
    + unfold identifier_le in *. eauto using string_leb_trans.
    + unfold identifier_le in *. destruct (String.leb_total (identifier x) (identifier y)); congruence.
    + by apply IH.
Qed.

Lemma find_Some {A} (p : A → bool) l x : find p l = Some x → x ∈ l ∧ p x = true.
Proof.
  induction l as [|y l IH]; cbn; [done|]. destruct (p y) eqn:E; intros Hx.
  - injection Hx as ->. split; [left|done].
  - destruct (IH Hx). split; [by right|done].
Qed.

Lemma find_None {A} (p : A → bool) l : find p l = None ↔ ∀ x, x ∈ l → p x = false.
Proof.
  induction l as [|y l IH]; cbn; [by split; [intros _ ? []%elem_of_nil|]|].
  setoid_rewrite elem_of_cons. destruct (p y) eqn:E; [|naive_solver].
  split; [done|]. intros Hx. by rewrite Hx in E by auto.
Qed.

Lemma check_all_Ok {E A} (check : A → outcome E ()) l u :
  check_all check l = Ok u ↔ ∀ x, x ∈ l → check x = Ok tt.
Proof.
  destruct u. induction l as [|x l IH]; cbn.
  - split; [|done]. by intros _ x []%elem_of_nil.
  - setoid_rewrite elem_of_cons. rewrite bind_Ok. split.
    + intros ([] & ? & ?). naive_solver.
    + intros Hx. exists tt. naive_solver.
Qed.

Lemma is_empty_false {A} (l : list A) : is_empty l = false ↔ l ≠ [].
Proof. by destruct l. Qed.

Section pick.
Context `{TmTime}.

(** What both sides have in common on the identifier of [sv]. *)
Definition common (supported counterparty : list Version) (v : Version) : Prop :=
  ∃ sv cv, sv ∈ supported
    ∧ find (λ w, identifier w =? identifier sv)%string counterparty = Some cv
    ∧ identifier v = identifier sv
    ∧ features v = List.filter (contains_feature (features cv)) (features sv)
    ∧ features v ≠ [].

Lemma common_version_elem cp sv v :
  v ∈ common_version cp sv ↔
  ∃ cv, find (λ w, identifier w =? identifier sv)%string cp = Some cv
    ∧ identifier v = identifier sv
    ∧ features v = List.filter (contains_feature (features cv)) (features sv)
    ∧ features v ≠ [].
Proof.
  unfold common_version, find_supported_version, get_feature_set_intersection.
  destruct (find _ cp) as [cv|] eqn:Hf; cbn.
  - apply find_Some in Hf as Hcv. destruct Hcv as [_ Hid%String.eqb_eq].
    destruct (List.filter _ _) as [|f fs] eqn:Hfs; cbn.
    + rewrite elem_of_nil. split; [done|]. intros (? & [= <-] & _ & ? & ?). congruence.
    + rewrite list_elem_of_singleton. split.
      * intros ->. cbn. exists cv. by rewrite Hfs.
      * intros (? & [= <-] & ? & Hv & _). destruct v; cbn in *. congruence.
  - rewrite elem_of_nil. split; [done|]. by intros (? & ? & _).
Qed.

Lemma push_common_elem cp sup acc v :
  v ∈ push_common cp sup acc ↔ v ∈ acc ∨ common sup cp v.
Proof.
  revert acc. induction sup as [|sv sup IH]; intros acc; cbn.
  - split; [by left|]. intros [|(sv & ? & Hsv & _)]; [done|]. by apply elem_of_nil in Hsv.
  - rewrite IH, elem_of_app, common_version_elem. unfold common. setoid_rewrite elem_of_cons.
    naive_solver.
Qed.

Lemma pick_version_cases sup cp :
  match pick_version sup cp with
  | Ok v => common sup cp v ∧ ∀ w, common sup cp w → identifier_le v w = true
  | Err e => e = NoCommonVersion ∧ ∀ w, ¬ common sup cp w
  | Panic => False
  end.
Proof.
  unfold pick_version. set (l := push_common cp sup []).
  assert (∀ w, w ∈ l ↔ common sup cp w) as Hl.
  { intros w. unfold l. rewrite push_common_elem, elem_of_nil. naive_solver. }
  destruct l as [|x l'] eqn:El; cbn [is_empty fail_if mbind outcome_bind].
  - split; [done|]. intros w Hw. apply Hl in Hw. by apply elem_of_nil in Hw.
  - destruct (sort_versions (x :: l')) as [|v vs] eqn:Es.
    + assert (x ∈ sort_versions (x :: l')) as Hx by (apply sort_versions_elem; left).
      rewrite Es in Hx. by apply elem_of_nil in Hx.
    + cbn. split.
      * apply Hl, sort_versions_elem. rewrite Es. left.
      * intros w Hw%Hl. by eapply sort_versions_head.
Qed.

Lemma verify_is_supported_Ok v l u :
  verify_is_supported v l = Ok u ↔
  ∃ sv, find (λ w, identifier w =? identifier v)%string l = Some sv
    ∧ features v ≠ [] ∧ ∀ f, f ∈ features v → f ∈ features sv.
Proof.
  destruct u. unfold verify_is_supported, find_supported_version, verify_feature_supported.
  rewrite bind_Ok. setoid_rewrite ok_or_Ok. setoid_rewrite bind_Ok.
  setoid_rewrite fail_if_Ok. setoid_rewrite is_empty_false.
  setoid_rewrite check_all_Ok. setoid_rewrite fail_if_Ok.
  setoid_rewrite negb_false_iff. unfold contains_feature. setoid_rewrite bool_decide_eq_true.
  split; [naive_solver|]. intros (sv & ? & ? & ?). exists sv. eauto using tt.
Qed.
End pick.

(** Two entries with one identifier are the same when identifiers are unique. *)
Lemma find_unique (l : list Version) sv :
  NoDup (identifier <$> l) → sv ∈ l →
  find (λ w, identifier w =? identifier sv)%string l = Some sv.
Proof.
  induction l as [|x l IH]; cbn; [by intros _ []%elem_of_nil|].
  intros [Hx Hnd]%list.NoDup_cons [<-|Hsv]%elem_of_cons; [by rewrite String.eqb_refl|].
  destruct (String.eqb_spec (identifier x) (identifier sv)) as [Heq|]; [|by auto].
  destruct Hx. rewrite Heq. apply list_elem_of_fmap. eauto.
Qed.

(** ** Lemmas on the conversions *)

Lemma try_map_fmap {E A B} (f : A → outcome E B) (g : B → A) (l : list B) :
  (∀ y, y ∈ l → f (g y) = Ok y) → try_map f (g <$> l) = Ok l.
Proof.
  induction l as [|y l IH]; cbn; [done|]. intros Hf.
  rewrite Hf by left. cbn. rewrite IH; [done|]. intros z Hz. apply Hf. by right.
Qed.

Lemma try_map_Ok {E A B} (f : A → outcome E B) l l' :
  try_map f l = Ok l' → Forall2 (λ x y, f x = Ok y) l l'.
Proof.
  revert l'. induction l as [|x l IH]; intros l' Hl; cbn in Hl; inv_ok; constructor; auto.
Qed.

Lemma len_nonempty s : 1 <= len s → (s =? "")%string = false.
Proof. destruct s; [|done]. unfold len. cbn. lia. Qed.

Section conversions.
Context `{Unicode, TmTime}.

Definition Version_wf (v : Version) : Prop :=
  is_blank (identifier v) = false ∧ ∀ f, f ∈ features v → is_blank f = false.

Definition ConnCounterparty_wf (c : ConnCounterparty) : Prop :=
  client_ok (cpty_client_id c)
  ∧ (∀ i, cpty_connection_id c = Some i → connection_ok i)
  ∧ prefix_bytes (cpty_prefix c) ≠ [].

(** The type invariant of a connection end that came over the wire. *)
Definition ConnectionEnd_wf (c : ConnectionEnd) : Prop :=
  client_ok (conn_client_id c) ∧ ConnCounterparty_wf (conn_counterparty c)
  ∧ conn_versions c ≠ [] ∧ (∀ v, v ∈ conn_versions c → Version_wf v)
  ∧ (conn_state c ≠ ConnInit → length (conn_versions c) = 1%nat).

Lemma Version_try_from_Ok r v :
  Version_try_from r = Ok v ↔ r = Version_into v ∧ Version_wf v.
Proof.
  destruct r as [i fs], v as [i' fs']. unfold Version_try_from, Version_into, Version_wf. cbn.
  rewrite bind_Ok. setoid_rewrite bind_Ok. setoid_rewrite fail_if_Ok.
  setoid_rewrite check_all_Ok. setoid_rewrite fail_if_Ok. split.
  - intros (_ & ? & _ & ? & [= <- <-]). done.
  - intros ([= -> ->] & ? & ?). eauto using tt.
Qed.

Lemma connection_ok_nonempty i : connection_ok i → (connection_id_str i =? "")%string = false.
Proof.
  intros Hi. apply fmap_Ok in Hi as ([] & [_ Hl]%chars_then_length_Ok & _).
  apply len_nonempty. lia.
Qed.

Lemma client_ok_nonempty i : client_ok i → (client_id_str i =? "")%string = false.
Proof.
  intros Hi. apply fmap_Ok in Hi as ([] & [_ Hl]%chars_then_length_Ok & _).
  apply len_nonempty. lia.
Qed.

Lemma ConnCounterparty_try_from_into c :
  ConnCounterparty_wf c → ConnCounterparty_try_from (ConnCounterparty_into c) = Ok c.
Proof.
  destruct c as [client [conn|] [p]]; intros (Hc & Hn & Hp); cbn in *;
    unfold ConnCounterparty_try_from, ConnCounterparty_into; cbn [raw_cpty_connection_id
      raw_cpty_client_id raw_cpty_prefix cpty_client_id cpty_connection_id cpty_prefix prefix_bytes].
  - rewrite connection_ok_nonempty, (Hn conn), Hc by auto. cbn. by destruct p.
  - cbn. rewrite Hc. cbn. by destruct p.
Qed.

Lemma ConnCounterparty_try_from_wf r c :
  ConnCounterparty_try_from r = Ok c → ConnCounterparty_wf c.
Proof.
  unfold ConnCounterparty_try_from, CommitmentPrefix_try_from. intros Hc. inv_ok.
  destruct (is_empty _) eqn:He; inv_ok. split_and!; cbn.
  - by eapply ClientId_parsed.
  - intros i ->. destruct (_ =? "")%string; inv_ok; simplify_eq; by eapply ConnectionId_parsed.
  - by apply is_empty_false.
Qed.

Lemma ConnectionState_as_i32_inj s s' :
  ConnectionState_as_i32 s = ConnectionState_as_i32 s' → s = s'.
Proof. by destruct s, s'. Qed.

Lemma connection_id_some_inj (i j : option ConnectionId) :
  (∀ k, i = Some k → connection_id_str k ≠ "") → (∀ k, j = Some k → connection_id_str k ≠ "") →
  match i with None => "" | Some v => connection_id_str v end =
  match j with None => "" | Some v => connection_id_str v end → i = j.
Proof. destruct i as [[]|], j as [[]|]; naive_solver. Qed.

(** The protobuf form determines the connection end up to the truncated delay,
    and up to an empty counterparty identifier, which reads as none. *)
Lemma ConnectionEnd_into_inj c1 c2 :
  (∀ k, cpty_connection_id (conn_counterparty c1) = Some k → connection_id_str k ≠ "") →
  (∀ k, cpty_connection_id (conn_counterparty c2) = Some k → connection_id_str k ≠ "") →
  ConnectionEnd_into c1 = ConnectionEnd_into c2 →
  conn_state c1 = conn_state c2 ∧ conn_client_id c1 = conn_client_id c2
  ∧ conn_counterparty c1 = conn_counterparty c2 ∧ conn_versions c1 = conn_versions c2
  ∧ as_nanos_u64 (conn_delay_period c1) = as_nanos_u64 (conn_delay_period c2).
Proof.
  destruct c1 as [s1 [i1] [[ci1] o1 [p1]] v1 d1], c2 as [s2 [i2] [[ci2] o2 [p2]] v2 d2].
  unfold ConnectionEnd_into, ConnCounterparty_into. cbn. intros H1 H2 [= -> Hv Hs -> Ho -> Hd].
  apply ConnectionState_as_i32_inj in Hs as ->. apply connection_id_some_inj in Ho as ->; [|done..].
  split_and!; try done. revert v2 Hv. induction v1 as [|[] v1 IH]; intros [|[] v2]; cbn; try done.
  intros [= -> -> ?]. f_equal. by apply IH.
Qed.

Lemma ConnectionState_i32_roundtrip s : ConnectionState_from_i32 (ConnectionState_as_i32 s) = Ok s.
Proof. by destruct s. Qed.

Lemma ConnectionEnd_new_Ok s cl cp vs d c :
  ConnectionEnd_new s cl cp vs d = Ok c ↔
  c = mkConnectionEnd s cl cp vs d ∧ (s ≠ ConnInit → length vs = 1%nat).
Proof.
  unfold ConnectionEnd_new. rewrite bind_Ok. setoid_rewrite fail_if_Ok. split.
  - intros (_ & Hb & [= <-]). split; [done|]. intros Hs.
    rewrite bool_decide_eq_true_2 in Hb by done. cbn in Hb.
    by apply negb_false_iff, Nat.eqb_eq in Hb.
  - intros [-> Hs]. exists tt. split; [|done].
    case_bool_decide; [|done]. by rewrite Hs.
Qed.
End conversions.

(** ** Theorems *)

Section theorems.
Context `{Unicode, TmTime}.

(** [pick_version] returns a version both sides support, with the features
    common to both and the smallest identifier of all that qualify; it fails
    exactly when none qualifies, and the index after the sort never panics. *)
Theorem pick_version_minimal_common sup cp :
  match pick_version sup cp with
  | Ok v => common sup cp v
            ∧ ∀ w, common sup cp w → String.leb (identifier v) (identifier w) = true
  | Err e => e = NoCommonVersion ∧ ∀ w, ¬ common sup cp w
  | Panic => False
  end.
Proof. apply pick_version_cases. Qed.

(** The version the answering chain picks passes the check the initiating
    chain makes in the acknowledgement step against the versions it offered,
    and the answering chain's own check where its identifiers are unique. *)
Theorem picked_version_accepted sup cp v :
  pick_version sup cp = Ok v →
  verify_is_supported v cp = Ok tt
  ∧ (NoDup (identifier <$> sup) → verify_is_supported v sup = Ok tt).
Proof.
  intros Hv. pose proof (pick_version_cases sup cp) as Hp. rewrite Hv in Hp.
  destruct Hp as [(sv & cv & Hsv & Hf & Hid & Hfs & Hne) _].
  split; [|intros Hnd]; apply verify_is_supported_Ok; rewrite Hid.
  - exists cv. split_and!; [done..|]. intros f. rewrite Hfs. intros Hin.
    apply list_elem_of_In, filter_In in Hin as [_ Hin].
    by apply bool_decide_eq_true in Hin.
  - exists sv. rewrite find_unique by done. split_and!; [done..|]. intros f. rewrite Hfs.
    intros Hin. apply list_elem_of_In, filter_In in Hin as [Hin _].
    by apply list_elem_of_In.
Qed.

(** A well-formed connection end survives the trip through its protobuf
    form except for the delay, which is truncated to 64 bits of nanoseconds;
    and every end that is decoded is well-formed, so that a decoded end that is
    past [Init] has exactly one version. *)
Theorem connection_end_raw_roundtrip c :
  (ConnectionEnd_wf c →
    ConnectionEnd_try_from (ConnectionEnd_into c) =
      Ok (mkConnectionEnd (conn_state c) (conn_client_id c) (conn_counterparty c)
            (conn_versions c) (conn_delay_period c mod U64_SIZE)))
  ∧ (∀ r, ConnectionEnd_try_from r = Ok c → ConnectionEnd_wf c).
Proof.
  split.
  - intros (Hc & Hcp & Hne & Hvs & Hlen). unfold ConnectionEnd_try_from.
    cbn [ConnectionEnd_into raw_conn_state raw_conn_client_id raw_conn_versions
         raw_conn_counterparty raw_conn_delay_period].
    rewrite ConnectionState_i32_roundtrip. mstep.
    rewrite client_ok_nonempty by done. mstep.
    destruct (is_empty (Version_into <$> conn_versions c)) eqn:He.
    { by destruct (conn_versions c). }
    mstep. rewrite Hc. mstep. rewrite ConnCounterparty_try_from_into by done. mstep.
    rewrite try_map_fmap by (intros v Hv; apply Version_try_from_Ok; auto). mstep.
    by apply ConnectionEnd_new_Ok.
  - intros r Hr. unfold ConnectionEnd_try_from in Hr.
    inv_ok. match goal with H : ConnectionEnd_new _ _ _ _ _ = _ |- _ =>
      apply ConnectionEnd_new_Ok in H as [-> Hlen] end.
    match goal with H : try_map _ _ = Ok _ |- _ => apply try_map_Ok in H as Hvs end.
    split_and!; cbn; eauto using ClientId_parsed.
    + by eapply ConnCounterparty_try_from_wf.
    + intros ->. apply Forall2_nil_inv_r in Hvs as Hn. by rewrite Hn in *.
    + intros v Hv. apply list_elem_of_lookup in Hv as [i Hi].
      destruct (Forall2_lookup_r _ _ _ _ _ Hvs Hi) as (raw & _ & Hx).
      by apply Version_try_from_Ok in Hx as [_ ?].
Qed.
End theorems.
