(* ===== verification/Channel.v ===== *)
(** * ICS-4 channel and packet types

    [ibc-core/ics04-channel/types/src/{channel,packet,commitment,
    acknowledgement,timeout,version,error}.rs].  SHA-256 is the parameter
    [sha256] of the class [Sha256]. *)

From S2P Require Import Prelude RustStr Identifiers Primitives Connection.
Local Open Scope string_scope.
Local Open Scope N_scope.

Inductive Order := OrderNone | Unordered | Ordered.
Inductive ChannelState := ChanUninitialized | ChanInit | ChanTryOpen | ChanOpen | ChanClosed.
#[export] Instance Order_eq_dec : EqDecision Order.
Proof. solve_decision. Defined.
#[export] Instance ChannelState_eq_dec : EqDecision ChannelState.
Proof. solve_decision. Defined.

Record ChanVersion := mkChanVersion { chan_version_str : string }.
#[export] Instance ChanVersion_eq_dec : EqDecision ChanVersion.
Proof. solve_decision. Defined.

Record ChanCounterparty := mkChanCounterparty {
  rem_port_id : PortId;
  rem_channel_id : option ChannelId }.
#[export] Instance ChanCounterparty_eq_dec : EqDecision ChanCounterparty.
Proof. solve_decision. Defined.

Record ChannelEnd := mkChannelEnd {
  chan_state : ChannelState;
  chan_ordering : Order;
  chan_remote : ChanCounterparty;
  chan_connection_hops : list ConnectionId;
  chan_version : ChanVersion }.
#[export] Instance ChannelEnd_eq_dec : EqDecision ChannelEnd.
Proof. solve_decision. Defined.

Inductive TimeoutHeight := Never | At (h : Height).
#[export] Instance TimeoutHeight_eq_dec : EqDecision TimeoutHeight.
Proof. solve_decision. Defined.

Record PacketCommitment := mkPacketCommitment { commitment_bytes : bytes }.
Record AcknowledgementCommitment := mkAckCommitment { ack_commitment_bytes : bytes }.
Record Acknowledgement := mkAcknowledgement { ack_bytes : bytes }.
Inductive Receipt := ReceiptOk.
#[export] Instance PacketCommitment_eq_dec : EqDecision PacketCommitment.
Proof. solve_decision. Defined.
#[export] Instance AcknowledgementCommitment_eq_dec : EqDecision AcknowledgementCommitment.
Proof. solve_decision. Defined.
#[export] Instance Acknowledgement_eq_dec : EqDecision Acknowledgement.
Proof. solve_decision. Defined.

Section packet.
Context `{TmTime}.

Record Packet := mkPacket {
  seq_on_a : Sequence;
  port_id_on_a : PortId;
  chan_id_on_a : ChannelId;
  port_id_on_b : PortId;
  chan_id_on_b : ChannelId;
  data : bytes;
  timeout_height_on_b : TimeoutHeight;
  timeout_timestamp_on_b : Timestamp }.
#[export] Instance Packet_eq_dec : EqDecision Packet.
Proof. solve_decision. Defined.

(** ** Errors *)
Inductive ChannelError :=
| InvalidChannelEnd (channel_end : string)
| InvalidChannelId (expected actual : string)
| ChanInvalidState (expected actual : string)
| InvalidOrderType (expected actual : string)
| InvalidConnectionHopsLength (expected actual : N)
| ChanInvalidSigner (reason : string)
| ChanMissingHeight
| NonUtf8PacketData
| ChanMissingCounterparty
| UnsupportedChannelUpgradeSequence
| ChanVersionNotSupported (expected actual : ChanVersion)
| MissingChannel
| ChannelNotFound (port_id : PortId) (channel_id : ChannelId)
| PacketVerificationFailed (sequence : Sequence) (client_error : ClientError)
| VerifyChannelFailed (e : ClientError)
| ChanInvalidStringAsSequence (value : string) (error : IntErrorKind)
| ChanInvalidCounterparty (expected actual : ChanCounterparty)
| ChanAppModule (description : string)
| ChanUndefinedConnectionCounterparty (connection_id : ConnectionId)
| ChanInvalidProof
| ChanInvalidIdentifier (e : IdentifierError)
| ChanCounterOverflow
| ChanOther (description : string).

Inductive PacketError :=
| PktConnection (e : ConnectionError)
| PktChannel (e : ChannelError)
| LowPacketHeight (chain_height : Height) (timeout_height : TimeoutHeight)
| LowPacketTimestamp
| InvalidPacketSequence (given_sequence next_sequence : Sequence)
| InvalidChannelState (channel_id : ChannelId) (state : ChannelState)
| ConnectionNotOpen (connection_id : ConnectionId)
| PacketReceiptNotFound (sequence : Sequence)
| IncorrectPacketCommitment (sequence : Sequence)
| ImplementationSpecific
| PktUndefinedConnectionCounterparty (connection_id : ConnectionId)
| PktInvalidProof
| PacketTimeoutNotReached (timeout_height : TimeoutHeight) (chain_height : Height)
    (timeout_timestamp chain_timestamp : Timestamp)
| AcknowledgementExists (sequence : Sequence)
| InvalidAcknowledgement
| EmptyAcknowledgementStatus
| PacketAcknowledgementNotFound (sequence : Sequence)
| PktMissingHeight
| MissingPacket
| PktInvalidSigner (reason : string)
| PktAppModule (description : string)
| RouteNotFound
| ZeroPacketSequence
| ZeroPacketData
| InvalidTimeoutHeight
| InvalidPacketTimestamp (e : ParseTimestampError)
| MissingTimeout
| PktInvalidIdentifier (e : IdentifierError)
| MissingNextSendSeq (port_id : PortId) (channel_id : ChannelId)
| PktChannelNotFound (port_id : PortId) (channel_id : ChannelId)
| PacketCommitmentNotFound (sequence : Sequence)
| MissingNextRecvSeq (port_id : PortId) (channel_id : ChannelId)
| MissingNextAckSeq (port_id : PortId) (channel_id : ChannelId)
| PktOther (description : string).
End packet.

(** ** Channel ends *)

Definition ChannelState_as_string (s : ChannelState) : string :=
  match s with
  | ChanUninitialized => "UNINITIALIZED"
  | ChanInit => "INIT"
  | ChanTryOpen => "TRYOPEN"
  | ChanOpen => "OPEN"
  | ChanClosed => "CLOSED"
  end.
Definition ChannelState_as_i32 (s : ChannelState) : Z :=
  match s with
  | ChanUninitialized => 0 | ChanInit => 1 | ChanTryOpen => 2 | ChanOpen => 3 | ChanClosed => 4
  end.
Definition Order_as_str (o : Order) : string :=
  match o with
  | OrderNone => "ORDER_NONE_UNSPECIFIED"
  | Unordered => "ORDER_UNORDERED"
  | Ordered => "ORDER_ORDERED"
  end.
Definition Order_as_i32 (o : Order) : Z :=
  match o with OrderNone => 0 | Unordered => 1 | Ordered => 2 end.

Definition ChannelEnd_set_state (c : ChannelEnd) (s : ChannelState) : ChannelEnd :=
  mkChannelEnd s (chan_ordering c) (chan_remote c) (chan_connection_hops c) (chan_version c).
Definition ChannelEnd_set_version (c : ChannelEnd) (v : ChanVersion) : ChannelEnd :=
  mkChannelEnd (chan_state c) (chan_ordering c) (chan_remote c) (chan_connection_hops c) v.
Definition ChannelEnd_set_counterparty_channel_id (c : ChannelEnd) (i : ChannelId) : ChannelEnd :=
  mkChannelEnd (chan_state c) (chan_ordering c)
    (mkChanCounterparty (rem_port_id (chan_remote c)) (Some i))
    (chan_connection_hops c) (chan_version c).

Section ends.
Context `{TmTime}.

Definition ChannelState_from_i32 (s : Z) : outcome ChannelError ChannelState :=
  if (s =? 0)%Z then Ok ChanUninitialized
  else if (s =? 1)%Z then Ok ChanInit
  else if (s =? 2)%Z then Ok ChanTryOpen
  else if (s =? 3)%Z then Ok ChanOpen
  else if (s =? 4)%Z then Ok ChanClosed
  else Err (ChanInvalidState "Must be one of: 0, 1, 2, 3, 4" (show_i32 s)).

Definition Order_from_i32 (nr : Z) : outcome ChannelError Order :=
  if (nr =? 0)%Z then Ok OrderNone
  else if (nr =? 1)%Z then Ok Unordered
  else if (nr =? 2)%Z then Ok Ordered
  else Err (InvalidOrderType "Must be one of 0, 1, 2" (show_i32 nr)).

Definition ChannelEnd_validate_basic (self : ChannelEnd) : outcome ChannelError () :=
  fail_if (bool_decide (chan_state self = ChanUninitialized))
    (ChanInvalidState "Channel state cannot be Uninitialized"
       (ChannelState_as_string (chan_state self)));;
  fail_if (bool_decide (chan_ordering self = OrderNone))
    (InvalidOrderType "Channel ordering cannot be None" (Order_as_str (chan_ordering self))).

Definition ChannelEnd_new (state : ChannelState) (ordering : Order) (remote : ChanCounterparty)
    (connection_hops : list ConnectionId) (version : ChanVersion) :
    outcome ChannelError ChannelEnd :=
  let channel_end := mkChannelEnd state ordering remote connection_hops version in
  ChannelEnd_validate_basic channel_end;;
  Ok channel_end.

Definition ChannelEnd_verify_state_matches (self : ChannelEnd) (expected : ChannelState) :
    outcome ChannelError () :=
  fail_if (negb (bool_decide (chan_state self = expected)))
    (ChanInvalidState (ChannelState_as_string expected)
       (ChannelState_as_string (chan_state self))).

Definition ChannelEnd_verify_not_closed (self : ChannelEnd) : outcome ChannelError () :=
  fail_if (bool_decide (chan_state self = ChanClosed))
    (ChanInvalidState "Channel state cannot be Closed"
       (ChannelState_as_string (chan_state self))).

Definition ChannelEnd_verify_counterparty_matches (self : ChannelEnd)
    (expected : ChanCounterparty) : outcome ChannelError () :=
  fail_if (negb (bool_decide (chan_remote self = expected)))
    (ChanInvalidCounterparty expected (chan_remote self)).

Definition verify_connection_hops_length (connection_hops : list ConnectionId) (expected : N) :
    outcome ChannelError () :=
  fail_if (negb (N.of_nat (length connection_hops) =? expected))
    (InvalidConnectionHopsLength expected (N.of_nat (length connection_hops))).
Definition ChannelEnd_verify_connection_hops_length (self : ChannelEnd) :
    outcome ChannelError () :=
  verify_connection_hops_length (chan_connection_hops self) 1.

Definition ChanVersion_verify_is_expected (self expected : ChanVersion) :
    outcome ChannelError () :=
  fail_if (negb (bool_decide (self = expected))) (ChanVersionNotSupported expected self).

(** ** Acknowledgements *)

Definition Acknowledgement_try_from (b : bytes) : outcome PacketError Acknowledgement :=
  if is_empty b then Err InvalidAcknowledgement else Ok (mkAcknowledgement b).

(** ** Timeouts *)

Definition TimeoutHeight_is_set (self : TimeoutHeight) : bool :=
  match self with At _ => true | Never => false end.
Definition commitment_revision_number (self : TimeoutHeight) : N :=
  match self with At height => height_revision_number height | Never => 0 end.
Definition commitment_revision_height (self : TimeoutHeight) : N :=
  match self with At height => revision_height height | Never => 0 end.
Definition has_expired (self : TimeoutHeight) (height : Height) : bool :=
  match self with At timeout_height => Height_gtb height timeout_height | Never => false end.

Definition timed_out (self : Packet) (dst_chain_ts : Timestamp) (dst_chain_height : Height) :
    bool :=
  let height_timed_out := has_expired (timeout_height_on_b self) dst_chain_height in
  let timestamp_timed_out :=
    Timestamp_is_set (timeout_timestamp_on_b self)
    && bool_decide (Timestamp_check_expiry dst_chain_ts (timeout_timestamp_on_b self) = Expired) in
  height_timed_out || timestamp_timed_out.
End ends.

(** ** Commitments *)

Class Sha256 := {
  sha256 : bytes → bytes;
  sha256_length b : length (sha256 b) = 32%nat;
}.

(** The bytes the commitment of a packet is the hash of. *)
Definition packet_hash_input `{Sha256} (nanoseconds : N) (timeout_height : TimeoutHeight)
    (packet_data : bytes) : bytes :=
  (to_be_bytes nanoseconds
   ++ to_be_bytes (commitment_revision_number timeout_height)
   ++ to_be_bytes (commitment_revision_height timeout_height)
   ++ sha256 packet_data)%list.

Definition compute_packet_commitment `{TmTime, Sha256} {E} (packet_data : bytes)
    (timeout_height : TimeoutHeight) (timeout_timestamp : Timestamp) :
    outcome E PacketCommitment :=
  nanoseconds ← Timestamp_nanoseconds timeout_timestamp;
  Ok (mkPacketCommitment (sha256 (packet_hash_input nanoseconds timeout_height packet_data))).

Definition compute_ack_commitment `{Sha256} (ack : Acknowledgement) : AcknowledgementCommitment :=
  mkAckCommitment (sha256 (ack_bytes ack)).

(** ** Protobuf conversions *)

Record RawHeight := mkRawHeight { raw_revision_number : N; raw_revision_height : N }.
Record RawPacket := mkRawPacket {
  raw_sequence : N;
  raw_source_port : string;
  raw_source_channel : string;
  raw_destination_port : string;
  raw_destination_channel : string;
  raw_data : bytes;
  raw_timeout_height : option RawHeight;
  raw_timeout_timestamp : N }.
Record RawChanCounterparty := mkRawChanCounterparty {
  raw_rem_port_id : string; raw_rem_channel_id : string }.
Record RawChannel := mkRawChannel {
  raw_chan_state : Z;
  raw_chan_ordering : Z;
  raw_chan_counterparty : option RawChanCounterparty;
  raw_chan_connection_hops : list string;
  raw_chan_version : string;
  raw_chan_upgrade_sequence : N }.

Section raw.
Context `{Unicode, TmTime}.

Definition Height_try_from_raw (raw : RawHeight) : outcome ClientError Height :=
  Height_new (raw_revision_number raw) (raw_revision_height raw).
Definition Height_into_raw (h : Height) : RawHeight :=
  mkRawHeight (height_revision_number h) (revision_height h).

Definition TimeoutHeight_try_from_raw (raw : RawHeight) : outcome ClientError TimeoutHeight :=
  if (raw_revision_number raw =? 0) && (raw_revision_height raw =? 0) then Ok Never
  else height ← Height_try_from_raw raw; Ok (At height).
Definition TimeoutHeight_try_from (maybe_raw : option RawHeight) :
    outcome ClientError TimeoutHeight :=
  match maybe_raw with
  | Some raw_height => TimeoutHeight_try_from_raw raw_height
  | None => Ok Never
  end.
Definition TimeoutHeight_into (t : TimeoutHeight) : option RawHeight :=
  Some match t with At height => Height_into_raw height | Never => mkRawHeight 0 0 end.

Definition Packet_try_from (raw : RawPacket) : outcome PacketError Packet :=
  fail_if (Sequence_is_zero (raw_sequence raw)) ZeroPacketSequence;;
  fail_if (is_empty (raw_data raw)) ZeroPacketData;;
  packet_timeout_height ←
    map_err (λ _, InvalidTimeoutHeight) (TimeoutHeight_try_from (raw_timeout_height raw));
  timeout_timestamp_on_b ←
    map_err InvalidPacketTimestamp (Timestamp_from_nanoseconds (raw_timeout_timestamp raw));
  fail_if (negb (TimeoutHeight_is_set packet_timeout_height)
           && negb (Timestamp_is_set timeout_timestamp_on_b)) MissingTimeout;;
  port_id_on_a ← map_err PktInvalidIdentifier (PortId_from_str (raw_source_port raw));
  chan_id_on_a ← map_err PktInvalidIdentifier (ChannelId_from_str (raw_source_channel raw));
  port_id_on_b ← map_err PktInvalidIdentifier (PortId_from_str (raw_destination_port raw));
  chan_id_on_b ← map_err PktInvalidIdentifier (ChannelId_from_str (raw_destination_channel raw));
  Ok (mkPacket (raw_sequence raw) port_id_on_a chan_id_on_a port_id_on_b chan_id_on_b
        (raw_data raw) packet_timeout_height timeout_timestamp_on_b).

(** [From<Packet>] reads the timestamp, which may panic. *)
Definition Packet_into {E} (p : Packet) : outcome E RawPacket :=
  timeout_timestamp ← Timestamp_nanoseconds (timeout_timestamp_on_b p);
  Ok (mkRawPacket (seq_on_a p) (port_id_str (port_id_on_a p)) (channel_id_str (chan_id_on_a p))
        (port_id_str (port_id_on_b p)) (channel_id_str (chan_id_on_b p)) (data p)
        (TimeoutHeight_into (timeout_height_on_b p)) timeout_timestamp).

Definition ChanCounterparty_try_from (raw : RawChanCounterparty) :
    outcome ChannelError ChanCounterparty :=
  channel_id ← (if (raw_rem_channel_id raw =? "")%string then Ok None
                else Some <$> map_err ChanInvalidIdentifier
                                (ChannelId_from_str (raw_rem_channel_id raw)));
  port_id ← map_err ChanInvalidIdentifier (PortId_from_str (raw_rem_port_id raw));
  Ok (mkChanCounterparty port_id channel_id).
Definition ChanCounterparty_into (value : ChanCounterparty) : RawChanCounterparty :=
  mkRawChanCounterparty (port_id_str (rem_port_id value))
    (match rem_channel_id value with None => "" | Some v => channel_id_str v end).

Definition ChannelEnd_try_from (value : RawChannel) : outcome ChannelError ChannelEnd :=
  chan_state ← ChannelState_from_i32 (raw_chan_state value);
  chan_ordering ← Order_from_i32 (raw_chan_ordering value);
  raw_counterparty ← ok_or (raw_chan_counterparty value) ChanMissingCounterparty;
  remote ← ChanCounterparty_try_from raw_counterparty;
  connection_hops ←
    map_err ChanInvalidIdentifier
      (try_map ConnectionId_from_str (raw_chan_connection_hops value));
  ChannelEnd_new chan_state chan_ordering remote connection_hops
    (mkChanVersion (raw_chan_version value)).
Definition ChannelEnd_into (value : ChannelEnd) : RawChannel :=
  mkRawChannel (ChannelState_as_i32 (chan_state value)) (Order_as_i32 (chan_ordering value))
    (Some (ChanCounterparty_into (chan_remote value)))
    (connection_id_str <$> chan_connection_hops value)
    (chan_version_str (chan_version value)) 0.
End raw.

(** ** Lemmas *)

Section lemmas.
Context `{Unicode, TmTime}.

Definition TimeoutHeight_wf (t : TimeoutHeight) : Prop :=
  match t with Never => True | At h => Height_wf h end.

(** What [Timestamp::from_nanoseconds] can build: a date in the range of [u64]
    that is not the epoch itself. *)
Definition Timestamp_wf (t : Timestamp) : Prop :=
  match time t with
  | None => True
  | Some d => (0 < unix_nanos d)%Z ∧ (unix_nanos d < Z.of_N U64_SIZE)%Z
  end.

Lemma Timestamp_nanoseconds_wf {E} t :
  Timestamp_wf t → ∃ n, Timestamp_nanoseconds (E:=E) t = Ok n ∧ is_u64 n
    ∧ Timestamp_is_set t = negb (n =? 0).
Proof.
  unfold Timestamp_wf, Timestamp_nanoseconds, Timestamp_is_set, is_u64.
  destruct (time t) as [d|]; [|by exists 0].
  intros [Hl Hu]. exists (Z.to_N (unix_nanos d)).
  rewrite (proj2 (Z.leb_le _ _)), (proj2 (Z.ltb_lt _ _)) by lia.
  cbn. split_and!; [done|lia|]. by rewrite (proj2 (N.eqb_neq _ _)) by lia.
Qed.

Lemma Timestamp_nanoseconds_inj `{!TmTimeLaws} {E} t1 t2 n :
  Timestamp_wf t1 → Timestamp_wf t2 →
  Timestamp_nanoseconds (E:=E) t1 = Ok n → Timestamp_nanoseconds (E:=E) t2 = Ok n → t1 = t2.
Proof.
  destruct t1 as [[d1|]], t2 as [[d2|]]; unfold Timestamp_wf, Timestamp_nanoseconds; cbn;
    intros Hw1 Hw2; try destruct (_ && _); try destruct (_ && _); try done;
    intros [= N1] [= N2]; try lia.
  do 2 f_equal. apply unix_nanos_inj. lia.
Qed.

Lemma Timestamp_roundtrip `{!TmTimeLaws} {E} t n :
  Timestamp_wf t → Timestamp_nanoseconds (E:=E) t = Ok n → Timestamp_from_nanoseconds n = Ok t.
Proof.
  destruct t as [[d|]]; unfold Timestamp_wf, Timestamp_nanoseconds, Timestamp_from_nanoseconds;
    cbn; intros Hw; [|by intros [= <-]].
  destruct (_ && _); [|done]. intros [= <-].
  rewrite (proj2 (N.eqb_neq _ _)) by lia. rewrite Z2N.id by lia.
  destruct (of_unix_nanos_u64 (Z.to_N (unix_nanos d))) as [d' Hd'].
  { unfold is_u64, U64_SIZE. lia. }
  rewrite Z2N.id in Hd' by lia. rewrite Hd'. cbn. do 3 f_equal.
  apply unix_nanos_inj. by apply of_unix_nanos_Some.
Qed.

Lemma Timestamp_from_nanoseconds_wf `{!TmTimeLaws} n t :
  is_u64 n → Timestamp_from_nanoseconds n = Ok t → Timestamp_wf t.
Proof.
  unfold Timestamp_from_nanoseconds, Timestamp_wf, is_u64. intros Hn Ht.
  destruct (N.eqb_spec n 0); inv_ok; [done|]. cbn.
  match goal with H : of_unix_nanos _ = Some _ |- _ => apply of_unix_nanos_Some in H as -> end.
  unfold U64_SIZE in *. lia.
Qed.

Lemma to_be_bytes_app_inj n m l k :
  is_u64 n → is_u64 m → (to_be_bytes n ++ l = to_be_bytes m ++ k)%list → n = m ∧ l = k.
Proof.
  intros Hn Hm E. apply app_inj_1 in E as [E ->]; [|by rewrite !length_to_be_bytes].
  split; [by apply to_be_bytes_inj|done].
Qed.

Lemma TimeoutHeight_commitment_inj t1 t2 :
  TimeoutHeight_wf t1 → TimeoutHeight_wf t2 →
  commitment_revision_number t1 = commitment_revision_number t2 →
  commitment_revision_height t1 = commitment_revision_height t2 → t1 = t2.
Proof.
  destruct t1 as [|[]], t2 as [|[]]; cbn; unfold Height_wf; cbn; intuition congruence.
Qed.

Lemma TimeoutHeight_commitment_u64 t :
  TimeoutHeight_wf t →
  is_u64 (commitment_revision_number t) ∧ is_u64 (commitment_revision_height t).
Proof. destruct t as [|[]]; cbn; [done|]. by intros (? & ? & _). Qed.

Lemma Height_raw_roundtrip h :
  revision_height h ≠ 0 → Height_try_from_raw (Height_into_raw h) = Ok h.
Proof.
  intros Hh. unfold Height_try_from_raw, Height_into_raw. cbn. apply Height_new_Ok. by destruct h.
Qed.

Lemma TimeoutHeight_roundtrip t :
  TimeoutHeight_wf t → TimeoutHeight_try_from (TimeoutHeight_into t) = Ok t.
Proof.
  destruct t as [|[r h]]; [done|]. intros (_ & _ & Hh). cbn in *.
  unfold TimeoutHeight_try_from_raw, Height_try_from_raw. cbn.
  destruct (N.eqb_spec h 0); [done|]. rewrite andb_false_r.
  by rewrite (proj2 (Height_new_Ok r h (mkHeight r h))).
Qed.

Lemma TimeoutHeight_try_from_wf r t :
  (∀ h, r = Some h → is_u64 (raw_revision_number h) ∧ is_u64 (raw_revision_height h)) →
  TimeoutHeight_try_from r = Ok t → TimeoutHeight_wf t.
Proof.
  unfold TimeoutHeight_try_from, TimeoutHeight_try_from_raw, Height_try_from_raw.
  destruct r as [[n h]|]; [|by intros _ [= <-]]. intros Hr Ht.
  destruct (Hr _ eq_refl). cbn in *.
  destruct (_ && _); inv_ok; [done|].
  match goal with H : Height_new _ _ = _ |- _ => apply Height_new_Ok in H as [-> ?] end.
  by split_and!.
Qed.

(** *** Well-formed packets and channel ends *)

Definition Packet_wf (p : Packet) : Prop :=
  is_u64 (seq_on_a p) ∧ seq_on_a p ≠ 0 ∧ data p ≠ []
  ∧ port_ok (port_id_on_a p) ∧ channel_ok (chan_id_on_a p)
  ∧ port_ok (port_id_on_b p) ∧ channel_ok (chan_id_on_b p)
  ∧ TimeoutHeight_wf (timeout_height_on_b p) ∧ Timestamp_wf (timeout_timestamp_on_b p)
  ∧ (TimeoutHeight_is_set (timeout_height_on_b p) = true
     ∨ Timestamp_is_set (timeout_timestamp_on_b p) = true).

(** The ranges protobuf gives the integer fields of a raw packet. *)
Definition RawPacket_u64 (r : RawPacket) : Prop :=
  is_u64 (raw_sequence r) ∧ is_u64 (raw_timeout_timestamp r)
  ∧ ∀ h, raw_timeout_height r = Some h →
      is_u64 (raw_revision_number h) ∧ is_u64 (raw_revision_height h).

Definition ChannelEnd_wf (c : ChannelEnd) : Prop :=
  chan_state c ≠ ChanUninitialized ∧ chan_ordering c ≠ OrderNone
  ∧ port_ok (rem_port_id (chan_remote c))
  ∧ (∀ i, rem_channel_id (chan_remote c) = Some i → channel_ok i)
  ∧ (∀ i, i ∈ chan_connection_hops c → connection_ok i).

Lemma ChannelEnd_new_Ok s o r h v c :
  ChannelEnd_new s o r h v = Ok c ↔
  c = mkChannelEnd s o r h v ∧ s ≠ ChanUninitialized ∧ o ≠ OrderNone.
Proof.
  unfold ChannelEnd_new, ChannelEnd_validate_basic. cbn [chan_state chan_ordering].
  do 2 case_bool_decide; cbn; naive_solver.
Qed.

(** A counterparty channel identifier is not the empty string, which the protobuf
    form uses for "none". *)
Definition named_remote (c : ChannelEnd) : Prop :=
  ∀ k, rem_channel_id (chan_remote c) = Some k → channel_id_str k ≠ "".

Lemma ChannelEnd_into_inj c1 c2 :
  named_remote c1 → named_remote c2 → ChannelEnd_into c1 = ChannelEnd_into c2 → c1 = c2.
Proof.
  destruct c1 as [s1 o1 [[p1] i1] h1 [v1]], c2 as [s2 o2 [[p2] i2] h2 [v2]].
  unfold named_remote, ChannelEnd_into, ChanCounterparty_into. cbn.
  intros N1 N2 [= Hs Ho -> Hi Hh ->].
  assert (s1 = s2) as -> by (by destruct s1, s2).
  assert (o1 = o2) as -> by (by destruct o1, o2).
  assert (i1 = i2) as -> by (destruct i1 as [[]|], i2 as [[]|]; naive_solver).
  f_equal. revert h2 Hh. induction h1 as [|[] h1 IH]; intros [|[] h2]; cbn; try done.
  intros [= -> ?]. f_equal. by apply IH.
Qed.

Lemma channel_ok_nonempty i : channel_ok i → (channel_id_str i =? "")%string = false.
Proof.
  intros Hi. apply fmap_Ok in Hi as ([] & [_ Hl]%chars_then_length_Ok & _).
  apply len_nonempty. lia.
Qed.

Lemma ChanCounterparty_roundtrip c :
  port_ok (rem_port_id c) → (∀ i, rem_channel_id c = Some i → channel_ok i) →
  ChanCounterparty_try_from (ChanCounterparty_into c) = Ok c.
Proof.
  destruct c as [p [i|]]; cbn; intros Hp Hi; unfold ChanCounterparty_try_from;
    cbn [raw_rem_channel_id raw_rem_port_id ChanCounterparty_into rem_port_id rem_channel_id].
  - rewrite channel_ok_nonempty, (Hi i), Hp by auto. done.
  - cbn. by rewrite Hp.
Qed.

Lemma ChanCounterparty_try_from_wf r c :
  ChanCounterparty_try_from r = Ok c →
  port_ok (rem_port_id c) ∧ ∀ i, rem_channel_id c = Some i → channel_ok i.
Proof.
  unfold ChanCounterparty_try_from. intros Hc. inv_ok. cbn. split; [by eapply PortId_parsed|].
  intros i ->. destruct (_ =? "")%string; inv_ok; simplify_eq. by eapply ChannelId_parsed.
Qed.
End lemmas.

(** Two given byte strings collide: they differ and have the same hash.  Hashes
    do collide; what matters is that forging a packet needs a collision between
    the packet sent and the one forged. *)
Definition collide `{Sha256} (x y : bytes) : Prop := x ≠ y ∧ sha256 x = sha256 y.
Definition commitments_collide `{TmTime, Sha256} (d1 : bytes) (h1 : TimeoutHeight) (t1 : Timestamp)
    (d2 : bytes) (h2 : TimeoutHeight) (t2 : Timestamp) : Prop :=
  collide d1 d2
  ∨ ∃ n1 n2, Timestamp_nanoseconds (E:=PacketError) t1 = Ok n1
      ∧ Timestamp_nanoseconds (E:=PacketError) t2 = Ok n2
      ∧ collide (packet_hash_input n1 h1 d1) (packet_hash_input n2 h2 d2).

(** ** Theorems *)

Section theorems.
Context `{Unicode, TmTime, !TmTimeLaws}.

Lemma Timestamp_nanoseconds_any {E E'} t n :
  Timestamp_nanoseconds (E:=E) t = Ok n → Timestamp_nanoseconds (E:=E') t = Ok n.
Proof. unfold Timestamp_nanoseconds. repeat case_match; congruence. Qed.

Lemma packet_commitment_inj `{Sha256} {E} d1 h1 t1 d2 h2 t2 :
  TimeoutHeight_wf h1 → TimeoutHeight_wf h2 → Timestamp_wf t1 → Timestamp_wf t2 →
  compute_packet_commitment (E:=E) d1 h1 t1 = compute_packet_commitment d2 h2 t2 →
  (d1 = d2 ∧ h1 = h2 ∧ t1 = t2) ∨ commitments_collide d1 h1 t1 d2 h2 t2.
Proof.
  intros Hh1 Hh2 Ht1 Ht2. unfold compute_packet_commitment.
  destruct (Timestamp_nanoseconds_wf (E:=E) t1 Ht1) as (n1 & E1 & Hn1 & _).
  destruct (Timestamp_nanoseconds_wf (E:=E) t2 Ht2) as (n2 & E2 & Hn2 & _).
  destruct (TimeoutHeight_commitment_u64 h1 Hh1), (TimeoutHeight_commitment_u64 h2 Hh2).
  rewrite E1, E2. cbn [mbind outcome_bind]. intros Heq.
  assert (∀ a b, Ok (E:=E) (mkPacketCommitment a) = Ok (mkPacketCommitment b) → a = b)
    as Hok by congruence.
  apply Hok in Heq. clear Hok.
  match type of Heq with sha256 ?x = sha256 ?y => destruct (decide (x = y)) as [Exy|Hne] end;
    [|right; right; exists n1, n2; split_and!; [by eapply Timestamp_nanoseconds_any..|done]].
  apply to_be_bytes_app_inj in Exy as [<- Exy]; [|done..].
  apply to_be_bytes_app_inj in Exy as [Er Exy]; [|done..].
  apply to_be_bytes_app_inj in Exy as [Eh Exy]; [|done..].
  destruct (decide (d1 = d2)) as [->|]; [|by right; left].
  left. split_and!; [done| |].
  - by apply TimeoutHeight_commitment_inj.
  - by eapply Timestamp_nanoseconds_inj.
Qed.

(** A packet commitment binds the packet: two packets with the same
    commitment have the same data and timeouts, or SHA-256 collides on their data
    or on the two inputs of the outer hash.  In particular "no timeout height" is not confused
    with any height. *)
Theorem packet_commitment_binding `{Sha256} d1 h1 t1 d2 h2 t2 :
  TimeoutHeight_wf h1 → TimeoutHeight_wf h2 → Timestamp_wf t1 → Timestamp_wf t2 →
  compute_packet_commitment (E:=PacketError) d1 h1 t1 = compute_packet_commitment d2 h2 t2 →
  (d1 = d2 ∧ h1 = h2 ∧ t1 = t2) ∨ commitments_collide d1 h1 t1 d2 h2 t2.
Proof. apply packet_commitment_inj. Qed.

(** A well-formed packet survives the trip through its protobuf form, and
    what is decoded is well-formed: a non-zero sequence, non-empty data, valid
    identifiers and at least one timeout. *)
Theorem packet_raw_roundtrip p :
  (Packet_wf p → ∃ r, Packet_into (E:=PacketError) p = Ok r ∧ Packet_try_from r = Ok p)
  ∧ (∀ r, RawPacket_u64 r → Packet_try_from r = Ok p → Packet_wf p).
Proof.
  split.
  - intros (_ & Hs & Hd & Hpa & Hca & Hpb & Hcb & Hh & Ht & Hset).
    destruct (Timestamp_nanoseconds_wf (E:=PacketError) _ Ht) as (n & En & _).
    unfold Packet_into. rewrite En. eexists. split; [done|].
    unfold Packet_try_from. cbn [raw_sequence raw_source_port raw_source_channel
      raw_destination_port raw_destination_channel raw_data raw_timeout_height
      raw_timeout_timestamp].
    unfold Sequence_is_zero. rewrite (proj2 (N.eqb_neq _ _)) by done.
    rewrite (proj2 (is_empty_false _)) by done. mstep.
    rewrite TimeoutHeight_roundtrip by done. mstep.
    erewrite Timestamp_roundtrip by done. mstep.
    assert (negb (TimeoutHeight_is_set (timeout_height_on_b p))
            && negb (Timestamp_is_set (timeout_timestamp_on_b p)) = false) as ->
      by (destruct Hset as [-> | ->]; [done|by rewrite andb_false_r]).
    mstep. rewrite Hpa, Hca, Hpb, Hcb. mstep. by destruct p.
  - intros r (Hs & Ht & Hh) Hp. unfold Packet_try_from, Sequence_is_zero in Hp.
    inv_ok. split_and!; cbn;
      eauto using PortId_parsed, ChannelId_parsed, TimeoutHeight_try_from_wf,
        Timestamp_from_nanoseconds_wf.
    + by apply N.eqb_neq.
    + by apply is_empty_false.
    + repeat match goal with
      | H : negb ?a && negb ?b = false |- _ => destruct a, b; cbn in H; auto; done end.
Qed.

(** A well-formed channel end survives the trip through its protobuf form,
    and what is decoded is well-formed. *)
Theorem channel_end_raw_roundtrip c :
  (ChannelEnd_wf c → ChannelEnd_try_from (ChannelEnd_into c) = Ok c)
  ∧ (∀ r, ChannelEnd_try_from r = Ok c → ChannelEnd_wf c).
Proof.
  split.
  - intros (Hs & Ho & Hp & Hc & Hh). unfold ChannelEnd_try_from.
    cbn [ChannelEnd_into raw_chan_state raw_chan_ordering raw_chan_counterparty
         raw_chan_connection_hops raw_chan_version].
    assert (ChannelState_from_i32 (ChannelState_as_i32 (chan_state c)) = Ok (chan_state c))
      as -> by (by destruct (chan_state c)).
    assert (Order_from_i32 (Order_as_i32 (chan_ordering c)) = Ok (chan_ordering c)) as ->
      by (by destruct (chan_ordering c)).
    mstep. rewrite ChanCounterparty_roundtrip by done. mstep.
    rewrite try_map_fmap by done. mstep.
    apply ChannelEnd_new_Ok. by destruct c as [? ? ? ? []].
  - intros r Hr. unfold ChannelEnd_try_from in Hr. inv_ok.
    match goal with H : ChannelEnd_new _ _ _ _ _ = _ |- _ =>
      apply ChannelEnd_new_Ok in H as (-> & ? & ?) end.
    match goal with H : ChanCounterparty_try_from _ = _ |- _ =>
      apply ChanCounterparty_try_from_wf in H as [? ?] end.
    split_and!; cbn; try done. intros i Hi.
    match goal with H : try_map _ _ = Ok _ |- _ => apply try_map_Ok in H as Hm end.
    apply list_elem_of_lookup in Hi as [k Hk].
    destruct (Forall2_lookup_r _ _ _ _ _ Hm Hk) as (? & _ & Hx). by eapply ConnectionId_parsed.
Qed.

(** The destination at [ts'], [h'] is at or past where it was at [ts], [h]. *)
Definition no_earlier (ts : Timestamp) (h : Height) (ts' : Timestamp) (h' : Height) : Prop :=
  (h = h' ∨ height_lt h h')
  ∧ ∀ t, time ts = Some t → ∃ t', time ts' = Some t' ∧ (unix_nanos t <= unix_nanos t')%Z.

Lemma timed_out_iff p ts h :
  timed_out p ts h = true ↔
    (∃ th, timeout_height_on_b p = At th ∧ height_lt th h)
    ∨ (∃ tt t, time (timeout_timestamp_on_b p) = Some tt ∧ time ts = Some t
               ∧ (unix_nanos tt < unix_nanos t)%Z).
Proof.
  unfold timed_out. rewrite orb_true_iff, andb_true_iff. apply Morphisms_Prop.or_iff_morphism.
  - unfold has_expired. destruct (timeout_height_on_b p) as [|th]; [naive_solver|].
    rewrite Height_gtb_spec. naive_solver.
  - unfold Timestamp_is_set, Timestamp_check_expiry. rewrite !bool_decide_eq_true.
    destruct (time ts) as [t|], (time (timeout_timestamp_on_b p)) as [tt|]; try naive_solver.
    destruct (Z.ltb_spec (unix_nanos tt) (unix_nanos t)); [naive_solver|].
    split; [by intros [_ ?]|]. intros (? & ? & [= <-] & [= <-] & ?). lia.
Qed.

Lemma timed_out_mono p ts h ts' h' :
  no_earlier ts h ts' h' → timed_out p ts h = true → timed_out p ts' h' = true.
Proof.
  intros [Hh Ht]. rewrite !timed_out_iff.
  intros [(th & -> & Hlt)|(tt & t & -> & Hts & Hlt)].
  - left. exists th. split; [done|]. destruct Hh as [<-|Hh]; [done|].
    unfold height_lt in *. lia.
  - right. destruct (Ht t Hts) as (t' & -> & ?). exists tt, t'. split_and!; [done..|lia].
Qed.

(** A packet is timed out exactly when its destination is strictly past the
    timeout height or strictly past the timeout timestamp, each only when set;
    and a packet that timed out stays timed out as the destination advances. *)
Theorem timed_out_spec p ts h :
  (timed_out p ts h = true ↔
    (∃ th, timeout_height_on_b p = At th ∧ height_lt th h)
    ∨ (∃ tt t, time (timeout_timestamp_on_b p) = Some tt ∧ time ts = Some t
               ∧ (unix_nanos tt < unix_nanos t)%Z))
  ∧ (∀ ts' h', no_earlier ts h ts' h' → timed_out p ts h = true → timed_out p ts' h' = true).
Proof. split; [apply timed_out_iff|]. intros ts' h'. apply timed_out_mono. Qed.
End theorems.
