(* ===== verification/Context.v ===== *)
(** * The host context

    The storage half of [ValidationContext] and [ExecutionContext]
    ([ibc-core/ics24-host/src/context.rs], [ics02-client/context/src/context.rs])
    as implemented by [MockIbcStore] ([ibc-testkit/src/testapp/ibc/core/
    {core_ctx,client_ctx,types}.rs]), the error and event types of
    [ics25-handler/types], and the interfaces the handlers are generic in:

    - [ChainTypes]: the associated types of the context traits;
    - [LightClient]: the traits [ClientStateCommon], [ClientStateValidation],
      [ClientStateExecution] and [ConsensusState];
    - [Host]: what the chain knows of itself (height, time, own client states);
    - [Codec]: the protobuf and [Display] encodings, generated code;
    - [CodecLaws]: protobuf encodings can be decoded. *)

From S2P Require Import Prelude RustStr Identifiers Primitives Path Connection Channel.
Local Open Scope string_scope.
Local Open Scope N_scope.

(** ** Errors and events *)

Inductive RouterError :=
| UnknownMessageTypeUrl (url : string)
| MalformedMessageBytes (reason : string)
| UnknownPort (port_id : PortId)
| ModuleNotFound.

Record ModuleEventAttribute := mkModuleEventAttribute { attr_key : string; attr_value : string }.
Record ModuleEvent := mkModuleEvent {
  kind : string; event_attributes : list ModuleEventAttribute }.
Record ModuleExtras := mkModuleExtras { extra_events : list ModuleEvent; extra_log : list string }.
Definition ModuleExtras_empty : ModuleExtras := mkModuleExtras [] [].

Inductive MessageEvent := EvClient | EvConnection | EvChannel | EvModule (name : string).

Section errors.
Context `{TmTime}.

Inductive ContextError :=
| CtxClient (e : ClientError)
| CtxConnection (e : ConnectionError)
| CtxChannel (e : ChannelError)
| CtxPacket (e : PacketError)
| CtxRouter (e : RouterError).

(** The conversions [?] inserts. *)
Definition err_client {A} : outcome ClientError A → outcome ContextError A := map_err CtxClient.
Definition err_connection {A} : outcome ConnectionError A → outcome ContextError A :=
  map_err CtxConnection.
Definition err_channel {A} : outcome ChannelError A → outcome ContextError A :=
  map_err CtxChannel.
Definition err_packet {A} : outcome PacketError A → outcome ContextError A :=
  map_err CtxPacket.
Definition err_router {A} : outcome RouterError A → outcome ContextError A :=
  map_err CtxRouter.

(** Events, with the arguments of their constructors. *)
Inductive IbcEvent :=
| CreateClient (client_id : ClientId) (client_type : ClientType) (consensus_height : Height)
| UpdateClient (client_id : ClientId) (client_type : ClientType) (consensus_height : Height)
    (consensus_heights : list Height) (header : bytes)
| UpgradeClient (client_id : ClientId) (client_type : ClientType) (consensus_height : Height)
| ClientMisbehaviour (client_id : ClientId) (client_type : ClientType)
| OpenInitConnection (conn_id_on_a : ConnectionId) (client_id_on_a client_id_on_b : ClientId)
| OpenTryConnection (conn_id_on_b : ConnectionId) (client_id_on_b : ClientId)
    (conn_id_on_a : ConnectionId) (client_id_on_a : ClientId)
| OpenAckConnection (conn_id_on_a : ConnectionId) (client_id_on_a : ClientId)
    (conn_id_on_b : ConnectionId) (client_id_on_b : ClientId)
| OpenConfirmConnection (conn_id_on_b : ConnectionId) (client_id_on_b : ClientId)
    (conn_id_on_a : ConnectionId) (client_id_on_a : ClientId)
| OpenInitChannel (port_id_on_a : PortId) (chan_id_on_a : ChannelId) (port_id_on_b : PortId)
    (conn_id_on_a : ConnectionId) (version_on_a : ChanVersion)
| OpenTryChannel (port_id_on_b : PortId) (chan_id_on_b : ChannelId) (port_id_on_a : PortId)
    (chan_id_on_a : ChannelId) (conn_id_on_b : ConnectionId) (version_on_b : ChanVersion)
| OpenAckChannel (port_id_on_a : PortId) (chan_id_on_a : ChannelId) (port_id_on_b : PortId)
    (chan_id_on_b : ChannelId) (conn_id_on_a : ConnectionId)
| OpenConfirmChannel (port_id_on_b : PortId) (chan_id_on_b : ChannelId) (port_id_on_a : PortId)
    (chan_id_on_a : ChannelId) (conn_id_on_b : ConnectionId)
| CloseInitChannel (port_id_on_a : PortId) (chan_id_on_a : ChannelId) (port_id_on_b : PortId)
    (chan_id_on_b : ChannelId) (conn_id_on_a : ConnectionId)
| CloseConfirmChannel (port_id_on_b : PortId) (chan_id_on_b : ChannelId) (port_id_on_a : PortId)
    (chan_id_on_a : ChannelId) (conn_id_on_b : ConnectionId)
| SendPacket (packet : Packet) (channel_ordering : Order) (src_connection_id : ConnectionId)
| ReceivePacket (packet : Packet) (channel_ordering : Order) (dst_connection_id : ConnectionId)
| WriteAcknowledgement (packet : Packet) (acknowledgement : Acknowledgement)
    (conn_id_on_b : ConnectionId)
| AcknowledgePacket (packet : Packet) (channel_ordering : Order) (src_connection_id : ConnectionId)
| TimeoutPacket (packet : Packet) (channel_ordering : Order)
| ChannelClosed (port_id_on_a : PortId) (chan_id_on_a : ChannelId) (port_id_on_b : PortId)
    (maybe_chan_id_on_b : option ChannelId) (conn_id_on_a : ConnectionId)
    (channel_ordering : Order)
| EventModule (e : ModuleEvent)
| EventMessage (e : MessageEvent).
End errors.

(** ** Maps by port, channel and sequence *)

Notation PortChannelIdMap V := (gmap PortId (gmap ChannelId V)) (only parsing).

Definition pc_get {V} (m : PortChannelIdMap V) (p : PortId) (c : ChannelId) : option V :=
  inner ← m !! p; inner !! c.
(** [m.entry(p).or_default().insert(c, v)]. *)
Definition pc_insert {V} (p : PortId) (c : ChannelId) (v : V) (m : PortChannelIdMap V) :
    PortChannelIdMap V :=
  <[p := <[c := v]> (default ∅ (m !! p))]> m.

Section maps.
Context {V : Type}.

Definition pcs_get (m : PortChannelIdMap (gmap Sequence V)) (p : PortId) (c : ChannelId)
    (s : Sequence) : option V :=
  inner ← pc_get m p c; inner !! s.
Definition pcs_insert (p : PortId) (c : ChannelId) (s : Sequence) (v : V)
    (m : PortChannelIdMap (gmap Sequence V)) : PortChannelIdMap (gmap Sequence V) :=
  let by_channel := default ∅ (m !! p) in
  <[p := <[c := <[s := v]> (default ∅ (by_channel !! c))]> by_channel]> m.
(** [m.get_mut(p).and_then(|m| m.get_mut(c)).and_then(|m| m.remove(s))]. *)
Definition pcs_remove (p : PortId) (c : ChannelId) (s : Sequence)
    (m : PortChannelIdMap (gmap Sequence V)) : PortChannelIdMap (gmap Sequence V) :=
  match m !! p with
  | None => m
  | Some by_channel =>
    match by_channel !! c with
    | None => m
    | Some by_seq => <[p := <[c := delete s by_seq]> by_channel]> m
    end
  end.

Lemma pc_get_insert p c (v : V) m p' c' :
  pc_get (pc_insert p c v m) p' c' =
  if decide (p = p' ∧ c = c') then Some v else pc_get m p' c'.
Proof.
  unfold pc_get, pc_insert. destruct (decide (p = p')) as [<-|Hp].
  - rewrite lookup_insert_eq. cbn. destruct (decide (c = c')) as [<-|Hc].
    + rewrite lookup_insert_eq. by rewrite decide_True.
    + rewrite lookup_insert_ne by done. rewrite decide_False by naive_solver.
      destruct (m !! p); cbn; [done|]. apply lookup_empty.
  - rewrite lookup_insert_ne by done. by rewrite decide_False by naive_solver.
Qed.

Lemma pcs_get_insert p c s v m p' c' s' :
  pcs_get (pcs_insert p c s v m) p' c' s' =
  if decide (p = p' ∧ c = c' ∧ s = s') then Some v else pcs_get m p' c' s'.
Proof.
  unfold pcs_get, pcs_insert, pc_get. destruct (decide (p = p')) as [<-|Hp].
  - rewrite lookup_insert_eq. cbn. destruct (decide (c = c')) as [<-|Hc].
    + rewrite lookup_insert_eq. cbn. destruct (decide (s = s')) as [<-|Hs].
      * rewrite lookup_insert_eq. by rewrite decide_True.
      * rewrite lookup_insert_ne by done. rewrite decide_False by naive_solver.
        destruct (m !! p) as [bc|]; cbn; [|by rewrite !lookup_empty].
        destruct (bc !! c); cbn; [done|]. apply lookup_empty.
    + rewrite lookup_insert_ne by done. rewrite decide_False by naive_solver.
      destruct (m !! p); cbn; [done|]. by rewrite lookup_empty.
  - rewrite lookup_insert_ne by done. by rewrite decide_False by naive_solver.
Qed.

Lemma pcs_get_remove p c s m p' c' s' :
  pcs_get (pcs_remove p c s m) p' c' s' =
  if decide (p = p' ∧ c = c' ∧ s = s') then None else pcs_get m p' c' s'.
Proof.
  unfold pcs_get, pcs_remove, pc_get. destruct (m !! p) as [bc|] eqn:Em.
  2: { case_decide as Hd; [|done]. destruct Hd as (<- & <- & <-). by rewrite Em. }
  destruct (bc !! c) as [bs|] eqn:Ec.
  2: { case_decide as Hd; [|done]. destruct Hd as (<- & <- & <-). rewrite Em. cbn. by rewrite Ec. }
  destruct (decide (p = p')) as [<-|Hp].
  - rewrite lookup_insert_eq, Em. cbn. destruct (decide (c = c')) as [<-|Hc].
    + rewrite lookup_insert_eq, Ec. cbn. destruct (decide (s = s')) as [<-|Hs].
      * rewrite lookup_delete_eq. by rewrite decide_True.
      * rewrite lookup_delete_ne by done. by rewrite decide_False by naive_solver.
    + rewrite lookup_insert_ne by done. by rewrite decide_False by naive_solver.
  - rewrite lookup_insert_ne by done. by rewrite decide_False by naive_solver.
Qed.
End maps.

#[global] Arguments pc_get : simpl never.
#[global] Arguments pc_insert : simpl never.
#[global] Arguments pcs_get : simpl never.
#[global] Arguments pcs_insert : simpl never.
#[global] Arguments pcs_remove : simpl never.

(** ** Types of the context *)

Class ChainTypes := {
  ClientState : Type;
  ConsensusState : Type;
  HostClientState : Type;
  HostConsensusState : Type;
}.

Section store.
Context `{TmTime, ChainTypes}.

Record ClientRecord := mkClientRecord {
  client_state_of : option ClientState;
  consensus_states : gmap Height ConsensusState }.

Record IbcStore := mkIbcStore {
  clients : gmap ClientId ClientRecord;
  client_processed_times : gmap (ClientId * Height) Timestamp;
  client_processed_heights : gmap (ClientId * Height) Height;
  client_ids_counter : N;
  client_connections : gmap ClientId ConnectionId;
  connections : gmap ConnectionId ConnectionEnd;
  connection_ids_counter : N;
  connection_channels : gmap ConnectionId (list (PortId * ChannelId));
  channel_ids_counter : N;
  channels : PortChannelIdMap ChannelEnd;
  next_sequence_send : PortChannelIdMap Sequence;
  next_sequence_recv : PortChannelIdMap Sequence;
  next_sequence_ack : PortChannelIdMap Sequence;
  packet_acknowledgement : PortChannelIdMap (gmap Sequence AcknowledgementCommitment);
  packet_commitment : PortChannelIdMap (gmap Sequence PacketCommitment);
  packet_receipt : PortChannelIdMap (gmap Sequence Receipt);
  events : list IbcEvent;
  logs : list string }.

(** Field updates. *)
Definition set_clients (f : gmap ClientId ClientRecord → gmap ClientId ClientRecord) (s : IbcStore) : IbcStore :=
  mkIbcStore (f (clients s)) (client_processed_times s) (client_processed_heights s)
    (client_ids_counter s) (client_connections s) (connections s) (connection_ids_counter s)
    (connection_channels s) (channel_ids_counter s) (channels s) (next_sequence_send s)
    (next_sequence_recv s) (next_sequence_ack s) (packet_acknowledgement s)
    (packet_commitment s) (packet_receipt s) (events s) (logs s).
Definition set_client_processed_times (f : gmap (ClientId * Height) Timestamp → gmap (ClientId * Height) Timestamp) (s : IbcStore) : IbcStore :=
  mkIbcStore (clients s) (f (client_processed_times s)) (client_processed_heights s)
    (client_ids_counter s) (client_connections s) (connections s) (connection_ids_counter s)
    (connection_channels s) (channel_ids_counter s) (channels s) (next_sequence_send s)
    (next_sequence_recv s) (next_sequence_ack s) (packet_acknowledgement s)
    (packet_commitment s) (packet_receipt s) (events s) (logs s).
Definition set_client_processed_heights (f : gmap (ClientId * Height) Height → gmap (ClientId * Height) Height) (s : IbcStore) : IbcStore :=
  mkIbcStore (clients s) (client_processed_times s) (f (client_processed_heights s))
    (client_ids_counter s) (client_connections s) (connections s) (connection_ids_counter s)
    (connection_channels s) (channel_ids_counter s) (channels s) (next_sequence_send s)
    (next_sequence_recv s) (next_sequence_ack s) (packet_acknowledgement s)
    (packet_commitment s) (packet_receipt s) (events s) (logs s).
Definition set_client_ids_counter (f : N → N) (s : IbcStore) : IbcStore :=
  mkIbcStore (clients s) (client_processed_times s) (client_processed_heights s) (f
    (client_ids_counter s)) (client_connections s) (connections s) (connection_ids_counter
    s) (connection_channels s) (channel_ids_counter s) (channels s) (next_sequence_send s)
    (next_sequence_recv s) (next_sequence_ack s) (packet_acknowledgement s)
    (packet_commitment s) (packet_receipt s) (events s) (logs s).
Definition set_client_connections (f : gmap ClientId ConnectionId → gmap ClientId ConnectionId) (s : IbcStore) : IbcStore :=
  mkIbcStore (clients s) (client_processed_times s) (client_processed_heights s)
    (client_ids_counter s) (f (client_connections s)) (connections s)
    (connection_ids_counter s) (connection_channels s) (channel_ids_counter s) (channels s)
    (next_sequence_send s) (next_sequence_recv s) (next_sequence_ack s)
    (packet_acknowledgement s) (packet_commitment s) (packet_receipt s) (events s) (logs s).
Definition set_connections (f : gmap ConnectionId ConnectionEnd → gmap ConnectionId ConnectionEnd) (s : IbcStore) : IbcStore :=
  mkIbcStore (clients s) (client_processed_times s) (client_processed_heights s)
    (client_ids_counter s) (client_connections s) (f (connections s))
    (connection_ids_counter s) (connection_channels s) (channel_ids_counter s) (channels s)
    (next_sequence_send s) (next_sequence_recv s) (next_sequence_ack s)
    (packet_acknowledgement s) (packet_commitment s) (packet_receipt s) (events s) (logs s).
Definition set_connection_ids_counter (f : N → N) (s : IbcStore) : IbcStore :=
  mkIbcStore (clients s) (client_processed_times s) (client_processed_heights s)
    (client_ids_counter s) (client_connections s) (connections s) (f (connection_ids_counter
    s)) (connection_channels s) (channel_ids_counter s) (channels s) (next_sequence_send s)
    (next_sequence_recv s) (next_sequence_ack s) (packet_acknowledgement s)
    (packet_commitment s) (packet_receipt s) (events s) (logs s).
Definition set_channel_ids_counter (f : N → N) (s : IbcStore) : IbcStore :=
  mkIbcStore (clients s) (client_processed_times s) (client_processed_heights s)
    (client_ids_counter s) (client_connections s) (connections s) (connection_ids_counter s)
    (connection_channels s) (f (channel_ids_counter s)) (channels s) (next_sequence_send s)
    (next_sequence_recv s) (next_sequence_ack s) (packet_acknowledgement s)
    (packet_commitment s) (packet_receipt s) (events s) (logs s).
Definition set_channels (f : PortChannelIdMap ChannelEnd → PortChannelIdMap ChannelEnd) (s : IbcStore) : IbcStore :=
  mkIbcStore (clients s) (client_processed_times s) (client_processed_heights s)
    (client_ids_counter s) (client_connections s) (connections s) (connection_ids_counter s)
    (connection_channels s) (channel_ids_counter s) (f (channels s)) (next_sequence_send s)
    (next_sequence_recv s) (next_sequence_ack s) (packet_acknowledgement s)
    (packet_commitment s) (packet_receipt s) (events s) (logs s).
Definition set_next_sequence_send (f : PortChannelIdMap Sequence → PortChannelIdMap Sequence) (s : IbcStore) : IbcStore :=
  mkIbcStore (clients s) (client_processed_times s) (client_processed_heights s)
    (client_ids_counter s) (client_connections s) (connections s) (connection_ids_counter s)
    (connection_channels s) (channel_ids_counter s) (channels s) (f (next_sequence_send s))
    (next_sequence_recv s) (next_sequence_ack s) (packet_acknowledgement s)
    (packet_commitment s) (packet_receipt s) (events s) (logs s).
Definition set_next_sequence_recv (f : PortChannelIdMap Sequence → PortChannelIdMap Sequence) (s : IbcStore) : IbcStore :=
  mkIbcStore (clients s) (client_processed_times s) (client_processed_heights s)
    (client_ids_counter s) (client_connections s) (connections s) (connection_ids_counter s)
    (connection_channels s) (channel_ids_counter s) (channels s) (next_sequence_send s) (f
    (next_sequence_recv s)) (next_sequence_ack s) (packet_acknowledgement s)
    (packet_commitment s) (packet_receipt s) (events s) (logs s).
Definition set_next_sequence_ack (f : PortChannelIdMap Sequence → PortChannelIdMap Sequence) (s : IbcStore) : IbcStore :=
  mkIbcStore (clients s) (client_processed_times s) (client_processed_heights s)
    (client_ids_counter s) (client_connections s) (connections s) (connection_ids_counter s)
    (connection_channels s) (channel_ids_counter s) (channels s) (next_sequence_send s)
    (next_sequence_recv s) (f (next_sequence_ack s)) (packet_acknowledgement s)
    (packet_commitment s) (packet_receipt s) (events s) (logs s).
Definition set_packet_acknowledgement (f : PortChannelIdMap (gmap Sequence AcknowledgementCommitment) → PortChannelIdMap (gmap Sequence AcknowledgementCommitment)) (s : IbcStore) : IbcStore :=
  mkIbcStore (clients s) (client_processed_times s) (client_processed_heights s)
    (client_ids_counter s) (client_connections s) (connections s) (connection_ids_counter s)
    (connection_channels s) (channel_ids_counter s) (channels s) (next_sequence_send s)
    (next_sequence_recv s) (next_sequence_ack s) (f (packet_acknowledgement s))
    (packet_commitment s) (packet_receipt s) (events s) (logs s).
Definition set_packet_commitment (f : PortChannelIdMap (gmap Sequence PacketCommitment) → PortChannelIdMap (gmap Sequence PacketCommitment)) (s : IbcStore) : IbcStore :=
  mkIbcStore (clients s) (client_processed_times s) (client_processed_heights s)
    (client_ids_counter s) (client_connections s) (connections s) (connection_ids_counter s)
    (connection_channels s) (channel_ids_counter s) (channels s) (next_sequence_send s)
    (next_sequence_recv s) (next_sequence_ack s) (packet_acknowledgement s) (f
    (packet_commitment s)) (packet_receipt s) (events s) (logs s).
Definition set_packet_receipt (f : PortChannelIdMap (gmap Sequence Receipt) → PortChannelIdMap (gmap Sequence Receipt)) (s : IbcStore) : IbcStore :=
  mkIbcStore (clients s) (client_processed_times s) (client_processed_heights s)
    (client_ids_counter s) (client_connections s) (connections s) (connection_ids_counter s)
    (connection_channels s) (channel_ids_counter s) (channels s) (next_sequence_send s)
    (next_sequence_recv s) (next_sequence_ack s) (packet_acknowledgement s)
    (packet_commitment s) (f (packet_receipt s)) (events s) (logs s).
Definition set_events (f : list IbcEvent → list IbcEvent) (s : IbcStore) : IbcStore :=
  mkIbcStore (clients s) (client_processed_times s) (client_processed_heights s)
    (client_ids_counter s) (client_connections s) (connections s) (connection_ids_counter s)
    (connection_channels s) (channel_ids_counter s) (channels s) (next_sequence_send s)
    (next_sequence_recv s) (next_sequence_ack s) (packet_acknowledgement s)
    (packet_commitment s) (packet_receipt s) (f (events s)) (logs s).
Definition set_logs (f : list string → list string) (s : IbcStore) : IbcStore :=
  mkIbcStore (clients s) (client_processed_times s) (client_processed_heights s)
    (client_ids_counter s) (client_connections s) (connections s) (connection_ids_counter s)
    (connection_channels s) (channel_ids_counter s) (channels s) (next_sequence_send s)
    (next_sequence_recv s) (next_sequence_ack s) (packet_acknowledgement s)
    (packet_commitment s) (packet_receipt s) (events s) (f (logs s)).

Definition empty_store : IbcStore :=
  mkIbcStore ∅ ∅ ∅ 0 ∅ ∅ 0 ∅ 0 ∅ ∅ ∅ ∅ ∅ ∅ ∅ [] [].

(** ** Reads *)

Definition client_state (s : IbcStore) (client_id : ClientId) : outcome ContextError ClientState :=
  err_client match clients s !! client_id with
  | Some client_record => ok_or (client_state_of client_record) (ClientStateNotFound client_id)
  | None => Err (ClientStateNotFound client_id)
  end.

Definition consensus_state (s : IbcStore) (path : ClientConsensusStatePath) :
    outcome ContextError ConsensusState :=
  height ← err_client (Height_new (ccsp_revision_number path) (ccsp_revision_height path));
  err_client match clients s !! ccsp_client_id path with
  | Some client_record =>
    match consensus_states client_record !! height with
    | Some consensus_state => Ok consensus_state
    | None => Err (ConsensusStateNotFound (ccsp_client_id path) height)
    end
  | None => Err (ConsensusStateNotFound (ccsp_client_id path) height)
  end.

Definition client_update_meta (s : IbcStore) (client_id : ClientId) (height : Height) :
    outcome ContextError (Timestamp * Height) :=
  let key := (client_id, height) in
  err_client (ok_or
    (time ← client_processed_times s !! key;
     height ← client_processed_heights s !! key;
     Some (time, height))
    (UpdateMetaDataNotFound client_id height)).

Definition client_counter (s : IbcStore) : outcome ContextError N := Ok (client_ids_counter s).

Definition connection_end (s : IbcStore) (cid : ConnectionId) :
    outcome ContextError ConnectionEnd :=
  err_connection (ok_or (connections s !! cid) (ConnectionNotFound cid)).

Definition connection_counter (s : IbcStore) : outcome ContextError N :=
  Ok (connection_ids_counter s).

Definition channel_end (s : IbcStore) (path : ChannelEndPath) : outcome ContextError ChannelEnd :=
  let port_id := cep_port_id path in
  let channel_id := cep_channel_id path in
  err_channel (ok_or (pc_get (channels s) port_id channel_id) (ChannelNotFound port_id channel_id)).

Definition get_next_sequence_send (s : IbcStore) (path : SeqSendPath) :
    outcome ContextError Sequence :=
  let port_id := ssp_port_id path in
  let channel_id := ssp_channel_id path in
  err_packet (ok_or (pc_get (next_sequence_send s) port_id channel_id)
                    (MissingNextSendSeq port_id channel_id)).

Definition get_next_sequence_recv (s : IbcStore) (path : SeqRecvPath) :
    outcome ContextError Sequence :=
  let port_id := srp_port_id path in
  let channel_id := srp_channel_id path in
  err_packet (ok_or (pc_get (next_sequence_recv s) port_id channel_id)
                    (MissingNextRecvSeq port_id channel_id)).

Definition get_next_sequence_ack (s : IbcStore) (path : SeqAckPath) :
    outcome ContextError Sequence :=
  let port_id := sap_port_id path in
  let channel_id := sap_channel_id path in
  err_packet (ok_or (pc_get (next_sequence_ack s) port_id channel_id)
                    (MissingNextAckSeq port_id channel_id)).

Definition get_packet_commitment (s : IbcStore) (path : CommitmentPath) :
    outcome ContextError PacketCommitment :=
  err_packet (ok_or (pcs_get (packet_commitment s) (cmp_port_id path) (cmp_channel_id path)
                             (cmp_sequence path))
                    (PacketCommitmentNotFound (cmp_sequence path))).

Definition get_packet_receipt (s : IbcStore) (path : ReceiptPath) : outcome ContextError Receipt :=
  err_packet (ok_or (pcs_get (packet_receipt s) (rp_port_id path) (rp_channel_id path)
                             (rp_sequence path))
                    (PacketReceiptNotFound (rp_sequence path))).

Definition get_packet_acknowledgement (s : IbcStore) (path : AckPath) :
    outcome ContextError AcknowledgementCommitment :=
  err_packet (ok_or (pcs_get (packet_acknowledgement s) (ap_port_id path) (ap_channel_id path)
                             (ap_sequence path))
                    (PacketAcknowledgementNotFound (ap_sequence path))).

Definition channel_counter (s : IbcStore) : outcome ContextError N := Ok (channel_ids_counter s).

(** ** Writes *)

(** An action of the context: it may write the store and fail. *)
Definition action (A : Type) : Type := exec IbcStore ContextError A.

Definition increase_client_counter : action () :=
  n ← reads (λ s, u64_add (client_ids_counter s) 1); modify (set_client_ids_counter (λ _, n)).
Definition increase_connection_counter : action () :=
  n ← reads (λ s, u64_add (connection_ids_counter s) 1); modify (set_connection_ids_counter (λ _, n)).
Definition increase_channel_counter : action () :=
  n ← reads (λ s, u64_add (channel_ids_counter s) 1); modify (set_channel_ids_counter (λ _, n)).

Definition store_connection (path : ConnectionPath) (connection_end : ConnectionEnd) : action () :=
  modify (set_connections (λ m, <[cp_connection_id path := connection_end]> m)).
Definition store_connection_to_client (path : ClientConnectionPath) (conn_id : ConnectionId) :
    action () :=
  modify (set_client_connections (λ m, <[ccp_client_id path := conn_id]> m)).

Definition store_packet_commitment (path : CommitmentPath) (commitment : PacketCommitment) :
    action () :=
  modify (set_packet_commitment
    (pcs_insert (cmp_port_id path) (cmp_channel_id path) (cmp_sequence path) commitment)).
Definition delete_packet_commitment (path : CommitmentPath) : action () :=
  modify (set_packet_commitment
    (pcs_remove (cmp_port_id path) (cmp_channel_id path) (cmp_sequence path))).
Definition store_packet_receipt (path : ReceiptPath) (receipt : Receipt) : action () :=
  modify (set_packet_receipt
    (pcs_insert (rp_port_id path) (rp_channel_id path) (rp_sequence path) receipt)).
Definition store_packet_acknowledgement (path : AckPath)
    (ack_commitment : AcknowledgementCommitment) : action () :=
  modify (set_packet_acknowledgement
    (pcs_insert (ap_port_id path) (ap_channel_id path) (ap_sequence path) ack_commitment)).
Definition delete_packet_acknowledgement (path : AckPath) : action () :=
  modify (set_packet_acknowledgement
    (pcs_remove (ap_port_id path) (ap_channel_id path) (ap_sequence path))).

Definition store_channel (path : ChannelEndPath) (channel_end : ChannelEnd) : action () :=
  modify (set_channels
    (pc_insert (cep_port_id path) (cep_channel_id path) channel_end)).
Definition store_next_sequence_send (path : SeqSendPath) (seq : Sequence) : action () :=
  modify (set_next_sequence_send
    (pc_insert (ssp_port_id path) (ssp_channel_id path) seq)).
Definition store_next_sequence_recv (path : SeqRecvPath) (seq : Sequence) : action () :=
  modify (set_next_sequence_recv
    (pc_insert (srp_port_id path) (srp_channel_id path) seq)).
Definition store_next_sequence_ack (path : SeqAckPath) (seq : Sequence) : action () :=
  modify (set_next_sequence_ack
    (pc_insert (sap_port_id path) (sap_channel_id path) seq)).

Definition emit_ibc_event (event : IbcEvent) : action () :=
  modify (set_events (λ l, l ++ [event])%list).
Definition log_message (message : string) : action () :=
  modify (set_logs (λ l, l ++ [message])%list).

(** *** [ClientExecutionContext] *)

(** [clients.entry(id).or_insert(MockClientRecord { default })], then an update
    of the record. *)
Definition update_client_record (client_id : ClientId) (f : ClientRecord → ClientRecord)
    (m : gmap ClientId ClientRecord) : gmap ClientId ClientRecord :=
  <[client_id := f (default (mkClientRecord None ∅) (m !! client_id))]> m.

Definition store_client_state (path : ClientStatePath) (client_state : ClientState) : action () :=
  modify (set_clients (update_client_record (csp_client_id path) (λ record,
    mkClientRecord (Some client_state) (consensus_states record)))).

(** [Height::new(..).expect("Never fails")] in the two writes below. *)
Definition expect {E E' A} (m : outcome E A) : outcome E' A :=
  match m with Ok a => Ok a | _ => Panic end.

Definition store_consensus_state (path : ClientConsensusStatePath)
    (consensus_state : ConsensusState) : action () :=
  height ← lift (expect (Height_new (ccsp_revision_number path) (ccsp_revision_height path)));
  modify (set_clients (update_client_record (ccsp_client_id path) (λ record,
    mkClientRecord (client_state_of record)
      (<[height := consensus_state]> (consensus_states record))))).

Definition delete_consensus_state (path : ClientConsensusStatePath) : action () :=
  height ← lift (expect (Height_new (ccsp_revision_number path) (ccsp_revision_height path)));
  modify (set_clients (update_client_record (ccsp_client_id path) (λ record,
    mkClientRecord (client_state_of record) (delete height (consensus_states record))))).

Definition store_update_meta (client_id : ClientId) (height : Height)
    (host_timestamp : Timestamp) (host_height : Height) : action () :=
  modify (set_client_processed_times (λ m, <[(client_id, height) := host_timestamp]> m));;
  modify (set_client_processed_heights (λ m, <[(client_id, height) := host_height]> m)).

Definition delete_update_meta (client_id : ClientId) (height : Height) : action () :=
  modify (set_client_processed_times (delete (client_id, height)));;
  modify (set_client_processed_heights (delete (client_id, height))).

(** ** What the chain knows of itself *)

Class Host := {
  host_height : outcome ContextError Height;
  host_timestamp : outcome ContextError Timestamp;
  host_consensus_state : Height → outcome ContextError HostConsensusState;
  host_consensus_state_encode_vec : HostConsensusState → outcome ContextError bytes;
  host_client_state_try_from : Any → outcome ClientError HostClientState;
  validate_self_client : HostClientState → outcome ContextError ();
  commitment_prefix : CommitmentPrefix;
  max_expected_time_per_block : Duration;
  validate_message_signer : Signer → outcome ContextError ();
}.

(** Default methods of [ValidationContext]. *)
Definition get_compatible_versions : list Version := compatibles.
Definition ctx_pick_version (counterparty_candidate_versions : list Version) :
    outcome ContextError Version :=
  err_connection (pick_version get_compatible_versions counterparty_candidate_versions).

Definition calculate_block_delay (delay_period_time max_expected_time_per_block : Duration) : N :=
  let delay_period_time := as_secs delay_period_time in
  let max_expected_time_per_block := as_secs max_expected_time_per_block in
  if max_expected_time_per_block =? 0 then 0
  else if delay_period_time mod max_expected_time_per_block =? 0
       then delay_period_time / max_expected_time_per_block
       else delay_period_time / max_expected_time_per_block + 1.

Definition block_delay `{Host} (delay_period_time : Duration) : N :=
  calculate_block_delay delay_period_time max_expected_time_per_block.

(** ** Light clients *)

Class LightClient := {
  cons_root : ConsensusState → CommitmentRoot;
  cons_timestamp : ConsensusState → Timestamp;
  (** [ClientStateDecoder] *)
  client_state_try_from : Any → outcome ClientError ClientState;
  (** [ClientStateCommon] *)
  verify_consensus_state : ClientState → Any → outcome ClientError ();
  client_type : ClientState → ClientType;
  latest_height : ClientState → Height;
  validate_proof_height : ClientState → Height → outcome ClientError ();
  verify_upgrade_client : ClientState → Any → Any → CommitmentProofBytes →
    CommitmentProofBytes → CommitmentRoot → outcome ClientError ();
  verify_membership : ClientState → CommitmentPrefix → CommitmentProofBytes →
    CommitmentRoot → Path → bytes → outcome ClientError ();
  verify_non_membership : ClientState → CommitmentPrefix → CommitmentProofBytes →
    CommitmentRoot → Path → outcome ClientError ();
  (** [ClientStateValidation]: the context is the host and its store. *)
  verify_client_message : ClientState → Host → IbcStore → ClientId → Any → outcome ClientError ();
  check_for_misbehaviour : ClientState → Host → IbcStore → ClientId → Any →
    outcome ClientError bool;
  status : ClientState → Host → IbcStore → ClientId → outcome ClientError Status;
  (** [ClientStateExecution] *)
  initialise : ClientState → Host → ClientId → Any → exec IbcStore ClientError ();
  update_state : ClientState → Host → ClientId → Any → exec IbcStore ClientError (list Height);
  update_state_on_misbehaviour : ClientState → Host → ClientId → Any →
    exec IbcStore ClientError ();
  update_state_on_upgrade : ClientState → Host → ClientId → Any → Any →
    exec IbcStore ClientError Height;
}.

(** ** Encodings *)

Class Codec := {
  encode_connection_end : RawConnectionEnd → bytes;
  encode_channel_end : RawChannel → bytes;
  encode_any : Any → bytes;
  context_error_to_string : ContextError → string;
}.

Class CodecLaws `{Codec} := {
  encode_connection_end_inj : Inj (=) (=) encode_connection_end;
  encode_channel_end_inj : Inj (=) (=) encode_channel_end;
  encode_any_inj : Inj (=) (=) encode_any;
}.

(** [Protobuf::encode_vec] on connection and channel ends, [Any::to_vec]. *)
Definition ConnectionEnd_encode_vec `{Codec} (c : ConnectionEnd) : bytes :=
  encode_connection_end (ConnectionEnd_into c).
Definition ChannelEnd_encode_vec `{Codec} (c : ChannelEnd) : bytes :=
  encode_channel_end (ChannelEnd_into c).

(** [From<ContextError> for ClientError]. *)
Definition ClientError_from_ContextError `{Codec} (e : ContextError) : ClientError :=
  match e with CtxClient e => e | e => ClientOther (context_error_to_string e) end.

(** The sequence every handler that verifies a proof starts with: the client is
    known and active, the proof is not above its latest height, and there is a
    consensus state at the height of the proof. *)
Definition active_client_at `{LightClient} `{host : Host} (s : IbcStore) (client_id : ClientId)
    (proof_height : Height) : outcome ContextError (ClientState * ConsensusState) :=
  client_state ← client_state s client_id;
  status ← err_client (status client_state host s client_id);
  err_client (Status_verify_is_active status);;
  err_client (validate_proof_height client_state proof_height);;
  consensus_state ← consensus_state s
    (mkClientConsensusStatePath client_id (height_revision_number proof_height)
       (revision_height proof_height));
  Ok (client_state, consensus_state).
End store.

(** What a proof is checked against: [root] is the root of the consensus state
    that an active client has at the height of the proof, and the client is the
    one of the connection a channel runs on. *)
Definition proven_root `{TmTime, !ChainTypes, !LightClient, host : !Host} (s : IbcStore)
    (client_id : ClientId) (proof_height : Height) (root : CommitmentRoot) : Prop :=
  ∃ cs cons, active_client_at s client_id proof_height = Ok (cs, cons) ∧ cons_root cons = root.
Definition first_hop `{TmTime, !ChainTypes} (s : IbcStore) (hops : list ConnectionId)
    (conn : ConnectionEnd) : Prop :=
  ∃ hop rest, hops = hop :: rest ∧ connections s !! hop = Some conn.

(** ** Frames: the parts of the store a handler leaves alone *)

Section frames.
Context `{TmTime, ChainTypes}.

Definition same_clients (s s' : IbcStore) : Prop :=
  clients s' = clients s ∧ client_processed_times s' = client_processed_times s
  ∧ client_processed_heights s' = client_processed_heights s
  ∧ client_ids_counter s' = client_ids_counter s.

Definition same_connections (s s' : IbcStore) : Prop :=
  connections s' = connections s ∧ client_connections s' = client_connections s
  ∧ connection_ids_counter s' = connection_ids_counter s.

Definition same_channels (s s' : IbcStore) : Prop :=
  channels s' = channels s ∧ channel_ids_counter s' = channel_ids_counter s.

Definition same_packets (s s' : IbcStore) : Prop :=
  next_sequence_send s' = next_sequence_send s ∧ next_sequence_recv s' = next_sequence_recv s
  ∧ next_sequence_ack s' = next_sequence_ack s
  ∧ packet_acknowledgement s' = packet_acknowledgement s
  ∧ packet_commitment s' = packet_commitment s ∧ packet_receipt s' = packet_receipt s.
End frames.

(** ** Automation for the context *)

Ltac unfold_actions :=
  unfold emit_ibc_event, log_message, store_connection, store_connection_to_client,
    increase_client_counter, increase_connection_counter, increase_channel_counter,
    store_packet_commitment, delete_packet_commitment, store_packet_receipt,
    store_packet_acknowledgement, store_channel, store_next_sequence_send,
    store_next_sequence_recv, store_next_sequence_ack, err_client, err_connection,
    err_channel, err_packet, err_router, connection_counter, channel_counter,
    client_counter in *.

(** Inverts a successful run of a handler down to the writes it made. *)
Ltac inv_exec :=
  unfold_actions; inv_ok; subst;
  repeat match goal with p : (_ * _)%type |- _ => destruct p; inv_ok; subst end;
  destruct_units; cbn in *.
