(* ===== verification/Merkle.v ===== *)
(** * Merkle proofs (ICS-23)

    [ibc-core/ics23-commitment/types/src]: proof specifications ([specs.rs]), keys
    under a prefix and chained proofs ([merkle.rs], [commitment.rs]).  A state is
    committed to by a tree of trees: the root of one tree is a value of the next
    one, and a proof has one existence proof per tree, from the leaf up.  Checking
    one proof against one tree is the crate [ics23]'s: the class [Ics23], with
    [Ics23Laws] for what it guarantees. *)

From S2P Require Import Prelude RustStr Identifiers Primitives Path Connection Channel Context.
Local Open Scope string_scope.
Local Open Scope N_scope.

(** ** Specifications *)

(** The protobuf messages of [ics23]. *)
Record RawLeafOp := mkRawLeafOp {
  lo_hash : Z; lo_prehash_key : Z; lo_prehash_value : Z; lo_length : Z; lo_prefix : bytes }.
Record RawInnerSpec := mkRawInnerSpec {
  is_child_order : list Z; is_child_size : Z; is_min_prefix_length : Z;
  is_max_prefix_length : Z; is_empty_child : bytes; is_hash : Z }.
Record RawProofSpec := mkRawProofSpec {
  leaf_spec : option RawLeafOp; inner_spec : option RawInnerSpec;
  max_depth : Z; min_depth : Z; prehash_key_before_comparison : bool }.
#[export] Instance RawLeafOp_eq_dec : EqDecision RawLeafOp.
Proof. solve_decision. Defined.
#[export] Instance RawInnerSpec_eq_dec : EqDecision RawInnerSpec.
Proof. solve_decision. Defined.
#[export] Instance RawProofSpec_eq_dec : EqDecision RawProofSpec.
Proof. solve_decision. Defined.

(** [LeafOp], [InnerSpec] and [ProofSpec] wrap the messages. *)
Record LeafOp := mkLeafOp { leaf_op : RawLeafOp }.
Record InnerSpec := mkInnerSpec { inner : RawInnerSpec }.
Record ProofSpec := mkProofSpec { proof_spec : RawProofSpec }.
Record ProofSpecs := mkProofSpecs { proof_specs_of : list ProofSpec }.
#[export] Instance ProofSpec_eq_dec : EqDecision ProofSpec.
Proof. solve_decision. Defined.
#[export] Instance ProofSpecs_eq_dec : EqDecision ProofSpecs.
Proof. solve_decision. Defined.

Definition LeafOp_from (l : RawLeafOp) : LeafOp :=
  mkLeafOp (mkRawLeafOp (lo_hash l) (lo_prehash_key l) (lo_prehash_value l) (lo_length l)
              (lo_prefix l)).
Definition RawLeafOp_from (l : LeafOp) : RawLeafOp :=
  let l := leaf_op l in
  mkRawLeafOp (lo_hash l) (lo_prehash_key l) (lo_prehash_value l) (lo_length l) (lo_prefix l).
Definition InnerSpec_from (i : RawInnerSpec) : InnerSpec :=
  mkInnerSpec (mkRawInnerSpec (is_child_order i) (is_child_size i) (is_min_prefix_length i)
                 (is_max_prefix_length i) (is_empty_child i) (is_hash i)).
Definition RawInnerSpec_from (i : InnerSpec) : RawInnerSpec :=
  let i := inner i in
  mkRawInnerSpec (is_child_order i) (is_child_size i) (is_min_prefix_length i)
    (is_max_prefix_length i) (is_empty_child i) (is_hash i).
Definition ProofSpec_from (spec : RawProofSpec) : ProofSpec :=
  mkProofSpec (mkRawProofSpec ((λ lop, leaf_op (LeafOp_from lop)) <$> leaf_spec spec)
    ((λ ispec, inner (InnerSpec_from ispec)) <$> inner_spec spec)
    (max_depth spec) (min_depth spec) (prehash_key_before_comparison spec)).
Definition RawProofSpec_from (spec : ProofSpec) : RawProofSpec :=
  let spec := proof_spec spec in
  mkRawProofSpec ((λ lop, RawLeafOp_from (mkLeafOp lop)) <$> leaf_spec spec)
    ((λ ispec, RawInnerSpec_from (mkInnerSpec ispec)) <$> inner_spec spec)
    (max_depth spec) (min_depth spec) (prehash_key_before_comparison spec).
Definition ProofSpecs_from (ics23_specs : list RawProofSpec) : ProofSpecs :=
  mkProofSpecs (ProofSpec_from <$> ics23_specs).
Definition RawProofSpecs_from (specs : ProofSpecs) : list RawProofSpec :=
  RawProofSpec_from <$> proof_specs_of specs.

Definition ProofSpecs_is_empty (self : ProofSpecs) : bool :=
  match proof_specs_of self with [] => true | _ => false end.

(** The loop of [validate]. *)
Fixpoint validate_depths (l : list ProofSpec) : outcome CommitmentError () :=
  match l with
  | [] => Ok tt
  | spec :: l =>
    let s := proof_spec spec in
    fail_if ((max_depth s <? min_depth s)%Z || (min_depth s <? 0)%Z || (max_depth s <? 0)%Z)
      (InvalidDepthRange (min_depth s) (max_depth s));;
    validate_depths l
  end.
Definition ProofSpecs_validate (self : ProofSpecs) : outcome CommitmentError () :=
  fail_if (ProofSpecs_is_empty self) EmptyProofSpecs;;
  validate_depths (proof_specs_of self).

(** ** Keys *)

(** [{:?}] of a slice of bytes. *)
Definition debug_bytes (b : bytes) : string :=
  "[" ++ String.concat ", " ((λ x, show_u64 (Byte.to_N x)) <$> b) ++ "]".
(** [Debug for CommitmentPrefix]. *)
Definition CommitmentPrefix_debug (p : CommitmentPrefix) : string :=
  match from_utf8 (prefix_bytes p) with
  | Some s => s
  | None => "<not valid UTF8: " ++ debug_bytes (prefix_bytes p) ++ ">"
  end.

Record MerklePath := mkMerklePath { key_path : list string }.
Definition apply_prefix (prefix : CommitmentPrefix) (path : list string) : MerklePath :=
  mkMerklePath (CommitmentPrefix_debug prefix :: path).

(** ** Proofs *)

(** What the crate [ics23] has: the proofs it works on, the root an existence
    proof leads to, and the two checks of a proof against a tree. *)
Class Ics23 := {
  ExistenceProof : Type;
  OtherProof : Type;
  calculate_existence_root : ExistenceProof → option bytes;
}.

Section proofs.
Context `{Ics23}.

Record NonExistenceProof := mkNonExistenceProof {
  nonexist_key : bytes; left_neighbour : option ExistenceProof;
  right_neighbour : option ExistenceProof }.
Inductive Proof :=
| Exist (e : ExistenceProof)
| Nonexist (n : NonExistenceProof)
| BatchOrCompressed (o : OtherProof).
Record CommitmentProof := mkCommitmentProof { proof_of : option Proof }.
(** [MerkleProof] and its protobuf message have the same field. *)
Record MerkleProof := mkMerkleProof { proofs : list CommitmentProof }.
Record RawMerkleProof := mkRawMerkleProof { raw_proofs : list CommitmentProof }.
Definition MerkleProof_try_from (proof : RawMerkleProof) : outcome CommitmentError MerkleProof :=
  Ok (mkMerkleProof (raw_proofs proof)).
Definition RawMerkleProof_from (proof : MerkleProof) : RawMerkleProof :=
  mkRawMerkleProof (proofs proof).
End proofs.

Class Ics23Check `{Ics23} := {
  ics23_verify_membership : CommitmentProof → RawProofSpec → bytes → bytes → bytes → bool;
  ics23_verify_non_membership : CommitmentProof → RawProofSpec → bytes → bytes → bool;
  raw_merkle_proof_decode : bytes → outcome string RawMerkleProof;
  raw_merkle_proof_encode : RawMerkleProof → bytes;
}.

Section merkle.
Context `{Ics23Check}.

(** [TryFrom<&CommitmentProofBytes> for MerkleProof] and back. *)
Definition MerkleProof_try_from_bytes (value : CommitmentProofBytes) :
    outcome CommitmentError MerkleProof :=
  raw ← map_err DecodingFailure (raw_merkle_proof_decode (proof_bytes value));
  MerkleProof_try_from raw.
Definition CommitmentProofBytes_from_raw (proof : RawMerkleProof) :
    outcome CommitmentError CommitmentProofBytes :=
  CommitmentProofBytes_try_from (raw_merkle_proof_encode proof).
Definition CommitmentProofBytes_from_merkle (value : MerkleProof) :
    outcome CommitmentError CommitmentProofBytes :=
  CommitmentProofBytes_from_raw (RawMerkleProof_from value).

(** One level of the chain: a proof, its specification and its key. *)
Notation level := (CommitmentProof * RawProofSpec * string)%type (only parsing).

(** The loop of [verify_membership]: [subroot] is the root reached so far, [value]
    what the next proof has to contain. *)
Fixpoint verify_levels (subroot value : bytes) (l : list level) : outcome CommitmentError bytes :=
  match l with
  | [] => Ok subroot
  | (proof, spec, key) :: l =>
    match proof_of proof with
    | Some (Exist existence_proof) =>
      subroot ← ok_or (calculate_existence_root existence_proof) InvalidMerkleProof;
      fail_if (negb (ics23_verify_membership proof spec subroot (as_bytes key) value))
        VerificationFailure;;
      verify_levels subroot subroot l
    | _ => Err InvalidMerkleProof
    end
  end.

(** [self.proofs.iter().zip(specs).zip(keys.rev())]. *)
Definition levels (self : MerkleProof) (specs : ProofSpecs) (keys : MerklePath) : list level :=
  zip (zip (proofs self) (RawProofSpecs_from specs)) (reverse (key_path keys)).

Definition MerkleProof_verify_membership (self : MerkleProof) (specs : ProofSpecs) (root : bytes)
    (keys : MerklePath) (value : bytes) (start_index : N) : outcome CommitmentError () :=
  fail_if (is_empty (proofs self)) EmptyMerkleProof;;
  fail_if (is_empty root) EmptyMerkleRoot;;
  let num := length (proofs self) in
  let ics23_specs := RawProofSpecs_from specs in
  fail_if (negb (length ics23_specs =? num)%nat) NumberOfSpecsMismatch;;
  fail_if (negb (length (key_path keys) =? num)%nat) NumberOfKeysMismatch;;
  fail_if (is_empty value) EmptyVerifiedValue;;
  subroot ← verify_levels value value (drop (N.to_nat start_index) (levels self specs keys));
  fail_if (negb (bool_decide (root = subroot))) VerificationFailure.

Definition calculate_non_existence_root (proof : NonExistenceProof) :
    outcome CommitmentError bytes :=
  match left_neighbour proof with
  | Some neighbour => ok_or (calculate_existence_root neighbour) InvalidMerkleProof
  | None =>
    match right_neighbour proof with
    | Some neighbour => ok_or (calculate_existence_root neighbour) InvalidMerkleProof
    | None => Err InvalidMerkleProof
    end
  end.

Definition MerkleProof_verify_non_membership (self : MerkleProof) (specs : ProofSpecs)
    (root : bytes) (keys : MerklePath) : outcome CommitmentError () :=
  fail_if (is_empty (proofs self)) EmptyMerkleProof;;
  fail_if (is_empty root) EmptyMerkleRoot;;
  let num := length (proofs self) in
  let ics23_specs := RawProofSpecs_from specs in
  fail_if (negb (length ics23_specs =? num)%nat) NumberOfSpecsMismatch;;
  fail_if (negb (length (key_path keys) =? num)%nat) NumberOfKeysMismatch;;
  proof ← ok_or (head (proofs self)) InvalidMerkleProof;
  spec ← ok_or (head ics23_specs) InvalidMerkleProof;
  key ← ok_or (key_path keys !! (num - 1)%nat) InvalidMerkleProof;
  match proof_of proof with
  | Some (Nonexist non_existence_proof) =>
    subroot ← calculate_non_existence_root non_existence_proof;
    fail_if (negb (ics23_verify_non_membership proof spec subroot (as_bytes key)))
      VerificationFailure;;
    MerkleProof_verify_membership self specs root keys subroot 1
  | _ => Err InvalidMerkleProof
  end.
End merkle.

(** ** Specifications: what [validate] accepts *)

Definition depths_ok (s : RawProofSpec) : Prop := (0 <= min_depth s <= max_depth s)%Z.

Lemma depths_checked s :
  ((max_depth s <? min_depth s)%Z || (min_depth s <? 0)%Z || (max_depth s <? 0)%Z) = false
  ↔ depths_ok s.
Proof. unfold depths_ok. rewrite !orb_false_iff, !Z.ltb_ge. lia. Qed.

Lemma validate_depths_Ok l : validate_depths l = Ok tt ↔ Forall (λ s, depths_ok (proof_spec s)) l.
Proof.
  induction l as [|s l IH]; cbn [validate_depths]; [by split|].
  rewrite Forall_cons_iff, <- IH, <- depths_checked, bind_Ok. split.
  - intros ([] & Hf & Hl). by apply fail_if_Ok in Hf.
  - intros [Hf Hl]. exists tt. by rewrite fail_if_Ok.
Qed.

Lemma ProofSpecs_raw_roundtrip specs : ProofSpecs_from (RawProofSpecs_from specs) = specs.
Proof.
  destruct specs as [l]. unfold RawProofSpecs_from, ProofSpecs_from. cbn [proof_specs_of]. f_equal.
  rewrite <- list_fmap_compose. rewrite <- (list_fmap_id l) at 2. apply list_fmap_ext.
  intros _ [[lo io ? ? ?]] _. by destruct lo as [[]|], io as [[]|].
Qed.

(** Proof specifications are accepted exactly when there is one and every depth
    range is a range of natural numbers, and the wrappers of the crate keep every
    field of the messages. *)
Theorem proof_specs_validate_spec specs raw :
  (ProofSpecs_validate specs = Ok tt
     ↔ proof_specs_of specs ≠ [] ∧ Forall (λ s, depths_ok (proof_spec s)) (proof_specs_of specs))
  ∧ RawProofSpecs_from (ProofSpecs_from raw) = raw
  ∧ ProofSpecs_from (RawProofSpecs_from specs) = specs.
Proof.
  split_and!.
  - unfold ProofSpecs_validate, ProofSpecs_is_empty. rewrite <- validate_depths_Ok.
    destruct (proof_specs_of specs); cbn; naive_solver.
  - unfold RawProofSpecs_from, ProofSpecs_from. cbn [proof_specs_of]. rewrite <- list_fmap_compose.
    rewrite <- (list_fmap_id raw) at 2. apply list_fmap_ext. intros _ [lo io ? ? ?] _.
    by destruct lo as [[]|], io as [[]|].
  - apply ProofSpecs_raw_roundtrip.
Qed.

(** Keys are built from the debug output of the prefix: a prefix that is not UTF-8
    is replaced by a description of its bytes, which is a key of its own, so two
    different prefixes lead to the same keys. *)
Theorem apply_prefix_collides :
  ∃ p1 p2, p1 ≠ p2 ∧ ∀ path, apply_prefix p1 path = apply_prefix p2 path.
Proof.
  exists (mkCommitmentPrefix [Byte.xff]),
    (mkCommitmentPrefix (as_bytes "<not valid UTF8: [255]>")).
  split; [by vm_compute|]. intros path. by vm_compute.
Qed.

(** ** Chained proofs *)

Section chains.
Context `{Ics23Check}.
Notation level := (CommitmentProof * RawProofSpec * string)%type (only parsing).

(** Reference definition: [root] is reached from [value] through existence proofs,
    each of which has the root of the one below as its value. *)
Inductive proof_chain : list level → bytes → bytes → Prop :=
| chain_nil value : proof_chain [] value value
| chain_cons proof spec key l value subroot root existence_proof :
    proof_of proof = Some (Exist existence_proof) →
    calculate_existence_root existence_proof = Some subroot →
    ics23_verify_membership proof spec subroot (as_bytes key) value = true →
    proof_chain l subroot root →
    proof_chain ((proof, spec, key) :: l) value root.

Lemma verify_levels_chain l value root :
  verify_levels value value l = Ok root ↔ proof_chain l value root.
Proof.
  revert value. induction l as [|[[proof spec] key] l IH]; intros value; cbn [verify_levels].
  { split; [intros [= <-]; constructor|by inversion 1]. }
  split.
  - destruct (proof_of proof) as [[e| |]|] eqn:Ep; [|done..]. intros Hv. inv_ok.
    rewrite negb_false_iff in *. econstructor; eauto. by apply IH.
  - inversion 1 as [|? ? ? ? ? subroot ? e Ep Er Hv Hl]; subst. rewrite Ep, Er. mstep.
    rewrite Hv. mstep. by apply IH.
Qed.

(** The arguments are in order: one specification and one key per proof. *)
Definition well_formed (self : MerkleProof) (specs : ProofSpecs) (root : bytes) (keys : MerklePath) :
    Prop :=
  proofs self ≠ [] ∧ root ≠ [] ∧ length (proof_specs_of specs) = length (proofs self)
  ∧ length (key_path keys) = length (proofs self).

Lemma is_empty_Ok {A} (l : list A) : is_empty l = false ↔ l ≠ [].
Proof. by destruct l. Qed.

Lemma membership_iff self specs root keys value start :
  MerkleProof_verify_membership self specs root keys value start = Ok tt
  ↔ well_formed self specs root keys ∧ value ≠ []
    ∧ proof_chain (drop (N.to_nat start) (levels self specs keys)) value root.
Proof.
  unfold MerkleProof_verify_membership, well_formed, RawProofSpecs_from. rewrite length_fmap.
  split.
  - intros Hv. inv_ok. rewrite !negb_false_iff, !Nat.eqb_eq, !is_empty_Ok, bool_decide_eq_true in *.
    subst. split_and!; try done. by apply verify_levels_chain.
  - intros ((H1 & H2 & H3 & H4) & H5 & Hc). apply is_empty_Ok in H1, H2, H5.
    rewrite H1, H2, H5, H3, H4, Nat.eqb_refl. mstep. apply verify_levels_chain in Hc.
    unfold levels, RawProofSpecs_from in Hc. cbn [negb fail_if]. mstep.
    unfold levels, RawProofSpecs_from. rewrite Hc. mstep. by rewrite bool_decide_eq_true_2.
Qed.
End chains.

(** ** What proofs prove *)

(** The guarantee of [ics23] for one tree, up to collisions of its hash functions:
    an accepted proof is about the tree with that root, a tree has one value per
    key, and a key it has is not absent from it. *)
Class Ics23Laws `{Ics23Check} := {
  tree_has : RawProofSpec → bytes → bytes → bytes → Prop;
  tree_lacks : RawProofSpec → bytes → bytes → Prop;
  hash_collision : Prop;
  membership_sound proof spec root key value :
    ics23_verify_membership proof spec root key value = true → tree_has spec root key value;
  non_membership_sound proof spec root key :
    ics23_verify_non_membership proof spec root key = true → tree_lacks spec root key;
  tree_functional spec root key v1 v2 :
    tree_has spec root key v1 → tree_has spec root key v2 → v1 = v2 ∨ hash_collision;
  tree_exclusive spec root key value :
    tree_has spec root key value → tree_lacks spec root key → hash_collision;
}.

Section soundness.
Context `{Ics23Laws}.

(** A tree of trees: [value] is under the keys, the leaf's first, in [root]. *)
Fixpoint committed_under (l : list (RawProofSpec * string)) (value root : bytes) : Prop :=
  match l with
  | [] => value = root
  | (spec, key) :: l =>
    ∃ subroot, tree_has spec subroot (as_bytes key) value ∧ committed_under l subroot root
  end.
(** The leaf tree does not have the first key. *)
Definition absent_under (l : list (RawProofSpec * string)) (root : bytes) : Prop :=
  match l with
  | [] => False
  | (spec, key) :: l => ∃ subroot, tree_lacks spec subroot (as_bytes key) ∧ committed_under l subroot root
  end.
(** The specifications with the keys they are for. *)
Definition key_levels (specs : ProofSpecs) (keys : MerklePath) : list (RawProofSpec * string) :=
  zip (RawProofSpecs_from specs) (reverse (key_path keys)).

Lemma committed_under_functional l v1 v2 root :
  committed_under l v1 root → committed_under l v2 root → v1 = v2 ∨ hash_collision.
Proof.
  revert v1 v2. induction l as [|[spec key] l IH]; intros v1 v2; cbn; [naive_solver|].
  intros (r1 & Ht1 & Hc1) (r2 & Ht2 & Hc2).
  destruct (IH _ _ Hc1 Hc2) as [->|]; [|by right]. by eapply tree_functional.
Qed.

Lemma committed_not_absent l value root :
  committed_under l value root → absent_under l root → hash_collision.
Proof.
  destruct l as [|[spec key] l]; [done|]. intros (r1 & Ht & Hc1) (r2 & Hl & Hc2).
  destruct (committed_under_functional _ _ _ _ Hc1 Hc2) as [->|]; [|done]. by eapply tree_exclusive.
Qed.

Lemma proof_chain_committed l value root :
  proof_chain l value root →
  committed_under ((λ x, (x.1.2, x.2)) <$> l) value root.
Proof.
  induction 1 as [|proof spec key l value subroot root e _ _ Hv _ IH]; [done|].
  exists subroot. split; [by eapply membership_sound|done].
Qed.

Lemma levels_keys self specs keys :
  length (proof_specs_of specs) = length (proofs self) →
  length (key_path keys) = length (proofs self) →
  (λ x, (x.1.2, x.2)) <$> levels self specs keys = key_levels specs keys.
Proof.
  intros Hs Hk. unfold levels, key_levels, RawProofSpecs_from.
  assert (length (RawProofSpec_from <$> proof_specs_of specs) = length (proofs self)) as Hl
    by by rewrite length_fmap.
  assert (length (reverse (key_path keys)) = length (proofs self)) as Hr by by rewrite length_reverse.
  revert Hl Hr. generalize (RawProofSpec_from <$> proof_specs_of specs) (reverse (key_path keys)).
  clear. generalize (proofs self). intros ps. induction ps as [|p ps IH]; intros [|s ss] [|k ks]; cbn;
    try done. intros [= Hl] [= Hk]. f_equal. by apply IH.
Qed.

Lemma membership_committed self specs root keys value :
  MerkleProof_verify_membership self specs root keys value 0 = Ok tt →
  value ≠ [] ∧ committed_under (key_levels specs keys) value root.
Proof.
  intros ((_ & _ & Hs & Hk) & Hv & Hc)%membership_iff. split; [done|].
  rewrite drop_0 in Hc. apply proof_chain_committed in Hc. by rewrite levels_keys in Hc.
Qed.

Lemma levels_head self specs keys proof spec key :
  head (proofs self) = Some proof → head (RawProofSpecs_from specs) = Some spec →
  length (key_path keys) = length (proofs self) →
  key_path keys !! (length (proofs self) - 1)%nat = Some key →
  levels self specs keys = (proof, spec, key) :: drop 1 (levels self specs keys).
Proof.
  intros Hp Hs Hl Hk.
  assert (head (reverse (key_path keys)) = Some key) as Hr.
  { rewrite head_reverse, last_lookup, Hl. by rewrite <- Nat.sub_1_r. }
  unfold levels. destruct (proofs self), (RawProofSpecs_from specs), (reverse (key_path keys));
    try done. cbn in *. by simplify_eq.
Qed.

Lemma non_membership_absent self specs root keys :
  MerkleProof_verify_non_membership self specs root keys = Ok tt →
  absent_under (key_levels specs keys) root.
Proof.
  unfold MerkleProof_verify_non_membership. intros Hv. inv_ok.
  rewrite !negb_false_iff, !Nat.eqb_eq in *.
  match goal with x : CommitmentProof |- _ => destruct (proof_of x) as [[|n|]|]; try done end.
  inv_ok. rewrite negb_false_iff in *.
  match goal with H : MerkleProof_verify_membership _ _ _ _ _ _ = _ |- _ =>
    apply membership_iff in H as ((_ & _ & Hs & Hk) & _ & Hc) end.
  match goal with H : ics23_verify_non_membership _ _ _ _ = true |- _ =>
    apply non_membership_sound in H as Hl end.
  rewrite <- (levels_keys self) by done. erewrite levels_head by done. cbn.
  eexists. split; [exact Hl|]. by apply proof_chain_committed in Hc.
Qed.

(** *** From the root down *)

(** [value] is reached from [root] by following the keys, the outermost first, each in the tree
    whose root the one before it has for a value. *)
Fixpoint nested (trees : list (RawProofSpec * string)) (root value : bytes) : Prop :=
  match trees with
  | [] => root = value
  | (spec, key) :: trees =>
    ∃ subroot, tree_has spec root (as_bytes key) subroot ∧ nested trees subroot value
  end.
(** The last key is not in the tree that the others lead to. *)
Definition lacking (trees : list (RawProofSpec * string)) (root : bytes) : Prop :=
  ∃ outer spec key subroot, trees = (outer ++ [(spec, key)])%list
    ∧ nested outer root subroot ∧ tree_lacks spec subroot (as_bytes key).
(** The trees on the way to a path: specifications are listed from the leaf, keys from the root. *)
Definition trees_of (specs : ProofSpecs) (keys : MerklePath) : list (RawProofSpec * string) :=
  zip (reverse (RawProofSpecs_from specs)) (key_path keys).

Lemma nested_snoc trees spec key root value :
  nested (trees ++ [(spec, key)]) root value
  ↔ ∃ subroot, nested trees root subroot ∧ tree_has spec subroot (as_bytes key) value.
Proof.
  revert root. induction trees as [|[s k] trees IH]; intros root; cbn.
  - split; [intros (sub & ? & ->); by exists root|intros (sub & -> & ?); by exists value].
  - setoid_rewrite IH. naive_solver.
Qed.
Lemma committed_nested l value root : committed_under l value root ↔ nested (reverse l) root value.
Proof.
  revert value. induction l as [|[spec key] l IH]; intros value; [cbn; naive_solver|].
  rewrite reverse_cons, nested_snoc. cbn [committed_under]. setoid_rewrite IH. naive_solver.
Qed.
Lemma absent_lacking l root : absent_under l root → lacking (reverse l) root.
Proof.
  destruct l as [|[spec key] l]; [done|]. intros (sub & Hl & Hc%committed_nested).
  rewrite reverse_cons. by exists (reverse l), spec, key, sub.
Qed.

Lemma reverse_zip {A B} (l : list A) (k : list B) :
  length l = length k → reverse (zip l k) = zip (reverse l) (reverse k).
Proof.
  revert k. induction l as [|x l IH]; intros [|y k]; try done. intros [= Hl]. cbn [zip_with].
  rewrite !reverse_cons, IH by done. by rewrite zip_with_app by by rewrite !length_reverse.
Qed.
Lemma key_levels_trees self specs root keys :
  well_formed self specs root keys → reverse (key_levels specs keys) = trees_of specs keys.
Proof.
  intros (_ & _ & Hs & Hk). unfold key_levels, trees_of.
  rewrite reverse_zip, reverse_involutive; [done|].
  unfold RawProofSpecs_from. rewrite length_fmap, length_reverse. congruence.
Qed.
Lemma non_membership_well_formed self specs root keys :
  MerkleProof_verify_non_membership self specs root keys = Ok tt → well_formed self specs root keys.
Proof.
  unfold MerkleProof_verify_non_membership. intros Hv. inv_ok.
  match goal with x : CommitmentProof |- _ => destruct (proof_of x) as [[|n|]|]; try done end. inv_ok.
  match goal with H : MerkleProof_verify_membership _ _ _ _ _ _ = _ |- _ =>
    by apply membership_iff in H as (? & _) end.
Qed.

(** C33: An accepted proof is about the path it was given for, from the root down: a proof of
    presence shows that the keys of the path, each in the tree of its specification and in the
    order of the path, lead from the root to the value, which is not empty; a proof of absence,
    that all keys but the last lead to a tree that lacks the last.  And the root
    determines what can be proven under it: two accepted proofs of presence for the same path
    are for the same value, and a path with one has no accepted proof of absence, unless a hash
    function collides.  This is for proofs of single trees that are sound, as ics23 guarantees
    them up to collisions. *)
Theorem merkle_proofs_binding specs root keys :
  (∀ proof value, MerkleProof_verify_membership proof specs root keys value 0 = Ok tt →
     value ≠ [] ∧ nested (trees_of specs keys) root value)
  ∧ (∀ proof, MerkleProof_verify_non_membership proof specs root keys = Ok tt →
     lacking (trees_of specs keys) root)
  ∧ (∀ proof1 proof2 value1 value2,
     MerkleProof_verify_membership proof1 specs root keys value1 0 = Ok tt →
     MerkleProof_verify_membership proof2 specs root keys value2 0 = Ok tt →
     value1 = value2 ∨ hash_collision)
  ∧ (∀ proof1 proof2 value, MerkleProof_verify_membership proof1 specs root keys value 0 = Ok tt →
     MerkleProof_verify_non_membership proof2 specs root keys = Ok tt → hash_collision).
Proof.
  split_and!.
  - intros proof value Hm. pose proof (proj1 (membership_iff _ _ _ _ _ _) Hm) as (Hw & _).
    apply membership_committed in Hm as [? Hm%committed_nested].
    by rewrite (key_levels_trees _ _ _ _ Hw) in Hm.
  - intros proof Hn. pose proof (non_membership_well_formed _ _ _ _ Hn) as Hw.
    apply non_membership_absent, absent_lacking in Hn. by rewrite (key_levels_trees _ _ _ _ Hw) in Hn.
  - intros proof1 proof2 value1 value2 [_ Hc1]%membership_committed [_ Hc2]%membership_committed.
    by eapply committed_under_functional.
  - intros proof1 proof2 value [_ Hc1]%membership_committed Hc2%non_membership_absent.
    by eapply committed_not_absent.
Qed.
End soundness.
