(* ===== verification/Events.v ===== *)
(** * Events on the wire

    The conversion of the events the handlers emit to ABCI events, which relayers
    read: [ics02-client/types/src/events.rs], [ics03-connection/types/src/events.rs],
    [ics04-channel/types/src/events], [ics25-handler/types/src/events.rs].  The
    attribute type and hex encoding are the tendermint and hex crates': classes.
    The theorem: an ABCI event determines the event it was made from. *)

From S2P Require Import Prelude RustStr Identifiers Primitives Path Connection Channel Context Merkle.
Local Open Scope string_scope.
Local Open Scope N_scope.

(** [abci::EventAttribute] and its conversions from pairs and triples. *)
Class Abci := {
  EventAttribute : Type;
  attribute : string → string → EventAttribute;
  attribute_indexed : string → string → bool → EventAttribute;
  attribute_key : EventAttribute → string;
  attribute_value : EventAttribute → string;
  hex_encode : bytes → string;
}.
Class AbciLaws `{Abci} := {
  attribute_key_of k v : attribute_key (attribute k v) = k;
  attribute_value_of k v : attribute_value (attribute k v) = v;
  indexed_value_of k v b : attribute_value (attribute_indexed k v b) = v;
  hex_encode_inj : Inj (=) (=) hex_encode;
}.

Definition CREATE_CLIENT_EVENT : string := "create_client".
Definition UPDATE_CLIENT_EVENT : string := "update_client".
Definition CLIENT_MISBEHAVIOUR_EVENT : string := "client_misbehaviour".
Definition UPGRADE_CLIENT_EVENT : string := "upgrade_client".
Definition CONNECTION_OPEN_INIT_EVENT : string := "connection_open_init".
Definition CONNECTION_OPEN_TRY_EVENT : string := "connection_open_try".
Definition CONNECTION_OPEN_ACK_EVENT : string := "connection_open_ack".
Definition CONNECTION_OPEN_CONFIRM_EVENT : string := "connection_open_confirm".
Definition CHANNEL_OPEN_INIT_EVENT : string := "channel_open_init".
Definition CHANNEL_OPEN_TRY_EVENT : string := "channel_open_try".
Definition CHANNEL_OPEN_ACK_EVENT : string := "channel_open_ack".
Definition CHANNEL_OPEN_CONFIRM_EVENT : string := "channel_open_confirm".
Definition CHANNEL_CLOSE_INIT_EVENT : string := "channel_close_init".
Definition CHANNEL_CLOSE_CONFIRM_EVENT : string := "channel_close_confirm".
Definition SEND_PACKET_EVENT : string := "send_packet".
Definition RECEIVE_PACKET_EVENT : string := "receive_packet".
Definition WRITE_ACK_EVENT : string := "write_acknowledgement".
Definition ACK_PACKET_EVENT : string := "acknowledge_packet".
Definition TIMEOUT_EVENT : string := "timeout_packet".
Definition CHANNEL_CLOSED_EVENT : string := "channel_close".
Definition MESSAGE_EVENT : string := "message".

Section events.
Context `{TmTime, Abci}.

Record AbciEvent := mkAbciEvent { abci_kind : string; abci_attributes : list EventAttribute }.

(** ** Attributes *)

Definition ClientIdAttribute_into (id : ClientId) : EventAttribute :=
  attribute "client_id" (client_id_str id).
Definition ClientTypeAttribute_into (t : ClientType) : EventAttribute :=
  attribute "client_type" (client_type_str t).
Definition ConsensusHeightAttribute_into (h : Height) : EventAttribute :=
  attribute "consensus_height" (Height_to_string h).
(** [consensus_heights.join(",")] of the printed heights. *)
Definition ConsensusHeightsAttribute_into (l : list Height) : EventAttribute :=
  attribute "consensus_heights" (String.concat "," (Height_to_string <$> l)).
Definition HeaderAttribute_into (header : bytes) : EventAttribute :=
  attribute "header" (hex_encode header).

(** [Attributes] of the connection events. *)
Definition conn_Attributes_into (connection_id : ConnectionId) (client_id : ClientId)
    (counterparty_connection_id : option ConnectionId) (counterparty_client_id : ClientId) :
    list EventAttribute :=
  [attribute "connection_id" (connection_id_str connection_id);
   attribute "client_id" (client_id_str client_id);
   attribute "counterparty_client_id" (client_id_str counterparty_client_id);
   attribute "counterparty_connection_id"
     (default "" (connection_id_str <$> counterparty_connection_id))].

Definition PortIdAttribute_into (p : PortId) : EventAttribute := attribute "port_id" (port_id_str p).
Definition ChannelIdAttribute_into (c : ChannelId) : EventAttribute :=
  attribute "channel_id" (channel_id_str c).
Definition CounterpartyPortIdAttribute_into (p : PortId) : EventAttribute :=
  attribute "counterparty_port_id" (port_id_str p).
Definition CounterpartyChannelIdAttribute_into (c : ChannelId) : EventAttribute :=
  attribute "counterparty_channel_id" (channel_id_str c).
Definition ConnectionIdAttribute_into (c : ConnectionId) : EventAttribute :=
  attribute "connection_id" (connection_id_str c).
Definition VersionAttribute_into (v : ChanVersion) : EventAttribute :=
  attribute "version" (chan_version_str v).

Definition utf8_or_error (b : bytes) : outcome ChannelError string :=
  ok_or (from_utf8 b) NonUtf8PacketData.
Definition PacketDataAttribute_try_into (d : bytes) : outcome ChannelError (list EventAttribute) :=
  text ← utf8_or_error d;
  Ok [attribute "packet_data" text; attribute "packet_data_hex" (hex_encode d)].
Definition AcknowledgementAttribute_try_into (ack : Acknowledgement) :
    outcome ChannelError (list EventAttribute) :=
  text ← utf8_or_error (ack_bytes ack);
  Ok [attribute "packet_ack" text; attribute "packet_ack_hex" (hex_encode (ack_bytes ack))].
Definition TimeoutHeightAttribute_into (t : TimeoutHeight) : EventAttribute :=
  match t with
  | Never => attribute "packet_timeout_height" "0-0"
  | At height => attribute "packet_timeout_height" (Height_to_string height)
  end.
Definition TimeoutTimestampAttribute_into (t : Timestamp) : outcome ChannelError EventAttribute :=
  nanos ← Timestamp_nanoseconds t; Ok (attribute "packet_timeout_timestamp" (show_u64 nanos)).
Definition SequenceAttribute_into (n : Sequence) : EventAttribute :=
  attribute "packet_sequence" (show_u64 n).
Definition SrcPortIdAttribute_into (p : PortId) : EventAttribute :=
  attribute "packet_src_port" (port_id_str p).
Definition SrcChannelIdAttribute_into (c : ChannelId) : EventAttribute :=
  attribute "packet_src_channel" (channel_id_str c).
Definition DstPortIdAttribute_into (p : PortId) : EventAttribute :=
  attribute "packet_dst_port" (port_id_str p).
Definition DstChannelIdAttribute_into (c : ChannelId) : EventAttribute :=
  attribute "packet_dst_channel" (channel_id_str c).
Definition ChannelOrderingAttribute_into (o : Order) : EventAttribute :=
  attribute "packet_channel_ordering" (Order_as_str o).
Definition PacketConnectionIdAttribute_into (c : ConnectionId) : EventAttribute :=
  attribute "packet_connection" (connection_id_str c).

(** ** Client events *)

Definition CreateClient_into (client_id : ClientId) (client_type : ClientType)
    (consensus_height : Height) : AbciEvent :=
  mkAbciEvent CREATE_CLIENT_EVENT [ClientIdAttribute_into client_id;
    ClientTypeAttribute_into client_type; ConsensusHeightAttribute_into consensus_height].
Definition UpdateClient_into (client_id : ClientId) (client_type : ClientType)
    (consensus_height : Height) (consensus_heights : list Height) (header : bytes) : AbciEvent :=
  mkAbciEvent UPDATE_CLIENT_EVENT [ClientIdAttribute_into client_id;
    ClientTypeAttribute_into client_type; ConsensusHeightAttribute_into consensus_height;
    ConsensusHeightsAttribute_into consensus_heights; HeaderAttribute_into header].
Definition ClientMisbehaviour_into (client_id : ClientId) (client_type : ClientType) : AbciEvent :=
  mkAbciEvent CLIENT_MISBEHAVIOUR_EVENT [ClientIdAttribute_into client_id;
    ClientTypeAttribute_into client_type].
Definition UpgradeClient_into (client_id : ClientId) (client_type : ClientType)
    (consensus_height : Height) : AbciEvent :=
  mkAbciEvent UPGRADE_CLIENT_EVENT [ClientIdAttribute_into client_id;
    ClientTypeAttribute_into client_type; ConsensusHeightAttribute_into consensus_height].

(** ** Connection events *)

Definition conn_OpenInit_into (conn_id_on_a : ConnectionId) (client_id_on_a client_id_on_b : ClientId) :
    AbciEvent :=
  mkAbciEvent CONNECTION_OPEN_INIT_EVENT
    (conn_Attributes_into conn_id_on_a client_id_on_a None client_id_on_b).
Definition conn_OpenTry_into (conn_id_on_b : ConnectionId) (client_id_on_b : ClientId)
    (conn_id_on_a : ConnectionId) (client_id_on_a : ClientId) : AbciEvent :=
  mkAbciEvent CONNECTION_OPEN_TRY_EVENT
    (conn_Attributes_into conn_id_on_b client_id_on_b (Some conn_id_on_a) client_id_on_a).
Definition conn_OpenAck_into (conn_id_on_a : ConnectionId) (client_id_on_a : ClientId)
    (conn_id_on_b : ConnectionId) (client_id_on_b : ClientId) : AbciEvent :=
  mkAbciEvent CONNECTION_OPEN_ACK_EVENT
    (conn_Attributes_into conn_id_on_a client_id_on_a (Some conn_id_on_b) client_id_on_b).
Definition conn_OpenConfirm_into (conn_id_on_b : ConnectionId) (client_id_on_b : ClientId)
    (conn_id_on_a : ConnectionId) (client_id_on_a : ClientId) : AbciEvent :=
  mkAbciEvent CONNECTION_OPEN_CONFIRM_EVENT
    (conn_Attributes_into conn_id_on_b client_id_on_b (Some conn_id_on_a) client_id_on_a).

(** ** Channel events *)

Definition chan_OpenInit_into (port_id_on_a : PortId) (chan_id_on_a : ChannelId) (port_id_on_b : PortId)
    (conn_id_on_a : ConnectionId) (version_on_a : ChanVersion) : AbciEvent :=
  mkAbciEvent CHANNEL_OPEN_INIT_EVENT [PortIdAttribute_into port_id_on_a;
    ChannelIdAttribute_into chan_id_on_a; CounterpartyPortIdAttribute_into port_id_on_b;
    attribute "counterparty_channel_id" ""; ConnectionIdAttribute_into conn_id_on_a;
    VersionAttribute_into version_on_a].
Definition chan_OpenTry_into (port_id_on_b : PortId) (chan_id_on_b : ChannelId) (port_id_on_a : PortId)
    (chan_id_on_a : ChannelId) (conn_id_on_b : ConnectionId) (version_on_b : ChanVersion) : AbciEvent :=
  mkAbciEvent CHANNEL_OPEN_TRY_EVENT [PortIdAttribute_into port_id_on_b;
    ChannelIdAttribute_into chan_id_on_b; CounterpartyPortIdAttribute_into port_id_on_a;
    CounterpartyChannelIdAttribute_into chan_id_on_a; ConnectionIdAttribute_into conn_id_on_b;
    VersionAttribute_into version_on_b].
(** The attributes of [OpenAck], [OpenConfirm], [CloseInit] and [CloseConfirm]. *)
Definition channel_attributes (port : PortId) (chan : ChannelId) (cpty_port : PortId)
    (cpty_chan : ChannelId) (conn : ConnectionId) : list EventAttribute :=
  [PortIdAttribute_into port; ChannelIdAttribute_into chan;
   CounterpartyPortIdAttribute_into cpty_port; CounterpartyChannelIdAttribute_into cpty_chan;
   ConnectionIdAttribute_into conn].
Definition chan_OpenAck_into (port_id_on_a : PortId) (chan_id_on_a : ChannelId) (port_id_on_b : PortId)
    (chan_id_on_b : ChannelId) (conn_id_on_a : ConnectionId) : AbciEvent :=
  mkAbciEvent CHANNEL_OPEN_ACK_EVENT
    (channel_attributes port_id_on_a chan_id_on_a port_id_on_b chan_id_on_b conn_id_on_a).
Definition chan_OpenConfirm_into (port_id_on_b : PortId) (chan_id_on_b : ChannelId)
    (port_id_on_a : PortId) (chan_id_on_a : ChannelId) (conn_id_on_b : ConnectionId) : AbciEvent :=
  mkAbciEvent CHANNEL_OPEN_CONFIRM_EVENT
    (channel_attributes port_id_on_b chan_id_on_b port_id_on_a chan_id_on_a conn_id_on_b).
Definition chan_CloseInit_into (port_id_on_a : PortId) (chan_id_on_a : ChannelId) (port_id_on_b : PortId)
    (chan_id_on_b : ChannelId) (conn_id_on_a : ConnectionId) : AbciEvent :=
  mkAbciEvent CHANNEL_CLOSE_INIT_EVENT
    (channel_attributes port_id_on_a chan_id_on_a port_id_on_b chan_id_on_b conn_id_on_a).
Definition chan_CloseConfirm_into (port_id_on_b : PortId) (chan_id_on_b : ChannelId)
    (port_id_on_a : PortId) (chan_id_on_a : ChannelId) (conn_id_on_b : ConnectionId) : AbciEvent :=
  mkAbciEvent CHANNEL_CLOSE_CONFIRM_EVENT
    (channel_attributes port_id_on_b chan_id_on_b port_id_on_a chan_id_on_a conn_id_on_b).
Definition ChannelClosed_into (port_id_on_a : PortId) (chan_id_on_a : ChannelId) (port_id_on_b : PortId)
    (maybe_chan_id_on_b : option ChannelId) (conn_id_on_a : ConnectionId) (channel_ordering : Order) :
    AbciEvent :=
  mkAbciEvent CHANNEL_CLOSED_EVENT [PortIdAttribute_into port_id_on_a;
    ChannelIdAttribute_into chan_id_on_a; CounterpartyPortIdAttribute_into port_id_on_b;
    match maybe_chan_id_on_b with
    | None => attribute "counterparty_channel_id" ""
    | Some chan_id_on_b => CounterpartyChannelIdAttribute_into chan_id_on_b
    end;
    ConnectionIdAttribute_into conn_id_on_a; ChannelOrderingAttribute_into channel_ordering].

(** ** Packet events *)

(** The attributes that all packet events share, in their order. *)
Definition packet_attributes (packet : Packet) : outcome ChannelError (list EventAttribute) :=
  timestamp ← TimeoutTimestampAttribute_into (timeout_timestamp_on_b packet);
  Ok [TimeoutHeightAttribute_into (timeout_height_on_b packet); timestamp;
      SequenceAttribute_into (seq_on_a packet); SrcPortIdAttribute_into (port_id_on_a packet);
      SrcChannelIdAttribute_into (chan_id_on_a packet); DstPortIdAttribute_into (port_id_on_b packet);
      DstChannelIdAttribute_into (chan_id_on_b packet)].
Definition SendPacket_try_into (packet : Packet) (channel_ordering : Order)
    (src_connection_id : ConnectionId) : outcome ChannelError AbciEvent :=
  packet_data ← PacketDataAttribute_try_into (data packet);
  attributes ← packet_attributes packet;
  Ok (mkAbciEvent SEND_PACKET_EVENT (packet_data ++ attributes ++
    [ChannelOrderingAttribute_into channel_ordering;
     PacketConnectionIdAttribute_into src_connection_id])%list).
Definition ReceivePacket_try_into (packet : Packet) (channel_ordering : Order)
    (dst_connection_id : ConnectionId) : outcome ChannelError AbciEvent :=
  packet_data ← PacketDataAttribute_try_into (data packet);
  attributes ← packet_attributes packet;
  Ok (mkAbciEvent RECEIVE_PACKET_EVENT (packet_data ++ attributes ++
    [ChannelOrderingAttribute_into channel_ordering;
     PacketConnectionIdAttribute_into dst_connection_id])%list).
Definition WriteAcknowledgement_try_into (packet : Packet) (acknowledgement : Acknowledgement)
    (conn_id_on_b : ConnectionId) : outcome ChannelError AbciEvent :=
  packet_data ← PacketDataAttribute_try_into (data packet);
  attributes ← packet_attributes packet;
  ack ← AcknowledgementAttribute_try_into acknowledgement;
  Ok (mkAbciEvent WRITE_ACK_EVENT (packet_data ++ attributes ++ ack ++
    [PacketConnectionIdAttribute_into conn_id_on_b])%list).
Definition AcknowledgePacket_try_into (packet : Packet) (channel_ordering : Order)
    (src_connection_id : ConnectionId) : outcome ChannelError AbciEvent :=
  attributes ← packet_attributes packet;
  Ok (mkAbciEvent ACK_PACKET_EVENT (attributes ++
    [ChannelOrderingAttribute_into channel_ordering;
     PacketConnectionIdAttribute_into src_connection_id])%list).
Definition TimeoutPacket_try_into (packet : Packet) (channel_ordering : Order) :
    outcome ChannelError AbciEvent :=
  attributes ← packet_attributes packet;
  Ok (mkAbciEvent TIMEOUT_EVENT (attributes ++ [ChannelOrderingAttribute_into channel_ordering])%list).

(** ** All events *)

Definition ModuleEvent_into (event : ModuleEvent) : AbciEvent :=
  mkAbciEvent (kind event)
    ((λ a, attribute (attr_key a) (attr_value a)) <$> event_attributes event).
Definition MessageEvent_module_attribute (self : MessageEvent) : string :=
  match self with
  | EvClient => "ibc_client"
  | EvConnection => "ibc_connection"
  | EvChannel => "ibc_channel"
  | EvModule module_name => module_name
  end.

Inductive EventError := EventChannel (e : ChannelError).

Definition IbcEvent_try_into (event : IbcEvent) : outcome EventError AbciEvent :=
  match event with
  | CreateClient i t h => Ok (CreateClient_into i t h)
  | UpdateClient i t h hs header => Ok (UpdateClient_into i t h hs header)
  | UpgradeClient i t h => Ok (UpgradeClient_into i t h)
  | ClientMisbehaviour i t => Ok (ClientMisbehaviour_into i t)
  | OpenInitConnection c i j => Ok (conn_OpenInit_into c i j)
  | OpenTryConnection c i d j => Ok (conn_OpenTry_into c i d j)
  | OpenAckConnection c i d j => Ok (conn_OpenAck_into c i d j)
  | OpenConfirmConnection c i d j => Ok (conn_OpenConfirm_into c i d j)
  | OpenInitChannel p c q n v => Ok (chan_OpenInit_into p c q n v)
  | OpenTryChannel p c q d n v => Ok (chan_OpenTry_into p c q d n v)
  | OpenAckChannel p c q d n => Ok (chan_OpenAck_into p c q d n)
  | OpenConfirmChannel p c q d n => Ok (chan_OpenConfirm_into p c q d n)
  | CloseInitChannel p c q d n => Ok (chan_CloseInit_into p c q d n)
  | CloseConfirmChannel p c q d n => Ok (chan_CloseConfirm_into p c q d n)
  | SendPacket p o c => map_err EventChannel (SendPacket_try_into p o c)
  | ReceivePacket p o c => map_err EventChannel (ReceivePacket_try_into p o c)
  | WriteAcknowledgement p a c => map_err EventChannel (WriteAcknowledgement_try_into p a c)
  | AcknowledgePacket p o c => map_err EventChannel (AcknowledgePacket_try_into p o c)
  | TimeoutPacket p o => map_err EventChannel (TimeoutPacket_try_into p o)
  | ChannelClosed p c q d n o => Ok (ChannelClosed_into p c q d n o)
  | EventModule e => Ok (ModuleEvent_into e)
  | EventMessage e => Ok (mkAbciEvent MESSAGE_EVENT
      [attribute_indexed "module" (MessageEvent_module_attribute e) true])
  end.

Definition IbcEvent_event_type (self : IbcEvent) : string :=
  match self with
  | CreateClient _ _ _ => CREATE_CLIENT_EVENT
  | UpdateClient _ _ _ _ _ => UPDATE_CLIENT_EVENT
  | ClientMisbehaviour _ _ => CLIENT_MISBEHAVIOUR_EVENT
  | UpgradeClient _ _ _ => UPGRADE_CLIENT_EVENT
  | OpenInitConnection _ _ _ => CONNECTION_OPEN_INIT_EVENT
  | OpenTryConnection _ _ _ _ => CONNECTION_OPEN_TRY_EVENT
  | OpenAckConnection _ _ _ _ => CONNECTION_OPEN_ACK_EVENT
  | OpenConfirmConnection _ _ _ _ => CONNECTION_OPEN_CONFIRM_EVENT
  | OpenInitChannel _ _ _ _ _ => CHANNEL_OPEN_INIT_EVENT
  | OpenTryChannel _ _ _ _ _ _ => CHANNEL_OPEN_TRY_EVENT
  | OpenAckChannel _ _ _ _ _ => CHANNEL_OPEN_ACK_EVENT
  | OpenConfirmChannel _ _ _ _ _ => CHANNEL_OPEN_CONFIRM_EVENT
  | CloseInitChannel _ _ _ _ _ => CHANNEL_CLOSE_INIT_EVENT
  | CloseConfirmChannel _ _ _ _ _ => CHANNEL_CLOSE_CONFIRM_EVENT
  | SendPacket _ _ _ => SEND_PACKET_EVENT
  | ReceivePacket _ _ _ => RECEIVE_PACKET_EVENT
  | WriteAcknowledgement _ _ _ => WRITE_ACK_EVENT
  | AcknowledgePacket _ _ _ => ACK_PACKET_EVENT
  | TimeoutPacket _ _ => TIMEOUT_EVENT
  | ChannelClosed _ _ _ _ _ _ => CHANNEL_CLOSED_EVENT
  | EventModule module_event => kind module_event
  | EventMessage _ => MESSAGE_EVENT
  end.
End events.

(** ** What an event tells *)

Section wf.
Context `{TmTime}.

(** Events the handlers emit: heights and timestamps have the forms their
    constructors allow, identifiers are not empty.  An event of a module does not take the
    kind of an event of the protocol, nor its message event the name of a component. *)
Definition core_kinds : list string :=
  [CREATE_CLIENT_EVENT; UPDATE_CLIENT_EVENT; CLIENT_MISBEHAVIOUR_EVENT; UPGRADE_CLIENT_EVENT;
   CONNECTION_OPEN_INIT_EVENT; CONNECTION_OPEN_TRY_EVENT; CONNECTION_OPEN_ACK_EVENT;
   CONNECTION_OPEN_CONFIRM_EVENT; CHANNEL_OPEN_INIT_EVENT; CHANNEL_OPEN_TRY_EVENT;
   CHANNEL_OPEN_ACK_EVENT; CHANNEL_OPEN_CONFIRM_EVENT; CHANNEL_CLOSE_INIT_EVENT;
   CHANNEL_CLOSE_CONFIRM_EVENT; SEND_PACKET_EVENT; RECEIVE_PACKET_EVENT; WRITE_ACK_EVENT;
   ACK_PACKET_EVENT; TIMEOUT_EVENT; CHANNEL_CLOSED_EVENT; MESSAGE_EVENT].
Definition packet_ok (p : Packet) : Prop :=
  TimeoutHeight_wf (timeout_height_on_b p) ∧ Timestamp_wf (timeout_timestamp_on_b p).
Definition IbcEvent_wf (e : IbcEvent) : Prop :=
  match e with
  | CreateClient _ _ h | UpgradeClient _ _ h => Height_wf h
  | UpdateClient _ _ h hs _ => Height_wf h ∧ Forall Height_wf hs
  | SendPacket p _ _ | ReceivePacket p _ _ | WriteAcknowledgement p _ _ | AcknowledgePacket p _ _
  | TimeoutPacket p _ => packet_ok p
  | ChannelClosed _ _ _ (Some c) _ _ => channel_id_str c ≠ ""
  | EventModule m => kind m ∉ core_kinds
  | EventMessage (EvModule n) => n ∉ ["ibc_client"; "ibc_connection"; "ibc_channel"]
  | _ => True
  end.

(** What the attributes keep of an event: the events of acknowledgements and
    timeouts do not carry the data of the packet. *)
Definition without_data (p : Packet) : Packet :=
  mkPacket (seq_on_a p) (port_id_on_a p) (chan_id_on_a p) (port_id_on_b p) (chan_id_on_b p) []
    (timeout_height_on_b p) (timeout_timestamp_on_b p).
Definition announced (e : IbcEvent) : IbcEvent :=
  match e with
  | AcknowledgePacket p o c => AcknowledgePacket (without_data p) o c
  | TimeoutPacket p o => TimeoutPacket (without_data p) o
  | e => e
  end.
End wf.

(** *** Injectivity of what is printed *)

Section printing.
Context `{TmTime}.
Lemma Height_to_string_inj h1 h2 :
  Height_wf h1 → Height_wf h2 → Height_to_string h1 = Height_to_string h2 → h1 = h2.
Proof.
  intros H1 H2 E. pose proof (proj1 (height_display_roundtrip h1) H1) as E1.
  rewrite E, (proj1 (height_display_roundtrip h2) H2) in E1. by injection E1.
Qed.
Definition COMMA : ascii := ",".
Lemma Height_to_string_comma h : contains COMMA (Height_to_string h) = false.
Proof.
  unfold Height_to_string. rewrite !contains_app. rewrite !contains_show_u64 by done. done.
Qed.
Lemma Height_to_string_nonempty h : Height_to_string h ≠ "".
Proof.
  unfold Height_to_string. destruct (show_u64_spec (height_revision_number h)) as (Hn & _).
  destruct (show_u64 (height_revision_number h)); [done|]. done.
Qed.
Lemma concat_comma_split l :
  l ≠ [] → Forall (λ p, contains COMMA p = false) l → split COMMA (String.concat "," l) = l.
Proof.
  intros Hn Hl. induction Hl as [|p l Hp Hl IH]; [done|]. destruct l as [|q l].
  - by apply split_none.
  - change (String.concat "," (p :: q :: l)) with (p ++ String COMMA (String.concat "," (q :: l))).
    rewrite split_app by done. by rewrite IH.
Qed.
Lemma concat_heights_inj l1 l2 :
  Forall Height_wf l1 → Forall Height_wf l2 →
  String.concat "," (Height_to_string <$> l1) = String.concat "," (Height_to_string <$> l2) → l1 = l2.
Proof.
  intros H1 H2 E.
  assert (∀ l, Forall (λ p, contains COMMA p = false) (Height_to_string <$> l)) as Hc.
  { intros l. apply Forall_fmap, Forall_true. apply Height_to_string_comma. }
  assert (∀ h l, String.concat "," (Height_to_string <$> h :: l) ≠ "") as Hne.
  { intros h l. pose proof (Height_to_string_nonempty h).
    destruct l; cbn; destruct (Height_to_string h); done. }
  assert (Height_to_string <$> l1 = Height_to_string <$> l2) as El.
  { destruct l1 as [|h1 l1], l2 as [|h2 l2]; [done| | |].
    - by destruct (Hne h2 l2).
    - by destruct (Hne h1 l1).
    - apply (f_equal (split COMMA)) in E. rewrite !concat_comma_split in E by done. done. }
  clear E Hc Hne. revert l2 H2 El. induction H1 as [|h1 l1 Hh1 H1 IH]; intros [|h2 l2] H2; try done.
  cbn. intros [= Eh El]. inversion H2; subst. f_equal; [by apply Height_to_string_inj|by apply IH].
Qed.
Lemma TimeoutHeight_printed t1 t2 :
  TimeoutHeight_wf t1 → TimeoutHeight_wf t2 →
  (match t1 with Never => "0-0" | At h => Height_to_string h end) =
  (match t2 with Never => "0-0" | At h => Height_to_string h end) → t1 = t2.
Proof.
  assert (∀ h, Height_wf h → Height_to_string h ≠ "0-0") as Hz.
  { intros h Hh E. pose proof (proj1 (height_display_roundtrip h) Hh) as Er. rewrite E in Er.
    vm_compute in Er. done. }
  destruct t1 as [|h1], t2 as [|h2]; cbn; intros H1 H2 E; try done.
  - by destruct (Hz h2).
  - by destruct (Hz h1).
  - f_equal. by apply Height_to_string_inj.
Qed.
End printing.

(** *** The theorem *)

Section theorems.
Context `{TmTime, Abci, !AbciLaws}.

Lemma attribute_inj k1 v1 k2 v2 : attribute k1 v1 = attribute k2 v2 → k1 = k2 ∧ v1 = v2.
Proof.
  intros E. split.
  - by rewrite <- (attribute_key_of k1 v1), E, attribute_key_of.
  - by rewrite <- (attribute_value_of k1 v1), E, attribute_value_of.
Qed.
Lemma indexed_inj k v1 v2 b : attribute_indexed k v1 b = attribute_indexed k v2 b → v1 = v2.
Proof. intros E. by rewrite <- (indexed_value_of k v1 b), E, indexed_value_of. Qed.

Lemma event_kind e a : IbcEvent_try_into e = Ok a → abci_kind a = IbcEvent_event_type e.
Proof.
  destruct e; cbn [IbcEvent_try_into];
    unfold SendPacket_try_into, ReceivePacket_try_into, WriteAcknowledgement_try_into,
      AcknowledgePacket_try_into, TimeoutPacket_try_into; intros He; inv_ok; done.
Qed.

(** Events of modules are told from the others by their kind. *)
Definition from_module (e : IbcEvent) : bool := match e with EventModule _ => true | _ => false end.
Lemma kind_tells_module e1 e2 :
  IbcEvent_wf e1 → IbcEvent_wf e2 → IbcEvent_event_type e1 = IbcEvent_event_type e2 →
  from_module e1 = from_module e2.
Proof.
  assert (∀ e, from_module e = false → IbcEvent_event_type e ∈ core_kinds) as Hcore.
  { intros e He. apply list_elem_of_In. destruct e; try done; cbn; tauto. }
  intros Hw1 Hw2 E. destruct (from_module e1) eqn:F1, (from_module e2) eqn:F2; try done; exfalso.
  - apply Hcore in F2. rewrite <- E in F2. by destruct e1.
  - apply Hcore in F1. rewrite E in F1. by destruct e2.
Qed.
Lemma ModuleEvent_into_inj m1 m2 : ModuleEvent_into m1 = ModuleEvent_into m2 → m1 = m2.
Proof.
  destruct m1 as [k1 l1], m2 as [k2 l2]. unfold ModuleEvent_into. cbn. intros [= -> El]. f_equal.
  revert l2 El. induction l1 as [|[k v] l1 IH]; intros [|[k' v'] l2]; cbn; try done.
  intros [= E El]. f_equal; [|by apply IH]. f_equal.
  - apply (f_equal attribute_key) in E. by rewrite !attribute_key_of in E.
  - apply (f_equal attribute_value) in E. by rewrite !attribute_value_of in E.
Qed.

Lemma Order_as_str_inj o1 o2 : Order_as_str o1 = Order_as_str o2 → o1 = o2.
Proof. by destruct o1, o2. Qed.

Lemma timestamp_attribute_inj `{!TmTimeLaws} t1 t2 a :
  Timestamp_wf t1 → Timestamp_wf t2 → TimeoutTimestampAttribute_into t1 = Ok a →
  TimeoutTimestampAttribute_into t2 = Ok a → t1 = t2.
Proof.
  unfold TimeoutTimestampAttribute_into. intros Ht1 Ht2 E1 E2. inv_ok.
  match goal with E : attribute _ _ = attribute _ _ |- _ =>
    apply attribute_inj in E as [_ E%show_u64_inj]; subst end.
  by eapply Timestamp_nanoseconds_inj.
Qed.

(** Equal attributes come from equal values. *)
Ltac read_attributes :=
  repeat match goal with
  | E : attribute _ _ = attribute _ _ |- _ => apply attribute_inj in E as [_ E]
  | E : attribute_indexed _ _ _ = attribute_indexed _ _ _ |- _ => apply indexed_inj in E
  | E : show_u64 _ = show_u64 _ |- _ => apply show_u64_inj in E
  | E : hex_encode _ = hex_encode _ |- _ => apply hex_encode_inj in E
  | E : Order_as_str _ = Order_as_str _ |- _ => apply Order_as_str_inj in E
  | E : Height_to_string _ = Height_to_string _ |- _ => apply Height_to_string_inj in E; [|done..]
  | E : String.concat _ (_ <$> _) = String.concat _ (_ <$> _) |- _ =>
    apply concat_heights_inj in E; [|done..]
  end.

Lemma packet_attributes_inj `{!TmTimeLaws} p1 p2 l :
  packet_ok p1 → packet_ok p2 → packet_attributes p1 = Ok l → packet_attributes p2 = Ok l →
  without_data p1 = without_data p2.
Proof.
  intros [Hh1 Ht1] [Hh2 Ht2]. unfold packet_attributes. intros E1 E2. inv_ok.
  destruct p1 as [n1 [pa1] [ca1] [pb1] [cb1] d1 h1 t1], p2 as [n2 [pa2] [ca2] [pb2] [cb2] d2 h2 t2].
  unfold SequenceAttribute_into, SrcPortIdAttribute_into, SrcChannelIdAttribute_into,
    DstPortIdAttribute_into, DstChannelIdAttribute_into in *. cbn in *. unfold without_data. cbn.
  read_attributes. subst.
  assert (h1 = h2) as -> by (apply TimeoutHeight_printed; [done..|];
    unfold TimeoutHeightAttribute_into in *; destruct h1, h2; read_attributes; congruence).
  f_equal. by eapply timestamp_attribute_inj.
Qed.

Lemma packet_data_inj d1 d2 l1 l2 :
  PacketDataAttribute_try_into d1 = Ok l1 → PacketDataAttribute_try_into d2 = Ok l2 →
  length l1 = 2%nat ∧ length l2 = 2%nat ∧ (l1 = l2 → d1 = d2).
Proof.
  unfold PacketDataAttribute_try_into. intros E1 E2. inv_ok. split_and!; [done..|].
  intros [= _ E]. by read_attributes.
Qed.
Lemma acknowledgement_inj a1 a2 l1 l2 :
  AcknowledgementAttribute_try_into a1 = Ok l1 → AcknowledgementAttribute_try_into a2 = Ok l2 →
  length l1 = 2%nat ∧ length l2 = 2%nat ∧ (l1 = l2 → a1 = a2).
Proof.
  unfold AcknowledgementAttribute_try_into. destruct a1, a2. intros E1 E2. inv_ok. split_and!; [done..|].
  intros [= _ E]. cbn in E. read_attributes. by f_equal.
Qed.
Lemma packet_attributes_length p l : packet_attributes p = Ok l → length l = 7%nat.
Proof. unfold packet_attributes. intros E. by inv_ok. Qed.

Lemma packet_without_data p1 p2 : without_data p1 = without_data p2 → data p1 = data p2 → p1 = p2.
Proof. destruct p1, p2. unfold without_data. cbn. intros [=] ->. by subst. Qed.

Lemma ordering_connection_inj o1 c1 o2 c2 :
  [ChannelOrderingAttribute_into o1; PacketConnectionIdAttribute_into c1]
  = [ChannelOrderingAttribute_into o2; PacketConnectionIdAttribute_into c2] → o1 = o2 ∧ c1 = c2.
Proof.
  destruct c1, c2. unfold ChannelOrderingAttribute_into, PacketConnectionIdAttribute_into. cbn.
  intros [= E1 E2]. read_attributes. by subst.
Qed.

Lemma sent_attributes_inj `{!TmTimeLaws} p1 o1 c1 p2 o2 c2 l1 l2 k1 k2 :
  packet_ok p1 → packet_ok p2 →
  PacketDataAttribute_try_into (data p1) = Ok l1 → packet_attributes p1 = Ok k1 →
  PacketDataAttribute_try_into (data p2) = Ok l2 → packet_attributes p2 = Ok k2 →
  (l1 ++ k1 ++ [ChannelOrderingAttribute_into o1; PacketConnectionIdAttribute_into c1])%list
  = (l2 ++ k2 ++ [ChannelOrderingAttribute_into o2; PacketConnectionIdAttribute_into c2])%list →
  p1 = p2 ∧ o1 = o2 ∧ c1 = c2.
Proof.
  intros Hw1 Hw2 Hd1 Hk1 Hd2 Hk2 E.
  destruct (packet_data_inj _ _ _ _ Hd1 Hd2) as (Hl1 & Hl2 & Hd).
  apply app_inj_1 in E as [El E]; [|by rewrite Hl1].
  apply app_inj_1 in E as [Ek E];
    [|by rewrite (packet_attributes_length _ _ Hk1), (packet_attributes_length _ _ Hk2)]. subst.
  apply ordering_connection_inj in E. split; [|done].
  apply packet_without_data; [by eapply packet_attributes_inj|by apply Hd].
Qed.

Lemma resolved_attributes_inj `{!TmTimeLaws} p1 p2 k1 k2 r1 r2 :
  packet_ok p1 → packet_ok p2 → packet_attributes p1 = Ok k1 → packet_attributes p2 = Ok k2 →
  (k1 ++ r1)%list = (k2 ++ r2)%list → without_data p1 = without_data p2 ∧ r1 = r2.
Proof.
  intros Hw1 Hw2 Hk1 Hk2 E. apply app_inj_1 in E as [Ek E];
    [|by rewrite (packet_attributes_length _ _ Hk1), (packet_attributes_length _ _ Hk2)]. subst.
  split; [|done]. by eapply packet_attributes_inj.
Qed.
Lemma written_attributes_inj `{!TmTimeLaws} p1 a1 c1 p2 a2 c2 l1 l2 k1 k2 m1 m2 :
  packet_ok p1 → packet_ok p2 →
  PacketDataAttribute_try_into (data p1) = Ok l1 → packet_attributes p1 = Ok k1 →
  AcknowledgementAttribute_try_into a1 = Ok m1 →
  PacketDataAttribute_try_into (data p2) = Ok l2 → packet_attributes p2 = Ok k2 →
  AcknowledgementAttribute_try_into a2 = Ok m2 →
  (l1 ++ k1 ++ m1 ++ [PacketConnectionIdAttribute_into c1])%list
  = (l2 ++ k2 ++ m2 ++ [PacketConnectionIdAttribute_into c2])%list →
  p1 = p2 ∧ a1 = a2 ∧ c1 = c2.
Proof.
  intros Hw1 Hw2 Hd1 Hk1 Ha1 Hd2 Hk2 Ha2 E.
  destruct (packet_data_inj _ _ _ _ Hd1 Hd2) as (Hl1 & Hl2 & Hd).
  destruct (acknowledgement_inj _ _ _ _ Ha1 Ha2) as (Hm1 & Hm2 & Ha).
  apply app_inj_1 in E as [El E]; [|by rewrite Hl1].
  destruct (resolved_attributes_inj _ _ _ _ _ _ Hw1 Hw2 Hk1 Hk2 E) as [Hp Er]. clear E. rename Er into E.
  apply app_inj_1 in E as [Em E]; [|by rewrite Hm1].
  split; [apply packet_without_data; [exact Hp|exact (Hd El)]|]. split; [exact (Ha Em)|].
  destruct c1, c2. unfold PacketConnectionIdAttribute_into in E. injection E as E. cbn in E.
  read_attributes. by f_equal.
Qed.

(** Unfolds the attributes of an event that carries no packet. *)
Ltac unfold_attributes :=
  unfold CreateClient_into, UpdateClient_into, UpgradeClient_into, ClientMisbehaviour_into,
    conn_OpenInit_into, conn_OpenTry_into, conn_OpenAck_into, conn_OpenConfirm_into,
    conn_Attributes_into, chan_OpenInit_into, chan_OpenTry_into, chan_OpenAck_into,
    chan_OpenConfirm_into, chan_CloseInit_into, chan_CloseConfirm_into, ChannelClosed_into,
    channel_attributes, ClientIdAttribute_into, ClientTypeAttribute_into,
    ConsensusHeightAttribute_into, ConsensusHeightsAttribute_into, HeaderAttribute_into,
    PortIdAttribute_into, ChannelIdAttribute_into, CounterpartyPortIdAttribute_into,
    CounterpartyChannelIdAttribute_into, ConnectionIdAttribute_into, VersionAttribute_into,
    ChannelOrderingAttribute_into, PacketConnectionIdAttribute_into in *.
(** Identifiers are their text. *)
Ltac destruct_ids :=
  repeat match goal with
  | i : ClientId |- _ => destruct i | i : ClientType |- _ => destruct i
  | i : ConnectionId |- _ => destruct i | i : ChannelId |- _ => destruct i
  | i : PortId |- _ => destruct i | v : ChanVersion |- _ => destruct v
  end; cbn [client_id_str client_type_str connection_id_str channel_id_str port_id_str
            chan_version_str default fmap option_fmap option_map] in *.

(** C35: An ABCI event determines the event of the protocol it was made from, so that a
    relayer which reads it knows the packet, the channel or the client it is about:
    two well-formed events with the same ABCI form are equal, the data of an
    acknowledged or timed out packet apart; an event of a module is also determined, as
    long as it does not take the kind of an event of the protocol.  Its kind is the type of the event. *)
Theorem abci_event_determines `{!TmTimeLaws} e1 e2 a :
  IbcEvent_wf e1 → IbcEvent_wf e2 →
  IbcEvent_try_into e1 = Ok a → IbcEvent_try_into e2 = Ok a →
  announced e1 = announced e2 ∧ abci_kind a = IbcEvent_event_type e1.
Proof.
  intros Hw1 Hw2 E1 E2. pose proof (event_kind _ _ E1) as Hk1. pose proof (event_kind _ _ E2) as Hk2.
  split; [|done]. rewrite Hk1 in Hk2. clear Hk1. pose proof (kind_tells_module _ _ Hw1 Hw2 Hk2) as Hm.
  destruct e1, e2; cbn in Hw1, Hw2; try done; clear Hk2; cbn [IbcEvent_try_into] in E1, E2;
    unfold SendPacket_try_into, ReceivePacket_try_into, WriteAcknowledgement_try_into,
      AcknowledgePacket_try_into, TimeoutPacket_try_into in *.
  all: lazymatch goal with
    | E : map_err _ _ = _ |- _ => idtac
    | |- context [ChannelClosed] => idtac
    | |- context [EventMessage] => idtac
    | |- context [EventModule] => idtac
    | _ => unfold_attributes; rewrite <- E2 in E1; destruct_and?; destruct_ids; injection E1; intros;
           read_attributes; subst; cbn; try done
    end.
  - inv_ok. edestruct (sent_attributes_inj packet) as (-> & -> & ->); try done.
  - inv_ok. edestruct (sent_attributes_inj packet) as (-> & -> & ->); try done.
  - inv_ok. edestruct (written_attributes_inj packet) as (-> & -> & ->); try done.
  - inv_ok. edestruct (resolved_attributes_inj packet packet0) as (Hp & E); try done.
    apply ordering_connection_inj in E as [-> ->]. cbn. by rewrite Hp.
  - inv_ok. edestruct (resolved_attributes_inj packet packet0) as (Hp & E); try done.
    unfold ChannelOrderingAttribute_into in E. injection E as E. read_attributes. cbn. by rewrite Hp, E.
  - rewrite <- E2 in E1. unfold_attributes. injection E1. intros. read_attributes.
    destruct maybe_chan_id_on_b, maybe_chan_id_on_b0; read_attributes; destruct_ids; subst; done.
  - cbn. f_equal. apply ModuleEvent_into_inj. congruence.
  - rewrite <- E2 in E1. injection E1. intros E. read_attributes.
    destruct e, e0; cbn in *; try done; subst; set_solver.
Qed.
End theorems.
