(* ===== verification/EventStructs.v ===== *)
(** * Event structs

    The structs of the client, connection and channel events
    (ibc-core/ics02-client/types/src/events.rs, ics03-connection/types/src/events.rs,
    ics04-channel/types/src/events/mod.rs): their fields, constructors, accessors and event
    types.  A field of an attribute type ([PortIdAttribute], [SrcChannelIdAttribute], ...) is
    the value the attribute wraps.  The accessor [f] of the event [X] is [XEvent_get_f].
    Events.v has the conversion of the events to ABCI. *)

From S2P Require Import Prelude RustStr Identifiers Primitives Path Connection Channel Context.
From S2P Require Import Merkle Events.
Local Open Scope string_scope.
Local Open Scope N_scope.

Section event_structs.
Context `{TmTime}.

(** ** ics02-client/types/src/events.rs *)

Record CreateClientEvent := mkCreateClientEvent {
  CreateClientEvent_client_id : ClientId;
  CreateClientEvent_client_type : ClientType;
  CreateClientEvent_consensus_height : Height }.
Definition CreateClientEvent_new (client_id : ClientId) (client_type : ClientType)
    (consensus_height : Height) :
    CreateClientEvent :=
  mkCreateClientEvent client_id client_type consensus_height.
Definition CreateClientEvent_get_client_id (self : CreateClientEvent) : ClientId :=
  CreateClientEvent_client_id self.
Definition CreateClientEvent_get_client_type (self : CreateClientEvent) : ClientType :=
  CreateClientEvent_client_type self.
Definition CreateClientEvent_get_consensus_height (self : CreateClientEvent) : Height :=
  CreateClientEvent_consensus_height self.
Definition CreateClientEvent_event_type (_ : CreateClientEvent) : string := CREATE_CLIENT_EVENT.

Record UpdateClientEvent := mkUpdateClientEvent {
  UpdateClientEvent_client_id : ClientId;
  UpdateClientEvent_client_type : ClientType;
  UpdateClientEvent_consensus_height : Height;
  UpdateClientEvent_consensus_heights : list Height;
  UpdateClientEvent_header : bytes }.
Definition UpdateClientEvent_new (client_id : ClientId) (client_type : ClientType)
    (consensus_height : Height) (consensus_heights : list Height) (header : bytes) :
    UpdateClientEvent :=
  mkUpdateClientEvent client_id client_type consensus_height consensus_heights header.
Definition UpdateClientEvent_get_client_id (self : UpdateClientEvent) : ClientId :=
  UpdateClientEvent_client_id self.
Definition UpdateClientEvent_get_client_type (self : UpdateClientEvent) : ClientType :=
  UpdateClientEvent_client_type self.
Definition UpdateClientEvent_get_consensus_height (self : UpdateClientEvent) : Height :=
  UpdateClientEvent_consensus_height self.
Definition UpdateClientEvent_get_consensus_heights (self : UpdateClientEvent) : list Height :=
  UpdateClientEvent_consensus_heights self.
Definition UpdateClientEvent_get_header (self : UpdateClientEvent) : bytes :=
  UpdateClientEvent_header self.
Definition UpdateClientEvent_event_type (_ : UpdateClientEvent) : string := UPDATE_CLIENT_EVENT.

Record ClientMisbehaviourEvent := mkClientMisbehaviourEvent {
  ClientMisbehaviourEvent_client_id : ClientId;
  ClientMisbehaviourEvent_client_type : ClientType }.
Definition ClientMisbehaviourEvent_new (client_id : ClientId) (client_type : ClientType) :
    ClientMisbehaviourEvent :=
  mkClientMisbehaviourEvent client_id client_type.
Definition ClientMisbehaviourEvent_get_client_id (self : ClientMisbehaviourEvent) : ClientId :=
  ClientMisbehaviourEvent_client_id self.
Definition ClientMisbehaviourEvent_get_client_type (self : ClientMisbehaviourEvent) : ClientType :=
  ClientMisbehaviourEvent_client_type self.
Definition ClientMisbehaviourEvent_event_type (_ : ClientMisbehaviourEvent) : string :=
  CLIENT_MISBEHAVIOUR_EVENT.

Record UpgradeClientEvent := mkUpgradeClientEvent {
  UpgradeClientEvent_client_id : ClientId;
  UpgradeClientEvent_client_type : ClientType;
  UpgradeClientEvent_consensus_height : Height }.
Definition UpgradeClientEvent_new (client_id : ClientId) (client_type : ClientType)
    (consensus_height : Height) :
    UpgradeClientEvent :=
  mkUpgradeClientEvent client_id client_type consensus_height.
Definition UpgradeClientEvent_get_client_id (self : UpgradeClientEvent) : ClientId :=
  UpgradeClientEvent_client_id self.
Definition UpgradeClientEvent_get_client_type (self : UpgradeClientEvent) : ClientType :=
  UpgradeClientEvent_client_type self.
Definition UpgradeClientEvent_get_consensus_height (self : UpgradeClientEvent) : Height :=
  UpgradeClientEvent_consensus_height self.
Definition UpgradeClientEvent_event_type (_ : UpgradeClientEvent) : string := UPGRADE_CLIENT_EVENT.

(** ** ics03-connection/types/src/events.rs *)

Record ConnAttributes := mkConnAttributes {
  ConnAttributes_connection_id : ConnectionId;
  ConnAttributes_client_id : ClientId;
  ConnAttributes_counterparty_connection_id : option ConnectionId;
  ConnAttributes_counterparty_client_id : ClientId }.

Record ConnOpenInitEvent := mkConnOpenInitEvent { ConnOpenInitEvent_0 : ConnAttributes }.
Definition ConnOpenInitEvent_new (conn_id_on_a : ConnectionId) (client_id_on_a : ClientId)
    (client_id_on_b : ClientId) :
    ConnOpenInitEvent :=
  mkConnOpenInitEvent (mkConnAttributes conn_id_on_a client_id_on_a None client_id_on_b).
Definition ConnOpenInitEvent_get_conn_id_on_a (self : ConnOpenInitEvent) : ConnectionId :=
  ConnAttributes_connection_id (ConnOpenInitEvent_0 self).
Definition ConnOpenInitEvent_get_client_id_on_a (self : ConnOpenInitEvent) : ClientId :=
  ConnAttributes_client_id (ConnOpenInitEvent_0 self).
Definition ConnOpenInitEvent_get_conn_id_on_b (self : ConnOpenInitEvent) : option ConnectionId :=
  ConnAttributes_counterparty_connection_id (ConnOpenInitEvent_0 self).
Definition ConnOpenInitEvent_get_client_id_on_b (self : ConnOpenInitEvent) : ClientId :=
  ConnAttributes_counterparty_client_id (ConnOpenInitEvent_0 self).
Definition ConnOpenInitEvent_event_type (_ : ConnOpenInitEvent) : string :=
  CONNECTION_OPEN_INIT_EVENT.

Record ConnOpenTryEvent := mkConnOpenTryEvent { ConnOpenTryEvent_0 : ConnAttributes }.
Definition ConnOpenTryEvent_new (conn_id_on_b : ConnectionId) (client_id_on_b : ClientId)
    (conn_id_on_a : ConnectionId) (client_id_on_a : ClientId) :
    ConnOpenTryEvent :=
  mkConnOpenTryEvent (mkConnAttributes conn_id_on_b client_id_on_b (Some conn_id_on_a)
    client_id_on_a).
Definition ConnOpenTryEvent_get_conn_id_on_b (self : ConnOpenTryEvent) : ConnectionId :=
  ConnAttributes_connection_id (ConnOpenTryEvent_0 self).
Definition ConnOpenTryEvent_get_client_id_on_b (self : ConnOpenTryEvent) : ClientId :=
  ConnAttributes_client_id (ConnOpenTryEvent_0 self).
Definition ConnOpenTryEvent_get_conn_id_on_a (self : ConnOpenTryEvent) : option ConnectionId :=
  ConnAttributes_counterparty_connection_id (ConnOpenTryEvent_0 self).
Definition ConnOpenTryEvent_get_client_id_on_a (self : ConnOpenTryEvent) : ClientId :=
  ConnAttributes_counterparty_client_id (ConnOpenTryEvent_0 self).
Definition ConnOpenTryEvent_event_type (_ : ConnOpenTryEvent) : string := CONNECTION_OPEN_TRY_EVENT.

Record ConnOpenAckEvent := mkConnOpenAckEvent { ConnOpenAckEvent_0 : ConnAttributes }.
Definition ConnOpenAckEvent_new (conn_id_on_a : ConnectionId) (client_id_on_a : ClientId)
    (conn_id_on_b : ConnectionId) (client_id_on_b : ClientId) :
    ConnOpenAckEvent :=
  mkConnOpenAckEvent (mkConnAttributes conn_id_on_a client_id_on_a (Some conn_id_on_b)
    client_id_on_b).
Definition ConnOpenAckEvent_get_conn_id_on_a (self : ConnOpenAckEvent) : ConnectionId :=
  ConnAttributes_connection_id (ConnOpenAckEvent_0 self).
Definition ConnOpenAckEvent_get_client_id_on_a (self : ConnOpenAckEvent) : ClientId :=
  ConnAttributes_client_id (ConnOpenAckEvent_0 self).
Definition ConnOpenAckEvent_get_conn_id_on_b (self : ConnOpenAckEvent) : option ConnectionId :=
  ConnAttributes_counterparty_connection_id (ConnOpenAckEvent_0 self).
Definition ConnOpenAckEvent_get_client_id_on_b (self : ConnOpenAckEvent) : ClientId :=
  ConnAttributes_counterparty_client_id (ConnOpenAckEvent_0 self).
Definition ConnOpenAckEvent_event_type (_ : ConnOpenAckEvent) : string := CONNECTION_OPEN_ACK_EVENT.

Record ConnOpenConfirmEvent := mkConnOpenConfirmEvent { ConnOpenConfirmEvent_0 : ConnAttributes }.
Definition ConnOpenConfirmEvent_new (conn_id_on_b : ConnectionId) (client_id_on_b : ClientId)
    (conn_id_on_a : ConnectionId) (client_id_on_a : ClientId) :
    ConnOpenConfirmEvent :=
  mkConnOpenConfirmEvent (mkConnAttributes conn_id_on_b client_id_on_b (Some conn_id_on_a)
    client_id_on_a).
Definition ConnOpenConfirmEvent_get_conn_id_on_b (self : ConnOpenConfirmEvent) : ConnectionId :=
  ConnAttributes_connection_id (ConnOpenConfirmEvent_0 self).
Definition ConnOpenConfirmEvent_get_client_id_on_b (self : ConnOpenConfirmEvent) : ClientId :=
  ConnAttributes_client_id (ConnOpenConfirmEvent_0 self).
Definition ConnOpenConfirmEvent_get_conn_id_on_a (self : ConnOpenConfirmEvent) : option
    ConnectionId :=
  ConnAttributes_counterparty_connection_id (ConnOpenConfirmEvent_0 self).
Definition ConnOpenConfirmEvent_get_client_id_on_a (self : ConnOpenConfirmEvent) : ClientId :=
  ConnAttributes_counterparty_client_id (ConnOpenConfirmEvent_0 self).
Definition ConnOpenConfirmEvent_event_type (_ : ConnOpenConfirmEvent) : string :=
  CONNECTION_OPEN_CONFIRM_EVENT.

(** ** ics04-channel/types/src/events/mod.rs *)

Record ChanOpenInitEvent := mkChanOpenInitEvent {
  ChanOpenInitEvent_port_id_attr_on_a : PortId;
  ChanOpenInitEvent_chan_id_attr_on_a : ChannelId;
  ChanOpenInitEvent_port_id_attr_on_b : PortId;
  ChanOpenInitEvent_conn_id_attr_on_a : ConnectionId;
  ChanOpenInitEvent_version_attr_on_a : ChanVersion }.
Definition ChanOpenInitEvent_new (port_id_on_a : PortId) (chan_id_on_a : ChannelId) (port_id_on_b
    : PortId) (conn_id_on_a : ConnectionId) (version_on_a : ChanVersion) :
    ChanOpenInitEvent :=
  mkChanOpenInitEvent port_id_on_a chan_id_on_a port_id_on_b conn_id_on_a version_on_a.
Definition ChanOpenInitEvent_get_port_id_on_a (self : ChanOpenInitEvent) : PortId :=
  ChanOpenInitEvent_port_id_attr_on_a self.
Definition ChanOpenInitEvent_get_chan_id_on_a (self : ChanOpenInitEvent) : ChannelId :=
  ChanOpenInitEvent_chan_id_attr_on_a self.
Definition ChanOpenInitEvent_get_port_id_on_b (self : ChanOpenInitEvent) : PortId :=
  ChanOpenInitEvent_port_id_attr_on_b self.
Definition ChanOpenInitEvent_get_conn_id_on_a (self : ChanOpenInitEvent) : ConnectionId :=
  ChanOpenInitEvent_conn_id_attr_on_a self.
Definition ChanOpenInitEvent_get_version_on_a (self : ChanOpenInitEvent) : ChanVersion :=
  ChanOpenInitEvent_version_attr_on_a self.
Definition ChanOpenInitEvent_event_type (_ : ChanOpenInitEvent) : string := CHANNEL_OPEN_INIT_EVENT.

Record ChanOpenTryEvent := mkChanOpenTryEvent {
  ChanOpenTryEvent_port_id_attr_on_b : PortId;
  ChanOpenTryEvent_chan_id_attr_on_b : ChannelId;
  ChanOpenTryEvent_port_id_attr_on_a : PortId;
  ChanOpenTryEvent_chan_id_attr_on_a : ChannelId;
  ChanOpenTryEvent_conn_id_attr_on_b : ConnectionId;
  ChanOpenTryEvent_version_attr_on_b : ChanVersion }.
Definition ChanOpenTryEvent_new (port_id_on_b : PortId) (chan_id_on_b : ChannelId) (port_id_on_a :
    PortId) (chan_id_on_a : ChannelId) (conn_id_on_b : ConnectionId) (version_on_b : ChanVersion)
    :
    ChanOpenTryEvent :=
  mkChanOpenTryEvent port_id_on_b chan_id_on_b port_id_on_a chan_id_on_a conn_id_on_b version_on_b.
Definition ChanOpenTryEvent_get_port_id_on_b (self : ChanOpenTryEvent) : PortId :=
  ChanOpenTryEvent_port_id_attr_on_b self.
Definition ChanOpenTryEvent_get_chan_id_on_b (self : ChanOpenTryEvent) : ChannelId :=
  ChanOpenTryEvent_chan_id_attr_on_b self.
Definition ChanOpenTryEvent_get_port_id_on_a (self : ChanOpenTryEvent) : PortId :=
  ChanOpenTryEvent_port_id_attr_on_a self.
Definition ChanOpenTryEvent_get_chan_id_on_a (self : ChanOpenTryEvent) : ChannelId :=
  ChanOpenTryEvent_chan_id_attr_on_a self.
Definition ChanOpenTryEvent_get_conn_id_on_b (self : ChanOpenTryEvent) : ConnectionId :=
  ChanOpenTryEvent_conn_id_attr_on_b self.
Definition ChanOpenTryEvent_get_version_on_b (self : ChanOpenTryEvent) : ChanVersion :=
  ChanOpenTryEvent_version_attr_on_b self.
Definition ChanOpenTryEvent_event_type (_ : ChanOpenTryEvent) : string := CHANNEL_OPEN_TRY_EVENT.

Record ChanOpenAckEvent := mkChanOpenAckEvent {
  ChanOpenAckEvent_port_id_attr_on_a : PortId;
  ChanOpenAckEvent_chan_id_attr_on_a : ChannelId;
  ChanOpenAckEvent_port_id_attr_on_b : PortId;
  ChanOpenAckEvent_chan_id_attr_on_b : ChannelId;
  ChanOpenAckEvent_conn_id_attr_on_a : ConnectionId }.
Definition ChanOpenAckEvent_new (port_id_on_a : PortId) (chan_id_on_a : ChannelId) (port_id_on_b :
    PortId) (chan_id_on_b : ChannelId) (conn_id_on_a : ConnectionId) :
    ChanOpenAckEvent :=
  mkChanOpenAckEvent port_id_on_a chan_id_on_a port_id_on_b chan_id_on_b conn_id_on_a.
Definition ChanOpenAckEvent_get_port_id_on_a (self : ChanOpenAckEvent) : PortId :=
  ChanOpenAckEvent_port_id_attr_on_a self.
Definition ChanOpenAckEvent_get_chan_id_on_a (self : ChanOpenAckEvent) : ChannelId :=
  ChanOpenAckEvent_chan_id_attr_on_a self.
Definition ChanOpenAckEvent_get_port_id_on_b (self : ChanOpenAckEvent) : PortId :=
  ChanOpenAckEvent_port_id_attr_on_b self.
Definition ChanOpenAckEvent_get_chan_id_on_b (self : ChanOpenAckEvent) : ChannelId :=
  ChanOpenAckEvent_chan_id_attr_on_b self.
Definition ChanOpenAckEvent_get_conn_id_on_a (self : ChanOpenAckEvent) : ConnectionId :=
  ChanOpenAckEvent_conn_id_attr_on_a self.
Definition ChanOpenAckEvent_event_type (_ : ChanOpenAckEvent) : string := CHANNEL_OPEN_ACK_EVENT.

Record ChanOpenConfirmEvent := mkChanOpenConfirmEvent {
  ChanOpenConfirmEvent_port_id_attr_on_b : PortId;
  ChanOpenConfirmEvent_chan_id_attr_on_b : ChannelId;
  ChanOpenConfirmEvent_port_id_attr_on_a : PortId;
  ChanOpenConfirmEvent_chan_id_attr_on_a : ChannelId;
  ChanOpenConfirmEvent_conn_id_attr_on_b : ConnectionId }.
Definition ChanOpenConfirmEvent_new (port_id_on_b : PortId) (chan_id_on_b : ChannelId)
    (port_id_on_a : PortId) (chan_id_on_a : ChannelId) (conn_id_on_b : ConnectionId) :
    ChanOpenConfirmEvent :=
  mkChanOpenConfirmEvent port_id_on_b chan_id_on_b port_id_on_a chan_id_on_a conn_id_on_b.
Definition ChanOpenConfirmEvent_get_port_id_on_b (self : ChanOpenConfirmEvent) : PortId :=
  ChanOpenConfirmEvent_port_id_attr_on_b self.
Definition ChanOpenConfirmEvent_get_chan_id_on_b (self : ChanOpenConfirmEvent) : ChannelId :=
  ChanOpenConfirmEvent_chan_id_attr_on_b self.
Definition ChanOpenConfirmEvent_get_port_id_on_a (self : ChanOpenConfirmEvent) : PortId :=
  ChanOpenConfirmEvent_port_id_attr_on_a self.
Definition ChanOpenConfirmEvent_get_chan_id_on_a (self : ChanOpenConfirmEvent) : ChannelId :=
  ChanOpenConfirmEvent_chan_id_attr_on_a self.
Definition ChanOpenConfirmEvent_get_conn_id_on_b (self : ChanOpenConfirmEvent) : ConnectionId :=
  ChanOpenConfirmEvent_conn_id_attr_on_b self.
Definition ChanOpenConfirmEvent_event_type (_ : ChanOpenConfirmEvent) : string :=
  CHANNEL_OPEN_CONFIRM_EVENT.

Record ChanCloseInitEvent := mkChanCloseInitEvent {
  ChanCloseInitEvent_port_id_attr_on_a : PortId;
  ChanCloseInitEvent_chan_id_attr_on_a : ChannelId;
  ChanCloseInitEvent_port_id_attr_on_b : PortId;
  ChanCloseInitEvent_chan_id_attr_on_b : ChannelId;
  ChanCloseInitEvent_conn_id_attr_on_a : ConnectionId }.
Definition ChanCloseInitEvent_new (port_id_on_a : PortId) (chan_id_on_a : ChannelId) (port_id_on_b
    : PortId) (chan_id_on_b : ChannelId) (conn_id_on_a : ConnectionId) :
    ChanCloseInitEvent :=
  mkChanCloseInitEvent port_id_on_a chan_id_on_a port_id_on_b chan_id_on_b conn_id_on_a.
Definition ChanCloseInitEvent_get_port_id_on_a (self : ChanCloseInitEvent) : PortId :=
  ChanCloseInitEvent_port_id_attr_on_a self.
Definition ChanCloseInitEvent_get_chan_id_on_a (self : ChanCloseInitEvent) : ChannelId :=
  ChanCloseInitEvent_chan_id_attr_on_a self.
Definition ChanCloseInitEvent_get_port_id_on_b (self : ChanCloseInitEvent) : PortId :=
  ChanCloseInitEvent_port_id_attr_on_b self.
Definition ChanCloseInitEvent_get_chan_id_on_b (self : ChanCloseInitEvent) : ChannelId :=
  ChanCloseInitEvent_chan_id_attr_on_b self.
Definition ChanCloseInitEvent_get_conn_id_on_a (self : ChanCloseInitEvent) : ConnectionId :=
  ChanCloseInitEvent_conn_id_attr_on_a self.
Definition ChanCloseInitEvent_event_type (_ : ChanCloseInitEvent) : string :=
  CHANNEL_CLOSE_INIT_EVENT.

Record ChanCloseConfirmEvent := mkChanCloseConfirmEvent {
  ChanCloseConfirmEvent_port_id_attr_on_b : PortId;
  ChanCloseConfirmEvent_chan_id_attr_on_b : ChannelId;
  ChanCloseConfirmEvent_port_id_attr_on_a : PortId;
  ChanCloseConfirmEvent_chan_id_attr_on_a : ChannelId;
  ChanCloseConfirmEvent_conn_id_attr_on_b : ConnectionId }.
Definition ChanCloseConfirmEvent_new (port_id_on_b : PortId) (chan_id_on_b : ChannelId)
    (port_id_on_a : PortId) (chan_id_on_a : ChannelId) (conn_id_on_b : ConnectionId) :
    ChanCloseConfirmEvent :=
  mkChanCloseConfirmEvent port_id_on_b chan_id_on_b port_id_on_a chan_id_on_a conn_id_on_b.
Definition ChanCloseConfirmEvent_get_port_id_on_b (self : ChanCloseConfirmEvent) : PortId :=
  ChanCloseConfirmEvent_port_id_attr_on_b self.
Definition ChanCloseConfirmEvent_get_chan_id_on_b (self : ChanCloseConfirmEvent) : ChannelId :=
  ChanCloseConfirmEvent_chan_id_attr_on_b self.
Definition ChanCloseConfirmEvent_get_port_id_on_a (self : ChanCloseConfirmEvent) : PortId :=
  ChanCloseConfirmEvent_port_id_attr_on_a self.
Definition ChanCloseConfirmEvent_get_chan_id_on_a (self : ChanCloseConfirmEvent) : ChannelId :=
  ChanCloseConfirmEvent_chan_id_attr_on_a self.
Definition ChanCloseConfirmEvent_get_conn_id_on_b (self : ChanCloseConfirmEvent) : ConnectionId :=
  ChanCloseConfirmEvent_conn_id_attr_on_b self.
Definition ChanCloseConfirmEvent_event_type (_ : ChanCloseConfirmEvent) : string :=
  CHANNEL_CLOSE_CONFIRM_EVENT.

Record ChannelClosedEvent := mkChannelClosedEvent {
  ChannelClosedEvent_port_id_attr_on_a : PortId;
  ChannelClosedEvent_chan_id_attr_on_a : ChannelId;
  ChannelClosedEvent_port_id_attr_on_b : PortId;
  ChannelClosedEvent_maybe_chan_id_attr_on_b : option ChannelId;
  ChannelClosedEvent_conn_id_attr_on_a : ConnectionId;
  ChannelClosedEvent_channel_ordering_attr : Order }.
Definition ChannelClosedEvent_new (port_id_on_a : PortId) (chan_id_on_a : ChannelId) (port_id_on_b
    : PortId) (maybe_chan_id_on_b : option ChannelId) (conn_id_on_a : ConnectionId)
    (channel_ordering : Order) :
    ChannelClosedEvent :=
  mkChannelClosedEvent port_id_on_a chan_id_on_a port_id_on_b maybe_chan_id_on_b conn_id_on_a
    channel_ordering.
Definition ChannelClosedEvent_get_port_id_on_b (self : ChannelClosedEvent) : PortId :=
  ChannelClosedEvent_port_id_attr_on_a self.
Definition ChannelClosedEvent_get_chan_id_on_b (self : ChannelClosedEvent) : ChannelId :=
  ChannelClosedEvent_chan_id_attr_on_a self.
Definition ChannelClosedEvent_get_port_id_on_a (self : ChannelClosedEvent) : PortId :=
  ChannelClosedEvent_port_id_attr_on_b self.
Definition ChannelClosedEvent_get_chan_id_on_a (self : ChannelClosedEvent) : option ChannelId :=
  ChannelClosedEvent_maybe_chan_id_attr_on_b self.
Definition ChannelClosedEvent_get_conn_id_on_b (self : ChannelClosedEvent) : ConnectionId :=
  ChannelClosedEvent_conn_id_attr_on_a self.
Definition ChannelClosedEvent_get_channel_ordering (self : ChannelClosedEvent) : Order :=
  ChannelClosedEvent_channel_ordering_attr self.
Definition ChannelClosedEvent_event_type (_ : ChannelClosedEvent) : string := CHANNEL_CLOSED_EVENT.

Record SendPacketEvent := mkSendPacketEvent {
  SendPacketEvent_packet_data_attr : bytes;
  SendPacketEvent_timeout_height_attr_on_b : TimeoutHeight;
  SendPacketEvent_timeout_timestamp_attr_on_b : Timestamp;
  SendPacketEvent_seq_attr_on_a : Sequence;
  SendPacketEvent_port_id_attr_on_a : PortId;
  SendPacketEvent_chan_id_attr_on_a : ChannelId;
  SendPacketEvent_port_id_attr_on_b : PortId;
  SendPacketEvent_chan_id_attr_on_b : ChannelId;
  SendPacketEvent_channel_ordering_attr : Order;
  SendPacketEvent_conn_id_attr_on_a : ConnectionId }.
Definition SendPacketEvent_new (packet : Packet) (channel_ordering : Order) (src_connection_id :
    ConnectionId) :
    SendPacketEvent :=
  mkSendPacketEvent (data packet) (timeout_height_on_b packet) (timeout_timestamp_on_b packet)
    (seq_on_a packet) (port_id_on_a packet) (chan_id_on_a packet) (port_id_on_b packet)
    (chan_id_on_b packet) channel_ordering src_connection_id.
Definition SendPacketEvent_get_packet_data (self : SendPacketEvent) : bytes :=
  SendPacketEvent_packet_data_attr self.
Definition SendPacketEvent_get_timeout_height_on_b (self : SendPacketEvent) : TimeoutHeight :=
  SendPacketEvent_timeout_height_attr_on_b self.
Definition SendPacketEvent_get_timeout_timestamp_on_b (self : SendPacketEvent) : Timestamp :=
  SendPacketEvent_timeout_timestamp_attr_on_b self.
Definition SendPacketEvent_get_seq_on_a (self : SendPacketEvent) : Sequence :=
  SendPacketEvent_seq_attr_on_a self.
Definition SendPacketEvent_get_port_id_on_a (self : SendPacketEvent) : PortId :=
  SendPacketEvent_port_id_attr_on_a self.
Definition SendPacketEvent_get_chan_id_on_a (self : SendPacketEvent) : ChannelId :=
  SendPacketEvent_chan_id_attr_on_a self.
Definition SendPacketEvent_get_port_id_on_b (self : SendPacketEvent) : PortId :=
  SendPacketEvent_port_id_attr_on_b self.
Definition SendPacketEvent_get_chan_id_on_b (self : SendPacketEvent) : ChannelId :=
  SendPacketEvent_chan_id_attr_on_b self.
Definition SendPacketEvent_get_channel_ordering (self : SendPacketEvent) : Order :=
  SendPacketEvent_channel_ordering_attr self.
Definition SendPacketEvent_get_conn_id_on_a (self : SendPacketEvent) : ConnectionId :=
  SendPacketEvent_conn_id_attr_on_a self.
Definition SendPacketEvent_event_type (_ : SendPacketEvent) : string := SEND_PACKET_EVENT.

Record ReceivePacketEvent := mkReceivePacketEvent {
  ReceivePacketEvent_packet_data_attr : bytes;
  ReceivePacketEvent_timeout_height_attr_on_b : TimeoutHeight;
  ReceivePacketEvent_timeout_timestamp_attr_on_b : Timestamp;
  ReceivePacketEvent_seq_attr_on_a : Sequence;
  ReceivePacketEvent_port_id_attr_on_a : PortId;
  ReceivePacketEvent_chan_id_attr_on_a : ChannelId;
  ReceivePacketEvent_port_id_attr_on_b : PortId;
  ReceivePacketEvent_chan_id_attr_on_b : ChannelId;
  ReceivePacketEvent_channel_ordering_attr : Order;
  ReceivePacketEvent_conn_id_attr_on_b : ConnectionId }.
Definition ReceivePacketEvent_new (packet : Packet) (channel_ordering : Order) (dst_connection_id
    : ConnectionId) :
    ReceivePacketEvent :=
  mkReceivePacketEvent (data packet) (timeout_height_on_b packet) (timeout_timestamp_on_b packet)
    (seq_on_a packet) (port_id_on_a packet) (chan_id_on_a packet) (port_id_on_b packet)
    (chan_id_on_b packet) channel_ordering dst_connection_id.
Definition ReceivePacketEvent_get_packet_data (self : ReceivePacketEvent) : bytes :=
  ReceivePacketEvent_packet_data_attr self.
Definition ReceivePacketEvent_get_timeout_height_on_b (self : ReceivePacketEvent) : TimeoutHeight :=
  ReceivePacketEvent_timeout_height_attr_on_b self.
Definition ReceivePacketEvent_get_timeout_timestamp_on_b (self : ReceivePacketEvent) : Timestamp :=
  ReceivePacketEvent_timeout_timestamp_attr_on_b self.
Definition ReceivePacketEvent_get_seq_on_b (self : ReceivePacketEvent) : Sequence :=
  ReceivePacketEvent_seq_attr_on_a self.
Definition ReceivePacketEvent_get_port_id_on_b (self : ReceivePacketEvent) : PortId :=
  ReceivePacketEvent_port_id_attr_on_a self.
Definition ReceivePacketEvent_get_chan_id_on_b (self : ReceivePacketEvent) : ChannelId :=
  ReceivePacketEvent_chan_id_attr_on_a self.
Definition ReceivePacketEvent_get_port_id_on_a (self : ReceivePacketEvent) : PortId :=
  ReceivePacketEvent_port_id_attr_on_b self.
Definition ReceivePacketEvent_get_chan_id_on_a (self : ReceivePacketEvent) : ChannelId :=
  ReceivePacketEvent_chan_id_attr_on_b self.
Definition ReceivePacketEvent_get_channel_ordering (self : ReceivePacketEvent) : Order :=
  ReceivePacketEvent_channel_ordering_attr self.
Definition ReceivePacketEvent_get_conn_id_on_a (self : ReceivePacketEvent) : ConnectionId :=
  ReceivePacketEvent_conn_id_attr_on_b self.
Definition ReceivePacketEvent_event_type (_ : ReceivePacketEvent) : string := RECEIVE_PACKET_EVENT.

Record WriteAcknowledgementEvent := mkWriteAcknowledgementEvent {
  WriteAcknowledgementEvent_packet_data : bytes;
  WriteAcknowledgementEvent_timeout_height_attr_on_b : TimeoutHeight;
  WriteAcknowledgementEvent_timeout_timestamp_attr_on_b : Timestamp;
  WriteAcknowledgementEvent_seq_attr_on_a : Sequence;
  WriteAcknowledgementEvent_port_id_attr_on_a : PortId;
  WriteAcknowledgementEvent_chan_id_attr_on_a : ChannelId;
  WriteAcknowledgementEvent_port_id_attr_on_b : PortId;
  WriteAcknowledgementEvent_chan_id_attr_on_b : ChannelId;
  WriteAcknowledgementEvent_acknowledgement : Acknowledgement;
  WriteAcknowledgementEvent_conn_id_attr_on_b : ConnectionId }.
Definition WriteAcknowledgementEvent_new (packet : Packet) (acknowledgement : Acknowledgement)
    (conn_id_on_b : ConnectionId) :
    WriteAcknowledgementEvent :=
  mkWriteAcknowledgementEvent (data packet) (timeout_height_on_b packet) (timeout_timestamp_on_b
    packet) (seq_on_a packet) (port_id_on_a packet) (chan_id_on_a packet) (port_id_on_b packet)
    (chan_id_on_b packet) acknowledgement conn_id_on_b.
Definition WriteAcknowledgementEvent_get_packet_data (self : WriteAcknowledgementEvent) : bytes :=
  WriteAcknowledgementEvent_packet_data self.
Definition WriteAcknowledgementEvent_get_timeout_height_on_b (self : WriteAcknowledgementEvent) :
    TimeoutHeight :=
  WriteAcknowledgementEvent_timeout_height_attr_on_b self.
Definition WriteAcknowledgementEvent_get_timeout_timestamp_on_b (self : WriteAcknowledgementEvent)
    : Timestamp :=
  WriteAcknowledgementEvent_timeout_timestamp_attr_on_b self.
Definition WriteAcknowledgementEvent_get_seq_on_a (self : WriteAcknowledgementEvent) : Sequence :=
  WriteAcknowledgementEvent_seq_attr_on_a self.
Definition WriteAcknowledgementEvent_get_port_id_on_a (self : WriteAcknowledgementEvent) : PortId :=
  WriteAcknowledgementEvent_port_id_attr_on_a self.
Definition WriteAcknowledgementEvent_get_chan_id_on_a (self : WriteAcknowledgementEvent) :
    ChannelId :=
  WriteAcknowledgementEvent_chan_id_attr_on_a self.
Definition WriteAcknowledgementEvent_get_port_id_on_b (self : WriteAcknowledgementEvent) : PortId :=
  WriteAcknowledgementEvent_port_id_attr_on_b self.
Definition WriteAcknowledgementEvent_get_chan_id_on_b (self : WriteAcknowledgementEvent) :
    ChannelId :=
  WriteAcknowledgementEvent_chan_id_attr_on_b self.
Definition WriteAcknowledgementEvent_get_acknowledgement (self : WriteAcknowledgementEvent) :
    Acknowledgement :=
  WriteAcknowledgementEvent_acknowledgement self.
Definition WriteAcknowledgementEvent_get_conn_id_on_b (self : WriteAcknowledgementEvent) :
    ConnectionId :=
  WriteAcknowledgementEvent_conn_id_attr_on_b self.
Definition WriteAcknowledgementEvent_event_type (_ : WriteAcknowledgementEvent) : string :=
  WRITE_ACK_EVENT.

Record AcknowledgePacketEvent := mkAcknowledgePacketEvent {
  AcknowledgePacketEvent_timeout_height_attr_on_b : TimeoutHeight;
  AcknowledgePacketEvent_timeout_timestamp_attr_on_b : Timestamp;
  AcknowledgePacketEvent_seq_on_a : Sequence;
  AcknowledgePacketEvent_port_id_attr_on_a : PortId;
  AcknowledgePacketEvent_chan_id_attr_on_a : ChannelId;
  AcknowledgePacketEvent_port_id_attr_on_b : PortId;
  AcknowledgePacketEvent_chan_id_attr_on_b : ChannelId;
  AcknowledgePacketEvent_channel_ordering_attr : Order;
  AcknowledgePacketEvent_conn_id_attr_on_a : ConnectionId }.
Definition AcknowledgePacketEvent_new (packet : Packet) (channel_ordering : Order)
    (src_connection_id : ConnectionId) :
    AcknowledgePacketEvent :=
  mkAcknowledgePacketEvent (timeout_height_on_b packet) (timeout_timestamp_on_b packet) (seq_on_a
    packet) (port_id_on_a packet) (chan_id_on_a packet) (port_id_on_b packet) (chan_id_on_b
    packet) channel_ordering src_connection_id.
Definition AcknowledgePacketEvent_get_timeout_height_on_b (self : AcknowledgePacketEvent) :
    TimeoutHeight :=
  AcknowledgePacketEvent_timeout_height_attr_on_b self.
Definition AcknowledgePacketEvent_get_timeout_timestamp_on_b (self : AcknowledgePacketEvent) :
    Timestamp :=
  AcknowledgePacketEvent_timeout_timestamp_attr_on_b self.
Definition AcknowledgePacketEvent_get_seq_on_a (self : AcknowledgePacketEvent) : Sequence :=
  AcknowledgePacketEvent_seq_on_a self.
Definition AcknowledgePacketEvent_get_port_id_on_a (self : AcknowledgePacketEvent) : PortId :=
  AcknowledgePacketEvent_port_id_attr_on_a self.
Definition AcknowledgePacketEvent_get_chan_id_on_a (self : AcknowledgePacketEvent) : ChannelId :=
  AcknowledgePacketEvent_chan_id_attr_on_a self.
Definition AcknowledgePacketEvent_get_port_id_on_b (self : AcknowledgePacketEvent) : PortId :=
  AcknowledgePacketEvent_port_id_attr_on_b self.
Definition AcknowledgePacketEvent_get_chan_id_on_b (self : AcknowledgePacketEvent) : ChannelId :=
  AcknowledgePacketEvent_chan_id_attr_on_b self.
Definition AcknowledgePacketEvent_get_channel_ordering (self : AcknowledgePacketEvent) : Order :=
  AcknowledgePacketEvent_channel_ordering_attr self.
Definition AcknowledgePacketEvent_get_conn_id_on_a (self : AcknowledgePacketEvent) : ConnectionId :=
  AcknowledgePacketEvent_conn_id_attr_on_a self.
Definition AcknowledgePacketEvent_event_type (_ : AcknowledgePacketEvent) : string :=
  ACK_PACKET_EVENT.

Record TimeoutPacketEvent := mkTimeoutPacketEvent {
  TimeoutPacketEvent_timeout_height_attr_on_b : TimeoutHeight;
  TimeoutPacketEvent_timeout_timestamp_attr_on_b : Timestamp;
  TimeoutPacketEvent_seq_attr_on_a : Sequence;
  TimeoutPacketEvent_port_id_attr_on_a : PortId;
  TimeoutPacketEvent_chan_id_attr_on_a : ChannelId;
  TimeoutPacketEvent_port_id_attr_on_b : PortId;
  TimeoutPacketEvent_chan_id_attr_on_b : ChannelId;
  TimeoutPacketEvent_channel_ordering_attr : Order }.
Definition TimeoutPacketEvent_new (packet : Packet) (channel_ordering : Order) :
    TimeoutPacketEvent :=
  mkTimeoutPacketEvent (timeout_height_on_b packet) (timeout_timestamp_on_b packet) (seq_on_a
    packet) (port_id_on_a packet) (chan_id_on_a packet) (port_id_on_b packet) (chan_id_on_b
    packet) channel_ordering.
Definition TimeoutPacketEvent_get_timeout_height_on_b (self : TimeoutPacketEvent) : TimeoutHeight :=
  TimeoutPacketEvent_timeout_height_attr_on_b self.
Definition TimeoutPacketEvent_get_timeout_timestamp_on_b (self : TimeoutPacketEvent) : Timestamp :=
  TimeoutPacketEvent_timeout_timestamp_attr_on_b self.
Definition TimeoutPacketEvent_get_seq_on_a (self : TimeoutPacketEvent) : Sequence :=
  TimeoutPacketEvent_seq_attr_on_a self.
Definition TimeoutPacketEvent_get_port_id_on_a (self : TimeoutPacketEvent) : PortId :=
  TimeoutPacketEvent_port_id_attr_on_a self.
Definition TimeoutPacketEvent_get_chan_id_on_a (self : TimeoutPacketEvent) : ChannelId :=
  TimeoutPacketEvent_chan_id_attr_on_a self.
Definition TimeoutPacketEvent_get_port_id_on_b (self : TimeoutPacketEvent) : PortId :=
  TimeoutPacketEvent_port_id_attr_on_b self.
Definition TimeoutPacketEvent_get_chan_id_on_b (self : TimeoutPacketEvent) : ChannelId :=
  TimeoutPacketEvent_chan_id_attr_on_b self.
Definition TimeoutPacketEvent_get_channel_ordering (self : TimeoutPacketEvent) : Order :=
  TimeoutPacketEvent_channel_ordering_attr self.
Definition TimeoutPacketEvent_event_type (_ : TimeoutPacketEvent) : string := TIMEOUT_EVENT.

End event_structs.

(** ** What the accessors return *)

Section accessors.
Context `{TmTime}.
Implicit Types (p : Packet) (o : Order) (c : ConnectionId).

Record PacketEnds := mkPacketEnds {
  ends_port_a : PortId; ends_chan_a : ChannelId; ends_port_b : PortId; ends_chan_b : ChannelId }.
(** The two ends of a packet, by their roles and exchanged. *)
Definition packet_ends p : PacketEnds :=
  mkPacketEnds (port_id_on_a p) (chan_id_on_a p) (port_id_on_b p) (chan_id_on_b p).
Definition swapped_ends (e : PacketEnds) : PacketEnds :=
  mkPacketEnds (ends_port_b e) (ends_chan_b e) (ends_port_a e) (ends_chan_a e).

Definition SendPacketEvent_ends (e : SendPacketEvent) : PacketEnds :=
  mkPacketEnds (SendPacketEvent_get_port_id_on_a e) (SendPacketEvent_get_chan_id_on_a e)
    (SendPacketEvent_get_port_id_on_b e) (SendPacketEvent_get_chan_id_on_b e).
Definition ReceivePacketEvent_ends (e : ReceivePacketEvent) : PacketEnds :=
  mkPacketEnds (ReceivePacketEvent_get_port_id_on_a e) (ReceivePacketEvent_get_chan_id_on_a e)
    (ReceivePacketEvent_get_port_id_on_b e) (ReceivePacketEvent_get_chan_id_on_b e).
Definition WriteAcknowledgementEvent_ends (e : WriteAcknowledgementEvent) : PacketEnds :=
  mkPacketEnds (WriteAcknowledgementEvent_get_port_id_on_a e)
    (WriteAcknowledgementEvent_get_chan_id_on_a e)
    (WriteAcknowledgementEvent_get_port_id_on_b e)
    (WriteAcknowledgementEvent_get_chan_id_on_b e).
Definition AcknowledgePacketEvent_ends (e : AcknowledgePacketEvent) : PacketEnds :=
  mkPacketEnds (AcknowledgePacketEvent_get_port_id_on_a e)
    (AcknowledgePacketEvent_get_chan_id_on_a e)
    (AcknowledgePacketEvent_get_port_id_on_b e) (AcknowledgePacketEvent_get_chan_id_on_b e).
Definition TimeoutPacketEvent_ends (e : TimeoutPacketEvent) : PacketEnds :=
  mkPacketEnds (TimeoutPacketEvent_get_port_id_on_a e) (TimeoutPacketEvent_get_chan_id_on_a e)
    (TimeoutPacketEvent_get_port_id_on_b e) (TimeoutPacketEvent_get_chan_id_on_b e).

(** The accessors of the packet events name the ends of the packet by their roles (A sends, B
    receives), except those of [ReceivePacket], which name them the other way round: there
    [port_id_on_a()] and [chan_id_on_a()] are the destination of the packet, so a caller that
    treats the events of one packet alike mistakes its ends whenever they differ. *)
Theorem packet_event_ends p o c ack :
  SendPacketEvent_ends (SendPacketEvent_new p o c) = packet_ends p ∧
  WriteAcknowledgementEvent_ends (WriteAcknowledgementEvent_new p ack c) = packet_ends p ∧
  AcknowledgePacketEvent_ends (AcknowledgePacketEvent_new p o c) = packet_ends p ∧
  TimeoutPacketEvent_ends (TimeoutPacketEvent_new p o) = packet_ends p ∧
  ReceivePacketEvent_ends (ReceivePacketEvent_new p o c) = swapped_ends (packet_ends p) ∧
  (ReceivePacketEvent_ends (ReceivePacketEvent_new p o c) = packet_ends p ↔
     port_id_on_a p = port_id_on_b p ∧ chan_id_on_a p = chan_id_on_b p).
Proof.
  repeat (split; [reflexivity|]).
  unfold ReceivePacketEvent_ends, packet_ends; cbn; split.
  - by intros [= -> -> _ _].
  - by intros [-> ->].
Qed.

(** The same exchange in [ChannelClosed], whose constructor is called by the timeout handler
    on the end A that closes: [port_id_on_b()] is the port of A, [chan_id_on_a()] the channel
    of B, [conn_id_on_b()] the connection of A. *)
Theorem channel_closed_accessors port_a chan_a port_b chan_b conn_a o :
  let e := ChannelClosedEvent_new port_a chan_a port_b chan_b conn_a o in
  ChannelClosedEvent_get_port_id_on_b e = port_a ∧ ChannelClosedEvent_get_chan_id_on_b e = chan_a ∧
  ChannelClosedEvent_get_port_id_on_a e = port_b ∧ ChannelClosedEvent_get_chan_id_on_a e = chan_b ∧
  ChannelClosedEvent_get_conn_id_on_b e = conn_a.
Proof. by repeat split. Qed.
End accessors.
