(* ===== verification/ConnHandlers.v ===== *)
(** * ICS-3 connection handshake handlers

    [ibc-core/ics03-connection/src/handler/conn_open_{init,try,ack,confirm}.rs]
    and [src/delay.rs]; the messages of [ics03-connection/types/src/msgs]. *)

From S2P Require Import Prelude RustStr Identifiers Primitives Path Connection Channel Context.
Local Open Scope string_scope.
Local Open Scope N_scope.

(** ** Messages *)

Record MsgConnectionOpenInit := mkMsgConnectionOpenInit {
  coi_client_id_on_a : ClientId;
  coi_counterparty : ConnCounterparty;
  coi_version : option Version;
  coi_delay_period : Duration;
  coi_signer : Signer }.

Record MsgConnectionOpenTry := mkMsgConnectionOpenTry {
  cot_client_id_on_b : ClientId;
  cot_client_state_of_b_on_a : Any;
  cot_counterparty : ConnCounterparty;
  cot_versions_on_a : list Version;
  cot_proof_conn_end_on_a : CommitmentProofBytes;
  cot_proof_client_state_of_b_on_a : CommitmentProofBytes;
  cot_proof_consensus_state_of_b_on_a : CommitmentProofBytes;
  cot_proofs_height_on_a : Height;
  cot_consensus_height_of_b_on_a : Height;
  cot_delay_period : Duration;
  cot_signer : Signer;
  cot_proof_consensus_state_of_b : option CommitmentProofBytes;
  cot_previous_connection_id : string }.

Record MsgConnectionOpenAck := mkMsgConnectionOpenAck {
  coa_conn_id_on_a : ConnectionId;
  coa_conn_id_on_b : ConnectionId;
  coa_client_state_of_a_on_b : Any;
  coa_proof_conn_end_on_b : CommitmentProofBytes;
  coa_proof_client_state_of_a_on_b : CommitmentProofBytes;
  coa_proof_consensus_state_of_a_on_b : CommitmentProofBytes;
  coa_proofs_height_on_b : Height;
  coa_consensus_height_of_a_on_b : Height;
  coa_version : Version;
  coa_signer : Signer;
  coa_proof_consensus_state_of_a : option CommitmentProofBytes }.

Record MsgConnectionOpenConfirm := mkMsgConnectionOpenConfirm {
  coc_conn_id_on_b : ConnectionId;
  coc_proof_conn_end_on_a : CommitmentProofBytes;
  coc_proof_height_on_a : Height;
  coc_signer : Signer }.

Inductive ConnectionMsg :=
| ConnOpenInit (m : MsgConnectionOpenInit)
| ConnOpenTry (m : MsgConnectionOpenTry)
| ConnOpenAck (m : MsgConnectionOpenAck)
| ConnOpenConfirm (m : MsgConnectionOpenConfirm).

Section handlers.
Context `{TmTime, !ChainTypes, !LightClient, host : !Host, !Codec}.

(** ** The connection delay *)

Definition verify_conn_delay_passed (s : IbcStore) (packet_proof_height : Height)
    (connection_end : ConnectionEnd) : outcome ContextError () :=
  current_host_time ← host_timestamp;
  current_host_height ← host_height;
  let client_id := conn_client_id connection_end in
  last_client_update ← client_update_meta s client_id packet_proof_height;
  let conn_delay_time_period := conn_delay_period connection_end in
  let conn_delay_height_period := block_delay conn_delay_time_period in
  earliest_valid_time ←
    err_connection (map_err ConnTimestampOverflow
      (Timestamp_add last_client_update.1 conn_delay_time_period));
  fail_if (Timestamp_ltb current_host_time earliest_valid_time)
    (CtxConnection (NotEnoughTimeElapsed current_host_time earliest_valid_time));;
  earliest_valid_height ← Height_add last_client_update.2 conn_delay_height_period;
  fail_if (Height_ltb current_host_height earliest_valid_height)
    (CtxConnection (NotEnoughBlocksElapsed current_host_height earliest_valid_height)).

(** ** OpenInit *)

Definition conn_open_init_validate (s : IbcStore) (msg : MsgConnectionOpenInit) :
    outcome ContextError () :=
  validate_message_signer (coi_signer msg);;
  client_state_of_b_on_a ← client_state s (coi_client_id_on_a msg);
  status ← err_client (status client_state_of_b_on_a host s (coi_client_id_on_a msg));
  err_client (Status_verify_is_active status);;
  match coi_version msg with
  | Some version => err_connection (verify_is_supported version get_compatible_versions)
  | None => Ok tt
  end.

Definition conn_open_init_execute (msg : MsgConnectionOpenInit) : action () :=
  versions ← lift match coi_version msg with
    | Some version =>
      err_connection (verify_is_supported version get_compatible_versions);; Ok [version]
    | None => Ok get_compatible_versions
    end;
  conn_end_on_a ← lift (err_connection (ConnectionEnd_new ConnInit (coi_client_id_on_a msg)
    (mkConnCounterparty (cpty_client_id (coi_counterparty msg)) None
       (cpty_prefix (coi_counterparty msg)))
    versions (coi_delay_period msg)));
  counter ← reads connection_counter;
  let conn_id_on_a := ConnectionId_new counter in
  log_message ("success: conn_open_init: generated new connection identifier: "
               ++ connection_id_str conn_id_on_a);;
  emit_ibc_event (EventMessage EvConnection);;
  emit_ibc_event (OpenInitConnection conn_id_on_a (coi_client_id_on_a msg)
                    (cpty_client_id (coi_counterparty msg)));;
  increase_connection_counter;;
  store_connection_to_client (mkClientConnectionPath (coi_client_id_on_a msg)) conn_id_on_a;;
  store_connection (mkConnectionPath conn_id_on_a) conn_end_on_a.

(** ** OpenTry *)

Record ConnOpenTryVars := mkConnOpenTryVars {
  cotv_conn_id_on_b : ConnectionId;
  cotv_conn_end_on_b : ConnectionEnd;
  cotv_client_id_on_a : ClientId;
  cotv_conn_id_on_a : ConnectionId }.

Definition conn_open_try_vars (s : IbcStore) (msg : MsgConnectionOpenTry) :
    outcome ContextError ConnOpenTryVars :=
  version_on_b ← ctx_pick_version (cot_versions_on_a msg);
  counter ← connection_counter s;
  conn_end_on_b ← err_connection (ConnectionEnd_new ConnTryOpen (cot_client_id_on_b msg)
    (cot_counterparty msg) [version_on_b] (cot_delay_period msg));
  conn_id_on_a ← err_connection
    (ok_or (cpty_connection_id (cot_counterparty msg)) ConnInvalidCounterparty);
  Ok (mkConnOpenTryVars (ConnectionId_new counter) conn_end_on_b
        (cpty_client_id (cot_counterparty msg)) conn_id_on_a).

(** [ctx.host_height().map_err(..)?] and the check on the consensus height that
    [OpenTry] and [OpenAck] make. *)
Definition check_consensus_height (target_height : Height) : outcome ContextError () :=
  host_height ← map_err (λ _, CtxConnection (ConnOther "failed to get host height")) host_height;
  fail_if (Height_gtb target_height host_height)
    (CtxConnection (InvalidConsensusHeight target_height host_height)).

Definition conn_open_try_validate_impl (s : IbcStore) (msg : MsgConnectionOpenTry)
    (vars : ConnOpenTryVars) : outcome ContextError () :=
  validate_message_signer (cot_signer msg);;
  client_state_of_b_on_a ←
    err_client (host_client_state_try_from (cot_client_state_of_b_on_a msg));
  validate_self_client client_state_of_b_on_a;;
  check_consensus_height (cot_consensus_height_of_b_on_a msg);;
  let client_id_on_a := cpty_client_id (cot_counterparty msg) in
  (* [vars.conn_end_on_b.client_id()] is [msg.client_id_on_b] *)
  '(client_state_of_a_on_b, consensus_state_of_a_on_b) ←
    active_client_at s (conn_client_id (cotv_conn_end_on_b vars)) (cot_proofs_height_on_a msg);
  let prefix_on_a := cpty_prefix (conn_counterparty (cotv_conn_end_on_b vars)) in
  let prefix_on_b := commitment_prefix in
  let root := cons_root consensus_state_of_a_on_b in
  expected_conn_end_on_a ← err_connection (ConnectionEnd_new ConnInit client_id_on_a
    (mkConnCounterparty (cot_client_id_on_b msg) None prefix_on_b)
    (cot_versions_on_a msg) (cot_delay_period msg));
  err_connection (map_err VerifyConnectionState
    (verify_membership client_state_of_a_on_b prefix_on_a (cot_proof_conn_end_on_a msg) root
       (PathConnection (mkConnectionPath (cotv_conn_id_on_a vars)))
       (ConnectionEnd_encode_vec expected_conn_end_on_a)));;
  err_connection (map_err (ClientStateVerificationFailure (cot_client_id_on_b msg))
    (verify_membership client_state_of_a_on_b prefix_on_a
       (cot_proof_client_state_of_b_on_a msg) root
       (PathClientState (mkClientStatePath client_id_on_a))
       (encode_any (cot_client_state_of_b_on_a msg))));;
  expected_consensus_state_of_b_on_a ←
    host_consensus_state (cot_consensus_height_of_b_on_a msg);
  let client_cons_state_path_on_a := mkClientConsensusStatePath client_id_on_a
    (height_revision_number (cot_consensus_height_of_b_on_a msg))
    (revision_height (cot_consensus_height_of_b_on_a msg)) in
  encoded_consensus_state_of_b_on_a ←
    host_consensus_state_encode_vec expected_consensus_state_of_b_on_a;
  err_connection (map_err (ConsensusStateVerificationFailure (cot_proofs_height_on_a msg))
    (verify_membership client_state_of_a_on_b prefix_on_a
       (cot_proof_consensus_state_of_b_on_a msg) root
       (PathClientConsensusState client_cons_state_path_on_a)
       encoded_consensus_state_of_b_on_a)).

Definition conn_open_try_validate (s : IbcStore) (msg : MsgConnectionOpenTry) :
    outcome ContextError () :=
  vars ← conn_open_try_vars s msg;
  conn_open_try_validate_impl s msg vars.

Definition conn_open_try_execute_impl (msg : MsgConnectionOpenTry) (vars : ConnOpenTryVars) :
    action () :=
  conn_id_on_a ← lift (err_connection
    (ok_or (cpty_connection_id (conn_counterparty (cotv_conn_end_on_b vars)))
       ConnInvalidCounterparty));
  emit_ibc_event (EventMessage EvConnection);;
  emit_ibc_event (OpenTryConnection (cotv_conn_id_on_b vars) (cot_client_id_on_b msg)
                    conn_id_on_a (cotv_client_id_on_a vars));;
  log_message "success: conn_open_try verification passed";;
  increase_connection_counter;;
  store_connection_to_client (mkClientConnectionPath (cot_client_id_on_b msg))
    (cotv_conn_id_on_b vars);;
  store_connection (mkConnectionPath (cotv_conn_id_on_b vars)) (cotv_conn_end_on_b vars).

Definition conn_open_try_execute (msg : MsgConnectionOpenTry) : action () :=
  vars ← reads (λ s, conn_open_try_vars s msg);
  conn_open_try_execute_impl msg vars.

(** ** OpenAck: the local variable is the stored connection end. *)

Definition conn_open_ack_validate_impl (s : IbcStore) (msg : MsgConnectionOpenAck)
    (conn_end_on_a : ConnectionEnd) : outcome ContextError () :=
  let client_id_on_a := conn_client_id conn_end_on_a in
  let client_id_on_b := cpty_client_id (conn_counterparty conn_end_on_a) in
  validate_message_signer (coa_signer msg);;
  check_consensus_height (coa_consensus_height_of_a_on_b msg);;
  client_state_of_a_on_b ←
    err_client (host_client_state_try_from (coa_client_state_of_a_on_b msg));
  validate_self_client client_state_of_a_on_b;;
  err_connection (verify_is_supported (coa_version msg) (conn_versions conn_end_on_a));;
  err_connection (ConnectionEnd_verify_state_matches conn_end_on_a ConnInit);;
  '(client_state_of_b_on_a, consensus_state_of_b_on_a) ←
    active_client_at s client_id_on_a (coa_proofs_height_on_b msg);
  let prefix_on_a := commitment_prefix in
  let prefix_on_b := cpty_prefix (conn_counterparty conn_end_on_a) in
  let root := cons_root consensus_state_of_b_on_a in
  expected_conn_end_on_b ← err_connection (ConnectionEnd_new ConnTryOpen client_id_on_b
    (mkConnCounterparty client_id_on_a (Some (coa_conn_id_on_a msg)) prefix_on_a)
    [coa_version msg] (conn_delay_period conn_end_on_a));
  err_connection (map_err VerifyConnectionState
    (verify_membership client_state_of_b_on_a prefix_on_b (coa_proof_conn_end_on_b msg) root
       (PathConnection (mkConnectionPath (coa_conn_id_on_b msg)))
       (ConnectionEnd_encode_vec expected_conn_end_on_b)));;
  err_connection (map_err (ClientStateVerificationFailure client_id_on_b)
    (verify_membership client_state_of_b_on_a prefix_on_b
       (coa_proof_client_state_of_a_on_b msg) root
       (PathClientState (mkClientStatePath client_id_on_b))
       (encode_any (coa_client_state_of_a_on_b msg))));;
  expected_consensus_state_of_a_on_b ←
    host_consensus_state (coa_consensus_height_of_a_on_b msg);
  let client_cons_state_path_on_b := mkClientConsensusStatePath client_id_on_b
    (height_revision_number (coa_consensus_height_of_a_on_b msg))
    (revision_height (coa_consensus_height_of_a_on_b msg)) in
  encoded_consensus_state_of_a_on_b ←
    host_consensus_state_encode_vec expected_consensus_state_of_a_on_b;
  err_connection (map_err (ConsensusStateVerificationFailure (coa_proofs_height_on_b msg))
    (verify_membership client_state_of_b_on_a prefix_on_b
       (coa_proof_consensus_state_of_a_on_b msg) root
       (PathClientConsensusState client_cons_state_path_on_b)
       encoded_consensus_state_of_a_on_b)).

Definition conn_open_ack_validate (s : IbcStore) (msg : MsgConnectionOpenAck) :
    outcome ContextError () :=
  conn_end_on_a ← connection_end s (coa_conn_id_on_a msg);
  conn_open_ack_validate_impl s msg conn_end_on_a.

Definition conn_open_ack_execute_impl (msg : MsgConnectionOpenAck)
    (conn_end_on_a : ConnectionEnd) : action () :=
  emit_ibc_event (EventMessage EvConnection);;
  emit_ibc_event (OpenAckConnection (coa_conn_id_on_a msg) (conn_client_id conn_end_on_a)
                    (coa_conn_id_on_b msg) (cpty_client_id (conn_counterparty conn_end_on_a)));;
  log_message "success: conn_open_ack verification passed";;
  let counterparty := mkConnCounterparty (cpty_client_id (conn_counterparty conn_end_on_a))
    (Some (coa_conn_id_on_b msg)) (cpty_prefix (conn_counterparty conn_end_on_a)) in
  let new_conn_end_on_a :=
    ConnectionEnd_set_counterparty
      (ConnectionEnd_set_version (ConnectionEnd_set_state conn_end_on_a ConnOpen)
         (coa_version msg)) counterparty in
  store_connection (mkConnectionPath (coa_conn_id_on_a msg)) new_conn_end_on_a.

Definition conn_open_ack_execute (msg : MsgConnectionOpenAck) : action () :=
  conn_end_on_a ← reads (λ s, connection_end s (coa_conn_id_on_a msg));
  conn_open_ack_execute_impl msg conn_end_on_a.

(** ** OpenConfirm *)

Definition conn_open_confirm_conn_id_on_a (conn_end_on_b : ConnectionEnd) :
    outcome ContextError ConnectionId :=
  err_connection (ok_or (cpty_connection_id (conn_counterparty conn_end_on_b))
                        ConnInvalidCounterparty).

Definition conn_open_confirm_validate_impl (s : IbcStore) (msg : MsgConnectionOpenConfirm)
    (conn_end_on_b : ConnectionEnd) : outcome ContextError () :=
  validate_message_signer (coc_signer msg);;
  err_connection (ConnectionEnd_verify_state_matches conn_end_on_b ConnTryOpen);;
  let client_id_on_a := cpty_client_id (conn_counterparty conn_end_on_b) in
  let client_id_on_b := conn_client_id conn_end_on_b in
  conn_id_on_a ← conn_open_confirm_conn_id_on_a conn_end_on_b;
  '(client_state_of_a_on_b, consensus_state_of_a_on_b) ←
    active_client_at s client_id_on_b (coc_proof_height_on_a msg);
  let prefix_on_a := cpty_prefix (conn_counterparty conn_end_on_b) in
  let prefix_on_b := commitment_prefix in
  expected_conn_end_on_a ← err_connection (ConnectionEnd_new ConnOpen client_id_on_a
    (mkConnCounterparty client_id_on_b (Some (coc_conn_id_on_b msg)) prefix_on_b)
    (conn_versions conn_end_on_b) (conn_delay_period conn_end_on_b));
  err_connection (map_err VerifyConnectionState
    (verify_membership client_state_of_a_on_b prefix_on_a (coc_proof_conn_end_on_a msg)
       (cons_root consensus_state_of_a_on_b)
       (PathConnection (mkConnectionPath conn_id_on_a))
       (ConnectionEnd_encode_vec expected_conn_end_on_a))).

Definition conn_open_confirm_validate (s : IbcStore) (msg : MsgConnectionOpenConfirm) :
    outcome ContextError () :=
  conn_end_on_b ← connection_end s (coc_conn_id_on_b msg);
  conn_open_confirm_validate_impl s msg conn_end_on_b.

Definition conn_open_confirm_execute_impl (msg : MsgConnectionOpenConfirm)
    (conn_end_on_b : ConnectionEnd) : action () :=
  let client_id_on_a := cpty_client_id (conn_counterparty conn_end_on_b) in
  let client_id_on_b := conn_client_id conn_end_on_b in
  conn_id_on_a ← lift (conn_open_confirm_conn_id_on_a conn_end_on_b);
  emit_ibc_event (EventMessage EvConnection);;
  emit_ibc_event (OpenConfirmConnection (coc_conn_id_on_b msg) client_id_on_b
                    conn_id_on_a client_id_on_a);;
  log_message "success: conn_open_confirm verification passed";;
  let new_conn_end_on_b := ConnectionEnd_set_state conn_end_on_b ConnOpen in
  store_connection (mkConnectionPath (coc_conn_id_on_b msg)) new_conn_end_on_b.

Definition conn_open_confirm_execute (msg : MsgConnectionOpenConfirm) : action () :=
  conn_end_on_b ← reads (λ s, connection_end s (coc_conn_id_on_b msg));
  conn_open_confirm_execute_impl msg conn_end_on_b.

(** The connection arms of [dispatch]. *)
Definition connection_validate (s : IbcStore) (msg : ConnectionMsg) : outcome ContextError () :=
  match msg with
  | ConnOpenInit m => conn_open_init_validate s m
  | ConnOpenTry m => conn_open_try_validate s m
  | ConnOpenAck m => conn_open_ack_validate s m
  | ConnOpenConfirm m => conn_open_confirm_validate s m
  end.
Definition connection_execute (msg : ConnectionMsg) : action () :=
  match msg with
  | ConnOpenInit m => conn_open_init_execute m
  | ConnOpenTry m => conn_open_try_execute m
  | ConnOpenAck m => conn_open_ack_execute m
  | ConnOpenConfirm m => conn_open_confirm_execute m
  end.
End handlers.

(** ** The handshake as a state machine

    What the four messages may do to the connection counter and the stored
    connection ends, proofs and clients aside. *)

Section spec.
Context `{TmTime}.

Definition offered_versions (version : option Version) : list Version :=
  match version with Some v => [v] | None => compatibles end.

Inductive conn_transition (n : N) (m : gmap ConnectionId ConnectionEnd) :
    ConnectionMsg → N → gmap ConnectionId ConnectionEnd → Prop :=
| ct_init msg :
    (∀ v, coi_version msg = Some v → verify_is_supported v compatibles = Ok tt) →
    conn_transition n m (ConnOpenInit msg) (n + 1)
      (<[ConnectionId_new n :=
          mkConnectionEnd ConnInit (coi_client_id_on_a msg)
            (mkConnCounterparty (cpty_client_id (coi_counterparty msg)) None
               (cpty_prefix (coi_counterparty msg)))
            (offered_versions (coi_version msg)) (coi_delay_period msg)]> m)
| ct_try msg v :
    pick_version compatibles (cot_versions_on_a msg) = Ok v →
    is_Some (cpty_connection_id (cot_counterparty msg)) →
    conn_transition n m (ConnOpenTry msg) (n + 1)
      (<[ConnectionId_new n :=
          mkConnectionEnd ConnTryOpen (cot_client_id_on_b msg) (cot_counterparty msg) [v]
            (cot_delay_period msg)]> m)
| ct_ack msg c :
    m !! coa_conn_id_on_a msg = Some c → conn_state c = ConnInit →
    verify_is_supported (coa_version msg) (conn_versions c) = Ok tt →
    conn_transition n m (ConnOpenAck msg) n
      (<[coa_conn_id_on_a msg :=
          mkConnectionEnd ConnOpen (conn_client_id c)
            (mkConnCounterparty (cpty_client_id (conn_counterparty c))
               (Some (coa_conn_id_on_b msg)) (cpty_prefix (conn_counterparty c)))
            [coa_version msg] (conn_delay_period c)]> m)
| ct_confirm msg c :
    m !! coc_conn_id_on_b msg = Some c → conn_state c = ConnTryOpen →
    is_Some (cpty_connection_id (conn_counterparty c)) →
    conn_transition n m (ConnOpenConfirm msg) n
      (<[coc_conn_id_on_b msg :=
          mkConnectionEnd ConnOpen (conn_client_id c) (conn_counterparty c)
            (conn_versions c) (conn_delay_period c)]> m).

(** The invariant of the stored connection ends. *)
Definition conn_end_inv (c : ConnectionEnd) : Prop :=
  conn_state c ≠ ConnUninitialized
  ∧ (conn_state c ≠ ConnInit →
       length (conn_versions c) = 1%nat ∧ is_Some (cpty_connection_id (conn_counterparty c)))
  ∧ ∀ v, v ∈ conn_versions c → verify_is_supported v compatibles = Ok tt.

Definition conns_inv (n : N) (m : gmap ConnectionId ConnectionEnd) : Prop :=
  ∀ id c, m !! id = Some c → (∃ k, k < n ∧ id = ConnectionId_new k) ∧ conn_end_inv c.

Lemma ConnectionId_new_inj n m : ConnectionId_new n = ConnectionId_new m → n = m.
Proof. intros E%(f_equal connection_id_str). by apply dash_number_inj in E as [_ ?]. Qed.

Lemma conns_inv_fresh n m : conns_inv n m → m !! ConnectionId_new n = None.
Proof.
  intros Hinv. apply eq_None_not_Some. intros [c Hc].
  apply Hinv in Hc as [(k & Hk & ?%ConnectionId_new_inj) _]. lia.
Qed.

Lemma conns_inv_named n m id c : conns_inv n m → m !! id = Some c → connection_id_str id ≠ "".
Proof. intros Hinv Hc. by apply Hinv in Hc as [(k & _ & ->) _]. Qed.

(** A counterparty connection identifier is not the empty string, which the
    protobuf form uses for "none". *)
Definition named_counterparty (c : ConnectionEnd) : Prop :=
  ∀ k, cpty_connection_id (conn_counterparty c) = Some k → connection_id_str k ≠ "".

(** A version supported by one of a list of supported versions is supported. *)
Lemma verify_is_supported_trans v l l' :
  (∀ w, w ∈ l → verify_is_supported w l' = Ok tt) →
  verify_is_supported v l = Ok tt → verify_is_supported v l' = Ok tt.
Proof.
  rewrite !verify_is_supported_Ok. intros Hl (sv & Hf & Hne & Hfs).
  apply find_Some in Hf as [Hin Hid%String.eqb_eq].
  apply Hl, verify_is_supported_Ok in Hin as (sv' & Hf' & _ & Hfs').
  exists sv'. rewrite <- Hid. naive_solver.
Qed.

Lemma compatibles_supported v : v ∈ compatibles → verify_is_supported v compatibles = Ok tt.
Proof. by intros ->%list_elem_of_singleton. Qed.

Lemma pick_version_supported l v :
  pick_version compatibles l = Ok v →
  verify_is_supported v compatibles = Ok tt ∧ verify_is_supported v l = Ok tt.
Proof.
  intros Hv. pose proof (pick_version_cases compatibles l) as Hp. rewrite Hv in Hp.
  destruct Hp as [(sv & cv & Hsv & Hf & Hid & Hfs & Hne) _].
  apply list_elem_of_singleton in Hsv as ->.
  assert (∀ f, f ∈ features v → f ∈ features cv ∧ f ∈ ["ORDER_ORDERED"; "ORDER_UNORDERED"]) as Hin.
  { intros f. rewrite Hfs. intros [? Hf']%list_elem_of_In%filter_In.
    split; [by apply bool_decide_eq_true in Hf'|by apply list_elem_of_In]. }
  split; apply verify_is_supported_Ok; rewrite Hid.
  - eexists. split; [done|]. split; [done|]. intros f Hf'. by apply Hin.
  - exists cv. split_and!; [done..|]. intros f Hf'. by apply Hin.
Qed.

Lemma conn_transition_inv n m msg n' m' :
  conn_transition n m msg n' m' → conns_inv n m → conns_inv n' m'.
Proof.
  intros Ht Hinv. destruct Ht as [msg Hv|msg v Hv Hid|msg c Hc Hs Hv|msg c Hc Hs Hid];
    intros id c'; rewrite lookup_insert_Some; intros [[<- <-]|[Hne Hc']].
  - split; [exists n; split; [lia|done]|]. split_and!; cbn; [done..|].
    intros v. unfold offered_versions. destruct (coi_version msg); [|apply compatibles_supported].
    intros ->%list_elem_of_singleton. by apply Hv.
  - destruct (Hinv _ _ Hc') as [(k & ? & ->) ?]. split; [exists k; split; [lia|done]|done].
  - split; [exists n; split; [lia|done]|]. split_and!; cbn; [done..|].
    intros w ->%list_elem_of_singleton. by apply pick_version_supported in Hv as [? _].
  - destruct (Hinv _ _ Hc') as [(k & ? & ->) ?]. split; [exists k; split; [lia|done]|done].
  - destruct (Hinv _ _ Hc) as [Hk (? & ? & Hvs)]. split; [done|]. split_and!; cbn; [done|by eauto|].
    intros w ->%list_elem_of_singleton. by eapply verify_is_supported_trans.
  - by apply Hinv.
  - destruct (Hinv _ _ Hc) as [Hk (? & Hs' & Hvs)]. split; [done|]. split_and!; cbn; [done| |done].
    intros _. apply Hs'. by rewrite Hs.
  - by apply Hinv.
Qed.

(** How one connection end may evolve: it keeps its client and delay, moves up
    in the order of the states, and is final once open. *)
Definition conn_evolves (c c' : ConnectionEnd) : Prop :=
  less_or_equal_progress (conn_state c) (conn_state c') = true
  ∧ conn_client_id c' = conn_client_id c ∧ conn_delay_period c' = conn_delay_period c
  ∧ cpty_client_id (conn_counterparty c') = cpty_client_id (conn_counterparty c)
  ∧ cpty_prefix (conn_counterparty c') = cpty_prefix (conn_counterparty c)
  ∧ (conn_state c ≠ ConnInit → conn_versions c' = conn_versions c
                               ∧ conn_counterparty c' = conn_counterparty c)
  ∧ (conn_state c = ConnOpen → c' = c).

Lemma conn_evolves_refl c : conn_evolves c c.
Proof. split_and!; try done. unfold less_or_equal_progress. apply Z.leb_le. lia. Qed.

Lemma conn_transition_evolves n m msg n' m' id c :
  conn_transition n m msg n' m' → conns_inv n m → m !! id = Some c →
  ∃ c', m' !! id = Some c' ∧ conn_evolves c c'.
Proof.
  intros Ht Hinv Hc. pose proof (conns_inv_fresh _ _ Hinv) as Hfresh.
  destruct Ht as [msg Hv|msg v Hv Hid|msg c0 Hc0 Hs Hv|msg c0 Hc0 Hs Hid].
  - exists c. rewrite lookup_insert_ne by congruence. split; [done|apply conn_evolves_refl].
  - exists c. rewrite lookup_insert_ne by congruence. split; [done|apply conn_evolves_refl].
  - destruct (decide (coa_conn_id_on_a msg = id)) as [<-|].
    + assert (c0 = c) as -> by congruence. rewrite lookup_insert_eq. eexists. split; [done|].
      unfold conn_evolves, less_or_equal_progress. rewrite Hs. by split_and!.
    + exists c. rewrite lookup_insert_ne by done. split; [done|apply conn_evolves_refl].
  - destruct (decide (coc_conn_id_on_b msg = id)) as [<-|].
    + assert (c0 = c) as -> by congruence. rewrite lookup_insert_eq. eexists. split; [done|].
      unfold conn_evolves, less_or_equal_progress. rewrite Hs. by split_and!.
    + exists c. rewrite lookup_insert_ne by done. split; [done|apply conn_evolves_refl].
Qed.
End spec.

(** ** The handlers implement the state machine *)

Section refinement.
Context `{TmTime, !ChainTypes, !LightClient, host : !Host, !Codec}.

Lemma verify_state_matches_Ok c st u :
  ConnectionEnd_verify_state_matches c st = Ok u ↔ conn_state c = st.
Proof.
  unfold ConnectionEnd_verify_state_matches. rewrite fail_if_Ok, negb_false_iff.
  by rewrite bool_decide_eq_true.
Qed.

Lemma connection_end_Ok s id c : connection_end s id = Ok c ↔ connections s !! id = Some c.
Proof. unfold connection_end, err_connection. by rewrite map_err_Ok, ok_or_Ok. Qed.

(** The part of a validation that establishes a client and a root. *)
Lemma active_client_at_Ok s client_id h cs cons :
  active_client_at s client_id h = Ok (cs, cons) →
  client_state s client_id = Ok cs ∧ status cs host s client_id = Ok Active
  ∧ validate_proof_height cs h = Ok tt
  ∧ consensus_state s (mkClientConsensusStatePath client_id (height_revision_number h)
                         (revision_height h)) = Ok cons.
Proof.
  unfold active_client_at. intros Hc. inv_exec.
  match goal with H : Status_verify_is_active ?st = _ |- _ => by destruct st end.
Qed.

(** What a successful validation of each message establishes. *)
Lemma conn_open_ack_validate_Ok s msg u :
  conn_open_ack_validate s msg = Ok u →
  ∃ c, connections s !! coa_conn_id_on_a msg = Some c ∧ conn_state c = ConnInit
       ∧ verify_is_supported (coa_version msg) (conn_versions c) = Ok tt
       ∧ ∃ cs cons, active_client_at s (conn_client_id c) (coa_proofs_height_on_b msg)
           = Ok (cs, cons)
         ∧ verify_membership cs (cpty_prefix (conn_counterparty c))
             (coa_proof_conn_end_on_b msg) (cons_root cons)
             (PathConnection (mkConnectionPath (coa_conn_id_on_b msg)))
             (ConnectionEnd_encode_vec
               (mkConnectionEnd ConnTryOpen (cpty_client_id (conn_counterparty c))
                 (mkConnCounterparty (conn_client_id c) (Some (coa_conn_id_on_a msg))
                    commitment_prefix)
                 [coa_version msg] (conn_delay_period c))) = Ok tt.
Proof.
  unfold conn_open_ack_validate, conn_open_ack_validate_impl. intros Hv. inv_exec.
  rewrite connection_end_Ok, verify_state_matches_Ok in *.
  match goal with H : ConnectionEnd_new _ _ _ _ _ = _ |- _ =>
    apply ConnectionEnd_new_Ok in H as [-> _] end.
  eauto 10.
Qed.

Lemma conn_open_confirm_validate_Ok s msg u :
  conn_open_confirm_validate s msg = Ok u →
  ∃ c, connections s !! coc_conn_id_on_b msg = Some c ∧ conn_state c = ConnTryOpen
       ∧ ∃ id_a cs cons, cpty_connection_id (conn_counterparty c) = Some id_a
         ∧ active_client_at s (conn_client_id c) (coc_proof_height_on_a msg) = Ok (cs, cons)
         ∧ verify_membership cs (cpty_prefix (conn_counterparty c))
             (coc_proof_conn_end_on_a msg) (cons_root cons)
             (PathConnection (mkConnectionPath id_a))
             (ConnectionEnd_encode_vec
               (mkConnectionEnd ConnOpen (cpty_client_id (conn_counterparty c))
                 (mkConnCounterparty (conn_client_id c) (Some (coc_conn_id_on_b msg))
                    commitment_prefix)
                 (conn_versions c) (conn_delay_period c))) = Ok tt.
Proof.
  unfold conn_open_confirm_validate, conn_open_confirm_validate_impl,
    conn_open_confirm_conn_id_on_a. intros Hv. inv_exec.
  rewrite connection_end_Ok, verify_state_matches_Ok in *.
  match goal with H : ConnectionEnd_new _ _ _ _ _ = _ |- _ =>
    apply ConnectionEnd_new_Ok in H as [-> _] end.
  eauto 10.
Qed.

Lemma connection_refines s msg s' u u' :
  connection_validate s msg = Ok u → connection_execute msg s = (s', Ok u') →
  conn_transition (connection_ids_counter s) (connections s) msg
                  (connection_ids_counter s') (connections s')
  ∧ same_clients s s' ∧ same_channels s s' ∧ same_packets s s'
  ∧ (is_u64 (connection_ids_counter s) → is_u64 (connection_ids_counter s')).
Proof.
  destruct msg as [msg|msg|msg|msg]; cbn [connection_validate connection_execute]; intros Hv Hx.
  - unfold conn_open_init_execute in Hx. inv_exec. split; [|by split_and!].
    match goal with H : ConnectionEnd_new _ _ _ _ _ = _ |- _ =>
      apply ConnectionEnd_new_Ok in H as [-> _] end.
    destruct (coi_version msg) as [v|] eqn:Ev; inv_ok.
    + destruct_units. assert ([v] = offered_versions (coi_version msg)) as -> by by rewrite Ev.
      constructor. rewrite Ev. by intros ? [= <-].
    + assert (get_compatible_versions = offered_versions (coi_version msg)) as -> by by rewrite Ev.
      constructor. by rewrite Ev.
  - unfold conn_open_try_execute, conn_open_try_execute_impl, conn_open_try_vars,
      ctx_pick_version in Hx. inv_exec. split; [|by split_and!].
    match goal with H : ConnectionEnd_new _ _ _ _ _ = _ |- _ =>
      apply ConnectionEnd_new_Ok in H as [-> _] end.
    constructor; [done|eauto].
  - apply conn_open_ack_validate_Ok in Hv as (c & Hc & Hst & Hver & _).
    unfold conn_open_ack_execute, conn_open_ack_execute_impl in Hx. inv_exec.
    rewrite connection_end_Ok in *. simplify_eq. split; [|by split_and!].
    by apply (ct_ack _ _ msg c).
  - apply conn_open_confirm_validate_Ok in Hv as (c & Hc & Hst & i & _ & _ & Hid & _).
    unfold conn_open_confirm_execute, conn_open_confirm_execute_impl in Hx. inv_exec.
    rewrite connection_end_Ok in *. simplify_eq. split; [|by split_and!].
    by apply (ct_confirm _ _ msg c).
Qed.

(** The messages that create a connection. *)
Definition creates_connection (msg : ConnectionMsg) : bool :=
  match msg with ConnOpenInit _ | ConnOpenTry _ => true | ConnOpenAck _ | ConnOpenConfirm _ => false end.

(** A validated message executes: the only obstacle is the counter. *)
Lemma connection_executes s msg u :
  connection_validate s msg = Ok u → is_u64 (connection_ids_counter s) →
  (connection_execute msg s).2
  = if creates_connection msg && (connection_ids_counter s =? U64_SIZE - 1) then Panic else Ok tt.
Proof.
  intros Hv Hn. destruct msg as [msg|msg|msg|msg]; cbn [connection_validate connection_execute] in *.
  - unfold conn_open_init_validate in Hv. inv_exec. unfold conn_open_init_execute.
    destruct (coi_version msg) as [v|]; inv_ok; destruct_units; unfold_actions; run_exec;
      [match goal with H : verify_is_supported _ _ = _ |- _ => rewrite H end|];
      cbn; rewrite u64_succ by done; by destruct (_ =? _).
  - unfold conn_open_try_validate in Hv. inv_exec.
    match goal with H : conn_open_try_vars _ _ = Ok ?v |- _ =>
      rename H into Hvars; rename v into vars end.
    unfold conn_open_try_execute, conn_open_try_execute_impl; unfold_actions; run_exec.
    rewrite Hvars. unfold conn_open_try_vars in Hvars. inv_exec.
    match goal with H : ConnectionEnd_new _ _ _ _ _ = _ |- _ =>
      apply ConnectionEnd_new_Ok in H as [-> _] end.
    match goal with H : cpty_connection_id _ = Some _ |- _ => cbn; rewrite H end.
    cbn. rewrite u64_succ by done. by destruct (_ =? _).
  - apply conn_open_ack_validate_Ok in Hv as (c & Hc & _).
    unfold conn_open_ack_execute; run_exec.
    rewrite (proj2 (connection_end_Ok _ _ _) Hc).
    unfold conn_open_ack_execute_impl. unfold_actions. by run_exec.
  - apply conn_open_confirm_validate_Ok in Hv as (c & Hc & _ & i & _ & _ & Hi & _).
    unfold conn_open_confirm_execute; run_exec.
    rewrite (proj2 (connection_end_Ok _ _ _) Hc).
    unfold conn_open_confirm_execute_impl, conn_open_confirm_conn_id_on_a. rewrite Hi. unfold_actions. by run_exec.
Qed.
End refinement.

(** ** The delay *)

(** The number of blocks is the quotient of the delay by the block time, rounded
    up: the least number of blocks that take at least the delay. *)
Lemma calculate_block_delay_least delay block :
  as_secs block ≠ 0 →
  as_secs delay <= calculate_block_delay delay block * as_secs block
  ∧ ∀ n, as_secs delay <= n * as_secs block → calculate_block_delay delay block <= n.
Proof.
  unfold calculate_block_delay. set (d := as_secs delay). set (b := as_secs block).
  clearbody d b. intros Hb.
  rewrite (proj2 (N.eqb_neq b 0)) by done.
  pose proof (N.div_mod d b Hb). pose proof (N.mod_lt d b Hb).
  remember (d / b) as q eqn:Hq. remember (d mod b) as r eqn:Hr. clear Hq Hr.
  destruct (N.eqb_spec r 0) as [Hz|Hz]; (split; [nia|]); intros n Hn.
  - destruct (N.le_gt_cases q n) as [|Hlt]; [done|].
    assert ((n + 1) * b <= q * b) by (apply N.mul_le_mono_r; lia). lia.
  - destruct (N.le_gt_cases (q + 1) n) as [|Hlt]; [done|].
    assert (n * b <= q * b) by (apply N.mul_le_mono_r; lia). lia.
Qed.

(** ** Theorems *)

(** Soundness of a light client: what it accepts as a member of the state with
    a given root is in that state.  [committed root prefix path value] says that
    the counterparty's state with commitment root [root] holds [value] under
    [prefix] at [path]. *)
Class SoundClient `{TmTime, !ChainTypes, !LightClient}
    (committed : CommitmentRoot → CommitmentPrefix → Path → bytes → Prop) := {
  verify_membership_sound cs prefix proof root path value :
    verify_membership cs prefix proof root path value = Ok tt →
    committed root prefix path value;
}.

Section theorems.
Context `{TmTime, !ChainTypes, !LightClient, host : !Host, !Codec}.

(** C9: The connection handlers implement the handshake state machine: a message
    that passes [validate] and is executed changes the counter and the
    connection ends exactly as [conn_transition] allows, and touches neither
    clients nor channels nor packets. *)
Theorem connection_handlers_refine_spec s msg s' :
  connection_validate s msg = Ok tt → connection_execute msg s = (s', Ok tt) →
  conn_transition (connection_ids_counter s) (connections s) msg
                  (connection_ids_counter s') (connections s')
  ∧ same_clients s s' ∧ same_channels s s' ∧ same_packets s s'.
Proof. intros Hv Hx. destruct (connection_refines s msg s' tt tt Hv Hx) as (? & ? & ? & ? & _). done. Qed.

(** C29: A message that passes [validate] executes without an error and without a
    panic, except that the two messages that create a connection, [OpenInit] and
    [OpenTry], panic when the counter is at [u64::MAX]: then they always do, the increment being
    one with overflow checks. *)
Theorem connection_validate_sufficient s msg :
  connection_validate s msg = Ok tt → is_u64 (connection_ids_counter s) →
  (connection_execute msg s).2
  = if creates_connection msg && (connection_ids_counter s =? U64_SIZE - 1) then Panic else Ok tt.
Proof. apply connection_executes. Qed.

(** The invariant of stored connections: identifiers below the counter, no
    uninitialised end, a single version and a known counterparty connection past
    [Init], supported versions only.  Every message keeps it, never overwrites a
    connection with a new one, keeps client, delay and counterparty of each
    connection, only moves its state forward, and leaves open connections as
    they are. *)
Theorem connections_invariant s msg s' :
  conns_inv (connection_ids_counter s) (connections s) →
  connection_validate s msg = Ok tt → connection_execute msg s = (s', Ok tt) →
  conns_inv (connection_ids_counter s') (connections s')
  ∧ ∀ id c, connections s !! id = Some c →
      ∃ c', connections s' !! id = Some c' ∧ conn_evolves c c'.
Proof.
  intros Hinv Hv Hx. destruct (connection_refines s msg s' tt tt Hv Hx) as (Ht & _).
  split; [by eapply conn_transition_inv|]. intros id c Hc. by eapply conn_transition_evolves.
Qed.

(** C11: Agreement at the end of the handshake.  With a sound light client and
    decodable encodings, a chain that accepts [OpenAck] or [OpenConfirm] has a
    counterparty whose state, at the root its active client has for the height of
    the proof, holds under the counterparty's connection identifier an end that names this connection, this chain's client
    and prefix, and agrees on the version and on the delay in nanoseconds (up to
    the 64 bits of its encoding). *)
Theorem handshake_agreement committed (Hs : SoundClient committed) (Hc : CodecLaws) s msg s' remote :
  conns_inv (connection_ids_counter s) (connections s) →
  connection_validate s msg = Ok tt → connection_execute msg s = (s', Ok tt) →
  (** the ends the counterparty commits to are encodings of connection ends *)
  (∀ root prefix id value, committed root prefix (PathConnection (mkConnectionPath id)) value →
     ∃ c, remote root id = Some c ∧ named_counterparty c ∧ value = ConnectionEnd_encode_vec c) →
  match msg with
  | ConnOpenAck m => ∃ root c_a c_b,
      connections s' !! coa_conn_id_on_a m = Some c_a ∧ conn_state c_a = ConnOpen
      ∧ proven_root s (conn_client_id c_a) (coa_proofs_height_on_b m) root
      ∧ remote root (coa_conn_id_on_b m) = Some c_b ∧ conn_state c_b = ConnTryOpen
      ∧ cpty_connection_id (conn_counterparty c_a) = Some (coa_conn_id_on_b m)
      ∧ conn_counterparty c_b = mkConnCounterparty (conn_client_id c_a)
          (Some (coa_conn_id_on_a m)) commitment_prefix
      ∧ conn_client_id c_b = cpty_client_id (conn_counterparty c_a)
      ∧ conn_versions c_b = conn_versions c_a
      ∧ as_nanos_u64 (conn_delay_period c_b) = as_nanos_u64 (conn_delay_period c_a)
  | ConnOpenConfirm m => ∃ root id_a c_a c_b,
      connections s' !! coc_conn_id_on_b m = Some c_b ∧ conn_state c_b = ConnOpen
      ∧ proven_root s (conn_client_id c_b) (coc_proof_height_on_a m) root
      ∧ cpty_connection_id (conn_counterparty c_b) = Some id_a
      ∧ remote root id_a = Some c_a ∧ conn_state c_a = ConnOpen
      ∧ conn_counterparty c_a = mkConnCounterparty (conn_client_id c_b)
          (Some (coc_conn_id_on_b m)) commitment_prefix
      ∧ conn_client_id c_a = cpty_client_id (conn_counterparty c_b)
      ∧ conn_versions c_a = conn_versions c_b
      ∧ as_nanos_u64 (conn_delay_period c_a) = as_nanos_u64 (conn_delay_period c_b)
  | _ => True
  end.
Proof.
  intros Hinv Hv Hx Hremote. destruct (connection_refines s msg s' tt tt Hv Hx) as (Ht & _).
  assert (∀ c1 c2, ConnectionEnd_encode_vec c1 = ConnectionEnd_encode_vec c2 →
    ConnectionEnd_into c1 = ConnectionEnd_into c2) as Hinj.
  { intros c1 c2 E. by apply encode_connection_end_inj. }
  destruct msg as [m|m|m|m]; [done|done| |]; cbn [connection_validate] in Hv.
  - apply conn_open_ack_validate_Ok in Hv as (c & Hc0 & Hst & _ & cs & cons & Hact & Hm).
    apply verify_membership_sound, Hremote in Hm as (c_b & Hcb & Hn & E%Hinj).
    apply ConnectionEnd_into_inj in E; [|cbn; intros ? [= <-]; by eapply conns_inv_named|done].
    inversion Ht as [| |? c0 Hc0'|]; simplify_eq. destruct E as (? & ? & ? & ? & ?); cbn in *.
    exists (cons_root cons). eexists _, c_b. rewrite lookup_insert_eq.
    split_and!; try done. by exists cs, cons.
  - apply conn_open_confirm_validate_Ok in Hv as (c & Hc0 & Hst & i & cs & cons & Hi & Hact & Hm).
    apply verify_membership_sound, Hremote in Hm as (c_a & Hca & Hn & E%Hinj).
    apply ConnectionEnd_into_inj in E; [|cbn; intros ? [= <-]; by eapply conns_inv_named|done].
    inversion Ht as [| | |? c0 Hc0']; simplify_eq. destruct E as (? & ? & ? & ? & ?); cbn in *.
    exists (cons_root cons), i, c_a. eexists. rewrite lookup_insert_eq.
    split_and!; try done. by exists cs, cons.
Qed.

(** A packet proof is accepted under the connection delay exactly when the
    consensus state it uses was stored at least the delay before the current
    time, and at least the delay, in blocks of the maximal expected time and
    rounded up, before the current height; nothing is accepted for a consensus
    state with no recorded update. *)
Theorem conn_delay_spec s h c now height :
  host_timestamp = Ok now → host_height = Ok height →
  verify_conn_delay_passed s h c = Ok tt ↔
  ∃ t0 h0 t1, client_processed_times s !! (conn_client_id c, h) = Some t0
    ∧ client_processed_heights s !! (conn_client_id c, h) = Some h0
    ∧ Timestamp_add t0 (conn_delay_period c) = Ok t1 ∧ Timestamp_ltb now t1 = false
    ∧ is_u64 (revision_height h0 + block_delay (conn_delay_period c))
    ∧ ¬ height_lt height (mkHeight (height_revision_number h0)
          (revision_height h0 + block_delay (conn_delay_period c))).
Proof.
  intros Ht Hh. unfold verify_conn_delay_passed. rewrite Ht, Hh. split.
  - intros Hx. unfold client_update_meta, Height_add in Hx. inv_exec.
    match goal with H : (_ ≫= _) = Some _ |- _ => apply bind_Some in H as (? & ? & H);
      apply bind_Some in H as (? & ? & [= -> ->]) end.
    do 3 eexists. split_and!; try done.
    rewrite <- Height_ltb_spec. by rewrite not_true_iff_false.
  - intros (t0 & h0 & t1 & E0 & E1 & E2 & E3 & E4 & E5). cbn [mbind outcome_bind].
    unfold client_update_meta, Height_add. rewrite E0, E1. cbn. rewrite E2. cbn.
    rewrite E3. cbn. rewrite u64_add_fits by done. cbn.
    rewrite <- Height_ltb_spec, not_true_iff_false in E5. by rewrite E5.
Qed.
End theorems.
