(* ===== verification/Module.v ===== *)
(** * The application callbacks

    The trait [Module] of [ibc-core/ics26-routing/src/module.rs]: what an
    application answers at each step of a channel's life.  [App] is the state
    the application keeps; the [_validate] callbacks read it, the [_execute]
    callbacks may change it and, like the code, leave their changes in place
    when they fail. *)

From S2P Require Import Prelude RustStr Identifiers Primitives Path Connection Channel Context.
Local Open Scope N_scope.

(** A callback that returns a plain value: it has no error, but it may panic. *)
Definition callback (App A : Type) : Type := exec App Empty_set A.
Definition no_error {E A} (e : Empty_set) : outcome E A := match e with end.

Class Module `{TmTime} (App : Type) := {
  on_chan_open_init_validate : App → Order → list ConnectionId → PortId → ChannelId →
    ChanCounterparty → ChanVersion → outcome ChannelError ChanVersion;
  on_chan_open_init_execute : Order → list ConnectionId → PortId → ChannelId →
    ChanCounterparty → ChanVersion → exec App ChannelError (ModuleExtras * ChanVersion);
  on_chan_open_try_validate : App → Order → list ConnectionId → PortId → ChannelId →
    ChanCounterparty → ChanVersion → outcome ChannelError ChanVersion;
  on_chan_open_try_execute : Order → list ConnectionId → PortId → ChannelId →
    ChanCounterparty → ChanVersion → exec App ChannelError (ModuleExtras * ChanVersion);
  on_chan_open_ack_validate : App → PortId → ChannelId → ChanVersion → outcome ChannelError ();
  on_chan_open_ack_execute : PortId → ChannelId → ChanVersion →
    exec App ChannelError ModuleExtras;
  on_chan_open_confirm_validate : App → PortId → ChannelId → outcome ChannelError ();
  on_chan_open_confirm_execute : PortId → ChannelId → exec App ChannelError ModuleExtras;
  on_chan_close_init_validate : App → PortId → ChannelId → outcome ChannelError ();
  on_chan_close_init_execute : PortId → ChannelId → exec App ChannelError ModuleExtras;
  on_chan_close_confirm_validate : App → PortId → ChannelId → outcome ChannelError ();
  on_chan_close_confirm_execute : PortId → ChannelId → exec App ChannelError ModuleExtras;
  on_recv_packet_execute : Packet → Signer → callback App (ModuleExtras * Acknowledgement);
  on_acknowledgement_packet_validate : App → Packet → Acknowledgement → Signer →
    outcome PacketError ();
  on_acknowledgement_packet_execute : Packet → Acknowledgement → Signer →
    callback App (ModuleExtras * outcome PacketError ());
  on_timeout_packet_validate : App → Packet → Signer → outcome PacketError ();
  on_timeout_packet_execute : Packet → Signer →
    callback App (ModuleExtras * outcome PacketError ());
}.

Section handler_state.
Context `{TmTime, !ChainTypes} {App : Type}.

(** A handler of a channel message works on the store and on the module. *)
Definition handler (A : Type) : Type := exec (IbcStore * App) ContextError A.

(** A call on the context, and calls on the module: with a fallible result, and
    with a plain one. *)
Definition on_ctx {A} (m : action A) : handler A := on_fst m.
Definition on_module {A} (m : exec App ChannelError A) : handler A :=
  on_snd (λ a, let '(a', r) := m a in (a', err_channel r)).
Definition on_module_pure {A} (m : callback App A) : handler A :=
  on_snd (λ a, let '(a', r) := m a in
    (a', match r with Ok x => Ok x | Err e => no_error e | Panic => Panic end)).

(** The loops that forward what the module wants emitted and logged. *)
Definition emit_extras (extras : ModuleExtras) : handler () :=
  on_ctx (for_each (λ module_event, emit_ibc_event (EventModule module_event))
         (extra_events extras));;
  on_ctx (for_each log_message (extra_log extras)).
End handler_state.

(** A module that accepts everything and keeps no state; it answers a version and
    its acknowledgement is the single byte one. *)
Definition answering_module `{TmTime} (answer : ChanVersion → ChanVersion) : Module () := {|
  on_chan_open_init_validate _ _ _ _ _ _ v := Ok (answer v);
  on_chan_open_init_execute _ _ _ _ _ v := mret (ModuleExtras_empty, answer v);
  on_chan_open_try_validate _ _ _ _ _ _ v := Ok (answer v);
  on_chan_open_try_execute _ _ _ _ _ v := mret (ModuleExtras_empty, answer v);
  on_chan_open_ack_validate _ _ _ _ := Ok tt;
  on_chan_open_ack_execute _ _ _ := mret ModuleExtras_empty;
  on_chan_open_confirm_validate _ _ _ := Ok tt;
  on_chan_open_confirm_execute _ _ := mret ModuleExtras_empty;
  on_chan_close_init_validate _ _ _ := Ok tt;
  on_chan_close_init_execute _ _ := mret ModuleExtras_empty;
  on_chan_close_confirm_validate _ _ _ := Ok tt;
  on_chan_close_confirm_execute _ _ := mret ModuleExtras_empty;
  on_recv_packet_execute _ _ := mret (ModuleExtras_empty, mkAcknowledgement [Byte.x01]);
  on_acknowledgement_packet_validate _ _ _ _ := Ok tt;
  on_acknowledgement_packet_execute _ _ _ := mret (ModuleExtras_empty, Ok tt);
  on_timeout_packet_validate _ _ _ := Ok tt;
  on_timeout_packet_execute _ _ := mret (ModuleExtras_empty, Ok tt);
|}.
Definition null_module `{TmTime} : Module () := answering_module (λ v, v).

(** ** Frames *)

Section frames.
Context `{TmTime, !ChainTypes} {App : Type}.

(** Everything but events and logs. *)
Definition same_state (s s' : IbcStore) : Prop :=
  same_clients s s' ∧ same_connections s s' ∧ same_channels s s' ∧ same_packets s s'.

Lemma same_state_refl s : same_state s s.
Proof. by repeat split. Qed.
Lemma same_state_trans s1 s2 s3 : same_state s1 s2 → same_state s2 s3 → same_state s1 s3.
Proof.
  unfold same_state, same_clients, same_connections, same_channels, same_packets.
  intros. destruct_and!. split_and!; congruence.
Qed.

Lemma for_each_events (l : list ModuleEvent) (s : IbcStore) :
  for_each (λ e, emit_ibc_event (EventModule e)) l s
  = (set_events (λ es, es ++ (EventModule <$> l))%list s, Ok tt).
Proof.
  revert s. induction l as [|e l IH]; intros s; cbn.
  - destruct s. unfold mret, exec_ret, set_events. cbn. by rewrite app_nil_r.
  - unfold mbind, exec_bind. cbn. rewrite IH. destruct s. unfold set_events. cbn.
    by rewrite <- app_assoc.
Qed.

Lemma for_each_logs (l : list string) (s : IbcStore) :
  for_each log_message l s = (set_logs (λ ls, ls ++ l)%list s, Ok tt).
Proof.
  revert s. induction l as [|e l IH]; intros s; cbn.
  - destruct s. unfold mret, exec_ret, set_logs. cbn. by rewrite app_nil_r.
  - unfold mbind, exec_bind. cbn. rewrite IH. destruct s. unfold set_logs. cbn.
    by rewrite <- app_assoc.
Qed.

(** Forwarding events and logs always succeeds and changes nothing else. *)
Lemma emit_extras_run extras (s : IbcStore) (a : App) :
  emit_extras extras (s, a) =
  ((set_logs (λ ls, ls ++ extra_log extras)%list
      (set_events (λ es, es ++ (EventModule <$> extra_events extras))%list s), a), Ok tt).
Proof.
  unfold emit_extras, on_ctx, mbind, exec_bind, on_fst. cbn.
  rewrite for_each_events. cbn. by rewrite for_each_logs.
Qed.

Lemma emit_extras_Ok extras (s : IbcStore) (a : App) st' u :
  emit_extras extras (s, a) = (st', Ok u) →
  ∃ s', st' = (s', a) ∧ same_state s s'
    ∧ events s' = (events s ++ (EventModule <$> extra_events extras))%list.
Proof. rewrite emit_extras_run. intros [= <- _]. eexists. by repeat split. Qed.

Lemma on_module_Ok {A} (m : exec App ChannelError A) (s : IbcStore) (a : App) st' (x : A) :
  on_module m (s, a) = (st', Ok x) ↔ ∃ a', m a = (a', Ok x) ∧ st' = (s, a').
Proof.
  unfold on_module. rewrite on_snd_Ok. destruct (m a) as [a' [r|e|]]; cbn; naive_solver.
Qed.
Lemma on_module_pure_Ok {A} (m : callback App A) (s : IbcStore) (a : App) st' (x : A) :
  on_module_pure m (s, a) = (st', Ok x) ↔ ∃ a', m a = (a', Ok x) ∧ st' = (s, a').
Proof.
  unfold on_module_pure. rewrite on_snd_Ok. destruct (m a) as [a' [r|[]|]]; cbn; naive_solver.
Qed.
Lemma on_ctx_Ok {A} (m : action A) (s : IbcStore) (a : App) st' (x : A) :
  on_ctx m (s, a) = (st', Ok x) ↔ ∃ s', m s = (s', Ok x) ∧ st' = (s', a).
Proof. apply on_fst_Ok. Qed.
End frames.
#[export] Hint Rewrite @on_module_Ok @on_module_pure_Ok @on_ctx_Ok : outcome.
