(* ===== verification/ChanHandlers.v ===== *)
(** * ICS-4 channel handshake handlers

    [ibc-core/ics04-channel/src/handler/chan_{open_init,open_try,open_ack,
    open_confirm,close_init,close_confirm}.rs] and the messages of
    [ics04-channel/types/src/msgs]. *)

From S2P Require Import Prelude RustStr Identifiers Primitives Path Connection Channel Context.
From S2P Require Import ConnHandlers Module.
Local Open Scope string_scope.
Local Open Scope N_scope.

(** ** Messages *)

Record MsgChannelOpenInit := mkMsgChannelOpenInit {
  choi_port_id_on_a : PortId;
  choi_connection_hops_on_a : list ConnectionId;
  choi_port_id_on_b : PortId;
  choi_ordering : Order;
  choi_signer : Signer;
  choi_version_proposal : ChanVersion }.

Record MsgChannelOpenTry := mkMsgChannelOpenTry {
  chot_port_id_on_b : PortId;
  chot_connection_hops_on_b : list ConnectionId;
  chot_port_id_on_a : PortId;
  chot_chan_id_on_a : ChannelId;
  chot_version_supported_on_a : ChanVersion;
  chot_proof_chan_end_on_a : CommitmentProofBytes;
  chot_proof_height_on_a : Height;
  chot_ordering : Order;
  chot_signer : Signer;
  chot_version_proposal : ChanVersion }.

Record MsgChannelOpenAck := mkMsgChannelOpenAck {
  choa_port_id_on_a : PortId;
  choa_chan_id_on_a : ChannelId;
  choa_chan_id_on_b : ChannelId;
  choa_version_on_b : ChanVersion;
  choa_proof_chan_end_on_b : CommitmentProofBytes;
  choa_proof_height_on_b : Height;
  choa_signer : Signer }.

Record MsgChannelOpenConfirm := mkMsgChannelOpenConfirm {
  choc_port_id_on_b : PortId;
  choc_chan_id_on_b : ChannelId;
  choc_proof_chan_end_on_a : CommitmentProofBytes;
  choc_proof_height_on_a : Height;
  choc_signer : Signer }.

Record MsgChannelCloseInit := mkMsgChannelCloseInit {
  chci_port_id_on_a : PortId;
  chci_chan_id_on_a : ChannelId;
  chci_signer : Signer }.

Record MsgChannelCloseConfirm := mkMsgChannelCloseConfirm {
  chcc_port_id_on_b : PortId;
  chcc_chan_id_on_b : ChannelId;
  chcc_proof_chan_end_on_a : CommitmentProofBytes;
  chcc_proof_height_on_a : Height;
  chcc_signer : Signer }.

Inductive ChannelMsg :=
| ChanOpenInit (m : MsgChannelOpenInit)
| ChanOpenTry (m : MsgChannelOpenTry)
| ChanOpenAck (m : MsgChannelOpenAck)
| ChanOpenConfirm (m : MsgChannelOpenConfirm)
| ChanCloseInit (m : MsgChannelCloseInit)
| ChanCloseConfirm (m : MsgChannelCloseConfirm).

Section handlers.
Context `{TmTime, !ChainTypes, !LightClient, host : !Host, !Codec}.
Context {App : Type} `{!Module App}.

(** ** OpenInit *)

Definition chan_open_init_check (s : IbcStore) (msg : MsgChannelOpenInit) :
    outcome ContextError () :=
  validate_message_signer (choi_signer msg);;
  err_channel (verify_connection_hops_length (choi_connection_hops_on_a msg) 1);;
  hop ← index (choi_connection_hops_on_a msg) 0;
  conn_end_on_a ← connection_end s hop;
  let client_id_on_a := conn_client_id conn_end_on_a in
  client_state_of_b_on_a ← client_state s client_id_on_a;
  status ← err_client (status client_state_of_b_on_a host s client_id_on_a);
  err_client (Status_verify_is_active status);;
  conn_version ← index (conn_versions conn_end_on_a) 0;
  err_connection (verify_feature_supported conn_version (Order_as_str (choi_ordering msg))).

Definition chan_open_init_validate (s : IbcStore) (module : App) (msg : MsgChannelOpenInit) :
    outcome ContextError () :=
  chan_open_init_check s msg;;
  counter ← channel_counter s;
  let chan_id_on_a := ChannelId_new counter in
  err_channel (on_chan_open_init_validate module (choi_ordering msg)
    (choi_connection_hops_on_a msg) (choi_port_id_on_a msg) chan_id_on_a
    (mkChanCounterparty (choi_port_id_on_b msg) None) (choi_version_proposal msg));;
  Ok tt.

Definition chan_open_init_execute (msg : MsgChannelOpenInit) : handler (App:=App) () :=
  counter ← on_ctx (reads channel_counter);
  let chan_id_on_a := ChannelId_new counter in
  '(extras, version) ← on_module (on_chan_open_init_execute (choi_ordering msg)
    (choi_connection_hops_on_a msg) (choi_port_id_on_a msg) chan_id_on_a
    (mkChanCounterparty (choi_port_id_on_b msg) None) (choi_version_proposal msg));
  conn_id_on_a ← lift (index (choi_connection_hops_on_a msg) 0);
  chan_end_on_a ← lift (err_channel (ChannelEnd_new ChanInit (choi_ordering msg)
    (mkChanCounterparty (choi_port_id_on_b msg) None) (choi_connection_hops_on_a msg)
    (choi_version_proposal msg)));
  on_ctx (store_channel (mkChannelEndPath (choi_port_id_on_a msg) chan_id_on_a) chan_end_on_a);;
  on_ctx increase_channel_counter;;
  on_ctx (store_next_sequence_send (mkSeqSendPath (choi_port_id_on_a msg) chan_id_on_a) 1);;
  on_ctx (store_next_sequence_recv (mkSeqRecvPath (choi_port_id_on_a msg) chan_id_on_a) 1);;
  on_ctx (store_next_sequence_ack (mkSeqAckPath (choi_port_id_on_a msg) chan_id_on_a) 1);;
  on_ctx (log_message ("success: channel open init with channel identifier: "
                       ++ channel_id_str chan_id_on_a));;
  on_ctx (emit_ibc_event (EventMessage EvChannel));;
  on_ctx (emit_ibc_event (OpenInitChannel (choi_port_id_on_a msg) chan_id_on_a
            (choi_port_id_on_b msg) conn_id_on_a version));;
  emit_extras extras.

(** ** OpenTry *)

(** The identifier the counterparty gave the connection a channel runs on. *)
Definition counterparty_connection (conn_end : ConnectionEnd) (hop : ConnectionId) :
    outcome ContextError ConnectionId :=
  err_channel (ok_or (cpty_connection_id (conn_counterparty conn_end))
                     (ChanUndefinedConnectionCounterparty hop)).

Definition chan_open_try_check (s : IbcStore) (msg : MsgChannelOpenTry) :
    outcome ContextError () :=
  validate_message_signer (chot_signer msg);;
  err_channel (verify_connection_hops_length (chot_connection_hops_on_b msg) 1);;
  hop ← index (chot_connection_hops_on_b msg) 0;
  conn_end_on_b ← connection_end s hop;
  err_connection (ConnectionEnd_verify_state_matches conn_end_on_b ConnOpen);;
  conn_version ← index (conn_versions conn_end_on_b) 0;
  err_connection (verify_feature_supported conn_version (Order_as_str (chot_ordering msg)));;
  '(client_state_of_a_on_b, consensus_state_of_a_on_b) ←
    active_client_at s (conn_client_id conn_end_on_b) (chot_proof_height_on_a msg);
  let prefix_on_a := cpty_prefix (conn_counterparty conn_end_on_b) in
  conn_id_on_a ← counterparty_connection conn_end_on_b hop;
  expected_chan_end_on_a ← err_channel (ChannelEnd_new ChanInit (chot_ordering msg)
    (mkChanCounterparty (chot_port_id_on_b msg) None) [conn_id_on_a]
    (chot_version_supported_on_a msg));
  let chan_end_path_on_a := mkChannelEndPath (chot_port_id_on_a msg) (chot_chan_id_on_a msg) in
  err_channel (map_err VerifyChannelFailed
    (verify_membership client_state_of_a_on_b prefix_on_a (chot_proof_chan_end_on_a msg)
       (cons_root consensus_state_of_a_on_b) (PathChannelEnd chan_end_path_on_a)
       (ChannelEnd_encode_vec expected_chan_end_on_a))).

Definition chan_open_try_validate (s : IbcStore) (module : App) (msg : MsgChannelOpenTry) :
    outcome ContextError () :=
  chan_open_try_check s msg;;
  counter ← channel_counter s;
  let chan_id_on_b := ChannelId_new counter in
  err_channel (on_chan_open_try_validate module (chot_ordering msg)
    (chot_connection_hops_on_b msg) (chot_port_id_on_b msg) chan_id_on_b
    (mkChanCounterparty (chot_port_id_on_a msg) (Some (chot_chan_id_on_a msg)))
    (chot_version_supported_on_a msg));;
  Ok tt.

Definition chan_open_try_execute (msg : MsgChannelOpenTry) : handler (App:=App) () :=
  counter ← on_ctx (reads channel_counter);
  let chan_id_on_b := ChannelId_new counter in
  '(extras, version) ← on_module (on_chan_open_try_execute (chot_ordering msg)
    (chot_connection_hops_on_b msg) (chot_port_id_on_b msg) chan_id_on_b
    (mkChanCounterparty (chot_port_id_on_a msg) (Some (chot_chan_id_on_a msg)))
    (chot_version_supported_on_a msg));
  conn_id_on_b ← lift (index (chot_connection_hops_on_b msg) 0);
  chan_end_on_b ← lift (err_channel (ChannelEnd_new ChanTryOpen (chot_ordering msg)
    (mkChanCounterparty (chot_port_id_on_a msg) (Some (chot_chan_id_on_a msg)))
    (chot_connection_hops_on_b msg) version));
  on_ctx (store_channel (mkChannelEndPath (chot_port_id_on_b msg) chan_id_on_b) chan_end_on_b);;
  on_ctx increase_channel_counter;;
  on_ctx (store_next_sequence_send (mkSeqSendPath (chot_port_id_on_b msg) chan_id_on_b) 1);;
  on_ctx (store_next_sequence_recv (mkSeqRecvPath (chot_port_id_on_b msg) chan_id_on_b) 1);;
  on_ctx (store_next_sequence_ack (mkSeqAckPath (chot_port_id_on_b msg) chan_id_on_b) 1);;
  on_ctx (log_message ("success: channel open try with channel identifier: "
                       ++ channel_id_str chan_id_on_b));;
  on_ctx (emit_ibc_event (EventMessage EvChannel));;
  on_ctx (emit_ibc_event (OpenTryChannel (chot_port_id_on_b msg) chan_id_on_b
            (chot_port_id_on_a msg) (chot_chan_id_on_a msg) conn_id_on_b version));;
  emit_extras extras.

(** ** OpenAck *)

Definition chan_open_ack_check (s : IbcStore) (msg : MsgChannelOpenAck) :
    outcome ContextError () :=
  validate_message_signer (choa_signer msg);;
  let chan_end_path_on_a := mkChannelEndPath (choa_port_id_on_a msg) (choa_chan_id_on_a msg) in
  chan_end_on_a ← channel_end s chan_end_path_on_a;
  err_channel (ChannelEnd_verify_state_matches chan_end_on_a ChanInit);;
  err_channel (ChannelEnd_verify_connection_hops_length chan_end_on_a);;
  hop ← index (chan_connection_hops chan_end_on_a) 0;
  conn_end_on_a ← connection_end s hop;
  err_connection (ConnectionEnd_verify_state_matches conn_end_on_a ConnOpen);;
  '(client_state_of_b_on_a, consensus_state_of_b_on_a) ←
    active_client_at s (conn_client_id conn_end_on_a) (choa_proof_height_on_b msg);
  let prefix_on_b := cpty_prefix (conn_counterparty conn_end_on_a) in
  let port_id_on_b := rem_port_id (chan_remote chan_end_on_a) in
  conn_id_on_b ← counterparty_connection conn_end_on_a hop;
  expected_chan_end_on_b ← err_channel (ChannelEnd_new ChanTryOpen (chan_ordering chan_end_on_a)
    (mkChanCounterparty (choa_port_id_on_a msg) (Some (choa_chan_id_on_a msg)))
    [conn_id_on_b] (choa_version_on_b msg));
  let chan_end_path_on_b := mkChannelEndPath port_id_on_b (choa_chan_id_on_b msg) in
  err_channel (map_err VerifyChannelFailed
    (verify_membership client_state_of_b_on_a prefix_on_b (choa_proof_chan_end_on_b msg)
       (cons_root consensus_state_of_b_on_a) (PathChannelEnd chan_end_path_on_b)
       (ChannelEnd_encode_vec expected_chan_end_on_b))).

Definition chan_open_ack_validate (s : IbcStore) (module : App) (msg : MsgChannelOpenAck) :
    outcome ContextError () :=
  chan_open_ack_check s msg;;
  err_channel (on_chan_open_ack_validate module (choa_port_id_on_a msg) (choa_chan_id_on_a msg)
                 (choa_version_on_b msg)).

Definition chan_open_ack_execute (msg : MsgChannelOpenAck) : handler (App:=App) () :=
  extras ← on_module (on_chan_open_ack_execute (choa_port_id_on_a msg) (choa_chan_id_on_a msg)
                        (choa_version_on_b msg));
  let chan_end_path_on_a := mkChannelEndPath (choa_port_id_on_a msg) (choa_chan_id_on_a msg) in
  chan_end_on_a ← on_ctx (reads (λ s, channel_end s chan_end_path_on_a));
  on_ctx (store_channel chan_end_path_on_a
    (ChannelEnd_set_counterparty_channel_id
       (ChannelEnd_set_version (ChannelEnd_set_state chan_end_on_a ChanOpen)
          (choa_version_on_b msg)) (choa_chan_id_on_b msg)));;
  on_ctx (log_message "success: channel open ack");;
  let port_id_on_b := rem_port_id (chan_remote chan_end_on_a) in
  conn_id_on_a ← lift (index (chan_connection_hops chan_end_on_a) 0);
  on_ctx (emit_ibc_event (EventMessage EvChannel));;
  on_ctx (emit_ibc_event (OpenAckChannel (choa_port_id_on_a msg) (choa_chan_id_on_a msg)
            port_id_on_b (choa_chan_id_on_b msg) conn_id_on_a));;
  emit_extras extras.

(** ** OpenConfirm and CloseConfirm

    The two checks differ in the state guard, in the length check on the hops
    that [CloseConfirm] does not make, and in the state expected of the
    counterparty. *)

Definition counterparty_channel (chan_end : ChannelEnd) : outcome ContextError ChannelId :=
  err_channel (ok_or (rem_channel_id (chan_remote chan_end)) ChanMissingCounterparty).

Definition verify_counterparty_channel_state (s : IbcStore) (port_id_on_b : PortId)
    (chan_id_on_b : ChannelId) (proof : CommitmentProofBytes) (proof_height : Height)
    (chan_end_on_b : ChannelEnd) (hop : ConnectionId) (conn_end_on_b : ConnectionEnd)
    (expected_state : ChannelState) : outcome ContextError () :=
  '(client_state_of_a_on_b, consensus_state_of_a_on_b) ←
    active_client_at s (conn_client_id conn_end_on_b) proof_height;
  let prefix_on_a := cpty_prefix (conn_counterparty conn_end_on_b) in
  let port_id_on_a := rem_port_id (chan_remote chan_end_on_b) in
  chan_id_on_a ← counterparty_channel chan_end_on_b;
  conn_id_on_a ← counterparty_connection conn_end_on_b hop;
  expected_chan_end_on_a ← err_channel (ChannelEnd_new expected_state
    (chan_ordering chan_end_on_b) (mkChanCounterparty port_id_on_b (Some chan_id_on_b))
    [conn_id_on_a] (chan_version chan_end_on_b));
  let chan_end_path_on_a := mkChannelEndPath port_id_on_a chan_id_on_a in
  err_channel (map_err VerifyChannelFailed
    (verify_membership client_state_of_a_on_b prefix_on_a proof
       (cons_root consensus_state_of_a_on_b) (PathChannelEnd chan_end_path_on_a)
       (ChannelEnd_encode_vec expected_chan_end_on_a))).

Definition chan_open_confirm_check (s : IbcStore) (msg : MsgChannelOpenConfirm) :
    outcome ContextError () :=
  validate_message_signer (choc_signer msg);;
  let chan_end_path_on_b := mkChannelEndPath (choc_port_id_on_b msg) (choc_chan_id_on_b msg) in
  chan_end_on_b ← channel_end s chan_end_path_on_b;
  err_channel (ChannelEnd_verify_state_matches chan_end_on_b ChanTryOpen);;
  err_channel (ChannelEnd_verify_connection_hops_length chan_end_on_b);;
  hop ← index (chan_connection_hops chan_end_on_b) 0;
  conn_end_on_b ← connection_end s hop;
  err_connection (ConnectionEnd_verify_state_matches conn_end_on_b ConnOpen);;
  verify_counterparty_channel_state s (choc_port_id_on_b msg) (choc_chan_id_on_b msg)
    (choc_proof_chan_end_on_a msg) (choc_proof_height_on_a msg)
    chan_end_on_b hop conn_end_on_b ChanOpen.

Definition chan_open_confirm_validate (s : IbcStore) (module : App)
    (msg : MsgChannelOpenConfirm) : outcome ContextError () :=
  chan_open_confirm_check s msg;;
  err_channel (on_chan_open_confirm_validate module (choc_port_id_on_b msg)
                 (choc_chan_id_on_b msg)).

Definition chan_open_confirm_execute (msg : MsgChannelOpenConfirm) : handler (App:=App) () :=
  extras ← on_module (on_chan_open_confirm_execute (choc_port_id_on_b msg)
                        (choc_chan_id_on_b msg));
  let chan_end_path_on_b := mkChannelEndPath (choc_port_id_on_b msg) (choc_chan_id_on_b msg) in
  chan_end_on_b ← on_ctx (reads (λ s, channel_end s chan_end_path_on_b));
  on_ctx (store_channel chan_end_path_on_b (ChannelEnd_set_state chan_end_on_b ChanOpen));;
  on_ctx (log_message "success: channel open confirm");;
  conn_id_on_b ← lift (index (chan_connection_hops chan_end_on_b) 0);
  let port_id_on_a := rem_port_id (chan_remote chan_end_on_b) in
  chan_id_on_a ← lift (ok_or (rem_channel_id (chan_remote chan_end_on_b))
    (CtxChannel (ChanOther
       "internal error: ChannelEnd doesn't have a counterparty channel id in OpenConfirm")));
  on_ctx (emit_ibc_event (EventMessage EvChannel));;
  on_ctx (emit_ibc_event (OpenConfirmChannel (choc_port_id_on_b msg) (choc_chan_id_on_b msg)
            port_id_on_a chan_id_on_a conn_id_on_b));;
  emit_extras extras.

(** ** CloseInit *)

Definition chan_close_init_check (s : IbcStore) (msg : MsgChannelCloseInit) :
    outcome ContextError () :=
  validate_message_signer (chci_signer msg);;
  let chan_end_path_on_a := mkChannelEndPath (chci_port_id_on_a msg) (chci_chan_id_on_a msg) in
  chan_end_on_a ← channel_end s chan_end_path_on_a;
  err_channel (ChannelEnd_verify_not_closed chan_end_on_a);;
  err_channel (ChannelEnd_verify_connection_hops_length chan_end_on_a);;
  hop ← index (chan_connection_hops chan_end_on_a) 0;
  conn_end_on_a ← connection_end s hop;
  err_connection (ConnectionEnd_verify_state_matches conn_end_on_a ConnOpen);;
  let client_id_on_a := conn_client_id conn_end_on_a in
  client_state_of_b_on_a ← client_state s client_id_on_a;
  status ← err_client (status client_state_of_b_on_a host s client_id_on_a);
  err_client (Status_verify_is_active status).

Definition chan_close_init_validate (s : IbcStore) (module : App) (msg : MsgChannelCloseInit) :
    outcome ContextError () :=
  chan_close_init_check s msg;;
  err_channel (on_chan_close_init_validate module (chci_port_id_on_a msg)
                 (chci_chan_id_on_a msg)).

Definition NO_COUNTERPARTY_IN_CLOSE_INIT : string :=
  "internal error: ChannelEnd doesn't have a counterparty channel id in CloseInit".

Definition chan_close_init_execute (msg : MsgChannelCloseInit) : handler (App:=App) () :=
  extras ← on_module (on_chan_close_init_execute (chci_port_id_on_a msg)
                        (chci_chan_id_on_a msg));
  let chan_end_path_on_a := mkChannelEndPath (chci_port_id_on_a msg) (chci_chan_id_on_a msg) in
  chan_end_on_a ← on_ctx (reads (λ s, channel_end s chan_end_path_on_a));
  on_ctx (store_channel chan_end_path_on_a (ChannelEnd_set_state chan_end_on_a ChanClosed));;
  on_ctx (log_message "success: channel close init");;
  let port_id_on_b := rem_port_id (chan_remote chan_end_on_a) in
  chan_id_on_b ← lift (ok_or (rem_channel_id (chan_remote chan_end_on_a))
    (CtxChannel (ChanOther NO_COUNTERPARTY_IN_CLOSE_INIT)));
  conn_id_on_a ← lift (index (chan_connection_hops chan_end_on_a) 0);
  on_ctx (emit_ibc_event (EventMessage EvChannel));;
  on_ctx (emit_ibc_event (CloseInitChannel (chci_port_id_on_a msg) (chci_chan_id_on_a msg)
            port_id_on_b chan_id_on_b conn_id_on_a));;
  emit_extras extras.

(** ** CloseConfirm *)

Definition chan_close_confirm_check (s : IbcStore) (msg : MsgChannelCloseConfirm) :
    outcome ContextError () :=
  validate_message_signer (chcc_signer msg);;
  let chan_end_path_on_b := mkChannelEndPath (chcc_port_id_on_b msg) (chcc_chan_id_on_b msg) in
  chan_end_on_b ← channel_end s chan_end_path_on_b;
  err_channel (ChannelEnd_verify_not_closed chan_end_on_b);;
  hop ← index (chan_connection_hops chan_end_on_b) 0;
  conn_end_on_b ← connection_end s hop;
  err_connection (ConnectionEnd_verify_state_matches conn_end_on_b ConnOpen);;
  verify_counterparty_channel_state s (chcc_port_id_on_b msg) (chcc_chan_id_on_b msg)
    (chcc_proof_chan_end_on_a msg) (chcc_proof_height_on_a msg)
    chan_end_on_b hop conn_end_on_b ChanClosed.

Definition chan_close_confirm_validate (s : IbcStore) (module : App)
    (msg : MsgChannelCloseConfirm) : outcome ContextError () :=
  chan_close_confirm_check s msg;;
  err_channel (on_chan_close_confirm_validate module (chcc_port_id_on_b msg)
                 (chcc_chan_id_on_b msg)).

Definition chan_close_confirm_execute (msg : MsgChannelCloseConfirm) : handler (App:=App) () :=
  extras ← on_module (on_chan_close_confirm_execute (chcc_port_id_on_b msg)
                        (chcc_chan_id_on_b msg));
  let chan_end_path_on_b := mkChannelEndPath (chcc_port_id_on_b msg) (chcc_chan_id_on_b msg) in
  chan_end_on_b ← on_ctx (reads (λ s, channel_end s chan_end_path_on_b));
  on_ctx (store_channel chan_end_path_on_b (ChannelEnd_set_state chan_end_on_b ChanClosed));;
  on_ctx (log_message "success: channel close confirm");;
  let port_id_on_a := rem_port_id (chan_remote chan_end_on_b) in
  chan_id_on_a ← lift (ok_or (rem_channel_id (chan_remote chan_end_on_b))
    (CtxChannel (ChanOther NO_COUNTERPARTY_IN_CLOSE_INIT)));
  conn_id_on_b ← lift (index (chan_connection_hops chan_end_on_b) 0);
  on_ctx (emit_ibc_event (EventMessage EvChannel));;
  on_ctx (emit_ibc_event (CloseConfirmChannel (chcc_port_id_on_b msg) (chcc_chan_id_on_b msg)
            port_id_on_a chan_id_on_a conn_id_on_b));;
  emit_extras extras.

(** The channel arms of [dispatch], with the module already looked up. *)
Definition channel_validate (s : IbcStore) (module : App) (msg : ChannelMsg) :
    outcome ContextError () :=
  match msg with
  | ChanOpenInit m => chan_open_init_validate s module m
  | ChanOpenTry m => chan_open_try_validate s module m
  | ChanOpenAck m => chan_open_ack_validate s module m
  | ChanOpenConfirm m => chan_open_confirm_validate s module m
  | ChanCloseInit m => chan_close_init_validate s module m
  | ChanCloseConfirm m => chan_close_confirm_validate s module m
  end.
Definition channel_execute (msg : ChannelMsg) : handler (App:=App) () :=
  match msg with
  | ChanOpenInit m => chan_open_init_execute m
  | ChanOpenTry m => chan_open_try_execute m
  | ChanOpenAck m => chan_open_ack_execute m
  | ChanOpenConfirm m => chan_open_confirm_execute m
  | ChanCloseInit m => chan_close_init_execute m
  | ChanCloseConfirm m => chan_close_confirm_execute m
  end.
End handlers.

(** ** The life of a channel as a state machine

    What the six messages may do to the channel counter, the channel ends and
    the three sequence counters of each channel. *)

Section spec.
Context `{TmTime}.

Inductive chan_transition (conns : gmap ConnectionId ConnectionEnd) (n : N)
    (m : PortChannelIdMap ChannelEnd) : ChannelMsg → N → PortChannelIdMap ChannelEnd → Prop :=
| cht_init msg hop conn :
    choi_connection_hops_on_a msg = [hop] → conns !! hop = Some conn →
    choi_ordering msg ≠ OrderNone →
    chan_transition conns n m (ChanOpenInit msg) (n + 1)
      (pc_insert (choi_port_id_on_a msg) (ChannelId_new n)
         (mkChannelEnd ChanInit (choi_ordering msg)
            (mkChanCounterparty (choi_port_id_on_b msg) None) [hop] (choi_version_proposal msg)) m)
| cht_try msg hop conn version :
    chot_connection_hops_on_b msg = [hop] → conns !! hop = Some conn →
    conn_state conn = ConnOpen → chot_ordering msg ≠ OrderNone →
    chan_transition conns n m (ChanOpenTry msg) (n + 1)
      (pc_insert (chot_port_id_on_b msg) (ChannelId_new n)
         (mkChannelEnd ChanTryOpen (chot_ordering msg)
            (mkChanCounterparty (chot_port_id_on_a msg) (Some (chot_chan_id_on_a msg)))
            [hop] version) m)
| cht_ack msg c hop conn :
    pc_get m (choa_port_id_on_a msg) (choa_chan_id_on_a msg) = Some c →
    chan_state c = ChanInit →
    chan_connection_hops c = [hop] → conns !! hop = Some conn → conn_state conn = ConnOpen →
    chan_transition conns n m (ChanOpenAck msg) n
      (pc_insert (choa_port_id_on_a msg) (choa_chan_id_on_a msg)
         (mkChannelEnd ChanOpen (chan_ordering c)
            (mkChanCounterparty (rem_port_id (chan_remote c)) (Some (choa_chan_id_on_b msg)))
            [hop] (choa_version_on_b msg)) m)
| cht_confirm msg c hop conn :
    pc_get m (choc_port_id_on_b msg) (choc_chan_id_on_b msg) = Some c →
    chan_state c = ChanTryOpen → is_Some (rem_channel_id (chan_remote c)) →
    chan_connection_hops c = [hop] → conns !! hop = Some conn → conn_state conn = ConnOpen →
    chan_transition conns n m (ChanOpenConfirm msg) n
      (pc_insert (choc_port_id_on_b msg) (choc_chan_id_on_b msg)
         (ChannelEnd_set_state c ChanOpen) m)
| cht_close_init msg c hop conn :
    pc_get m (chci_port_id_on_a msg) (chci_chan_id_on_a msg) = Some c →
    chan_state c ≠ ChanClosed → is_Some (rem_channel_id (chan_remote c)) →
    chan_connection_hops c = [hop] → conns !! hop = Some conn → conn_state conn = ConnOpen →
    chan_transition conns n m (ChanCloseInit msg) n
      (pc_insert (chci_port_id_on_a msg) (chci_chan_id_on_a msg)
         (ChannelEnd_set_state c ChanClosed) m)
| cht_close_confirm msg c hop rest conn :
    pc_get m (chcc_port_id_on_b msg) (chcc_chan_id_on_b msg) = Some c →
    chan_state c ≠ ChanClosed → is_Some (rem_channel_id (chan_remote c)) →
    chan_connection_hops c = hop :: rest → conns !! hop = Some conn →
    conn_state conn = ConnOpen →
    chan_transition conns n m (ChanCloseConfirm msg) n
      (pc_insert (chcc_port_id_on_b msg) (chcc_chan_id_on_b msg)
         (ChannelEnd_set_state c ChanClosed) m).

(** The channel a message creates, if it creates one. *)
Definition created_port (msg : ChannelMsg) : option PortId :=
  match msg with
  | ChanOpenInit m => Some (choi_port_id_on_a m)
  | ChanOpenTry m => Some (chot_port_id_on_b m)
  | _ => None
  end.

(** The three sequence counters start at one on a new channel and are not
    touched otherwise; nothing is received, sent or acknowledged. *)
Definition chan_sequences `{!ChainTypes} (s : IbcStore) (msg : ChannelMsg) (s' : IbcStore) : Prop :=
  match created_port msg with
  | Some p =>
    let c := ChannelId_new (channel_ids_counter s) in
    next_sequence_send s' = pc_insert p c 1 (next_sequence_send s)
    ∧ next_sequence_recv s' = pc_insert p c 1 (next_sequence_recv s)
    ∧ next_sequence_ack s' = pc_insert p c 1 (next_sequence_ack s)
    ∧ packet_acknowledgement s' = packet_acknowledgement s
    ∧ packet_commitment s' = packet_commitment s ∧ packet_receipt s' = packet_receipt s
  | None => same_packets s s'
  end.

(** The invariant of one channel end and of all of them. *)
Definition chan_end_inv (conns : gmap ConnectionId ConnectionEnd) (c : ChannelEnd) : Prop :=
  chan_state c ≠ ChanUninitialized ∧ chan_ordering c ≠ OrderNone
  ∧ (chan_state c ≠ ChanInit → is_Some (rem_channel_id (chan_remote c)))
  ∧ ∃ hop, chan_connection_hops c = [hop] ∧ is_Some (conns !! hop).

Definition chans_inv (conns : gmap ConnectionId ConnectionEnd) (n : N)
    (m : PortChannelIdMap ChannelEnd) : Prop :=
  ∀ p id c, pc_get m p id = Some c →
    (∃ k, k < n ∧ id = ChannelId_new k) ∧ chan_end_inv conns c.

(** How one channel end may evolve. *)
Definition ChannelState_le (s s' : ChannelState) : bool :=
  (ChannelState_as_i32 s <=? ChannelState_as_i32 s')%Z.

Definition chan_evolves (c c' : ChannelEnd) : Prop :=
  ChannelState_le (chan_state c) (chan_state c') = true
  ∧ chan_ordering c' = chan_ordering c ∧ chan_connection_hops c' = chan_connection_hops c
  ∧ rem_port_id (chan_remote c') = rem_port_id (chan_remote c)
  ∧ (chan_state c ≠ ChanInit → chan_remote c' = chan_remote c ∧ chan_version c' = chan_version c)
  ∧ (chan_state c = ChanClosed → c' = c).

Lemma ChannelId_new_inj n m : ChannelId_new n = ChannelId_new m → n = m.
Proof. intros E%(f_equal channel_id_str). by apply dash_number_inj in E as [_ ?]. Qed.

Lemma chans_inv_fresh conns n m p : chans_inv conns n m → pc_get m p (ChannelId_new n) = None.
Proof.
  intros Hinv. apply eq_None_not_Some. intros [c Hc].
  apply Hinv in Hc as [(k & Hk & ?%ChannelId_new_inj) _]. lia.
Qed.

Lemma chan_evolves_refl c : chan_evolves c c.
Proof. split_and!; try done. unfold ChannelState_le. apply Z.leb_le. lia. Qed.

(** Replacing an end by one that satisfies the invariant keeps it. *)
Lemma chans_inv_insert conns n m n' p id c :
  chans_inv conns n m → n <= n' → (∃ k, k < n' ∧ id = ChannelId_new k) → chan_end_inv conns c →
  chans_inv conns n' (pc_insert p id c m).
Proof.
  intros Hinv Hn Hk Hc p' id' c'. rewrite pc_get_insert. case_decide as Hd.
  - destruct Hd as [<- <-]. intros [= <-]. done.
  - intros Hc'. destruct (Hinv _ _ _ Hc') as [(k & ? & ->) ?]. split; [|done].
    exists k. split; [lia|done].
Qed.

Lemma chan_end_inv_set_state conns c st :
  chan_end_inv conns c → st ≠ ChanUninitialized →
  (st ≠ ChanInit → is_Some (rem_channel_id (chan_remote c))) →
  chan_end_inv conns (ChannelEnd_set_state c st).
Proof. intros (? & ? & ? & ?) ? ?. by split_and!. Qed.

Lemma chan_transition_inv conns n m msg n' m' :
  chan_transition conns n m msg n' m' → chans_inv conns n m → chans_inv conns n' m'.
Proof.
  intros Ht Hinv. destruct Ht;
    try match goal with H : pc_get m _ _ = Some ?c |- _ => destruct (Hinv _ _ _ H) as [? Hc] end;
    (apply (chans_inv_insert _ n); [done|lia| |]);
    try (by exists n; split; [lia|]); try done;
    try (by apply chan_end_inv_set_state).
  - split_and!; cbn; try done; eauto.
  - split_and!; cbn; try done; eauto.
  - destruct Hc as (? & ? & ? & ?). split_and!; cbn; try done; eauto.
Qed.

Lemma chan_transition_evolves conns n m msg n' m' p id c :
  chan_transition conns n m msg n' m' → chans_inv conns n m → pc_get m p id = Some c →
  ∃ c', pc_get m' p id = Some c' ∧ chan_evolves c c'.
Proof.
  intros Ht Hinv Hc. pose proof (λ p, chans_inv_fresh _ _ _ p Hinv) as Hfresh.
  destruct Ht; rewrite pc_get_insert; case_decide as Hd;
    try (exists c; split; [done|apply chan_evolves_refl]); destruct Hd as [<- <-];
    try (by rewrite Hfresh in Hc); simplify_eq; eexists; (split; [done|]);
    unfold chan_evolves, ChannelState_le, ChannelEnd_set_state; cbn;
    repeat match goal with H : chan_state _ = _ |- _ => rewrite H end;
    split_and!; try done;
    by match goal with |- context [chan_state ?x] => destruct (chan_state x) end.
Qed.
End spec.

(** ** The handlers implement the state machine *)

Section guards.
Context `{TmTime, !ChainTypes, !LightClient, host : !Host, !Codec}.
Context {App : Type} `{!Module App}.

Lemma channel_end_Ok s p c :
  channel_end s p = Ok c ↔ pc_get (channels s) (cep_port_id p) (cep_channel_id p) = Some c.
Proof. unfold channel_end, err_channel. by rewrite map_err_Ok, ok_or_Ok. Qed.

Lemma chan_state_matches_Ok c st u :
  ChannelEnd_verify_state_matches c st = Ok u ↔ chan_state c = st.
Proof.
  unfold ChannelEnd_verify_state_matches. rewrite fail_if_Ok, negb_false_iff.
  by rewrite bool_decide_eq_true.
Qed.

Lemma verify_not_closed_Ok c u : ChannelEnd_verify_not_closed c = Ok u ↔ chan_state c ≠ ChanClosed.
Proof.
  unfold ChannelEnd_verify_not_closed. by rewrite fail_if_Ok, bool_decide_eq_false.
Qed.

Lemma hops_length_Ok l u :
  verify_connection_hops_length l 1 = Ok u ↔ ∃ hop, l = [hop].
Proof.
  unfold verify_connection_hops_length. rewrite fail_if_Ok, negb_false_iff, N.eqb_eq. split.
  - destruct l as [|x [|y l]]; cbn; [lia|eauto|lia].
  - by intros [hop ->].
Qed.

Lemma lookup_0_cons {A} (l : list A) x : l !! 0%nat = Some x → ∃ r, l = x :: r.
Proof. destruct l; cbn; naive_solver. Qed.

Lemma counterparty_connection_Ok c hop i :
  counterparty_connection c hop = Ok i ↔ cpty_connection_id (conn_counterparty c) = Some i.
Proof. unfold counterparty_connection, err_channel. by rewrite map_err_Ok, ok_or_Ok. Qed.

Lemma counterparty_channel_Ok c i :
  counterparty_channel c = Ok i ↔ rem_channel_id (chan_remote c) = Some i.
Proof. unfold counterparty_channel, err_channel. by rewrite map_err_Ok, ok_or_Ok. Qed.

End guards.

(** Rewrites the guards of a validated message into facts about the ends. *)
Ltac guards := repeat match goal with
  | H : connection_end _ _ = Ok _ |- _ => apply connection_end_Ok in H
  | H : channel_end _ _ = Ok _ |- _ => apply channel_end_Ok in H; cbn in H
  | H : ConnectionEnd_verify_state_matches _ _ = Ok _ |- _ => apply verify_state_matches_Ok in H
  | H : ChannelEnd_verify_state_matches _ _ = Ok _ |- _ => apply chan_state_matches_Ok in H
  | H : ChannelEnd_verify_not_closed _ = Ok _ |- _ => apply verify_not_closed_Ok in H
  | H : ChannelEnd_verify_connection_hops_length _ = Ok _ |- _ =>
      apply hops_length_Ok in H as [? H]
  | H : verify_connection_hops_length _ 1 = Ok _ |- _ => apply hops_length_Ok in H as [? H]
  | H : ?l !! 0%nat = Some _, E : ?l = _ :: _ |- _ => rewrite E in H; cbn in H; simplify_eq
  | H : counterparty_connection _ _ = Ok _ |- _ => apply counterparty_connection_Ok in H
  | H : counterparty_channel _ = Ok _ |- _ => apply counterparty_channel_Ok in H
  | H : ChannelEnd_new _ _ _ _ _ = Ok _ |- _ => apply ChannelEnd_new_Ok in H as (-> & ? & ?)
  | H : _ !! 0%nat = Some _ |- _ => apply lookup_0_cons in H as [? H]
  end.

(** Events and logs of the module do not touch the rest of the store. *)
Tactic Notation "finish_extras" :=
  match goal with H : emit_extras _ _ = _ |- _ => apply emit_extras_Ok in H as (? & ? & H & Hevents) end;
  simplify_eq;
  match goal with H : same_state _ _ |- _ =>
    destruct H as ((? & ? & ? & ?) & (? & ? & ?) & (Hchans & Hcount) & (? & ? & ? & ? & ? & ?))
  end; cbn in *.

Section refinement.
Context `{TmTime, !ChainTypes, !LightClient, host : !Host, !Codec}.
Context {App : Type} `{!Module App}.

(** What a validated message has checked of the store and of the counterparty. *)
Lemma chan_open_init_check_Ok s msg u :
  chan_open_init_check s msg = Ok u →
  ∃ hop conn, choi_connection_hops_on_a msg = [hop] ∧ connections s !! hop = Some conn.
Proof. unfold chan_open_init_check. intros Hv. inv_exec. guards. eauto. Qed.

Definition proven_end (s : IbcStore) (conn : ConnectionEnd) (proof : CommitmentProofBytes)
    (h : Height) (p : PortId) (c : ChannelId) (chan : ChannelEnd) : Prop :=
  ∃ cs cons, active_client_at s (conn_client_id conn) h = Ok (cs, cons)
    ∧ verify_membership cs (cpty_prefix (conn_counterparty conn)) proof (cons_root cons)
        (PathChannelEnd (mkChannelEndPath p c)) (ChannelEnd_encode_vec chan) = Ok tt.

Lemma chan_open_try_check_Ok s msg u :
  chan_open_try_check s msg = Ok u →
  ∃ hop conn conn_id, chot_connection_hops_on_b msg = [hop] ∧ connections s !! hop = Some conn
    ∧ conn_state conn = ConnOpen ∧ cpty_connection_id (conn_counterparty conn) = Some conn_id
    ∧ proven_end s conn (chot_proof_chan_end_on_a msg) (chot_proof_height_on_a msg)
        (chot_port_id_on_a msg) (chot_chan_id_on_a msg)
        (mkChannelEnd ChanInit (chot_ordering msg)
           (mkChanCounterparty (chot_port_id_on_b msg) None) [conn_id]
           (chot_version_supported_on_a msg)).
Proof.
  unfold chan_open_try_check. intros Hv. inv_exec. guards.
  do 3 eexists. split_and!; try done. by do 2 eexists.
Qed.

Lemma chan_open_ack_check_Ok s msg u :
  chan_open_ack_check s msg = Ok u →
  ∃ c hop conn conn_id,
    pc_get (channels s) (choa_port_id_on_a msg) (choa_chan_id_on_a msg) = Some c
    ∧ chan_state c = ChanInit ∧ chan_connection_hops c = [hop]
    ∧ connections s !! hop = Some conn ∧ conn_state conn = ConnOpen
    ∧ cpty_connection_id (conn_counterparty conn) = Some conn_id
    ∧ proven_end s conn (choa_proof_chan_end_on_b msg) (choa_proof_height_on_b msg)
        (rem_port_id (chan_remote c)) (choa_chan_id_on_b msg)
        (mkChannelEnd ChanTryOpen (chan_ordering c)
           (mkChanCounterparty (choa_port_id_on_a msg) (Some (choa_chan_id_on_a msg)))
           [conn_id] (choa_version_on_b msg)).
Proof.
  unfold chan_open_ack_check. intros Hv. inv_exec. guards.
  do 4 eexists. split_and!; try done. by do 2 eexists.
Qed.

Lemma verify_counterparty_channel_state_Ok s p i proof h c hop conn st u :
  verify_counterparty_channel_state s p i proof h c hop conn st = Ok u →
  ∃ rem conn_id, rem_channel_id (chan_remote c) = Some rem
    ∧ cpty_connection_id (conn_counterparty conn) = Some conn_id
    ∧ proven_end s conn proof h (rem_port_id (chan_remote c)) rem
        (mkChannelEnd st (chan_ordering c) (mkChanCounterparty p (Some i)) [conn_id]
           (chan_version c)).
Proof.
  unfold verify_counterparty_channel_state. intros Hv. inv_exec. guards.
  do 2 eexists. split_and!; try done. by do 2 eexists.
Qed.

Lemma chan_open_confirm_check_Ok s msg u :
  chan_open_confirm_check s msg = Ok u →
  ∃ c hop conn rem conn_id,
    pc_get (channels s) (choc_port_id_on_b msg) (choc_chan_id_on_b msg) = Some c
    ∧ chan_state c = ChanTryOpen ∧ chan_connection_hops c = [hop]
    ∧ connections s !! hop = Some conn ∧ conn_state conn = ConnOpen
    ∧ rem_channel_id (chan_remote c) = Some rem
    ∧ cpty_connection_id (conn_counterparty conn) = Some conn_id
    ∧ proven_end s conn (choc_proof_chan_end_on_a msg) (choc_proof_height_on_a msg)
        (rem_port_id (chan_remote c)) rem
        (mkChannelEnd ChanOpen (chan_ordering c)
           (mkChanCounterparty (choc_port_id_on_b msg) (Some (choc_chan_id_on_b msg)))
           [conn_id] (chan_version c)).
Proof.
  unfold chan_open_confirm_check. intros Hv. inv_exec. guards.
  match goal with H : verify_counterparty_channel_state _ _ _ _ _ _ _ _ _ = _ |- _ =>
    apply verify_counterparty_channel_state_Ok in H as (? & ? & ? & ? & ?) end.
  by do 5 eexists.
Qed.

Lemma chan_close_init_check_Ok s msg u :
  chan_close_init_check s msg = Ok u →
  ∃ c hop conn,
    pc_get (channels s) (chci_port_id_on_a msg) (chci_chan_id_on_a msg) = Some c
    ∧ chan_state c ≠ ChanClosed ∧ chan_connection_hops c = [hop]
    ∧ connections s !! hop = Some conn ∧ conn_state conn = ConnOpen.
Proof.
  unfold chan_close_init_check. intros Hv. inv_exec. guards. by do 3 eexists.
Qed.

Lemma chan_close_confirm_check_Ok s msg u :
  chan_close_confirm_check s msg = Ok u →
  ∃ c hop rest conn rem conn_id,
    pc_get (channels s) (chcc_port_id_on_b msg) (chcc_chan_id_on_b msg) = Some c
    ∧ chan_state c ≠ ChanClosed ∧ chan_connection_hops c = hop :: rest
    ∧ connections s !! hop = Some conn ∧ conn_state conn = ConnOpen
    ∧ rem_channel_id (chan_remote c) = Some rem
    ∧ cpty_connection_id (conn_counterparty conn) = Some conn_id
    ∧ proven_end s conn (chcc_proof_chan_end_on_a msg) (chcc_proof_height_on_a msg)
        (rem_port_id (chan_remote c)) rem
        (mkChannelEnd ChanClosed (chan_ordering c)
           (mkChanCounterparty (chcc_port_id_on_b msg) (Some (chcc_chan_id_on_b msg)))
           [conn_id] (chan_version c)).
Proof.
  unfold chan_close_confirm_check. intros Hv. inv_exec. guards.
  match goal with H : verify_counterparty_channel_state _ _ _ _ _ _ _ _ _ = _ |- _ =>
    apply verify_counterparty_channel_state_Ok in H as (? & ? & ? & ? & ?) end.
  by do 6 eexists.
Qed.

(** What a successful channel message does to the store. *)
Definition chan_step (s : IbcStore) (msg : ChannelMsg) (s' : IbcStore) : Prop :=
  chan_transition (connections s) (channel_ids_counter s) (channels s) msg
                  (channel_ids_counter s') (channels s')
  ∧ chan_sequences s msg s' ∧ same_clients s s' ∧ same_connections s s'.

Lemma chan_open_init_refines s (a : App) msg st' u u' :
  chan_open_init_validate s a msg = Ok u → chan_open_init_execute msg (s, a) = (st', Ok u') →
  chan_step s (ChanOpenInit msg) st'.1.
Proof.
  intros Hv Hx. unfold chan_open_init_validate in Hv. apply bind_Ok in Hv as (? & Hv & _).
  apply chan_open_init_check_Ok in Hv as (hop & conn & Hh & Hc).
  unfold chan_open_init_execute in Hx. inv_exec. guards. finish_extras.
  split; [|by split_and!]. rewrite Hchans, Hcount, Hh. by eapply cht_init.
Qed.

Lemma chan_open_try_refines s (a : App) msg st' u u' :
  chan_open_try_validate s a msg = Ok u → chan_open_try_execute msg (s, a) = (st', Ok u') →
  chan_step s (ChanOpenTry msg) st'.1.
Proof.
  intros Hv Hx. unfold chan_open_try_validate in Hv. apply bind_Ok in Hv as (? & Hv & _).
  apply chan_open_try_check_Ok in Hv as (hop & conn & ? & Hh & Hc & Ho & _).
  unfold chan_open_try_execute in Hx. inv_exec. guards. finish_extras.
  split; [|by split_and!]. rewrite Hchans, Hcount, Hh. by eapply cht_try.
Qed.

Lemma chan_open_ack_refines s (a : App) msg st' u u' :
  chan_open_ack_validate s a msg = Ok u → chan_open_ack_execute msg (s, a) = (st', Ok u') →
  chan_step s (ChanOpenAck msg) st'.1.
Proof.
  intros Hv Hx. unfold chan_open_ack_validate in Hv. apply bind_Ok in Hv as (? & Hv & _).
  apply chan_open_ack_check_Ok in Hv as (c & hop & conn & ? & Hg & Hs & Hh & Hc & Ho & _).
  unfold chan_open_ack_execute in Hx. inv_exec. guards. simplify_eq. finish_extras.
  split; [|by split_and!]. rewrite Hchans, Hcount.
  unfold ChannelEnd_set_counterparty_channel_id, ChannelEnd_set_version, ChannelEnd_set_state.
  cbn. rewrite Hh. by eapply cht_ack.
Qed.

Lemma chan_open_confirm_refines s (a : App) msg st' u u' :
  chan_open_confirm_validate s a msg = Ok u → chan_open_confirm_execute msg (s, a) = (st', Ok u') →
  chan_step s (ChanOpenConfirm msg) st'.1.
Proof.
  intros Hv Hx. unfold chan_open_confirm_validate in Hv. apply bind_Ok in Hv as (? & Hv & _).
  apply chan_open_confirm_check_Ok in Hv
    as (c & hop & conn & ? & ? & Hg & Hs & Hh & Hc & Ho & Hr & _).
  unfold chan_open_confirm_execute in Hx. inv_exec. guards. simplify_eq. finish_extras.
  split; [|by split_and!]. rewrite Hchans, Hcount. eapply cht_confirm; eauto.
Qed.

Lemma chan_close_init_refines s (a : App) msg st' u u' :
  chan_close_init_validate s a msg = Ok u → chan_close_init_execute msg (s, a) = (st', Ok u') →
  chan_step s (ChanCloseInit msg) st'.1.
Proof.
  intros Hv Hx. unfold chan_close_init_validate in Hv. apply bind_Ok in Hv as (? & Hv & _).
  apply chan_close_init_check_Ok in Hv as (c & hop & conn & Hg & Hs & Hh & Hc & Ho).
  unfold chan_close_init_execute in Hx. inv_exec. guards. simplify_eq. finish_extras.
  split; [|by split_and!]. rewrite Hchans, Hcount. eapply cht_close_init; eauto.
Qed.

Lemma chan_close_confirm_refines s (a : App) msg st' u u' :
  chan_close_confirm_validate s a msg = Ok u →
  chan_close_confirm_execute msg (s, a) = (st', Ok u') →
  chan_step s (ChanCloseConfirm msg) st'.1.
Proof.
  intros Hv Hx. unfold chan_close_confirm_validate in Hv. apply bind_Ok in Hv as (? & Hv & _).
  apply chan_close_confirm_check_Ok in Hv
    as (c & hop & rest & conn & ? & ? & Hg & Hs & Hh & Hc & Ho & Hr & _).
  unfold chan_close_confirm_execute in Hx. inv_exec. guards. simplify_eq. finish_extras.
  split; [|by split_and!]. rewrite Hchans, Hcount.
  eapply (cht_close_confirm _ _ _ msg _ hop rest conn); eauto.
Qed.

Lemma channel_refines s (a : App) msg st' u u' :
  channel_validate s a msg = Ok u → channel_execute msg (s, a) = (st', Ok u') →
  chan_step s msg st'.1.
Proof.
  destruct msg; cbn [channel_validate channel_execute];
    eauto using chan_open_init_refines, chan_open_try_refines, chan_open_ack_refines,
      chan_open_confirm_refines, chan_close_init_refines, chan_close_confirm_refines.
Qed.
End refinement.

Section theorems.
Context `{TmTime, !ChainTypes, !LightClient, host : !Host, !Codec}.
Context {App : Type} `{!Module App}.

Lemma chans_inv_named conns n m p id c : chans_inv conns n m → pc_get m p id = Some c → channel_id_str id ≠ "".
Proof. intros Hinv Hc. by apply Hinv in Hc as [(k & _ & ->) _]. Qed.

(** What a proof accepted by a sound client says of the counterparty's store. *)
Lemma proven_end_sound committed (Hs : SoundClient committed) (Hc : CodecLaws) remote
    s conn proof h p id chan :
  (∀ root prefix p c value, committed root prefix (PathChannelEnd (mkChannelEndPath p c)) value →
     ∃ ch, remote root p c = Some ch ∧ named_remote ch ∧ value = ChannelEnd_encode_vec ch) →
  named_remote chan → proven_end s conn proof h p id chan →
  ∃ root, proven_root s (conn_client_id conn) h root ∧ remote root p id = Some chan.
Proof.
  intros Hr Hn (cs & cons & Hact & Hm). apply verify_membership_sound, Hr in Hm as (ch & Hch & Hn' & E).
  exists (cons_root cons). split; [by exists cs, cons|]. rewrite Hch. f_equal.
  apply ChannelEnd_into_inj; [done..|]. by apply encode_channel_end_inj.
Qed.

(** C8: The channel handlers implement the state machine of channels, with any
    application: a message that passes [validate] and is executed changes the
    counter, the channel ends and the sequence counters exactly as
    [chan_transition] and [chan_sequences] allow, on a connection that is open
    (or only exists, for [OpenInit]), and touches neither clients nor
    connections. *)
Theorem channel_handlers_refine_spec s (a : App) msg s' a' :
  channel_validate s a msg = Ok tt → channel_execute msg (s, a) = ((s', a'), Ok tt) →
  chan_transition (connections s) (channel_ids_counter s) (channels s) msg
                  (channel_ids_counter s') (channels s')
  ∧ chan_sequences s msg s' ∧ same_clients s s' ∧ same_connections s s'.
Proof. intros Hv Hx. by eapply channel_refines in Hx. Qed.

(** The invariant of stored channels: identifiers below the counter, an
    initialised state, an order, one hop that is a stored connection, and a known
    counterparty channel past [Init].  Every message keeps it, never overwrites a
    channel with a new one, keeps order, hops and counterparty port of every
    channel, only moves its state forward, and leaves closed channels as they
    are. *)
Theorem channels_invariant s (a : App) msg s' a' :
  chans_inv (connections s) (channel_ids_counter s) (channels s) →
  channel_validate s a msg = Ok tt → channel_execute msg (s, a) = ((s', a'), Ok tt) →
  chans_inv (connections s') (channel_ids_counter s') (channels s')
  ∧ ∀ p id c, pc_get (channels s) p id = Some c →
      ∃ c', pc_get (channels s') p id = Some c' ∧ chan_evolves c c'.
Proof.
  intros Hinv Hv Hx. eapply channel_refines in Hx as (Ht & _ & _ & (Hc & _)); [|done].
  cbn in *. rewrite Hc. split; [by eapply chan_transition_inv|].
  intros p id c Hp. by eapply chan_transition_evolves.
Qed.

(** From a proven counterparty end and the transition of the own end to their
    agreement. *)
Ltac agreement Hp Hh Ht :=
  eapply proven_end_sound in Hp as (root & Hroot & Hp);
  [|done|done|done|intros k [= <-]; by eapply chans_inv_named];
  inversion Ht; simplify_eq;
  match goal with E : _ = channels ?s' |- _ => eexists _, _, _, _, _; rewrite <- E end;
  rewrite pc_get_insert, decide_True by done; split_and!; try done;
  cbn; rewrite Hh in *; simplify_eq; by do 2 eexists.

(** C12: Agreement on channels.  With a sound light client and decodable encodings,
    a chain that opens a channel by [OpenAck] or [OpenConfirm], or closes one by
    [CloseConfirm], has a counterparty whose state, at the root the active client
    of the channel's connection has for the height of the proof, holds the
    matching end under the counterparty identifiers: it names this channel, has
    the same order and version, and is in the state the step requires. *)
Theorem channel_agreement committed (Hs : SoundClient committed) (Hc : CodecLaws)
    s (a : App) msg s' a' remote :
  chans_inv (connections s) (channel_ids_counter s) (channels s) →
  channel_validate s a msg = Ok tt → channel_execute msg (s, a) = ((s', a'), Ok tt) →
  (** the ends the counterparty commits to are encodings of channel ends *)
  (∀ root prefix p c value, committed root prefix (PathChannelEnd (mkChannelEndPath p c)) value →
     ∃ ch, remote root p c = Some ch ∧ named_remote ch ∧ value = ChannelEnd_encode_vec ch) →
  let agrees p i h st st' := ∃ root c rem c' conn,
    pc_get (channels s') p i = Some c ∧ chan_state c = st
    ∧ first_hop s (chan_connection_hops c) conn ∧ proven_root s (conn_client_id conn) h root
    ∧ rem_channel_id (chan_remote c) = Some rem
    ∧ remote root (rem_port_id (chan_remote c)) rem = Some c' ∧ chan_state c' = st'
    ∧ chan_remote c' = mkChanCounterparty p (Some i)
    ∧ chan_ordering c' = chan_ordering c ∧ chan_version c' = chan_version c in
  match msg with
  | ChanOpenAck m => agrees (choa_port_id_on_a m) (choa_chan_id_on_a m)
                       (choa_proof_height_on_b m) ChanOpen ChanTryOpen
  | ChanOpenConfirm m => agrees (choc_port_id_on_b m) (choc_chan_id_on_b m)
                           (choc_proof_height_on_a m) ChanOpen ChanOpen
  | ChanCloseConfirm m => agrees (chcc_port_id_on_b m) (chcc_chan_id_on_b m)
                            (chcc_proof_height_on_a m) ChanClosed ChanClosed
  | _ => True
  end.
Proof.
  intros Hinv Hv Hx Hr agrees. pose proof (channel_refines _ _ _ _ _ _ Hv Hx) as (Ht & _). cbn in Ht.
  destruct msg as [m|m|m|m|m|m]; try done; cbn [channel_validate] in Hv.
  - unfold chan_open_ack_validate in Hv. apply bind_Ok in Hv as (? & Hv & _).
    apply chan_open_ack_check_Ok in Hv as (c & hop & conn & i & Hg & _ & Hh & Hconn & _ & _ & Hp).
    agreement Hp Hh Ht.
  - unfold chan_open_confirm_validate in Hv. apply bind_Ok in Hv as (? & Hv & _).
    apply chan_open_confirm_check_Ok in Hv
      as (c & hop & conn & rem & i & Hg & _ & Hh & Hconn & _ & Hrem & _ & Hp).
    agreement Hp Hh Ht.
  - unfold chan_close_confirm_validate in Hv. apply bind_Ok in Hv as (? & Hv & _).
    apply chan_close_confirm_check_Ok in Hv
      as (c & hop & rest & conn & rem & i & Hg & _ & Hh & Hconn & _ & Hrem & _ & Hp).
    agreement Hp Hh Ht.
Qed.

(** [OpenInit] asks the application for the version of the channel, but
    stores the proposal of the message: only the event carries the application's
    answer, so the two differ whenever the application changes the version. *)
Theorem open_init_ignores_module_version s (a : App) msg s' a' extras version :
  on_chan_open_init_execute (choi_ordering msg) (choi_connection_hops_on_a msg)
    (choi_port_id_on_a msg) (ChannelId_new (channel_ids_counter s))
    (mkChanCounterparty (choi_port_id_on_b msg) None) (choi_version_proposal msg) a
    = (a', Ok (extras, version)) →
  chan_open_init_execute msg (s, a) = ((s', a'), Ok tt) →
  ∃ c hop, pc_get (channels s') (choi_port_id_on_a msg) (ChannelId_new (channel_ids_counter s))
      = Some c ∧ chan_version c = choi_version_proposal msg
    ∧ OpenInitChannel (choi_port_id_on_a msg) (ChannelId_new (channel_ids_counter s))
        (choi_port_id_on_b msg) hop version ∈ events s'.
Proof.
  intros Hm Hx. unfold chan_open_init_execute in Hx. inv_exec. guards.
  rewrite Hm in *. simplify_eq. finish_extras. rewrite Hchans, Hevents.
  eexists _, _. rewrite pc_get_insert, decide_True by done. split; [done|]. split; [done|].
  rewrite !elem_of_app. left. right. by apply list_elem_of_singleton.
Qed.

(** A channel that is still in [Init] cannot be closed, although [validate]
    lets it: with no counterparty channel, [execute] marks the end closed in the
    store and only then returns an error. *)
Theorem close_init_fails_after_write s (a : App) msg c a' extras :
  pc_get (channels s) (chci_port_id_on_a msg) (chci_chan_id_on_a msg) = Some c →
  rem_channel_id (chan_remote c) = None →
  on_chan_close_init_execute (chci_port_id_on_a msg) (chci_chan_id_on_a msg) a
    = (a', Ok extras) →
  ∃ s', chan_close_init_execute msg (s, a)
      = ((s', a'), Err (CtxChannel (ChanOther NO_COUNTERPARTY_IN_CLOSE_INIT)))
    ∧ pc_get (channels s') (chci_port_id_on_a msg) (chci_chan_id_on_a msg)
      = Some (ChannelEnd_set_state c ChanClosed).
Proof.
  intros Hc Hr Hm. unfold chan_close_init_execute.
  eexists. unfold mbind, exec_bind, on_module, on_snd. cbn. rewrite Hm. cbn.
  unfold channel_end. cbn. rewrite Hc. cbn. rewrite Hr. cbn. split; [done|].
  cbn. by rewrite pc_get_insert, decide_True.
Qed.
End theorems.
