(* ===== verification/PacketHandlers.v ===== *)
(** * ICS-4 packet handlers

    [ibc-core/ics04-channel/src/handler/{send_packet,recv_packet,
    acknowledgement,timeout,timeout_on_close}.rs] and the packet messages of
    [ics04-channel/types/src/msgs]. *)

From S2P Require Import Prelude RustStr Identifiers Primitives Path Connection Channel Context.
From S2P Require Import ConnHandlers Module ChanHandlers.
Local Open Scope string_scope.
Local Open Scope N_scope.

(** ** Messages *)

Section messages.
Context `{TmTime}.

Record MsgRecvPacket := mkMsgRecvPacket {
  recv_packet : Packet;
  recv_proof_commitment_on_a : CommitmentProofBytes;
  recv_proof_height_on_a : Height;
  recv_signer : Signer }.

Record MsgAcknowledgement := mkMsgAcknowledgement {
  ack_packet : Packet;
  ack_acknowledgement : Acknowledgement;
  ack_proof_acked_on_b : CommitmentProofBytes;
  ack_proof_height_on_b : Height;
  ack_signer : Signer }.

Record MsgTimeout := mkMsgTimeout {
  to_packet : Packet;
  to_next_seq_recv_on_b : Sequence;
  to_proof_unreceived_on_b : CommitmentProofBytes;
  to_proof_height_on_b : Height;
  to_signer : Signer }.

Record MsgTimeoutOnClose := mkMsgTimeoutOnClose {
  toc_packet : Packet;
  toc_next_seq_recv_on_b : Sequence;
  toc_proof_unreceived_on_b : CommitmentProofBytes;
  toc_proof_close_on_b : CommitmentProofBytes;
  toc_proof_height_on_b : Height;
  toc_signer : Signer }.

Inductive PacketMsg :=
| PktRecv (m : MsgRecvPacket)
| PktAck (m : MsgAcknowledgement)
| PktTimeout (m : MsgTimeout)
| PktTimeoutOnClose (m : MsgTimeoutOnClose).

Inductive TimeoutMsgType :=
| TimeoutMsg (m : MsgTimeout)
| TimeoutOnCloseMsg (m : MsgTimeoutOnClose).
End messages.

Section handlers.
Context `{TmTime, !ChainTypes, !LightClient, host : !Host, !Codec, !Sha256}.
Context {App : Type} `{!Module App}.

(** The commitment of a packet, and the two ends a packet travels between. *)
Definition packet_commitment_of (packet : Packet) : outcome ContextError PacketCommitment :=
  compute_packet_commitment (data packet) (timeout_height_on_b packet)
    (timeout_timestamp_on_b packet).
Definition path_on_a (packet : Packet) : ChannelEndPath :=
  mkChannelEndPath (port_id_on_a packet) (chan_id_on_a packet).
Definition path_on_b (packet : Packet) : ChannelEndPath :=
  mkChannelEndPath (port_id_on_b packet) (chan_id_on_b packet).
Definition commitment_path_on_a (packet : Packet) : CommitmentPath :=
  mkCommitmentPath (port_id_on_a packet) (chan_id_on_a packet) (seq_on_a packet).

(** ** Sending *)

Definition send_packet_validate (s : IbcStore) (packet : Packet) : outcome ContextError () :=
  chan_end_on_a ← channel_end s (path_on_a packet);
  err_channel (ChannelEnd_verify_not_closed chan_end_on_a);;
  let counterparty :=
    mkChanCounterparty (port_id_on_b packet) (Some (chan_id_on_b packet)) in
  err_channel (ChannelEnd_verify_counterparty_matches chan_end_on_a counterparty);;
  conn_id_on_a ← index (chan_connection_hops chan_end_on_a) 0;
  conn_end_on_a ← connection_end s conn_id_on_a;
  let client_id_on_a := conn_client_id conn_end_on_a in
  client_state_of_b_on_a ← client_state s client_id_on_a;
  status ← err_client (status client_state_of_b_on_a host s client_id_on_a);
  err_client (Status_verify_is_active status);;
  let latest_height_on_a := latest_height client_state_of_b_on_a in
  fail_if (has_expired (timeout_height_on_b packet) latest_height_on_a)
    (CtxPacket (LowPacketHeight latest_height_on_a (timeout_height_on_b packet)));;
  consensus_state_of_b_on_a ← consensus_state s (mkClientConsensusStatePath client_id_on_a
    (height_revision_number latest_height_on_a) (revision_height latest_height_on_a));
  let latest_timestamp := cons_timestamp consensus_state_of_b_on_a in
  let packet_timestamp := timeout_timestamp_on_b packet in
  fail_if (bool_decide (Timestamp_check_expiry latest_timestamp packet_timestamp = Expired))
    (CtxPacket LowPacketTimestamp);;
  next_seq_send_on_a ← get_next_sequence_send s
    (mkSeqSendPath (port_id_on_a packet) (chan_id_on_a packet));
  fail_if (negb (seq_on_a packet =? next_seq_send_on_a))
    (CtxPacket (InvalidPacketSequence (seq_on_a packet) next_seq_send_on_a)).

Definition send_packet_execute (packet : Packet) : action () :=
  let seq_send_path_on_a := mkSeqSendPath (port_id_on_a packet) (chan_id_on_a packet) in
  next_seq_send_on_a ← reads (λ s, get_next_sequence_send s seq_send_path_on_a);
  next ← lift (Sequence_increment next_seq_send_on_a);
  store_next_sequence_send seq_send_path_on_a next;;
  commitment ← lift (packet_commitment_of packet);
  store_packet_commitment (commitment_path_on_a packet) commitment;;
  chan_end_on_a ← reads (λ s, channel_end s (path_on_a packet));
  conn_id_on_a ← lift (index (chan_connection_hops chan_end_on_a) 0);
  log_message "success: packet send";;
  emit_ibc_event (EventMessage EvChannel);;
  emit_ibc_event (SendPacket packet (chan_ordering chan_end_on_a) conn_id_on_a).

Definition send_packet (packet : Packet) : action () :=
  reads (λ s, send_packet_validate s packet);;
  send_packet_execute packet.

(** ** Receiving *)

Definition validate_write_acknowledgement (s : IbcStore) (msg : MsgRecvPacket) :
    outcome ContextError () :=
  let packet := recv_packet msg in
  let ack_path_on_b :=
    mkAckPath (port_id_on_b packet) (chan_id_on_b packet) (seq_on_a packet) in
  fail_if (is_ok (get_packet_acknowledgement s ack_path_on_b))
    (CtxPacket (AcknowledgementExists (seq_on_a packet))).

Definition order_none_error (order : Order) : ContextError :=
  CtxChannel (InvalidOrderType "Channel ordering cannot be None" (Order_as_str order)).

Definition packet_verification {A} (sequence : Sequence) (m : outcome ClientError A) :
    outcome ContextError A :=
  err_packet (map_err PktChannel (map_err (PacketVerificationFailed sequence) m)).

Definition recv_packet_check (s : IbcStore) (msg : MsgRecvPacket) : outcome ContextError () :=
  let packet := recv_packet msg in
  validate_message_signer (recv_signer msg);;
  chan_end_on_b ← channel_end s (path_on_b packet);
  err_channel (ChannelEnd_verify_state_matches chan_end_on_b ChanOpen);;
  let counterparty :=
    mkChanCounterparty (port_id_on_a packet) (Some (chan_id_on_a packet)) in
  err_channel (ChannelEnd_verify_counterparty_matches chan_end_on_b counterparty);;
  conn_id_on_b ← index (chan_connection_hops chan_end_on_b) 0;
  conn_end_on_b ← connection_end s conn_id_on_b;
  err_connection (ConnectionEnd_verify_state_matches conn_end_on_b ConnOpen);;
  latest_height ← host_height;
  fail_if (has_expired (timeout_height_on_b packet) latest_height)
    (CtxPacket (LowPacketHeight latest_height (timeout_height_on_b packet)));;
  latest_timestamp ← host_timestamp;
  fail_if (bool_decide
             (Timestamp_check_expiry latest_timestamp (timeout_timestamp_on_b packet) = Expired))
    (CtxPacket LowPacketTimestamp);;
  '(client_state_of_a_on_b, consensus_state_of_a_on_b) ←
    active_client_at s (conn_client_id conn_end_on_b) (recv_proof_height_on_a msg);
  expected_commitment_on_a ← packet_commitment_of packet;
  verify_conn_delay_passed s (recv_proof_height_on_a msg) conn_end_on_b;;
  packet_verification (seq_on_a packet)
    (verify_membership client_state_of_a_on_b (cpty_prefix (conn_counterparty conn_end_on_b))
       (recv_proof_commitment_on_a msg) (cons_root consensus_state_of_a_on_b)
       (PathCommitment (commitment_path_on_a packet))
       (commitment_bytes expected_commitment_on_a));;
  match chan_ordering chan_end_on_b with
  | Ordered =>
    next_seq_recv ← get_next_sequence_recv s
      (mkSeqRecvPath (port_id_on_b packet) (chan_id_on_b packet));
    fail_if (next_seq_recv <? seq_on_a packet)
      (CtxPacket (InvalidPacketSequence (seq_on_a packet) next_seq_recv));;
    if seq_on_a packet =? next_seq_recv then validate_write_acknowledgement s msg else Ok tt
  | Unordered =>
    (* the receipt is looked up under the identifiers of the sending chain *)
    match get_packet_receipt s
            (mkReceiptPath (port_id_on_a packet) (chan_id_on_a packet) (seq_on_a packet)) with
    | Ok _ => Ok tt
    | Err (CtxPacket (PacketReceiptNotFound sequence)) =>
      if sequence =? seq_on_a packet then Ok tt
      else Err (CtxPacket (PacketReceiptNotFound sequence))
    | Err e => Err e
    | Panic => Panic
    end;;
    validate_write_acknowledgement s msg
  | OrderNone => Err (order_none_error OrderNone)
  end.

Definition recv_packet_validate (s : IbcStore) (msg : MsgRecvPacket) : outcome ContextError () :=
  recv_packet_check s msg.

(** Was the packet already received, on the channel end as stored? *)
Definition packet_already_received (s : IbcStore) (chan_end_on_b : ChannelEnd) (packet : Packet) :
    outcome ContextError bool :=
  match chan_ordering chan_end_on_b with
  | OrderNone => Ok false
  | Unordered =>
    Ok (is_ok (get_packet_receipt s
          (mkReceiptPath (port_id_on_b packet) (chan_id_on_b packet) (seq_on_a packet))))
  | Ordered =>
    next_seq_recv ← get_next_sequence_recv s
      (mkSeqRecvPath (port_id_on_b packet) (chan_id_on_b packet));
    Ok (seq_on_a packet <? next_seq_recv)
  end.

(** The writes of [recvPacket] that depend on the order of the channel. *)
Definition record_receive (chan_end_on_b : ChannelEnd) (packet : Packet) : action () :=
  match chan_ordering chan_end_on_b with
  | Unordered =>
    store_packet_receipt
      (mkReceiptPath (port_id_on_b packet) (chan_id_on_b packet) (seq_on_a packet)) ReceiptOk
  | Ordered =>
    let seq_recv_path_on_b := mkSeqRecvPath (port_id_on_b packet) (chan_id_on_b packet) in
    next_seq_recv ← reads (λ s, get_next_sequence_recv s seq_recv_path_on_b);
    next ← lift (Sequence_increment next_seq_recv);
    store_next_sequence_recv seq_recv_path_on_b next
  | OrderNone => mret tt
  end.

Definition recv_packet_execute (msg : MsgRecvPacket) : handler (App:=App) () :=
  let packet := recv_packet msg in
  chan_end_on_b ← on_ctx (reads (λ s, channel_end s (path_on_b packet)));
  already_received ← on_ctx (reads (λ s, packet_already_received s chan_end_on_b packet));
  if (already_received : bool) then mret tt else
  '(extras, acknowledgement) ← on_module_pure (on_recv_packet_execute packet (recv_signer msg));
  on_ctx (record_receive chan_end_on_b packet);;
  on_ctx (store_packet_acknowledgement
    (mkAckPath (port_id_on_b packet) (chan_id_on_b packet) (seq_on_a packet))
    (compute_ack_commitment acknowledgement));;
  on_ctx (log_message "success: packet receive");;
  on_ctx (log_message "success: packet write acknowledgement");;
  conn_id_on_b ← lift (index (chan_connection_hops chan_end_on_b) 0);
  on_ctx (emit_ibc_event (EventMessage EvChannel));;
  on_ctx (emit_ibc_event (ReceivePacket packet (chan_ordering chan_end_on_b) conn_id_on_b));;
  on_ctx (emit_ibc_event (EventMessage EvChannel));;
  on_ctx (emit_ibc_event (WriteAcknowledgement packet acknowledgement conn_id_on_b));;
  emit_extras extras.

(** ** Acknowledging *)

Definition acknowledgement_check (s : IbcStore) (msg : MsgAcknowledgement) :
    outcome ContextError () :=
  let packet := ack_packet msg in
  validate_message_signer (ack_signer msg);;
  chan_end_on_a ← channel_end s (path_on_a packet);
  err_channel (ChannelEnd_verify_state_matches chan_end_on_a ChanOpen);;
  let counterparty :=
    mkChanCounterparty (port_id_on_b packet) (Some (chan_id_on_b packet)) in
  err_channel (ChannelEnd_verify_counterparty_matches chan_end_on_a counterparty);;
  conn_id_on_a ← index (chan_connection_hops chan_end_on_a) 0;
  conn_end_on_a ← connection_end s conn_id_on_a;
  err_connection (ConnectionEnd_verify_state_matches conn_end_on_a ConnOpen);;
  match get_packet_commitment s (commitment_path_on_a packet) with
  | Ok commitment_on_a =>
    expected ← packet_commitment_of packet;
    fail_if (negb (bool_decide (commitment_on_a = expected)))
      (CtxPacket (IncorrectPacketCommitment (seq_on_a packet)));;
    match chan_ordering chan_end_on_a with
    | Ordered =>
      next_seq_ack ← get_next_sequence_ack s
        (mkSeqAckPath (port_id_on_a packet) (chan_id_on_a packet));
      fail_if (negb (seq_on_a packet =? next_seq_ack))
        (CtxPacket (InvalidPacketSequence (seq_on_a packet) next_seq_ack))
    | _ => Ok tt
    end;;
    '(client_state_of_b_on_a, consensus_state_of_b_on_a) ←
      active_client_at s (conn_client_id conn_end_on_a) (ack_proof_height_on_b msg);
    let ack_commitment := compute_ack_commitment (ack_acknowledgement msg) in
    let ack_path_on_b :=
      mkAckPath (port_id_on_b packet) (chan_id_on_b packet) (seq_on_a packet) in
    verify_conn_delay_passed s (ack_proof_height_on_b msg) conn_end_on_a;;
    packet_verification (seq_on_a packet)
      (verify_membership client_state_of_b_on_a (cpty_prefix (conn_counterparty conn_end_on_a))
         (ack_proof_acked_on_b msg) (cons_root consensus_state_of_b_on_a)
         (PathAck ack_path_on_b) (ack_commitment_bytes ack_commitment))
  | _ => Ok tt
  end.

Definition acknowledgement_packet_validate (s : IbcStore) (module : App)
    (msg : MsgAcknowledgement) : outcome ContextError () :=
  acknowledgement_check s msg;;
  err_packet (on_acknowledgement_packet_validate module (ack_packet msg)
                (ack_acknowledgement msg) (ack_signer msg)).

Definition acknowledgement_packet_execute (msg : MsgAcknowledgement) : handler (App:=App) () :=
  let packet := ack_packet msg in
  chan_end_on_a ← on_ctx (reads (λ s, channel_end s (path_on_a packet)));
  conn_id_on_a ← lift (index (chan_connection_hops chan_end_on_a) 0);
  on_ctx (emit_ibc_event (EventMessage EvChannel));;
  on_ctx (emit_ibc_event (AcknowledgePacket packet (chan_ordering chan_end_on_a) conn_id_on_a));;
  committed ← on_ctx (reads (λ s,
    Ok (is_ok (get_packet_commitment s (commitment_path_on_a packet)))));
  if negb committed then mret tt else
  '(extras, cb_result) ← on_module_pure
    (on_acknowledgement_packet_execute packet (ack_acknowledgement msg) (ack_signer msg));
  lift (err_packet cb_result);;
  on_ctx (delete_packet_commitment (commitment_path_on_a packet));;
  on_ctx match chan_ordering chan_end_on_a with
    | Ordered =>
      next ← lift (Sequence_increment (seq_on_a packet));
      store_next_sequence_ack (mkSeqAckPath (port_id_on_a packet) (chan_id_on_a packet)) next
    | _ => mret tt
    end;;
  on_ctx (log_message "success: packet acknowledgement");;
  emit_extras extras.

(** ** Timeouts *)

(** The proof that the packet was not received: on an ordered channel that the
    counterparty's next sequence is the packet's, on an unordered one that there
    is no receipt. *)
Definition verify_unreceived (packet : Packet) (next_seq_recv_on_b : Sequence)
    (proof_unreceived_on_b : CommitmentProofBytes) (order : Order) (prefix : CommitmentPrefix)
    (client_state_of_b_on_a : ClientState) (root : CommitmentRoot) : outcome ContextError () :=
  next_seq_recv_verification_result ← match order with
    | Ordered =>
      fail_if (seq_on_a packet <? next_seq_recv_on_b)
        (CtxPacket (InvalidPacketSequence (seq_on_a packet) next_seq_recv_on_b));;
      Ok (verify_membership client_state_of_b_on_a prefix proof_unreceived_on_b root
            (PathSeqRecv (mkSeqRecvPath (port_id_on_b packet) (chan_id_on_b packet)))
            (to_be_bytes (seq_on_a packet)))
    | Unordered =>
      Ok (verify_non_membership client_state_of_b_on_a prefix proof_unreceived_on_b root
            (PathReceipt (mkReceiptPath (port_id_on_b packet) (chan_id_on_b packet)
                            (seq_on_a packet))))
    | OrderNone => Err (order_none_error OrderNone)
    end;
  packet_verification next_seq_recv_on_b next_seq_recv_verification_result.

Definition timeout_check (s : IbcStore) (msg : MsgTimeout) : outcome ContextError () :=
  let packet := to_packet msg in
  validate_message_signer (to_signer msg);;
  chan_end_on_a ← channel_end s (path_on_a packet);
  err_channel (ChannelEnd_verify_state_matches chan_end_on_a ChanOpen);;
  let counterparty :=
    mkChanCounterparty (port_id_on_b packet) (Some (chan_id_on_b packet)) in
  err_channel (ChannelEnd_verify_counterparty_matches chan_end_on_a counterparty);;
  conn_id_on_a ← index (chan_connection_hops chan_end_on_a) 0;
  conn_end_on_a ← connection_end s conn_id_on_a;
  match get_packet_commitment s (commitment_path_on_a packet) with
  | Ok commitment_on_a =>
    expected_commitment_on_a ← packet_commitment_of packet;
    fail_if (negb (bool_decide (commitment_on_a = expected_commitment_on_a)))
      (CtxPacket (IncorrectPacketCommitment (seq_on_a packet)));;
    '(client_state_of_b_on_a, consensus_state_of_b_on_a) ←
      active_client_at s (conn_client_id conn_end_on_a) (to_proof_height_on_b msg);
    let timestamp_of_b := cons_timestamp consensus_state_of_b_on_a in
    fail_if (negb (timed_out packet timestamp_of_b (to_proof_height_on_b msg)))
      (CtxPacket (PacketTimeoutNotReached (timeout_height_on_b packet)
         (to_proof_height_on_b msg) (timeout_timestamp_on_b packet) timestamp_of_b));;
    verify_conn_delay_passed s (to_proof_height_on_b msg) conn_end_on_a;;
    verify_unreceived packet (to_next_seq_recv_on_b msg) (to_proof_unreceived_on_b msg)
      (chan_ordering chan_end_on_a) (cpty_prefix (conn_counterparty conn_end_on_a))
      client_state_of_b_on_a (cons_root consensus_state_of_b_on_a)
  | _ => Ok tt
  end.

Definition timeout_on_close_check (s : IbcStore) (msg : MsgTimeoutOnClose) :
    outcome ContextError () :=
  let packet := toc_packet msg in
  validate_message_signer (toc_signer msg);;
  chan_end_on_a ← channel_end s (path_on_a packet);
  let counterparty :=
    mkChanCounterparty (port_id_on_b packet) (Some (chan_id_on_b packet)) in
  err_channel (ChannelEnd_verify_counterparty_matches chan_end_on_a counterparty);;
  match get_packet_commitment s (commitment_path_on_a packet) with
  | Ok commitment_on_a =>
    expected_commitment_on_a ← packet_commitment_of packet;
    fail_if (negb (bool_decide (commitment_on_a = expected_commitment_on_a)))
      (CtxPacket (IncorrectPacketCommitment (seq_on_a packet)));;
    conn_id_on_a ← index (chan_connection_hops chan_end_on_a) 0;
    conn_end_on_a ← connection_end s conn_id_on_a;
    '(client_state_of_b_on_a, consensus_state_of_b_on_a) ←
      active_client_at s (conn_client_id conn_end_on_a) (toc_proof_height_on_b msg);
    let prefix_on_b := cpty_prefix (conn_counterparty conn_end_on_a) in
    let port_id_on_b := rem_port_id (chan_remote chan_end_on_a) in
    chan_id_on_b ← err_packet (ok_or (rem_channel_id (chan_remote chan_end_on_a))
                                     (PktChannel ChanMissingCounterparty));
    conn_id_on_b ← err_packet (ok_or (cpty_connection_id (conn_counterparty conn_end_on_a))
                                     (PktUndefinedConnectionCounterparty conn_id_on_a));
    expected_chan_end_on_b ← err_channel (ChannelEnd_new ChanClosed (chan_ordering chan_end_on_a)
      (mkChanCounterparty (port_id_on_a packet) (Some (chan_id_on_a packet)))
      [conn_id_on_b] (chan_version chan_end_on_a));
    (* the proof of closure is looked for in [proof_unreceived_on_b] *)
    err_packet (map_err PktChannel (map_err VerifyChannelFailed
      (verify_membership client_state_of_b_on_a prefix_on_b (toc_proof_unreceived_on_b msg)
         (cons_root consensus_state_of_b_on_a)
         (PathChannelEnd (mkChannelEndPath port_id_on_b chan_id_on_b))
         (ChannelEnd_encode_vec expected_chan_end_on_b))));;
    verify_conn_delay_passed s (toc_proof_height_on_b msg) conn_end_on_a;;
    verify_unreceived packet (toc_next_seq_recv_on_b msg) (toc_proof_unreceived_on_b msg)
      (chan_ordering chan_end_on_a) prefix_on_b
      client_state_of_b_on_a (cons_root consensus_state_of_b_on_a)
  | _ => Ok tt
  end.

Definition timeout_packet_of (t : TimeoutMsgType) : Packet * Signer :=
  match t with
  | TimeoutMsg m => (to_packet m, to_signer m)
  | TimeoutOnCloseMsg m => (toc_packet m, toc_signer m)
  end.

Definition timeout_packet_validate (s : IbcStore) (module : App) (t : TimeoutMsgType) :
    outcome ContextError () :=
  match t with
  | TimeoutMsg msg => timeout_check s msg
  | TimeoutOnCloseMsg msg => timeout_on_close_check s msg
  end;;
  let '(packet, signer) := timeout_packet_of t in
  err_packet (on_timeout_packet_validate module packet signer).

Definition timeout_packet_execute (t : TimeoutMsgType) : handler (App:=App) () :=
  let '(packet, signer) := timeout_packet_of t in
  chan_end_on_a ← on_ctx (reads (λ s, channel_end s (path_on_a packet)));
  on_ctx (emit_ibc_event (EventMessage EvChannel));;
  on_ctx (emit_ibc_event (TimeoutPacket packet (chan_ordering chan_end_on_a)));;
  committed ← on_ctx (reads (λ s,
    Ok (is_ok (get_packet_commitment s (commitment_path_on_a packet)))));
  if negb committed then mret tt else
  '(extras, cb_result) ← on_module_pure (on_timeout_packet_execute packet signer);
  lift (err_packet cb_result);;
  on_ctx (delete_packet_commitment (commitment_path_on_a packet));;
  chan_end_on_a ← match chan_ordering chan_end_on_a with
    | Ordered =>
      let closed := ChannelEnd_set_state chan_end_on_a ChanClosed in
      on_ctx (store_channel (path_on_a packet) closed);; mret closed
    | _ => mret chan_end_on_a
    end;
  on_ctx (log_message "success: packet timeout");;
  match chan_ordering chan_end_on_a with
  | Ordered =>
    conn_id_on_a ← lift (index (chan_connection_hops chan_end_on_a) 0);
    on_ctx (emit_ibc_event (EventMessage EvChannel));;
    on_ctx (emit_ibc_event (ChannelClosed (port_id_on_a packet) (chan_id_on_a packet)
              (rem_port_id (chan_remote chan_end_on_a))
              (rem_channel_id (chan_remote chan_end_on_a)) conn_id_on_a
              (chan_ordering chan_end_on_a)))
  | _ => mret tt
  end;;
  emit_extras extras.

(** The packet arms of [dispatch], with the module already looked up. *)
Definition packet_validate (s : IbcStore) (module : App) (msg : PacketMsg) :
    outcome ContextError () :=
  match msg with
  | PktRecv m => recv_packet_validate s m
  | PktAck m => acknowledgement_packet_validate s module m
  | PktTimeout m => timeout_packet_validate s module (TimeoutMsg m)
  | PktTimeoutOnClose m => timeout_packet_validate s module (TimeoutOnCloseMsg m)
  end.
Definition packet_execute (msg : PacketMsg) : handler (App:=App) () :=
  match msg with
  | PktRecv m => recv_packet_execute m
  | PktAck m => acknowledgement_packet_execute m
  | PktTimeout m => timeout_packet_execute (TimeoutMsg m)
  | PktTimeoutOnClose m => timeout_packet_execute (TimeoutOnCloseMsg m)
  end.
End handlers.
