(* ===== verification/PacketSpec.v ===== *)
(** * The life of a packet as a state machine

    An abstract machine on the part of the store packets live in, and the proof
    that the handlers of [PacketHandlers] implement it. *)

From S2P Require Import Prelude RustStr Identifiers Primitives Path Connection Channel Context.
From S2P Require Import ConnHandlers Module ChanHandlers PacketHandlers.
Local Open Scope string_scope.
Local Open Scope N_scope.

#[local] Arguments get_packet_commitment : simpl never.
#[local] Arguments packet_commitment_of : simpl never.
#[local] Arguments compute_ack_commitment : simpl never.

(** ** The abstract machine *)

(** The part of the store that concerns packets. *)
Record PacketView := mkPacketView {
  pv_channels : PortChannelIdMap ChannelEnd;
  pv_send : PortChannelIdMap Sequence;
  pv_recv : PortChannelIdMap Sequence;
  pv_ack : PortChannelIdMap Sequence;
  pv_acks : PortChannelIdMap (gmap Sequence AcknowledgementCommitment);
  pv_commitments : PortChannelIdMap (gmap Sequence PacketCommitment);
  pv_receipts : PortChannelIdMap (gmap Sequence Receipt) }.

Definition view `{TmTime, !ChainTypes} (s : IbcStore) : PacketView :=
  mkPacketView (channels s) (next_sequence_send s) (next_sequence_recv s) (next_sequence_ack s)
    (packet_acknowledgement s) (packet_commitment s) (packet_receipt s).

Section machine.
Context `{TmTime, !Sha256}.

Definition chan_at_a (v : PacketView) (p : Packet) : option ChannelEnd :=
  pc_get (pv_channels v) (port_id_on_a p) (chan_id_on_a p).
Definition chan_at_b (v : PacketView) (p : Packet) : option ChannelEnd :=
  pc_get (pv_channels v) (port_id_on_b p) (chan_id_on_b p).
Definition commitment_at (v : PacketView) (p : Packet) : option PacketCommitment :=
  pcs_get (pv_commitments v) (port_id_on_a p) (chan_id_on_a p) (seq_on_a p).

(** A packet has been received on an end of the given order. *)
Definition received (v : PacketView) (order : Order) (port : PortId) (chan : ChannelId)
    (seq : Sequence) : Prop :=
  match order with
  | Unordered => is_Some (pcs_get (pv_receipts v) port chan seq)
  | Ordered => ∃ n, pc_get (pv_recv v) port chan = Some n ∧ seq < n
  | OrderNone => False
  end.

(** The end of a channel names the other end of the packet. *)
Definition towards_b (c : ChannelEnd) (p : Packet) : Prop :=
  chan_remote c = mkChanCounterparty (port_id_on_b p) (Some (chan_id_on_b p)).
Definition from_a (c : ChannelEnd) (p : Packet) : Prop :=
  chan_remote c = mkChanCounterparty (port_id_on_a p) (Some (chan_id_on_a p)).

Definition timeout_msg (t : TimeoutMsgType) : PacketMsg :=
  match t with TimeoutMsg m => PktTimeout m | TimeoutOnCloseMsg m => PktTimeoutOnClose m end.

(** What becomes of the three components a step may change. *)
Definition view_recv (v : PacketView) (order : Order) (p : Packet)
    (ack : AcknowledgementCommitment) : PacketView :=
  mkPacketView (pv_channels v) (pv_send v)
    (match order with
     | Ordered => pc_insert (port_id_on_b p) (chan_id_on_b p) (seq_on_a p + 1) (pv_recv v)
     | _ => pv_recv v
     end) (pv_ack v)
    (pcs_insert (port_id_on_b p) (chan_id_on_b p) (seq_on_a p) ack (pv_acks v)) (pv_commitments v)
    (match order with
     | Unordered =>
       pcs_insert (port_id_on_b p) (chan_id_on_b p) (seq_on_a p) ReceiptOk (pv_receipts v)
     | _ => pv_receipts v
     end).

Definition view_acknowledged (v : PacketView) (order : Order) (p : Packet) : PacketView :=
  mkPacketView (pv_channels v) (pv_send v) (pv_recv v)
    (match order with
     | Ordered => pc_insert (port_id_on_a p) (chan_id_on_a p) (seq_on_a p + 1) (pv_ack v)
     | _ => pv_ack v
     end) (pv_acks v)
    (pcs_remove (port_id_on_a p) (chan_id_on_a p) (seq_on_a p) (pv_commitments v)) (pv_receipts v).

Definition view_timed_out (v : PacketView) (order : Order) (c : ChannelEnd) (p : Packet) : PacketView :=
  mkPacketView
    (match order with
     | Ordered => pc_insert (port_id_on_a p) (chan_id_on_a p) (ChannelEnd_set_state c ChanClosed)
                    (pv_channels v)
     | _ => pv_channels v
     end) (pv_send v) (pv_recv v) (pv_ack v) (pv_acks v)
    (pcs_remove (port_id_on_a p) (chan_id_on_a p) (seq_on_a p) (pv_commitments v)) (pv_receipts v).

Definition view_sent (v : PacketView) (p : Packet) (commitment : PacketCommitment) : PacketView :=
  mkPacketView (pv_channels v)
    (pc_insert (port_id_on_a p) (chan_id_on_a p) (seq_on_a p + 1) (pv_send v))
    (pv_recv v) (pv_ack v) (pv_acks v)
    (pcs_insert (port_id_on_a p) (chan_id_on_a p) (seq_on_a p) commitment (pv_commitments v))
    (pv_receipts v).

(** A packet message either runs the application ([true]) and moves the packet
    one step on, or changes nothing ([false]). *)
Inductive packet_transition (v : PacketView) : PacketMsg → bool → PacketView → Prop :=
| pt_recv_noop msg c :
    let p := recv_packet msg in
    chan_at_b v p = Some c → chan_state c = ChanOpen → from_a c p →
    received v (chan_ordering c) (port_id_on_b p) (chan_id_on_b p) (seq_on_a p) →
    packet_transition v (PktRecv msg) false v
| pt_recv msg c order ack :
    let p := recv_packet msg in
    chan_at_b v p = Some c → chan_state c = ChanOpen → from_a c p →
    chan_ordering c = order → order ≠ OrderNone →
    ¬ received v order (port_id_on_b p) (chan_id_on_b p) (seq_on_a p) →
    (order = Ordered →
     pc_get (pv_recv v) (port_id_on_b p) (chan_id_on_b p) = Some (seq_on_a p)
     ∧ is_u64 (seq_on_a p + 1)) →
    pcs_get (pv_acks v) (port_id_on_b p) (chan_id_on_b p) (seq_on_a p) = None →
    packet_transition v (PktRecv msg) true (view_recv v order p ack)
| pt_ack_noop msg c :
    let p := ack_packet msg in
    chan_at_a v p = Some c → chan_state c = ChanOpen → towards_b c p →
    commitment_at v p = None → packet_transition v (PktAck msg) false v
| pt_ack msg c order commitment :
    let p := ack_packet msg in
    chan_at_a v p = Some c → chan_state c = ChanOpen → towards_b c p →
    chan_ordering c = order →
    commitment_at v p = Some commitment → packet_commitment_of p = Ok commitment →
    (order = Ordered →
     pc_get (pv_ack v) (port_id_on_a p) (chan_id_on_a p) = Some (seq_on_a p)
     ∧ is_u64 (seq_on_a p + 1)) →
    packet_transition v (PktAck msg) true (view_acknowledged v order p)
| pt_timeout_noop t c :
    let p := (timeout_packet_of t).1 in
    chan_at_a v p = Some c → towards_b c p →
    commitment_at v p = None → packet_transition v (timeout_msg t) false v
| pt_timeout t c order commitment :
    let p := (timeout_packet_of t).1 in
    chan_at_a v p = Some c → towards_b c p → chan_ordering c = order → order ≠ OrderNone →
    commitment_at v p = Some commitment → packet_commitment_of p = Ok commitment →
    packet_transition v (timeout_msg t) true (view_timed_out v order c p).

(** Sending a packet. *)
Inductive send_transition (v : PacketView) (p : Packet) : PacketView → Prop :=
| st_send c commitment :
    chan_at_a v p = Some c → chan_state c ≠ ChanClosed → towards_b c p →
    pc_get (pv_send v) (port_id_on_a p) (chan_id_on_a p) = Some (seq_on_a p) →
    is_u64 (seq_on_a p + 1) → packet_commitment_of p = Ok commitment →
    send_transition v p (view_sent v p commitment).
End machine.

(** ** What the guards check *)

Section guards.
Context `{TmTime, !ChainTypes, !LightClient, host : !Host, !Codec, !Sha256}.
Context {App : Type} `{!Module App}.

Lemma counterparty_matches_Ok c r u :
  ChannelEnd_verify_counterparty_matches c r = Ok u ↔ chan_remote c = r.
Proof.
  unfold ChannelEnd_verify_counterparty_matches.
  by rewrite fail_if_Ok, negb_false_iff, bool_decide_eq_true.
Qed.

Lemma get_next_sequence_send_Ok s path n :
  get_next_sequence_send s path = Ok n
  ↔ pc_get (next_sequence_send s) (ssp_port_id path) (ssp_channel_id path) = Some n.
Proof. unfold get_next_sequence_send, err_packet. by rewrite map_err_Ok, ok_or_Ok. Qed.
Lemma get_next_sequence_recv_Ok s path n :
  get_next_sequence_recv s path = Ok n
  ↔ pc_get (next_sequence_recv s) (srp_port_id path) (srp_channel_id path) = Some n.
Proof. unfold get_next_sequence_recv, err_packet. by rewrite map_err_Ok, ok_or_Ok. Qed.
Lemma get_next_sequence_ack_Ok s path n :
  get_next_sequence_ack s path = Ok n
  ↔ pc_get (next_sequence_ack s) (sap_port_id path) (sap_channel_id path) = Some n.
Proof. unfold get_next_sequence_ack, err_packet. by rewrite map_err_Ok, ok_or_Ok. Qed.

Lemma get_packet_commitment_get s p :
  get_packet_commitment s (commitment_path_on_a p)
  = err_packet (ok_or (commitment_at (view s) p) (PacketCommitmentNotFound (seq_on_a p))).
Proof. done. Qed.

Lemma is_ok_ok_or {E A} (o : option A) (e : E) :
  is_ok (ok_or o e) = match o with Some _ => true | None => false end.
Proof. by destruct o. Qed.
Lemma is_ok_map_err {E E' A} (f : E → E') (m : outcome E A) : is_ok (map_err f m) = is_ok m.
Proof. by destruct m. Qed.

Lemma validate_write_acknowledgement_Ok s msg u :
  let p := recv_packet msg in
  validate_write_acknowledgement s msg = Ok u
  ↔ pcs_get (packet_acknowledgement s) (port_id_on_b p) (chan_id_on_b p) (seq_on_a p) = None.
Proof.
  intros p. unfold validate_write_acknowledgement, get_packet_acknowledgement, err_packet.
  rewrite fail_if_Ok, is_ok_map_err, is_ok_ok_or. cbn. fold p.
  destruct (pcs_get _ _ _ _); naive_solver.
Qed.

Lemma get_packet_receipt_is_ok s path :
  is_ok (get_packet_receipt s path) = true
  ↔ is_Some (pcs_get (packet_receipt s) (rp_port_id path) (rp_channel_id path) (rp_sequence path)).
Proof.
  unfold get_packet_receipt, err_packet. rewrite is_ok_map_err, is_ok_ok_or.
  destruct (pcs_get _ _ _ _); split; try done; intros [??]; done.
Qed.

(** The receipt looked up under the wrong identifiers never stops a packet. *)
Lemma receipt_lookup_passes s p c seq :
  match get_packet_receipt s (mkReceiptPath p c seq) with
  | Ok _ => Ok tt
  | Err (CtxPacket (PacketReceiptNotFound sequence)) =>
    if sequence =? seq then Ok tt else Err (CtxPacket (PacketReceiptNotFound sequence))
  | Err e => Err e
  | Panic => Panic
  end = Ok tt.
Proof.
  unfold get_packet_receipt, err_packet. cbn. destruct (pcs_get _ _ _ _); cbn; [done|].
  by rewrite N.eqb_refl.
Qed.

(** The verified proof a message rests on. *)
Definition proven_value (s : IbcStore) (conn : ConnectionEnd) (proof : CommitmentProofBytes)
    (h : Height) (path : Path) (value : bytes) : Prop :=
  ∃ cs cons, active_client_at s (conn_client_id conn) h = Ok (cs, cons)
    ∧ verify_membership cs (cpty_prefix (conn_counterparty conn)) proof (cons_root cons)
        path value = Ok tt.

Lemma packet_verification_Ok {A} seq (m : outcome ClientError A) a :
  packet_verification seq m = Ok a ↔ m = Ok a.
Proof. unfold packet_verification, err_packet. by rewrite !map_err_Ok. Qed.

Lemma negb_bool_decide_false P `{Decision P} : negb (bool_decide P) = false ↔ P.
Proof. by rewrite negb_false_iff, bool_decide_eq_true. Qed.
End guards.

Ltac packet_guards := guards; repeat match goal with
  | H : ChannelEnd_verify_counterparty_matches _ _ = Ok _ |- _ =>
      apply counterparty_matches_Ok in H
  | H : get_next_sequence_send _ _ = Ok _ |- _ => apply get_next_sequence_send_Ok in H; cbn in H
  | H : get_next_sequence_recv _ _ = Ok _ |- _ => apply get_next_sequence_recv_Ok in H; cbn in H
  | H : get_next_sequence_ack _ _ = Ok _ |- _ => apply get_next_sequence_ack_Ok in H; cbn in H
  | H : packet_verification _ _ = Ok _ |- _ => apply packet_verification_Ok in H
  | H : validate_write_acknowledgement _ _ = Ok _ |- _ =>
      apply validate_write_acknowledgement_Ok in H
  | H : negb (bool_decide _) = false |- _ => apply negb_bool_decide_false in H
  | H : bool_decide _ = false |- _ => apply bool_decide_eq_false in H
  | H : negb (_ =? _) = false |- _ => apply negb_false_iff, N.eqb_eq in H
  | H : (_ <? _) = false |- _ => apply N.ltb_ge in H
  | H : Sequence_increment _ = Ok _ |- _ => apply u64_add_Ok in H as [-> ?]
  end.

Section checks.
Context `{TmTime, !ChainTypes, !LightClient, host : !Host, !Codec, !Sha256}.
Context {App : Type} `{!Module App}.

Lemma send_packet_validate_Ok s p u :
  send_packet_validate s p = Ok u →
  ∃ c, chan_at_a (view s) p = Some c ∧ chan_state c ≠ ChanClosed ∧ towards_b c p
    ∧ pc_get (next_sequence_send s) (port_id_on_a p) (chan_id_on_a p) = Some (seq_on_a p).
Proof.
  unfold send_packet_validate. intros Hv. inv_exec. packet_guards. eexists.
  split_and!; try done. congruence.
Qed.

Lemma recv_packet_check_Ok s msg u :
  recv_packet_check s msg = Ok u →
  let p := recv_packet msg in
  ∃ c conn hop rest commitment latest_height latest_timestamp,
    chan_at_b (view s) p = Some c ∧ chan_state c = ChanOpen ∧ from_a c p
    ∧ chan_connection_hops c = hop :: rest ∧ connections s !! hop = Some conn
    ∧ conn_state conn = ConnOpen
    ∧ host_height = Ok latest_height ∧ has_expired (timeout_height_on_b p) latest_height = false
    ∧ host_timestamp = Ok latest_timestamp
    ∧ Timestamp_check_expiry latest_timestamp (timeout_timestamp_on_b p) ≠ Expired
    ∧ packet_commitment_of p = Ok commitment
    ∧ proven_value s conn (recv_proof_commitment_on_a msg) (recv_proof_height_on_a msg)
        (PathCommitment (commitment_path_on_a p)) (commitment_bytes commitment)
    ∧ let ack := pcs_get (packet_acknowledgement s) (port_id_on_b p) (chan_id_on_b p)
                   (seq_on_a p) in
      match chan_ordering c with
      | Ordered => ∃ n, pc_get (next_sequence_recv s) (port_id_on_b p) (chan_id_on_b p) = Some n
                     ∧ seq_on_a p <= n ∧ (seq_on_a p = n → ack = None)
      | Unordered => ack = None
      | OrderNone => False
      end.
Proof.
  intros Hv p. unfold recv_packet_check in Hv. subst p. inv_exec. packet_guards.
  do 7 eexists. split_and!; try done; [by do 2 eexists|].
  destruct (chan_ordering _); [done| |]; inv_exec; packet_guards; [done|].
  eexists. split_and!; [done..|]. intros E. subst.
  match goal with H : (if ?b then _ else _) = _ |- _ => replace b with true in H end.
  - by packet_guards.
  - symmetry. by apply N.eqb_eq.
Qed.

(** A packet that had timed out before is not received. *)
Lemma recv_expired s msg ts0 h0 ts h :
  host_timestamp = Ok ts → host_height = Ok h → no_earlier ts0 h0 ts h →
  timed_out (recv_packet msg) ts0 h0 = true → recv_packet_check s msg ≠ Ok tt.
Proof.
  intros Hts Hh Hle Hto Hb.
  apply recv_packet_check_Ok in Hb as (? & ? & ? & ? & ? & h' & ts' & _ & _ & _ & _ & _ & _
    & Hh' & Hexp & Hts' & Hne & _).
  rewrite Hh in Hh'. rewrite Hts in Hts'. simplify_eq.
  apply (timed_out_mono _ _ _ _ _ Hle) in Hto. unfold timed_out in Hto.
  rewrite Hexp in Hto. cbn in Hto. apply andb_true_iff in Hto as [_ Hto].
  by apply bool_decide_eq_true in Hto.
Qed.

Lemma acknowledgement_check_Ok s msg u :
  acknowledgement_check s msg = Ok u →
  let p := ack_packet msg in
  ∃ c conn hop rest, chan_at_a (view s) p = Some c ∧ chan_state c = ChanOpen ∧ towards_b c p
    ∧ chan_connection_hops c = hop :: rest ∧ connections s !! hop = Some conn
    ∧ ∀ commitment, commitment_at (view s) p = Some commitment →
        packet_commitment_of p = Ok commitment
        ∧ (chan_ordering c = Ordered →
           pc_get (next_sequence_ack s) (port_id_on_a p) (chan_id_on_a p) = Some (seq_on_a p))
        ∧ proven_value s conn (ack_proof_acked_on_b msg) (ack_proof_height_on_b msg)
            (PathAck (mkAckPath (port_id_on_b p) (chan_id_on_b p) (seq_on_a p)))
            (ack_commitment_bytes (compute_ack_commitment (ack_acknowledgement msg))).
Proof.
  intros Hv p. unfold acknowledgement_check in Hv. subst p. inv_exec. packet_guards.
  do 4 eexists. split_and!; try done. intros commitment Hc.
  rewrite get_packet_commitment_get, Hc in *. cbn in *. inv_exec. packet_guards. subst. split_and!.
  - congruence.
  - intros E. rewrite E in *. inv_exec. packet_guards. congruence.
  - by do 2 eexists.
Qed.

(** What the proof of non-receipt of a timeout establishes. *)
Definition proven_unreceived (s : IbcStore) (order : Order) (conn : ConnectionEnd)
    (proof : CommitmentProofBytes) (h : Height) (p : Packet) : Prop :=
  ∃ cs cons, active_client_at s (conn_client_id conn) h = Ok (cs, cons)
    ∧ match order with
      | Ordered => verify_membership cs (cpty_prefix (conn_counterparty conn)) proof
          (cons_root cons) (PathSeqRecv (mkSeqRecvPath (port_id_on_b p) (chan_id_on_b p)))
          (to_be_bytes (seq_on_a p)) = Ok tt
      | Unordered => verify_non_membership cs (cpty_prefix (conn_counterparty conn)) proof
          (cons_root cons)
          (PathReceipt (mkReceiptPath (port_id_on_b p) (chan_id_on_b p) (seq_on_a p))) = Ok tt
      | OrderNone => False
      end.

Lemma verify_unreceived_Ok p n proof order prefix cs root u :
  verify_unreceived p n proof order prefix cs root = Ok u →
  match order with
  | Ordered => n <= seq_on_a p ∧ verify_membership cs prefix proof root
      (PathSeqRecv (mkSeqRecvPath (port_id_on_b p) (chan_id_on_b p)))
      (to_be_bytes (seq_on_a p)) = Ok tt
  | Unordered => verify_non_membership cs prefix proof root
      (PathReceipt (mkReceiptPath (port_id_on_b p) (chan_id_on_b p) (seq_on_a p))) = Ok tt
  | OrderNone => False
  end.
Proof.
  unfold verify_unreceived. intros Hv. destruct order; inv_exec; packet_guards; try done.
Qed.

Lemma timeout_check_Ok s msg u :
  timeout_check s msg = Ok u →
  let p := to_packet msg in
  ∃ c conn hop rest, chan_at_a (view s) p = Some c ∧ chan_state c = ChanOpen ∧ towards_b c p
    ∧ chan_connection_hops c = hop :: rest ∧ connections s !! hop = Some conn
    ∧ ∀ commitment, commitment_at (view s) p = Some commitment →
        packet_commitment_of p = Ok commitment
        ∧ (∃ cs cons, active_client_at s (conn_client_id conn) (to_proof_height_on_b msg)
             = Ok (cs, cons)
           ∧ timed_out p (cons_timestamp cons) (to_proof_height_on_b msg) = true)
        ∧ proven_unreceived s (chan_ordering c) conn (to_proof_unreceived_on_b msg)
            (to_proof_height_on_b msg) p.
Proof.
  intros Hv p. unfold timeout_check in Hv. subst p. inv_exec. packet_guards.
  do 4 eexists. split_and!; try done. intros commitment Hc.
  rewrite get_packet_commitment_get, Hc in *. cbn in *. inv_exec. packet_guards. subst.
  match goal with H : verify_unreceived _ _ _ _ _ _ _ = _ |- _ => apply verify_unreceived_Ok in H end.
  split_and!; [done| |].
  - do 2 eexists. split; [done|]. by apply negb_false_iff.
  - do 2 eexists. split; [done|]. by destruct (chan_ordering _); destruct_and?.
Qed.

Lemma timeout_on_close_check_Ok s msg u :
  timeout_on_close_check s msg = Ok u →
  let p := toc_packet msg in
  ∃ c, chan_at_a (view s) p = Some c ∧ towards_b c p
    ∧ ∀ commitment, commitment_at (view s) p = Some commitment →
        packet_commitment_of p = Ok commitment
        ∧ ∃ conn hop rest conn_id, chan_connection_hops c = hop :: rest
        ∧ connections s !! hop = Some conn
        ∧ cpty_connection_id (conn_counterparty conn) = Some conn_id
        ∧ proven_end s conn (toc_proof_unreceived_on_b msg) (toc_proof_height_on_b msg)
            (port_id_on_b p) (chan_id_on_b p)
            (mkChannelEnd ChanClosed (chan_ordering c)
               (mkChanCounterparty (port_id_on_a p) (Some (chan_id_on_a p)))
               [conn_id] (chan_version c))
        ∧ proven_unreceived s (chan_ordering c) conn (toc_proof_unreceived_on_b msg)
            (toc_proof_height_on_b msg) p.
Proof.
  intros Hv p. unfold timeout_on_close_check in Hv. subst p. inv_exec. packet_guards.
  eexists. split_and!; try done. intros commitment Hc.
  rewrite get_packet_commitment_get, Hc in *. cbn in *. inv_exec. packet_guards. subst.
  match goal with H : verify_unreceived _ _ _ _ _ _ _ = _ |- _ => apply verify_unreceived_Ok in H end.
  match goal with H : chan_remote _ = _ |- _ => rewrite H in * end. cbn in *. simplify_eq.
  split; [done|]. do 4 eexists. split_and!; try done; do 2 eexists; (split; [done|]); [done|].
  by destruct (chan_ordering _); destruct_and?.
Qed.
End checks.

(** ** The handlers implement the machine *)

Lemma view_same `{TmTime, !ChainTypes} s s' : same_state s s' → view s' = view s.
Proof.
  unfold same_state, same_channels, same_packets, view. intros. destruct_and!. congruence.
Qed.

(** Events and logs of the module leave the view and the other frames alone. *)
Ltac finish_view :=
  match goal with H : emit_extras _ _ = _ |- _ =>
    apply emit_extras_Ok in H as (? & ? & H & _) end; simplify_eq;
  match goal with H : same_state _ _ |- _ =>
    pose proof (view_same _ _ H) as Hview;
    destruct H as ((? & ? & ? & ?) & (? & ? & ?) & (_ & ?) & _) end; cbn in *.

Ltac rewrite_eq := match goal with H : ?x = (_, _) |- context [?x] => rewrite H end.

Section refinement.
Context `{TmTime, !ChainTypes, !LightClient, host : !Host, !Codec, !Sha256}.
Context {App : Type} `{!Module App}.

(** What the application does with a message. *)
Definition module_effect (msg : PacketMsg) (a : App) : App :=
  match msg with
  | PktRecv m => (on_recv_packet_execute (recv_packet m) (recv_signer m) a).1
  | PktAck m =>
    (on_acknowledgement_packet_execute (ack_packet m) (ack_acknowledgement m) (ack_signer m) a).1
  | PktTimeout m => (on_timeout_packet_execute (to_packet m) (to_signer m) a).1
  | PktTimeoutOnClose m => (on_timeout_packet_execute (toc_packet m) (toc_signer m) a).1
  end.

(** A successful packet message: the machine moves, the application runs if and
    only if it does, and clients, connections and identifiers stay. *)
Definition packet_step (s : IbcStore) (a : App) (msg : PacketMsg) (acted : bool) (s' : IbcStore)
    (a' : App) : Prop :=
  packet_transition (view s) msg acted (view s')
  ∧ a' = (if acted then module_effect msg a else a)
  ∧ same_clients s s' ∧ same_connections s s' ∧ channel_ids_counter s' = channel_ids_counter s.

Lemma packet_already_received_Ok s c p b :
  packet_already_received s c p = Ok b →
  (b = true ↔ received (view s) (chan_ordering c) (port_id_on_b p) (chan_id_on_b p) (seq_on_a p)).
Proof.
  unfold packet_already_received, received. intros Hr.
  destruct (chan_ordering c); inv_exec; packet_guards; [done| |].
  - apply get_packet_receipt_is_ok.
  - rewrite N.ltb_lt. naive_solver.
Qed.

Lemma recv_packet_refines s (a : App) msg st' u u' :
  recv_packet_validate s msg = Ok u → recv_packet_execute msg (s, a) = (st', Ok u') →
  ∃ acted, packet_step s a (PktRecv msg) acted st'.1 st'.2.
Proof.
  intros Hv Hx. apply recv_packet_check_Ok in Hv
    as (c & conn & hop & rest & cm & lh & lt & Hc & Ho & Hf & Hh & _ & _ & _ & _ & _ & _ & _ & _ & Hord).
  unfold recv_packet_execute in Hx. inv_exec. packet_guards.
  unfold chan_at_b in Hc. cbn in Hc. simplify_eq.
  match goal with H : packet_already_received _ _ _ = Ok ?b |- _ =>
    apply packet_already_received_Ok in H as Hrec; destruct b end.
  { inv_exec. simplify_eq. exists false. split; [|by split_and!]. eapply pt_recv_noop; naive_solver. }
  exists true. unfold record_receive in *.
  destruct (chan_ordering c) eqn:Eo; [done| |]; inv_exec; packet_guards; simplify_eq;
    finish_view; (split; [|split_and!; solve [done|by cbn; rewrite_eq]]); rewrite Hview.
  - eapply (pt_recv (view s) msg c Unordered); try done; naive_solver.
  - match goal with Hn : pc_get (next_sequence_recv s) _ _ = Some ?n |- _ =>
      assert (n = seq_on_a (recv_packet msg)) as -> end.
    { destruct Hrec as [_ Hrec]. apply N.le_antisymm; [|done].
      apply N.nlt_ge. intros Hlt. discriminate Hrec. by eexists. }
    eapply (pt_recv (view s) msg c Ordered); try done; naive_solver.
Qed.

Lemma acknowledgement_packet_refines s (a : App) msg st' u u' :
  acknowledgement_packet_validate s a msg = Ok u →
  acknowledgement_packet_execute msg (s, a) = (st', Ok u') →
  ∃ acted, packet_step s a (PktAck msg) acted st'.1 st'.2.
Proof.
  intros Hv Hx. unfold acknowledgement_packet_validate in Hv.
  apply bind_Ok in Hv as (? & Hv & _). apply acknowledgement_check_Ok in Hv
    as (c & conn & hop & rest & Hc & Ho & Hf & Hh & _ & Hcm).
  unfold acknowledgement_packet_execute in Hx. inv_exec. packet_guards.
  unfold chan_at_a in Hc. cbn in Hc. simplify_eq.
  rewrite get_packet_commitment_get in *. unfold err_packet in *.
  rewrite is_ok_map_err, is_ok_ok_or in *. unfold commitment_at in *. cbn in *.
  destruct (pcs_get (packet_commitment s) _ _ _) as [cm|] eqn:Ecm; cbn in *.
  2: { inv_exec. simplify_eq. exists false. split; [|by split_and!]. by eapply pt_ack_noop. }
  destruct (Hcm cm eq_refl) as (Hcommit & Hord & _). exists true.
  destruct (chan_ordering c) eqn:Eo; inv_exec; packet_guards; simplify_eq;
    finish_view; (split; [|split_and!; solve [done|by cbn; rewrite_eq]]); rewrite Hview.
  - by eapply (pt_ack (view s) msg c OrderNone).
  - by eapply (pt_ack (view s) msg c Unordered).
  - by eapply (pt_ack (view s) msg c Ordered); eauto.
Qed.

(** What either kind of timeout has checked. *)
Lemma timeout_packet_validate_Ok s (a : App) t u :
  timeout_packet_validate s a t = Ok u →
  let p := (timeout_packet_of t).1 in
  ∃ c, chan_at_a (view s) p = Some c ∧ towards_b c p
    ∧ ∀ commitment, commitment_at (view s) p = Some commitment →
        packet_commitment_of p = Ok commitment ∧ chan_ordering c ≠ OrderNone.
Proof.
  intros Hv p. unfold timeout_packet_validate in Hv. apply bind_Ok in Hv as (? & Hv & _).
  subst p. destruct t as [m|m]; cbn.
  - apply timeout_check_Ok in Hv as (c & conn & hop & rest & Hc & _ & Hf & _ & _ & Hcm).
    exists c. split_and!; [done..|]. intros cm Hcmt. destruct (Hcm cm Hcmt) as (? & _ & Hu).
    split; [done|]. intros E. rewrite E in Hu. by destruct Hu as (? & ? & _ & ?).
  - apply timeout_on_close_check_Ok in Hv as (c & Hc & Hf & Hcm).
    exists c. split_and!; [done..|]. intros cm Hcmt.
    destruct (Hcm cm Hcmt) as (? & conn & hop & rest & i & _ & _ & _ & _ & Hu).
    split; [done|]. intros E. rewrite E in Hu. by destruct Hu as (? & ? & _ & ?).
Qed.

Lemma module_effect_timeout t (a : App) :
  module_effect (timeout_msg t) a
  = (on_timeout_packet_execute (timeout_packet_of t).1 (timeout_packet_of t).2 a).1.
Proof. by destruct t. Qed.

Lemma timeout_packet_refines s (a : App) t st' u u' :
  timeout_packet_validate s a t = Ok u → timeout_packet_execute t (s, a) = (st', Ok u') →
  ∃ acted, packet_step s a (timeout_msg t) acted st'.1 st'.2.
Proof.
  intros Hv Hx. apply timeout_packet_validate_Ok in Hv as (c & Hc & Hf & Hcm).
  unfold timeout_packet_execute in Hx.
  destruct (timeout_packet_of t) as [p signer] eqn:Et. cbn in Hc, Hf, Hcm.
  inv_exec. packet_guards. unfold chan_at_a in Hc. cbn in Hc. simplify_eq.
  rewrite get_packet_commitment_get in *. unfold err_packet in *.
  rewrite is_ok_map_err, is_ok_ok_or in *. unfold commitment_at in *. cbn in *.
  destruct (pcs_get (packet_commitment s) _ _ _) as [cm|] eqn:Ecm; cbn in *.
  2: { inv_exec. simplify_eq. exists false. split; [|by split_and!].
       eapply pt_timeout_noop; by rewrite Et. }
  destruct (Hcm cm eq_refl) as (Hcommit & Hord). exists true.
  destruct (chan_ordering c) eqn:Eo; [done| |]; inv_exec; rewrite ?Eo in *; inv_exec;
    packet_guards; simplify_eq; finish_view;
    (split; [|split_and!; solve [done|by rewrite module_effect_timeout, Et; cbn; rewrite_eq]]);
    rewrite Hview.
  - pose proof (pt_timeout (view s) t c Unordered cm) as Ht. rewrite Et in Ht. by apply Ht.
  - pose proof (pt_timeout (view s) t c Ordered cm) as Ht. rewrite Et in Ht. by apply Ht.
Qed.

Lemma packet_refines s (a : App) msg st' u u' :
  packet_validate s a msg = Ok u → packet_execute msg (s, a) = (st', Ok u') →
  ∃ acted, packet_step s a msg acted st'.1 st'.2.
Proof.
  destruct msg as [m|m|m|m]; cbn [packet_validate packet_execute].
  - apply recv_packet_refines.
  - apply acknowledgement_packet_refines.
  - apply (timeout_packet_refines _ _ (TimeoutMsg m)).
  - apply (timeout_packet_refines _ _ (TimeoutOnCloseMsg m)).
Qed.

Lemma send_packet_refines s p s' u :
  send_packet p s = (s', Ok u) →
  send_transition (view s) p (view s')
  ∧ same_clients s s' ∧ same_connections s s' ∧ channel_ids_counter s' = channel_ids_counter s.
Proof.
  unfold send_packet. intros Hx. apply exec_bind_Ok in Hx as (s1 & ? & Hv & Hx).
  apply reads_Ok in Hv as [-> Hv]. apply send_packet_validate_Ok in Hv as (c & Hc & Hs & Hf & Hn).
  unfold send_packet_execute in Hx. inv_exec. packet_guards. simplify_eq.
  split; [|by split_and!]. by eapply (st_send (view s) p c).
Qed.
End refinement.
