(* ===== verification/PacketSafety.v ===== *)
(** * What packet messages guarantee across two chains

    The refinement theorems of the packet handlers, and what an accepted packet
    message says of the counterparty, for light clients whose proofs are sound. *)

From S2P Require Import Prelude RustStr Identifiers Primitives Path Connection Channel Context.
From S2P Require Import ConnHandlers Module ChanHandlers PacketHandlers PacketSpec.
Local Open Scope string_scope.
Local Open Scope N_scope.

(** A client that accepts a proof of absence only where nothing is committed. *)
Class SoundAbsence `{TmTime, !ChainTypes, !LightClient}
    (committed : CommitmentRoot → CommitmentPrefix → Path → bytes → Prop) := {
  verify_non_membership_sound cs prefix proof root path :
    verify_non_membership cs prefix proof root path = Ok tt →
    ∀ value, ¬ committed root prefix path value;
}.

(** A client whose proofs vouch for one path each, for presence or for absence:
    [MerkleProof] ([ics23-commitment/types/src/merkle.rs]) accepts a proof of
    presence only if it is an existence proof, which carries its key, and a proof
    of absence only if it is a non-existence proof. *)
Class SingleKeyProofs `{TmTime, !ChainTypes, !LightClient} := {
  membership_key cs1 cs2 prefix1 prefix2 proof root1 root2 path1 path2 value1 value2 :
    verify_membership cs1 prefix1 proof root1 path1 value1 = Ok tt →
    verify_membership cs2 prefix2 proof root2 path2 value2 = Ok tt →
    Path_to_string path1 = Path_to_string path2;
  membership_or_absence cs1 cs2 prefix1 prefix2 proof root1 root2 path1 path2 value :
    verify_membership cs1 prefix1 proof root1 path1 value = Ok tt →
    verify_non_membership cs2 prefix2 proof root2 path2 = Ok tt → False;
}.

Section theorems.
Context `{TmTime, !ChainTypes, !LightClient, host : !Host, !Codec, !Sha256}.
Context {App : Type} `{!Module App}.

(** C7: The packet handlers implement the packet machine, with any application: a
    message that passes [validate] and is executed either moves its packet one
    step exactly as [packet_transition] allows and runs the application's
    callback once, or is a no-op that changes neither the packet state nor the
    application.  Clients and connections are not touched. *)
Theorem packet_handlers_refine_spec s (a : App) msg s' a' :
  packet_validate s a msg = Ok tt → packet_execute msg (s, a) = ((s', a'), Ok tt) →
  ∃ acted, packet_transition (view s) msg acted (view s')
    ∧ a' = (if acted then module_effect msg a else a)
    ∧ same_clients s s' ∧ same_connections s s'.
Proof.
  intros Hv Hx. destruct (packet_refines _ _ _ _ _ _ Hv Hx) as (acted & Ht & Ha & ? & ? & _).
  exists acted. by split_and!.
Qed.

(** A successful [send_packet] stores the packet's commitment under the next
    sequence number of its channel end, which is not closed and leads to the
    packet's destination, and increments the counter; nothing else changes but
    events and logs. *)
Theorem send_packet_refines_spec s p s' :
  send_packet p s = (s', Ok tt) →
  send_transition (view s) p (view s') ∧ same_clients s s' ∧ same_connections s s'.
Proof. intros Hx. by apply send_packet_refines in Hx as (? & ? & ? & _). Qed.

(** A received packet is one the counterparty sent.  With a sound client, the
    packet of a message that passes [recv_packet_validate] has, at the proven
    root of the counterparty, a stored packet with the same identifiers and
    sequence, and with the same data and timeouts unless SHA-256 collides on the
    two packets. *)
Theorem received_packet_was_sent `{!TmTimeLaws} committed (Hs : SoundClient committed)
    s msg (sent_at : CommitmentRoot → PortId → ChannelId → Sequence → option Packet) :
  recv_packet_validate s msg = Ok tt →
  (** the counterparty commits to packets it sent *)
  (∀ root prefix p c n value,
     committed root prefix (PathCommitment (mkCommitmentPath p c n)) value →
     ∃ q cm, sent_at root p c n = Some q ∧ packet_commitment_of q = Ok cm
       ∧ value = commitment_bytes cm
       ∧ TimeoutHeight_wf (timeout_height_on_b q) ∧ Timestamp_wf (timeout_timestamp_on_b q)) →
  let p := recv_packet msg in
  TimeoutHeight_wf (timeout_height_on_b p) → Timestamp_wf (timeout_timestamp_on_b p) →
  ∃ c conn root q, pc_get (channels s) (port_id_on_b p) (chan_id_on_b p) = Some c
    ∧ first_hop s (chan_connection_hops c) conn
    ∧ proven_root s (conn_client_id conn) (recv_proof_height_on_a msg) root
    ∧ sent_at root (port_id_on_a p) (chan_id_on_a p) (seq_on_a p) = Some q
    ∧ ((data q = data p ∧ timeout_height_on_b q = timeout_height_on_b p
        ∧ timeout_timestamp_on_b q = timeout_timestamp_on_b p)
       ∨ commitments_collide (data q) (timeout_height_on_b q) (timeout_timestamp_on_b q)
           (data p) (timeout_height_on_b p) (timeout_timestamp_on_b p)).
Proof.
  intros Hv Hr p Hh Ht.
  apply recv_packet_check_Ok in Hv as (c & conn & hop & rest & cm & lh & lt & Hc & _ & _ & Hh' & Hconn
    & _ & _ & _ & _ & _ & Hcm & (cs & cons & Hact & Hm) & _).
  apply verify_membership_sound, Hr in Hm as (q & cm' & Hq & Hcm' & E & ? & ?).
  exists c, conn, (cons_root cons), q.
  split_and!; [done|by do 2 eexists|by exists cs, cons|done|].
  apply (packet_commitment_inj (E:=ContextError)); [done..|].
  fold (packet_commitment_of q) (packet_commitment_of p). subst p. rewrite Hcm, Hcm'.
  by destruct cm, cm'; cbn in E; subst.
Qed.

(** An acknowledgement that is accepted was written by the counterparty, for
    the packet this chain committed to, unless SHA-256 collides on the two
    acknowledgements. *)
Theorem acknowledgement_was_written committed (Hs : SoundClient committed)
    s (a : App) msg (written_at : CommitmentRoot → PortId → ChannelId → Sequence →
                                  option Acknowledgement) cm :
  let p := ack_packet msg in
  packet_validate s a (PktAck msg) = Ok tt →
  pcs_get (packet_commitment s) (port_id_on_a p) (chan_id_on_a p) (seq_on_a p) = Some cm →
  (** the counterparty commits to acknowledgements it wrote *)
  (∀ root prefix p c n value, committed root prefix (PathAck (mkAckPath p c n)) value →
     ∃ k, written_at root p c n = Some k
       ∧ value = ack_commitment_bytes (compute_ack_commitment k)) →
  packet_commitment_of p = Ok cm
  ∧ ∃ c conn root k, pc_get (channels s) (port_id_on_a p) (chan_id_on_a p) = Some c
      ∧ first_hop s (chan_connection_hops c) conn
      ∧ proven_root s (conn_client_id conn) (ack_proof_height_on_b msg) root
      ∧ written_at root (port_id_on_b p) (chan_id_on_b p) (seq_on_a p) = Some k
      ∧ (k = ack_acknowledgement msg ∨ collide (ack_bytes k) (ack_bytes (ack_acknowledgement msg))).
Proof.
  intros p Hv Hcm Hr. cbn [packet_validate] in Hv. unfold acknowledgement_packet_validate in Hv.
  apply bind_Ok in Hv as (? & Hv & _).
  apply acknowledgement_check_Ok in Hv as (c & conn & hop & rest & Hch & _ & _ & Hh & Hconn & Hc).
  destruct (Hc cm Hcm) as (? & _ & cs & cons & Hact & Hm). split; [done|].
  apply verify_membership_sound, Hr in Hm as (k & Hk & E). exists c, conn, (cons_root cons), k.
  split_and!; [done|by do 2 eexists|by exists cs, cons|done|]. unfold compute_ack_commitment in E. cbn in E.
  destruct k as [k], (ack_acknowledgement msg) as [k']. cbn in E.
  destruct (decide (k = k')) as [->|]; [by left|by right].
Qed.

(** A packet that timed out is never received.  If a timeout is accepted for a
    packet still committed to, then no chain that is at or past the proven
    height and time accepts the packet any more; and on an unordered channel, with
    a client sound for absence, the counterparty had no receipt for it at the
    proven root. *)
Theorem timed_out_packet_not_received committed (Ha : SoundAbsence committed)
    s (a : App) msg cm c :
  let p := to_packet msg in
  packet_validate s a (PktTimeout msg) = Ok tt →
  pcs_get (packet_commitment s) (port_id_on_a p) (chan_id_on_a p) (seq_on_a p) = Some cm →
  pc_get (channels s) (port_id_on_a p) (chan_id_on_a p) = Some c →
  ∃ conn cs cons, first_hop s (chan_connection_hops c) conn
    ∧ active_client_at s (conn_client_id conn) (to_proof_height_on_b msg) = Ok (cs, cons)
    ∧ (∀ (host_b : Host) s_b msg_b ts h,
         recv_packet msg_b = p → host_timestamp (Host:=host_b) = Ok ts →
         host_height (Host:=host_b) = Ok h →
         no_earlier (cons_timestamp cons) (to_proof_height_on_b msg) ts h →
         recv_packet_validate (host:=host_b) s_b msg_b ≠ Ok tt)
    ∧ (chan_ordering c = Unordered → ∀ value,
         ¬ committed (cons_root cons) (cpty_prefix (conn_counterparty conn))
             (PathReceipt (mkReceiptPath (port_id_on_b p) (chan_id_on_b p) (seq_on_a p))) value).
Proof.
  intros p Hv Hcm Hc. cbn [packet_validate] in Hv. unfold timeout_packet_validate in Hv.
  apply bind_Ok in Hv as (? & Hv & _).
  apply timeout_check_Ok in Hv as (c' & conn & hop & rest & Hc' & _ & _ & Hhop & Hconn & Hi).
  unfold chan_at_a in Hc'. cbn in Hc'. subst p. rewrite Hc in Hc'. injection Hc' as <-.
  destruct (Hi cm Hcm) as (_ & (cs & cons & Hact & Hto) & (cs' & cons' & Hact' & Hun)).
  rewrite Hact in Hact'. injection Hact' as <- <-.
  exists conn, cs, cons. split_and!; [by do 2 eexists|done| |].
  - intros host_b s_b msg_b ts h Hp Hts Hh Hle. by eapply recv_expired; [..|rewrite Hp].
  - intros Ho. rewrite Ho in Hun. by eapply verify_non_membership_sound.
Qed.

(** [TimeoutOnClose] only ever does nothing, with clients whose proofs are for
    one path each, as ICS-23 proofs are: the proof that the counterparty's channel
    is closed is looked for in [proof_unreceived_on_b], which also has to prove
    that the packet was not received, so validation passes only when there is no
    commitment left to time out.  [proof_close_on_b] is never read. *)
Theorem timeout_on_close_never_acts (Hk : SingleKeyProofs) s (a : App) msg :
  packet_validate s a (PktTimeoutOnClose msg) = Ok tt →
  let p := toc_packet msg in
  pcs_get (packet_commitment s) (port_id_on_a p) (chan_id_on_a p) (seq_on_a p) = None.
Proof.
  intros Hv p. cbn [packet_validate] in Hv. unfold timeout_packet_validate in Hv.
  apply bind_Ok in Hv as (? & Hv & _).
  apply timeout_on_close_check_Ok in Hv as (c & _ & _ & Hi).
  destruct (pcs_get (packet_commitment s) _ _ _) as [cm|] eqn:Ecm; [|done]. exfalso.
  destruct (Hi cm Ecm) as (_ & conn & hop & rest & i & _ & _ & _ & (cs & cons & _ & Hm)
    & (cs' & cons' & _ & Hun)).
  destruct (chan_ordering c); [done| |].
  - by eapply membership_or_absence.
  - by pose proof (membership_key _ _ _ _ _ _ _ _ _ _ _ Hm Hun).
Qed.

(** On an ordered channel a timeout proves that the counterparty's receive
    counter equals the sequence of the packet, whatever [next_seq_recv_on_b] the
    message claims: with a sound client, the value committed to at the proven
    root is the packet's own sequence number. *)
Theorem ordered_timeout_proves_own_sequence committed (Hs : SoundClient committed)
    s (a : App) msg cm c :
  let p := to_packet msg in
  packet_validate s a (PktTimeout msg) = Ok tt →
  pcs_get (packet_commitment s) (port_id_on_a p) (chan_id_on_a p) (seq_on_a p) = Some cm →
  pc_get (channels s) (port_id_on_a p) (chan_id_on_a p) = Some c → chan_ordering c = Ordered →
  ∃ root prefix, committed root prefix
    (PathSeqRecv (mkSeqRecvPath (port_id_on_b p) (chan_id_on_b p))) (to_be_bytes (seq_on_a p)).
Proof.
  intros p Hv Hcm Hc Ho. cbn [packet_validate] in Hv. unfold timeout_packet_validate in Hv.
  apply bind_Ok in Hv as (? & Hv & _).
  apply timeout_check_Ok in Hv as (c' & conn & hop & rest & Hc' & _ & _ & Hhop & Hconn & Hi).
  unfold chan_at_a in Hc'. cbn in Hc'. subst p. rewrite Hc in Hc'. injection Hc' as <-.
  destruct (Hi cm Hcm) as (_ & _ & (cs & cons & _ & Hun)). rewrite Ho in Hun.
  apply verify_membership_sound in Hun. eauto.
Qed.
End theorems.
