(* ===== verification/ClientHandlers.v ===== *)
(** * ICS-2 client handlers

    [ibc-core/ics02-client/src/handler/{create_client,update_client,
    upgrade_client}.rs] and the messages of [ics02-client/types/src/msgs]. *)

From S2P Require Import Prelude RustStr Identifiers Primitives Path Connection Channel Context.
From S2P Require Import ConnHandlers Module.
Local Open Scope string_scope.
Local Open Scope N_scope.

(** ** Messages *)

Record MsgCreateClient := mkMsgCreateClient {
  cc_client_state : Any;
  cc_consensus_state : Any;
  cc_signer : Signer }.

Record MsgUpdateClient := mkMsgUpdateClient {
  uc_client_id : ClientId;
  uc_client_message : Any;
  uc_signer : Signer }.

Record MsgSubmitMisbehaviour := mkMsgSubmitMisbehaviour {
  sm_client_id : ClientId;
  sm_misbehaviour : Any;
  sm_signer : Signer }.

Record MsgUpgradeClient := mkMsgUpgradeClient {
  ug_client_id : ClientId;
  ug_upgraded_client_state : Any;
  ug_upgraded_consensus_state : Any;
  ug_proof_upgrade_client : CommitmentProofBytes;
  ug_proof_upgrade_consensus_state : CommitmentProofBytes;
  ug_signer : Signer }.

Inductive ClientMsg :=
| ClCreateClient (m : MsgCreateClient)
| ClUpdateClient (m : MsgUpdateClient)
| ClMisbehaviour (m : MsgSubmitMisbehaviour)
| ClUpgradeClient (m : MsgUpgradeClient).

Inductive MsgUpdateOrMisbehaviour :=
| UmUpdateClient (m : MsgUpdateClient)
| UmMisbehaviour (m : MsgSubmitMisbehaviour).

Definition um_client_id (msg : MsgUpdateOrMisbehaviour) : ClientId :=
  match msg with UmUpdateClient m => uc_client_id m | UmMisbehaviour m => sm_client_id m end.
Definition um_client_message (msg : MsgUpdateOrMisbehaviour) : Any :=
  match msg with UmUpdateClient m => uc_client_message m | UmMisbehaviour m => sm_misbehaviour m end.
Definition um_signer (msg : MsgUpdateOrMisbehaviour) : Signer :=
  match msg with UmUpdateClient m => uc_signer m | UmMisbehaviour m => sm_signer m end.

Section handlers.
Context `{TmTime, !ChainTypes, !LightClient, host : !Host, !Codec}.

(** A call of a client method that writes the store. *)
Definition on_client {A} (m : exec IbcStore ClientError A) : action A := λ s,
  let '(s', r) := m s in (s', err_client r).

(** ** Creating a client *)

Definition create_client_validate (s : IbcStore) (msg : MsgCreateClient) :
    outcome ContextError () :=
  validate_message_signer (cc_signer msg);;
  id_counter ← client_counter s;
  cs ← err_client (client_state_try_from (cc_client_state msg));
  let client_id := ClientType_build_client_id (client_type cs) id_counter in
  status ← err_client (status cs host s client_id);
  fail_if (Status_is_frozen status) (CtxClient (ClientFrozen "the client is frozen"));;
  err_client (verify_consensus_state cs (cc_consensus_state msg));;
  fail_if (is_ok (client_state s client_id)) (CtxClient (ClientStateAlreadyExists client_id)).

Definition create_client_execute (msg : MsgCreateClient) : action () :=
  id_counter ← reads client_counter;
  cs ← lift (err_client (client_state_try_from (cc_client_state msg)));
  let client_type := client_type cs in
  let client_id := ClientType_build_client_id client_type id_counter in
  on_client (initialise cs host client_id (cc_consensus_state msg));;
  increase_client_counter;;
  emit_ibc_event (EventMessage EvClient);;
  emit_ibc_event (CreateClient client_id client_type (latest_height cs));;
  log_message ("success: generated new client identifier: " ++ client_id_str client_id).

(** ** Updating a client, with a header or with evidence of misbehaviour *)

Definition update_client_validate (s : IbcStore) (msg : MsgUpdateOrMisbehaviour) :
    outcome ContextError () :=
  validate_message_signer (um_signer msg);;
  let client_id := um_client_id msg in
  cs ← client_state s client_id;
  status ← err_client (status cs host s client_id);
  err_client (Status_verify_is_active status);;
  err_client (verify_client_message cs host s client_id (um_client_message msg)).

Definition update_kind (msg : MsgUpdateOrMisbehaviour) : UpdateKind :=
  match msg with
  | UmUpdateClient _ => UpdateKind_UpdateClient
  | UmMisbehaviour _ => UpdateKind_SubmitMisbehaviour
  end.

Definition NO_MISBEHAVIOUR_FOUND : ContextError :=
  CtxClient (MisbehaviourHandlingFailure "misbehaviour submitted, but none found").

Definition update_client_execute (msg : MsgUpdateOrMisbehaviour) : action () :=
  let client_id := um_client_id msg in
  let client_message := um_client_message msg in
  cs ← reads (λ s, client_state s client_id);
  found_misbehaviour ← reads (λ s,
    err_client (check_for_misbehaviour cs host s client_id client_message));
  if (found_misbehaviour : bool) then
    on_client (update_state_on_misbehaviour cs host client_id client_message);;
    emit_ibc_event (EventMessage EvClient);;
    emit_ibc_event (ClientMisbehaviour client_id (client_type cs))
  else
    match update_kind msg with
    | UpdateKind_UpdateClient =>
      consensus_heights ← on_client (update_state cs host client_id client_message);
      consensus_height ← lift (ok_or (head consensus_heights)
        (CtxClient (ClientOther "client update state returned no updated height")));
      emit_ibc_event (EventMessage EvClient);;
      emit_ibc_event (UpdateClient client_id (client_type cs) consensus_height consensus_heights
                        (encode_any client_message))
    | UpdateKind_SubmitMisbehaviour => lift (Err NO_MISBEHAVIOUR_FOUND)
    end.

(** ** Upgrading a client *)

Definition upgrade_client_validate (s : IbcStore) (msg : MsgUpgradeClient) :
    outcome ContextError () :=
  let client_id := ug_client_id msg in
  validate_message_signer (ug_signer msg);;
  old_client_state ← client_state s client_id;
  status ← err_client (status old_client_state host s client_id);
  err_client (Status_verify_is_active status);;
  let height := latest_height old_client_state in
  old_consensus_state ← map_err (λ _, CtxClient (ConsensusStateNotFound client_id height))
    (consensus_state s (mkClientConsensusStatePath client_id (height_revision_number height)
       (revision_height height)));
  err_client (verify_upgrade_client old_client_state (ug_upgraded_client_state msg)
    (ug_upgraded_consensus_state msg) (ug_proof_upgrade_client msg)
    (ug_proof_upgrade_consensus_state msg) (cons_root old_consensus_state)).

Definition upgrade_client_execute (msg : MsgUpgradeClient) : action () :=
  let client_id := ug_client_id msg in
  old_client_state ← reads (λ s, client_state s client_id);
  latest_height ← on_client (update_state_on_upgrade old_client_state host client_id
    (ug_upgraded_client_state msg) (ug_upgraded_consensus_state msg));
  emit_ibc_event (EventMessage EvClient);;
  emit_ibc_event (UpgradeClient client_id (client_type old_client_state) latest_height).

(** The client arms of [validate] and [execute]. *)
Definition client_validate (s : IbcStore) (msg : ClientMsg) : outcome ContextError () :=
  match msg with
  | ClCreateClient m => create_client_validate s m
  | ClUpdateClient m => update_client_validate s (UmUpdateClient m)
  | ClMisbehaviour m => update_client_validate s (UmMisbehaviour m)
  | ClUpgradeClient m => upgrade_client_validate s m
  end.
Definition client_execute (msg : ClientMsg) : action () :=
  match msg with
  | ClCreateClient m => create_client_execute m
  | ClUpdateClient m => update_client_execute (UmUpdateClient m)
  | ClMisbehaviour m => update_client_execute (UmMisbehaviour m)
  | ClUpgradeClient m => upgrade_client_execute m
  end.
End handlers.

(** ** What a client may write

    The methods of [ClientExecutionContext] a client is given write the client
    state, the consensus states and the update metadata of the client whose
    identifier they are called with, and nothing else. *)

Section frame.
Context `{TmTime, !ChainTypes}.

Definition client_frame (client_id : ClientId) (s s' : IbcStore) : Prop :=
  same_connections s s' ∧ same_channels s s' ∧ same_packets s s'
  ∧ client_ids_counter s' = client_ids_counter s
  ∧ events s' = events s ∧ logs s' = logs s
  ∧ ∀ id, id ≠ client_id → clients s' !! id = clients s !! id
      ∧ ∀ h, client_processed_times s' !! (id, h) = client_processed_times s !! (id, h)
           ∧ client_processed_heights s' !! (id, h) = client_processed_heights s !! (id, h).

Class ClientFrame `{!LightClient} := {
  initialise_frame cs host id a s :
    client_frame id s (initialise cs host id a s).1;
  update_state_frame cs host id a s :
    client_frame id s (update_state cs host id a s).1;
  update_state_on_misbehaviour_frame cs host id a s :
    client_frame id s (update_state_on_misbehaviour cs host id a s).1;
  update_state_on_upgrade_frame cs host id a1 a2 s :
    client_frame id s (update_state_on_upgrade cs host id a1 a2 s).1;
}.

(** Identifiers of stored clients come from the counter. *)
Definition clients_inv (n : N) (m : gmap ClientId ClientRecord) : Prop :=
  ∀ id, is_Some (m !! id) → ∃ t k, k < n ∧ id = ClientType_build_client_id t k.

Lemma clients_inv_fresh n m t :
  clients_inv n m → m !! ClientType_build_client_id t n = None.
Proof.
  intros Hinv. apply eq_None_not_Some. intros Hs.
  apply Hinv in Hs as (t' & k & Hk & E%(f_equal client_id_str)).
  apply dash_number_inj in E as [_ ?]. lia.
Qed.

Lemma clients_inv_frame n n' id s s' :
  client_frame id s s' → n <= n' → (∃ t k, k < n' ∧ id = ClientType_build_client_id t k) →
  clients_inv n (clients s) → clients_inv n' (clients s').
Proof.
  intros (_ & _ & _ & _ & _ & _ & Hf) Hn Hid Hinv i Hi.
  destruct (decide (i = id)) as [->|Hne]; [done|].
  destruct (Hf i Hne) as [E _]. rewrite E in Hi. apply Hinv in Hi as (t & k & ? & ->).
  exists t, k. split; [lia|done].
Qed.
End frame.

(** ** Client methods on the store *)

Section client_methods.
Context `{TmTime, !ChainTypes, !Codec}.

(** A write on the context inside a client method: [?] turns the error around. *)
Definition in_client {A} (m : action A) : exec IbcStore ClientError A := λ s,
  let '(s', r) := m s in (s', map_err ClientError_from_ContextError r).
(** [ClientConsensusStatePath::new(client_id, height.revision_number(), ..)]. *)
Definition state_path (client_id : ClientId) (height : Height) : ClientConsensusStatePath :=
  mkClientConsensusStatePath client_id (height_revision_number height) (revision_height height).

Lemma client_frame_refl id s : client_frame id s s.
Proof. unfold client_frame. by split_and!. Qed.
Lemma client_frame_trans id s1 s2 s3 :
  client_frame id s1 s2 → client_frame id s2 s3 → client_frame id s1 s3.
Proof.
  unfold client_frame, same_connections, same_channels, same_packets.
  intros H12 H23. destruct_and!.
  split_and!; try congruence. intros i Hi.
  match goal with A : ∀ id', id' ≠ id → _, B : ∀ id', id' ≠ id → _ |- _ =>
    destruct (A i Hi) as [? Ha], (B i Hi) as [? Hb] end.
  split; [congruence|]. intros h. destruct (Ha h), (Hb h). split; congruence.
Qed.

(** An action relates the store before to the store after, whatever its outcome. *)
Definition within {E A} (R : relation IbcStore) (m : exec IbcStore E A) : Prop :=
  ∀ s, R s (m s).1.

Lemma within_bind {E A B} (R : relation IbcStore) (m : exec IbcStore E A) (f : A → exec IbcStore E B) :
  PreOrder R → within R m → (∀ a, within R (f a)) → within R (m ≫= f).
Proof.
  intros HR Hm Hf s. unfold mbind, exec_bind. specialize (Hm s).
  destruct (m s) as [s1 [a|e|]]; cbn in *; try done. etrans; [done|apply Hf].
Qed.
Lemma within_lift {E A} (R : relation IbcStore) (m : outcome E A) : PreOrder R → within R (lift m).
Proof. intros HR s. done. Qed.
Lemma within_ret {E A} (R : relation IbcStore) (a : A) : PreOrder R → within (E:=E) R (mret a).
Proof. intros HR s. done. Qed.
Lemma within_reads {E A} (R : relation IbcStore) (f : IbcStore → outcome E A) :
  PreOrder R → within R (reads f).
Proof. intros HR s. done. Qed.
Lemma within_in_client {A} (R : relation IbcStore) (m : action A) :
  within R m → within R (in_client m).
Proof. intros Hm s. unfold in_client. specialize (Hm s). by destruct (m s). Qed.

#[export] Instance client_frame_preorder id : PreOrder (client_frame id).
Proof. split; [intros s; apply client_frame_refl|intros s1 s2 s3; apply client_frame_trans]. Qed.

(** The writes a client is given, on the record of [id]: what holds of each of
    them holds of every method made of them.  [from_cs] and [from_cons] are the
    conversions of the client's states to those of the chain. *)
Class WritesWithin {CS C} (R : relation IbcStore) (id : ClientId) (from_cs : CS → ClientState)
    (from_cons : C → ConsensusState) : Prop := {
  writes_preorder : PreOrder R;
  store_client_state_within cs : within R (store_client_state (mkClientStatePath id) (from_cs cs));
  store_consensus_state_within h c :
    within R (store_consensus_state (state_path id h) (from_cons c));
  delete_consensus_state_within h : within R (delete_consensus_state (state_path id h));
  store_update_meta_within h t h' : within R (store_update_meta id h t h');
  delete_update_meta_within h : within R (delete_update_meta id h);
}.

#[export] Instance client_frame_writes {CS C} id (f : CS → ClientState) (g : C → ConsensusState) :
  WritesWithin (client_frame id) id f g.
Proof.
  assert (∀ k s, client_frame id s (set_clients (update_client_record id k) s)) as Hrec.
  { intros k s. unfold client_frame. cbn. split_and!; try done. intros i Hi. split; [|done].
    unfold update_client_record. by rewrite lookup_insert_ne. }
  split; [apply _|intros cs s; apply Hrec|intros h c|intros h|intros h t h'|intros h].
  1,2: apply within_bind; [apply _|by apply within_lift, _|intros h' s; apply Hrec].
  all: apply within_bind; [apply _| |intros []]; intros s; unfold client_frame; cbn;
    (split_and!; try done); intros i Hi; (split; [done|]); intros k.
  1,2: by rewrite lookup_insert_ne by congruence.
  all: by rewrite lookup_delete_ne by congruence.
Qed.

(** What is true of all states of a client's record. *)
Definition states_are (id : ClientId) (P : ClientState → Prop) (Q : ConsensusState → Prop)
    (s : IbcStore) : Prop :=
  ∀ rec, clients s !! id = Some rec →
    (∀ cs, client_state_of rec = Some cs → P cs) ∧ (∀ h c, consensus_states rec !! h = Some c → Q c).
Definition keeps_states (id : ClientId) (P : ClientState → Prop) (Q : ConsensusState → Prop) :
  relation IbcStore := λ s s', states_are id P Q s → states_are id P Q s'.

Lemma states_are_update id P Q k s :
  states_are id P Q s →
  (∀ rec, default (mkClientRecord None ∅) (clients s !! id) = rec →
     (∀ cs, client_state_of (k rec) = Some cs → P cs ∨ client_state_of rec = Some cs)
     ∧ (∀ h c, consensus_states (k rec) !! h = Some c → Q c ∨ consensus_states rec !! h = Some c)) →
  states_are id P Q (set_clients (update_client_record id k) s).
Proof.
  intros Hs Hk rec. cbn. unfold update_client_record. rewrite lookup_insert_eq. intros [= <-].
  destruct (Hk _ eq_refl) as [K1 K2]. unfold states_are in Hs.
  destruct (clients s !! id) as [r|]; cbn in *.
  - destruct (Hs r eq_refl) as [P1 P2]. split; naive_solver.
  - split; [|intros h c E]; [naive_solver|]. apply K2 in E as [?|E]; [done|].
    by rewrite lookup_empty in E.
Qed.

Lemma keeps_states_writes {CS C} id P Q (f : CS → ClientState) (g : C → ConsensusState) :
  (∀ cs, P (f cs)) → (∀ c, Q (g c)) → WritesWithin (keeps_states id P Q) id f g.
Proof.
  intros HP HQ. assert (PreOrder (keeps_states id P Q)) as HR.
  { unfold keeps_states. split; [by intros s|]. intros s1 s2 s3. tauto. }
  split; [done|intros cs s Hs; apply states_are_update; [done|naive_solver]|intros h c|intros h|..].
  1,2: apply within_bind; [done|by apply within_lift|intros h' s Hs; apply states_are_update;
    [done|]]; intros rec _; split; [naive_solver|]; intros k c'; cbn.
  - rewrite lookup_insert_Some. naive_solver.
  - rewrite lookup_delete_Some. naive_solver.
  - intros h t h'. apply within_bind; [done| |intros []]; by intros s Hs.
  - intros h. apply within_bind; [done| |intros []]; by intros s Hs.
Qed.


Lemma update_client_record_same id f m :
  update_client_record id f m !! id = Some (f (default (mkClientRecord None ∅) (m !! id))).
Proof. unfold update_client_record. by rewrite lookup_insert_eq. Qed.

Lemma height_new_wf h : Height_wf h →
  Height_new (height_revision_number h) (revision_height h) = Ok h.
Proof. intros (? & ? & ?). destruct h. by apply Height_new_Ok. Qed.
End client_methods.

(** An action made of the writes above, step by step; [within] holds the lemmas
    on parts that have been dealt with. *)
Create HintDb within.
Ltac solve_within :=
  lazymatch goal with
  | |- PreOrder _ => first [apply _|eapply writes_preorder]
  | |- within _ (_ ≫= _) => apply within_bind; [solve_within|solve_within|intros ?; solve_within]
  | |- within _ (lift _) => apply within_lift; solve_within
  | |- within _ (mret _) => apply within_ret; solve_within
  | |- within _ (reads _) => apply within_reads; solve_within
  | |- within _ (in_client _) => apply within_in_client; solve_within
  | |- within _ (store_client_state _ _) => apply store_client_state_within
  | |- within _ (store_consensus_state _ _) => apply store_consensus_state_within
  | |- within _ (delete_consensus_state _) => eapply delete_consensus_state_within
  | |- within _ (store_update_meta _ _ _ _) => eapply store_update_meta_within
  | |- within _ (delete_update_meta _ _) => eapply delete_update_meta_within
  | |- within _ (match ?x with _ => _ end) => destruct x; solve_within
  | |- _ => auto with within
  end.

Section theorems.
Context `{TmTime, !ChainTypes, !LightClient, host : !Host, !Codec, !ClientFrame}.

Lemma on_client_Ok {A} (m : exec IbcStore ClientError A) s s' a :
  on_client m s = (s', Ok a) ↔ m s = (s', Ok a).
Proof.
  unfold on_client, err_client. destruct (m s) as [s1 r]. split.
  - intros [= <- E]. apply map_err_Ok in E. by rewrite E.
  - by intros [= <- ->].
Qed.

Lemma client_state_Ok s id cs :
  client_state s id = Ok cs ↔ ∃ r, clients s !! id = Some r ∧ client_state_of r = Some cs.
Proof.
  unfold client_state, err_client. rewrite map_err_Ok.
  destruct (clients s !! id); rewrite ?ok_or_Ok; naive_solver.
Qed.

Lemma consensus_state_Ok s id n h cons :
  consensus_state s (mkClientConsensusStatePath id n h) = Ok cons →
  ∃ r, clients s !! id = Some r ∧ consensus_states r !! mkHeight n h = Some cons.
Proof.
  unfold consensus_state, err_client. intros Hc. apply bind_Ok in Hc as (k & Hk & Hc).
  apply map_err_Ok, Height_new_Ok in Hk as [-> _]. apply map_err_Ok in Hc.
  cbn in Hc |- *. destruct (clients s !! id) as [r|]; [|done]. exists r. split; [done|].
  destruct (consensus_states r !! _); [by injection Hc as ->|done].
Qed.

(** What an executed update did to the clients: one method of the client. *)
Lemma update_client_execute_Ok s msg s' :
  update_client_execute msg s = (s', Ok tt) →
  ∃ cs found s1, client_state s (um_client_id msg) = Ok cs
  ∧ check_for_misbehaviour cs host s (um_client_id msg) (um_client_message msg) = Ok found
  ∧ clients s' = clients s1
  ∧ if (found : bool)
    then update_state_on_misbehaviour cs host (um_client_id msg) (um_client_message msg) s = (s1, Ok tt)
    else ∃ m hs, msg = UmUpdateClient m
      ∧ update_state cs host (um_client_id msg) (um_client_message msg) s = (s1, Ok hs).
Proof.
  unfold update_client_execute. intros Hx. inv_exec.
  match goal with H : client_state _ _ = Ok ?c, H' : check_for_misbehaviour _ _ _ _ _ = Ok ?b |- _ =>
    exists c, b; destruct b end.
  - inv_exec. match goal with H : on_client _ _ = (?s1, Ok ?u) |- _ =>
      destruct u; apply on_client_Ok in H; by exists s1 end.
  - destruct msg as [m|m]; cbn [update_kind] in *; inv_exec.
    match goal with H : on_client _ _ = (?s1, _) |- _ => apply on_client_Ok in H; exists s1 end.
    split_and!; try done. by do 2 eexists.
Qed.

(** The effect of a client message on everything but the record of its client. *)
Definition client_step (id : ClientId) (s : IbcStore) (msg : ClientMsg) (s' : IbcStore) : Prop :=
  same_connections s s' ∧ same_channels s s' ∧ same_packets s s'
  ∧ (∀ i, i ≠ id → clients s' !! i = clients s !! i
      ∧ ∀ h, client_processed_times s' !! (i, h) = client_processed_times s !! (i, h)
           ∧ client_processed_heights s' !! (i, h) = client_processed_heights s !! (i, h))
  ∧ match msg with
    | ClCreateClient m => ∃ cs, client_state_try_from (cc_client_state m) = Ok cs
        ∧ id = ClientType_build_client_id (client_type cs) (client_ids_counter s)
        ∧ client_ids_counter s' = client_ids_counter s + 1 ∧ is_u64 (client_ids_counter s')
    | ClUpdateClient m => id = uc_client_id m ∧ client_ids_counter s' = client_ids_counter s
        ∧ is_Some (clients s !! id)
    | ClMisbehaviour m => id = sm_client_id m ∧ client_ids_counter s' = client_ids_counter s
        ∧ is_Some (clients s !! id)
    | ClUpgradeClient m => id = ug_client_id m ∧ client_ids_counter s' = client_ids_counter s
        ∧ is_Some (clients s !! id)
    end.

(** A run of a client method, inside the frame. *)
Lemma framed {A} id (m : exec IbcStore ClientError A) s s' a :
  m s = (s', Ok a) → client_frame id s (m s).1 → client_frame id s s'.
Proof. by intros ->. Qed.

Lemma create_client_refines s msg s' u :
  create_client_execute msg s = (s', Ok u) → ∃ id, client_step id s (ClCreateClient msg) s'.
Proof.
  unfold create_client_execute. intros Hx. inv_exec.
  match goal with H : on_client _ _ = _ |- _ => apply on_client_Ok in H;
    eapply framed in H as (? & ? & ? & Hn & _ & _ & ?); [|apply initialise_frame] end.
  eexists. split_and!; try done. eexists. split_and!; try done; cbn; congruence.
Qed.

Lemma update_client_refines s msg s' u :
  update_client_execute msg s = (s', Ok u) →
  client_step (um_client_id msg) s
    (match msg with UmUpdateClient m => ClUpdateClient m | UmMisbehaviour m => ClMisbehaviour m end)
    s'.
Proof.
  unfold update_client_execute. intros Hx. inv_exec.
  match goal with H : client_state s _ = Ok _ |- _ => apply client_state_Ok in H as (r & Hr & _) end.
  match goal with H : check_for_misbehaviour _ _ _ _ _ = Ok ?b |- _ => destruct b end.
  - inv_exec. match goal with H : on_client _ _ = _ |- _ => apply on_client_Ok in H;
      eapply framed in H as (? & ? & ? & Hn & _ & _ & ?);
        [|apply update_state_on_misbehaviour_frame] end.
    split_and!; try done. destruct msg; cbn in *; eauto.
  - destruct msg as [m|m]; cbn [update_kind] in *; inv_exec.
    match goal with H : on_client _ _ = _ |- _ => apply on_client_Ok in H;
      eapply framed in H as (? & ? & ? & Hn & _ & _ & ?); [|apply update_state_frame] end.
    split_and!; eauto.
Qed.

Lemma upgrade_client_refines s msg s' u :
  upgrade_client_execute msg s = (s', Ok u) →
  client_step (ug_client_id msg) s (ClUpgradeClient msg) s'.
Proof.
  unfold upgrade_client_execute. intros Hx. inv_exec.
  match goal with H : client_state s _ = Ok _ |- _ => apply client_state_Ok in H as (r & Hr & _) end.
  match goal with H : on_client _ _ = _ |- _ => apply on_client_Ok in H;
    eapply framed in H as (? & ? & ? & Hn & _ & _ & ?); [|apply update_state_on_upgrade_frame] end.
  split_and!; eauto.
Qed.

Lemma client_refines s msg s' u :
  client_execute msg s = (s', Ok u) → ∃ id, client_step id s msg s'.
Proof.
  destruct msg as [m|m|m|m]; cbn [client_execute]; intros Hx.
  - by eapply create_client_refines.
  - eexists. by apply (update_client_refines _ (UmUpdateClient m)) in Hx.
  - eexists. by apply (update_client_refines _ (UmMisbehaviour m)) in Hx.
  - eexists. by eapply upgrade_client_refines.
Qed.

Lemma client_step_inv id s msg s' :
  client_step id s msg s' → clients_inv (client_ids_counter s) (clients s) →
  clients_inv (client_ids_counter s') (clients s').
Proof.
  intros (_ & _ & _ & Hf & Hm) Hinv i Hi. destruct (decide (i = id)) as [->|Hne].
  - destruct msg as [m|m|m|m].
    + destruct Hm as (cs & _ & -> & -> & _). do 2 eexists. split; [|done]. lia.
    + destruct Hm as (-> & -> & ?). by apply Hinv.
    + destruct Hm as (-> & -> & ?). by apply Hinv.
    + destruct Hm as (-> & -> & ?). by apply Hinv.
  - destruct (Hf i Hne) as [E _]. rewrite E in Hi. apply Hinv in Hi as (t & k & Hk & ->).
    do 2 eexists. split; [|done]. destruct msg; destruct_and?; [|lia..].
    destruct Hm as (cs & _ & _ & -> & _). lia.
Qed.

(** Client messages are confined to their client: a message that is executed
    writes the state, consensus states and update metadata of one client only,
    leaves connections, channels and packets alone, and keeps the invariant that
    identifiers come from the counter.  The identifier of a created client is
    fresh, so no client is overwritten. *)
Theorem client_messages_confined s msg s' :
  clients_inv (client_ids_counter s) (clients s) → client_execute msg s = (s', Ok tt) →
  clients_inv (client_ids_counter s') (clients s')
  ∧ ∃ id, client_step id s msg s'
    ∧ match msg with ClCreateClient _ => clients s !! id = None | _ => is_Some (clients s !! id) end.
Proof.
  intros Hinv Hx. destruct (client_refines _ _ _ _ Hx) as [id Hs].
  split; [by eapply client_step_inv|]. exists id. split; [done|].
  destruct Hs as (_ & _ & _ & _ & Hm). destruct msg; [|by destruct_and?..].
  destruct Hm as (cs & _ & -> & _). by apply clients_inv_fresh.
Qed.

(** Updates on every branch.  On an existing client whose check succeeds, a
    message with misbehaviour found runs [update_state_on_misbehaviour], never
    [update_state], and emits one misbehaviour event; a header without
    misbehaviour runs [update_state] and reports the first height; evidence in
    which no misbehaviour is found is an error that leaves the store unchanged. *)
Theorem update_client_branches s msg cs found :
  let id := um_client_id msg in
  client_state s id = Ok cs →
  check_for_misbehaviour cs host s id (um_client_message msg) = Ok found →
  update_client_execute msg s =
  if found then
    match update_state_on_misbehaviour cs host id (um_client_message msg) s with
    | (s1, Ok _) =>
      (set_events (λ l, l ++ [EventMessage EvClient; ClientMisbehaviour id (client_type cs)])%list s1,
       Ok tt)
    | (s1, r) => (s1, err_client r)
    end
  else match msg with
  | UmMisbehaviour _ => (s, Err NO_MISBEHAVIOUR_FOUND)
  | UmUpdateClient m =>
    match update_state cs host id (uc_client_message m) s with
    | (s1, Ok (h :: hs)) =>
      (set_events (λ l, l ++ [EventMessage EvClient;
         UpdateClient id (client_type cs) h (h :: hs) (encode_any (uc_client_message m))])%list s1,
       Ok tt)
    | (s1, Ok []) =>
      (s1, Err (CtxClient (ClientOther "client update state returned no updated height")))
    | (s1, Err e) => (s1, Err (CtxClient e))
    | (s1, Panic) => (s1, Panic)
    end
  end.
Proof.
  intros id Hc Hm. unfold update_client_execute, id in *.
  assert (∀ (s1 : IbcStore) e1 e2, (emit_ibc_event e1;; emit_ibc_event e2) s1
    = (set_events (λ l, l ++ [e1; e2])%list s1, Ok tt)) as Hev.
  { intros s1 e1 e2. unfold emit_ibc_event. run_exec. unfold set_events. cbn.
    by rewrite <- app_assoc. }
  unfold mbind at 1, exec_bind at 1, reads at 1. rewrite Hc.
  unfold mbind at 1, exec_bind at 1, reads at 1. rewrite Hm. cbn [err_client map_err].
  destruct found.
  - unfold mbind at 1, exec_bind at 1, on_client at 1.
    destruct (update_state_on_misbehaviour _ _ _ _ _) as [s1 [[]|e|]]; [|done..].
    cbn. apply Hev.
  - destruct msg as [m|m]; [|done]. cbn [update_kind um_client_message um_client_id].
    unfold mbind at 1, exec_bind at 1, on_client at 1.
    destruct (update_state _ _ _ _ _) as [s1 [[|h hs]|e|]]; [done| |done..].
    cbn. apply Hev.
Qed.
End theorems.
