(* ===== verification/MockClient.v ===== *)
(** * The mock light client and the mock host

    [ibc-testkit/src/testapp/ibc/clients/mock/{header,consensus_state,
    client_state,misbehaviour}.rs] and the host half of [MockContext]
    ([testapp/ibc/core/{types,core_ctx}.rs]) for a chain of mock blocks.  They
    implement the interfaces [LightClient] and [Host], so that the handlers can
    be run. *)

From S2P Require Import Prelude RustStr Identifiers Primitives Path Connection Channel Context.
From S2P Require Import ConnHandlers Module ClientHandlers.
Local Open Scope string_scope.
Local Open Scope N_scope.

Definition MOCK_CLIENT_STATE_TYPE_URL : string := "/ibc.mock.ClientState".
Definition MOCK_CONSENSUS_STATE_TYPE_URL : string := "/ibc.mock.ConsensusState".
Definition MOCK_HEADER_TYPE_URL : string := "/ibc.mock.Header".
Definition MOCK_MISBEHAVIOUR_TYPE_URL : string := "/ibc.mock.Misbehavior".
Definition MOCK_CLIENT_TYPE : string := "9999-mock".

(** ** Generated protobuf structs *)

Record RawMockHeader := mkRawMockHeader {
  raw_header_height : option RawHeight; raw_header_timestamp : N }.
Record RawMockClientState := mkRawMockClientState {
  raw_cs_header : option RawMockHeader; raw_cs_trusting_period : N; raw_cs_frozen : bool }.
Record RawMockConsensusState := mkRawMockConsensusState { raw_cons_header : option RawMockHeader }.
Record RawMisbehaviour := mkRawMisbehaviour {
  raw_mb_client_id : string;
  raw_mb_header1 : option RawMockHeader;
  raw_mb_header2 : option RawMockHeader }.

Section data.
Context `{TmTime}.

Record MockHeader := mkMockHeader { mh_height : Height; mh_timestamp : Timestamp }.
Record MockClientState := mkMockClientState {
  mcs_header : MockHeader; trusting_period : Duration; frozen : bool }.
Record MockConsensusState := mkMockConsensusState {
  mcons_header : MockHeader; mcons_root : CommitmentRoot }.
Record Misbehaviour := mkMisbehaviour {
  mb_client_id : ClientId; header1 : MockHeader; header2 : MockHeader }.

Definition MockHeader_new (height : Height) : MockHeader := mkMockHeader height Timestamp_none.
Definition MockClientState_new (header : MockHeader) : MockClientState :=
  mkMockClientState header (Duration_from_nanos 0) false.
Definition MockClientState_frozen (self : MockClientState) : MockClientState :=
  mkMockClientState (mcs_header self) (trusting_period self) true.
Definition MockClientState_latest_height (self : MockClientState) : Height :=
  mh_height (mcs_header self).
Definition MockConsensusState_new (header : MockHeader) : MockConsensusState :=
  mkMockConsensusState header (mkCommitmentRoot [Byte.x00]).

(** ** Protobuf conversions *)

Definition MockHeader_try_from_raw (raw : RawMockHeader) : outcome ClientError MockHeader :=
  height ← ok_or (raw_height ← raw_header_height raw; ok (Height_try_from_raw raw_height))
                 MissingClientMessage;
  timestamp ← map_err ClientInvalidPacketTimestamp
                (Timestamp_from_nanoseconds (raw_header_timestamp raw));
  Ok (mkMockHeader height timestamp).
Definition MockHeader_into_raw {E} (value : MockHeader) : outcome E RawMockHeader :=
  timestamp ← Timestamp_nanoseconds (mh_timestamp value);
  Ok (mkRawMockHeader (Some (Height_into_raw (mh_height value))) timestamp).

Definition MockClientState_try_from_raw (raw : RawMockClientState) :
    outcome ClientError MockClientState :=
  raw_header ← ok_or (raw_cs_header raw) (ClientOther "header is not present");
  header ← MockHeader_try_from_raw raw_header;
  Ok (mkMockClientState header (Duration_from_nanos (raw_cs_trusting_period raw))
        (raw_cs_frozen raw)).
Definition MockClientState_into_raw {E} (value : MockClientState) : outcome E RawMockClientState :=
  header ← MockHeader_into_raw (mcs_header value);
  trusting_period ← (if trusting_period value <? U64_SIZE then Ok (trusting_period value) else Panic);
  Ok (mkRawMockClientState (Some header) trusting_period (frozen value)).

Definition MockConsensusState_try_from_raw (raw : RawMockConsensusState) :
    outcome ClientError MockConsensusState :=
  raw_header ← ok_or (raw_cons_header raw) MissingRawConsensusState;
  header ← MockHeader_try_from_raw raw_header;
  Ok (mkMockConsensusState header (mkCommitmentRoot [Byte.x00])).
Definition MockConsensusState_into_raw {E} (value : MockConsensusState) :
    outcome E RawMockConsensusState :=
  timestamp ← Timestamp_nanoseconds (mh_timestamp (mcons_header value));
  Ok (mkRawMockConsensusState (Some (mkRawMockHeader
        (Some (Height_into_raw (mh_height (mcons_header value)))) timestamp))).

Definition Misbehaviour_try_from_raw `{Unicode} (raw : RawMisbehaviour) :
    outcome ClientError Misbehaviour :=
  client_id ← expect (ClientId_new "07-tendermint" 0);
  raw_header1 ← ok_or (raw_mb_header1 raw) MissingRawMisbehaviour;
  header1 ← MockHeader_try_from_raw raw_header1;
  raw_header2 ← ok_or (raw_mb_header2 raw) MissingRawMisbehaviour;
  header2 ← MockHeader_try_from_raw raw_header2;
  Ok (mkMisbehaviour client_id header1 header2).
End data.

(** [prost] on the four messages: encoders, decoders with their error as text,
    and the texts of the other errors the client reports. *)
Class MockCodec `{TmTime} := {
  encode_mock_header : RawMockHeader → bytes;
  decode_mock_header : bytes → outcome string RawMockHeader;
  encode_mock_client_state : RawMockClientState → bytes;
  decode_mock_client_state : bytes → outcome string RawMockClientState;
  encode_mock_consensus_state : RawMockConsensusState → bytes;
  decode_mock_consensus_state : bytes → outcome string RawMockConsensusState;
  encode_mock_misbehaviour : RawMisbehaviour → bytes;
  decode_mock_misbehaviour : bytes → outcome string RawMisbehaviour;
  conversion_error_to_string : ClientError → string;
  future_consensus_state : Timestamp → Timestamp → string;
}.

Section any.
Context `{MockCodec, Unicode}.

(** [Protobuf::decode]: decode, then convert; both errors end up as text. *)
Definition protobuf_decode {R A} (decode : bytes → outcome string R)
    (try_from : R → outcome ClientError A) (value : bytes) : outcome string A :=
  raw ← decode value; map_err conversion_error_to_string (try_from raw).

Definition MockHeader_try_from (raw : Any) : outcome ClientError MockHeader :=
  if (type_url raw =? MOCK_HEADER_TYPE_URL)%string
  then map_err InvalidRawHeader
         (protobuf_decode decode_mock_header MockHeader_try_from_raw (any_value raw))
  else Err (UnknownHeaderType (type_url raw)).
Definition MockHeader_into {E} (header : MockHeader) : outcome E Any :=
  raw ← MockHeader_into_raw header; Ok (mkAny MOCK_HEADER_TYPE_URL (encode_mock_header raw)).

Definition MockClientState_try_from (raw : Any) : outcome ClientError MockClientState :=
  if (type_url raw =? MOCK_CLIENT_STATE_TYPE_URL)%string
  then map_err ClientOther
         (protobuf_decode decode_mock_client_state MockClientState_try_from_raw (any_value raw))
  else Err (UnknownClientStateType (type_url raw)).
Definition MockClientState_into {E} (client_state : MockClientState) : outcome E Any :=
  raw ← MockClientState_into_raw client_state;
  Ok (mkAny MOCK_CLIENT_STATE_TYPE_URL (encode_mock_client_state raw)).

Definition MockConsensusState_try_from (raw : Any) : outcome ClientError MockConsensusState :=
  if (type_url raw =? MOCK_CONSENSUS_STATE_TYPE_URL)%string
  then map_err ClientOther
         (protobuf_decode decode_mock_consensus_state MockConsensusState_try_from_raw
            (any_value raw))
  else Err (UnknownConsensusStateType (type_url raw)).
Definition MockConsensusState_into {E} (consensus_state : MockConsensusState) : outcome E Any :=
  raw ← MockConsensusState_into_raw consensus_state;
  Ok (mkAny MOCK_CONSENSUS_STATE_TYPE_URL (encode_mock_consensus_state raw)).

Definition Misbehaviour_try_from (raw : Any) : outcome ClientError Misbehaviour :=
  if (type_url raw =? MOCK_MISBEHAVIOUR_TYPE_URL)%string
  then map_err ClientOther
         (protobuf_decode decode_mock_misbehaviour Misbehaviour_try_from_raw (any_value raw))
  else Err (UnknownMisbehaviourType (type_url raw)).
End any.

(** ** The client *)

Definition mock_client_type : ClientType := mkClientType MOCK_CLIENT_TYPE.

(** [E::ClientStateRef: From<MockClientState>] and [ConsensusStateConverter]. *)
Class MockConverter `{TmTime, !ChainTypes} := {
  mock_client_state_from : MockClientState → ClientState;
  mock_consensus_state_from : MockConsensusState → ConsensusState;
  mock_consensus_state_try_into : ConsensusState → outcome ClientError MockConsensusState;
}.

Section client.
Context `{MockCodec, Unicode, !ChainTypes, !MockConverter, !Codec}.

Definition mock_validate_proof_height (self : MockClientState) (proof_height : Height) :
    outcome ClientError () :=
  fail_if (Height_ltb (MockClientState_latest_height self) proof_height)
    (InvalidProofHeight (MockClientState_latest_height self) proof_height).

Definition mock_verify_upgrade_client (self : MockClientState) (upgraded_client_state
    upgraded_consensus_state : Any) (_ _ : CommitmentProofBytes) (_ : CommitmentRoot) :
    outcome ClientError () :=
  upgraded_mock_client_state ← MockClientState_try_from upgraded_client_state;
  MockConsensusState_try_from upgraded_consensus_state;;
  fail_if (negb (Height_ltb (MockClientState_latest_height self)
                            (MockClientState_latest_height upgraded_mock_client_state)))
    (Upgrade (LowUpgradeHeight (MockClientState_latest_height self)
                (MockClientState_latest_height upgraded_mock_client_state))).

Definition mock_verify_client_message (client_message : Any) : outcome ClientError () :=
  if (type_url client_message =? MOCK_HEADER_TYPE_URL)%string
  then MockHeader_try_from client_message;; Ok tt
  else if (type_url client_message =? MOCK_MISBEHAVIOUR_TYPE_URL)%string
  then Misbehaviour_try_from client_message;; Ok tt
  else Ok tt.

Definition mock_check_for_misbehaviour (self : MockClientState) (client_message : Any) :
    outcome ClientError bool :=
  if (type_url client_message =? MOCK_HEADER_TYPE_URL)%string then Ok false
  else if (type_url client_message =? MOCK_MISBEHAVIOUR_TYPE_URL)%string then
    misbehaviour ← Misbehaviour_try_from client_message;
    let header_1 := header1 misbehaviour in
    let header_2 := header2 misbehaviour in
    let header_heights_equal := bool_decide (mh_height header_1 = mh_height header_2) in
    let headers_are_in_future :=
      Height_ltb (MockClientState_latest_height self) (mh_height header_1) in
    Ok (header_heights_equal && headers_are_in_future)
  else Err (UnknownHeaderType (type_url client_message)).

Definition mock_status (self : MockClientState) (host : Host) (s : IbcStore)
    (client_id : ClientId) : outcome ClientError Status :=
  if frozen self then Ok Frozen
  else match consensus_state s (state_path client_id (MockClientState_latest_height self)) with
  | Ok cs =>
    latest_consensus_state ← mock_consensus_state_try_into cs;
    now ← map_err ClientError_from_ContextError (host_timestamp (Host:=host));
    let timestamp := mh_timestamp (mcons_header latest_consensus_state) in
    ok_or (Timestamp_duration_since now timestamp)
      (ClientOther (future_consensus_state now timestamp));;
    Ok Active
  | Err _ => Ok StatusExpired
  | Panic => Panic
  end.

Definition mock_initialise (self : MockClientState) (host : Host) (client_id : ClientId)
    (consensus_state : Any) : exec IbcStore ClientError () :=
  mock_consensus_state ← lift (MockConsensusState_try_from consensus_state);
  in_client (store_client_state (mkClientStatePath client_id) (mock_client_state_from self));;
  in_client (store_consensus_state (state_path client_id (MockClientState_latest_height self))
    (mock_consensus_state_from mock_consensus_state)).

(** Both writes of an update, and its metadata. *)
Definition mock_store_update (host : Host) (client_id : ClientId) (new_client_state : MockClientState)
    (new_consensus_state : MockConsensusState) : exec IbcStore ClientError () :=
  let height := MockClientState_latest_height new_client_state in
  in_client (store_consensus_state (state_path client_id height)
    (mock_consensus_state_from new_consensus_state));;
  in_client (store_client_state (mkClientStatePath client_id) (mock_client_state_from new_client_state));;
  timestamp ← in_client (lift (host_timestamp (Host:=host)));
  host_height ← in_client (lift (host_height (Host:=host)));
  in_client (store_update_meta client_id height timestamp host_height).

Definition mock_update_state (self : MockClientState) (host : Host) (client_id : ClientId)
    (header : Any) : exec IbcStore ClientError (list Height) :=
  header ← lift (MockHeader_try_from header);
  mock_store_update host client_id (MockClientState_new header) (MockConsensusState_new header);;
  mret [mh_height header].

Definition mock_update_state_on_misbehaviour (self : MockClientState) (host : Host)
    (client_id : ClientId) (_ : Any) : exec IbcStore ClientError () :=
  in_client (store_client_state (mkClientStatePath client_id)
    (mock_client_state_from (MockClientState_frozen self))).

Definition mock_update_state_on_upgrade (self : MockClientState) (host : Host)
    (client_id : ClientId) (upgraded_client_state upgraded_consensus_state : Any) :
    exec IbcStore ClientError Height :=
  new_client_state ← lift (MockClientState_try_from upgraded_client_state);
  new_consensus_state ← lift (MockConsensusState_try_from upgraded_consensus_state);
  mock_store_update host client_id new_client_state new_consensus_state;;
  mret (MockClientState_latest_height new_client_state).

Definition mock_verify_consensus_state (consensus_state : Any) : outcome ClientError () :=
  MockConsensusState_try_from consensus_state;; Ok tt.
Definition mock_cons_timestamp (self : MockConsensusState) : Timestamp :=
  mh_timestamp (mcons_header self).
Definition mock_verify_membership (_ : CommitmentPrefix) (_ : CommitmentProofBytes)
    (_ : CommitmentRoot) (_ : Path) (_ : bytes) : outcome ClientError () := Ok tt.
Definition mock_verify_non_membership (_ : CommitmentPrefix) (_ : CommitmentProofBytes)
    (_ : CommitmentRoot) (_ : Path) : outcome ClientError () := Ok tt.
End client.

(** A chain whose clients are all mock clients. *)
#[export] Instance mock_types `{TmTime} : ChainTypes := {|
  ClientState := MockClientState;
  ConsensusState := MockConsensusState;
  HostClientState := MockClientState;
  HostConsensusState := MockConsensusState |}.

#[export] Instance mock_converter `{TmTime} : MockConverter := {|
  mock_client_state_from := (λ cs, cs) : MockClientState → ClientState;
  mock_consensus_state_from := (λ c, c) : MockConsensusState → ConsensusState;
  mock_consensus_state_try_into := (λ c, Ok c) : ConsensusState → _ |}.

Section instance.
Context `{MockCodec, Unicode, !Codec}.

(** Proofs are not checked: every value is accepted and every absence too. *)
#[export] Instance mock_client : LightClient := {|
  cons_root := mcons_root : ConsensusState → _;
  cons_timestamp := mock_cons_timestamp : ConsensusState → _;
  client_state_try_from := MockClientState_try_from : _ → outcome _ ClientState;
  verify_consensus_state _ := mock_verify_consensus_state;
  client_type _ := mock_client_type;
  latest_height := MockClientState_latest_height : ClientState → _;
  validate_proof_height := mock_validate_proof_height : ClientState → _;
  verify_upgrade_client := mock_verify_upgrade_client : ClientState → _;
  verify_membership _ := mock_verify_membership;
  verify_non_membership _ := mock_verify_non_membership;
  verify_client_message _ _ _ _ := mock_verify_client_message;
  check_for_misbehaviour (self : ClientState) _ _ _ := mock_check_for_misbehaviour self;
  status := mock_status : ClientState → _;
  initialise := mock_initialise : ClientState → _;
  update_state := mock_update_state : ClientState → _;
  update_state_on_misbehaviour := mock_update_state_on_misbehaviour : ClientState → _;
  update_state_on_upgrade := mock_update_state_on_upgrade : ClientState → _;
|}.
End instance.

(** ** The host *)

Section host.
Context `{MockCodec, Unicode, !Codec}.

(** [MockContext] without its store, for [HostType::Mock]: the blocks of the
    history are mock headers. *)
Record MockContext := mkMockContext {
  host_chain_id : ChainId;
  max_history_size : N;
  block_history : list MockHeader;
  block_time : Duration }.


(** [self.history.last().expect(..)]. *)
Definition latest_block {E} (self : MockContext) : outcome E MockHeader :=
  match list.last (block_history self) with Some b => Ok b | None => Panic end.

Definition mock_latest_height {E} (self : MockContext) : outcome E Height :=
  mh_height <$> latest_block self.

Definition next_timestamp {E} (self : MockContext) : outcome E Timestamp :=
  block ← latest_block self;
  match Timestamp_add (mh_timestamp block) (block_time self) with Ok t => Ok t | _ => Panic end.

(** The index is computed in [usize]; the first subtraction is in [u64]. *)
Definition host_block {E} (self : MockContext) (target_height : Height) :
    outcome E (option MockHeader) :=
  latest ← revision_height <$> mock_latest_height self;
  let target := revision_height target_height in
  let len := N.of_nat (length (block_history self)) in
  if latest <? target then Ok None
  else if latest <? len then Panic
  else if target <=? latest - len then Ok None
  else Some <$> index (block_history self) (N.to_nat (len + target - latest - 1)).

Definition generate_block {E} (chain_id : ChainId) (height : N) (timestamp : Timestamp) :
    outcome E MockHeader :=
  height ← expect (Height_new (revision_number chain_id) height);
  Ok (mkMockHeader height timestamp).

(** Append the new block, or rotate the history to the left and replace the tip
    when it is full. *)
Definition push_block {E} (max_history_size : N) (history : list MockHeader)
    (new_block : MockHeader) : outcome E (list MockHeader) :=
  if max_history_size <=? N.of_nat (length history) then
    let rotated := (tail history ++ take 1 history)%list in
    if max_history_size =? 0 then Panic
    else index rotated (N.to_nat (max_history_size - 1));;
         Ok (<[N.to_nat (max_history_size - 1) := new_block]> rotated)
  else Ok (history ++ [new_block])%list.

Definition advance_host_chain_height : exec MockContext ContextError () :=
  latest_block ← reads latest_block;
  next_height ← lift (Height_increment (mh_height latest_block));
  timestamp ← reads next_timestamp;
  new_block ← reads (λ self,
    generate_block (host_chain_id self) (revision_height next_height) timestamp);
  history ← reads (λ self, push_block (max_history_size self) (block_history self) new_block);
  modify (λ self,
    mkMockContext (host_chain_id self) (max_history_size self) history (block_time self)).

(** Are the blocks at consecutive heights?  [increment] may panic. *)
Fixpoint sequential {E} (blocks : list MockHeader) : outcome E bool :=
  match blocks with
  | ph :: ((h :: _) as rest) =>
    next ← Height_increment (mh_height ph);
    if bool_decide (next = mh_height h) then sequential rest else Ok false
  | _ => Ok true
  end.

Definition MockContext_validate (self : MockContext) : outcome string () :=
  fail_if (max_history_size self <? N.of_nat (length (block_history self))) "too many entries";;
  (* the check on the latest height compares the last block with itself *)
  match list.last (block_history self) with
  | Some lh =>
    latest ← mock_latest_height self;
    fail_if (negb (bool_decide (mh_height lh = latest))) "latest height is not updated"
  | None => Ok tt
  end;;
  in_order ← sequential (block_history self);
  fail_if (negb in_order) "headers in history not sequential".

Definition REVISION_MISMATCH (expected got : N) : string :=
  "client is not in the same revision as the chain. expected: " ++ show_u64 expected
  ++ ", got: " ++ show_u64 got.
Definition HEIGHT_TOO_HIGH (height chain_height : Height) : string :=
  "client has latest height " ++ Height_to_string height
  ++ " greater than or equal to chain height " ++ Height_to_string chain_height.

Definition mock_validate_self_client (self : MockContext) (cs : MockClientState) : outcome ContextError () :=
  fail_if (frozen cs) (CtxClient (ClientFrozen ""));;
  let self_revision_number := revision_number (host_chain_id self) in
  let height := MockClientState_latest_height cs in
  fail_if (negb (self_revision_number =? height_revision_number height))
    (CtxConnection (ConnInvalidClientState (REVISION_MISMATCH self_revision_number
                                         (height_revision_number height))));;
  latest ← mock_latest_height self;
  host_current_height ← Height_increment latest;
  fail_if (negb (Height_ltb height host_current_height))
    (CtxConnection (ConnInvalidClientState (HEIGHT_TOO_HIGH height host_current_height))).

(** [From<HostBlock> for AnyConsensusState] on a mock block. *)
Definition mock_host_consensus_state (self : MockContext) (height : Height) :
    outcome ContextError MockConsensusState :=
  block ← host_block self height;
  match block with
  | Some b => Ok (MockConsensusState_new b)
  | None => Err (CtxClient (MissingLocalConsensusState height))
  end.

(** [ConsensusState::encode_vec] of the mock: [Any], then bytes. *)
Definition mock_consensus_state_encode_vec (self : MockConsensusState) :
    outcome ContextError bytes :=
  any ← MockConsensusState_into self; Ok (encode_any any).

Definition mock_host (self : MockContext) : Host := {|
  host_height := mock_latest_height self;
  host_timestamp := next_timestamp self;
  host_consensus_state := mock_host_consensus_state self : _ → outcome _ HostConsensusState;
  host_consensus_state_encode_vec :=
    mock_consensus_state_encode_vec : HostConsensusState → outcome _ bytes;
  host_client_state_try_from := MockClientState_try_from : _ → outcome _ HostClientState;
  validate_self_client := mock_validate_self_client self : HostClientState → _;
  commitment_prefix := mkCommitmentPrefix [Byte.x6d; Byte.x6f; Byte.x63; Byte.x6b];
  max_expected_time_per_block := block_time self;
  validate_message_signer _ := Ok tt;
|}.
End host.

(** ** The client stays in its frame *)

Section writes.
Context `{MockCodec, Unicode, !ChainTypes, !MockConverter, !Codec}.
Context (R : relation IbcStore) (id : ClientId).
Context (HR : WritesWithin R id mock_client_state_from mock_consensus_state_from).

Lemma mock_store_update_within host cs cons : within R (mock_store_update host id cs cons).
Proof. unfold mock_store_update. solve_within. Qed.
Hint Resolve mock_store_update_within : within.
Lemma mock_initialise_within cs host a : within R (mock_initialise cs host id a).
Proof. unfold mock_initialise. solve_within. Qed.
Lemma mock_update_state_within cs host a : within R (mock_update_state cs host id a).
Proof. unfold mock_update_state. solve_within. Qed.
Lemma mock_update_on_misbehaviour_within cs host a :
  within R (mock_update_state_on_misbehaviour cs host id a).
Proof. unfold mock_update_state_on_misbehaviour. solve_within. Qed.
Lemma mock_update_on_upgrade_within cs host a a2 :
  within R (mock_update_state_on_upgrade cs host id a a2).
Proof. unfold mock_update_state_on_upgrade. solve_within. Qed.
End writes.

#[export] Instance mock_client_frame `{MockCodec, Unicode, !Codec} : ClientFrame.
Proof.
  split; intros cs host id a.
  - apply (mock_initialise_within _ id _ cs host a).
  - apply (mock_update_state_within _ id _ cs host a).
  - apply (mock_update_on_misbehaviour_within _ id _ cs host a).
  - intros a2. apply (mock_update_on_upgrade_within _ id _ cs host a a2).
Qed.

(** ** Theorems *)

Section client_theorems.
Context `{MockCodec, Unicode, !Codec}.

(** A header that is accepted is what the client knows from then on: with a
    header that decodes and a host that knows its time and height, an update
    always succeeds, the client state is the header's, the consensus state at
    its height is the header's, and time and height of the host are recorded for
    the connection delay. *)
Theorem mock_update_records_header cs (host : Host) id msg header t h s :
  MockHeader_try_from msg = Ok header → Height_wf (mh_height header) →
  host_timestamp (Host:=host) = Ok t → host_height (Host:=host) = Ok h →
  ∃ s', mock_update_state cs host id msg s = (s', Ok [mh_height header])
    ∧ client_state s' id = Ok (MockClientState_new header)
    ∧ consensus_state s' (state_path id (mh_height header)) = Ok (MockConsensusState_new header)
    ∧ client_update_meta s' id (mh_height header) = Ok (t, h).
Proof.
  intros Hm Hwf Ht Hh. unfold mock_update_state, mock_store_update, store_consensus_state.
  eexists. unfold mbind, exec_bind, lift, in_client. rewrite Hm. cbn.
  rewrite height_new_wf by done. cbn. rewrite Ht, Hh. cbn. split_and!; [done| | |].
  - unfold client_state, err_client. cbn. by rewrite update_client_record_same.
  - unfold consensus_state, err_client. cbn. rewrite height_new_wf by done. cbn.
    rewrite update_client_record_same. cbn. rewrite update_client_record_same. cbn.
    by rewrite lookup_insert_eq.
  - unfold client_update_meta, err_client. cbn. by rewrite !lookup_insert_eq.
Qed.

(** Misbehaviour freezes the client for good: evidence of two headers at the
    same future height makes [update_client] succeed and store a frozen client
    state, after which every update and every upgrade of that client is rejected
    because it is not active. *)
Theorem misbehaviour_freezes (host : Host) s msg cs mb :
  let id := um_client_id msg in
  client_state s id = Ok cs →
  type_url (um_client_message msg) = MOCK_MISBEHAVIOUR_TYPE_URL →
  Misbehaviour_try_from (um_client_message msg) = Ok mb →
  mh_height (header1 mb) = mh_height (header2 mb) →
  height_lt (MockClientState_latest_height cs) (mh_height (header1 mb)) →
  ∃ s', update_client_execute msg s = (s', Ok tt)
    ∧ client_state s' id = Ok (MockClientState_frozen cs)
    ∧ (∀ host' msg', um_client_id msg' = id →
         validate_message_signer (Host:=host') (um_signer msg') = Ok tt →
         update_client_validate (host:=host') s' msg' = Err (CtxClient (ClientNotActive Frozen)))
    ∧ (∀ host' msg', ug_client_id msg' = id →
         validate_message_signer (Host:=host') (ug_signer msg') = Ok tt →
         upgrade_client_validate (host:=host') s' msg' = Err (CtxClient (ClientNotActive Frozen))).
Proof.
  intros id Hcs Hurl Hmb Heq Hlt. unfold update_client_execute. fold id.
  set (s' := (mock_update_state_on_misbehaviour cs host id (um_client_message msg) s).1).
  assert (∀ (s1 : IbcStore), clients s1 = clients s' →
    client_state s1 id = Ok (MockClientState_frozen cs)) as Hfr.
  { intros s1 E. unfold client_state, err_client. rewrite E. subst s'.
    unfold mock_update_state_on_misbehaviour, store_client_state, in_client, modify. cbn.
    by rewrite lookup_insert_eq. }
  eexists. unfold mbind at 1, exec_bind at 1, reads at 1. rewrite Hcs.
  unfold mbind at 1, exec_bind at 1, reads at 1. cbn.
  unfold mock_check_for_misbehaviour. rewrite Hurl, Hmb. cbn.
  rewrite bool_decide_true by done. rewrite (proj2 (Height_ltb_spec _ _)) by done. cbn.
  split_and!; [done|by apply Hfr| |].
  - intros host' msg' Hid Hs. unfold update_client_validate. rewrite Hs, Hid. cbn.
    by rewrite Hfr.
  - intros host' msg' Hid Hs. unfold upgrade_client_validate. rewrite Hs, Hid. cbn.
    by rewrite Hfr.
Qed.
End client_theorems.

Section host_theorems.
Context `{MockCodec, Unicode}.

Lemma sequential_cons {E} b l :
  sequential (E:=E) (b :: l) = Ok true ↔
  sequential (E:=E) l = Ok true
  ∧ ∀ b', list.head l = Some b' → Height_increment (E:=E) (mh_height b) = Ok (mh_height b').
Proof.
  destruct l as [|b' l]; [cbn; naive_solver|]. cbn [sequential list.head].
  destruct (Height_increment (mh_height b)) as [n|e|]; cbn; [|naive_solver..].
  case_bool_decide as Hd; [|naive_solver].
  split; [|naive_solver]. intros Hs. split; [done|]. intros ? [= <-]. by rewrite Hd.
Qed.

Lemma sequential_snoc {E} l p b :
  sequential (E:=E) l = Ok true → list.last l = Some p →
  Height_increment (E:=E) (mh_height p) = Ok (mh_height b) →
  sequential (E:=E) (l ++ [b]) = Ok true.
Proof.
  induction l as [|b0 l IH]; [done|]. intros [Hs Hh]%sequential_cons Hl Hp.
  apply sequential_cons. destruct l as [|b1 l].
  - cbn in *. split; [done|]. intros ? [= <-]. by injection Hl as ->.
  - split; [by apply IH|]. intros b' Hb'. by apply Hh.
Qed.

Lemma sequential_tail {E} l : sequential (E:=E) l = Ok true → sequential (E:=E) (tail l) = Ok true.
Proof. destruct l; [done|]. by intros [? _]%sequential_cons. Qed.

Lemma sequential_heights {E} l b0 i b :
  sequential (E:=E) (b0 :: l) = Ok true → (b0 :: l) !! i = Some b →
  mh_height b = mkHeight (height_revision_number (mh_height b0))
                         (revision_height (mh_height b0) + N.of_nat i).
Proof.
  revert b0 i. induction l as [|b1 l IH]; intros b0 i [Hs Hh]%sequential_cons.
  - destruct i; [|done]. intros [= <-]. destruct (mh_height b0). cbn. f_equal. lia.
  - destruct i as [|i]; cbn.
    + intros [= <-]. destruct (mh_height b0). cbn. f_equal. lia.
    + intros Hi. specialize (IH b1 i Hs Hi). specialize (Hh b1 eq_refl).
      unfold Height_increment, Height_add in Hh. inv_ok.
      match goal with E1 : _ = mh_height b1 |- _ => rewrite <- E1 in IH end. rewrite IH. cbn.
      f_equal. lia.
Qed.

Lemma MockContext_validate_Ok ctx :
  MockContext_validate ctx = Ok tt ↔
  N.of_nat (length (block_history ctx)) <= max_history_size ctx
  ∧ sequential (E:=string) (block_history ctx) = Ok true.
Proof.
  unfold MockContext_validate, mock_latest_height, latest_block. split.
  - intros Hv. inv_ok. match goal with H : (_ <? _) = false |- _ => apply N.ltb_ge in H end.
    split; [done|]. by match goal with x : bool |- _ => destruct x end.
  - intros [Hl Hs]. rewrite (proj2 (N.ltb_ge _ _)) by done. cbn.
    destruct (list.last _); cbn; [|by rewrite Hs]. rewrite bool_decide_true by done. cbn.
    by rewrite Hs.
Qed.

Lemma push_block_shape {E} n l b :
  n ≠ 0 → N.of_nat (length l) <= n →
  ∃ k, push_block (E:=E) n l b = Ok (drop k l ++ [b])%list ∧ (k <= 1)%nat
    ∧ N.of_nat (length (drop k l ++ [b])) <= n.
Proof.
  intros Hn Hl. unfold push_block. destruct (N.leb_spec n (N.of_nat (length l))) as [Hfull|].
  - exists 1%nat. destruct l as [|x l]; [cbn in *; lia|]. cbn [tail take drop].
    rewrite (proj2 (N.eqb_neq _ _)) by done.
    replace (N.to_nat (n - 1)) with (length l) by (cbn [length] in *; lia).
    unfold index. rewrite list_lookup_middle by done. cbn.
    rewrite <- (Nat.add_0_r (length l)) at 1. rewrite insert_app_r. cbn.
    split_and!; [done|lia|]. rewrite length_app, drop_0. cbn [length] in *. lia.
  - exists 0%nat. rewrite drop_0, length_app. cbn. split_and!; [done|lia|lia].
Qed.

(** Producing a block keeps the history of the mock chain valid: with a valid,
    non-empty history and room in the types, a block is produced one height above
    the latest, with the next timestamp; the history stays consecutive and within
    its bound, and loses at most its oldest block. *)
Theorem advance_host_chain_spec ctx b t :
  MockContext_validate ctx = Ok tt → max_history_size ctx ≠ 0 →
  list.last (block_history ctx) = Some b →
  height_revision_number (mh_height b) = revision_number (host_chain_id ctx) →
  is_u64 (revision_height (mh_height b) + 1) →
  Timestamp_add (mh_timestamp b) (block_time ctx) = Ok t →
  let b' := mkMockHeader (mkHeight (height_revision_number (mh_height b))
                            (revision_height (mh_height b) + 1)) t in
  ∃ ctx' k, advance_host_chain_height ctx = (ctx', Ok tt)
    ∧ MockContext_validate ctx' = Ok tt
    ∧ block_history ctx' = (drop k (block_history ctx) ++ [b'])%list ∧ (k <= 1)%nat.
Proof.
  intros [Hl Hs]%MockContext_validate_Ok Hn Hb Hr Hu Ht b'.
  destruct (push_block_shape (E:=ContextError) (max_history_size ctx) (block_history ctx) b' Hn Hl)
    as (k & Hpush & Hk & Hlen).
  assert (∀ E, Height_increment (E:=E) (mh_height b) = Ok (mh_height b')) as Hinc.
  { intros E. unfold Height_increment, Height_add. by rewrite u64_add_fits. }
  eexists _, k. unfold advance_host_chain_height, next_timestamp, latest_block. run_exec.
  rewrite Hb. cbn. rewrite Hinc. cbn. rewrite Ht. cbn. unfold generate_block.
  rewrite <- Hr. unfold Height_new. cbn. rewrite (proj2 (N.eqb_neq _ 0)) by lia. cbn.
  fold b'. rewrite Hpush. cbn. split_and!; [done| |done|done].
  apply MockContext_validate_Ok. cbn. split; [done|].
  destruct k as [|[|k]]; [|..|lia].
  - rewrite drop_0. by eapply sequential_snoc.
  - destruct (block_history ctx) as [|b1 l]; [done|]. cbn [drop].
    apply sequential_cons in Hs as [Hs _]. destruct l as [|b2 l]; [done|].
    by eapply sequential_snoc.
Qed.

(** Looking up a block of a valid history never panics and finds exactly the
    block of the asked height, if it has not been pruned. *)
Theorem host_block_spec ctx b0 h :
  MockContext_validate ctx = Ok tt → list.head (block_history ctx) = Some b0 →
  1 <= revision_height (mh_height b0) →
  ∃ r, host_block (E:=ContextError) ctx h = Ok r
    ∧ ∀ b, r = Some b ↔ b ∈ block_history ctx
                      ∧ revision_height (mh_height b) = revision_height h.
Proof.
  intros [_ Hs]%MockContext_validate_Ok Hb0 Hpos.
  destruct (block_history ctx) as [|b0' l] eqn:El; [done|]. injection Hb0 as ->.
  assert (∀ i b, (b0 :: l) !! i = Some b →
    revision_height (mh_height b) = revision_height (mh_height b0) + N.of_nat i) as Hat.
  { intros i b Hi. by rewrite (sequential_heights l b0 i b Hs Hi). }
  assert (∀ b, b ∈ (b0 :: l) → revision_height (mh_height b) <= revision_height (mh_height b0)
    + N.of_nat (length l)) as Hmax.
  { intros b [i Hi]%list_elem_of_lookup_1. rewrite (Hat _ _ Hi).
    apply lookup_lt_Some in Hi. cbn in Hi. lia. }
  destruct (list.last (b0 :: l)) as [bl|] eqn:Elast; [|by apply last_None in Elast].
  assert (revision_height (mh_height bl) = revision_height (mh_height b0) + N.of_nat (length l))
    as Hbl.
  { apply Hat. by rewrite last_lookup in Elast. }
  unfold host_block, mock_latest_height, latest_block. rewrite El, Elast. cbn [mbind fmap
    outcome_bind outcome_fmap length]. rewrite Hbl.
  destruct (N.ltb_spec (revision_height (mh_height b0) + N.of_nat (length l)) (revision_height h)).
  { eexists. split; [done|]. intros b. split; [done|]. intros [Hin E]. apply Hmax in Hin. lia. }
  rewrite (proj2 (N.ltb_ge _ _)) by lia.
  destruct (N.leb_spec (revision_height h)
    (revision_height (mh_height b0) + N.of_nat (length l) - N.of_nat (S (length l)))).
  { eexists. split; [done|]. intros b. split; [done|].
    intros [[i Hi]%list_elem_of_lookup_1 E]. rewrite (Hat _ _ Hi) in E. lia. }
  set (i := N.to_nat _). assert (i < length (b0 :: l))%nat as Hi by (cbn; lia).
  apply lookup_lt_is_Some in Hi as [b Hb]. unfold index. rewrite Hb. eexists. split; [done|].
  assert (N.of_nat i = revision_height h - revision_height (mh_height b0)) as Ei by lia.
  intros b'. split.
  - intros [= <-]. split; [by eapply list_elem_of_lookup_2|]. rewrite (Hat _ _ Hb). lia.
  - intros [[j Hj]%list_elem_of_lookup_1 E]. rewrite (Hat _ _ Hj) in E.
    assert (j = i) as -> by lia. congruence.
Qed.
End host_theorems.
