(* ===== verification/TmTypes.v ===== *)
(** * Tendermint light client data (ICS-07)

    [ibc-clients/ics07-tendermint/types/src]: trust thresholds, client and
    consensus states, headers and misbehaviour, their checks and their protobuf
    conversions.  Blocks, validator sets and hashes belong to the [tendermint]
    crates: the class [TmLib]. *)

From S2P Require Import Prelude RustStr Identifiers Primitives Path Connection Channel Context Merkle.
Local Open Scope string_scope.
Local Open Scope N_scope.

(** ** The tendermint crates *)

(** The protobuf messages for durations and times. *)
Record ProtoDuration := mkProtoDuration { pd_seconds : Z; pd_nanos : Z }.
Record ProtoTimestamp := mkProtoTimestamp { pt_seconds : Z; pt_nanos : Z }.

Class TmLib `{TmTime} := {
  TmHash : Type;
  TmHash_eq_dec :: EqDecision TmHash;
  SignedHeader : Type;
  ValidatorSet : Type;
  RawSignedHeader : Type;
  RawValidatorSet : Type;
  TendermintError : Type;
  (** fields of the signed header, and the hash of the block its commit is for *)
  sh_chain_id : SignedHeader → string;
  sh_height : SignedHeader → N;
  sh_time : SignedHeader → Time;
  sh_validators_hash : SignedHeader → TmHash;
  sh_next_validators_hash : SignedHeader → TmHash;
  sh_app_hash : SignedHeader → bytes;
  sh_block_id_hash : SignedHeader → TmHash;
  validator_set_hash : ValidatorSet → TmHash;
  (** conversions *)
  signed_header_try_from : RawSignedHeader → outcome TendermintError SignedHeader;
  signed_header_into : SignedHeader → RawSignedHeader;
  validator_set_try_from : RawValidatorSet → outcome TendermintError ValidatorSet;
  validator_set_into : ValidatorSet → RawValidatorSet;
  hash_from_bytes : bytes → outcome TendermintError TmHash;
  hash_as_bytes : TmHash → bytes;
  time_try_from : ProtoTimestamp → outcome TendermintError Time;
  time_into : Time → ProtoTimestamp;
  duration_try_from : ProtoDuration → option Duration;
  duration_into : Duration → ProtoDuration;
  (** [TrustThresholdFraction::new], [chain::Id::try_from], [block::Height::try_from] *)
  trust_threshold_fraction_new : N → N → outcome TendermintError ();
  tm_chain_id_try_from : string → outcome TendermintError string;
  block_height_try_from : N → outcome TendermintError N;
  MAX_CHAIN_ID_LEN : N;
  (** texts *)
  tendermint_error_to_string : TendermintError → string;
  duration_debug : Duration → string;
}.

Class TmLibLaws `{TmLib} := {
  signed_header_roundtrip h : signed_header_try_from (signed_header_into h) = Ok h;
  validator_set_roundtrip v : validator_set_try_from (validator_set_into v) = Ok v;
  hash_roundtrip h : hash_from_bytes (hash_as_bytes h) = Ok h;
  time_roundtrip t : time_try_from (time_into t) = Ok t;
  (** protobuf counts seconds in a signed 64-bit integer *)
  duration_roundtrip d : as_secs d < 2 ^ 63 → duration_try_from (duration_into d) = Some d;
  duration_range p d : duration_try_from p = Some d → as_secs d < 2 ^ 63;
}.

(** ** Errors *)

Section errors.
Context `{TmLib}.

Inductive TmError :=
| TmInvalidIdentifier (e : IdentifierError)
| TmInvalidHeader (reason : string) (error : TendermintError)
| TmInvalidTrustThreshold (reason : string)
| TmInvalidTendermintTrustThreshold (e : TendermintError)
| TmInvalidMaxClockDrift (reason : string)
| TmInvalidLatestHeight (reason : string)
| TmMissingSignedHeader
| TmValidation (reason : string)
| TmInvalidProofSpec (e : CommitmentError)
| TmInvalidRawClientState (reason : string)
| TmMissingValidatorSet
| TmMissingTrustedNextValidatorSet
| TmMissingTrustedHeight
| TmMissingTrustingPeriod
| TmMissingUnbondingPeriod
| TmNegativeMaxClockDrift
| TmMissingLatestHeight
| TmInvalidRawHeader (e : TendermintError)
| TmInvalidRawMisbehaviour (reason : string)
| TmHeaderTimestampTooHigh (actual max : string)
| TmHeaderTimestampTooLow (actual min : string)
| TmInvalidHeaderHeight (height : N)
| TmMissingFrozenHeight
| TmMismatchHeightRevisions (trusted_revision header_revision : N)
| TmMismatchHeaderChainId (given expected : string)
| TmNotEnoughTrustedValsSigned (reason : string)
| TmVerificationError (detail : string)
| TmUpdateMetaDataNotFound (client_id : ClientId) (height : Height)
| TmMismatchValidatorsHashes (validators_hash signed_header_validators_hash : TmHash)
| TmConsensusStateTimestampGteTrustingPeriod
    (duration_since_consensus_state trusting_period : Duration)
| TmMisbehaviourHeadersBlockHashesEqual
| TmMisbehaviourHeadersNotAtSameHeight.
End errors.

(** [Display] of the errors, and [prost] on the messages below. *)
Class TmText `{TmLib} := {
  tm_error_to_string : TmError → string;
  tm_client_error_to_string : ClientError → string;
  (** the text [Protobuf::decode] makes of a failed conversion *)
  tm_conversion_text : TmError → string;
}.

(** [From<Error> for ClientError], inserted by [?]. *)
Definition err_tm `{TmText} {A} : outcome TmError A → outcome ClientError A :=
  map_err (λ e, ClientSpecific (tm_error_to_string e)).

(** ** Trust thresholds *)

Record TrustThreshold := mkTrustThreshold { numerator : N; denominator : N }.
#[export] Instance TrustThreshold_eq_dec : EqDecision TrustThreshold.
Proof. solve_decision. Defined.

Definition TrustThreshold_ONE_THIRD : TrustThreshold := mkTrustThreshold 1 3.
Definition TrustThreshold_TWO_THIRDS : TrustThreshold := mkTrustThreshold 2 3.
Definition TrustThreshold_ZERO : TrustThreshold := mkTrustThreshold 0 0.

Record Fraction := mkFraction { fr_numerator : N; fr_denominator : N }.

Section trust_threshold.
Context `{TmText}.

Definition TrustThreshold_new (numerator denominator : N) : outcome ClientError TrustThreshold :=
  fail_if ((denominator <? numerator) || ((denominator =? 0) && negb (numerator =? 0))
           || ((numerator =? denominator) && negb (numerator =? 0)))
    (InvalidTrustThreshold numerator denominator);;
  Ok (mkTrustThreshold numerator denominator).
(** [TryFrom<TrustThreshold> for TrustThresholdFraction]. *)
Definition TrustThresholdFraction_try_from (t : TrustThreshold) : outcome ClientError TrustThreshold :=
  map_err (λ _, FailedTrustThresholdConversion (numerator t) (denominator t))
    (trust_threshold_fraction_new (numerator t) (denominator t));;
  Ok t.
Definition Fraction_from (t : TrustThreshold) : Fraction :=
  mkFraction (numerator t) (denominator t).
Definition TrustThreshold_try_from (value : Fraction) : outcome ClientError TrustThreshold :=
  TrustThreshold_new (fr_numerator value) (fr_denominator value).
End trust_threshold.

Definition TrustThreshold_to_string (t : TrustThreshold) : string :=
  show_u64 (numerator t) ++ "/" ++ show_u64 (denominator t).

(** ** Client states *)

Record AllowUpdate := mkAllowUpdate { after_expiry : bool; after_misbehaviour : bool }.
#[export] Instance AllowUpdate_eq_dec : EqDecision AllowUpdate.
Proof. solve_decision. Defined.

Record TmClientState := mkTmClientState {
  tm_chain_id : ChainId;
  tm_trust_level : TrustThreshold;
  tm_trusting_period : Duration;
  tm_unbonding_period : Duration;
  tm_max_clock_drift : Duration;
  tm_latest_height : Height;
  tm_proof_specs : ProofSpecs;
  tm_upgrade_path : list string;
  tm_allow_update : AllowUpdate;
  tm_frozen_height : option Height }.
#[export] Instance TmClientState_eq_dec : EqDecision TmClientState.
Proof. solve_decision. Defined.

Definition TENDERMINT_CLIENT_TYPE : string := "07-tendermint".
Definition tm_client_type : ClientType := mkClientType TENDERMINT_CLIENT_TYPE.
Definition TENDERMINT_CLIENT_STATE_TYPE_URL : string :=
  "/ibc.lightclients.tendermint.v1.ClientState".
Definition TENDERMINT_CONSENSUS_STATE_TYPE_URL : string :=
  "/ibc.lightclients.tendermint.v1.ConsensusState".
Definition TENDERMINT_HEADER_TYPE_URL : string := "/ibc.lightclients.tendermint.v1.Header".
Definition TENDERMINT_MISBEHAVIOUR_TYPE_URL : string :=
  "/ibc.lightclients.tendermint.v1.Misbehaviour".

(** Options of the verifier. *)
Record Options := mkOptions {
  opt_trust_threshold : TrustThreshold; opt_trusting_period : Duration; opt_clock_drift : Duration }.

Section client_state.
Context `{TmText}.

(** The loop over the keys of the upgrade path. *)
Fixpoint validate_upgrade_path (idx : N) (path : list string) : outcome TmError () :=
  match path with
  | [] => Ok tt
  | key :: path =>
    fail_if (trim key =? "")%string (TmValidation ("ClientState upgrade-path key at index "
      ++ show_u64 idx ++ " cannot be empty"));;
    validate_upgrade_path (idx + 1) path
  end.

Definition TmClientState_validate (self : TmClientState) : outcome TmError () :=
  map_err TmInvalidIdentifier (ChainId_validate_length (tm_chain_id self) 3 MAX_CHAIN_ID_LEN);;
  fail_if (bool_decide (tm_trust_level self = TrustThreshold_ZERO))
    (TmInvalidTrustThreshold "ClientState trust-level cannot be zero");;
  map_err TmInvalidTendermintTrustThreshold (trust_threshold_fraction_new
    (numerator (tm_trust_level self)) (denominator (tm_trust_level self)));;
  fail_if (tm_trusting_period self <=? 0) (TmInvalidTrustThreshold
    ("ClientState trusting period (" ++ duration_debug (tm_trusting_period self)
     ++ ") must be greater than zero"));;
  fail_if (tm_unbonding_period self <=? 0) (TmInvalidTrustThreshold
    ("ClientState unbonding period (" ++ duration_debug (tm_unbonding_period self)
     ++ ") must be greater than zero"));;
  fail_if (tm_unbonding_period self <=? tm_trusting_period self) (TmInvalidTrustThreshold
    ("ClientState trusting period (" ++ duration_debug (tm_trusting_period self)
     ++ ") must be smaller than unbonding period (" ++ duration_debug (tm_unbonding_period self)
     ++ ")"));;
  fail_if (tm_max_clock_drift self <=? 0)
    (TmInvalidMaxClockDrift "ClientState max-clock-drift must be greater than zero");;
  fail_if (negb (height_revision_number (tm_latest_height self)
                 =? revision_number (tm_chain_id self)))
    (TmInvalidLatestHeight "ClientState latest-height revision number must match chain-id version");;
  map_err TmInvalidProofSpec (ProofSpecs_validate (tm_proof_specs self));;
  validate_upgrade_path 0 (tm_upgrade_path self).

Definition TmClientState_new (chain_id : ChainId) (trust_level : TrustThreshold)
    (trusting_period unbonding_period max_clock_drift : Duration) (latest_height : Height)
    (proof_specs : ProofSpecs) (upgrade_path : list string) (allow_update : AllowUpdate) :
    outcome TmError TmClientState :=
  let client_state := mkTmClientState chain_id trust_level trusting_period unbonding_period
    max_clock_drift latest_height proof_specs upgrade_path allow_update None in
  TmClientState_validate client_state;;
  Ok client_state.

Definition with_latest_height (self : TmClientState) (h : Height) : TmClientState :=
  mkTmClientState (tm_chain_id self) (tm_trust_level self) (tm_trusting_period self)
    (tm_unbonding_period self) (tm_max_clock_drift self) h (tm_proof_specs self)
    (tm_upgrade_path self) (tm_allow_update self) (tm_frozen_height self).
Definition with_frozen_height (self : TmClientState) (h : Height) : TmClientState :=
  mkTmClientState (tm_chain_id self) (tm_trust_level self) (tm_trusting_period self)
    (tm_unbonding_period self) (tm_max_clock_drift self) (tm_latest_height self)
    (tm_proof_specs self) (tm_upgrade_path self) (tm_allow_update self) (Some h).

(** [2 * self.trusting_period / 3]; the product may overflow a [Duration]. *)
Definition DURATION_LIMIT : N := U64_SIZE * NANOS_PER_SEC.
Definition refresh_time {E} (self : TmClientState) : outcome E (option Duration) :=
  let doubled := 2 * tm_trusting_period self in
  if doubled <? DURATION_LIMIT then Ok (Some (doubled / 3)) else Panic.

Definition as_light_client_options (self : TmClientState) : outcome TmError Options :=
  trust_threshold ← map_err (λ e, TmInvalidTrustThreshold (tm_client_error_to_string e))
    (TrustThresholdFraction_try_from (tm_trust_level self));
  Ok (mkOptions trust_threshold (tm_trusting_period self) (tm_max_clock_drift self)).

Definition TmClientState_is_frozen (self : TmClientState) : bool :=
  match tm_frozen_height self with Some _ => true | None => false end.

Definition zero_custom_fields (self : TmClientState) : TmClientState :=
  mkTmClientState (tm_chain_id self) TrustThreshold_ZERO 0 (tm_unbonding_period self) 0
    (tm_latest_height self) (tm_proof_specs self) (tm_upgrade_path self)
    (mkAllowUpdate false false) None.

Record RawTmClientState := mkRawTmClientState {
  rtc_chain_id : string;
  rtc_trust_level : option Fraction;
  rtc_trusting_period : option ProtoDuration;
  rtc_unbonding_period : option ProtoDuration;
  rtc_max_clock_drift : option ProtoDuration;
  rtc_frozen_height : option RawHeight;
  rtc_latest_height : option RawHeight;
  rtc_proof_specs : list RawProofSpec;
  rtc_upgrade_path : list string;
  rtc_allow_update_after_expiry : bool;
  rtc_allow_update_after_misbehaviour : bool }.

Definition TmClientState_try_from_raw `{Unicode} (raw : RawTmClientState) :
    outcome TmError TmClientState :=
  chain_id ← map_err TmInvalidIdentifier (ChainId_from_str (rtc_chain_id raw));
  trust_level ← ok_or (rtc_trust_level raw) TmMissingTrustingPeriod;
  trust_level ← map_err (λ e, TmInvalidTrustThreshold (tm_client_error_to_string e))
    (TrustThreshold_try_from trust_level);
  trusting_period ← ok_or (rtc_trusting_period raw) TmMissingTrustingPeriod;
  trusting_period ← ok_or (duration_try_from trusting_period) TmMissingTrustingPeriod;
  unbonding_period ← ok_or (rtc_unbonding_period raw) TmMissingUnbondingPeriod;
  unbonding_period ← ok_or (duration_try_from unbonding_period) TmMissingUnbondingPeriod;
  max_clock_drift ← ok_or (rtc_max_clock_drift raw) TmNegativeMaxClockDrift;
  max_clock_drift ← ok_or (duration_try_from max_clock_drift) TmNegativeMaxClockDrift;
  latest_height ← ok_or (rtc_latest_height raw) TmMissingLatestHeight;
  latest_height ← map_err (λ _, TmMissingLatestHeight) (Height_try_from_raw latest_height);
  frozen_height ← ok_or (rtc_frozen_height raw) TmMissingFrozenHeight;
  let frozen_height := ok (Height_try_from_raw frozen_height) in
  let allow_update := mkAllowUpdate (rtc_allow_update_after_expiry raw)
    (rtc_allow_update_after_misbehaviour raw) in
  Ok (mkTmClientState chain_id trust_level trusting_period unbonding_period max_clock_drift
        latest_height (ProofSpecs_from (rtc_proof_specs raw)) (rtc_upgrade_path raw) allow_update
        frozen_height).

Definition RawTmClientState_from (value : TmClientState) : RawTmClientState :=
  mkRawTmClientState (chain_id (tm_chain_id value)) (Some (Fraction_from (tm_trust_level value)))
    (Some (duration_into (tm_trusting_period value)))
    (Some (duration_into (tm_unbonding_period value)))
    (Some (duration_into (tm_max_clock_drift value)))
    (Some match tm_frozen_height value with
          | Some h => Height_into_raw h
          | None => mkRawHeight 0 0
          end)
    (Some (Height_into_raw (tm_latest_height value))) (RawProofSpecs_from (tm_proof_specs value))
    (tm_upgrade_path value) (after_expiry (tm_allow_update value))
    (after_misbehaviour (tm_allow_update value)).
End client_state.

(** ** Consensus states, headers and misbehaviour *)

Section blocks.
Context `{TmText, Unicode}.

Record TmConsensusState := mkTmConsensusState {
  tc_timestamp : Time; tc_root : CommitmentRoot; tc_next_validators_hash : TmHash }.
#[export] Instance TmConsensusState_eq_dec : EqDecision TmConsensusState.
Proof. solve_decision. Defined.

Record RawTmConsensusState := mkRawTmConsensusState {
  rcs_timestamp : option ProtoTimestamp; rcs_root : option bytes; rcs_next_validators_hash : bytes }.

Definition TmConsensusState_try_from_raw (raw : RawTmConsensusState) :
    outcome TmError TmConsensusState :=
  proto_root ← ok_or (rcs_root raw) (TmInvalidRawClientState "missing commitment root");
  proto_timestamp ← ok_or (rcs_timestamp raw) (TmInvalidRawClientState "missing timestamp");
  timestamp ← map_err (λ e, TmInvalidRawClientState
    ("invalid timestamp: " ++ tendermint_error_to_string e)) (time_try_from proto_timestamp);
  next_validators_hash ← map_err (λ e, TmInvalidRawClientState (tendermint_error_to_string e))
    (hash_from_bytes (rcs_next_validators_hash raw));
  Ok (mkTmConsensusState timestamp (mkCommitmentRoot proto_root) next_validators_hash).
Definition RawTmConsensusState_from (value : TmConsensusState) : RawTmConsensusState :=
  mkRawTmConsensusState (Some (time_into (tc_timestamp value))) (Some (root_bytes (tc_root value)))
    (hash_as_bytes (tc_next_validators_hash value)).

Record TmHeader := mkTmHeader {
  signed_header : SignedHeader;
  validator_set : ValidatorSet;
  trusted_height : Height;
  trusted_next_validator_set : ValidatorSet }.

(** [From<tendermint::block::Header>] and [From<Header> for ConsensusState]. *)
Definition TmConsensusState_from_block (header : SignedHeader) : TmConsensusState :=
  mkTmConsensusState (sh_time header) (mkCommitmentRoot (sh_app_hash header))
    (sh_next_validators_hash header).
Definition TmConsensusState_from_header (header : TmHeader) : TmConsensusState :=
  TmConsensusState_from_block (signed_header header).

Definition TmHeader_timestamp (self : TmHeader) : Timestamp :=
  mkTimestamp (Some (sh_time (signed_header self))).
(** Both [expect]s of [Header::height]. *)
Definition TmHeader_height {E} (self : TmHeader) : outcome E Height :=
  chain_id ← expect (ChainId_from_str (sh_chain_id (signed_header self)));
  expect (Height_new (revision_number chain_id) (sh_height (signed_header self))).

Definition TmClientState_with_header (self : TmClientState) (header : TmHeader) :
    outcome TmError TmClientState :=
  header_height ← TmHeader_height header;
  Ok (with_latest_height self
        (if Height_gtb header_height (tm_latest_height self) then header_height
         else tm_latest_height self)).

Record UntrustedBlockState := mkUntrustedBlockState {
  ub_signed_header : SignedHeader; ub_validators : ValidatorSet;
  ub_next_validators : option ValidatorSet }.
Record TrustedBlockState := mkTrustedBlockState {
  tb_chain_id : string; tb_header_time : Time; tb_height : N;
  tb_next_validators : ValidatorSet; tb_next_validators_hash : TmHash }.

Definition as_untrusted_block_state (self : TmHeader) : UntrustedBlockState :=
  mkUntrustedBlockState (signed_header self) (validator_set self) None.
Definition as_trusted_block_state (self : TmHeader) (consensus_state : TmConsensusState)
    (chain_id : string) : outcome TmError TrustedBlockState :=
  height ← map_err (λ _, TmInvalidHeaderHeight (revision_height (trusted_height self)))
    (block_height_try_from (revision_height (trusted_height self)));
  Ok (mkTrustedBlockState chain_id (tc_timestamp consensus_state) height
        (trusted_next_validator_set self) (tc_next_validators_hash consensus_state)).

Definition verify_chain_id_version_matches_height (self : TmHeader) (chain_id' : ChainId) :
    outcome TmError () :=
  height ← TmHeader_height self;
  fail_if (negb (height_revision_number height =? revision_number chain_id'))
    (TmMismatchHeaderChainId (sh_chain_id (signed_header self)) (chain_id chain_id')).

Definition check_trusted_next_validator_set (self : TmHeader)
    (trusted_consensus_state : TmConsensusState) : outcome ClientError () :=
  if bool_decide (validator_set_hash (trusted_next_validator_set self)
                  = tc_next_validators_hash trusted_consensus_state) then Ok tt
  else Err (HeaderVerificationFailure
    "header trusted next validator set hash does not match hash stored on chain").

Definition TmHeader_validate_basic (self : TmHeader) : outcome TmError () :=
  height ← TmHeader_height self;
  fail_if (negb (height_revision_number height =? height_revision_number (trusted_height self)))
    (TmMismatchHeightRevisions (height_revision_number (trusted_height self))
       (height_revision_number height));;
  fail_if (negb (Height_ltb (trusted_height self) height))
    (TmInvalidHeaderHeight (revision_height height));;
  fail_if (negb (bool_decide (validator_set_hash (validator_set self)
                              = sh_validators_hash (signed_header self))))
    (TmMismatchValidatorsHashes (validator_set_hash (validator_set self))
       (sh_validators_hash (signed_header self))).

Record RawTmHeader := mkRawTmHeader {
  rh_signed_header : option RawSignedHeader;
  rh_validator_set : option RawValidatorSet;
  rh_trusted_height : option RawHeight;
  rh_trusted_validators : option RawValidatorSet }.

Definition TmHeader_try_from_raw (raw : RawTmHeader) : outcome TmError TmHeader :=
  signed_header ← ok_or (rh_signed_header raw) TmMissingSignedHeader;
  signed_header ← map_err (TmInvalidHeader "signed header conversion")
    (signed_header_try_from signed_header);
  validator_set ← ok_or (rh_validator_set raw) TmMissingValidatorSet;
  validator_set ← map_err TmInvalidRawHeader (validator_set_try_from validator_set);
  trusted_height ← ok_or (raw_height ← rh_trusted_height raw; ok (Height_try_from_raw raw_height))
    TmMissingTrustedHeight;
  trusted_validators ← ok_or (rh_trusted_validators raw) TmMissingTrustedNextValidatorSet;
  trusted_validators ← map_err TmInvalidRawHeader (validator_set_try_from trusted_validators);
  Ok (mkTmHeader signed_header validator_set trusted_height trusted_validators).
Definition RawTmHeader_from (value : TmHeader) : RawTmHeader :=
  mkRawTmHeader (Some (signed_header_into (signed_header value)))
    (Some (validator_set_into (validator_set value)))
    (Some (Height_into_raw (trusted_height value)))
    (Some (validator_set_into (trusted_next_validator_set value))).

Record TmMisbehaviour := mkTmMisbehaviour {
  mb_client_id : ClientId; mb_header1 : TmHeader; mb_header2 : TmHeader }.
Record RawTmMisbehaviour := mkRawTmMisbehaviour {
  rmb_client_id : string; rmb_header_1 : option RawTmHeader; rmb_header_2 : option RawTmHeader }.

Definition TmMisbehaviour_validate_basic (self : TmMisbehaviour) : outcome TmError () :=
  TmHeader_validate_basic (mb_header1 self);;
  TmHeader_validate_basic (mb_header2 self);;
  fail_if (negb (sh_chain_id (signed_header (mb_header1 self))
                 =? sh_chain_id (signed_header (mb_header2 self)))%string)
    (TmInvalidRawMisbehaviour "headers must have identical chain_ids");;
  height1 ← TmHeader_height (mb_header1 self);
  height2 ← TmHeader_height (mb_header2 self);
  fail_if (Height_ltb height1 height2) (TmInvalidRawMisbehaviour
    ("header1 height is less than header2 height (" ++ Height_to_string height1 ++ " < "
     ++ Height_to_string height2 ++ ")")).

Definition TmMisbehaviour_try_from_raw (raw : RawTmMisbehaviour) : outcome TmError TmMisbehaviour :=
  client_id ← map_err TmInvalidIdentifier (ClientId_from_str (rmb_client_id raw));
  header1 ← ok_or (rmb_header_1 raw) (TmInvalidRawMisbehaviour "missing header1");
  header1 ← TmHeader_try_from_raw header1;
  header2 ← ok_or (rmb_header_2 raw) (TmInvalidRawMisbehaviour "missing header2");
  header2 ← TmHeader_try_from_raw header2;
  Ok (mkTmMisbehaviour client_id header1 header2).
Definition RawTmMisbehaviour_from (value : TmMisbehaviour) : RawTmMisbehaviour :=
  mkRawTmMisbehaviour (client_id_str (mb_client_id value)) (Some (RawTmHeader_from (mb_header1 value)))
    (Some (RawTmHeader_from (mb_header2 value))).
End blocks.

(** ** Conversions from [Any] *)

(** [prost] on the four messages; decoding returns the text of its error. *)
Class TmCodec `{TmLib} := {
  decode_tm_client_state : bytes → outcome string RawTmClientState;
  encode_tm_client_state : RawTmClientState → bytes;
  decode_tm_consensus_state : bytes → outcome string RawTmConsensusState;
  encode_tm_consensus_state : RawTmConsensusState → bytes;
  decode_tm_header : bytes → outcome string RawTmHeader;
  encode_tm_header : RawTmHeader → bytes;
  decode_tm_misbehaviour : bytes → outcome string RawTmMisbehaviour;
  encode_tm_misbehaviour : RawTmMisbehaviour → bytes;
}.
Class TmCodecLaws `{TmCodec} := {
  tm_client_state_codec r : decode_tm_client_state (encode_tm_client_state r) = Ok r;
  tm_consensus_state_codec r : decode_tm_consensus_state (encode_tm_consensus_state r) = Ok r;
  tm_header_codec r : decode_tm_header (encode_tm_header r) = Ok r;
  tm_misbehaviour_codec r : decode_tm_misbehaviour (encode_tm_misbehaviour r) = Ok r;
}.

Section any.
Context `{TmText, Unicode, !TmCodec}.

(** [Protobuf::<Raw>::decode(value)], with its error as a [ClientError]. *)
Definition decode_as {R A} (decode : bytes → outcome string R) (try_from : R → outcome TmError A)
    (value : bytes) : outcome ClientError A :=
  raw ← map_err ClientOther (decode value);
  map_err (λ e, ClientOther (tm_conversion_text e)) (try_from raw).

Definition TmClientState_try_from (raw : Any) : outcome ClientError TmClientState :=
  if (type_url raw =? TENDERMINT_CLIENT_STATE_TYPE_URL)%string
  then decode_as decode_tm_client_state TmClientState_try_from_raw (any_value raw)
  else Err (UnknownClientStateType (type_url raw)).
Definition TmClientState_into_any (client_state : TmClientState) : Any :=
  mkAny TENDERMINT_CLIENT_STATE_TYPE_URL
    (encode_tm_client_state (RawTmClientState_from client_state)).

Definition TmConsensusState_try_from (raw : Any) : outcome ClientError TmConsensusState :=
  if (type_url raw =? TENDERMINT_CONSENSUS_STATE_TYPE_URL)%string
  then decode_as decode_tm_consensus_state TmConsensusState_try_from_raw (any_value raw)
  else Err (UnknownConsensusStateType (type_url raw)).
Definition TmConsensusState_into_any (consensus_state : TmConsensusState) : Any :=
  mkAny TENDERMINT_CONSENSUS_STATE_TYPE_URL
    (encode_tm_consensus_state (RawTmConsensusState_from consensus_state)).

Definition TmHeader_try_from (raw : Any) : outcome ClientError TmHeader :=
  if (type_url raw =? TENDERMINT_HEADER_TYPE_URL)%string
  then decode_as decode_tm_header TmHeader_try_from_raw (any_value raw)
  else Err (UnknownHeaderType (type_url raw)).
Definition TmHeader_into_any (header : TmHeader) : Any :=
  mkAny TENDERMINT_HEADER_TYPE_URL (encode_tm_header (RawTmHeader_from header)).

Definition TmMisbehaviour_try_from (raw : Any) : outcome ClientError TmMisbehaviour :=
  if (type_url raw =? TENDERMINT_MISBEHAVIOUR_TYPE_URL)%string
  then decode_as decode_tm_misbehaviour TmMisbehaviour_try_from_raw (any_value raw)
  else Err (UnknownMisbehaviourType (type_url raw)).
Definition TmMisbehaviour_into_any (misbehaviour : TmMisbehaviour) : Any :=
  mkAny TENDERMINT_MISBEHAVIOUR_TYPE_URL
    (encode_tm_misbehaviour (RawTmMisbehaviour_from misbehaviour)).
End any.

(** ** Theorems *)

Section theorems.
Context `{TmText, Unicode, !TmCodec, !TmLibLaws, !TmCodecLaws}.

(** A trust threshold is a fraction below one, or the zero over zero that stands
    for an unset one. *)
Theorem trust_threshold_bounds n d t :
  TrustThreshold_new n d = Ok t
  ↔ t = mkTrustThreshold n d ∧ (n < d ∨ (n = 0 ∧ d = 0)).
Proof.
  assert (((d <? n) || ((d =? 0) && negb (n =? 0)) || ((n =? d) && negb (n =? 0))) = false
          ↔ n < d ∨ (n = 0 ∧ d = 0)) as <-.
  { destruct (N.ltb_spec d n), (N.eqb_spec d 0), (N.eqb_spec n 0), (N.eqb_spec n d); cbn;
      split; intros; try done; lia. }
  unfold TrustThreshold_new. rewrite bind_Ok. split.
  - intros ([] & Hf%fail_if_Ok & [= <-]). by split.
  - intros [-> Hf]. exists tt. by rewrite fail_if_Ok.
Qed.

(** What [validate] accepts. *)
Record client_state_valid (cs : TmClientState) : Prop := {
  csv_chain_id : ChainId_validate_length (tm_chain_id cs) 3 MAX_CHAIN_ID_LEN = Ok tt;
  csv_trust_level : tm_trust_level cs ≠ TrustThreshold_ZERO;
  csv_fraction : trust_threshold_fraction_new (numerator (tm_trust_level cs))
                   (denominator (tm_trust_level cs)) = Ok tt;
  csv_periods : 0 < tm_trusting_period cs < tm_unbonding_period cs;
  csv_drift : 0 < tm_max_clock_drift cs;
  csv_revision : height_revision_number (tm_latest_height cs) = revision_number (tm_chain_id cs);
  csv_specs : ProofSpecs_validate (tm_proof_specs cs) = Ok tt;
  csv_path : Forall (λ key, trim key ≠ "") (tm_upgrade_path cs);
}.

Lemma validate_upgrade_path_Ok path idx :
  validate_upgrade_path idx path = Ok tt ↔ Forall (λ key, trim key ≠ "") path.
Proof.
  revert idx. induction path as [|key path IH]; intros idx; cbn [validate_upgrade_path]; [by split|].
  rewrite Forall_cons_iff, <- (IH (idx + 1)), bind_Ok, <- String.eqb_neq. split.
  - intros ([] & Hf%fail_if_Ok & Hp). by split.
  - intros [Hf Hp]. exists tt. by rewrite fail_if_Ok.
Qed.

Lemma TmClientState_validate_Ok cs : TmClientState_validate cs = Ok tt ↔ client_state_valid cs.
Proof.
  unfold TmClientState_validate. split.
  - intros Hv. inv_ok. destruct_units.
    rewrite ?N.leb_gt, ?negb_false_iff, ?N.eqb_eq, ?bool_decide_eq_false, ?validate_upgrade_path_Ok in *.
    by split.
  - intros [Hc Ht Hf Hp Hd Hr Hs Hu]. rewrite Hc. mstep. rewrite bool_decide_eq_false_2 by done. mstep.
    rewrite Hf. mstep. rewrite !(proj2 (N.leb_gt _ _)) by lia. mstep.
    rewrite Hr, N.eqb_refl. cbn [negb fail_if]. mstep. rewrite Hs. mstep.
    by apply validate_upgrade_path_Ok.
Qed.

(** [validate] accepts exactly the client states with a chain identifier of
    reasonable length, a usable non-zero trust level, a positive trusting period
    below the unbonding period, a positive clock drift, a latest height of the
    chain's revision, sane proof specifications and no blank upgrade key; a client
    state built by [new] is one of them and is not frozen. *)
Theorem tm_client_state_validate_spec cs chain_id trust tp up drift latest specs path allow :
  (TmClientState_validate cs = Ok tt ↔ client_state_valid cs)
  ∧ (TmClientState_new chain_id trust tp up drift latest specs path allow = Ok cs
     ↔ cs = mkTmClientState chain_id trust tp up drift latest specs path allow None
       ∧ client_state_valid cs).
Proof.
  split; [apply TmClientState_validate_Ok|]. unfold TmClientState_new. rewrite bind_Ok. split.
  - intros ([] & Hv%TmClientState_validate_Ok & [= <-]). by split.
  - intros [-> Hv]. exists tt. by rewrite TmClientState_validate_Ok.
Qed.

(** *** Round trips *)

(** The client states a message can carry. *)
Record client_state_wf (cs : TmClientState) : Prop := {
  csw_chain_id : ChainId_from_str (chain_id (tm_chain_id cs)) = Ok (tm_chain_id cs);
  csw_trust_level : TrustThreshold_try_from (Fraction_from (tm_trust_level cs))
                    = Ok (tm_trust_level cs);
  csw_trusting : as_secs (tm_trusting_period cs) < 2 ^ 63;
  csw_unbonding : as_secs (tm_unbonding_period cs) < 2 ^ 63;
  csw_drift : as_secs (tm_max_clock_drift cs) < 2 ^ 63;
  csw_latest : revision_height (tm_latest_height cs) ≠ 0;
  csw_frozen : match tm_frozen_height cs with Some h => revision_height h ≠ 0 | None => True end;
}.

Lemma TmClientState_raw_roundtrip cs :
  client_state_wf cs → TmClientState_try_from_raw (RawTmClientState_from cs) = Ok cs.
Proof.
  intros [Hc Ht Hd1 Hd2 Hd3 Hl Hf]. unfold TmClientState_try_from_raw, RawTmClientState_from.
  cbn [rtc_chain_id rtc_trust_level rtc_trusting_period rtc_unbonding_period rtc_max_clock_drift
    rtc_frozen_height rtc_latest_height rtc_proof_specs rtc_upgrade_path
    rtc_allow_update_after_expiry rtc_allow_update_after_misbehaviour].
  rewrite Hc. mstep. rewrite Ht. mstep. rewrite !duration_roundtrip by done. mstep.
  rewrite Height_raw_roundtrip by done. mstep. rewrite ProofSpecs_raw_roundtrip.
  assert (ok (Height_try_from_raw match tm_frozen_height cs with
    | Some h => Height_into_raw h | None => mkRawHeight 0 0 end) = tm_frozen_height cs) as ->.
  { destruct (tm_frozen_height cs); [|done]. by rewrite Height_raw_roundtrip. }
  by destruct cs as [? ? ? ? ? ? ? ? [] ?].
Qed.

Lemma TmConsensusState_raw_roundtrip cs :
  TmConsensusState_try_from_raw (RawTmConsensusState_from cs) = Ok cs.
Proof.
  unfold TmConsensusState_try_from_raw, RawTmConsensusState_from.
  cbn [rcs_root rcs_timestamp rcs_next_validators_hash]. mstep.
  rewrite time_roundtrip. mstep. rewrite hash_roundtrip. mstep. by destruct cs as [? [] ?].
Qed.

Lemma TmHeader_raw_roundtrip h :
  revision_height (trusted_height h) ≠ 0 → TmHeader_try_from_raw (RawTmHeader_from h) = Ok h.
Proof.
  intros Hh. unfold TmHeader_try_from_raw, RawTmHeader_from.
  cbn [rh_signed_header rh_validator_set rh_trusted_height rh_trusted_validators]. mstep.
  rewrite signed_header_roundtrip. mstep. rewrite validator_set_roundtrip. mstep.
  cbn [mbind option_bind]. rewrite Height_raw_roundtrip by done. cbn [ok ok_or]. mstep.
  rewrite validator_set_roundtrip. by destruct h.
Qed.

Lemma TmClientState_any_roundtrip cs :
  client_state_wf cs → TmClientState_try_from (TmClientState_into_any cs) = Ok cs.
Proof.
  intros Hcs. unfold TmClientState_try_from, TmClientState_into_any, decode_as.
  cbn [type_url any_value]. rewrite String.eqb_refl, tm_client_state_codec. mstep.
  by rewrite TmClientState_raw_roundtrip.
Qed.
Lemma TmConsensusState_any_roundtrip cons :
  TmConsensusState_try_from (TmConsensusState_into_any cons) = Ok cons.
Proof.
  unfold TmConsensusState_try_from, TmConsensusState_into_any, decode_as. cbn [type_url any_value].
  rewrite String.eqb_refl, tm_consensus_state_codec. mstep. by rewrite TmConsensusState_raw_roundtrip.
Qed.

(** What the light client sends around survives the trip through protobuf: client
    states, consensus states, headers and misbehaviour are decoded from their
    [Any] as they were. *)
Theorem tm_any_roundtrip cs cons header misbehaviour :
  client_state_wf cs →
  revision_height (trusted_height header) ≠ 0 →
  client_ok (mb_client_id misbehaviour) →
  revision_height (trusted_height (mb_header1 misbehaviour)) ≠ 0 →
  revision_height (trusted_height (mb_header2 misbehaviour)) ≠ 0 →
  TmClientState_try_from (TmClientState_into_any cs) = Ok cs
  ∧ TmConsensusState_try_from (TmConsensusState_into_any cons) = Ok cons
  ∧ TmHeader_try_from (TmHeader_into_any header) = Ok header
  ∧ TmMisbehaviour_try_from (TmMisbehaviour_into_any misbehaviour) = Ok misbehaviour.
Proof.
  intros Hcs Hh Hid Hh1 Hh2. split_and!.
  - by apply TmClientState_any_roundtrip.
  - apply TmConsensusState_any_roundtrip.
  - unfold TmHeader_try_from, TmHeader_into_any, decode_as. cbn [type_url any_value].
    rewrite String.eqb_refl, tm_header_codec. mstep. by rewrite TmHeader_raw_roundtrip.
  - unfold TmMisbehaviour_try_from, TmMisbehaviour_into_any, decode_as. cbn [type_url any_value].
    rewrite String.eqb_refl, tm_misbehaviour_codec. mstep. unfold TmMisbehaviour_try_from_raw.
    cbn [rmb_client_id rmb_header_1 rmb_header_2 RawTmMisbehaviour_from]. rewrite Hid. mstep.
    rewrite !TmHeader_raw_roundtrip by done. mstep. by destruct misbehaviour.
Qed.

(** A header that names height zero, or a chain whose identifier cannot be parsed,
    is not rejected but makes [Header::height] panic, and with it the validation
    of the message. *)
Theorem tm_header_height_panics (header : TmHeader) :
  (∀ id, ChainId_from_str (sh_chain_id (signed_header header)) ≠ Ok id)
  ∨ sh_height (signed_header header) = 0 →
  TmHeader_height (E:=TmError) header = Panic ∧ TmHeader_validate_basic header = Panic.
Proof.
  intros Hh. assert (TmHeader_height (E:=TmError) header = Panic) as E.
  { unfold TmHeader_height. destruct (ChainId_from_str _) as [id|e|]; cbn; [|done..].
    destruct Hh as [Hh|Hh]; [by destruct (Hh id)|]. by rewrite Hh. }
  split; [done|]. unfold TmHeader_validate_basic. by rewrite E.
Qed.
End theorems.
