(* ===== verification/TmClient.v ===== *)
(** * The Tendermint light client (ICS-07)

    [ibc-clients/ics07-tendermint/src]: what a Tendermint client does with the
    store of the host (client_state/common.rs, validation.rs, update_client.rs,
    misbehaviour.rs, execution.rs), as an instance of [LightClient].  The
    verification of headers is the crate [tendermint-light-client-verifier]'s: the
    class [TmVerifier].  The host stores client and consensus states of several
    kinds; [TmConverter] has the conversions the client asks of it, and
    [ValidationContext] of context.rs is implemented as in the testkit's
    client_ctx.rs. *)

From stdpp Require Import sorting.
From S2P Require Import Prelude RustStr Identifiers Primitives Path Connection Channel Context Merkle.
From S2P Require Import ClientHandlers TmTypes.
Local Open Scope string_scope.
Local Open Scope N_scope.

(** ** What the client asks for *)

Inductive Verdict := Success | NotEnoughTrust (reason : string) | Invalid (detail : string).

Class TmVerifier `{TmLib} := {
  verify_update_header : UntrustedBlockState → TrustedBlockState → Options → Time → Verdict;
  verifier_misbehaviour_header : UntrustedBlockState → TrustedBlockState → Options → Time → Verdict;
}.

(** [E::ClientStateRef: From<ClientStateType>] and [ConsensusStateConverter]. *)
Class TmConverter `{TmLib, !ChainTypes} := {
  client_state_from : TmClientState → ClientState;
  consensus_state_from : TmConsensusState → ConsensusState;
  consensus_state_try_into : ConsensusState → outcome ClientError TmConsensusState;
}.
Class TmConverterLaws `{TmConverter} := {
  consensus_state_converted c : consensus_state_try_into (consensus_state_from c) = Ok c;
}.

(** ** [ValidationContext] of the testkit *)

(** Ascending order of heights. *)
Definition height_le (h1 h2 : Height) : Prop := Height_gtb h1 h2 = false.
#[export] Instance height_le_dec : RelDecision height_le.
Proof. intros h1 h2. unfold height_le. apply _. Defined.
Definition sort_heights (l : list Height) : list Height := merge_sort height_le l.

Section tm_context.
Context `{TmTime, !ChainTypes}.

(** The keys of a [BTreeMap], in order. *)
Definition heights_of (r : ClientRecord) : list Height :=
  sort_heights (map_to_list (consensus_states r)).*1.

Definition consensus_state_heights (s : IbcStore) (client_id : ClientId) :
    outcome ContextError (list Height) :=
  client_record ← ok_or (clients s !! client_id) (CtxClient (ClientStateNotFound client_id));
  Ok (heights_of client_record).

(** The first height of a list that satisfies a test, and its consensus state;
    [expect("Never fails")]. *)
Fixpoint first_state (r : ClientRecord) (p : Height → bool) (l : list Height) :
    outcome ContextError (option ConsensusState) :=
  match l with
  | [] => Ok None
  | h :: l =>
    if p h then match consensus_states r !! h with Some c => Ok (Some c) | None => Panic end
    else first_state r p l
  end.

Definition next_consensus_state (s : IbcStore) (client_id : ClientId) (height : Height) :
    outcome ContextError (option ConsensusState) :=
  client_record ← ok_or (clients s !! client_id) (CtxClient (ClientStateNotFound client_id));
  first_state client_record (λ h, Height_gtb h height) (sort_heights (heights_of client_record)).

Definition prev_consensus_state (s : IbcStore) (client_id : ClientId) (height : Height) :
    outcome ContextError (option ConsensusState) :=
  client_record ← ok_or (clients s !! client_id) (CtxClient (ClientStateNotFound client_id));
  first_state client_record (λ h, Height_ltb h height)
    (reverse (sort_heights (heights_of client_record))).
End tm_context.

(** ** The client *)

Section client.
Context `{TmText, Unicode, !TmCodec, !ChainTypes, !TmConverter, !Codec, !Ics23, !Ics23Check}.
Context `{!TmVerifier}.

(** [From<ContextError> for ClientError], inserted by [?]. *)
Definition err_context {A} : outcome ContextError A → outcome ClientError A :=
  map_err ClientError_from_ContextError.
(** [IntoResult for Verdict]. *)
Definition into_result (verdict : Verdict) : outcome TmError () :=
  match verdict with
  | Success => Ok tt
  | NotEnoughTrust reason => Err (TmNotEnoughTrustedValsSigned reason)
  | Invalid detail => Err (TmVerificationError detail)
  end.
(** [ctx.consensus_state(&path)?.try_into()?]. *)
Definition tm_consensus_state (s : IbcStore) (client_id : ClientId) (height : Height) :
    outcome ClientError TmConsensusState :=
  cs ← err_context (consensus_state s (state_path client_id height));
  consensus_state_try_into cs.

(** *** common.rs *)

Definition tm_verify_consensus_state (consensus_state : Any) : outcome ClientError () :=
  tm_consensus_state ← TmConsensusState_try_from consensus_state;
  fail_if (is_empty (root_bytes (tc_root tm_consensus_state))) (ClientOther "empty commitment root").

Definition tm_validate_proof_height (client_state : TmClientState) (proof_height : Height) :
    outcome ClientError () :=
  let latest_height := tm_latest_height client_state in
  fail_if (Height_ltb latest_height proof_height) (InvalidProofHeight latest_height proof_height).

Definition tm_verify_membership (client_state : TmClientState) (prefix : CommitmentPrefix)
    (proof : CommitmentProofBytes) (root : CommitmentRoot) (path : Path) (value : bytes) :
    outcome ClientError () :=
  let merkle_path := apply_prefix prefix [Path_to_string path] in
  merkle_proof ← map_err InvalidCommitmentProof (MerkleProof_try_from_bytes proof);
  map_err Ics23Verification (MerkleProof_verify_membership merkle_proof
    (tm_proof_specs client_state) (root_bytes root) merkle_path value 0).

Definition tm_verify_non_membership (client_state : TmClientState) (prefix : CommitmentPrefix)
    (proof : CommitmentProofBytes) (root : CommitmentRoot) (path : Path) : outcome ClientError () :=
  let merkle_path := apply_prefix prefix [Path_to_string path] in
  merkle_proof ← map_err InvalidCommitmentProof (MerkleProof_try_from_bytes proof);
  map_err Ics23Verification (MerkleProof_verify_non_membership merkle_proof
    (tm_proof_specs client_state) (root_bytes root) merkle_path).

(** [upgrade_path.pop()] drops the last key; [upgrade_path[0]] panics when it was
    the only one. *)
Definition tm_verify_upgrade_client (client_state : TmClientState)
    (upgraded_client_state upgraded_consensus_state : Any)
    (proof_upgrade_client proof_upgrade_consensus_state : CommitmentProofBytes)
    (root : CommitmentRoot) : outcome ClientError () :=
  upgraded_tm_client_state ← TmClientState_try_from upgraded_client_state;
  TmConsensusState_try_from upgraded_consensus_state;;
  let latest_height := tm_latest_height client_state in
  let upgraded_tm_client_state_height := tm_latest_height upgraded_tm_client_state in
  fail_if (negb (Height_ltb latest_height upgraded_tm_client_state_height))
    (Upgrade (LowUpgradeHeight latest_height upgraded_tm_client_state_height));;
  let upgrade_path := tm_upgrade_path client_state in
  fail_if (is_empty upgrade_path)
    (ClientSpecific "cannot upgrade client as no upgrade path has been set");;
  let upgrade_path := take (length upgrade_path - 1) upgrade_path in
  first ← index upgrade_path 0;
  upgrade_path_prefix ← map_err InvalidCommitmentProof (CommitmentPrefix_try_from (as_bytes first));
  let last_height := revision_height latest_height in
  tm_verify_membership client_state upgrade_path_prefix proof_upgrade_client root
    (PathUpgradeClient (UpgradedClientState last_height)) (encode_any upgraded_client_state);;
  tm_verify_membership client_state upgrade_path_prefix proof_upgrade_consensus_state root
    (PathUpgradeClient (UpgradedClientConsensusState last_height))
    (encode_any upgraded_consensus_state).

(** *** update_client.rs *)

Definition host_now (host : Host) (error : ClientError) : outcome ClientError Time :=
  now ← err_context (host_timestamp (Host:=host));
  ok_or (time now) error.

Definition tm_verify_header (client_state : TmClientState) (host : Host) (s : IbcStore)
    (client_id : ClientId) (header : TmHeader) : outcome ClientError () :=
  err_tm (TmHeader_validate_basic header);;
  err_tm (verify_chain_id_version_matches_height header (tm_chain_id client_state));;
  trusted_consensus_state ← tm_consensus_state s client_id (trusted_height header);
  check_trusted_next_validator_set header trusted_consensus_state;;
  chain_id ← map_err (λ e, ClientOther ("failed to parse chain id: "
    ++ tendermint_error_to_string e)) (tm_chain_id_try_from (chain_id (tm_chain_id client_state)));
  height ← map_err (λ _, ClientSpecific (tm_error_to_string
      (TmInvalidHeaderHeight (revision_height (trusted_height header)))))
    (block_height_try_from (revision_height (trusted_height header)));
  let trusted_state := mkTrustedBlockState chain_id (tc_timestamp trusted_consensus_state) height
    (trusted_next_validator_set header) (tc_next_validators_hash trusted_consensus_state) in
  let untrusted_state := mkUntrustedBlockState (signed_header header) (validator_set header) None in
  options ← err_tm (as_light_client_options client_state);
  now ← host_now host (ClientSpecific "host timestamp is not a valid TM timestamp");
  err_tm (into_result (verify_update_header untrusted_state trusted_state options now)).

Definition time_leb (t1 t2 : Time) : bool := (unix_nanos t1 <=? unix_nanos t2)%Z.

(** [ctx.consensus_state(&path).ok()]. *)
Definition existing_consensus_state (s : IbcStore) (client_id : ClientId) (height : Height) :
    outcome ClientError (option ConsensusState) :=
  match consensus_state s (state_path client_id height) with
  | Ok c => Ok (Some c)
  | Err _ => Ok None
  | Panic => Panic
  end.

Definition check_for_misbehaviour_update_client (client_state : TmClientState) (s : IbcStore)
    (client_id : ClientId) (header : TmHeader) : outcome ClientError bool :=
  header_height ← TmHeader_height header;
  maybe_existing ← existing_consensus_state s client_id header_height;
  match maybe_existing with
  | Some existing_consensus_state =>
    existing_consensus_state ← consensus_state_try_into existing_consensus_state;
    let header_consensus_state := TmConsensusState_from_header header in
    Ok (negb (bool_decide (existing_consensus_state = header_consensus_state)))
  | None =>
    maybe_prev_cs ← err_context (prev_consensus_state s client_id header_height);
    before_prev ← match maybe_prev_cs with
      | Some prev_cs =>
        prev_cs ← consensus_state_try_into prev_cs;
        Ok (time_leb (sh_time (signed_header header)) (tc_timestamp prev_cs))
      | None => Ok false
      end;
    if (before_prev : bool) then Ok true
    else if Height_ltb header_height (tm_latest_height client_state) then
      maybe_next_cs ← err_context (next_consensus_state s client_id header_height);
      match maybe_next_cs with
      | Some next_cs =>
        next_cs ← consensus_state_try_into next_cs;
        Ok (time_leb (tc_timestamp next_cs) (sh_time (signed_header header)))
      | None => Ok false
      end
    else Ok false
  end.

(** *** misbehaviour.rs *)

Definition tm_verify_misbehaviour_header (client_state : TmClientState) (header : TmHeader)
    (trusted_consensus_state : TmConsensusState) (current_timestamp : Timestamp) :
    outcome ClientError () :=
  check_trusted_next_validator_set header trusted_consensus_state;;
  let trusted_timestamp := mkTimestamp (Some (tc_timestamp trusted_consensus_state)) in
  duration_since_consensus_state ← ok_or
    (Timestamp_duration_since current_timestamp trusted_timestamp)
    (InvalidConsensusStateTimestamp trusted_timestamp current_timestamp);
  fail_if (tm_trusting_period client_state <=? duration_since_consensus_state)
    (ClientSpecific (tm_error_to_string (TmConsensusStateTimestampGteTrustingPeriod
      duration_since_consensus_state (tm_trusting_period client_state))));;
  let untrusted_state := as_untrusted_block_state header in
  chain_id ← map_err (λ e, ClientOther ("failed to parse chain id: "
    ++ tendermint_error_to_string e)) (tm_chain_id_try_from (chain_id (tm_chain_id client_state)));
  trusted_state ← err_tm (as_trusted_block_state header trusted_consensus_state chain_id);
  options ← err_tm (as_light_client_options client_state);
  current_timestamp ← ok_or (time current_timestamp)
    (ClientOther "host timestamp must not be zero");
  err_tm (into_result
    (verifier_misbehaviour_header untrusted_state trusted_state options current_timestamp)).

Definition tm_verify_misbehaviour (client_state : TmClientState) (host : Host) (s : IbcStore)
    (client_id : ClientId) (misbehaviour : TmMisbehaviour) : outcome ClientError () :=
  err_tm (TmMisbehaviour_validate_basic misbehaviour);;
  let header_1 := mb_header1 misbehaviour in
  trusted_consensus_state_1 ← tm_consensus_state s client_id (trusted_height header_1);
  let header_2 := mb_header2 misbehaviour in
  trusted_consensus_state_2 ← tm_consensus_state s client_id (trusted_height header_2);
  current_timestamp ← err_context (host_timestamp (Host:=host));
  tm_verify_misbehaviour_header client_state header_1 trusted_consensus_state_1 current_timestamp;;
  tm_verify_misbehaviour_header client_state header_2 trusted_consensus_state_2 current_timestamp.

Definition check_for_misbehaviour_misbehavior (misbehaviour : TmMisbehaviour) :
    outcome ClientError bool :=
  let header_1 := mb_header1 misbehaviour in
  let header_2 := mb_header2 misbehaviour in
  height_1 ← TmHeader_height header_1;
  height_2 ← TmHeader_height header_2;
  if bool_decide (height_1 = height_2) then
    Ok (negb (bool_decide (sh_block_id_hash (signed_header header_1)
                           = sh_block_id_hash (signed_header header_2))))
  else Ok (time_leb (sh_time (signed_header header_1)) (sh_time (signed_header header_2))).

(** *** validation.rs *)

Definition tm_verify_client_message (client_state : TmClientState) (host : Host) (s : IbcStore)
    (client_id : ClientId) (client_message : Any) : outcome ClientError () :=
  if (type_url client_message =? TENDERMINT_HEADER_TYPE_URL)%string then
    header ← TmHeader_try_from client_message;
    tm_verify_header client_state host s client_id header
  else if (type_url client_message =? TENDERMINT_MISBEHAVIOUR_TYPE_URL)%string then
    misbehaviour ← TmMisbehaviour_try_from client_message;
    tm_verify_misbehaviour client_state host s client_id misbehaviour
  else Err InvalidUpdateClientMessage.

Definition tm_check_for_misbehaviour (client_state : TmClientState) (s : IbcStore)
    (client_id : ClientId) (client_message : Any) : outcome ClientError bool :=
  if (type_url client_message =? TENDERMINT_HEADER_TYPE_URL)%string then
    header ← TmHeader_try_from client_message;
    check_for_misbehaviour_update_client client_state s client_id header
  else if (type_url client_message =? TENDERMINT_MISBEHAVIOUR_TYPE_URL)%string then
    misbehaviour ← TmMisbehaviour_try_from client_message;
    check_for_misbehaviour_misbehavior misbehaviour
  else Err InvalidUpdateClientMessage.

Definition tm_status (client_state : TmClientState) (host : Host) (s : IbcStore)
    (client_id : ClientId) : outcome ClientError Status :=
  if TmClientState_is_frozen client_state then Ok Frozen
  else match consensus_state s (state_path client_id (tm_latest_height client_state)) with
  | Err _ => Ok StatusExpired
  | Panic => Panic
  | Ok cs =>
    latest_consensus_state ← consensus_state_try_into cs;
    now ← err_context (host_timestamp (Host:=host));
    match Timestamp_duration_since now
            (mkTimestamp (Some (tc_timestamp latest_consensus_state))) with
    | Some elapsed_since_latest_consensus_state =>
      if tm_trusting_period client_state <? elapsed_since_latest_consensus_state
      then Ok StatusExpired else Ok Active
    | None => Ok Active
    end
  end.
End client.

(** *** execution.rs *)

Section execution.
Context `{TmText, Unicode, !TmCodec, !ChainTypes, !TmConverter, !Codec, !Ics23, !Ics23Check}.
Context `{!TmVerifier}.

Definition tm_initialise (client_state : TmClientState) (host : Host) (client_id : ClientId)
    (consensus_state : Any) : exec IbcStore ClientError () :=
  timestamp ← lift (err_context (host_timestamp (Host:=host)));
  height ← lift (err_context (host_height (Host:=host)));
  tm_consensus_state ← lift (TmConsensusState_try_from consensus_state);
  in_client (store_client_state (mkClientStatePath client_id) (client_state_from client_state));;
  in_client (store_consensus_state (state_path client_id (tm_latest_height client_state))
    (consensus_state_from tm_consensus_state));;
  in_client (store_update_meta client_id (tm_latest_height client_state) timestamp height).

(** The loop of [prune_oldest_consensus_state], over the sorted heights. *)
Fixpoint prune_loop (client_state : TmClientState) (host : Host) (client_id : ClientId)
    (heights : list Height) : exec IbcStore ClientError () :=
  match heights with
  | [] => mret tt
  | height :: heights =>
    tm_consensus_state ← reads (λ s, tm_consensus_state s client_id height);
    host_timestamp ← lift (host_now host
      (ClientOther "host timestamp is not a valid TM timestamp"));
    tm_consensus_state_expiry ← lift (ok_or
      (time_add (tc_timestamp tm_consensus_state) (tm_trusting_period client_state))
      (ClientOther
         "Timestamp overflow error occurred while attempting to parse TmConsensusState"));
    if negb (time_leb tm_consensus_state_expiry host_timestamp) then mret tt
    else
      in_client (delete_consensus_state (state_path client_id height));;
      in_client (delete_update_meta client_id height);;
      prune_loop client_state host client_id heights
  end.
Definition prune_oldest_consensus_state (client_state : TmClientState) (host : Host)
    (client_id : ClientId) : exec IbcStore ClientError () :=
  heights ← reads (λ s, err_context (consensus_state_heights s client_id));
  prune_loop client_state host client_id (sort_heights heights).

Definition tm_update_state (client_state : TmClientState) (host : Host) (client_id : ClientId)
    (header : Any) : exec IbcStore ClientError (list Height) :=
  header ← lift (TmHeader_try_from header);
  header_height ← lift (TmHeader_height header);
  prune_oldest_consensus_state client_state host client_id;;
  maybe_existing_consensus_state ← reads (λ s, existing_consensus_state s client_id header_height);
  match maybe_existing_consensus_state with
  | Some _ => mret tt
  | None =>
    timestamp ← lift (err_context (host_timestamp (Host:=host)));
    height ← lift (err_context (host_height (Host:=host)));
    let new_consensus_state := TmConsensusState_from_header header in
    new_client_state ← lift (err_tm (TmClientState_with_header client_state header));
    in_client (store_consensus_state (state_path client_id header_height)
      (consensus_state_from new_consensus_state));;
    in_client (store_client_state (mkClientStatePath client_id)
      (client_state_from new_client_state));;
    in_client (store_update_meta client_id header_height timestamp height)
  end;;
  mret [header_height].

Definition tm_update_on_misbehaviour (client_state : TmClientState) (client_id : ClientId)
    (_ : Any) : exec IbcStore ClientError () :=
  let frozen_client_state := with_frozen_height client_state (Height_min 0) in
  in_client (store_client_state (mkClientStatePath client_id)
    (client_state_from frozen_client_state)).

Definition SENTINEL_ROOT : CommitmentRoot := mkCommitmentRoot (as_bytes "sentinel_root").
Definition tm_update_on_upgrade (client_state : TmClientState) (host : Host) (client_id : ClientId)
    (upgraded_client_state upgraded_consensus_state : Any) : exec IbcStore ClientError Height :=
  upgraded_tm_client_state ← lift (TmClientState_try_from upgraded_client_state);
  upgraded_tm_cons_state ← lift (TmConsensusState_try_from upgraded_consensus_state);
  let upgraded := zero_custom_fields upgraded_tm_client_state in
  new_client_state ← lift (err_tm (TmClientState_new (tm_chain_id upgraded)
    (tm_trust_level client_state) (tm_trusting_period client_state) (tm_unbonding_period upgraded)
    (tm_max_clock_drift client_state) (tm_latest_height upgraded) (tm_proof_specs upgraded)
    (tm_upgrade_path upgraded) (tm_allow_update client_state)));
  let new_consensus_state := mkTmConsensusState (tc_timestamp upgraded_tm_cons_state) SENTINEL_ROOT
    (tc_next_validators_hash upgraded_tm_cons_state) in
  let latest_height := tm_latest_height new_client_state in
  timestamp ← lift (err_context (host_timestamp (Host:=host)));
  height ← lift (err_context (host_height (Host:=host)));
  in_client (store_client_state (mkClientStatePath client_id)
    (client_state_from new_client_state));;
  in_client (store_consensus_state (state_path client_id latest_height)
    (consensus_state_from new_consensus_state));;
  in_client (store_update_meta client_id latest_height timestamp height);;
  mret latest_height.
End execution.

(** ** As a light client *)

(** A chain whose clients are all Tendermint clients. *)
#[export] Instance tm_types `{TmLib} : ChainTypes | 50 := {|
  ClientState := TmClientState;
  ConsensusState := TmConsensusState;
  HostClientState := TmClientState;
  HostConsensusState := TmConsensusState |}.
#[export] Instance tm_converter `{TmLib} : TmConverter (H1:=tm_types) | 50 := {|
  client_state_from := (λ cs, cs) : TmClientState → @ClientState tm_types;
  consensus_state_from := (λ c, c) : TmConsensusState → @ConsensusState tm_types;
  consensus_state_try_into := (λ c, Ok c) : @ConsensusState tm_types → _ |}.
#[export] Instance tm_converter_laws `{TmLib} : TmConverterLaws (H2:=tm_converter).
Proof. by split. Qed.

Section instance.
Context `{TmText, Unicode, !TmCodec, !Codec, !Ics23, !Ics23Check, !TmVerifier}.

Definition tm_client : LightClient (H0:=tm_types) := {|
  cons_root := tc_root : @ConsensusState tm_types → _;
  cons_timestamp := (λ c, mkTimestamp (Some (tc_timestamp c))) : @ConsensusState tm_types → _;
  client_state_try_from := TmClientState_try_from : _ → outcome _ (@ClientState tm_types);
  verify_consensus_state _ := tm_verify_consensus_state;
  client_type _ := tm_client_type;
  latest_height := tm_latest_height : @ClientState tm_types → _;
  validate_proof_height := tm_validate_proof_height : @ClientState tm_types → _;
  verify_upgrade_client := tm_verify_upgrade_client : @ClientState tm_types → _;
  verify_membership := tm_verify_membership : @ClientState tm_types → _;
  verify_non_membership := tm_verify_non_membership : @ClientState tm_types → _;
  verify_client_message := tm_verify_client_message : @ClientState tm_types → _;
  check_for_misbehaviour (cs : @ClientState tm_types) _ := tm_check_for_misbehaviour cs;
  status := tm_status : @ClientState tm_types → _;
  initialise := tm_initialise : @ClientState tm_types → _;
  update_state := tm_update_state : @ClientState tm_types → _;
  update_state_on_misbehaviour (cs : @ClientState tm_types) _ := tm_update_on_misbehaviour cs;
  update_state_on_upgrade := tm_update_on_upgrade : @ClientState tm_types → _;
|}.
End instance.
