(* ===== verification/TmSafety.v ===== *)
(** * What the Tendermint client guarantees

    The record a Tendermint client keeps of its counterparty is a history: one
    consensus state per height, with times that grow with the heights.  The checks
    and updates of [TmClient] keep it one; misbehaviour is found exactly when a header does not
    fit it; the oldest states are pruned once they expired; and what is accepted as proven is
    committed to by the root of a recorded state. *)

From stdpp Require Import sorting.
From S2P Require Import Prelude RustStr Identifiers Primitives Path Connection Channel Context Merkle.
From S2P Require Import ConnHandlers Module ClientHandlers TmTypes TmClient.
Local Open Scope string_scope.
Local Open Scope N_scope.

(** ** Sorted heights *)

Lemma Forall_elem {A} (P : A → Prop) l x : Forall P l → x ∈ l → P x.
Proof. intros Hl. by apply list.Forall_forall. Qed.

Lemma height_lt_cases h1 h2 : height_lt h1 h2 ∨ h1 = h2 ∨ height_lt h2 h1.
Proof. pose proof (Height_cmp_cases h1 h2). destruct (Height_cmp h1 h2); auto. Qed.
Lemma height_le_spec h1 h2 : height_le h1 h2 ↔ ¬ height_lt h2 h1.
Proof. unfold height_le. rewrite <- not_true_iff_false, Height_gtb_spec. done. Qed.

#[export] Instance height_le_trans : Transitive height_le.
Proof. intros h1 h2 h3. rewrite !height_le_spec. unfold height_lt. lia. Qed.
#[export] Instance height_le_total : Total height_le.
Proof.
  intros h1 h2. rewrite !height_le_spec. destruct (decide (Height_ltb h2 h1 = true)) as [E|E];
    rewrite Height_ltb_spec in E; [|by left]. right. by apply height_lt_asym.
Qed.

Lemma sort_heights_sorted l : StronglySorted height_le (sort_heights l).
Proof. apply StronglySorted_merge_sort; apply _. Qed.
Lemma elem_of_sort_heights l h : h ∈ sort_heights l ↔ h ∈ l.
Proof. unfold sort_heights. by rewrite merge_sort_Permutation. Qed.
Lemma NoDup_sort_heights l : NoDup l → NoDup (sort_heights l).
Proof. unfold sort_heights. by rewrite merge_sort_Permutation. Qed.

Lemma StronglySorted_reverse l :
  StronglySorted height_le l → StronglySorted (flip height_le) (reverse l).
Proof.
  induction 1 as [|h l Hs IH Hh]; [constructor|]. rewrite reverse_cons.
  apply StronglySorted_app. split_and!; [|done|by repeat constructor].
  intros h1 h2 H1 ->%list_elem_of_singleton. rewrite elem_of_reverse in H1. exact (Forall_elem _ _ _ Hh H1).
Qed.

Section neighbours.
Context `{TmTime, !ChainTypes}.

Lemma elem_of_heights_of (r : ClientRecord) h :
  h ∈ heights_of r ↔ is_Some (consensus_states r !! h).
Proof.
  unfold heights_of. rewrite elem_of_sort_heights, list_elem_of_fmap. split.
  - intros ([h' c] & -> & Hc%elem_of_map_to_list). by exists c.
  - intros [c Hc]. exists (h, c). split; [done|]. by apply elem_of_map_to_list.
Qed.
Lemma NoDup_heights_of (r : ClientRecord) : NoDup (heights_of r).
Proof. apply NoDup_sort_heights, NoDup_fst_map_to_list. Qed.

(** [first_state] finds the first height that passes, in the order of the list. *)
Lemma first_state_spec (r : ClientRecord) p R l :
  StronglySorted R l → (∀ h, h ∈ l → is_Some (consensus_states r !! h)) →
  ∃ o, first_state r p l = Ok o
  ∧ match o with
    | Some c => ∃ h, p h = true ∧ consensus_states r !! h = Some c
        ∧ ∀ k, k ∈ l → p k = true → k = h ∨ R h k
    | None => ∀ k, k ∈ l → p k = false
    end.
Proof.
  intros Hs Hin. induction Hs as [|h l Hs IH Hh]; cbn [first_state].
  { exists None. split; [done|]. set_solver. }
  destruct (p h) eqn:Ep.
  - destruct (Hin h) as [c Hc]; [set_solver|]. rewrite Hc. exists (Some c). split; [done|].
    exists h. split_and!; try done. intros k [->|Hk]%elem_of_cons _; [by left|right].
    exact (Forall_elem _ _ _ Hh Hk).
  - destruct IH as (o & E & Ho); [set_solver|]. exists o. split; [done|]. destruct o as [c|].
    + destruct Ho as (h' & ? & ? & Hk). exists h'. split_and!; try done.
      intros k [->|Hin']%elem_of_cons Hp; [congruence|by apply Hk].
    + intros k [->|Hk]%elem_of_cons; [done|by apply Ho].
Qed.

(** What [next_consensus_state] and [prev_consensus_state] find: the nearest
    recorded neighbours of a height. *)
Definition nearest_above (r : ClientRecord) (h h' : Height) : Prop :=
  height_lt h h' ∧ ∀ k, is_Some (consensus_states r !! k) → height_lt h k → k = h' ∨ height_lt h' k.
Definition nearest_below (r : ClientRecord) (h h' : Height) : Prop :=
  height_lt h' h ∧ ∀ k, is_Some (consensus_states r !! k) → height_lt k h → k = h' ∨ height_lt k h'.

Lemma sorted_heights_spec (r : ClientRecord) h :
  h ∈ sort_heights (heights_of r) ↔ is_Some (consensus_states r !! h).
Proof. by rewrite elem_of_sort_heights, elem_of_heights_of. Qed.

Lemma next_consensus_state_spec s id r h :
  clients s !! id = Some r →
  ∃ o, next_consensus_state s id h = Ok o
  ∧ match o with
    | Some c => ∃ h', consensus_states r !! h' = Some c ∧ nearest_above r h h'
    | None => ∀ k, is_Some (consensus_states r !! k) → ¬ height_lt h k
    end.
Proof.
  intros Hr. unfold next_consensus_state. rewrite Hr. cbn [ok_or]. mstep.
  destruct (first_state_spec r (λ k, Height_gtb k h) height_le (sort_heights (heights_of r)))
    as (o & E & Ho); [apply sort_heights_sorted|intros ?; apply sorted_heights_spec|].
  exists o. split; [done|]. destruct o as [c|].
  - destruct Ho as (h' & Hp%Height_gtb_spec & Hc & Hk). exists h'. split; [done|]. split; [done|].
    intros k Hs Hlt. destruct (Hk k) as [->|Hle];
      [by apply sorted_heights_spec|by apply Height_gtb_spec|by left|].
    destruct (height_lt_cases h' k) as [?|[->|?]]; [by right|by left|]. by apply height_le_spec in Hle.
  - intros k Hk Hlt%Height_gtb_spec. rewrite Ho in Hlt; [done|]. by apply sorted_heights_spec.
Qed.

Lemma prev_consensus_state_spec s id r h :
  clients s !! id = Some r →
  ∃ o, prev_consensus_state s id h = Ok o
  ∧ match o with
    | Some c => ∃ h', consensus_states r !! h' = Some c ∧ nearest_below r h h'
    | None => ∀ k, is_Some (consensus_states r !! k) → ¬ height_lt k h
    end.
Proof.
  intros Hr. unfold prev_consensus_state. rewrite Hr. cbn [ok_or]. mstep.
  destruct (first_state_spec r (λ k, Height_ltb k h) (flip height_le)
    (reverse (sort_heights (heights_of r)))) as (o & E & Ho).
  { apply StronglySorted_reverse, sort_heights_sorted. }
  { intros k. by rewrite elem_of_reverse, sorted_heights_spec. }
  exists o. split; [done|]. destruct o as [c|].
  - destruct Ho as (h' & Hp%Height_ltb_spec & Hc & Hk). exists h'. split; [done|]. split; [done|].
    intros k Hs Hlt. destruct (Hk k) as [->|Hle];
      [by rewrite elem_of_reverse; apply sorted_heights_spec|by apply Height_ltb_spec|by left|].
    destruct (height_lt_cases k h') as [?|[->|?]]; [by right|by left|]. by apply height_le_spec in Hle.
  - intros k Hk Hlt%Height_ltb_spec. rewrite Ho in Hlt; [done|]. by rewrite elem_of_reverse; apply sorted_heights_spec.
Qed.
End neighbours.

(** ** The history of a client *)

Section history.
Context `{TmText, Unicode, !TmCodec, !ChainTypes, !TmConverter, !TmConverterLaws, !Codec}.

Definition history (s : IbcStore) (id : ClientId) : gmap Height ConsensusState :=
  default ∅ (consensus_states <$> clients s !! id).
(** The Tendermint consensus state recorded at a height. *)
Definition recorded (m : gmap Height ConsensusState) (h : Height) : option TmConsensusState :=
  c ← m !! h; ok (consensus_state_try_into c).
Definition nanos (c : TmConsensusState) : Z := unix_nanos (tc_timestamp c).

(** A history: Tendermint states at real heights, none above the latest height of
    the client state, and the higher the later. *)
Record history_ok (cs : TmClientState) (m : gmap Height ConsensusState) : Prop := {
  ho_height h : is_Some (m !! h) → revision_height h ≠ 0 ∧ ¬ height_lt (tm_latest_height cs) h;
  ho_state h c : m !! h = Some c → ∃ c', consensus_state_try_into c = Ok c';
  ho_mono h1 h2 c1 c2 :
    height_lt h1 h2 → recorded m h1 = Some c1 → recorded m h2 = Some c2 → (nanos c1 < nanos c2)%Z;
}.

(** A consensus state fits a history at a height: it is the one recorded there, or
    there is none and it is later than all below and earlier than all above. *)
Definition fits (m : gmap Height ConsensusState) (h : Height) (c : TmConsensusState) : Prop :=
  match recorded m h with
  | Some c' => c' = c
  | None => ∀ h' c', recorded m h' = Some c' →
      (height_lt h' h → (nanos c' < nanos c)%Z) ∧ (height_lt h h' → (nanos c < nanos c')%Z)
  end.

Lemma history_Some s id r : clients s !! id = Some r → history s id = consensus_states r.
Proof. unfold history. by intros ->. Qed.

Lemma recorded_Some m h c :
  recorded m h = Some c ↔ ∃ c', m !! h = Some c' ∧ consensus_state_try_into c' = Ok c.
Proof. unfold recorded. rewrite bind_Some. by setoid_rewrite ok_Some. Qed.
Lemma recorded_stored m h c : recorded m h = Some c → is_Some (m !! h).
Proof. rewrite recorded_Some. naive_solver. Qed.

Lemma consensus_state_at s id h :
  revision_height h ≠ 0 →
  consensus_state s (state_path id h)
  = match history s id !! h with
    | Some c => Ok c
    | None => Err (CtxClient (ConsensusStateNotFound id h))
    end.
Proof.
  intros Hh. unfold consensus_state, history, state_path, err_client. cbn.
  rewrite (proj2 (Height_new_Ok _ _ h)) by by destruct h. cbn.
  destruct (clients s !! id) as [r|]; cbn; [by destruct (_ !! h)|done].
Qed.
Lemma existing_consensus_state_at s id h :
  revision_height h ≠ 0 → existing_consensus_state s id h = Ok (history s id !! h).
Proof.
  intros Hh. unfold existing_consensus_state. rewrite consensus_state_at by done.
  by destruct (history s id !! h).
Qed.

(** What a stored neighbour converts to. *)
Lemma neighbour cs m h c :
  history_ok cs m → m !! h = Some c → ∃ c', consensus_state_try_into c = Ok c' ∧ recorded m h = Some c'.
Proof.
  intros Hok Hc. destruct (ho_state _ _ Hok _ _ Hc) as [c' Hc']. exists c'. split; [done|].
  apply recorded_Some. eauto.
Qed.

Lemma TmHeader_height_Ok {E} header h :
  TmHeader_height (E:=E) header = Ok h → revision_height h ≠ 0.
Proof.
  unfold TmHeader_height, expect. intros Hh. inv_ok.
  destruct (ChainId_from_str _) as [c|?|]; [|done..]. simplify_eq.
  destruct (Height_new _ _) as [h'|?|] eqn:E1; [|done..]. simplify_eq.
  by apply Height_new_Ok in E1 as [-> ?].
Qed.

Lemma time_leb_spec t1 t2 : time_leb t1 t2 = true ↔ (unix_nanos t1 <= unix_nanos t2)%Z.
Proof. unfold time_leb. by rewrite Z.leb_le. Qed.

(** The neighbours decide: later than the nearest below is later than all below. *)
Lemma above_all cs r h h' c' (t : Z) :
  history_ok cs (consensus_states r) → nearest_below r h h' →
  recorded (consensus_states r) h' = Some c' → (nanos c' < t)%Z →
  ∀ k c, recorded (consensus_states r) k = Some c → height_lt k h → (nanos c < t)%Z.
Proof.
  intros Hok [_ Hn] Hc Ht k c Hk Hlt. destruct (Hn k) as [->|Hl]; [by eapply recorded_stored|done|..].
  - by simplify_eq.
  - pose proof (ho_mono _ _ Hok _ _ _ _ Hl Hk Hc). lia.
Qed.
Lemma below_all cs r h h' c' (t : Z) :
  history_ok cs (consensus_states r) → nearest_above r h h' →
  recorded (consensus_states r) h' = Some c' → (t < nanos c')%Z →
  ∀ k c, recorded (consensus_states r) k = Some c → height_lt h k → (t < nanos c)%Z.
Proof.
  intros Hok [_ Hn] Hc Ht k c Hk Hlt. destruct (Hn k) as [->|Hl]; [by eapply recorded_stored|done|..].
  - by simplify_eq.
  - pose proof (ho_mono _ _ Hok _ _ _ _ Hl Hc Hk). lia.
Qed.

(** The two neighbour tests of [check_for_misbehaviour_update_client]. *)
Lemma below_test cs s id r h header :
  history_ok cs (consensus_states r) → clients s !! id = Some r →
  ∃ o b, err_context (prev_consensus_state s id h) = Ok o
  ∧ match o with
    | Some prev_cs =>
      prev_cs ← consensus_state_try_into prev_cs;
      Ok (time_leb (sh_time (signed_header header)) (tc_timestamp prev_cs))
    | None => Ok false
    end = Ok b
  ∧ (b = false ↔ ∀ k c, recorded (consensus_states r) k = Some c → height_lt k h →
       (nanos c < nanos (TmConsensusState_from_header header))%Z).
Proof.
  intros Hok Hr. destruct (prev_consensus_state_spec s id r h Hr) as (o & E & Ho).
  unfold err_context. rewrite E. exists o. destruct o as [c|].
  - destruct Ho as (h' & Hc & Hn). destruct (neighbour _ _ _ _ Hok Hc) as (c' & E' & Hrec).
    rewrite E'. mstep. eexists. split_and!; [done..|]. rewrite <- not_true_iff_false, time_leb_spec. split.
    + intros Hlt. eapply above_all; eauto. unfold nanos. cbn. lia.
    + intros Hall. specialize (Hall h' c' Hrec (proj1 Hn)). unfold nanos in Hall. cbn in Hall. lia.
  - exists false. split_and!; [done..|]. split; [|done].
    intros _ k c Hk%recorded_stored Hlt. by destruct (Ho k).
Qed.
Lemma above_test cs s id r h header :
  history_ok cs (consensus_states r) → clients s !! id = Some r →
  ∃ b, (if Height_ltb h (tm_latest_height cs) then
          maybe_next_cs ← err_context (next_consensus_state s id h);
          match maybe_next_cs with
          | Some next_cs =>
            next_cs ← consensus_state_try_into next_cs;
            Ok (time_leb (tc_timestamp next_cs) (sh_time (signed_header header)))
          | None => Ok false
          end
        else Ok false) = Ok b
  ∧ (b = false ↔ ∀ k c, recorded (consensus_states r) k = Some c → height_lt h k →
       (nanos (TmConsensusState_from_header header) < nanos c)%Z).
Proof.
  intros Hok Hr. destruct (Height_ltb _ _) eqn:El.
  - destruct (next_consensus_state_spec s id r h Hr) as (o & E & Ho).
    unfold err_context. rewrite E. mstep. destruct o as [c|].
    + destruct Ho as (h' & Hc & Hn). destruct (neighbour _ _ _ _ Hok Hc) as (c' & E' & Hrec).
      rewrite E'. mstep. eexists. split; [done|]. rewrite <- not_true_iff_false, time_leb_spec. split.
      * intros Hlt. eapply below_all; eauto. unfold nanos. cbn. lia.
      * intros Hall. specialize (Hall h' c' Hrec (proj1 Hn)). unfold nanos in Hall. cbn in Hall. lia.
    + exists false. split; [done|]. split; [|done].
      intros _ k c Hk%recorded_stored Hlt. by destruct (Ho k).
  - exists false. split; [done|]. split; [|done]. intros _ k c Hk%recorded_stored Hlt.
    apply (ho_height _ _ Hok) in Hk as [_ Hk]. apply not_true_iff_false in El.
    rewrite Height_ltb_spec in El. unfold height_lt in *. lia.
Qed.

Lemma check_for_misbehaviour_fits cs s id r header h :
  clients s !! id = Some r → history_ok cs (consensus_states r) →
  (∀ E, TmHeader_height (E:=E) header = Ok h) →
  ∃ b, check_for_misbehaviour_update_client cs s id header = Ok b
  ∧ (b = false ↔ fits (history s id) h (TmConsensusState_from_header header)).
Proof.
  intros Hr Hok Hh. unfold check_for_misbehaviour_update_client. rewrite Hh. mstep.
  rewrite existing_consensus_state_at by (by eapply (TmHeader_height_Ok (E:=ClientError))). mstep.
  rewrite (history_Some _ _ _ Hr). unfold fits.
  destruct (consensus_states r !! h) as [c|] eqn:Ec.
  - destruct (neighbour _ _ _ _ Hok Ec) as (c' & E' & Hrec). rewrite E', Hrec. mstep.
    eexists. split; [done|]. rewrite negb_false_iff, bool_decide_eq_true. done.
  - assert (recorded (consensus_states r) h = None) as -> by (unfold recorded; by rewrite Ec).
    destruct (below_test cs s id r h header Hok Hr) as (o & b1 & Eo & Eb & Hb1).
    rewrite Eo. mstep. rewrite Eb. mstep.
    destruct (above_test cs s id r h header Hok Hr) as (b2 & Eb2 & Hb2).
    destruct b1.
    + exists true. split; [done|]. split; [done|]. intros Hf. apply Hb1. intros k c Hk Hlt.
      by apply (Hf k c Hk).
    + exists b2. split; [done|]. rewrite Hb2. split.
      * intros Ha k c Hk. split; [by apply Hb1|by apply Ha].
      * intros Hf k c Hk. apply (Hf k c Hk).
Qed.
End history.

(** ** Pruning *)

Section pruning.
Context `{TmText, Unicode, !TmCodec, !ChainTypes, !TmConverter, !TmConverterLaws, !Codec}.

(** Has a recorded state expired at [now]?  As the loop of the code decides it. *)
Definition expired (cs : TmClientState) (now : Time) (c : ConsensusState) : bool :=
  match consensus_state_try_into c with
  | Ok c => match time_add (tc_timestamp c) (tm_trusting_period cs) with
            | Some expiry => time_leb expiry now
            | None => false
            end
  | _ => false
  end.

(** Both deletions of a round of the loop. *)
Definition forget (id : ClientId) (h : Height) (s : IbcStore) : IbcStore :=
  set_client_processed_heights (delete (id, h)) (set_client_processed_times (delete (id, h))
    (set_clients (update_client_record id (λ record,
       mkClientRecord (client_state_of record) (delete h (consensus_states record)))) s)).
Definition forget_all (id : ClientId) (hs : list Height) (s : IbcStore) : IbcStore :=
  foldl (λ s h, forget id h s) s hs.

Lemma delete_state_and_meta id h s :
  revision_height h ≠ 0 →
  (in_client (delete_consensus_state (state_path id h));; in_client (delete_update_meta id h)) s
  = (forget id h s, Ok tt).
Proof.
  intros Hh. unfold delete_consensus_state, state_path. cbn [ccsp_revision_number ccsp_revision_height].
  unfold in_client, mbind, exec_bind, lift.
  rewrite (proj2 (Height_new_Ok _ _ h)) by by destruct h. done.
Qed.

(** One client's record after its states at [hs] are gone. *)
Definition drop_states (hs : list Height) (r : ClientRecord) : ClientRecord :=
  mkClientRecord (client_state_of r) (filter (λ hc, hc.1 ∉ hs) (consensus_states r)).

Lemma drop_states_cons h hs r :
  drop_states hs (mkClientRecord (client_state_of r) (delete h (consensus_states r)))
  = drop_states (h :: hs) r.
Proof.
  unfold drop_states. cbn [client_state_of consensus_states]. f_equal. apply map_eq. intros k.
  apply option_eq. intros c. rewrite !map_lookup_filter_Some, lookup_delete_Some. cbn.
  rewrite not_elem_of_cons. naive_solver.
Qed.

Lemma forget_all_spec id hs s r :
  clients s !! id = Some r →
  client_frame id s (forget_all id hs s)
  ∧ clients (forget_all id hs s) !! id = Some (drop_states hs r).
Proof.
  revert s r. induction hs as [|h hs IH]; intros s r Hr; cbn.
  - split; [apply client_frame_refl|]. rewrite Hr. f_equal. unfold drop_states.
    destruct r as [o m]. cbn. f_equal. symmetry. apply map_filter_id. intros ? ? _. cbn. set_solver.
  - destruct (IH (forget id h s)
      (mkClientRecord (client_state_of r) (delete h (consensus_states r)))) as [Hf Hc].
    { cbn. rewrite update_client_record_same, Hr. done. }
    rewrite drop_states_cons in Hc. split; [|done]. eapply client_frame_trans; [|done].
    unfold client_frame, forget. cbn. split_and!; try done. intros i Hi. split.
    + unfold update_client_record. by rewrite lookup_insert_ne.
    + intros k. split; by rewrite lookup_delete_ne by congruence.
Qed.

Lemma history_forget id h s : history (forget id h s) id = delete h (history s id).
Proof.
  unfold history. cbn. rewrite update_client_record_same. cbn.
  destruct (clients s !! id); cbn; [done|]. by rewrite delete_empty.
Qed.

(** The state at a height has an expiry. *)
Definition expiry_known (cs : TmClientState) (m : gmap Height ConsensusState) (h : Height) : Prop :=
  ∃ c, recorded m h = Some c ∧ is_Some (time_add (tc_timestamp c) (tm_trusting_period cs)).

(** What the loop finds out about a height. *)
Definition judged (cs : TmClientState) (host : Host) (s : IbcStore) (id : ClientId) (b : bool)
    (h : Height) : Prop :=
  ∃ now c, host_now host (ClientOther "host timestamp is not a valid TM timestamp") = Ok now
  ∧ history s id !! h = Some c ∧ expiry_known cs (history s id) h ∧ expired cs now c = b.

Lemma judged_forget cs host s id b h k :
  k ≠ h → judged cs host (forget id h s) id b k → judged cs host s id b k.
Proof.
  unfold judged, expiry_known, recorded. rewrite history_forget. intros Hk.
  by rewrite lookup_delete_ne.
Qed.

(** One round of the loop. *)
Lemma prune_loop_round cs host id h hs s s' u :
  revision_height h ≠ 0 → prune_loop cs host id (h :: hs) s = (s', Ok u) →
  s' = s ∧ judged cs host s id false h
  ∨ judged cs host s id true h ∧ prune_loop cs host id hs (forget id h s) = (s', Ok u).
Proof.
  intros Hh Hp. cbn [prune_loop] in Hp.
  apply exec_bind_Ok in Hp as (s1 & c & [-> E1]%reads_Ok & Hp).
  apply exec_bind_Ok in Hp as (s2 & now & [-> En]%lift_Ok & Hp).
  apply exec_bind_Ok in Hp as (s3 & expiry & [-> Ee%ok_or_Ok]%lift_Ok & Hp).
  cbn beta in E1. unfold tm_consensus_state, err_context in E1.
  rewrite consensus_state_at in E1 by done.
  destruct (history s id !! h) as [c'|] eqn:Eh; [|done]. cbn in E1.
  assert (expired cs now c' = time_leb expiry now) as Ex.
  { unfold expired. by rewrite E1, Ee. }
  assert (expiry_known cs (history s id) h) as Hk.
  { exists c. split; [by apply recorded_Some; exists c'|by eexists]. }
  destruct (time_leb expiry now) eqn:El; cbn [negb] in Hp.
  - right. split; [by exists now, c'|].
    pose proof (delete_state_and_meta id h s Hh) as Hd. revert Hp. unfold mbind, exec_bind in *.
    destruct (in_client (delete_consensus_state _) s) as [s1 [[]|?|]]; try done.
    by rewrite Hd.
  - left. apply exec_ret_Ok in Hp as [-> _]. split; [done|]. by exists now, c'.
Qed.

(** The loop removes a prefix of the heights, all expired, and stops at the first
    that is not. *)
Lemma prune_loop_Ok cs host id hs s s' u :
  Forall (λ h, revision_height h ≠ 0) hs → NoDup hs →
  prune_loop cs host id hs s = (s', Ok u) →
  ∃ pruned kept, hs = (pruned ++ kept)%list ∧ s' = forget_all id pruned s
    ∧ Forall (judged cs host s id true) pruned
    ∧ match kept with [] => True | h :: _ => judged cs host s id false h end.
Proof.
  revert s. induction hs as [|h hs IH]; intros s Hhs Hnd Hp.
  { exists [], []. split_and!; try done. by apply exec_ret_Ok in Hp as [-> _]. }
  apply Forall_cons_iff in Hhs as [Hh Hhs]. apply list.NoDup_cons in Hnd as [Hnotin Hnd].
  apply prune_loop_round in Hp as [[-> Hj]|[Hj Hp]]; [by exists [], (h :: hs)|..|done].
  apply IH in Hp as (pruned & kept & -> & -> & Hpr & Hk); [|done..].
  exists (h :: pruned), kept. split_and!; try done.
  - constructor; [done|]. apply list.Forall_forall. intros k Hk'.
    eapply judged_forget; [|by eapply Forall_elem in Hpr]. set_solver.
  - destruct kept as [|k kept]; [done|]. eapply judged_forget; [|done]. set_solver.
Qed.

Lemma prune_loop_total cs host id now hs s :
  host_now host (ClientOther "host timestamp is not a valid TM timestamp") = Ok now →
  Forall (λ h, revision_height h ≠ 0) hs → NoDup hs →
  Forall (expiry_known cs (history s id)) hs →
  ∃ s', prune_loop cs host id hs s = (s', Ok tt).
Proof.
  intros Hnow. revert s. induction hs as [|h hs IH]; intros s Hhs Hnd Hk; [by eexists|].
  apply Forall_cons_iff in Hhs as [Hh Hhs]. apply list.NoDup_cons in Hnd as [Hnotin Hnd].
  apply Forall_cons_iff in Hk as [(c & (c' & Hc' & Ec)%recorded_Some & expiry & He) Hk].
  destruct (IH (forget id h s)) as [s' IHs]; [done..| |].
  { apply list.Forall_forall. intros k Hin. apply (Forall_elem _ _ _ Hk) in Hin as Hk'.
    destruct Hk' as (c1 & Hc1 & ?). exists c1. split; [|done]. unfold recorded.
    rewrite history_forget, lookup_delete_ne by set_solver. done. }
  cbn [prune_loop]. unfold mbind at 1, exec_bind at 1, reads at 1. unfold tm_consensus_state, err_context.
  rewrite consensus_state_at, Hc' by done. cbn [map_err mbind outcome_bind]. rewrite Ec.
  unfold mbind at 1, exec_bind at 1, lift at 1. rewrite Hnow.
  unfold mbind at 1, exec_bind at 1, lift at 1. rewrite He. cbn [ok_or].
  destruct (time_leb expiry now); cbn [negb]; [|by eexists].
  exists s'. pose proof (delete_state_and_meta id h s Hh) as Hd. revert Hd. unfold mbind, exec_bind.
  destruct (in_client (delete_consensus_state _) s) as [s1 [[]|?|]]; try done. intros ->. done.
Qed.

Lemma prune_unfold cs host id s r :
  clients s !! id = Some r →
  prune_oldest_consensus_state cs host id s
  = prune_loop cs host id (sort_heights (heights_of r)) s.
Proof.
  intros Hr. unfold prune_oldest_consensus_state, mbind, exec_bind, reads, consensus_state_heights.
  by rewrite Hr.
Qed.

Lemma sorted_heights_good cs r :
  history_ok cs (consensus_states r) →
  Forall (λ h, revision_height h ≠ 0) (sort_heights (heights_of r))
  ∧ NoDup (sort_heights (heights_of r)).
Proof.
  intros Hok. split; [|apply NoDup_sort_heights, NoDup_heights_of].
  apply list.Forall_forall. intros h Hh%sorted_heights_spec. by apply (ho_height _ _ Hok).
Qed.

Context `{!TmTimeLaws}.

(** In a history, a state that has not expired is followed by states that have not. *)
Lemma expired_downward cs m now h1 h2 c1 c2 :
  history_ok cs m → height_lt h1 h2 → m !! h1 = Some c1 → m !! h2 = Some c2 →
  expiry_known cs m h1 → expired cs now c2 = true → expired cs now c1 = true.
Proof.
  intros Hok Hlt Hc1 Hc2 (c & Hrec & expiry & He) Hx2. pose proof Hrec as Hrec'.
  apply recorded_Some in Hrec' as (c1' & ? & E1); simplify_eq.
  destruct (ho_state _ _ Hok _ _ Hc2) as [c2' E2].
  unfold expired in *. rewrite E1, He. rewrite E2 in Hx2.
  destruct (time_add (tc_timestamp c2') _) as [expiry2|] eqn:He2; [|done].
  apply time_add_Some in He, He2. rewrite !time_leb_spec in *.
  assert (recorded m h2 = Some c2') as Hr2 by (apply recorded_Some; eauto).
  pose proof (ho_mono _ _ Hok _ _ _ _ Hlt Hrec Hr2). unfold nanos in *. lia.
Qed.

(** The rounds of the loop go by one time. *)
Lemma judged_now cs host s id pruned kept (t0 : Time) :
  Forall (judged cs host s id true) pruned →
  match kept with [] => True | h :: _ => judged cs host s id false h end →
  ∃ now, ((pruned ++ kept)%list = [] ∨ host_timestamp (Host:=host) = Ok (mkTimestamp (Some now)))
  ∧ ∀ b h, judged cs host s id b h → ∃ c, history s id !! h = Some c
      ∧ expiry_known cs (history s id) h ∧ expired cs now c = b.
Proof.
  intros Hpr Hk.
  destruct (host_now host (ClientOther "host timestamp is not a valid TM timestamp")) as [now|e|] eqn:En.
  { exists now. split; [right|intros b h (now' & c & ? & ? & ? & ?); exists c; naive_solver congruence].
    unfold host_now, err_context in En. destruct host_timestamp as [[o]|?|]; [|done..].
    cbn in En. destruct o; [|done]. by injection En as ->. }
  all: exists t0; split; [left|intros b h (now' & c & E & _); rewrite En in E; done].
  all: destruct pruned as [|h ?]; [|apply Forall_cons_iff in Hpr as [(now' & c & E & _) _]; rewrite En in E; done].
  all: destruct kept; [done|]; destruct Hk as (now' & c & E & _); rewrite En in E; done.
Qed.

(** A pruning that succeeds removes exactly the states that expired. *)
Lemma prune_exact cs host id s s' r u (t0 : Time) :
  clients s !! id = Some r → history_ok cs (consensus_states r) →
  prune_oldest_consensus_state cs host id s = (s', Ok u) →
  client_frame id s s'
  ∧ ∃ now, (consensus_states r = ∅ ∨ host_timestamp (Host:=host) = Ok (mkTimestamp (Some now)))
  ∧ clients s' !! id = Some (mkClientRecord (client_state_of r)
      (filter (λ hc, expired cs now hc.2 = false) (consensus_states r))).
Proof.
  intros Hr Hok Hp. destruct (sorted_heights_good _ _ Hok) as [Hnz Hnd].
  rewrite (prune_unfold _ _ _ _ _ Hr) in Hp.
  apply prune_loop_Ok in Hp as (pruned & kept & El & -> & Hpr & Hk); [|done..].
  destruct (forget_all_spec id pruned s r Hr) as [Hf Hc]. split; [done|].
  destruct (judged_now cs host s id pruned kept t0 Hpr Hk) as (now & Hnow & Hj).
  rewrite (history_Some _ _ _ Hr) in Hj. exists now. split.
  { destruct Hnow as [E|?]; [left|by right]. apply map_empty. intros h.
    destruct (consensus_states r !! h) eqn:Eh; [|done].
    assert (h ∈ sort_heights (heights_of r)) as Hin by by apply sorted_heights_spec.
    rewrite El, E in Hin. by apply not_elem_of_nil in Hin. }
  rewrite Hc. f_equal. unfold drop_states. f_equal. apply map_filter_strong_ext. intros h c. cbn.
  split; intros [Hx Hlook]; (split; [|done]).
  - destruct (expired cs now c) eqn:Ex; [|done]. exfalso.
    assert (h ∈ (pruned ++ kept)%list) as [Hin|Hin]%elem_of_app.
    { rewrite <- El. apply sorted_heights_spec. by exists c. }
    { done. }
    destruct kept as [|k kept]; [by apply not_elem_of_nil in Hin|].
    apply Hj in Hk as (ck & Hck & Hexp & Exk). apply elem_of_cons in Hin as [->|Hin]; [congruence|].
    pose proof (sort_heights_sorted (heights_of r)) as Hs. rewrite El in Hs, Hnd.
    apply StronglySorted_app_1_r, StronglySorted_inv in Hs as [_ Hs].
    pose proof (Forall_elem _ _ _ Hs Hin) as Hle%height_le_spec.
    apply list.NoDup_app in Hnd as (_ & _ & [Hne _]%list.NoDup_cons).
    destruct (height_lt_cases k h) as [Hlt|[->|?]]; [|done..].
    assert (expired cs now ck = true); [|congruence].
    eapply expired_downward; eauto.
  - intros Hin. apply (Forall_elem _ _ _ Hpr), Hj in Hin as (c' & ? & _ & ?). congruence.
Qed.

(** C15: Pruning removes exactly what expired: with a host that knows the time and
    expiries that can be computed, the loop over the sorted heights, which stops at
    the first state still in the trusting period, terminates without an error and
    leaves the history filtered by that test; only this client is touched, and its
    client state is not.  A state has expired when its timestamp plus the trusting
    period is not after the host's time, as the code tests; the comment above the
    function, which speaks of timestamps not after the host's, leaves the trusting
    period out. *)
Theorem prune_removes_expired cs host id now s r :
  clients s !! id = Some r → history_ok cs (consensus_states r) →
  host_timestamp (Host:=host) = Ok (mkTimestamp (Some now)) →
  (∀ h, is_Some (consensus_states r !! h) → expiry_known cs (consensus_states r) h) →
  ∃ s', prune_oldest_consensus_state cs host id s = (s', Ok tt)
  ∧ client_frame id s s'
  ∧ clients s' !! id = Some (mkClientRecord (client_state_of r)
      (filter (λ hc, expired cs now hc.2 = false) (consensus_states r))).
Proof.
  intros Hr Hok Hnow Hexp. destruct (sorted_heights_good _ _ Hok) as [Hnz Hnd].
  assert (host_now host (ClientOther "host timestamp is not a valid TM timestamp") = Ok now) as Hn
    by (unfold host_now, err_context; by rewrite Hnow).
  destruct (prune_loop_total cs host id now (sort_heights (heights_of r)) s) as [s' Hp]; [done..| |].
  { apply list.Forall_forall. intros h Hh%sorted_heights_spec. rewrite (history_Some _ _ _ Hr).
    by apply Hexp. }
  rewrite <- (prune_unfold _ _ _ _ _ Hr) in Hp. exists s'. split; [done|].
  destruct (prune_exact _ _ _ _ _ _ _ now Hr Hok Hp) as (Hf & now' & Hnow' & Hc). split; [done|].
  rewrite Hc. do 2 f_equal. destruct Hnow' as [->|?]; [by rewrite !map_filter_empty|].
  assert (now' = now) as -> by congruence. done.
Qed.
End pruning.

(** ** The client stays in its frame *)

Section writes.
Context `{TmText, Unicode, !TmCodec, !ChainTypes, !TmConverter, !Codec}.
Context (R : relation IbcStore) (id : ClientId).
Context (HR : WritesWithin R id client_state_from consensus_state_from).

Lemma prune_loop_within cs host hs : within R (prune_loop cs host id hs).
Proof. induction hs; cbn [prune_loop]; solve_within. Qed.
Hint Resolve prune_loop_within : within.
Lemma tm_initialise_within cs host a : within R (tm_initialise cs host id a).
Proof. unfold tm_initialise. solve_within. Qed.
Lemma tm_update_state_within cs host a : within R (tm_update_state cs host id a).
Proof. unfold tm_update_state, prune_oldest_consensus_state. solve_within. Qed.
Lemma tm_update_on_misbehaviour_within cs a : within R (tm_update_on_misbehaviour cs id a).
Proof. unfold tm_update_on_misbehaviour. solve_within. Qed.
Lemma tm_update_on_upgrade_within cs host a1 a2 : within R (tm_update_on_upgrade cs host id a1 a2).
Proof. unfold tm_update_on_upgrade. solve_within. Qed.
End writes.

#[export] Instance tm_client_frame `{TmText, Unicode, !TmCodec, !Codec, !Ics23, !Ics23Check, !TmVerifier} :
  ClientFrame (H0:=tm_types) (H1:=tm_client).
Proof.
  split; intros cs host id a.
  - apply (tm_initialise_within _ id _ cs).
  - apply (tm_update_state_within _ id _ cs).
  - apply (tm_update_on_misbehaviour_within _ id _ cs).
  - intros a2. apply (tm_update_on_upgrade_within _ id _ cs).
Qed.

(** ** Updates *)

Section updates.
Context `{TmText, Unicode, !TmCodec, !ChainTypes, !TmConverter, !TmConverterLaws, !Codec}.

Lemma recorded_subset m1 m2 h c : m1 ⊆ m2 → recorded m1 h = Some c → recorded m2 h = Some c.
Proof. rewrite !recorded_Some. intros Hs (c' & Hc & E). exists c'. split; [|done]. by eapply lookup_weaken. Qed.

Lemma history_ok_subset cs m1 m2 : m1 ⊆ m2 → history_ok cs m2 → history_ok cs m1.
Proof.
  intros Hs [Hh Hc Hm]. split.
  - intros h [c Hl]. apply Hh. exists c. by eapply lookup_weaken.
  - intros h c Hl. eapply Hc. by eapply lookup_weaken.
  - intros h1 h2 c1 c2 Hlt H1' H2'. eapply Hm; [done|by eapply recorded_subset..].
Qed.

Lemma recorded_insert m h c k :
  recorded (<[h := consensus_state_from c]> m) k = if decide (k = h) then Some c else recorded m k.
Proof.
  unfold recorded. destruct (decide (k = h)) as [->|Hk].
  - rewrite lookup_insert_eq. cbn. by rewrite consensus_state_converted.
  - by rewrite lookup_insert_ne.
Qed.

(** A state that fits extends the history. *)
Lemma history_ok_insert cs cs' m m1 h c :
  m1 ⊆ m → history_ok cs m → fits m h c → revision_height h ≠ 0 →
  ¬ height_lt (tm_latest_height cs') (tm_latest_height cs) → ¬ height_lt (tm_latest_height cs') h →
  history_ok cs' (<[h := consensus_state_from c]> m1).
Proof.
  intros Hs Hok Hfit Hh Hle Hle'. destruct (history_ok_subset _ _ _ Hs Hok) as [Hh1 Hc1 Hm1].
  assert (∀ k c', recorded m1 k = Some c' → k ≠ h →
    (height_lt k h → (nanos c' < nanos c)%Z) ∧ (height_lt h k → (nanos c < nanos c')%Z)) as Hn.
  { intros k c' Hk%(recorded_subset _ _ _ _ Hs) Hne. unfold fits in Hfit.
    destruct (recorded m h) as [c0|] eqn:E0; [|by apply Hfit]. subst c0.
    split; intros Hlt; by eapply (ho_mono _ _ Hok). }
  split.
  - intros k [c' Hl]. apply lookup_insert_Some in Hl as [[<- _]|[Hne Hl]]; [done|].
    destruct (Hh1 k) as [? Hlt]; [by exists c'|]. split; [done|]. unfold height_lt in *. lia.
  - intros k c' Hl. apply lookup_insert_Some in Hl as [[<- <-]|[Hne Hl]]; [|by eapply Hc1].
    exists c. apply consensus_state_converted.
  - intros h1 h2 c1 c2 Hlt. rewrite !recorded_insert.
    destruct (decide (h1 = h)) as [->|Hne1], (decide (h2 = h)) as [->|Hne2]; intros E1 E2; simplify_eq.
    + unfold height_lt in Hlt. lia.
    + by eapply Hn.
    + by eapply Hn.
    + by eapply Hm1.
Qed.

(** Pruning takes consensus states of the client away and changes nothing else of it. *)
Definition only_fewer (id : ClientId) : relation IbcStore := λ s s',
  ∀ r, clients s !! id = Some r → ∃ r', clients s' !! id = Some r'
    ∧ client_state_of r' = client_state_of r ∧ consensus_states r' ⊆ consensus_states r.
#[local] Instance only_fewer_preorder id : PreOrder (only_fewer id).
Proof.
  split; [intros s r Hr; by exists r|]. intros s1 s2 s3 H12 H23 r Hr.
  destruct (H12 r Hr) as (r2 & Hr2 & E2 & S2), (H23 r2 Hr2) as (r3 & Hr3 & E3 & S3).
  exists r3. split_and!; [done|congruence|by etrans].
Qed.

Lemma prune_loop_fewer cs host id hs : within (only_fewer id) (prune_loop cs host id hs).
Proof.
  assert (∀ h, within (only_fewer id) (delete_consensus_state (state_path id h))) as Hd.
  { intros h. apply within_bind; [apply _|by apply within_lift, _|]. intros k s r Hr.
    eexists. split; [apply update_client_record_same|]. change (ccsp_client_id (state_path id h)) with id. rewrite Hr.
    split; [done|]. apply delete_subseteq. }
  assert (∀ h, within (only_fewer id) (delete_update_meta id h)) as Hm.
  { intros h. apply within_bind; [apply _| |intros []]; intros s r Hr; by exists r. }
  induction hs as [|h hs IH]; cbn [prune_loop]; [by apply within_ret, _|].
  repeat first [apply within_bind; [apply _|first [by apply within_lift, _|by apply within_reads, _]|intros ?]].
  destruct (negb _); [by apply within_ret, _|].
  repeat (apply within_bind; [apply _|by apply within_in_client|intros ?]). exact IH.
Qed.

Lemma prune_history cs host id s s1 r u :
  clients s !! id = Some r → prune_oldest_consensus_state cs host id s = (s1, Ok u) →
  ∃ r1, clients s1 !! id = Some r1 ∧ client_state_of r1 = client_state_of r
    ∧ consensus_states r1 ⊆ consensus_states r.
Proof.
  intros Hr Hp. rewrite (prune_unfold _ _ _ _ _ Hr) in Hp.
  pose proof (prune_loop_fewer cs host id (sort_heights (heights_of r)) s) as Hf.
  rewrite Hp in Hf. by apply Hf.
Qed.

(** The writes of an update that is new. *)
Lemma new_update_writes (host : Host) id h header cs s s' u r :
  clients s !! id = Some r → revision_height h ≠ 0 →
  (timestamp ← lift (err_context (host_timestamp (Host:=host)));
   height ← lift (err_context (host_height (Host:=host)));
   let new_consensus_state := TmConsensusState_from_header header in
   new_client_state ← lift (err_tm (TmClientState_with_header cs header));
   in_client (store_consensus_state (state_path id h) (consensus_state_from new_consensus_state));;
   in_client (store_client_state (mkClientStatePath id) (client_state_from new_client_state));;
   in_client (store_update_meta id h timestamp height)) s = (s', Ok u) →
  ∃ cs', TmClientState_with_header cs header = Ok cs'
  ∧ clients s' !! id = Some (mkClientRecord (Some (client_state_from cs'))
      (<[h := consensus_state_from (TmConsensusState_from_header header)]> (consensus_states r))).
Proof.
  intros Hr Hh Hx. unfold store_consensus_state in Hx. cbn [ccsp_revision_number ccsp_revision_height state_path] in Hx.
  rewrite (proj2 (Height_new_Ok _ _ h)) in Hx by by destruct h.
  unfold mbind, exec_bind, lift in Hx.
  destruct (err_context host_timestamp), (err_context host_height); try done.
  destruct (TmClientState_with_header cs header) as [cs'|e|] eqn:E; try done.
  cbn in Hx. exists cs'. split; [done|]. injection Hx as <- _. cbn.
  rewrite update_client_record_same. cbn. rewrite update_client_record_same. cbn. by rewrite Hr.
Qed.
End updates.

(** ** Theorems *)

Section theorems.
Context `{TmText, Unicode, !TmCodec, !ChainTypes, !TmConverter, !TmConverterLaws, !Codec}.

Lemma header_any header msg :
  TmHeader_try_from msg = Ok header → (type_url msg =? TENDERMINT_HEADER_TYPE_URL)%string = true.
Proof. unfold TmHeader_try_from. by destruct (_ =? _)%string. Qed.

Lemma tm_check_header cs s id msg header :
  TmHeader_try_from msg = Ok header →
  tm_check_for_misbehaviour cs s id msg = check_for_misbehaviour_update_client cs s id header.
Proof.
  intros Hm. unfold tm_check_for_misbehaviour. rewrite (header_any _ _ Hm), Hm. done.
Qed.

(** A height the header has in one error monad it has in all. *)
Lemma TmHeader_height_any {E} header h :
  TmHeader_height (E:=E) header = Ok h → ∀ E', TmHeader_height (E:=E') header = Ok h.
Proof.
  unfold TmHeader_height, expect. intros Hh E'.
  destruct (ChainId_from_str _) as [c|?|]; cbn in *; [|done..].
  destruct (Height_new _ _) as [h'|?|]; cbn in *; [|done..]. congruence.
Qed.

Lemma with_header_latest cs header cs' h :
  (∀ E, TmHeader_height (E:=E) header = Ok h) → TmClientState_with_header cs header = Ok cs' →
  cs' = with_latest_height cs (tm_latest_height cs')
  ∧ ¬ height_lt (tm_latest_height cs') (tm_latest_height cs) ∧ ¬ height_lt (tm_latest_height cs') h.
Proof.
  intros Hh. unfold TmClientState_with_header. rewrite Hh. mstep. intros [= <-]. split; [done|].
  cbn [tm_latest_height with_latest_height].
  destruct (Height_gtb h (tm_latest_height cs)) eqn:E.
  - apply Height_gtb_spec in E. unfold height_lt in *. lia.
  - apply not_true_iff_false in E. rewrite Height_gtb_spec in E. unfold height_lt in *. lia.
Qed.

(** C14: The check an update goes through, which looks at the recorded state at the
    height of the header and at its two nearest neighbours, decides whether the
    header fits the whole history: it is no misbehaviour exactly when it is the
    state recorded at its height, or there is none and it is later than every
    state below and earlier than every state above. *)
Theorem tm_misbehaviour_check_exact cs s id r msg header h :
  clients s !! id = Some r → history_ok cs (consensus_states r) →
  TmHeader_try_from msg = Ok header → TmHeader_height (E:=ClientError) header = Ok h →
  ∃ b, tm_check_for_misbehaviour cs s id msg = Ok b
  ∧ (b = false ↔ fits (history s id) h (TmConsensusState_from_header header)).
Proof.
  intros Hr Hok Hm Hh. rewrite (tm_check_header _ _ _ _ _ Hm).
  apply (check_for_misbehaviour_fits cs s id r header h Hr Hok). exact (TmHeader_height_any _ _ Hh).
Qed.

(** What an update leaves: the pruned record, or the pruned record with the header. *)
Lemma tm_update_state_cases cs host s id r msg header s' hs :
  clients s !! id = Some r → TmHeader_try_from msg = Ok header →
  tm_update_state cs host id msg s = (s', Ok hs) →
  ∃ h s1 r1, hs = [h] ∧ (∀ E, TmHeader_height (E:=E) header = Ok h)
  ∧ prune_oldest_consensus_state cs host id s = (s1, Ok tt) ∧ clients s1 !! id = Some r1
  ∧ client_state_of r1 = client_state_of r ∧ consensus_states r1 ⊆ consensus_states r
  ∧ match consensus_states r1 !! h with
    | Some _ => clients s' !! id = Some r1
    | None => ∃ cs', TmClientState_with_header cs header = Ok cs'
        ∧ clients s' !! id = Some (mkClientRecord (Some (client_state_from cs'))
            (<[h := consensus_state_from (TmConsensusState_from_header header)]> (consensus_states r1)))
    end.
Proof.
  intros Hr Hm Hx. unfold tm_update_state in Hx. rewrite Hm in Hx.
  apply exec_bind_Ok in Hx as (s0 & header' & [-> [= <-]]%lift_Ok & Hx).
  apply exec_bind_Ok in Hx as (s0 & h & [-> Hh]%lift_Ok & Hx).
  pose proof (TmHeader_height_any _ _ Hh) as Hh'. apply TmHeader_height_Ok in Hh as Hnz.
  apply exec_bind_Ok in Hx as (s1 & [] & Hp & Hx).
  destruct (prune_history _ _ _ _ _ _ _ Hr Hp) as (r1 & Hr1 & Hcs1 & Hsub).
  apply exec_bind_Ok in Hx as (s2 & o & [-> Ho]%reads_Ok & Hx).
  rewrite existing_consensus_state_at in Ho by done. injection Ho as <-.
  apply exec_bind_Ok in Hx as (s2 & u & Hw & [-> ->]%exec_ret_Ok).
  rewrite (history_Some _ _ _ Hr1) in Hw. exists h, s1, r1. split_and!; try done.
  destruct (consensus_states r1 !! h) as [c|] eqn:Ec.
  - by apply exec_ret_Ok in Hw as [-> _].
  - by apply (new_update_writes host id h header cs s1 s2 u r1 Hr1 Hnz) in Hw.
Qed.

(** The states an update at [h] leaves: those that have not expired, and the header's. *)
Definition updated_states (cs : TmClientState) (now : Time) (h : Height) (c : TmConsensusState)
    (m : gmap Height ConsensusState) : gmap Height ConsensusState :=
  let kept := filter (λ hc, expired cs now hc.2 = false) m in
  if kept !! h is Some _ then kept else <[h := consensus_state_from c]> kept.

(** C13: An update keeps the record a history: after a header that passed the check is
    applied, the consensus states are exactly those that have not expired at the host's
    time and the header's own at its height, times still grow with heights, no state is
    above the latest height, the latest height never went down, and nothing else of the
    client state or of another client changed. *)
Theorem tm_update_extends_history `{!TmTimeLaws} cs host s id r msg header s' hs :
  clients s !! id = Some r → client_state_of r = Some (client_state_from cs) →
  history_ok cs (consensus_states r) → TmHeader_try_from msg = Ok header →
  tm_check_for_misbehaviour cs s id msg = Ok false →
  tm_update_state cs host id msg s = (s', Ok hs) →
  ∃ cs' h now, hs = [h] ∧ TmHeader_height (E:=ClientError) header = Ok h
  ∧ (consensus_states r = ∅ ∨ host_timestamp (Host:=host) = Ok (mkTimestamp (Some now)))
  ∧ clients s' !! id = Some (mkClientRecord (Some (client_state_from cs'))
      (updated_states cs now h (TmConsensusState_from_header header) (consensus_states r)))
  ∧ history_ok cs' (history s' id)
  ∧ recorded (history s' id) h = Some (TmConsensusState_from_header header)
  ∧ cs' = with_latest_height cs (tm_latest_height cs')
  ∧ ¬ height_lt (tm_latest_height cs') (tm_latest_height cs)
  ∧ ¬ height_lt (tm_latest_height cs') h
  ∧ client_frame id s s'.
Proof.
  intros Hr Hcs Hok Hm Hchk Hx.
  assert (client_frame id s s') as Hframe.
  { pose proof (tm_update_state_within _ id _ cs host msg s : client_frame id _ _) as Hf. by rewrite Hx in Hf. }
  rewrite (tm_check_header _ _ _ _ _ Hm) in Hchk.
  destruct (tm_update_state_cases _ _ _ _ _ _ _ _ _ Hr Hm Hx)
    as (h & s1 & r1 & -> & Hh & Hp & Hr1 & Hcs1 & Hsub & Hs').
  destruct (prune_exact _ _ _ _ _ _ _ (tc_timestamp (TmConsensusState_from_header header)) Hr Hok Hp)
    as (_ & now & Hnow & Hk). rewrite Hr1 in Hk. injection Hk as Hk.
  destruct (check_for_misbehaviour_fits _ _ _ _ _ _ Hr Hok Hh) as (b & Eb & Hfit).
  rewrite Hchk in Eb. injection Eb as <-. rewrite (history_Some _ _ _ Hr) in Hfit.
  pose proof (proj1 Hfit eq_refl) as Hfits. clear Hfit.
  destruct (consensus_states r1 !! h) as [c|] eqn:Ec.
  - exists cs, h, now. rewrite (history_Some _ _ _ Hs'). split_and!; try done.
    + rewrite Hs', Hk. unfold updated_states. rewrite Hk in Ec. cbn in Ec. by rewrite Ec, Hcs.
    + by eapply history_ok_subset.
    + destruct (neighbour cs _ h c (history_ok_subset _ _ _ Hsub Hok) Ec) as (c' & _ & Hrec).
      rewrite Hrec. f_equal. unfold fits in Hfits.
      by rewrite (recorded_subset _ _ _ _ Hsub Hrec) in Hfits.
    + by destruct cs.
    + unfold height_lt. lia.
    + apply (ho_height _ _ Hok). exists c. by eapply lookup_weaken.
  - destruct Hs' as (cs' & Hwith & Hs').
    destruct (with_header_latest _ _ _ _ Hh Hwith) as (Hcs' & Hle & Hle').
    exists cs', h, now. rewrite (history_Some _ _ _ Hs'). cbn [consensus_states]. split_and!; try done.
    + rewrite Hs', Hk. unfold updated_states. rewrite Hk in Ec. cbn in Ec. by rewrite Ec.
    + eapply history_ok_insert; eauto. by eapply (TmHeader_height_Ok (E:=ClientError)).
    + rewrite recorded_insert. by destruct (decide (h = h)).
Qed.

(** A client state is frozen, expired or active, and the three exclude each other:
    frozen once misbehaviour was seen; otherwise expired when the consensus state at
    the latest height is gone or older than the trusting period, and active when it
    is not, a consensus state from the future included. *)
Theorem tm_status_spec cs host s id now :
  revision_height (tm_latest_height cs) ≠ 0 →
  (∀ h c, history s id !! h = Some c → ∃ c', consensus_state_try_into c = Ok c') →
  host_timestamp (Host:=host) = Ok now →
  let latest := recorded (history s id) (tm_latest_height cs) in
  let old c := ∃ age, Timestamp_duration_since now (mkTimestamp (Some (tc_timestamp c))) = Some age
                      ∧ tm_trusting_period cs < age in
  ∃ st, tm_status cs host s id = Ok st
  ∧ (st = Frozen ↔ is_Some (tm_frozen_height cs))
  ∧ (st = StatusExpired ↔ tm_frozen_height cs = None ∧ ∀ c, latest = Some c → old c)
  ∧ (st = Active ↔ tm_frozen_height cs = None ∧ ∃ c, latest = Some c ∧ ¬ old c).
Proof.
  intros Hh Hconv Hnow latest old. unfold tm_status, TmClientState_is_frozen.
  destruct (tm_frozen_height cs) as [fh|].
  { exists Frozen. split_and!; [done|split; [by eexists|done]|split; [done|by intros [? _]]..]. }
  rewrite consensus_state_at by done. subst latest. unfold recorded.
  destruct (history s id !! tm_latest_height cs) as [c|] eqn:Ec; cbn [mbind option_bind].
  2:{ exists StatusExpired. split_and!; [done|split; [done|by intros [? ?]]|done|].
      split; [done|]. by intros (_ & ? & ? & _). }
  destruct (Hconv _ _ Ec) as [c' Hc']. rewrite Hc', Hnow. cbn [ok err_context map_err]. mstep.
  assert (old c' ↔ match Timestamp_duration_since now (mkTimestamp (Some (tc_timestamp c'))) with
    | Some age => tm_trusting_period cs < age | None => False end) as Hold.
  { subst old. cbn. destruct (Timestamp_duration_since _ _); naive_solver. }
  destruct (Timestamp_duration_since _ _) as [age|];
    [destruct (N.ltb_spec (tm_trusting_period cs) age)|].
  - exists StatusExpired. split_and!; [done|split; [done|by intros [? ?]]|..]; split; try done.
    + intros _. split; [done|]. intros ? [= <-]. by apply Hold.
    + intros (_ & ? & [= <-] & []). by apply Hold.
  - exists Active. split_and!; [done|split; [done|by intros [? ?]]|..]; split; try done.
    + intros [_ Ho]. specialize (Ho c' eq_refl). apply Hold in Ho. lia.
    + intros _. split; [done|]. exists c'. split; [done|]. rewrite Hold. lia.
  - exists Active. split_and!; [done|split; [done|by intros [? ?]]|..]; split; try done.
    + intros [_ Ho]. specialize (Ho c' eq_refl). by apply Hold in Ho.
    + intros _. split; [done|]. exists c'. split; [done|]. rewrite Hold. tauto.
Qed.

(** An upgrade takes what the chain chose from the upgraded client state (chain
    identifier, unbonding period, height, proof specifications, upgrade path) and
    keeps what the client's creator chose (trust level, trusting period, clock
    drift, permissions); the result is valid and not frozen, and until the first
    update its root is a placeholder no proof verifies against. *)
Theorem tm_upgrade_spec cs host id client_any consensus_any s s' h :
  tm_update_on_upgrade cs host id client_any consensus_any s = (s', Ok h) →
  ∃ upgraded cons cs',
    TmClientState_try_from client_any = Ok upgraded
    ∧ TmConsensusState_try_from consensus_any = Ok cons
    ∧ cs' = mkTmClientState (tm_chain_id upgraded) (tm_trust_level cs) (tm_trusting_period cs)
        (tm_unbonding_period upgraded) (tm_max_clock_drift cs) (tm_latest_height upgraded)
        (tm_proof_specs upgraded) (tm_upgrade_path upgraded) (tm_allow_update cs) None
    ∧ client_state_valid cs' ∧ h = tm_latest_height upgraded
    ∧ client_state s' id = Ok (client_state_from cs')
    ∧ recorded (history s' id) h
      = Some (mkTmConsensusState (tc_timestamp cons) SENTINEL_ROOT (tc_next_validators_hash cons))
    ∧ client_frame id s s'.
Proof.
  intros Hx. assert (client_frame id s s') as Hf.
  { pose proof (tm_update_on_upgrade_within _ id _ cs host client_any consensus_any s : client_frame id _ _) as Hf.
    by rewrite Hx in Hf. }
  unfold tm_update_on_upgrade in Hx.
  apply exec_bind_Ok in Hx as (s0 & upgraded & [-> Hu]%lift_Ok & Hx).
  apply exec_bind_Ok in Hx as (s0 & cons & [-> Hc]%lift_Ok & Hx).
  apply exec_bind_Ok in Hx as (s0 & cs' & [-> Hn%map_err_Ok]%lift_Ok & Hx).
  unfold TmClientState_new in Hn. apply bind_Ok in Hn as ([] & Hv%TmClientState_validate_Ok & [= <-]).
  apply exec_bind_Ok in Hx as (s0 & t & [-> _]%lift_Ok & Hx).
  apply exec_bind_Ok in Hx as (s0 & ht & [-> _]%lift_Ok & Hx).
  cbn [tm_latest_height zero_custom_fields tm_chain_id tm_unbonding_period tm_proof_specs
    tm_upgrade_path] in *.
  unfold store_consensus_state, store_client_state, store_update_meta, state_path in Hx.
  cbn [ccsp_revision_number ccsp_revision_height ccsp_client_id csp_client_id] in Hx.
  destruct (Height_new _ _) as [h'|?|] eqn:Eh; cbn in Hx; try done.
  apply Height_new_Ok in Eh as [Eh _]. assert (h' = tm_latest_height upgraded) as ->.
  { rewrite Eh. by destruct (tm_latest_height upgraded). }
  injection Hx as <- <-. exists upgraded, cons. eexists. split_and!; try done.
  - apply client_state_Ok. eexists. cbn. rewrite update_client_record_same. split; [done|]. cbn.
    by rewrite update_client_record_same.
  - unfold history. cbn. rewrite update_client_record_same. cbn. by rewrite recorded_insert, decide_True.
Qed.

(** A client whose upgrade path has a single key passes validation, but verifying
    an upgrade of it panics: the path is popped before its first key is taken. *)
Theorem tm_single_upgrade_key_panics `{!Ics23, !Ics23Check} cs key client_any consensus_any
    upgraded cons proof1 proof2 root :
  tm_upgrade_path cs = [key] →
  TmClientState_try_from client_any = Ok upgraded →
  TmConsensusState_try_from consensus_any = Ok cons →
  height_lt (tm_latest_height cs) (tm_latest_height upgraded) →
  tm_verify_upgrade_client cs client_any consensus_any proof1 proof2 root = Panic.
Proof.
  intros Hp Hu Hc Hlt. unfold tm_verify_upgrade_client. rewrite Hu, Hc. mstep.
  rewrite (proj2 (Height_ltb_spec _ _) Hlt). cbn [negb]. mstep. by rewrite Hp.
Qed.
End theorems.

(** ** Headers, proofs and misbehaviour of a Tendermint client *)

Section client_theorems.
Context `{TmText, Unicode, !TmCodec, !Codec, !Ics23, !Ics23Check, !TmVerifier}.
#[local] Existing Instance tm_client.

(** What stands behind an accepted header. *)
Record header_verified (cs : TmClientState) (host : Host) (s : IbcStore) (id : ClientId)
    (header : TmHeader) (h : Height) (trusted : TmConsensusState) : Prop := {
  hv_height : TmHeader_height (E:=TmError) header = Ok h;
  hv_newer : height_lt (trusted_height header) h;
  hv_revision : height_revision_number h = height_revision_number (trusted_height header)
    ∧ height_revision_number h = revision_number (tm_chain_id cs);
  hv_validators : validator_set_hash (validator_set header)
    = sh_validators_hash (signed_header header);
  hv_trusted : consensus_state s (state_path id (trusted_height header))
    = Ok (trusted : @ConsensusState tm_types);
  hv_next_validators : validator_set_hash (trusted_next_validator_set header)
    = tc_next_validators_hash trusted;
  hv_verdict : ∃ name height options now,
    tm_chain_id_try_from (chain_id (tm_chain_id cs)) = Ok name
    ∧ block_height_try_from (revision_height (trusted_height header)) = Ok height
    ∧ as_light_client_options cs = Ok options
    ∧ host_timestamp (Host:=host) = Ok (mkTimestamp (Some now))
    ∧ verify_update_header (as_untrusted_block_state header)
        (mkTrustedBlockState name (tc_timestamp trusted) height
           (trusted_next_validator_set header) (tc_next_validators_hash trusted)) options now
      = Success;
}.

Lemma accepted_header_verified (cs : TmClientState) host s id header :
  tm_verify_header cs host s id header = Ok tt →
  ∃ h trusted, header_verified cs host s id header h trusted.
Proof.
  unfold tm_verify_header, TmHeader_validate_basic, verify_chain_id_version_matches_height,
    check_trusted_next_validator_set, tm_consensus_state, host_now, err_tm, err_context.
  intros Hv. inv_ok. destruct_units. simplify_eq.
  repeat case_bool_decide; try done.
  rewrite ?negb_false_iff, ?N.eqb_eq, ?Height_ltb_spec, ?bool_decide_eq_true in *.
  match goal with Hi : into_result ?v = Ok tt |- _ => destruct v eqn:Ev; try done end.
  match goal with Ht : host_timestamp = Ok ?t |- _ => destruct t; cbn in * end. simplify_eq.
  match goal with
    A : TmHeader_height header = Ok ?h1, B : TmHeader_height header = Ok ?h2,
    C : consensus_state _ _ = Ok ?c |- _ =>
    assert (h1 = h2) as -> by congruence; exists h2, c end.
  split; try done. by repeat eexists.
Qed.

(** C31: An accepted header was checked against a consensus state of this client: it is
    above the trusted height, in the same revision as that height and as the chain,
    its validator set is the one it commits to, the trusted validators are those
    the trusted state announced, and the verifier accepted it at the host's time,
    under the client's own options, from the block of the client's chain at the
    trusted height, with the time and the next validators of the trusted state. *)
Theorem tm_verify_header_sound (cs : TmClientState) host s id header :
  tm_verify_header cs host s id header = Ok tt →
  ∃ h trusted, header_verified cs host s id header h trusted.
Proof. apply accepted_header_verified. Qed.

(** *** Proofs *)

(** The keys under which a path is proved, with the specifications of their trees. *)
Definition proof_keys (specs : ProofSpecs) (prefix : CommitmentPrefix) (path : Path) :
    list (RawProofSpec * string) :=
  key_levels specs (apply_prefix prefix [Path_to_string path]).

Lemma tm_membership_committed `{!Ics23Laws} (cs : TmClientState) prefix proof root path value :
  tm_verify_membership cs prefix proof root path value = Ok tt →
  value ≠ [] ∧ committed_under (proof_keys (tm_proof_specs cs) prefix path) value (root_bytes root).
Proof.
  unfold tm_verify_membership. intros Hv. inv_ok.
  match goal with H : MerkleProof_verify_membership _ _ _ _ _ _ = _ |- _ =>
    by apply membership_committed in H end.
Qed.

Lemma tm_non_membership_absent `{!Ics23Laws} (cs : TmClientState) prefix proof root path :
  tm_verify_non_membership cs prefix proof root path = Ok tt →
  absent_under (proof_keys (tm_proof_specs cs) prefix path) (root_bytes root).
Proof.
  unfold tm_verify_non_membership. intros Hv. inv_ok.
  match goal with H : MerkleProof_verify_non_membership _ _ _ _ = _ |- _ =>
    by apply non_membership_absent in H end.
Qed.

(** A value is under the keys of a path, below a root, in the trees of some proof
    specifications. *)
Definition tm_committed `{!Ics23Laws} (root : CommitmentRoot) (prefix : CommitmentPrefix)
    (path : Path) (value : bytes) : Prop :=
  value ≠ [] ∧ ∃ specs, committed_under (proof_keys specs prefix path) value (root_bytes root).

(** The Tendermint client is a client whose accepted proofs of presence are true:
    the handshakes and the packet theorems hold over it. *)
#[export] Instance tm_client_sound `{!Ics23Laws} : SoundClient tm_committed.
Proof.
  split. intros cs prefix proof root path value [? ?]%tm_membership_committed.
  split; [done|]. by eexists.
Qed.

(** Presence and absence under one root exclude each other, and presence fixes the
    value, for Tendermint clients with the same proof specifications: a relayer who
    has one accepted proof cannot get a contradicting one accepted, unless it finds
    a collision of the hash functions. *)
Theorem tm_proofs_consistent `{!Ics23Laws} (cs1 cs2 : TmClientState) prefix root path
    proof1 proof2 value1 value2 :
  tm_proof_specs cs1 = tm_proof_specs cs2 →
  tm_verify_membership cs1 prefix proof1 root path value1 = Ok tt →
  (tm_verify_membership cs2 prefix proof2 root path value2 = Ok tt → value1 = value2 ∨ hash_collision)
  ∧ (tm_verify_non_membership cs2 prefix proof2 root path = Ok tt → hash_collision).
Proof.
  intros Hs [_ H1']%tm_membership_committed. rewrite Hs in H1'. split.
  - intros [_ H2']%tm_membership_committed. by eapply committed_under_functional.
  - intros H2'%tm_non_membership_absent. by eapply committed_not_absent.
Qed.

End client_theorems.
