(* ===== verification/Query.v ===== *)
(** * Queries

    The gRPC queries of [ibc-query/src/core]: [channel/query.rs],
    [client/query.rs] and [connection/query.rs], over the store of the chain.  The
    listings and the proofs are the host's ([QueryContext], [ProvableContext]:
    classes here).  Requests and responses of the same shape share a record:
    [Proved] is a value with the proof of the path it is stored under, [Listed] a
    page with the height of the host.  The theorems: a proof that a query returns is
    the proof of the value next to it, and the values are the ones that the
    handlers of the counterparty verify. *)

From S2P Require Import Prelude RustStr Identifiers Primitives Path Connection Channel Context.
From S2P Require Import ConnHandlers Module ChanHandlers PacketHandlers PacketSpec ClientHandlers.
Local Open Scope string_scope.
Local Open Scope N_scope.

(** ** Raw forms of listed items *)

Record IdentifiedConnectionEnd := mkIdentifiedConnectionEnd {
  ice_connection_id : ConnectionId; ice_connection_end : ConnectionEnd }.
Record RawIdentifiedConnection := mkRawIdentifiedConnection {
  ric_id : string; ric_client_id : string; ric_versions : list RawVersion; ric_state : Z;
  ric_counterparty : option RawConnCounterparty; ric_delay_period : N }.
Record IdentifiedChannelEnd := mkIdentifiedChannelEnd {
  ich_port_id : PortId; ich_channel_id : ChannelId; ich_channel_end : ChannelEnd }.
Record RawIdentifiedChannel := mkRawIdentifiedChannel {
  rich_state : Z; rich_ordering : Z; rich_counterparty : option RawChanCounterparty;
  rich_connection_hops : list string; rich_version : string; rich_port_id : string;
  rich_channel_id : string; rich_upgrade_sequence : N }.
Record PacketState := mkPacketState {
  ps_port_id : PortId; ps_chan_id : ChannelId; ps_seq : Sequence; ps_data : bytes }.
Record RawPacketState := mkRawPacketState {
  rps_port_id : string; rps_channel_id : string; rps_sequence : N; rps_data : bytes }.

Definition RawIdentifiedConnection_from (value : IdentifiedConnectionEnd) : RawIdentifiedConnection :=
  let c := ice_connection_end value in
  mkRawIdentifiedConnection (connection_id_str (ice_connection_id value))
    (client_id_str (conn_client_id c)) (Version_into <$> conn_versions c)
    (ConnectionState_as_i32 (conn_state c)) (Some (ConnCounterparty_into (conn_counterparty c)))
    (as_nanos_u64 (conn_delay_period c)).
Definition RawIdentifiedChannel_from (value : IdentifiedChannelEnd) : RawIdentifiedChannel :=
  let c := ich_channel_end value in
  mkRawIdentifiedChannel (ChannelState_as_i32 (chan_state c)) (Order_as_i32 (chan_ordering c))
    (Some (ChanCounterparty_into (chan_remote c))) (connection_id_str <$> chan_connection_hops c)
    (chan_version_str (chan_version c)) (port_id_str (ich_port_id value))
    (channel_id_str (ich_channel_id value)) 0.
Definition RawPacketState_from (packet : PacketState) : RawPacketState :=
  mkRawPacketState (port_id_str (ps_port_id packet)) (channel_id_str (ps_chan_id packet))
    (ps_seq packet) (ps_data packet).

Section raw.
Context `{Unicode, TmTime}.

Definition IdentifiedConnectionEnd_try_from (value : RawIdentifiedConnection) :
    outcome ConnectionError IdentifiedConnectionEnd :=
  let raw_connection_end := mkRawConnectionEnd (ric_client_id value) (ric_versions value)
    (ric_state value) (ric_counterparty value) (ric_delay_period value) in
  connection_id ← map_err ConnInvalidIdentifier (ConnectionId_from_str (ric_id value));
  connection_end ← ConnectionEnd_try_from raw_connection_end;
  Ok (mkIdentifiedConnectionEnd connection_id connection_end).
Definition IdentifiedChannelEnd_try_from (value : RawIdentifiedChannel) :
    outcome ChannelError IdentifiedChannelEnd :=
  fail_if (negb (rich_upgrade_sequence value =? 0)) UnsupportedChannelUpgradeSequence;;
  let raw_channel_end := mkRawChannel (rich_state value) (rich_ordering value)
    (rich_counterparty value) (rich_connection_hops value) (rich_version value)
    (rich_upgrade_sequence value) in
  port_id ← map_err ChanInvalidIdentifier (PortId_from_str (rich_port_id value));
  channel_id ← map_err ChanInvalidIdentifier (ChannelId_from_str (rich_channel_id value));
  channel_end ← ChannelEnd_try_from raw_channel_end;
  Ok (mkIdentifiedChannelEnd port_id channel_id channel_end).
Definition PacketState_try_from (raw_pkt : RawPacketState) : outcome PacketError PacketState :=
  fail_if (Sequence_is_zero (rps_sequence raw_pkt)) ZeroPacketSequence;;
  fail_if (is_empty (rps_data raw_pkt)) ZeroPacketData;;
  port_id ← map_err PktInvalidIdentifier (PortId_from_str (rps_port_id raw_pkt));
  chan_id ← map_err PktInvalidIdentifier (ChannelId_from_str (rps_channel_id raw_pkt));
  Ok (mkPacketState port_id chan_id (rps_sequence raw_pkt) (rps_data raw_pkt)).
End raw.

(** Listed items are read back as they were written. *)
Section raw_lemmas.
Context `{Unicode, TmTime}.

Lemma identified_channel_roundtrip c :
  port_ok (ich_port_id c) → channel_ok (ich_channel_id c) → ChannelEnd_wf (ich_channel_end c) →
  IdentifiedChannelEnd_try_from (RawIdentifiedChannel_from c) = Ok c.
Proof.
  destruct c as [p i e]. cbn. intros Hp Hi He. unfold IdentifiedChannelEnd_try_from.
  cbn [RawIdentifiedChannel_from rich_upgrade_sequence rich_state rich_ordering rich_counterparty
    rich_connection_hops rich_version rich_port_id rich_channel_id ich_port_id ich_channel_id
    ich_channel_end N.eqb negb]. mstep. rewrite Hp, Hi. mstep.
  pose proof (proj1 (channel_end_raw_roundtrip e) He) as Hr. unfold ChannelEnd_into in Hr.
  by rewrite Hr.
Qed.
Lemma identified_connection_roundtrip c :
  connection_ok (ice_connection_id c) → ConnectionEnd_wf (ice_connection_end c) →
  is_u64 (conn_delay_period (ice_connection_end c)) →
  IdentifiedConnectionEnd_try_from (RawIdentifiedConnection_from c) = Ok c.
Proof.
  destruct c as [i e]. cbn. intros Hi He Hd. unfold IdentifiedConnectionEnd_try_from.
  cbn [RawIdentifiedConnection_from ric_id ric_client_id ric_versions ric_state ric_counterparty
    ric_delay_period ice_connection_id ice_connection_end]. rewrite Hi. mstep.
  pose proof (proj1 (connection_end_raw_roundtrip e) He) as Hr. unfold ConnectionEnd_into in Hr.
  rewrite Hr. mstep. rewrite N.mod_small by done. by destruct e.
Qed.
Lemma packet_state_roundtrip p :
  port_ok (ps_port_id p) → channel_ok (ps_chan_id p) → ps_seq p ≠ 0 → ps_data p ≠ [] →
  PacketState_try_from (RawPacketState_from p) = Ok p.
Proof.
  destruct p as [p c n d]. cbn. intros Hp Hc Hn Hd. unfold PacketState_try_from, Sequence_is_zero.
  cbn [RawPacketState_from rps_port_id rps_channel_id rps_sequence rps_data ps_port_id ps_chan_id
    ps_seq ps_data]. rewrite (proj2 (N.eqb_neq _ _) Hn), (proj2 (is_empty_false _) Hd). mstep.
  by rewrite Hp, Hc.
Qed.
End raw_lemmas.

(** ** Requests and responses *)

(** [QueryChannelRequest], [QueryChannelClientStateRequest],
    [QueryPacketCommitmentsRequest], [QueryNextSequence(Send|Receive)Request]. *)
Record ChannelRequest := mkChannelRequest { qc_port_id : string; qc_channel_id : string }.
(** [QueryChannelConsensusStateRequest]. *)
Record ChannelConsensusRequest := mkChannelConsensusRequest {
  qcc_port_id : string; qcc_channel_id : string; qcc_revision_number : N; qcc_revision_height : N }.
(** [QueryPacketCommitmentRequest], [QueryPacketReceiptRequest],
    [QueryPacketAcknowledgementRequest]. *)
Record PacketRequest := mkPacketRequest {
  qp_port_id : string; qp_channel_id : string; qp_sequence : N }.
(** [QueryPacketAcknowledgementsRequest], [QueryUnreceivedPacketsRequest],
    [QueryUnreceivedAcksRequest]. *)
Record SequencesRequest := mkSequencesRequest {
  qs_port_id : string; qs_channel_id : string; qs_sequences : list N }.
(** [QueryConsensusStateRequest]. *)
Record ConsensusStateRequest := mkConsensusStateRequest {
  qcs_client_id : string; qcs_revision_number : N; qcs_revision_height : N;
  qcs_latest_height : bool }.
(** [QueryConnectionConsensusStateRequest]. *)
Record ConnectionConsensusRequest := mkConnectionConsensusRequest {
  qco_connection_id : string; qco_revision_number : N; qco_revision_height : N }.

(** A value, the proof of it and the height of the proof. *)
Record Proved (A : Type) := mkProved { proved : A; proof_of : bytes; proved_at : option RawHeight }.
Arguments mkProved {A}. Arguments proved {A}. Arguments proof_of {A}. Arguments proved_at {A}.
(** A page of items and the height of the host; there is no pagination. *)
Record Listed (A : Type) := mkListed { items : list A; listed_at : option RawHeight }.
Arguments mkListed {A}. Arguments items {A}. Arguments listed_at {A}.

Record RawIdentifiedClientState := mkRawIdentifiedClientState {
  rics_client_id : string; rics_client_state : option Any }.
Record RawConsensusStateWithHeight := mkRawConsensusStateWithHeight {
  rcsh_height : option RawHeight; rcsh_consensus_state : option Any }.
(** The value of [QueryChannelConsensusStateResponse] and
    [QueryConnectionConsensusStateResponse]. *)
Record ConsensusStateOf := mkConsensusStateOf {
  cso_consensus_state : option Any; cso_client_id : string }.

Section queries.
Context `{Unicode, TmTime, ChainTypes}.

Inductive QueryError :=
| QContext (e : ContextError)
| QClient (e : ClientError)
| QIdentifier (e : IdentifierError)
| ProofNotFound (description : string).

(** What the host adds to the store: proofs, and listings of the store. *)
Class ProvableContext := {
  get_proof : IbcStore → Height → Path → option bytes;
}.
Class QueryContext := {
  list_client_states : IbcStore → outcome ContextError (list (ClientId * ClientState));
  list_consensus_states : IbcStore → ClientId → outcome ContextError (list (Height * ConsensusState));
  list_consensus_state_heights : IbcStore → ClientId → outcome ContextError (list Height);
  list_connection_ends : IbcStore → outcome ContextError (list IdentifiedConnectionEnd);
  list_client_connection_ends : IbcStore → ClientId → outcome ContextError (list ConnectionId);
  list_channel_ends : IbcStore → outcome ContextError (list IdentifiedChannelEnd);
  list_packet_commitments : IbcStore → ChannelEndPath → outcome ContextError (list PacketState);
  list_packet_acknowledgements : IbcStore → ChannelEndPath → list Sequence →
    outcome ContextError (list PacketState);
  list_unreceived_packets : IbcStore → ChannelEndPath → list Sequence →
    outcome ContextError (list Sequence);
  list_unreceived_acks : IbcStore → ChannelEndPath → list Sequence →
    outcome ContextError (list Sequence);
}.
(** [Into<Any>] of the host's client and consensus states. *)
Class AnyStates := {
  client_state_any : ClientState → outcome QueryError Any;
  consensus_state_any : ConsensusState → outcome QueryError Any;
}.
(** Debug output of paths and identifiers, in descriptions of errors. *)
Class QueryText := {
  channel_end_path_debug : ChannelEndPath → string;
  consensus_path_debug : ClientConsensusStatePath → string;
  commitment_path_debug : CommitmentPath → string;
  receipt_path_debug : ReceiptPath → string;
  ack_path_debug : AckPath → string;
  client_id_debug : ClientId → string;
  connection_id_debug : ConnectionId → string;
}.

Context `{!Host, !LightClient, !ProvableContext, !QueryContext, !AnyStates, !QueryText}.

(** [?] on the errors of a query. *)
Definition q_ctx {A} : outcome ContextError A → outcome QueryError A := map_err QContext.
Definition q_client {A} : outcome ClientError A → outcome QueryError A := map_err QClient.
Definition q_id {A} : outcome IdentifierError A → outcome QueryError A := map_err QIdentifier.
(** [ok_or(QueryError::ProofNotFound { description })?]. *)
Definition proof_or_not_found (p : option bytes) (description : string) : outcome QueryError bytes :=
  ok_or p (ProofNotFound description).

(** ** Channels *)

Definition query_channel (s : IbcStore) (request : ChannelRequest) :
    outcome QueryError (Proved (option RawChannel)) :=
  channel_id ← q_id (ChannelId_from_str (qc_channel_id request));
  port_id ← q_id (PortId_from_str (qc_port_id request));
  let channel_end_path := mkChannelEndPath port_id channel_id in
  channel_end ← q_ctx (channel_end s channel_end_path);
  current_height ← q_ctx host_height;
  proof ← proof_or_not_found (get_proof s current_height (PathChannelEnd channel_end_path))
    ("Proof not found for channel end path " ++ channel_end_path_debug channel_end_path);
  Ok (mkProved (Some (ChannelEnd_into channel_end)) proof (Some (Height_into_raw current_height))).

Definition query_channels (s : IbcStore) : outcome QueryError (Listed RawIdentifiedChannel) :=
  channel_ends ← q_ctx (list_channel_ends s);
  height ← q_ctx host_height;
  Ok (mkListed (RawIdentifiedChannel_from <$> channel_ends) (Some (Height_into_raw height))).

(** [filter(|channel_end| connection_hops.iter().any(|hop| hop == &connection_id))]. *)
Definition uses_connection (connection_id : ConnectionId) (c : IdentifiedChannelEnd) : bool :=
  existsb (λ hop, bool_decide (hop = connection_id)) (chan_connection_hops (ich_channel_end c)).
Definition query_connection_channels (s : IbcStore) (connection : string) :
    outcome QueryError (Listed RawIdentifiedChannel) :=
  connection_id ← q_id (ConnectionId_from_str connection);
  all_channel_ends ← q_ctx (list_channel_ends s);
  let connection_channel_ends :=
    RawIdentifiedChannel_from <$> List.filter (uses_connection connection_id) all_channel_ends in
  height ← q_ctx host_height;
  Ok (mkListed connection_channel_ends (Some (Height_into_raw height))).

(** The connection of a channel: its first hop. *)
Definition channel_connection (s : IbcStore) (channel_id : ChannelId) (c : ChannelEnd) :
    outcome QueryError ConnectionEnd :=
  connection ← ok_or (connection_end s <$> head (chan_connection_hops c))
    (ProofNotFound ("Channel " ++ channel_id_str channel_id ++ " does not have a connection"));
  q_ctx connection.

Definition query_channel_client_state (s : IbcStore) (request : ChannelRequest) :
    outcome QueryError (Proved (option RawIdentifiedClientState)) :=
  channel_id ← q_id (ChannelId_from_str (qc_channel_id request));
  port_id ← q_id (PortId_from_str (qc_port_id request));
  let channel_end_path := mkChannelEndPath port_id channel_id in
  channel_end ← q_ctx (channel_end s channel_end_path);
  connection_end ← channel_connection s channel_id channel_end;
  let client_id := conn_client_id connection_end in
  client_state ← q_ctx (client_state s client_id);
  current_height ← q_ctx host_height;
  proof ← proof_or_not_found
    (get_proof s current_height (PathClientState (mkClientStatePath client_id)))
    ("Proof not found for client state path: " ++ client_id_debug client_id);
  any ← client_state_any client_state;
  Ok (mkProved (Some (mkRawIdentifiedClientState (client_id_str client_id) (Some any))) proof
        (Some (Height_into_raw current_height))).

Definition query_channel_consensus_state (s : IbcStore) (request : ChannelConsensusRequest) :
    outcome QueryError (Proved ConsensusStateOf) :=
  channel_id ← q_id (ChannelId_from_str (qcc_channel_id request));
  port_id ← q_id (PortId_from_str (qcc_port_id request));
  height ← q_client (Height_new (qcc_revision_number request) (qcc_revision_height request));
  let channel_end_path := mkChannelEndPath port_id channel_id in
  channel_end ← q_ctx (channel_end s channel_end_path);
  connection_end ← channel_connection s channel_id channel_end;
  let client_id := conn_client_id connection_end in
  let consensus_path := mkClientConsensusStatePath client_id (height_revision_number height)
    (revision_height height) in
  consensus_state ← q_ctx (consensus_state s consensus_path);
  current_height ← q_ctx host_height;
  proof ← proof_or_not_found (get_proof s current_height (PathClientConsensusState consensus_path))
    ("Proof not found for client consensus state path: " ++ consensus_path_debug consensus_path);
  any ← consensus_state_any consensus_state;
  Ok (mkProved (mkConsensusStateOf (Some any) (client_id_str client_id)) proof
        (Some (Height_into_raw current_height))).

(** *** Packets *)

Definition query_packet_commitment (s : IbcStore) (request : PacketRequest) :
    outcome QueryError (Proved bytes) :=
  channel_id ← q_id (ChannelId_from_str (qp_channel_id request));
  port_id ← q_id (PortId_from_str (qp_port_id request));
  let commitment_path := mkCommitmentPath port_id channel_id (qp_sequence request) in
  packet_commitment_data ← q_ctx (get_packet_commitment s commitment_path);
  current_height ← q_ctx host_height;
  proof ← proof_or_not_found (get_proof s current_height (PathCommitment commitment_path))
    ("Proof not found for packet commitment path: " ++ commitment_path_debug commitment_path);
  Ok (mkProved (commitment_bytes packet_commitment_data) proof (Some (Height_into_raw current_height))).

Definition query_packet_commitments (s : IbcStore) (request : ChannelRequest) :
    outcome QueryError (Listed RawPacketState) :=
  channel_id ← q_id (ChannelId_from_str (qc_channel_id request));
  port_id ← q_id (PortId_from_str (qc_port_id request));
  commitments ← q_ctx (list_packet_commitments s (mkChannelEndPath port_id channel_id));
  height ← q_ctx host_height;
  Ok (mkListed (RawPacketState_from <$> commitments) (Some (Height_into_raw height))).

Definition query_packet_receipt (s : IbcStore) (request : PacketRequest) :
    outcome QueryError (Proved bool) :=
  channel_id ← q_id (ChannelId_from_str (qp_channel_id request));
  port_id ← q_id (PortId_from_str (qp_port_id request));
  let receipt_path := mkReceiptPath port_id channel_id (qp_sequence request) in
  let packet_receipt_data := get_packet_receipt s receipt_path in
  current_height ← q_ctx host_height;
  proof ← proof_or_not_found (get_proof s current_height (PathReceipt receipt_path))
    ("Proof not found for packet receipt path: " ++ receipt_path_debug receipt_path);
  Ok (mkProved (is_ok packet_receipt_data) proof (Some (Height_into_raw current_height))).

Definition query_packet_acknowledgement (s : IbcStore) (request : PacketRequest) :
    outcome QueryError (Proved bytes) :=
  channel_id ← q_id (ChannelId_from_str (qp_channel_id request));
  port_id ← q_id (PortId_from_str (qp_port_id request));
  let acknowledgement_path := mkAckPath port_id channel_id (qp_sequence request) in
  packet_acknowledgement_data ← q_ctx (get_packet_acknowledgement s acknowledgement_path);
  current_height ← q_ctx host_height;
  proof ← proof_or_not_found (get_proof s current_height (PathAck acknowledgement_path))
    ("Proof not found for packet acknowledgement path: " ++ ack_path_debug acknowledgement_path);
  Ok (mkProved (ack_commitment_bytes packet_acknowledgement_data) proof
        (Some (Height_into_raw current_height))).

Definition query_packet_acknowledgements (s : IbcStore) (request : SequencesRequest) :
    outcome QueryError (Listed RawPacketState) :=
  channel_id ← q_id (ChannelId_from_str (qs_channel_id request));
  port_id ← q_id (PortId_from_str (qs_port_id request));
  acknowledgements ← q_ctx (list_packet_acknowledgements s (mkChannelEndPath port_id channel_id)
    (qs_sequences request));
  height ← q_ctx host_height;
  Ok (mkListed (RawPacketState_from <$> acknowledgements) (Some (Height_into_raw height))).

Definition query_unreceived_packets (s : IbcStore) (request : SequencesRequest) :
    outcome QueryError (Listed N) :=
  channel_id ← q_id (ChannelId_from_str (qs_channel_id request));
  port_id ← q_id (PortId_from_str (qs_port_id request));
  unreceived_packets ← q_ctx (list_unreceived_packets s (mkChannelEndPath port_id channel_id)
    (qs_sequences request));
  height ← q_ctx host_height;
  Ok (mkListed unreceived_packets (Some (Height_into_raw height))).

Definition query_unreceived_acks (s : IbcStore) (request : SequencesRequest) :
    outcome QueryError (Listed N) :=
  channel_id ← q_id (ChannelId_from_str (qs_channel_id request));
  port_id ← q_id (PortId_from_str (qs_port_id request));
  unreceived_acks ← q_ctx (list_unreceived_acks s (mkChannelEndPath port_id channel_id)
    (qs_sequences request));
  height ← q_ctx host_height;
  Ok (mkListed unreceived_acks (Some (Height_into_raw height))).

Definition query_next_sequence_send (s : IbcStore) (request : ChannelRequest) :
    outcome QueryError (Proved N) :=
  channel_id ← q_id (ChannelId_from_str (qc_channel_id request));
  port_id ← q_id (PortId_from_str (qc_port_id request));
  let next_seq_send_path := mkSeqSendPath port_id channel_id in
  next_sequence_send ← q_ctx (get_next_sequence_send s next_seq_send_path);
  current_height ← q_ctx host_height;
  proof ← proof_or_not_found (get_proof s current_height (PathSeqSend next_seq_send_path))
    ("Next sequence send proof not found for channel " ++ channel_id_str channel_id);
  Ok (mkProved next_sequence_send proof (Some (Height_into_raw current_height))).

Definition query_next_sequence_receive (s : IbcStore) (request : ChannelRequest) :
    outcome QueryError (Proved N) :=
  channel_id ← q_id (ChannelId_from_str (qc_channel_id request));
  port_id ← q_id (PortId_from_str (qc_port_id request));
  let next_seq_recv_path := mkSeqRecvPath port_id channel_id in
  next_sequence_recv ← q_ctx (get_next_sequence_recv s next_seq_recv_path);
  current_height ← q_ctx host_height;
  proof ← proof_or_not_found (get_proof s current_height (PathSeqRecv next_seq_recv_path))
    ("Next sequence receive proof not found for channel " ++ channel_id_str channel_id);
  Ok (mkProved next_sequence_recv proof (Some (Height_into_raw current_height))).

(** ** Clients *)

Definition query_client_state (s : IbcStore) (request : string) :
    outcome QueryError (Proved (option Any)) :=
  client_id ← q_id (ClientId_from_str request);
  client_state ← q_ctx (client_state s client_id);
  current_height ← q_ctx host_height;
  proof ← proof_or_not_found
    (get_proof s current_height (PathClientState (mkClientStatePath client_id)))
    ("Proof not found for client state path: " ++ client_id_debug client_id);
  any ← client_state_any client_state;
  Ok (mkProved (Some any) proof (Some (Height_into_raw current_height))).

Definition query_client_states (s : IbcStore) : outcome QueryError (list RawIdentifiedClientState) :=
  client_states ← q_ctx (list_client_states s);
  try_map (λ '(id, state), any ← client_state_any state;
             Ok (mkRawIdentifiedClientState (client_id_str id) (Some any))) client_states.

(** [Iterator::max_by_key]: the last of the greatest. *)
Fixpoint max_by_height {A} (l : list (Height * A)) : option (Height * A) :=
  match l with
  | [] => None
  | x :: l =>
    match max_by_height l with
    | Some y => if Height_ltb y.1 x.1 then Some x else Some y
    | None => Some x
    end
  end.

Definition query_consensus_state (s : IbcStore) (request : ConsensusStateRequest) :
    outcome QueryError (Proved (option Any)) :=
  client_id ← q_id (ClientId_from_str (qcs_client_id request));
  '(height, consensus_state) ←
    (if qcs_latest_height request then
       states ← q_ctx (list_consensus_states s client_id);
       ok_or (max_by_height states)
         (ProofNotFound ("No consensus state found for client: " ++ client_id_debug client_id))
     else
       height ← q_client (Height_new (qcs_revision_number request) (qcs_revision_height request));
       consensus_state ← q_ctx (consensus_state s (mkClientConsensusStatePath client_id
         (height_revision_number height) (revision_height height)));
       Ok (height, consensus_state));
  current_height ← q_ctx host_height;
  proof ← proof_or_not_found
    (get_proof s current_height (PathClientConsensusState (mkClientConsensusStatePath client_id
       (height_revision_number height) (revision_height height))))
    ("Proof not found for consensus state path: " ++ client_id_debug client_id);
  any ← consensus_state_any consensus_state;
  Ok (mkProved (Some any) proof (Some (Height_into_raw current_height))).

Definition query_consensus_states (s : IbcStore) (request : string) :
    outcome QueryError (list RawConsensusStateWithHeight) :=
  client_id ← q_id (ClientId_from_str request);
  consensus_states ← q_ctx (list_consensus_states s client_id);
  try_map (λ '(height, state), any ← consensus_state_any state;
             Ok (mkRawConsensusStateWithHeight (Some (Height_into_raw height)) (Some any)))
    consensus_states.

Definition query_consensus_state_heights (s : IbcStore) (request : string) :
    outcome QueryError (list RawHeight) :=
  client_id ← q_id (ClientId_from_str request);
  consensus_state_heights ← q_ctx (list_consensus_state_heights s client_id);
  Ok (Height_into_raw <$> (consensus_state_heights : list Height)).

(** [Display] of a status. *)
Definition Status_to_string (self : Status) : string :=
  match self with
  | Active => "Active"
  | Frozen => "Frozen"
  | StatusExpired => "Expired"
  | Unauthorized => "Unauthorized"
  end.
Definition query_client_status (s : IbcStore) (request : string) : outcome QueryError string :=
  client_id ← q_id (ClientId_from_str request);
  client_state ← q_ctx (client_state s client_id);
  client_status ← q_client (status client_state _ s client_id);
  Ok (Status_to_string client_status).

(** ** Connections *)

Definition query_connection (s : IbcStore) (request : string) :
    outcome QueryError (Proved (option RawConnectionEnd)) :=
  connection_id ← q_id (ConnectionId_from_str request);
  connection_end ← q_ctx (connection_end s connection_id);
  current_height ← q_ctx host_height;
  proof ← proof_or_not_found
    (get_proof s current_height (PathConnection (mkConnectionPath connection_id)))
    ("Proof not found for connection path: " ++ connection_id_debug connection_id);
  Ok (mkProved (Some (ConnectionEnd_into connection_end)) proof
        (Some (Height_into_raw current_height))).

Definition query_connections (s : IbcStore) : outcome QueryError (Listed RawIdentifiedConnection) :=
  connections ← q_ctx (list_connection_ends s);
  height ← q_ctx host_height;
  Ok (mkListed (RawIdentifiedConnection_from <$> connections) (Some (Height_into_raw height))).

Definition query_client_connections (s : IbcStore) (request : string) :
    outcome QueryError (Proved (list string)) :=
  client_id ← q_id (ClientId_from_str request);
  connections ← q_ctx (list_client_connection_ends s client_id);
  current_height ← q_ctx host_height;
  proof ← proof_or_not_found
    (get_proof s current_height (PathClientConnection (mkClientConnectionPath client_id)))
    ("Proof not found for client connection path: " ++ client_id_debug client_id);
  Ok (mkProved (connection_id_str <$> (connections : list ConnectionId)) proof (Some (Height_into_raw current_height))).

Definition query_connection_client_state (s : IbcStore) (request : string) :
    outcome QueryError (Proved (option RawIdentifiedClientState)) :=
  connection_id ← q_id (ConnectionId_from_str request);
  connection_end ← q_ctx (connection_end s connection_id);
  let client_id := conn_client_id connection_end in
  client_state ← q_ctx (client_state s client_id);
  current_height ← q_ctx host_height;
  proof ← proof_or_not_found
    (get_proof s current_height (PathClientState (mkClientStatePath client_id)))
    ("Proof not found for client state path: " ++ client_id_debug client_id);
  any ← client_state_any client_state;
  Ok (mkProved (Some (mkRawIdentifiedClientState (client_id_str client_id) (Some any))) proof
        (Some (Height_into_raw current_height))).

Definition query_connection_consensus_state (s : IbcStore) (request : ConnectionConsensusRequest) :
    outcome QueryError (Proved ConsensusStateOf) :=
  connection_id ← q_id (ConnectionId_from_str (qco_connection_id request));
  connection_end ← q_ctx (connection_end s connection_id);
  height ← q_client (Height_new (qco_revision_number request) (qco_revision_height request));
  let client_id := conn_client_id connection_end in
  let consensus_path := mkClientConsensusStatePath client_id (height_revision_number height)
    (revision_height height) in
  consensus_state ← q_ctx (consensus_state s consensus_path);
  current_height ← q_ctx host_height;
  proof ← proof_or_not_found (get_proof s current_height (PathClientConsensusState consensus_path))
    ("Proof not found for consensus state path: " ++ client_id_debug client_id);
  any ← consensus_state_any consensus_state;
  Ok (mkProved (mkConsensusStateOf (Some any) (client_id_str client_id)) proof
        (Some (Height_into_raw current_height))).

Definition query_connection_params : outcome QueryError N :=
  Ok (as_secs max_expected_time_per_block).
End queries.

(** ** What the store proves *)

(** How the host writes the two values that no handler of the counterparty looks at: the
    receipt of a packet, and the connection of a client. *)
Class HostBytes := {
  receipt_bytes : Receipt → bytes;
  client_connection_bytes : ConnectionId → bytes;
}.

Section provable.
Context `{Unicode, TmTime, ChainTypes, !Codec, !AnyStates, !HostBytes}.

Definition any_bytes {E} (m : outcome E Any) : option bytes :=
  match m with Ok a => Some (encode_any a) | _ => None end.

(** The bytes under a path of the provable store: as the counterparty's handlers verify them,
    and as the host writes the rest. *)
Definition provable (s : IbcStore) (path : Path) : option bytes :=
  match path with
  | PathClientState p =>
    rec ← clients s !! csp_client_id p; cs ← client_state_of rec; any_bytes (client_state_any cs)
  | PathClientConsensusState p =>
    rec ← clients s !! ccsp_client_id p;
    cs ← consensus_states rec !! mkHeight (ccsp_revision_number p) (ccsp_revision_height p);
    any_bytes (consensus_state_any cs)
  | PathConnection p => ConnectionEnd_encode_vec <$> connections s !! cp_connection_id p
  | PathChannelEnd p => ChannelEnd_encode_vec <$> pc_get (channels s) (cep_port_id p) (cep_channel_id p)
  | PathSeqSend p => to_be_bytes <$> pc_get (next_sequence_send s) (ssp_port_id p) (ssp_channel_id p)
  | PathSeqRecv p => to_be_bytes <$> pc_get (next_sequence_recv s) (srp_port_id p) (srp_channel_id p)
  | PathSeqAck p => to_be_bytes <$> pc_get (next_sequence_ack s) (sap_port_id p) (sap_channel_id p)
  | PathCommitment p => commitment_bytes
      <$> pcs_get (packet_commitment s) (cmp_port_id p) (cmp_channel_id p) (cmp_sequence p)
  | PathAck p => ack_commitment_bytes
      <$> pcs_get (packet_acknowledgement s) (ap_port_id p) (ap_channel_id p) (ap_sequence p)
  | PathReceipt p => receipt_bytes
      <$> pcs_get (packet_receipt s) (rp_port_id p) (rp_channel_id p) (rp_sequence p)
  | PathClientConnection p => client_connection_bytes <$> client_connections s !! ccp_client_id p
  | _ => None
  end.

(** The host's proofs of its store [s] at height [h] are accepted by the client [cs]
    that a counterparty keeps of it, against the root of that height. *)
Class HonestProofs `{lc : !LightClient, !ProvableContext} (s : IbcStore) (h : Height) (cs : ClientState)
    (prefix : CommitmentPrefix) (root : CommitmentRoot) := {
  honest_present p π v : get_proof s h p = Some π → provable s p = Some v →
    verify_membership cs prefix (mkCommitmentProofBytes π) root p v = Ok tt;
  honest_absent p π : get_proof s h p = Some π → provable s p = None →
    verify_non_membership cs prefix (mkCommitmentProofBytes π) root p = Ok tt;
}.

(** [QueryContext]'s documentation of the listings. *)
Class QueryLaws `{!QueryContext} := {
  list_channel_ends_spec s l : list_channel_ends s = Ok l →
    ∀ p c ch, mkIdentifiedChannelEnd p c ch ∈ l ↔ pc_get (channels s) p c = Some ch;
  list_consensus_states_spec s id l : list_consensus_states s id = Ok l →
    ∀ h c, (h, c) ∈ l ↔ ∃ rec, clients s !! id = Some rec ∧ consensus_states rec !! h = Some c;
}.
End provable.

(** Inverts a query that returned a response. *)
Ltac inv_query := unfold q_ctx, q_id, q_client, proof_or_not_found in *; inv_ok.

(** ** Listings *)

Lemma max_by_height_spec {A} (l : list (Height * A)) x :
  max_by_height l = Some x → x ∈ l ∧ ∀ y, y ∈ l → ¬ height_lt x.1 y.1.
Proof.
  revert x. induction l as [|y l IH]; intros x; cbn; [done|].
  destruct (max_by_height l) as [z|] eqn:Ez.
  - destruct (IH z eq_refl) as [Hz Hmax]. pose proof (Height_ltb_spec z.1 y.1) as Hlt.
    destruct (Height_ltb z.1 y.1); intros [= <-]; (split; [by constructor|]);
      intros w [->|Hw]%list.elem_of_cons.
    + apply height_lt_irrefl.
    + intros Hyw. apply (Hmax w Hw). eapply height_lt_trans; [by apply Hlt|done].
    + intros Hzy. by apply Hlt in Hzy.
    + by apply Hmax.
  - intros [= <-]. split; [by constructor|]. destruct l as [|w l]; [|by cbn in Ez; repeat case_match].
    intros w ->%list_elem_of_singleton. apply height_lt_irrefl.
Qed.

Section listings.
Context `{Unicode, TmTime, ChainTypes, !Codec, !AnyStates, !HostBytes, !Host, lc : !LightClient, !ProvableContext}.
Context `{!QueryContext, !QueryText, !QueryLaws}.

Lemma uses_connection_spec i c :
  uses_connection i c = true ↔ i ∈ chan_connection_hops (ich_channel_end c).
Proof.
  unfold uses_connection. rewrite existsb_exists. setoid_rewrite bool_decide_eq_true.
  split.
  - intros (x & Hx & ->). by apply list_elem_of_In.
  - intros Hi. exists i. split; [by apply list_elem_of_In|done].
Qed.

(** The latest consensus state is the one of the greatest height, and it is
    returned with the proof of the path of that height.  A query for a given height
    returns the state of that height. *)
Theorem query_latest_consensus_state s req r :
  query_consensus_state s req = Ok r →
  ∃ id h rec c any, ClientId_from_str (qcs_client_id req) = Ok id
    ∧ clients s !! id = Some rec ∧ consensus_states rec !! h = Some c
    ∧ consensus_state_any c = Ok any ∧ proved r = Some any
    ∧ (∃ now, host_height = Ok now ∧ proved_at r = Some (Height_into_raw now)
         ∧ get_proof s now (PathClientConsensusState (mkClientConsensusStatePath id
             (height_revision_number h) (revision_height h))) = Some (proof_of r))
    ∧ (if qcs_latest_height req
       then ∀ h', is_Some (consensus_states rec !! h') → ¬ height_lt h h'
       else h = mkHeight (qcs_revision_number req) (qcs_revision_height req)).
Proof.
  unfold query_consensus_state. intros Hq. inv_query. destruct (qcs_latest_height req).
  - inv_query. match goal with H : max_by_height _ = Some ?x |- _ => destruct x as [h c];
      apply max_by_height_spec in H as [Hin Hmax] end.
    match goal with H : list_consensus_states _ _ = Ok _ |- _ =>
      pose proof (list_consensus_states_spec _ _ _ H) as Hl end.
    apply Hl in Hin as (rec & Hrec & Hc). inv_query. do 5 eexists. split_and!; try done.
    { eexists. split_and!; done. }
    intros h' [c' Hc']. apply (Hmax (h', c')), Hl. eauto.
  - inv_query. match goal with H : Height_new _ _ = Ok _ |- _ => apply Height_new_Ok in H as [-> ?] end.
    match goal with H : consensus_state s _ = Ok _ |- _ => apply consensus_state_Ok in H as (rec & Er & Ec) end.
    do 5 eexists. split_and!; try done. eexists. split_and!; done.
Qed.

Lemma query_connection_channels_found s conn r :
  query_connection_channels s conn = Ok r →
  ∃ id, ConnectionId_from_str conn = Ok id
    ∧ ∀ raw, raw ∈ items r ↔ ∃ p c ch, pc_get (channels s) p c = Some ch
        ∧ id ∈ chan_connection_hops ch
        ∧ raw = RawIdentifiedChannel_from (mkIdentifiedChannelEnd p c ch).
Proof.
  unfold query_connection_channels. intros Hq. inv_query. eexists. split; [done|]. cbn [items].
  match goal with H : list_channel_ends _ = Ok _ |- _ => pose proof (list_channel_ends_spec _ _ H) as Hl end.
  intros raw. rewrite list_elem_of_fmap. split.
  - intros ([p c ch] & -> & Hin). apply list_elem_of_In, filter_In in Hin as [Hin Hu].
    apply uses_connection_spec in Hu. apply list_elem_of_In, Hl in Hin. by exists p, c, ch.
  - intros (p & c & ch & Hch & Hu & ->). eexists. split; [done|].
    apply list_elem_of_In, filter_In. split; [by apply list_elem_of_In, Hl|].
    by apply uses_connection_spec.
Qed.
End listings.

(** ** Responses *)

Section responses.
Context `{Unicode, TmTime, ChainTypes, !Codec, !AnyStates, !HostBytes, !Host, lc : !LightClient, !ProvableContext}.
Context `{!QueryContext, !QueryText}.
Context (s : IbcStore) (h : Height) (cs : ClientState) (prefix : CommitmentPrefix) (root : CommitmentRoot).
Context (Hh : host_height = Ok h) `{!HonestProofs s h cs prefix root}.

(** The connection that the channel of a request runs over. *)
Definition channel_runs_over (port_id channel_id : string) (conn : ConnectionEnd) : Prop :=
  ∃ p c ch, PortId_from_str port_id = Ok p ∧ ChannelId_from_str channel_id = Ok c
    ∧ pc_get (channels s) p c = Some ch ∧ first_hop s (chan_connection_hops ch) conn.
(** The height of the consensus state that a request is for: the one it names, or the greatest
    of those of the client. *)
Definition recorded_at (c : ClientId) (k : Height) : Prop :=
  match clients s !! c with Some rec => is_Some (consensus_states rec !! k) | None => False end.
Definition consensus_height (c : ClientId) (req : ConsensusStateRequest) (k : Height) : Prop :=
  recorded_at c k
  ∧ if qcs_latest_height req then ∀ k', recorded_at c k' → ¬ height_lt k k'
    else k = mkHeight (qcs_revision_number req) (qcs_revision_height req).

(** A response whose value [v] under [path] the counterparty can verify. *)
Definition verifies {A} (r : Proved A) (path : Path) (v : bytes) : Prop :=
  proved_at r = Some (Height_into_raw h)
  ∧ verify_membership cs prefix (mkCommitmentProofBytes (proof_of r)) root path v = Ok tt.
Definition refutes {A} (r : Proved A) (path : Path) : Prop :=
  proved_at r = Some (Height_into_raw h)
  ∧ verify_non_membership cs prefix (mkCommitmentProofBytes (proof_of r)) root path = Ok tt.

Lemma verifies_provable {A} (x : A) π path v :
  get_proof s h path = Some π → provable s path = Some v →
  verifies (mkProved x π (Some (Height_into_raw h))) path v.
Proof. intros Hg Hp. split; [done|]. by eapply honest_present. Qed.

Lemma query_channel_verifies req r :
  query_channel s req = Ok r →
  ∃ p c raw, PortId_from_str (qc_port_id req) = Ok p ∧ ChannelId_from_str (qc_channel_id req) = Ok c
    ∧ proved r = Some raw ∧ verifies r (PathChannelEnd (mkChannelEndPath p c)) (encode_channel_end raw).
Proof.
  unfold query_channel. intros Hq. rewrite Hh in Hq. inv_query. do 3 eexists. split_and!; try done.
  apply verifies_provable; [done|]. cbn.
  match goal with H : channel_end s _ = Ok _ |- _ => unfold channel_end, err_channel in H end.
  inv_ok. cbn in *. by match goal with H : pc_get _ _ _ = _ |- _ => rewrite H end.
Qed.
Lemma query_connection_verifies req r :
  query_connection s req = Ok r →
  ∃ c raw, ConnectionId_from_str req = Ok c ∧ proved r = Some raw
    ∧ verifies r (PathConnection (mkConnectionPath c)) (encode_connection_end raw).
Proof.
  unfold query_connection. intros Hq. rewrite Hh in Hq. inv_query. do 2 eexists. split_and!; try done.
  apply verifies_provable; [done|]. cbn.
  match goal with H : connection_end s _ = Ok _ |- _ => unfold connection_end, err_connection in H end.
  inv_ok. by match goal with H : connections s !! _ = _ |- _ => rewrite H end.
Qed.
Lemma provable_client_state id c any :
  client_state s id = Ok c → client_state_any c = Ok any →
  provable s (PathClientState (mkClientStatePath id)) = Some (encode_any any).
Proof.
  intros (rec & Hr & Hc)%client_state_Ok Ha. cbn. rewrite Hr. cbn. rewrite Hc. cbn.
  unfold any_bytes. by rewrite Ha.
Qed.
Lemma provable_consensus_state path c any :
  consensus_state s path = Ok c → consensus_state_any c = Ok any →
  provable s (PathClientConsensusState path) = Some (encode_any any).
Proof.
  intros (rec & Hr & Hc)%consensus_state_Ok Ha. cbn. rewrite Hr. cbn. rewrite Hc. cbn.
  unfold any_bytes. by rewrite Ha.
Qed.
(** The client of the connection that a channel runs on. *)
Lemma channel_connection_Ok c ch conn :
  channel_connection s c ch = Ok conn → first_hop s (chan_connection_hops ch) conn.
Proof.
  unfold channel_connection. destruct (chan_connection_hops ch) as [|hop rest]; cbn; [done|].
  unfold q_ctx, connection_end, err_connection. intros Hc. inv_ok. by exists hop, rest.
Qed.

Lemma request_runs_over port_id channel_id p c ch conn :
  PortId_from_str port_id = Ok p → ChannelId_from_str channel_id = Ok c →
  channel_end s (mkChannelEndPath p c) = Ok ch → channel_connection s c ch = Ok conn →
  channel_runs_over port_id channel_id conn.
Proof.
  intros Hp Hc Hch%channel_end_Ok Hconn%channel_connection_Ok. by exists p, c, ch.
Qed.

Lemma query_client_state_verifies req r :
  query_client_state s req = Ok r →
  ∃ c any, ClientId_from_str req = Ok c ∧ proved r = Some any
    ∧ verifies r (PathClientState (mkClientStatePath c)) (encode_any any).
Proof.
  unfold query_client_state. intros Hq. rewrite Hh in Hq. inv_query. do 2 eexists. split_and!; try done.
  apply verifies_provable; [done|]. by eapply provable_client_state.
Qed.
Lemma query_consensus_state_verifies `{!QueryLaws} req r :
  query_consensus_state s req = Ok r →
  ∃ c k any, ClientId_from_str (qcs_client_id req) = Ok c ∧ proved r = Some any
    ∧ consensus_height c req k
    ∧ verifies r (PathClientConsensusState (state_path c k)) (encode_any any).
Proof.
  intros Hq. apply query_latest_consensus_state in Hq
    as (c & k & rec & cons & any & Hid & Hr & Hc & Ha & Hp & (now & Hn & Hat & Hg) & Hk).
  rewrite Hh in Hn. injection Hn as <-. exists c, k, any. split_and!; try done.
  { unfold consensus_height, recorded_at. rewrite Hr. split; [by eexists|].
    by destruct (qcs_latest_height req). }
  split; [done|]. eapply honest_present; [done|]. cbn. rewrite Hr. cbn. destruct k. cbn in *. rewrite Hc.
  cbn. unfold any_bytes. by rewrite Ha.
Qed.
Lemma query_channel_client_state_verifies req r :
  query_channel_client_state s req = Ok r →
  ∃ conn any, channel_runs_over (qc_port_id req) (qc_channel_id req) conn
    ∧ proved r = Some (mkRawIdentifiedClientState (client_id_str (conn_client_id conn)) (Some any))
    ∧ verifies r (PathClientState (mkClientStatePath (conn_client_id conn))) (encode_any any).
Proof.
  unfold query_channel_client_state. intros Hq. rewrite Hh in Hq. inv_query. do 2 eexists.
  split_and!; [|done|].
  - by eapply request_runs_over.
  - apply verifies_provable; [done|]. by eapply provable_client_state.
Qed.
Lemma query_channel_consensus_state_verifies req r :
  query_channel_consensus_state s req = Ok r →
  ∃ conn any, channel_runs_over (qcc_port_id req) (qcc_channel_id req) conn
    ∧ proved r = mkConsensusStateOf (Some any) (client_id_str (conn_client_id conn))
    ∧ verifies r (PathClientConsensusState (mkClientConsensusStatePath (conn_client_id conn)
        (qcc_revision_number req) (qcc_revision_height req))) (encode_any any).
Proof.
  unfold query_channel_consensus_state. intros Hq. rewrite Hh in Hq. inv_query.
  match goal with H : Height_new _ _ = Ok _ |- _ => apply Height_new_Ok in H as [-> _] end.
  do 2 eexists. split_and!; [|done|].
  - by eapply request_runs_over.
  - apply verifies_provable; [done|]. by eapply provable_consensus_state.
Qed.
Lemma query_connection_client_state_verifies req r :
  query_connection_client_state s req = Ok r →
  ∃ c conn any, ConnectionId_from_str req = Ok c ∧ connections s !! c = Some conn
    ∧ proved r = Some (mkRawIdentifiedClientState (client_id_str (conn_client_id conn)) (Some any))
    ∧ verifies r (PathClientState (mkClientStatePath (conn_client_id conn))) (encode_any any).
Proof.
  unfold query_connection_client_state. intros Hq. rewrite Hh in Hq. inv_query. do 3 eexists.
  split_and!; [done|by apply connection_end_Ok|done|].
  apply verifies_provable; [done|]. by eapply provable_client_state.
Qed.
Lemma query_connection_consensus_state_verifies req r :
  query_connection_consensus_state s req = Ok r →
  ∃ c conn any, ConnectionId_from_str (qco_connection_id req) = Ok c ∧ connections s !! c = Some conn
    ∧ proved r = mkConsensusStateOf (Some any) (client_id_str (conn_client_id conn))
    ∧ verifies r (PathClientConsensusState (mkClientConsensusStatePath (conn_client_id conn)
        (qco_revision_number req) (qco_revision_height req))) (encode_any any).
Proof.
  unfold query_connection_consensus_state. intros Hq. rewrite Hh in Hq. inv_query.
  match goal with H : Height_new _ _ = Ok _ |- _ => apply Height_new_Ok in H as [-> _] end.
  do 3 eexists. split_and!; [done|by apply connection_end_Ok|done|].
  apply verifies_provable; [done|]. by eapply provable_consensus_state.
Qed.
Lemma query_client_connections_verifies req r :
  query_client_connections s req = Ok r →
  ∃ c l, ClientId_from_str req = Ok c ∧ list_client_connection_ends s c = Ok l
    ∧ proved r = connection_id_str <$> (l : list ConnectionId)
    ∧ let path := PathClientConnection (mkClientConnectionPath c) in
      match client_connections s !! c with
      | Some conn => verifies r path (client_connection_bytes conn)
      | None => refutes r path
      end.
Proof.
  unfold query_client_connections. intros Hq. rewrite Hh in Hq. inv_query. do 2 eexists.
  split_and!; try done. cbv zeta. destruct (client_connections s !! _) as [conn|] eqn:Ec.
  - apply verifies_provable; [done|]. cbn. by rewrite Ec.
  - split; [done|]. eapply honest_absent; [done|]. cbn. by rewrite Ec.
Qed.
Lemma query_packet_commitment_verifies req r :
  query_packet_commitment s req = Ok r →
  ∃ p c, PortId_from_str (qp_port_id req) = Ok p ∧ ChannelId_from_str (qp_channel_id req) = Ok c
    ∧ verifies r (PathCommitment (mkCommitmentPath p c (qp_sequence req))) (proved r).
Proof.
  unfold query_packet_commitment. intros Hq. rewrite Hh in Hq. inv_query. do 2 eexists.
  split_and!; try done. apply verifies_provable; [done|]. cbn.
  match goal with H : get_packet_commitment s _ = Ok _ |- _ =>
    unfold get_packet_commitment, err_packet in H end.
  inv_ok. cbn in *. by match goal with H : pcs_get _ _ _ _ = _ |- _ => rewrite H end.
Qed.
Lemma query_packet_acknowledgement_verifies req r :
  query_packet_acknowledgement s req = Ok r →
  ∃ p c, PortId_from_str (qp_port_id req) = Ok p ∧ ChannelId_from_str (qp_channel_id req) = Ok c
    ∧ verifies r (PathAck (mkAckPath p c (qp_sequence req))) (proved r).
Proof.
  unfold query_packet_acknowledgement. intros Hq. rewrite Hh in Hq. inv_query. do 2 eexists.
  split_and!; try done. apply verifies_provable; [done|]. cbn.
  match goal with H : get_packet_acknowledgement s _ = Ok _ |- _ =>
    unfold get_packet_acknowledgement, err_packet in H end.
  inv_ok. cbn in *. by match goal with H : pcs_get _ _ _ _ = _ |- _ => rewrite H end.
Qed.
Lemma query_packet_receipt_verifies req r :
  query_packet_receipt s req = Ok r →
  ∃ p c, PortId_from_str (qp_port_id req) = Ok p ∧ ChannelId_from_str (qp_channel_id req) = Ok c
    ∧ let path := PathReceipt (mkReceiptPath p c (qp_sequence req)) in
      match pcs_get (packet_receipt s) p c (qp_sequence req) with
      | Some receipt => proved r = true ∧ verifies r path (receipt_bytes receipt)
      | None => proved r = false ∧ refutes r path
      end.
Proof.
  unfold query_packet_receipt. intros Hq. rewrite Hh in Hq. inv_query. do 2 eexists.
  split_and!; try done. cbn [proved]. unfold get_packet_receipt, err_packet.
  cbn [rp_port_id rp_channel_id rp_sequence].
  match goal with |- context [pcs_get ?m ?p ?c ?n] => destruct (pcs_get m p c n) eqn:Er end; cbn;
    (split; [done|]).
  - apply verifies_provable; [done|]. cbn. by rewrite Er.
  - split; [done|]. eapply honest_absent; [done|]. cbn. by rewrite Er.
Qed.
Lemma query_next_sequence_send_verifies req r :
  query_next_sequence_send s req = Ok r →
  ∃ p c, PortId_from_str (qc_port_id req) = Ok p ∧ ChannelId_from_str (qc_channel_id req) = Ok c
    ∧ verifies r (PathSeqSend (mkSeqSendPath p c)) (to_be_bytes (proved r)).
Proof.
  unfold query_next_sequence_send. intros Hq. rewrite Hh in Hq. inv_query. do 2 eexists.
  split_and!; try done. apply verifies_provable; [done|]. cbn.
  match goal with H : get_next_sequence_send s _ = Ok _ |- _ => apply get_next_sequence_send_Ok in H; cbn in H;
    by rewrite H end.
Qed.
Lemma query_next_sequence_receive_verifies req r :
  query_next_sequence_receive s req = Ok r →
  ∃ p c, PortId_from_str (qc_port_id req) = Ok p ∧ ChannelId_from_str (qc_channel_id req) = Ok c
    ∧ verifies r (PathSeqRecv (mkSeqRecvPath p c)) (to_be_bytes (proved r)).
Proof.
  unfold query_next_sequence_receive. intros Hq. rewrite Hh in Hq. inv_query. do 2 eexists.
  split_and!; try done. apply verifies_provable; [done|]. cbn.
  match goal with H : get_next_sequence_recv s _ = Ok _ |- _ =>
    unfold get_next_sequence_recv, err_packet in H end.
  inv_ok. cbn in *. by match goal with H : pc_get _ _ _ = _ |- _ => rewrite H end.
Qed.
End responses.

(** ** Theorems *)

Section theorems.
Context `{Unicode, TmTime, ChainTypes, !Codec, !AnyStates, !HostBytes, !Host, lc : !LightClient, !ProvableContext}.
Context `{!QueryContext, !QueryText}.

(** C28: What a query returns is what its proof proves, for each of the fourteen queries that
    return a proof.  When the host's proofs of a store are accepted by a counterparty's client of
    the host, and the host lists the consensus states of the store, that client accepts the
    proof of every response, at the height of the response, for the value of the response under
    the path of the store it is read from: client and consensus states, by their own identifiers
    or through a connection or channel, connections, channels, the next sequences to send and
    receive, packet commitments and acknowledgements.  A packet receipt is proved present or
    absent as it is reported, and the proof next to the connections of a client is one of
    the connection that the store has for it, or of there being none. *)
Theorem query_responses_verify `{!QueryLaws} s h cs prefix root :
  host_height = Ok h → HonestProofs s h cs prefix root →
  let verified {A} := verifies (A:=A) h cs prefix root in
  let refuted {A} := refutes (A:=A) h cs prefix root in
  let client_path c := PathClientState (mkClientStatePath c) in
  let client_of conn any :=
    mkRawIdentifiedClientState (client_id_str (conn_client_id conn)) (Some any) in
  let consensus_of conn any := mkConsensusStateOf (Some any) (client_id_str (conn_client_id conn)) in
  (∀ req r, query_client_state s req = Ok r →
     ∃ c any, ClientId_from_str req = Ok c ∧ proved r = Some any
       ∧ verified r (client_path c) (encode_any any))
  ∧ (∀ req r, query_consensus_state s req = Ok r →
     ∃ c k any, ClientId_from_str (qcs_client_id req) = Ok c ∧ proved r = Some any
       ∧ consensus_height s c req k
       ∧ verified r (PathClientConsensusState (state_path c k)) (encode_any any))
  ∧ (∀ req r, query_connection s req = Ok r →
     ∃ c raw, ConnectionId_from_str req = Ok c ∧ proved r = Some raw
       ∧ verified r (PathConnection (mkConnectionPath c)) (encode_connection_end raw))
  ∧ (∀ req r, query_client_connections s req = Ok r →
     ∃ c l, ClientId_from_str req = Ok c ∧ list_client_connection_ends s c = Ok l
       ∧ proved r = connection_id_str <$> (l : list ConnectionId)
       ∧ let path := PathClientConnection (mkClientConnectionPath c) in
         match client_connections s !! c with
         | Some conn => verified r path (client_connection_bytes conn)
         | None => refuted r path
         end)
  ∧ (∀ req r, query_connection_client_state s req = Ok r →
     ∃ c conn any, ConnectionId_from_str req = Ok c ∧ connections s !! c = Some conn
       ∧ proved r = Some (client_of conn any)
       ∧ verified r (client_path (conn_client_id conn)) (encode_any any))
  ∧ (∀ req r, query_connection_consensus_state s req = Ok r →
     ∃ c conn any, ConnectionId_from_str (qco_connection_id req) = Ok c
       ∧ connections s !! c = Some conn ∧ proved r = consensus_of conn any
       ∧ verified r (PathClientConsensusState (mkClientConsensusStatePath (conn_client_id conn)
           (qco_revision_number req) (qco_revision_height req))) (encode_any any))
  ∧ (∀ req r, query_channel s req = Ok r →
     ∃ p c raw, PortId_from_str (qc_port_id req) = Ok p
       ∧ ChannelId_from_str (qc_channel_id req) = Ok c ∧ proved r = Some raw
       ∧ verified r (PathChannelEnd (mkChannelEndPath p c)) (encode_channel_end raw))
  ∧ (∀ req r, query_channel_client_state s req = Ok r →
     ∃ conn any, channel_runs_over s (qc_port_id req) (qc_channel_id req) conn
       ∧ proved r = Some (client_of conn any)
       ∧ verified r (client_path (conn_client_id conn)) (encode_any any))
  ∧ (∀ req r, query_channel_consensus_state s req = Ok r →
     ∃ conn any, channel_runs_over s (qcc_port_id req) (qcc_channel_id req) conn
       ∧ proved r = consensus_of conn any
       ∧ verified r (PathClientConsensusState (mkClientConsensusStatePath (conn_client_id conn)
           (qcc_revision_number req) (qcc_revision_height req))) (encode_any any))
  ∧ (∀ req r, query_next_sequence_send s req = Ok r →
     ∃ p c, PortId_from_str (qc_port_id req) = Ok p ∧ ChannelId_from_str (qc_channel_id req) = Ok c
       ∧ verified r (PathSeqSend (mkSeqSendPath p c)) (to_be_bytes (proved r)))
  ∧ (∀ req r, query_next_sequence_receive s req = Ok r →
     ∃ p c, PortId_from_str (qc_port_id req) = Ok p ∧ ChannelId_from_str (qc_channel_id req) = Ok c
       ∧ verified r (PathSeqRecv (mkSeqRecvPath p c)) (to_be_bytes (proved r)))
  ∧ (∀ req r, query_packet_commitment s req = Ok r →
     ∃ p c, PortId_from_str (qp_port_id req) = Ok p ∧ ChannelId_from_str (qp_channel_id req) = Ok c
       ∧ verified r (PathCommitment (mkCommitmentPath p c (qp_sequence req))) (proved r))
  ∧ (∀ req r, query_packet_acknowledgement s req = Ok r →
     ∃ p c, PortId_from_str (qp_port_id req) = Ok p ∧ ChannelId_from_str (qp_channel_id req) = Ok c
       ∧ verified r (PathAck (mkAckPath p c (qp_sequence req))) (proved r))
  ∧ (∀ req r, query_packet_receipt s req = Ok r →
     ∃ p c, PortId_from_str (qp_port_id req) = Ok p ∧ ChannelId_from_str (qp_channel_id req) = Ok c
       ∧ let path := PathReceipt (mkReceiptPath p c (qp_sequence req)) in
         match pcs_get (packet_receipt s) p c (qp_sequence req) with
         | Some receipt => proved r = true ∧ verified r path (receipt_bytes receipt)
         | None => proved r = false ∧ refuted r path
         end).
Proof.
  intros Hh Hp verified refuted client_path client_of consensus_of. split_and!; intros req r Hq.
  - by apply (query_client_state_verifies s h cs prefix root Hh).
  - by apply (query_consensus_state_verifies s h cs prefix root Hh).
  - by apply (query_connection_verifies s h cs prefix root Hh).
  - by apply (query_client_connections_verifies s h cs prefix root Hh).
  - by apply (query_connection_client_state_verifies s h cs prefix root Hh).
  - by apply (query_connection_consensus_state_verifies s h cs prefix root Hh).
  - by apply (query_channel_verifies s h cs prefix root Hh).
  - by apply (query_channel_client_state_verifies s h cs prefix root Hh).
  - by apply (query_channel_consensus_state_verifies s h cs prefix root Hh).
  - by apply (query_next_sequence_send_verifies s h cs prefix root Hh).
  - by apply (query_next_sequence_receive_verifies s h cs prefix root Hh).
  - by apply (query_packet_commitment_verifies s h cs prefix root Hh).
  - by apply (query_packet_acknowledgement_verifies s h cs prefix root Hh).
  - by apply (query_packet_receipt_verifies s h cs prefix root Hh).
Qed.



End theorems.
