(* ===== verification/Entrypoint.v ===== *)
(** * Message dispatch

    [ibc-core/ics25-handler/src/entrypoint.rs], the message envelope of
    [ics25-handler/types/src/msgs.rs], and the router:
    [ibc-core/ics26-routing/src/router.rs] as implemented by [MockRouter]
    ([ibc-testkit/src/testapp/ibc/core/router]). *)

From S2P Require Import Prelude RustStr Identifiers Primitives Path Connection Channel Context.
From S2P Require Import ConnHandlers Module ChanHandlers PacketHandlers PacketSpec.
From S2P Require Import ClientHandlers.
Local Open Scope string_scope.
Local Open Scope N_scope.

Inductive MsgEnvelope `{TmTime} :=
| EnvClient (msg : ClientMsg)
| EnvConnection (msg : ConnectionMsg)
| EnvChannel (msg : ChannelMsg)
| EnvPacket (msg : PacketMsg).

(** ** The router *)

Record ModuleId := mkModuleId { module_id_str : string }.
#[export] Instance ModuleId_eq_dec : EqDecision ModuleId.
Proof. solve_decision. Defined.
#[export] Instance ModuleId_countable : Countable ModuleId.
Proof.
  refine (inj_countable' module_id_str mkModuleId _). by intros [].
Defined.

(** [router : BTreeMap<ModuleId, Arc<dyn Module>>] with unshared modules, and
    [port_to_module].  The type [App] ranges over module objects. *)
Record MockRouter {App : Type} := mkMockRouter {
  routes : gmap ModuleId App;
  port_to_module : gmap PortId ModuleId }.
Arguments MockRouter App : clear implicits.
Arguments mkMockRouter {App} _ _.

Section router.
Context {App : Type}.

Definition get_route (r : MockRouter App) (module_id : ModuleId) : option App :=
  routes r !! module_id.
Definition lookup_module (r : MockRouter App) (port_id : PortId) : option ModuleId :=
  port_to_module r !! port_id.

(** What a write through the reference [get_route_mut] returns leaves behind. *)
Definition put_route (r : MockRouter App) (module_id : ModuleId) (module : App) : MockRouter App :=
  mkMockRouter (<[module_id := module]> (routes r)) (port_to_module r).

(** A second registration replaces the module and then reports the error. *)
Definition add_route (module_id : ModuleId) (module : App) : exec (MockRouter App) string () :=
  λ r, (put_route r module_id module,
        match get_route r module_id with None => Ok tt | Some _ => Err "Duplicate module_id" end).
Definition scope_port_to_module (port_id : PortId) (module_id : ModuleId) (r : MockRouter App) :
    MockRouter App :=
  mkMockRouter (routes r) (<[port_id := module_id]> (port_to_module r)).
End router.

(** ** The entry points *)

Section ports.
Context `{TmTime}.

Definition channel_msg_to_port_id (msg : ChannelMsg) : PortId :=
  match msg with
  | ChanOpenInit msg => choi_port_id_on_a msg
  | ChanOpenTry msg => chot_port_id_on_b msg
  | ChanOpenAck msg => choa_port_id_on_a msg
  | ChanOpenConfirm msg => choc_port_id_on_b msg
  | ChanCloseInit msg => chci_port_id_on_a msg
  | ChanCloseConfirm msg => chcc_port_id_on_b msg
  end.

Definition packet_msg_to_port_id (msg : PacketMsg) : PortId :=
  match msg with
  | PktRecv msg => port_id_on_b (recv_packet msg)
  | PktAck msg => port_id_on_a (ack_packet msg)
  | PktTimeout msg => port_id_on_a (to_packet msg)
  | PktTimeoutOnClose msg => port_id_on_a (toc_packet msg)
  end.
End ports.

Section dispatch.
Context `{TmTime, !ChainTypes, !LightClient, host : !Host, !Codec, !Sha256}.
Context {App : Type} `{!Module App}.

(** The module a message is routed to. *)
Definition route_of (r : MockRouter App) (port_id : PortId) :
    outcome ContextError (ModuleId * App) :=
  module_id ← err_router (ok_or (lookup_module r port_id) (UnknownPort port_id));
  module ← err_router (ok_or (get_route r module_id) ModuleNotFound);
  Ok (module_id, module).

Definition validate (s : IbcStore) (r : MockRouter App) (msg : MsgEnvelope) :
    outcome ContextError () :=
  match msg with
  | EnvClient msg => client_validate s msg
  | EnvConnection msg => connection_validate s msg
  | EnvChannel msg =>
    '(_, module) ← route_of r (channel_msg_to_port_id msg);
    channel_validate s module msg
  | EnvPacket msg =>
    '(_, module) ← route_of r (packet_msg_to_port_id msg);
    packet_validate s module msg
  end.

Definition on_route (port_id : PortId) (h : handler (App:=App) ()) :
    exec (IbcStore * MockRouter App) ContextError () := λ st,
  match route_of st.2 port_id with
  | Ok (module_id, module) =>
    let '((s', module'), res) := h (st.1, module) in
    ((s', put_route st.2 module_id module'), res)
  | Err e => (st, Err e)
  | Panic => (st, Panic)
  end.

Definition execute (msg : MsgEnvelope) : exec (IbcStore * MockRouter App) ContextError () :=
  match msg with
  | EnvClient msg => on_fst (client_execute msg)
  | EnvConnection msg => on_fst (connection_execute msg)
  | EnvChannel msg => on_route (channel_msg_to_port_id msg) (channel_execute msg)
  | EnvPacket msg => on_route (packet_msg_to_port_id msg) (packet_execute msg)
  end.

Definition dispatch (msg : MsgEnvelope) : exec (IbcStore * MockRouter App) ContextError () :=
  reads (λ st, validate st.1 st.2 msg);;
  execute msg.
End dispatch.

(** ** What a successful dispatch did *)

Section inversion.
Context `{TmTime, !ChainTypes, !LightClient, host : !Host, !Codec, !Sha256}.
Context {App : Type} `{!Module App}.

Lemma route_of_Ok (r : MockRouter App) port i a :
  route_of r port = Ok (i, a) ↔ port_to_module r !! port = Some i ∧ routes r !! i = Some a.
Proof.
  unfold route_of, err_router, lookup_module, get_route.
  destruct (port_to_module r !! port) as [j|]; cbn; [|naive_solver].
  destruct (routes r !! j) eqn:E; cbn; naive_solver.
Qed.

Lemma on_route_Ok port (h : handler (App:=App) ()) s r st' u :
  on_route port h (s, r) = (st', Ok u) →
  ∃ i a s' a', route_of r port = Ok (i, a) ∧ h (s, a) = ((s', a'), Ok u)
    ∧ st' = (s', put_route r i a').
Proof.
  unfold on_route. cbn. destruct (route_of r port) as [[i a]|e|]; [|done..].
  destruct (h (s, a)) as [[s' a'] res] eqn:E. intros [= <- ->]. by do 4 eexists.
Qed.

(** One lemma per kind of message: the pieces a successful dispatch is made of. *)
Lemma dispatch_Ok s r msg st' u :
  dispatch msg (s, r) = (st', Ok u) →
  match msg with
  | EnvClient m => client_validate s m = Ok tt
      ∧ ∃ s', client_execute m s = (s', Ok tt) ∧ st' = (s', r)
  | EnvConnection m => connection_validate s m = Ok tt
      ∧ ∃ s', connection_execute m s = (s', Ok tt) ∧ st' = (s', r)
  | EnvChannel m => ∃ i a s' a', route_of r (channel_msg_to_port_id m) = Ok (i, a)
      ∧ channel_validate s a m = Ok tt ∧ channel_execute m (s, a) = ((s', a'), Ok tt)
      ∧ st' = (s', put_route r i a')
  | EnvPacket m => ∃ i a s' a', route_of r (packet_msg_to_port_id m) = Ok (i, a)
      ∧ packet_validate s a m = Ok tt ∧ packet_execute m (s, a) = ((s', a'), Ok tt)
      ∧ st' = (s', put_route r i a')
  end.
Proof.
  unfold dispatch. intros Hx. apply exec_bind_Ok in Hx as (st1 & [] & Hv & Hx).
  apply reads_Ok in Hv as [-> Hv]. destruct u. cbn in Hv.
  destruct msg as [m|m|m|m]; cbn [validate execute] in *.
  - apply on_fst_Ok in Hx as (s' & ? & ->). eauto.
  - apply on_fst_Ok in Hx as (s' & ? & ->). eauto.
  - apply bind_Ok in Hv as ([i a] & Hr & Hv). apply on_route_Ok in Hx
      as (i' & a0 & s' & a' & Hr' & Hx & ->). rewrite Hr in Hr'. simplify_eq. by do 4 eexists.
  - apply bind_Ok in Hv as ([i a] & Hr & Hv). apply on_route_Ok in Hx
      as (i' & a0 & s' & a' & Hr' & Hx & ->). rewrite Hr in Hr'. simplify_eq. by do 4 eexists.
Qed.
End inversion.
