(* ===== verification/Text.v ===== *)
(** * Texts of channels, packets and timeouts

    The [Display] implementations of ics04-channel/types/src (channel.rs, packet.rs,
    timeout.rs), of connection versions, and of slices (ibc-primitives/src/utils/pretty.rs), the
    parser of channel orderings, and the text of a timeout height in events. *)

From S2P Require Import Prelude RustStr Identifiers Primitives Path Connection Channel Context Query.
Local Open Scope string_scope.
Local Open Scope N_scope.

(** ** Lower case and repeated prefixes *)

(** [str::to_lowercase] of a text with characters beyond ASCII. *)
Class UnicodeCase := lowercase_beyond_ascii : string → string.

Definition ascii_lowercase (c : N) : N := if (65 <=? c) && (c <=? 90) then c + 32 else c.
Definition is_ascii (s : string) : bool := forallb (λ c, c <? 128) (chars s).
Definition to_lowercase `{UnicodeCase} (s : string) : string :=
  if is_ascii s then of_chars (ascii_lowercase <$> chars s) else lowercase_beyond_ascii s.

Fixpoint strip_prefix (p s : string) : option string :=
  match p, s with
  | "", _ => Some s
  | String a p, String b s => if (a =? b)%char then strip_prefix p s else None
  | String _ _, "" => None
  end.
(** [str::trim_start_matches] with a pattern that is not empty: each round shortens the text,
    so its length is enough fuel. *)
Fixpoint trim_rounds (fuel : nat) (p s : string) : string :=
  match fuel with
  | O => s
  | S fuel => match strip_prefix p s with Some rest => trim_rounds fuel p rest | None => s end
  end.
Definition trim_start_matches (p s : string) : string := trim_rounds (String.length s) p s.

(** ** Orderings *)

Definition ORDER_TEXTS : string := "Must be one of 'uninitialized', 'unordered', 'ordered'".
Definition Order_from_str `{UnicodeCase, TmTime} (s : string) : outcome ChannelError Order :=
  let t := trim_start_matches "order_" (to_lowercase s) in
  if (t =? "uninitialized")%string then Ok OrderNone
  else if (t =? "unordered")%string then Ok Unordered
  else if (t =? "ordered")%string then Ok Ordered
  else Err (InvalidOrderType ORDER_TEXTS s).

(** ** Slices and structs *)

(** The loop with [peek]. *)
Fixpoint pretty_elements {A} (show : A → string) (l : list A) : string :=
  match l with
  | [] => ""
  | [element] => show element
  | element :: l => show element ++ ", " ++ pretty_elements show l
  end.
Definition PrettySlice_to_string {A} (show : A → string) (l : list A) : string :=
  "[ " ++ pretty_elements show l ++ " ]".

Definition Version_to_string (self : Version) : string :=
  "Version { identifier: " ++ identifier self ++ ", features: "
  ++ PrettySlice_to_string id (features self) ++ " }".

Definition ChanCounterparty_to_string (self : ChanCounterparty) : string :=
  match rem_channel_id self with
  | Some channel_id => "Counterparty(port_id: " ++ port_id_str (rem_port_id self) ++ ", channel_id: "
                       ++ channel_id_str channel_id ++ ")"
  | None => "Counterparty(port_id: " ++ port_id_str (rem_port_id self) ++ ", channel_id: None)"
  end.
Definition ChannelEnd_to_string (self : ChannelEnd) : string :=
  "ChannelEnd { state: " ++ ChannelState_as_string (chan_state self) ++ ", ordering: "
  ++ Order_as_str (chan_ordering self) ++ ", remote: " ++ ChanCounterparty_to_string (chan_remote self)
  ++ ", connection_hops: " ++ PrettySlice_to_string connection_id_str (chan_connection_hops self)
  ++ ", version: " ++ chan_version_str (chan_version self) ++ " }".

(** ** Timeouts and packets *)

Definition TimeoutHeight_to_event_attribute_value (self : TimeoutHeight) : string :=
  match self with At height => Height_to_string height | Never => "0-0" end.
Definition TimeoutHeight_to_string (self : TimeoutHeight) : string :=
  match self with At timeout_height => Height_to_string timeout_height | Never => "no timeout" end.

Inductive PacketMsgType := MsgTypeRecv | MsgTypeAck | MsgTypeTimeoutUnordered | MsgTypeTimeoutOrdered | MsgTypeTimeoutOnClose.
Definition PacketMsgType_to_string (self : PacketMsgType) : string :=
  match self with
  | MsgTypeRecv => "(PacketMsgType::Recv)"
  | MsgTypeAck => "(PacketMsgType::Ack)"
  | MsgTypeTimeoutUnordered => "(PacketMsgType::TimeoutUnordered)"
  | MsgTypeTimeoutOrdered => "(PacketMsgType::TimeoutOrdered)"
  | MsgTypeTimeoutOnClose => "(PacketMsgType::TimeoutOnClose)"
  end.

Section packets.
Context `{TmTime}.
(** [Time::to_rfc3339]. *)
Variable to_rfc3339 : Time → string.

Definition Timestamp_to_string (self : Timestamp) : string :=
  "Timestamp(" ++ match time self with None => "NoTimestamp" | Some time => to_rfc3339 time end ++ ")".

(** The channel comes before the port, and the last parenthesis is not opened. *)
Definition Packet_to_string (self : Packet) : string :=
  "seq:" ++ show_u64 (seq_on_a self) ++ ", path:" ++ channel_id_str (chan_id_on_a self) ++ "/"
  ++ port_id_str (port_id_on_a self) ++ "->" ++ channel_id_str (chan_id_on_b self) ++ "/"
  ++ port_id_str (port_id_on_b self) ++ ", toh:" ++ TimeoutHeight_to_string (timeout_height_on_b self)
  ++ ", tos:" ++ Timestamp_to_string (timeout_timestamp_on_b self) ++ ")".
Definition PacketState_to_string (self : PacketState) : string :=
  "seq:" ++ show_u64 (ps_seq self) ++ ", path:" ++ channel_id_str (ps_chan_id self) ++ "/"
  ++ port_id_str (ps_port_id self).
End packets.

(** ** Theorems *)

Lemma strip_prefix_app p s : strip_prefix p (p ++ s) = Some s.
Proof. induction p as [|a p IH]; [done|]. change (String a p ++ s) with (String a (p ++ s)). cbn [strip_prefix]. by rewrite Ascii.eqb_refl. Qed.
Lemma strip_prefix_Some p s rest : strip_prefix p s = Some rest → s = p ++ rest.
Proof.
  revert s. induction p as [|a p IH]; intros s E; [by injection E as ->|].
  destruct s as [|b s]; [done|]. cbn [strip_prefix] in E. destruct (Ascii.eqb_spec a b) as [->|]; [|done].
  change (String b p ++ rest) with (String b (p ++ rest)). f_equal. by apply IH.
Qed.

(** What is left does not start with the prefix: the fuel suffices. *)
Lemma trim_start_matches_done a p s : strip_prefix (String a p) (trim_start_matches (String a p) s) = None.
Proof.
  unfold trim_start_matches. remember (String.length s) as n eqn:Hn. assert (String.length s <= n)%nat as Hle by lia.
  clear Hn. revert s Hle. induction n as [|n IH]; intros s Hle.
  - destruct s; cbn in *; [done|lia].
  - cbn [trim_rounds]. destruct (strip_prefix (String a p) s) as [rest|] eqn:E; [|done]. apply IH.
    apply strip_prefix_Some in E as ->. rewrite length_app_str in Hle. cbn in Hle. lia.
Qed.
(** Removing the prefix once by hand changes nothing. *)
Lemma trim_rounds_enough a p n s :
  (String.length s <= n)%nat → trim_rounds n (String a p) s = trim_start_matches (String a p) s.
Proof.
  unfold trim_start_matches. remember (String.length s) as k eqn:Hk. revert n s Hk.
  induction k as [k IH] using lt_wf_ind. intros n s Hk Hn.
  destruct k as [|k].
  - destruct s; [|done]. by destruct n.
  - destruct n as [|n]; [lia|]. cbn [trim_rounds]. destruct (strip_prefix (String a p) s) as [rest|] eqn:E; [|done].
    apply strip_prefix_Some in E as ->. rewrite length_app_str in Hk. cbn in Hk.
    transitivity (trim_rounds (String.length rest) (String a p) rest); [|symmetry]; apply IH; lia.
Qed.
Lemma trim_start_matches_app a p s :
  trim_start_matches (String a p) (String a p ++ s) = trim_start_matches (String a p) s.
Proof.
  unfold trim_start_matches at 1. change (String.length (String a p ++ s)) with (S (String.length (p ++ s))).
  cbn [trim_rounds]. rewrite strip_prefix_app. apply trim_rounds_enough. rewrite length_app_str. lia.
Qed.

Section theorems.
Context `{UnicodeCase, TmTime}.

(** The two orderings of channels are parsed from their own texts, in either case and with the
    prefix left out or repeated.  The text of the unspecified ordering is not: the parser
    expects another word for it. *)
Theorem order_texts :
  Order_from_str (Order_as_str Ordered) = Ok Ordered
  ∧ Order_from_str (Order_as_str Unordered) = Ok Unordered
  ∧ Order_from_str (Order_as_str OrderNone)
    = Err (InvalidOrderType ORDER_TEXTS "ORDER_NONE_UNSPECIFIED")
  ∧ Order_from_str "uninitialized" = Ok OrderNone
  ∧ ∀ s o, to_lowercase ("ORDER_" ++ s) = "order_" ++ to_lowercase s →
      Order_from_str s = Ok o → Order_from_str ("ORDER_" ++ s) = Ok o.
Proof.
  split_and!; [done..|]. intros s o Hs Ho. unfold Order_from_str in *. rewrite Hs.
  rewrite trim_start_matches_app. destruct (_ =? _)%string; [done|]. destruct (_ =? _)%string; [done|].
  by destruct (_ =? _)%string.
Qed.

(** A timeout height is read back from its attribute in events, as a height; no timeout is
    the height that does not exist. *)
Theorem timeout_attribute_read_back (t : TimeoutHeight) :
  (∀ h, t = At h → Height_wf h) →
  Height_try_from_str (TimeoutHeight_to_event_attribute_value t)
  = match t with At h => Ok h | Never => Err ZeroHeight end.
Proof.
  intros Ht. destruct t as [|h]; [done|]. cbn [TimeoutHeight_to_event_attribute_value].
  by apply height_display_roundtrip, Ht.
Qed.

End theorems.

(** *** Slices *)

Definition COMMA : ascii := ",".

Section slices.
Context {A : Type} (show : A → string).

Lemma pretty_elements_cons x y l :
  pretty_elements show (x :: y :: l) = show x ++ String COMMA (" " ++ pretty_elements show (y :: l)).
Proof. done. Qed.

Lemma pretty_elements_inj l1 l2 :
  l1 ≠ [] → l2 ≠ [] → (∀ x, x ∈ (l1 ++ l2)%list → contains COMMA (show x) = false) →
  pretty_elements show l1 = pretty_elements show l2 → show <$> l1 = show <$> l2.
Proof.
  revert l2. induction l1 as [|x1 l1 IH]; intros [|x2 l2] H1 H2 Hc E; [done..|].
  assert (contains COMMA (show x1) = false) as C1 by (apply Hc; set_solver).
  assert (contains COMMA (show x2) = false) as C2 by (apply Hc; set_solver).
  destruct l1 as [|y1 l1], l2 as [|y2 l2].
  - cbn in *. by rewrite E.
  - rewrite pretty_elements_cons in E. cbn [pretty_elements] in E. rewrite E, contains_app in C1.
    by apply orb_false_iff in C1 as [_ ?].
  - rewrite pretty_elements_cons in E. cbn [pretty_elements] in E. rewrite <- E, contains_app in C2.
    by apply orb_false_iff in C2 as [_ ?].
  - rewrite !pretty_elements_cons in E. apply (f_equal (split_once COMMA)) in E.
    rewrite !split_once_app in E by done. injection E as Ex El.
    assert (show <$> y1 :: l1 = show <$> y2 :: l2) as El' by (apply IH; [done..|set_solver|done]).
    change (show x1 :: (show <$> y1 :: l1) = show x2 :: (show <$> y2 :: l2)). by rewrite Ex, El'.
Qed.

(** What is printed of a slice determines the texts of its elements, when they have no comma
    and there is one at least; a slice without elements prints as one with an empty text. *)
Theorem pretty_slice_inj l1 l2 :
  l1 ≠ [] → l2 ≠ [] → (∀ x, x ∈ (l1 ++ l2)%list → contains COMMA (show x) = false) →
  PrettySlice_to_string show l1 = PrettySlice_to_string show l2 → show <$> l1 = show <$> l2.
Proof.
  assert (∀ l, rsplit_once " "%char (PrettySlice_to_string show l) = Some ("[ " ++ pretty_elements show l, "]"))
    as Hr.
  { intros l. exact (rsplit_once_app " "%char ("[ " ++ pretty_elements show l) "]" eq_refl). }
  intros H1 H2 Hc E. apply pretty_elements_inj; [done..|].
  apply (f_equal (rsplit_once " "%char)) in E. rewrite !Hr in E. injection E as E. exact E.
Qed.
End slices.

(** The connection hops of a channel end are told by its text. *)
Lemma pretty_hops_inj (l1 l2 : list ConnectionId) :
  l1 ≠ [] → l2 ≠ [] → (∀ c, c ∈ (l1 ++ l2)%list → contains COMMA (connection_id_str c) = false) →
  PrettySlice_to_string connection_id_str l1 = PrettySlice_to_string connection_id_str l2 → l1 = l2.
Proof.
  intros H1 H2 Hc E%pretty_slice_inj; [|done..].
  refine (list_fmap_eq_inj _ _ _ _ E). by intros [] [] [= ->].
Qed.
