(* ===== verification/Messages.v ===== *)
(** * Messages on the wire

    The protobuf conversions of the eighteen messages
    ([ibc-core/ics02-client/types/src/msgs], [ics03-connection/types/src/msgs],
    [ics04-channel/types/src/msgs]) and the decoding of a message from its [Any]
    ([MsgEnvelope::try_from], [ics25-handler/types/src/msgs.rs]).  Fields are
    converted in the order the code writes them, which decides the error that is
    returned when several are wrong.  The encoders are prost's: the class
    [Prost]. *)

From S2P Require Import Prelude RustStr Identifiers Primitives Path Connection Channel Context.
From S2P Require Import ConnHandlers Module ChanHandlers PacketHandlers PacketSpec.
From S2P Require Import ClientHandlers Entrypoint.
Local Open Scope string_scope.
Local Open Scope N_scope.

(** ** Generated structs *)

Record RawMsgCreateClient := mkRawMsgCreateClient {
  rcc_client_state : option Any; rcc_consensus_state : option Any; rcc_signer : string }.
Record RawMsgUpdateClient := mkRawMsgUpdateClient {
  ruc_client_id : string; ruc_client_message : option Any; ruc_signer : string }.
Record RawMsgSubmitMisbehaviour := mkRawMsgSubmitMisbehaviour {
  rsm_client_id : string; rsm_misbehaviour : option Any; rsm_signer : string }.
Record RawMsgUpgradeClient := mkRawMsgUpgradeClient {
  rug_client_id : string; rug_client_state : option Any; rug_consensus_state : option Any;
  rug_proof_upgrade_client : bytes; rug_proof_upgrade_consensus_state : bytes;
  rug_signer : string }.

Record RawMsgConnectionOpenInit := mkRawMsgConnectionOpenInit {
  rcoi_client_id : string; rcoi_counterparty : option RawConnCounterparty;
  rcoi_version : option RawVersion; rcoi_delay_period : N; rcoi_signer : string }.
Record RawMsgConnectionOpenTry := mkRawMsgConnectionOpenTry {
  rcot_client_id : string; rcot_previous_connection_id : string;
  rcot_client_state : option Any; rcot_counterparty : option RawConnCounterparty;
  rcot_delay_period : N; rcot_counterparty_versions : list RawVersion;
  rcot_proof_height : option RawHeight; rcot_proof_init : bytes; rcot_proof_client : bytes;
  rcot_proof_consensus : bytes; rcot_consensus_height : option RawHeight;
  rcot_signer : string; rcot_host_consensus_state_proof : bytes }.
Record RawMsgConnectionOpenAck := mkRawMsgConnectionOpenAck {
  rcoa_connection_id : string; rcoa_counterparty_connection_id : string;
  rcoa_client_state : option Any; rcoa_proof_height : option RawHeight;
  rcoa_proof_try : bytes; rcoa_proof_client : bytes; rcoa_proof_consensus : bytes;
  rcoa_consensus_height : option RawHeight; rcoa_version : option RawVersion;
  rcoa_signer : string; rcoa_host_consensus_state_proof : bytes }.
Record RawMsgConnectionOpenConfirm := mkRawMsgConnectionOpenConfirm {
  rcoc_connection_id : string; rcoc_proof_ack : bytes; rcoc_proof_height : option RawHeight;
  rcoc_signer : string }.

Record RawMsgChannelOpenInit := mkRawMsgChannelOpenInit {
  rchi_port_id : string; rchi_channel : option RawChannel; rchi_signer : string }.
Record RawMsgChannelOpenTry := mkRawMsgChannelOpenTry {
  rcht_port_id : string; rcht_previous_channel_id : string; rcht_channel : option RawChannel;
  rcht_counterparty_version : string; rcht_proof_init : bytes;
  rcht_proof_height : option RawHeight; rcht_signer : string }.
Record RawMsgChannelOpenAck := mkRawMsgChannelOpenAck {
  rcha_port_id : string; rcha_channel_id : string; rcha_counterparty_channel_id : string;
  rcha_counterparty_version : string; rcha_proof_try : bytes;
  rcha_proof_height : option RawHeight; rcha_signer : string }.
Record RawMsgChannelOpenConfirm := mkRawMsgChannelOpenConfirm {
  rchc_port_id : string; rchc_channel_id : string; rchc_proof_ack : bytes;
  rchc_proof_height : option RawHeight; rchc_signer : string }.
Record RawMsgChannelCloseInit := mkRawMsgChannelCloseInit {
  rcli_port_id : string; rcli_channel_id : string; rcli_signer : string }.
Record RawMsgChannelCloseConfirm := mkRawMsgChannelCloseConfirm {
  rclc_port_id : string; rclc_channel_id : string; rclc_proof_init : bytes;
  rclc_proof_height : option RawHeight; rclc_signer : string;
  rclc_counterparty_upgrade_sequence : N }.

Record RawMsgRecvPacket := mkRawMsgRecvPacket {
  rrp_packet : option RawPacket; rrp_proof_commitment : bytes;
  rrp_proof_height : option RawHeight; rrp_signer : string }.
Record RawMsgAcknowledgement := mkRawMsgAcknowledgement {
  rma_packet : option RawPacket; rma_acknowledgement : bytes; rma_proof_acked : bytes;
  rma_proof_height : option RawHeight; rma_signer : string }.
Record RawMsgTimeout := mkRawMsgTimeout {
  rto_packet : option RawPacket; rto_proof_unreceived : bytes;
  rto_proof_height : option RawHeight; rto_next_sequence_recv : N; rto_signer : string }.
Record RawMsgTimeoutOnClose := mkRawMsgTimeoutOnClose {
  rtc_packet : option RawPacket; rtc_proof_unreceived : bytes; rtc_proof_close : bytes;
  rtc_proof_height : option RawHeight; rtc_next_sequence_recv : N; rtc_signer : string;
  rtc_counterparty_upgrade_sequence : N }.

(** ** Conversions *)

Section conversions.
Context `{Unicode, TmTime}.
(** [format!("{:?}", self.channel_id)]. *)
Variable channel_id_debug : option ChannelId → string.

(** [.and_then(|raw_height| raw_height.try_into().ok()).ok_or(error)]. *)
Definition height_or {E} (raw : option RawHeight) (error : E) : outcome E Height :=
  ok_or (raw_height ← raw; ok (Height_try_from_raw raw_height)) error.
(** [.try_into().map_err(|_| error)] on the bytes of a proof. *)
Definition proof_or {E} (b : bytes) (error : E) : outcome E CommitmentProofBytes :=
  map_err (λ _, error) (CommitmentProofBytes_try_from b).
(** The optional proof of the host's consensus state. *)
Definition host_proof_try_from (b : bytes) : outcome ConnectionError (option CommitmentProofBytes) :=
  if is_empty b then Ok None else Some <$> proof_or b ConnInvalidProof.
Definition host_proof_into (p : option CommitmentProofBytes) : bytes :=
  match p with Some proof => proof_bytes proof | None => [] end.

(** *** Clients *)

Definition MsgCreateClient_try_from (raw : RawMsgCreateClient) : outcome ClientError MsgCreateClient :=
  raw_client_state ← ok_or (rcc_client_state raw) MissingRawClientState;
  raw_consensus_state ← ok_or (rcc_consensus_state raw) MissingRawConsensusState;
  Ok (mkMsgCreateClient raw_client_state raw_consensus_state (rcc_signer raw)).
Definition RawMsgCreateClient_from (m : MsgCreateClient) : RawMsgCreateClient :=
  mkRawMsgCreateClient (Some (cc_client_state m)) (Some (cc_consensus_state m)) (cc_signer m).

Definition MsgUpdateClient_try_from (raw : RawMsgUpdateClient) : outcome ClientError MsgUpdateClient :=
  client_id ← map_err InvalidMsgUpdateClientId (ClientId_from_str (ruc_client_id raw));
  client_message ← ok_or (ruc_client_message raw) MissingClientMessage;
  Ok (mkMsgUpdateClient client_id client_message (ruc_signer raw)).
Definition RawMsgUpdateClient_from (m : MsgUpdateClient) : RawMsgUpdateClient :=
  mkRawMsgUpdateClient (client_id_str (uc_client_id m)) (Some (uc_client_message m)) (uc_signer m).

Definition MsgSubmitMisbehaviour_try_from (raw : RawMsgSubmitMisbehaviour) :
    outcome ClientError MsgSubmitMisbehaviour :=
  raw_misbehaviour ← ok_or (rsm_misbehaviour raw) MissingRawMisbehaviour;
  client_id ← map_err InvalidRawMisbehaviour (ClientId_from_str (rsm_client_id raw));
  Ok (mkMsgSubmitMisbehaviour client_id raw_misbehaviour (rsm_signer raw)).
Definition RawMsgSubmitMisbehaviour_from (m : MsgSubmitMisbehaviour) : RawMsgSubmitMisbehaviour :=
  mkRawMsgSubmitMisbehaviour (client_id_str (sm_client_id m)) (Some (sm_misbehaviour m)) (sm_signer m).

Definition MsgUpgradeClient_try_from (raw : RawMsgUpgradeClient) :
    outcome ClientError MsgUpgradeClient :=
  raw_client_state ← ok_or (rug_client_state raw) MissingRawClientState;
  raw_consensus_state ← ok_or (rug_consensus_state raw) MissingRawConsensusState;
  c_bytes ← proof_or (rug_proof_upgrade_client raw)
    (Upgrade (InvalidUpgradeClientProof EmptyMerkleProof));
  cs_bytes ← proof_or (rug_proof_upgrade_consensus_state raw)
    (Upgrade (InvalidUpgradeConsensusStateProof EmptyMerkleProof));
  client_id ← map_err InvalidClientIdentifier (ClientId_from_str (rug_client_id raw));
  Ok (mkMsgUpgradeClient client_id raw_client_state raw_consensus_state c_bytes cs_bytes
        (rug_signer raw)).
Definition RawMsgUpgradeClient_from (m : MsgUpgradeClient) : RawMsgUpgradeClient :=
  mkRawMsgUpgradeClient (client_id_str (ug_client_id m)) (Some (ug_upgraded_client_state m))
    (Some (ug_upgraded_consensus_state m)) (proof_bytes (ug_proof_upgrade_client m))
    (proof_bytes (ug_proof_upgrade_consensus_state m)) (ug_signer m).

(** *** Connections *)

Definition MsgConnectionOpenInit_try_from (msg : RawMsgConnectionOpenInit) :
    outcome ConnectionError MsgConnectionOpenInit :=
  raw_counterparty ← ok_or (rcoi_counterparty msg) ConnMissingCounterparty;
  counterparty ← ConnCounterparty_try_from raw_counterparty;
  verify_empty_connection_id counterparty;;
  client_id ← map_err ConnInvalidIdentifier (ClientId_from_str (rcoi_client_id msg));
  version ← match rcoi_version msg with
            | Some v => Some <$> Version_try_from v
            | None => Ok None
            end;
  Ok (mkMsgConnectionOpenInit client_id counterparty version
        (Duration_from_nanos (rcoi_delay_period msg)) (rcoi_signer msg)).
Definition RawMsgConnectionOpenInit_from (m : MsgConnectionOpenInit) : RawMsgConnectionOpenInit :=
  mkRawMsgConnectionOpenInit (client_id_str (coi_client_id_on_a m))
    (Some (ConnCounterparty_into (coi_counterparty m))) (Version_into <$> coi_version m)
    (as_nanos_u64 (coi_delay_period m)) (coi_signer m).

Definition MsgConnectionOpenTry_try_from (msg : RawMsgConnectionOpenTry) :
    outcome ConnectionError MsgConnectionOpenTry :=
  counterparty_versions ← try_map Version_try_from (rcot_counterparty_versions msg);
  fail_if (is_empty counterparty_versions) EmptyVersions;;
  client_id ← map_err ConnInvalidIdentifier (ClientId_from_str (rcot_client_id msg));
  client_state ← ok_or (rcot_client_state msg) MissingClientState;
  raw_counterparty ← ok_or (rcot_counterparty msg) ConnMissingCounterparty;
  counterparty ← ConnCounterparty_try_from raw_counterparty;
  proof_init ← proof_or (rcot_proof_init msg) ConnInvalidProof;
  proof_client ← proof_or (rcot_proof_client msg) ConnInvalidProof;
  proof_consensus ← proof_or (rcot_proof_consensus msg) ConnInvalidProof;
  proofs_height ← height_or (rcot_proof_height msg) ConnMissingProofHeight;
  consensus_height ← height_or (rcot_consensus_height msg) MissingConsensusHeight;
  host_proof ← host_proof_try_from (rcot_host_consensus_state_proof msg);
  Ok (mkMsgConnectionOpenTry client_id client_state counterparty counterparty_versions proof_init
        proof_client proof_consensus proofs_height consensus_height
        (Duration_from_nanos (rcot_delay_period msg)) (rcot_signer msg) host_proof
        (rcot_previous_connection_id msg)).
Definition RawMsgConnectionOpenTry_from (m : MsgConnectionOpenTry) : RawMsgConnectionOpenTry :=
  mkRawMsgConnectionOpenTry (client_id_str (cot_client_id_on_b m)) (cot_previous_connection_id m)
    (Some (cot_client_state_of_b_on_a m)) (Some (ConnCounterparty_into (cot_counterparty m)))
    (as_nanos_u64 (cot_delay_period m)) (Version_into <$> cot_versions_on_a m)
    (Some (Height_into_raw (cot_proofs_height_on_a m)))
    (proof_bytes (cot_proof_conn_end_on_a m)) (proof_bytes (cot_proof_client_state_of_b_on_a m))
    (proof_bytes (cot_proof_consensus_state_of_b_on_a m))
    (Some (Height_into_raw (cot_consensus_height_of_b_on_a m))) (cot_signer m)
    (host_proof_into (cot_proof_consensus_state_of_b m)).

Definition MsgConnectionOpenAck_try_from (msg : RawMsgConnectionOpenAck) :
    outcome ConnectionError MsgConnectionOpenAck :=
  conn_id_on_a ← map_err ConnInvalidIdentifier (ConnectionId_from_str (rcoa_connection_id msg));
  conn_id_on_b ← map_err ConnInvalidIdentifier
    (ConnectionId_from_str (rcoa_counterparty_connection_id msg));
  client_state ← ok_or (rcoa_client_state msg) MissingClientState;
  raw_version ← ok_or (rcoa_version msg) EmptyVersions;
  version ← Version_try_from raw_version;
  proof_try ← proof_or (rcoa_proof_try msg) ConnInvalidProof;
  proof_client ← proof_or (rcoa_proof_client msg) ConnInvalidProof;
  proof_consensus ← proof_or (rcoa_proof_consensus msg) ConnInvalidProof;
  proofs_height ← height_or (rcoa_proof_height msg) ConnMissingProofHeight;
  consensus_height ← height_or (rcoa_consensus_height msg) MissingConsensusHeight;
  host_proof ← host_proof_try_from (rcoa_host_consensus_state_proof msg);
  Ok (mkMsgConnectionOpenAck conn_id_on_a conn_id_on_b client_state proof_try proof_client
        proof_consensus proofs_height consensus_height version (rcoa_signer msg) host_proof).
Definition RawMsgConnectionOpenAck_from (m : MsgConnectionOpenAck) : RawMsgConnectionOpenAck :=
  mkRawMsgConnectionOpenAck (connection_id_str (coa_conn_id_on_a m))
    (connection_id_str (coa_conn_id_on_b m)) (Some (coa_client_state_of_a_on_b m))
    (Some (Height_into_raw (coa_proofs_height_on_b m))) (proof_bytes (coa_proof_conn_end_on_b m))
    (proof_bytes (coa_proof_client_state_of_a_on_b m))
    (proof_bytes (coa_proof_consensus_state_of_a_on_b m))
    (Some (Height_into_raw (coa_consensus_height_of_a_on_b m))) (Some (Version_into (coa_version m)))
    (coa_signer m) (host_proof_into (coa_proof_consensus_state_of_a m)).

Definition MsgConnectionOpenConfirm_try_from (msg : RawMsgConnectionOpenConfirm) :
    outcome ConnectionError MsgConnectionOpenConfirm :=
  conn_id_on_b ← map_err ConnInvalidIdentifier (ConnectionId_from_str (rcoc_connection_id msg));
  proof_ack ← proof_or (rcoc_proof_ack msg) ConnInvalidProof;
  proof_height ← height_or (rcoc_proof_height msg) ConnMissingProofHeight;
  Ok (mkMsgConnectionOpenConfirm conn_id_on_b proof_ack proof_height (rcoc_signer msg)).
Definition RawMsgConnectionOpenConfirm_from (m : MsgConnectionOpenConfirm) :
    RawMsgConnectionOpenConfirm :=
  mkRawMsgConnectionOpenConfirm (connection_id_str (coc_conn_id_on_b m))
    (proof_bytes (coc_proof_conn_end_on_a m)) (Some (Height_into_raw (coc_proof_height_on_a m)))
    (coc_signer m).

(** *** Channels *)

(** [parse()?] with [From<IdentifierError> for ChannelError]. *)
Definition parse_port (s : string) : outcome ChannelError PortId :=
  map_err ChanInvalidIdentifier (PortId_from_str s).
Definition parse_channel (s : string) : outcome ChannelError ChannelId :=
  map_err ChanInvalidIdentifier (ChannelId_from_str s).

Definition verify_empty_channel_id (self : ChanCounterparty) : outcome ChannelError () :=
  fail_if (bool_decide (is_Some (rem_channel_id self)))
    (InvalidChannelId "Counterparty channel id must be empty" (channel_id_debug (rem_channel_id self))).

Definition MsgChannelOpenInit_try_from (raw : RawMsgChannelOpenInit) :
    outcome ChannelError MsgChannelOpenInit :=
  raw_channel ← ok_or (rchi_channel raw) MissingChannel;
  chan_end_on_a ← ChannelEnd_try_from raw_channel;
  ChannelEnd_verify_state_matches chan_end_on_a ChanInit;;
  verify_empty_channel_id (chan_remote chan_end_on_a);;
  port_id_on_a ← parse_port (rchi_port_id raw);
  Ok (mkMsgChannelOpenInit port_id_on_a (chan_connection_hops chan_end_on_a)
        (rem_port_id (chan_remote chan_end_on_a)) (chan_ordering chan_end_on_a) (rchi_signer raw)
        (chan_version chan_end_on_a)).
Definition RawMsgChannelOpenInit_from (m : MsgChannelOpenInit) : RawMsgChannelOpenInit :=
  let chan_end_on_a := mkChannelEnd ChanInit (choi_ordering m)
    (mkChanCounterparty (choi_port_id_on_b m) None) (choi_connection_hops_on_a m)
    (choi_version_proposal m) in
  mkRawMsgChannelOpenInit (port_id_str (choi_port_id_on_a m)) (Some (ChannelEnd_into chan_end_on_a))
    (choi_signer m).

Definition PREVIOUS_CHANNEL_ID : string :=
  "previous channel id must be empty. It has been deprecated as crossing hellos are no longer supported".
Definition MsgChannelOpenTry_try_from (raw : RawMsgChannelOpenTry) :
    outcome ChannelError MsgChannelOpenTry :=
  raw_channel ← ok_or (rcht_channel raw) MissingChannel;
  chan_end_on_b ← ChannelEnd_try_from raw_channel;
  ChannelEnd_verify_state_matches chan_end_on_b ChanTryOpen;;
  fail_if (negb (rcht_previous_channel_id raw =? "")%string)
    (InvalidChannelId PREVIOUS_CHANNEL_ID (rcht_previous_channel_id raw));;
  port_id_on_b ← parse_port (rcht_port_id raw);
  chan_id_on_a ← ok_or (rem_channel_id (chan_remote chan_end_on_b)) ChanMissingCounterparty;
  proof_init ← proof_or (rcht_proof_init raw) ChanInvalidProof;
  proof_height ← height_or (rcht_proof_height raw) ChanMissingHeight;
  Ok (mkMsgChannelOpenTry port_id_on_b (chan_connection_hops chan_end_on_b)
        (rem_port_id (chan_remote chan_end_on_b)) chan_id_on_a
        (mkChanVersion (rcht_counterparty_version raw)) proof_init proof_height
        (chan_ordering chan_end_on_b) (rcht_signer raw) (chan_version chan_end_on_b)).
(** The version of the channel end is dropped: [Version::empty()]. *)
Definition RawMsgChannelOpenTry_from (m : MsgChannelOpenTry) : RawMsgChannelOpenTry :=
  let chan_end_on_b := mkChannelEnd ChanTryOpen (chot_ordering m)
    (mkChanCounterparty (chot_port_id_on_a m) (Some (chot_chan_id_on_a m)))
    (chot_connection_hops_on_b m) (mkChanVersion "") in
  mkRawMsgChannelOpenTry (port_id_str (chot_port_id_on_b m)) "" (Some (ChannelEnd_into chan_end_on_b))
    (chan_version_str (chot_version_supported_on_a m)) (proof_bytes (chot_proof_chan_end_on_a m))
    (Some (Height_into_raw (chot_proof_height_on_a m))) (chot_signer m).

Definition MsgChannelOpenAck_try_from (raw : RawMsgChannelOpenAck) :
    outcome ChannelError MsgChannelOpenAck :=
  port_id_on_a ← parse_port (rcha_port_id raw);
  chan_id_on_a ← parse_channel (rcha_channel_id raw);
  chan_id_on_b ← parse_channel (rcha_counterparty_channel_id raw);
  proof_try ← proof_or (rcha_proof_try raw) ChanInvalidProof;
  proof_height ← height_or (rcha_proof_height raw) ChanMissingHeight;
  Ok (mkMsgChannelOpenAck port_id_on_a chan_id_on_a chan_id_on_b
        (mkChanVersion (rcha_counterparty_version raw)) proof_try proof_height (rcha_signer raw)).
Definition RawMsgChannelOpenAck_from (m : MsgChannelOpenAck) : RawMsgChannelOpenAck :=
  mkRawMsgChannelOpenAck (port_id_str (choa_port_id_on_a m)) (channel_id_str (choa_chan_id_on_a m))
    (channel_id_str (choa_chan_id_on_b m)) (chan_version_str (choa_version_on_b m))
    (proof_bytes (choa_proof_chan_end_on_b m)) (Some (Height_into_raw (choa_proof_height_on_b m)))
    (choa_signer m).

Definition MsgChannelOpenConfirm_try_from (raw : RawMsgChannelOpenConfirm) :
    outcome ChannelError MsgChannelOpenConfirm :=
  port_id_on_b ← parse_port (rchc_port_id raw);
  chan_id_on_b ← parse_channel (rchc_channel_id raw);
  proof_ack ← proof_or (rchc_proof_ack raw) ChanInvalidProof;
  proof_height ← height_or (rchc_proof_height raw) ChanMissingHeight;
  Ok (mkMsgChannelOpenConfirm port_id_on_b chan_id_on_b proof_ack proof_height (rchc_signer raw)).
Definition RawMsgChannelOpenConfirm_from (m : MsgChannelOpenConfirm) : RawMsgChannelOpenConfirm :=
  mkRawMsgChannelOpenConfirm (port_id_str (choc_port_id_on_b m)) (channel_id_str (choc_chan_id_on_b m))
    (proof_bytes (choc_proof_chan_end_on_a m)) (Some (Height_into_raw (choc_proof_height_on_a m)))
    (choc_signer m).

Definition MsgChannelCloseInit_try_from (raw : RawMsgChannelCloseInit) :
    outcome ChannelError MsgChannelCloseInit :=
  port_id_on_a ← parse_port (rcli_port_id raw);
  chan_id_on_a ← parse_channel (rcli_channel_id raw);
  Ok (mkMsgChannelCloseInit port_id_on_a chan_id_on_a (rcli_signer raw)).
Definition RawMsgChannelCloseInit_from (m : MsgChannelCloseInit) : RawMsgChannelCloseInit :=
  mkRawMsgChannelCloseInit (port_id_str (chci_port_id_on_a m)) (channel_id_str (chci_chan_id_on_a m))
    (chci_signer m).

Definition MsgChannelCloseConfirm_try_from (raw : RawMsgChannelCloseConfirm) :
    outcome ChannelError MsgChannelCloseConfirm :=
  fail_if (negb (rclc_counterparty_upgrade_sequence raw =? 0)) UnsupportedChannelUpgradeSequence;;
  port_id_on_b ← parse_port (rclc_port_id raw);
  chan_id_on_b ← parse_channel (rclc_channel_id raw);
  proof_init ← proof_or (rclc_proof_init raw) ChanInvalidProof;
  proof_height ← height_or (rclc_proof_height raw) ChanMissingHeight;
  Ok (mkMsgChannelCloseConfirm port_id_on_b chan_id_on_b proof_init proof_height (rclc_signer raw)).
Definition RawMsgChannelCloseConfirm_from (m : MsgChannelCloseConfirm) : RawMsgChannelCloseConfirm :=
  mkRawMsgChannelCloseConfirm (port_id_str (chcc_port_id_on_b m))
    (channel_id_str (chcc_chan_id_on_b m)) (proof_bytes (chcc_proof_chan_end_on_a m))
    (Some (Height_into_raw (chcc_proof_height_on_a m))) (chcc_signer m) 0.

(** *** Packets *)

Definition packet_or (raw : option RawPacket) : outcome PacketError Packet :=
  raw_packet ← ok_or raw MissingPacket; Packet_try_from raw_packet.

Definition MsgRecvPacket_try_from (raw : RawMsgRecvPacket) : outcome PacketError MsgRecvPacket :=
  packet ← packet_or (rrp_packet raw);
  proof_commitment ← proof_or (rrp_proof_commitment raw) PktInvalidProof;
  proof_height ← height_or (rrp_proof_height raw) PktMissingHeight;
  Ok (mkMsgRecvPacket packet proof_commitment proof_height (rrp_signer raw)).
Definition RawMsgRecvPacket_from {E} (m : MsgRecvPacket) : outcome E RawMsgRecvPacket :=
  packet ← Packet_into (recv_packet m);
  Ok (mkRawMsgRecvPacket (Some packet) (proof_bytes (recv_proof_commitment_on_a m))
        (Some (Height_into_raw (recv_proof_height_on_a m))) (recv_signer m)).

Definition MsgAcknowledgement_try_from (raw : RawMsgAcknowledgement) :
    outcome PacketError MsgAcknowledgement :=
  packet ← packet_or (rma_packet raw);
  acknowledgement ← Acknowledgement_try_from (rma_acknowledgement raw);
  proof_acked ← proof_or (rma_proof_acked raw) PktInvalidProof;
  proof_height ← height_or (rma_proof_height raw) PktMissingHeight;
  Ok (mkMsgAcknowledgement packet acknowledgement proof_acked proof_height (rma_signer raw)).
Definition RawMsgAcknowledgement_from {E} (m : MsgAcknowledgement) : outcome E RawMsgAcknowledgement :=
  packet ← Packet_into (ack_packet m);
  Ok (mkRawMsgAcknowledgement (Some packet) (ack_bytes (ack_acknowledgement m))
        (proof_bytes (ack_proof_acked_on_b m)) (Some (Height_into_raw (ack_proof_height_on_b m)))
        (ack_signer m)).

Definition MsgTimeout_try_from (raw : RawMsgTimeout) : outcome PacketError MsgTimeout :=
  fail_if (rto_next_sequence_recv raw =? 0) ZeroPacketSequence;;
  packet ← packet_or (rto_packet raw);
  proof_unreceived ← proof_or (rto_proof_unreceived raw) PktInvalidProof;
  proof_height ← height_or (rto_proof_height raw) PktMissingHeight;
  Ok (mkMsgTimeout packet (rto_next_sequence_recv raw) proof_unreceived proof_height (rto_signer raw)).
Definition RawMsgTimeout_from {E} (m : MsgTimeout) : outcome E RawMsgTimeout :=
  packet ← Packet_into (to_packet m);
  Ok (mkRawMsgTimeout (Some packet) (proof_bytes (to_proof_unreceived_on_b m))
        (Some (Height_into_raw (to_proof_height_on_b m))) (to_next_seq_recv_on_b m) (to_signer m)).

Definition MsgTimeoutOnClose_try_from (raw : RawMsgTimeoutOnClose) :
    outcome PacketError MsgTimeoutOnClose :=
  fail_if (rtc_next_sequence_recv raw =? 0) ZeroPacketSequence;;
  fail_if (negb (rtc_counterparty_upgrade_sequence raw =? 0))
    (PktChannel UnsupportedChannelUpgradeSequence);;
  packet ← packet_or (rtc_packet raw);
  proof_unreceived ← proof_or (rtc_proof_unreceived raw) PktInvalidProof;
  proof_close ← proof_or (rtc_proof_close raw) PktInvalidProof;
  proof_height ← height_or (rtc_proof_height raw) PktMissingHeight;
  Ok (mkMsgTimeoutOnClose packet (rtc_next_sequence_recv raw) proof_unreceived proof_close proof_height
        (rtc_signer raw)).
Definition RawMsgTimeoutOnClose_from {E} (m : MsgTimeoutOnClose) : outcome E RawMsgTimeoutOnClose :=
  packet ← Packet_into (toc_packet m);
  Ok (mkRawMsgTimeoutOnClose (Some packet) (proof_bytes (toc_proof_unreceived_on_b m))
        (proof_bytes (toc_proof_close_on_b m)) (Some (Height_into_raw (toc_proof_height_on_b m)))
        (toc_next_seq_recv_on_b m) (toc_signer m) 0).
End conversions.

(** ** Decoding an envelope *)

Definition CREATE_CLIENT_TYPE_URL : string := "/ibc.core.client.v1.MsgCreateClient".
Definition UPDATE_CLIENT_TYPE_URL : string := "/ibc.core.client.v1.MsgUpdateClient".
Definition SUBMIT_MISBEHAVIOUR_TYPE_URL : string := "/ibc.core.client.v1.MsgSubmitMisbehaviour".
Definition UPGRADE_CLIENT_TYPE_URL : string := "/ibc.core.client.v1.MsgUpgradeClient".
Definition CONN_OPEN_INIT_TYPE_URL : string := "/ibc.core.connection.v1.MsgConnectionOpenInit".
Definition CONN_OPEN_TRY_TYPE_URL : string := "/ibc.core.connection.v1.MsgConnectionOpenTry".
Definition CONN_OPEN_ACK_TYPE_URL : string := "/ibc.core.connection.v1.MsgConnectionOpenAck".
Definition CONN_OPEN_CONFIRM_TYPE_URL : string := "/ibc.core.connection.v1.MsgConnectionOpenConfirm".
Definition CHAN_OPEN_INIT_TYPE_URL : string := "/ibc.core.channel.v1.MsgChannelOpenInit".
Definition CHAN_OPEN_TRY_TYPE_URL : string := "/ibc.core.channel.v1.MsgChannelOpenTry".
Definition CHAN_OPEN_ACK_TYPE_URL : string := "/ibc.core.channel.v1.MsgChannelOpenAck".
Definition CHAN_OPEN_CONFIRM_TYPE_URL : string := "/ibc.core.channel.v1.MsgChannelOpenConfirm".
Definition CHAN_CLOSE_INIT_TYPE_URL : string := "/ibc.core.channel.v1.MsgChannelCloseInit".
Definition CHAN_CLOSE_CONFIRM_TYPE_URL : string := "/ibc.core.channel.v1.MsgChannelCloseConfirm".
Definition RECV_PACKET_TYPE_URL : string := "/ibc.core.channel.v1.MsgRecvPacket".
Definition ACKNOWLEDGEMENT_TYPE_URL : string := "/ibc.core.channel.v1.MsgAcknowledgement".
Definition TIMEOUT_TYPE_URL : string := "/ibc.core.channel.v1.MsgTimeout".
Definition TIMEOUT_ON_CLOSE_TYPE_URL : string := "/ibc.core.channel.v1.MsgTimeoutOnClose".

(** [prost::Message] on a generated struct; decoding returns the text of its error. *)
Class Prost (R : Type) := {
  prost_decode : bytes → outcome string R;
  prost_encode : R → bytes;
}.
Class ProstLaws (R : Type) `{Prost R} := {
  prost_roundtrip r : prost_decode (prost_encode r) = Ok r;
}.

Class MsgCodec := {
  prost_create_client :: Prost RawMsgCreateClient;
  prost_update_client :: Prost RawMsgUpdateClient;
  prost_misbehaviour :: Prost RawMsgSubmitMisbehaviour;
  prost_upgrade_client :: Prost RawMsgUpgradeClient;
  prost_conn_open_init :: Prost RawMsgConnectionOpenInit;
  prost_conn_open_try :: Prost RawMsgConnectionOpenTry;
  prost_conn_open_ack :: Prost RawMsgConnectionOpenAck;
  prost_conn_open_confirm :: Prost RawMsgConnectionOpenConfirm;
  prost_chan_open_init :: Prost RawMsgChannelOpenInit;
  prost_chan_open_try :: Prost RawMsgChannelOpenTry;
  prost_chan_open_ack :: Prost RawMsgChannelOpenAck;
  prost_chan_open_confirm :: Prost RawMsgChannelOpenConfirm;
  prost_chan_close_init :: Prost RawMsgChannelCloseInit;
  prost_chan_close_confirm :: Prost RawMsgChannelCloseConfirm;
  prost_recv_packet :: Prost RawMsgRecvPacket;
  prost_acknowledgement :: Prost RawMsgAcknowledgement;
  prost_timeout :: Prost RawMsgTimeout;
  prost_timeout_on_close :: Prost RawMsgTimeoutOnClose;
}.
Class MsgCodecLaws `{MsgCodec} := {
  laws_create_client :: ProstLaws RawMsgCreateClient;
  laws_update_client :: ProstLaws RawMsgUpdateClient;
  laws_misbehaviour :: ProstLaws RawMsgSubmitMisbehaviour;
  laws_upgrade_client :: ProstLaws RawMsgUpgradeClient;
  laws_conn_open_init :: ProstLaws RawMsgConnectionOpenInit;
  laws_conn_open_try :: ProstLaws RawMsgConnectionOpenTry;
  laws_conn_open_ack :: ProstLaws RawMsgConnectionOpenAck;
  laws_conn_open_confirm :: ProstLaws RawMsgConnectionOpenConfirm;
  laws_chan_open_init :: ProstLaws RawMsgChannelOpenInit;
  laws_chan_open_try :: ProstLaws RawMsgChannelOpenTry;
  laws_chan_open_ack :: ProstLaws RawMsgChannelOpenAck;
  laws_chan_open_confirm :: ProstLaws RawMsgChannelOpenConfirm;
  laws_chan_close_init :: ProstLaws RawMsgChannelCloseInit;
  laws_chan_close_confirm :: ProstLaws RawMsgChannelCloseConfirm;
  laws_recv_packet :: ProstLaws RawMsgRecvPacket;
  laws_acknowledgement :: ProstLaws RawMsgAcknowledgement;
  laws_timeout :: ProstLaws RawMsgTimeout;
  laws_timeout_on_close :: ProstLaws RawMsgTimeoutOnClose;
}.

(** What [Protobuf::decode_vec] prints of a failed conversion, and the debug output
    of an optional channel identifier. *)
Class MsgText `{TmTime} := {
  client_conversion_text : ClientError → string;
  connection_conversion_text : ConnectionError → string;
  channel_conversion_text : ChannelError → string;
  packet_conversion_text : PacketError → string;
  channel_id_debug : option ChannelId → string;
}.

Section envelope.
Context `{Unicode, MsgText, !MsgCodec}.

(** [Msg::decode_vec(&any_msg.value).map_err(..)]. *)
Definition decode_vec {R E A} `{Prost R} (text : E → string) (try_from : R → outcome E A)
    (value : bytes) : outcome RouterError A :=
  raw ← map_err MalformedMessageBytes (prost_decode value);
  map_err (λ e, MalformedMessageBytes (text e)) (try_from raw).

Definition MsgEnvelope_try_from (any_msg : Any) : outcome RouterError MsgEnvelope :=
  let url := type_url any_msg in
  let value := any_value any_msg in
  let client := client_conversion_text in
  let connection := connection_conversion_text in
  let channel := channel_conversion_text in
  let packet := packet_conversion_text in
  if (url =? CREATE_CLIENT_TYPE_URL)%string then
    m ← decode_vec client MsgCreateClient_try_from value; Ok (EnvClient (ClCreateClient m))
  else if (url =? UPDATE_CLIENT_TYPE_URL)%string then
    m ← decode_vec client MsgUpdateClient_try_from value; Ok (EnvClient (ClUpdateClient m))
  else if (url =? UPGRADE_CLIENT_TYPE_URL)%string then
    m ← decode_vec client MsgUpgradeClient_try_from value; Ok (EnvClient (ClUpgradeClient m))
  else if (url =? SUBMIT_MISBEHAVIOUR_TYPE_URL)%string then
    m ← decode_vec client MsgSubmitMisbehaviour_try_from value; Ok (EnvClient (ClMisbehaviour m))
  else if (url =? CONN_OPEN_INIT_TYPE_URL)%string then
    m ← decode_vec connection MsgConnectionOpenInit_try_from value;
    Ok (EnvConnection (ConnOpenInit m))
  else if (url =? CONN_OPEN_TRY_TYPE_URL)%string then
    m ← decode_vec connection MsgConnectionOpenTry_try_from value;
    Ok (EnvConnection (ConnOpenTry m))
  else if (url =? CONN_OPEN_ACK_TYPE_URL)%string then
    m ← decode_vec connection MsgConnectionOpenAck_try_from value;
    Ok (EnvConnection (ConnOpenAck m))
  else if (url =? CONN_OPEN_CONFIRM_TYPE_URL)%string then
    m ← decode_vec connection MsgConnectionOpenConfirm_try_from value;
    Ok (EnvConnection (ConnOpenConfirm m))
  else if (url =? CHAN_OPEN_INIT_TYPE_URL)%string then
    m ← decode_vec channel (MsgChannelOpenInit_try_from channel_id_debug) value;
    Ok (EnvChannel (ChanOpenInit m))
  else if (url =? CHAN_OPEN_TRY_TYPE_URL)%string then
    m ← decode_vec channel MsgChannelOpenTry_try_from value; Ok (EnvChannel (ChanOpenTry m))
  else if (url =? CHAN_OPEN_ACK_TYPE_URL)%string then
    m ← decode_vec channel MsgChannelOpenAck_try_from value; Ok (EnvChannel (ChanOpenAck m))
  else if (url =? CHAN_OPEN_CONFIRM_TYPE_URL)%string then
    m ← decode_vec channel MsgChannelOpenConfirm_try_from value; Ok (EnvChannel (ChanOpenConfirm m))
  else if (url =? CHAN_CLOSE_INIT_TYPE_URL)%string then
    m ← decode_vec channel MsgChannelCloseInit_try_from value; Ok (EnvChannel (ChanCloseInit m))
  else if (url =? CHAN_CLOSE_CONFIRM_TYPE_URL)%string then
    m ← decode_vec channel MsgChannelCloseConfirm_try_from value;
    Ok (EnvChannel (ChanCloseConfirm m))
  else if (url =? RECV_PACKET_TYPE_URL)%string then
    m ← decode_vec packet MsgRecvPacket_try_from value; Ok (EnvPacket (PktRecv m))
  else if (url =? ACKNOWLEDGEMENT_TYPE_URL)%string then
    m ← decode_vec packet MsgAcknowledgement_try_from value; Ok (EnvPacket (PktAck m))
  else if (url =? TIMEOUT_TYPE_URL)%string then
    m ← decode_vec packet MsgTimeout_try_from value; Ok (EnvPacket (PktTimeout m))
  else if (url =? TIMEOUT_ON_CLOSE_TYPE_URL)%string then
    m ← decode_vec packet MsgTimeoutOnClose_try_from value; Ok (EnvPacket (PktTimeoutOnClose m))
  else Err (UnknownMessageTypeUrl url).

(** How a relayer builds the [Any] of a message: its type URL and
    [Protobuf::encode_vec]. *)
Definition wrap {R} `{Prost R} (url : string) (raw : R) : Any := mkAny url (prost_encode raw).
Definition MsgEnvelope_to_any {E} (e : MsgEnvelope) : outcome E Any :=
  match e with
  | EnvClient (ClCreateClient m) => Ok (wrap CREATE_CLIENT_TYPE_URL (RawMsgCreateClient_from m))
  | EnvClient (ClUpdateClient m) => Ok (wrap UPDATE_CLIENT_TYPE_URL (RawMsgUpdateClient_from m))
  | EnvClient (ClMisbehaviour m) =>
    Ok (wrap SUBMIT_MISBEHAVIOUR_TYPE_URL (RawMsgSubmitMisbehaviour_from m))
  | EnvClient (ClUpgradeClient m) => Ok (wrap UPGRADE_CLIENT_TYPE_URL (RawMsgUpgradeClient_from m))
  | EnvConnection (ConnOpenInit m) =>
    Ok (wrap CONN_OPEN_INIT_TYPE_URL (RawMsgConnectionOpenInit_from m))
  | EnvConnection (ConnOpenTry m) => Ok (wrap CONN_OPEN_TRY_TYPE_URL (RawMsgConnectionOpenTry_from m))
  | EnvConnection (ConnOpenAck m) => Ok (wrap CONN_OPEN_ACK_TYPE_URL (RawMsgConnectionOpenAck_from m))
  | EnvConnection (ConnOpenConfirm m) =>
    Ok (wrap CONN_OPEN_CONFIRM_TYPE_URL (RawMsgConnectionOpenConfirm_from m))
  | EnvChannel (ChanOpenInit m) => Ok (wrap CHAN_OPEN_INIT_TYPE_URL (RawMsgChannelOpenInit_from m))
  | EnvChannel (ChanOpenTry m) => Ok (wrap CHAN_OPEN_TRY_TYPE_URL (RawMsgChannelOpenTry_from m))
  | EnvChannel (ChanOpenAck m) => Ok (wrap CHAN_OPEN_ACK_TYPE_URL (RawMsgChannelOpenAck_from m))
  | EnvChannel (ChanOpenConfirm m) =>
    Ok (wrap CHAN_OPEN_CONFIRM_TYPE_URL (RawMsgChannelOpenConfirm_from m))
  | EnvChannel (ChanCloseInit m) => Ok (wrap CHAN_CLOSE_INIT_TYPE_URL (RawMsgChannelCloseInit_from m))
  | EnvChannel (ChanCloseConfirm m) =>
    Ok (wrap CHAN_CLOSE_CONFIRM_TYPE_URL (RawMsgChannelCloseConfirm_from m))
  | EnvPacket (PktRecv m) => wrap RECV_PACKET_TYPE_URL <$> RawMsgRecvPacket_from m
  | EnvPacket (PktAck m) => wrap ACKNOWLEDGEMENT_TYPE_URL <$> RawMsgAcknowledgement_from m
  | EnvPacket (PktTimeout m) => wrap TIMEOUT_TYPE_URL <$> RawMsgTimeout_from m
  | EnvPacket (PktTimeoutOnClose m) => wrap TIMEOUT_ON_CLOSE_TYPE_URL <$> RawMsgTimeoutOnClose_from m
  end.
End envelope.

(** ** Well-formed messages *)

Section wf.
Context `{Unicode, TmTime}.

Definition proof_ok (p : CommitmentProofBytes) : Prop := proof_bytes p ≠ [].
Definition host_proof_ok (p : option CommitmentProofBytes) : Prop :=
  match p with Some p => proof_ok p | None => True end.
Definition height_ok (h : Height) : Prop := revision_height h ≠ 0.

(** What the fields of a decoded message satisfy. *)
Definition ClientMsg_wf (m : ClientMsg) : Prop :=
  match m with
  | ClCreateClient _ => True
  | ClUpdateClient m => client_ok (uc_client_id m)
  | ClMisbehaviour m => client_ok (sm_client_id m)
  | ClUpgradeClient m => client_ok (ug_client_id m) ∧ proof_ok (ug_proof_upgrade_client m)
      ∧ proof_ok (ug_proof_upgrade_consensus_state m)
  end.
Definition ConnectionMsg_wf (m : ConnectionMsg) : Prop :=
  match m with
  | ConnOpenInit m => client_ok (coi_client_id_on_a m) ∧ ConnCounterparty_wf (coi_counterparty m)
      ∧ cpty_connection_id (coi_counterparty m) = None
      ∧ (∀ v, coi_version m = Some v → Version_wf v)
  | ConnOpenTry m => client_ok (cot_client_id_on_b m) ∧ ConnCounterparty_wf (cot_counterparty m)
      ∧ cot_versions_on_a m ≠ [] ∧ (∀ v, v ∈ cot_versions_on_a m → Version_wf v)
      ∧ proof_ok (cot_proof_conn_end_on_a m) ∧ proof_ok (cot_proof_client_state_of_b_on_a m)
      ∧ proof_ok (cot_proof_consensus_state_of_b_on_a m) ∧ height_ok (cot_proofs_height_on_a m)
      ∧ height_ok (cot_consensus_height_of_b_on_a m)
      ∧ host_proof_ok (cot_proof_consensus_state_of_b m)
  | ConnOpenAck m => connection_ok (coa_conn_id_on_a m) ∧ connection_ok (coa_conn_id_on_b m)
      ∧ Version_wf (coa_version m) ∧ proof_ok (coa_proof_conn_end_on_b m)
      ∧ proof_ok (coa_proof_client_state_of_a_on_b m)
      ∧ proof_ok (coa_proof_consensus_state_of_a_on_b m) ∧ height_ok (coa_proofs_height_on_b m)
      ∧ height_ok (coa_consensus_height_of_a_on_b m)
      ∧ host_proof_ok (coa_proof_consensus_state_of_a m)
  | ConnOpenConfirm m => connection_ok (coc_conn_id_on_b m) ∧ proof_ok (coc_proof_conn_end_on_a m)
      ∧ height_ok (coc_proof_height_on_a m)
  end.
Definition ChannelMsg_wf (m : ChannelMsg) : Prop :=
  match m with
  | ChanOpenInit m => port_ok (choi_port_id_on_a m) ∧ port_ok (choi_port_id_on_b m)
      ∧ choi_ordering m ≠ OrderNone
      ∧ (∀ i, i ∈ choi_connection_hops_on_a m → connection_ok i)
  | ChanOpenTry m => port_ok (chot_port_id_on_b m) ∧ port_ok (chot_port_id_on_a m)
      ∧ channel_ok (chot_chan_id_on_a m) ∧ chot_ordering m ≠ OrderNone
      ∧ (∀ i, i ∈ chot_connection_hops_on_b m → connection_ok i)
      ∧ proof_ok (chot_proof_chan_end_on_a m) ∧ height_ok (chot_proof_height_on_a m)
  | ChanOpenAck m => port_ok (choa_port_id_on_a m) ∧ channel_ok (choa_chan_id_on_a m)
      ∧ channel_ok (choa_chan_id_on_b m) ∧ proof_ok (choa_proof_chan_end_on_b m)
      ∧ height_ok (choa_proof_height_on_b m)
  | ChanOpenConfirm m => port_ok (choc_port_id_on_b m) ∧ channel_ok (choc_chan_id_on_b m)
      ∧ proof_ok (choc_proof_chan_end_on_a m) ∧ height_ok (choc_proof_height_on_a m)
  | ChanCloseInit m => port_ok (chci_port_id_on_a m) ∧ channel_ok (chci_chan_id_on_a m)
  | ChanCloseConfirm m => port_ok (chcc_port_id_on_b m) ∧ channel_ok (chcc_chan_id_on_b m)
      ∧ proof_ok (chcc_proof_chan_end_on_a m) ∧ height_ok (chcc_proof_height_on_a m)
  end.
(** The fields of a packet that decoding checks, apart from the ranges of its
    integers. *)
Definition Packet_checked (p : Packet) : Prop :=
  seq_on_a p ≠ 0 ∧ data p ≠ [] ∧ port_ok (port_id_on_a p) ∧ channel_ok (chan_id_on_a p)
  ∧ port_ok (port_id_on_b p) ∧ channel_ok (chan_id_on_b p)
  ∧ (TimeoutHeight_is_set (timeout_height_on_b p) = true
     ∨ Timestamp_is_set (timeout_timestamp_on_b p) = true).
Definition PacketMsg_wf (packet_wf : Packet → Prop) (m : PacketMsg) : Prop :=
  match m with
  | PktRecv m => packet_wf (recv_packet m) ∧ proof_ok (recv_proof_commitment_on_a m)
      ∧ height_ok (recv_proof_height_on_a m)
  | PktAck m => packet_wf (ack_packet m) ∧ ack_bytes (ack_acknowledgement m) ≠ []
      ∧ proof_ok (ack_proof_acked_on_b m) ∧ height_ok (ack_proof_height_on_b m)
  | PktTimeout m => packet_wf (to_packet m) ∧ to_next_seq_recv_on_b m ≠ 0
      ∧ proof_ok (to_proof_unreceived_on_b m) ∧ height_ok (to_proof_height_on_b m)
  | PktTimeoutOnClose m => packet_wf (toc_packet m) ∧ toc_next_seq_recv_on_b m ≠ 0
      ∧ proof_ok (toc_proof_unreceived_on_b m) ∧ proof_ok (toc_proof_close_on_b m)
      ∧ height_ok (toc_proof_height_on_b m)
  end.
Definition MsgEnvelope_wf (packet_wf : Packet → Prop) (e : MsgEnvelope) : Prop :=
  match e with
  | EnvClient m => ClientMsg_wf m
  | EnvConnection m => ConnectionMsg_wf m
  | EnvChannel m => ChannelMsg_wf m
  | EnvPacket m => PacketMsg_wf packet_wf m
  end.

(** What the wire keeps of a message: delays are cut to 64 bits, and the deprecated
    version of [MsgChannelOpenTry] is dropped. *)
Definition on_wire (e : MsgEnvelope) : MsgEnvelope :=
  match e with
  | EnvConnection (ConnOpenInit m) => EnvConnection (ConnOpenInit (mkMsgConnectionOpenInit
      (coi_client_id_on_a m) (coi_counterparty m) (coi_version m)
      (coi_delay_period m mod U64_SIZE) (coi_signer m)))
  | EnvConnection (ConnOpenTry m) => EnvConnection (ConnOpenTry (mkMsgConnectionOpenTry
      (cot_client_id_on_b m) (cot_client_state_of_b_on_a m) (cot_counterparty m)
      (cot_versions_on_a m) (cot_proof_conn_end_on_a m) (cot_proof_client_state_of_b_on_a m)
      (cot_proof_consensus_state_of_b_on_a m) (cot_proofs_height_on_a m)
      (cot_consensus_height_of_b_on_a m) (cot_delay_period m mod U64_SIZE) (cot_signer m)
      (cot_proof_consensus_state_of_b m) (cot_previous_connection_id m)))
  | EnvChannel (ChanOpenTry m) => EnvChannel (ChanOpenTry (mkMsgChannelOpenTry
      (chot_port_id_on_b m) (chot_connection_hops_on_b m) (chot_port_id_on_a m)
      (chot_chan_id_on_a m) (chot_version_supported_on_a m) (chot_proof_chan_end_on_a m)
      (chot_proof_height_on_a m) (chot_ordering m) (chot_signer m) (mkChanVersion "")))
  | e => e
  end.
End wf.

(** ** Lemmas *)

(** Decides comparisons of type URLs. *)
Ltac decide_urls :=
  repeat match goal with
  | |- context [(?a =? ?b)%string] =>
    let v := eval vm_compute in (a =? b)%string in change (a =? b)%string with v; cbv iota
  end.

Section lemmas.
Context `{Unicode, TmTime}.

Lemma height_or_Ok {E} raw (e : E) h : height_or raw e = Ok h → height_ok h.
Proof.
  unfold height_or, height_ok. rewrite ok_or_Ok, bind_Some. intros (r & _ & Hh).
  apply ok_Some in Hh. by apply Height_new_Ok in Hh as [-> ?].
Qed.
Lemma height_or_into {E} h (e : E) : height_ok h → height_or (Some (Height_into_raw h)) e = Ok h.
Proof.
  intros Hh. unfold height_or. cbn [mbind option_bind]. apply ok_or_Ok, ok_Some, Height_new_Ok.
  by destruct h.
Qed.
Lemma proof_or_Ok {E} b (e : E) p : proof_or b e = Ok p → proof_ok p.
Proof. unfold proof_or, CommitmentProofBytes_try_from. destruct b; cbn; [done|]. by intros [= <-]. Qed.
Lemma proof_or_into {E} p (e : E) : proof_ok p → proof_or (proof_bytes p) e = Ok p.
Proof. unfold proof_ok. destruct p as [[|b l]]; [done|]. done. Qed.
Lemma host_proof_Ok b p : host_proof_try_from b = Ok p → host_proof_ok p.
Proof.
  unfold host_proof_try_from. destruct b; cbn; [by intros [= <-]|]. intros Hp. inv_ok. by cbn.
Qed.
Lemma host_proof_into_Ok p : host_proof_ok p → host_proof_try_from (host_proof_into p) = Ok p.
Proof. destruct p as [[[|b l]]|]; done. Qed.
Lemma version_into_Ok v : Version_wf v → Version_try_from (Version_into v) = Ok v.
Proof. intros Hv. by apply Version_try_from_Ok. Qed.
Lemma packet_or_into `{!TmTimeLaws} p r :
  Packet_wf p → Packet_into (E:=PacketError) p = Ok r → packet_or (Some r) = Ok p.
Proof.
  intros Hw Hr. destruct (packet_raw_roundtrip p) as [Hp _].
  destruct (Hp Hw) as (r' & E & Ht). rewrite Hr in E. injection E as <-. exact Ht.
Qed.
Lemma packet_or_Ok raw p : packet_or raw = Ok p → Packet_checked p.
Proof.
  unfold packet_or, Packet_try_from, Sequence_is_zero. intros Hp. inv_ok.
  split_and!; cbn; eauto using PortId_parsed, ChannelId_parsed.
  - by apply N.eqb_neq.
  - by apply is_empty_false.
  - repeat match goal with
    | H : negb ?a && negb ?b = false |- _ => destruct a, b; cbn in H; auto; done end.
Qed.
Lemma parse_port_Ok s p : parse_port s = Ok p → port_ok p.
Proof. unfold parse_port. intros Hp. inv_ok. by eapply PortId_parsed. Qed.
Lemma parse_channel_Ok s c : parse_channel s = Ok c → channel_ok c.
Proof. unfold parse_channel. intros Hp. inv_ok. by eapply ChannelId_parsed. Qed.
Lemma parse_port_str p : port_ok p → parse_port (port_id_str p) = Ok p.
Proof. intros Hp. unfold parse_port. by rewrite Hp. Qed.
Lemma parse_channel_str c : channel_ok c → parse_channel (channel_id_str c) = Ok c.
Proof. intros Hc. unfold parse_channel. by rewrite Hc. Qed.
Lemma channel_end_into_Ok c : ChannelEnd_wf c → ChannelEnd_try_from (ChannelEnd_into c) = Ok c.
Proof. apply channel_end_raw_roundtrip. Qed.
End lemmas.

Create HintDb decoded.
Create Rewrite HintDb wire.
#[export] Hint Resolve height_or_Ok proof_or_Ok host_proof_Ok packet_or_Ok parse_port_Ok parse_channel_Ok
  ClientId_parsed ConnectionId_parsed ConnCounterparty_try_from_wf : decoded.
#[export] Hint Rewrite @height_or_into @proof_or_into @host_proof_into_Ok @version_into_Ok
  @parse_port_str @parse_channel_str @channel_end_into_Ok @ConnCounterparty_try_from_into
  using done : wire.

Section decoding.
Context `{Unicode, MsgText, !MsgCodec, !MsgCodecLaws}.

Lemma decode_vec_encode {R E A} `{ProstLaws R} (text : E → string) (f : R → outcome E A) r a :
  f r = Ok a → decode_vec text f (prost_encode r) = Ok a.
Proof. intros Hf. unfold decode_vec. rewrite prost_roundtrip. mstep. by rewrite Hf. Qed.
Lemma decode_vec_Ok {R E A} `{Prost R} (text : E → string) (f : R → outcome E A) b a :
  decode_vec text f b = Ok a → ∃ r, f r = Ok a.
Proof. unfold decode_vec. intros Hd. inv_ok. eauto. Qed.

Lemma client_msg_roundtrip m :
  ClientMsg_wf m → ∃ a, MsgEnvelope_to_any (E:=RouterError) (EnvClient m) = Ok a
  ∧ MsgEnvelope_try_from a = Ok (EnvClient m).
Proof.
  intros Hw. destruct m as [m|m|m|m]; cbn in Hw; destruct_and?;
    (eexists; split; [done|]); unfold MsgEnvelope_try_from, wrap; cbn [type_url any_value];
    decide_urls.
  - erewrite decode_vec_encode; [done|]. by destruct m.
  - erewrite decode_vec_encode; [done|]. unfold MsgUpdateClient_try_from. cbn. rewrite Hw. by destruct m.
  - erewrite decode_vec_encode; [done|]. unfold MsgSubmitMisbehaviour_try_from. cbn.
    rewrite Hw. by destruct m.
  - erewrite decode_vec_encode; [done|]. unfold MsgUpgradeClient_try_from.
    cbn [RawMsgUpgradeClient_from rug_client_state rug_consensus_state rug_proof_upgrade_client
      rug_proof_upgrade_consensus_state rug_client_id rug_signer]. mstep.
    autorewrite with wire. mstep. unfold client_ok in *.
    match goal with H : ClientId_from_str _ = _ |- _ => rewrite H end. by destruct m.
Qed.

Lemma connection_msg_roundtrip m :
  ConnectionMsg_wf m → ∃ a, MsgEnvelope_to_any (E:=RouterError) (EnvConnection m) = Ok a
  ∧ MsgEnvelope_try_from a = Ok (on_wire (EnvConnection m)).
Proof.
  intros Hw. destruct m as [m|m|m|m]; cbn in Hw; destruct_and?;
    (eexists; split; [done|]); unfold MsgEnvelope_try_from, wrap; cbn [type_url any_value];
    decide_urls; (erewrite decode_vec_encode; [done|]); unfold client_ok, connection_ok in *.
  - unfold MsgConnectionOpenInit_try_from.
    cbn [RawMsgConnectionOpenInit_from rcoi_counterparty rcoi_client_id rcoi_version
      rcoi_delay_period rcoi_signer]. mstep. autorewrite with wire. mstep.
    unfold verify_empty_connection_id.
    match goal with H : cpty_connection_id _ = None |- _ => rewrite H end.
    rewrite bool_decide_eq_false_2 by by intros [? ?]. mstep.
    match goal with H : ClientId_from_str _ = _ |- _ => rewrite H end. mstep.
    destruct (coi_version m) as [v|] eqn:Ev; cbn [fmap option_fmap option_map]; mstep; [|done].
    by rewrite version_into_Ok by auto.
  - unfold MsgConnectionOpenTry_try_from.
    cbn [RawMsgConnectionOpenTry_from rcot_client_id rcot_previous_connection_id rcot_client_state
      rcot_counterparty rcot_delay_period rcot_counterparty_versions rcot_proof_height
      rcot_proof_init rcot_proof_client rcot_proof_consensus rcot_consensus_height rcot_signer
      rcot_host_consensus_state_proof]. mstep.
    rewrite try_map_fmap by (intros v Hv; apply version_into_Ok; auto). mstep.
    rewrite (proj2 (is_empty_false _)) by done. mstep.
    match goal with H : ClientId_from_str _ = _ |- _ => rewrite H end. mstep.
    by autorewrite with wire.
  - unfold MsgConnectionOpenAck_try_from.
    cbn [RawMsgConnectionOpenAck_from rcoa_connection_id rcoa_counterparty_connection_id
      rcoa_client_state rcoa_proof_height rcoa_proof_try rcoa_proof_client rcoa_proof_consensus
      rcoa_consensus_height rcoa_version rcoa_signer rcoa_host_consensus_state_proof]. mstep.
    repeat match goal with H : ConnectionId_from_str _ = _ |- _ => rewrite H; clear H end. mstep.
    autorewrite with wire. mstep. by destruct m.
  - unfold MsgConnectionOpenConfirm_try_from.
    cbn [RawMsgConnectionOpenConfirm_from rcoc_connection_id rcoc_proof_ack rcoc_proof_height
      rcoc_signer]. match goal with H : ConnectionId_from_str _ = _ |- _ => rewrite H end. mstep.
    autorewrite with wire. mstep. by destruct m.
Qed.

Lemma channel_msg_roundtrip m :
  ChannelMsg_wf m → ∃ a, MsgEnvelope_to_any (E:=RouterError) (EnvChannel m) = Ok a
  ∧ MsgEnvelope_try_from a = Ok (on_wire (EnvChannel m)).
Proof.
  intros Hw. destruct m as [m|m|m|m|m|m]; cbn in Hw; destruct_and?;
    (eexists; split; [done|]); unfold MsgEnvelope_try_from, wrap; cbn [type_url any_value];
    decide_urls; (erewrite decode_vec_encode; [done|]).
  - unfold MsgChannelOpenInit_try_from.
    cbn [RawMsgChannelOpenInit_from rchi_channel rchi_port_id rchi_signer ok_or]. mstep.
    rewrite channel_end_into_Ok by by split_and!. mstep. autorewrite with wire. by destruct m.
  - unfold MsgChannelOpenTry_try_from.
    cbn [RawMsgChannelOpenTry_from rcht_channel rcht_port_id rcht_previous_channel_id
      rcht_counterparty_version rcht_proof_init rcht_proof_height rcht_signer]. mstep.
    rewrite channel_end_into_Ok by (split_and!; try done; by intros ? [= <-]). mstep.
    unfold ChannelEnd_verify_state_matches. cbn. autorewrite with wire. mstep.
    by destruct m as [? ? ? ? [] ? ? ? ? ?].
  - unfold MsgChannelOpenAck_try_from.
    cbn [RawMsgChannelOpenAck_from rcha_port_id rcha_channel_id rcha_counterparty_channel_id
      rcha_counterparty_version rcha_proof_try rcha_proof_height rcha_signer].
    autorewrite with wire. mstep. by destruct m as [? ? ? [] ? ? ?].
  - unfold MsgChannelOpenConfirm_try_from.
    cbn [RawMsgChannelOpenConfirm_from rchc_port_id rchc_channel_id rchc_proof_ack rchc_proof_height
      rchc_signer]. autorewrite with wire. mstep. by destruct m.
  - unfold MsgChannelCloseInit_try_from.
    cbn [RawMsgChannelCloseInit_from rcli_port_id rcli_channel_id rcli_signer].
    autorewrite with wire. mstep. by destruct m.
  - unfold MsgChannelCloseConfirm_try_from.
    cbn [RawMsgChannelCloseConfirm_from rclc_port_id rclc_channel_id rclc_proof_init
      rclc_proof_height rclc_signer rclc_counterparty_upgrade_sequence].
    autorewrite with wire. mstep. by destruct m.
Qed.

Lemma Packet_into_wf p : Packet_wf p → ∃ r, ∀ E : Type, Packet_into (E:=E) p = Ok r.
Proof.
  intros (_ & _ & _ & _ & _ & _ & _ & _ & Ht & _).
  destruct (Timestamp_nanoseconds_wf (E:=PacketError) _ Ht) as (n & En & _).
  eexists. intros E. unfold Packet_into. rewrite (Timestamp_nanoseconds_any _ _ En). done.
Qed.

Lemma packet_msg_roundtrip `{!TmTimeLaws} m :
  PacketMsg_wf Packet_wf m → ∃ a, MsgEnvelope_to_any (E:=RouterError) (EnvPacket m) = Ok a
  ∧ MsgEnvelope_try_from a = Ok (EnvPacket m).
Proof.
  intros Hw. destruct m as [m|m|m|m]; cbn in Hw; destruct_and?;
    match goal with H : Packet_wf _ |- _ =>
      destruct (Packet_into_wf _ H) as [r Hr]; rename H into Hp end;
    cbn [MsgEnvelope_to_any];
    unfold RawMsgRecvPacket_from, RawMsgAcknowledgement_from, RawMsgTimeout_from,
      RawMsgTimeoutOnClose_from; rewrite Hr; mstep;
    (eexists; split; [done|]); unfold MsgEnvelope_try_from, wrap; cbn [type_url any_value];
    decide_urls; (erewrite decode_vec_encode; [done|]).
  - unfold MsgRecvPacket_try_from. cbn [rrp_packet rrp_proof_commitment rrp_proof_height rrp_signer].
    rewrite (packet_or_into _ _ Hp (Hr _)). mstep. autorewrite with wire. mstep. by destruct m.
  - unfold MsgAcknowledgement_try_from, Acknowledgement_try_from.
    cbn [rma_packet rma_acknowledgement rma_proof_acked rma_proof_height rma_signer].
    rewrite (packet_or_into _ _ Hp (Hr _)). mstep. rewrite (proj2 (is_empty_false _)) by done. mstep.
    autorewrite with wire. mstep. by destruct m as [? [] ? ? ?].
  - unfold MsgTimeout_try_from. cbn [rto_packet rto_proof_unreceived rto_proof_height
      rto_next_sequence_recv rto_signer]. rewrite (proj2 (N.eqb_neq _ _)) by done. mstep.
    rewrite (packet_or_into _ _ Hp (Hr _)). mstep. autorewrite with wire. mstep. by destruct m.
  - unfold MsgTimeoutOnClose_try_from. cbn [rtc_packet rtc_proof_unreceived rtc_proof_close
      rtc_proof_height rtc_next_sequence_recv rtc_signer rtc_counterparty_upgrade_sequence].
    rewrite (proj2 (N.eqb_neq (toc_next_seq_recv_on_b m) 0)) by done. mstep. cbn [N.eqb negb]. mstep.
    rewrite (packet_or_into _ _ Hp (Hr _)). mstep. autorewrite with wire. mstep. by destruct m.
Qed.
End decoding.

(** ** Theorems *)

Section theorems.
Context `{Unicode, MsgText, !MsgCodec, !MsgCodecLaws, !TmTimeLaws}.

(** C25: Every well-formed message of the protocol is decoded from its wire form as it
    was built, up to the two things the wire does not keep: delay periods are cut
    to 64 bits, and the deprecated version of [MsgChannelOpenTry] is dropped. *)
Theorem messages_wire_roundtrip e :
  MsgEnvelope_wf Packet_wf e →
  ∃ a, MsgEnvelope_to_any (E:=RouterError) e = Ok a ∧ MsgEnvelope_try_from a = Ok (on_wire e).
Proof.
  destruct e as [m|m|m|m]; cbn [MsgEnvelope_wf]; intros Hw.
  - by apply client_msg_roundtrip.
  - by apply connection_msg_roundtrip.
  - by apply channel_msg_roundtrip.
  - by apply packet_msg_roundtrip.
Qed.
End theorems.

(** What decoding accepts. *)
Section acceptance.
Context `{Unicode, MsgText, !MsgCodec}.

Lemma client_msg_decoded :
  (∀ raw m, MsgUpdateClient_try_from raw = Ok m → ClientMsg_wf (ClUpdateClient m))
  ∧ (∀ raw m, MsgSubmitMisbehaviour_try_from raw = Ok m → ClientMsg_wf (ClMisbehaviour m))
  ∧ (∀ raw m, MsgUpgradeClient_try_from raw = Ok m → ClientMsg_wf (ClUpgradeClient m)).
Proof.
  split_and!; intros raw m;
    unfold MsgUpdateClient_try_from, MsgSubmitMisbehaviour_try_from, MsgUpgradeClient_try_from;
    intros Hm; inv_ok; destruct_units; cbn; split_and?; eauto with decoded.
Qed.

Lemma MsgConnectionOpenInit_decoded raw m :
  MsgConnectionOpenInit_try_from raw = Ok m → ConnectionMsg_wf (ConnOpenInit m).
Proof.
  unfold MsgConnectionOpenInit_try_from, verify_empty_connection_id. intros Hm. inv_ok. destruct_units.
  cbn. split_and!; eauto with decoded.
  - match goal with H : bool_decide (is_Some ?o) = false |- _ =>
      apply bool_decide_eq_false in H; by apply eq_None_not_Some end.
  - intros v ->. destruct (rcoi_version raw); inv_ok; [|done].
    match goal with H : Some _ = Some _ |- _ => injection H as -> end || simplify_eq.
    by match goal with H : Version_try_from _ = _ |- _ => apply Version_try_from_Ok in H as [_ ?] end.
Qed.
Lemma MsgConnectionOpenTry_decoded raw m :
  MsgConnectionOpenTry_try_from raw = Ok m → ConnectionMsg_wf (ConnOpenTry m).
Proof.
  unfold MsgConnectionOpenTry_try_from. intros Hm. inv_ok. destruct_units.
  cbn. split_and!; eauto with decoded.
  - by apply is_empty_false.
  - match goal with H : try_map _ _ = Ok _ |- _ => apply try_map_Ok in H as Hvs end.
    intros v Hv. apply list_elem_of_lookup in Hv as [i Hi].
    destruct (Forall2_lookup_r _ _ _ _ _ Hvs Hi) as (r & _ & Hx).
    by apply Version_try_from_Ok in Hx as [_ ?].
Qed.
Lemma MsgConnectionOpenAck_decoded raw m :
  MsgConnectionOpenAck_try_from raw = Ok m → ConnectionMsg_wf (ConnOpenAck m).
Proof.
  unfold MsgConnectionOpenAck_try_from. intros Hm. inv_ok. destruct_units.
  cbn. split_and!; eauto with decoded.
  by match goal with H : Version_try_from _ = _ |- _ => apply Version_try_from_Ok in H as [_ ?] end.
Qed.
Lemma MsgConnectionOpenConfirm_decoded raw m :
  MsgConnectionOpenConfirm_try_from raw = Ok m → ConnectionMsg_wf (ConnOpenConfirm m).
Proof.
  unfold MsgConnectionOpenConfirm_try_from. intros Hm. inv_ok. cbn. split_and!; eauto with decoded.
Qed.

Lemma MsgChannelOpenInit_decoded raw m :
  MsgChannelOpenInit_try_from channel_id_debug raw = Ok m → ChannelMsg_wf (ChanOpenInit m).
Proof.
  unfold MsgChannelOpenInit_try_from. intros Hm. inv_ok. destruct_units.
  match goal with H : ChannelEnd_try_from _ = Ok ?c |- _ =>
    apply channel_end_raw_roundtrip in H as (_ & ? & ? & _ & ?) end.
  cbn. split_and!; eauto with decoded.
Qed.
Lemma MsgChannelOpenTry_decoded raw m :
  MsgChannelOpenTry_try_from raw = Ok m → ChannelMsg_wf (ChanOpenTry m).
Proof.
  unfold MsgChannelOpenTry_try_from. intros Hm. inv_ok. destruct_units.
  match goal with H : ChannelEnd_try_from _ = Ok ?c |- _ =>
    apply channel_end_raw_roundtrip in H as (_ & ? & ? & ? & ?) end.
  cbn. split_and!; eauto with decoded.
Qed.
Lemma channel_msg_decoded :
  (∀ raw m, MsgChannelOpenAck_try_from raw = Ok m → ChannelMsg_wf (ChanOpenAck m))
  ∧ (∀ raw m, MsgChannelOpenConfirm_try_from raw = Ok m → ChannelMsg_wf (ChanOpenConfirm m))
  ∧ (∀ raw m, MsgChannelCloseInit_try_from raw = Ok m → ChannelMsg_wf (ChanCloseInit m))
  ∧ (∀ raw m, MsgChannelCloseConfirm_try_from raw = Ok m → ChannelMsg_wf (ChanCloseConfirm m)).
Proof.
  split_and!; intros raw m;
    unfold MsgChannelOpenAck_try_from, MsgChannelOpenConfirm_try_from, MsgChannelCloseInit_try_from,
      MsgChannelCloseConfirm_try_from;
    intros Hm; inv_ok; destruct_units; cbn; split_and?; eauto with decoded.
Qed.

Lemma Acknowledgement_try_from_Ok b a : Acknowledgement_try_from b = Ok a → ack_bytes a ≠ [].
Proof.
  unfold Acknowledgement_try_from. destruct b; [done|]. by intros [= <-].
Qed.
Hint Resolve Acknowledgement_try_from_Ok : decoded.
Lemma packet_msg_decoded :
  (∀ raw m, MsgRecvPacket_try_from raw = Ok m → PacketMsg_wf Packet_checked (PktRecv m))
  ∧ (∀ raw m, MsgAcknowledgement_try_from raw = Ok m → PacketMsg_wf Packet_checked (PktAck m))
  ∧ (∀ raw m, MsgTimeout_try_from raw = Ok m → PacketMsg_wf Packet_checked (PktTimeout m))
  ∧ (∀ raw m, MsgTimeoutOnClose_try_from raw = Ok m →
      PacketMsg_wf Packet_checked (PktTimeoutOnClose m)).
Proof.
  split_and!; intros raw m;
    unfold MsgRecvPacket_try_from, MsgAcknowledgement_try_from, MsgTimeout_try_from,
      MsgTimeoutOnClose_try_from;
    intros Hm; inv_ok; destruct_units; cbn [PacketMsg_wf]; split_and!; cbn; eauto with decoded;
    by apply N.eqb_neq.
Qed.

Definition MSG_TYPE_URLS : list string :=
  [CREATE_CLIENT_TYPE_URL; UPDATE_CLIENT_TYPE_URL; UPGRADE_CLIENT_TYPE_URL;
   SUBMIT_MISBEHAVIOUR_TYPE_URL; CONN_OPEN_INIT_TYPE_URL; CONN_OPEN_TRY_TYPE_URL;
   CONN_OPEN_ACK_TYPE_URL; CONN_OPEN_CONFIRM_TYPE_URL; CHAN_OPEN_INIT_TYPE_URL;
   CHAN_OPEN_TRY_TYPE_URL; CHAN_OPEN_ACK_TYPE_URL; CHAN_OPEN_CONFIRM_TYPE_URL;
   CHAN_CLOSE_INIT_TYPE_URL; CHAN_CLOSE_CONFIRM_TYPE_URL; RECV_PACKET_TYPE_URL;
   ACKNOWLEDGEMENT_TYPE_URL; TIMEOUT_TYPE_URL; TIMEOUT_ON_CLOSE_TYPE_URL].

(** C26: Whatever bytes are submitted, a message that decoding accepts has one of the eighteen type URLs and fields that satisfy the
    protocol's checks: valid identifiers, non-empty proofs, non-zero heights and
    sequences, at least one timeout. *)
Theorem decoded_messages_well_formed a e :
  MsgEnvelope_try_from a = Ok e →
  type_url a ∈ MSG_TYPE_URLS ∧ MsgEnvelope_wf Packet_checked e.
Proof.
  destruct client_msg_decoded as (Hc1 & Hc2 & Hc3).
  destruct channel_msg_decoded as (Hh1 & Hh2 & Hh3 & Hh4).
  destruct packet_msg_decoded as (Hp1 & Hp2 & Hp3 & Hp4).
  unfold MsgEnvelope_try_from.
  repeat match goal with |- context [(type_url a =? ?u)%string] =>
    destruct (String.eqb_spec (type_url a) u) as [->|_];
    [intros He; inv_ok;
     match goal with H : decode_vec _ _ _ = Ok _ |- _ => apply decode_vec_Ok in H as [raw Hraw] end;
     split; [unfold MSG_TYPE_URLS; repeat first [left | right]|];
     cbn [MsgEnvelope_wf]; try exact I; eauto using MsgConnectionOpenInit_decoded, MsgConnectionOpenTry_decoded,
       MsgConnectionOpenAck_decoded, MsgConnectionOpenConfirm_decoded, MsgChannelOpenInit_decoded,
       MsgChannelOpenTry_decoded|] end.
  done.
Qed.
End acceptance.
