(* ===== verification/Codecs.v ===== *)
(** * Encodings beside protobuf

    The implementations of borsh, SCALE and serde traits that the sources write out
    themselves: timestamps (ibc-primitives/src/types/timestamp.rs), connection ends and the
    first two connection messages (ics03-connection/types/src: connection.rs,
    msgs/conn_open_init.rs, msgs/conn_open_try.rs), timeout heights
    (ics04-channel/types/src/timeout.rs) and what ics23-commitment/types/src and packets
    serialise in hexadecimal.  What the traits do on integers, and what their derive macros
    generate for the structs in between, are parameters. *)

From S2P Require Import Prelude RustStr Identifiers Primitives Path Connection Channel Context Merkle.
From S2P Require Import ConnHandlers.
Local Open Scope string_scope.
Local Open Scope N_scope.

(** ** A binary codec

    borsh or SCALE: a write returns the bytes it appends, a read consumes a prefix and
    returns the rest.  [kind_other] is an error without text, [custom] one with a text. *)
Class BinaryCodec := {
  BinError : Type;
  kind_other : BinError;
  custom : string → BinError;
  write_u64 : N → bytes;
  read_u64 : bytes → outcome BinError (N * bytes);
}.
Class BinaryLaws `{BinaryCodec} := {
  read_write_u64 n rest : is_u64 n → read_u64 (write_u64 n ++ rest)%list = Ok (n, rest);
  read_u64_range b n rest : read_u64 b = Ok (n, rest) → is_u64 n;
}.

(** What the macros derive for a struct. *)
Class Derived `{BinaryCodec} (A : Type) := {
  write_value : A → bytes;
  read_value : bytes → outcome BinError (A * bytes);
}.
(** Values whose integers fit are read back; only such values are read. *)
Class DerivedLaws `{BinaryCodec} (A : Type) (fits : A → Prop) `{!Derived A} := {
  read_write_value a rest : fits a → read_value (write_value a ++ rest)%list = Ok (a, rest);
  read_value_fits b a rest : read_value b = Ok (a, rest) → fits a;
}.

(** ** Timestamps *)

Section timestamps.
Context `{TmTime, BinaryCodec}.

Definition Timestamp_borsh_serialize (self : Timestamp) : outcome BinError bytes :=
  timestamp ← Timestamp_nanoseconds self;
  Ok (write_u64 timestamp).
Definition Timestamp_borsh_deserialize (reader : bytes) : outcome BinError (Timestamp * bytes) :=
  '(timestamp, rest) ← read_u64 reader;
  t ← map_err (λ _, kind_other) (Timestamp_from_nanoseconds timestamp);
  Ok (t, rest).

Definition Timestamp_scale_encode_to (self : Timestamp) : outcome BinError bytes :=
  timestamp ← Timestamp_nanoseconds self;
  Ok (write_u64 timestamp).
Definition Timestamp_scale_decode (input : bytes) : outcome BinError (Timestamp * bytes) :=
  '(timestamp, rest) ← read_u64 input;
  t ← map_err (λ _, custom "from nanoseconds error") (Timestamp_from_nanoseconds timestamp);
  Ok (t, rest).
End timestamps.

(** ** Connection ends *)

(** [Duration::new]: carries whole seconds over, and panics when they do not fit. *)
Definition Duration_new {E} (secs nanos : N) : outcome E Duration :=
  if secs + nanos / NANOS_PER_SEC <? U64_SIZE then Ok (secs * NANOS_PER_SEC + nanos) else Panic.
Definition subsec_nanos (d : Duration) : N := d mod NANOS_PER_SEC.

Record InnerConnectionEnd := mkInnerConnectionEnd {
  ice_state : ConnectionState;
  ice_client_id : ClientId;
  ice_counterparty : ConnCounterparty;
  ice_versions : list Version;
  ice_delay_period_secs : N;
  ice_delay_period_nanos : N }.

Definition ConnectionEnd_from_inner {E} (value : InnerConnectionEnd) : outcome E ConnectionEnd :=
  delay_period ← Duration_new (ice_delay_period_secs value) (ice_delay_period_nanos value);
  Ok (mkConnectionEnd (ice_state value) (ice_client_id value) (ice_counterparty value)
        (ice_versions value) delay_period).
Definition InnerConnectionEnd_from (value : ConnectionEnd) : InnerConnectionEnd :=
  mkInnerConnectionEnd (conn_state value) (conn_client_id value) (conn_counterparty value)
    (conn_versions value) (as_secs (conn_delay_period value)) (subsec_nanos (conn_delay_period value)).

Section connection_ends.
Context `{BinaryCodec, !Derived InnerConnectionEnd}.

Definition ConnectionEnd_borsh_serialize (self : ConnectionEnd) : bytes :=
  write_value (InnerConnectionEnd_from self).
Definition ConnectionEnd_borsh_deserialize (reader : bytes) : outcome BinError (ConnectionEnd * bytes) :=
  '(inner_conn_end, rest) ← read_value reader;
  conn_end ← ConnectionEnd_from_inner inner_conn_end;
  Ok (conn_end, rest).
End connection_ends.

(** ** Connection messages *)

Record InnerMsgConnectionOpenInit := mkInnerMsgConnectionOpenInit {
  icoi_client_id_on_a : ClientId;
  icoi_counterparty : ConnCounterparty;
  icoi_version : option Version;
  icoi_delay_period_nanos : N;
  icoi_signer : Signer }.

Record InnerMsgConnectionOpenTry := mkInnerMsgConnectionOpenTry {
  icot_client_id_on_b : ClientId;
  icot_client_state_of_b_on_a : Any;
  icot_counterparty : ConnCounterparty;
  icot_versions_on_a : list Version;
  icot_proof_conn_end_on_a : CommitmentProofBytes;
  icot_proof_client_state_of_b_on_a : CommitmentProofBytes;
  icot_proof_consensus_state_of_b_on_a : CommitmentProofBytes;
  icot_proofs_height_on_a : Height;
  icot_consensus_height_of_b_on_a : Height;
  icot_delay_period_nanos : N;
  icot_signer : Signer;
  icot_proof_consensus_state_of_b : option CommitmentProofBytes;
  icot_previous_connection_id : string }.

Section messages.
Context `{BinaryCodec, !Derived InnerMsgConnectionOpenInit, !Derived InnerMsgConnectionOpenTry}.

(** [self.delay_period.as_nanos().try_into()] into a [u64]. *)
Definition delay_period_nanos (d : Duration) : outcome BinError N :=
  if d <? U64_SIZE then Ok d else Err (custom ("Duration too long: " ++ show_u64 d ++ " nanos")).

Definition MsgConnectionOpenInit_borsh_serialize (self : MsgConnectionOpenInit) : outcome BinError bytes :=
  nanos ← delay_period_nanos (coi_delay_period self);
  Ok (write_value (mkInnerMsgConnectionOpenInit (coi_client_id_on_a self) (coi_counterparty self)
        (coi_version self) nanos (coi_signer self))).
Definition MsgConnectionOpenInit_borsh_deserialize (reader : bytes) :
    outcome BinError (MsgConnectionOpenInit * bytes) :=
  '(inner, rest) ← read_value reader;
  Ok (mkMsgConnectionOpenInit (icoi_client_id_on_a inner) (icoi_counterparty inner) (icoi_version inner)
        (Duration_from_nanos (icoi_delay_period_nanos inner)) (icoi_signer inner), rest).

Definition MsgConnectionOpenTry_borsh_serialize (self : MsgConnectionOpenTry) : outcome BinError bytes :=
  nanos ← delay_period_nanos (cot_delay_period self);
  Ok (write_value (mkInnerMsgConnectionOpenTry (cot_client_id_on_b self)
        (cot_client_state_of_b_on_a self) (cot_counterparty self) (cot_versions_on_a self)
        (cot_proof_conn_end_on_a self) (cot_proof_client_state_of_b_on_a self)
        (cot_proof_consensus_state_of_b_on_a self) (cot_proofs_height_on_a self)
        (cot_consensus_height_of_b_on_a self) nanos (cot_signer self)
        (cot_proof_consensus_state_of_b self) (cot_previous_connection_id self))).
Definition MsgConnectionOpenTry_borsh_deserialize (reader : bytes) :
    outcome BinError (MsgConnectionOpenTry * bytes) :=
  '(inner, rest) ← read_value reader;
  Ok (mkMsgConnectionOpenTry (icot_client_id_on_b inner) (icot_client_state_of_b_on_a inner)
        (icot_counterparty inner) (icot_versions_on_a inner) (icot_proof_conn_end_on_a inner)
        (icot_proof_client_state_of_b_on_a inner) (icot_proof_consensus_state_of_b_on_a inner)
        (icot_proofs_height_on_a inner) (icot_consensus_height_of_b_on_a inner)
        (Duration_from_nanos (icot_delay_period_nanos inner)) (icot_signer inner)
        (icot_proof_consensus_state_of_b inner) (icot_previous_connection_id inner), rest).
End messages.

(** ** serde

    A self-describing data format, as JSON is: texts, and what derived implementations make
    of the structs and vectors of the sources.  Upper-case hexadecimal is subtle_encoding's. *)
Class SerdeLib := {
  SerValue : Type;
  SerError : Type;
  ser_custom : string → SerError;
  ser_str : string → SerValue;
  (** [Height { revision_number: u64, revision_height: u64 }] *)
  ser_height_struct : N → N → SerValue;
  de_height_struct : SerValue → outcome SerError (N * N);
  de_vec_u8 : SerValue → outcome SerError bytes;
  (** [CommitmentPrefix { bytes: Vec<u8> }] *)
  de_prefix_struct : SerValue → outcome SerError bytes;
  hex_upper : bytes → outcome string string;
}.
(** Structs and vectors are not read from a text; the fields of a struct are read back. *)
Class SerdeLaws `{SerdeLib} := {
  de_ser_height n h : is_u64 n → is_u64 h → de_height_struct (ser_height_struct n h) = Ok (n, h);
  vec_u8_not_str s : ∃ e, de_vec_u8 (ser_str s) = Err e;
  prefix_not_str s : ∃ e, de_prefix_struct (ser_str s) = Err e;
}.

Section serde.
Context `{SerdeLib}.

(** serializer.rs *)
Definition ser_hex_upper (data : bytes) : outcome SerError SerValue :=
  hex ← map_err (λ e, ser_custom ("failed to serialize hex: " ++ e)) (hex_upper data);
  Ok (ser_str hex).

(** [serde(transparent)] with [serialize_with] on the field, and no [deserialize_with]. *)
Definition CommitmentRoot_serialize (self : CommitmentRoot) : outcome SerError SerValue :=
  ser_hex_upper (root_bytes self).
Definition CommitmentRoot_deserialize (v : SerValue) : outcome SerError CommitmentRoot :=
  mkCommitmentRoot <$> de_vec_u8 v.
Definition CommitmentProofBytes_serialize (self : CommitmentProofBytes) : outcome SerError SerValue :=
  ser_hex_upper (proof_bytes self).
Definition CommitmentProofBytes_deserialize (v : SerValue) : outcome SerError CommitmentProofBytes :=
  mkCommitmentProofBytes <$> de_vec_u8 v.
Definition CommitmentPrefix_serialize (self : CommitmentPrefix) : outcome SerError SerValue :=
  Ok (ser_str (CommitmentPrefix_debug self)).
Definition CommitmentPrefix_deserialize (v : SerValue) : outcome SerError CommitmentPrefix :=
  mkCommitmentPrefix <$> de_prefix_struct v.

(** The field [data] of packets and of packet states. *)
Definition packet_data_serialize (data : bytes) : outcome SerError SerValue := ser_hex_upper data.
Definition packet_data_deserialize (v : SerValue) : outcome SerError bytes := de_vec_u8 v.

Definition TimeoutHeight_serialize (self : TimeoutHeight) : SerValue :=
  match self with
  | Never => ser_height_struct 0 0
  | At height => ser_height_struct (height_revision_number height) (revision_height height)
  end.
Definition TimeoutHeight_deserialize `{TmTime} (v : SerValue) : outcome SerError TimeoutHeight :=
  '(revision_number, revision_height) ← de_height_struct v;
  Ok (match Height_new revision_number revision_height with Ok h => At h | _ => Never end).
End serde.

(** ** Theorems *)

Section binary_theorems.
Context `{TmTime, !TmTimeLaws, BinaryCodec, !BinaryLaws}.

Lemma Duration_new_parts {E} (d : Duration) :
  as_secs d < U64_SIZE → Duration_new (E:=E) (as_secs d) (subsec_nanos d) = Ok d.
Proof.
  unfold Duration_new, as_secs, subsec_nanos. intros Hd.
  assert (NANOS_PER_SEC ≠ 0) by done.
  rewrite (N.div_small (d mod NANOS_PER_SEC)) by (by apply N.mod_lt). rewrite N.add_0_r.
  rewrite (proj2 (N.ltb_lt _ _) Hd). f_equal. rewrite N.mul_comm. symmetry. by apply N.div_mod.
Qed.

(** What is said of [Timestamp] holds of borsh and of SCALE: they differ in errors only.  A
    timestamp within 64 bits of nanoseconds is read back, except for the beginning of 1970,
    which comes back as unset; one outside panics; and reading always gives a timestamp whose
    nanoseconds are the number read. *)
Theorem timestamp_binary_roundtrip (t : Timestamp) (rest : bytes) :
  match time t with
  | None => Timestamp_borsh_serialize t = Ok (write_u64 0)
      ∧ Timestamp_borsh_deserialize (write_u64 0 ++ rest)%list = Ok (t, rest)
  | Some x =>
    let n := Z.to_N (unix_nanos x) in
    if (0 <=? unix_nanos x)%Z && (unix_nanos x <? Z.of_N U64_SIZE)%Z then
      Timestamp_borsh_serialize t = Ok (write_u64 n)
      ∧ Timestamp_borsh_deserialize (write_u64 n ++ rest)%list
        = Ok (if n =? 0 then Timestamp_none else t, rest)
    else Timestamp_borsh_serialize t = Panic
  end.
Proof.
  unfold Timestamp_borsh_serialize, Timestamp_borsh_deserialize, Timestamp_nanoseconds, Timestamp_from_nanoseconds.
  destruct t as [[x|]]; cbn [time].
  - cbv zeta. destruct (_ && _) eqn:E; [|done]. split; [done|].
    apply andb_true_iff in E as [E1 E2]. apply Z.leb_le in E1. apply Z.ltb_lt in E2.
    assert (is_u64 (Z.to_N (unix_nanos x))) as Hu by (unfold is_u64; lia).
    rewrite read_write_u64 by done. mstep. destruct (N.eqb_spec (Z.to_N (unix_nanos x)) 0); [done|].
    destruct (of_unix_nanos_u64 _ Hu) as [y Hy]. rewrite Hy. mstep. do 3 f_equal. f_equal. apply unix_nanos_inj.
    apply of_unix_nanos_Some in Hy. rewrite Hy. lia.
  - split; [done|]. by rewrite read_write_u64.
Qed.

(** The integers of the inner structs, at their width. *)
Definition inner_end_fits (i : InnerConnectionEnd) : Prop :=
  is_u64 (ice_delay_period_secs i) ∧ ice_delay_period_nanos i < 2 ^ 32.
Definition inner_init_fits (i : InnerMsgConnectionOpenInit) : Prop := is_u64 (icoi_delay_period_nanos i).
Definition inner_try_fits (i : InnerMsgConnectionOpenTry) : Prop := is_u64 (icot_delay_period_nanos i).

Context `{!Derived InnerConnectionEnd, !DerivedLaws InnerConnectionEnd inner_end_fits}.
Context `{!Derived InnerMsgConnectionOpenInit, !DerivedLaws InnerMsgConnectionOpenInit inner_init_fits}.
Context `{!Derived InnerMsgConnectionOpenTry, !DerivedLaws InnerMsgConnectionOpenTry inner_try_fits}.

Lemma delay_period_nanos_Ok d n : delay_period_nanos d = Ok n ↔ n = d ∧ is_u64 d.
Proof. unfold delay_period_nanos, is_u64. destruct (N.ltb_spec d U64_SIZE); naive_solver lia. Qed.

(** Connection ends and the first two messages of the connection handshake survive borsh:
    ends always, and messages exactly when their delay fits in 64 bits of nanoseconds, the
    others being refused when they are written; protobuf in contrast cuts such delays. *)
Theorem connection_borsh_roundtrip (c : ConnectionEnd) (i : MsgConnectionOpenInit)
    (t : MsgConnectionOpenTry) (rest : bytes) :
  as_secs (conn_delay_period c) < U64_SIZE →
  ConnectionEnd_borsh_deserialize (ConnectionEnd_borsh_serialize c ++ rest)%list = Ok (c, rest)
  ∧ (if coi_delay_period i <? U64_SIZE then
       ∃ b, MsgConnectionOpenInit_borsh_serialize i = Ok b
         ∧ MsgConnectionOpenInit_borsh_deserialize (b ++ rest)%list = Ok (i, rest)
     else ∃ e, MsgConnectionOpenInit_borsh_serialize i = Err e)
  ∧ (if cot_delay_period t <? U64_SIZE then
       ∃ b, MsgConnectionOpenTry_borsh_serialize t = Ok b
         ∧ MsgConnectionOpenTry_borsh_deserialize (b ++ rest)%list = Ok (t, rest)
     else ∃ e, MsgConnectionOpenTry_borsh_serialize t = Err e).
Proof.
  intros Hc. split_and!.
  - unfold ConnectionEnd_borsh_deserialize, ConnectionEnd_borsh_serialize. rewrite read_write_value.
    + mstep. unfold ConnectionEnd_from_inner. cbn [ice_delay_period_secs ice_delay_period_nanos InnerConnectionEnd_from].
      rewrite Duration_new_parts by done. by destruct c.
    + split; [done|]. unfold InnerConnectionEnd_from, subsec_nanos. cbn [ice_delay_period_nanos].
      assert (conn_delay_period c mod NANOS_PER_SEC < NANOS_PER_SEC) by (by apply N.mod_lt).
      unfold NANOS_PER_SEC in *. lia.
  - unfold MsgConnectionOpenInit_borsh_serialize, delay_period_nanos.
    destruct (N.ltb_spec (coi_delay_period i) U64_SIZE); [|by eexists]. eexists. split; [done|].
    unfold MsgConnectionOpenInit_borsh_deserialize. rewrite read_write_value by done. by destruct i.
  - unfold MsgConnectionOpenTry_borsh_serialize, delay_period_nanos.
    destruct (N.ltb_spec (cot_delay_period t) U64_SIZE); [|by eexists]. eexists. split; [done|].
    unfold MsgConnectionOpenTry_borsh_deserialize. rewrite read_write_value by done. by destruct t.
Qed.

(** Reading a connection end from bytes that anyone may have written panics when the carry of
    the nanoseconds takes the seconds past 64 bits, instead of returning an error. *)
Theorem connection_end_borsh_panics i rest :
  ice_delay_period_secs i = U64_SIZE - 1 → NANOS_PER_SEC <= ice_delay_period_nanos i < 2 ^ 32 →
  ConnectionEnd_borsh_deserialize (write_value i ++ rest)%list = Panic.
Proof.
  intros Hs Hn. unfold ConnectionEnd_borsh_deserialize. rewrite read_write_value.
  - mstep. unfold ConnectionEnd_from_inner, Duration_new. rewrite Hs.
    rewrite (proj2 (N.ltb_ge _ _)); [done|].
    assert (1 <= ice_delay_period_nanos i / NANOS_PER_SEC) by (apply N.div_le_lower_bound; [done|lia]).
    unfold U64_SIZE in *. lia.
  - split; [|lia]. unfold is_u64. rewrite Hs. unfold U64_SIZE. lia.
Qed.
End binary_theorems.

Section serde_theorems.
Context `{TmTime, SerdeLib, !SerdeLaws}.

(** Roots, proofs, prefixes and packet data are serialised as a text but deserialised as a
    vector or a struct: what was written is never read back. *)
Theorem hex_fields_unreadable v :
  (∀ r, CommitmentRoot_serialize r = Ok v → ∃ e, CommitmentRoot_deserialize v = Err e)
  ∧ (∀ p, CommitmentProofBytes_serialize p = Ok v → ∃ e, CommitmentProofBytes_deserialize v = Err e)
  ∧ (∀ p, CommitmentPrefix_serialize p = Ok v → ∃ e, CommitmentPrefix_deserialize v = Err e)
  ∧ (∀ d, packet_data_serialize d = Ok v → ∃ e, packet_data_deserialize v = Err e).
Proof.
  assert (∀ d, ser_hex_upper d = Ok v → ∃ e, de_vec_u8 v = Err e) as Hhex.
  { unfold ser_hex_upper. intros d (s & _ & [= <-])%bind_Ok. apply vec_u8_not_str. }
  unfold CommitmentRoot_deserialize, CommitmentProofBytes_deserialize, CommitmentPrefix_deserialize.
  split_and!.
  - intros r (e & He)%Hhex. rewrite He. by eexists.
  - intros p (e & He)%Hhex. rewrite He. by eexists.
  - intros p [= <-]. destruct (prefix_not_str (CommitmentPrefix_debug p)) as [e He]. rewrite He. by eexists.
  - intros d. apply Hhex.
Qed.

(** Timeout heights are read back.  A height of zero in a revision other than zero, which the
    protobuf conversion refuses, is read as no timeout. *)
Theorem timeout_height_serde (t : TimeoutHeight) (n : N) :
  (∀ h, t = At h → Height_wf h) → is_u64 n →
  TimeoutHeight_deserialize (TimeoutHeight_serialize t) = Ok t
  ∧ TimeoutHeight_deserialize (ser_height_struct n 0) = Ok Never
  ∧ (n ≠ 0 → ∃ e, TimeoutHeight_try_from_raw (mkRawHeight n 0) = Err e).
Proof.
  intros Ht Hn. unfold TimeoutHeight_deserialize. split_and!.
  - destruct t as [|h]; cbn [TimeoutHeight_serialize].
    + rewrite de_ser_height by done. done.
    + destruct (Ht h eq_refl) as (? & ? & ?). rewrite de_ser_height by done. mstep.
      by rewrite (proj2 (Height_new_Ok _ _ h)) by by destruct h.
  - rewrite de_ser_height by done. done.
  - intros Hn0. unfold TimeoutHeight_try_from_raw. cbn. rewrite (proj2 (N.eqb_neq _ _) Hn0). cbn. by eexists.
Qed.
End serde_theorems.
