(* ===== verification/Wasm.v ===== *)
(** * Types of the CosmWasm light client

    [ibc-clients/ics08-wasm/types/src]: the client state, the consensus state and
    the client message of a light client that runs as a contract, the messages
    that manage its code ([msgs/{store_code,migrate_contract,remove_checksum}.rs])
    and the base 64 fields of the JSON a contract exchanges ([serializer.rs]).  The
    contents of [data] and [checksum] are for the contract to interpret: to this
    crate they are bytes.  The generated structs are the [Raw] records; [Prost] is
    their encoding. *)

From S2P Require Import Prelude RustStr Identifiers Primitives Path Connection Channel Context Messages.
Local Open Scope string_scope.
Local Open Scope N_scope.

(** ** lib.rs *)

Definition SUBJECT_PREFIX : bytes := as_bytes "subject/".
Definition SUBSTITUTE_PREFIX : bytes := as_bytes "substitute/".
Definition WASM_CLIENT_TYPE : string := "08-wasm".

(** [expect("Never fails because it's valid")]. *)
Definition wasm_client_type `{Unicode} {E} : outcome E ClientType :=
  expect (ClientType_from_str WASM_CLIENT_TYPE).

(** ** error.rs *)

Inductive WasmError :=
| WasmInvalidIdentifier (e : IdentifierError)
| WasmDecodeError (reason : string)
| WasmInvalidLatestHeight (reason : string).

(** ** Generated protobuf structs *)

Record RawWasmClientState := mkRawWasmClientState {
  rw_data : bytes; rw_checksum : bytes; rw_latest_height : option RawHeight }.
Record RawWasmConsensusState := mkRawWasmConsensusState { rwc_data : bytes }.
Record RawWasmClientMessage := mkRawWasmClientMessage { rwm_data : bytes }.
Record RawMsgStoreCode := mkRawMsgStoreCode { rsc_signer : string; rsc_wasm_byte_code : bytes }.
Record RawMsgMigrateContract := mkRawMsgMigrateContract {
  rmc_signer : string; rmc_client_id : string; rmc_checksum : bytes; rmc_msg : bytes }.
Record RawMsgRemoveChecksum := mkRawMsgRemoveChecksum { rrc_signer : string; rrc_checksum : bytes }.

Class WasmCodec := {
  prost_wasm_client_state :: Prost RawWasmClientState;
  prost_wasm_consensus_state :: Prost RawWasmConsensusState;
}.
Class WasmCodecLaws `{WasmCodec} := {
  laws_wasm_client_state :: ProstLaws RawWasmClientState;
  laws_wasm_consensus_state :: ProstLaws RawWasmConsensusState;
}.

(** What [Protobuf::decode] prints of a failed conversion. *)
Class WasmText `{TmTime} := {
  wasm_conversion_text : WasmError → string;
  wasm_client_conversion_text : ClientError → string;
}.

(** ** client_state.rs *)

Definition WASM_CLIENT_STATE_TYPE_URL : string := "/ibc.lightclients.wasm.v1.ClientState".

Record WasmClientState := mkWasmClientState {
  wcs_data : bytes; wcs_checksum : bytes; wcs_latest_height : Height }.

Definition RawWasmClientState_from (value : WasmClientState) : RawWasmClientState :=
  mkRawWasmClientState (wcs_data value) (wcs_checksum value)
    (Some (Height_into_raw (wcs_latest_height value))).

Definition WasmClientState_try_from_raw `{TmTime} (raw : RawWasmClientState) :
    outcome WasmError WasmClientState :=
  raw_height ← ok_or (rw_latest_height raw) (WasmInvalidLatestHeight "missing latest height");
  latest_height ← map_err (λ _, WasmInvalidLatestHeight "invalid protobuf latest height")
    (Height_try_from_raw raw_height);
  Ok (mkWasmClientState (rw_data raw) (rw_checksum raw) latest_height).

(** ** consensus_state.rs *)

Definition WASM_CONSENSUS_STATE_TYPE_URL : string := "/ibc.lightclients.wasm.v1.ConsensusState".

Record WasmConsensusState := mkWasmConsensusState { wcons_data : bytes }.

Definition WasmConsensusState_new (data : bytes) : WasmConsensusState := mkWasmConsensusState data.
Definition RawWasmConsensusState_from (value : WasmConsensusState) : RawWasmConsensusState :=
  mkRawWasmConsensusState (wcons_data value).
Definition WasmConsensusState_try_from_raw `{TmTime} (value : RawWasmConsensusState) :
    outcome ClientError WasmConsensusState :=
  Ok (mkWasmConsensusState (rwc_data value)).

(** ** client_message.rs *)

Definition WASM_CLIENT_MESSAGE_TYPE_URL : string := "/ibc.lightclients.wasm.v1.ClientMessage".

Record WasmClientMessage := mkWasmClientMessage { wcm_data : bytes }.

Definition WasmClientMessage_from (raw : RawWasmClientMessage) : WasmClientMessage :=
  mkWasmClientMessage (rwm_data raw).
Definition RawWasmClientMessage_from (value : WasmClientMessage) : RawWasmClientMessage :=
  mkRawWasmClientMessage (wcm_data value).

(** ** msgs *)

Definition STORE_CODE_TYPE_URL : string := "/ibc.lightclients.wasm.v1.MsgStoreCode".
Definition MIGRATE_CONTRACT_TYPE_URL : string := "/ibc.lightclients.wasm.v1.MsgMigrateContract".
Definition REMOVE_CHECKSUM_TYPE_URL : string := "/ibc.lightclients.wasm.v1.MsgRemoveChecksum".

Record MsgStoreCode := mkMsgStoreCode { sc_signer : Signer; sc_wasm_byte_code : bytes }.
Record MsgMigrateContract := mkMsgMigrateContract {
  mc_signer : Signer; mc_client_id : ClientId; mc_checksum : bytes; mc_msg : bytes }.
Record MsgRemoveChecksum := mkMsgRemoveChecksum { rc_signer : Signer; rc_checksum : bytes }.

Definition RawMsgStoreCode_from (value : MsgStoreCode) : RawMsgStoreCode :=
  mkRawMsgStoreCode (sc_signer value) (sc_wasm_byte_code value).
Definition MsgStoreCode_from (value : RawMsgStoreCode) : MsgStoreCode :=
  mkMsgStoreCode (rsc_signer value) (rsc_wasm_byte_code value).

Definition RawMsgMigrateContract_from (value : MsgMigrateContract) : RawMsgMigrateContract :=
  mkRawMsgMigrateContract (mc_signer value) (client_id_str (mc_client_id value))
    (mc_checksum value) (mc_msg value).
Definition MsgMigrateContract_try_from `{Unicode} (value : RawMsgMigrateContract) :
    outcome WasmError MsgMigrateContract :=
  client_id ← map_err WasmInvalidIdentifier (ClientId_from_str (rmc_client_id value));
  Ok (mkMsgMigrateContract (rmc_signer value) client_id (rmc_checksum value) (rmc_msg value)).

Definition RawMsgRemoveChecksum_from (value : MsgRemoveChecksum) : RawMsgRemoveChecksum :=
  mkRawMsgRemoveChecksum (rc_signer value) (rc_checksum value).
Definition MsgRemoveChecksum_from (value : RawMsgRemoveChecksum) : MsgRemoveChecksum :=
  mkMsgRemoveChecksum (rrc_signer value) (rrc_checksum value).

(** ** serializer.rs *)

Section serializer.
Context `{Base64}.
Definition Base64_serialize (b : bytes) : string := base64_encode b.
Definition Base64_deserialize (base64 : string) : option bytes := base64_decode base64.
End serializer.

(** ** Conversions from and to [Any] *)

Section any.
Context `{WasmCodec, WasmText}.

Definition WasmClientState_into (value : WasmClientState) : Any :=
  mkAny WASM_CLIENT_STATE_TYPE_URL (prost_encode (RawWasmClientState_from value)).
Definition WasmClientState_try_from (any : Any) : outcome WasmError WasmClientState :=
  if (type_url any =? WASM_CLIENT_STATE_TYPE_URL)%string then
    raw ← map_err WasmDecodeError (prost_decode (any_value any));
    map_err (λ e, WasmDecodeError (wasm_conversion_text e)) (WasmClientState_try_from_raw raw)
  else Err (WasmDecodeError "type_url does not match").

Definition WasmConsensusState_into (value : WasmConsensusState) : Any :=
  mkAny WASM_CONSENSUS_STATE_TYPE_URL (prost_encode (RawWasmConsensusState_from value)).
Definition WasmConsensusState_try_from (any : Any) : outcome ClientError WasmConsensusState :=
  if (type_url any =? WASM_CONSENSUS_STATE_TYPE_URL)%string then
    raw ← map_err ClientOther (prost_decode (any_value any));
    map_err (λ e, ClientOther (wasm_client_conversion_text e)) (WasmConsensusState_try_from_raw raw)
  else Err (ClientOther "type_url does not match").
End any.

(** ** Theorems *)

Section theorems.
Context `{WasmCodec, WasmText, !WasmCodecLaws, Unicode}.

(** The name of the client type is a valid one: [client_type] does not panic. *)
Lemma wasm_client_type_valid {E} : wasm_client_type (E:=E) = Ok (mkClientType WASM_CLIENT_TYPE).
Proof. reflexivity. Qed.

Lemma WasmClientState_raw_Ok raw cs :
  WasmClientState_try_from_raw raw = Ok cs
  ↔ raw = RawWasmClientState_from cs ∧ revision_height (wcs_latest_height cs) ≠ 0.
Proof.
  unfold WasmClientState_try_from_raw, RawWasmClientState_from. split.
  - intros Hr. inv_ok. destruct raw as [d k [[n h]|]]; [|done]. cbn in *. simplify_eq.
    match goal with E : Height_try_from_raw _ = _ |- _ =>
      apply Height_new_Ok in E as [-> ?] end. done.
  - intros [-> Hh]. cbn [rw_latest_height ok_or]. mstep. rewrite Height_raw_roundtrip by done.
    by destruct cs.
Qed.

Lemma wasm_client_state_decoded any cs :
  WasmClientState_try_from any = Ok cs
  ↔ type_url any = WASM_CLIENT_STATE_TYPE_URL
    ∧ prost_decode (any_value any) = Ok (RawWasmClientState_from cs)
    ∧ revision_height (wcs_latest_height cs) ≠ 0.
Proof.
  unfold WasmClientState_try_from.
  destruct (String.eqb_spec (type_url any) WASM_CLIENT_STATE_TYPE_URL) as [E|E]; [|naive_solver].
  rewrite bind_Ok. setoid_rewrite map_err_Ok. setoid_rewrite WasmClientState_raw_Ok. naive_solver.
Qed.
Lemma wasm_consensus_state_decoded any c :
  WasmConsensusState_try_from any = Ok c
  ↔ type_url any = WASM_CONSENSUS_STATE_TYPE_URL
    ∧ prost_decode (any_value any) = Ok (RawWasmConsensusState_from c).
Proof.
  unfold WasmConsensusState_try_from.
  destruct (String.eqb_spec (type_url any) WASM_CONSENSUS_STATE_TYPE_URL) as [E|E]; [|naive_solver].
  rewrite bind_Ok. setoid_rewrite map_err_Ok. unfold WasmConsensusState_try_from_raw. split.
  - intros ([d] & Hd & Hc). cbn in Hc. injection Hc as <-. done.
  - intros [_ Hd]. eexists. split; [done|]. by destruct c.
Qed.

(** Decoding is exactly the inverse of encoding: an [Any] is accepted as a client
    state, or as a consensus state, when its type URL is the right one and its
    bytes are those of a struct that encodes the state, with a latest height that
    is present and not zero; nothing else in it is checked. *)
Theorem wasm_states_decoded_exactly any cs c :
  (WasmClientState_try_from any = Ok cs
   ↔ type_url any = WASM_CLIENT_STATE_TYPE_URL
     ∧ prost_decode (any_value any) = Ok (RawWasmClientState_from cs)
     ∧ revision_height (wcs_latest_height cs) ≠ 0)
  ∧ (WasmConsensusState_try_from any = Ok c
     ↔ type_url any = WASM_CONSENSUS_STATE_TYPE_URL
       ∧ prost_decode (any_value any) = Ok (RawWasmConsensusState_from c)).
Proof. split; [apply wasm_client_state_decoded|apply wasm_consensus_state_decoded]. Qed.

(** Everything the crate encodes is decoded as it was: states as [Any], and the
    messages as generated structs; a base 64 field returns its bytes. *)
Theorem wasm_roundtrip `{Base64, !Base64Laws} cs c (m : WasmClientMessage) store migrate remove b :
  revision_height (wcs_latest_height cs) ≠ 0 → client_ok (mc_client_id migrate) →
  WasmClientState_try_from (WasmClientState_into cs) = Ok cs
  ∧ WasmConsensusState_try_from (WasmConsensusState_into c) = Ok c
  ∧ WasmClientMessage_from (RawWasmClientMessage_from m) = m
  ∧ MsgStoreCode_from (RawMsgStoreCode_from store) = store
  ∧ MsgMigrateContract_try_from (RawMsgMigrateContract_from migrate) = Ok migrate
  ∧ MsgRemoveChecksum_from (RawMsgRemoveChecksum_from remove) = remove
  ∧ Base64_deserialize (Base64_serialize b) = Some b.
Proof.
  intros Hh Hid. split_and!.
  - apply wasm_client_state_decoded. cbn [type_url any_value WasmClientState_into].
    by rewrite prost_roundtrip.
  - apply wasm_consensus_state_decoded. cbn [type_url any_value WasmConsensusState_into].
    by rewrite prost_roundtrip.
  - by destruct m.
  - by destruct store.
  - unfold MsgMigrateContract_try_from. cbn [rmc_client_id RawMsgMigrateContract_from].
    rewrite Hid. by destruct migrate.
  - by destruct remove.
  - apply base64_decode_encode.
Qed.
End theorems.
