(* ===== verification/AckStatus.v ===== *)
(** * Acknowledgement statuses

    [AcknowledgementStatus] of [ics04-channel/types/src/acknowledgement.rs]: what
    the token applications answer to a packet, its JSON text, and how the two
    applications print errors of other crates.  [serde_json] is a parameter
    ([AckJson]). *)

From S2P Require Import Prelude RustStr Identifiers Primitives Path Connection Channel Context.
Local Open Scope string_scope.
Local Open Scope N_scope.

(** [StatusValue] is a text that [new] requires to be non-empty. *)
Record StatusValue := mkStatusValue { status_value : string }.
Inductive AcknowledgementStatus := AckSuccess (v : StatusValue) | AckError (v : StatusValue).

Definition StatusValue_new `{TmTime} (value : string) : outcome PacketError StatusValue :=
  if (value =? "")%string then Err EmptyAcknowledgementStatus else Ok (mkStatusValue value).
Definition is_successful (self : AcknowledgementStatus) : bool :=
  match self with AckSuccess _ => true | AckError _ => false end.
Definition AcknowledgementStatus_to_string (self : AcknowledgementStatus) : string :=
  match self with AckSuccess v | AckError v => status_value v end.

(** A JSON object with one text field, built with [format!]: the text is not
    escaped. *)
Definition QUOTE : ascii := "034"%char.
Definition quoted (s : string) : string := String QUOTE (s ++ String QUOTE "").
Definition ack_text (key : string) (v : StatusValue) : string :=
  "{" ++ quoted key ++ ":" ++ quoted (status_value v) ++ "}".
Definition AcknowledgementStatus_into_vec (ack : AcknowledgementStatus) : bytes :=
  match ack with
  | AckSuccess v => as_bytes (ack_text "result" v)
  | AckError v => as_bytes (ack_text "error" v)
  end.
Definition Acknowledgement_from `{TmTime} {E} (ack_status : AcknowledgementStatus) :
    outcome E Acknowledgement :=
  expect (Acknowledgement_try_from (AcknowledgementStatus_into_vec ack_status)).

(** [core::str::Utf8Error]. *)
Record Utf8Error := mkUtf8Error { valid_up_to : N; error_len : option N }.

(** [serde_json] on acknowledgements, and the [Display] of the errors of other
    crates. *)
Class AckJson := {
  ack_status_from_slice : bytes → option AcknowledgementStatus;
  identifier_error_to_string : IdentifierError → string;
  utf8_error_to_string : Utf8Error → string;
}.

(** The text has no character that JSON has to escape. *)
Definition plain_char (a : ascii) : bool :=
  negb (bool_decide (a = QUOTE)) && negb (bool_decide (a = "\"%char)) && (32 <=? N_of_ascii a).
Fixpoint plain (s : string) : bool :=
  match s with EmptyString => true | String a s => plain_char a && plain s end.

Class AckJsonLaws `{AckJson} := {
  (** a text that needs no escaping stands for itself *)
  ack_status_json ack : plain (AcknowledgementStatus_to_string ack) = true →
    ack_status_from_slice (AcknowledgementStatus_into_vec ack) = Some ack;
  (** the first key of the object decides the variant *)
  ack_status_first_key v ack :
    ack_status_from_slice (AcknowledgementStatus_into_vec (AckError v)) = Some ack →
    is_successful ack = false;
  (** a string literal ends at its first bare quote; what is left is no JSON *)
  ack_status_bare_quote v w : plain v = true → plain w = true →
    ack_status_from_slice
      (AcknowledgementStatus_into_vec (AckError (mkStatusValue (v ++ String QUOTE w)))) = None;
}.

(** Text between backquotes, in the messages of the errors. *)
Definition tick (s : string) : string := "`" ++ s ++ "`".
Definition show_bool (b : bool) : string := if b then "true" else "false".

(** The [expect] of the conversion to an acknowledgement never fails. *)
Lemma Acknowledgement_from_Ok `{TmTime} {E} ack :
  Acknowledgement_from (E:=E) ack = Ok (mkAcknowledgement (AcknowledgementStatus_into_vec ack)).
Proof. by destruct ack. Qed.
