(* ===== verification/Denom.v ===== *)
(** * Token denominations, amounts and coins

    The data of [ibc-apps/ics20-transfer/types/src]: denominations with the trace
    of the channels they came over ([denom.rs]), 256-bit amounts ([amount.rs]),
    coins ([coin.rs]), memos, and the errors of the application ([error.rs]).
    Decimal printing and parsing of [U256] and its checked arithmetic are the crate
    [primitive-types]'s and are parameters ([U256Dec], [U256Arith]), and so are the numeric
    characters beyond ASCII. *)

From S2P Require Import Prelude RustStr Identifiers Primitives Path Connection Channel Context AckStatus.
Local Open Scope string_scope.
Local Open Scope N_scope.
#[local] Notation last := list.last.

(** ** Amounts *)

(** [Amount] wraps a [U256]; its value is kept as a number below [2^256]. *)
Notation Amount := N (only parsing).
Definition U256_SIZE : N := 2 ^ 256.
Definition is_u256 (n : N) : Prop := n < U256_SIZE.
#[export] Instance is_u256_dec n : Decision (is_u256 n).
Proof. unfold is_u256. apply _. Defined.

Inductive FromDecStrErr := InvalidCharacter | InvalidLength.

(** [U256::from_dec_str] and [Display for U256]. *)
Class U256Dec := {
  u256_from_dec_str : string → outcome FromDecStrErr N;
  u256_to_string : N → string;
}.
Class U256DecLaws `{U256Dec} := {
  u256_dec_total s : total (u256_from_dec_str s);
  u256_dec_bound s n : u256_from_dec_str s = Ok n → is_u256 n;
  u256_dec_print n : is_u256 n → u256_from_dec_str (u256_to_string n) = Ok n;
  u256_print_digits n : all_digits (u256_to_string n) = true;
  u256_print_nonempty n : u256_to_string n ≠ "";
}.

(** [U256::checked_add] and [U256::checked_sub]. *)
Class U256Arith := {
  u256_checked_add : N → N → option N;
  u256_checked_sub : N → N → option N;
}.

(** [char::is_numeric] beyond ASCII. *)
Class UnicodeNumeric := { numeric_beyond_ascii : N → bool }.
Definition is_numeric `{UnicodeNumeric} (c : N) : bool :=
  if c <? 128 then (48 <=? c) && (c <=? 57) else numeric_beyond_ascii c.

(** ** Errors *)

Section errors.
Context `{TmTime}.

Inductive TokenTransferError :=
| TTContextError (e : ContextError)
| TTInvalidIdentifier (e : IdentifierError)
| InsufficientFunds (send_attempt available_funds : string)
| DestinationChannelNotFound (port_id : PortId) (channel_id : ChannelId)
| EmptyBaseDenom
| InvalidTracePortId (pos : N) (validation_error : IdentifierError)
| InvalidTraceChannelId (pos : N) (validation_error : IdentifierError)
| InvalidTraceLength (len : N)
| InvalidAmount (e : FromDecStrErr)
| InvalidToken
| ChannelNotUnordered (expect_order got_order : Order)
| CantCloseChannel
| PacketDataDeserialization
| AckDeserialization
| ReceiveDisabled (reason : string)
| SendDisabled (reason : string)
| ParseAccountFailure
| TTInvalidPort (port_id exp_port_id : PortId)
| DecodeRawMsg (reason : string)
| UnknownMsgType (msg_type : string)
| InvalidCoin (coin : string)
| TTUtf8Decode (e : Utf8Error)
| TTOther (reason : string).

(** The conversions [?] inserts. *)
Definition err_context {A} : outcome ContextError A → outcome TokenTransferError A :=
  map_err TTContextError.
Definition err_identifier {A} : outcome IdentifierError A → outcome TokenTransferError A :=
  map_err TTInvalidIdentifier.
End errors.

(** ** [Amount] *)

Section amount.
Context `{TmTime, U256Dec}.

Definition Amount_from_str (s : string) : outcome TokenTransferError Amount :=
  map_err InvalidAmount (u256_from_dec_str s).
Definition Amount_to_string (a : Amount) : string := u256_to_string a.
Definition Amount_from_u64 (v : N) : Amount := v.
End amount.

(** The arithmetic of amounts is that of [U256]. *)
Section arithmetic.
Context `{U256Arith}.
Definition Amount_checked_add (self rhs : Amount) : option Amount := u256_checked_add self rhs.
Definition Amount_checked_sub (self rhs : Amount) : option Amount := u256_checked_sub self rhs.
End arithmetic.

(** [Deref] to the four words, least significant first, and back. *)
Definition Amount_words (a : Amount) : list N :=
  [a mod U64_SIZE; (a / U64_SIZE) mod U64_SIZE; (a / U64_SIZE ^ 2) mod U64_SIZE;
   (a / U64_SIZE ^ 3) mod U64_SIZE].
Fixpoint Amount_from_words (words : list N) : Amount :=
  match words with
  | [] => 0
  | w :: words => w + U64_SIZE * Amount_from_words words
  end.

(** [BorshSerialize]: the words in this order, each big-endian. *)
Definition Amount_serialize (a : Amount) : bytes := mbind (M:=list) to_be_bytes (Amount_words a).

(** [slice.chunks_exact(k)]; the length of the slice is enough fuel when [k] is not
    zero. *)
Fixpoint chunks_exact {A} (fuel k : nat) (l : list A) : list (list A) :=
  match fuel with
  | O => []
  | S fuel =>
    if (length l <? k)%nat then [] else take k l :: chunks_exact fuel k (drop k l)
  end.

(** [BorshDeserialize] from a reader over a slice: [read] fills at most 32 bytes;
    the error carries the number of bytes read. *)
Definition Amount_deserialize_reader (reader : bytes) : outcome N Amount :=
  let buf := take 32 reader in
  let bytes_read := length buf in
  fail_if (negb (bytes_read =? 32)%nat) (N.of_nat bytes_read);;
  let words := be_value <$> chunks_exact (length buf) 8 buf in
  if (length words =? 4)%nat then Ok (Amount_from_words words) else Panic.

(** ** Denominations *)

Record BaseDenom := mkBaseDenom { base_denom_str : string }.
Record TracePrefix := mkTracePrefix { prefix_port_id : PortId; prefix_channel_id : ChannelId }.
(** The prefixes from the innermost to the outermost: the last one was added
    last. *)
Record TracePath := mkTracePath { trace_prefixes : list TracePrefix }.
Record PrefixedDenom := mkPrefixedDenom { trace_path : TracePath; base_denom : BaseDenom }.

#[export] Instance BaseDenom_eq_dec : EqDecision BaseDenom.
Proof. solve_decision. Defined.
#[export] Instance TracePrefix_eq_dec : EqDecision TracePrefix.
Proof. solve_decision. Defined.
#[export] Instance TracePath_eq_dec : EqDecision TracePath.
Proof. solve_decision. Defined.
#[export] Instance PrefixedDenom_eq_dec : EqDecision PrefixedDenom.
Proof. solve_decision. Defined.

Definition TracePrefix_to_string (p : TracePrefix) : string :=
  port_id_str (prefix_port_id p) ++ "/" ++ channel_id_str (prefix_channel_id p).

Definition TracePath_starts_with (self : TracePath) (prefix : TracePrefix) : bool :=
  match last (trace_prefixes self) with Some p => bool_decide (p = prefix) | None => false end.
(** [Vec::pop]. *)
Definition pop {A} (l : list A) : list A := take (length l - 1) l.
Definition TracePath_remove_prefix (self : TracePath) (prefix : TracePrefix) : TracePath :=
  if TracePath_starts_with self prefix then mkTracePath (pop (trace_prefixes self)) else self.
Definition TracePath_add_prefix (self : TracePath) (prefix : TracePrefix) : TracePath :=
  mkTracePath (trace_prefixes self ++ [prefix])%list.
Definition TracePath_is_empty (self : TracePath) : bool :=
  match trace_prefixes self with [] => true | _ => false end.
Definition TracePath_empty : TracePath := mkTracePath [].

Definition TracePath_to_string (self : TracePath) : string :=
  join_slash (TracePrefix_to_string <$> reverse (trace_prefixes self)).

Section denom.
Context `{TmTime, Unicode}.

Definition BaseDenom_from_str (s : string) : outcome TokenTransferError BaseDenom :=
  if (trim s =? "")%string then Err EmptyBaseDenom else Ok (mkBaseDenom s).

(** [v.chunks_exact(2).map(|paths| (paths[0], paths[1]))]. *)
Fixpoint id_pairs (v : list string) : list (string * string) :=
  match v with
  | port_id :: channel_id :: v => (port_id, channel_id) :: id_pairs v
  | _ => []
  end.

(** The loop over the pairs, [pos] from [enumerate]. *)
Fixpoint parse_prefixes (pos : N) (pairs : list (string * string)) :
    outcome TokenTransferError (list TracePrefix) :=
  match pairs with
  | [] => Ok []
  | (port_id, channel_id) :: pairs =>
    port_id ← map_err (InvalidTracePortId pos) (PortId_from_str port_id);
    channel_id ← map_err (InvalidTraceChannelId pos) (ChannelId_from_str channel_id);
    trace ← parse_prefixes (pos + 1) pairs;
    Ok (mkTracePrefix port_id channel_id :: trace)
  end.

Definition TracePath_try_from (v : list string) : outcome TokenTransferError TracePath :=
  fail_if (negb (length v mod 2 =? 0)%nat) (InvalidTraceLength (N.of_nat (length v)));;
  trace ← parse_prefixes 0 (reverse (id_pairs v));
  Ok (mkTracePath trace).

Definition TracePath_from_str (s : string) : outcome TokenTransferError TracePath :=
  let parts := split SLASH s in
  let parts := match parts with
               | [part] => if (trim part =? "")%string then [] else parts
               | _ => parts
               end in
  TracePath_try_from parts.

Definition remove_trace_prefix (self : PrefixedDenom) (prefix : TracePrefix) : PrefixedDenom :=
  mkPrefixedDenom (TracePath_remove_prefix (trace_path self) prefix) (base_denom self).
Definition add_trace_prefix (self : PrefixedDenom) (prefix : TracePrefix) : PrefixedDenom :=
  mkPrefixedDenom (TracePath_add_prefix (trace_path self) prefix) (base_denom self).

Definition is_receiver_chain_source (source_port : PortId) (source_channel : ChannelId)
    (denom : PrefixedDenom) : bool :=
  TracePath_starts_with (trace_path denom) (mkTracePrefix source_port source_channel).
Definition is_sender_chain_source (source_port : PortId) (source_channel : ChannelId)
    (denom : PrefixedDenom) : bool :=
  negb (is_receiver_chain_source source_port source_channel denom).

Definition PrefixedDenom_from_str (s : string) : outcome TokenTransferError PrefixedDenom :=
  let parts := split SLASH s in
  last_part ← match last parts with Some p => Ok p | None => Panic end;
  let parts := pop parts in
  if (last_part =? s)%string then
    base_denom ← BaseDenom_from_str s;
    Ok (mkPrefixedDenom TracePath_empty base_denom)
  else
    base_denom ← BaseDenom_from_str last_part;
    trace_path ← TracePath_try_from parts;
    Ok (mkPrefixedDenom trace_path base_denom).

Definition PrefixedDenom_from_base (denom : BaseDenom) : PrefixedDenom :=
  mkPrefixedDenom TracePath_empty denom.

Definition PrefixedDenom_to_string (self : PrefixedDenom) : string :=
  if TracePath_is_empty (trace_path self) then base_denom_str (base_denom self)
  else TracePath_to_string (trace_path self) ++ "/" ++ base_denom_str (base_denom self).

(** The protobuf message [DenomTrace]. *)
Record RawDenomTrace := mkRawDenomTrace { raw_path : string; raw_base_denom : string }.
Definition PrefixedDenom_try_from (value : RawDenomTrace) :
    outcome TokenTransferError PrefixedDenom :=
  base_denom ← BaseDenom_from_str (raw_base_denom value);
  trace_path ← TracePath_from_str (raw_path value);
  Ok (mkPrefixedDenom trace_path base_denom).
Definition RawDenomTrace_from (value : PrefixedDenom) : RawDenomTrace :=
  mkRawDenomTrace (TracePath_to_string (trace_path value)) (base_denom_str (base_denom value)).
End denom.

(** ** Coins *)

Record Coin (D : Type) := mkCoin { denom : D; amount : Amount }.
Arguments mkCoin {D} denom amount.
Arguments denom {D} c.
Arguments amount {D} c.
#[export] Instance Coin_eq_dec `{EqDecision D} : EqDecision (Coin D).
Proof. solve_decision. Defined.
Notation PrefixedCoin := (Coin PrefixedDenom).
Notation BaseCoin := (Coin BaseDenom).
Notation RawCoin := (Coin string).

Definition VALID_DENOM_CHARACTERS : string := "/:._-".

(** [str::is_char_boundary] and [str::split_at], which panics off a boundary. *)
Definition is_char_boundary (s : string) (index : nat) : bool :=
  (index =? 0)%nat ||
  match String.get index s with
  | Some a => negb (is_cont a)
  | None => (index =? String.length s)%nat
  end.
Definition split_at {E} (s : string) (mid : nat) : outcome E (string * string) :=
  if is_char_boundary s mid
  then Ok (String.substring 0 mid s, String.substring mid (String.length s - mid) s) else Panic.

(** [Iterator::position]. *)
Fixpoint position {A} (p : A → bool) (l : list A) : option nat :=
  match l with
  | [] => None
  | x :: l => if p x then Some O else S <$> position p l
  end.

(** The protobuf message [Coin]. *)
Record ProtoCoin := mkProtoCoin { proto_denom : string; proto_amount : string }.

Section coin.
Context `{TmTime, Unicode, UnicodeNumeric, U256Dec}.
(** [D: FromStr] with its error converted, and [D: Display]. *)
Context {D : Type} (denom_from_str : string → outcome TokenTransferError D)
        (denom_to_string : D → string).

Definition valid_denom_char (x : N) : bool :=
  is_alphanumeric x || existsb (N.eqb x) (chars VALID_DENOM_CHARACTERS).

Definition Coin_from_str (coin_str : string) : outcome TokenTransferError (Coin D) :=
  parts ← match position (λ x, negb (is_numeric x)) (chars coin_str) with
          | Some index => Some <$> split_at coin_str index
          | None => Ok None
          end;
  let parts := '(amount, denom) ← parts;
    if (amount =? "")%string then None else Some (amount, denom) in
  let parts := '(amount, denom) ← parts;
    if forallb valid_denom_char (chars denom) then Some (amount, denom) else None in
  '(amount, denom) ← ok_or parts (InvalidCoin coin_str);
  amount ← Amount_from_str amount;
  denom ← denom_from_str denom;
  Ok (mkCoin denom amount).

Definition Coin_from_string_list (coin_str : string) : outcome TokenTransferError (list (Coin D)) :=
  mapM Coin_from_str (split ","%char coin_str).

Definition Coin_try_from (proto : ProtoCoin) : outcome TokenTransferError (Coin D) :=
  denom ← denom_from_str (proto_denom proto);
  amount ← Amount_from_str (proto_amount proto);
  Ok (mkCoin denom amount).
Definition ProtoCoin_from (coin : Coin D) : ProtoCoin :=
  mkProtoCoin (denom_to_string (denom coin)) (Amount_to_string (amount coin)).
Definition Coin_to_string (coin : Coin D) : string :=
  Amount_to_string (amount coin) ++ denom_to_string (denom coin).
End coin.

Definition PrefixedCoin_from_base (coin : BaseCoin) : PrefixedCoin :=
  mkCoin (PrefixedDenom_from_base (denom coin)) (amount coin).

(** [Memo] is any string. *)
Record Memo := mkMemo { memo_str : string }.
#[export] Instance Memo_eq_dec : EqDecision Memo.
Proof. solve_decision. Defined.
Definition Memo_from_str {E} (memo : string) : outcome E Memo := Ok (mkMemo memo).

(** ** Lemmas on amounts *)

Lemma U256_SIZE_words : U256_SIZE = U64_SIZE ^ 4.
Proof. reflexivity. Qed.

Lemma Amount_words_u64 a : Forall is_u64 (Amount_words a).
Proof. unfold is_u64. repeat constructor; apply N.mod_lt; done. Qed.

Lemma Amount_words_value a : is_u256 a → Amount_from_words (Amount_words a) = a.
Proof.
  unfold is_u256, Amount_words, Amount_from_words. rewrite U256_SIZE_words. intros Ha.
  assert (U64_SIZE ≠ 0) as Hu by done. revert Ha Hu. generalize U64_SIZE. intros u Ha Hu.
  assert (u ^ 3 = u * (u * u)) as E3 by (change 3 with (N.succ 2); by rewrite N.pow_succ_r', N.pow_2_r).
  assert (u ^ 4 = u * (u * u) * u) as E4.
  { change 4 with (N.succ 3). rewrite N.pow_succ_r', E3. lia. }
  rewrite N.mul_0_r, N.add_0_r, N.pow_2_r, E3. rewrite E4 in Ha.
  rewrite (N.mod_small (a / (u * (u * u)))) by (by apply N.Div0.div_lt_upper_bound).
  rewrite <- !N.Div0.div_div.
  pose proof (N.div_mod a u Hu). pose proof (N.div_mod (a / u) u Hu).
  pose proof (N.div_mod (a / u / u) u Hu). nia.
Qed.

Lemma length_Amount_serialize a : length (Amount_serialize a) = 32%nat.
Proof. reflexivity. Qed.

(** Chunks of eight bytes are the words they were written from. *)
Lemma chunks_exact_words (ws : list N) fuel :
  (length (mbind (M:=list) to_be_bytes ws) ≤ fuel)%nat →
  chunks_exact fuel 8 (mbind (M:=list) to_be_bytes ws) = to_be_bytes <$> ws.
Proof.
  revert fuel. induction ws as [|w ws IH]; intros fuel; [by destruct fuel|].
  change (mbind (M:=list) to_be_bytes (w :: ws))
    with (to_be_bytes w ++ mbind (M:=list) to_be_bytes ws)%list.
  intros Hf. pose proof (length_to_be_bytes w) as Hl. rewrite length_app, Hl in Hf.
  destruct fuel as [|fuel]; [lia|]. cbn [chunks_exact]. rewrite length_app, Hl.
  rewrite (proj2 (Nat.ltb_ge _ _)) by lia. rewrite take_app_length' by done.
  rewrite drop_app_length' by done. cbn [fmap list_fmap]. f_equal. apply IH. lia.
Qed.

Lemma be_value_words (ws : list N) :
  Forall is_u64 ws → be_value <$> (to_be_bytes <$> ws) = ws.
Proof.
  intros Hw. rewrite <- list_fmap_compose. rewrite <- (list_fmap_id ws) at 2.
  apply Forall_fmap_ext_1. eapply Forall_impl; [|exact Hw]. intros w Hu.
  unfold compose, id, to_be_bytes. rewrite be_value_be_bytes. by apply N.mod_small.
Qed.

Lemma amount_read_back (a : Amount) (rest : bytes) :
  is_u256 a → Amount_deserialize_reader (Amount_serialize a ++ rest)%list = Ok a.
Proof.
  intros Ha. unfold Amount_deserialize_reader.
  rewrite take_app_length' by done. rewrite length_Amount_serialize. cbn [Nat.eqb negb fail_if].
  mstep. unfold Amount_serialize at 1 2. rewrite chunks_exact_words by done.
  rewrite be_value_words by apply Amount_words_u64. cbn [length Amount_words Nat.eqb].
  f_equal. by apply Amount_words_value.
Qed.

(** Four words are the words of the amount they make. *)
Lemma Amount_from_words_words w0 w1 w2 w3 :
  Forall is_u64 [w0; w1; w2; w3] →
  is_u256 (Amount_from_words [w0; w1; w2; w3])
  ∧ Amount_words (Amount_from_words [w0; w1; w2; w3]) = [w0; w1; w2; w3].
Proof.
  unfold is_u64, is_u256. rewrite U256_SIZE_words, !Forall_cons_iff. intros (H0 & H1 & H2 & H3 & _).
  unfold Amount_words. cbn [Amount_from_words]. rewrite N.mul_0_r, N.add_0_r.
  assert (U64_SIZE ≠ 0) as Hu by done. revert H0 H1 H2 H3 Hu. generalize U64_SIZE. intros u H0 H1 H2 H3 Hu.
  assert (u ^ 3 = u * (u * u)) as E3 by (change 3 with (N.succ 2); by rewrite N.pow_succ_r', N.pow_2_r).
  assert (u ^ 4 = u * (u * (u * u))) as E4 by (change 4 with (N.succ 3); by rewrite N.pow_succ_r', E3).
  assert (∀ w x, w < u → (w + u * x) mod u = w ∧ (w + u * x) / u = x) as Hw.
  { intros w x Hx. rewrite (N.mul_comm u x). rewrite N.Div0.mod_add, N.div_add by done.
    by rewrite N.mod_small, N.div_small. }
  split; [rewrite E4; nia|]. rewrite N.pow_2_r, E3, <- !N.Div0.div_div.
  rewrite !(λ x, proj2 (Hw w0 x H0)), !(λ x, proj2 (Hw w1 x H1)), !(λ x, proj2 (Hw w2 x H2)).
  rewrite (N.mod_small w3) by done. repeat f_equal; by apply Hw.
Qed.

Lemma amount_of_bytes (l : bytes) :
  length l = 32%nat → ∃ a, is_u256 a ∧ Amount_serialize a = l.
Proof.
  intros Hl.
  assert (∃ l0 l1 l2 l3, l = (l0 ++ l1 ++ l2 ++ l3)%list ∧ length l0 = 8%nat ∧ length l1 = 8%nat
    ∧ length l2 = 8%nat ∧ length l3 = 8%nat) as (l0 & l1 & l2 & l3 & -> & E0 & E1 & E2 & E3).
  { exists (take 8 l), (take 8 (drop 8 l)), (take 8 (drop 16 l)), (drop 24 l).
    rewrite !length_take, !length_drop. split_and!; try lia.
    rewrite <- (take_drop 8 l) at 1. f_equal. rewrite <- (take_drop 8 (drop 8 l)) at 1. f_equal.
    rewrite drop_drop. rewrite <- (take_drop 8 (drop _ l)) at 1. by rewrite drop_drop. }
  assert (∀ k : bytes, length k = 8%nat → is_u64 (be_value k)) as Hb.
  { intros k Hk. pose proof (be_value_lt k) as Hlt. by rewrite Hk in Hlt. }
  destruct (Amount_from_words_words (be_value l0) (be_value l1) (be_value l2) (be_value l3)) as [Ha Ew].
  { repeat constructor; by apply Hb. }
  eexists. split; [exact Ha|]. unfold Amount_serialize. rewrite Ew. cbn [mbind list_bind].
  rewrite !to_be_bytes_be_value by done. by rewrite app_nil_r.
Qed.

(** ** Theorems on amounts *)

(** C37: The borsh encoding of amounts is a bijection with the strings of 32 bytes: an amount is
    written as 32 bytes, which are read back whatever follows; 32 bytes or more are read as an
    amount below 2^256 whose encoding the first 32 are; and a shorter input is an error with the
    number of bytes read, never a panic. *)
Theorem amount_borsh_roundtrip (a : Amount) (rest reader : bytes) :
  is_u256 a →
  length (Amount_serialize a) = 32%nat
  ∧ Amount_deserialize_reader (Amount_serialize a ++ rest)%list = Ok a
  ∧ if (length reader <? 32)%nat
    then Amount_deserialize_reader reader = Err (N.of_nat (length reader))
    else ∃ b, is_u256 b ∧ Amount_deserialize_reader reader = Ok b
           ∧ Amount_serialize b = take 32 reader.
Proof.
  intros Ha. split_and!; [done|by apply amount_read_back|].
  destruct (Nat.ltb_spec (length reader) 32) as [Hs|Hl].
  - unfold Amount_deserialize_reader. rewrite take_ge by lia.
    destruct (Nat.eqb_spec (length reader) 32); [lia|done].
  - destruct (amount_of_bytes (take 32 reader)) as (b & Hb & Eb); [by rewrite length_take; lia|].
    exists b. split_and!; [done| |done].
    rewrite <- (take_drop 32 reader) at 1. rewrite <- Eb. by apply amount_read_back.
Qed.

(** ** Lemmas on denominations *)

Section denom_lemmas.
Context `{TmTime, Unicode}.

Lemma pop_snoc {A} (l : list A) x : pop (l ++ [x]) = l.
Proof. unfold pop. rewrite length_app. cbn. by rewrite Nat.add_sub, take_app_length. Qed.

(** A trace as its identifiers, the outermost first. *)
Definition trace_parts (l : list TracePrefix) : list string :=
  mbind (M:=list) (λ p, [port_id_str (prefix_port_id p); channel_id_str (prefix_channel_id p)])
    (reverse l).

Lemma join_trace_parts (l : list TracePrefix) :
  join_slash (mbind (M:=list)
    (λ p, [port_id_str (prefix_port_id p); channel_id_str (prefix_channel_id p)]) l) =
  join_slash (TracePrefix_to_string <$> l).
Proof.
  induction l as [|p l IH]; [done|]. destruct l as [|q l]; [done|].
  change (join_slash ([port_id_str (prefix_port_id p); channel_id_str (prefix_channel_id p)] ++
    mbind (M:=list) (λ p, [port_id_str (prefix_port_id p); channel_id_str (prefix_channel_id p)])
      (q :: l)) = join_slash ([TracePrefix_to_string p] ++ (TracePrefix_to_string <$> q :: l))).
  rewrite !join_slash_app by done. by rewrite IH.
Qed.

Lemma TracePath_to_string_parts t :
  TracePath_to_string t = join_slash (trace_parts (trace_prefixes t)).
Proof. unfold TracePath_to_string, trace_parts. by rewrite join_trace_parts. Qed.

Lemma PrefixedDenom_to_string_parts d :
  PrefixedDenom_to_string d =
  join_slash (trace_parts (trace_prefixes (trace_path d)) ++ [base_denom_str (base_denom d)])%list.
Proof.
  unfold PrefixedDenom_to_string. rewrite TracePath_to_string_parts.
  destruct d as [[l] b]. cbn [trace_prefixes trace_path base_denom].
  destruct l as [|p l] using rev_ind; [done|]. clear IHl.
  unfold TracePath_is_empty, trace_parts. cbn [trace_prefixes]. rewrite reverse_snoc.
  destruct (l ++ [p])%list eqn:E; [by destruct l|]. clear E. by rewrite join_slash_app by done.
Qed.

(** The prefixes of a trace are valid identifiers. *)
Definition prefix_ok (p : TracePrefix) : Prop :=
  port_ok (prefix_port_id p) ∧ channel_ok (prefix_channel_id p).

Lemma trace_parts_no_slash l :
  Forall prefix_ok l → Forall (λ p, contains SLASH p = false) (trace_parts l).
Proof.
  intros Hl. unfold trace_parts. apply Forall_bind. apply Forall_reverse.
  eapply Forall_impl; [|exact Hl]. intros p [Hp Hc].
  repeat constructor; [by apply port_ok_no_slash|by apply channel_ok_no_slash].
Qed.

Lemma id_pairs_parts (l : list TracePrefix) :
  id_pairs (mbind (M:=list)
    (λ p, [port_id_str (prefix_port_id p); channel_id_str (prefix_channel_id p)]) l) =
  (λ p, (port_id_str (prefix_port_id p), channel_id_str (prefix_channel_id p))) <$> l.
Proof. induction l as [|p l IH]; [done|]. cbn. by f_equal. Qed.

Lemma parse_prefixes_parts (l : list TracePrefix) pos :
  Forall prefix_ok l →
  parse_prefixes pos
    ((λ p, (port_id_str (prefix_port_id p), channel_id_str (prefix_channel_id p))) <$> l) = Ok l.
Proof.
  intros Hl. revert pos. induction Hl as [|p l [Hp Hc] Hl IH]; intros pos; [done|].
  cbn. rewrite Hp. mstep. rewrite Hc. mstep. rewrite IH. by destruct p.
Qed.

Lemma length_trace_parts l : (length (trace_parts l) = 2 * length l)%nat.
Proof.
  unfold trace_parts. rewrite <- (length_reverse l). induction (reverse l) as [|p k IH]; [done|].
  cbn in *. lia.
Qed.

Lemma TracePath_try_from_parts t :
  Forall prefix_ok (trace_prefixes t) →
  TracePath_try_from (trace_parts (trace_prefixes t)) = Ok t.
Proof.
  intros Ht. unfold TracePath_try_from. rewrite length_trace_parts.
  rewrite Nat.mul_comm, Nat.Div0.mod_mul. cbn [Nat.eqb negb fail_if]. mstep.
  unfold trace_parts at 1. rewrite id_pairs_parts, <- fmap_reverse, reverse_involutive.
  rewrite parse_prefixes_parts by done. by destruct t.
Qed.

Lemma parse_prefixes_Ok pairs pos l :
  parse_prefixes pos pairs = Ok l →
  Forall prefix_ok l
  ∧ pairs = (λ p, (port_id_str (prefix_port_id p), channel_id_str (prefix_channel_id p))) <$> l.
Proof.
  revert pos l. induction pairs as [|[port chan] pairs IH]; intros pos l; cbn [parse_prefixes].
  { intros [= <-]. by split. }
  intros Hp. inv_ok.
  match goal with H : parse_prefixes _ _ = _ |- _ => apply IH in H as [Hl ->] end.
  match goal with H : PortId_from_str _ = _ |- _ =>
    pose proof (PortId_parsed _ _ H); apply fmap_Ok in H as (? & _ & ->) end.
  match goal with H : ChannelId_from_str _ = _ |- _ =>
    pose proof (ChannelId_parsed _ _ H); apply fmap_Ok in H as (? & _ & ->) end.
  split; [|done]. by constructor.
Qed.

Lemma id_pairs_flat v :
  (length v mod 2 = 0)%nat → mbind (M:=list) (λ p, [p.1; p.2]) (id_pairs v) = v.
Proof.
  remember (length v) as n eqn:Hn. revert v Hn.
  induction n as [n IH] using lt_wf_ind; intros v -> Hm.
  destruct v as [|p [|c v]]; [done|done|]. cbn. do 2 f_equal. eapply IH; [|done|].
  - cbn. lia.
  - cbn [length] in Hm. etrans; [|exact Hm].
    replace (S (S (length v))) with (length v + 1 * 2)%nat by lia.
    by rewrite Nat.Div0.mod_add.
Qed.

Lemma TracePath_try_from_Ok v t :
  TracePath_try_from v = Ok t →
  Forall prefix_ok (trace_prefixes t) ∧ trace_parts (trace_prefixes t) = v.
Proof.
  unfold TracePath_try_from. intros Ht. inv_ok. cbn.
  match goal with H : parse_prefixes _ _ = _ |- _ => apply parse_prefixes_Ok in H as [Hl Hp] end.
  split; [done|]. rewrite negb_false_iff, Nat.eqb_eq in *. unfold trace_parts.
  match goal with H : (_ mod 2 = 0)%nat |- _ => rewrite <- (id_pairs_flat v H) end.
  rewrite <- (reverse_involutive (id_pairs v)), Hp, <- fmap_reverse.
  rewrite list_fmap_bind. done.
Qed.

Lemma parse_prefixes_total pairs pos : total (parse_prefixes pos pairs).
Proof.
  revert pos. induction pairs as [|[port chan] pairs IH]; intros pos; cbn [parse_prefixes]; [done|].
  pose proof (ids_from_str_total port). pose proof (ids_from_str_total chan). destruct_and!.
  solve_total; done.
Qed.
End denom_lemmas.

Section denom_theorems.
Context `{TmTime, Unicode}.

(** A denomination that can be told from its text: valid prefixes, and a base
    denomination that is not blank and has no slash. *)
Definition denom_wf (d : PrefixedDenom) : Prop :=
  Forall prefix_ok (trace_prefixes (trace_path d))
  ∧ trim (base_denom_str (base_denom d)) ≠ ""
  ∧ contains SLASH (base_denom_str (base_denom d)) = false.

Lemma BaseDenom_from_str_Ok s b :
  BaseDenom_from_str s = Ok b ↔ trim s ≠ "" ∧ b = mkBaseDenom s.
Proof.
  unfold BaseDenom_from_str. destruct (String.eqb_spec (trim s) ""); naive_solver.
Qed.

(** The case split of the parser is one computation: without a slash there is no
    trace. *)
Lemma PrefixedDenom_from_str_eq s parts last_part :
  split SLASH s = (parts ++ [last_part])%list →
  PrefixedDenom_from_str s =
  (base_denom ← BaseDenom_from_str last_part;
   trace_path ← TracePath_try_from parts;
   Ok (mkPrefixedDenom trace_path base_denom)).
Proof.
  intros Hs. unfold PrefixedDenom_from_str. rewrite Hs, last_snoc, pop_snoc. mstep.
  destruct (String.eqb_spec last_part s) as [->|]; [|done].
  assert (contains SLASH s = false) as Hn.
  { pose proof (split_parts s) as Hp. rewrite Hs, Forall_app in Hp. destruct Hp as [_ Hp].
    by inversion Hp. }
  rewrite (split_none _ _ Hn) in Hs. by destruct parts as [|? []]; simplify_eq/=.
Qed.

Lemma split_snoc s : ∃ parts last_part, split SLASH s = (parts ++ [last_part])%list.
Proof.
  pose proof (split_nil SLASH s) as Hn. destruct (split SLASH s) using rev_ind; [done|]. eauto.
Qed.

Lemma PrefixedDenom_from_str_print d :
  denom_wf d → PrefixedDenom_from_str (PrefixedDenom_to_string d) = Ok d.
Proof.
  intros (Ht & Hb & Hn). rewrite PrefixedDenom_to_string_parts.
  rewrite (PrefixedDenom_from_str_eq _
    (trace_parts (trace_prefixes (trace_path d))) (base_denom_str (base_denom d))).
  2: { apply split_join; [by destruct (trace_parts _)|].
       apply Forall_app. split; [by apply trace_parts_no_slash|by constructor]. }
  rewrite (proj2 (BaseDenom_from_str_Ok _ _) (conj Hb eq_refl)). mstep.
  rewrite TracePath_try_from_parts by done. by destruct d as [? []].
Qed.

Lemma PrefixedDenom_from_str_Ok s d :
  PrefixedDenom_from_str s = Ok d → denom_wf d ∧ PrefixedDenom_to_string d = s.
Proof.
  destruct (split_snoc s) as (parts & last_part & Hs).
  rewrite (PrefixedDenom_from_str_eq _ _ _ Hs). intros Hd. inv_ok.
  match goal with H : BaseDenom_from_str _ = _ |- _ => apply BaseDenom_from_str_Ok in H as [Hb ->] end.
  match goal with H : TracePath_try_from _ = _ |- _ => apply TracePath_try_from_Ok in H as [Ht Hp] end.
  rewrite PrefixedDenom_to_string_parts. cbn. rewrite Hp, <- Hs, join_split. split; [|done].
  split_and!; [done..|]. pose proof (split_parts s) as Hf. rewrite Hs, Forall_app in Hf.
  destruct Hf as [_ Hf]. by inversion Hf.
Qed.

Lemma PrefixedDenom_from_str_total s : total (PrefixedDenom_from_str s).
Proof.
  destruct (split_snoc s) as (parts & last_part & Hs).
  rewrite (PrefixedDenom_from_str_eq _ _ _ Hs). unfold BaseDenom_from_str, TracePath_try_from.
  pose proof parse_prefixes_total. solve_total; done.
Qed.

(** Parsing a denomination inverts printing it: a text is accepted exactly when it
    is the text of a well-formed denomination, which is the one returned.  So two
    well-formed denominations never share a text, and the parser does not panic. *)
Theorem denom_display_parse_roundtrip s d :
  (PrefixedDenom_from_str s = Ok d ↔ denom_wf d ∧ PrefixedDenom_to_string d = s)
  ∧ total (PrefixedDenom_from_str s).
Proof.
  split; [split|apply PrefixedDenom_from_str_total].
  - apply PrefixedDenom_from_str_Ok.
  - intros [Hd <-]. by apply PrefixedDenom_from_str_print.
Qed.

(** The protobuf form keeps trace and base apart, so it is decoded back even when
    the base has slashes. *)
Theorem denom_trace_raw_roundtrip d :
  Forall prefix_ok (trace_prefixes (trace_path d)) → trim (base_denom_str (base_denom d)) ≠ "" →
  PrefixedDenom_try_from (RawDenomTrace_from d) = Ok d.
Proof.
  intros Ht Hb. unfold PrefixedDenom_try_from, RawDenomTrace_from. cbn [raw_base_denom raw_path].
  rewrite (proj2 (BaseDenom_from_str_Ok _ _) (conj Hb eq_refl)). mstep.
  assert (TracePath_from_str (TracePath_to_string (trace_path d)) = Ok (trace_path d)) as ->.
  { unfold TracePath_from_str. rewrite TracePath_to_string_parts.
    destruct (trace_parts (trace_prefixes (trace_path d))) as [|p parts] eqn:E.
    - pose proof (length_trace_parts (trace_prefixes (trace_path d))) as Hl. rewrite E in Hl.
      destruct d as [[[]] b]; [done|]. cbn in Hl. lia.
    - rewrite split_join; [|done|rewrite <- E; by apply trace_parts_no_slash].
      destruct parts as [|q parts].
      { pose proof (length_trace_parts (trace_prefixes (trace_path d))) as Hl.
        rewrite E in Hl. cbn in Hl. lia. }
      rewrite <- E. by apply TracePath_try_from_parts. }
  by destruct d as [? []].
Qed.

Lemma remove_add_trace_prefix d prefix :
  remove_trace_prefix (add_trace_prefix d prefix) prefix = d.
Proof.
  destruct d as [[l] b].
  unfold remove_trace_prefix, add_trace_prefix, TracePath_remove_prefix, TracePath_add_prefix,
    TracePath_starts_with. cbn [trace_path trace_prefixes base_denom].
  by rewrite last_snoc, bool_decide_eq_true_2, pop_snoc.
Qed.

Lemma receiver_source_add_prefix d p c :
  is_receiver_chain_source p c (add_trace_prefix d (mkTracePrefix p c)) = true.
Proof.
  unfold is_receiver_chain_source, TracePath_starts_with. cbn. rewrite last_snoc.
  by apply bool_decide_eq_true.
Qed.

Lemma add_remove_trace_prefix d p c :
  is_receiver_chain_source p c d = true →
  add_trace_prefix (remove_trace_prefix d (mkTracePrefix p c)) (mkTracePrefix p c) = d.
Proof.
  destruct d as [[l] b].
  unfold is_receiver_chain_source, remove_trace_prefix, add_trace_prefix, TracePath_remove_prefix,
    TracePath_add_prefix, TracePath_starts_with. cbn [trace_path trace_prefixes base_denom].
  destruct l as [|q l _] using rev_ind; [done|]. rewrite last_snoc.
  intros [= ->]%bool_decide_eq_true. by rewrite bool_decide_eq_true_2, pop_snoc.
Qed.

(** Prefixes are a stack: removing undoes adding and adding undoes removing a
    prefix that is there; removing another prefix changes nothing. *)
Theorem denom_prefix_inverse d prefix :
  remove_trace_prefix (add_trace_prefix d prefix) prefix = d
  ∧ is_receiver_chain_source (prefix_port_id prefix) (prefix_channel_id prefix)
      (add_trace_prefix d prefix) = true
  ∧ (if is_receiver_chain_source (prefix_port_id prefix) (prefix_channel_id prefix) d
     then add_trace_prefix (remove_trace_prefix d prefix) prefix = d
     else remove_trace_prefix d prefix = d).
Proof.
  split_and!; [apply remove_add_trace_prefix|destruct prefix; apply receiver_source_add_prefix|].
  destruct prefix as [p c]. cbn [prefix_port_id prefix_channel_id].
  destruct (is_receiver_chain_source p c d) eqn:E; [by apply add_remove_trace_prefix|].
  unfold is_receiver_chain_source in E. unfold remove_trace_prefix, TracePath_remove_prefix.
  rewrite E. by destruct d.
Qed.

(** [BaseDenom] accepts slashes, so two denominations that the protobuf form tells
    apart print the same text, which is what packets carry. *)
Theorem denom_display_ambiguous :
  ∃ raw1 raw2 d1 d2, PrefixedDenom_try_from raw1 = Ok d1 ∧ PrefixedDenom_try_from raw2 = Ok d2
    ∧ d1 ≠ d2 ∧ PrefixedDenom_to_string d1 = PrefixedDenom_to_string d2.
Proof.
  exists (mkRawDenomTrace "transfer/channel-0" "uatom"), (mkRawDenomTrace "" "transfer/channel-0/uatom").
  eexists _, _. by split_and!; [vm_compute; reflexivity..| |].
Qed.
End denom_theorems.

(** ** Coins *)

Section coin_theorems.
Context `{TmTime, Unicode, UnicodeNumeric, U256Dec, !U256DecLaws}.
Context {D : Type} (denom_from_str : string → outcome TokenTransferError D)
        (denom_to_string : D → string).

Lemma position_digits s l :
  all_digits s = true →
  position (λ x, negb (is_numeric x)) (chars s ++ l)%list =
  Nat.add (String.length s) <$> position (λ x, negb (is_numeric x)) l.
Proof.
  induction s as [|a s IH]; cbn [all_digits]; intros Hs.
  { change (chars "" ++ l)%list with l. by destruct (position (λ x, negb (is_numeric x)) l). }
  apply andb_true_iff in Hs as [[x Hx]%bool_decide_eq_true Hs]. unfold to_digit in Hx.
  destruct ((48 <=? N_of_ascii a) && (N_of_ascii a <=? 57)) eqn:Hd; [|done].
  assert (N_of_ascii a < 128) as Ha by (apply andb_true_iff in Hd as [_ ?%N.leb_le]; lia).
  rewrite chars_cons_ascii by done. cbn [app position].
  unfold is_numeric at 1. rewrite (proj2 (N.ltb_lt _ _) Ha), Hd. cbn [negb].
  rewrite IH by done. by destruct (position (λ x, negb (is_numeric x)) l).
Qed.

Lemma get_app_str s a t : String.get (String.length s) (s ++ String a t) = Some a.
Proof. induction s as [|b s IH]; [done|]. apply IH. Qed.

Lemma substring_full s : String.substring 0 (String.length s) s = s.
Proof. induction s as [|b s IH]; [done|]. cbn. by rewrite IH. Qed.

Lemma substring_app_l s t : String.substring 0 (String.length s) (s ++ t) = s.
Proof.
  induction s as [|b s IH]; [by destruct t|].
  change (String b (String.substring 0 (String.length s) (s ++ t)) = String b s). by rewrite IH.
Qed.

Lemma substring_app_r s t n :
  String.substring (String.length s) n (s ++ t) = String.substring 0 n t.
Proof. induction s as [|b s IH]; [done|]. apply IH. Qed.

Lemma split_at_app {E} s a t :
  is_cont a = false →
  split_at (E:=E) (s ++ String a t) (String.length s) = Ok (s, String a t).
Proof.
  intros Ha. unfold split_at, is_char_boundary. rewrite get_app_str, Ha. cbn [negb].
  rewrite orb_true_r, substring_app_l, length_app_str, Nat.add_comm, Nat.add_sub.
  by rewrite substring_app_r, substring_full.
Qed.

(** A coin is read back from its text when its denomination is, provided the
    denomination starts with an ASCII character that is no digit and has valid
    characters only. *)
Theorem coin_display_parse_roundtrip (c : Coin D) a t :
  is_u256 (amount c) → denom_to_string (denom c) = String a t →
  N_of_ascii a < 128 → is_numeric (N_of_ascii a) = false →
  forallb valid_denom_char (chars (String a t)) = true →
  denom_from_str (String a t) = Ok (denom c) →
  Coin_from_str denom_from_str (Coin_to_string denom_to_string c) = Ok c.
Proof.
  intros Hu Hd Ha Hn Hv Hp. unfold Coin_from_str, Coin_to_string. rewrite Hd.
  unfold Amount_to_string. set (s := u256_to_string (amount c)).
  rewrite chars_app_ascii by done. rewrite position_digits by apply u256_print_digits.
  rewrite (chars_cons_ascii a) by done. cbn [position]. rewrite Hn. cbn [negb fmap option_fmap option_map].
  rewrite Nat.add_0_r, split_at_app.
  2: { unfold is_cont. apply andb_false_iff. left. apply N.leb_gt. lia. }
  mstep. cbn [mbind option_bind].
  destruct (String.eqb_spec s "") as [E|_]; [by destruct (u256_print_nonempty (amount c))|].
  cbn [mbind option_bind]. rewrite Hv. mstep. unfold Amount_from_str, s.
  rewrite u256_dec_print by done. mstep. rewrite Hp. mstep. by destruct c.
Qed.

(** [chars().position] counts characters, [split_at] bytes: a numeric character
    beyond ASCII, such as the digit U+0660, makes parsing a coin panic. *)
Theorem coin_from_str_panics :
  numeric_beyond_ascii 1632 = true →
  Coin_from_str denom_from_str (encode_char 1632 ++ "uatom") = Panic.
Proof.
  intros Hn. unfold Coin_from_str.
  assert (chars (encode_char 1632 ++ "uatom") = [1632; 117; 97; 116; 111; 109]) as ->
    by (vm_compute; reflexivity).
  cbn [position]. unfold is_numeric at 1. cbn [N.ltb N.compare]. rewrite Hn. reflexivity.
Qed.
End coin_theorems.
