(* ===== verification/Transfer.v ===== *)
(** * ICS-20 token transfer

    The application of [ibc-apps/ics20-transfer]: packet data and its conversions
    ([types/src/packet.rs]), the message [MsgTransfer] ([types/src/msgs/
    transfer.rs]), events ([types/src/events.rs]), the interface to the bank of the
    host ([src/context.rs]) as the class [TokenContext], the handlers
    ([src/handler/]) and the callbacks ([src/module.rs]).
    [serde_json] is a parameter ([TransferJson]). *)

From S2P Require Import Prelude RustStr Identifiers Primitives Path Connection Channel Context.
From S2P Require Import ConnHandlers Module ChanHandlers PacketHandlers AckStatus Denom.
Local Open Scope string_scope.
Local Open Scope N_scope.

(** ** Packet data *)

Definition MODULE_ID_STR : string := "transfer".
Definition PORT_ID_STR : string := "transfer".
Definition TRANSFER_VERSION : string := "ics20-1".
Definition ACK_SUCCESS_B64 : string := "AQ==".

Record PacketData := mkPacketData {
  token : PrefixedCoin;
  pd_sender : Signer;
  pd_receiver : Signer;
  pd_memo : Memo }.
#[export] Instance PacketData_eq_dec : EqDecision PacketData.
Proof. solve_decision. Defined.

(** [FungibleTokenPacketData] of the protobuf definitions. *)
Record RawPacketData := mkRawPacketData {
  rpd_denom : string; rpd_amount : string; rpd_sender : string; rpd_receiver : string;
  rpd_memo : string }.

Section packet_data.
Context `{TmTime, Unicode, U256Dec}.

Definition PacketData_try_from (raw_pkt_data : RawPacketData) :
    outcome TokenTransferError PacketData :=
  denom ← PrefixedDenom_from_str (rpd_denom raw_pkt_data);
  amount ← Amount_from_str (rpd_amount raw_pkt_data);
  Ok (mkPacketData (mkCoin denom amount) (rpd_sender raw_pkt_data) (rpd_receiver raw_pkt_data)
        (mkMemo (rpd_memo raw_pkt_data))).
Definition RawPacketData_from (pkt_data : PacketData) : RawPacketData :=
  mkRawPacketData (PrefixedDenom_to_string (denom (token pkt_data)))
    (Amount_to_string (amount (token pkt_data))) (pd_sender pkt_data) (pd_receiver pkt_data)
    (memo_str (pd_memo pkt_data)).
End packet_data.

(** ** What the application gets from libraries *)

(** [serde_json] on packet data, and the [Display] of the errors of other
    crates. *)
Class TransferJson := {
  transfer_ack_json :: AckJson;
  raw_packet_data_to_vec : RawPacketData → bytes;
  raw_packet_data_from_slice : bytes → option RawPacketData;
  from_dec_str_err_to_string : FromDecStrErr → string;
}.

Class TransferJsonLaws `{TransferJson} := {
  transfer_ack_laws :: AckJsonLaws;
  raw_packet_data_json r : raw_packet_data_from_slice (raw_packet_data_to_vec r) = Some r;
}.

Section json.
Context `{TmTime, Unicode, U256Dec, TransferJson, ChainTypes, !Codec}.

(** [#[serde(try_from = "RawPacketData", into = "RawPacketData")]]. *)
Definition packet_data_to_vec (d : PacketData) : bytes :=
  raw_packet_data_to_vec (RawPacketData_from d).
Definition packet_data_from_slice (b : bytes) : option PacketData :=
  raw ← raw_packet_data_from_slice b; ok (PacketData_try_from raw).

(** [Display] for [TokenTransferError], from its doc comments. *)
Definition TokenTransferError_to_string (e : TokenTransferError) : string :=
  match e with
  | TTContextError e => "context error: " ++ tick (context_error_to_string e)
  | TTInvalidIdentifier e => "invalid identifier: " ++ tick (identifier_error_to_string e)
  | InsufficientFunds send_attempt available_funds =>
    "insufficient funds: tried to send " ++ tick send_attempt ++ ", sender only has "
      ++ tick available_funds
  | DestinationChannelNotFound port_id channel_id =>
    "destination channel not found in the counterparty of port_id " ++ tick (port_id_str port_id)
      ++ " and channel_id " ++ tick (channel_id_str channel_id)
  | EmptyBaseDenom => "base denomination is empty"
  | InvalidTracePortId pos validation_error =>
    "invalid prot id n trace at position: " ++ tick (show_u64 pos) ++ ", validation error: "
      ++ tick (identifier_error_to_string validation_error)
  | InvalidTraceChannelId pos validation_error =>
    "invalid channel id in trace at position: " ++ tick (show_u64 pos) ++ ", validation error: "
      ++ tick (identifier_error_to_string validation_error)
  | InvalidTraceLength len => "trace length must be even but got: " ++ tick (show_u64 len)
  | InvalidAmount e => "invalid amount error: " ++ tick (from_dec_str_err_to_string e)
  | InvalidToken => "invalid token"
  | ChannelNotUnordered expect_order got_order =>
    "expected " ++ tick (Order_as_str expect_order) ++ " channel, got "
      ++ tick (Order_as_str got_order)
  | CantCloseChannel => "channel cannot be closed"
  | PacketDataDeserialization => "failed to deserialize packet data"
  | AckDeserialization => "failed to deserialize acknowledgement"
  | ReceiveDisabled _ => "receive is not enabled"
  | SendDisabled _ => "send is not enabled"
  | ParseAccountFailure => "failed to parse as AccountId"
  | TTInvalidPort port_id exp_port_id =>
    "invalid port: " ++ tick (port_id_str port_id) ++ ", expected " ++ tick (port_id_str exp_port_id)
  | DecodeRawMsg reason => "decoding raw msg error: " ++ tick reason
  | UnknownMsgType msg_type => "unknown msg type: " ++ tick msg_type
  | InvalidCoin coin => "invalid coin string: " ++ tick coin
  | TTUtf8Decode e => "decoding raw bytes as UTF8 string error: " ++ tick (utf8_error_to_string e)
  | TTOther reason => "other error: " ++ tick reason
  end.

(** [From<TokenTransferError> for StatusValue], [ack_success_b64]: the [expect]s. *)
Definition StatusValue_from_error {E} (err : TokenTransferError) : outcome E StatusValue :=
  expect (StatusValue_new (TokenTransferError_to_string err)).
Definition ack_success_b64 {E} : outcome E StatusValue := expect (StatusValue_new ACK_SUCCESS_B64).
End json.

(** ** The message *)

Section msg.
Context `{TmTime}.

Record MsgTransfer := mkMsgTransfer {
  mt_port_id_on_a : PortId;
  mt_chan_id_on_a : ChannelId;
  packet_data : PacketData;
  mt_timeout_height_on_b : TimeoutHeight;
  mt_timeout_timestamp_on_b : Timestamp }.

Record RawMsgTransfer := mkRawMsgTransfer {
  rmt_source_port : string;
  rmt_source_channel : string;
  rmt_token : option ProtoCoin;
  rmt_sender : string;
  rmt_receiver : string;
  rmt_timeout_height : option RawHeight;
  rmt_timeout_timestamp : N;
  rmt_memo : string }.
End msg.

Definition TYPE_URL : string := "/ibc.applications.transfer.v1.MsgTransfer".

(** [prost] on [MsgTransfer]: decoding returns the text of the error; and the text
    [Protobuf::decode_vec] makes of a failed conversion. *)
Class TransferProto := {
  raw_msg_transfer_decode : bytes → outcome string RawMsgTransfer;
  raw_msg_transfer_encode : RawMsgTransfer → bytes;
  try_from_error_text : string → string;
}.

Section msg_conversions.
Context `{TmTime, Unicode, U256Dec, TransferJson, ChainTypes, !Codec}.

Definition MsgTransfer_try_from (raw_msg : RawMsgTransfer) :
    outcome TokenTransferError MsgTransfer :=
  timeout_timestamp_on_b ← err_context (err_packet (map_err InvalidPacketTimestamp
    (Timestamp_from_nanoseconds (rmt_timeout_timestamp raw_msg))));
  timeout_height_on_b ← err_context (err_client (TimeoutHeight_try_from
    (rmt_timeout_height raw_msg)));
  fail_if (negb (TimeoutHeight_is_set timeout_height_on_b)
           && negb (Timestamp_is_set timeout_timestamp_on_b))
    (TTContextError (CtxPacket MissingTimeout));;
  port_id_on_a ← err_identifier (PortId_from_str (rmt_source_port raw_msg));
  chan_id_on_a ← err_identifier (ChannelId_from_str (rmt_source_channel raw_msg));
  token ← ok_or (rmt_token raw_msg) InvalidToken;
  token ← map_err (λ _, InvalidToken) (Coin_try_from PrefixedDenom_from_str token);
  Ok (mkMsgTransfer port_id_on_a chan_id_on_a
        (mkPacketData token (rmt_sender raw_msg) (rmt_receiver raw_msg) (mkMemo (rmt_memo raw_msg)))
        timeout_height_on_b timeout_timestamp_on_b).

Definition RawMsgTransfer_from {E} (domain_msg : MsgTransfer) : outcome E RawMsgTransfer :=
  let d := packet_data domain_msg in
  timeout_timestamp ← Timestamp_nanoseconds (mt_timeout_timestamp_on_b domain_msg);
  Ok (mkRawMsgTransfer (port_id_str (mt_port_id_on_a domain_msg))
        (channel_id_str (mt_chan_id_on_a domain_msg))
        (Some (ProtoCoin_from PrefixedDenom_to_string (token d))) (pd_sender d) (pd_receiver d)
        (TimeoutHeight_into (mt_timeout_height_on_b domain_msg)) timeout_timestamp
        (memo_str (pd_memo d))).

Definition MsgTransfer_try_from_any `{!TransferProto} (raw : Any) :
    outcome TokenTransferError MsgTransfer :=
  if (type_url raw =? TYPE_URL)%string then
    raw_msg ← map_err DecodeRawMsg (raw_msg_transfer_decode (any_value raw));
    map_err (λ e, DecodeRawMsg (try_from_error_text (TokenTransferError_to_string e)))
      (MsgTransfer_try_from raw_msg)
  else Err (UnknownMsgType (type_url raw)).
End msg_conversions.

(** ** Events *)

Definition EVENT_TYPE_PACKET : string := "fungible_token_packet".
Definition EVENT_TYPE_TIMEOUT : string := "timeout".
Definition EVENT_TYPE_DENOM_TRACE : string := "denomination_trace".
Definition EVENT_TYPE_TRANSFER : string := "ibc_transfer".

Inductive TransferModuleEvent :=
| RecvEvent (sender receiver : Signer) (denom : PrefixedDenom) (amount : Amount) (memo : Memo)
    (success : bool)
| AckEvent (sender receiver : Signer) (denom : PrefixedDenom) (amount : Amount) (memo : Memo)
    (acknowledgement : AcknowledgementStatus)
| AckStatusEvent (acknowledgement : AcknowledgementStatus)
| TimeoutEvent (refund_receiver : Signer) (refund_denom : PrefixedDenom) (refund_amount : Amount)
    (memo : Memo)
| DenomTraceEvent (trace_hash : option string) (denom : PrefixedDenom)
| TransferEvent (sender receiver : Signer) (amount : Amount) (denom : PrefixedDenom) (memo : Memo).

Section events.
Context `{U256Dec}.

Definition ModuleEvent_from (ev : TransferModuleEvent) : ModuleEvent :=
  match ev with
  | RecvEvent sender receiver denom amount memo success =>
    mkModuleEvent EVENT_TYPE_PACKET
      [mkModuleEventAttribute "module" MODULE_ID_STR; mkModuleEventAttribute "sender" sender;
       mkModuleEventAttribute "receiver" receiver;
       mkModuleEventAttribute "denom" (PrefixedDenom_to_string denom);
       mkModuleEventAttribute "amount" (Amount_to_string amount);
       mkModuleEventAttribute "memo" (memo_str memo);
       mkModuleEventAttribute "success" (show_bool success)]
  | AckEvent sender receiver denom amount memo acknowledgement =>
    mkModuleEvent EVENT_TYPE_PACKET
      [mkModuleEventAttribute "module" MODULE_ID_STR; mkModuleEventAttribute "sender" sender;
       mkModuleEventAttribute "receiver" receiver;
       mkModuleEventAttribute "denom" (PrefixedDenom_to_string denom);
       mkModuleEventAttribute "amount" (Amount_to_string amount);
       mkModuleEventAttribute "memo" (memo_str memo);
       mkModuleEventAttribute "acknowledgement" (AcknowledgementStatus_to_string acknowledgement)]
  | AckStatusEvent acknowledgement =>
    let attr_label := if is_successful acknowledgement then "success" else "error" in
    mkModuleEvent EVENT_TYPE_PACKET
      [mkModuleEventAttribute attr_label (AcknowledgementStatus_to_string acknowledgement)]
  | TimeoutEvent refund_receiver refund_denom refund_amount memo =>
    mkModuleEvent EVENT_TYPE_TIMEOUT
      [mkModuleEventAttribute "module" MODULE_ID_STR;
       mkModuleEventAttribute "refund_receiver" refund_receiver;
       mkModuleEventAttribute "refund_denom" (PrefixedDenom_to_string refund_denom);
       mkModuleEventAttribute "refund_amount" (Amount_to_string refund_amount);
       mkModuleEventAttribute "memo" (memo_str memo)]
  | DenomTraceEvent trace_hash denom =>
    mkModuleEvent EVENT_TYPE_DENOM_TRACE
      (mkModuleEventAttribute "denom" (PrefixedDenom_to_string denom) ::
       match trace_hash with Some hash => [mkModuleEventAttribute "trace_hash" hash] | None => [] end)
  | TransferEvent sender receiver amount denom memo =>
    mkModuleEvent EVENT_TYPE_TRANSFER
      [mkModuleEventAttribute "sender" sender; mkModuleEventAttribute "receiver" receiver;
       mkModuleEventAttribute "amount" (Amount_to_string amount);
       mkModuleEventAttribute "denom" (PrefixedDenom_to_string denom);
       mkModuleEventAttribute "memo" (memo_str memo)]
  end.
End events.

(** ** The bank of the host *)

(** [TokenTransferValidationContext] and [TokenTransferExecutionContext]: the state
    [T] of the bank, and what the host does with coins. *)
Class TokenContext `{TmTime} (T : Type) := {
  AccountId : Type;
  account_try_from : Signer → option AccountId;
  get_port : T → outcome TokenTransferError PortId;
  can_send_coins : T → outcome TokenTransferError ();
  can_receive_coins : T → outcome TokenTransferError ();
  escrow_coins_validate : T → AccountId → PortId → ChannelId → PrefixedCoin → Memo →
    outcome TokenTransferError ();
  unescrow_coins_validate : T → AccountId → PortId → ChannelId → PrefixedCoin →
    outcome TokenTransferError ();
  mint_coins_validate : T → AccountId → PrefixedCoin → outcome TokenTransferError ();
  burn_coins_validate : T → AccountId → PrefixedCoin → Memo → outcome TokenTransferError ();
  denom_hash_string : T → PrefixedDenom → option string;
  escrow_coins_execute : AccountId → PortId → ChannelId → PrefixedCoin → Memo →
    exec T TokenTransferError ();
  unescrow_coins_execute : AccountId → PortId → ChannelId → PrefixedCoin →
    exec T TokenTransferError ();
  mint_coins_execute : AccountId → PrefixedCoin → exec T TokenTransferError ();
  burn_coins_execute : AccountId → PrefixedCoin → Memo → exec T TokenTransferError ();
}.

Section handlers.
Context `{TmTime, !ChainTypes, !LightClient, host : !Host, !Codec, !Sha256}.
Context `{Unicode, U256Dec, TransferJson} {T : Type} `{!TokenContext T}.

(** [signer.try_into().map_err(|_| ParseAccountFailure)]. *)
Definition parse_account (signer : Signer) : outcome TokenTransferError AccountId :=
  ok_or (account_try_from signer) ParseAccountFailure.

(** ** Refunds *)

Definition refund_packet_token_execute (packet : Packet) (data : PacketData) :
    exec T TokenTransferError () :=
  sender ← lift (parse_account (pd_sender data));
  if is_sender_chain_source (port_id_on_a packet) (chan_id_on_a packet) (denom (token data)) then
    unescrow_coins_execute sender (port_id_on_a packet) (chan_id_on_a packet) (token data)
  else mint_coins_execute sender (token data).

Definition refund_packet_token_validate (t : T) (packet : Packet) (data : PacketData) :
    outcome TokenTransferError () :=
  sender ← parse_account (pd_sender data);
  if is_sender_chain_source (port_id_on_a packet) (chan_id_on_a packet) (denom (token data)) then
    unescrow_coins_validate t sender (port_id_on_a packet) (chan_id_on_a packet) (token data)
  else mint_coins_validate t sender (token data).

(** ** Sending *)

Definition send_transfer_validate (s : IbcStore) (t : T) (msg : MsgTransfer) :
    outcome TokenTransferError () :=
  can_send_coins t;;
  chan_end_on_a ← err_context
    (channel_end s (mkChannelEndPath (mt_port_id_on_a msg) (mt_chan_id_on_a msg)));
  let port_id_on_b := rem_port_id (chan_remote chan_end_on_a) in
  chan_id_on_b ← ok_or (rem_channel_id (chan_remote chan_end_on_a))
    (DestinationChannelNotFound (mt_port_id_on_a msg) (mt_chan_id_on_a msg));
  sequence ← err_context
    (get_next_sequence_send s (mkSeqSendPath (mt_port_id_on_a msg) (mt_chan_id_on_a msg)));
  let token := token (packet_data msg) in
  sender ← parse_account (pd_sender (packet_data msg));
  (if is_sender_chain_source (mt_port_id_on_a msg) (mt_chan_id_on_a msg) (denom token) then
     escrow_coins_validate t sender (mt_port_id_on_a msg) (mt_chan_id_on_a msg) token
       (pd_memo (packet_data msg))
   else burn_coins_validate t sender token (pd_memo (packet_data msg)));;
  let data := packet_data_to_vec (packet_data msg) in
  let packet := mkPacket sequence (mt_port_id_on_a msg) (mt_chan_id_on_a msg) port_id_on_b
    chan_id_on_b data (mt_timeout_height_on_b msg) (mt_timeout_timestamp_on_b msg) in
  err_context (send_packet_validate s packet).

(** Calls on the two contexts of [send_transfer_execute]. *)
Definition on_send_ctx {A} (m : action A) : exec (IbcStore * T) TokenTransferError A :=
  on_fst (λ s, let '(s', r) := m s in (s', err_context r)).
Definition on_token_ctx {A} (m : exec T TokenTransferError A) :
    exec (IbcStore * T) TokenTransferError A := on_snd m.

Definition send_transfer_execute (msg : MsgTransfer) : exec (IbcStore * T) TokenTransferError () :=
  chan_end_on_a ← on_send_ctx (reads (λ s,
    channel_end s (mkChannelEndPath (mt_port_id_on_a msg) (mt_chan_id_on_a msg))));
  let port_on_b := rem_port_id (chan_remote chan_end_on_a) in
  chan_on_b ← lift (ok_or (rem_channel_id (chan_remote chan_end_on_a))
    (DestinationChannelNotFound (mt_port_id_on_a msg) (mt_chan_id_on_a msg)));
  sequence ← on_send_ctx (reads (λ s,
    get_next_sequence_send s (mkSeqSendPath (mt_port_id_on_a msg) (mt_chan_id_on_a msg))));
  let token := token (packet_data msg) in
  sender ← lift (parse_account (pd_sender (packet_data msg)));
  (if is_sender_chain_source (mt_port_id_on_a msg) (mt_chan_id_on_a msg) (denom token) then
     on_token_ctx (escrow_coins_execute sender (mt_port_id_on_a msg) (mt_chan_id_on_a msg) token
       (pd_memo (packet_data msg)))
   else on_token_ctx (burn_coins_execute sender token (pd_memo (packet_data msg))));;
  let data := packet_data_to_vec (packet_data msg) in
  let packet := mkPacket sequence (mt_port_id_on_a msg) (mt_chan_id_on_a msg) port_on_b
    chan_on_b data (mt_timeout_height_on_b msg) (mt_timeout_timestamp_on_b msg) in
  on_send_ctx (send_packet_execute packet);;
  on_send_ctx (log_message ("IBC fungible token transfer: " ++ pd_sender (packet_data msg)
    ++ " --(" ++ Coin_to_string PrefixedDenom_to_string token ++ ")--> "
    ++ pd_receiver (packet_data msg)));;
  on_send_ctx (emit_ibc_event (EventModule (ModuleEvent_from
    (TransferEvent (pd_sender (packet_data msg)) (pd_receiver (packet_data msg)) (amount token)
       (denom token) (pd_memo (packet_data msg))))));;
  on_send_ctx (emit_ibc_event (EventMessage (EvModule MODULE_ID_STR))).

Definition send_transfer (msg : MsgTransfer) : exec (IbcStore * T) TokenTransferError () :=
  reads (λ st, send_transfer_validate st.1 st.2 msg);;
  send_transfer_execute msg.

(** ** Receiving *)

(** A call whose error is returned together with the events so far. *)
Definition with_extras {A} (extras : ModuleExtras) (m : exec T TokenTransferError A) :
    exec T (ModuleExtras * TokenTransferError) A :=
  λ t, let '(t', r) := m t in (t', map_err (λ err, (extras, err)) r).

Definition process_recv_packet_execute (packet : Packet) (data : PacketData) :
    exec T (ModuleExtras * TokenTransferError) ModuleExtras :=
  with_extras ModuleExtras_empty (reads can_receive_coins);;
  receiver_account ← with_extras ModuleExtras_empty (lift (parse_account (pd_receiver data)));
  if is_receiver_chain_source (port_id_on_a packet) (chan_id_on_a packet) (denom (token data)) then
    let prefix := mkTracePrefix (port_id_on_a packet) (chan_id_on_a packet) in
    let coin := mkCoin (remove_trace_prefix (denom (token data)) prefix) (amount (token data)) in
    with_extras ModuleExtras_empty (reads (λ t,
      unescrow_coins_validate t receiver_account (port_id_on_b packet) (chan_id_on_b packet) coin));;
    with_extras ModuleExtras_empty
      (unescrow_coins_execute receiver_account (port_id_on_b packet) (chan_id_on_b packet) coin);;
    mret ModuleExtras_empty
  else
    let prefix := mkTracePrefix (port_id_on_b packet) (chan_id_on_b packet) in
    let coin := mkCoin (add_trace_prefix (denom (token data)) prefix) (amount (token data)) in
    trace_hash ← reads (λ t, Ok (denom_hash_string t (denom coin)));
    let extras := mkModuleExtras [ModuleEvent_from (DenomTraceEvent trace_hash (denom coin))] [] in
    with_extras extras (reads (λ t, mint_coins_validate t receiver_account coin));;
    with_extras extras (mint_coins_execute receiver_account coin);;
    mret extras.
End handlers.

(** ** Callbacks *)

Module Ics20.
Section callbacks.
Context `{TmTime, !ChainTypes, !Codec}.
Context `{Unicode, U256Dec, TransferJson} {T : Type} `{!TokenContext T}.

Definition expected_version : ChanVersion := mkChanVersion TRANSFER_VERSION.
Definition verify_version (version : ChanVersion) : outcome TokenTransferError () :=
  err_context (err_channel (ChanVersion_verify_is_expected version expected_version)).

Definition on_chan_open_init_validate (ctx : T) (order : Order) (_ : list ConnectionId)
    (port_id : PortId) (_ : ChannelId) (_ : ChanCounterparty) (version : ChanVersion) :
    outcome TokenTransferError () :=
  fail_if (negb (bool_decide (order = Unordered))) (ChannelNotUnordered Unordered order);;
  bound_port ← get_port ctx;
  fail_if (negb (bool_decide (port_id = bound_port))) (TTInvalidPort port_id bound_port);;
  if (chan_version_str version =? "")%string then Ok tt else verify_version version.

Definition on_chan_open_init_execute (_ : Order) (_ : list ConnectionId) (_ : PortId)
    (_ : ChannelId) (_ : ChanCounterparty) (_ : ChanVersion) :
    exec T TokenTransferError (ModuleExtras * ChanVersion) :=
  mret (ModuleExtras_empty, expected_version).

Definition on_chan_open_try_validate (_ : T) (order : Order) (_ : list ConnectionId)
    (_ : PortId) (_ : ChannelId) (_ : ChanCounterparty) (counterparty_version : ChanVersion) :
    outcome TokenTransferError () :=
  fail_if (negb (bool_decide (order = Unordered))) (ChannelNotUnordered Unordered order);;
  verify_version counterparty_version.

Definition on_chan_open_try_execute (_ : Order) (_ : list ConnectionId) (_ : PortId)
    (_ : ChannelId) (_ : ChanCounterparty) (_ : ChanVersion) :
    exec T TokenTransferError (ModuleExtras * ChanVersion) :=
  mret (ModuleExtras_empty, expected_version).

Definition on_chan_open_ack_validate (_ : T) (_ : PortId) (_ : ChannelId)
    (counterparty_version : ChanVersion) : outcome TokenTransferError () :=
  verify_version counterparty_version.
Definition on_chan_open_ack_execute (_ : PortId) (_ : ChannelId) (_ : ChanVersion) :
    exec T TokenTransferError ModuleExtras := mret ModuleExtras_empty.

Definition on_chan_open_confirm_validate (_ : T) (_ : PortId) (_ : ChannelId) :
    outcome TokenTransferError () := Ok tt.
Definition on_chan_open_confirm_execute (_ : PortId) (_ : ChannelId) :
    exec T TokenTransferError ModuleExtras := mret ModuleExtras_empty.

Definition on_chan_close_init_validate (_ : T) (_ : PortId) (_ : ChannelId) :
    outcome TokenTransferError () := Err CantCloseChannel.
Definition on_chan_close_init_execute (_ : PortId) (_ : ChannelId) :
    exec T TokenTransferError ModuleExtras := lift (Err CantCloseChannel).

Definition on_chan_close_confirm_validate (_ : T) (_ : PortId) (_ : ChannelId) :
    outcome TokenTransferError () := Ok tt.
Definition on_chan_close_confirm_execute (_ : PortId) (_ : ChannelId) :
    exec T TokenTransferError ModuleExtras := mret ModuleExtras_empty.

Definition on_recv_packet_execute (packet : Packet) : callback T (ModuleExtras * Acknowledgement) :=
  match packet_data_from_slice (data packet) with
  | None =>
    v ← lift (StatusValue_from_error PacketDataDeserialization);
    ack ← lift (Acknowledgement_from (AckError v));
    mret (ModuleExtras_empty, ack)
  | Some data => λ t,
    let '(t, processed) := process_recv_packet_execute packet data t in
    ('(extras, ack) ← match processed with
      | Ok extras => v ← lift ack_success_b64; mret (extras, AckSuccess v)
      | Err (extras, error) => v ← lift (StatusValue_from_error error); mret (extras, AckError v)
      | Panic => lift Panic
      end;
     let recv_event := RecvEvent (pd_sender data) (pd_receiver data) (denom (token data))
       (amount (token data)) (pd_memo data) (is_successful ack) in
     let extras := mkModuleExtras (extra_events extras ++ [ModuleEvent_from recv_event])%list
       (extra_log extras) in
     ack ← lift (Acknowledgement_from ack);
     mret (extras, ack)) t
  end.

Definition on_acknowledgement_packet_validate (ctx : T) (packet : Packet)
    (acknowledgement : Acknowledgement) (_ : Signer) : outcome TokenTransferError () :=
  data ← ok_or (packet_data_from_slice (data packet)) PacketDataDeserialization;
  acknowledgement ← ok_or (ack_status_from_slice (ack_bytes acknowledgement)) AckDeserialization;
  if negb (is_successful acknowledgement)
  then refund_packet_token_validate ctx packet data
  else Ok tt.

Definition on_acknowledgement_packet_execute (packet : Packet) (acknowledgement : Acknowledgement)
    (_ : Signer) : callback T (ModuleExtras * outcome TokenTransferError ()) :=
  match packet_data_from_slice (data packet) with
  | None => mret (ModuleExtras_empty, Err PacketDataDeserialization)
  | Some data =>
    match ack_status_from_slice (ack_bytes acknowledgement) with
    | None => mret (ModuleExtras_empty, Err AckDeserialization)
    | Some acknowledgement => λ t,
      let '(t, refund) := if negb (is_successful acknowledgement)
        then refund_packet_token_execute packet data t else (t, Ok tt) in
      match refund with
      | Err err => (t, Ok (ModuleExtras_empty, Err err))
      | Panic => (t, Panic)
      | Ok _ =>
        let ack_event := AckEvent (pd_sender data) (pd_receiver data) (denom (token data))
          (amount (token data)) (pd_memo data) acknowledgement in
        let extras := mkModuleExtras
          [ModuleEvent_from ack_event; ModuleEvent_from (AckStatusEvent acknowledgement)] [] in
        (t, Ok (extras, Ok tt))
      end
    end
  end.

Definition on_timeout_packet_validate (ctx : T) (packet : Packet) (_ : Signer) :
    outcome TokenTransferError () :=
  data ← ok_or (packet_data_from_slice (data packet)) PacketDataDeserialization;
  refund_packet_token_validate ctx packet data.

Definition on_timeout_packet_execute (packet : Packet) (_ : Signer) :
    callback T (ModuleExtras * outcome TokenTransferError ()) :=
  match packet_data_from_slice (data packet) with
  | None => mret (ModuleExtras_empty, Err PacketDataDeserialization)
  | Some data => λ t,
    let '(t, refund) := refund_packet_token_execute packet data t in
    match refund with
    | Err err => (t, Ok (ModuleExtras_empty, Err err))
    | Panic => (t, Panic)
    | Ok _ =>
      let timeout_event := TimeoutEvent (pd_sender data) (denom (token data))
        (amount (token data)) (pd_memo data) in
      (t, Ok (mkModuleExtras [ModuleEvent_from timeout_event] [], Ok tt))
    end
  end.
End callbacks.
End Ics20.
