(* ===== verification/TokenSupply.v ===== *)
(** * Token transfers conserve tokens

    What the handlers of [Transfer] do to the bank of the host, and the invariant
    of two chains that exchange tokens over one channel: the tokens a chain holds
    in escrow for the channel are exactly the vouchers of the other chain plus the
    tokens under way.  The bank is any instance of [TokenContext] whose operations
    do what their names say ([BankLaws]). *)

From S2P Require Import Prelude RustStr Identifiers Primitives Path Connection Channel Context.
From S2P Require Import ConnHandlers Module ChanHandlers PacketHandlers PacketSpec AckStatus Denom Transfer.
Local Open Scope N_scope.

(** ** The bank's contract *)

(** [z] at the key [k], zero elsewhere. *)
Definition delta {K} `{EqDecision K} (k k' : K) (z : Z) : Z := if decide (k = k') then z else 0%Z.

Class Bank `{TmTime} (T : Type) `{!TokenContext T} := {
  account_eq_dec :: EqDecision AccountId;
  balance : T → AccountId → PrefixedDenom → N;
  escrowed : T → PortId * ChannelId → PrefixedDenom → N;
  supply : T → PrefixedDenom → N;
}.

(** How an operation on [coin] changes the three views: the account's balance by
    [b], the channel's escrow by [e] and the total supply by [s] times the amount. *)
Section changes.
Context `{TmTime} {T : Type} `{!TokenContext T, !Bank T}.

Record changes (t t' : T) (account : AccountId) (chan : PortId * ChannelId) (coin : PrefixedCoin)
    (b e s : Z) : Prop := {
  changes_balance a d : (Z.of_N (balance t' a d) = Z.of_N (balance t a d)
    + delta (account, denom coin) (a, d) (b * Z.of_N (amount coin)))%Z;
  changes_escrow c d : (Z.of_N (escrowed t' c d) = Z.of_N (escrowed t c d)
    + delta (chan, denom coin) (c, d) (e * Z.of_N (amount coin)))%Z;
  changes_supply d : (Z.of_N (supply t' d) = Z.of_N (supply t d)
    + delta (denom coin) d (s * Z.of_N (amount coin)))%Z;
}.

(** No change of any view. *)
Definition same_bank (t t' : T) : Prop :=
  (∀ a d, balance t' a d = balance t a d) ∧ (∀ c d, escrowed t' c d = escrowed t c d)
  ∧ (∀ d, supply t' d = supply t d).
End changes.

(** Escrow moves coins of an account to the channel and back; mint and burn create
    and destroy coins of an account; an operation that fails changes nothing, and
    none panics. *)
Class BankLaws `{TmTime} (T : Type) `{!TokenContext T, !Bank T} := {
  escrow_law a p c coin memo t t' : escrow_coins_execute a p c coin memo t = (t', Ok tt) →
    changes t t' a (p, c) coin (-1) 1 0;
  unescrow_law a p c coin t t' : unescrow_coins_execute a p c coin t = (t', Ok tt) →
    changes t t' a (p, c) coin 1 (-1) 0;
  mint_law a coin t t' chan : mint_coins_execute a coin t = (t', Ok tt) →
    changes t t' a chan coin 1 0 1;
  burn_law a coin memo t t' chan : burn_coins_execute a coin memo t = (t', Ok tt) →
    changes t t' a chan coin (-1) 0 (-1);
  unescrow_failure a p c coin t t' e : unescrow_coins_execute a p c coin t = (t', Err e) →
    same_bank t t';
  mint_failure a coin t t' e : mint_coins_execute a coin t = (t', Err e) → same_bank t t';
}.

(** ** Packet data on the wire *)

Section wire.
Context `{TmTime, Unicode, U256Dec, !U256DecLaws, TransferJson, !TransferJsonLaws}.

(** The data a packet can carry: a denomination that its text determines and an
    amount of 256 bits. *)
Definition data_wf (d : PacketData) : Prop :=
  denom_wf (denom (token d)) ∧ is_u256 (amount (token d)).

Lemma Amount_from_str_print n : is_u256 n → Amount_from_str (Amount_to_string n) = Ok n.
Proof. intros Hn. unfold Amount_from_str, Amount_to_string. by rewrite u256_dec_print. Qed.

Lemma PacketData_roundtrip d : data_wf d → PacketData_try_from (RawPacketData_from d) = Ok d.
Proof.
  intros [Hd Ha]. unfold PacketData_try_from, RawPacketData_from.
  cbn [rpd_denom rpd_amount rpd_sender rpd_receiver rpd_memo].
  rewrite PrefixedDenom_from_str_print by done. mstep. rewrite Amount_from_str_print by done. mstep.
  by destruct d as [[] ? ? []].
Qed.

Lemma packet_data_json d :
  data_wf d → packet_data_from_slice (packet_data_to_vec d) = Some d.
Proof.
  intros Hd. unfold packet_data_from_slice, packet_data_to_vec. rewrite raw_packet_data_json.
  cbn [mbind option_bind]. by rewrite PacketData_roundtrip.
Qed.

(** A transfer the application can be asked for. *)
Definition MsgTransfer_wf (msg : MsgTransfer) : Prop :=
  port_ok (mt_port_id_on_a msg) ∧ channel_ok (mt_chan_id_on_a msg) ∧ data_wf (packet_data msg)
  ∧ TimeoutHeight_wf (mt_timeout_height_on_b msg) ∧ Timestamp_wf (mt_timeout_timestamp_on_b msg)
  ∧ (TimeoutHeight_is_set (mt_timeout_height_on_b msg) = true
     ∨ Timestamp_is_set (mt_timeout_timestamp_on_b msg) = true).

(** The ranges protobuf gives the integer fields. *)
Definition RawMsgTransfer_u64 (r : RawMsgTransfer) : Prop :=
  is_u64 (rmt_timeout_timestamp r)
  ∧ ∀ h, rmt_timeout_height r = Some h →
      is_u64 (raw_revision_number h) ∧ is_u64 (raw_revision_height h).

(** A well-formed transfer message survives the trip through its protobuf form,
    and what is decoded is well-formed: valid identifiers, a denomination that its
    text determines, an amount of 256 bits and at least one timeout. *)
Theorem transfer_msg_raw_roundtrip `{!TmTimeLaws} msg :
  (MsgTransfer_wf msg →
     ∃ r, RawMsgTransfer_from (E:=TokenTransferError) msg = Ok r ∧ MsgTransfer_try_from r = Ok msg)
  ∧ (∀ r, RawMsgTransfer_u64 r → MsgTransfer_try_from r = Ok msg → MsgTransfer_wf msg).
Proof.
  split.
  - intros (Hp & Hc & [Hd Ha] & Hh & Ht & Hset).
    destruct (Timestamp_nanoseconds_wf (E:=TokenTransferError) _ Ht) as (n & En & _).
    unfold RawMsgTransfer_from. rewrite En. eexists. split; [done|].
    unfold MsgTransfer_try_from, err_context, err_packet, err_client, err_identifier.
    cbn [rmt_source_port rmt_source_channel rmt_token rmt_sender
      rmt_receiver rmt_timeout_height rmt_timeout_timestamp rmt_memo].
    erewrite Timestamp_roundtrip by done. mstep. rewrite TimeoutHeight_roundtrip by done. mstep.
    assert (negb (TimeoutHeight_is_set (mt_timeout_height_on_b msg))
            && negb (Timestamp_is_set (mt_timeout_timestamp_on_b msg)) = false) as ->
      by (destruct Hset as [-> | ->]; [done|by rewrite andb_false_r]).
    mstep. rewrite Hp, Hc. mstep. unfold Coin_try_from, ProtoCoin_from.
    cbn [proto_denom proto_amount]. rewrite PrefixedDenom_from_str_print by done. mstep.
    rewrite Amount_from_str_print by done. mstep. by destruct msg as [? ? [[] ? ? []] ? ?].
  - intros r (Ht & Hh) Hm.
    unfold MsgTransfer_try_from, Coin_try_from, err_context, err_packet, err_client, err_identifier,
      Amount_from_str in Hm.
    inv_ok. unfold MsgTransfer_wf, data_wf. cbn.
    split_and!; eauto using PortId_parsed, ChannelId_parsed, TimeoutHeight_try_from_wf,
      Timestamp_from_nanoseconds_wf, u256_dec_bound.
    + by eapply PrefixedDenom_from_str_Ok.
    + repeat match goal with
      | H : negb ?a && negb ?b = false |- _ => destruct a, b; cbn in H; auto; done end.
Qed.
End wire.

(** ** What the handlers do to the bank *)

Section effects.
Context `{TmTime, !ChainTypes, !LightClient, host : !Host, !Codec, !Sha256}.
Context `{Unicode, U256Dec, !U256DecLaws, TransferJson, !TransferJsonLaws}.
Context {T : Type} `{!TokenContext T, !Bank T, !BankLaws T}.

Lemma on_send_ctx_Ok {A} (m : action A) s (t : T) st' (x : A) :
  on_send_ctx m (s, t) = (st', Ok x) ↔ ∃ s', m s = (s', Ok x) ∧ st' = (s', t).
Proof.
  unfold on_send_ctx. rewrite on_fst_Ok. destruct (m s) as [s' [r|e|]]; cbn; naive_solver.
Qed.
Lemma on_token_ctx_Ok {A} (m : exec T TokenTransferError A) (s : IbcStore) t st' (x : A) :
  on_token_ctx m (s, t) = (st', Ok x) ↔ ∃ t', m t = (t', Ok x) ∧ st' = (s, t').
Proof. unfold on_token_ctx. by rewrite on_snd_Ok. Qed.
Lemma with_extras_Ok {A} extras (m : exec T TokenTransferError A) t t' (x : A) :
  with_extras extras m t = (t', Ok x) ↔ m t = (t', Ok x).
Proof. unfold with_extras. destruct (m t) as [? [?|?|]]; cbn; naive_solver. Qed.
Lemma parse_account_Ok signer a :
  parse_account signer = Ok a ↔ account_try_from signer = Some a.
Proof. apply ok_or_Ok. Qed.

(** The coins that leave the sender: to the escrow of the channel when the chain is
    their source, out of existence when they are vouchers of the channel. *)
Definition sent_out (t t' : T) (sender : AccountId) (p : PortId) (c : ChannelId)
    (coin : PrefixedCoin) : Prop :=
  if is_sender_chain_source p c (denom coin)
  then changes t t' sender (p, c) coin (-1) 1 0 else changes t t' sender (p, c) coin (-1) 0 (-1).
(** The same coins coming back. *)
Definition given_back (t t' : T) (sender : AccountId) (p : PortId) (c : ChannelId)
    (coin : PrefixedCoin) : Prop :=
  if is_sender_chain_source p c (denom coin)
  then changes t t' sender (p, c) coin 1 (-1) 0 else changes t t' sender (p, c) coin 1 0 1.

(** The packet a transfer sends. *)
Definition transfer_packet (msg : MsgTransfer) (seq : Sequence) (remote : PortId * ChannelId) :
    Packet :=
  mkPacket seq (mt_port_id_on_a msg) (mt_chan_id_on_a msg) remote.1 remote.2
    (packet_data_to_vec (packet_data msg)) (mt_timeout_height_on_b msg)
    (mt_timeout_timestamp_on_b msg).

(** The channel, the destination and the sequence number [msg] is sent with. *)
Record sends_from (s : IbcStore) (msg : MsgTransfer) (c : ChannelEnd) (chan_b : ChannelId)
    (seq : Sequence) (sender : AccountId) : Prop := {
  sf_channel : pc_get (channels s) (mt_port_id_on_a msg) (mt_chan_id_on_a msg) = Some c;
  sf_remote : rem_channel_id (chan_remote c) = Some chan_b;
  sf_sequence :
    pc_get (next_sequence_send s) (mt_port_id_on_a msg) (mt_chan_id_on_a msg) = Some seq;
  sf_sender : account_try_from (pd_sender (packet_data msg)) = Some sender;
}.

Lemma send_transfer_validate_Ok s t msg u :
  send_transfer_validate s t msg = Ok u →
  ∃ c chan_b seq sender, sends_from s msg c chan_b seq sender
    ∧ send_packet_validate s (transfer_packet msg seq (rem_port_id (chan_remote c), chan_b))
      = Ok tt.
Proof.
  unfold send_transfer_validate, err_context. intros Hv. inv_ok.
  match goal with H : channel_end _ _ = _ |- _ => apply channel_end_Ok in H; cbn in H end.
  match goal with H : get_next_sequence_send _ _ = _ |- _ => apply get_next_sequence_send_Ok in H end.
  match goal with H : parse_account _ = _ |- _ => apply parse_account_Ok in H end.
  destruct_units. do 4 eexists. split; [by split|done].
Qed.

Lemma taken_out_Ok sender p c coin memo (s : IbcStore) t st' u :
  (if is_sender_chain_source p c (denom coin)
   then on_token_ctx (escrow_coins_execute sender p c coin memo)
   else on_token_ctx (burn_coins_execute sender coin memo)) (s, t) = (st', Ok u) →
  ∃ t', st' = (s, t') ∧ sent_out t t' sender p c coin.
Proof.
  destruct u. unfold sent_out. destruct (is_sender_chain_source _ _ _);
    intros (t' & Hx & ->)%on_token_ctx_Ok; exists t'; split; try done.
  - by eapply escrow_law.
  - by eapply burn_law.
Qed.

Lemma send_transfer_execute_Ok s t msg s' t' c chan_b seq sender :
  sends_from s msg c chan_b seq sender →
  send_transfer_execute msg (s, t) = ((s', t'), Ok tt) →
  ∃ s1, send_packet_execute (transfer_packet msg seq (rem_port_id (chan_remote c), chan_b)) s
        = (s1, Ok tt)
    ∧ same_state s1 s'
    ∧ sent_out t t' sender (mt_port_id_on_a msg) (mt_chan_id_on_a msg) (token (packet_data msg)).
Proof.
  intros [Hc Hr Hs Ha] Hx. unfold send_transfer_execute in Hx.
  repeat match goal with
  | H : (_ ≫= _) (_, _) = (_, Ok _) |- _ => apply exec_bind_Ok in H as (? & ? & ? & ?)
  | H : on_send_ctx (reads _) (_, _) = (_, Ok _) |- _ =>
    apply on_send_ctx_Ok in H as (? & H & ->); apply reads_Ok in H as [-> H]
  | H : channel_end _ _ = Ok _ |- _ => apply channel_end_Ok in H; cbn in H; simplify_eq
  | H : get_next_sequence_send _ _ = Ok _ |- _ => apply get_next_sequence_send_Ok in H; simplify_eq/=
  | H : lift _ _ = (_, Ok _) |- _ => apply lift_Ok in H as [-> H]
  | H : ok_or _ _ = Ok _ |- _ => apply ok_or_Ok in H; simplify_eq
  | H : parse_account _ = Ok _ |- _ => apply parse_account_Ok in H; simplify_eq
  | H : (if is_sender_chain_source _ _ _ then _ else _) _ = _ |- _ =>
    apply taken_out_Ok in H as (? & -> & ?)
  | H : on_send_ctx _ (_, _) = (_, Ok _) |- _ => apply on_send_ctx_Ok in H as (? & ? & ?); simplify_eq
  end.
  eexists. destruct_units. split_and!; [done| |done].
  unfold_actions. inv_ok. by repeat split.
Qed.

Lemma send_transfer_effect msg s t s' t' :
  send_transfer msg (s, t) = ((s', t'), Ok tt) →
  ∃ c chan_b seq sender s1, sends_from s msg c chan_b seq sender
    ∧ send_packet (transfer_packet msg seq (rem_port_id (chan_remote c), chan_b)) s = (s1, Ok tt)
    ∧ same_state s1 s'
    ∧ sent_out t t' sender (mt_port_id_on_a msg) (mt_chan_id_on_a msg) (token (packet_data msg)).
Proof.
  unfold send_transfer. intros Hx. apply exec_bind_Ok in Hx as (st1 & u & Hv & Hx).
  apply reads_Ok in Hv as [-> Hv].
  apply send_transfer_validate_Ok in Hv as (c & chan_b & seq & sender & Hf & Hv).
  destruct (send_transfer_execute_Ok _ _ _ _ _ _ _ _ _ Hf Hx) as (s1 & Hp & Hs & Ho).
  exists c, chan_b, seq, sender, s1. split_and!; [done| |done|done].
  unfold send_packet. apply exec_bind_Ok. exists s, tt. split; [by apply reads_Ok|done].
Qed.

Lemma refund_effect packet d t t' :
  refund_packet_token_execute packet d t = (t', Ok tt) →
  ∃ sender, account_try_from (pd_sender d) = Some sender
    ∧ given_back t t' sender (port_id_on_a packet) (chan_id_on_a packet) (token d).
Proof.
  unfold refund_packet_token_execute, given_back. intros Hx.
  apply exec_bind_Ok in Hx as (t1 & sender & Hp & Hx). apply lift_Ok in Hp as [-> Hp].
  apply parse_account_Ok in Hp. exists sender. split; [done|].
  destruct (is_sender_chain_source _ _ _); [by eapply unescrow_law|by eapply mint_law].
Qed.

(** The coins the receiver gets: out of the escrow of the channel when they return
    to their source, new vouchers otherwise. *)
Definition received_coin (packet : Packet) (coin : PrefixedCoin) : PrefixedCoin :=
  if is_receiver_chain_source (port_id_on_a packet) (chan_id_on_a packet) (denom coin)
  then mkCoin (remove_trace_prefix (denom coin)
         (mkTracePrefix (port_id_on_a packet) (chan_id_on_a packet))) (amount coin)
  else mkCoin (add_trace_prefix (denom coin)
         (mkTracePrefix (port_id_on_b packet) (chan_id_on_b packet))) (amount coin).
Definition paid_out (t t' : T) (receiver : AccountId) (packet : Packet) (coin : PrefixedCoin) :
    Prop :=
  let chan := (port_id_on_b packet, chan_id_on_b packet) in
  if is_receiver_chain_source (port_id_on_a packet) (chan_id_on_a packet) (denom coin)
  then changes t t' receiver chan (received_coin packet coin) 1 (-1) 0
  else changes t t' receiver chan (received_coin packet coin) 1 0 1.

Lemma with_extras_Err {A} extras (m : exec T TokenTransferError A) t t' e :
  with_extras extras m t = (t', Err e) ↔ ∃ err, m t = (t', Err err) ∧ e = (extras, err).
Proof. unfold with_extras. destruct (m t) as [? [?|?|]]; cbn; naive_solver. Qed.

Lemma same_bank_refl (t : T) : same_bank t t.
Proof. by repeat split. Qed.

(** Inverts the steps of a handler run that returned [Ok]. *)
Ltac inv_steps :=
  repeat match goal with
  | H : (_ ≫= _) _ = (_, Ok _) |- _ => apply exec_bind_Ok in H as (? & ? & ? & ?)
  | H : with_extras _ _ _ = (_, Ok _) |- _ => apply with_extras_Ok in H
  | H : reads _ _ = (_, Ok _) |- _ => apply reads_Ok in H as [-> H]
  | H : lift _ _ = (_, Ok _) |- _ => apply lift_Ok in H as [-> H]
  | H : mret _ _ = (_, Ok _) |- _ => apply exec_ret_Ok in H as [-> H]
  | H : parse_account _ = Ok _ |- _ => apply parse_account_Ok in H
  end; destruct_units.

(** The same for a run that returned [Err]: the steps before the failing one are
    inverted, the failing one is left. *)
Ltac inv_failure :=
  repeat match goal with
  | H : (_ ≫= _) _ = (_, Err _) |- _ => apply exec_bind_Err in H as [?|(? & ? & ? & ?)]
  | H : with_extras _ _ _ = (_, Err _) |- _ => apply with_extras_Err in H as (? & H & ?)
  | H : reads _ _ = (_, Err _) |- _ => apply reads_state in H as ->
  | H : lift _ _ = (_, Err _) |- _ => apply lift_state in H as ->
  | H : mret _ _ = (_, Err _) |- _ => discriminate H
  end; inv_steps.

Lemma process_recv_Ok packet d t t' extras :
  process_recv_packet_execute packet d t = (t', Ok extras) →
  ∃ receiver, account_try_from (pd_receiver d) = Some receiver
    ∧ paid_out t t' receiver packet (token d).
Proof.
  unfold process_recv_packet_execute, paid_out, received_coin. intros Hx. inv_steps.
  eexists. split; [done|]. destruct (is_receiver_chain_source _ _ _); inv_steps.
  - by eapply unescrow_law.
  - by eapply mint_law.
Qed.

(** A transfer that fails leaves the bank as it was. *)
Lemma process_recv_Err packet d t t' e :
  process_recv_packet_execute packet d t = (t', Err e) → same_bank t t'.
Proof.
  unfold process_recv_packet_execute. intros Hx.
  inv_failure; try apply same_bank_refl.
  destruct (is_receiver_chain_source _ _ _); inv_failure; try apply same_bank_refl.
  - by eapply unescrow_failure.
  - by eapply mint_failure.
Qed.

(** *** Callbacks *)

(** The two acknowledgements the application writes. *)
Definition success_ack : Acknowledgement :=
  mkAcknowledgement (AcknowledgementStatus_into_vec (AckSuccess (mkStatusValue ACK_SUCCESS_B64))).
Definition error_ack (err : TokenTransferError) : Acknowledgement :=
  mkAcknowledgement (AcknowledgementStatus_into_vec
    (AckError (mkStatusValue (TokenTransferError_to_string err)))).

(** The [expect] of the conversion never fails. *)
Lemma StatusValue_from_error_Ok {E} err :
  StatusValue_from_error (E:=E) err = Ok (mkStatusValue (TokenTransferError_to_string err)).
Proof. by destruct err. Qed.

Lemma ack_success_json :
  ack_status_from_slice (ack_bytes success_ack) = Some (AckSuccess (mkStatusValue ACK_SUCCESS_B64)).
Proof. apply ack_status_json. by vm_compute. Qed.

Lemma on_recv_packet_effect packet d t t' extras ack :
  packet_data_from_slice (data packet) = Some d →
  Ics20.on_recv_packet_execute packet t = (t', Ok (extras, ack)) →
  (ack = success_ack ∧ ∃ receiver, account_try_from (pd_receiver d) = Some receiver
     ∧ paid_out t t' receiver packet (token d))
  ∨ (∃ err, ack = error_ack err ∧ same_bank t t').
Proof.
  intros Hd. unfold Ics20.on_recv_packet_execute. rewrite Hd.
  destruct (process_recv_packet_execute packet d t) as [t1 [ex|[ex err]|]] eqn:E; [| |done].
  - run_exec. cbn. rewrite Acknowledgement_from_Ok. intros [= <- <- <-]. left. split; [done|].
    by eapply process_recv_Ok.
  - run_exec. rewrite StatusValue_from_error_Ok. cbn. rewrite Acknowledgement_from_Ok.
    intros [= <- <- <-]. right. exists err. split; [done|]. by eapply process_recv_Err.
Qed.

(** Whatever arrives is answered. *)
Lemma on_recv_packet_cases packet t t' extras ack :
  Ics20.on_recv_packet_execute packet t = (t', Ok (extras, ack)) →
  match packet_data_from_slice (data packet) with
  | Some d =>
    (ack = success_ack ∧ ∃ receiver, account_try_from (pd_receiver d) = Some receiver
       ∧ paid_out t t' receiver packet (token d))
    ∨ ∃ err, ack = error_ack err ∧ same_bank t t'
  | None => ack = error_ack PacketDataDeserialization ∧ t' = t
  end.
Proof.
  intros Hx. destruct (packet_data_from_slice (data packet)) as [d|] eqn:E.
  - by eapply on_recv_packet_effect.
  - unfold Ics20.on_recv_packet_execute in Hx. rewrite E in Hx. revert Hx. run_exec.
    rewrite StatusValue_from_error_Ok. cbn. rewrite Acknowledgement_from_Ok. by intros [= <- _ <-].
Qed.

Lemma on_timeout_packet_effect packet d signer t t' extras :
  packet_data_from_slice (data packet) = Some d →
  Ics20.on_timeout_packet_execute packet signer t = (t', Ok (extras, Ok tt)) →
  ∃ sender, account_try_from (pd_sender d) = Some sender
    ∧ given_back t t' sender (port_id_on_a packet) (chan_id_on_a packet) (token d).
Proof.
  intros Hd. unfold Ics20.on_timeout_packet_execute. rewrite Hd.
  destruct (refund_packet_token_execute packet d t) as [t1 [[]|e|]] eqn:E; intros [= <- _].
  by apply refund_effect.
Qed.

Lemma on_ack_packet_effect packet d ack signer t t' extras status :
  packet_data_from_slice (data packet) = Some d →
  ack_status_from_slice (ack_bytes ack) = Some status →
  Ics20.on_acknowledgement_packet_execute packet ack signer t = (t', Ok (extras, Ok tt)) →
  if is_successful status then t' = t
  else ∃ sender, account_try_from (pd_sender d) = Some sender
    ∧ given_back t t' sender (port_id_on_a packet) (chan_id_on_a packet) (token d).
Proof.
  intros Hd Hs. unfold Ics20.on_acknowledgement_packet_execute. rewrite Hd, Hs.
  destruct (is_successful status); cbn [negb]; [by intros [= <- _]|].
  destruct (refund_packet_token_execute packet d t) as [t1 [[]|e|]] eqn:E; intros [= <- _].
  by apply refund_effect.
Qed.
End effects.

(** ** Transfers and refunds *)

Section transfers.
Context `{TmTime, !ChainTypes, !LightClient, host : !Host, !Codec, !Sha256}.
Context `{Unicode, U256Dec, !U256DecLaws, TransferJson, !TransferJsonLaws}.
Context {T : Type} `{!TokenContext T, !Bank T, !BankLaws T}.

Lemma changes_undo t t1 t2 a chan coin b e s :
  changes (T:=T) t t1 a chan coin b e s → changes t1 t2 a chan coin (-b) (-e) (-s) →
  same_bank t t2.
Proof.
  intros [Hb He Hs] [Hb' He' Hs']. split_and!; intros.
  - apply N2Z.inj. rewrite Hb', Hb. unfold delta. case_decide; lia.
  - apply N2Z.inj. rewrite He', He. unfold delta. case_decide; lia.
  - apply N2Z.inj. rewrite Hs', Hs. unfold delta. case_decide; lia.
Qed.

Lemma sent_out_given_back t t1 t2 sender p c coin :
  sent_out (T:=T) t t1 sender p c coin → given_back t1 t2 sender p c coin → same_bank t t2.
Proof.
  unfold sent_out, given_back. destruct (is_sender_chain_source p c (denom coin)); apply changes_undo.
Qed.

Lemma send_packet_committed packet s s1 s' :
  send_packet packet s = (s1, Ok tt) → same_state s1 s' →
  get_packet_commitment s' (commitment_path_on_a packet) = packet_commitment_of packet.
Proof.
  intros Hp (_ & _ & _ & _ & _ & _ & _ & Hc & _).
  unfold send_packet, send_packet_execute in Hp. inv_exec. unfold get_packet_commitment.
  rewrite Hc. cbn. rewrite pcs_get_insert, decide_True by done.
  match goal with H : packet_commitment_of packet = _ |- _ => by rewrite H end.
Qed.

(** C16: A successful transfer takes the coins from the sender, into the escrow of the
    channel or out of existence, and commits to a packet with the transfer's data;
    if that packet later times out or comes back with an error, exactly these
    coins are given back to the same account, whatever happened to the bank in
    between, and a success acknowledgement changes nothing.  In particular a
    refund right after the transfer restores the bank. *)
Theorem refund_undoes_transfer msg s t s' t' :
  send_transfer msg (s, t) = ((s', t'), Ok tt) → data_wf (packet_data msg) →
  ∃ seq remote sender,
    let packet := transfer_packet msg seq remote in
    let p := mt_port_id_on_a msg in
    let c := mt_chan_id_on_a msg in
    let coin := token (packet_data msg) in
    account_try_from (pd_sender (packet_data msg)) = Some sender
    ∧ get_packet_commitment s' (commitment_path_on_a packet) = packet_commitment_of packet
    ∧ packet_data_from_slice (data packet) = Some (packet_data msg)
    ∧ sent_out t t' sender p c coin
    ∧ ∀ t1 t2 signer extras,
        (Ics20.on_timeout_packet_execute packet signer t1 = (t2, Ok (extras, Ok tt)) →
           given_back t1 t2 sender p c coin ∧ (t1 = t' → same_bank t t2))
        ∧ ∀ ack status, ack_status_from_slice (ack_bytes ack) = Some status →
            Ics20.on_acknowledgement_packet_execute packet ack signer t1
              = (t2, Ok (extras, Ok tt)) →
            if is_successful status then t2 = t1
            else given_back t1 t2 sender p c coin ∧ (t1 = t' → same_bank t t2).
Proof.
  intros Hx Hd.
  apply send_transfer_effect in Hx as (c & chan_b & seq & sender & s1 & [Hc Hr Hn Ha] & Hp & Hs & Ho).
  exists seq, (rem_port_id (chan_remote c), chan_b), sender. cbv zeta.
  set (packet := transfer_packet msg seq (rem_port_id (chan_remote c), chan_b)) in *.
  assert (packet_data_from_slice (data packet) = Some (packet_data msg)) as Hj
    by by apply packet_data_json.
  split_and!; [done|by eapply send_packet_committed|done|done|].
  intros t1 t2 signer extras. split.
  - intros Hx. destruct (on_timeout_packet_effect _ _ _ _ _ _ Hj Hx) as (sender' & Ha' & Hg).
    simplify_eq. split; [done|]. intros ->. by eapply sent_out_given_back.
  - intros ack status Es Hx. pose proof (on_ack_packet_effect _ _ _ _ _ _ _ _ Hj Es Hx) as He.
    destruct (is_successful status); [done|]. destruct He as (sender' & Ha' & Hg). simplify_eq.
    split; [done|]. intros ->. by eapply sent_out_given_back.
Qed.

(** C17: Receiving a transfer writes the success acknowledgement exactly when the coins
    are paid out, under the denomination seen from this chain; in every other case
    it writes an error acknowledgement and the bank is as before.  Data that cannot
    be decoded is answered with an error. *)
Theorem transfer_received_once packet t t' extras ack :
  Ics20.on_recv_packet_execute packet t = (t', Ok (extras, ack)) →
  match packet_data_from_slice (data packet) with
  | Some d =>
    (ack = success_ack ∧ ∃ receiver, account_try_from (pd_receiver d) = Some receiver
       ∧ paid_out t t' receiver packet (token d))
    ∨ ∃ err, ack = error_ack err ∧ same_bank t t'
  | None => ack = error_ack PacketDataDeserialization ∧ t' = t
  end.
Proof. apply on_recv_packet_cases. Qed.

(** The text of an error goes into the acknowledgement unescaped: an error of the
    receiving bank whose text has a bare quote is acknowledged with bytes that the
    sender cannot decode, so the acknowledgement is never accepted and the sender
    is never refunded. *)
Theorem quoted_error_never_refunded packet d e v w (t t' t1 : T) extras signer :
  packet_data_from_slice (data packet) = Some d →
  process_recv_packet_execute packet d t = (t', Err (extras, e)) →
  TokenTransferError_to_string e = (v ++ String QUOTE w)%string →
  plain v = true → plain w = true →
  ∃ extras', Ics20.on_recv_packet_execute packet t = (t', Ok (extras', error_ack e))
    ∧ Ics20.on_acknowledgement_packet_validate t1 packet (error_ack e) signer
      = Err AckDeserialization
    ∧ Ics20.on_acknowledgement_packet_execute packet (error_ack e) signer t1
      = (t1, Ok (ModuleExtras_empty, Err AckDeserialization)).
Proof.
  intros Hd Hx He Hv Hw.
  assert (ack_status_from_slice (ack_bytes (error_ack e)) = None) as Hn.
  { unfold error_ack. cbn [ack_bytes]. rewrite He. by apply ack_status_bare_quote. }
  eexists. split_and!.
  - unfold Ics20.on_recv_packet_execute. rewrite Hd, Hx. run_exec.
    rewrite StatusValue_from_error_Ok. cbn. by rewrite Acknowledgement_from_Ok.
  - unfold Ics20.on_acknowledgement_packet_validate. rewrite Hd. mstep. by rewrite Hn.
  - unfold Ics20.on_acknowledgement_packet_execute. by rewrite Hd, Hn.
Qed.
End transfers.

(** ** Two chains and one channel *)

Section system.
Context `{TmTime, !ChainTypes, !LightClient, !Codec, !Sha256}.
Context `{Unicode, U256Dec, !U256DecLaws, TransferJson, !TransferJsonLaws}.
Context {T : Type} `{!TokenContext T, !Bank T, !BankLaws T}.

(** The two ends of the channel. *)
Context (ends : side → PortId * ChannelId).

Definition end_prefix (σ : side) : TracePrefix := mkTracePrefix (ends σ).1 (ends σ).2.
(** [d] is not a voucher of the channel on the side [σ]. *)
Definition source (σ : side) (d : PrefixedDenom) : bool :=
  is_sender_chain_source (ends σ).1 (ends σ).2 d.
(** What the tokens [d] of [σ] are called on the other side. *)
Definition voucher (σ : side) (d : PrefixedDenom) : PrefixedDenom :=
  add_trace_prefix d (end_prefix (other σ)).

(** A transfer under way: where it started, its packet, and the acknowledgement
    once it is received. *)
Record Flight := mkFlight {
  origin : side; flight_packet : Packet; flight_ack : option Acknowledgement }.

Record System := mkSystem { bank_of : side → T; flights : list Flight }.
Definition set_bank (σ : side) (t : T) (S : System) : System :=
  mkSystem (λ τ, if decide (τ = σ) then t else bank_of S τ) (flights S).
Definition set_flights (l : list Flight) (S : System) : System := mkSystem (bank_of S) l.

(** What everything else on the chain [σ] leaves alone: the escrow of the channel
    and the supply of its vouchers. *)
Definition untouched (σ : side) (t t' : T) : Prop :=
  (∀ d, escrowed t' (ends σ) d = escrowed t (ends σ) d)
  ∧ ∀ d, source σ d = false → supply t' d = supply t d.

(** Transfers in both directions, each in a host of its own time and height.  A packet is received, acknowledged or timed out
    at most once and only if it was sent, and not both received and timed out:
    that is what the channel guarantees. *)
Inductive step : System → System → Prop :=
| step_send (h : Host) σ msg s s' t' c seq S :
    (mt_port_id_on_a msg, mt_chan_id_on_a msg) = ends σ →
    pc_get (channels s) (ends σ).1 (ends σ).2 = Some c →
    chan_remote c = mkChanCounterparty (ends (other σ)).1 (Some (ends (other σ)).2) →
    pc_get (next_sequence_send s) (ends σ).1 (ends σ).2 = Some seq →
    data_wf (packet_data msg) →
    send_transfer (host:=h) msg (s, bank_of S σ) = ((s', t'), Ok tt) →
    step S (set_bank σ t' (set_flights
      (mkFlight σ (transfer_packet msg seq (ends (other σ))) None :: flights S) S))
| step_recv S l1 σ packet l2 t' extras ack :
    flights S = (l1 ++ mkFlight σ packet None :: l2)%list →
    Ics20.on_recv_packet_execute packet (bank_of S (other σ)) = (t', Ok (extras, ack)) →
    step S (set_bank (other σ) t' (set_flights (l1 ++ mkFlight σ packet (Some ack) :: l2)%list S))
| step_ack S l1 σ packet ack l2 t' extras signer :
    flights S = (l1 ++ mkFlight σ packet (Some ack) :: l2)%list →
    Ics20.on_acknowledgement_packet_execute packet ack signer (bank_of S σ)
      = (t', Ok (extras, Ok tt)) →
    step S (set_bank σ t' (set_flights (l1 ++ l2)%list S))
| step_timeout S l1 σ packet l2 t' extras signer :
    flights S = (l1 ++ mkFlight σ packet None :: l2)%list →
    Ics20.on_timeout_packet_execute packet signer (bank_of S σ) = (t', Ok (extras, Ok tt)) →
    step S (set_bank σ t' (set_flights (l1 ++ l2)%list S))
| step_host S σ t' : untouched σ (bank_of S σ) t' → step S (set_bank σ t' S).

(** The channel is new: nothing in escrow, no vouchers, nothing under way. *)
Definition initial (S : System) : Prop :=
  flights S = [] ∧ ∀ σ, (∀ d, escrowed (bank_of S σ) (ends σ) d = 0)
    ∧ ∀ d, source σ d = false → supply (bank_of S σ) d = 0.

(** *** The books *)

(** Of the tokens [d] of [σ], what a transfer of [coin] from [τ] carries. *)
Definition carried (σ : side) (d : PrefixedDenom) (τ : side) (coin : PrefixedCoin) : Z :=
  delta (denom coin) (if decide (σ = τ) then d else voucher σ d) (Z.of_N (amount coin)).
(** A transfer is pending until its coins are paid out or given back. *)
Definition pending (σ : side) (d : PrefixedDenom) (f : Flight) : Z :=
  match packet_data_from_slice (data (flight_packet f)) with
  | Some pd => if decide (flight_ack f = Some success_ack) then 0%Z
               else carried σ d (origin f) (token pd)
  | None => 0%Z
  end.
Definition total_pending (σ : side) (d : PrefixedDenom) (l : list Flight) : Z :=
  foldr (λ f z, (pending σ d f + z)%Z) 0%Z l.
(** What the bank of [τ] adds to the balance of the books of [d] of [σ]. *)
Definition held (σ : side) (d : PrefixedDenom) (τ : side) (t : T) : Z :=
  if decide (σ = τ) then Z.of_N (escrowed t (ends τ) d) else (- Z.of_N (supply t (voucher σ d)))%Z.

Definition balanced (S : System) : Prop :=
  ∀ σ d, source σ d = true →
    (held σ d σ (bank_of S σ) + held σ d (other σ) (bank_of S (other σ)))%Z
    = total_pending σ d (flights S).

(** Packets under way run between the two ends, carry data, and are unanswered or
    answered by one of the two acknowledgements. *)
Definition flight_wf (f : Flight) : Prop :=
  let p := flight_packet f in
  (port_id_on_a p, chan_id_on_a p) = ends (origin f)
  ∧ (port_id_on_b p, chan_id_on_b p) = ends (other (origin f))
  ∧ is_Some (packet_data_from_slice (data p))
  ∧ match flight_ack f with
    | None => True
    | Some ack => ack = success_ack ∨ ∃ err, ack = error_ack err
    end.

(** *** Each operation keeps the books *)

Lemma source_voucher σ d : source (other σ) (voucher σ d) = false.
Proof.
  unfold source, is_sender_chain_source, voucher, end_prefix. by rewrite receiver_source_add_prefix.
Qed.
Lemma voucher_inj σ d1 d2 : voucher σ d1 = voucher σ d2 → d1 = d2.
Proof.
  intros Hv. rewrite <- (remove_add_trace_prefix d1 (end_prefix (other σ))).
  unfold voucher in Hv. by rewrite Hv, remove_add_trace_prefix.
Qed.

Lemma delta_eq {K} `{EqDecision K} (k : K) z : delta k k z = z.
Proof. unfold delta. by rewrite decide_True. Qed.
Lemma delta_ne {K} `{EqDecision K} (k k' : K) z : k ≠ k' → delta k k' z = 0%Z.
Proof. intros ?. unfold delta. by rewrite decide_False. Qed.
Lemma delta_pair {K L} `{EqDecision K, EqDecision L} (k : K) (l l' : L) z :
  delta (k, l) (k, l') z = delta l l' z.
Proof. unfold delta. do 2 case_decide; simplify_eq; done. Qed.
Lemma delta_scale {K} `{EqDecision K} (k k' : K) a z : delta k k' (a * z)%Z = (a * delta k k' z)%Z.
Proof. unfold delta. case_decide; lia. Qed.
Lemma delta_inj {K L} `{EqDecision K, EqDecision L} (f : K → L) k k' z :
  (f k = f k' → k = k') → delta (f k) (f k') z = delta k k' z.
Proof. intros Hf. unfold delta. do 2 case_decide; simplify_eq; naive_solver. Qed.

(** Two denominations that differ in being vouchers of the channel. *)
Lemma delta_source σ d d' z : source σ d ≠ source σ d' → delta d d' z = 0%Z.
Proof. intros Hs. apply delta_ne. intros ->. done. Qed.

(** A change of [e] in escrow and of [s] in supply, seen in the books. *)
Lemma changes_held σ d τ t t' a coin b e s :
  changes t t' a (ends τ) coin b e s →
  held σ d τ t' = (held σ d τ t + if decide (σ = τ)
    then e * delta (denom coin) d (Z.of_N (amount coin))
    else - (s * delta (denom coin) (voucher σ d) (Z.of_N (amount coin))))%Z.
Proof.
  intros [_ He Hs]. unfold held. case_decide.
  - rewrite He, delta_pair, delta_scale. lia.
  - rewrite Hs, delta_scale. lia.
Qed.

Lemma moved_held σ d τ t t' a coin (out : Z) :
  source σ d = true →
  (if source τ (denom coin) then changes t t' a (ends τ) coin (- out) out 0
   else changes t t' a (ends τ) coin (- out) 0 (- out)) →
  held σ d τ t' = (held σ d τ t + out * carried σ d τ coin)%Z.
Proof.
  intros Hd Hc. unfold carried. destruct (source τ (denom coin)) eqn:Hk;
    rewrite (changes_held _ _ _ _ _ _ _ _ _ _ Hc); destruct (side_cases σ τ) as [->| ->].
  - by rewrite !decide_True by done.
  - rewrite !decide_False by (by destruct τ). rewrite (delta_source τ); [lia|].
    pose proof (source_voucher (other τ) d) as Hv. rewrite other_involutive in Hv. congruence.
  - rewrite !decide_True by done. rewrite (delta_source τ); [lia|congruence].
  - rewrite !decide_False by (by destruct τ). lia.
Qed.

Lemma paid_out_held σ d τ t t' a packet coin :
  source σ d = true →
  (port_id_on_a packet, chan_id_on_a packet) = ends τ →
  (port_id_on_b packet, chan_id_on_b packet) = ends (other τ) →
  paid_out t t' a packet coin →
  held σ d (other τ) t' = (held σ d (other τ) t - carried σ d τ coin)%Z.
Proof.
  intros Hd Ha Hb. unfold paid_out, received_coin, carried.
  assert (is_receiver_chain_source (port_id_on_a packet) (chan_id_on_a packet) (denom coin)
          = negb (source τ (denom coin))) as ->.
  { unfold source, is_sender_chain_source. by rewrite <- Ha, negb_involutive. }
  rewrite Hb. intros Hc. destruct (source τ (denom coin)) eqn:Hk; cbn [negb] in Hc;
    rewrite (changes_held _ _ _ _ _ _ _ _ _ _ Hc); cbn [denom amount];
    destruct (side_cases σ τ) as [->| ->].
  - rewrite !decide_False, decide_True by (by destruct τ).
    replace (mkTracePrefix (port_id_on_b packet) (chan_id_on_b packet)) with (end_prefix (other τ))
      by (unfold end_prefix; by rewrite <- Hb).
    fold (voucher τ (denom coin)). rewrite (delta_inj (voucher τ)) by apply voucher_inj. lia.
  - rewrite decide_True, decide_False by (by destruct τ). rewrite (delta_source τ (denom coin)); [lia|].
    pose proof (source_voucher (other τ) d) as Hv. rewrite other_involutive in Hv. congruence.
  - rewrite !decide_False, decide_True by (by destruct τ). rewrite (delta_source τ (denom coin)); [lia|].
    congruence.
  - rewrite decide_True, decide_False by (by destruct τ).
    replace (mkTracePrefix (port_id_on_a packet) (chan_id_on_a packet)) with (end_prefix τ)
      by (unfold end_prefix; by rewrite <- Ha).
    assert (voucher (other τ) (remove_trace_prefix (denom coin) (end_prefix τ)) = denom coin) as Hv.
    { unfold voucher. rewrite other_involutive. apply add_remove_trace_prefix.
      unfold source, is_sender_chain_source in Hk. by apply negb_false_iff in Hk. }
    rewrite <- Hv at 2. rewrite (delta_inj (voucher (other τ))) by apply voucher_inj. lia.
Qed.

Lemma untouched_held σ d τ t t' : untouched τ t t' → held σ d τ t' = held σ d τ t.
Proof.
  intros [He Hs]. unfold held. case_decide as Hd; [by rewrite He|]. f_equal. f_equal. apply Hs.
  destruct (side_cases σ τ) as [?| ->]; [done|].
  pose proof (source_voucher (other τ) d) as Hv. by rewrite other_involutive in Hv.
Qed.

Lemma same_bank_untouched τ t t' : same_bank t t' → untouched τ t t'.
Proof. intros (_ & He & Hs). by split. Qed.

Lemma total_pending_app σ d l1 l2 :
  total_pending σ d (l1 ++ l2)%list = (total_pending σ d l1 + total_pending σ d l2)%Z.
Proof. induction l1 as [|f l1 IH]; cbn; [done|]. unfold total_pending in *. lia. Qed.
Lemma total_pending_cons σ d f l :
  total_pending σ d (f :: l) = (pending σ d f + total_pending σ d l)%Z.
Proof. done. Qed.

(** When one bank moves and the pending transfers move by as much, the books stay
    balanced. *)
Lemma balanced_step S τ t' l :
  (∀ σ d, source σ d = true →
     (held σ d τ t' - held σ d τ (bank_of S τ))%Z
     = (total_pending σ d l - total_pending σ d (flights S))%Z) →
  balanced S → balanced (set_bank τ t' (set_flights l S)).
Proof.
  intros Hstep Hb σ d Hd. specialize (Hb σ d Hd). specialize (Hstep σ d Hd).
  cbn [bank_of set_bank set_flights flights]. destruct (side_cases τ σ) as [->| ->].
  - rewrite decide_True, decide_False by (by destruct σ). lia.
  - rewrite decide_False, decide_True by (by destruct σ). lia.
Qed.

Lemma error_ack_ne err : error_ack err ≠ success_ack.
Proof.
  intros He. pose proof ack_success_json as Hs. rewrite <- He in Hs.
  by apply ack_status_first_key in Hs.
Qed.

Definition all_wf (S : System) : Prop := Forall flight_wf (flights S).

Lemma flights_split S l1 f l2 :
  all_wf S → flights S = (l1 ++ f :: l2)%list →
  flight_wf f ∧ Forall flight_wf (l1 ++ l2)%list ∧ Forall flight_wf l1 ∧ Forall flight_wf l2.
Proof.
  unfold all_wf. intros Hw Hl. rewrite Hl in Hw. apply Forall_app in Hw as [Hw1 Hw2].
  apply Forall_cons_iff in Hw2 as [Hf Hw2].
  split_and!; [done| |done|done]. by apply Forall_app.
Qed.

Lemma step_wf S S' : all_wf S → step S S' → all_wf S'.
Proof.
  intros Hw Hs.
  destruct Hs as [h σ msg s s' t' c seq S Hm Hc Hr Hn Hd Hx|S l1 σ packet l2 t' extras ack Hl Hx
    |S l1 σ packet ack l2 t' extras signer Hl Hx|S l1 σ packet l2 t' extras signer Hl Hx|S σ t' Hu]; unfold all_wf; cbn.
  - constructor; [|done]. unfold flight_wf. cbn. split_and!; [done|by rewrite <- surjective_pairing| |done].
    by rewrite packet_data_json.
  - destruct (flights_split _ _ _ _ Hw Hl) as ((Ha & Hb & [pd Hd] & _) & _ & Hw1 & Hw2). cbn in *.
    apply Forall_app. split; [done|]. constructor; [|done]. split_and!; [done..|by eexists|].
    cbn. destruct (on_recv_packet_effect _ _ _ _ _ _ Hd Hx) as [[-> _]|(err & -> & _)]; eauto.
  - by destruct (flights_split _ _ _ _ Hw Hl) as (_ & ? & _).
  - by destruct (flights_split _ _ _ _ Hw Hl) as (_ & ? & _).
  - done.
Qed.

Lemma sent_out_held σ d τ t t' a p c coin :
  source σ d = true → (p, c) = ends τ → sent_out t t' a p c coin →
  held σ d τ t' = (held σ d τ t + carried σ d τ coin)%Z.
Proof.
  intros Hd He Ho. rewrite (moved_held σ d τ t t' a coin 1); [lia|done|].
  unfold source. rewrite <- He. exact Ho.
Qed.
Lemma given_back_held σ d τ t t' a p c coin :
  source σ d = true → (p, c) = ends τ → given_back t t' a p c coin →
  held σ d τ t' = (held σ d τ t - carried σ d τ coin)%Z.
Proof.
  intros Hd He Ho. rewrite (moved_held σ d τ t t' a coin (-1)); [lia|done|].
  unfold source. rewrite <- He. exact Ho.
Qed.

(** A transfer that ends without being paid out, or that was paid out. *)
Lemma balanced_drop S l1 f l2 τ t' :
  flights S = (l1 ++ f :: l2)%list →
  (∀ σ d, source σ d = true → held σ d τ t' = (held σ d τ (bank_of S τ) - pending σ d f)%Z) →
  balanced S → balanced (set_bank τ t' (set_flights (l1 ++ l2)%list S)).
Proof.
  intros Hl Hh. apply balanced_step. intros σ d Hd. rewrite Hh by done.
  rewrite Hl, !total_pending_app, total_pending_cons. lia.
Qed.

Lemma step_balanced S S' : all_wf S → balanced S → step S S' → balanced S'.
Proof.
  intros Hw Hb Hs.
  destruct Hs as [h σ msg s s' t' c seq S Hm Hc Hr Hn Hd Hx|S l1 σ packet l2 t' extras ack Hl Hx
    |S l1 σ packet ack l2 t' extras signer Hl Hx|S l1 σ packet l2 t' extras signer Hl Hx|S σ t' Hu].
  - apply balanced_step; [|done]. intros σ' d Hsrc. rewrite total_pending_cons.
    apply send_transfer_effect in Hx as (c' & chan_b & seq' & sender & s1 & _ & _ & _ & Ho).
    rewrite (sent_out_held _ _ _ _ _ _ _ _ _ Hsrc Hm Ho). unfold pending.
    cbn [flight_packet flight_ack origin data transfer_packet]. rewrite packet_data_json by done.
    rewrite decide_False by done. lia.
  - destruct (flights_split _ _ _ _ Hw Hl) as ((Ha & Hb' & [pd Hd] & _) & _). cbn in *.
    apply balanced_step; [|done]. intros σ' d Hsrc. rewrite Hl, !total_pending_app, !total_pending_cons.
    unfold pending. cbn [flight_packet flight_ack origin]. rewrite Hd.
    rewrite (decide_False (P:=None = Some success_ack)) by done.
    destruct (on_recv_packet_effect _ _ _ _ _ _ Hd Hx) as [(-> & receiver & _ & Hp)|(err & -> & Hsame)].
    + rewrite decide_True by done. rewrite (paid_out_held σ' d σ _ t' receiver packet (token pd) Hsrc Ha Hb' Hp). lia.
    + rewrite decide_False by (intros [=]; by eapply error_ack_ne).
      rewrite (untouched_held _ _ _ _ _ (same_bank_untouched _ _ _ Hsame)). lia.
  - destruct (flights_split _ _ _ _ Hw Hl) as ((Ha & _ & [pd Hd] & Hk) & _). cbn in *.
    eapply balanced_drop; [done| |done]. intros σ' d Hsrc. unfold pending.
    cbn [flight_packet flight_ack origin]. rewrite Hd. destruct Hk as [->|[err ->]].
    + pose proof (on_ack_packet_effect _ _ _ _ _ _ _ _ Hd ack_success_json Hx) as He. cbn in He.
      subst t'. rewrite decide_True by done. lia.
    + rewrite decide_False by (intros [=]; by eapply error_ack_ne).
      destruct (ack_status_from_slice (ack_bytes (error_ack err))) as [status|] eqn:Es.
      2: { unfold Ics20.on_acknowledgement_packet_execute in Hx. by rewrite Hd, Es in Hx. }
      pose proof (on_ack_packet_effect _ _ _ _ _ _ _ _ Hd Es Hx) as He.
      rewrite (ack_status_first_key _ _ Es) in He. destruct He as (sender & _ & Hg).
      by rewrite (given_back_held _ _ _ _ _ _ _ _ _ Hsrc Ha Hg).
  - destruct (flights_split _ _ _ _ Hw Hl) as ((Ha & _ & [pd Hd] & _) & _). cbn in *.
    eapply balanced_drop; [done| |done]. intros σ' d Hsrc. unfold pending.
    cbn [flight_packet flight_ack origin]. rewrite Hd, decide_False by done.
    destruct (on_timeout_packet_effect _ _ _ _ _ _ Hd Hx) as (sender & _ & Hg).
    by rewrite (given_back_held _ _ _ _ _ _ _ _ _ Hsrc Ha Hg).
  - apply (balanced_step S σ t' (flights S)); [|done].
    intros σ' d Hsrc. rewrite (untouched_held _ _ _ _ _ Hu). lia.
Qed.

Definition reachable (S : System) : Prop := ∃ S0, initial S0 ∧ rtc step S0 S.

Lemma initial_balanced S : initial S → all_wf S ∧ balanced S.
Proof.
  intros [Hf Hi]. unfold all_wf. rewrite Hf. split; [done|]. intros σ d Hd. rewrite Hf. unfold held.
  rewrite decide_True, decide_False by (by destruct σ).
  rewrite (proj1 (Hi σ)), (proj2 (Hi (other σ))) by apply source_voucher. done.
Qed.

Lemma reachable_balanced S : reachable S → all_wf S ∧ balanced S.
Proof.
  intros (S0 & Hi & Hr). apply initial_balanced in Hi. induction Hr as [|S1 S2 S3 Hs _ IH]; [done|].
  destruct Hi as [Hw Hb]. apply IH. split; [by eapply step_wf|by eapply step_balanced].
Qed.

Lemma pending_nonneg σ d f : (0 <= pending σ d f)%Z.
Proof.
  unfold pending, carried, delta. destruct (packet_data_from_slice _); [|done].
  repeat case_decide; lia.
Qed.
Lemma total_pending_nonneg σ d l : (0 <= total_pending σ d l)%Z.
Proof.
  induction l as [|f l IH]; [done|]. rewrite total_pending_cons. pose proof (pending_nonneg σ d f). lia.
Qed.
Lemma pending_le_total σ d f l : f ∈ l → (pending σ d f <= total_pending σ d l)%Z.
Proof.
  intros (l1 & l2 & ->)%list_elem_of_split. rewrite total_pending_app, total_pending_cons.
  pose proof (total_pending_nonneg σ d l1). pose proof (total_pending_nonneg σ d l2). lia.
Qed.

(** C10: Tokens are neither created nor lost by transfers: at any point of a run from a
    new channel, with transfers, refunds and everything else on both chains, the
    tokens [d] a chain has in escrow for the channel are the vouchers on the other
    chain plus the tokens under way in either direction. *)
Theorem vouchers_backed S σ d :
  reachable S → source σ d = true →
  (Z.of_N (escrowed (bank_of S σ) (ends σ) d)
   = Z.of_N (supply (bank_of S (other σ)) (voucher σ d)) + total_pending σ d (flights S))%Z.
Proof.
  intros [_ Hb]%reachable_balanced Hd. specialize (Hb σ d Hd). unfold held in Hb.
  rewrite decide_True, decide_False in Hb by (by destruct σ). lia.
Qed.

(** So whatever is sent back can be paid: the escrow holds at least all the
    vouchers and, on top of them, the amount of any transfer that is returning or
    may have to be refunded. *)
Theorem escrow_covers_returns S σ d f pd :
  reachable S → source σ d = true → f ∈ flights S →
  packet_data_from_slice (data (flight_packet f)) = Some pd →
  flight_ack f ≠ Some success_ack →
  denom (token pd) = (if decide (origin f = σ) then d else voucher σ d) →
  supply (bank_of S (other σ)) (voucher σ d) + amount (token pd)
  <= escrowed (bank_of S σ) (ends σ) d.
Proof.
  intros [_ Hb]%reachable_balanced Hd Hf Hj Hk Hc. specialize (Hb σ d Hd). unfold held in Hb.
  rewrite decide_True, decide_False in Hb by (by destruct σ).
  pose proof (pending_le_total σ d f _ Hf) as Hp. unfold pending in Hp.
  rewrite Hj, decide_False in Hp by done. unfold carried in Hp. rewrite Hc in Hp.
  rewrite (decide_ext (σ = origin f) (origin f = σ)) in Hp by (split; congruence).
  rewrite delta_eq in Hp. lia.
Qed.

(** *** Other channels *)

Lemma changes_elsewhere τ t t' a χ k b e s :
  changes t t' a χ k b e s → χ ≠ ends τ → (s = 0%Z ∨ source τ (denom k) = true) → untouched τ t t'.
Proof.
  intros [_ He Hs] Hne Hsrc. split; intros d.
  - apply N2Z.inj. rewrite He, delta_ne by congruence. lia.
  - intros Hd. apply N2Z.inj. rewrite Hs. destruct Hsrc as [->|Hsrc].
    + rewrite delta_scale. lia.
    + rewrite (delta_source τ) by congruence. lia.
Qed.

(** A voucher of another channel is not one of this channel. *)
Lemma source_elsewhere τ d p c :
  is_receiver_chain_source p c d = true → (p, c) ≠ ends τ → source τ d = true.
Proof.
  intros Hr Hne. unfold source, is_sender_chain_source, is_receiver_chain_source, TracePath_starts_with in *.
  destruct (list.last _) as [l|]; [|done]. apply bool_decide_eq_true in Hr as ->.
  rewrite bool_decide_eq_false_2; [done|]. intros [= -> ->]. by destruct (ends τ).
Qed.

Lemma sent_out_elsewhere τ t t' account p c coin :
  (p, c) ≠ ends τ → sent_out t t' account p c coin → untouched τ t t'.
Proof.
  intros Hne. unfold sent_out, is_sender_chain_source.
  destruct (is_receiver_chain_source p c _) eqn:E; cbn; intros Hc;
    eapply changes_elsewhere; eauto using source_elsewhere.
Qed.
Lemma given_back_elsewhere τ t t' account p c coin :
  (p, c) ≠ ends τ → given_back t t' account p c coin → untouched τ t t'.
Proof.
  intros Hne. unfold given_back, is_sender_chain_source.
  destruct (is_receiver_chain_source p c _) eqn:E; cbn; intros Hc;
    eapply changes_elsewhere; eauto using source_elsewhere.
Qed.
Lemma paid_out_elsewhere τ t t' account packet coin :
  (port_id_on_b packet, chan_id_on_b packet) ≠ ends τ → paid_out t t' account packet coin →
  untouched τ t t'.
Proof.
  intros Hne. unfold paid_out, received_coin. destruct (is_receiver_chain_source _ _ _) eqn:E;
    intros Hc; eapply changes_elsewhere; eauto.
  right. cbn. unfold source, is_sender_chain_source, is_receiver_chain_source, TracePath_starts_with.
  cbn. rewrite last_snoc, bool_decide_eq_false_2; [done|].
  intros [= Hp' Hc']. destruct (ends τ). cbn in *. congruence.
Qed.

(** Transfers over other channels of the same chain, in either direction, and their
    refunds leave the channel's escrow and its vouchers alone. *)
Theorem other_channels_untouched τ t t' account p c coin packet :
  (p, c) ≠ ends τ → (port_id_on_b packet, chan_id_on_b packet) ≠ ends τ →
  (sent_out t t' account p c coin → untouched τ t t')
  ∧ (given_back t t' account p c coin → untouched τ t t')
  ∧ (paid_out t t' account packet coin → untouched τ t t').
Proof.
  intros Hpc Hpk. split_and!.
  - by apply sent_out_elsewhere.
  - by apply given_back_elsewhere.
  - by apply paid_out_elsewhere.
Qed.
End system.
