(* ===== verification/NftTypes.v ===== *)
(** * Non-fungible tokens: classes, token identifiers and data

    The data of [ibc-apps/ics721-nft-transfer/types/src]: class identifiers with
    the trace of the channels they came over ([class.rs]), token identifiers
    ([token.rs]), URIs and data ([class.rs], [token.rs], [data.rs]), memos
    ([memo.rs]) and the errors of the application ([error.rs]).  The crates [http],
    [mime] and [base64] and the string encodings of borsh and SCALE are parameters
    ([HttpUri], [MimeLib], [Base64], [StringCodec]).

    The comments of the code say that prefixes and traces are those of ICS-20;
    [class_ids_are_denoms] proves it, and the round trip of class identifiers
    follows from the one of denominations. *)

From stdpp Require Import sorting.
From S2P Require Import Prelude RustStr Identifiers Primitives Path Connection Channel Context.
From S2P Require Import AckStatus Denom.
Local Open Scope string_scope.
Local Open Scope N_scope.
#[local] Notation last := list.last.

(** ** Libraries *)

(** [http::Uri]. *)
Class HttpUri := {
  Uri : Type;
  InvalidUri : Type;
  uri_eq_dec :: EqDecision Uri;
  uri_from_str : string → outcome InvalidUri Uri;
  uri_to_string : Uri → string;
  invalid_uri_to_string : InvalidUri → string;
}.
Class HttpUriLaws `{HttpUri} := {
  uri_parse_print u : uri_from_str (uri_to_string u) = Ok u;
  uri_parse_total s : total (uri_from_str s);
}.

(** [mime::Mime]; it compares with a text by its own text. *)
Class MimeLib := {
  Mime : Type;
  mime_from_str : string → option Mime;
  mime_to_string : Mime → string;
}.
Class MimeLaws `{MimeLib} := {
  mime_parse_print m : mime_from_str (mime_to_string m) = Some m;
  mime_not_empty m : mime_to_string m ≠ "";
}.

(** How borsh or SCALE writes and reads a text: reading returns what is left, and
    [other_error] is the error an implementation makes up itself. *)
Class StringCodec := {
  CodecError : Type;
  other_error : CodecError;
  write_string : string → bytes;
  read_string : bytes → outcome CodecError (string * bytes);
}.
Class StringCodecLaws `{StringCodec} := {
  read_write_string s rest : read_string (write_string s ++ rest)%list = Ok (s, rest);
}.

(** ** Data *)

Record ClassId := mkClassId { class_id_str : string }.
Record TracePrefix := mkTracePrefix { prefix_port_id : PortId; prefix_channel_id : ChannelId }.
(** The prefixes from the innermost to the outermost: the last one was added
    last. *)
Record TracePath := mkTracePath { trace_prefixes : list TracePrefix }.
Record PrefixedClassId := mkPrefixedClassId { trace_path : TracePath; base_class_id : ClassId }.
Record TokenId := mkTokenId { token_id_str : string }.
Record TokenIds := mkTokenIds { token_id_list : list TokenId }.
Record Data := mkData { data_str : string }.
Record ClassData := mkClassData { class_data : Data }.
Record TokenData := mkTokenData { token_data_value : Data }.
Record Memo := mkMemo { memo_str : string }.
Record ClassUri `{HttpUri} := mkClassUri { class_uri_value : Uri }.
Record TokenUri `{HttpUri} := mkTokenUri { token_uri_value : Uri }.
Arguments mkClassUri {_} class_uri_value.
Arguments mkTokenUri {_} token_uri_value.

#[export] Instance ClassId_eq_dec : EqDecision ClassId.
Proof. solve_decision. Defined.
#[export] Instance TracePrefix_eq_dec : EqDecision TracePrefix.
Proof. solve_decision. Defined.
#[export] Instance TracePath_eq_dec : EqDecision TracePath.
Proof. solve_decision. Defined.
#[export] Instance PrefixedClassId_eq_dec : EqDecision PrefixedClassId.
Proof. solve_decision. Defined.
#[export] Instance TokenId_eq_dec : EqDecision TokenId.
Proof. solve_decision. Defined.
#[export] Instance TokenIds_eq_dec : EqDecision TokenIds.
Proof. solve_decision. Defined.
#[export] Instance Data_eq_dec : EqDecision Data.
Proof. solve_decision. Defined.

(** [Ord for TokenId] is the one of its text: the bytes, lexicographically. *)
Definition TokenId_le (x y : TokenId) : Prop := String.le (token_id_str x) (token_id_str y).
#[export] Instance TokenId_le_dec : RelDecision TokenId_le.
Proof. intros x y. unfold TokenId_le. apply _. Defined.

(** ** Errors *)

Section errors.
Context `{TmTime, HttpUri}.

Inductive NftTransferError :=
| NftContextError (e : ContextError)
| NftInvalidIdentifier (e : IdentifierError)
| InvalidUriError (uri : string) (validation_error : InvalidUri)
| DestinationChannelNotFound (port_id : PortId) (channel_id : ChannelId)
| EmptyBaseClassId
| InvalidTracePortId (pos : N) (validation_error : IdentifierError)
| InvalidTraceChannelId (pos : N) (validation_error : IdentifierError)
| InvalidTraceLength (len : N)
| NoTokenId
| InvalidTokenId
| DuplicatedTokenIds
| TokenMismatched
| InvalidJsonData
| InvalidIcs721Data
| ChannelNotUnordered (expect_order got_order : Order)
| CantCloseChannel
| InvalidOwner (sender : string)
| OwnerNotFound
| NftNotFound
| NftClassNotFound
| PacketDataDeserialization
| AckDeserialization
| ReceiveDisabled (reason : string)
| SendDisabled (reason : string)
| ParseAccountFailure
| InvalidPort (port_id exp_port_id : PortId)
| DecodeRawMsg (reason : string)
| UnknownMsgType (msg_type : string)
| Utf8Decode (e : Utf8Error)
| NftOther (reason : string).

(** The conversions [?] inserts. *)
Definition err_context {A} : outcome ContextError A → outcome NftTransferError A :=
  map_err NftContextError.
Definition err_identifier {A} : outcome IdentifierError A → outcome NftTransferError A :=
  map_err NftInvalidIdentifier.
End errors.

(** ** Classes *)

Definition TracePrefix_to_string (p : TracePrefix) : string :=
  port_id_str (prefix_port_id p) ++ "/" ++ channel_id_str (prefix_channel_id p).

Definition TracePath_starts_with (self : TracePath) (prefix : TracePrefix) : bool :=
  match last (trace_prefixes self) with Some p => bool_decide (p = prefix) | None => false end.
Definition TracePath_remove_prefix (self : TracePath) (prefix : TracePrefix) : TracePath :=
  if TracePath_starts_with self prefix then mkTracePath (pop (trace_prefixes self)) else self.
Definition TracePath_add_prefix (self : TracePath) (prefix : TracePrefix) : TracePath :=
  mkTracePath (trace_prefixes self ++ [prefix])%list.
Definition TracePath_is_empty (self : TracePath) : bool :=
  match trace_prefixes self with [] => true | _ => false end.
Definition TracePath_empty : TracePath := mkTracePath [].
Definition TracePath_to_string (self : TracePath) : string :=
  join_slash (TracePrefix_to_string <$> reverse (trace_prefixes self)).

Definition remove_trace_prefix (self : PrefixedClassId) (prefix : TracePrefix) : PrefixedClassId :=
  mkPrefixedClassId (TracePath_remove_prefix (trace_path self) prefix) (base_class_id self).
Definition add_trace_prefix (self : PrefixedClassId) (prefix : TracePrefix) : PrefixedClassId :=
  mkPrefixedClassId (TracePath_add_prefix (trace_path self) prefix) (base_class_id self).

Definition is_receiver_chain_source (source_port : PortId) (source_channel : ChannelId)
    (class_id : PrefixedClassId) : bool :=
  TracePath_starts_with (trace_path class_id) (mkTracePrefix source_port source_channel).
Definition is_sender_chain_source (source_port : PortId) (source_channel : ChannelId)
    (class_id : PrefixedClassId) : bool :=
  negb (is_receiver_chain_source source_port source_channel class_id).

Definition PrefixedClassId_from_class (class_id : ClassId) : PrefixedClassId :=
  mkPrefixedClassId TracePath_empty class_id.
Definition PrefixedClassId_to_string (self : PrefixedClassId) : string :=
  if TracePath_is_empty (trace_path self) then class_id_str (base_class_id self)
  else TracePath_to_string (trace_path self) ++ "/" ++ class_id_str (base_class_id self).

(** The protobuf message [ClassTrace]. *)
Record RawClassTrace := mkRawClassTrace { raw_path : string; raw_base_class_id : string }.
Definition RawClassTrace_from (value : PrefixedClassId) : RawClassTrace :=
  mkRawClassTrace (TracePath_to_string (trace_path value)) (class_id_str (base_class_id value)).

Section classes.
Context `{TmTime, Unicode, HttpUri}.

Definition ClassId_from_str (class_id : string) : outcome NftTransferError ClassId :=
  if (trim class_id =? "")%string then Err EmptyBaseClassId else Ok (mkClassId class_id).

(** The loop over the pairs, [pos] from [enumerate]. *)
Fixpoint parse_prefixes (pos : N) (pairs : list (string * string)) :
    outcome NftTransferError (list TracePrefix) :=
  match pairs with
  | [] => Ok []
  | (port_id, channel_id) :: pairs =>
    port_id ← map_err (InvalidTracePortId pos) (PortId_from_str port_id);
    channel_id ← map_err (InvalidTraceChannelId pos) (ChannelId_from_str channel_id);
    trace ← parse_prefixes (pos + 1) pairs;
    Ok (mkTracePrefix port_id channel_id :: trace)
  end.

Definition TracePath_try_from (v : list string) : outcome NftTransferError TracePath :=
  fail_if (negb (length v mod 2 =? 0)%nat) (InvalidTraceLength (N.of_nat (length v)));;
  trace ← parse_prefixes 0 (reverse (id_pairs v));
  Ok (mkTracePath trace).

Definition TracePath_from_str (s : string) : outcome NftTransferError TracePath :=
  let parts := split SLASH s in
  let parts := match parts with
               | [part] => if (trim part =? "")%string then [] else parts
               | _ => parts
               end in
  TracePath_try_from parts.

Definition PrefixedClassId_from_str (s : string) : outcome NftTransferError PrefixedClassId :=
  let parts := split SLASH s in
  last_part ← match last parts with Some p => Ok p | None => Panic end;
  let parts := pop parts in
  if (last_part =? s)%string then
    base_class_id ← ClassId_from_str s;
    Ok (mkPrefixedClassId TracePath_empty base_class_id)
  else
    base_class_id ← ClassId_from_str last_part;
    trace_path ← TracePath_try_from parts;
    Ok (mkPrefixedClassId trace_path base_class_id).

Definition PrefixedClassId_try_from (value : RawClassTrace) :
    outcome NftTransferError PrefixedClassId :=
  base_class_id ← ClassId_from_str (raw_base_class_id value);
  trace_path ← TracePath_from_str (raw_path value);
  Ok (mkPrefixedClassId trace_path base_class_id).
End classes.

(** ** URIs and data *)

Section uris.
Context `{TmTime, HttpUri}.

Definition ClassUri_to_string (u : ClassUri) : string := uri_to_string (class_uri_value u).
Definition ClassUri_from_str (class_uri : string) : outcome NftTransferError ClassUri :=
  match uri_from_str class_uri with
  | Ok uri => Ok (mkClassUri uri)
  | Err err => Err (InvalidUriError class_uri err)
  | Panic => Panic
  end.
Definition TokenUri_to_string (u : TokenUri) : string := uri_to_string (token_uri_value u).
Definition TokenUri_from_str (token_uri : string) : outcome NftTransferError TokenUri :=
  match uri_from_str token_uri with
  | Ok uri => Ok (mkTokenUri uri)
  | Err err => Err (InvalidUriError token_uri err)
  | Panic => Panic
  end.

Definition Data_to_string (d : Data) : string := data_str d.
Definition Data_from_str (s : string) : outcome NftTransferError Data := Ok (mkData s).
Definition ClassData_to_string (d : ClassData) : string := Data_to_string (class_data d).
Definition ClassData_from_str (class_data : string) : outcome NftTransferError ClassData :=
  data ← Data_from_str class_data; Ok (mkClassData data).
Definition TokenData_to_string (d : TokenData) : string := Data_to_string (token_data_value d).
Definition TokenData_from_str (token_data : string) : outcome NftTransferError TokenData :=
  data ← Data_from_str token_data; Ok (mkTokenData data).

(** Borsh and SCALE, each with its own encoding of texts. *)
Definition ClassUri_serialize `{!StringCodec} (u : ClassUri) : bytes :=
  write_string (ClassUri_to_string u).
Definition ClassUri_deserialize_reader `{!StringCodec} (reader : bytes) :
    outcome CodecError (ClassUri * bytes) :=
  '(uri, rest) ← read_string reader;
  uri ← map_err (λ _, other_error) (ClassUri_from_str uri);
  Ok (uri, rest).
Definition ClassUri_encode_to `{!StringCodec} (u : ClassUri) : bytes :=
  write_string (ClassUri_to_string u).
Definition ClassUri_decode `{!StringCodec} (input : bytes) : outcome CodecError (ClassUri * bytes) :=
  '(uri, rest) ← read_string input;
  uri ← map_err (λ _, other_error) (ClassUri_from_str uri);
  Ok (uri, rest).
Definition TokenUri_serialize `{!StringCodec} (u : TokenUri) : bytes :=
  write_string (TokenUri_to_string u).
Definition TokenUri_deserialize_reader `{!StringCodec} (reader : bytes) :
    outcome CodecError (TokenUri * bytes) :=
  '(uri, rest) ← read_string reader;
  uri ← map_err (λ _, other_error) (TokenUri_from_str uri);
  Ok (uri, rest).
Definition TokenUri_encode_to `{!StringCodec} (u : TokenUri) : bytes :=
  write_string (TokenUri_to_string u).
Definition TokenUri_decode `{!StringCodec} (input : bytes) : outcome CodecError (TokenUri * bytes) :=
  '(uri, rest) ← read_string input;
  uri ← map_err (λ _, other_error) (TokenUri_from_str uri);
  Ok (uri, rest).

(** [Serialize] and [Deserialize] for [Data]: a JSON string in base64. *)
Definition Data_serialize `{!Base64} (d : Data) : string := base64_encode (as_bytes (data_str d)).
Definition Data_deserialize `{!Base64} (encoded : string) : option Data :=
  decoded ← base64_decode encoded;
  decoded_str ← from_utf8 decoded;
  Some (mkData decoded_str).
End uris.

(** ** Data in the format of ICS-721 *)

Section ics721_data.
Context `{TmTime, HttpUri, MimeLib}.

Record DataValue := mkDataValue { dv_value : string; dv_mime : option Mime }.
Record Ics721Data := mkIcs721Data { ics721_entries : gmap string DataValue }.

(** The JSON object [StringDataValue], which is also what is written. *)
Record StringDataValue := mkStringDataValue { sdv_value : string; sdv_mime : option string }.

Definition DataValue_serialize (self : DataValue) : StringDataValue :=
  mkStringDataValue (dv_value self)
    match dv_mime self with
    | Some mime =>
      if negb (mime_to_string mime =? "")%string then Some (mime_to_string mime) else None
    | None => None
    end.
Definition DataValue_deserialize (data_value : StringDataValue) : option DataValue :=
  mime ← match sdv_mime data_value with
         | Some s => mime ← mime_from_str s; Some (Some mime)
         | None => Some None
         end;
  Some (mkDataValue (sdv_value data_value) mime).

Definition mime_text (mime : option Mime) : string :=
  match mime with Some mime => mime_to_string mime | None => "" end.
Definition DataValue_borsh_serialize `{!StringCodec} (self : DataValue) : bytes :=
  (write_string (dv_value self) ++ write_string (mime_text (dv_mime self)))%list.
Definition DataValue_deserialize_reader `{!StringCodec} (reader : bytes) :
    outcome CodecError (DataValue * bytes) :=
  '(value, rest) ← read_string reader;
  '(mime, rest) ← read_string rest;
  mime ← (if (mime =? "")%string then Ok None
          else mime ← ok_or (mime_from_str mime) other_error; Ok (Some mime));
  Ok (mkDataValue value mime, rest).
Definition DataValue_encode_to `{!StringCodec} (self : DataValue) : bytes :=
  (write_string (dv_value self) ++ write_string (mime_text (dv_mime self)))%list.
Definition DataValue_decode `{!StringCodec} (input : bytes) :
    outcome CodecError (DataValue * bytes) :=
  '(value, rest) ← read_string input;
  '(mime_str, rest) ← read_string rest;
  mime ← (if (mime_str =? "")%string then Ok None
          else mime ← ok_or (mime_from_str mime_str) other_error; Ok (Some mime));
  Ok (mkDataValue value mime, rest).

(** [serde_json] on an object whose values are [StringDataValue]s: its members in
    order.  A map is read by inserting them in this order. *)
Context (data_object_from_str : string → option (list (string * StringDataValue))).
Definition Ics721Data_from_str (s : string) : outcome NftTransferError Ics721Data :=
  ok_or (members ← data_object_from_str s;
         members ← mapM (λ m, v ← DataValue_deserialize m.2; Some (m.1, v)) members;
         Some (mkIcs721Data (list_to_map (reverse members)))) InvalidIcs721Data.
Definition parse_as_ics721_data (self : Data) : outcome NftTransferError Ics721Data :=
  Ics721Data_from_str (data_str self).
End ics721_data.

(** ** Token identifiers *)

Section token_ids.
Context `{TmTime, HttpUri}.

Definition TokenId_from_str (token_id : string) : outcome NftTransferError TokenId :=
  if (trim token_id =? "")%string then Err InvalidTokenId else Ok (mkTokenId token_id).

(** [Vec::dedup]: consecutive equal elements are removed. *)
Fixpoint dedup (l : list TokenId) : list TokenId :=
  match l with
  | x :: (y :: _) as l1 => if bool_decide (x = y) then dedup l1 else x :: dedup l1
  | _ => l
  end.

Definition TokenIds_try_from (token_ids : list string) : outcome NftTransferError TokenIds :=
  match token_ids with
  | [] => Err NoTokenId
  | _ =>
    ids ← mapM TokenId_from_str token_ids;
    let ids := dedup (merge_sort TokenId_le ids) in
    if (length ids =? length token_ids)%nat then Ok (mkTokenIds ids) else Err DuplicatedTokenIds
  end.

Definition TokenIds_to_string (self : TokenIds) : string :=
  String.concat "," (token_id_str <$> token_id_list self).
End token_ids.

Definition Memo_from_str {E} (memo : string) : outcome E Memo := Ok (mkMemo memo).
Definition Memo_from_string (memo : string) : Memo := mkMemo memo.

(** ** Class identifiers are denominations *)

(** Two results of the same code: both fail or both return, with related values. *)
Definition outcome_sim {A B E F} (RA : A → B → Prop) (RE : E → F → Prop) (x : outcome E A)
    (y : outcome F B) : Prop :=
  match x, y with
  | Ok a, Ok b => RA a b
  | Err e, Err f => RE e f
  | Panic, Panic => True
  | _, _ => False
  end.

Lemma outcome_sim_bind {A A' B B' E F} (RA : A → B → Prop) (RB : A' → B' → Prop)
    (RE : E → F → Prop) x y f g :
  outcome_sim RA RE x y → (∀ a b, RA a b → outcome_sim RB RE (f a) (g b)) →
  outcome_sim RB RE (x ≫= f) (y ≫= g).
Proof. destruct x, y; cbn; eauto; done. Qed.

Lemma outcome_sim_map_err {A E E1 E2} (RE : E1 → E2 → Prop) (m : outcome E A) f g :
  (∀ e, RE (f e) (g e)) → outcome_sim eq RE (map_err f m) (map_err g m).
Proof. destruct m; cbn; auto. Qed.

Definition prefix_of (p : TracePrefix) : Denom.TracePrefix :=
  Denom.mkTracePrefix (prefix_port_id p) (prefix_channel_id p).
Definition path_of (t : TracePath) : Denom.TracePath :=
  Denom.mkTracePath (prefix_of <$> trace_prefixes t).
Definition denom_of (c : PrefixedClassId) : PrefixedDenom :=
  mkPrefixedDenom (path_of (trace_path c)) (mkBaseDenom (class_id_str (base_class_id c))).

#[export] Instance prefix_of_inj : Inj (=) (=) prefix_of.
Proof. by intros [] [] [= -> ->]. Qed.
#[export] Instance denom_of_inj : Inj (=) (=) denom_of.
Proof. by intros [[] []] [[] []] [= ->%(inj (fmap prefix_of)) ->]. Qed.

Section same_code.
Context `{TmTime, Unicode, HttpUri}.

Inductive same_error : TokenTransferError → NftTransferError → Prop :=
| same_empty : same_error EmptyBaseDenom EmptyBaseClassId
| same_port pos e : same_error (Denom.InvalidTracePortId pos e) (InvalidTracePortId pos e)
| same_channel pos e : same_error (Denom.InvalidTraceChannelId pos e) (InvalidTraceChannelId pos e)
| same_length n : same_error (Denom.InvalidTraceLength n) (InvalidTraceLength n).
#[local] Hint Constructors same_error : core.

Lemma base_sim s :
  outcome_sim (λ d c, d = mkBaseDenom (class_id_str c)) same_error
    (BaseDenom_from_str s) (ClassId_from_str s).
Proof. unfold BaseDenom_from_str, ClassId_from_str. destruct (trim s =? "")%string; cbn; auto. Qed.

Lemma parse_prefixes_sim pairs pos :
  outcome_sim (λ l k, l = prefix_of <$> k) same_error
    (Denom.parse_prefixes pos pairs) (parse_prefixes pos pairs).
Proof.
  revert pos. induction pairs as [|[p c] pairs IH]; intros pos; [done|].
  cbn [Denom.parse_prefixes parse_prefixes].
  eapply outcome_sim_bind; [apply outcome_sim_map_err; auto|]. intros port ? <-.
  eapply outcome_sim_bind; [apply outcome_sim_map_err; auto|]. intros chan ? <-.
  eapply outcome_sim_bind; [apply IH|]. by intros l k ->.
Qed.

Lemma trace_sim v :
  outcome_sim (λ t u, t = path_of u) same_error (Denom.TracePath_try_from v) (TracePath_try_from v).
Proof.
  unfold Denom.TracePath_try_from, TracePath_try_from.
  eapply (outcome_sim_bind eq); [destruct (negb _); cbn; auto|]. intros [] ? _.
  eapply outcome_sim_bind; [apply parse_prefixes_sim|]. by intros l k ->.
Qed.

Lemma class_id_sim s :
  outcome_sim (λ d c, d = denom_of c) same_error
    (PrefixedDenom_from_str s) (PrefixedClassId_from_str s).
Proof.
  unfold PrefixedDenom_from_str, PrefixedClassId_from_str.
  eapply (outcome_sim_bind eq); [by destruct (last (split SLASH s))|]. intros last_part ? <-.
  destruct (last_part =? s)%string; (eapply outcome_sim_bind; [apply base_sim|]); intros d c ->.
  - done.
  - eapply outcome_sim_bind; [apply trace_sim|]. by intros t u ->.
Qed.

Lemma raw_class_sim path base :
  outcome_sim (λ d c, d = denom_of c) same_error
    (PrefixedDenom_try_from (mkRawDenomTrace path base))
    (PrefixedClassId_try_from (mkRawClassTrace path base)).
Proof.
  unfold PrefixedDenom_try_from, PrefixedClassId_try_from.
  eapply outcome_sim_bind; [apply base_sim|]. intros d c ->.
  eapply outcome_sim_bind; [apply trace_sim|]. by intros t u ->.
Qed.

Lemma class_id_text c : PrefixedDenom_to_string (denom_of c) = PrefixedClassId_to_string c.
Proof.
  destruct c as [[l] [b]]. unfold PrefixedDenom_to_string, PrefixedClassId_to_string,
    Denom.TracePath_to_string, TracePath_to_string, Denom.TracePath_is_empty, TracePath_is_empty.
  cbn [denom_of path_of Denom.trace_path trace_path base_denom base_class_id trace_prefixes
    Denom.trace_prefixes base_denom_str class_id_str].
  rewrite <- fmap_reverse, <- list_fmap_compose. by destruct l.
Qed.

Lemma starts_with_of t p :
  Denom.TracePath_starts_with (path_of t) (prefix_of p) = TracePath_starts_with t p.
Proof.
  destruct t as [l]. unfold Denom.TracePath_starts_with, TracePath_starts_with. cbn.
  rewrite fmap_last. destruct (last l); cbn; [|done].
  apply bool_decide_ext. split; [by intros ?%(inj prefix_of)|by intros ->].
Qed.

Lemma add_prefix_of c p :
  denom_of (add_trace_prefix c p) = Denom.add_trace_prefix (denom_of c) (prefix_of p).
Proof.
  destruct c as [[l] [b]]. unfold denom_of, path_of, add_trace_prefix, Denom.add_trace_prefix,
    TracePath_add_prefix, Denom.TracePath_add_prefix. cbn. by rewrite fmap_app.
Qed.
Lemma remove_prefix_of c p :
  denom_of (remove_trace_prefix c p) = Denom.remove_trace_prefix (denom_of c) (prefix_of p).
Proof.
  unfold denom_of, remove_trace_prefix, Denom.remove_trace_prefix, TracePath_remove_prefix,
    Denom.TracePath_remove_prefix. cbn [Denom.trace_path base_denom trace_path base_class_id].
  rewrite starts_with_of. destruct (TracePath_starts_with _ _); [|done].
  unfold path_of, pop. cbn. by rewrite fmap_take, length_fmap.
Qed.
Lemma receiver_source_of c p q :
  Denom.is_receiver_chain_source p q (denom_of c) = is_receiver_chain_source p q c.
Proof. apply (starts_with_of (trace_path c) (mkTracePrefix p q)). Qed.

(** A class identifier that can be told from its text. *)
Definition class_wf (c : PrefixedClassId) : Prop := denom_wf (denom_of c).

Lemma PrefixedClassId_from_str_Ok s c :
  PrefixedClassId_from_str s = Ok c ↔ class_wf c ∧ PrefixedClassId_to_string c = s.
Proof.
  pose proof (class_id_sim s) as Hs. rewrite <- class_id_text. split.
  - intros Hc. rewrite Hc in Hs. destruct (PrefixedDenom_from_str s) as [d| |] eqn:E; [|done..].
    cbn in Hs. subst d. by apply PrefixedDenom_from_str_Ok.
  - intros [Hw Ht]. rewrite <- Ht in Hs.
    rewrite PrefixedDenom_from_str_print in Hs by done.
    rewrite <- Ht. destruct (PrefixedClassId_from_str _); [|done..]. cbn in Hs.
    by apply (inj denom_of) in Hs as ->.
Qed.

Lemma remove_add_class c p : remove_trace_prefix (add_trace_prefix c p) p = c.
Proof.
  apply (inj denom_of). rewrite remove_prefix_of, add_prefix_of. apply remove_add_trace_prefix.
Qed.
Lemma add_remove_class c p q :
  is_receiver_chain_source p q c = true →
  add_trace_prefix (remove_trace_prefix c (mkTracePrefix p q)) (mkTracePrefix p q) = c.
Proof.
  intros Hr. apply (inj denom_of). rewrite add_prefix_of, remove_prefix_of.
  apply add_remove_trace_prefix. by rewrite receiver_source_of.
Qed.
Lemma receiver_source_add_class c p q :
  is_receiver_chain_source p q (add_trace_prefix c (mkTracePrefix p q)) = true.
Proof. rewrite <- receiver_source_of, add_prefix_of. apply receiver_source_add_prefix. Qed.

(** C40: Class identifiers are the denominations of ICS-20 under another name: the two
    parsers accept the same texts, with corresponding results and errors, and
    printing, the prefixes and the test for the source chain agree. *)
Theorem class_ids_are_denoms s path base c p port chan :
  outcome_sim (λ d c, d = denom_of c) same_error
    (PrefixedDenom_from_str s) (PrefixedClassId_from_str s)
  ∧ outcome_sim (λ d c, d = denom_of c) same_error
      (PrefixedDenom_try_from (mkRawDenomTrace path base))
      (PrefixedClassId_try_from (mkRawClassTrace path base))
  ∧ PrefixedDenom_to_string (denom_of c) = PrefixedClassId_to_string c
  ∧ denom_of (add_trace_prefix c p) = Denom.add_trace_prefix (denom_of c) (prefix_of p)
  ∧ denom_of (remove_trace_prefix c p) = Denom.remove_trace_prefix (denom_of c) (prefix_of p)
  ∧ Denom.is_sender_chain_source port chan (denom_of c) = is_sender_chain_source port chan c.
Proof.
  split_and!; [apply class_id_sim|apply raw_class_sim|apply class_id_text|apply add_prefix_of
    |apply remove_prefix_of|].
  unfold Denom.is_sender_chain_source, is_sender_chain_source. by rewrite receiver_source_of.
Qed.
End same_code.

(** ** Token identifiers *)

Section token_id_theorems.
Context `{TmTime, Unicode, HttpUri}.

#[export] Instance TokenId_le_trans : Transitive TokenId_le.
Proof. intros x y z. unfold TokenId_le. apply transitivity. Qed.
#[export] Instance TokenId_le_total : Total TokenId_le.
Proof. intros x y. unfold TokenId_le. apply (base.total String.le). Qed.
#[export] Instance TokenId_le_antisymm : AntiSymm (=) TokenId_le.
Proof. intros [x] [y] Hxy Hyx. f_equal. by apply (anti_symm String.le). Qed.
#[export] Instance mkTokenId_inj : Inj (=) (=) mkTokenId.
Proof. by intros x y [= ->]. Qed.

Lemma dedup_cons x y l :
  dedup (x :: y :: l) = if bool_decide (x = y) then dedup (y :: l) else x :: dedup (y :: l).
Proof. done. Qed.

Lemma length_dedup l : (length (dedup l) ≤ length l)%nat.
Proof.
  induction l as [|x [|y l] IH]; [done..|]. rewrite dedup_cons.
  change (length (x :: y :: l)) with (S (length (y :: l))).
  case_bool_decide; cbn [length] in *; lia.
Qed.

Lemma dedup_NoDup l : NoDup l → dedup l = l.
Proof.
  induction 1 as [|x l Hx Hl IH]; [done|]. destruct l as [|y l]; [done|].
  rewrite dedup_cons, bool_decide_eq_false_2; [by f_equal|]. intros ->. apply Hx. left.
Qed.

(** In a sorted list, equal elements are neighbours. *)
Lemma dedup_sorted l :
  StronglySorted TokenId_le l → length (dedup l) = length l → NoDup l.
Proof.
  induction 1 as [|x l Hl IH Hx]; [constructor|]. destruct l as [|y l]; [intros _; apply NoDup_singleton|].
  rewrite dedup_cons. pose proof (length_dedup (y :: l)) as Hd.
  change (length (x :: y :: l)) with (S (length (y :: l))).
  case_bool_decide as Hxy; intros Hlen; [lia|].
  constructor; [|apply IH; cbn [length] in *; lia].
  intros Hin. apply Hxy. apply (anti_symm TokenId_le).
  - by inversion Hx.
  - apply StronglySorted_inv in Hl as [_ Hy]. apply list.elem_of_cons in Hin as [->|Hin]; [done|].
    by apply (proj1 (list.Forall_forall _ _) Hy).
Qed.

Lemma mapM_TokenId strs :
  match mapM (M:=outcome NftTransferError) TokenId_from_str strs with
  | Ok ids => ids = mkTokenId <$> strs ∧ Forall (λ s, trim s ≠ "") strs
  | Err e => e = InvalidTokenId ∧ Exists (λ s, trim s = "") strs
  | Panic => False
  end.
Proof.
  induction strs as [|s strs IH]; cbn; [by split|].
  assert (TokenId_from_str s =
    if (trim s =? "")%string then Err InvalidTokenId else Ok (mkTokenId s)) as -> by done.
  destruct (String.eqb_spec (trim s) "") as [Hs|Hs]; mstep.
  - split; [done|]. by left.
  - destruct (mapM _ strs); [|destruct IH; split; [done|by right]|done].
    mstep. destruct IH as [-> ?]. split; [done|]. by constructor.
Qed.

Lemma TokenIds_try_from_cases strs :
  match TokenIds_try_from strs with
  | Ok ids => strs ≠ [] ∧ Forall (λ s, trim s ≠ "") strs ∧ NoDup strs
      ∧ token_id_list ids ≡ₚ mkTokenId <$> strs ∧ StronglySorted TokenId_le (token_id_list ids)
  | Err e => (e = NoTokenId ∧ strs = [])
      ∨ (e = InvalidTokenId ∧ Exists (λ s, trim s = "") strs)
      ∨ (e = DuplicatedTokenIds ∧ strs ≠ [] ∧ Forall (λ s, trim s ≠ "") strs ∧ ¬ NoDup strs)
  | Panic => False
  end.
Proof.
  destruct (decide (strs = [])) as [->|Hne]; [by left|].
  replace (TokenIds_try_from strs) with (ids ← mapM TokenId_from_str strs;
    let ids := dedup (merge_sort TokenId_le ids) in
    if (length ids =? length strs)%nat then Ok (mkTokenIds ids) else Err DuplicatedTokenIds)
    by by destruct strs.
  pose proof (mapM_TokenId strs) as Hm.
  destruct (mapM TokenId_from_str strs) as [ids|e|]; [|cbn; naive_solver|done].
  destruct Hm as [-> Hb]. cbn. set (l := merge_sort TokenId_le (mkTokenId <$> strs)).
  assert (l ≡ₚ mkTokenId <$> strs) as Hp by apply merge_sort_Permutation.
  assert (StronglySorted TokenId_le l) as Hl by (apply StronglySorted_merge_sort; apply _).
  assert (length l = length strs) as Hlen by (by rewrite Hp, length_fmap).
  assert (NoDup strs ↔ NoDup l) as Hd by (rewrite Hp; symmetry; apply NoDup_fmap, _).
  destruct (Nat.eqb_spec (length (dedup l)) (length strs)) as [E|E].
  - rewrite <- Hlen in E. pose proof (dedup_sorted _ Hl E) as Hn. cbn. rewrite dedup_NoDup by done.
    split_and!; [done..|by apply Hd|done|done].
  - right. right. split_and!; [done..|]. intros Hn%Hd. apply E. by rewrite dedup_NoDup.
Qed.

(** At least one token identifier, none blank, no two equal, in order. *)
Definition TokenIds_wf (ids : TokenIds) : Prop :=
  token_id_list ids ≠ [] ∧ Forall (λ k, trim (token_id_str k) ≠ "") (token_id_list ids)
  ∧ NoDup (token_id_list ids) ∧ StronglySorted TokenId_le (token_id_list ids).

Lemma token_strs (l : list TokenId) : mkTokenId <$> (token_id_str <$> l) = l.
Proof.
  rewrite <- list_fmap_compose. rewrite <- (list_fmap_id l) at 2. apply list_fmap_ext. by intros _ [] _.
Qed.

Lemma TokenIds_parsed strs ids :
  TokenIds_try_from strs = Ok ids → TokenIds_wf ids ∧ token_id_list ids ≡ₚ mkTokenId <$> strs.
Proof.
  intros Hi. pose proof (TokenIds_try_from_cases strs) as Hc. rewrite Hi in Hc.
  destruct Hc as (Hne & Hb & Hn & Hp & Hs). split; [|done]. split_and!; [| | |done].
  - intros E. rewrite E in Hp. apply Permutation_nil_l in Hp. by destruct strs.
  - rewrite Hp. by apply Forall_fmap.
  - rewrite Hp. apply NoDup_fmap; [apply _|done].
Qed.

Lemma TokenIds_sorted strs ids :
  TokenIds_wf ids → token_id_list ids ≡ₚ mkTokenId <$> strs → TokenIds_try_from strs = Ok ids.
Proof.
  intros (Hne & Hb & Hn & Hs) Hp. pose proof (TokenIds_try_from_cases strs) as Hc.
  rewrite Hp in Hb, Hn. apply NoDup_fmap in Hn; [|apply _].
  apply (Forall_fmap mkTokenId) in Hb.
  destruct (TokenIds_try_from strs) as [ids'|e|].
  - destruct Hc as (_ & _ & _ & Hp' & Hs'). destruct ids as [l], ids' as [l']. cbn in *. do 2 f_equal.
    apply (StronglySorted_unique TokenId_le); [done..|]. by rewrite Hp'.
  - destruct Hc as [[_ ->]|[[_ He]|(_ & _ & _ & He)]]; [| |done].
    + apply Permutation_nil_r in Hp. done.
    + apply list.Exists_exists in He as (x & Hx & He). by destruct (proj1 (list.Forall_forall _ _) Hb x Hx).
  - done.
Qed.

(** The order of the texts does not matter: token identifiers are accepted exactly
    when there is one, none is blank and no two are equal, and the result is the one
    sorted list of them; each of the three errors names its cause. *)
Theorem token_ids_canonical strs :
  (∀ ids, TokenIds_try_from strs = Ok ids ↔
     TokenIds_wf ids ∧ token_id_list ids ≡ₚ mkTokenId <$> strs)
  ∧ (TokenIds_try_from strs = Err NoTokenId ↔ strs = [])
  ∧ (TokenIds_try_from strs = Err InvalidTokenId ↔ Exists (λ s, trim s = "") strs)
  ∧ (TokenIds_try_from strs = Err DuplicatedTokenIds ↔
       Forall (λ s, trim s ≠ "") strs ∧ ¬ NoDup strs)
  ∧ total (TokenIds_try_from strs).
Proof.
  assert (∀ l : list string, Forall (λ s, trim s ≠ "") l → ¬ Exists (λ s, trim s = "") l) as Hfe.
  { intros l Hl (x & Hx & He)%list.Exists_exists. by destruct (proj1 (list.Forall_forall _ _) Hl x Hx). }
  split.
  { intros ids. split; [apply TokenIds_parsed|]. intros [Hw Hp]. by apply TokenIds_sorted. }
  pose proof (TokenIds_try_from_cases strs) as Hc.
  destruct (TokenIds_try_from strs) as [ids|e|]; [| |done].
  - destruct Hc as (Hne & Hb & Hn & _). specialize (Hfe _ Hb).
    split_and!; [split; [done|]..|done]; [done|done|]. by intros [_ ?].
  - destruct Hc as [[-> ->]|[[-> He]|(-> & Hne & Hb & Hn)]].
    + split_and!; [done|split; [done|]..|done].
      * intros He. by inversion He.
      * intros [_ []]. constructor.
    + split_and!; [split; [done|]|done|split; [done|]|done].
      * intros ->. by inversion He.
      * intros [Hb _]. by destruct (Hfe _ Hb).
    + specialize (Hfe _ Hb). split_and!; [split; [done|]..|done|done]; done.
Qed.
End token_id_theorems.

(** ** Encodings of URIs and data *)

Section codec_theorems.
Context `{TmTime, HttpUri, !HttpUriLaws, MimeLib, !MimeLaws, Base64, !Base64Laws}.
Context `{StringCodec, !StringCodecLaws}.

Lemma ClassUri_from_str_print u : ClassUri_from_str (ClassUri_to_string u) = Ok u.
Proof.
  unfold ClassUri_from_str, ClassUri_to_string. rewrite uri_parse_print. by destruct u.
Qed.
Lemma TokenUri_from_str_print u : TokenUri_from_str (TokenUri_to_string u) = Ok u.
Proof.
  unfold TokenUri_from_str, TokenUri_to_string. rewrite uri_parse_print. by destruct u.
Qed.
Lemma Data_serde d : valid_utf8 (data_str d) = true → Data_deserialize (Data_serialize d) = Some d.
Proof.
  intros Hd. unfold Data_deserialize, Data_serialize. rewrite base64_decode_encode. cbn.
  rewrite from_utf8_as_bytes by done. by destruct d.
Qed.

Lemma read_mime m rest :
  ('(mime, rest) ← read_string (write_string (mime_text m) ++ rest)%list;
   mime ← (if (mime =? "")%string then Ok None
           else mime ← ok_or (mime_from_str mime) other_error; Ok (Some mime));
   Ok (mime, rest)) = Ok (m, rest).
Proof.
  rewrite read_write_string. mstep. destruct m as [m|]; [|done]. cbn [mime_text].
  rewrite (proj2 (String.eqb_neq _ _)) by apply mime_not_empty. by rewrite mime_parse_print.
Qed.

(** URIs and data values are read back from their borsh and SCALE encodings,
    whatever follows; data and data values are read back from JSON, data in base64
    when it is a text. *)
Theorem nft_encodings_roundtrip cu tu dv d rest :
  ClassUri_deserialize_reader (ClassUri_serialize cu ++ rest)%list = Ok (cu, rest)
  ∧ ClassUri_decode (ClassUri_encode_to cu ++ rest)%list = Ok (cu, rest)
  ∧ TokenUri_deserialize_reader (TokenUri_serialize tu ++ rest)%list = Ok (tu, rest)
  ∧ TokenUri_decode (TokenUri_encode_to tu ++ rest)%list = Ok (tu, rest)
  ∧ DataValue_deserialize_reader (DataValue_borsh_serialize dv ++ rest)%list = Ok (dv, rest)
  ∧ DataValue_decode (DataValue_encode_to dv ++ rest)%list = Ok (dv, rest)
  ∧ DataValue_deserialize (DataValue_serialize dv) = Some dv
  ∧ (valid_utf8 (data_str d) = true → Data_deserialize (Data_serialize d) = Some d).
Proof.
  assert (ClassUri_decode (ClassUri_encode_to cu ++ rest)%list = Ok (cu, rest)) as Hc.
  { unfold ClassUri_decode, ClassUri_encode_to. rewrite read_write_string. mstep.
    by rewrite ClassUri_from_str_print. }
  assert (TokenUri_decode (TokenUri_encode_to tu ++ rest)%list = Ok (tu, rest)) as Ht.
  { unfold TokenUri_decode, TokenUri_encode_to. rewrite read_write_string. mstep.
    by rewrite TokenUri_from_str_print. }
  assert (DataValue_decode (DataValue_encode_to dv ++ rest)%list = Ok (dv, rest)) as Hd.
  { unfold DataValue_decode, DataValue_encode_to. rewrite <- app_assoc, read_write_string. mstep.
    pose proof (read_mime (dv_mime dv) rest) as Hm. revert Hm. rewrite read_write_string. mstep.
    destruct (if (mime_text (dv_mime dv) =? "")%string then _ else _); [|done..]. mstep.
    intros [= ->]. by destruct dv. }
  split_and!; [done..| |apply Data_serde].
  unfold DataValue_deserialize, DataValue_serialize. destruct dv as [v [m|]]; [|done]. cbn.
  rewrite (proj2 (String.eqb_neq _ _)) by apply mime_not_empty. cbn. by rewrite mime_parse_print.
Qed.
End codec_theorems.
