(* ===== verification/NftTransfer.v ===== *)
(** * ICS-721 non-fungible token transfer

    The application of [ibc-apps/ics721-nft-transfer]: packet data and its
    conversions ([types/src/packet.rs]), the message [MsgTransfer]
    ([types/src/msgs/transfer.rs]), events ([types/src/events.rs]), the interface to
    the host's tokens ([src/context.rs]) as the class [NftTransferContext], the
    handlers ([src/handler/]) and the callbacks ([src/module.rs]).  [serde_json] is
    a parameter ([NftJson]): it reads and writes the JSON object; the conversion of
    its fields is the code's. *)

From S2P Require Import Prelude RustStr Identifiers Primitives Path Connection Channel Context.
From S2P Require Import ConnHandlers Module ChanHandlers PacketHandlers AckStatus NftTypes.
Local Open Scope string_scope.
Local Open Scope N_scope.

Definition MODULE_ID_STR : string := "nft_transfer".
Definition PORT_ID_STR : string := "nft-transfer".
Definition NFT_VERSION : string := "ics721-1".
Definition ACK_SUCCESS_B64 : string := "AQ==".

(** ** Packet data *)

Section packet_data.
Context `{TmTime, Unicode, HttpUri, Base64}.

Record PacketData := mkPacketData {
  pd_class_id : PrefixedClassId;
  pd_class_uri : option ClassUri;
  pd_class_data : option ClassData;
  pd_token_ids : TokenIds;
  pd_token_uris : option (list TokenUri);
  pd_token_data : option (list TokenData);
  pd_sender : Signer;
  pd_receiver : Signer;
  pd_memo : option Memo }.

(** [NonFungibleTokenPacketData] of the protobuf definitions. *)
Record RawPacketData := mkRawPacketData {
  rpd_class_id : string; rpd_class_uri : string; rpd_class_data : string;
  rpd_token_ids : list string; rpd_token_uris : list string; rpd_token_data : list string;
  rpd_sender : string; rpd_receiver : string; rpd_memo : string }.

(** [as_ref().map(|t| t.len()).unwrap_or_default()]. *)
Definition opt_len {A} (l : option (list A)) : nat := match l with Some l => length l | None => 0 end.

Definition PacketData_validate_basic (self : PacketData) : outcome NftTransferError () :=
  let num := length (token_id_list (pd_token_ids self)) in
  fail_if (num =? 0)%nat NoTokenId;;
  let num_uri := opt_len (pd_token_uris self) in
  let num_data := opt_len (pd_token_data self) in
  fail_if ((negb (num_uri =? 0)%nat && negb (num_uri =? num)%nat)
           || (negb (num_data =? 0)%nat && negb (num_data =? num)%nat)) TokenMismatched.

Definition non_empty {A} (l : list A) : option (list A) := match l with [] => None | _ => Some l end.
Definition non_empty_memo (memo : Memo) : option Memo :=
  if (memo_str memo =? "")%string then None else Some memo.

Definition PacketData_new (class_id : PrefixedClassId) (class_uri : option ClassUri)
    (class_data : option ClassData) (token_ids : TokenIds) (token_uris : list TokenUri)
    (token_data : list TokenData) (sender receiver : Signer) (memo : Memo) :
    outcome NftTransferError PacketData :=
  let packet_data := mkPacketData class_id class_uri class_data token_ids (non_empty token_uris)
    (non_empty token_data) sender receiver (non_empty_memo memo) in
  PacketData_validate_basic packet_data;;
  Ok packet_data.

(** A base64 text decoded to a text. *)
Definition decode_text (encoded : string) : outcome NftTransferError string :=
  decoded ← ok_or (base64_decode encoded) InvalidJsonData;
  ok_or (from_utf8 decoded) InvalidJsonData.

Definition PacketData_try_from (raw_pkt_data : RawPacketData) :
    outcome NftTransferError PacketData :=
  class_uri ← (if (rpd_class_uri raw_pkt_data =? "")%string then Ok None
               else Some <$> ClassUri_from_str (rpd_class_uri raw_pkt_data));
  class_data ← (if (rpd_class_data raw_pkt_data =? "")%string then Ok None
                else data_str ← decode_text (rpd_class_data raw_pkt_data);
                     Some <$> ClassData_from_str data_str);
  token_ids ← TokenIds_try_from (rpd_token_ids raw_pkt_data);
  class_id ← PrefixedClassId_from_str (rpd_class_id raw_pkt_data);
  token_uris ← mapM TokenUri_from_str (rpd_token_uris raw_pkt_data);
  token_data ← mapM (λ data, data_str ← decode_text data; TokenData_from_str data_str)
    (rpd_token_data raw_pkt_data);
  PacketData_new class_id class_uri class_data token_ids token_uris token_data
    (rpd_sender raw_pkt_data) (rpd_receiver raw_pkt_data) (mkMemo (rpd_memo raw_pkt_data)).

(** [Option::map] and [iter().map().collect()]. *)
Definition opt_map {A B} (f : A → B) (x : option A) : option B := fmap (M:=option) f x.
Definition vec_map {A B} (f : A → B) (l : list A) : list B := fmap (M:=list) f l.

Definition RawPacketData_from (pkt_data : PacketData) : RawPacketData :=
  mkRawPacketData (PrefixedClassId_to_string (pd_class_id pkt_data))
    (default "" (opt_map ClassUri_to_string (pd_class_uri pkt_data)))
    (default "" (opt_map (λ c, base64_encode (as_bytes (ClassData_to_string c)))
                   (pd_class_data pkt_data)))
    (vec_map token_id_str (token_id_list (pd_token_ids pkt_data)))
    (default [] (opt_map (vec_map TokenUri_to_string) (pd_token_uris pkt_data)))
    (default [] (opt_map (vec_map (λ t, base64_encode (as_bytes (TokenData_to_string t))))
                   (pd_token_data pkt_data)))
    (pd_sender pkt_data) (pd_receiver pkt_data) (default "" (opt_map memo_str (pd_memo pkt_data))).

(** The JSON object of packet data, with the types of its members. *)
Record JsonPacketData := mkJsonPacketData {
  j_class_id : string; j_class_uri : option string; j_class_data : option string;
  j_token_ids : list string; j_token_uris : option (list string);
  j_token_data : option (list string);
  j_sender : string; j_receiver : string; j_memo : option string }.

(** The derived [Serialize] and [Deserialize]: member by member, each by the
    implementation of its type.  [TokenId], [TokenIds] and [Memo] wrap their
    contents, which are taken as they are. *)
Definition PacketData_serialize (d : PacketData) : JsonPacketData :=
  mkJsonPacketData (PrefixedClassId_to_string (pd_class_id d))
    (opt_map ClassUri_to_string (pd_class_uri d))
    (opt_map (λ c, Data_serialize (class_data c)) (pd_class_data d))
    (vec_map token_id_str (token_id_list (pd_token_ids d)))
    (opt_map (vec_map TokenUri_to_string) (pd_token_uris d))
    (opt_map (vec_map (λ t, Data_serialize (token_data_value t))) (pd_token_data d))
    (pd_sender d) (pd_receiver d) (opt_map memo_str (pd_memo d)).

(** An optional member: absent, or read. *)
Definition read_opt {A B} (read : A → option B) (x : option A) : option (option B) :=
  match x with Some a => opt_map Some (read a) | None => Some None end.

Definition PacketData_deserialize (j : JsonPacketData) : option PacketData :=
  class_id ← ok (PrefixedClassId_from_str (j_class_id j));
  class_uri ← read_opt (λ s, ok (ClassUri_from_str s)) (j_class_uri j);
  class_data ← read_opt (λ s, opt_map mkClassData (Data_deserialize s)) (j_class_data j);
  token_uris ← read_opt (mapM (λ s, ok (TokenUri_from_str s))) (j_token_uris j);
  token_data ← read_opt (mapM (λ s, opt_map mkTokenData (Data_deserialize s))) (j_token_data j);
  Some (mkPacketData class_id class_uri class_data (mkTokenIds (vec_map mkTokenId (j_token_ids j)))
          token_uris token_data (j_sender j) (j_receiver j) (opt_map mkMemo (j_memo j))).
End packet_data.

(** ** What the application gets from libraries *)

Class NftJson := {
  nft_ack_json :: AckJson;
  json_packet_data_to_vec : JsonPacketData → bytes;
  json_packet_data_from_slice : bytes → option JsonPacketData;
}.
Class NftJsonLaws `{NftJson} := {
  nft_ack_laws :: AckJsonLaws;
  json_packet_data_json j : json_packet_data_from_slice (json_packet_data_to_vec j) = Some j;
}.

Section json.
Context `{TmTime, Unicode, HttpUri, Base64, NftJson, ChainTypes, !Codec}.

Definition packet_data_to_vec (d : PacketData) : bytes :=
  json_packet_data_to_vec (PacketData_serialize d).
Definition packet_data_from_slice (b : bytes) : option PacketData :=
  json_packet_data_from_slice b ≫= PacketData_deserialize.

(** [Display] for [NftTransferError], from its doc comments. *)
Definition NftTransferError_to_string (e : NftTransferError) : string :=
  match e with
  | NftContextError e => "context error: " ++ tick (context_error_to_string e)
  | NftInvalidIdentifier e => "invalid identifier: " ++ tick (identifier_error_to_string e)
  | InvalidUriError uri validation_error =>
    "invalid URI: " ++ tick uri ++ ", validation error: "
      ++ tick (invalid_uri_to_string validation_error) ++ "`"
  | DestinationChannelNotFound port_id channel_id =>
    "destination channel not found in the counterparty of port_id " ++ tick (port_id_str port_id)
      ++ " and channel_id " ++ tick (channel_id_str channel_id)
  | EmptyBaseClassId => "base class ID is empty"
  | InvalidTracePortId pos validation_error =>
    "invalid prot id n trace at position: " ++ tick (show_u64 pos) ++ ", validation error: "
      ++ tick (identifier_error_to_string validation_error)
  | InvalidTraceChannelId pos validation_error =>
    "invalid channel id in trace at position: " ++ tick (show_u64 pos) ++ ", validation error: "
      ++ tick (identifier_error_to_string validation_error)
  | InvalidTraceLength len => "trace length must be even but got: " ++ tick (show_u64 len)
  | NoTokenId => "no token ID"
  | InvalidTokenId => "invalid token ID"
  | DuplicatedTokenIds => "duplicated token IDs"
  | TokenMismatched => "The length of token IDs mismatched that of token URIs or token data"
  | InvalidJsonData => "invalid json data"
  | InvalidIcs721Data => "the data is not in the JSON format specified by ICS-721"
  | ChannelNotUnordered expect_order got_order =>
    "expected " ++ tick (Order_as_str expect_order) ++ " channel, got "
      ++ tick (Order_as_str got_order)
  | CantCloseChannel => "channel cannot be closed"
  | InvalidOwner sender => tick sender ++ " doesn't own the NFT"
  | OwnerNotFound => "owner is not found"
  | NftNotFound => "nft is not found"
  | NftClassNotFound => "nft class is not found"
  | PacketDataDeserialization => "failed to deserialize packet data"
  | AckDeserialization => "failed to deserialize acknowledgement"
  | ReceiveDisabled _ => "receive is not enabled"
  | SendDisabled _ => "send is not enabled"
  | ParseAccountFailure => "failed to parse as AccountId"
  | InvalidPort port_id exp_port_id =>
    "invalid port: " ++ tick (port_id_str port_id) ++ ", expected " ++ tick (port_id_str exp_port_id)
  | DecodeRawMsg reason => "decoding raw msg error: " ++ tick reason
  | UnknownMsgType msg_type => "unknown msg type: " ++ tick msg_type
  | Utf8Decode e => "decoding raw bytes as UTF8 string error: " ++ tick (utf8_error_to_string e)
  | NftOther reason => "other error: " ++ tick reason
  end.

(** [From<NftTransferError> for StatusValue], [ack_success_b64]: the [expect]s. *)
Definition StatusValue_from_error {E} (err : NftTransferError) : outcome E StatusValue :=
  expect (StatusValue_new (NftTransferError_to_string err)).
Definition ack_success_b64 {E} : outcome E StatusValue := expect (StatusValue_new ACK_SUCCESS_B64).
End json.

(** ** The message *)

Section msg.
Context `{TmTime, HttpUri}.

Record MsgTransfer := mkMsgTransfer {
  mt_port_id_on_a : PortId;
  mt_chan_id_on_a : ChannelId;
  packet_data : PacketData;
  mt_timeout_height_on_b : TimeoutHeight;
  mt_timeout_timestamp_on_b : Timestamp }.

Record RawMsgTransfer := mkRawMsgTransfer {
  rmt_source_port : string;
  rmt_source_channel : string;
  rmt_class_id : string;
  rmt_token_ids : list string;
  rmt_sender : string;
  rmt_receiver : string;
  rmt_timeout_height : option RawHeight;
  rmt_timeout_timestamp : N;
  rmt_memo : string }.
End msg.

Definition TYPE_URL : string := "/ibc.applications.nft_transfer.v1.MsgTransfer".

(** [prost] on [MsgTransfer]: decoding returns the text of the error; and the text
    [Protobuf::decode_vec] makes of a failed conversion. *)
Class NftProto := {
  raw_msg_transfer_decode : bytes → outcome string RawMsgTransfer;
  raw_msg_transfer_encode : RawMsgTransfer → bytes;
  try_from_error_text : string → string;
}.

Section msg_conversions.
Context `{TmTime, Unicode, HttpUri, Base64, NftJson, ChainTypes, !Codec}.

Definition MsgTransfer_try_from (raw_msg : RawMsgTransfer) :
    outcome NftTransferError MsgTransfer :=
  timeout_timestamp_on_b ← err_context (err_packet (map_err InvalidPacketTimestamp
    (Timestamp_from_nanoseconds (rmt_timeout_timestamp raw_msg))));
  timeout_height_on_b ← err_context (err_client (TimeoutHeight_try_from
    (rmt_timeout_height raw_msg)));
  fail_if (negb (TimeoutHeight_is_set timeout_height_on_b)
           && negb (Timestamp_is_set timeout_timestamp_on_b))
    (NftContextError (CtxPacket MissingTimeout));;
  let memo := non_empty_memo (mkMemo (rmt_memo raw_msg)) in
  port_id_on_a ← err_identifier (PortId_from_str (rmt_source_port raw_msg));
  chan_id_on_a ← err_identifier (ChannelId_from_str (rmt_source_channel raw_msg));
  class_id ← PrefixedClassId_from_str (rmt_class_id raw_msg);
  token_ids ← TokenIds_try_from (rmt_token_ids raw_msg);
  Ok (mkMsgTransfer port_id_on_a chan_id_on_a
        (mkPacketData class_id None None token_ids None None (rmt_sender raw_msg)
           (rmt_receiver raw_msg) memo)
        timeout_height_on_b timeout_timestamp_on_b).

Definition RawMsgTransfer_from {E} (domain_msg : MsgTransfer) : outcome E RawMsgTransfer :=
  let d := packet_data domain_msg in
  timeout_timestamp ← Timestamp_nanoseconds (mt_timeout_timestamp_on_b domain_msg);
  Ok (mkRawMsgTransfer (port_id_str (mt_port_id_on_a domain_msg))
        (channel_id_str (mt_chan_id_on_a domain_msg))
        (PrefixedClassId_to_string (pd_class_id d))
        (vec_map token_id_str (token_id_list (pd_token_ids d))) (pd_sender d) (pd_receiver d)
        (TimeoutHeight_into (mt_timeout_height_on_b domain_msg)) timeout_timestamp
        (default "" (opt_map memo_str (pd_memo d)))).

Definition MsgTransfer_try_from_any `{!NftProto} (raw : Any) : outcome NftTransferError MsgTransfer :=
  if (type_url raw =? TYPE_URL)%string then
    raw_msg ← map_err DecodeRawMsg (raw_msg_transfer_decode (any_value raw));
    map_err (λ e, DecodeRawMsg (try_from_error_text (NftTransferError_to_string e)))
      (MsgTransfer_try_from raw_msg)
  else Err (UnknownMsgType (type_url raw)).
End msg_conversions.

(** ** Events *)

Definition EVENT_TYPE_PACKET : string := "non_fungible_token_packet".
Definition EVENT_TYPE_TIMEOUT : string := "timeout".
Definition EVENT_TYPE_TOKEN_TRACE : string := "token_trace".
Definition EVENT_TYPE_TRANSFER : string := "ibc_nft_transfer".

Inductive NftModuleEvent :=
| RecvEvent (sender receiver : Signer) (class : PrefixedClassId) (tokens : TokenIds) (memo : Memo)
    (success : bool)
| AckEvent (sender receiver : Signer) (class : PrefixedClassId) (tokens : TokenIds) (memo : Memo)
    (acknowledgement : AcknowledgementStatus)
| AckStatusEvent (acknowledgement : AcknowledgementStatus)
| TimeoutEvent (refund_receiver : Signer) (refund_class : PrefixedClassId)
    (refund_tokens : TokenIds) (memo : Memo)
| TokenTraceEvent (trace_hash : option string) (class : PrefixedClassId) (token : TokenId)
| TransferEvent (sender receiver : Signer) (class : PrefixedClassId) (tokens : TokenIds)
    (memo : Memo).

Definition ModuleEvent_from (ev : NftModuleEvent) : ModuleEvent :=
  match ev with
  | RecvEvent sender receiver class tokens memo success =>
    mkModuleEvent EVENT_TYPE_PACKET
      [mkModuleEventAttribute "module" MODULE_ID_STR; mkModuleEventAttribute "sender" sender;
       mkModuleEventAttribute "receiver" receiver;
       mkModuleEventAttribute "class" (PrefixedClassId_to_string class);
       mkModuleEventAttribute "tokens" (TokenIds_to_string tokens);
       mkModuleEventAttribute "memo" (memo_str memo);
       mkModuleEventAttribute "success" (show_bool success)]
  | AckEvent sender receiver class tokens memo acknowledgement =>
    mkModuleEvent EVENT_TYPE_PACKET
      [mkModuleEventAttribute "module" MODULE_ID_STR; mkModuleEventAttribute "sender" sender;
       mkModuleEventAttribute "receiver" receiver;
       mkModuleEventAttribute "class" (PrefixedClassId_to_string class);
       mkModuleEventAttribute "tokens" (TokenIds_to_string tokens);
       mkModuleEventAttribute "memo" (memo_str memo);
       mkModuleEventAttribute "acknowledgement" (AcknowledgementStatus_to_string acknowledgement)]
  | AckStatusEvent acknowledgement =>
    let attr_label := if is_successful acknowledgement then "success" else "error" in
    mkModuleEvent EVENT_TYPE_PACKET
      [mkModuleEventAttribute attr_label (AcknowledgementStatus_to_string acknowledgement)]
  | TimeoutEvent refund_receiver refund_class refund_tokens memo =>
    mkModuleEvent EVENT_TYPE_TIMEOUT
      [mkModuleEventAttribute "module" MODULE_ID_STR;
       mkModuleEventAttribute "refund_receiver" refund_receiver;
       mkModuleEventAttribute "refund_class" (PrefixedClassId_to_string refund_class);
       mkModuleEventAttribute "refund_tokens" (TokenIds_to_string refund_tokens);
       mkModuleEventAttribute "memo" (memo_str memo)]
  | TokenTraceEvent trace_hash class token =>
    mkModuleEvent EVENT_TYPE_TOKEN_TRACE
      ([mkModuleEventAttribute "class" (PrefixedClassId_to_string class);
        mkModuleEventAttribute "token" (token_id_str token)] ++
       match trace_hash with Some hash => [mkModuleEventAttribute "trace_hash" hash] | None => [] end)%list
  | TransferEvent sender receiver class tokens memo =>
    mkModuleEvent EVENT_TYPE_TRANSFER
      [mkModuleEventAttribute "sender" sender; mkModuleEventAttribute "receiver" receiver;
       mkModuleEventAttribute "class" (PrefixedClassId_to_string class);
       mkModuleEventAttribute "tokens" (TokenIds_to_string tokens);
       mkModuleEventAttribute "memo" (memo_str memo)]
  end.

(** ** The tokens of the host *)

(** [NftTransferValidationContext] and [NftTransferExecutionContext]: the state [T]
    the host keeps of its tokens, and what it does with them; [Nft] and [NftClass]
    with the accessors of [NftContext] and [NftClassContext]. *)
Class NftTransferContext `{TmTime, HttpUri} (T : Type) := {
  AccountId : Type;
  account_try_from : Signer → option AccountId;
  Nft : Type;
  nft_class_id : Nft → ClassId;
  nft_id : Nft → TokenId;
  nft_uri : Nft → option TokenUri;
  nft_data : Nft → option TokenData;
  NftClass : Type;
  nft_class_get_id : NftClass → ClassId;
  nft_class_uri : NftClass → option ClassUri;
  nft_class_data : NftClass → option ClassData;
  get_port : T → outcome NftTransferError PortId;
  can_send_nft : T → outcome NftTransferError ();
  can_receive_nft : T → outcome NftTransferError ();
  create_or_update_class_validate : T → PrefixedClassId → option ClassUri → option ClassData →
    outcome NftTransferError ();
  escrow_nft_validate : T → AccountId → PortId → ChannelId → PrefixedClassId → TokenId → Memo →
    outcome NftTransferError ();
  unescrow_nft_validate : T → AccountId → PortId → ChannelId → PrefixedClassId → TokenId →
    outcome NftTransferError ();
  mint_nft_validate : T → AccountId → PrefixedClassId → TokenId → option TokenUri →
    option TokenData → outcome NftTransferError ();
  burn_nft_validate : T → AccountId → PrefixedClassId → TokenId → Memo →
    outcome NftTransferError ();
  token_hash_string : T → PrefixedClassId → TokenId → option string;
  get_nft : T → PrefixedClassId → TokenId → outcome NftTransferError Nft;
  get_nft_class : T → PrefixedClassId → outcome NftTransferError NftClass;
  create_or_update_class_execute : PrefixedClassId → option ClassUri → option ClassData →
    exec T NftTransferError ();
  escrow_nft_execute : AccountId → PortId → ChannelId → PrefixedClassId → TokenId → Memo →
    exec T NftTransferError ();
  unescrow_nft_execute : AccountId → PortId → ChannelId → PrefixedClassId → TokenId →
    exec T NftTransferError ();
  mint_nft_execute : AccountId → PrefixedClassId → TokenId → option TokenUri → option TokenData →
    exec T NftTransferError ();
  burn_nft_execute : AccountId → PrefixedClassId → TokenId → Memo → exec T NftTransferError ();
}.

Section handlers.
Context `{TmTime, !ChainTypes, !LightClient, host : !Host, !Codec, !Sha256}.
Context `{Unicode, HttpUri, Base64, NftJson} {T : Type} `{!NftTransferContext T}.

(** [signer.try_into().map_err(|_| ParseAccountFailure)]. *)
Definition parse_account (signer : Signer) : outcome NftTransferError AccountId :=
  ok_or (account_try_from signer) ParseAccountFailure.

(** [list.as_ref().and_then(|l| l.get(i))]. *)
Definition get_nth {A} (l : option (list A)) (i : nat) : option A := l ≫= λ l, l !! i.

(** ** Refunds *)

(** The loop that mints the tokens of [data] from the [i]-th on. *)
Fixpoint refund_mint (sender : AccountId) (data : PacketData) (i : nat) (ids : list TokenId) :
    exec T NftTransferError () :=
  match ids with
  | [] => mret tt
  | token_id :: ids =>
    mint_nft_execute sender (pd_class_id data) token_id (get_nth (pd_token_uris data) i)
      (get_nth (pd_token_data data) i);;
    refund_mint sender data (S i) ids
  end.

Definition refund_packet_nft_execute (packet : Packet) (data : PacketData) :
    exec T NftTransferError () :=
  sender ← lift (parse_account (pd_sender data));
  if is_sender_chain_source (port_id_on_a packet) (chan_id_on_a packet) (pd_class_id data) then
    for_each (λ token_id, unescrow_nft_execute sender (port_id_on_a packet) (chan_id_on_a packet)
      (pd_class_id data) token_id) (token_id_list (pd_token_ids data))
  else refund_mint sender data 0 (token_id_list (pd_token_ids data)).

(** [try_for_each] of a validation. *)
Fixpoint validate_each {A} (f : nat → A → outcome NftTransferError ()) (i : nat) (l : list A) :
    outcome NftTransferError () :=
  match l with
  | [] => Ok tt
  | x :: l => f i x;; validate_each f (S i) l
  end.

Definition refund_packet_nft_validate (t : T) (packet : Packet) (data : PacketData) :
    outcome NftTransferError () :=
  sender ← parse_account (pd_sender data);
  if is_sender_chain_source (port_id_on_a packet) (chan_id_on_a packet) (pd_class_id data) then
    validate_each (λ _ token_id, unescrow_nft_validate t sender (port_id_on_a packet)
      (chan_id_on_a packet) (pd_class_id data) token_id) 0 (token_id_list (pd_token_ids data))
  else
    validate_each (λ i token_id, mint_nft_validate t sender (pd_class_id data) token_id
      (get_nth (pd_token_uris data) i) (get_nth (pd_token_data data) i)) 0
      (token_id_list (pd_token_ids data)).

(** ** Sending *)

Definition with_tokens (uris : option (list TokenUri)) (data : option (list TokenData))
    (d : PacketData) : PacketData :=
  mkPacketData (pd_class_id d) (pd_class_uri d) (pd_class_data d) (pd_token_ids d) uris data
    (pd_sender d) (pd_receiver d) (pd_memo d).
Definition with_class (uri : option ClassUri) (data : option ClassData) (d : PacketData) :
    PacketData :=
  mkPacketData (pd_class_id d) uri data (pd_token_ids d) (pd_token_uris d) (pd_token_data d)
    (pd_sender d) (pd_receiver d) (pd_memo d).

(** Overwritten even if they are set in the message. *)
Definition clear_tokens (d : PacketData) : PacketData :=
  with_tokens (opt_map (λ _, []) (pd_token_uris d)) (opt_map (λ _, []) (pd_token_data d)) d.

Definition push {A} (l : option (list A)) (x : A) : option (list A) :=
  match l with Some l => Some (l ++ [x])%list | None => Some [x] end.
(** The URI and the data are set if both exist. *)
Definition attach (nft : Nft) (d : PacketData) : PacketData :=
  match nft_uri nft, nft_data nft with
  | Some uri, Some data => with_tokens (push (pd_token_uris d) uri) (push (pd_token_data d) data) d
  | _, _ => d
  end.
Definition memo_or_empty (d : PacketData) : Memo := default (mkMemo "") (pd_memo d).

(** The loops over the tokens of a transfer, with the packet data they fill in. *)
Fixpoint take_each_validate (t : T) (sender : AccountId) (port_id : PortId) (chan_id : ChannelId)
    (ids : list TokenId) (d : PacketData) : outcome NftTransferError PacketData :=
  match ids with
  | [] => Ok d
  | token_id :: ids =>
    (if is_sender_chain_source port_id chan_id (pd_class_id d) then
       escrow_nft_validate t sender port_id chan_id (pd_class_id d) token_id (memo_or_empty d)
     else burn_nft_validate t sender (pd_class_id d) token_id (memo_or_empty d));;
    nft ← get_nft t (pd_class_id d) token_id;
    take_each_validate t sender port_id chan_id ids (attach nft d)
  end.
Fixpoint take_each_execute (sender : AccountId) (port_id : PortId) (chan_id : ChannelId)
    (ids : list TokenId) (d : PacketData) : exec T NftTransferError PacketData :=
  match ids with
  | [] => mret d
  | token_id :: ids =>
    (if is_sender_chain_source port_id chan_id (pd_class_id d) then
       escrow_nft_execute sender port_id chan_id (pd_class_id d) token_id (memo_or_empty d)
     else burn_nft_execute sender (pd_class_id d) token_id (memo_or_empty d));;
    nft ← reads (λ t, get_nft t (pd_class_id d) token_id);
    take_each_execute sender port_id chan_id ids (attach nft d)
  end.

Definition send_nft_transfer_validate (s : IbcStore) (t : T) (msg : MsgTransfer) :
    outcome NftTransferError () :=
  can_send_nft t;;
  chan_end_on_a ← err_context
    (channel_end s (mkChannelEndPath (mt_port_id_on_a msg) (mt_chan_id_on_a msg)));
  let port_id_on_b := rem_port_id (chan_remote chan_end_on_a) in
  chan_id_on_b ← ok_or (rem_channel_id (chan_remote chan_end_on_a))
    (DestinationChannelNotFound (mt_port_id_on_a msg) (mt_chan_id_on_a msg));
  sequence ← err_context
    (get_next_sequence_send s (mkSeqSendPath (mt_port_id_on_a msg) (mt_chan_id_on_a msg)));
  sender ← parse_account (pd_sender (packet_data msg));
  packet_data ← take_each_validate t sender (mt_port_id_on_a msg) (mt_chan_id_on_a msg)
    (token_id_list (pd_token_ids (packet_data msg))) (clear_tokens (packet_data msg));
  PacketData_validate_basic packet_data;;
  nft_class ← get_nft_class t (pd_class_id packet_data);
  let packet_data := with_class (nft_class_uri nft_class) (nft_class_data nft_class) packet_data in
  let packet := mkPacket sequence (mt_port_id_on_a msg) (mt_chan_id_on_a msg) port_id_on_b
    chan_id_on_b (packet_data_to_vec packet_data) (mt_timeout_height_on_b msg)
    (mt_timeout_timestamp_on_b msg) in
  err_context (send_packet_validate s packet).

(** Calls on the two contexts of [send_nft_transfer_execute]. *)
Definition on_send_ctx {A} (m : action A) : exec (IbcStore * T) NftTransferError A :=
  on_fst (λ s, let '(s', r) := m s in (s', err_context r)).
Definition on_token_ctx {A} (m : exec T NftTransferError A) :
    exec (IbcStore * T) NftTransferError A := on_snd m.

Definition send_nft_transfer_execute (msg : MsgTransfer) : exec (IbcStore * T) NftTransferError () :=
  chan_end_on_a ← on_send_ctx (reads (λ s,
    channel_end s (mkChannelEndPath (mt_port_id_on_a msg) (mt_chan_id_on_a msg))));
  let port_on_b := rem_port_id (chan_remote chan_end_on_a) in
  chan_on_b ← lift (ok_or (rem_channel_id (chan_remote chan_end_on_a))
    (DestinationChannelNotFound (mt_port_id_on_a msg) (mt_chan_id_on_a msg)));
  sequence ← on_send_ctx (reads (λ s,
    get_next_sequence_send s (mkSeqSendPath (mt_port_id_on_a msg) (mt_chan_id_on_a msg))));
  sender ← lift (parse_account (pd_sender (packet_data msg)));
  packet_data ← on_token_ctx (take_each_execute sender (mt_port_id_on_a msg) (mt_chan_id_on_a msg)
    (token_id_list (pd_token_ids (packet_data msg))) (clear_tokens (packet_data msg)));
  nft_class ← on_token_ctx (reads (λ t, get_nft_class t (pd_class_id packet_data)));
  let packet_data := with_class (nft_class_uri nft_class) (nft_class_data nft_class) packet_data in
  let packet := mkPacket sequence (mt_port_id_on_a msg) (mt_chan_id_on_a msg) port_on_b
    chan_on_b (packet_data_to_vec packet_data) (mt_timeout_height_on_b msg)
    (mt_timeout_timestamp_on_b msg) in
  on_send_ctx (send_packet_execute packet);;
  on_send_ctx (log_message ("IBC NFT transfer: " ++ pd_sender packet_data ++ " --("
    ++ PrefixedClassId_to_string (pd_class_id packet_data) ++ ", ["
    ++ TokenIds_to_string (pd_token_ids packet_data) ++ "])--> " ++ pd_receiver packet_data));;
  on_send_ctx (emit_ibc_event (EventModule (ModuleEvent_from
    (TransferEvent (pd_sender packet_data) (pd_receiver packet_data) (pd_class_id packet_data)
       (pd_token_ids packet_data) (memo_or_empty packet_data)))));;
  on_send_ctx (emit_ibc_event (EventMessage (EvModule MODULE_ID_STR))).

Definition send_nft_transfer (msg : MsgTransfer) : exec (IbcStore * T) NftTransferError () :=
  reads (λ st, send_nft_transfer_validate st.1 st.2 msg);;
  send_nft_transfer_execute msg.

(** ** Receiving *)

(** A call whose error is returned together with the events so far. *)
Definition with_extras {A} (extras : ModuleExtras) (m : exec T NftTransferError A) :
    exec T (ModuleExtras * NftTransferError) A :=
  λ t, let '(t', r) := m t in (t', map_err (λ err, (extras, err)) r).

(** The loop over returning tokens: each is validated, then unescrowed. *)
Definition unescrow_one (receiver : AccountId) (packet : Packet) (class_id : PrefixedClassId)
    (token_id : TokenId) : exec T (ModuleExtras * NftTransferError) () :=
  with_extras ModuleExtras_empty (reads (λ t, unescrow_nft_validate t receiver (port_id_on_b packet)
    (chan_id_on_b packet) class_id token_id));;
  with_extras ModuleExtras_empty (unescrow_nft_execute receiver (port_id_on_b packet)
    (chan_id_on_b packet) class_id token_id).

(** The loop over the tokens to mint, from the [i]-th on. *)
Fixpoint mint_each (receiver : AccountId) (class_id : PrefixedClassId) (data : PacketData)
    (i : nat) (ids : list TokenId) (extras : ModuleExtras) :
    exec T (ModuleExtras * NftTransferError) ModuleExtras :=
  match ids with
  | [] => mret extras
  | token_id :: ids =>
    let token_uri := get_nth (pd_token_uris data) i in
    let token_data := get_nth (pd_token_data data) i in
    trace_hash ← reads (λ t, Ok (token_hash_string t class_id token_id));
    let trace_event := TokenTraceEvent trace_hash class_id token_id in
    let extras := mkModuleExtras (extra_events extras ++ [ModuleEvent_from trace_event])%list
      (extra_log extras) in
    with_extras ModuleExtras_empty (reads (λ t,
      create_or_update_class_validate t class_id (pd_class_uri data) (pd_class_data data)));;
    with_extras ModuleExtras_empty
      (create_or_update_class_execute class_id (pd_class_uri data) (pd_class_data data));;
    with_extras extras (reads (λ t,
      mint_nft_validate t receiver class_id token_id token_uri token_data));;
    with_extras extras (mint_nft_execute receiver class_id token_id token_uri token_data);;
    mint_each receiver class_id data (S i) ids extras
  end.

Definition process_recv_packet_execute (packet : Packet) (data : PacketData) :
    exec T (ModuleExtras * NftTransferError) ModuleExtras :=
  with_extras ModuleExtras_empty (reads can_receive_nft);;
  receiver_account ← with_extras ModuleExtras_empty (lift (parse_account (pd_receiver data)));
  if is_receiver_chain_source (port_id_on_a packet) (chan_id_on_a packet) (pd_class_id data) then
    let prefix := mkTracePrefix (port_id_on_a packet) (chan_id_on_a packet) in
    let class_id := remove_trace_prefix (pd_class_id data) prefix in
    for_each (unescrow_one receiver_account packet class_id) (token_id_list (pd_token_ids data));;
    mret ModuleExtras_empty
  else
    let prefix := mkTracePrefix (port_id_on_b packet) (chan_id_on_b packet) in
    let class_id := add_trace_prefix (pd_class_id data) prefix in
    mint_each receiver_account class_id data 0 (token_id_list (pd_token_ids data))
      (mkModuleExtras [] []).
End handlers.

(** ** Callbacks *)

Module Ics721.
Section callbacks.
Context `{TmTime, !ChainTypes, !Codec}.
Context `{Unicode, HttpUri, Base64, NftJson} {T : Type} `{!NftTransferContext T}.

Definition expected_version : ChanVersion := mkChanVersion NFT_VERSION.
Definition verify_version (version : ChanVersion) : outcome NftTransferError () :=
  err_context (err_channel (ChanVersion_verify_is_expected version expected_version)).

Definition on_chan_open_init_validate (ctx : T) (order : Order) (_ : list ConnectionId)
    (port_id : PortId) (_ : ChannelId) (_ : ChanCounterparty) (version : ChanVersion) :
    outcome NftTransferError () :=
  fail_if (negb (bool_decide (order = Unordered))) (ChannelNotUnordered Unordered order);;
  bound_port ← get_port ctx;
  fail_if (negb (bool_decide (port_id = bound_port))) (InvalidPort port_id bound_port);;
  if (chan_version_str version =? "")%string then Ok tt else verify_version version.

Definition on_chan_open_init_execute (_ : Order) (_ : list ConnectionId) (_ : PortId)
    (_ : ChannelId) (_ : ChanCounterparty) (_ : ChanVersion) :
    exec T NftTransferError (ModuleExtras * ChanVersion) :=
  mret (ModuleExtras_empty, expected_version).

Definition on_chan_open_try_validate (_ : T) (order : Order) (_ : list ConnectionId)
    (_ : PortId) (_ : ChannelId) (_ : ChanCounterparty) (counterparty_version : ChanVersion) :
    outcome NftTransferError () :=
  fail_if (negb (bool_decide (order = Unordered))) (ChannelNotUnordered Unordered order);;
  verify_version counterparty_version.

Definition on_chan_open_try_execute (_ : Order) (_ : list ConnectionId) (_ : PortId)
    (_ : ChannelId) (_ : ChanCounterparty) (_ : ChanVersion) :
    exec T NftTransferError (ModuleExtras * ChanVersion) :=
  mret (ModuleExtras_empty, expected_version).

Definition on_chan_open_ack_validate (_ : T) (_ : PortId) (_ : ChannelId)
    (counterparty_version : ChanVersion) : outcome NftTransferError () :=
  verify_version counterparty_version.
Definition on_chan_open_ack_execute (_ : PortId) (_ : ChannelId) (_ : ChanVersion) :
    exec T NftTransferError ModuleExtras := mret ModuleExtras_empty.

Definition on_chan_open_confirm_validate (_ : T) (_ : PortId) (_ : ChannelId) :
    outcome NftTransferError () := Ok tt.
Definition on_chan_open_confirm_execute (_ : PortId) (_ : ChannelId) :
    exec T NftTransferError ModuleExtras := mret ModuleExtras_empty.

Definition on_chan_close_init_validate (_ : T) (_ : PortId) (_ : ChannelId) :
    outcome NftTransferError () := Err CantCloseChannel.
Definition on_chan_close_init_execute (_ : PortId) (_ : ChannelId) :
    exec T NftTransferError ModuleExtras := lift (Err CantCloseChannel).

Definition on_chan_close_confirm_validate (_ : T) (_ : PortId) (_ : ChannelId) :
    outcome NftTransferError () := Ok tt.
Definition on_chan_close_confirm_execute (_ : PortId) (_ : ChannelId) :
    exec T NftTransferError ModuleExtras := mret ModuleExtras_empty.

Definition on_recv_packet_execute (packet : Packet) : callback T (ModuleExtras * Acknowledgement) :=
  match packet_data_from_slice (data packet) with
  | None =>
    v ← lift (StatusValue_from_error PacketDataDeserialization);
    ack ← lift (Acknowledgement_from (AckError v));
    mret (ModuleExtras_empty, ack)
  | Some data => λ t,
    let '(t, processed) := process_recv_packet_execute packet data t in
    ('(extras, ack) ← match processed with
      | Ok extras => v ← lift ack_success_b64; mret (extras, AckSuccess v)
      | Err (extras, error) => v ← lift (StatusValue_from_error error); mret (extras, AckError v)
      | Panic => lift Panic
      end;
     let recv_event := RecvEvent (pd_sender data) (pd_receiver data) (pd_class_id data)
       (pd_token_ids data) (memo_or_empty data) (is_successful ack) in
     let extras := mkModuleExtras (extra_events extras ++ [ModuleEvent_from recv_event])%list
       (extra_log extras) in
     ack ← lift (Acknowledgement_from ack);
     mret (extras, ack)) t
  end.

Definition on_acknowledgement_packet_validate (ctx : T) (packet : Packet)
    (acknowledgement : Acknowledgement) (_ : Signer) : outcome NftTransferError () :=
  data ← ok_or (packet_data_from_slice (data packet)) PacketDataDeserialization;
  acknowledgement ← ok_or (ack_status_from_slice (ack_bytes acknowledgement)) AckDeserialization;
  if negb (is_successful acknowledgement)
  then refund_packet_nft_validate ctx packet data
  else Ok tt.

Definition on_acknowledgement_packet_execute (packet : Packet) (acknowledgement : Acknowledgement)
    (_ : Signer) : callback T (ModuleExtras * outcome NftTransferError ()) :=
  match packet_data_from_slice (data packet) with
  | None => mret (ModuleExtras_empty, Err PacketDataDeserialization)
  | Some data =>
    match ack_status_from_slice (ack_bytes acknowledgement) with
    | None => mret (ModuleExtras_empty, Err AckDeserialization)
    | Some acknowledgement => λ t,
      let '(t, refund) := if negb (is_successful acknowledgement)
        then refund_packet_nft_execute packet data t else (t, Ok tt) in
      match refund with
      | Err err => (t, Ok (ModuleExtras_empty, Err err))
      | Panic => (t, Panic)
      | Ok _ =>
        let ack_event := AckEvent (pd_sender data) (pd_receiver data) (pd_class_id data)
          (pd_token_ids data) (memo_or_empty data) acknowledgement in
        let extras := mkModuleExtras
          [ModuleEvent_from ack_event; ModuleEvent_from (AckStatusEvent acknowledgement)] [] in
        (t, Ok (extras, Ok tt))
      end
    end
  end.

Definition on_timeout_packet_validate (ctx : T) (packet : Packet) (_ : Signer) :
    outcome NftTransferError () :=
  data ← ok_or (packet_data_from_slice (data packet)) PacketDataDeserialization;
  refund_packet_nft_validate ctx packet data.

Definition on_timeout_packet_execute (packet : Packet) (_ : Signer) :
    callback T (ModuleExtras * outcome NftTransferError ()) :=
  match packet_data_from_slice (data packet) with
  | None => mret (ModuleExtras_empty, Err PacketDataDeserialization)
  | Some data => λ t,
    let '(t, refund) := refund_packet_nft_execute packet data t in
    match refund with
    | Err err => (t, Ok (ModuleExtras_empty, Err err))
    | Panic => (t, Panic)
    | Ok _ =>
      let timeout_event := TimeoutEvent (pd_sender data) (pd_class_id data) (pd_token_ids data)
        (memo_or_empty data) in
      (t, Ok (mkModuleExtras [ModuleEvent_from timeout_event] [], Ok tt))
    end
  end.
End callbacks.
End Ics721.
