(* ===== verification/NftSafety.v ===== *)
(** * Transfers of non-fungible tokens keep one owner

    What the handlers of [NftTransfer] do to the tokens of the host, and the
    invariant of two chains that exchange tokens over one channel: a token is held
    by a user of its own chain, or it is in escrow and exactly one of its voucher
    and a packet under way stands for it.  The host is any instance of
    [NftTransferContext] whose operations do what their names say ([NftLaws]). *)

From S2P Require Import Prelude RustStr Identifiers Primitives Path Connection Channel Context.
From S2P Require Import ConnHandlers Module ChanHandlers PacketHandlers PacketSpec AckStatus.
From S2P Require Import NftTypes NftTransfer.
Local Open Scope string_scope.
Local Open Scope N_scope.

(** ** The host's contract *)

(** Who holds a token: an account, or the escrow of a channel. *)
Inductive Holder (A : Type) := Owned (a : A) | InEscrow (port : PortId) (chan : ChannelId).
Arguments Owned {A} a.
Arguments InEscrow {A} port chan.

Class NftLedger `{TmTime, HttpUri} (T : Type) `{!NftTransferContext T} := {
  holder : T → PrefixedClassId → TokenId → option (Holder AccountId);
}.

Section moves.
Context `{TmTime, HttpUri} {T : Type} `{!NftTransferContext T, !NftLedger T}.

(** The tokens [ids] of [class_id] are now held by [h], and no other token moved. *)
Definition relocated (t t' : T) (class_id : PrefixedClassId) (ids : list TokenId)
    (h : option (Holder AccountId)) : Prop :=
  ∀ c k, holder t' c k = if decide (c = class_id ∧ k ∈ ids) then h else holder t c k.
Definition same_tokens (t t' : T) : Prop := ∀ c k, holder t' c k = holder t c k.
End moves.

(** Escrow and burn take a token from its owner, and unescrow takes it from the
    escrow, which their validations check; unescrow and mint give it to an account; an operation that fails changes
    nothing; texts are texts. *)
Class NftLaws `{TmTime, HttpUri} (T : Type) `{!NftTransferContext T, !NftLedger T} := {
  escrow_owner t a p c cls k memo u :
    escrow_nft_validate t a p c cls k memo = Ok u → holder t cls k = Some (Owned a);
  burn_owner t a cls k memo u :
    burn_nft_validate t a cls k memo = Ok u → holder t cls k = Some (Owned a);
  unescrow_held t a p c cls k u :
    unescrow_nft_validate t a p c cls k = Ok u → holder t cls k = Some (InEscrow p c);
  escrow_law a p c cls k memo t t' u : escrow_nft_execute a p c cls k memo t = (t', Ok u) →
    relocated t t' cls [k] (Some (InEscrow p c));
  unescrow_law a p c cls k t t' u : unescrow_nft_execute a p c cls k t = (t', Ok u) →
    relocated t t' cls [k] (Some (Owned a));
  mint_law a cls k uri data t t' u : mint_nft_execute a cls k uri data t = (t', Ok u) →
    relocated t t' cls [k] (Some (Owned a));
  burn_law a cls k memo t t' u : burn_nft_execute a cls k memo t = (t', Ok u) →
    relocated t t' cls [k] None;
  create_class_law cls uri data t t' u :
    create_or_update_class_execute cls uri data t = (t', Ok u) → same_tokens t t';
  unescrow_failure a p c cls k t t' e : unescrow_nft_execute a p c cls k t = (t', Err e) →
    same_tokens t t';
  mint_failure a cls k uri data t t' e : mint_nft_execute a cls k uri data t = (t', Err e) →
    same_tokens t t';
  create_class_failure cls uri data t t' e :
    create_or_update_class_execute cls uri data t = (t', Err e) → same_tokens t t';
  nft_data_text nft d : nft_data nft = Some d → valid_utf8 (data_str (token_data_value d)) = true;
  nft_class_data_text c d : nft_class_data c = Some d → valid_utf8 (data_str (class_data d)) = true;
}.

(** ** Packet data on the wire *)

Section wire.
Context `{TmTime, Unicode, HttpUri, !HttpUriLaws, Base64, !Base64Laws, NftJson, !NftJsonLaws}.

Definition texts {A} (data : A → Data) (l : list A) : Prop :=
  Forall (λ d, valid_utf8 (data_str (data d)) = true) l.
(** The data a packet can carry: a class that its text determines, and texts. *)
Definition data_wf (d : PacketData) : Prop :=
  class_wf (pd_class_id d) ∧ texts class_data (option_list (pd_class_data d))
  ∧ texts token_data_value (default [] (pd_token_data d)).

Lemma read_opt_map {A B} (read : A → option B) (print : B → A) (x : option B) :
  Forall (λ b, read (print b) = Some b) (option_list x) → read_opt read (opt_map print x) = Some x.
Proof. destruct x as [b|]; [|done]. intros Hb. inversion Hb as [|? ? E]; subst. cbn. by rewrite E. Qed.
Lemma mapM_print {A B} (read : A → option B) (print : B → A) (l : list B) :
  Forall (λ b, read (print b) = Some b) l → mapM read (vec_map print l) = Some l.
Proof.
  induction 1 as [|b l E Hl IH]; [done|]. cbn. rewrite E. cbn. unfold vec_map in IH. by rewrite IH.
Qed.

Lemma nft_packet_data_json d : data_wf d → packet_data_from_slice (packet_data_to_vec d) = Some d.
Proof.
  intros (Hc & Hcd & Htd). unfold packet_data_from_slice, packet_data_to_vec.
  rewrite json_packet_data_json. cbn [mbind option_bind]. unfold PacketData_deserialize.
  destruct d as [cls curi cdata [ids] uris tdata sender receiver memo].
  cbn [PacketData_serialize pd_class_id pd_class_uri pd_class_data pd_token_ids pd_token_uris
    pd_token_data pd_sender pd_receiver pd_memo j_class_id j_class_uri j_class_data j_token_ids
    j_token_uris j_token_data j_sender j_receiver j_memo token_id_list] in *.
  rewrite (proj2 (PrefixedClassId_from_str_Ok _ cls)) by done. cbn [ok mbind option_bind].
  rewrite (read_opt_map (λ s, ok (ClassUri_from_str s))).
  2: { destruct curi; repeat constructor. by rewrite ClassUri_from_str_print. }
  cbn [mbind option_bind]. rewrite (read_opt_map (λ s, opt_map mkClassData (Data_deserialize s))).
  2: { eapply Forall_impl; [|exact Hcd]. intros [x] Hx. cbn in *. by rewrite Data_serde. }
  cbn [mbind option_bind]. rewrite (read_opt_map (mapM (λ s, ok (TokenUri_from_str s)))).
  2: { destruct uris; repeat constructor. apply mapM_print, list.Forall_forall. intros u _.
       by rewrite TokenUri_from_str_print. }
  cbn [mbind option_bind].
  rewrite (read_opt_map (mapM (λ s, opt_map mkTokenData (Data_deserialize s)))).
  2: { destruct tdata; repeat constructor. apply mapM_print. eapply Forall_impl; [|exact Htd].
       intros [x] Hx. cbn in *. by rewrite Data_serde. }
  cbn [mbind option_bind]. do 2 f_equal.
  - f_equal. unfold vec_map. rewrite <- list_fmap_compose. rewrite <- (list_fmap_id ids) at 2.
    apply list_fmap_ext. by intros _ [] _.
  - by destruct memo as [[]|].
Qed.
End wire.

(** ** Messages and packet data *)

Section data_theorems.
Context `{TmTime, Unicode, HttpUri, !HttpUriLaws, Base64, !Base64Laws, NftJson, !NftJsonLaws}.

(** A transfer the application can be asked for: the metadata is filled in later. *)
Definition MsgTransfer_wf (msg : MsgTransfer) : Prop :=
  let d := packet_data msg in
  port_ok (mt_port_id_on_a msg) ∧ channel_ok (mt_chan_id_on_a msg) ∧ class_wf (pd_class_id d)
  ∧ TokenIds_wf (pd_token_ids d) ∧ pd_class_uri d = None ∧ pd_class_data d = None
  ∧ pd_token_uris d = None ∧ pd_token_data d = None ∧ pd_memo d ≠ Some (mkMemo "")
  ∧ TimeoutHeight_wf (mt_timeout_height_on_b msg) ∧ Timestamp_wf (mt_timeout_timestamp_on_b msg)
  ∧ (TimeoutHeight_is_set (mt_timeout_height_on_b msg) = true
     ∨ Timestamp_is_set (mt_timeout_timestamp_on_b msg) = true).

(** The ranges protobuf gives the integer fields. *)
Definition RawMsgTransfer_u64 (r : RawMsgTransfer) : Prop :=
  is_u64 (rmt_timeout_timestamp r)
  ∧ ∀ h, rmt_timeout_height r = Some h →
      is_u64 (raw_revision_number h) ∧ is_u64 (raw_revision_height h).

Lemma memo_roundtrip (m : option Memo) :
  m ≠ Some (mkMemo "") → non_empty_memo (mkMemo (default "" (opt_map memo_str m))) = m.
Proof.
  destruct m as [[m]|]; [|done]. intros Hm. unfold non_empty_memo. cbn.
  destruct (String.eqb_spec m "") as [->|]; done.
Qed.

(** A well-formed message survives the trip through its protobuf form, and what is
    decoded is well-formed: valid identifiers, a class its text determines, sorted
    and distinct token identifiers and at least one timeout. *)
Theorem nft_msg_raw_roundtrip `{!TmTimeLaws} msg :
  (MsgTransfer_wf msg →
     ∃ r, RawMsgTransfer_from (E:=NftTransferError) msg = Ok r ∧ MsgTransfer_try_from r = Ok msg)
  ∧ (∀ r, RawMsgTransfer_u64 r → MsgTransfer_try_from r = Ok msg → MsgTransfer_wf msg).
Proof.
  split.
  - intros (Hp & Hc & Hcls & Hids & E1 & E2 & E3 & E4 & Hmemo & Hh & Ht & Hset).
    destruct (Timestamp_nanoseconds_wf (E:=NftTransferError) _ Ht) as (n & En & _).
    unfold RawMsgTransfer_from. rewrite En. eexists. split; [done|].
    unfold MsgTransfer_try_from, err_context, err_packet, err_client, err_identifier.
    cbn [rmt_source_port rmt_source_channel rmt_class_id rmt_token_ids rmt_sender
      rmt_receiver rmt_timeout_height rmt_timeout_timestamp rmt_memo].
    erewrite Timestamp_roundtrip by done. mstep. rewrite TimeoutHeight_roundtrip by done. mstep.
    assert (negb (TimeoutHeight_is_set (mt_timeout_height_on_b msg))
            && negb (Timestamp_is_set (mt_timeout_timestamp_on_b msg)) = false) as ->
      by (destruct Hset as [-> | ->]; [done|by rewrite andb_false_r]).
    mstep. rewrite Hp, Hc. mstep.
    rewrite (proj2 (PrefixedClassId_from_str_Ok _ (pd_class_id (packet_data msg)))) by done. mstep.
    rewrite (TokenIds_sorted _ (pd_token_ids (packet_data msg)));
      [|done|unfold vec_map; by rewrite token_strs]. mstep.
    rewrite memo_roundtrip by done. destruct msg as [? ? [] ? ?]. cbn in *. by subst.
  - intros r (Ht & Hh) Hm.
    unfold MsgTransfer_try_from, err_context, err_packet, err_client, err_identifier in Hm. inv_ok.
    match goal with H : TokenIds_try_from _ = _ |- _ => apply TokenIds_parsed in H as [? _] end.
    match goal with H : PrefixedClassId_from_str _ = _ |- _ =>
      apply PrefixedClassId_from_str_Ok in H as [? _] end.
    unfold MsgTransfer_wf. cbn.
    split_and!; eauto using PortId_parsed, ChannelId_parsed, TimeoutHeight_try_from_wf,
      Timestamp_from_nanoseconds_wf.
    + unfold non_empty_memo. cbn. destruct (String.eqb_spec (rmt_memo r) ""); congruence.
    + repeat match goal with
      | H : negb ?a && negb ?b = false |- _ => destruct a, b; cbn in H; auto; done end.
Qed.

(** Packets are decoded without the checks of [validate_basic] and of [TokenIds]:
    an object that reads as a packet still does with any other list of token
    identifiers, none, blank or repeated, whatever the number of URIs. *)
Theorem packet_data_not_validated j d ids :
  PacketData_deserialize j = Some d →
  let j' := mkJsonPacketData (j_class_id j) (j_class_uri j) (j_class_data j) ids (j_token_uris j)
    (j_token_data j) (j_sender j) (j_receiver j) (j_memo j) in
  ∃ d', packet_data_from_slice (json_packet_data_to_vec j') = Some d'
    ∧ token_id_list (pd_token_ids d') = mkTokenId <$> ids
    ∧ (ids = [] → PacketData_validate_basic d' = Err NoTokenId).
Proof.
  intros Hd j'. unfold packet_data_from_slice. rewrite json_packet_data_json.
  cbn [mbind option_bind]. unfold PacketData_deserialize, j' in *. cbn [j_class_id j_class_uri
    j_class_data j_token_ids j_token_uris j_token_data j_sender j_receiver j_memo].
  repeat match goal with
  | H : (?m ≫= _) = Some _ |- _ => destruct m; cbn [mbind option_bind] in H |- *; [|done]
  end.
  eexists. split_and!; [done..|]. by intros ->.
Qed.

(** The conversion from the protobuf form sorts the token identifiers but not
    their URIs: the URI of one token ends up beside another. *)
Theorem raw_uris_not_sorted (u v : TokenUri) :
  let raw := mkRawPacketData "class" "" "" ["b"; "a"] [TokenUri_to_string u; TokenUri_to_string v]
    [] "alice" "bob" "" in
  ∃ d, PacketData_try_from raw = Ok d
    ∧ token_id_list (pd_token_ids d) = [mkTokenId "a"; mkTokenId "b"]
    ∧ pd_token_uris d = Some [u; v].
Proof.
  cbv zeta. unfold PacketData_try_from. cbn [rpd_class_uri rpd_class_data rpd_token_ids rpd_class_id
    rpd_token_uris rpd_token_data rpd_sender rpd_receiver rpd_memo].
  assert (TokenIds_try_from ["b"; "a"] = Ok (mkTokenIds [mkTokenId "a"; mkTokenId "b"])) as E1
    by (vm_compute; reflexivity).
  assert (PrefixedClassId_from_str "class"
          = Ok (mkPrefixedClassId TracePath_empty (mkClassId "class"))) as E2
    by (vm_compute; reflexivity).
  cbn [String.eqb]. mstep. rewrite E1. mstep. rewrite E2. mstep.
  cbn [mapM]. rewrite !TokenUri_from_str_print. eexists. by split_and!.
Qed.
End data_theorems.

(** ** Moves *)

Section move_lemmas.
Context `{TmTime, HttpUri} {T : Type} `{!NftTransferContext T, !NftLedger T}.

Lemma same_tokens_refl (t : T) : same_tokens t t.
Proof. done. Qed.
Lemma same_tokens_trans (t1 t2 t3 : T) : same_tokens t1 t2 → same_tokens t2 t3 → same_tokens t1 t3.
Proof. intros H1 H2 c k. by rewrite H2. Qed.

Lemma relocated_nil (t : T) cls h : relocated t t cls [] h.
Proof. intros c k. rewrite decide_False; [done|]. by intros [_ []%not_elem_of_nil]. Qed.
Lemma relocated_cons (t t1 t2 : T) cls k ids h :
  relocated t t1 cls [k] h → relocated t1 t2 cls ids h → relocated t t2 cls (k :: ids) h.
Proof.
  intros H1 H2 c i. rewrite H2, H1.
  destruct (decide (c = cls ∧ i ∈ ids)) as [[? ?]|Hn].
  { rewrite decide_True; [done|]. split; [done|by right]. }
  apply decide_ext. set_solver.
Qed.
Lemma relocated_same (t t1 t2 : T) cls ids h :
  same_tokens t t1 → relocated t1 t2 cls ids h → relocated t t2 cls ids h.
Proof. intros H1 H2 c k. by rewrite H2, H1. Qed.

(** A second move of the same tokens hides the first. *)
Lemma relocated_twice (t t1 t2 : T) cls ids h1 h2 :
  relocated t t1 cls ids h1 → relocated t1 t2 cls ids h2 → relocated t t2 cls ids h2.
Proof. intros H1 H2 c k. rewrite H2, H1. by case_decide. Qed.

(** Moving tokens back to where they were. *)
Lemma relocated_back (t t1 : T) cls ids h :
  relocated t t1 cls ids h → (∀ k, k ∈ ids → holder t cls k = h) → same_tokens t t1.
Proof. intros Hr Hh c k. rewrite Hr. case_decide as Hd; [|done]. destruct Hd as [-> Hk]. by rewrite Hh. Qed.
End move_lemmas.

(** ** What the handlers do *)

Section effects.
Context `{TmTime, !ChainTypes, !LightClient, host : !Host, !Codec, !Sha256}.
Context `{Unicode, HttpUri, !HttpUriLaws, Base64, !Base64Laws, NftJson, !NftJsonLaws}.
Context {T : Type} `{!NftTransferContext T, !NftLedger T, !NftLaws T}.

Lemma nft_on_send_ctx_Ok {A} (m : action A) s (t : T) st' (x : A) :
  on_send_ctx m (s, t) = (st', Ok x) ↔ ∃ s', m s = (s', Ok x) ∧ st' = (s', t).
Proof.
  unfold on_send_ctx. rewrite on_fst_Ok. destruct (m s) as [s' [r|e|]]; cbn; naive_solver.
Qed.
Lemma nft_on_token_ctx_Ok {A} (m : exec T NftTransferError A) (s : IbcStore) t st' (x : A) :
  on_token_ctx m (s, t) = (st', Ok x) ↔ ∃ t', m t = (t', Ok x) ∧ st' = (s, t').
Proof. unfold on_token_ctx. by rewrite on_snd_Ok. Qed.
Lemma nft_with_extras_Ok {A} extras (m : exec T NftTransferError A) t t' (x : A) :
  with_extras extras m t = (t', Ok x) ↔ m t = (t', Ok x).
Proof. unfold with_extras. destruct (m t) as [? [?|?|]]; cbn; naive_solver. Qed.
Lemma nft_with_extras_Err {A} extras (m : exec T NftTransferError A) t t' e :
  with_extras extras m t = (t', Err e) ↔ ∃ err, m t = (t', Err err) ∧ e = (extras, err).
Proof. unfold with_extras. destruct (m t) as [? [?|?|]]; cbn; naive_solver. Qed.
Lemma nft_parse_account_Ok signer a :
  parse_account signer = Ok a ↔ account_try_from signer = Some a.
Proof. apply ok_or_Ok. Qed.

(** Inverts the steps of a handler run that returned [Ok]. *)
Ltac inv_steps :=
  repeat match goal with
  | H : (_ ≫= _) _ = (_, Ok _) |- _ => apply exec_bind_Ok in H as (? & ? & ? & ?)
  | H : with_extras _ _ _ = (_, Ok _) |- _ => apply nft_with_extras_Ok in H
  | H : reads _ _ = (_, Ok _) |- _ => apply reads_Ok in H as [-> H]
  | H : lift _ _ = (_, Ok _) |- _ => apply lift_Ok in H as [-> H]
  | H : mret _ _ = (_, Ok _) |- _ => apply exec_ret_Ok in H as [-> H]
  | H : parse_account _ = Ok _ |- _ => apply nft_parse_account_Ok in H
  | H : on_send_ctx (reads _) (_, _) = (_, Ok _) |- _ =>
    apply nft_on_send_ctx_Ok in H as (? & H & ->); apply reads_Ok in H as [-> H]
  | H : on_token_ctx _ (_, _) = (_, Ok _) |- _ => apply nft_on_token_ctx_Ok in H as (? & H & ->)
  | H : on_send_ctx _ (_, _) = (_, Ok _) |- _ => apply nft_on_send_ctx_Ok in H as (? & H & ?); simplify_eq
  end; destruct_units.
(** The same for a run that returned [Err]: the steps before the failing one are
    inverted, the failing one is left. *)
Ltac inv_failure :=
  repeat match goal with
  | H : (_ ≫= _) _ = (_, Err _) |- _ => apply exec_bind_Err in H as [?|(? & ? & ? & ?)]
  | H : with_extras _ _ _ = (_, Err _) |- _ => apply nft_with_extras_Err in H as (? & H & ?)
  | H : reads _ _ = (_, Err _) |- _ => apply reads_state in H as ->
  | H : lift _ _ = (_, Err _) |- _ => apply lift_state in H as ->
  | H : mret _ _ = (_, Err _) |- _ => discriminate H
  end; inv_steps.

(** *** Sending *)

(** What filling in tokens and class leaves alone. *)
Definition same_transfer (d d' : PacketData) : Prop :=
  pd_class_id d' = pd_class_id d ∧ pd_token_ids d' = pd_token_ids d ∧ pd_sender d' = pd_sender d
  ∧ pd_receiver d' = pd_receiver d ∧ pd_memo d' = pd_memo d.
Lemma same_transfer_trans d1 d2 d3 :
  same_transfer d1 d2 → same_transfer d2 d3 → same_transfer d1 d3.
Proof. unfold same_transfer. intros. destruct_and!. split_and!; congruence. Qed.
Lemma attach_same nft d : same_transfer d (attach nft d).
Proof. unfold attach. by destruct (nft_uri nft), (nft_data nft). Qed.

Lemma attach_texts nft d :
  texts token_data_value (default [] (pd_token_data d)) →
  texts token_data_value (default [] (pd_token_data (attach nft d))).
Proof.
  unfold attach. intros Hd. destruct (nft_uri nft), (nft_data nft) as [x|] eqn:E; try done.
  apply nft_data_text in E. destruct (pd_token_data d); cbn in *.
  - by apply Forall_app_2; [|constructor].
  - by constructor.
Qed.

(** Where the tokens go: to the escrow of the channel when the chain is their
    source, out of existence when they are vouchers of the channel. *)
Definition sent_to (p : PortId) (c : ChannelId) (cls : PrefixedClassId) : option (Holder AccountId) :=
  if is_sender_chain_source p c cls then Some (InEscrow p c) else None.

Lemma take_each_execute_Ok sender p c ids d t t' d' :
  take_each_execute sender p c ids d t = (t', Ok d') →
  relocated t t' (pd_class_id d) ids (sent_to p c (pd_class_id d)) ∧ same_transfer d d'
  ∧ (texts token_data_value (default [] (pd_token_data d)) →
     texts token_data_value (default [] (pd_token_data d'))).
Proof.
  revert d t. induction ids as [|k ids IH]; intros d t Hx; cbn [take_each_execute] in Hx.
  { inv_steps. simplify_eq. split_and!; [apply relocated_nil|done..]. }
  inv_steps. match goal with H : take_each_execute _ _ _ _ _ _ = _ |- _ =>
    apply IH in H as (Hr & Hs & Ht) end.
  match goal with H : get_nft _ _ _ = Ok ?n |- _ => pose proof (attach_same n d) as Ha;
    pose proof (attach_texts n d) as Hat end.
  split_and!; [|by eapply same_transfer_trans|eauto].
  rewrite (proj1 Ha) in Hr. eapply relocated_cons; [|exact Hr]. unfold sent_to.
  destruct (is_sender_chain_source p c (pd_class_id d)); [by eapply escrow_law|by eapply burn_law].
Qed.

Lemma take_each_validate_Ok sender p c ids d t d' :
  take_each_validate t sender p c ids d = Ok d' →
  ∀ k, k ∈ ids → holder t (pd_class_id d) k = Some (Owned sender).
Proof.
  revert d. induction ids as [|k ids IH]; intros d Hx i Hi; [by apply not_elem_of_nil in Hi|].
  cbn [take_each_validate] in Hx. inv_ok. apply list.elem_of_cons in Hi as [->|Hi].
  - destruct (is_sender_chain_source p c (pd_class_id d)); [by eapply escrow_owner|by eapply burn_owner].
  - match goal with H : take_each_validate _ _ _ _ _ (attach ?n d) = _ |- _ =>
      rewrite <- (proj1 (attach_same n d)); by eapply IH end.
Qed.

(** The data a transfer puts into its packet. *)
Definition sent_data (msg : MsgTransfer) (t : T) : outcome NftTransferError PacketData :=
  sender ← parse_account (pd_sender (packet_data msg));
  let '(t1, r) := take_each_execute sender (mt_port_id_on_a msg) (mt_chan_id_on_a msg)
    (token_id_list (pd_token_ids (packet_data msg))) (clear_tokens (packet_data msg)) t in
  d ← r;
  nft_class ← get_nft_class t1 (pd_class_id d);
  Ok (with_class (nft_class_uri nft_class) (nft_class_data nft_class) d).

Definition nft_packet (msg : MsgTransfer) (seq : Sequence) (remote : PortId * ChannelId)
    (d : PacketData) : Packet :=
  mkPacket seq (mt_port_id_on_a msg) (mt_chan_id_on_a msg) remote.1 remote.2
    (packet_data_to_vec d) (mt_timeout_height_on_b msg) (mt_timeout_timestamp_on_b msg).

(** The channel, the destination and the sequence number [msg] is sent with. *)
Record sends_from (s : IbcStore) (msg : MsgTransfer) (c : ChannelEnd) (chan_b : ChannelId)
    (seq : Sequence) (sender : AccountId) : Prop := {
  sf_channel : pc_get (channels s) (mt_port_id_on_a msg) (mt_chan_id_on_a msg) = Some c;
  sf_remote : rem_channel_id (chan_remote c) = Some chan_b;
  sf_sequence :
    pc_get (next_sequence_send s) (mt_port_id_on_a msg) (mt_chan_id_on_a msg) = Some seq;
  sf_sender : account_try_from (pd_sender (packet_data msg)) = Some sender;
}.

Lemma send_validate_Ok s t msg u :
  send_nft_transfer_validate s t msg = Ok u →
  ∃ c chan_b seq sender d, sends_from s msg c chan_b seq sender
    ∧ take_each_validate t sender (mt_port_id_on_a msg) (mt_chan_id_on_a msg)
        (token_id_list (pd_token_ids (packet_data msg))) (clear_tokens (packet_data msg)) = Ok d
    ∧ PacketData_validate_basic d = Ok tt.
Proof.
  unfold send_nft_transfer_validate, err_context. intros Hv. inv_ok.
  match goal with H : channel_end _ _ = _ |- _ => apply channel_end_Ok in H; cbn in H end.
  match goal with H : get_next_sequence_send _ _ = _ |- _ => apply get_next_sequence_send_Ok in H end.
  match goal with H : parse_account _ = _ |- _ => apply nft_parse_account_Ok in H end.
  destruct_units. do 5 eexists. split_and!; [by split|done..].
Qed.

Lemma send_execute_Ok s t msg s' t' c chan_b seq sender :
  sends_from s msg c chan_b seq sender →
  send_nft_transfer_execute msg (s, t) = ((s', t'), Ok tt) →
  ∃ s1 d, send_packet_execute (nft_packet msg seq (rem_port_id (chan_remote c), chan_b) d) s
        = (s1, Ok tt)
    ∧ same_state s1 s' ∧ sent_data msg t = Ok d ∧ same_transfer (packet_data msg) d
    ∧ (class_wf (pd_class_id (packet_data msg)) → data_wf d)
    ∧ relocated t t' (pd_class_id (packet_data msg)) (token_id_list (pd_token_ids (packet_data msg)))
        (sent_to (mt_port_id_on_a msg) (mt_chan_id_on_a msg) (pd_class_id (packet_data msg))).
Proof.
  intros [Hc Hr Hs Ha] Hx. unfold send_nft_transfer_execute in Hx. inv_steps.
  repeat match goal with
  | H : channel_end _ _ = Ok _ |- _ => apply channel_end_Ok in H; cbn in H; simplify_eq
  | H : get_next_sequence_send _ _ = Ok _ |- _ => apply get_next_sequence_send_Ok in H; simplify_eq/=
  | H : ok_or _ _ = Ok _ |- _ => apply ok_or_Ok in H; simplify_eq
  end.
  match goal with H : take_each_execute _ _ _ _ _ _ = _ |- _ => rename H into Ht end.
  destruct (take_each_execute_Ok _ _ _ _ _ _ _ _ Ht) as (Hrel & Hsame & Htexts).
  match goal with H : send_packet_execute _ _ = _ |- _ => rename H into Hp end.
  match goal with H : get_nft_class _ _ = _ |- _ => rename H into Hcls end.
  eexists _, _. split_and!; [exact Hp| | | | |exact Hrel].
  - unfold_actions. inv_ok. by repeat split.
  - unfold sent_data, parse_account. rewrite Ha. mstep. rewrite Ht. mstep. rewrite Hcls. done.
  - destruct Hsame as (E1 & E2 & E3 & E4 & E5). by split_and!.
  - intros Hw. split_and!.
    + cbn. by rewrite (proj1 Hsame).
    + cbn. destruct (nft_class_data _) eqn:E; [|constructor].
      apply nft_class_data_text in E. by apply Forall_singleton.
    + apply Htexts. cbn. destruct (pd_token_data (packet_data msg)); constructor.
Qed.

Lemma send_nft_effect msg s t s' t' :
  send_nft_transfer msg (s, t) = ((s', t'), Ok tt) →
  ∃ c chan_b seq sender d s1, sends_from s msg c chan_b seq sender
    ∧ (∀ k, k ∈ token_id_list (pd_token_ids (packet_data msg)) →
         holder t (pd_class_id (packet_data msg)) k = Some (Owned sender))
    ∧ send_packet_execute (nft_packet msg seq (rem_port_id (chan_remote c), chan_b) d) s
        = (s1, Ok tt)
    ∧ same_state s1 s' ∧ sent_data msg t = Ok d ∧ same_transfer (packet_data msg) d
    ∧ (class_wf (pd_class_id (packet_data msg)) → data_wf d)
    ∧ relocated t t' (pd_class_id (packet_data msg)) (token_id_list (pd_token_ids (packet_data msg)))
        (sent_to (mt_port_id_on_a msg) (mt_chan_id_on_a msg) (pd_class_id (packet_data msg))).
Proof.
  unfold send_nft_transfer. intros Hx. apply exec_bind_Ok in Hx as (st1 & u & Hv & Hx).
  apply reads_Ok in Hv as [-> Hv].
  apply send_validate_Ok in Hv as (c & chan_b & seq & sender & d0 & Hf & Hv & _).
  pose proof (take_each_validate_Ok _ _ _ _ _ _ _ Hv) as Ho.
  destruct (send_execute_Ok _ _ _ _ _ _ _ _ _ Hf Hx) as (s1 & d & Hrest).
  by exists c, chan_b, seq, sender, d, s1.
Qed.

Lemma send_packet_execute_committed packet s s1 s' :
  send_packet_execute packet s = (s1, Ok tt) → same_state s1 s' →
  get_packet_commitment s' (commitment_path_on_a packet) = packet_commitment_of packet.
Proof.
  intros Hp (_ & _ & _ & _ & _ & _ & _ & Hc & _).
  unfold send_packet_execute in Hp. inv_exec. unfold get_packet_commitment.
  rewrite Hc. cbn. rewrite pcs_get_insert, decide_True by done.
  match goal with H : packet_commitment_of packet = _ |- _ => by rewrite H end.
Qed.

(** *** Refunds *)

Lemma refund_mint_Ok sender d i ids t t' u :
  refund_mint sender d i ids t = (t', Ok u) →
  relocated t t' (pd_class_id d) ids (Some (Owned sender)).
Proof.
  revert i t. induction ids as [|k ids IH]; intros i t Hx; cbn [refund_mint] in Hx; inv_steps;
    [apply relocated_nil|].
  eapply relocated_cons; [by eapply mint_law|by eapply IH].
Qed.

Lemma unescrow_each_Ok sender p c cls ids t t' u :
  for_each (λ k, unescrow_nft_execute sender p c cls k) ids t = (t', Ok u) →
  relocated t t' cls ids (Some (Owned sender)).
Proof.
  revert t. induction ids as [|k ids IH]; intros t Hx; cbn [for_each] in Hx; inv_steps;
    [apply relocated_nil|].
  eapply relocated_cons; [by eapply unescrow_law|by eapply IH].
Qed.

Lemma nft_refund_effect packet d t t' u :
  refund_packet_nft_execute packet d t = (t', Ok u) →
  ∃ sender, account_try_from (pd_sender d) = Some sender
    ∧ relocated t t' (pd_class_id d) (token_id_list (pd_token_ids d)) (Some (Owned sender)).
Proof.
  unfold refund_packet_nft_execute. intros Hx. inv_steps. eexists. split; [done|].
  destruct (is_sender_chain_source _ _ _); [by eapply unescrow_each_Ok|by eapply refund_mint_Ok].
Qed.

(** *** Receiving *)

(** What the class of a packet is called on the receiving chain. *)
Definition received_class (packet : Packet) (cls : PrefixedClassId) : PrefixedClassId :=
  if is_receiver_chain_source (port_id_on_a packet) (chan_id_on_a packet) cls
  then remove_trace_prefix cls (mkTracePrefix (port_id_on_a packet) (chan_id_on_a packet))
  else add_trace_prefix cls (mkTracePrefix (port_id_on_b packet) (chan_id_on_b packet)).

(** A failed loop has handed out the tokens before the failing one. *)
Definition handed_out (t t' : T) (cls : PrefixedClassId) (ids : list TokenId) (receiver : AccountId) :
    Prop :=
  ∃ pre post, ids = (pre ++ post)%list ∧ post ≠ [] ∧ relocated t t' cls pre (Some (Owned receiver)).

Lemma handed_out_none (t t' : T) cls k ids receiver :
  same_tokens t t' → handed_out t t' cls (k :: ids) receiver.
Proof.
  intros Hs. exists [], (k :: ids). split_and!; [done..|].
  intros c i. rewrite decide_False by (intros [_ []%not_elem_of_nil]). apply Hs.
Qed.
Lemma handed_out_cons (t t1 t' : T) cls k ids receiver :
  relocated t t1 cls [k] (Some (Owned receiver)) → handed_out t1 t' cls ids receiver →
  handed_out t t' cls (k :: ids) receiver.
Proof.
  intros Hr (pre & post & -> & Hp & Hh). exists (k :: pre), post.
  split_and!; [done..|by eapply relocated_cons].
Qed.

Lemma unescrow_one_Ok receiver packet cls k t t' u :
  unescrow_one receiver packet cls k t = (t', Ok u) →
  relocated t t' cls [k] (Some (Owned receiver))
  ∧ holder t cls k = Some (InEscrow (port_id_on_b packet) (chan_id_on_b packet)).
Proof.
  unfold unescrow_one. intros Hx. inv_steps. split; [by eapply unescrow_law|by eapply unescrow_held].
Qed.
Lemma unescrow_one_Err receiver packet cls k t t' e :
  unescrow_one receiver packet cls k t = (t', Err e) → same_tokens t t'.
Proof. unfold unescrow_one. intros Hx. inv_failure; [done|by eapply unescrow_failure]. Qed.

(** Every token the loop hands out was in the escrow of the channel. *)
Definition were_escrowed (t : T) (packet : Packet) (cls : PrefixedClassId) (ids : list TokenId) :
    Prop :=
  ∀ k, k ∈ ids → holder t cls k = Some (InEscrow (port_id_on_b packet) (chan_id_on_b packet)).
Lemma were_escrowed_cons t t1 packet cls k ids a :
  relocated t t1 cls [k] (Some (Owned a)) →
  holder t cls k = Some (InEscrow (port_id_on_b packet) (chan_id_on_b packet)) →
  were_escrowed t1 packet cls ids → were_escrowed t packet cls (k :: ids).
Proof.
  intros Hr Hk Hw i [->|Hi]%list.elem_of_cons; [done|]. apply Hw in Hi. rewrite Hr in Hi.
  by case_decide.
Qed.

Lemma unescrow_loop receiver packet cls ids t t' r :
  for_each (unescrow_one receiver packet cls) ids t = (t', r) →
  match r with
  | Ok _ => relocated t t' cls ids (Some (Owned receiver)) ∧ were_escrowed t packet cls ids
  | Err _ => handed_out t t' cls ids receiver
  | Panic => True
  end.
Proof.
  revert t. induction ids as [|k ids IH]; intros t Hx; cbn [for_each] in Hx.
  { cbv [mret exec_ret] in Hx. simplify_eq. split; [apply relocated_nil|].
    by intros k []%not_elem_of_nil. }
  destruct (unescrow_one receiver packet cls k t) as [t1 [[]|e|]] eqn:E.
  - unfold mbind, exec_bind in Hx. rewrite E in Hx. apply IH in Hx.
    apply unescrow_one_Ok in E as [Hr Hk]. destruct r; [|by eapply handed_out_cons|done].
    destruct Hx. split; [by eapply relocated_cons|by eapply were_escrowed_cons].
  - unfold mbind, exec_bind in Hx. rewrite E in Hx. simplify_eq. apply unescrow_one_Err in E.
    by apply handed_out_none.
  - unfold mbind, exec_bind in Hx. rewrite E in Hx. by simplify_eq.
Qed.

Lemma mint_loop_Ok receiver cls d i ids extras t t' extras' :
  mint_each receiver cls d i ids extras t = (t', Ok extras') →
  relocated t t' cls ids (Some (Owned receiver)).
Proof.
  revert i extras t. induction ids as [|k ids IH]; intros i extras t Hx; cbn [mint_each] in Hx;
    inv_steps; [apply relocated_nil|].
  match goal with H : create_or_update_class_execute _ _ _ _ = _ |- _ =>
    apply create_class_law in H; eapply relocated_same; [exact H|] end.
  eapply relocated_cons; [by eapply mint_law|by eapply IH].
Qed.
Lemma mint_loop_Err receiver cls d i ids extras t t' e :
  mint_each receiver cls d i ids extras t = (t', Err e) → handed_out t t' cls ids receiver.
Proof.
  revert i extras t. induction ids as [|k ids IH]; intros i extras t Hx; cbn [mint_each] in Hx;
    inv_failure; try (by apply handed_out_none).
  - apply handed_out_none. by eapply create_class_failure.
  - apply handed_out_none. by eapply create_class_law.
  - apply handed_out_none. eapply same_tokens_trans; [by eapply create_class_law|].
    by eapply mint_failure.
  - eapply handed_out_cons; [|by eapply IH].
    eapply relocated_same; [by eapply create_class_law|by eapply mint_law].
Qed.

Lemma nft_process_recv_Ok packet d t t' extras :
  process_recv_packet_execute packet d t = (t', Ok extras) →
  ∃ receiver, account_try_from (pd_receiver d) = Some receiver
    ∧ relocated t t' (received_class packet (pd_class_id d)) (token_id_list (pd_token_ids d))
        (Some (Owned receiver))
    ∧ (is_receiver_chain_source (port_id_on_a packet) (chan_id_on_a packet) (pd_class_id d) = true →
       were_escrowed t packet (received_class packet (pd_class_id d))
         (token_id_list (pd_token_ids d))).
Proof.
  unfold process_recv_packet_execute, received_class. intros Hx. inv_steps. eexists. split; [done|].
  destruct (is_receiver_chain_source _ _ _); inv_steps.
  - match goal with H : for_each _ _ _ = _ |- _ => apply unescrow_loop in H as [? ?] end. by split.
  - split; [by eapply mint_loop_Ok|done].
Qed.

Lemma nft_process_recv_Err packet d t t' e :
  process_recv_packet_execute packet d t = (t', Err e) →
  same_tokens t t' ∨ ∃ receiver, account_try_from (pd_receiver d) = Some receiver
    ∧ handed_out t t' (received_class packet (pd_class_id d)) (token_id_list (pd_token_ids d))
        receiver.
Proof.
  unfold process_recv_packet_execute, received_class. intros Hx. inv_failure; try (by left).
  right. eexists. split; [done|]. destruct (is_receiver_chain_source _ _ _); inv_failure.
  - match goal with H : for_each _ _ _ = _ |- _ => by apply unescrow_loop in H end.
  - by eapply mint_loop_Err.
Qed.

(** *** Callbacks *)

Definition nft_success_ack : Acknowledgement :=
  mkAcknowledgement (AcknowledgementStatus_into_vec (AckSuccess (mkStatusValue ACK_SUCCESS_B64))).
Definition nft_error_ack (err : NftTransferError) : Acknowledgement :=
  mkAcknowledgement (AcknowledgementStatus_into_vec
    (AckError (mkStatusValue (NftTransferError_to_string err)))).

Lemma nft_StatusValue_from_error_Ok {E} err :
  StatusValue_from_error (E:=E) err = Ok (mkStatusValue (NftTransferError_to_string err)).
Proof. by destruct err. Qed.
Lemma nft_ack_success_json :
  ack_status_from_slice (ack_bytes nft_success_ack)
  = Some (AckSuccess (mkStatusValue ACK_SUCCESS_B64)).
Proof. apply ack_status_json. by vm_compute. Qed.
Lemma nft_error_ack_ne err : nft_error_ack err ≠ nft_success_ack.
Proof.
  intros He. pose proof nft_ack_success_json as Hs. rewrite <- He in Hs.
  by apply ack_status_first_key in Hs.
Qed.

(** Receiving answers with the outcome of the processing. *)
Lemma on_recv_packet_run packet d t :
  packet_data_from_slice (data packet) = Some d →
  match process_recv_packet_execute packet d t with
  | (t', Ok _) => ∃ extras, Ics721.on_recv_packet_execute packet t = (t', Ok (extras, nft_success_ack))
  | (t', Err (_, err)) =>
    ∃ extras, Ics721.on_recv_packet_execute packet t = (t', Ok (extras, nft_error_ack err))
  | (t', Panic) => Ics721.on_recv_packet_execute packet t = (t', Panic)
  end.
Proof.
  intros Hd. unfold Ics721.on_recv_packet_execute. rewrite Hd.
  destruct (process_recv_packet_execute packet d t) as [t1 [ex|[ex err]|]]; [| |done].
  - eexists. run_exec. cbn. by rewrite Acknowledgement_from_Ok.
  - eexists. run_exec. rewrite nft_StatusValue_from_error_Ok. cbn. by rewrite Acknowledgement_from_Ok.
Qed.

Lemma on_timeout_effect packet d signer t t' extras :
  packet_data_from_slice (data packet) = Some d →
  Ics721.on_timeout_packet_execute packet signer t = (t', Ok (extras, Ok tt)) →
  ∃ sender, account_try_from (pd_sender d) = Some sender
    ∧ relocated t t' (pd_class_id d) (token_id_list (pd_token_ids d)) (Some (Owned sender)).
Proof.
  intros Hd. unfold Ics721.on_timeout_packet_execute. rewrite Hd.
  destruct (refund_packet_nft_execute packet d t) as [t1 [[]|e|]] eqn:E; intros [= <- _].
  by eapply nft_refund_effect.
Qed.

Lemma on_ack_effect packet d ack signer t t' extras status :
  packet_data_from_slice (data packet) = Some d →
  ack_status_from_slice (ack_bytes ack) = Some status →
  Ics721.on_acknowledgement_packet_execute packet ack signer t = (t', Ok (extras, Ok tt)) →
  if is_successful status then t' = t
  else ∃ sender, account_try_from (pd_sender d) = Some sender
    ∧ relocated t t' (pd_class_id d) (token_id_list (pd_token_ids d)) (Some (Owned sender)).
Proof.
  intros Hd Hs. unfold Ics721.on_acknowledgement_packet_execute. rewrite Hd, Hs.
  destruct (is_successful status); cbn [negb]; [by intros [= <- _]|].
  destruct (refund_packet_nft_execute packet d t) as [t1 [[]|e|]] eqn:E; intros [= <- _].
  by eapply nft_refund_effect.
Qed.
End effects.

(** ** Transfers, refunds and failures *)

(** A host that has forgotten what does not exist. *)
Class StrictNfts `{TmTime, HttpUri} (T : Type) `{!NftTransferContext T, !NftLedger T} := {
  get_nft_missing t cls k : holder t cls k = None → get_nft t cls k = Err NftNotFound;
}.
(** A host that does not change the metadata of tokens when it takes one. *)
Class StableNfts `{TmTime, HttpUri} (T : Type) `{!NftTransferContext T} := {
  escrow_metadata a p c cls k memo t t' u cls' k' nft' :
    escrow_nft_execute a p c cls k memo t = (t', Ok u) → get_nft t' cls' k' = Ok nft' →
    ∃ nft, get_nft t cls' k' = Ok nft ∧ nft_uri nft' = nft_uri nft ∧ nft_data nft' = nft_data nft;
  burn_metadata a cls k memo t t' u cls' k' nft' :
    burn_nft_execute a cls k memo t = (t', Ok u) → get_nft t' cls' k' = Ok nft' →
    ∃ nft, get_nft t cls' k' = Ok nft ∧ nft_uri nft' = nft_uri nft ∧ nft_data nft' = nft_data nft;
}.

Section transfers.
Context `{TmTime, !ChainTypes, !LightClient, host : !Host, !Codec, !Sha256}.
Context `{Unicode, HttpUri, !HttpUriLaws, Base64, !Base64Laws, NftJson, !NftJsonLaws}.
Context {T : Type} `{!NftTransferContext T, !NftLedger T, !NftLaws T}.

(** C19: A successful transfer takes every token from its owner, the sender, into the
    escrow of the channel or out of existence, and commits to a packet that names
    exactly these tokens; if that packet later times out or comes back with an
    error, exactly these tokens go back to the sender, and a success
    acknowledgement moves nothing.  In particular a refund right after the transfer
    restores every holder. *)
Theorem nft_refund_undoes_transfer msg s t s' t' :
  send_nft_transfer msg (s, t) = ((s', t'), Ok tt) → class_wf (pd_class_id (packet_data msg)) →
  ∃ seq remote sender d,
    let packet := nft_packet msg seq remote d in
    let p := mt_port_id_on_a msg in
    let c := mt_chan_id_on_a msg in
    let cls := pd_class_id (packet_data msg) in
    let ids := token_id_list (pd_token_ids (packet_data msg)) in
    account_try_from (pd_sender (packet_data msg)) = Some sender
    ∧ get_packet_commitment s' (commitment_path_on_a packet) = packet_commitment_of packet
    ∧ packet_data_from_slice (data packet) = Some d ∧ same_transfer (packet_data msg) d
    ∧ (∀ k, k ∈ ids → holder t cls k = Some (Owned sender))
    ∧ relocated t t' cls ids (sent_to p c cls)
    ∧ ∀ t1 t2 signer extras,
        (Ics721.on_timeout_packet_execute packet signer t1 = (t2, Ok (extras, Ok tt)) →
           relocated t1 t2 cls ids (Some (Owned sender)) ∧ (t1 = t' → same_tokens t t2))
        ∧ ∀ ack status, ack_status_from_slice (ack_bytes ack) = Some status →
            Ics721.on_acknowledgement_packet_execute packet ack signer t1
              = (t2, Ok (extras, Ok tt)) →
            if is_successful status then t2 = t1
            else relocated t1 t2 cls ids (Some (Owned sender)) ∧ (t1 = t' → same_tokens t t2).
Proof.
  intros Hx Hw. apply send_nft_effect in Hx
    as (c & chan_b & seq & sender & d & s1 & [Hc Hr Hn Ha] & Ho & Hp & Hs & Hd & Hsame & Hdw & Hrel).
  exists seq, (rem_port_id (chan_remote c), chan_b), sender, d. cbv zeta.
  set (packet := nft_packet msg seq (rem_port_id (chan_remote c), chan_b) d) in *.
  assert (packet_data_from_slice (data packet) = Some d) as Hj
    by (apply nft_packet_data_json; by apply Hdw).
  pose proof Hsame as (E1 & E2 & E3 & _).
  assert (∀ t1 t2, (∃ a, account_try_from (pd_sender d) = Some a
     ∧ relocated t1 t2 (pd_class_id d) (token_id_list (pd_token_ids d)) (Some (Owned a))) →
     relocated t1 t2 (pd_class_id (packet_data msg))
       (token_id_list (pd_token_ids (packet_data msg))) (Some (Owned sender))
     ∧ (t1 = t' → same_tokens t t2)) as Hback.
  { intros t1 t2 (a & Ea & Hb). rewrite E1, E2 in Hb. rewrite E3, Ha in Ea. injection Ea as <-.
    split; [done|]. intros ->. eapply relocated_back; [by eapply relocated_twice|done]. }
  split_and!; [done|by eapply send_packet_execute_committed|done|done|done|done|].
  intros t1 t2 signer extras. split.
  - intros Hx. apply Hback. by eapply on_timeout_effect.
  - intros ack status Es Hx. pose proof (on_ack_effect _ _ _ _ _ _ _ _ Hj Es Hx) as He.
    destruct (is_successful status); [done|by apply Hback].
Qed.

(** A failed receive of one token left it alone. *)
Lemma nft_failed_single packet d t t' extras err :
  process_recv_packet_execute packet d t = (t', Err (extras, err)) →
  (length (token_id_list (pd_token_ids d)) ≤ 1)%nat → same_tokens t t'.
Proof.
  intros [?|(receiver & _ & pre & post & Hi & Hp & Hr)]%nft_process_recv_Err Hl; [done|].
  rewrite Hi, length_app in Hl. destruct post; [done|]. destruct pre; [|cbn in Hl; lia].
  intros c k. rewrite Hr, decide_False; [done|]. by intros [_ []%not_elem_of_nil].
Qed.

(** C20: Receiving answers with success exactly when every token of the packet went to
    the receiver, under the class as seen from this chain, out of the escrow of the
    channel when it returns to its source; an error answer leaves
    everything as it was, or has handed out a strict prefix of the tokens, none if
    there is one token only.  Data that cannot be decoded is answered with an
    error. *)
Theorem nft_received_spec packet t t' extras ack :
  Ics721.on_recv_packet_execute packet t = (t', Ok (extras, ack)) →
  match packet_data_from_slice (data packet) with
  | Some d =>
    let cls := received_class packet (pd_class_id d) in
    let ids := token_id_list (pd_token_ids d) in
    (ack = nft_success_ack ∧ ∃ receiver, account_try_from (pd_receiver d) = Some receiver
       ∧ relocated t t' cls ids (Some (Owned receiver))
       ∧ (is_receiver_chain_source (port_id_on_a packet) (chan_id_on_a packet) (pd_class_id d)
            = true → were_escrowed t packet cls ids))
    ∨ ∃ err, ack = nft_error_ack err ∧ ack ≠ nft_success_ack
        ∧ (same_tokens t t' ∨ ∃ receiver, account_try_from (pd_receiver d) = Some receiver
             ∧ handed_out t t' cls ids receiver)
        ∧ ((length ids ≤ 1)%nat → same_tokens t t')
  | None => ack = nft_error_ack PacketDataDeserialization ∧ t' = t
  end.
Proof.
  intros Hx. destruct (packet_data_from_slice (data packet)) as [d|] eqn:E.
  - pose proof (on_recv_packet_run packet d t E) as Hrun.
    destruct (process_recv_packet_execute packet d t) as [t1 [ex|[ex err]|]] eqn:Ep.
    + destruct Hrun as [ex' Hrun]. rewrite Hrun in Hx. simplify_eq. left. split; [done|].
      by eapply nft_process_recv_Ok.
    + destruct Hrun as [ex' Hrun]. rewrite Hrun in Hx. simplify_eq. right. exists err.
      split_and!; [done|apply nft_error_ack_ne|by apply nft_process_recv_Err in Ep|].
      intros Hl. by eapply nft_failed_single.
    + by rewrite Hrun in Hx.
  - unfold Ics721.on_recv_packet_execute in Hx. rewrite E in Hx. revert Hx. run_exec.
    rewrite nft_StatusValue_from_error_Ok. cbn. rewrite Acknowledgement_from_Ok. by intros [= <- _ <-].
Qed.

(** C38: The tokens of a packet are processed one by one and what is done is not undone:
    when a later token is refused, the answer is an error, for which the sender gets
    all the tokens back, and a token that was already handed out then has an owner
    on both chains. *)
Theorem partial_receive_duplicates packet d tb tb' ta ta' extras e status signer ack_extras k :
  let cls := received_class packet (pd_class_id d) in
  packet_data_from_slice (data packet) = Some d →
  process_recv_packet_execute packet d tb = (tb', Err (extras, e)) →
  holder tb' cls k ≠ holder tb cls k →
  ack_status_from_slice (ack_bytes (nft_error_ack e)) = Some status →
  Ics721.on_acknowledgement_packet_execute packet (nft_error_ack e) signer ta
    = (ta', Ok (ack_extras, Ok tt)) →
  ∃ sender receiver extras',
    Ics721.on_recv_packet_execute packet tb = (tb', Ok (extras', nft_error_ack e))
    ∧ account_try_from (pd_sender d) = Some sender
    ∧ account_try_from (pd_receiver d) = Some receiver
    ∧ holder ta' (pd_class_id d) k = Some (Owned sender)
    ∧ holder tb' cls k = Some (Owned receiver).
Proof.
  intros cls Hd Hp Hk Hs Hx.
  pose proof (on_recv_packet_run packet d tb Hd) as Hrun. rewrite Hp in Hrun.
  destruct Hrun as [extras' Hrun].
  pose proof (on_ack_effect _ _ _ _ _ _ _ _ Hd Hs Hx) as He.
  rewrite (ack_status_first_key _ _ Hs) in He. destruct He as (sender & Ha & Hr).
  apply nft_process_recv_Err in Hp as [Hsame|(receiver & Hrecv & pre & post & Hi & _ & Hrel)];
    [by destruct Hk|].
  specialize (Hrel cls k) as Hrk. unfold cls in Hrk, Hk.
  case_decide as Hin; [destruct Hin as [_ Hin]|by destruct Hk].
  exists sender, receiver, extras'. split_and!; [done..| |done].
  rewrite Hr, decide_True; [done|]. split; [done|]. rewrite Hi. by apply elem_of_app; left.
Qed.

(** The first voucher of a transfer is burnt and not found afterwards. *)
Lemma burnt_not_found `{!StrictNfts T} sender p c d k ids t t1 :
  is_sender_chain_source p c (pd_class_id d) = false →
  burn_nft_execute sender (pd_class_id d) k (memo_or_empty d) t = (t1, Ok tt) →
  holder t1 (pd_class_id d) k = None
  ∧ take_each_execute sender p c (k :: ids) d t = (t1, Err NftNotFound).
Proof.
  intros Hsrc Hburn.
  assert (holder t1 (pd_class_id d) k = None) as Hnone.
  { rewrite (burn_law _ _ _ _ _ _ _ Hburn), decide_True; [done|]. split; [done|].
    by apply list_elem_of_singleton. }
  split; [done|]. cbn [take_each_execute]. rewrite Hsrc. apply exec_bind_Err. right.
  exists t1, tt. split; [done|]. apply exec_bind_Err. left. unfold reads. by rewrite get_nft_missing.
Qed.

(** A voucher is burnt before it is looked up: on a host that does not find what
    does not exist, sending a voucher home fails, with the token burnt and no
    packet sent. *)
Theorem voucher_transfer_fails `{!StrictNfts T} msg s t t1 c chan_b seq sender k ids :
  sends_from s msg c chan_b seq sender →
  is_sender_chain_source (mt_port_id_on_a msg) (mt_chan_id_on_a msg)
    (pd_class_id (packet_data msg)) = false →
  token_id_list (pd_token_ids (packet_data msg)) = k :: ids →
  burn_nft_execute sender (pd_class_id (packet_data msg)) k (memo_or_empty (packet_data msg)) t
    = (t1, Ok tt) →
  send_nft_transfer_execute msg (s, t) = ((s, t1), Err NftNotFound)
  ∧ holder t1 (pd_class_id (packet_data msg)) k = None.
Proof.
  intros [Hc Hr Hn Ha] Hsrc Hids Hburn.
  destruct (burnt_not_found sender _ _ (clear_tokens (packet_data msg)) k ids t t1 Hsrc Hburn)
    as [Hnone Htake].
  split; [|done]. unfold send_nft_transfer_execute.
  apply exec_bind_Err. right. exists (s, t), c. split.
  { apply nft_on_send_ctx_Ok. exists s. split; [|done]. by apply reads_Ok, (conj eq_refl), channel_end_Ok. }
  apply exec_bind_Err. right. exists (s, t), chan_b. split; [apply lift_Ok; by rewrite Hr|].
  apply exec_bind_Err. right. exists (s, t), seq. split.
  { apply nft_on_send_ctx_Ok. exists s. split; [|done].
    by apply reads_Ok, (conj eq_refl), get_next_sequence_send_Ok. }
  apply exec_bind_Err. right. exists (s, t), sender. split.
  { apply lift_Ok. split; [done|]. by apply nft_parse_account_Ok. }
  apply exec_bind_Err. left. rewrite Hids. unfold on_token_ctx, on_snd. cbn [fst snd]. by rewrite Htake.
Qed.

Corollary vouchers_never_sent `{!StrictNfts T} msg s t s' t' k ids :
  is_sender_chain_source (mt_port_id_on_a msg) (mt_chan_id_on_a msg)
    (pd_class_id (packet_data msg)) = false →
  token_id_list (pd_token_ids (packet_data msg)) = k :: ids →
  send_nft_transfer msg (s, t) ≠ ((s', t'), Ok tt).
Proof.
  intros Hsrc Hids Hx. unfold send_nft_transfer in Hx.
  apply exec_bind_Ok in Hx as (st1 & u & Hv & Hx). apply reads_Ok in Hv as [-> Hv].
  apply send_validate_Ok in Hv as (c & chan_b & seq & sender & d0 & Hf & _).
  destruct (send_execute_Ok _ _ _ _ _ _ _ _ _ Hf Hx) as (s1 & d & _ & _ & Hd & _).
  unfold sent_data, parse_account in Hd. rewrite (sf_sender _ _ _ _ _ _ Hf) in Hd.
  rewrite Hids in Hd.
  destruct (burn_nft_execute sender (pd_class_id (packet_data msg)) k
    (memo_or_empty (packet_data msg)) t) as [t1 [[]|e|]] eqn:E.
  { destruct (burnt_not_found sender _ _ (clear_tokens (packet_data msg)) k ids t t1 Hsrc E)
      as [_ Htake]. revert Hd. mstep. by rewrite Htake. }
  all: revert Hd; mstep; cbn [take_each_execute];
    change (pd_class_id (clear_tokens (packet_data msg))) with (pd_class_id (packet_data msg));
    change (memo_or_empty (clear_tokens (packet_data msg))) with (memo_or_empty (packet_data msg));
    rewrite Hsrc; unfold mbind at 1, exec_bind at 1; by rewrite E.
Qed.
End transfers.

(** ** The metadata of the tokens sent *)

Section metadata.
Context `{TmTime, !ChainTypes, !LightClient, host : !Host, !Codec, !Sha256}.
Context `{Unicode, HttpUri, !HttpUriLaws, Base64, !Base64Laws, NftJson, !NftJsonLaws}.
Context {T : Type} `{!NftTransferContext T, !NftLedger T, !NftLaws T, !StableNfts T}.

(** What a packet carries of a token: its URI and data if it has both. *)
Definition metadata (nft : Nft) : option (TokenUri * TokenData) :=
  match nft_uri nft, nft_data nft with Some uri, Some data => Some (uri, data) | _, _ => None end.
Definition has_metadata (t : T) (cls : PrefixedClassId) (k : TokenId)
    (m : option (TokenUri * TokenData)) : Prop :=
  ∃ nft, get_nft t cls k = Ok nft ∧ metadata nft = m.
Definition present (ms : list (option (TokenUri * TokenData))) : list (TokenUri * TokenData) :=
  omap id ms.
(** [d'] is [d] with the metadata [ms] added. *)
Definition adds (d d' : PacketData) (ms : list (option (TokenUri * TokenData))) : Prop :=
  pd_token_ids d' = pd_token_ids d
  ∧ default [] (pd_token_uris d') = (default [] (pd_token_uris d) ++ (present ms).*1)%list
  ∧ default [] (pd_token_data d') = (default [] (pd_token_data d) ++ (present ms).*2)%list.

Lemma adds_nil d : adds d d [].
Proof. by unfold adds; rewrite !app_nil_r. Qed.
Lemma adds_cons nft d d' ms : adds (attach nft d) d' ms → adds d d' (metadata nft :: ms).
Proof.
  unfold adds, attach, metadata. destruct (nft_uri nft), (nft_data nft); try done.
  intros (Hc & Hu & Hd). split; [done|]. unfold present in *. cbn in *.
  destruct (pd_token_uris d), (pd_token_data d); cbn in *;
    rewrite ?Hu, ?Hd, <- ?app_assoc; by split.
Qed.

Lemma validated_metadata t sender p c ids d d' :
  take_each_validate t sender p c ids d = Ok d' →
  ∃ ms, Forall2 (has_metadata t (pd_class_id d)) ids ms ∧ adds d d' ms.
Proof.
  revert d. induction ids as [|k ids IH]; intros d Hx; cbn [take_each_validate] in Hx.
  { injection Hx as <-. exists []. split; [constructor|apply adds_nil]. }
  inv_ok. match goal with H : take_each_validate _ _ _ _ _ (attach ?n d) = _ |- _ =>
    apply IH in H as (ms & Hms & Ha); exists (metadata n :: ms) end.
  split; [|by apply adds_cons]. rewrite (proj1 (attach_same _ d)) in Hms.
  constructor; [by eexists|done].
Qed.

Lemma executed_metadata sender p c ids d t t' d' :
  take_each_execute sender p c ids d t = (t', Ok d') →
  ∃ ms, Forall2 (has_metadata t (pd_class_id d)) ids ms ∧ adds d d' ms.
Proof.
  revert d t. induction ids as [|k ids IH]; intros d t Hx; cbn [take_each_execute] in Hx.
  { apply exec_ret_Ok in Hx as [_ ->]. exists []. split; [constructor|apply adds_nil]. }
  apply exec_bind_Ok in Hx as (t1 & [] & Htake & Hx).
  apply exec_bind_Ok in Hx as (t2 & nft & Hn & Hx). apply reads_Ok in Hn as [-> Hn].
  assert (∀ i m, has_metadata t1 (pd_class_id d) i m → has_metadata t (pd_class_id d) i m) as Hback.
  { intros i m (nft' & Hg & <-).
    assert (∃ n0, get_nft t (pd_class_id d) i = Ok n0 ∧ nft_uri nft' = nft_uri n0
              ∧ nft_data nft' = nft_data n0) as (n0 & Hg0 & Eu & Ed).
    { destruct (is_sender_chain_source p c (pd_class_id d));
        [by eapply escrow_metadata|by eapply burn_metadata]. }
    exists n0. split; [done|]. unfold metadata. by rewrite Eu, Ed. }
  apply IH in Hx as (ms & Hms & Ha). exists (metadata nft :: ms). split; [|by apply adds_cons].
  rewrite (proj1 (attach_same _ d)) in Hms.
  constructor; [apply Hback; by eexists|]. eapply Forall2_impl; [|exact Hms]. intros; by apply Hback.
Qed.

(** All or nothing: a list that lost none of its elements, or all of them. *)
Lemma present_all ms i m :
  length (present ms) = length ms → ms !! i = Some m → present ms !! i = m.
Proof.
  assert (∀ l, (length (present l) ≤ length l)%nat) as Hle.
  { induction l as [|[x|] l IHl]; unfold present in *; cbn in *; lia. }
  revert i. induction ms as [|[x|] ms IH]; intros i Hl Hm; [done| |].
  - destruct i as [|i]; [by injection Hm as <-|]. unfold present in *. cbn in *.
    apply IH; [lia|done].
  - pose proof (Hle ms). unfold present in *. cbn in *. lia.
Qed.
Lemma present_none ms i m : length (present ms) = 0%nat → ms !! i = Some m → m = None.
Proof.
  revert i. induction ms as [|[x|] ms IH]; intros i Hl Hm; [done|done|].
  destruct i as [|i]; [by injection Hm as <-|by eapply IH].
Qed.

Lemma has_metadata_fun t cls ids ms ms' :
  Forall2 (has_metadata t cls) ids ms → Forall2 (has_metadata t cls) ids ms' → ms = ms'.
Proof.
  intros Hms. revert ms'. induction Hms as [|k m ids ms (n & Hg & <-) _ IH]; intros ms' Hms'.
  - by inversion Hms'.
  - apply Forall2_cons_inv_l in Hms' as (m' & ms2 & (n' & Hg' & <-) & Hr & ->).
    rewrite Hg in Hg'. injection Hg' as <-. by rewrite (IH ms2).
Qed.

Lemma opt_len_default {A} (l : option (list A)) : opt_len l = length (default [] l).
Proof. by destruct l. Qed.
Lemma get_nth_default {A} (l : option (list A)) i : get_nth l i = default [] l !! i.
Proof. by destruct l. Qed.

Lemma clear_default d :
  default [] (pd_token_uris (clear_tokens d)) = [] ∧ default [] (pd_token_data (clear_tokens d)) = [].
Proof. unfold clear_tokens. cbn. by destruct (pd_token_uris d), (pd_token_data d). Qed.

(** What the lengths the packet data is checked for say of the metadata added. *)
Lemma all_or_none d dv ms :
  adds (clear_tokens d) dv ms → length (token_id_list (pd_token_ids d)) = length ms →
  PacketData_validate_basic dv = Ok tt →
  (∀ i m, ms !! i = Some m → present ms !! i = m)
  ∧ ((∀ i m, ms !! i = Some m → is_Some m) ∨ ∀ i m, ms !! i = Some m → m = None).
Proof.
  intros (Hids & Hu & Hdv) Hlen Hb. destruct (clear_default d) as [Eu Ed]. rewrite Eu in Hu. rewrite Ed in Hdv.
  unfold PacketData_validate_basic in Hb. rewrite !opt_len_default, Hu, Hdv in Hb.
  cbn [app] in Hb. rewrite !length_fmap, Hids in Hb.
  change (pd_token_ids (clear_tokens d)) with (pd_token_ids d) in Hb.
  rewrite Hlen in Hb. inv_ok. match goal with H : _ || _ = false |- _ => revert H end.
  destruct (Nat.eqb_spec (length (present ms)) 0) as [E0|_]; [intros _|].
  - pose proof (λ i m, present_none ms i m E0) as Hn. split; [|by right].
    intros i m Hm. rewrite (Hn i m Hm). by apply nil_length_inv in E0 as ->.
  - destruct (Nat.eqb_spec (length (present ms)) (length ms)) as [El|]; [|done].
    intros _. split; [intros i m; by apply present_all|left]. intros i m Hm.
    rewrite <- (present_all _ _ _ El Hm). apply lookup_lt_is_Some. rewrite El.
    by eapply lookup_lt_Some.
Qed.

(** C39: The metadata in the packet belongs to the tokens it is listed with: at the
    position of a token the packet has its URI and data, or none if it does not
    have both; and either all the tokens of a transfer that succeeds have both, or
    none has, a mixture being refused.  This is for hosts that do not change the
    metadata of tokens when they escrow or burn one. *)
Theorem nft_metadata_aligned msg s t s' t' :
  send_nft_transfer msg (s, t) = ((s', t'), Ok tt) →
  let cls := pd_class_id (packet_data msg) in
  let ids := token_id_list (pd_token_ids (packet_data msg)) in
  ∃ d, sent_data msg t = Ok d
    ∧ (∀ i k, ids !! i = Some k →
        ∃ nft, get_nft t cls k = Ok nft
          ∧ get_nth (pd_token_uris d) i = fst <$> metadata nft
          ∧ get_nth (pd_token_data d) i = snd <$> metadata nft)
    ∧ ((∀ k, k ∈ ids → ∃ m, has_metadata t cls k (Some m))
       ∨ ∀ k, k ∈ ids → has_metadata t cls k None).
Proof.
  intros Hx cls ids. unfold send_nft_transfer in Hx. apply exec_bind_Ok in Hx as (st1 & u & Hv & Hx).
  apply reads_Ok in Hv as [-> Hv].
  apply send_validate_Ok in Hv as (c & chan_b & seq & sender & dv & Hf & Hv & Hb).
  destruct (send_execute_Ok _ _ _ _ _ _ _ _ _ Hf Hx) as (s1 & d & _ & _ & Hd & _).
  exists d. split; [done|].
  unfold sent_data, parse_account in Hd. rewrite (sf_sender _ _ _ _ _ _ Hf) in Hd. revert Hd. mstep.
  destruct (take_each_execute _ _ _ _ _ t) as [t1 r] eqn:Htake. intros Hd. inv_ok.
  apply validated_metadata in Hv as (ms & Hms & Hav).
  apply executed_metadata in Htake as (ms' & Hms' & Hae).
  rewrite <- (has_metadata_fun _ _ _ _ _ Hms Hms') in Hae. clear Hms' ms'.
  destruct (all_or_none (packet_data msg) _ ms Hav (Forall2_length Hms) Hb) as [Hat Hall]. split.
  - intros i k Hk. destruct (Forall2_lookup_l _ _ _ _ _ Hms Hk) as (m & Hm & nft & Hn & <-).
    exists nft. split; [done|]. cbn [with_class pd_token_uris pd_token_data].
    rewrite !get_nth_default. destruct Hae as (_ & -> & ->).
    rewrite (proj1 (clear_default (packet_data msg))), (proj2 (clear_default (packet_data msg))).
    cbn [app]. rewrite !list_lookup_fmap. by rewrite (Hat i _ Hm).
  - destruct Hall as [Hsome|Hnone]; [left|right]; intros k [i Hk]%list_elem_of_lookup;
      destruct (Forall2_lookup_l _ _ _ _ _ Hms Hk) as (m & Hm & Hh).
    + destruct (Hsome i m Hm) as [md ->]. by exists md.
    + by rewrite (Hnone i m Hm) in Hh.
Qed.
End metadata.
