(* ===== verification/NftSystem.v ===== *)
(** * Two chains that exchange non-fungible tokens

    Transfers in both directions over one channel, with refunds and whatever else
    happens on the two chains, as a step relation; and its invariant: a token is in
    one place.  It is held by a user of its own chain, or it is in the escrow of the
    channel and then either its voucher exists on the other chain or exactly one
    packet under way carries it, once.

    The steps include receives that fail after some tokens were handed out, which
    [NftSafety.partial_receive_duplicates] shows to give such a token two owners: the
    invariant is that of a token no such receive has handed out. *)

From S2P Require Import Prelude RustStr Identifiers Primitives Path Connection Channel Context.
From S2P Require Import ConnHandlers Module ChanHandlers PacketHandlers PacketSpec AckStatus.
From S2P Require Import NftTypes NftTransfer NftSafety.
Local Open Scope N_scope.

Section system.
Context `{TmTime, !ChainTypes, !LightClient, !Codec, !Sha256}.
Context `{Unicode, HttpUri, !HttpUriLaws, Base64, !Base64Laws, NftJson, !NftJsonLaws}.
Context {T : Type} `{!NftTransferContext T, !NftLedger T, !NftLaws T}.

(** The two ends of the channel. *)
Context (ends : side → PortId * ChannelId).

Definition end_prefix (σ : side) : TracePrefix := mkTracePrefix (ends σ).1 (ends σ).2.
(** [d] is not a class of vouchers of the channel on the side [σ]. *)
Definition source (σ : side) (d : PrefixedClassId) : bool :=
  is_sender_chain_source (ends σ).1 (ends σ).2 d.
(** What the class [d] of [σ] is called on the other side. *)
Definition voucher (σ : side) (d : PrefixedClassId) : PrefixedClassId :=
  add_trace_prefix d (end_prefix (other σ)).

(** A transfer under way: where it started, its packet, and the acknowledgement
    once it is received. *)
Record Flight := mkFlight {
  origin : side; flight_packet : Packet; flight_ack : option Acknowledgement }.
Record System := mkSystem { tokens_of : side → T; flights : list Flight }.
Definition set_tokens (σ : side) (t : T) (S : System) : System :=
  mkSystem (λ τ, if decide (τ = σ) then t else tokens_of S τ) (flights S).
Definition set_flights (l : list Flight) (S : System) : System := mkSystem (tokens_of S) l.

Definition in_escrow (σ : side) (t : T) (d : PrefixedClassId) (k : TokenId) : bool :=
  match holder t d k with
  | Some (InEscrow p c) => bool_decide ((p, c) = ends σ)
  | _ => false
  end.
Definition exists_token (t : T) (d : PrefixedClassId) (k : TokenId) : bool :=
  match holder t d k with Some _ => true | None => false end.

(** What everything else on the chain [σ] leaves alone: the escrow of the channel
    and the existence of its vouchers. *)
Definition untouched (σ : side) (t t' : T) : Prop :=
  (∀ d k, in_escrow σ t' d k = in_escrow σ t d k)
  ∧ ∀ d k, source σ d = false → exists_token t' d k = exists_token t d k.

(** Transfers in both directions, each in a host of its own time and height.  A
    packet is received, acknowledged or timed out at most once and only if it was
    sent, and not both received and timed out: that is what the channel
    guarantees.  A receive may fail after some of its tokens were handed out. *)
Inductive step : System → System → Prop :=
| step_send (h : Host) σ msg s s' t' c seq d S :
    (mt_port_id_on_a msg, mt_chan_id_on_a msg) = ends σ →
    pc_get (channels s) (ends σ).1 (ends σ).2 = Some c →
    chan_remote c = mkChanCounterparty (ends (other σ)).1 (Some (ends (other σ)).2) →
    pc_get (next_sequence_send s) (ends σ).1 (ends σ).2 = Some seq →
    class_wf (pd_class_id (packet_data msg)) → TokenIds_wf (pd_token_ids (packet_data msg)) →
    sent_data msg (tokens_of S σ) = Ok d →
    send_nft_transfer (host:=h) msg (s, tokens_of S σ) = ((s', t'), Ok tt) →
    step S (set_tokens σ t' (set_flights
      (mkFlight σ (nft_packet msg seq (ends (other σ)) d) None :: flights S) S))
| step_recv S l1 σ packet l2 t' extras ack :
    flights S = (l1 ++ mkFlight σ packet None :: l2)%list →
    Ics721.on_recv_packet_execute packet (tokens_of S (other σ)) = (t', Ok (extras, ack)) →
    step S (set_tokens (other σ) t' (set_flights (l1 ++ mkFlight σ packet (Some ack) :: l2)%list S))
| step_ack S l1 σ packet ack l2 t' extras signer :
    flights S = (l1 ++ mkFlight σ packet (Some ack) :: l2)%list →
    Ics721.on_acknowledgement_packet_execute packet ack signer (tokens_of S σ)
      = (t', Ok (extras, Ok tt)) →
    step S (set_tokens σ t' (set_flights (l1 ++ l2)%list S))
| step_timeout S l1 σ packet l2 t' extras signer :
    flights S = (l1 ++ mkFlight σ packet None :: l2)%list →
    Ics721.on_timeout_packet_execute packet signer (tokens_of S σ) = (t', Ok (extras, Ok tt)) →
    step S (set_tokens σ t' (set_flights (l1 ++ l2)%list S))
| step_host S σ t' : untouched σ (tokens_of S σ) t' → step S (set_tokens σ t' S).

(** The channel is new: nothing in escrow, no vouchers, nothing under way. *)
Definition initial (S : System) : Prop :=
  flights S = [] ∧ ∀ σ, (∀ d k, in_escrow σ (tokens_of S σ) d k = false)
    ∧ ∀ d k, source σ d = false → exists_token (tokens_of S σ) d k = false.

(** The class [d] of [σ], as the chain [τ] calls it. *)
Definition named (σ : side) (d : PrefixedClassId) (τ : side) : PrefixedClassId :=
  if decide (σ = τ) then d else voucher σ d.
(** A receive that was answered with an error in this step did not hand out the token. *)
Definition spared (σ : side) (d : PrefixedClassId) (k : TokenId) (S S' : System) : Prop :=
  ∀ l1 τ packet ack l2,
    flights S = (l1 ++ mkFlight τ packet None :: l2)%list →
    flights S' = (l1 ++ mkFlight τ packet (Some ack) :: l2)%list → ack ≠ nft_success_ack →
    holder (tokens_of S' (other τ)) (named σ d (other τ)) k
    = holder (tokens_of S (other τ)) (named σ d (other τ)) k.
(** The transfers under way carry one token each. *)
Definition single (f : Flight) : Prop :=
  ∀ pd, packet_data_from_slice (data (flight_packet f)) = Some pd →
    (length (token_id_list (pd_token_ids pd)) ≤ 1)%nat.
(** What a run from a new channel reaches in which every step spares the token, or finds only
    transfers of one token under way. *)
Definition reachable (σ : side) (d : PrefixedClassId) (k : TokenId) (S : System) : Prop :=
  ∃ S0, initial S0
    ∧ rtc (λ S S', step S S' ∧ (spared σ d k S S' ∨ Forall single (flights S))) S0 S.

(** *** The books *)

(** How often a transfer with the data [pd] from [τ] carries the token. *)
Definition carried (σ : side) (d : PrefixedClassId) (k : TokenId) (τ : side) (pd : PacketData) : nat :=
  if decide (pd_class_id pd = named σ d τ)
  then length (filter (λ i, i = k) (token_id_list (pd_token_ids pd))) else 0.
(** A transfer is pending until its tokens are handed out or given back. *)
Definition pending (σ : side) (d : PrefixedClassId) (k : TokenId) (f : Flight) : nat :=
  match packet_data_from_slice (data (flight_packet f)) with
  | Some pd => if decide (flight_ack f = Some nft_success_ack) then 0
               else carried σ d k (origin f) pd
  | None => 0
  end.
Definition total_pending (σ : side) (d : PrefixedClassId) (k : TokenId) (l : list Flight) : nat :=
  foldr (λ f n, pending σ d k f + n)%nat 0%nat l.
(** What the tokens of [τ] say of the token [k] of the class [d] of [σ]: whether it
    is in escrow, or whether its voucher exists. *)
Definition held (σ : side) (d : PrefixedClassId) (k : TokenId) (τ : side) (t : T) : nat :=
  Nat.b2n (if decide (σ = τ) then in_escrow τ t d k else exists_token t (voucher σ d) k).

Definition balanced (σ : side) (d : PrefixedClassId) (k : TokenId) (S : System) : Prop :=
  held σ d k σ (tokens_of S σ)
  = (held σ d k (other σ) (tokens_of S (other σ)) + total_pending σ d k (flights S))%nat.

(** Packets under way run between the two ends, carry data, and are unanswered or
    answered by one of the two acknowledgements. *)
Definition flight_wf (f : Flight) : Prop :=
  let p := flight_packet f in
  (port_id_on_a p, chan_id_on_a p) = ends (origin f)
  ∧ (port_id_on_b p, chan_id_on_b p) = ends (other (origin f))
  ∧ is_Some (packet_data_from_slice (data p))
  ∧ match flight_ack f with
    | None => True
    | Some ack => ack = nft_success_ack ∨ ∃ err, ack = nft_error_ack err
    end.
Definition all_wf (S : System) : Prop := Forall flight_wf (flights S).

(** *** Lemmas on names and counts *)

Lemma nft_source_voucher σ d : source (other σ) (voucher σ d) = false.
Proof.
  unfold source, is_sender_chain_source, voucher, end_prefix. by rewrite receiver_source_add_class.
Qed.
Lemma nft_voucher_inj σ d1 d2 : voucher σ d1 = voucher σ d2 → d1 = d2.
Proof.
  intros Hv. rewrite <- (remove_add_class d1 (end_prefix (other σ))).
  unfold voucher in Hv. by rewrite Hv, remove_add_class.
Qed.

(** Of the two names of a token, the side tells which is a voucher. *)
Lemma source_named σ d τ : source σ d = true → source τ (named σ d τ) = bool_decide (σ = τ).
Proof.
  intros Hd. unfold named. destruct (side_cases σ τ) as [->| ->].
  - by rewrite decide_True, bool_decide_eq_true_2.
  - rewrite decide_False, bool_decide_eq_false_2 by (by destruct τ).
    pose proof (nft_source_voucher (other τ) d) as Hv. by rewrite other_involutive in Hv.
Qed.

(** How a move on the side [τ] shows in the books. *)
Lemma relocated_held σ d k τ t t' cls ids h :
  relocated t t' cls ids h →
  held σ d k τ t' = if decide (cls = named σ d τ ∧ k ∈ ids)
    then Nat.b2n match h with
                 | Some (InEscrow p c) => if decide (σ = τ) then bool_decide ((p, c) = ends τ) else true
                 | Some (Owned _) => negb (bool_decide (σ = τ))
                 | None => false
                 end
    else held σ d k τ t.
Proof.
  intros Hr. unfold held, named, in_escrow, exists_token.
  destruct (decide (σ = τ)) as [->|Hne]; rewrite Hr.
  - rewrite bool_decide_eq_true_2 by done.
    destruct (decide (d = cls ∧ k ∈ ids)) as [[-> Hk]|Hn]; [rewrite decide_True by done|rewrite decide_False by naive_solver; done].
    by destruct h as [[]|].
  - rewrite bool_decide_eq_false_2 by done.
    destruct (decide (voucher σ d = cls ∧ k ∈ ids)) as [[<- Hk]|Hn]; [rewrite decide_True by done|rewrite decide_False by naive_solver; done].
    by destruct h as [[]|].
Qed.

Lemma same_held σ d k τ t t' :
  holder t' (named σ d τ) k = holder t (named σ d τ) k → held σ d k τ t' = held σ d k τ t.
Proof. unfold held, in_escrow, exists_token, named. intros Hs. by case_decide; rewrite Hs. Qed.
Lemma nft_untouched_held σ d k τ t t' :
  source σ d = true → untouched τ t t' → held σ d k τ t' = held σ d k τ t.
Proof.
  intros Hd [He Hx]. unfold held. case_decide as Hτ; f_equal; [apply He|]. apply Hx.
  pose proof (source_named σ d τ Hd) as Hn. unfold named in Hn. rewrite decide_False in Hn by done.
  by rewrite Hn, bool_decide_eq_false_2.
Qed.

(** Tokens sent from [τ] leave its users: into the books of their own side, out of
    those of the other. *)
Lemma sent_held σ d k τ t t' sender p c cls ids :
  source σ d = true → (p, c) = ends τ →
  relocated t t' cls ids (sent_to p c cls) →
  (∀ i, i ∈ ids → holder t cls i = Some (Owned sender)) →
  let n := Nat.b2n (bool_decide (cls = named σ d τ ∧ k ∈ ids)) in
  if decide (σ = τ) then held σ d k τ t' = (held σ d k τ t + n)%nat
  else held σ d k τ t = (held σ d k τ t' + n)%nat.
Proof.
  intros Hd He Hr Ho. cbv zeta. rewrite (relocated_held σ d k τ t t' _ _ _ Hr).
  pose proof (source_named σ d τ Hd) as Hn. unfold source in Hn. rewrite <- He in Hn. cbn in Hn.
  destruct (decide (cls = named σ d τ ∧ k ∈ ids)) as [[-> Hk]|Hx].
  - rewrite (bool_decide_eq_true_2 (named σ d τ = named σ d τ ∧ k ∈ ids)) by done.
    unfold sent_to. rewrite Hn.
    unfold held, in_escrow, exists_token. specialize (Ho k Hk). unfold named in Ho.
    destruct (decide (σ = τ)) as [->|Hne].
    + rewrite bool_decide_eq_true_2 by done. rewrite Ho. by rewrite bool_decide_eq_true_2.
    + rewrite bool_decide_eq_false_2 by done. by rewrite Ho.
  - rewrite (bool_decide_eq_false_2 (cls = named σ d τ ∧ k ∈ ids)) by done.
    cbn. destruct (decide (σ = τ)); lia.
Qed.

(** Tokens given back on [τ]. *)
Lemma returned_held σ d k τ t t' cls ids a :
  relocated t t' cls ids (Some (Owned a)) →
  held σ d k τ t' = if decide (cls = named σ d τ ∧ k ∈ ids)
    then Nat.b2n (negb (bool_decide (σ = τ))) else held σ d k τ t.
Proof. apply relocated_held. Qed.

(** Tokens handed out on the other side of [τ]. *)
Lemma received_held σ d k τ t t' packet cls ids a :
  source σ d = true →
  (port_id_on_a packet, chan_id_on_a packet) = ends τ →
  (port_id_on_b packet, chan_id_on_b packet) = ends (other τ) →
  relocated t t' (received_class packet cls) ids (Some (Owned a)) →
  (is_receiver_chain_source (port_id_on_a packet) (chan_id_on_a packet) cls = true →
     were_escrowed t packet (received_class packet cls) ids) →
  held σ d k (other τ) t' = if decide (cls = named σ d τ ∧ k ∈ ids)
    then Nat.b2n (bool_decide (σ = τ)) else held σ d k (other τ) t.
Proof.
  intros Hd Ha Hb Hr Hw. rewrite (relocated_held σ d k (other τ) t t' _ _ _ Hr).
  assert (negb (bool_decide (σ = other τ)) = bool_decide (σ = τ)) as -> by (by destruct σ, τ).
  unfold received_class in *.
  assert (is_receiver_chain_source (port_id_on_a packet) (chan_id_on_a packet) cls
          = negb (source τ cls)) as Hc.
  { unfold source, is_sender_chain_source. by rewrite <- Ha, negb_involutive. }
  rewrite Hc in *. clear Hc Hr.
  replace (mkTracePrefix (port_id_on_a packet) (chan_id_on_a packet)) with (end_prefix τ) in *
    by (unfold end_prefix; by rewrite <- Ha).
  replace (mkTracePrefix (port_id_on_b packet) (chan_id_on_b packet)) with (end_prefix (other τ)) in *
    by (unfold end_prefix; by rewrite <- Hb).
  pose proof (source_named σ d τ Hd) as Hn. pose proof (source_named σ d (other τ) Hd) as Hn'.
  assert (∀ cls', (cls' = named σ d (other τ) ↔ cls = named σ d τ) →
    (if decide (cls' = named σ d (other τ) ∧ k ∈ ids) then Nat.b2n (bool_decide (σ = τ))
     else held σ d k (other τ) t) = if decide (cls = named σ d τ ∧ k ∈ ids)
     then Nat.b2n (bool_decide (σ = τ)) else held σ d k (other τ) t) as Hsame.
  { intros cls' Hiff. apply decide_ext. by rewrite Hiff. }
  destruct (source τ cls) eqn:Hc; cbn [negb] in *.
  - apply Hsame. fold (voucher τ cls). destruct (side_cases σ τ) as [->| ->].
    + unfold named. rewrite decide_False, decide_True by (by destruct τ).
      split; [apply nft_voucher_inj|by intros ->].
    + rewrite bool_decide_eq_true_2 in Hn' by done.
      split; intros E; [pose proof (nft_source_voucher τ cls) as Hv; by rewrite E, Hn' in Hv|].
      rewrite <- E, Hc in Hn. symmetry in Hn. apply bool_decide_eq_true in Hn. by destruct τ.
  - assert (voucher (other τ) (remove_trace_prefix cls (end_prefix τ)) = cls) as Hv.
    { unfold voucher. rewrite other_involutive. apply add_remove_class.
      unfold source, is_sender_chain_source in Hc. by apply negb_false_iff in Hc. }
    destruct (side_cases σ τ) as [->| ->].
    + rewrite bool_decide_eq_true_2 in Hn by done. rewrite bool_decide_eq_true_2 by done.
      rewrite (decide_False (P:=cls = _ ∧ _)) by (intros [-> _]; congruence).
      destruct (decide (remove_trace_prefix cls (end_prefix τ) = named τ d (other τ) ∧ k ∈ ids))
        as [[E Hk]|]; [|done]. unfold held, exists_token.
      rewrite decide_False by (by destruct τ). specialize (Hw eq_refl k Hk). rewrite E in Hw.
      unfold named in Hw. rewrite decide_False in Hw by (by destruct τ). by rewrite Hw.
    + apply Hsame. unfold named. rewrite decide_True, decide_False by (by destruct τ).
      split; [intros <-; by rewrite Hv|intros ->]. apply (nft_voucher_inj (other τ)). by rewrite Hv.
Qed.

(** *** Counts *)

Lemma carried_pos σ d k τ pd :
  (1 ≤ carried σ d k τ pd)%nat ↔
  pd_class_id pd = named σ d τ ∧ k ∈ token_id_list (pd_token_ids pd).
Proof.
  unfold carried. case_decide as Hc; [|naive_solver lia].
  split.
  - intros Hl. split; [done|]. destruct (filter _ _) as [|i l] eqn:E; [cbn in Hl; lia|].
    assert (i ∈ filter (λ i, i = k) (token_id_list (pd_token_ids pd))) as Hi by (rewrite E; left).
    apply list_elem_of_filter in Hi. naive_solver.
  - intros [_ Hk]. destruct (filter _ _) eqn:E; [|cbn; lia].
    assert (k ∈ filter (λ i, i = k) (token_id_list (pd_token_ids pd))) as Hi
      by by apply list_elem_of_filter.
    rewrite E in Hi. by apply not_elem_of_nil in Hi.
Qed.

Lemma carried_NoDup σ d k τ pd :
  NoDup (token_id_list (pd_token_ids pd)) →
  carried σ d k τ pd
  = Nat.b2n (bool_decide (pd_class_id pd = named σ d τ ∧ k ∈ token_id_list (pd_token_ids pd))).
Proof.
  intros Hn. assert (carried σ d k τ pd ≤ 1)%nat as Hle.
  { unfold carried. case_decide; [|lia]. revert Hn. generalize (token_id_list (pd_token_ids pd)).
    induction 1 as [|i l Hi Hl IH]; [cbn; lia|]. rewrite filter_cons. case_decide as Hk; [|done].
    subst i. cbn. destruct (filter _ l) as [|j r] eqn:E; [done|].
    assert (j ∈ filter (λ i, i = k) l) as Hj by (rewrite E; left).
    apply list_elem_of_filter in Hj as [-> ?]. done. }
  pose proof (carried_pos σ d k τ pd) as Hp. case_bool_decide as Hx.
  - apply Hp in Hx. cbn. lia.
  - assert (¬ (1 ≤ carried σ d k τ pd)%nat) by (by rewrite Hp). cbn. lia.
Qed.

Lemma nft_total_pending_app σ d k l1 l2 :
  total_pending σ d k (l1 ++ l2)%list = (total_pending σ d k l1 + total_pending σ d k l2)%nat.
Proof. induction l1 as [|f l1 IH]; cbn; [done|]. unfold total_pending in *. lia. Qed.
Lemma nft_total_pending_cons σ d k f l :
  total_pending σ d k (f :: l) = (pending σ d k f + total_pending σ d k l)%nat.
Proof. done. Qed.
Lemma held_le σ d k τ t : (held σ d k τ t ≤ 1)%nat.
Proof. unfold held. destruct (if decide _ then _ else _); cbn; lia. Qed.

(** *** Each step keeps the books *)

(** A receive, by its answer. *)
Lemma received_cases packet pd t t' extras ack :
  packet_data_from_slice (data packet) = Some pd →
  Ics721.on_recv_packet_execute packet t = (t', Ok (extras, ack)) →
  (ack = nft_success_ack ∧ ∃ a,
     relocated t t' (received_class packet (pd_class_id pd)) (token_id_list (pd_token_ids pd))
       (Some (Owned a))
     ∧ (is_receiver_chain_source (port_id_on_a packet) (chan_id_on_a packet) (pd_class_id pd) = true →
        were_escrowed t packet (received_class packet (pd_class_id pd))
          (token_id_list (pd_token_ids pd))))
  ∨ ∃ err, ack = nft_error_ack err
      ∧ ((length (token_id_list (pd_token_ids pd)) ≤ 1)%nat → same_tokens t t').
Proof.
  intros Hd Hx. pose proof (on_recv_packet_run packet pd t Hd) as Hrun.
  destruct (process_recv_packet_execute packet pd t) as [t1 [ex|[ex err]|]] eqn:Ep.
  - destruct Hrun as [ex' Hrun]. rewrite Hrun in Hx. simplify_eq. left. split; [done|].
    apply nft_process_recv_Ok in Ep as (a & _ & Hr & Hw). by exists a.
  - destruct Hrun as [ex' Hrun]. rewrite Hrun in Hx. simplify_eq. right. exists err. split; [done|].
    intros Hl. by eapply nft_failed_single.
  - by rewrite Hrun in Hx.
Qed.

Lemma nft_flights_split S l1 f l2 :
  all_wf S → flights S = (l1 ++ f :: l2)%list →
  flight_wf f ∧ Forall flight_wf (l1 ++ l2)%list ∧ Forall flight_wf l1 ∧ Forall flight_wf l2.
Proof.
  unfold all_wf. intros Hw Hl. rewrite Hl in Hw. apply Forall_app in Hw as [Hw1 Hw2].
  apply Forall_cons_iff in Hw2 as [Hf Hw2].
  split_and!; [done| |done|done]. by apply Forall_app.
Qed.

Lemma nft_step_wf S S' : all_wf S → step S S' → all_wf S'.
Proof.
  intros Hw Hs.
  destruct Hs as [h σ msg s s' t' c seq d S Hm Hc Hr Hn Hcls Hids Hd Hx
    |S l1 σ packet l2 t' extras ack Hl Hx|S l1 σ packet ack l2 t' extras signer Hl Hx
    |S l1 σ packet l2 t' extras signer Hl Hx|S σ t' Hu]; unfold all_wf; cbn.
  - constructor; [|done]. apply send_nft_effect in Hx
      as (c' & chan_b & seq' & sender & d' & s1 & _ & _ & _ & _ & Hd' & _ & Hwf & _).
    rewrite Hd in Hd'. injection Hd' as <-. unfold flight_wf. cbn.
    split_and!; [done|by rewrite <- surjective_pairing| |done].
    rewrite nft_packet_data_json by (by apply Hwf). done.
  - destruct (nft_flights_split _ _ _ _ Hw Hl) as ((Ha & Hb & [pd Hd] & _) & _ & Hw1 & Hw2). cbn in *.
    apply Forall_app. split; [done|]. constructor; [|done]. split_and!; [done..|by eexists|].
    cbn. destruct (received_cases _ _ _ _ _ _ Hd Hx) as [[-> _]|(err & -> & _)]; eauto.
  - by destruct (nft_flights_split _ _ _ _ Hw Hl) as (_ & ? & _).
  - by destruct (nft_flights_split _ _ _ _ Hw Hl) as (_ & ? & _).
  - done.
Qed.

(** The books of one token. *)
Section books.
Context (σ : side) (d : PrefixedClassId) (k : TokenId) (Hs : source σ d = true).

Lemma balanced_keep S τ t' :
  held σ d k τ t' = held σ d k τ (tokens_of S τ) →
  ∀ l, total_pending σ d k l = total_pending σ d k (flights S) →
  balanced σ d k S → balanced σ d k (set_tokens τ t' (set_flights l S)).
Proof.
  unfold balanced. intros Hh l Hl Hb.
  cbn [tokens_of set_tokens set_flights flights]. rewrite Hl. destruct (side_cases τ σ) as [->| ->].
  - rewrite decide_True, decide_False by (by destruct σ). lia.
  - rewrite decide_False, decide_True by (by destruct σ). lia.
Qed.

(** A transfer [f] that is pending no more, its tokens with a user of [τ]. *)
Lemma balanced_release S τ t' l f :
  total_pending σ d k (flights S) = (pending σ d k f + total_pending σ d k l)%nat →
  held σ d k τ t' = (if decide (1 ≤ pending σ d k f)%nat
    then Nat.b2n (negb (bool_decide (σ = τ))) else held σ d k τ (tokens_of S τ)) →
  balanced σ d k S → balanced σ d k (set_tokens τ t' (set_flights l S)).
Proof.
  unfold balanced. intros Hl Hh Hb. rewrite Hl in Hb.
  cbn [tokens_of set_tokens set_flights flights].
  pose proof (held_le σ d k σ (tokens_of S σ)) as Hle.
  destruct (side_cases τ σ) as [->| ->].
  - rewrite decide_True, decide_False by (by destruct σ).
    rewrite bool_decide_eq_true_2 in Hh by done. rewrite Hh. case_decide; cbn; lia.
  - rewrite decide_False, decide_True by (by destruct σ).
    rewrite bool_decide_eq_false_2 in Hh by (by destruct σ). rewrite Hh. case_decide; cbn; lia.
Qed.

Lemma pending_data f pd :
  packet_data_from_slice (data (flight_packet f)) = Some pd →
  flight_ack f ≠ Some nft_success_ack → pending σ d k f = carried σ d k (origin f) pd.
Proof. intros Hd Ha. unfold pending. by rewrite Hd, decide_False. Qed.

Lemma pending_resolved σ' packet :
  pending σ d k (mkFlight σ' packet (Some nft_success_ack)) = 0%nat.
Proof. unfold pending. cbn. destruct (packet_data_from_slice _); [|done]. by rewrite decide_True. Qed.

(** Giving the tokens of [f] back to its sender. *)
Lemma balanced_refund S l1 f l2 t' pd a :
  flights S = (l1 ++ f :: l2)%list →
  packet_data_from_slice (data (flight_packet f)) = Some pd →
  flight_ack f ≠ Some nft_success_ack →
  relocated (tokens_of S (origin f)) t' (pd_class_id pd) (token_id_list (pd_token_ids pd))
    (Some (Owned a)) →
  balanced σ d k S → balanced σ d k (set_tokens (origin f) t' (set_flights (l1 ++ l2)%list S)).
Proof.
  intros Hl Hd Ha Hr. apply (balanced_release _ _ _ _ f).
  - rewrite Hl, !nft_total_pending_app, nft_total_pending_cons. lia.
  - rewrite (returned_held _ _ _ _ _ _ _ _ _ Hr). apply decide_ext.
    by rewrite (pending_data f pd), carried_pos.
Qed.

Lemma balanced_send h τ msg s s' t' pd S packet :
  (mt_port_id_on_a msg, mt_chan_id_on_a msg) = ends τ →
  class_wf (pd_class_id (packet_data msg)) → TokenIds_wf (pd_token_ids (packet_data msg)) →
  sent_data msg (tokens_of S τ) = Ok pd → data packet = packet_data_to_vec pd →
  send_nft_transfer (host:=h) msg (s, tokens_of S τ) = ((s', t'), Ok tt) →
  balanced σ d k S →
  balanced σ d k (set_tokens τ t' (set_flights (mkFlight τ packet None :: flights S) S)).
Proof.
  intros Hm Hcls (_ & _ & Hn & _) Hd Hdata Hx Hb. unfold balanced in *.
  apply send_nft_effect in Hx
    as (c' & chan_b & seq' & sender & d1 & s1 & _ & Ho & _ & _ & Hd1 & Hsame & Hwf & Hr).
  rewrite Hd in Hd1. injection Hd1 as <-.
  pose proof (sent_held σ d k τ _ _ _ _ _ _ _ Hs Hm Hr Ho) as Hh. cbv zeta in Hh.
  destruct Hsame as (E1 & E2 & _). rewrite <- E1, <- E2 in Hh.
  cbn [tokens_of set_tokens set_flights flights]. rewrite nft_total_pending_cons.
  rewrite (pending_data _ pd) by (done || (cbn; rewrite Hdata; apply nft_packet_data_json; by apply Hwf)).
  cbn [origin]. rewrite carried_NoDup by (by rewrite E2).
  destruct (side_cases τ σ) as [->| ->].
  - rewrite decide_True in Hh by done. rewrite decide_True, decide_False by (by destruct σ). lia.
  - rewrite decide_False in Hh by (by destruct σ).
    rewrite decide_False, decide_True by (by destruct σ). lia.
Qed.

Lemma balanced_recv S l1 τ packet l2 t' pd extras ack :
  let S' := set_tokens (other τ) t' (set_flights (l1 ++ mkFlight τ packet (Some ack) :: l2)%list S) in
  flights S = (l1 ++ mkFlight τ packet None :: l2)%list →
  flight_wf (mkFlight τ packet None) → packet_data_from_slice (data packet) = Some pd →
  Ics721.on_recv_packet_execute packet (tokens_of S (other τ)) = (t', Ok (extras, ack)) →
  spared σ d k S S' ∨ Forall single (flights S) →
  balanced σ d k S → balanced σ d k S'.
Proof.
  intros S' Hl (Ha & Hb & _) Hd Hx Hok. cbn in Ha, Hb.
  destruct (received_cases _ _ _ _ _ _ Hd Hx) as [(-> & a & Hr & Hw)|(err & -> & Hone)].
  - apply (balanced_release _ _ _ _ (mkFlight τ packet None)).
    + rewrite Hl, !nft_total_pending_app, !nft_total_pending_cons, pending_resolved. lia.
    + rewrite (received_held _ _ _ _ _ _ _ _ _ _ Hs Ha Hb Hr Hw).
      assert (negb (bool_decide (σ = other τ)) = bool_decide (σ = τ)) as -> by (by destruct σ, τ).
      apply decide_ext. by rewrite (pending_data _ pd), carried_pos.
  - apply balanced_keep.
    + apply same_held. destruct Hok as [Hsp|Hsi].
      * specialize (Hsp l1 τ packet _ l2 Hl eq_refl (nft_error_ack_ne err)).
        subst S'. cbn in Hsp. by rewrite decide_True in Hsp.
      * apply Hone. rewrite Hl in Hsi. apply Forall_app in Hsi as [_ [Hsi _]%Forall_cons_iff].
        by apply Hsi.
    + rewrite Hl, !nft_total_pending_app, !nft_total_pending_cons.
      rewrite !(pending_data _ pd) by (done || (intros [=]; by eapply nft_error_ack_ne)). done.
Qed.

Lemma nft_step_balanced S S' :
  all_wf S → balanced σ d k S → step S S' → spared σ d k S S' ∨ Forall single (flights S) →
  balanced σ d k S'.
Proof.
  intros Hw Hb Hst.
  destruct Hst as [h τ msg s s' t' c seq pd S Hm Hc Hr Hn Hcls Hids Hd Hx
    |S l1 τ packet l2 t' extras ack Hl Hx|S l1 τ packet ack l2 t' extras signer Hl Hx
    |S l1 τ packet l2 t' extras signer Hl Hx|S τ t' Hu]; intros Hok.
  - by eapply balanced_send.
  - destruct (nft_flights_split _ _ _ _ Hw Hl) as (Hf & _). destruct (Hf) as (_ & _ & [pd Hd] & _).
    by eapply balanced_recv.
  - destruct (nft_flights_split _ _ _ _ Hw Hl) as ((_ & _ & [pd Hd] & Hk) & _). cbn in *.
    destruct Hk as [->|[err ->]].
    + pose proof (on_ack_effect _ _ _ _ _ _ _ _ Hd nft_ack_success_json Hx) as He. cbn in He.
      subst t'. apply balanced_keep; [done| |done].
      by rewrite Hl, !nft_total_pending_app, nft_total_pending_cons, pending_resolved.
    + destruct (ack_status_from_slice (ack_bytes (nft_error_ack err))) as [status|] eqn:Es.
      2: { unfold Ics721.on_acknowledgement_packet_execute in Hx. by rewrite Hd, Es in Hx. }
      pose proof (on_ack_effect _ _ _ _ _ _ _ _ Hd Es Hx) as He.
      rewrite (ack_status_first_key _ _ Es) in He. destruct He as (a & _ & Hr).
      eapply (balanced_refund S l1 (mkFlight τ packet (Some (nft_error_ack err))));
        [done..| |exact Hr|done]. intros [=].
  - destruct (nft_flights_split _ _ _ _ Hw Hl) as ((_ & _ & [pd Hd] & _) & _). cbn in *.
    destruct (on_timeout_effect _ _ _ _ _ _ Hd Hx) as (a & _ & Hr).
    by eapply (balanced_refund S l1 (mkFlight τ packet None)).
  - apply (balanced_keep S τ t'); [|done|done]. by apply nft_untouched_held.
Qed.

Lemma nft_initial_balanced S : initial S → all_wf S ∧ balanced σ d k S.
Proof.
  intros [Hf Hi]. unfold all_wf, balanced. rewrite Hf. split; [done|]. unfold held.
  rewrite decide_True, decide_False by (by destruct σ).
  by rewrite (proj1 (Hi σ)), (proj2 (Hi (other σ))) by apply nft_source_voucher.
Qed.

Lemma nft_reachable_balanced S : reachable σ d k S → all_wf S ∧ balanced σ d k S.
Proof.
  intros (S0 & Hi & Hr). apply nft_initial_balanced in Hi.
  induction Hr as [|S1 S2 S3 [Hst Hok] _ IH]; [done|].
  destruct Hi as [Hw Hb]. apply IH. split; [by eapply nft_step_wf|by eapply nft_step_balanced].
Qed.

(** C18: A token is in one place, as long as no receive that failed had handed it out: at any
    point of a run from a new channel, with transfers, receives, refunds and whatever else on
    the two chains leaves the escrow and the existence of vouchers alone, a token of a class [d] of one of them is not in the escrow of the channel, has
    no voucher and is not under way; or it is in escrow and its voucher exists, in one place,
    and it is not under way; or it is in escrow, without a voucher, and exactly one packet
    under way carries it, once.  The condition is on this token alone: in each step of the run,
    either a receive answered with an error left the holder of the token as it was, or the
    packets under way carry one token each, for which it always does.  Without it the claim
    fails: [NftSafety.partial_receive_duplicates]. *)
Theorem nft_in_one_place S :
  reachable σ d k S →
  let escrowed := in_escrow σ (tokens_of S σ) d k in
  let voucher_exists := exists_token (tokens_of S (other σ)) (voucher σ d) k in
  let under_way := total_pending σ d k (flights S) in
  (escrowed = false ∧ voucher_exists = false ∧ under_way = 0%nat)
  ∨ (escrowed = true ∧ voucher_exists = true ∧ under_way = 0%nat)
  ∨ (escrowed = true ∧ voucher_exists = false ∧ under_way = 1%nat).
Proof.
  intros [_ Hb]%nft_reachable_balanced. cbv zeta. unfold balanced, held in Hb.
  rewrite decide_True, decide_False in Hb by (by destruct σ).
  destruct (in_escrow _ _ _ _), (exists_token _ _ _); cbn in Hb; lia.
Qed.

(** So a token that returns, or that must be given back, is there to be given: the
    escrow holds it, nobody has a voucher of it, and no other packet carries it. *)
Theorem nft_returns_covered S l1 f l2 pd :
  reachable σ d k S → flights S = (l1 ++ f :: l2)%list →
  packet_data_from_slice (data (flight_packet f)) = Some pd →
  flight_ack f ≠ Some nft_success_ack →
  pd_class_id pd = named σ d (origin f) → k ∈ token_id_list (pd_token_ids pd) →
  in_escrow σ (tokens_of S σ) d k = true
  ∧ exists_token (tokens_of S (other σ)) (voucher σ d) k = false
  ∧ pending σ d k f = 1%nat ∧ total_pending σ d k (l1 ++ l2)%list = 0%nat.
Proof.
  intros [_ Hb]%nft_reachable_balanced Hf Hj Ha Hc Hk. unfold balanced, held in Hb.
  rewrite decide_True, decide_False in Hb by (by destruct σ).
  rewrite Hf, nft_total_pending_app, nft_total_pending_cons, (pending_data f pd) in Hb by done.
  rewrite nft_total_pending_app, (pending_data f pd) by done.
  pose proof (proj2 (carried_pos σ d k (origin f) pd) (conj Hc Hk)).
  destruct (in_escrow _ _ _ _), (exists_token _ _ _); cbn in Hb; lia.
Qed.
End books.
End system.
