(* ===== verification/Cosmos.v ===== *)
(** * Cosmos hosts

    [ibc-core/ics24-host/cosmos]: the check that a counterparty's client of a
    Cosmos host is valid ([validate_self_client.rs]), upgrade plans, proposals and
    their handler ([upgrade_proposal]), the escrow address ([utils.rs]), and the
    queries for upgraded states ([ibc-query/src/core/client/query.rs]).  The host is
    a parameter: its configuration [SelfHost], its upgrade module [UpgradeContext]. *)

From S2P Require Import Prelude RustStr Identifiers Primitives Path Connection Channel Context Merkle.
From S2P Require Import Events Query TmTypes Transfer.
Local Open Scope string_scope.
Local Open Scope N_scope.

(** ** Validation of a client of the host itself *)

Section self_client.
Context `{TmText}.

(** The required methods of [ValidateSelfClientContext]. *)
Class SelfHost := {
  self_chain_id : ChainId;
  host_current_height : Height;
  self_proof_specs : ProofSpecs;
  self_unbonding_period : Duration;
  self_upgrade_path : list string;
  (** debug output, in the reasons of errors *)
  proof_specs_debug : ProofSpecs → string;
  string_list_debug : list string → string;
}.
Context `{!SelfHost}.

Definition invalid_client {A} (reason : string) : outcome ContextError A :=
  Err (CtxConnection (ConnInvalidClientState reason)).

Definition validate_self_tendermint_client (client_state : TmClientState) : outcome ContextError () :=
  err_client (err_tm (TmClientState_validate client_state));;
  fail_if (TmClientState_is_frozen client_state) (CtxClient (ClientFrozen ""));;
  (if bool_decide (self_chain_id = tm_chain_id client_state) then Ok tt else
   invalid_client ("invalid chain-id. expected: " ++ chain_id self_chain_id
     ++ ", got: " ++ chain_id (tm_chain_id client_state)));;
  let latest_height := tm_latest_height client_state in
  let self_revision_number := revision_number self_chain_id in
  (if self_revision_number =? height_revision_number latest_height then Ok tt else
   invalid_client ("client is not in the same revision as the chain. expected: "
     ++ show_u64 self_revision_number ++ ", got: "
     ++ show_u64 (height_revision_number latest_height)));;
  (if Height_ltb latest_height host_current_height then Ok tt else
   invalid_client ("client has latest height " ++ Height_to_string latest_height
     ++ " greater than or equal to chain height " ++ Height_to_string host_current_height));;
  (if bool_decide (self_proof_specs = tm_proof_specs client_state) then Ok tt else
   invalid_client ("client has invalid proof specs. expected: " ++ proof_specs_debug self_proof_specs
     ++ ", got: " ++ proof_specs_debug (tm_proof_specs client_state)));;
  map_err (λ _, CtxConnection (ConnInvalidClientState "invalid trust level"))
    (trust_threshold_fraction_new (numerator (tm_trust_level client_state))
       (denominator (tm_trust_level client_state)));;
  (if self_unbonding_period =? tm_unbonding_period client_state then Ok tt else
   invalid_client ("invalid unbonding period. expected: " ++ duration_debug self_unbonding_period
     ++ ", got: " ++ duration_debug (tm_unbonding_period client_state)));;
  (if tm_unbonding_period client_state <? tm_trusting_period client_state then
   invalid_client ("unbonding period must be greater than trusting period. unbonding period ("
     ++ duration_debug (tm_unbonding_period client_state) ++ ") < trusting period ("
     ++ duration_debug (tm_trusting_period client_state) ++ ")") else Ok tt);;
  if negb (is_empty (tm_upgrade_path client_state))
     && negb (bool_decide (self_upgrade_path = tm_upgrade_path client_state)) then
   invalid_client ("invalid upgrade path. expected: " ++ string_list_debug self_upgrade_path
     ++ ", got: " ++ string_list_debug (tm_upgrade_path client_state))
  else Ok tt.
End self_client.

(** ** Upgrade plans and proposals *)

Record Plan := mkPlan { plan_name : string; plan_height : N; plan_info : string }.
Record RawPlan := mkRawPlan {
  rpl_name : string; rpl_time : option ProtoTimestamp; rpl_height : Z; rpl_info : string;
  rpl_upgraded_client_state : option Any }.
Record UpgradeProposal := mkUpgradeProposal {
  up_title : string; up_description : string; up_plan : Plan; up_upgraded_client_state : Any }.
Record RawUpgradeProposal := mkRawUpgradeProposal {
  rup_title : string; rup_description : string; rup_plan : option RawPlan;
  rup_upgraded_client_state : option Any }.

Definition PLAN_TYPE_URL : string := "/cosmos.upgrade.v1beta1.Plan".

Definition is_empty_str (s : string) : bool := (s =? "")%string.
Definition Plan_try_from (raw : RawPlan) : outcome UpgradeClientError Plan :=
  fail_if (is_empty_str (rpl_name raw)) (InvalidUpgradePlan "name field cannot be empty");;
  fail_if (bool_decide (is_Some (rpl_time raw))) (InvalidUpgradePlan "time field must be empty");;
  fail_if (bool_decide (is_Some (rpl_upgraded_client_state raw)))
    (InvalidUpgradePlan "upgraded_client_state field must be empty");;
  height ← (if (rpl_height raw <? 0)%Z then Err (InvalidUpgradePlan "height plan overflow")
            else Ok (Z.to_N (rpl_height raw)));
  Ok (mkPlan (rpl_name raw) height (rpl_info raw)).
(** [i64::try_from(value.height).expect("height overflow")]. *)
Definition RawPlan_from {E} (value : Plan) : outcome E RawPlan :=
  if plan_height value <? 2 ^ 63
  then Ok (mkRawPlan (plan_name value) None (Z.of_N (plan_height value)) (plan_info value) None)
  else Panic.

Definition UpgradeProposal_try_from (raw : RawUpgradeProposal) :
    outcome UpgradeClientError UpgradeProposal :=
  fail_if (is_empty_str (rup_title raw)) (InvalidUpgradeProposal "title field cannot be empty");;
  fail_if (is_empty_str (rup_description raw))
    (InvalidUpgradeProposal "description field cannot be empty");;
  plan ← match rup_plan raw with
         | Some plan => Plan_try_from plan
         | None => Err (InvalidUpgradeProposal "plan field cannot be empty")
         end;
  upgraded_client_state ← ok_or (rup_upgraded_client_state raw)
    (InvalidUpgradeProposal "upgraded client state cannot be empty");
  Ok (mkUpgradeProposal (rup_title raw) (rup_description raw) plan upgraded_client_state).
Definition RawUpgradeProposal_from {E} (value : UpgradeProposal) : outcome E RawUpgradeProposal :=
  plan ← RawPlan_from (up_plan value);
  Ok (mkRawUpgradeProposal (up_title value) (up_description value) (Some plan)
        (Some (up_upgraded_client_state value))).

Section plan_any.
(** prost's encoding of a plan, and the text of an error. *)
Class PlanCodec := {
  decode_plan : bytes → outcome string RawPlan;
  encode_plan : RawPlan → bytes;
  plan_error_text : UpgradeClientError → string;
}.
Class PlanCodecLaws `{PlanCodec} := {
  plan_codec r : decode_plan (encode_plan r) = Ok r;
}.
Context `{PlanCodec}.

Definition Plan_try_from_any (any : Any) : outcome UpgradeClientError Plan :=
  if (type_url any =? PLAN_TYPE_URL)%string then
    map_err (λ e, InvalidUpgradePlan ("raw plan decode error: " ++ e))
      (raw ← decode_plan (any_value any); map_err plan_error_text (Plan_try_from raw))
  else Err (InvalidUpgradePlan ("type_url do not match: expected " ++ PLAN_TYPE_URL
              ++ ", got " ++ type_url any)).
Definition Plan_into_any {E} (value : Plan) : outcome E Any :=
  raw ← RawPlan_from value; Ok (mkAny PLAN_TYPE_URL (encode_plan raw)).
End plan_any.

(** ** Events *)

Section upgrade_events.
Context `{Abci}.

Definition UPGRADE_CHAIN_EVENT : string := "upgrade_chain".
Definition UPGRADE_CLIENT_PROPOSAL_EVENT : string := "upgrade_client_proposal".
Definition UpgradeStoreAttribute_into (upgrade_store : string) : EventAttribute :=
  attribute "upgrade_store" upgrade_store.
Definition UpgradePlanHeightAttribute_into (height : N) : EventAttribute :=
  attribute "upgrade_plan_height" (show_u64 height).
Definition UpgradePlanTitleAttribute_into (title : string) : EventAttribute := attribute "title" title.
Definition UpgradeChain_into (height : N) (upgrade_store : string) : AbciEvent :=
  mkAbciEvent UPGRADE_CHAIN_EVENT
    [UpgradePlanHeightAttribute_into height; UpgradeStoreAttribute_into upgrade_store].
Definition UpgradeClientProposal_into (title : string) (height : N) : AbciEvent :=
  mkAbciEvent UPGRADE_CLIENT_PROPOSAL_EVENT
    [UpgradePlanTitleAttribute_into title; UpgradePlanHeightAttribute_into height].
End upgrade_events.

(** ** Escrow addresses *)

Definition cosmos_adr028_escrow_address `{Sha256} (port_id : PortId) (channel_id : ChannelId) : bytes :=
  let contents := port_id_str port_id ++ "/" ++ channel_id_str channel_id in
  take 20 (sha256 (as_bytes TRANSFER_VERSION ++ [Byte.x00] ++ as_bytes contents)%list).

(** ** The upgrade module *)

Section upgrade.
Context `{TmText, Unicode, !TmCodec, !Abci}.

(** [UpgradeValidationContext] and [UpgradeExecutionContext], with Tendermint client
    and consensus states. *)
Class UpgradeContext (U : Type) := {
  upgrade_plan : U → outcome UpgradeClientError Plan;
  upgraded_client_state : U → UpgradeClientPath → outcome UpgradeClientError TmClientState;
  upgraded_consensus_state : U → UpgradeClientPath → outcome UpgradeClientError TmConsensusState;
  schedule_upgrade : Plan → exec U UpgradeClientError ();
  clear_upgrade_plan : N → exec U UpgradeClientError ();
  store_upgraded_client_state : UpgradeClientPath → TmClientState → exec U UpgradeClientError ();
  store_upgraded_consensus_state : UpgradeClientPath → TmConsensusState →
    exec U UpgradeClientError ();
}.
Context {U : Type} `{!UpgradeContext U}.

Definition upgrade_client_proposal_handler (proposal : UpgradeProposal) :
    exec U UpgradeClientError AbciEvent :=
  let plan := up_plan proposal in
  scheduled ← reads (λ ctx, Ok (is_ok (upgrade_plan ctx)));
  (if scheduled : bool then clear_upgrade_plan (plan_height plan) else mret tt);;
  client_state ← lift (map_err (λ e, InvalidUpgradeProposal (tm_client_error_to_string e))
    (TmClientState_try_from (up_upgraded_client_state proposal)));
  let client_state := zero_custom_fields client_state in
  schedule_upgrade plan;;
  let upgraded_client_state_path := UpgradedClientState (plan_height plan) in
  store_upgraded_client_state upgraded_client_state_path client_state;;
  mret (UpgradeClientProposal_into (up_title proposal) (plan_height plan)).

Definition query_upgraded_client_state (ctx : U) : outcome QueryError Any :=
  plan ← q_client (map_err Upgrade (upgrade_plan ctx));
  state ← q_client (map_err Upgrade (upgraded_client_state ctx (UpgradedClientState (plan_height plan))));
  Ok (TmClientState_into_any state).
Definition query_upgraded_consensus_state (ctx : U) : outcome QueryError Any :=
  plan ← q_client (map_err Upgrade (upgrade_plan ctx));
  state ← q_client (map_err Upgrade
    (upgraded_consensus_state ctx (UpgradedClientConsensusState (plan_height plan))));
  Ok (TmConsensusState_into_any state).
End upgrade.

(** ** Theorems *)

Section self_client_theorems.
Context `{TmText, !SelfHost}.

Lemma check_Ok {E} (b : bool) (e : outcome E ()) : (∀ u, e ≠ Ok u) →
  (if b then Ok tt else e) = Ok tt ↔ b = true.
Proof. intros He. destruct b; split; try done. intros Hx. by destruct (He tt). Qed.

(** A client of the host is accepted exactly when it is a valid, unfrozen Tendermint
    client of this chain and this revision, behind the host's height, with the
    host's proof specifications and unbonding period, and with the host's upgrade
    path or none. *)
Theorem validate_self_client_exact cs :
  validate_self_tendermint_client cs = Ok tt ↔
  client_state_valid cs ∧ tm_frozen_height cs = None ∧ tm_chain_id cs = self_chain_id
  ∧ height_lt (tm_latest_height cs) host_current_height ∧ tm_proof_specs cs = self_proof_specs
  ∧ tm_unbonding_period cs = self_unbonding_period
  ∧ (tm_upgrade_path cs = [] ∨ tm_upgrade_path cs = self_upgrade_path).
Proof.
  unfold validate_self_tendermint_client, TmClientState_is_frozen, err_client, err_tm. split.
  - intros Hv. inv_ok. destruct_units.
    repeat match goal with
    | H : (if ?b then Ok tt else invalid_client _) = Ok tt |- _ => apply check_Ok in H; [|done]
    end.
    match goal with H : TmClientState_validate cs = _ |- _ => apply TmClientState_validate_Ok in H end.
    split_and!; try done.
    + by destruct (tm_frozen_height cs).
    + symmetry. by eapply bool_decide_eq_true.
    + by apply Height_ltb_spec.
    + symmetry. by eapply bool_decide_eq_true.
    + symmetry. by apply N.eqb_eq.
    + destruct (tm_upgrade_path cs) as [|k path]; [by left|]. cbn [is_empty negb andb] in *.
      case_bool_decide as Hp; [by right|done].
  - intros (Hv & Hf & Hc & Hl & Hs & Hu & Hp).
    rewrite (proj2 (TmClientState_validate_Ok cs) Hv). mstep. rewrite Hf. mstep.
    rewrite (bool_decide_eq_true_2 (self_chain_id = tm_chain_id cs)) by done. mstep.
    rewrite (proj2 (N.eqb_eq (revision_number self_chain_id) _)) by (rewrite (csv_revision _ Hv), Hc; done). mstep.
    rewrite (proj2 (Height_ltb_spec _ _) Hl). mstep.
    rewrite (bool_decide_eq_true_2 (self_proof_specs = tm_proof_specs cs)) by done. mstep.
    rewrite (csv_fraction _ Hv). mstep.
    rewrite (proj2 (N.eqb_eq self_unbonding_period _)) by done. mstep.
    rewrite (proj2 (N.ltb_ge _ _)) by (pose proof (csv_periods _ Hv); lia). mstep.
    destruct Hp as [->| ->]; [done|]. rewrite bool_decide_eq_true_2 by done. by rewrite andb_false_r.
Qed.
End self_client_theorems.

Section plan_theorems.
Context `{PlanCodec, !PlanCodecLaws}.

(** A named plan whose height fits the signed integer of protobuf is decoded from
    its [Any] as it was; encoding any other height panics.  What is decoded is
    named, and its height fits. *)
Theorem plan_any_roundtrip p :
  (plan_name p ≠ "" → plan_height p < 2 ^ 63 →
    ∃ a, Plan_into_any (E:=UpgradeClientError) p = Ok a ∧ Plan_try_from_any a = Ok p)
  ∧ (2 ^ 63 <= plan_height p → Plan_into_any (E:=UpgradeClientError) p = Panic)
  ∧ (∀ raw, (rpl_height raw < 2 ^ 63)%Z → Plan_try_from raw = Ok p →
      plan_name p ≠ "" ∧ plan_height p < 2 ^ 63).
Proof.
  split_and!.
  - intros Hn Hh. unfold Plan_into_any, RawPlan_from. rewrite (proj2 (N.ltb_lt _ _) Hh). mstep.
    eexists. split; [done|]. unfold Plan_try_from_any. cbn [type_url any_value].
    rewrite String.eqb_refl, plan_codec. mstep. unfold Plan_try_from, is_empty_str.
    cbn [rpl_name rpl_time rpl_height rpl_info rpl_upgraded_client_state].
    rewrite (proj2 (String.eqb_neq _ _) Hn). mstep.
    rewrite !bool_decide_eq_false_2 by by intros [? ?]. mstep.
    rewrite (proj2 (Z.ltb_ge _ _)) by lia. mstep. rewrite N2Z.id. by destruct p.
  - intros Hh. unfold Plan_into_any, RawPlan_from. by rewrite (proj2 (N.ltb_ge _ _) Hh).
  - intros raw Hr. unfold Plan_try_from, is_empty_str. intros Hp. inv_ok. cbn.
    destruct (Z.ltb_spec (rpl_height raw) 0); inv_ok. split; [by apply String.eqb_neq|lia].
Qed.
End plan_theorems.

Section upgrade_theorems.
Context `{TmText, Unicode, !TmCodec, !Abci, !TmLibLaws, !TmCodecLaws}.
Context {U : Type} `{!UpgradeContext U}.

(** The documentation of the methods of the upgrade module: scheduling sets the plan, and
    overwrites another; a client state is stored at the path it is looked up at. *)
Class UpgradeLaws := {
  schedule_upgrade_spec p u u' : schedule_upgrade p u = (u', Ok tt) → upgrade_plan u' = Ok p;
  store_upgraded_client_state_spec q cs u u' :
    store_upgraded_client_state q cs u = (u', Ok tt) → upgraded_client_state u' q = Ok cs;
}.
Context `{!UpgradeLaws}.

Lemma ChainId_from_str_text s c : ChainId_from_str s = Ok c → chain_id c = s.
Proof.
  unfold ChainId_from_str. intros Hc. inv_ok.
  destruct (parse_chain_id_string s) as [[n r]| |]; by inv_ok.
Qed.
Lemma decoded_client_state_wf any cs : TmClientState_try_from any = Ok cs → client_state_wf cs.
Proof.
  unfold TmClientState_try_from, decode_as. destruct (_ =? _)%string; [|done]. intros Hd. inv_ok.
  match goal with H : TmClientState_try_from_raw _ = Ok _ |- _ =>
    unfold TmClientState_try_from_raw in H end.
  inv_ok. repeat match goal with H : duration_try_from _ = Some _ |- _ => apply duration_range in H end.
  repeat match goal with H : Height_try_from_raw _ = Ok _ |- _ => apply Height_new_Ok in H as [-> ?] end.
  split; cbn; try done.
  - match goal with H : ChainId_from_str _ = Ok _ |- _ => by rewrite (ChainId_from_str_text _ _ H) end.
  - match goal with H : TrustThreshold_try_from _ = Ok _ |- _ =>
      unfold TrustThreshold_try_from, TrustThreshold_new in *; inv_ok; cbn end.
    by match goal with H : _ || _ || _ = false |- _ => rewrite H end.
  - destruct (Height_try_from_raw _) as [fh| |] eqn:Ef; cbn; [|done..].
    by apply Height_new_Ok in Ef as [-> ?].
Qed.
Lemma zeroed_wf cs : client_state_wf cs → client_state_wf (zero_custom_fields cs).
Proof. intros []. by split. Qed.

(** C34: An accepted upgrade proposal is published: its plan is scheduled, and then its client
    state, without the customizable fields, is stored under the height of the plan.  As long as the
    module has a plan for that height and the stored state, the query for the upgraded client
    state answers with it, in a form that a counterparty decodes to the same state.  A
    proposal whose client state cannot be decoded is refused, and if no plan was scheduled
    before, nothing at all is written. *)
Theorem upgrade_proposal_published proposal u :
  let plan := up_plan proposal in
  let path := UpgradedClientState (plan_height plan) in
  (∀ u' event, upgrade_client_proposal_handler proposal u = (u', Ok event) →
    ∃ cs u1, TmClientState_try_from (up_upgraded_client_state proposal) = Ok cs
    ∧ upgrade_plan u1 = Ok plan
    ∧ store_upgraded_client_state path (zero_custom_fields cs) u1 = (u', Ok tt)
    ∧ upgraded_client_state u' path = Ok (zero_custom_fields cs)
    ∧ event = UpgradeClientProposal_into (up_title proposal) (plan_height plan)
    ∧ ∀ later plan', upgrade_plan later = Ok plan' → plan_height plan' = plan_height plan →
        upgraded_client_state later path = upgraded_client_state u' path →
        ∃ any, query_upgraded_client_state later = Ok any
          ∧ TmClientState_try_from any = Ok (zero_custom_fields cs))
  ∧ ∀ e, TmClientState_try_from (up_upgraded_client_state proposal) = Err e →
      (∀ u' event, upgrade_client_proposal_handler proposal u ≠ (u', Ok event))
      ∧ (is_ok (upgrade_plan u) = false → upgrade_client_proposal_handler proposal u
           = (u, Err (InvalidUpgradeProposal (tm_client_error_to_string e)))).
Proof.
  cbv zeta. split.
  - intros u' event Hx. unfold upgrade_client_proposal_handler in Hx. inv_ok. destruct_units.
    match goal with H : schedule_upgrade _ _ = (?v, _), H' : TmClientState_try_from _ = Ok ?c |- _ =>
      apply schedule_upgrade_spec in H as Hplan; rename v into u1, c into cs, H' into Hcs end.
    match goal with H : store_upgraded_client_state _ _ _ = _ |- _ =>
      apply store_upgraded_client_state_spec in H as Hst; exists cs, u1 end.
    split_and!; try done. intros later plan' Hp Hh Hl.
    exists (TmClientState_into_any (zero_custom_fields cs)). split.
    + unfold query_upgraded_client_state, q_client. rewrite Hp. mstep. by rewrite Hh, Hl, Hst.
    + unfold TmClientState_try_from, TmClientState_into_any, decode_as. cbn [type_url any_value].
      rewrite String.eqb_refl, tm_client_state_codec. mstep.
      by rewrite TmClientState_raw_roundtrip by eauto using zeroed_wf, decoded_client_state_wf.
  - intros e He. split.
    + intros u' event Hx. unfold upgrade_client_proposal_handler in Hx. inv_ok. congruence.
    + intros Hnone. unfold upgrade_client_proposal_handler. run_exec. rewrite Hnone. by rewrite He.
Qed.
End upgrade_theorems.
