(* ===== verification/Services.v ===== *)
(** * gRPC services

    The services of ibc-query ([ibc-query/src/core/{channel,client,connection}/service.rs]) and
    the gRPC status of a failed query ([ibc-query/src/error.rs]).  A method hands the message of
    its request to the query of its name and wraps the response; [Request] and [Response] of
    tonic are the messages themselves here.  The texts of errors are a class. *)

From S2P Require Import Prelude RustStr Identifiers Primitives Path Connection Channel Context Merkle.
From S2P Require Import PacketHandlers PacketSpec Events TmTypes Query Cosmos.
Local Open Scope string_scope.
Local Open Scope N_scope.

(** [tonic::Status]: a code and a message. *)
Inductive StatusCode := CodeInternal | CodeNotFound | CodeUnimplemented.
Record GrpcStatus := mkGrpcStatus { status_code : StatusCode; status_message : string }.
Definition Status_internal : string → GrpcStatus := mkGrpcStatus CodeInternal.
Definition Status_not_found : string → GrpcStatus := mkGrpcStatus CodeNotFound.
Definition Status_unimplemented : string → GrpcStatus := mkGrpcStatus CodeUnimplemented.

Section services.
Context `{TmText, Unicode, !TmCodec, !Abci, types : !ChainTypes, !Codec}.

(** [Display] of the errors. *)
Class StatusText := {
  client_error_to_string : ClientError → string;
  identifier_error_to_string : IdentifierError → string;
}.
Context `{!StatusText}.

Definition Status_from (e : QueryError) : GrpcStatus :=
  match e with
  | QContext e => Status_internal (context_error_to_string e)
  | QClient e => Status_internal (client_error_to_string e)
  | QIdentifier e => Status_internal (identifier_error_to_string e)
  | ProofNotFound description => Status_not_found description
  end.

(** [let response = query(..)?; Ok(Response::new(response))]. *)
Definition serve {A} (response : outcome QueryError A) : outcome GrpcStatus A :=
  map_err Status_from response.

Context `{!Host, !LightClient, !ProvableContext, !QueryContext, !AnyStates, !QueryText}.
Context {U : Type} `{!UpgradeContext U}.

(** *** [ChannelQueryService] *)

Definition channel_query_channel (s : IbcStore) (request : ChannelRequest) :
    outcome GrpcStatus (Proved (option RawChannel)) :=
  serve (query_channel s request).
Definition channel_query_channels (s : IbcStore) :
    outcome GrpcStatus (Listed RawIdentifiedChannel) :=
  serve (query_channels s).
Definition channel_query_connection_channels (s : IbcStore) (connection : string) :
    outcome GrpcStatus (Listed RawIdentifiedChannel) :=
  serve (query_connection_channels s connection).
Definition channel_query_channel_client_state (s : IbcStore) (request : ChannelRequest) :
    outcome GrpcStatus (Proved (option RawIdentifiedClientState)) :=
  serve (query_channel_client_state s request).
Definition channel_query_channel_consensus_state (s : IbcStore) (request : ChannelConsensusRequest) :
    outcome GrpcStatus (Proved ConsensusStateOf) :=
  serve (query_channel_consensus_state s request).
Definition channel_query_packet_commitment (s : IbcStore) (request : PacketRequest) :
    outcome GrpcStatus (Proved bytes) :=
  serve (query_packet_commitment s request).
Definition channel_query_packet_commitments (s : IbcStore) (request : ChannelRequest) :
    outcome GrpcStatus (Listed RawPacketState) :=
  serve (query_packet_commitments s request).
Definition channel_query_packet_receipt (s : IbcStore) (request : PacketRequest) :
    outcome GrpcStatus (Proved bool) :=
  serve (query_packet_receipt s request).
Definition channel_query_packet_acknowledgement (s : IbcStore) (request : PacketRequest) :
    outcome GrpcStatus (Proved bytes) :=
  serve (query_packet_acknowledgement s request).
Definition channel_query_packet_acknowledgements (s : IbcStore) (request : SequencesRequest) :
    outcome GrpcStatus (Listed RawPacketState) :=
  serve (query_packet_acknowledgements s request).
Definition channel_query_unreceived_packets (s : IbcStore) (request : SequencesRequest) :
    outcome GrpcStatus (Listed N) :=
  serve (query_unreceived_packets s request).
Definition channel_query_unreceived_acks (s : IbcStore) (request : SequencesRequest) :
    outcome GrpcStatus (Listed N) :=
  serve (query_unreceived_acks s request).
Definition channel_query_next_sequence_receive (s : IbcStore) (request : ChannelRequest) :
    outcome GrpcStatus (Proved N) :=
  serve (query_next_sequence_receive s request).
Definition channel_query_next_sequence_send (s : IbcStore) (request : ChannelRequest) :
    outcome GrpcStatus (Proved N) :=
  serve (query_next_sequence_send s request).
Definition channel_query_upgrade_error {A} : outcome GrpcStatus A :=
  Err (Status_unimplemented "Querying UpgradeError is not supported yet").
Definition channel_query_upgrade {A} : outcome GrpcStatus A :=
  Err (Status_unimplemented "Querying Upgrade is not supported yet").
Definition channel_query_channel_params {A} : outcome GrpcStatus A :=
  Err (Status_unimplemented "Querying ChannelParams is not supported yet").

(** *** [ClientQueryService] *)

Definition client_query_client_state (s : IbcStore) (request : string) :
    outcome GrpcStatus (Proved (option Any)) :=
  serve (query_client_state s request).
Definition client_query_client_states (s : IbcStore) :
    outcome GrpcStatus (list RawIdentifiedClientState) :=
  serve (query_client_states s).
Definition client_query_consensus_state (s : IbcStore) (request : ConsensusStateRequest) :
    outcome GrpcStatus (Proved (option Any)) :=
  serve (query_consensus_state s request).
Definition client_query_consensus_states (s : IbcStore) (request : string) :
    outcome GrpcStatus (list RawConsensusStateWithHeight) :=
  serve (query_consensus_states s request).
Definition client_query_consensus_state_heights (s : IbcStore) (request : string) :
    outcome GrpcStatus (list RawHeight) :=
  serve (query_consensus_state_heights s request).
Definition client_query_client_status (s : IbcStore) (request : string) :
    outcome GrpcStatus string :=
  serve (query_client_status s request).
Definition client_query_client_params {A} : outcome GrpcStatus A :=
  Err (Status_unimplemented "Querying ClientParams is not supported yet").
Definition client_query_upgraded_client_state (upgrade_context : U) : outcome GrpcStatus Any :=
  serve (query_upgraded_client_state upgrade_context).
Definition client_query_upgraded_consensus_state (upgrade_context : U) : outcome GrpcStatus Any :=
  serve (query_upgraded_consensus_state upgrade_context).

(** *** [ConnectionQueryService] *)

Definition connection_query_connection (s : IbcStore) (request : string) :
    outcome GrpcStatus (Proved (option RawConnectionEnd)) :=
  serve (query_connection s request).
Definition connection_query_connections (s : IbcStore) :
    outcome GrpcStatus (Listed RawIdentifiedConnection) :=
  serve (query_connections s).
Definition connection_query_client_connections (s : IbcStore) (request : string) :
    outcome GrpcStatus (Proved (list string)) :=
  serve (query_client_connections s request).
Definition connection_query_connection_client_state (s : IbcStore) (request : string) :
    outcome GrpcStatus (Proved (option RawIdentifiedClientState)) :=
  serve (query_connection_client_state s request).
Definition connection_query_connection_consensus_state (s : IbcStore) (request : ConnectionConsensusRequest) :
    outcome GrpcStatus (Proved ConsensusStateOf) :=
  serve (query_connection_consensus_state s request).
Definition connection_query_connection_params : outcome GrpcStatus N :=
  serve (query_connection_params).
End services.

(** ** Theorems *)

Section theorems.
Context `{TmText, Unicode, !TmCodec, !Abci, types : !ChainTypes, !Codec, !StatusText}.

(** A method answers what its query answers, and the status of a failure is [NotFound]
    exactly when the host had no proof to give; a relayer can tell a missing proof from a
    request that makes no sense. *)
Theorem served {A} (q : outcome QueryError A) :
  (∀ r, serve q = Ok r ↔ q = Ok r)
  ∧ (serve q = Panic ↔ q = Panic)
  ∧ (∀ e, serve q = Err e → status_code e ≠ CodeUnimplemented)
  ∧ ∀ e, serve q = Err e →
      (status_code e = CodeNotFound ↔ q = Err (ProofNotFound (status_message e))).
Proof.
  unfold serve. destruct q as [r|[e|e|e|d]|]; cbn; split_and!; intros; simplify_eq; naive_solver.
Qed.
End theorems.
