(* ===== verification/Chain.v ===== *)
(** * Runs of a chain

    The life of a store under any sequence of dispatched messages and packets
    sent by applications, and the history invariant that ties the store to what
    has been sent, delivered and resolved so far. *)

From S2P Require Import Prelude RustStr Identifiers Primitives Path Connection Channel Context.
From S2P Require Import ConnHandlers Module ChanHandlers PacketHandlers PacketSpec.
From S2P Require Import ClientHandlers Entrypoint.
Local Open Scope N_scope.

(** The sequence numbers below [m], from one. *)
Definition upto (m : N) : list N := N.of_nat <$> seq 1 (pred (N.to_nat m)).

Lemma upto_1 : upto 1 = [].
Proof. done. Qed.
Lemma upto_succ m : 1 <= m → upto (m + 1) = (upto m ++ [m])%list.
Proof.
  intros Hm. unfold upto. replace (pred (N.to_nat (m + 1))) with (S (pred (N.to_nat m))) by lia.
  rewrite seq_S, fmap_app. f_equal. cbn. f_equal. lia.
Qed.
Lemma elem_of_upto n m : n ∈ upto m ↔ 1 <= n ∧ n < m.
Proof.
  unfold upto. rewrite list_elem_of_fmap. split.
  - intros (k & -> & Hk%elem_of_seq). lia.
  - intros [? ?]. exists (N.to_nat n). split; [lia|]. apply elem_of_seq. lia.
Qed.
Lemma NoDup_upto m : base.NoDup (upto m).
Proof. apply NoDup_fmap_2; [intros ???; lia|]. apply NoDup_seq. Qed.

(** ** Observations *)

Section observations.
Context `{TmTime}.

(** A packet was sent, or a packet message ran the application. *)
Inductive obs :=
| Sent (p : Packet)
| Acted (msg : PacketMsg).

(** The packet a message concerns. *)
Definition packet_of (msg : PacketMsg) : Packet :=
  match msg with
  | PktRecv m => recv_packet m
  | PktAck m => ack_packet m
  | PktTimeout m => to_packet m
  | PktTimeoutOnClose m => toc_packet m
  end.

Definition key_on_a (p : Packet) : PortId * ChannelId := (port_id_on_a p, chan_id_on_a p).
Definition key_on_b (p : Packet) : PortId * ChannelId := (port_id_on_b p, chan_id_on_b p).

(** Where an observation counts as a sending, a delivery, an acknowledgement, or
    a resolution (by acknowledgement or timeout). *)
Definition sending (o : obs) : option (PortId * ChannelId * Packet) :=
  match o with Sent p => Some (key_on_a p, p) | _ => None end.
Definition delivery (o : obs) : option (PortId * ChannelId * Packet) :=
  match o with Acted (PktRecv m) => Some (key_on_b (recv_packet m), recv_packet m) | _ => None end.
Definition acking (o : obs) : option (PortId * ChannelId * Packet) :=
  match o with Acted (PktAck m) => Some (key_on_a (ack_packet m), ack_packet m) | _ => None end.
Definition resolution (o : obs) : option (PortId * ChannelId * Packet) :=
  match o with
  | Acted (PktRecv _) | Sent _ => None
  | Acted msg => Some (key_on_a (packet_of msg), packet_of msg)
  end.

(** The sequence numbers of the observations of a kind on a channel end, in
    order. *)
Definition seqs_at (kind : obs → option (PortId * ChannelId * Packet)) (p : PortId) (c : ChannelId)
    (os : list obs) : list Sequence :=
  omap (λ o, '(k, pkt) ← kind o; if decide (k = (p, c)) then Some (seq_on_a pkt) else None) os.

Lemma seqs_at_app kind p c os os' :
  seqs_at kind p c (os ++ os') = (seqs_at kind p c os ++ seqs_at kind p c os')%list.
Proof. apply omap_app. Qed.

Lemma seqs_at_none kind p c o : kind o = None → seqs_at kind p c [o] = [].
Proof. unfold seqs_at. cbn. by intros ->. Qed.
Lemma seqs_at_other kind p c o k pkt :
  kind o = Some (k, pkt) → k ≠ (p, c) → seqs_at kind p c [o] = [].
Proof. unfold seqs_at. cbn. intros -> ?. cbn. by rewrite decide_False. Qed.
Lemma seqs_at_same kind p c o pkt :
  kind o = Some ((p, c), pkt) → seqs_at kind p c [o] = [seq_on_a pkt].
Proof. unfold seqs_at. cbn. intros ->. cbn. by rewrite decide_True. Qed.
End observations.

(** ** Runs *)

Section runs.
Context `{TmTime, !ChainTypes, !LightClient, !Codec, !Sha256}.
Context {App : Type} `{!Module App}.

(** Whether a packet message goes past the no-op test of its handler. *)
Definition acts (s : IbcStore) (msg : PacketMsg) : bool :=
  match msg with
  | PktRecv m =>
    match channel_end s (path_on_b (recv_packet m)) with
    | Ok c => match packet_already_received s c (recv_packet m) with
              | Ok received => negb received
              | _ => false
              end
    | _ => false
    end
  | msg => is_ok (get_packet_commitment s (commitment_path_on_a (packet_of msg)))
  end.

Definition observed (s : IbcStore) (msg : MsgEnvelope) : list obs :=
  match msg with
  | EnvPacket m => if acts s m then [Acted m] else []
  | _ => []
  end.

Definition chain : Type := IbcStore * MockRouter App.

(** A message that is accepted, a packet an application sends, or anything else applications
    do among themselves, in a host with its height and time; along a run these may be
    different at every step.  Besides sending, applications write their own state, events
    and logs. *)
Inductive chain_step_in (host : Host) : chain → list obs → chain → Prop :=
| step_dispatch msg s r st' :
    dispatch msg (s, r) = (st', Ok tt) → chain_step_in host (s, r) (observed s msg) st'
| step_send p s r s1 s' r' :
    send_packet p s = (s1, Ok tt) → same_state s1 s' → chain_step_in host (s, r) [Sent p] (s', r')
| step_app s r s' r' : same_state s s' → chain_step_in host (s, r) [] (s', r').

Definition chain_step (st : chain) (o : list obs) (st' : chain) : Prop :=
  ∃ host, chain_step_in host st o st'.

Inductive chain_run (st : chain) : list obs → chain → Prop :=
| run_start : chain_run st [] st
| run_step os st1 o st2 :
    chain_run st os st1 → chain_step st1 o st2 → chain_run st (os ++ o)%list st2.

(** The store of a new chain, with any router. *)
Definition genesis (r : MockRouter App) : chain := (empty_store, r).
End runs.

(** ** The history invariant *)

Section history.
Context `{TmTime, !Sha256}.

(** A packet with this commitment was sent. *)
Definition sent_with (os : list obs) (p : PortId) (c : ChannelId) (n : Sequence)
    (cm : PacketCommitment) : Prop :=
  ∃ q, Sent q ∈ os ∧ key_on_a q = (p, c) ∧ seq_on_a q = n ∧ packet_commitment_of q = Ok cm.

Record used_chan (v : PacketView) (os : list obs) (p : PortId) (c : ChannelId) (order : Order) :
    Prop := mkUsed {
  used_sent : ∃ m, pc_get (pv_send v) p c = Some m ∧ 1 <= m ∧ seqs_at sending p c os = upto m;
  used_delivered :
    match order with
    | Ordered => ∃ m, pc_get (pv_recv v) p c = Some m ∧ 1 <= m ∧ seqs_at delivery p c os = upto m
    | Unordered => base.NoDup (seqs_at delivery p c os)
        ∧ ∀ n, n ∈ seqs_at delivery p c os ↔ is_Some (pcs_get (pv_receipts v) p c n)
    | OrderNone => False
    end;
  used_acks : ∀ n, n ∈ seqs_at delivery p c os ↔ is_Some (pcs_get (pv_acks v) p c n);
  used_acked : order = Ordered →
    ∃ m, pc_get (pv_ack v) p c = Some m ∧ 1 <= m ∧ seqs_at acking p c os = upto m;
  used_resolved : base.NoDup (seqs_at resolution p c os);
  used_resolved_sent : ∀ n, n ∈ seqs_at resolution p c os → n ∈ seqs_at sending p c os;
  used_commitments : ∀ n cm, pcs_get (pv_commitments v) p c n = Some cm
    ↔ sent_with os p c n cm ∧ n ∉ seqs_at resolution p c os;
}.

Record unused_chan (v : PacketView) (os : list obs) (p : PortId) (c : ChannelId) : Prop := mkUnused {
  unused_sent : seqs_at sending p c os = [];
  unused_no_sent : ∀ n cm, ¬ sent_with os p c n cm;
  unused_delivered : seqs_at delivery p c os = [];
  unused_acked : seqs_at acking p c os = [];
  unused_resolved : seqs_at resolution p c os = [];
  unused_maps : ∀ n, pcs_get (pv_acks v) p c n = None ∧ pcs_get (pv_commitments v) p c n = None
    ∧ pcs_get (pv_receipts v) p c n = None;
}.

Definition chan_hist (v : PacketView) (os : list obs) (p : PortId) (c : ChannelId) : Prop :=
  match pc_get (pv_channels v) p c with
  | Some ch => used_chan v os p c (chan_ordering ch)
  | None => unused_chan v os p c
  end.

(** Every resolved packet was sent, with the same commitment. *)
Definition resolved_were_sent (os : list obs) : Prop :=
  ∀ o k pkt, o ∈ os → resolution o = Some (k, pkt) →
    ∃ cm, packet_commitment_of pkt = Ok cm ∧ sent_with os k.1 k.2 (seq_on_a pkt) cm.

Definition history (v : PacketView) (os : list obs) : Prop :=
  (∀ p c, chan_hist v os p c) ∧ resolved_were_sent os.
End history.

(** ** Preservation *)

Section preservation.
Context `{TmTime, !Sha256}.

(** Two views agree on a channel end; the state of the end may change. *)
Record agree_at (v v' : PacketView) (p : PortId) (c : ChannelId) : Prop := mkAgree {
  agree_order : chan_ordering <$> pc_get (pv_channels v') p c
    = chan_ordering <$> pc_get (pv_channels v) p c;
  agree_send : pc_get (pv_send v') p c = pc_get (pv_send v) p c;
  agree_recv : pc_get (pv_recv v') p c = pc_get (pv_recv v) p c;
  agree_ack : pc_get (pv_ack v') p c = pc_get (pv_ack v) p c;
  agree_acks n : pcs_get (pv_acks v') p c n = pcs_get (pv_acks v) p c n;
  agree_commitments n : pcs_get (pv_commitments v') p c n = pcs_get (pv_commitments v) p c n;
  agree_receipts n : pcs_get (pv_receipts v') p c n = pcs_get (pv_receipts v) p c n;
}.

(** Observations that do not concern a channel end. *)
Definition quiet (o : list obs) (p : PortId) (c : ChannelId) : Prop :=
  seqs_at sending p c o = [] ∧ seqs_at delivery p c o = [] ∧ seqs_at acking p c o = []
  ∧ seqs_at resolution p c o = [].

Lemma quiet_nil p c : quiet [] p c.
Proof. done. Qed.

Lemma sent_with_seqs os p c n cm : sent_with os p c n cm → n ∈ seqs_at sending p c os.
Proof.
  intros (q & Hq & Hk & <- & _). apply list_elem_of_omap. exists (Sent q). split; [done|].
  cbn. by rewrite Hk, decide_True.
Qed.

Lemma sent_with_app os o p c n cm :
  seqs_at sending p c o = [] → sent_with (os ++ o) p c n cm ↔ sent_with os p c n cm.
Proof.
  intros Ho. split.
  - intros (q & [Hq|Hq]%elem_of_app & Hk & Hn & Hc); [by exists q|].
    assert (n ∈ seqs_at sending p c o) as Hn'; [|rewrite Ho in Hn'; by apply not_elem_of_nil in Hn'].
    eapply sent_with_seqs. by exists q.
  - intros (q & Hq & Hr). exists q. rewrite elem_of_app. tauto.
Qed.

Lemma chan_hist_frame v v' os o p c :
  agree_at v v' p c → quiet o p c → chan_hist v os p c → chan_hist v' (os ++ o) p c.
Proof.
  intros [Eo Es Er Ea Eas Ec Ert] (Q1 & Q2 & Q3 & Q4). unfold chan_hist.
  destruct (pc_get (pv_channels v') p c) as [ch'|], (pc_get (pv_channels v) p c) as [ch|];
    try discriminate Eo; intros Hh.
  - injection Eo as ->. destruct Hh as [U1 U2 U3 U4 U5 U6 U7].
    split; rewrite !seqs_at_app, ?Q1, ?Q2, ?Q3, ?Q4, !app_nil_r, ?Es, ?Er, ?Ea; try done.
    + destruct (chan_ordering ch); [done| |done]. setoid_rewrite Ert. done.
    + intros n. by rewrite Eas.
    + intros n cm. by rewrite Ec, sent_with_app.
  - destruct Hh as [U1 U2 U3 U4 U5 U6].
    split; rewrite ?seqs_at_app, ?Q1, ?Q2, ?Q3, ?Q4, ?app_nil_r; try done.
    + intros n cm. by rewrite sent_with_app.
    + intros n. by rewrite Eas, Ec, Ert.
Qed.

(** A channel end that has just been created. *)
Lemma chan_hist_created v v' os p c ch :
  pc_get (pv_channels v) p c = None → pc_get (pv_channels v') p c = Some ch →
  chan_ordering ch ≠ OrderNone →
  pc_get (pv_send v') p c = Some 1 → pc_get (pv_recv v') p c = Some 1 →
  pc_get (pv_ack v') p c = Some 1 →
  (∀ n, pcs_get (pv_acks v') p c n = pcs_get (pv_acks v) p c n
      ∧ pcs_get (pv_commitments v') p c n = pcs_get (pv_commitments v) p c n
      ∧ pcs_get (pv_receipts v') p c n = pcs_get (pv_receipts v) p c n) →
  chan_hist v os p c → chan_hist v' os p c.
Proof.
  unfold chan_hist. intros -> -> Ho Es Er Ea Em [U1 U2 U3 U4 U5 U6].
  split; rewrite ?U1, ?U3, ?U4, ?U5; rewrite <- ?upto_1; eauto using N.le_refl.
  - destruct (chan_ordering ch); [done| |eauto using N.le_refl].
    split; [constructor|]. intros n. destruct (Em n) as (_ & _ & ->).
    destruct (U6 n) as (_ & _ & ->). split; [by intros ?%not_elem_of_nil|by intros [??]].
  - intros n. destruct (Em n) as (-> & _). destruct (U6 n) as (-> & _).
    split; [by intros ?%not_elem_of_nil|by intros [??]].
  - constructor.
  - intros n cm. destruct (Em n) as (_ & -> & _). destruct (U6 n) as (_ & -> & _).
    split; [done|]. intros [[]%U2 _].
Qed.

Lemma elem_of_snoc {A} (x y : A) l : x ∈ (l ++ [y])%list ↔ x ∈ l ∨ x = y.
Proof. by rewrite elem_of_app, list_elem_of_singleton. Qed.
Lemma NoDup_snoc {A} (x : A) l : base.NoDup l → x ∉ l → base.NoDup (l ++ [x])%list.
Proof.
  intros Hl Hx. apply list.NoDup_app. split_and!; [done| |apply NoDup_singleton].
  intros y Hy ->%list_elem_of_singleton. done.
Qed.

(** Sending, on the end the packet leaves from. *)
Lemma used_chan_sent v os q cm order :
  let '(p, c) := key_on_a q in
  used_chan v os p c order → pc_get (pv_send v) p c = Some (seq_on_a q) →
  packet_commitment_of q = Ok cm →
  used_chan (view_sent v q cm) (os ++ [Sent q]) p c order.
Proof.
  cbn. intros [U1 U2 U3 U4 U5 U6 U7] Hs Hcm.
  assert (∀ n cm', sent_with (os ++ [Sent q]) (port_id_on_a q) (chan_id_on_a q) n cm'
    ↔ sent_with os (port_id_on_a q) (chan_id_on_a q) n cm' ∨ (n = seq_on_a q ∧ cm' = cm)) as Hsw.
  { intros n cm'. unfold sent_with. setoid_rewrite elem_of_snoc. split.
    - intros (q' & [Hq|Hq] & Hk & Hn & Hc).
      + left. by exists q'.
      + right. injection Hq as ->. rewrite Hcm in Hc. injection Hc as ->. done.
    - intros [(q' & Hq & Hr)|[-> ->]].
      + exists q'. split; [by left|done].
      + exists q. split; [by right|done]. }
  destruct U1 as (m & Hm & Hm1 & Hseq). rewrite Hm in Hs. injection Hs as ->.
  assert (seq_on_a q ∉ seqs_at sending (port_id_on_a q) (chan_id_on_a q) os) as Hnew.
  { rewrite Hseq, elem_of_upto. lia. }
  split; rewrite ?seqs_at_app, ?(seqs_at_same sending _ _ (Sent q) q eq_refl), ?app_nil_r; try done.
  - cbn. exists (seq_on_a q + 1). rewrite pc_get_insert, decide_True by done.
    rewrite Hseq, upto_succ by done. split_and!; [done|lia|done].
  - intros n. rewrite elem_of_snoc. eauto.
  - intros n cm'. cbn. rewrite pcs_get_insert, Hsw. case_decide as Hd.
    + destruct Hd as (_ & _ & <-). split.
      * intros [= <-]. split; [by right|]. intros ?%U6. done.
      * intros [[?%sent_with_seqs|[_ ->]] _]; done.
    + rewrite U7. split; [tauto|]. intros [[?|[-> _]] ?]; [done|]. by destruct Hd.
Qed.

(** Delivery, on the end the packet arrives at. *)
Lemma used_chan_delivered v os m ack order :
  let q := recv_packet m in
  let '(p, c) := key_on_b q in
  used_chan v os p c order → order ≠ OrderNone → ¬ received v order p c (seq_on_a q) →
  (order = Ordered → pc_get (pv_recv v) p c = Some (seq_on_a q)) →
  used_chan (view_recv v order q ack) (os ++ [Acted (PktRecv m)]) p c order.
Proof.
  intros q. cbn. intros [U1 U2 U3 U4 U5 U6 U7] Ho Hr Hn.
  pose proof (seqs_at_same delivery (port_id_on_b q) (chan_id_on_b q) (Acted (PktRecv m)) q
    eq_refl) as Hsame.
  split; rewrite ?seqs_at_app, ?Hsame, ?app_nil_r; try done.
  - destruct order; [done| |].
    + destruct U2 as [Hnd Hrc]. cbn in Hr. split.
      * apply NoDup_snoc; [done|]. by rewrite Hrc.
      * intros n. cbn. rewrite elem_of_snoc, pcs_get_insert, Hrc. case_decide as Hd.
        -- destruct Hd as (_ & _ & <-). split; [by eexists|by right].
        -- split; [intros [?| ->]; [done|by destruct Hd]|by left].
    + destruct U2 as (k & Hk & Hk1 & Hd). rewrite Hn in Hk by done. injection Hk as <-.
      exists (seq_on_a q + 1). cbn. rewrite pc_get_insert, decide_True by done.
      rewrite Hd, upto_succ by done. split_and!; [done|lia|done].
  - intros n. cbn. rewrite elem_of_snoc, pcs_get_insert, U3. case_decide as Hd.
    + destruct Hd as (_ & _ & <-). split; [by eexists|by right].
    + split; [intros [?| ->]; [done|by destruct Hd]|by left].
  - intros n cm. cbn. by rewrite sent_with_app.
Qed.

(** Resolution, on the end the packet was sent from. *)
Lemma resolved_commitments v os q p c cm (rest : list obs) order :
  used_chan v os p c order → key_on_a q = (p, c) →
  commitment_at v q = Some cm → seqs_at sending p c rest = [] →
  seqs_at resolution p c rest = [seq_on_a q] →
  base.NoDup (seqs_at resolution p c (os ++ rest))
  ∧ (∀ n, n ∈ seqs_at resolution p c (os ++ rest) → n ∈ seqs_at sending p c (os ++ rest))
  ∧ ∀ n cm', pcs_get (pcs_remove (port_id_on_a q) (chan_id_on_a q) (seq_on_a q)
                        (pv_commitments v)) p c n = Some cm'
     ↔ sent_with (os ++ rest) p c n cm' ∧ n ∉ seqs_at resolution p c (os ++ rest).
Proof.
  intros [U1 U2 U3 U4 U5 U6 U7] [= <- <-] Hcm Hs Hr. unfold commitment_at in Hcm.
  apply U7 in Hcm as [Hsent Hnr]. rewrite !seqs_at_app, Hs, Hr, app_nil_r. split_and!.
  - by apply NoDup_snoc.
  - intros n [?| ->]%elem_of_snoc; [by apply U6|]. by eapply sent_with_seqs.
  - intros n cm'. rewrite pcs_get_remove, sent_with_app, elem_of_snoc by done. case_decide as Hd.
    + destruct Hd as (_ & _ & <-). split; [done|]. intros [_ []]. by right.
    + rewrite U7. split; [|tauto]. intros [? ?]. split; [done|]. intros [?| ->]; [done|].
      by destruct Hd.
Qed.

Lemma used_chan_acknowledged v os m cm order :
  let q := ack_packet m in
  let '(p, c) := key_on_a q in
  used_chan v os p c order → commitment_at v q = Some cm →
  (order = Ordered → pc_get (pv_ack v) p c = Some (seq_on_a q)) →
  used_chan (view_acknowledged v order q) (os ++ [Acted (PktAck m)]) p c order.
Proof.
  intros q. cbn. intros U Hcm Hn.
  destruct (resolved_commitments v os q _ _ cm [Acted (PktAck m)] order U eq_refl Hcm eq_refl
    (seqs_at_same resolution _ _ (Acted (PktAck m)) q eq_refl)) as (R1 & R2 & R3).
  destruct U as [U1 U2 U3 U4 U5 U6 U7].
  pose proof (seqs_at_same acking (port_id_on_a q) (chan_id_on_a q) (Acted (PktAck m)) q
    eq_refl) as Hsame.
  split; try done; rewrite ?seqs_at_app, ?Hsame, ?app_nil_r; try done.
  intros ->. destruct U4 as (k & Hk & Hk1 & Hd); [done|]. rewrite Hn in Hk by done.
  injection Hk as <-. exists (seq_on_a q + 1). cbn. rewrite pc_get_insert, decide_True by done.
  rewrite Hd, upto_succ by done. split_and!; [done|lia|done].
Qed.

Lemma used_chan_timed_out v os t c cm order :
  let q := (timeout_packet_of t).1 in
  used_chan v os (port_id_on_a q) (chan_id_on_a q) order → commitment_at v q = Some cm →
  used_chan (view_timed_out v order c q) (os ++ [Acted (timeout_msg t)])
    (port_id_on_a q) (chan_id_on_a q) order.
Proof.
  intros q U Hcm.
  assert (resolution (Acted (timeout_msg t)) = Some (key_on_a q, q)) as Hres by by destruct t.
  destruct (resolved_commitments v os q _ _ cm [Acted (timeout_msg t)] order U eq_refl Hcm)
    as (R1 & R2 & R3); [by destruct t|by apply seqs_at_same|].
  destruct U as [U1 U2 U3 U4 U5 U6 U7].
  assert (∀ p c, seqs_at sending p c [Acted (timeout_msg t)] = []
    ∧ seqs_at delivery p c [Acted (timeout_msg t)] = []
    ∧ seqs_at acking p c [Acted (timeout_msg t)] = []) as Hq by by destruct t.
  destruct (Hq (port_id_on_a q) (chan_id_on_a q)) as (Q1 & Q2 & Q3).
  split; try done; rewrite ?seqs_at_app, ?Q1, ?Q2, ?Q3, ?app_nil_r; done.
Qed.

(** Everywhere else nothing changes. *)
Lemma agree_refl v p c : agree_at v v p c.
Proof. by split. Qed.

Ltac agree_elsewhere Hne :=
  split; cbn; repeat match goal with |- context [match ?o with _ => _ end] => destruct o end;
  intros; rewrite ?pc_get_insert, ?pcs_get_insert, ?pcs_get_remove, ?decide_False; try done;
  intros E; apply Hne; destruct_and!; by subst.

Lemma agree_sent v q cm p c : key_on_a q ≠ (p, c) → agree_at v (view_sent v q cm) p c.
Proof. intros Hne. agree_elsewhere Hne. Qed.
Lemma agree_recv_elsewhere v order q ack p c :
  key_on_b q ≠ (p, c) → agree_at v (view_recv v order q ack) p c.
Proof. intros Hne. agree_elsewhere Hne. Qed.
Lemma agree_acknowledged v order q p c :
  key_on_a q ≠ (p, c) → agree_at v (view_acknowledged v order q) p c.
Proof. intros Hne. agree_elsewhere Hne. Qed.
Lemma agree_timed_out v order ch q p c :
  key_on_a q ≠ (p, c) → agree_at v (view_timed_out v order ch q) p c.
Proof. intros Hne. agree_elsewhere Hne. Qed.

Lemma quiet_sent q p c : key_on_a q ≠ (p, c) → quiet [Sent q] p c.
Proof. intros Hne. split_and!; try done. by eapply seqs_at_other. Qed.
Lemma quiet_delivered m p c : key_on_b (recv_packet m) ≠ (p, c) → quiet [Acted (PktRecv m)] p c.
Proof. intros Hne. split_and!; try done. by eapply seqs_at_other. Qed.
Lemma quiet_acknowledged m p c : key_on_a (ack_packet m) ≠ (p, c) → quiet [Acted (PktAck m)] p c.
Proof. intros Hne. split_and!; try done; by eapply seqs_at_other. Qed.
Lemma quiet_timed_out t p c :
  key_on_a (timeout_packet_of t).1 ≠ (p, c) → quiet [Acted (timeout_msg t)] p c.
Proof. intros Hne. destruct t; (split_and!; try done); by eapply seqs_at_other. Qed.

Lemma sent_with_mono os o p c n cm : sent_with os p c n cm → sent_with (os ++ o) p c n cm.
Proof. intros (q & Hq & Hr). exists q. rewrite elem_of_app. tauto. Qed.

Lemma resolved_were_sent_app os o :
  resolved_were_sent os →
  (∀ k pkt, resolution o = Some (k, pkt) → ∃ cm, packet_commitment_of pkt = Ok cm
     ∧ sent_with os k.1 k.2 (seq_on_a pkt) cm) →
  resolved_were_sent (os ++ [o]).
Proof.
  intros Hos Ho o' k pkt [Hin| ->]%elem_of_snoc Hr.
  - destruct (Hos _ _ _ Hin Hr) as (cm & ? & ?). exists cm. eauto using sent_with_mono.
  - destruct (Ho _ _ Hr) as (cm & ? & ?). exists cm. eauto using sent_with_mono.
Qed.

Lemma chan_hist_used v os p c ch :
  pc_get (pv_channels v) p c = Some ch → chan_hist v os p c →
  used_chan v os p c (chan_ordering ch).
Proof. unfold chan_hist. by intros ->. Qed.

Lemma history_send v os q v' :
  send_transition v q v' → history v os → history v' (os ++ [Sent q]).
Proof.
  intros Ht [Hh Hr]. destruct Ht as [c cm Hc _ _ Hn _ Hcm].
  split; [|by apply resolved_were_sent_app].
  intros p' c'. destruct (decide (key_on_a q = (p', c'))) as [E|Hne].
  - injection E as <- <-. unfold chan_hist. cbn. unfold chan_at_a in Hc. rewrite Hc.
    apply (used_chan_sent v os q cm); [|done..]. by apply chan_hist_used.
  - apply (chan_hist_frame v); [by apply agree_sent|by apply quiet_sent|done].
Qed.

(** A commitment in the store was made by a packet that was sent. *)
Lemma commitment_sent v os q c cm :
  (∀ p c, chan_hist v os p c) → chan_at_a v q = Some c → commitment_at v q = Some cm →
  sent_with os (port_id_on_a q) (chan_id_on_a q) (seq_on_a q) cm.
Proof.
  intros Hh Hc Hcm. specialize (Hh (port_id_on_a q) (chan_id_on_a q)).
  apply (chan_hist_used _ _ _ _ c) in Hh; [|done].
  by apply (used_commitments _ _ _ _ _ Hh) in Hcm as [? _].
Qed.

Lemma history_packet v os msg acted v' :
  packet_transition v msg acted v' → history v os →
  history v' (os ++ if acted then [Acted msg] else []).
Proof.
  intros Ht [Hh Hr].
  destruct Ht as [msg c p Hc|msg c order ack p Hc _ _ Ho Hne Hrc Hn _|msg c p Hc
    |msg c order cm p Hc _ _ Ho Hcm Hcmp Hn|t c p Hc|t c order cm p Hc _ Ho Hne Hcm Hcmp];
    try (by rewrite app_nil_r; split).
  - split; [|by apply resolved_were_sent_app]. intros p' c'.
    destruct (decide (key_on_b p = (p', c'))) as [E|Hk].
    + injection E as <- <-. unfold chan_hist. cbn. unfold chan_at_b in Hc. fold p. rewrite Hc, Ho.
      apply (used_chan_delivered v os msg ack order); try done.
      * rewrite <- Ho. by apply chan_hist_used.
      * intros E. by destruct (Hn E).
    + apply (chan_hist_frame v); [by apply agree_recv_elsewhere|by apply quiet_delivered|done].
  - split.
    2: { apply resolved_were_sent_app; [done|]. intros k pkt [= <- <-]. exists cm. split; [done|].
         by eapply commitment_sent. }
    intros p' c'. destruct (decide (key_on_a p = (p', c'))) as [E|Hk].
    + injection E as <- <-. unfold chan_hist. cbn. unfold chan_at_a in Hc. fold p. rewrite Hc, Ho.
      apply (used_chan_acknowledged v os msg cm order); try done.
      * rewrite <- Ho. by apply chan_hist_used.
      * intros E. by destruct (Hn E).
    + apply (chan_hist_frame v); [by apply agree_acknowledged|by apply quiet_acknowledged|done].
  - split.
    2: { apply resolved_were_sent_app; [done|]. intros k pkt Hk. exists cm.
         assert (k = key_on_a p ∧ pkt = p) as [-> ->] by (by destruct t; injection Hk as <- <-).
         split; [done|]. by eapply commitment_sent. }
    intros p' c'. destruct (decide (key_on_a p = (p', c'))) as [E|Hk].
    + injection E as <- <-.
      assert (used_chan (view_timed_out v order c p) (os ++ [Acted (timeout_msg t)])
        (port_id_on_a p) (chan_id_on_a p) order) as Hu.
      { apply (used_chan_timed_out v os t c cm order); [|done].
        rewrite <- Ho. by apply chan_hist_used. }
      unfold chan_hist. cbn. unfold chan_at_a in Hc.
      destruct order; [done|by rewrite Hc, Ho|].
      by rewrite pc_get_insert, decide_True; cbn; rewrite ?Ho.
    + apply (chan_hist_frame v); [by apply agree_timed_out|by apply quiet_timed_out|done].
Qed.
End preservation.

(** ** The invariant of a chain *)

Section chain_inv.
Context `{TmTime, !ChainTypes, !LightClient, !Codec, !Sha256, !ClientFrame}.
Context {App : Type} `{!Module App}.

Record store_inv (s : IbcStore) (os : list obs) : Prop := mkStoreInv {
  inv_clients : clients_inv (client_ids_counter s) (clients s);
  inv_connections : conns_inv (connection_ids_counter s) (connections s);
  inv_channels : chans_inv (connections s) (channel_ids_counter s) (channels s);
  inv_history : history (view s) os;
}.

Lemma chans_inv_conns conns conns' n m :
  (∀ i, is_Some (conns !! i) → is_Some (conns' !! i)) →
  chans_inv conns n m → chans_inv conns' n m.
Proof.
  intros Hc Hinv p i c Hp. destruct (Hinv _ _ _ Hp) as (? & ? & ? & ? & hop & ? & ?).
  unfold chan_end_inv. split_and!; try done. exists hop. auto.
Qed.

(** A channel message changes one channel end: it makes a new one with fresh
    identifiers, or keeps the order of an old one. *)
Lemma chan_transition_shape conns n m msg n' m' :
  chan_transition conns n m msg n' m' → chans_inv conns n m →
  ∃ p i ch, m' = pc_insert p i ch m
    ∧ match created_port msg with
      | Some p' => p = p' ∧ i = ChannelId_new n ∧ pc_get m p i = None ∧ chan_ordering ch ≠ OrderNone
      | None => ∃ c, pc_get m p i = Some c ∧ chan_ordering ch = chan_ordering c
      end.
Proof.
  intros Ht Hinv. pose proof (λ p, chans_inv_fresh _ _ _ p Hinv) as Hfresh.
  destruct Ht; do 3 eexists; (split; [done|]); cbn; eauto.
Qed.

Lemma history_channel s msg s' os :
  chan_step s msg s' → chans_inv (connections s) (channel_ids_counter s) (channels s) →
  history (view s) os → history (view s') os.
Proof.
  intros (Ht & Hseq & _) Hinv [Hh Hr]. split; [|done]. intros p c.
  destruct (chan_transition_shape _ _ _ _ _ _ Ht Hinv) as (p0 & i0 & ch & Hm & Hshape).
  unfold chan_sequences in Hseq. specialize (Hh p c).
  destruct (created_port msg) as [p1|].
  - destruct Hshape as (-> & -> & Hnone & Hord). destruct Hseq as (E1 & E2 & E3 & E4 & E5 & E6).
    destruct (decide (p1 = p ∧ ChannelId_new (channel_ids_counter s) = c)) as [[<- <-]|Hne].
    + eapply (chan_hist_created (view s)); cbn; try done;
        rewrite ?Hm, ?E1, ?E2, ?E3, ?E4, ?E5, ?E6, ?pc_get_insert, ?decide_True; done.
    + rewrite <- (app_nil_r os). apply (chan_hist_frame (view s)); [|apply quiet_nil|done].
      split; cbn; rewrite ?Hm, ?E1, ?E2, ?E3, ?E4, ?E5, ?E6, ?pc_get_insert, ?decide_False; done.
  - destruct Hshape as (c0 & Hc0 & Hord). destruct Hseq as (E1 & E2 & E3 & E4 & E5 & E6).
    rewrite <- (app_nil_r os). apply (chan_hist_frame (view s)); [|apply quiet_nil|done].
    split; cbn; rewrite ?E1, ?E2, ?E3, ?E4, ?E5, ?E6; try done.
    rewrite Hm, pc_get_insert. case_decide as Hd; [|done]. destruct Hd as [<- <-].
    rewrite Hc0. cbn. by rewrite Hord.
Qed.

(** Packet messages keep the invariant of channels. *)
Lemma packet_transition_channels conns n v msg acted v' :
  packet_transition v msg acted v' → chans_inv conns n (pv_channels v) →
  chans_inv conns n (pv_channels v').
Proof.
  intros Ht Hinv. destruct Ht as [| | | | |t c order cm p Hc Hb Ho _ _ _]; try done.
  cbn. destruct order; [done..|]. unfold chan_at_a in Hc.
  destruct (Hinv _ _ _ Hc) as [Hk Hci].
  apply (chans_inv_insert _ n); [done|lia|done|]. apply chan_end_inv_set_state; [done..|].
  intros _. rewrite Hb. by eexists.
Qed.

Lemma packet_step_acts s (a : App) msg acted s' a' :
  packet_step s a msg acted s' a' → acted = acts s msg.
Proof.
  intros (Ht & _). destruct Ht as [msg c p Hc _ _ Hr|msg c order ack p Hc _ _ Ho Hne Hr Hn _
    |msg c p _ _ _ Hcm|msg c order cm p _ _ _ _ Hcm _ _|t c p _ _ Hcm|t c order cm p _ _ _ _ Hcm _]; subst p.
  1,2: cbn; rewrite (proj2 (channel_end_Ok s (path_on_b (recv_packet msg)) c)) by done.
  - unfold packet_already_received. destruct (chan_ordering c); [done| |].
    + symmetry. apply negb_false_iff. by apply get_packet_receipt_is_ok.
    + destruct Hr as (n & Hn & Hlt).
      rewrite (proj2 (get_next_sequence_recv_Ok s (mkSeqRecvPath _ _) n)) by done. cbn.
      symmetry. apply negb_false_iff. by apply N.ltb_lt.
  - unfold packet_already_received. rewrite Ho. destruct order; [done| |].
    + symmetry. apply negb_true_iff, not_true_is_false. by rewrite get_packet_receipt_is_ok.
    + destruct (Hn eq_refl) as [Hn' _].
      rewrite (proj2 (get_next_sequence_recv_Ok s (mkSeqRecvPath _ _) _) Hn'). cbn.
      by rewrite N.ltb_irrefl.
  - unfold acts. cbn [packet_of]. rewrite get_packet_commitment_get. by rewrite Hcm.
  - unfold acts. cbn [packet_of]. rewrite get_packet_commitment_get. by rewrite Hcm.
  - destruct t; unfold acts; cbn [packet_of timeout_msg]; rewrite get_packet_commitment_get; cbn in Hcm; by rewrite Hcm.
  - destruct t; unfold acts; cbn [packet_of timeout_msg]; rewrite get_packet_commitment_get; cbn in Hcm; by rewrite Hcm.
Qed.

Lemma view_frames s s' : same_channels s s' → same_packets s s' → view s' = view s.
Proof.
  unfold same_channels, same_packets, view. intros. destruct_and!. congruence.
Qed.

(** What an application that sends a packet does to the store. *)
Lemma app_send_refines (host : Host) p s s1 s' u :
  send_packet p s = (s1, Ok u) → same_state s1 s' →
  send_transition (view s) p (view s')
  ∧ same_clients s s' ∧ same_connections s s' ∧ channel_ids_counter s' = channel_ids_counter s.
Proof.
  intros Hx (Hcl & Hco & Hch & Hp). pose proof (view_frames s1 s' Hch Hp) as Ev. rewrite Ev.
  apply send_packet_refines in Hx as (Ht & Hcl' & Hco' & Hn).
  unfold same_clients, same_connections, same_channels in *. destruct_and!. split_and!; congruence || done.
Qed.

Lemma chain_step_inv (st st' : chain (App:=App)) o os :
  chain_step st o st' → store_inv st.1 os → store_inv st'.1 (os ++ o).
Proof.
  intros Hs [I1 I2 I3 I4]. destruct Hs as [host Hs].
  destruct Hs as [msg s r st' Hd|p s r s1 s' r' Hx Hss|s r s' r' Hss]; cbn in *.
  2: { destruct (app_send_refines _ _ _ _ _ _ Hx Hss) as (Ht & (Ec & _ & _ & En) & (Ek & _ & Ekn) & Ech).
       split; rewrite ?Ec, ?En, ?Ek, ?Ekn, ?Ech; try done.
       - inversion Ht. by subst.
       - by eapply history_send. }
  2: { destruct Hss as ((Ec & _ & _ & En) & (Ek & _ & Ekn) & (Ech & Echn) & Hp). rewrite app_nil_r.
       split; rewrite ?Ec, ?En, ?Ek, ?Ekn, ?Ech, ?Echn; try done. by rewrite (view_frames s). }
  apply dispatch_Ok in Hd. destruct msg as [m|m|m|m]; cbn [observed]; rewrite ?app_nil_r.
  - destruct Hd as (_ & s' & Hx & ->). destruct (client_refines _ _ _ _ Hx) as [id Hstep].
    pose proof (client_step_inv _ _ _ _ Hstep I1).
    destruct Hstep as ((Ek & _ & Ekn) & (Ech & Echn) & Hp & _). cbn.
    split; rewrite ?Ek, ?Ekn, ?Ech, ?Echn; try done. by rewrite (view_frames s).
  - destruct Hd as (Hv & s' & Hx & ->).
    destruct (connection_refines _ _ _ _ _ Hv Hx) as (Ht & (Ec & _ & _ & En) & (Ech & Echn) & Hp & _).
    cbn. split; rewrite ?Ec, ?En, ?Ech, ?Echn; try done.
    + by eapply conn_transition_inv.
    + eapply chans_inv_conns; [|done]. intros i [c Hc].
      destruct (conn_transition_evolves _ _ _ _ _ _ _ Ht I2 Hc) as (c' & ? & _). by eexists.
    + by rewrite (view_frames s).
  - destruct Hd as (i & a & s' & a' & _ & Hv & Hx & ->).
    pose proof (channel_refines _ _ _ _ _ _ Hv Hx) as Hstep. cbn in Hstep.
    pose proof (history_channel _ _ _ _ Hstep I3 I4).
    destruct Hstep as (Ht & _ & (Ec & _ & _ & En) & (Ek & _ & Ekn)). cbn.
    split; rewrite ?Ec, ?En, ?Ek, ?Ekn; try done. by eapply chan_transition_inv.
  - destruct Hd as (i & a & s' & a' & _ & Hv & Hx & ->).
    destruct (packet_refines _ _ _ _ _ _ Hv Hx) as (acted & Hstep). cbn in Hstep.
    rewrite <- (packet_step_acts _ _ _ _ _ _ Hstep).
    destruct Hstep as (Ht & _ & (Ec & _ & _ & En) & (Ek & _ & Ekn) & Ech). cbn.
    split; rewrite ?Ec, ?En, ?Ek, ?Ekn, ?Ech; try done.
    + by eapply (packet_transition_channels _ _ _ _ _ _ Ht).
    + by eapply history_packet.
Qed.

Lemma genesis_inv : store_inv empty_store [].
Proof.
  split.
  - intros id [? Hid]. cbn in Hid. by rewrite lookup_empty in Hid.
  - intros id c Hid. cbn in Hid. by rewrite lookup_empty in Hid.
  - intros p i c Hc. cbn in Hc. unfold pc_get in Hc. by rewrite lookup_empty in Hc.
  - split; [|by intros o k pkt ?%not_elem_of_nil].
    intros p c. split; try done. by intros n cm (q & ?%not_elem_of_nil & _).
Qed.

Lemma chain_run_inv (r : MockRouter App) os st :
  chain_run (genesis r) os st → store_inv st.1 os.
Proof.
  induction 1 as [|os st1 o st2 Hrun IH Hs]; [apply genesis_inv|]. by eapply chain_step_inv.
Qed.

(** Only client messages write clients. *)
Lemma chain_step_clients (host : Host) (st st' : chain (App:=App)) o :
  chain_step_in host st o st' →
  clients st'.1 = clients st.1
  ∨ ∃ m, client_validate st.1 m = Ok tt ∧ client_execute m st.1 = (st'.1, Ok tt).
Proof.
  intros Hs. destruct Hs as [msg s r st' Hd|p s r s1 s' r' Hx Hss|s r s' r' Hss]; cbn.
  2: { destruct (app_send_refines _ _ _ _ _ _ Hx Hss) as (_ & (Ec & _) & _). by left. }
  2: { destruct Hss as ((Ec & _) & _). by left. }
  apply dispatch_Ok in Hd. destruct msg as [m|m|m|m].
  - destruct Hd as (Hv & s' & Hx & ->). right. by exists m.
  - destruct Hd as (Hv & s' & Hx & ->). left.
    by destruct (connection_refines _ _ _ _ _ Hv Hx) as (_ & (Ec & _) & _).
  - destruct Hd as (i & a & s' & a' & _ & Hv & Hx & ->). left.
    by destruct (channel_refines _ _ _ _ _ _ Hv Hx) as (_ & _ & (Ec & _) & _).
  - destruct Hd as (i & a & s' & a' & _ & Hv & Hx & ->). left.
    by destruct (packet_refines _ _ _ _ _ _ Hv Hx) as (acted & _ & _ & (Ec & _) & _).
Qed.
End chain_inv.

(** ** What is true of all states of all clients *)

(** A property of client and consensus states, per client, that new clients have
    and that methods of a client with the property keep, holds in every store. *)
Section client_states.
Context `{TmTime, !ChainTypes, !LightClient, !Codec, !Sha256, !ClientFrame}.
Context {App : Type} `{!Module App}.
Context (P : ClientId → ClientState → Prop) (Q : ClientId → ConsensusState → Prop).
Let keeps id := keeps_states id (P id) (Q id).
Context (HP : ∀ cs n, P (ClientType_build_client_id (client_type cs) n) cs).
Context (Hmethods : ∀ cs (host : Host) id, P id cs →
  (∀ a, within (keeps id) (initialise cs host id a))
  ∧ (∀ a, within (keeps id) (update_state cs host id a))
  ∧ (∀ a, within (keeps id) (update_state_on_misbehaviour cs host id a))
  ∧ (∀ a1 a2, within (keeps id) (update_state_on_upgrade cs host id a1 a2))).

Definition all_states (s : IbcStore) : Prop := ∀ id, states_are id (P id) (Q id) s.

Lemma all_states_clients s s' : clients s' = clients s → all_states s → all_states s'.
Proof. unfold all_states, states_are. by intros ->. Qed.

Lemma all_states_method {A} id (m : exec IbcStore ClientError A) s s1 s' a :
  on_client m s = (s1, Ok a) → client_frame id s (m s).1 → within (keeps id) m →
  clients s' = clients s1 → all_states s → all_states s'.
Proof.
  intros Hx%on_client_Ok Hf Hk E Hs. apply (all_states_clients _ _ E). intros i.
  specialize (Hk s). rewrite Hx in *. cbn in *.
  destruct (decide (i = id)) as [->|Hne]; [by apply Hk, Hs|].
  intros rec. destruct Hf as (_ & _ & _ & _ & _ & _ & Hf). destruct (Hf i Hne) as [-> _]. apply Hs.
Qed.

Lemma all_states_stored s id cs : all_states s → client_state s id = Ok cs → P id cs.
Proof. intros Hs (r & Hr & Hcs)%client_state_Ok. by eapply Hs. Qed.

Lemma client_execute_states (host : Host) m s s' :
  client_execute m s = (s', Ok tt) → all_states s → all_states s'.
Proof.
  intros Hx Hs. destruct m as [m|m|m|m]; cbn [client_execute] in Hx;
    unfold create_client_execute, update_client_execute, upgrade_client_execute in Hx; inv_exec;
    try match goal with H : check_for_misbehaviour _ _ _ _ _ = Ok ?b |- _ => destruct b; inv_exec end;
    match goal with H : on_client _ _ = _ |- _ =>
      eapply all_states_method; [exact H| |apply Hmethods|reflexivity|done] end;
    eauto using all_states_stored, initialise_frame, update_state_frame,
      update_state_on_misbehaviour_frame, update_state_on_upgrade_frame.
Qed.

Lemma chain_step_states (st st' : chain (App:=App)) o :
  chain_step st o st' → all_states st.1 → all_states st'.1.
Proof.
  intros [host [Ec|(m & _ & Hx)]%chain_step_clients]; [by apply all_states_clients|].
  by eapply client_execute_states.
Qed.

Lemma chain_run_states (r : MockRouter App) os st : chain_run (genesis r) os st → all_states st.1.
Proof.
  induction 1 as [|os st1 o st2 Hrun IH Hs]; [|by eapply chain_step_states].
  intros id rec. cbn. by rewrite lookup_empty.
Qed.
End client_states.

(** ** Theorems *)

Section theorems.
Context `{TmTime, !ChainTypes, !LightClient, !Codec, !Sha256, !ClientFrame}.
Context {App : Type} `{!Module App}.

(** C21: Every store a chain reaches from genesis, under any messages, times and
    applications, is well-formed: identifiers of clients, connections and
    channels were handed out by the counters, connection ends past [Init] have
    one negotiated version and a known counterparty, and every channel end has an
    order and one hop, which is a stored connection. *)
Theorem reachable_stores_well_formed (r : MockRouter App) os s r' :
  chain_run (genesis r) os (s, r') →
  clients_inv (client_ids_counter s) (clients s)
  ∧ conns_inv (connection_ids_counter s) (connections s)
  ∧ chans_inv (connections s) (channel_ids_counter s) (channels s).
Proof. intros Hr. by destruct (chain_run_inv _ _ _ Hr). Qed.

(** C24: On every channel end of a reachable store the packets were sent with
    sequence numbers 1, 2, 3, … without gap or repetition, and the send counter
    is the next one. *)
Theorem packets_sent_in_sequence (r : MockRouter App) os s r' p c ch :
  chain_run (genesis r) os (s, r') → pc_get (channels s) p c = Some ch →
  ∃ m, pc_get (next_sequence_send s) p c = Some m ∧ 1 <= m
    ∧ seqs_at sending p c os = upto m.
Proof.
  intros Hr Hc. destruct (chain_run_inv _ _ _ Hr) as [_ _ _ [Hh _]].
  by destruct (chan_hist_used (view s) _ _ _ _ Hc (Hh p c)).
Qed.

(** C1: Exactly-once, in-order delivery.  Along any run, the application of a
    channel end is given each sequence number at most once; on an ordered channel
    it is given 1, 2, 3, … up to the receive counter in that order, on an
    unordered one those with a receipt.  An acknowledgement is stored for what
    was delivered and nothing else. *)
Theorem packets_delivered_once (r : MockRouter App) os s r' p c :
  chain_run (genesis r) os (s, r') →
  base.NoDup (seqs_at delivery p c os)
  ∧ (∀ n, n ∈ seqs_at delivery p c os
       ↔ is_Some (pcs_get (packet_acknowledgement s) p c n))
  ∧ ∀ ch, pc_get (channels s) p c = Some ch →
      match chan_ordering ch with
      | Ordered => ∃ m, pc_get (next_sequence_recv s) p c = Some m
                     ∧ seqs_at delivery p c os = upto m
      | _ => ∀ n, n ∈ seqs_at delivery p c os ↔ is_Some (pcs_get (packet_receipt s) p c n)
      end.
Proof.
  intros Hr. destruct (chain_run_inv _ _ _ Hr) as [_ _ _ [Hh _]].
  specialize (Hh p c). unfold chan_hist in Hh. cbn in Hh.
  destruct (pc_get (channels s) p c) as [ch|].
  - destruct Hh as [_ U2 U3 _ _ _ _]. split_and!; [|done|].
    + destruct (chan_ordering ch); [done|by destruct U2|].
      destruct U2 as (m & _ & _ & ->). apply NoDup_upto.
    + intros ? [= <-]. destruct (chan_ordering ch); [done|by destruct U2|].
      destruct U2 as (m & ? & _ & ?). eauto.
  - destruct Hh as [_ _ Hd _ _ Hm]. rewrite Hd. split_and!; [constructor| |done].
    intros n. destruct (Hm n) as (E & _ & _). cbn in E. rewrite E.
    split; [by intros ?%not_elem_of_nil|by intros [??]].
Qed.

(** C2: A packet is resolved at most once, by acknowledgement or by timeout, and
    only if it was sent: along any run no sequence number of a channel end is
    resolved twice, every resolved packet has the commitment of a packet that was
    sent under the same identifiers, and the commitments in the store are exactly
    those of the packets sent and not yet resolved.  On an ordered channel the
    acknowledged packets are 1, 2, 3, … in that order. *)
Theorem packets_resolved_once (r : MockRouter App) os s r' p c :
  chain_run (genesis r) os (s, r') →
  base.NoDup (seqs_at resolution p c os)
  ∧ (∀ o k pkt, o ∈ os → resolution o = Some (k, pkt) →
       ∃ q cm, Sent q ∈ os ∧ key_on_a q = key_on_a pkt ∧ seq_on_a q = seq_on_a pkt
         ∧ packet_commitment_of pkt = Ok cm ∧ packet_commitment_of q = Ok cm)
  ∧ (∀ n cm, pcs_get (packet_commitment s) p c n = Some cm
       ↔ sent_with os p c n cm ∧ n ∉ seqs_at resolution p c os)
  ∧ ∀ ch, pc_get (channels s) p c = Some ch → chan_ordering ch = Ordered →
      ∃ m, pc_get (next_sequence_ack s) p c = Some m ∧ seqs_at acking p c os = upto m.
Proof.
  intros Hr. destruct (chain_run_inv _ _ _ Hr) as [_ _ _ [Hh Hsent]].
  specialize (Hh p c). unfold chan_hist in Hh. cbn in Hh.
  assert (∀ o k pkt, o ∈ os → resolution o = Some (k, pkt) →
       ∃ q cm, Sent q ∈ os ∧ key_on_a q = key_on_a pkt ∧ seq_on_a q = seq_on_a pkt
         ∧ packet_commitment_of pkt = Ok cm ∧ packet_commitment_of q = Ok cm) as Hres.
  { intros o k pkt Ho Hk. destruct (Hsent _ _ _ Ho Hk) as (cm & ? & q & ? & Hkq & ? & ?).
    exists q, cm. split_and!; try done. rewrite Hkq. destruct o as [|[]]; naive_solver. }
  destruct (pc_get (channels s) p c) as [ch|].
  - destruct Hh as [_ _ _ U4 U5 _ U7]. split_and!; try done.
    intros ? [= <-] Ho. destruct (U4 Ho) as (m & ? & _ & ?). eauto.
  - destruct Hh as [_ Hns _ _ Hrs Hm]. rewrite Hrs. split_and!; [constructor|done| |done].
    intros n cm. destruct (Hm n) as (_ & E & _). cbn in E. rewrite E. split; [done|].
    by intros [?%Hns _].
Qed.

(** On an unordered channel of a reachable store a packet that was already
    received is rejected, not ignored: [validate] accepts a packet only if the
    application will run.  The no-op that [execute] has for packets another
    relayer delivered first, so as not to fail the transaction, is never
    reached there. *)
Theorem unordered_redelivery_rejected (host : Host) (r : MockRouter App) os s r' msg c :
  chain_run (genesis r) os (s, r') →
  pc_get (channels s) (port_id_on_b (recv_packet msg)) (chan_id_on_b (recv_packet msg)) = Some c →
  chan_ordering c = Unordered →
  recv_packet_validate s msg = Ok tt → acts s (PktRecv msg) = true.
Proof.
  intros Hr Hc Ho Hv. destruct (chain_run_inv _ _ _ Hr) as [_ _ _ [Hh _]].
  destruct (chan_hist_used (view s) _ _ _ _ Hc (Hh _ _)) as [_ U2 U3 _ _ _ _]. rewrite Ho in U2.
  apply recv_packet_check_Ok in Hv
    as (c' & ? & ? & ? & ? & ? & ? & Hc' & _ & _ & _ & _ & _ & _ & _ & _ & _ & _ & _ & Hack).
  unfold chan_at_b in Hc'. cbn in Hc', U2, U3. simplify_eq. rewrite Ho in Hack.
  cbn. rewrite (proj2 (channel_end_Ok s (path_on_b (recv_packet msg)) c)) by done.
  unfold packet_already_received. rewrite Ho. apply negb_true_iff, not_true_is_false.
  rewrite get_packet_receipt_is_ok. cbn. intros Hrc.
  destruct U2 as [_ U2]. apply U2, U3 in Hrc. rewrite Hack in Hrc. by destruct Hrc.
Qed.

(** A client that is not active is left alone by every step. *)
Definition inert (id : ClientId) (s : IbcStore) (rec : ClientRecord) : Prop :=
  clients s !! id = Some rec
  ∧ ∃ cs, client_state_of rec = Some cs ∧ ∀ host s', status cs host s' id ≠ Ok Active.

Lemma inert_blocks (host : Host) id s rec msg u :
  inert id s rec → client_validate s msg = Ok u →
  match msg with
  | ClCreateClient _ => True
  | ClUpdateClient m => uc_client_id m ≠ id
  | ClMisbehaviour m => sm_client_id m ≠ id
  | ClUpgradeClient m => ug_client_id m ≠ id
  end.
Proof.
  intros (Hrec & cs & Hcs & Hst) Hv.
  assert (client_state s id = Ok cs) as Hs by (apply client_state_Ok; eauto).
  destruct msg as [m|m|m|m]; [done|..]; intros <-; cbn [client_validate] in Hv.
  1,2: unfold update_client_validate in Hv; cbn [um_client_id] in Hv; rewrite Hs in Hv.
  3: unfold upgrade_client_validate in Hv; rewrite Hs in Hv.
  all: inv_exec; match goal with H : status _ _ _ _ = Ok ?st |- _ =>
    destruct st; try discriminate; by apply Hst in H end.
Qed.

Lemma inert_step (st st' : chain (App:=App)) o os id rec :
  store_inv st.1 os → chain_step st o st' → inert id st.1 rec → inert id st'.1 rec.
Proof.
  intros Hinv [host Hs] Hin. split; [|apply Hin]. pose proof Hin as (Hrec & _).
  apply chain_step_clients in Hs as [Ec|(m & Hv & Hx)]; [by rewrite Ec|].
  destruct (client_refines _ _ _ _ Hx) as [i Hstep]. apply (inert_blocks host id _ rec m tt Hin) in Hv.
  destruct Hstep as (_ & _ & _ & Hf & Hm). destruct (decide (id = i)) as [->|Hne].
  - exfalso. destruct m; [|by destruct_and?..]. destruct Hm as (cs & _ & -> & _).
    by rewrite (clients_inv_fresh _ _ _ (inv_clients _ _ Hinv)) in Hrec.
  - destruct (Hf id Hne) as [-> _]. done.
Qed.

Lemma inert_run (st st' : chain (App:=App)) os os' id rec :
  store_inv st.1 os → inert id st.1 rec → chain_run st os' st' → inert id st'.1 rec.
Proof.
  intros Hinv Hin Hr'. assert (store_inv st'.1 (os ++ os') ∧ inert id st'.1 rec) as [_ ?]; [|done].
  induction Hr' as [|os1 st1 o st2 Hrun [IH1 IH2] Hs]; [by rewrite app_nil_r|].
  rewrite app_assoc. split; [by eapply chain_step_inv|by eapply inert_step].
Qed.

(** C30: A client that is not active, and cannot become active by itself, is never
    touched again: once such a client (for instance a frozen one) is in a
    reachable store, its state and consensus states are the same in every later
    store, whatever is dispatched. *)
Theorem inert_clients_never_change (r : MockRouter App) os st os' st' id rec :
  chain_run (genesis r) os st → inert id st.1 rec → chain_run st os' st' →
  clients st'.1 !! id = Some rec.
Proof.
  intros Hr Hin Hr'. apply chain_run_inv in Hr. by destruct (inert_run _ _ _ _ _ _ Hr Hin Hr').
Qed.
End theorems.
