(* ===== verification/Answers.v ===== *)
(** * What applications answered

    Runs of a chain seen from the application: which callback a message that was accepted has
    made, with which answer, and what stays of it in the store. *)

From S2P Require Import Prelude RustStr Identifiers Primitives Path Connection Channel Context.
From S2P Require Import ConnHandlers Module ChanHandlers PacketHandlers PacketSpec ClientHandlers Entrypoint Chain.
Local Open Scope N_scope.

(** ** Callbacks *)

Section answers.
Context `{TmTime, !ChainTypes, !LightClient, host : !Host, !Codec, !Sha256}.
Context {App : Type} `{!Module App}.

(** The callback that a packet message which ran the application made. *)
Definition answered (msg : PacketMsg) (a a' : App) (s' : IbcStore) : Prop :=
  match msg with
  | PktRecv m => ∃ extras ack,
      on_recv_packet_execute (recv_packet m) (recv_signer m) a = (a', Ok (extras, ack))
      ∧ pcs_get (packet_acknowledgement s') (port_id_on_b (recv_packet m))
          (chan_id_on_b (recv_packet m)) (seq_on_a (recv_packet m)) = Some (compute_ack_commitment ack)
  | PktAck m => ∃ extras,
      on_acknowledgement_packet_execute (ack_packet m) (ack_acknowledgement m) (ack_signer m) a
      = (a', Ok (extras, Ok tt))
  | PktTimeout m => ∃ extras,
      on_timeout_packet_execute (to_packet m) (to_signer m) a = (a', Ok (extras, Ok tt))
  | PktTimeoutOnClose m => ∃ extras,
      on_timeout_packet_execute (toc_packet m) (toc_signer m) a = (a', Ok (extras, Ok tt))
  end.

Lemma recv_answered s (a : App) m s' a' u :
  acts s (PktRecv m) = true → recv_packet_execute m (s, a) = ((s', a'), Ok u) →
  answered (PktRecv m) a a' s'.
Proof.
  cbn [acts]. intros Ha Hx. unfold recv_packet_execute in Hx. inv_exec.
  match goal with H : channel_end _ _ = Ok _ |- _ => rewrite H in Ha end.
  match goal with H : packet_already_received _ _ _ = Ok _ |- _ => rewrite H in Ha end.
  apply negb_true_iff in Ha as ->. unfold record_receive in *.
  destruct (chan_ordering _); inv_exec;
    match goal with H : emit_extras _ _ = _ |- _ => apply emit_extras_Ok in H as (s1 & [= <- <-] & Hs & _) end;
    destruct Hs as (_ & _ & _ & Hp); unfold same_packets in Hp; cbn in Hp; destruct_and!; do 2 eexists; (split; [done|]);
    match goal with H : packet_acknowledgement s' = _ |- _ => rewrite H end;
    by rewrite pcs_get_insert, decide_True.
Qed.

(** The commitment is still there when the application is called. *)
Ltac still_committed s Ha :=
  match goal with H : (if negb (is_ok (get_packet_commitment _ ?p)) then _ else _) _ = _ |- _ =>
    match type of H with context [is_ok ?x] => change x with (get_packet_commitment s p) in H end;
    rewrite Ha in H end.

Lemma ack_answered s (a : App) m s' a' u :
  acts s (PktAck m) = true → acknowledgement_packet_execute m (s, a) = ((s', a'), Ok u) →
  answered (PktAck m) a a' s'.
Proof.
  cbn [acts packet_of]. intros Ha Hx. unfold acknowledgement_packet_execute in Hx. inv_exec.
  still_committed s Ha. inv_exec. destruct (chan_ordering _); inv_exec;
    match goal with H : emit_extras _ _ = _ |- _ => apply emit_extras_Ok in H as (s1 & [= <- <-] & _) end;
    by eexists.
Qed.

Lemma timeout_answered s (a : App) t s' a' u :
  acts s (timeout_msg t) = true → timeout_packet_execute t (s, a) = ((s', a'), Ok u) →
  answered (timeout_msg t) a a' s'.
Proof.
  intros Ha Hx.
  assert (∃ extras, on_timeout_packet_execute (timeout_packet_of t).1 (timeout_packet_of t).2 a
    = (a', Ok (extras, Ok tt))) as Hans; [|by destruct t].
  assert (is_ok (get_packet_commitment s (commitment_path_on_a (timeout_packet_of t).1)) = true) as Ha'
    by by destruct t.
  clear Ha. unfold timeout_packet_execute in Hx. destruct (timeout_packet_of t) as [p signer]. cbn in Ha' |- *.
  inv_exec. still_committed s Ha'. inv_exec. destruct (chan_ordering _) eqn:Eo; inv_exec; rewrite ?Eo in *; inv_exec;
    match goal with H : emit_extras _ _ = _ |- _ => apply emit_extras_Ok in H as (s1 & [= <- <-] & _) end;
    simplify_eq; by eexists.
Qed.

Lemma packet_answered s (a : App) msg s' a' u :
  acts s msg = true → packet_execute msg (s, a) = ((s', a'), Ok u) → answered msg a a' s'.
Proof.
  destruct msg as [m|m|m|m]; cbn [packet_execute].
  - apply recv_answered.
  - apply ack_answered.
  - apply (timeout_answered _ _ (TimeoutMsg m)).
  - apply (timeout_answered _ _ (TimeoutOnCloseMsg m)).
Qed.

(** A channel message keeps what the six channel callbacks of the application keep. *)
Section channel_callbacks.
Context (P : App → Prop).

Record callbacks_keep (a : App) : Prop := mkKeep {
  keep_open_init o hops p c rem v : P (on_chan_open_init_execute o hops p c rem v a).1;
  keep_open_try o hops p c rem v : P (on_chan_open_try_execute o hops p c rem v a).1;
  keep_open_ack p c v : P (on_chan_open_ack_execute p c v a).1;
  keep_open_confirm p c : P (on_chan_open_confirm_execute p c a).1;
  keep_close_init p c : P (on_chan_close_init_execute p c a).1;
  keep_close_confirm p c : P (on_chan_close_confirm_execute p c a).1;
}.

Lemma channel_answered s (a : App) msg s' a' u :
  callbacks_keep a → channel_execute msg (s, a) = ((s', a'), Ok u) → P a'.
Proof.
  intros [K1 K2 K3 K4 K5 K6] Hx.
  destruct msg as [m|m|m|m|m|m]; cbn [channel_execute] in Hx;
    [unfold chan_open_init_execute in Hx|unfold chan_open_try_execute in Hx|unfold chan_open_ack_execute in Hx
    |unfold chan_open_confirm_execute in Hx|unfold chan_close_init_execute in Hx|unfold chan_close_confirm_execute in Hx];
    inv_exec;
    match goal with H : emit_extras _ _ = _ |- _ => apply emit_extras_Ok in H as (s1 & [= <- <-] & _) end;
    match goal with H : _ = (a', Ok _) |- _ => apply (f_equal fst) in H; cbn in H; rewrite <- H end.
  - apply K1. 
  - apply K2.
  - apply K3.
  - apply K4.
  - apply K5.
  - apply K6.
Qed.
End channel_callbacks.
End answers.

(** ** Acknowledgements stay *)

Section acknowledgements.
Context `{TmTime, !ChainTypes, !LightClient, !Codec, !Sha256, !ClientFrame}.
Context {App : Type} `{!Module App}.

Definition ack_at (s : IbcStore) (e : PortId * ChannelId) (n : Sequence) : option AcknowledgementCommitment :=
  pcs_get (packet_acknowledgement s) e.1 e.2 n.

Lemma chain_step_acks (st st' : chain (App:=App)) o e n ack :
  chain_step st o st' → ack_at st.1 e n = Some ack → ack_at st'.1 e n = Some ack.
Proof.
  destruct e as [ep ec]. unfold ack_at. intros Hs Ha. destruct Hs as [host Hs].
  destruct Hs as [msg s r st' Hd|p s r s1 s' r' Hx Hss|s r s' r' Hss]; cbn in *.
  2: { destruct (app_send_refines _ _ _ _ _ _ Hx Hss) as (Ht & _).
       by assert (packet_acknowledgement s' = packet_acknowledgement s) as -> by (by inversion Ht). }
  2: { destruct Hss as (_ & _ & _ & Hp). unfold same_packets in Hp. destruct_and!. congruence. }
  apply dispatch_Ok in Hd. destruct msg as [m|m|m|m].
  - destruct Hd as (_ & s' & Hx & ->).
    destruct (client_refines _ _ _ _ Hx) as (id & _ & _ & Hp & _). unfold same_packets in Hp.
    destruct_and!. cbn. congruence.
  - destruct Hd as (Hv & s' & Hx & ->).
    destruct (connection_refines _ _ _ _ _ Hv Hx) as (_ & _ & _ & Hp & _). unfold same_packets in Hp.
    destruct_and!. cbn. congruence.
  - destruct Hd as (i & a & s' & a' & _ & Hv & Hx & ->).
    destruct (channel_refines _ _ _ _ _ _ Hv Hx) as (_ & Hseq & _). cbn in *.
    unfold chan_sequences in Hseq. destruct (created_port m); destruct Hseq as (_ & _ & _ & -> & _); done.
  - destruct Hd as (i & a & s' & a' & _ & Hv & Hx & ->).
    destruct (packet_refines _ _ _ _ _ _ Hv Hx) as (acted & Ht & _). cbn in Ht |- *.
    change (packet_acknowledgement s') with (pv_acks (view s')).
    change (packet_acknowledgement s) with (pv_acks (view s)) in Ha. revert Ht. generalize (view s') as v'.
    intros v' Ht. destruct Ht as [|msg c order w p _ _ _ _ _ _ _ Hn| | | |]; try done.
    cbn. rewrite pcs_get_insert. case_decide as Hd; [|done]. destruct Hd as (<- & <- & <-). congruence.
Qed.

Lemma chain_run_acks (st st' : chain (App:=App)) os e n ack :
  chain_run st os st' → ack_at st.1 e n = Some ack → ack_at st'.1 e n = Some ack.
Proof.
  intros Hr Ha. induction Hr as [|os st1 o st2 _ IH Hs]; [done|]. by eapply chain_step_acks.
Qed.
End acknowledgements.
