(* ===== verification/Network.v ===== *)
(** * Two chains

    The life of a chain as blocks and the messages executed in them, light clients that
    follow the blocks of another chain, and what two chains that follow each other know of
    the packets between them.  A chain is seen from outside only through its blocks: their
    height, time and root, and the part of the store under that root which concerns
    channels and packets. *)

From S2P Require Import Prelude RustStr Identifiers Primitives Path Connection Channel Context.
From S2P Require Import ConnHandlers Module ChanHandlers PacketHandlers PacketSpec.
From S2P Require Import ClientHandlers Query Entrypoint Chain.
Local Open Scope N_scope.

(** ** Blocks *)

Section blocks.
Context `{TmTime}.

(** A block: its header, the packet state the header's root commits to, which is the one
    before the block is executed, and what had been observed until then. *)
Record block := mkBlock {
  block_height : Height;
  block_time : Timestamp;
  block_root : CommitmentRoot;
  block_view : PacketView;
  block_log : list obs }.

Definition no_earlier_block (b b' : block) : Prop :=
  no_earlier (block_time b) (block_height b) (block_time b') (block_height b').

Lemma no_earlier_block_refl b : no_earlier_block b b.
Proof. split; [by left|]. intros t ->. exists t. split; [done|lia]. Qed.

(** The paths of channels and packets, and what a packet state holds under them. *)
Definition packet_path (path : Path) : bool :=
  match path with
  | PathChannelEnd _ | PathSeqRecv _ | PathCommitment _ | PathAck _ | PathReceipt _ => true
  | _ => false
  end.

Definition view_value `{!Codec} (v : PacketView) (path : Path) : option bytes :=
  match path with
  | PathChannelEnd p => ChannelEnd_encode_vec <$> pc_get (pv_channels v) (cep_port_id p) (cep_channel_id p)
  | PathSeqRecv p => to_be_bytes <$> pc_get (pv_recv v) (srp_port_id p) (srp_channel_id p)
  | PathCommitment p => commitment_bytes
      <$> pcs_get (pv_commitments v) (cmp_port_id p) (cmp_channel_id p) (cmp_sequence p)
  | PathAck p => ack_commitment_bytes
      <$> pcs_get (pv_acks v) (ap_port_id p) (ap_channel_id p) (ap_sequence p)
  | PathReceipt p => (λ _, [Byte.x01])
      <$> pcs_get (pv_receipts v) (rp_port_id p) (rp_channel_id p) (rp_sequence p)
  | _ => None
  end.

(** It is what the whole store proves there; of receipts only whether there is one matters. *)
Lemma provable_view `{Unicode, !ChainTypes, !Codec, !AnyStates, !HostBytes} (s : IbcStore) path :
  packet_path path = true →
  match path with
  | PathReceipt _ => is_Some (provable s path) ↔ is_Some (view_value (view s) path)
  | _ => provable s path = view_value (view s) path
  end.
Proof. destruct path; try done. cbn. by rewrite !fmap_is_Some. Qed.
End blocks.

(** ** The life of a chain *)

Section life.
Context `{TmTime, !ChainTypes, !LightClient, !Codec, !Sha256}.
Context {App : Type} `{!Module App}.
Context (G : Host → chain (App:=App) → list obs → chain (App:=App) → Prop) (r : MockRouter App).

(** Blocks follow each other in height and time; the messages and packets of a block are
    executed in a host that has the block's height and time, and [G] holds of every step. *)
Inductive life : list block → list obs → chain (App:=App) → Prop :=
| life_start : life [] [] (genesis r)
| life_block bs os st b :
    life bs os st → (∀ b', b' ∈ bs → no_earlier_block b' b) →
    block_view b = view st.1 → block_log b = os → life (bs ++ [b])%list os st
| life_step (host : Host) bs b os st o st' :
    life (bs ++ [b])%list os st →
    host_height = Ok (block_height b) → host_timestamp = Ok (block_time b) →
    G host st o st' → chain_step_in host st o st' → life (bs ++ [b])%list (os ++ o)%list st'.

Lemma life_run bs os st : life bs os st → chain_run (genesis r) os st.
Proof.
  induction 1 as [|bs os st b _ IH|host bs b os st o st' _ IH _ _ _ Hs]; [constructor|done|].
  eapply run_step; [done|]. by exists host.
Qed.

Lemma life_last bs b os st b' : life (bs ++ [b]) os st → b' ∈ (bs ++ [b])%list → no_earlier_block b' b.
Proof.
  intros Hl. remember (bs ++ [b])%list as bs' eqn:E. revert bs b E b'.
  induction Hl as [|bs os st b0 _ _ Hb|host bs b0 os st o st' _ IH]; intros bs' b E b'.
  - by destruct bs'.
  - apply app_inj_2 in E as [-> [= ->]]; [|done]. intros [Hin| ->]%elem_of_snoc; [by apply Hb|].
    apply no_earlier_block_refl.
  - by apply (IH bs').
Qed.

(** Every block shows a state of the chain's past. *)
Lemma life_past bs os st b :
  life bs os st → b ∈ bs →
  block_log b `prefix_of` os
  ∧ ∃ st', block_view b = view st'.1 ∧ chain_run (genesis r) (block_log b) st'
         ∧ ∃ os', chain_run st' os' st.
Proof.
  induction 1 as [|bs os st b0 Hl IH Hb Hv Ho|host bs b0 os st o st' Hl IH Hh Ht HG Hs].
  - by intros ?%not_elem_of_nil.
  - intros [Hin| ->]%elem_of_snoc; [by apply IH|]. rewrite Ho. split; [done|]. exists st.
    split_and!; [done|by eapply life_run|]. eexists. constructor.
  - intros Hin. destruct (IH Hin) as (Hp & st1 & ? & ? & os' & Hr).
    split; [by apply prefix_app_r|]. exists st1. split_and!; [done..|].
    eexists. eapply run_step; [done|]. by exists host.
Qed.

(** Where the application acted on a message: the message was accepted, in a store of the
    chain's past, and each block shows its effect already or the host was not before it. *)
Lemma life_acted bs os st msg :
  life bs os st → Acted msg ∈ os →
  ∃ (host : Host) bs1 os1 s r1 a,
    life bs1 os1 (s, r1) ∧ (∃ o st', G host (s, r1) o st') ∧ packet_validate s a msg = Ok tt ∧ acts s msg = true
    ∧ (∃ os', chain_run (s, r1) os' st)
    ∧ ∀ b, b ∈ bs → Acted msg ∈ block_log b
        ∨ b ∈ bs1 ∧ ∃ ts h, host_timestamp = Ok ts ∧ host_height = Ok h
            ∧ no_earlier (block_time b) (block_height b) ts h.
Proof.
  induction 1 as [|bs os st b0 Hl IH Hb Hv Ho|host bs b0 os st o st' Hl IH Hh Ht HG Hs]; intros Hin.
  - by apply not_elem_of_nil in Hin.
  - destruct (IH Hin) as (host & bs1 & os1 & s & r1 & a & ? & ? & ? & ? & ? & Hbs).
    exists host, bs1, os1, s, r1, a. split_and!; [done..|].
    intros b [?| ->]%elem_of_snoc; [by apply Hbs|]. left. by rewrite Ho.
  - apply elem_of_app in Hin as [Hold|Hin].
    { destruct (IH Hold) as (host1 & bs1 & os1 & s & r1 & a & ? & ? & ? & ? & (os' & Hr) & Hbs).
      exists host1, bs1, os1, s, r1, a. split_and!; [done..| |done].
      eexists. eapply run_step; [done|]. by exists host. }
    assert (∃ s r1 a, st = (s, r1) ∧ packet_validate s a msg = Ok tt ∧ acts s msg = true)
      as (s & r1 & a & -> & Hv & Ha).
    { inversion Hs as [m s r1 st2 Hd E1 E2|p s r1 s1 s' r' Hx Hss E1 E2|s r1 s' r' Hss E1 E2]; subst.
      - destruct m as [| | |m]; cbn [observed] in Hin; try by apply not_elem_of_nil in Hin.
        destruct (acts s m) eqn:Ea; [|by apply not_elem_of_nil in Hin].
        apply list_elem_of_singleton in Hin as [= ->].
        apply dispatch_Ok in Hd as (i & a & s' & a' & _ & Hv & _). by exists s, r1, a.
      - by apply list_elem_of_singleton in Hin.
      - by apply not_elem_of_nil in Hin. }
    exists host, (bs ++ [b0])%list, os, s, r1, a. split_and!; [done|by do 2 eexists|done..| |].
    + exists ([] ++ o)%list. eapply run_step; [constructor|]. by exists host.
    + intros b Hb. right. split; [done|]. do 2 eexists. split_and!; [done..|]. by apply (life_last bs b0 os (s, r1)).
Qed.
End life.

(** A life in which more holds of every step. *)
Lemma life_weaken `{TmTime, !ChainTypes, !LightClient, !Codec, !Sha256} {App : Type} `{!Module App}
    (G G' : Host → chain (App:=App) → list obs → chain (App:=App) → Prop) r bs os st :
  (∀ host st o st', G host st o st' → G' host st o st') → life G r bs os st → life G' r bs os st.
Proof.
  intros HG. induction 1; [constructor|by constructor|]. eapply life_step; eauto.
Qed.

(** ** Channel ends over time *)

Section ends.
Context `{TmTime, !ChainTypes, !LightClient, !Codec, !Sha256, !ClientFrame}.
Context {App : Type} `{!Module App}.

Lemma chan_evolves_trans c1 c2 c3 :
  chan_state c1 ≠ ChanUninitialized → chan_evolves c1 c2 → chan_evolves c2 c3 → chan_evolves c1 c3.
Proof.
  unfold chan_evolves, ChannelState_le. rewrite !Z.leb_le.
  intros Hu (L1 & O1 & H1' & P1 & R1 & C1) (L2 & O2 & H2' & P2 & R2 & C2).
  split_and!; [lia|congruence..| |].
  - intros Hn. destruct (R1 Hn) as [<- <-]. apply R2. intros E. rewrite E in L1.
    by destruct (chan_state c1).
  - intros E. pose proof (C1 E) as ->. by apply C2.
Qed.

Lemma chan_evolves_closed c : chan_evolves c (ChannelEnd_set_state c ChanClosed).
Proof.
  destruct c as [st o rem hops v]. unfold chan_evolves, ChannelState_le. cbn.
  split_and!; try done; by destruct st.
Qed.

Lemma evolves_past_init c c' :
  chan_state c ≠ ChanUninitialized → chan_state c ≠ ChanInit →
  ChannelState_le (chan_state c) (chan_state c') = true → chan_state c' ≠ ChanInit.
Proof. unfold ChannelState_le. intros Hu Hi Hle E. rewrite E in Hle. by destruct (chan_state c). Qed.

(** No channel end disappears, and all of them evolve. *)
Definition ends_evolve (m m' : PortChannelIdMap ChannelEnd) : Prop :=
  ∀ p i c, pc_get m p i = Some c → ∃ c', pc_get m' p i = Some c' ∧ chan_evolves c c'.

Lemma ends_evolve_refl m : ends_evolve m m.
Proof. intros p i c Hc. eauto using chan_evolves_refl. Qed.

Lemma packet_transition_evolves v msg acted v' :
  packet_transition v msg acted v' → ends_evolve (pv_channels v) (pv_channels v').
Proof.
  intros Ht. destruct Ht as [| | | | |t c order cm p Hc]; try apply ends_evolve_refl.
  cbn. destruct order; try apply ends_evolve_refl. intros p' i c' Hc'. rewrite pc_get_insert.
  case_decide as Hd; [|eauto using chan_evolves_refl]. destruct Hd as [<- <-].
  unfold chan_at_a in Hc. rewrite Hc in Hc'. injection Hc' as <-. eauto using chan_evolves_closed.
Qed.

Lemma chain_step_evolves (st st' : chain (App:=App)) o os :
  chain_step st o st' → store_inv st.1 os → ends_evolve (channels st.1) (channels st'.1).
Proof.
  intros Hs [_ _ I3 _]. destruct Hs as [host Hs].
  destruct Hs as [msg s r st' Hd|p s r s1 s' r' Hx Hss|s r s' r' Hss]; cbn in *.
  2: { destruct (app_send_refines _ _ _ _ _ _ Hx Hss) as (Ht & _ & _ & _).
       assert (channels s' = channels s) as -> by (by inversion Ht). apply ends_evolve_refl. }
  2: { destruct Hss as (_ & _ & (Ech & _) & _). rewrite Ech. apply ends_evolve_refl. }
  apply dispatch_Ok in Hd. destruct msg as [m|m|m|m].
  - destruct Hd as (_ & s' & Hx & ->). destruct (client_refines _ _ _ _ Hx) as (id & _ & (Ech & _) & _).
    cbn. rewrite Ech. apply ends_evolve_refl.
  - destruct Hd as (Hv & s' & Hx & ->).
    destruct (connection_refines _ _ _ _ _ Hv Hx) as (_ & _ & (Ech & _) & _).
    cbn. rewrite Ech. apply ends_evolve_refl.
  - destruct Hd as (i & a & s' & a' & _ & Hv & Hx & ->).
    destruct (channel_refines _ _ _ _ _ _ Hv Hx) as (Ht & _). intros p id c.
    by apply (chan_transition_evolves _ _ _ _ _ _ _ _ _ Ht).
  - destruct Hd as (i & a & s' & a' & _ & Hv & Hx & ->).
    destruct (packet_refines _ _ _ _ _ _ Hv Hx) as (acted & Ht & _).
    by apply packet_transition_evolves in Ht.
Qed.

Lemma chain_run_evolves (r : MockRouter App) os st os' st' :
  chain_run (genesis r) os st → chain_run st os' st' → ends_evolve (channels st.1) (channels st'.1).
Proof.
  intros Hr Hr'. apply chain_run_inv in Hr.
  assert (∀ p i c, pc_get (channels st.1) p i = Some c → chan_state c ≠ ChanUninitialized) as Hu.
  { intros p i c Hc. by destruct (inv_channels _ _ Hr _ _ _ Hc) as (_ & ? & _). }
  assert (store_inv st'.1 (os ++ os') ∧ ends_evolve (channels st.1) (channels st'.1)) as [_ ?]; [|done].
  induction Hr' as [|os1 st1 o st2 Hrun [IH1 IH2] Hs].
  { rewrite app_nil_r. split; [done|apply ends_evolve_refl]. }
  rewrite app_assoc. split; [by eapply chain_step_inv|].
  intros p i c Hc. destruct (IH2 _ _ _ Hc) as (c1 & Hc1 & E1).
  destruct (chain_step_evolves _ _ _ _ Hs IH1 _ _ _ Hc1) as (c2 & Hc2 & E2).
  exists c2. split; [done|]. by eapply chan_evolves_trans; [eapply Hu|..].
Qed.

(** A block shows a past state of the channel ends. *)
Lemma life_ends G (r : MockRouter App) bs os st b :
  life G r bs os st → b ∈ bs → ends_evolve (pv_channels (block_view b)) (channels st.1).
Proof.
  intros Hl Hb. destruct (life_past _ _ _ _ _ _ Hl Hb) as (_ & st1 & -> & Hr & os' & Hr').
  by eapply chain_run_evolves.
Qed.

Lemma life_history G (r : MockRouter App) bs os st b :
  life G r bs os st → b ∈ bs → history (block_view b) (block_log b).
Proof.
  intros Hl Hb. destruct (life_past _ _ _ _ _ _ Hl Hb) as (_ & st1 & -> & Hr & _).
  by apply chain_run_inv in Hr as [].
Qed.

Lemma life_log G (r : MockRouter App) bs os st b o :
  life G r bs os st → b ∈ bs → o ∈ block_log b → o ∈ os.
Proof.
  intros Hl Hb Ho. destruct (life_past _ _ _ _ _ _ Hl Hb) as ([k ->] & _).
  apply elem_of_app. by left.
Qed.
End ends.

(** ** Clients that follow another chain *)

(** Proofs about the blocks [bs] of a chain that keeps its store under [prefix]: what a
    client of the right kind accepts against the root of a block, under a path of valid
    identifiers, is so in the block's packet state. *)
Class FaithfulProofs `{Unicode, TmTime, !ChainTypes, lc : !LightClient, !Codec} (good : ClientState → Prop)
    (prefix : CommitmentPrefix) (bs : list block) := {
  faithful_present cs proof b path value :
    good cs → b ∈ bs → packet_path path = true → Path_wf path →
    verify_membership cs prefix proof (block_root b) path value = Ok tt →
    view_value (block_view b) path = Some value;
  faithful_absent cs proof b path :
    good cs → b ∈ bs → packet_path path = true → Path_wf path →
    verify_non_membership cs prefix proof (block_root b) path = Ok tt →
    view_value (block_view b) path = None;
}.

(** The identifiers of a packet are valid, and its sequence number is one. *)
Definition named_packet `{Unicode, TmTime} (p : Packet) : Prop :=
  port_ok (port_id_on_a p) ∧ channel_ok (chan_id_on_a p)
  ∧ port_ok (port_id_on_b p) ∧ channel_ok (chan_id_on_b p) ∧ is_u64 (seq_on_a p).

Section follows.
Context `{Unicode, TmTime, !ChainTypes, lc : !LightClient, !Codec, !Sha256}.
Context (good : ClientState → Prop) (prefix : CommitmentPrefix) (bs : list block).
Context (port : PortId) (chan : ChannelId).

(** The client behind a channel end is of the right kind, and has the headers of blocks of
    [bs] and no others. *)
Definition follows (s : IbcStore) : Prop :=
  ∀ c conn, pc_get (channels s) port chan = Some c → first_hop s (chan_connection_hops c) conn →
    cpty_prefix (conn_counterparty conn) = prefix
    ∧ (∀ cs, client_state s (conn_client_id conn) = Ok cs → good cs)
    ∧ ∀ h cons, consensus_state s (mkClientConsensusStatePath (conn_client_id conn)
                  (height_revision_number h) (revision_height h)) = Ok cons →
        ∃ b, b ∈ bs ∧ block_height b = h ∧ block_root b = cons_root cons
          ∧ block_time b = cons_timestamp cons.

Lemma follows_active (host : Host) s c hop rest conn h cs cons :
  follows s → pc_get (channels s) port chan = Some c →
  chan_connection_hops c = hop :: rest → connections s !! hop = Some conn →
  active_client_at s (conn_client_id conn) h = Ok (cs, cons) →
  good cs ∧ cpty_prefix (conn_counterparty conn) = prefix
  ∧ ∃ b, b ∈ bs ∧ block_height b = h ∧ block_root b = cons_root cons
      ∧ block_time b = cons_timestamp cons.
Proof.
  intros Hf Hc Hh Hconn Ha. destruct (Hf c conn Hc) as (Hp & Hg & Hb); [by do 2 eexists|].
  unfold active_client_at in Ha. inv_ok. split_and!; [by apply Hg|done|by apply Hb].
Qed.

(** A proof of a value, accepted on the channel end. *)
Lemma follows_value `{!FaithfulProofs good prefix bs} (host : Host) s c hop rest conn proof h path value :
  follows s → pc_get (channels s) port chan = Some c →
  chan_connection_hops c = hop :: rest → connections s !! hop = Some conn →
  packet_path path = true → Path_wf path → proven_value s conn proof h path value →
  ∃ b, b ∈ bs ∧ view_value (block_view b) path = Some value.
Proof.
  intros Hf Hc Hh Hconn Hp Hwf (cs & cons & Ha & Hm).
  destruct (follows_active _ _ _ _ _ _ _ _ _ Hf Hc Hh Hconn Ha) as (Hg & <- & b & Hb & _ & Er & _).
  exists b. split; [done|]. rewrite <- Er in Hm. by eapply faithful_present.
Qed.
End follows.

(** An end that names its counterparty is determined by its encoding. *)
Lemma named_end_encoding `{TmTime, !Codec, !CodecLaws} c1 c2 i :
  rem_channel_id (chan_remote c1) = Some i → channel_id_str i ≠ ""%string →
  ChannelEnd_encode_vec c2 = ChannelEnd_encode_vec c1 → c2 = c1.
Proof.
  intros Hi Hne E%encode_channel_end_inj. apply ChannelEnd_into_inj; [| |done].
  - intros j Hj ?. apply Hne.
    apply (f_equal (λ x, raw_rem_channel_id <$> raw_chan_counterparty x)) in E. cbn in E.
    rewrite Hi, Hj in E. congruence.
  - intros j Hj. rewrite Hi in Hj. by injection Hj as <-.
Qed.

(** ** What one chain learns of the other *)

Section learned.
Context `{Unicode, TmTime, !ChainTypes, !LightClient, !Codec, !CodecLaws, !Sha256, !ClientFrame}.
Context {App : Type} `{!Module App} (r : MockRouter App).
Context (good : ClientState → Prop) (prefix : CommitmentPrefix) (peer : list block).
Context (port : PortId) (chan : ChannelId) `{!FaithfulProofs good prefix peer}.
Notation following := (follows good prefix peer port chan).
Notation alive := (life (λ _ st _ _, following st.1) r).

(** The peer has an end of the given order for the packets of this channel end. *)
Definition peer_end (order : Order) (remote : PortId * ChannelId) : Prop :=
  ∃ b c, b ∈ peer ∧ pc_get (pv_channels (block_view b)) remote.1 remote.2 = Some c
    ∧ chan_state c ≠ ChanInit ∧ chan_ordering c = order
    ∧ chan_remote c = mkChanCounterparty port (Some chan).

Lemma proven_end_peer (host : Host) s c hop rest conn proof h p i st order hops v :
  following s → pc_get (channels s) port chan = Some c → channel_id_str chan ≠ ""%string →
  chan_connection_hops c = hop :: rest → connections s !! hop = Some conn → st ≠ ChanInit →
  port_ok p ∧ channel_ok i →
  proven_end s conn proof h p i
    (mkChannelEnd st order (mkChanCounterparty port (Some chan)) hops v) →
  peer_end order (p, i).
Proof.
  intros Hf Hc Hne Hh Hconn Hst Hok Hp.
  destruct (follows_value good prefix peer port chan host s c hop rest conn proof h
    (PathChannelEnd (mkChannelEndPath p i)) _ Hf Hc Hh Hconn eq_refl Hok Hp) as (b & Hb & Hv).
  cbn in Hv. destruct (pc_get _ p i) as [c'|] eqn:Ec; [|done]. injection Hv as Hv.
  apply (named_end_encoding _ _ chan) in Hv as ->; [|done..]. by do 2 eexists.
Qed.

(** A channel message that leaves this end open found it open or opened it with a proof
    of the peer's end. *)
Lemma channel_opened (host : Host) s (a : App) msg s' a' c :
  following s → chans_inv (connections s) (channel_ids_counter s) (channels s) →
  channel_validate s a msg = Ok tt → channel_execute msg (s, a) = ((s', a'), Ok tt) →
  pc_get (channels s') port chan = Some c → chan_state c = ChanOpen →
  pc_get (channels s) port chan = Some c
  ∨ ∀ p i, chan_remote c = mkChanCounterparty p (Some i) → port_ok p ∧ channel_ok i →
      peer_end (chan_ordering c) (p, i).
Proof.
  intros Hf Hinv Hv Hx Hc Ho. pose proof (channel_refines _ _ _ _ _ _ Hv Hx) as (Ht & _). cbn in Ht.
  clear Hx. revert Ht Hv Hc. generalize (channels s') as m', (channel_ids_counter s') as n'.
  intros m' n' Ht. destruct Ht as [| |m c0 hop conn Hc0|m c0 hop conn Hc0| |]; intros Hv Hc;
    rewrite pc_get_insert in Hc; case_decide as Hd; try (by left);
    destruct Hd as [Hd1 Hd2]; injection Hc as <-; try discriminate Ho.
  - right.
    unfold channel_validate, chan_open_ack_validate in Hv. apply bind_Ok in Hv as (? & Hv & _).
    apply chan_open_ack_check_Ok in Hv as (c1 & hop1 & conn1 & i & Hg & _ & Hh & Hconn & _ & _ & Hp).
    rewrite Hc0 in Hg. injection Hg as <-. rewrite Hd1, Hd2 in *.
    intros p j [= <- <-] Hok. eapply proven_end_peer; [..|exact Hp]; try done.
    by eapply chans_inv_named.
  - right.
    unfold channel_validate, chan_open_confirm_validate in Hv. apply bind_Ok in Hv as (? & Hv & _).
    apply chan_open_confirm_check_Ok in Hv
      as (c1 & hop1 & conn1 & rem & i & Hg & _ & Hh & Hconn & _ & Hrem & _ & Hp).
    rewrite Hc0 in Hg. injection Hg as <-. rewrite Hd1, Hd2 in *.
    cbn. intros p j Er Hok. rewrite Er in Hrem, Hp. injection Hrem as <-.
    eapply proven_end_peer; [..|exact Hp]; try done. by eapply chans_inv_named.
Qed.

(** An open end was agreed on with the peer. *)
Lemma open_end_agreed bs os st c :
  alive bs os st → pc_get (channels st.1) port chan = Some c → chan_state c = ChanOpen →
  ∀ p i, chan_remote c = mkChanCounterparty p (Some i) → port_ok p ∧ channel_ok i →
  peer_end (chan_ordering c) (p, i).
Proof.
  intros Hl. revert c. induction Hl as [|bs os st b _ IH|host bs b os st o st' Hl IH _ _ Hf Hs].
  - intros c Hc. cbn in Hc. unfold pc_get in Hc. by rewrite lookup_empty in Hc.
  - done.
  - intros c Hc Ho. pose proof (chain_run_inv _ _ _ (life_run _ _ _ _ _ Hl)) as [_ _ Hinv _].
    destruct Hs as [msg s r0 st' Hd|p s r0 s1 s' r' Hx Hss|s r0 s' r' Hss]; cbn in *.
    2: { destruct (app_send_refines _ _ _ _ _ _ Hx Hss) as (Ht & _). apply IH; [|done].
         by assert (channels s' = channels s) as <- by (by inversion Ht). }
    2: { destruct Hss as (_ & _ & (Ech & _) & _). apply IH; [|done]. by rewrite <- Ech. }
    apply dispatch_Ok in Hd. destruct msg as [m|m|m|m].
    + destruct Hd as (_ & s' & Hx & ->).
      destruct (client_refines _ _ _ _ Hx) as (id & _ & (Ech & _) & _). apply IH; [|done].
      by rewrite <- Ech.
    + destruct Hd as (Hv & s' & Hx & ->).
      destruct (connection_refines _ _ _ _ _ Hv Hx) as (_ & _ & (Ech & _) & _). apply IH; [|done].
      by rewrite <- Ech.
    + destruct Hd as (i & a & s' & a' & _ & Hv & Hx & ->).
      destruct (channel_opened host s a m s' a' c) as [?|?]; try done. by apply IH.
    + destruct Hd as (i & a & s' & a' & _ & Hv & Hx & ->). apply IH; [|done].
      destruct (packet_refines _ _ _ _ _ _ Hv Hx) as (acted & Ht & _). cbn in Ht, Hc.
      change (channels s') with (pv_channels (view s')) in Hc.
      change (channels s) with (pv_channels (view s)). revert Ht Hc. generalize (view s') as v'.
      intros v' Ht. destruct Ht as [| | | | |t c0 order cm p Hc0]; try done.
      cbn. destruct order; try done. rewrite pc_get_insert. case_decide as Hd; [|done].
      by intros [= <-].
Qed.

Lemma acts_committed s msg :
  acts s msg = true → (∀ m, msg ≠ PktRecv m) → ∃ cm, commitment_at (view s) (packet_of msg) = Some cm.
Proof.
  intros Ha Hn.
  assert (is_ok (get_packet_commitment s (commitment_path_on_a (packet_of msg))) = true) as Hc.
  { by destruct msg as [m|m|m|m]; [by destruct (Hn m)|..]. }
  rewrite get_packet_commitment_get in Hc. destruct (commitment_at _ _) as [cm|]; [by exists cm|done].
Qed.

(** A packet delivered here is one the peer has committed to. *)
Lemma delivered_committed bs os st m :
  let p := recv_packet m in
  alive bs os st → Acted (PktRecv m) ∈ os → key_on_b p = (port, chan) → named_packet p →
  (∃ order, peer_end order (key_on_a p))
  ∧ ∃ b cm, b ∈ peer ∧ packet_commitment_of p = Ok cm ∧ commitment_at (block_view b) p = Some cm.
Proof.
  intros p Hl Hin [= Hp1 Hp2] (Na1 & Na2 & Nb1 & Nb2 & Ns).
  destruct (life_acted _ _ _ _ _ _ Hl Hin) as (host & bs1 & os1 & s & r1 & a & Hl1 & (o1 & st1 & Hf) & Hv & _).
  cbn [packet_validate] in Hv. apply recv_packet_check_Ok in Hv as (c & conn & hop & rest & cm & lh
    & lt & Hc & Ho & Hfrom & Hh & Hconn & _ & _ & _ & _ & _ & Hcm & Hm & _).
  unfold chan_at_b in Hc. cbn in Hc. fold p in Hc, Hcm, Hm. rewrite Hp1, Hp2 in Hc. split.
  { exists (chan_ordering c). by apply (open_end_agreed _ _ _ _ Hl1 Hc Ho _ _ Hfrom). }
  destruct (follows_value good prefix peer port chan host s c hop rest conn _ _
    (PathCommitment (commitment_path_on_a p)) _ Hf Hc Hh Hconn eq_refl (conj Na1 (conj Na2 Ns)) Hm) as (b & Hb & Hval).
  exists b, cm. split_and!; [done..|]. unfold commitment_at. cbn in Hval.
  destruct (pcs_get _ _ _ _) as [[x]|]; [|done]. destruct cm as [y]. cbn in Hval. congruence.
Qed.

(** A packet acknowledged here has an acknowledgement on the peer, which is the one of the
    message up to its hash. *)
Lemma acknowledged_written bs os st m :
  let p := ack_packet m in
  alive bs os st → Acted (PktAck m) ∈ os → key_on_a p = (port, chan) → named_packet p →
  (∃ order, peer_end order (key_on_b p))
  ∧ ∃ b, b ∈ peer ∧ pcs_get (pv_acks (block_view b)) (port_id_on_b p) (chan_id_on_b p) (seq_on_a p)
      = Some (compute_ack_commitment (ack_acknowledgement m)).
Proof.
  intros p Hl Hin [= Hp1 Hp2] (Na1 & Na2 & Nb1 & Nb2 & Ns).
  destruct (life_acted _ _ _ _ _ _ Hl Hin) as (host & bs1 & os1 & s & r1 & a & Hl1 & (o1 & st1 & Hf) & Hv & Ha & _).
  apply acts_committed in Ha as [cm Hcm]; [|done]. cbn [packet_of] in Hcm. fold p in Hcm.
  cbn [packet_validate] in Hv. unfold acknowledgement_packet_validate in Hv.
  apply bind_Ok in Hv as (? & Hv & _).
  apply acknowledgement_check_Ok in Hv as (c & conn & hop & rest & Hc & Ho & Ht & Hh & Hconn & Hall).
  destruct (Hall cm Hcm) as (_ & _ & Hm). unfold chan_at_a in Hc. cbn in Hc. fold p in Hc, Hm, Ht.
  rewrite Hp1, Hp2 in Hc. split.
  - exists (chan_ordering c). by apply (open_end_agreed _ _ _ _ Hl1 Hc Ho _ _ Ht).
  - destruct (follows_value good prefix peer port chan host s c hop rest conn _ _
      (PathAck (mkAckPath (port_id_on_b p) (chan_id_on_b p) (seq_on_a p))) _ Hf Hc Hh Hconn eq_refl
      (conj Nb1 (conj Nb2 Ns)) Hm) as (b & Hb & Hval).
    exists b. split; [done|]. cbn in Hval. destruct (pcs_get _ _ _ _) as [[y]|]; [|done].
    cbn in Hval. by injection Hval as ->.
Qed.

(** The packet state shows that a packet was not received. *)
Definition unreceived (v : PacketView) (order : Order) (p : Packet) : Prop :=
  match order with
  | Unordered => pcs_get (pv_receipts v) (port_id_on_b p) (chan_id_on_b p) (seq_on_a p) = None
  | Ordered => to_be_bytes <$> pc_get (pv_recv v) (port_id_on_b p) (chan_id_on_b p)
      = Some (to_be_bytes (seq_on_a p))
  | OrderNone => False
  end.

(** A packet timed out here had expired in a block of the peer that has not received it. *)
Lemma timed_out_unreceived bs os st m :
  let p := to_packet m in
  alive bs os st → Acted (PktTimeout m) ∈ os → key_on_a p = (port, chan) → named_packet p →
  ∃ order b, peer_end order (key_on_b p) ∧ b ∈ peer
    ∧ timed_out p (block_time b) (block_height b) = true ∧ unreceived (block_view b) order p.
Proof.
  intros p Hl Hin [= Hp1 Hp2] (Na1 & Na2 & Nb1 & Nb2 & Ns).
  destruct (life_acted _ _ _ _ _ _ Hl Hin) as (host & bs1 & os1 & s & r1 & a & Hl1 & (o1 & st1 & Hf) & Hv & Ha & _).
  apply acts_committed in Ha as [cm Hcm]; [|done]. cbn [packet_of] in Hcm. fold p in Hcm.
  cbn [packet_validate] in Hv. unfold timeout_packet_validate in Hv.
  apply bind_Ok in Hv as (? & Hv & _).
  apply timeout_check_Ok in Hv as (c & conn & hop & rest & Hc & Ho & Ht & Hh & Hconn & Hall).
  destruct (Hall cm Hcm) as (_ & (cs & cons & Hact & Hto) & (cs' & cons' & Hact' & Hun)).
  rewrite Hact in Hact'. injection Hact' as <- <-.
  unfold chan_at_a in Hc. cbn in Hc. fold p in Hc, Hto, Hun, Ht. rewrite Hp1, Hp2 in Hc.
  destruct (follows_active good prefix peer port chan host s c hop rest conn _ cs cons Hf Hc Hh Hconn Hact)
    as (Hg & Hpre & b & Hb & Ehb & Erb & Etb).
  exists (chan_ordering c), b. rewrite Ehb, Etb. split_and!; [|done|done|].
  - by apply (open_end_agreed _ _ _ _ Hl1 Hc Ho _ _ Ht).
  - rewrite Hpre, <- Erb in Hun. unfold unreceived. destruct (chan_ordering c); [done|..].
    + apply faithful_absent in Hun; [|done..]. cbn in Hun. by destruct (pcs_get _ _ _ _).
    + by apply faithful_present in Hun.
Qed.

(** A packet timed out here because the channel was closed: a block of the peer has the end
    closed and has not received the packet. *)
Lemma closed_unreceived bs os st m :
  let p := toc_packet m in
  alive bs os st → Acted (PktTimeoutOnClose m) ∈ os → key_on_a p = (port, chan) → named_packet p →
  ∃ b c, b ∈ peer ∧ chan_at_b (block_view b) p = Some c ∧ chan_state c = ChanClosed
    ∧ chan_remote c = mkChanCounterparty port (Some chan)
    ∧ unreceived (block_view b) (chan_ordering c) p.
Proof.
  intros p Hl Hin [= Hp1 Hp2] (Na1 & Na2 & Nb1 & Nb2 & Ns).
  destruct (life_acted _ _ _ _ _ _ Hl Hin) as (host & bs1 & os1 & s & r1 & a & Hl1 & (o1 & st1 & Hf) & Hv & Ha & _).
  apply acts_committed in Ha as [cm Hcm]; [|done]. cbn [packet_of] in Hcm. fold p in Hcm.
  cbn [packet_validate] in Hv. unfold timeout_packet_validate in Hv.
  apply bind_Ok in Hv as (? & Hv & _). apply timeout_on_close_check_Ok in Hv as (c & Hc & _ & Hall).
  destruct (Hall cm Hcm) as (_ & conn & hop & rest & i & Hh & Hconn & _ & (cs & cons & Hact & Hend) & (cs' & cons' & Hact' & Hun)).
  rewrite Hact in Hact'. injection Hact' as <- <-.
  unfold chan_at_a in Hc. cbn in Hc. fold p in Hc, Hend, Hun. rewrite Hp1, Hp2 in Hc, Hend.
  destruct (follows_active good prefix peer port chan host s c hop rest conn _ cs cons Hf Hc Hh Hconn Hact)
    as (Hg & Hpre & b & Hb & _ & Erb & _).
  rewrite Hpre, <- Erb in Hend, Hun. apply faithful_present in Hend; [|done..]. cbn in Hend.
  unfold chan_at_b. destruct (pc_get (pv_channels (block_view b)) _ _) as [c'|] eqn:Ec; [|done].
  injection Hend as Hend. apply (named_end_encoding _ _ chan) in Hend as ->; [|done|].
  2: { pose proof (chain_run_inv _ _ _ (life_run _ _ _ _ _ Hl1)) as [_ _ Hinv _]. by eapply chans_inv_named. }
  eexists b, _. split_and!; try done. cbn. unfold unreceived. destruct (chan_ordering c); [done|..].
  - apply faithful_absent in Hun; [|done..]. cbn in Hun. by destruct (pcs_get _ _ _ _).
  - by apply faithful_present in Hun.
Qed.
End learned.

(** ** What a chain shows in its blocks *)

Section shown.
Context `{TmTime, !ChainTypes, !LightClient, !Codec, !Sha256, !ClientFrame}.
Context {App : Type} `{!Module App}.
Context (G : Host → chain (App:=App) → list obs → chain (App:=App) → Prop) (r : MockRouter App).
Context (bs : list block) (os : list obs) (st : chain (App:=App)) (Hl : life G r bs os st).

(** The sequence numbers of a kind on an end are those of observations of that kind. *)
Lemma elem_of_seqs_at kind p c l n :
  n ∈ seqs_at kind p c l ↔ ∃ o pkt, o ∈ l ∧ kind o = Some ((p, c), pkt) ∧ seq_on_a pkt = n.
Proof.
  unfold seqs_at. rewrite list_elem_of_omap. split.
  - intros (o & Ho & E). destruct (kind o) as [[k pkt]|] eqn:Ek; [|done]. cbn in E.
    case_decide; [|done]. simplify_eq. by exists o, pkt.
  - intros (o & pkt & Ho & Ek & <-). exists o. split; [done|]. rewrite Ek. cbn. by rewrite decide_True.
Qed.

Lemma seqs_at_unique kind p c l o1 o2 pkt1 pkt2 :
  base.NoDup (seqs_at kind p c l) → o1 ∈ l → o2 ∈ l →
  kind o1 = Some ((p, c), pkt1) → kind o2 = Some ((p, c), pkt2) → seq_on_a pkt1 = seq_on_a pkt2 →
  o1 = o2.
Proof.
  intros Hnd H1' H2' E1 E2 Es. induction l as [|o l IH]; [by apply not_elem_of_nil in H1'|].
  change (o :: l) with ([o] ++ l)%list in Hnd. rewrite seqs_at_app in Hnd.
  apply list.NoDup_app in Hnd as (_ & Hd & Hnd).
  assert (∀ o' pkt', o' ∈ l → kind o' = Some ((p, c), pkt') → kind o = Some ((p, c), pkt1) ∨
    kind o = Some ((p, c), pkt2) → seq_on_a pkt' = seq_on_a pkt1 → False) as Hno.
  { intros o' pkt' Hin Ek Hk Hs. apply (Hd (seq_on_a pkt')).
    - apply elem_of_seqs_at. destruct Hk as [Hk|Hk]; do 2 eexists; (split; [by apply list_elem_of_singleton|]);
        (split; [done|]); congruence.
    - apply elem_of_seqs_at. by exists o', pkt'. }
  apply elem_of_cons in H1' as [->|H1'], H2' as [->|H2']; [done|exfalso..|by apply IH].
  - by eapply (Hno o2 pkt2); eauto.
  - by eapply (Hno o1 pkt1); eauto.
Qed.

Lemma life_inv : store_inv st.1 os.
Proof. by eapply chain_run_inv, life_run. Qed.

(** A packet is sent once under its identifiers. *)
Lemma sent_unique q q' :
  Sent q ∈ os → Sent q' ∈ os → key_on_a q = key_on_a q' → seq_on_a q = seq_on_a q' → q = q'.
Proof.
  intros Hq Hq' Hk Hs. assert (Sent q = Sent q') as [= ?]; [|done].
  eapply (seqs_at_unique sending (port_id_on_a q) (chan_id_on_a q) os); try done.
  2: by cbn; rewrite <- Hk.
  destruct life_inv as [_ _ _ [Hh _]]. specialize (Hh (port_id_on_a q) (chan_id_on_a q)).
  unfold chan_hist in Hh. destruct (pc_get _ _ _) as [c|].
  - destruct Hh as [(k & _ & _ & ->) _ _ _ _ _ _]. apply NoDup_upto.
  - destruct Hh as [-> _ _ _ _ _]. constructor.
Qed.

(** A committed packet was sent. *)
Lemma committed_sent b p cm :
  b ∈ bs → commitment_at (block_view b) p = Some cm →
  ∃ q, Sent q ∈ os ∧ key_on_a q = key_on_a p ∧ seq_on_a q = seq_on_a p ∧ packet_commitment_of q = Ok cm.
Proof.
  intros Hb Hc. destruct (life_history _ _ _ _ _ _ Hl Hb) as [Hh _].
  specialize (Hh (port_id_on_a p) (chan_id_on_a p)). unfold chan_hist in Hh.
  destruct (pc_get _ _ _) as [c|].
  - destruct Hh as [_ _ _ _ _ _ U]. apply U in Hc as [(q & Hq & ? & ? & ?) _].
    exists q. split; [by eapply life_log|done].
  - destruct Hh as [_ _ _ _ _ U]. destruct (U (seq_on_a p)) as (_ & E & _).
    unfold commitment_at in Hc. by rewrite E in Hc.
Qed.

(** A packet with an acknowledgement was delivered. *)
Lemma written_delivered b p c n ack :
  b ∈ bs → pcs_get (pv_acks (block_view b)) p c n = Some ack →
  ∃ m, Acted (PktRecv m) ∈ os ∧ key_on_b (recv_packet m) = (p, c) ∧ seq_on_a (recv_packet m) = n.
Proof.
  intros Hb Ha. destruct (life_history _ _ _ _ _ _ Hl Hb) as [Hh _].
  specialize (Hh p c). unfold chan_hist in Hh. destruct (pc_get _ _ _) as [ch|].
  - destruct Hh as [_ _ U _ _ _ _].
    destruct (proj1 (elem_of_seqs_at delivery p c (block_log b) n)) as (o & pkt & Ho & Ek & Hn).
    { apply U. by eexists. }
    destruct o as [|[m|m|m|m]]; try done. cbn in Ek. injection Ek as ? ? <-. exists m.
    split_and!; [by eapply life_log|unfold key_on_b; congruence|done].
  - destruct Hh as [_ _ _ _ _ U]. destruct (U n) as (E & _). by rewrite E in Ha.
Qed.

(** A resolved packet was sent as it is, up to its commitment. *)
Lemma resolved_sent msg :
  Acted msg ∈ os → (∀ m, msg ≠ PktRecv m) →
  ∃ q cm, Sent q ∈ os ∧ key_on_a q = key_on_a (packet_of msg)
    ∧ seq_on_a q = seq_on_a (packet_of msg) ∧ packet_commitment_of q = Ok cm
    ∧ packet_commitment_of (packet_of msg) = Ok cm.
Proof.
  intros Hin Hn. destruct life_inv as [_ _ _ [_ Hr]].
  destruct (Hr (Acted msg) (key_on_a (packet_of msg)) (packet_of msg) Hin) as (cm & ? & q & ? & ? & ? & ?).
  { by destruct msg as [m|m|m|m]; [by destruct (Hn m)|..]. }
  by exists q, cm.
Qed.
End shown.

(** ** Deliveries *)

Section deliveries.
Context `{TmTime, !ChainTypes, !LightClient, !Codec, !Sha256, !ClientFrame}.
Context {App : Type} `{!Module App}.

(** Receive counters stay within 64 bits. *)
Definition recv_u64 (m : PortChannelIdMap Sequence) : Prop :=
  ∀ p c n, pc_get m p c = Some n → is_u64 n.

Lemma recv_u64_insert m p c n : recv_u64 m → is_u64 n → recv_u64 (pc_insert p c n m).
Proof.
  intros Hm Hn p' c' n'. rewrite pc_get_insert. case_decide; [by intros [= <-]|apply Hm].
Qed.

Lemma chain_step_recv_u64 (st st' : chain (App:=App)) o :
  chain_step st o st' → recv_u64 (next_sequence_recv st.1) → recv_u64 (next_sequence_recv st'.1).
Proof.
  intros Hs Hu. destruct Hs as [host Hs].
  destruct Hs as [msg s r st' Hd|p s r s1 s' r' Hx Hss|s r s' r' Hss]; cbn in *.
  2: { destruct (app_send_refines _ _ _ _ _ _ Hx Hss) as (Ht & _).
       by assert (next_sequence_recv s' = next_sequence_recv s) as -> by (by inversion Ht). }
  2: { destruct Hss as (_ & _ & _ & (_ & Er & _)). by rewrite Er. }
  apply dispatch_Ok in Hd. destruct msg as [m|m|m|m].
  - destruct Hd as (_ & s' & Hx & ->).
    destruct (client_refines _ _ _ _ Hx) as (id & _ & _ & (_ & Er & _) & _). cbn. by rewrite Er.
  - destruct Hd as (Hv & s' & Hx & ->).
    destruct (connection_refines _ _ _ _ _ Hv Hx) as (_ & _ & _ & (_ & Er & _) & _). cbn. by rewrite Er.
  - destruct Hd as (i & a & s' & a' & _ & Hv & Hx & ->).
    destruct (channel_refines _ _ _ _ _ _ Hv Hx) as (_ & Hseq & _). cbn in *.
    unfold chan_sequences in Hseq. destruct (created_port m); destruct Hseq as (_ & Er & _); rewrite Er; [|done].
    by apply recv_u64_insert.
  - destruct Hd as (i & a & s' & a' & _ & Hv & Hx & ->).
    destruct (packet_refines _ _ _ _ _ _ Hv Hx) as (acted & Ht & _). cbn in Ht |- *.
    change (next_sequence_recv s') with (pv_recv (view s')).
    change (next_sequence_recv s) with (pv_recv (view s)) in Hu. revert Ht. generalize (view s') as v'.
    intros v' Ht. destruct Ht as [|msg c order ack p _ _ _ _ _ _ Hn _| | | |]; try done.
    cbn. destruct order; try done. apply recv_u64_insert; [done|]. by apply Hn.
Qed.

Lemma chain_run_recv_u64 (r : MockRouter App) os st :
  chain_run (genesis r) os st → recv_u64 (next_sequence_recv st.1).
Proof.
  induction 1 as [|os st1 o st2 Hrun IH Hs]; [|by eapply chain_step_recv_u64].
  intros p c n. cbn. unfold pc_get. by rewrite lookup_empty.
Qed.

Context (G : Host → chain (App:=App) → list obs → chain (App:=App) → Prop) (r : MockRouter App).
Context (bs : list block) (os : list obs) (st : chain (App:=App)) (Hl : life G r bs os st).

(** A block that has not received a packet, on an end of the same order, has no delivery of it
    in its log. *)
Lemma unreceived_log b c p m :
  b ∈ bs → pc_get (channels st.1) (port_id_on_b p) (chan_id_on_b p) = Some c →
  unreceived (block_view b) (chan_ordering c) p →
  key_on_b (recv_packet m) = key_on_b p → seq_on_a (recv_packet m) = seq_on_a p →
  Acted (PktRecv m) ∉ block_log b.
Proof.
  intros Hb Hc Hun Hk Hs Hin.
  assert (seq_on_a p ∈ seqs_at delivery (port_id_on_b p) (chan_id_on_b p) (block_log b)) as Hd.
  { apply elem_of_seqs_at. exists (Acted (PktRecv m)), (recv_packet m). cbn. by rewrite Hk, Hs. }
  destruct (life_history _ _ _ _ _ _ Hl Hb) as [Hh _].
  specialize (Hh (port_id_on_b p) (chan_id_on_b p)). unfold chan_hist in Hh.
  destruct (pc_get (pv_channels _) _ _) as [ch|] eqn:Ech.
  2: { destruct Hh as [_ _ E _ _ _]. rewrite E in Hd. by apply not_elem_of_nil in Hd. }
  destruct (life_ends _ _ _ _ _ _ Hl Hb _ _ _ Ech) as (c' & Hc' & _ & Eo & _).
  rewrite Hc in Hc'. injection Hc' as <-. rewrite Eo in Hun.
  destruct Hh as [_ U2 _ _ _ _ _]. unfold unreceived in Hun. destruct (chan_ordering ch); [done| |].
  - apply U2 in Hd. rewrite Hun in Hd. by destruct Hd.
  - destruct U2 as (k & Hk' & _ & E). rewrite E in Hd. apply elem_of_upto in Hd as [_ Hd].
    rewrite Hk' in Hun. apply (inj Some) in Hun.
    assert (is_u64 k) as Hu.
    { destruct (life_past _ _ _ _ _ _ Hl Hb) as (_ & st1 & Ev & Hr & _). rewrite Ev in Hk'.
      by eapply chain_run_recv_u64. }
    apply to_be_bytes_inj in Hun; unfold is_u64 in *; lia.
Qed.

(** A packet is delivered from the source that its end names, if a block shows the end past
    [Init]. *)
Lemma delivered_source b c p m port chan :
  b ∈ bs → pc_get (pv_channels (block_view b)) (port_id_on_b p) (chan_id_on_b p) = Some c →
  chan_state c ≠ ChanInit → chan_remote c = mkChanCounterparty port (Some chan) →
  Acted (PktRecv m) ∈ os → key_on_b (recv_packet m) = key_on_b p →
  key_on_a (recv_packet m) = (port, chan).
Proof.
  intros Hb Hc Hst Hr Hin [= Ek1 Ek2].
  destruct (life_acted _ _ _ _ _ _ Hl Hin) as (host & bs1 & os1 & s & r1 & a & Hl1 & _ & Hv & _ & (os' & Hr') & _).
  cbn [packet_validate] in Hv. apply recv_packet_check_Ok in Hv as (c1 & conn & hop & rest & cm & lh
    & lt & Hc1 & Ho1 & Hf1 & _).
  unfold chan_at_b in Hc1. cbn in Hc1. rewrite Ek1, Ek2 in Hc1.
  destruct (life_ends _ _ _ _ _ _ Hl Hb _ _ _ Hc) as (c2 & Hc2 & _ & _ & _ & _ & E2 & _).
  destruct (chain_run_evolves r os1 (s, r1) os' st (life_run _ _ _ _ _ Hl1) Hr' _ _ _ Hc1)
    as (c3 & Hc3 & _ & _ & _ & _ & E3 & _).
  rewrite Hc2 in Hc3. injection Hc3 as <-. destruct (E2 Hst) as [E2' _].
  destruct E3 as [E3' _]; [by rewrite Ho1|]. unfold from_a in Hf1. unfold key_on_a. congruence.
Qed.

(** A packet that had expired in a block that has not received it is never delivered. *)
Lemma expired_undelivered b c p m :
  b ∈ bs → pc_get (channels st.1) (port_id_on_b p) (chan_id_on_b p) = Some c →
  unreceived (block_view b) (chan_ordering c) p →
  timed_out p (block_time b) (block_height b) = true →
  Acted (PktRecv m) ∈ os → recv_packet m ≠ p.
Proof.
  intros Hb Hc Hun Hto Hin <-.
  destruct (life_acted _ _ _ _ _ _ Hl Hin) as (host & bs1 & os1 & s & r1 & a & _ & _ & Hv & _ & _ & Hbs).
  destruct (Hbs b Hb) as [Hlog|(_ & ts & h & Hts & Hh & Hle)].
  { by apply (unreceived_log b c (recv_packet m) m). }
  by apply (recv_expired s m _ _ ts h Hts Hh Hle Hto).
Qed.

(** A packet that a block with its end closed has not received is never delivered. *)
Lemma closed_undelivered b c p m :
  b ∈ bs → chan_at_b (block_view b) p = Some c → chan_state c = ChanClosed →
  unreceived (block_view b) (chan_ordering c) p → Acted (PktRecv m) ∈ os →
  key_on_b (recv_packet m) = key_on_b p → seq_on_a (recv_packet m) ≠ seq_on_a p.
Proof.
  intros Hb Hc Hcl Hun Hin Hk Hs.
  destruct (life_ends _ _ _ _ _ _ Hl Hb _ _ _ Hc) as (c' & Hc' & _ & Eo & _).
  destruct (life_acted _ _ _ _ _ _ Hl Hin) as (host & bs1 & os1 & s & r1 & a & Hl1 & _ & Hv & _ & _ & Hbs).
  destruct (Hbs b Hb) as [Hlog|[Hb1 _]].
  { apply (unreceived_log b c' p m); try done. by rewrite Eo. }
  destruct (life_ends _ _ _ _ _ _ Hl1 Hb1 _ _ _ Hc) as (c1 & Hc1 & _ & _ & _ & _ & _ & Ecl).
  rewrite Hcl in Ecl. cbn [packet_validate] in Hv.
  apply recv_packet_check_Ok in Hv as (c2 & conn & hop & rest & cm & lh & lt & Hc2 & Ho2 & _).
  injection Hk as Hk1 Hk2. unfold chan_at_b in Hc2. rewrite Hk1, Hk2 in Hc2. cbn in Hc1, Hc2.
  rewrite Hc1 in Hc2. injection Hc2 as <-. rewrite Ecl in Ho2 by done. congruence.
Qed.
End deliveries.

(** ** Sendings *)

Section sendings.
Context `{TmTime, !ChainTypes, !LightClient, !Codec, !Sha256, !ClientFrame}.
Context {App : Type} `{!Module App}.

(** An end in [Init] does not know the channel of its counterparty. *)
Definition init_unnamed (m : PortChannelIdMap ChannelEnd) : Prop :=
  ∀ p i c, pc_get m p i = Some c → chan_state c = ChanInit → rem_channel_id (chan_remote c) = None.

Lemma init_unnamed_insert m p i c :
  init_unnamed m → (chan_state c = ChanInit → rem_channel_id (chan_remote c) = None) →
  init_unnamed (pc_insert p i c m).
Proof.
  intros Hm Hc p' i' c'. rewrite pc_get_insert. case_decide; [by intros [= <-]|apply Hm].
Qed.

Lemma chain_step_init_unnamed (st st' : chain (App:=App)) o :
  chain_step st o st' → init_unnamed (channels st.1) → init_unnamed (channels st'.1).
Proof.
  intros Hs Hu. destruct Hs as [host Hs].
  destruct Hs as [msg s r st' Hd|p s r s1 s' r' Hx Hss|s r s' r' Hss]; cbn in *.
  2: { destruct (app_send_refines _ _ _ _ _ _ Hx Hss) as (Ht & _).
       by assert (channels s' = channels s) as -> by (by inversion Ht). }
  2: { destruct Hss as (_ & _ & (Ech & _) & _). by rewrite Ech. }
  apply dispatch_Ok in Hd. destruct msg as [m|m|m|m].
  - destruct Hd as (_ & s' & Hx & ->).
    destruct (client_refines _ _ _ _ Hx) as (id & _ & (Ec & _) & _). cbn. by rewrite Ec.
  - destruct Hd as (Hv & s' & Hx & ->).
    destruct (connection_refines _ _ _ _ _ Hv Hx) as (_ & _ & (Ec & _) & _). cbn. by rewrite Ec.
  - destruct Hd as (i & a & s' & a' & _ & Hv & Hx & ->).
    destruct (channel_refines _ _ _ _ _ _ Hv Hx) as (Ht & _). cbn in *. revert Ht.
    generalize (channels s') as m', (channel_ids_counter s') as n'. intros m' n' Ht.
    by destruct Ht; apply init_unnamed_insert.
  - destruct Hd as (i & a & s' & a' & _ & Hv & Hx & ->).
    destruct (packet_refines _ _ _ _ _ _ Hv Hx) as (acted & Ht & _). cbn in Ht |- *.
    change (channels s') with (pv_channels (view s')).
    change (channels s) with (pv_channels (view s)) in Hu. revert Ht. generalize (view s') as v'.
    intros v' Ht. destruct Ht as [| | | | |t c order cm p Hc]; try done.
    cbn. destruct order; try done. by apply init_unnamed_insert.
Qed.

Lemma chain_run_init_unnamed (r : MockRouter App) os st :
  chain_run (genesis r) os st → init_unnamed (channels st.1).
Proof.
  induction 1 as [|os st1 o st2 Hrun IH Hs]; [|by eapply chain_step_init_unnamed].
  intros p i c. cbn. unfold pc_get. by rewrite lookup_empty.
Qed.

(** A packet leaves towards the counterparty of its end. *)
Lemma chain_run_sent (r : MockRouter App) os st q :
  chain_run (genesis r) os st → Sent q ∈ os →
  ∃ c, chan_at_a (view st.1) q = Some c ∧ chan_state c ≠ ChanInit ∧ towards_b c q.
Proof.
  induction 1 as [|os st1 o st2 Hrun IH Hs]; intros Hin; [by apply not_elem_of_nil in Hin|].
  assert (∃ c, chan_at_a (view st1.1) q = Some c ∧ chan_state c ≠ ChanInit ∧ towards_b c q)
    as (c & Hc & Hst & Ht).
  { apply elem_of_app in Hin as [?|Hin]; [by apply IH|].
    pose proof (chain_run_init_unnamed _ _ _ Hrun) as Hu. destruct Hs as [host Hs].
    destruct Hs as [msg s r0 st2 Hd|p s r0 s1 s' r' Hx Hss|s r0 s' r' Hss].
    - destruct msg as [| | |m]; cbn in Hin; try (by apply not_elem_of_nil in Hin).
      by destruct (acts s m); [apply list_elem_of_singleton in Hin|apply not_elem_of_nil in Hin].
    - apply list_elem_of_singleton in Hin as [= ->].
      apply send_packet_refines in Hx as (Ht & _). destruct Ht as [c cm Hc _ Hto _ _ _].
      exists c. split_and!; [done| |done]. intros Hi. apply (Hu _ _ _ Hc) in Hi.
      unfold towards_b in Hto. by rewrite Hto in Hi.
    - by apply not_elem_of_nil in Hin. }
  destruct (chain_step_evolves _ _ _ _ Hs (chain_run_inv _ _ _ Hrun) _ _ _ Hc)
    as (c' & Hc' & Hle & _ & _ & _ & Hrem & _).
  exists c'. destruct (Hrem Hst) as [E _]. split_and!; [done| |by unfold towards_b; rewrite E].
  eapply evolves_past_init; [|done|done].
  by destruct (inv_channels _ _ (chain_run_inv _ _ _ Hrun) _ _ _ Hc) as (_ & Hu & _).
Qed.

(** The blocks and the sendings of a chain agree on the counterparty of an end. *)
Lemma sent_towards G (r : MockRouter App) bs os st b c q port chan :
  life G r bs os st → b ∈ bs → Sent q ∈ os → chan_at_a (block_view b) q = Some c →
  chan_state c ≠ ChanInit → chan_remote c = mkChanCounterparty port (Some chan) →
  key_on_b q = (port, chan).
Proof.
  intros Hl Hb Hq Hc Hst Hr. destruct (chain_run_sent _ _ _ _ (life_run _ _ _ _ _ Hl) Hq) as (c' & Hc' & _ & Ht).
  destruct (life_ends _ _ _ _ _ _ Hl Hb _ _ _ Hc) as (c2 & Hc2 & _ & _ & _ & _ & E & _).
  destruct (E Hst) as [E' _]. unfold chan_at_a in Hc'. cbn in Hc'. rewrite Hc2 in Hc'. simplify_eq.
  unfold towards_b in Ht. unfold key_on_b. congruence.
Qed.
End sendings.

(** ** Two chains that follow each other *)

Section two_chains.
Context `{Unicode, TmTime, !Codec, !CodecLaws, !Sha256}.

(** Two packets with the same identifiers, sequence number and commitment, which
    covers the data and the timeouts. *)
Definition same_packet (p q : Packet) : Prop :=
  key_on_a p = key_on_a q ∧ key_on_b p = key_on_b q ∧ seq_on_a p = seq_on_a q
  ∧ packet_commitment_of p = packet_commitment_of q.

(** Chain A, which sends, and chain B, which receives, each with its light clients and
    applications. *)
Context {types_a : ChainTypes} {client_a : @LightClient _ types_a}.
Context {frame_a : ClientFrame (H1:=client_a)} {app_a : Type} {module_a : Module app_a}.
Context {types_b : ChainTypes} {client_b : @LightClient _ types_b}.
Context {frame_b : ClientFrame (H1:=client_b)} {app_b : Type} {module_b : Module app_b}.

(** The lives of the two chains: the clients behind the two ends of a channel follow the
    blocks of the other chain, and proofs about those are faithful. *)
Record linked (good_a : @ClientState types_a → Prop) (good_b : @ClientState types_b → Prop)
    (prefix_a prefix_b : CommitmentPrefix) (end_a end_b : PortId * ChannelId)
    (bs_a bs_b : list block) (os_a os_b : list obs) : Prop := mkLinked {
  proofs_on_a : FaithfulProofs (lc:=client_a) good_a prefix_b bs_b;
  proofs_on_b : FaithfulProofs (lc:=client_b) good_b prefix_a bs_a;
  life_of_a : ∃ (router : MockRouter app_a) st,
    life (H1:=client_a) (λ _ st _ _, follows good_a prefix_b bs_b end_a.1 end_a.2 st.1) router bs_a os_a st;
  life_of_b : ∃ (router : MockRouter app_b) st,
    life (H1:=client_b) (λ _ st _ _, follows good_b prefix_a bs_a end_b.1 end_b.2 st.1) router bs_b os_b st;
}.

Context (good_a : @ClientState types_a → Prop) (good_b : @ClientState types_b → Prop).
Context (prefix_a prefix_b : CommitmentPrefix) (end_a end_b : PortId * ChannelId).
Context (bs_a bs_b : list block) (os_a os_b : list obs).
Notation net := (linked good_a good_b prefix_a prefix_b end_a end_b bs_a bs_b os_a os_b).

Lemma delivered_was_sent m :
  net → Acted (PktRecv m) ∈ os_b → key_on_b (recv_packet m) = end_b → named_packet (recv_packet m) →
  ∃ q, Sent q ∈ os_a ∧ same_packet q (recv_packet m).
Proof.
  intros [_ Pb (ra & sta & La) (rb & stb & Lb)] Hin Hk Hn. rewrite (surjective_pairing end_b) in Hk.
  destruct (delivered_committed rb good_b prefix_a bs_a _ _ _ _ _ m Lb Hin Hk Hn)
    as ((order & b & c & Hb & Hc & Hst & _ & Hrem) & b' & cm & Hb' & Hcm & Hat).
  destruct (committed_sent _ _ _ _ _ La _ _ _ Hb' Hat) as (q & Hq & Eq & Es & Ecm).
  exists q. split; [done|]. split_and!; [done| |done|congruence]. rewrite Hk.
  injection Eq as Eq1 Eq2. apply (sent_towards _ _ _ _ _ b c q _ _ La Hb Hq); [|done..].
  unfold chan_at_a. rewrite Eq1, Eq2. done.
Qed.

(** A delivery under the number of a packet that A resolved is of that packet. *)
Lemma delivered_resolved msg m :
  net → Acted msg ∈ os_a → (∀ m, msg ≠ PktRecv m) → key_on_a (packet_of msg) = end_a →
  key_on_b (packet_of msg) = end_b → named_packet (packet_of msg) → (∃ order, peer_end bs_b end_a.1 end_a.2 order end_b) →
  Acted (PktRecv m) ∈ os_b → key_on_b (recv_packet m) = end_b →
  seq_on_a (recv_packet m) = seq_on_a (packet_of msg) → same_packet (recv_packet m) (packet_of msg).
Proof.
  intros Hnet Hmsg Hn Ka Kb Hnamed (order & b & c & Hb & Hc & Hst & _ & Hrem) Hin Hk Hs.
  assert (key_on_a (recv_packet m) = end_a) as Hka.
  { destruct Hnet as [_ _ _ (rb & stb & Lb)]. rewrite (surjective_pairing end_a).
    rewrite <- Hk in Hc. by apply (delivered_source _ _ _ _ _ Lb b c (recv_packet m) m). }
  destruct (delivered_was_sent m Hnet Hin Hk) as (q & Hq & Eq1 & _ & Eq3 & Eq4).
  { unfold named_packet in *. unfold key_on_a, key_on_b in *. rewrite Hs.
    replace (port_id_on_a (recv_packet m)) with (port_id_on_a (packet_of msg)) by congruence.
    replace (chan_id_on_a (recv_packet m)) with (chan_id_on_a (packet_of msg)) by congruence.
    replace (port_id_on_b (recv_packet m)) with (port_id_on_b (packet_of msg)) by congruence.
    by replace (chan_id_on_b (recv_packet m)) with (chan_id_on_b (packet_of msg)) by congruence. }
  destruct Hnet as [_ _ (ra & sta & La) _].
  destruct (resolved_sent _ _ _ _ _ La msg Hmsg Hn) as (q' & cm & Hq' & E1 & E2 & E3 & E4).
  assert (q' = q) as -> by (eapply (sent_unique _ _ _ _ _ La); congruence).
  split_and!; congruence.
Qed.

(** A packet that A has acknowledged was delivered on B, where the acknowledgement of the
    message is in the store of a block, up to its hash. *)
Lemma acknowledged_delivered m :
  net → Acted (PktAck m) ∈ os_a → key_on_a (ack_packet m) = end_a → key_on_b (ack_packet m) = end_b →
  named_packet (ack_packet m) →
  ∃ m' b, Acted (PktRecv m') ∈ os_b ∧ same_packet (recv_packet m') (ack_packet m) ∧ b ∈ bs_b
    ∧ pcs_get (pv_acks (block_view b)) end_b.1 end_b.2 (seq_on_a (ack_packet m))
      = Some (compute_ack_commitment (ack_acknowledgement m)).
Proof.
  intros Hnet Hin Ka Kb Hn. pose proof Hnet as [Pa _ (ra & sta & La) (rb & stb & Lb)].
  pose proof Ka as Ka'. rewrite (surjective_pairing end_a) in Ka'.
  destruct (acknowledged_written ra good_a prefix_b bs_b _ _ _ _ _ m La Hin Ka' Hn) as (Hpe & b & Hb & Hack).
  destruct (written_delivered _ _ _ _ _ Lb _ _ _ _ _ Hb Hack) as (m' & Hm' & Km & Sm).
  exists m', b. split; [done|]. rewrite Kb in Hpe.
  change (key_on_b (recv_packet m') = key_on_b (ack_packet m)) in Km. rewrite <- Kb at 1 2. split_and!; [|done..].
  apply (delivered_resolved (PktAck m) m'); try done. by rewrite Km.
Qed.

(** A packet that A has timed out is not delivered on B. *)
Lemma timed_out_undelivered m m' :
  net → Acted (PktTimeout m) ∈ os_a → key_on_a (to_packet m) = end_a → key_on_b (to_packet m) = end_b →
  named_packet (to_packet m) → Acted (PktRecv m') ∈ os_b → key_on_b (recv_packet m') = end_b →
  seq_on_a (recv_packet m') = seq_on_a (to_packet m) →
  recv_packet m' ≠ to_packet m ∧ same_packet (recv_packet m') (to_packet m).
Proof.
  intros Hnet Hin Ka Kb Hn Hm' Km Sm. pose proof Hnet as [Pa _ (ra & sta & La) (rb & stb & Lb)].
  pose proof Ka as Ka'. rewrite (surjective_pairing end_a) in Ka'.
  destruct (timed_out_unreceived ra good_a prefix_b bs_b _ _ _ _ _ m La Hin Ka' Hn) as (order & b & Hpe & Hb & Hto & Hun).
  rewrite Kb in Hpe. split.
  - destruct Hpe as (b' & c & Hb' & Hc & _ & <- & _).
    destruct (life_ends _ _ _ _ _ _ Lb Hb' _ _ _ Hc) as (c' & Hc' & _ & Eo & _).
    rewrite <- Kb in Hc'. apply (expired_undelivered _ _ _ _ _ Lb b c'); try done. by rewrite Eo.
  - apply (delivered_resolved (PktTimeout m) m'); try done. by eexists.
Qed.

(** Nor is a packet that A has timed out because B's end was closed. *)
Lemma closed_not_delivered m m' :
  net → Acted (PktTimeoutOnClose m) ∈ os_a → key_on_a (toc_packet m) = end_a →
  key_on_b (toc_packet m) = end_b → named_packet (toc_packet m) →
  Acted (PktRecv m') ∈ os_b → key_on_b (recv_packet m') = end_b →
  seq_on_a (recv_packet m') ≠ seq_on_a (toc_packet m).
Proof.
  intros [Pa _ (ra & sta & La) (rb & stb & Lb)] Hin Ka Kb Hn Hm' Km.
  rewrite (surjective_pairing end_a) in Ka.
  destruct (closed_unreceived ra good_a prefix_b bs_b _ _ _ _ _ m La Hin Ka Hn) as (b & c & Hb & Hc & Hcl & _ & Hun).
  apply (closed_undelivered _ _ _ _ _ Lb b c (toc_packet m)); try done. by rewrite Km, Kb.
Qed.

(** C4: With linked chains, a packet that B has delivered on the channel was sent by A, with the
    same identifiers and commitment.  Packets have valid identifiers and 64-bit sequence
    numbers, as decoded ones do. *)
Theorem network_deliveries_sent :
  net → ∀ m, Acted (PktRecv m) ∈ os_b → key_on_b (recv_packet m) = end_b →
  named_packet (recv_packet m) →
  ∃ q, Sent q ∈ os_a ∧ same_packet q (recv_packet m).
Proof. intros Hnet m. by apply delivered_was_sent. Qed.

(** C3: With linked chains, what A does with a packet it sent is true of B: a packet that A has
    acknowledged was delivered on B; a packet that A has timed out is never delivered on
    B, before or after, unless B delivered another packet with the same identifiers and the
    same commitment, which takes a collision of SHA-256; and when A has timed out a packet
    because the channel was closed on B, B never delivers anything under its number. *)
Theorem network_resolutions_true :
  net →
  (∀ m, Acted (PktAck m) ∈ os_a → key_on_a (ack_packet m) = end_a → key_on_b (ack_packet m) = end_b →
     named_packet (ack_packet m) →
     ∃ m', Acted (PktRecv m') ∈ os_b ∧ same_packet (recv_packet m') (ack_packet m))
  ∧ (∀ m, Acted (PktTimeout m) ∈ os_a → key_on_a (to_packet m) = end_a → key_on_b (to_packet m) = end_b →
     named_packet (to_packet m) → ∀ m', Acted (PktRecv m') ∈ os_b → key_on_b (recv_packet m') = end_b →
       seq_on_a (recv_packet m') = seq_on_a (to_packet m) →
       recv_packet m' ≠ to_packet m ∧ same_packet (recv_packet m') (to_packet m))
  ∧ ∀ m, Acted (PktTimeoutOnClose m) ∈ os_a → key_on_a (toc_packet m) = end_a →
     key_on_b (toc_packet m) = end_b → named_packet (toc_packet m) →
     ∀ m', Acted (PktRecv m') ∈ os_b → key_on_b (recv_packet m') = end_b →
       seq_on_a (recv_packet m') ≠ seq_on_a (toc_packet m).
Proof.
  intros Hnet. split_and!.
  - intros m Hin Ka Kb Hn. destruct (acknowledged_delivered m Hnet Hin Ka Kb Hn) as (m' & b & ? & ? & _).
    by exists m'.
  - intros m Hin Ka Kb Hn m'. by apply timed_out_undelivered.
  - intros m Hin Ka Kb Hn m'. by apply closed_not_delivered.
Qed.
End two_chains.
