(* ===== verification/TmNetwork.v ===== *)
(** * Tendermint clients in a network

    The proofs that a Tendermint client accepts are faithful, in the sense of [Network], when
    the blocks of the chain it follows commit to their packet states as Cosmos chains do: the
    trees under the root of a block have what the state has, and lack the rest.  A client that
    is created with a header of such a chain goes on having headers of the chain only,
    whatever messages its own chain executes, so that two chains with Tendermint clients of
    each other are linked.  A client that misbehaviour froze stays as it is for the rest of any
    run of its chain. *)

From S2P Require Import Prelude RustStr Identifiers Primitives Path Connection Channel Context.
From S2P Require Import Merkle ConnHandlers Module ChanHandlers PacketHandlers PacketSpec ClientHandlers.
From S2P Require Import TmTypes TmClient TmSafety Entrypoint Chain Network.
Local Open Scope N_scope.

Section faithful.
Context `{TmText, Unicode, !TmCodec, !Codec, !Ics23, !Ics23Check, !TmVerifier, !Ics23Laws}.

(** The trees under a root hold a packet state. *)
Definition commits_to (specs : ProofSpecs) (prefix : CommitmentPrefix) (root : CommitmentRoot)
    (v : PacketView) : Prop :=
  ∀ path, packet_path path = true → Path_wf path →
    match view_value v path with
    | Some value => committed_under (proof_keys specs prefix path) value (root_bytes root)
    | None => absent_under (proof_keys specs prefix path) (root_bytes root)
    end.

(** Tendermint clients with the proof specifications of a chain accept only what is so in the
    chain's blocks, when these commit to their packet states and the hash functions of the
    trees have no collisions: the theorems on two chains hold over Tendermint clients. *)
Lemma tm_proofs_faithful specs prefix bs :
  ¬ hash_collision →
  (∀ b, b ∈ bs → commits_to specs prefix (block_root b) (block_view b)) →
  FaithfulProofs (lc:=tm_client) (λ cs : TmClientState, tm_proof_specs cs = specs) prefix bs.
Proof.
  intros Hno Hbs. split.
  - intros cs proof b path value Hs Hb Hp Hwf [_ Hv]%tm_membership_committed. rewrite Hs in Hv.
    specialize (Hbs b Hb path Hp Hwf). destruct (view_value (block_view b) path) as [v'|].
    + by destruct (committed_under_functional _ _ _ _ Hbs Hv) as [->|].
    + by destruct Hno; eapply committed_not_absent.
  - intros cs proof b path Hs Hb Hp Hwf Hv%tm_non_membership_absent. rewrite Hs in Hv.
    specialize (Hbs b Hb path Hp Hwf). destruct (view_value (block_view b) path) as [v'|]; [|done].
    by destruct Hno; eapply committed_not_absent.
Qed.
End faithful.

(** ** Tendermint clients keep following *)

Section following.
Context `{TmText, Unicode, !TmCodec, !Codec, !Sha256, !Ics23, !Ics23Check, !TmVerifier, !Ics23Laws}.
#[local] Existing Instance tm_client.

(** A block of a Tendermint chain: its height and what a client keeps of its header. *)
Record tm_block := mkTmBlock {
  tmb_height : Height;
  tmb_state : TmConsensusState;
  tmb_view : PacketView;
  tmb_log : list obs }.
Definition block_of (b : tm_block) : block :=
  mkBlock (tmb_height b) (mkTimestamp (Some (tc_timestamp (tmb_state b)))) (tc_root (tmb_state b))
    (tmb_view b) (tmb_log b).

(** A client state of a given configuration: only the latest and the frozen height vary. *)
Definition configured (cs0 cs : TmClientState) : Prop :=
  ∃ latest frozen, cs = mkTmClientState (tm_chain_id cs0) (tm_trust_level cs0) (tm_trusting_period cs0)
    (tm_unbonding_period cs0) (tm_max_clock_drift cs0) latest (tm_proof_specs cs0)
    (tm_upgrade_path cs0) (tm_allow_update cs0) frozen.

(** The prefix under which clients of a configuration look for their upgrades. *)
Definition upgrade_prefix (cs0 : TmClientState) (key : CommitmentPrefix) : Prop :=
  ∃ first, index (E:=ClientError) (take (length (tm_upgrade_path cs0) - 1) (tm_upgrade_path cs0)) 0 = Ok first
    ∧ CommitmentPrefix_try_from (as_bytes first) = Ok key.

(** What is asked of a chain and of the verifier of its headers, for clients of the
    configuration [cs0]: roots commit to packet states, no block commits to an upgraded client
    state under the upgrade path of these clients, and from a header of the chain the verifier
    accepts headers of the chain only. *)
Record tm_chain (cs0 : TmClientState) (prefix : CommitmentPrefix) (bs : list tm_block) : Prop := {
  chain_commits b : b ∈ bs →
    commits_to (tm_proof_specs cs0) prefix (tc_root (tmb_state b)) (tmb_view b);
  chain_no_upgrade b key n any upgraded : b ∈ bs → upgrade_prefix cs0 key →
    TmClientState_try_from any = Ok upgraded →
    ¬ committed_under (proof_keys (tm_proof_specs cs0) key (PathUpgradeClient (UpgradedClientState n)))
        (encode_any any) (root_bytes (tc_root (tmb_state b)));
  chain_headers b cs host s id header h : b ∈ bs → configured cs0 cs →
    trusted_height header = tmb_height b → header_verified cs host s id header h (tmb_state b) →
    ∃ b', b' ∈ bs ∧ tmb_height b' = h ∧ tmb_state b' = TmConsensusState_from_header header;
}.

Context (cs0 : TmClientState) (prefix : CommitmentPrefix) (bs : list tm_block).

Lemma faithful_for :
  ¬ hash_collision →
  (∀ b, b ∈ bs → commits_to (tm_proof_specs cs0) prefix (tc_root (tmb_state b)) (tmb_view b)) →
  FaithfulProofs (lc:=tm_client) (configured cs0) prefix (block_of <$> bs).
Proof.
  intros Hno Hbs. destruct (tm_proofs_faithful (tm_proof_specs cs0) prefix (block_of <$> bs)) as [Hp Ha]; [done| |].
  - intros b (b' & -> & Hb)%list_elem_of_fmap. by apply Hbs.
  - split; intros cs proof b path; [intros value|]; intros (l & f & ->); [by apply Hp|by apply Ha].
Qed.

(** The record of a client has the configuration, and headers of the chain only. *)
Definition record_follows (r : @ClientRecord tm_types) : Prop :=
  (∀ cs : TmClientState, client_state_of r = Some (cs : @ClientState tm_types) → configured cs0 cs)
  ∧ ∀ h (c : TmConsensusState), consensus_states r !! h = Some (c : @ConsensusState tm_types) →
      ∃ b, b ∈ bs ∧ tmb_height b = h ∧ tmb_state b = c.
Definition client_follows (id : ClientId) (s : IbcStore) : Prop :=
  ∀ r, clients s !! id = Some r → record_follows r.

Lemma configured_with_header cs header cs' :
  configured cs0 cs → TmClientState_with_header cs header = Ok cs' → configured cs0 cs'.
Proof.
  intros (l & f & ->). unfold TmClientState_with_header. intros Hw. inv_ok. by do 2 eexists.
Qed.
Lemma configured_frozen cs h : configured cs0 cs → configured cs0 (with_frozen_height cs h).
Proof. intros (l & f & ->). by do 2 eexists. Qed.

Lemma follows_state s id h c :
  client_follows id s → consensus_state s (state_path id h) = Ok (c : @ConsensusState tm_types) →
  ∃ b, b ∈ bs ∧ tmb_height b = h ∧ tmb_state b = c.
Proof.
  intros Hf (r & Hr & Hc)%consensus_state_Ok. destruct (Hf r Hr) as [_ Hs].
  destruct (Hs _ _ Hc) as (b & Hb & Eh & Ec). exists b. split_and!; [done| |done]. rewrite Eh. by destruct h.
Qed.

Context (Hchain : tm_chain cs0 prefix bs).

(** A header the client accepts is a header of the chain. *)
Lemma accepted_header_follows (host : Host) s id (cs : TmClientState) msg header :
  client_follows id s → configured cs0 cs → TmHeader_try_from msg = Ok header →
  tm_verify_client_message cs host s id msg = Ok tt →
  ∃ b, b ∈ bs ∧ (∀ E, TmHeader_height (E:=E) header = Ok (tmb_height b))
    ∧ tmb_state b = TmConsensusState_from_header header.
Proof.
  intros Hf Hcfg Hm. unfold tm_verify_client_message. rewrite (header_any _ _ Hm), Hm. cbn.
  intros (h & trusted & Hv)%accepted_header_verified.
  destruct (follows_state _ _ _ _ Hf (hv_trusted _ _ _ _ _ _ _ Hv)) as (b & Hb & Eh & Et).
  destruct (chain_headers _ _ _ Hchain b cs host s id header h Hb Hcfg) as (b' & Hb' & <- & Es); [done| |].
  - by rewrite Et.
  - exists b'. split_and!; [done| |done].
    apply (TmHeader_height_any (E:=TmError)), (hv_height _ _ _ _ _ _ _ Hv).
Qed.

(** An accepted update leaves the client with headers of the chain. *)
Lemma update_follows (host : Host) s msg s' :
  client_follows (um_client_id msg) s → update_client_validate s msg = Ok tt →
  update_client_execute msg s = (s', Ok tt) → client_follows (um_client_id msg) s'.
Proof.
  intros Hf Hv (cs & found & s1 & Hst & _ & Ec & Hx)%update_client_execute_Ok.
  destruct (proj1 (client_state_Ok s _ cs) Hst) as (r & Hr & Hcs).
  destruct (Hf r Hr) as [Hcfg Hheads]. specialize (Hcfg cs Hcs).
  intros r'. rewrite Ec. destruct found.
  - cbn in Hx. injection Hx as <-. cbn. rewrite update_client_record_same, Hr. intros [= <-].
    split; [|exact Hheads]. cbn. intros cs' [= <-]. by apply configured_frozen.
  - destruct Hx as (m & hs & -> & Hx). cbn [um_client_id um_client_message] in *.
    assert (∃ header, TmHeader_try_from (uc_client_message m) = Ok header) as [header Hm].
    { pose proof Hx as Hx'. apply exec_bind_Ok in Hx' as (s0 & header & [_ Hm]%lift_Ok & _).
      by exists header. }
    destruct (accepted_header_follows host s (uc_client_id m) cs (uc_client_message m) header)
      as (b & Hb & Hh & Eb); [done..| |].
    { unfold update_client_validate in Hv. cbn [um_client_id um_client_message] in Hv.
      rewrite Hst in Hv. repeat (apply bind_Ok in Hv as (? & _ & Hv); cbn in Hv).
      by apply map_err_Ok in Hv. }
    destruct (tm_update_state_cases _ _ _ _ _ _ _ _ _ Hr Hm Hx) as (h & s2 & r1 & _ & Hh' & _ & Hr1 & Ecs1 & Hsub & Hs').
    assert (h = tmb_height b) as ->. { specialize (Hh TmError). specialize (Hh' TmError). congruence. }
    assert (record_follows r1) as [F1 F2].
    { split; [intros cs'; rewrite Ecs1; apply Hf, Hr|]. intros h c Hc. apply Hheads. by eapply lookup_weaken. }
    destruct (consensus_states r1 !! tmb_height b); [rewrite Hs'; by intros [= <-]|].
    destruct Hs' as (cs' & Hw & ->). intros [= <-]. split; cbn.
    + intros ? [= <-]. by eapply configured_with_header.
    + intros h c. rewrite lookup_insert_Some. intros [[<- <-]|[_ Hc]]; [by exists b|by apply F2].
Qed.

(** No upgrade of the client is accepted. *)
Lemma no_upgrade (host : Host) s msg :
  client_follows (ug_client_id msg) s → upgrade_client_validate s msg ≠ Ok tt.
Proof.
  intros Hf Hv. unfold upgrade_client_validate in Hv.
  repeat (apply bind_Ok in Hv as (? & ? & Hv); cbn beta in Hv).
  match goal with A : client_state s _ = Ok ?cs, B : map_err _ (consensus_state _ _) = Ok ?c |- _ =>
    destruct (proj1 (client_state_Ok s _ cs) A) as (r & Hr & Hcs);
    apply map_err_Ok in B; destruct (follows_state _ _ _ c Hf B) as (b & Hb & _ & Eb) end.
  destruct (Hf r Hr) as [Hcfg _]. destruct (Hcfg _ Hcs) as (l & f & ->). apply map_err_Ok in Hv. cbn in Hv.
  unfold tm_verify_upgrade_client in Hv.
  repeat (apply bind_Ok in Hv as (? & ? & Hv); cbn beta in Hv).
  match goal with C : tm_verify_membership _ _ _ _ _ _ = Ok _ |- _ => revert C end.
  cbn. rewrite <- Eb. intros C. destruct_units. apply tm_membership_committed in C as [_ C]. cbn in C.
  eapply (chain_no_upgrade _ _ _ Hchain); [done| |done|exact C].
  match goal with I : index _ 0 = Ok ?first, P : map_err _ (CommitmentPrefix_try_from _) = Ok _ |- _ =>
    apply map_err_Ok in P; by exists first end.
Qed.

(** One step of the client's own chain. *)
Lemma step_follows {App : Type} `{!Module App} (host : Host) id (st st' : chain (App:=App)) o os :
  store_inv st.1 os → chain_step_in host st o st' → is_Some (clients st.1 !! id) →
  client_follows id st.1 → client_follows id st'.1.
Proof.
  intros Hinv [Ec|(m & Hv & Hx)]%chain_step_clients Hsome Hf.
  { unfold client_follows. by rewrite Ec. }
  destruct (client_refines _ _ _ _ Hx) as (i & _ & _ & _ & Hframe & Hm).
  destruct (decide (id = i)) as [->|Hne].
  2: { unfold client_follows. by destruct (Hframe id Hne) as [-> _]. }
  destruct m as [m|m|m|m]; cbn [client_validate client_execute] in *.
  - destruct Hm as (cs & _ & -> & _). destruct Hsome as [? Hs].
    by rewrite (clients_inv_fresh _ _ _ (inv_clients _ _ Hinv)) in Hs.
  - destruct Hm as (-> & _). by apply (update_follows host st.1 (UmUpdateClient m)).
  - destruct Hm as (-> & _). by apply (update_follows host st.1 (UmMisbehaviour m)).
  - destruct Hm as (-> & _). by destruct (no_upgrade host st.1 m Hf).
Qed.

(** What the operators of a channel see to: the channel end runs over the client [id] and
    the prefix of the other chain, and the client is created with a header of that chain. *)
Definition set_up (id : ClientId) (port : PortId) (chan : ChannelId) (s s' : IbcStore) : Prop :=
  (∀ c conn, pc_get (channels s) port chan = Some c → first_hop s (chan_connection_hops c) conn →
     conn_client_id conn = id ∧ cpty_prefix (conn_counterparty conn) = prefix)
  ∧ (clients s !! id = None → client_follows id s').

(** Then the client follows the other chain all along, whatever else holds of the steps. *)
Lemma life_follows {App : Type} `{!Module App} id port chan
    (E : Host → chain (App:=App) → list obs → chain (App:=App) → Prop) (r : MockRouter App) bs' os st :
  life (λ host st o st', set_up id port chan st.1 st'.1 ∧ E host st o st') r bs' os st →
  life (λ host st o st', follows (configured cs0) prefix (block_of <$> bs) port chan st.1
    ∧ E host st o st') r bs' os st
  ∧ client_follows id st.1.
Proof.
  induction 1 as [|bs' os st b _ [IH1 IH2]|host bs' b os st o st' Hl [IH1 IH2] Hh Ht [[Hlink Hnew] HE] Hs].
  - split; [constructor|]. intros rec. cbn. by rewrite lookup_empty.
  - split; [|done]. by constructor.
  - split.
    + eapply life_step; [done..| |done]. split; [|done]. intros c conn Hc Hhop.
      destruct (Hlink c conn Hc Hhop) as [-> ->]. split_and!; [done|..].
      * intros cs (rec & Hrec & Hcs)%client_state_Ok. by apply (IH2 rec Hrec).
      * intros h cons Hcons. destruct (follows_state st.1 id h cons IH2 Hcons) as (b' & Hb' & <- & <-).
        exists (block_of b'). split_and!; [|done..]. by apply list_elem_of_fmap_2.
    + destruct (clients st.1 !! id) as [rec|] eqn:Er; [|by apply Hnew].
      eapply step_follows; [by eapply chain_run_inv, life_run|done| |done]. by eexists.
Qed.

Lemma life_set_up {App : Type} `{!Module App} id port chan (r : MockRouter App) bs' os st :
  life (λ _ st _ st', set_up id port chan st.1 st'.1) r bs' os st →
  life (λ _ st _ _, follows (configured cs0) prefix (block_of <$> bs) port chan st.1) r bs' os st.
Proof.
  intros Hl. destruct (life_follows id port chan (λ _ _ _ _, True) r bs' os st) as [Hf _].
  - by eapply life_weaken; [|exact Hl].
  - eapply life_weaken; [|exact Hf]. by intros host st0 o st' [? _].
Qed.
End following.

(** ** Frozen clients *)

Section freezing.
Context `{TmText, Unicode, !TmCodec, !Codec, !Sha256, !Ics23, !Ics23Check, !TmVerifier}.
Context {App : Type} `{!Module App}.
#[local] Existing Instance tm_client.

(** The message of a header or of evidence, and the client and signer of a message that acts on
    a client. *)
Definition client_msg_of (msg : MsgUpdateOrMisbehaviour) : ClientMsg :=
  match msg with UmUpdateClient m => ClUpdateClient m | UmMisbehaviour m => ClMisbehaviour m end.
Definition acts_on (m : ClientMsg) : option (ClientId * Signer) :=
  match m with
  | ClCreateClient _ => None
  | ClUpdateClient m => Some (uc_client_id m, uc_signer m)
  | ClMisbehaviour m => Some (sm_client_id m, sm_signer m)
  | ClUpgradeClient m => Some (ug_client_id m, ug_signer m)
  end.

(** The record of a client after misbehaviour: the client state frozen, nothing else. *)
Definition frozen_record (cs : TmClientState) (rec : @ClientRecord tm_types) : @ClientRecord tm_types :=
  mkClientRecord (Some (with_frozen_height cs (Height_min 0) : @ClientState tm_types)) (consensus_states rec).
(** The store after it. *)
Definition frozen_store (id : ClientId) (cs : TmClientState) (rec : @ClientRecord tm_types)
    (s : IbcStore) : IbcStore :=
  set_events (λ l, l ++ [EventMessage EvClient; ClientMisbehaviour id tm_client_type])%list
    (set_clients (λ m, <[id := frozen_record cs rec]> m) s).

Lemma tm_frozen_inert id cs rec s :
  inert id (frozen_store id cs rec s) (frozen_record cs rec).
Proof.
  split; [by apply lookup_insert_eq|]. eexists. split; [done|]. intros host s'. done.
Qed.

(** What the handler does with misbehaviour. *)
Lemma tm_misbehaviour_effect (host : Host) s msg rec (cs : TmClientState) :
  clients s !! um_client_id msg = Some rec → client_state_of rec = Some (cs : @ClientState tm_types) →
  tm_check_for_misbehaviour cs s (um_client_id msg) (um_client_message msg) = Ok true →
  update_client_execute msg s = (frozen_store (um_client_id msg) cs rec s, Ok tt).
Proof.
  intros Hr Hcs Hmb.
  assert (client_state s (um_client_id msg) = Ok (cs : @ClientState tm_types)) as Hst
    by (apply client_state_Ok; by exists rec).
  unfold update_client_execute. unfold mbind at 1, exec_bind at 1, reads at 1. rewrite Hst.
  unfold mbind at 1, exec_bind at 1, reads at 1. cbn. rewrite Hmb. cbn. f_equal.
  unfold mbind, exec_bind, on_client, in_client, tm_update_on_misbehaviour, frozen_store, frozen_record.
  cbn. unfold store_client_state, modify, emit_ibc_event, modify, update_client_record. cbn.
  unfold set_events, set_clients. destruct s. cbn in *. rewrite Hr. by rewrite <- app_assoc.
Qed.

Lemma frozen_refused (host : Host) id cs rec m signer (st : chain (App:=App)) :
  acts_on m = Some (id, signer) → clients st.1 !! id = Some (frozen_record cs rec) →
  dispatch (EnvClient m) st
  = (st, validate_message_signer signer;; Err (CtxClient (ClientNotActive Frozen))).
Proof.
  intros Ha Hr. assert (client_state st.1 id = Ok (with_frozen_height cs (Height_min 0) : @ClientState tm_types))
    as Hst by by apply client_state_Ok; eexists.
  unfold dispatch, mbind at 1, exec_bind, reads. cbn.
  destruct m as [m|m|m|m]; [done|..]; injection Ha as Hid <-; cbn [validate client_validate];
    unfold update_client_validate, upgrade_client_validate; cbn [um_client_id um_signer];
    rewrite Hid, Hst; by destruct (validate_message_signer _) as [[]|?|].
Qed.

(** C32: Misbehaviour, a header that conflicts with the history or two headers that conflict with
    each other, freezes a Tendermint client for good: on any chain, a message that is valid and
    shows it is accepted, and all it changes is that the client state is frozen and two events
    are emitted, the rest of the store and the applications being as before; and in every later
    state of the chain, whatever was executed in between, the client's states are still these,
    and every update, misbehaviour or upgrade message for it is refused without effect, because
    the client is not active or, checked before that, because of its signer. *)
Theorem tm_misbehaviour_freezes (r : MockRouter App) os (st : chain (App:=App)) (host : Host) msg rec
    (cs : TmClientState) :
  let id := um_client_id msg in
  let st' := (frozen_store id cs rec st.1, st.2) in
  chain_run (genesis r) os st →
  clients st.1 !! id = Some rec → client_state_of rec = Some (cs : @ClientState tm_types) →
  update_client_validate st.1 msg = Ok tt →
  tm_check_for_misbehaviour cs st.1 id (um_client_message msg) = Ok true →
  dispatch (EnvClient (client_msg_of msg)) st = (st', Ok tt)
  ∧ ∀ os' st'', chain_run st' os' st'' →
      clients st''.1 !! id = Some (frozen_record cs rec)
      ∧ ∀ (host' : Host) m signer, acts_on m = Some (id, signer) →
          dispatch (EnvClient m) st''
          = (st'', validate_message_signer signer;; Err (CtxClient (ClientNotActive Frozen))).
Proof.
  intros id st' Hrun Hr Hcs Hv Hmb.
  assert (dispatch (EnvClient (client_msg_of msg)) st = (st', Ok tt)) as Hd.
  { destruct st as [s router]. cbn in *. pose proof (tm_misbehaviour_effect host s msg rec cs Hr Hcs Hmb) as Hx.
    unfold dispatch, mbind, exec_bind, reads. destruct msg as [m|m]; cbn [client_msg_of validate client_validate fst];
      rewrite Hv; cbn; unfold on_fst; cbn; by rewrite Hx. }
  split; [done|]. intros os' st'' Hrun'.
  assert (chain_run (genesis r) (os ++ []) st') as Hinv%chain_run_inv.
  { eapply run_step; [done|]. exists host. destruct st as [s router].
    apply (step_dispatch host (EnvClient (client_msg_of msg)) s router st' Hd). }
  pose proof (inert_run _ _ _ _ id _ Hinv (tm_frozen_inert id cs rec st.1) Hrun') as [Hc _].
  split; [done|]. intros host' m signer Ha. by eapply frozen_refused.
Qed.
End freezing.

(** ** Two Tendermint chains *)

Section tm_chains.
Context `{TmText, Unicode, !TmCodec, !Codec, !Sha256, !Ics23, !Ics23Check, !TmVerifier, !Ics23Laws}.
Context {app_a : Type} {module_a : Module app_a} {app_b : Type} {module_b : Module app_b}.

(** C5: Two chains whose clients of each other are Tendermint clients are linked, so that what is
    proved of linked chains holds of them, under these assumptions: the channel end of each
    chain, once it exists, runs over a given client and under the prefix of the other chain;
    that client is created with the configuration and a header of the other chain; the roots of
    the blocks commit to packet states, under hash functions without collisions; no block
    commits to an upgraded client state under the upgrade path of the client, so that no
    upgrade is planned; and the verifier, from the state of a block of a chain and under the
    client's chain identifier and options, accepts headers of that chain only.  Then no
    message, header, evidence or upgrade submitted by anyone makes a client leave its chain:
    all along, the client behind the channel has its configuration and headers of the other
    chain only, and the proofs it accepts are true of that chain. *)
Theorem tm_chains_linked cs_a cs_b id_a id_b prefix_a prefix_b end_a end_b bs_a bs_b os_a os_b
    (router_a : MockRouter app_a) (router_b : MockRouter app_b) st_a st_b :
  ¬ hash_collision →
  tm_chain cs_b prefix_a bs_a → tm_chain cs_a prefix_b bs_b →
  life (H1:=tm_client) (λ _ st _ st', set_up cs_a prefix_b bs_b id_a end_a.1 end_a.2 st.1 st'.1) router_a
    (block_of <$> bs_a) os_a st_a →
  life (H1:=tm_client) (λ _ st _ st', set_up cs_b prefix_a bs_a id_b end_b.1 end_b.2 st.1 st'.1) router_b
    (block_of <$> bs_b) os_b st_b →
  linked (client_a:=tm_client) (client_b:=tm_client) (app_a:=app_a) (app_b:=app_b)
    (configured cs_a) (configured cs_b) prefix_a prefix_b end_a end_b
    (block_of <$> bs_a) (block_of <$> bs_b) os_a os_b.
Proof.
  intros Hno Ha Hb La Lb. split.
  - apply (faithful_for cs_a); [done|]. apply Hb.
  - apply (faithful_for cs_b); [done|]. apply Ha.
  - exists router_a, st_a. by apply (life_set_up cs_a prefix_b bs_b Hb) in La.
  - exists router_b, st_b. by apply (life_set_up cs_b prefix_a bs_a Ha) in Lb.
Qed.
End tm_chains.
