(* ===== verification/TransferNetwork.v ===== *)
(** * Token transfers between two chains

    The whole stack at once: two chains as in [Network], each running the token transfer
    application of [Transfer] on one end of a channel, with its bank as the state of the
    module.  What the packets of the two histories did to the two banks is entered in books,
    and the theorems of [Network] on deliveries, acknowledgements and timeouts close them:
    the escrow of one chain always covers the vouchers of the other. *)

From S2P Require Import Prelude RustStr Identifiers Primitives Path Connection Channel Context.
From S2P Require Import ConnHandlers Module ChanHandlers PacketHandlers PacketSpec ClientHandlers Entrypoint.
From S2P Require Import Merkle TmTypes TmClient TmSafety Chain Answers Network TmNetwork.
From S2P Require Import AckStatus Denom Transfer TokenSupply.
Local Open Scope N_scope.

(** ** Applications that run ICS-20 *)

(** An application of which some modules keep a bank and call back ICS-20: on packets they
    answer what its callbacks answer on the bank, which is kept by the channel callbacks. *)
Class Ics20App `{TmTime, !Codec, Unicode, U256Dec, TransferJson} (App : Type) `{!Module App}
    (T : Type) `{!TokenContext T} := {
  bank_of_app : App → option T;
  ics20_recv a t packet signer a' answer :
    bank_of_app a = Some t → on_recv_packet_execute packet signer a = (a', Ok answer) →
    ∃ t', Ics20.on_recv_packet_execute packet t = (t', Ok answer) ∧ bank_of_app a' = Some t';
  ics20_ack a t packet ack signer a' extras :
    bank_of_app a = Some t →
    on_acknowledgement_packet_execute packet ack signer a = (a', Ok (extras, Ok tt)) →
    ∃ t', Ics20.on_acknowledgement_packet_execute packet ack signer t = (t', Ok (extras, Ok tt))
      ∧ bank_of_app a' = Some t';
  ics20_timeout a t packet signer a' extras :
    bank_of_app a = Some t →
    on_timeout_packet_execute packet signer a = (a', Ok (extras, Ok tt)) →
    ∃ t', Ics20.on_timeout_packet_execute packet signer t = (t', Ok (extras, Ok tt))
      ∧ bank_of_app a' = Some t';
  ics20_channel a t :
    bank_of_app a = Some t → callbacks_keep (λ a', bank_of_app a' = Some t) a;
}.

(** ** What packets carry *)

Section amounts.
Context `{TmTime, !Codec, Unicode, U256Dec, TransferJson} (ends : side → PortId * ChannelId).

(** Of the tokens [d] of [σ], what packets from [τ] carry. *)
Definition packet_carries (σ : side) (d : PrefixedDenom) (τ : side) (p : Packet) : Z :=
  match packet_data_from_slice (data p) with
  | Some pd => carried ends σ d τ (token pd)
  | None => 0%Z
  end.
Definition carry (σ : side) (d : PrefixedDenom) (τ : side) (l : list Packet) : Z :=
  foldr (λ p z, (packet_carries σ d τ p + z)%Z) 0%Z l.

Lemma carry_app σ d τ l l' : carry σ d τ (l ++ l') = (carry σ d τ l + carry σ d τ l')%Z.
Proof. induction l as [|p l IH]; [done|]. cbn. unfold carry in *. lia. Qed.
Lemma carry_one σ d τ p : carry σ d τ [p] = packet_carries σ d τ p.
Proof. cbn. lia. Qed.
#[export] Instance carry_perm σ d τ : Proper ((≡ₚ) ==> eq) (carry σ d τ).
Proof. intros l l' Hp. unfold carry. induction Hp; cbn; lia. Qed.
Lemma packet_carries_nonneg σ d τ p : (0 <= packet_carries σ d τ p)%Z.
Proof.
  unfold packet_carries, carried, delta. destruct (packet_data_from_slice _); [|done].
  repeat case_decide; lia.
Qed.
Lemma carry_nonneg σ d τ l : (0 <= carry σ d τ l)%Z.
Proof. induction l as [|p l IH]; [done|]. cbn. pose proof (packet_carries_nonneg σ d τ p). unfold carry in *. lia. Qed.
End amounts.

(** ** One chain *)

Section chain.
Context `{TmTime, !ChainTypes, !LightClient, !Codec, !Sha256, !ClientFrame}.
Context `{Unicode, U256Dec, !U256DecLaws, TransferJson, !TransferJsonLaws}.
Context {T : Type} `{!TokenContext T, !Bank T, !BankLaws T}.
Context {App : Type} `{!Module App, !Ics20App App T}.

(** The two ends of the channel, the one of this chain, and the module of the application. *)
Context (ends : side → PortId * ChannelId) (τ : side) (ics20 : ModuleId).
Notation here := (ends τ).
Notation there := (ends (other τ)).

Definition bank_at (r : MockRouter App) : option T := routes r !! ics20 ≫= bank_of_app.

(** The port of the channel is bound to the application. *)
Definition bound (r : MockRouter App) : Prop := port_to_module r !! here.1 = Some ics20.

(** What other applications leave alone. *)
Definition aside (r r' : MockRouter App) : Prop :=
  port_to_module r' = port_to_module r
  ∧ ∃ t t', bank_at r = Some t ∧ bank_at r' = Some t' ∧ untouched ends τ t t'.

(** The steps of a chain on which packets leave the channel end by transfers only, of data
    that can be carried; anything may happen on other ends. *)
Inductive transfers (host : Host) : chain (App:=App) → list obs → chain (App:=App) → Prop :=
| ts_dispatch msg s r st' :
    dispatch msg (s, r) = (st', Ok tt) → transfers host (s, r) (observed s msg) st'
| ts_transfer msg s r t s' r' t' c chan_b seq sender :
    bank_at r = Some t → send_transfer msg (s, t) = ((s', t'), Ok tt) → data_wf (packet_data msg) →
    sends_from s msg c chan_b seq sender →
    bank_at r' = Some t' → port_to_module r' = port_to_module r →
    transfers host (s, r) [Sent (transfer_packet msg seq (rem_port_id (chan_remote c), chan_b))] (s', r')
| ts_send p s r s1 s' r' :
    key_on_a p ≠ here → send_packet p s = (s1, Ok tt) → same_state s1 s' → aside r r' →
    transfers host (s, r) [Sent p] (s', r')
| ts_app s r s' r' : same_state s s' → aside r r' → transfers host (s, r) [] (s', r').

Lemma sends_from_unique s msg c chan_b seq sender c' chan_b' seq' sender' :
  sends_from s msg c chan_b seq sender → sends_from s msg c' chan_b' seq' sender' →
  c = c' ∧ chan_b = chan_b' ∧ seq = seq'.
Proof. intros [] []. by simplify_eq. Qed.

Lemma transfers_chain host st o st' : transfers host st o st' → chain_step_in host st o st'.
Proof.
  intros Ht. destruct Ht as [msg s r st' Hd|msg s r t s' r' t' c chan_b seq sender _ Hx _ Hf _ _
    |p s r s1 s' r' _ Hx Hs _|s r s' r' Hs _].
  - by apply step_dispatch.
  - apply send_transfer_effect in Hx as (c' & chan_b' & seq' & sender' & s1 & Hf' & Hx & Hs & _).
    destruct (sends_from_unique _ _ _ _ _ _ _ _ _ _ Hf Hf') as (<- & <- & <-). by eapply Chain.step_send.
  - by eapply Chain.step_send.
  - by apply step_app.
Qed.

(** *** The books *)

(** The packets that left through the channel end, and those whose tokens were given back. *)
Definition sent_here (o : obs) : option Packet :=
  match o with
  | Sent q => if decide (key_on_a q = here) then Some q else None
  | _ => None
  end.
Definition ack_failed (ack : Acknowledgement) : bool :=
  match ack_status_from_slice (ack_bytes ack) with
  | Some status => negb (is_successful status)
  | None => true
  end.
Definition refunds (msg : PacketMsg) : bool :=
  match msg with
  | PktRecv _ => false
  | PktAck m => ack_failed (ack_acknowledgement m)
  | PktTimeout _ | PktTimeoutOnClose _ => true
  end.
Definition refunded_here (o : obs) : option Packet :=
  match o with
  | Acted msg => if decide (key_on_a (packet_of msg) = here ∧ refunds msg = true)
                 then Some (packet_of msg) else None
  | _ => None
  end.

(** A packet that was paid out on arrival: so says the acknowledgement in the store. *)
Definition paid_here (s : IbcStore) (os : list obs) (p : Packet) : Prop :=
  key_on_b p = here ∧ (∃ m, Acted (PktRecv m) ∈ os ∧ recv_packet m = p)
  ∧ ack_at s here (seq_on_a p) = Some (compute_ack_commitment success_ack).

(** The bank owes its state to the packets of the history: those that left, less those that
    were given back, less those that were paid out.  A packet that arrived and was not paid out
    has an error for an acknowledgement. *)
Record books (os : list obs) (s : IbcStore) (t : T) (paid : list Packet) : Prop := mkBooks {
  books_balance σ d : source ends σ d = true →
    held ends σ d τ t = (carry ends σ d τ (omap sent_here os)
      - carry ends σ d τ (omap refunded_here os) - carry ends σ d (other τ) paid)%Z;
  books_paid p : p ∈ paid → paid_here s os p;
  books_once : base.NoDup (seq_on_a <$> paid);
  books_unpaid m : Acted (PktRecv m) ∈ os → key_on_b (recv_packet m) = here →
    recv_packet m ∈ paid
    ∨ ∃ err, ack_at s here (seq_on_a (recv_packet m)) = Some (compute_ack_commitment (error_ack err));
}.

(** The end names the other one, once it knows it. *)
Definition peered (s : IbcStore) : Prop :=
  ∀ c, pc_get (channels s) here.1 here.2 = Some c → chan_state c ≠ ChanInit →
    chan_remote c = mkChanCounterparty there.1 (Some there.2).

(** *** One step *)

(** What one step enters in the books. *)
Record entry (o : list obs) (s s' : IbcStore) (t t' : T) (paid : list Packet) : Prop := mkEntry {
  entry_balance σ d : source ends σ d = true →
    held ends σ d τ t' = (held ends σ d τ t + carry ends σ d τ (omap sent_here o)
      - carry ends σ d τ (omap refunded_here o) - carry ends σ d (other τ) paid)%Z;
  entry_paid p : p ∈ paid → paid = [p] ∧ paid_here s' o p ∧ ack_at s here (seq_on_a p) = None;
  entry_unpaid m : Acted (PktRecv m) ∈ o → key_on_b (recv_packet m) = here →
    recv_packet m ∈ paid
    ∨ ∃ err, ack_at s' here (seq_on_a (recv_packet m)) = Some (compute_ack_commitment (error_ack err));
}.

(** A step that has nothing to do with the channel end. *)
Lemma entry_elsewhere o s s' t t' :
  untouched ends τ t t' → omap sent_here o = [] → omap refunded_here o = [] →
  (∀ m, Acted (PktRecv m) ∈ o → key_on_b (recv_packet m) ≠ here) → entry o s s' t t' [].
Proof.
  intros Hu Hs Hr Hd. split.
  - intros σ d _. rewrite (untouched_held _ _ _ _ _ _ Hu), Hs, Hr. cbn. lia.
  - by intros p ?%not_elem_of_nil.
  - intros m Hin Hk. by destruct (Hd m Hin).
Qed.

Lemma untouched_refl t : untouched ends τ t t.
Proof. by split. Qed.

Lemma timeout_effect packet signer a t a' extras :
  bank_of_app a = Some t → on_timeout_packet_execute packet signer a = (a', Ok (extras, Ok tt)) →
  ∃ t' d, bank_of_app a' = Some t' ∧ packet_data_from_slice (data packet) = Some d
    ∧ ∃ sender, given_back t t' sender (port_id_on_a packet) (chan_id_on_a packet) (token d).
Proof.
  intros Ht Ha. destruct (ics20_timeout _ _ _ _ _ _ Ht Ha) as (t' & Hx & Ht').
  pose proof Hx as Hd. unfold Ics20.on_timeout_packet_execute in Hd.
  destruct (packet_data_from_slice _) as [d|] eqn:Ed; [|done]. exists t', d. split_and!; [done..|].
  destruct (on_timeout_packet_effect _ _ _ _ _ _ Ed Hx) as (sender & _ & Hg). by exists sender.
Qed.

(** The module that resolves a packet gives its tokens back or not. *)
Lemma resolve_effect (host : Host) msg a t a' s' :
  (∀ m, msg ≠ PktRecv m) → bank_of_app a = Some t → answered msg a a' s' →
  ∃ t' d, bank_of_app a' = Some t' ∧ packet_data_from_slice (data (packet_of msg)) = Some d
    ∧ if refunds msg
      then ∃ sender, given_back t t' sender (port_id_on_a (packet_of msg)) (chan_id_on_a (packet_of msg)) (token d)
      else t' = t.
Proof.
  intros Hn Ht Ha. destruct msg as [m|m|m|m]; [by destruct (Hn m)|..]; destruct Ha as [extras Ha]; cbn [packet_of refunds].
  - destruct (ics20_ack _ _ _ _ _ _ _ Ht Ha) as (t' & Hx & Ht').
    pose proof Hx as Hd. unfold Ics20.on_acknowledgement_packet_execute in Hd.
    destruct (packet_data_from_slice _) as [d|] eqn:Ed; [|done]. unfold ack_failed.
    destruct (ack_status_from_slice _) as [status|] eqn:Es; [|done]. exists t', d. split_and!; [done..|].
    pose proof (on_ack_packet_effect _ _ _ _ _ _ _ _ Ed Es Hx) as He.
    destruct (is_successful status); cbn; [done|]. destruct He as (sender & _ & Hg). by exists sender.
  - by eapply timeout_effect.
  - by eapply timeout_effect.
Qed.

Lemma resolve_entry (host : Host) msg a t a' s s' :
  (∀ m, msg ≠ PktRecv m) → bank_of_app a = Some t → answered msg a a' s' →
  ∃ t', bank_of_app a' = Some t' ∧ entry [Acted msg] s s' t t' [].
Proof.
  intros Hn Ht Ha. destruct (resolve_effect host msg a t a' s' Hn Ht Ha) as (t' & d & Ht' & Hd & He).
  exists t'. split; [done|].
  destruct (decide (key_on_a (packet_of msg) = here ∧ refunds msg = true)) as [[Hk Hr]|Hno].
  - rewrite Hr in He. destruct He as [sender Hg]. split.
    + intros σ d' Hs. cbn [omap list_omap sent_here refunded_here]. rewrite decide_True by done.
      rewrite carry_one. unfold packet_carries. rewrite Hd.
      rewrite (given_back_held _ _ _ _ _ _ _ _ _ _ Hs Hk Hg). cbn. lia.
    + by intros p ?%not_elem_of_nil.
    + intros m [= <-]%list_elem_of_singleton. by destruct (Hn m).
  - apply entry_elsewhere.
    + destruct (refunds msg); [|subst t'; apply untouched_refl]. destruct He as [sender Hg].
      eapply given_back_elsewhere; [|exact Hg]. intros Hk. by apply Hno.
    + done.
    + cbn. by rewrite decide_False.
    + intros m [= <-]%list_elem_of_singleton. by destruct (Hn m).
Qed.

(** A packet that was not paid out. *)
Lemma unpaid_entry m t t' s s' err :
  same_bank t t' →
  ack_at s' (key_on_b (recv_packet m)) (seq_on_a (recv_packet m)) = Some (compute_ack_commitment (error_ack err)) →
  entry [Acted (PktRecv m)] s s' t t' [].
Proof.
  intros Hb Hk. split.
  - intros σ d _. rewrite (untouched_held _ _ _ _ _ _ (same_bank_untouched _ _ _ _ Hb)). cbn.
    rewrite decide_False by (by intros [_ ?]). cbn. lia.
  - by intros p ?%not_elem_of_nil.
  - intros m' [= ->]%list_elem_of_singleton Hh. right. exists err. by rewrite <- Hh.
Qed.

Lemma recv_entry (host : Host) m a t a' s s' :
  let p := recv_packet m in
  bank_of_app a = Some t → answered (PktRecv m) a a' s' →
  (key_on_b p = here → key_on_a p = there) → ack_at s (key_on_b p) (seq_on_a p) = None →
  ∃ t' paid, bank_of_app a' = Some t' ∧ entry [Acted (PktRecv m)] s s' t t' paid.
Proof.
  intros p Ht (extras & ack & Ha & Hack) Hpeer Hnone. fold p in Ha, Hack.
  change (ack_at s' (key_on_b p) (seq_on_a p) = Some (compute_ack_commitment ack)) in Hack.
  destruct (ics20_recv _ _ _ _ _ _ Ht Ha) as (t' & Hx & Ht'). exists t'.
  apply on_recv_packet_cases in Hx. destruct (packet_data_from_slice (data p)) as [d|] eqn:Ed.
  2: { destruct Hx as [-> ->]. exists []. split; [done|]. eapply unpaid_entry; [apply same_bank_refl|done]. }
  destruct Hx as [(-> & receiver & _ & Hp)|(err & -> & Hb)].
  2: { exists []. split; [done|]. by eapply unpaid_entry. }
  destruct (decide (key_on_b p = here)) as [Hk|Hk].
  - exists [p]. split; [done|]. split.
    + intros σ d' Hs. cbn [omap list_omap sent_here refunded_here]. rewrite decide_False by (by intros [_ ?]).
      rewrite carry_one. unfold packet_carries. rewrite Ed. cbn [carry foldr].
      pose proof (paid_out_held ends σ d' (other τ) t t' receiver p (token d) Hs) as He.
      rewrite other_involutive in He. rewrite He; [lia|by apply Hpeer|done|done].
    + intros q ->%list_elem_of_singleton. rewrite Hk in Hack, Hnone. split_and!; [done| |done].
      split_and!; [done| |done]. exists m. split; [by apply list_elem_of_singleton|done].
    + intros m' [= ->]%list_elem_of_singleton _. left. by apply list_elem_of_singleton.
  - exists []. split; [done|]. apply entry_elsewhere.
    + by eapply paid_out_elsewhere.
    + done.
    + cbn. by rewrite decide_False by (by intros [_ ?]).
    + by intros m' [= ->]%list_elem_of_singleton.
Qed.

Lemma recv_transition v m v' :
  let p := recv_packet m in
  packet_transition v (PktRecv m) true v' →
  ∃ c, chan_at_b v p = Some c ∧ chan_state c = ChanOpen ∧ from_a c p
    ∧ pcs_get (pv_acks v) (port_id_on_b p) (chan_id_on_b p) (seq_on_a p) = None.
Proof.
  intros p Ht. remember (PktRecv m) as msg eqn:Em. remember true as b eqn:Eb.
  destruct Ht as [|m' c order ack p' Hc Ho Hf _ _ _ _ Hn| | |[]|[]]; simplify_eq. by exists c.
Qed.

(** A packet message to the application. *)
Lemma packet_entry (host : Host) msg a t a' s s' :
  peered s → bank_of_app a = Some t →
  packet_validate s a msg = Ok tt → packet_execute msg (s, a) = ((s', a'), Ok tt) →
  ∃ t' paid, bank_of_app a' = Some t' ∧ entry (observed s (EnvPacket msg)) s s' t t' paid.
Proof.
  intros Hpeer Ht Hv Hx. destruct (packet_refines _ _ _ _ _ _ Hv Hx) as (acted & Hstep). cbn in Hstep.
  pose proof (packet_step_acts _ _ _ _ _ _ Hstep) as Ea. destruct Hstep as (Htr & Ha' & _). cbn [observed].
  rewrite <- Ea. destruct acted.
  2: { subst a'. exists t, []. split; [done|]. apply entry_elsewhere; [apply untouched_refl|done..|].
       by intros m ?%not_elem_of_nil. }
  pose proof (packet_answered _ _ _ _ _ _ (eq_sym Ea) Hx) as Hans.
  destruct msg as [m|m|m|m].
  2-4: edestruct (resolve_entry host) as (t' & ? & ?); [|exact Ht|exact Hans|by exists t', []]; done.
  destruct (recv_transition _ _ _ Htr) as (c & Hc & Ho & Hf & Hn).
  apply (recv_entry host m a t); [done..| |done]. intros Hk. unfold key_on_a, from_a, chan_at_b in *.
  injection (eq_trans (eq_sym (surjective_pairing here)) (eq_sym Hk)) as Hk1 Hk2.
  cbn in Hc. rewrite <- Hk1, <- Hk2 in Hc. assert (chan_state c ≠ ChanInit) as Hi by by rewrite Ho.
  pose proof (Hpeer c Hc Hi) as E. rewrite Hf in E. injection E as -> ->. by destruct there.
Qed.

(** The router after a message to a module. *)
Lemma bank_at_put r i a' :
  bank_at (put_route r i a') = if decide (i = ics20) then bank_of_app a' else bank_at r.
Proof.
  unfold bank_at. cbn. case_decide as Hi; [subst; by rewrite lookup_insert_eq|]. by rewrite lookup_insert_ne.
Qed.
Lemma bank_at_route r p a t :
  bank_at r = Some t → route_of r p = Ok (ics20, a) → bank_of_app a = Some t.
Proof. unfold bank_at. intros Ht [_ Ha]%route_of_Ok. by rewrite Ha in Ht. Qed.

(** A message to a module other than the application does not concern the channel end. *)
Lemma other_module_entry r msg i a s s' t :
  bound r → route_of r (packet_msg_to_port_id msg) = Ok (i, a) → i ≠ ics20 →
  entry (observed s (EnvPacket msg)) s s' t t [].
Proof.
  unfold bound. intros Hb [Hr _]%route_of_Ok Hi.
  assert (packet_msg_to_port_id msg ≠ here.1) as Hp by (intros E; rewrite E in Hr; congruence).
  apply entry_elsewhere; [apply untouched_refl|..]; cbn [observed]; destruct (acts s msg); try done.
  - cbn. case_decide as Hd; [|done]. destruct Hd as [Hk Hm]. destruct Hp. rewrite <- Hk.
    destruct msg; done.
  - intros m [= <-]%list_elem_of_singleton Hk. destruct Hp. by rewrite <- Hk.
  - by intros m ?%not_elem_of_nil.
Qed.

Lemma quiet_entry s s' t : entry [] s s' t t [].
Proof. apply entry_elsewhere; [apply untouched_refl|done..|]. by intros m ?%not_elem_of_nil. Qed.

Lemma dispatch_entry (host : Host) msg s r st' t :
  bound r → peered s → bank_at r = Some t → dispatch msg (s, r) = (st', Ok tt) →
  port_to_module st'.2 = port_to_module r
  ∧ ∃ t' paid, bank_at st'.2 = Some t' ∧ entry (observed s msg) s st'.1 t t' paid.
Proof.
  intros Hb Hp Ht Hd. apply dispatch_Ok in Hd. destruct msg as [m|m|m|m].
  - destruct Hd as (_ & s' & _ & ->). split; [done|]. exists t, []. split; [done|]. apply quiet_entry.
  - destruct Hd as (_ & s' & _ & ->). split; [done|]. exists t, []. split; [done|]. apply quiet_entry.
  - destruct Hd as (i & a & s' & a' & Hr & _ & Hx & ->). split; [done|]. exists t, [].
    split; [|apply quiet_entry]. cbn. rewrite bank_at_put. case_decide as Hi; [|done]. subst i.
    eapply (channel_answered (λ a', bank_of_app a' = Some t)); [|exact Hx]. eapply ics20_channel, bank_at_route; done.
  - destruct Hd as (i & a & s' & a' & Hr & Hv & Hx & ->). split; [done|]. cbn [fst snd].
    rewrite bank_at_put. case_decide as Hi.
    + subst i. eapply packet_entry; [done|by eapply bank_at_route|done..].
    + exists t, []. split; [done|]. by eapply other_module_entry.
Qed.

Lemma transfer_entry (host : Host) msg s t s' t' c chan_b seq sender :
  send_transfer msg (s, t) = ((s', t'), Ok tt) → data_wf (packet_data msg) →
  sends_from s msg c chan_b seq sender →
  entry [Sent (transfer_packet msg seq (rem_port_id (chan_remote c), chan_b))] s s' t t' [].
Proof.
  intros Hx Hd Hf.
  apply send_transfer_effect in Hx as (c' & chan_b' & seq' & sender' & s1 & Hf' & _ & _ & Ho).
  destruct (decide ((mt_port_id_on_a msg, mt_chan_id_on_a msg) = here)) as [Hk|Hk].
  - split.
    + intros σ d Hs. rewrite (sent_out_held _ _ _ _ _ _ _ _ _ _ Hs Hk Ho).
      cbn [omap list_omap sent_here refunded_here]. rewrite decide_True by done. rewrite carry_one.
      unfold packet_carries. cbn [data transfer_packet]. rewrite packet_data_json by done. cbn. lia.
    + by intros p ?%not_elem_of_nil.
    + by intros m ?%list_elem_of_singleton.
  - apply entry_elsewhere.
    + by eapply sent_out_elsewhere.
    + cbn. by rewrite decide_False.
    + done.
    + by intros m ?%list_elem_of_singleton.
Qed.

Lemma transfers_entry (host : Host) st o st' t :
  bound st.2 → peered st.1 → bank_at st.2 = Some t → transfers host st o st' →
  port_to_module st'.2 = port_to_module st.2
  ∧ ∃ t' paid, bank_at st'.2 = Some t' ∧ entry o st.1 st'.1 t t' paid.
Proof.
  intros Hb Hp Ht Hs. destruct Hs as [msg s r st' Hd|msg s r t0 s' r' t' c chan_b seq sender Ht0 Hx Hwf Hf Ht' Hr
    |p s r s1 s' r' Hk Hx Hs [Hr (t0 & t' & Ht0 & Ht' & Hu)]|s r s' r' Hs [Hr (t0 & t' & Ht0 & Ht' & Hu)]]; cbn in *.
  - by apply (dispatch_entry host).
  - rewrite Ht in Ht0. injection Ht0 as <-. split; [done|]. exists t', []. split; [done|].
    by eapply transfer_entry.
  - rewrite Ht in Ht0. injection Ht0 as <-. split; [done|]. exists t', []. split; [done|].
    apply entry_elsewhere; [done| |done|].
    + cbn. by rewrite decide_False.
    + by intros m ?%list_elem_of_singleton.
  - rewrite Ht in Ht0. injection Ht0 as <-. split; [done|]. exists t', []. split; [done|].
    apply entry_elsewhere; [done..|]. by intros m ?%not_elem_of_nil.
Qed.

(** *** All steps *)

Lemma books_step os st o st' t t' paid paid' :
  chain_step st o st' → books os st.1 t paid → entry o st.1 st'.1 t t' paid' →
  books (os ++ o) st'.1 t' (paid ++ paid').
Proof.
  intros Hs [B1 B2 B3 B4] [E1 E2 E3]. split.
  - intros σ d Hd. rewrite E1, B1, !omap_app, !carry_app by done. lia.
  - intros p [Hp|Hp]%elem_of_app.
    + destruct (B2 p Hp) as (? & (m & Hm & ?) & Ha). split_and!; [done| |].
      * exists m. split; [|done]. apply elem_of_app. by left.
      * by eapply chain_step_acks.
    + destruct (E2 p Hp) as (_ & (? & (m & Hm & ?) & ?) & _). split_and!; [done| |done].
      exists m. split; [|done]. apply elem_of_app. by right.
  - rewrite fmap_app. destruct paid' as [|p paid']; [by rewrite app_nil_r|].
    destruct (E2 p) as ([= ->] & _ & Hn); [apply list_elem_of_here|]. apply NoDup_snoc; [done|].
    intros (q & Hq & Hin)%list_elem_of_fmap.
    destruct (B2 q Hin) as (_ & _ & Ha). rewrite <- Hq in Ha. congruence.
  - intros m [Hin|Hin]%elem_of_app Hk; rewrite elem_of_app.
    + destruct (B4 m Hin Hk) as [?|[err Ha]]; [by left; left|]. right. exists err.
      by eapply chain_step_acks.
    + destruct (E3 m Hin Hk) as [?|?]; [by left; right|by right].
Qed.

Lemma peered_back os st o st' :
  chain_step st o st' → store_inv st.1 os → peered st'.1 → peered st.1.
Proof.
  intros Hs Hinv Hp c Hc Hi.
  destruct (chain_step_evolves _ _ _ _ Hs Hinv _ _ _ Hc) as (c' & Hc' & Hle & _ & _ & _ & Hr & _).
  destruct (Hr Hi) as [<- _]. apply Hp; [done|]. eapply evolves_past_init; [|done|done].
  by destruct (inv_channels _ _ Hinv _ _ _ Hc) as (_ & ? & _).
Qed.

(** The bank of a new channel: nothing in escrow and no vouchers. *)
Definition new_bank (t : T) : Prop :=
  (∀ d, escrowed t here d = 0) ∧ ∀ d, source ends τ d = false → supply t d = 0.

Lemma new_books t : new_bank t → books [] empty_store t [].
Proof.
  intros [He Hs]. split.
  - intros σ d Hd. cbn. unfold held. case_decide as Hσ; [by rewrite He|]. rewrite Hs; [done|].
    destruct (side_cases σ τ) as [?| ->]; [done|]. pose proof (source_voucher ends (other τ) d) as Hv.
    by rewrite other_involutive in Hv.
  - by intros p ?%not_elem_of_nil.
  - constructor.
  - by intros m ?%not_elem_of_nil.
Qed.

Section life.
Context (G : Host → chain (App:=App) → list obs → chain (App:=App) → Prop).
Context (HG : ∀ host st o st', G host st o st' → transfers host st o st').

(** At any time of the chain's life the bank agrees with the books. *)
Lemma life_books r t0 bs os st :
  bound r → bank_at r = Some t0 → new_bank t0 → life G r bs os st → peered st.1 →
  bound st.2 ∧ ∃ t paid, bank_at st.2 = Some t ∧ books os st.1 t paid.
Proof.
  intros Hb Ht0 Hnew Hl. induction Hl as [|bs os st b _ IH|host bs b os st o st' Hl IH _ _ Hg Hs]; intros Hp.
  - split; [done|]. exists t0, []. split; [done|]. by apply new_books.
  - by apply IH.
  - assert (chain_step st o st') as Hst by by exists host.
    pose proof (chain_run_inv _ _ _ (life_run _ _ _ _ _ Hl)) as Hinv.
    pose proof (peered_back _ _ _ _ Hst Hinv Hp) as Hp0.
    destruct (IH Hp0) as (Hb1 & t & paid & Ht & Hbk).
    destruct (transfers_entry host st o st' t Hb1 Hp0 Ht (HG _ _ _ _ Hg)) as (Er & t' & paid' & Ht' & He).
    split; [by unfold bound in *; rewrite Er|]. exists t', (paid ++ paid')%list. split; [done|].
    by eapply books_step.
Qed.

(** *** What the history says of the channel end *)

Lemma sent_here_seqs (os : list obs) : seq_on_a <$> omap sent_here os = seqs_at sending here.1 here.2 os.
Proof.
  induction os as [|o os IH]; [done|]. change (o :: os) with ([o] ++ os)%list.
  rewrite omap_app, fmap_app, IH, seqs_at_app. f_equal. unfold seqs_at. rewrite <- (surjective_pairing here).
  destruct o as [q|msg]; cbn; [|done]. by case_decide.
Qed.

Lemma refunded_here_seqs (os : list obs) :
  seq_on_a <$> omap refunded_here os `sublist_of` seqs_at resolution here.1 here.2 os.
Proof.
  induction os as [|o os IH]; [done|]. change (o :: os) with ([o] ++ os)%list.
  rewrite omap_app, fmap_app, seqs_at_app. apply sublist_app; [|done].
  unfold seqs_at. rewrite <- (surjective_pairing here). destruct o as [q|msg]; cbn; [done|].
  case_decide as Hd; [|apply sublist_nil_l]. destruct Hd as [Hk Hr].
  destruct msg; try done; cbn in *; by rewrite decide_True.
Qed.

Lemma elem_of_sent_here (os : list obs) p : p ∈ omap sent_here os ↔ Sent p ∈ os ∧ key_on_a p = here.
Proof.
  rewrite list_elem_of_omap. split.
  - intros ([q|msg] & Hin & E); [|done]. cbn in E. case_decide; [|done]. by injection E as <-.
  - intros [Hin Hk]. exists (Sent p). split; [done|]. cbn. by rewrite decide_True.
Qed.
Lemma elem_of_refunded_here (os : list obs) p :
  p ∈ omap refunded_here os
  ↔ ∃ msg, Acted msg ∈ os ∧ packet_of msg = p ∧ key_on_a p = here ∧ refunds msg = true.
Proof.
  rewrite list_elem_of_omap. split.
  - intros ([q|msg] & Hin & E); [done|]. cbn in E. case_decide as Hd; [|done]. injection E as <-.
    destruct Hd. by exists msg.
  - intros (msg & Hin & <- & Hk & Hr). exists (Acted msg). split; [done|]. cbn. by rewrite decide_True.
Qed.

(** An end that names a channel at some time is the one that is peered at the end. *)
Lemma peered_past os s r os' st c p i :
  chain_run (genesis r) os s → chain_run s os' st → peered st.1 →
  pc_get (channels s.1) here.1 here.2 = Some c → chan_remote c = mkChanCounterparty p (Some i) →
  (p, i) = there.
Proof.
  intros Hr Hr' Hp Hc Hrem.
  assert (chan_state c ≠ ChanInit) as Hi.
  { intros Hi. apply (chain_run_init_unnamed _ _ _ Hr _ _ _ Hc) in Hi. by rewrite Hrem in Hi. }
  destruct (chain_run_evolves _ _ _ _ _ Hr Hr' _ _ _ Hc) as (c' & Hc' & Hle & _ & _ & _ & E & _).
  destruct (E Hi) as [E' _].
  assert (chan_state c' ≠ ChanInit) as Hi'.
  { eapply evolves_past_init; [|done|done].
    by destruct (inv_channels _ _ (chain_run_inv _ _ _ Hr) _ _ _ Hc) as (_ & ? & _). }
  pose proof (Hp c' Hc' Hi') as E2. rewrite E', Hrem in E2. injection E2 as -> ->. by destruct there.
Qed.

Section lived.
Context (r : MockRouter App) (bs : list block) (os : list obs) (st : chain (App:=App)).
Context (Hl : life G r bs os st) (Hp : peered st.1).

Lemma chan_here (m : PortChannelIdMap ChannelEnd) p c :
  key_on_a p = here → pc_get m (port_id_on_a p) (chan_id_on_a p) = Some c → pc_get m here.1 here.2 = Some c.
Proof. by intros <-. Qed.

Lemma sent_to q : Sent q ∈ os → key_on_a q = here → key_on_b q = there.
Proof.
  intros Hin Hk. pose proof (life_run _ _ _ _ _ Hl) as Hr.
  destruct (chain_run_sent _ _ _ _ Hr Hin) as (c & Hc & _ & Ht).
  eapply (peered_past os st r [] st c); try done; [constructor|]. by apply (chan_here _ q).
Qed.

Lemma resolved_to msg :
  Acted msg ∈ os → (∀ m, msg ≠ PktRecv m) → key_on_a (packet_of msg) = here →
  key_on_b (packet_of msg) = there.
Proof.
  intros Hin Hn Hk.
  destruct (life_acted _ _ _ _ _ _ Hl Hin) as (host & bs1 & os1 & s & r1 & a & Hl1 & _ & Hv & _ & (os' & Hr') & _).
  assert (∃ c, chan_at_a (view s) (packet_of msg) = Some c ∧ towards_b c (packet_of msg)) as (c & Hc & Ht).
  { destruct msg as [m|m|m|m]; [by destruct (Hn m)|..]; cbn [packet_validate packet_of] in *.
    - unfold acknowledgement_packet_validate in Hv. apply bind_Ok in Hv as (? & Hv & _).
      apply acknowledgement_check_Ok in Hv as (c & conn & hop & rest & Hc & _ & Ht & _). by exists c.
    - apply timeout_packet_validate_Ok in Hv as (c & Hc & Ht & _). by exists c.
    - apply timeout_packet_validate_Ok in Hv as (c & Hc & Ht & _). by exists c. }
  apply (peered_past os1 (s, r1) r os' st c); try done; [by eapply life_run|].
  by apply (chan_here _ (packet_of msg)).
Qed.

Lemma delivered_from m :
  Acted (PktRecv m) ∈ os → key_on_b (recv_packet m) = here → key_on_a (recv_packet m) = there.
Proof.
  intros Hin Hk.
  destruct (life_acted _ _ _ _ _ _ Hl Hin) as (host & bs1 & os1 & s & r1 & a & Hl1 & _ & Hv & _ & (os' & Hr') & _).
  cbn [packet_validate] in Hv. apply recv_packet_check_Ok in Hv as (c & conn & hop & rest & cm & lh & lt & Hc & _ & Hf & _).
  apply (peered_past os1 (s, r1) r os' st c); try done; [by eapply life_run|]. by rewrite <- Hk.
Qed.

Lemma sent_here_once : base.NoDup (seq_on_a <$> omap sent_here os).
Proof.
  rewrite sent_here_seqs. destruct (life_inv _ _ _ _ _ Hl) as [_ _ _ [Hh _]]. specialize (Hh here.1 here.2).
  unfold chan_hist in Hh. destruct (pc_get _ _ _) as [c|].
  - destruct Hh as [(k & _ & _ & ->) _ _ _ _ _ _]. apply NoDup_upto.
  - destruct Hh as [-> _ _ _ _ _]. constructor.
Qed.
Lemma refunded_here_once : base.NoDup (seq_on_a <$> omap refunded_here os).
Proof.
  eapply sublist_NoDup; [|apply refunded_here_seqs].
  destruct (life_inv _ _ _ _ _ Hl) as [_ _ _ [Hh _]]. specialize (Hh here.1 here.2).
  unfold chan_hist in Hh. destruct (pc_get _ _ _) as [c|]; [apply Hh|]. destruct Hh as [_ _ _ _ -> _]. constructor.
Qed.
End lived.
End life.

(** The life of a chain that transfers tokens over the channel end, with a condition [L] on the
    stores before and after every step: it starts with the port bound to the application and
    a bank that has nothing to do with the channel yet; the end, once open, names the other
    one; and packets in messages are well-formed, as decoded ones are. *)
Definition transferring (L : IbcStore → IbcStore → Prop) (host : Host) (st : chain (App:=App)) (o : list obs)
    (st' : chain (App:=App)) : Prop :=
  L st.1 st'.1 ∧ transfers host st o st'.

Record transfer_chain (L : IbcStore → IbcStore → Prop) (bs : list block) (os : list obs)
    (st : chain (App:=App)) : Prop := mkTransferChain {
  tc_life : ∃ r t0, bound r ∧ bank_at r = Some t0 ∧ new_bank t0 ∧ life (transferring L) r bs os st;
  tc_peered : peered st.1;
  tc_named msg : Acted msg ∈ os → named_packet (packet_of msg);
}.

(** The client of the channel end follows the blocks of the other chain. *)
Definition following (good : ClientState → Prop) (prefix : CommitmentPrefix) (peer : list block)
    (s s' : IbcStore) : Prop := follows good prefix peer here.1 here.2 s.

Lemma transfer_chain_books L bs os st :
  transfer_chain L bs os st →
  ∃ t paid, bank_at st.2 = Some t ∧ books os st.1 t paid.
Proof.
  intros [(r & t0 & Hb & Ht & Hnew & Hl) Hp _].
  by destruct (life_books (transferring L) (λ _ _ _ _ H, proj2 H) r t0 bs os st Hb Ht Hnew Hl Hp).
Qed.
End chain.

(** ** Two chains *)

Section collisions.
Context `{TmTime, !Codec, !Sha256, Unicode, U256Dec, TransferJson}.

(** The packets of a history. *)
Definition mentioned (os : list obs) (p : Packet) : Prop :=
  Sent p ∈ os ∨ ∃ msg, Acted msg ∈ os ∧ packet_of msg = p.

(** No two packets of a history, and no acknowledgement relayed in it and one that ICS-20
    writes, have the same hash and are different. *)
Definition collision_free (os : list obs) : Prop :=
  (∀ p q, mentioned os p → mentioned os q → same_packet p q → p = q)
  ∧ ∀ m ack, Acted (PktAck m) ∈ os → (ack = success_ack ∨ ∃ err, ack = error_ack err) →
      compute_ack_commitment (ack_acknowledgement m) = compute_ack_commitment ack →
      ack_acknowledgement m = ack.

(** Packets that were sent, each once, and are not resolved: the chain still holds their
    commitments. *)
Definition unresolved (os : list obs) (e : PortId * ChannelId) (pend : list Packet) : Prop :=
  base.NoDup pend
  ∧ ∀ p, p ∈ pend → Sent p ∈ os ∧ key_on_a p = e ∧ seq_on_a p ∉ seqs_at resolution e.1 e.2 os.

Lemma mentioned_app os os' p : mentioned (os ++ os') p ↔ mentioned os p ∨ mentioned os' p.
Proof. unfold mentioned. setoid_rewrite elem_of_app. naive_solver. Qed.

Lemma collision_free_comm os os' : collision_free (os ++ os') → collision_free (os' ++ os).
Proof.
  intros [Hp Ha]. split.
  - intros p q. rewrite !mentioned_app. intros ? ?. apply Hp; rewrite mentioned_app; tauto.
  - intros m ack Hin. apply Ha. rewrite elem_of_app in *. tauto.
Qed.
End collisions.

Section settlement.
Context `{Unicode, TmTime, !Codec, !CodecLaws, !Sha256}.
Context `{U256Dec, !U256DecLaws, TransferJson, !TransferJsonLaws}.
Context {types_a : ChainTypes} {client_a : @LightClient _ types_a} {frame_a : ClientFrame (H1:=client_a)}.
Context {types_b : ChainTypes} {client_b : @LightClient _ types_b} {frame_b : ClientFrame (H1:=client_b)}.
Context {app_a : Type} {module_a : Module app_a} {app_b : Type} {module_b : Module app_b}.
Context {T_b : Type} `{!TokenContext T_b, !Bank T_b, !BankLaws T_b, !Ics20App app_b T_b}.
Context (good_a : @ClientState types_a → Prop) (good_b : @ClientState types_b → Prop).
Context (prefix_a prefix_b : CommitmentPrefix) (ends : side → PortId * ChannelId) (τ : side).
Context (bs_a bs_b : list block) (os_a os_b : list obs).
Context (Hnet : linked (client_a:=client_a) (client_b:=client_b) (app_a:=app_a) (app_b:=app_b)
  good_a good_b prefix_a prefix_b (ends τ) (ends (other τ)) bs_a bs_b os_a os_b).
Context (G_a : @Host _ types_a → @chain _ types_a app_a → list obs → @chain _ types_a app_a → Prop) (r_a : MockRouter app_a).
Context (G_b : @Host _ types_b → @chain _ types_b app_b → list obs → @chain _ types_b app_b → Prop) (r_b : MockRouter app_b).
Context (st_a : @chain _ types_a app_a) (st_b : @chain _ types_b app_b).
Context (La : life (H1:=client_a) G_a r_a bs_a os_a st_a) (Lb : life (H1:=client_b) G_b r_b bs_b os_b st_b).
Context (Pa : peered ends τ st_a.1) (Pb : peered ends (other τ) st_b.1).
Context (Na : ∀ msg, Acted msg ∈ os_a → named_packet (packet_of msg)).
Context (Nb : ∀ msg, Acted msg ∈ os_b → named_packet (packet_of msg)).
Context (Hfree : collision_free (os_a ++ os_b)).
Context (t_b : T_b) (paid : list Packet) (Hb : books ends (other τ) os_b st_b.1 t_b paid).
Notation sents := (omap (sent_here ends τ) os_a).
Notation refunded := (omap (refunded_here ends τ) os_a).

Lemma same_packet_eq p q :
  mentioned os_a p ∨ mentioned os_b p → mentioned os_a q ∨ mentioned os_b q → same_packet p q → p = q.
Proof. destruct Hfree as [Hp _]. rewrite <- !mentioned_app. apply Hp. Qed.

Lemma mentioned_acted os msg : Acted msg ∈ os → mentioned os (packet_of msg).
Proof. intros Hin. right. by exists msg. Qed.

(** A resolved packet was sent. *)
Lemma resolved_in_sents msg :
  Acted msg ∈ os_a → (∀ m, msg ≠ PktRecv m) → key_on_a (packet_of msg) = ends τ → packet_of msg ∈ sents.
Proof.
  intros Hin Hn Hk. destruct (resolved_sent _ _ _ _ _ La msg Hin Hn) as (q & cm & Hq & E1 & E2 & E3 & E4).
  assert (q = packet_of msg) as <-.
  { apply same_packet_eq; [left; by left|left; by apply mentioned_acted|]. split_and!; [done| |done|congruence].
    rewrite (sent_to ends τ _ _ _ _ _ La Pa q Hq), (resolved_to ends τ _ _ _ _ _ La Pa msg Hin Hn Hk); congruence. }
  apply elem_of_sent_here. split; [done|congruence].
Qed.

Lemma refunded_in_sents p : p ∈ refunded → p ∈ sents.
Proof.
  intros (msg & Hin & <- & Hk & Hr)%elem_of_refunded_here. apply resolved_in_sents; [done| |done].
  intros m ->. done.
Qed.

(** A packet that was delivered was sent. *)
Lemma delivered_in_sents m :
  Acted (PktRecv m) ∈ os_b → key_on_b (recv_packet m) = ends (other τ) → recv_packet m ∈ sents.
Proof.
  intros Hin Hk. destruct (delivered_was_sent _ _ _ _ _ _ _ _ _ _ m Hnet Hin Hk (Nb _ Hin)) as (q & Hq & Hsame).
  assert (q = recv_packet m) as ->.
  { apply same_packet_eq; [left; by left|right; by apply (mentioned_acted _ (PktRecv m))|done]. }
  apply elem_of_sent_here. split; [done|].
  rewrite (delivered_from ends (other τ) _ _ _ _ _ Lb Pb m Hin Hk). by rewrite other_involutive.
Qed.

(** The acknowledgement that a message brings is the one in the store of the other chain. *)
Lemma acknowledged_stored m :
  Acted (PktAck m) ∈ os_a → key_on_a (ack_packet m) = ends τ →
  (∃ m', Acted (PktRecv m') ∈ os_b ∧ recv_packet m' = ack_packet m)
  ∧ ack_at st_b.1 (ends (other τ)) (seq_on_a (ack_packet m))
    = Some (compute_ack_commitment (ack_acknowledgement m)).
Proof.
  intros Hin Hk.
  pose proof (resolved_to ends τ _ _ _ _ _ La Pa (PktAck m) Hin (λ _ E, ltac:(discriminate E)) Hk) as Hkb.
  destruct (acknowledged_delivered _ _ _ _ _ _ _ _ _ _ m Hnet Hin Hk Hkb (Na _ Hin)) as (m' & b & Hm' & Hsame & Hb' & Hack).
  split.
  - exists m'. split; [done|]. apply same_packet_eq; [right; by apply (mentioned_acted _ (PktRecv m'))
      |left; by apply (mentioned_acted _ (PktAck m))|done].
  - destruct (life_past _ _ _ _ _ _ Lb Hb') as (_ & st1 & Ev & _ & os' & Hr).
    eapply chain_run_acks; [exact Hr|]. unfold ack_at. by rewrite Ev in Hack.
Qed.

(** No packet is both given back on one chain and paid out on the other. *)
Lemma refunded_not_paid p q : p ∈ refunded → q ∈ paid → seq_on_a p ≠ seq_on_a q.
Proof.
  intros (msg & Hin & <- & Hk & Hr)%elem_of_refunded_here Hq Hs.
  destruct (books_paid _ _ _ _ _ _ Hb q Hq) as (Hkq & (m' & Hm' & Eq) & Hack). subst q.
  assert (∀ m, msg ≠ PktRecv m) as Hn by (by intros m ->).
  pose proof (resolved_to ends τ _ _ _ _ _ La Pa msg Hin Hn Hk) as Hkb.
  pose proof (Na _ Hin) as Hnamed. destruct msg as [m|m|m|m]; cbn [packet_of] in *; [by destruct (Hn m)|..].
  - destruct (acknowledged_stored m Hin Hk) as [_ Hst]. rewrite Hs, Hack in Hst. apply (inj Some) in Hst.
    destruct Hfree as [_ Hfa].
    assert (ack_acknowledgement m = success_ack) as E.
    { apply Hfa; [apply elem_of_app; by left|by left|done]. }
    cbn in Hr. rewrite E in Hr. unfold ack_failed in Hr. by rewrite ack_success_json in Hr.
  - destruct (timed_out_undelivered _ _ _ _ _ _ _ _ _ _ m m' Hnet Hin Hk Hkb Hnamed Hm' Hkq (eq_sym Hs)) as [Hne Hsame].
    apply Hne. apply same_packet_eq; [right; by apply (mentioned_acted _ (PktRecv m'))
      |left; by apply (mentioned_acted _ (PktTimeout m))|done].
  - by apply (closed_not_delivered _ _ _ _ _ _ _ _ _ _ m m' Hnet Hin Hk Hkb Hnamed Hm' Hkq).
Qed.

(** A packet that was resolved was given back or paid out. *)
Lemma resolved_settled msg :
  Acted msg ∈ os_a → (∀ m, msg ≠ PktRecv m) → key_on_a (packet_of msg) = ends τ →
  packet_of msg ∈ (refunded ++ paid)%list.
Proof.
  intros Hin Hn Hk. rewrite elem_of_app. destruct (refunds msg) eqn:Hr.
  { left. apply elem_of_refunded_here. by exists msg. }
  right. destruct msg as [m|m|m|m]; [by destruct (Hn m)| |done..]. cbn [packet_of refunds] in *.
  destruct (acknowledged_stored m Hin Hk) as [(m' & Hm' & Em) Hst]. rewrite <- Em in Hst |- *.
  assert (key_on_b (recv_packet m') = ends (other τ)) as Hkb.
  { rewrite Em. by apply (resolved_to ends τ _ _ _ _ _ La Pa (PktAck m)). }
  destruct (books_unpaid _ _ _ _ _ _ Hb m' Hm' Hkb) as [?|[err Herr]]; [done|].
  rewrite Herr in Hst. apply (inj Some) in Hst. destruct Hfree as [_ Hfa].
  rewrite (Hfa m (error_ack err)) in Hr; [|apply elem_of_app; by left|right; by exists err|done].
  unfold ack_failed in Hr. destruct (ack_status_from_slice _) as [status|] eqn:Es; [|done].
  by rewrite (ack_status_first_key _ _ Es) in Hr.
Qed.

(** The packets that left are those given back, those paid out, and the pending ones, which
    are not resolved. *)
Lemma settled :
  ∃ pend, sents ≡ₚ (refunded ++ paid) ++ pend ∧ unresolved os_a (ends τ) pend.
Proof.
  assert (base.NoDup (seq_on_a <$> (refunded ++ paid)%list)) as Hnd.
  { rewrite fmap_app. apply list.NoDup_app. split_and!.
    - exact (refunded_here_once ends τ _ _ _ _ _ La).
    - intros n (p & -> & Hp)%list_elem_of_fmap (q & Hs & Hq)%list_elem_of_fmap.
      by apply (refunded_not_paid p q).
    - apply Hb. }
  assert (refunded ++ paid ⊆+ sents) as (pend & Hpend)%submseteq_Permutation.
  { apply NoDup_submseteq; [by eapply NoDup_fmap_1|]. intros p [Hp|Hp]%elem_of_app; [by apply refunded_in_sents|].
    destruct (books_paid _ _ _ _ _ _ Hb p Hp) as (Hk & (m & Hm & <-) & _). by apply delivered_in_sents. }
  assert (base.NoDup (seq_on_a <$> ((refunded ++ paid) ++ pend)%list)) as Hall.
  { rewrite <- Hpend. exact (sent_here_once ends τ _ _ _ _ _ La). }
  rewrite fmap_app in Hall. apply list.NoDup_app in Hall as (_ & Hdis & Hpnd).
  exists pend. split; [done|]. split; [by eapply NoDup_fmap_1|]. intros p Hp.
  assert (p ∈ sents) as Hps by (rewrite Hpend, elem_of_app; by right).
  destruct (proj1 (elem_of_sent_here _ _ _ _) Hps) as [Hsent Hk]. split_and!; [done..|].
  intros (o & q & Ho & Hq & Hs)%elem_of_seqs_at.
  destruct o as [|msg]; [done|].
  assert (∀ m, msg ≠ PktRecv m) as Hn by (by intros m ->).
  assert (q = packet_of msg ∧ key_on_a (packet_of msg) = ends τ) as [-> Hkm].
  { rewrite (surjective_pairing (ends τ)). destruct msg; [by destruct (Hn m)|..]; cbn in Hq; injection Hq as Hq1 Hq2 Hq3; unfold key_on_a; cbn; split; congruence. }
  pose proof (resolved_settled msg Ho Hn Hkm) as Hset.
  apply (Hdis (seq_on_a p)); [|by apply list_elem_of_fmap_2]. rewrite <- Hs. by apply list_elem_of_fmap_2.
Qed.
End settlement.

(** ** The books of two chains *)

Section conservation.
Context `{Unicode, TmTime, !Codec, !CodecLaws, !Sha256}.
Context `{U256Dec, !U256DecLaws, TransferJson, !TransferJsonLaws}.
Context {types_a : ChainTypes} {client_a : @LightClient _ types_a} {frame_a : ClientFrame (H1:=client_a)}.
Context {types_b : ChainTypes} {client_b : @LightClient _ types_b} {frame_b : ClientFrame (H1:=client_b)}.
Context {app_a : Type} {module_a : Module app_a} {app_b : Type} {module_b : Module app_b}.
Context {T_a : Type} {tokens_a : TokenContext T_a} {bank_a : Bank T_a} {laws_a : BankLaws T_a}.
Context {T_b : Type} {tokens_b : TokenContext T_b} {bank_b : Bank T_b} {laws_b : BankLaws T_b}.
Context {ics20_app_a : Ics20App app_a T_a} {ics20_app_b : Ics20App app_b T_b}.

(** Two banks and what is under way, on the two chains at their last step: of each token, the
    escrow of its chain is the vouchers of the other one and the amounts of unresolved packets
    in both directions. *)
Definition backed (ends : side → PortId * ChannelId) (os_a os_b : list obs) (t_a : T_a) (t_b : T_b) : Prop :=
  ∃ pend_a pend_b,
    unresolved os_a (ends SideA) pend_a ∧ unresolved os_b (ends SideB) pend_b
    ∧ (∀ d, source ends SideA d = true →
        Z.of_N (escrowed t_a (ends SideA) d)
        = (Z.of_N (supply t_b (voucher ends SideA d))
           + carry ends SideA d SideA pend_a + carry ends SideA d SideB pend_b)%Z)
    ∧ ∀ d, source ends SideB d = true →
        Z.of_N (escrowed t_b (ends SideB) d)
        = (Z.of_N (supply t_a (voucher ends SideB d))
           + carry ends SideB d SideB pend_b + carry ends SideB d SideA pend_a)%Z.

Lemma chains_backed (ends : side → PortId * ChannelId) ics20_a ics20_b good_a good_b
    prefix_a prefix_b bs_a bs_b os_a os_b st_a st_b :
  FaithfulProofs (lc:=client_a) good_a prefix_b bs_b →
  FaithfulProofs (lc:=client_b) good_b prefix_a bs_a →
  transfer_chain (H1:=client_a) (App:=app_a) (T:=T_a) ends SideA ics20_a (following ends SideA good_a prefix_b bs_b)
    bs_a os_a st_a →
  transfer_chain (H1:=client_b) (App:=app_b) (T:=T_b) ends SideB ics20_b (following ends SideB good_b prefix_a bs_a)
    bs_b os_b st_b →
  collision_free (os_a ++ os_b) →
  ∃ t_a t_b, bank_at ics20_a st_a.2 = Some t_a ∧ bank_at ics20_b st_b.2 = Some t_b ∧ backed ends os_a os_b t_a t_b.
Proof.
  intros Fa Fb Ca Cb Hfree.
  destruct (transfer_chain_books _ _ _ _ _ _ _ Ca) as (t_a & paid_a & Hta & Ba).
  destruct (transfer_chain_books _ _ _ _ _ _ _ Cb) as (t_b & paid_b & Htb & Bb).
  destruct Ca as [(r_a & ? & _ & _ & _ & La) Pa Na]. destruct Cb as [(r_b & ? & _ & _ & _ & Lb) Pb Nb].
  pose proof (life_weaken _ _ _ _ _ _ (λ _ _ _ _ H, proj1 H) La) as La'.
  pose proof (life_weaken _ _ _ _ _ _ (λ _ _ _ _ H, proj1 H) Lb) as Lb'.
  assert (linked (client_a:=client_a) (client_b:=client_b) (app_a:=app_a) (app_b:=app_b) good_a good_b
    prefix_a prefix_b (ends SideA) (ends SideB) bs_a bs_b os_a os_b) as Nab by (split; eauto).
  assert (linked (client_a:=client_b) (client_b:=client_a) (app_a:=app_b) (app_b:=app_a) good_b good_a
    prefix_b prefix_a (ends SideB) (ends SideA) bs_b bs_a os_b os_a) as Nba by (split; eauto).
  destruct (settled _ _ _ _ ends SideA _ _ _ _ Nab _ _ _ _ _ _ La Lb Pa Pb Na Nb Hfree _ _ Bb)
    as (pend_a & Ea & Ua).
  destruct (settled _ _ _ _ ends SideB _ _ _ _ Nba _ _ _ _ _ _ Lb La Pb Pa Nb Na
    (collision_free_comm _ _ Hfree) _ _ Ba) as (pend_b & Eb & Ub).
  exists t_a, t_b. split_and!; [done..|]. exists pend_a, pend_b. split_and!; [done..| |].
  all: intros d Hd; pose proof (books_balance _ _ _ _ _ _ Ba _ d Hd) as Qa;
    pose proof (books_balance _ _ _ _ _ _ Bb _ d Hd) as Qb;
    rewrite Ea, !carry_app in Qa; rewrite Eb, !carry_app in Qb; unfold held in Qa, Qb; cbn [other] in Qa, Qb;
    repeat case_decide; try done; lia.
Qed.

(** C6: Tokens sent between two chains are neither created nor lost.  With linked chains that run
    ICS-20 over a channel, under any messages, transfers on other channels and actions of
    other applications: at any time, of every token of a chain, what the chain holds in escrow
    for the channel is exactly the vouchers on the other chain plus the amounts of packets
    under way in both directions, each of which was sent once and has not been resolved on the
    chain it came from, unless packets or acknowledgements of the histories collide under
    SHA-256.  In particular vouchers never exceed the escrow. *)
Theorem transfer_books_close (ends : side → PortId * ChannelId) ics20_a ics20_b good_a good_b
    prefix_a prefix_b bs_a bs_b os_a os_b st_a st_b :
  FaithfulProofs (lc:=client_a) good_a prefix_b bs_b →
  FaithfulProofs (lc:=client_b) good_b prefix_a bs_a →
  transfer_chain (H1:=client_a) (App:=app_a) (T:=T_a) ends SideA ics20_a (following ends SideA good_a prefix_b bs_b)
    bs_a os_a st_a →
  transfer_chain (H1:=client_b) (App:=app_b) (T:=T_b) ends SideB ics20_b (following ends SideB good_b prefix_a bs_a)
    bs_b os_b st_b →
  collision_free (os_a ++ os_b) →
  ∃ t_a t_b, bank_at ics20_a st_a.2 = Some t_a ∧ bank_at ics20_b st_b.2 = Some t_b
    ∧ backed ends os_a os_b t_a t_b
    ∧ ∀ d, (source ends SideA d = true → supply t_b (voucher ends SideA d) <= escrowed t_a (ends SideA) d)
        ∧ (source ends SideB d = true → supply t_a (voucher ends SideB d) <= escrowed t_b (ends SideB) d).
Proof.
  intros Fa Fb Ca Cb Hfree. destruct (chains_backed _ _ _ _ _ _ _ _ _ _ _ _ _ Fa Fb Ca Cb Hfree) as (t_a & t_b & Ha & Hb & Hbk).
  exists t_a, t_b. split_and!; [done..|]. destruct Hbk as (pend_a & pend_b & _ & _ & Qa & Qb).
  intros d. split; intros Hd; [specialize (Qa d Hd)|specialize (Qb d Hd)].
  - pose proof (carry_nonneg ends SideA d SideA pend_a). pose proof (carry_nonneg ends SideA d SideB pend_b). lia.
  - pose proof (carry_nonneg ends SideB d SideA pend_a). pose proof (carry_nonneg ends SideB d SideB pend_b). lia.
Qed.
End conservation.

(** ** Two Tendermint chains *)

Section tm_transfers.
Context `{TmText, Unicode, !TmCodec, !Codec, !CodecLaws, !Sha256, !Ics23, !Ics23Check, !TmVerifier, !Ics23Laws}.
Context `{U256Dec, !U256DecLaws, TransferJson, !TransferJsonLaws}.

(** A Tendermint client that is created with a header of the other chain follows it. *)
Lemma tm_transfer_chain {App : Type} `{!Module App} {T : Type} `{!TokenContext T, !Bank T, !Ics20App App T}
    (ends : side → PortId * ChannelId) τ ics20 cs id prefix peer bs os st :
  tm_chain cs prefix peer →
  transfer_chain (H1:=tm_client) (App:=App) (T:=T) ends τ ics20
    (set_up cs prefix peer id (ends τ).1 (ends τ).2) bs os st →
  transfer_chain (H1:=tm_client) (App:=App) (T:=T) ends τ ics20
    (following (H1:=tm_client) ends τ (configured cs) prefix (block_of <$> peer)) bs os st.
Proof.
  intros Hchain [(r & t0 & Hb & Ht & Hn & Hl) Hp Hm]. split; [|done..].
  exists r, t0. split_and!; [done..|]. by apply (life_follows cs prefix peer Hchain) in Hl as [? _].
Qed.

Context {app_a : Type} {module_a : Module app_a} {app_b : Type} {module_b : Module app_b}.
Context {T_a : Type} {tokens_a : TokenContext T_a} {bank_a : Bank T_a} {laws_a : BankLaws T_a}.
Context {T_b : Type} {tokens_b : TokenContext T_b} {bank_b : Bank T_b} {laws_b : BankLaws T_b}.
Context {ics20_app_a : Ics20App app_a T_a} {ics20_app_b : Ics20App app_b T_b}.

(** From the verifier of headers to the tokens: two chains with Tendermint clients of each
    other, created with headers of the other chain, back each other's vouchers, if the
    verifier accepts from a header of a chain headers of that chain only, roots commit to
    states, and hashes do not collide. *)
Theorem tm_chains_backed (ends : side → PortId * ChannelId) ics20_a ics20_b cs_a cs_b id_a id_b
    prefix_a prefix_b bs_a bs_b os_a os_b st_a st_b :
  ¬ hash_collision → tm_chain cs_b prefix_a bs_a → tm_chain cs_a prefix_b bs_b →
  transfer_chain (H1:=tm_client) (App:=app_a) (T:=T_a) ends SideA ics20_a
    (set_up cs_a prefix_b bs_b id_a (ends SideA).1 (ends SideA).2) (block_of <$> bs_a) os_a st_a →
  transfer_chain (H1:=tm_client) (App:=app_b) (T:=T_b) ends SideB ics20_b
    (set_up cs_b prefix_a bs_a id_b (ends SideB).1 (ends SideB).2) (block_of <$> bs_b) os_b st_b →
  collision_free (os_a ++ os_b) →
  ∃ t_a t_b, bank_at ics20_a st_a.2 = Some t_a ∧ bank_at ics20_b st_b.2 = Some t_b
    ∧ backed ends os_a os_b t_a t_b.
Proof.
  intros Hno Ha Hb Ca Cb Hfree.
  apply (tm_transfer_chain ends SideA ics20_a cs_a id_a prefix_b bs_b _ _ _ Hb) in Ca.
  apply (tm_transfer_chain ends SideB ics20_b cs_b id_b prefix_a bs_a _ _ _ Ha) in Cb.
  eapply (chains_backed (frame_a:=tm_client_frame) (frame_b:=tm_client_frame)); [| |exact Ca|exact Cb|done].
  - apply (faithful_for cs_a); [done|]. apply Hb.
  - apply (faithful_for cs_b); [done|]. apply Ha.
Qed.
End tm_transfers.
