(* ===== verification/AnyClient.v ===== *)
(** * A chain with clients of two kinds

    The context of the testkit stores [AnyClientState] and [AnyConsensusState]
    ([ibc-testkit/src/testapp/ibc/clients/mod.rs]): sums of the Tendermint and the
    mock states whose traits are generated by the derive macros of [ibc-derive],
    one [match] per method.  [any_client] is the light client they make;
    [any_tm_converter] and [any_mock_converter] are the conversions the two
    clients ask of the context, so that the theorems of [TmSafety] and [Chain]
    hold of the mixed chain.

    A conversion fails when a client reads a consensus state of the other kind.
    [client_kinds_never_mix] shows that no message can make that happen. *)

From S2P Require Import Prelude RustStr Identifiers Primitives Path Connection Channel Context Merkle.
From S2P Require Import ConnHandlers Module ChanHandlers PacketHandlers ClientHandlers MockClient.
From S2P Require Import TmTypes TmClient TmSafety Entrypoint Chain.
Local Open Scope string_scope.
Local Open Scope N_scope.

(** ** The sums *)

Section data.
Context `{TmLib}.

Inductive AnyClientState :=
| CsTendermint (cs : TmClientState)
| CsMock (cs : MockClientState).
Inductive AnyConsensusState :=
| ConsTendermint (cs : TmConsensusState)
| ConsMock (cs : MockConsensusState).

Definition ConsensusStateType_try_from (value : AnyConsensusState) :
    outcome ClientError TmConsensusState :=
  match value with
  | ConsTendermint cs => Ok cs
  | _ => Err (ClientOther "failed to convert AnyConsensusState to TmConsensusState")
  end.
Definition MockConsensusState_try_from_any (value : AnyConsensusState) :
    outcome ClientError MockConsensusState :=
  match value with
  | ConsMock cs => Ok cs
  | _ => Err (ClientOther "failed to convert AnyConsensusState to MockConsensusState")
  end.
End data.

(** The types of [MockContext]: it keeps clients of both kinds, and is itself a
    chain that mock clients follow. *)
Definition any_types `{TmLib} : ChainTypes := {|
  ClientState := AnyClientState;
  ConsensusState := AnyConsensusState;
  HostClientState := MockClientState;
  HostConsensusState := MockConsensusState |}.
#[local] Existing Instance any_types | 0.

#[export] Instance any_tm_converter `{TmLib} : TmConverter (H1:=any_types) | 40 := {|
  client_state_from := CsTendermint : TmClientState → ClientState;
  consensus_state_from := ConsTendermint : TmConsensusState → ConsensusState;
  consensus_state_try_into := ConsensusStateType_try_from : ConsensusState → _ |}.
#[export] Instance any_tm_converter_laws `{TmLib} : TmConverterLaws (H2:=any_tm_converter).
Proof. by split. Qed.
#[export] Instance any_mock_converter `{TmLib} : MockConverter (H0:=any_types) | 40 := {|
  mock_client_state_from := CsMock : MockClientState → ClientState;
  mock_consensus_state_from := ConsMock : MockConsensusState → ConsensusState;
  mock_consensus_state_try_into := MockConsensusState_try_from_any : ConsensusState → _ |}.

Section any.
Context `{TmText, Unicode, !TmCodec, !MockCodec, !Codec, !Ics23, !Ics23Check, !TmVerifier}.

(** ** Conversions from and to [Any] *)

Definition AnyClientState_try_from (raw : Any) : outcome ClientError AnyClientState :=
  if (type_url raw =? TENDERMINT_CLIENT_STATE_TYPE_URL)%string
  then CsTendermint <$> TmClientState_try_from raw
  else if (type_url raw =? MOCK_CLIENT_STATE_TYPE_URL)%string
  then CsMock <$> MockClientState_try_from raw
  else Err (ClientOther "failed to deserialize message").
Definition AnyClientState_into {E} (host_client_state : AnyClientState) : outcome E Any :=
  match host_client_state with
  | CsTendermint cs => Ok (TmClientState_into_any cs)
  | CsMock cs => MockClientState_into cs
  end.

Definition AnyConsensusState_try_from (raw : Any) : outcome ClientError AnyConsensusState :=
  if (type_url raw =? TENDERMINT_CONSENSUS_STATE_TYPE_URL)%string
  then ConsTendermint <$> TmConsensusState_try_from raw
  else if (type_url raw =? MOCK_CONSENSUS_STATE_TYPE_URL)%string
  then ConsMock <$> MockConsensusState_try_from raw
  else Err (ClientOther "failed to deserialize message").
Definition AnyConsensusState_into {E} (host_consensus_state : AnyConsensusState) : outcome E Any :=
  match host_consensus_state with
  | ConsTendermint cs => Ok (TmConsensusState_into_any cs)
  | ConsMock cs => MockConsensusState_into cs
  end.

(** ** [#[derive(ConsensusState)]] *)

Definition any_root (self : AnyConsensusState) : CommitmentRoot :=
  match self with ConsTendermint cs => tc_root cs | ConsMock cs => mcons_root cs end.
Definition any_timestamp (self : AnyConsensusState) : Timestamp :=
  match self with
  | ConsTendermint cs => mkTimestamp (Some (tc_timestamp cs))
  | ConsMock cs => mock_cons_timestamp cs
  end.
Definition any_encode_vec {E} (self : AnyConsensusState) : outcome E bytes :=
  any ← AnyConsensusState_into self; Ok (encode_any any).

(** ** [#[derive(ClientState)]] *)

(** *** [ClientStateCommon] *)

Definition any_verify_consensus_state (self : AnyClientState) (consensus_state : Any) :
    outcome ClientError () :=
  match self with
  | CsTendermint _ => tm_verify_consensus_state consensus_state
  | CsMock _ => mock_verify_consensus_state consensus_state
  end.
Definition any_client_type (self : AnyClientState) : ClientType :=
  match self with CsTendermint _ => tm_client_type | CsMock _ => mock_client_type end.
Definition any_latest_height (self : AnyClientState) : Height :=
  match self with
  | CsTendermint cs => tm_latest_height cs
  | CsMock cs => MockClientState_latest_height cs
  end.
Definition any_validate_proof_height (self : AnyClientState) (proof_height : Height) :
    outcome ClientError () :=
  match self with
  | CsTendermint cs => tm_validate_proof_height cs proof_height
  | CsMock cs => mock_validate_proof_height cs proof_height
  end.
Definition any_verify_upgrade_client (self : AnyClientState) (upgraded_client_state
    upgraded_consensus_state : Any) (proof_upgrade_client proof_upgrade_consensus_state :
    CommitmentProofBytes) (root : CommitmentRoot) : outcome ClientError () :=
  match self with
  | CsTendermint cs => tm_verify_upgrade_client cs upgraded_client_state
      upgraded_consensus_state proof_upgrade_client proof_upgrade_consensus_state root
  | CsMock cs => mock_verify_upgrade_client cs upgraded_client_state
      upgraded_consensus_state proof_upgrade_client proof_upgrade_consensus_state root
  end.
Definition any_verify_membership (self : AnyClientState) (prefix : CommitmentPrefix)
    (proof : CommitmentProofBytes) (root : CommitmentRoot) (path : Path) (value : bytes) :
    outcome ClientError () :=
  match self with
  | CsTendermint cs => tm_verify_membership cs prefix proof root path value
  | CsMock _ => mock_verify_membership prefix proof root path value
  end.
Definition any_verify_non_membership (self : AnyClientState) (prefix : CommitmentPrefix)
    (proof : CommitmentProofBytes) (root : CommitmentRoot) (path : Path) : outcome ClientError () :=
  match self with
  | CsTendermint cs => tm_verify_non_membership cs prefix proof root path
  | CsMock _ => mock_verify_non_membership prefix proof root path
  end.

(** *** [ClientStateValidation] *)

Definition any_verify_client_message (self : AnyClientState) (host : Host) (ctx : IbcStore)
    (client_id : ClientId) (client_message : Any) : outcome ClientError () :=
  match self with
  | CsTendermint cs => tm_verify_client_message cs host ctx client_id client_message
  | CsMock _ => mock_verify_client_message client_message
  end.
Definition any_check_for_misbehaviour (self : AnyClientState) (ctx : IbcStore)
    (client_id : ClientId) (client_message : Any) : outcome ClientError bool :=
  match self with
  | CsTendermint cs => tm_check_for_misbehaviour cs ctx client_id client_message
  | CsMock cs => mock_check_for_misbehaviour cs client_message
  end.
Definition any_status (self : AnyClientState) (host : Host) (ctx : IbcStore)
    (client_id : ClientId) : outcome ClientError Status :=
  match self with
  | CsTendermint cs => tm_status cs host ctx client_id
  | CsMock cs => mock_status cs host ctx client_id
  end.

(** *** [ClientStateExecution] *)

Definition any_initialise (self : AnyClientState) (host : Host) (client_id : ClientId)
    (consensus_state : Any) : exec IbcStore ClientError () :=
  match self with
  | CsTendermint cs => tm_initialise cs host client_id consensus_state
  | CsMock cs => mock_initialise cs host client_id consensus_state
  end.
Definition any_update_state (self : AnyClientState) (host : Host) (client_id : ClientId)
    (header : Any) : exec IbcStore ClientError (list Height) :=
  match self with
  | CsTendermint cs => tm_update_state cs host client_id header
  | CsMock cs => mock_update_state cs host client_id header
  end.
Definition any_update_state_on_misbehaviour (self : AnyClientState) (host : Host)
    (client_id : ClientId) (client_message : Any) : exec IbcStore ClientError () :=
  match self with
  | CsTendermint cs => tm_update_on_misbehaviour cs client_id client_message
  | CsMock cs => mock_update_state_on_misbehaviour cs host client_id client_message
  end.
Definition any_update_state_on_upgrade (self : AnyClientState) (host : Host)
    (client_id : ClientId) (upgraded_client_state upgraded_consensus_state : Any) :
    exec IbcStore ClientError Height :=
  match self with
  | CsTendermint cs =>
    tm_update_on_upgrade cs host client_id upgraded_client_state upgraded_consensus_state
  | CsMock cs =>
    mock_update_state_on_upgrade cs host client_id upgraded_client_state upgraded_consensus_state
  end.

Definition any_client : LightClient := {|
  cons_root := any_root : ConsensusState → _;
  cons_timestamp := any_timestamp : ConsensusState → _;
  client_state_try_from := AnyClientState_try_from : _ → outcome _ ClientState;
  verify_consensus_state := any_verify_consensus_state : ClientState → _;
  client_type := any_client_type : ClientState → _;
  latest_height := any_latest_height : ClientState → _;
  validate_proof_height := any_validate_proof_height : ClientState → _;
  verify_upgrade_client := any_verify_upgrade_client : ClientState → _;
  verify_membership := any_verify_membership : ClientState → _;
  verify_non_membership := any_verify_non_membership : ClientState → _;
  verify_client_message := any_verify_client_message : ClientState → _;
  check_for_misbehaviour (self : ClientState) _ := any_check_for_misbehaviour self;
  status := any_status : ClientState → _;
  initialise := any_initialise : ClientState → _;
  update_state := any_update_state : ClientState → _;
  update_state_on_misbehaviour := any_update_state_on_misbehaviour : ClientState → _;
  update_state_on_upgrade := any_update_state_on_upgrade : ClientState → _;
|}.
End any.

(** ** Theorems *)

(** *** Round trips *)

(** [prost] on the mock messages: what is encoded is decoded. *)
Class MockCodecLaws `{MockCodec} := {
  mock_client_state_codec r : decode_mock_client_state (encode_mock_client_state r) = Ok r;
  mock_consensus_state_codec r :
    decode_mock_consensus_state (encode_mock_consensus_state r) = Ok r;
}.

Section roundtrip.
Context `{TmText, Unicode, !TmCodec, !TmLibLaws, !TmCodecLaws, !TmTimeLaws}.
Context `{!MockCodec, !MockCodecLaws}.

(** Mock headers a message can carry: a set time is not the epoch, which is the
    encoding of an unset one. *)
Definition mock_header_wf (h : MockHeader) : Prop :=
  revision_height (mh_height h) ≠ 0
  ∧ match time (mh_timestamp h) with Some t => unix_nanos t ≠ 0%Z | None => True end.

Definition any_client_state_wf (cs : AnyClientState) : Prop :=
  match cs with CsTendermint cs => client_state_wf cs | CsMock cs => mock_header_wf (mcs_header cs) end.
Definition any_consensus_state_wf (c : AnyConsensusState) : Prop :=
  match c with
  | ConsTendermint _ => True
  | ConsMock c => mock_header_wf (mcons_header c) ∧ mcons_root c = mkCommitmentRoot [Byte.x00]
  end.

Lemma timestamp_raw_roundtrip {E} t n :
  Timestamp_nanoseconds (E:=E) t = Ok n →
  match time t with Some t => unix_nanos t ≠ 0%Z | None => True end →
  Timestamp_from_nanoseconds n = Ok t.
Proof.
  unfold Timestamp_nanoseconds, Timestamp_from_nanoseconds. destruct t as [[t|]]; cbn.
  - destruct ((0 <=? unix_nanos t)%Z && _) eqn:Er; [|done]. intros [= <-] Hne.
    apply andb_true_iff in Er as [Hlo%Z.leb_le Hhi%Z.ltb_lt].
    rewrite (proj2 (N.eqb_neq _ _)) by lia. rewrite Z2N.id by done.
    destruct (of_unix_nanos_u64 (Z.to_N (unix_nanos t))) as [t' Ht'];
      [unfold is_u64; apply N2Z.inj_lt; by rewrite Z2N.id|].
    rewrite Z2N.id in Ht' by done. rewrite Ht'. cbn. apply of_unix_nanos_Some in Ht'.
    do 3 f_equal. by apply unix_nanos_inj.
  - by intros [= <-] _.
Qed.

Lemma MockHeader_raw_roundtrip {E} h r :
  mock_header_wf h → MockHeader_into_raw (E:=E) h = Ok r → MockHeader_try_from_raw r = Ok h.
Proof.
  intros [Hh Ht] Hr. unfold MockHeader_into_raw in Hr. inv_ok. unfold MockHeader_try_from_raw.
  cbn [raw_header_height raw_header_timestamp mbind option_bind].
  rewrite Height_raw_roundtrip by done. mstep. cbn [ok ok_or]. mstep.
  erewrite timestamp_raw_roundtrip by done. by destruct h.
Qed.

Lemma MockClientState_any_roundtrip {E} cs a :
  mock_header_wf (mcs_header cs) → MockClientState_into (E:=E) cs = Ok a →
  MockClientState_try_from a = Ok cs.
Proof.
  intros Hw Ha. unfold MockClientState_into, MockClientState_into_raw in Ha. inv_ok.
  unfold MockClientState_try_from, protobuf_decode. cbn [type_url any_value].
  rewrite String.eqb_refl, mock_client_state_codec. mstep.
  unfold MockClientState_try_from_raw. cbn [raw_cs_header ok_or]. mstep.
  erewrite MockHeader_raw_roundtrip by done. mstep. destruct cs. cbn in *.
  match goal with H : (if _ <? _ then _ else _) = Ok _ |- _ => destruct (_ <? _) in H; [|done] end.
  by simplify_eq.
Qed.

Lemma MockConsensusState_any_roundtrip {E} c a :
  mock_header_wf (mcons_header c) → mcons_root c = mkCommitmentRoot [Byte.x00] →
  MockConsensusState_into (E:=E) c = Ok a → MockConsensusState_try_from a = Ok c.
Proof.
  intros Hw Hr Ha. unfold MockConsensusState_into, MockConsensusState_into_raw in Ha. inv_ok.
  unfold MockConsensusState_try_from, protobuf_decode. cbn [type_url any_value].
  rewrite String.eqb_refl, mock_consensus_state_codec. mstep.
  unfold MockConsensusState_try_from_raw. cbn [raw_cons_header ok_or]. mstep.
  rewrite (MockHeader_raw_roundtrip (E:=E) (mcons_header c)); [|done|].
  - mstep. rewrite <- Hr. by destruct c.
  - unfold MockHeader_into_raw.
    match goal with H : Timestamp_nanoseconds _ = Ok _ |- _ => by rewrite H end.
Qed.

(** A state of either kind that can be encoded is decoded as it was: the type URLs
    keep the two kinds apart, and the encodings of each kind round-trip. *)
Theorem any_states_roundtrip {E} cs c a_cs a_c :
  any_client_state_wf cs → any_consensus_state_wf c →
  AnyClientState_into (E:=E) cs = Ok a_cs → AnyConsensusState_into (E:=E) c = Ok a_c →
  AnyClientState_try_from a_cs = Ok cs ∧ AnyConsensusState_try_from a_c = Ok c.
Proof.
  intros Hw Hwc Ha Hc. split.
  - destruct cs as [cs|cs]; cbn in *.
    + injection Ha as <-. unfold AnyClientState_try_from. cbn [type_url TmClientState_into_any].
      rewrite String.eqb_refl. by rewrite TmClientState_any_roundtrip.
    + pose proof (MockClientState_any_roundtrip _ _ Hw Ha) as Hr.
      unfold MockClientState_into in Ha. inv_ok. unfold AnyClientState_try_from.
      cbn [type_url] in *. by rewrite Hr.
  - destruct c as [c|c]; cbn in *.
    + injection Hc as <-. unfold AnyConsensusState_try_from. cbn [type_url TmConsensusState_into_any].
      rewrite String.eqb_refl. by rewrite TmConsensusState_any_roundtrip.
    + destruct Hwc as [Hw1 Hw2]. pose proof (MockConsensusState_any_roundtrip _ _ Hw1 Hw2 Hc) as Hr.
      unfold MockConsensusState_into in Hc. inv_ok. unfold AnyConsensusState_try_from.
      cbn [type_url] in *. by rewrite Hr.
Qed.
End roundtrip.

(** *** The mixed chain *)

Section kinds.
Context `{TmText, Unicode, !TmCodec, !MockCodec, !Codec, !Ics23, !Ics23Check, !TmVerifier, !Sha256}.
#[local] Existing Instance any_client | 0.

#[export] Instance any_client_frame : ClientFrame.
Proof.
  split; intros [cs|cs] host id a.
  - apply (tm_initialise_within _ id _ cs host a).
  - apply (mock_initialise_within _ id _ cs host a).
  - apply (tm_update_state_within _ id _ cs host a).
  - apply (mock_update_state_within _ id _ cs host a).
  - apply (tm_update_on_misbehaviour_within _ id _ cs a).
  - apply (mock_update_on_misbehaviour_within _ id _ cs host a).
  - intros a2. apply (tm_update_on_upgrade_within _ id _ cs host a a2).
  - intros a2. apply (mock_update_on_upgrade_within _ id _ cs host a a2).
Qed.

Definition cons_client_type (c : AnyConsensusState) : ClientType :=
  match c with ConsTendermint _ => tm_client_type | ConsMock _ => mock_client_type end.

(** The identifier of a client names a kind. *)
Definition named_for (id : ClientId) (t : ClientType) : Prop :=
  ∃ n, id = ClientType_build_client_id t n.
Definition client_named (id : ClientId) (cs : ClientState) : Prop := named_for id (any_client_type cs).
Definition cons_named (id : ClientId) (c : ConsensusState) : Prop := named_for id (cons_client_type c).

Lemma named_for_inj id t t' : named_for id t → named_for id t' → t = t'.
Proof.
  intros [n ->] [n' E%(f_equal client_id_str)]. apply dash_number_inj in E as [E _].
  by destruct t, t'; cbn in E; subst.
Qed.

Lemma new_client_named cs n : client_named (ClientType_build_client_id (client_type cs) n) cs.
Proof. by exists n. Qed.

Lemma any_methods_named cs (host : Host) id :
  client_named id cs →
  let keeps := keeps_states id (client_named id) (cons_named id) in
  (∀ a, within keeps (initialise cs host id a))
  ∧ (∀ a, within keeps (update_state cs host id a))
  ∧ (∀ a, within keeps (update_state_on_misbehaviour cs host id a))
  ∧ (∀ a1 a2, within keeps (update_state_on_upgrade cs host id a1 a2)).
Proof.
  intros Hn keeps. destruct cs as [cs|cs].
  - assert (WritesWithin keeps id CsTendermint ConsTendermint) as HR
      by (apply keeps_states_writes; intros; exact Hn).
    split_and!.
    + intros a. exact (tm_initialise_within _ id HR cs host a).
    + intros a. exact (tm_update_state_within _ id HR cs host a).
    + intros a. exact (tm_update_on_misbehaviour_within _ id HR cs a).
    + intros a a2. exact (tm_update_on_upgrade_within _ id HR cs host a a2).
  - assert (WritesWithin keeps id CsMock ConsMock) as HR
      by (apply keeps_states_writes; intros; exact Hn).
    split_and!.
    + intros a. exact (mock_initialise_within _ id HR cs host a).
    + intros a. exact (mock_update_state_within _ id HR cs host a).
    + intros a. exact (mock_update_on_misbehaviour_within _ id HR cs host a).
    + intros a a2. exact (mock_update_on_upgrade_within _ id HR cs host a a2).
Qed.

Context {App : Type} `{!Module App}.

(** C22: The kinds of clients never mix: in every store the mixed chain reaches, the
    identifier of a client is made from the type of its client state, and all its
    consensus states are of that kind, so that the conversions the client makes
    when it reads them never fail. *)
Theorem client_kinds_never_mix (r : MockRouter App) os st id cs h c :
  chain_run (genesis r) os st →
  client_state st.1 id = Ok cs → consensus_state st.1 (state_path id h) = Ok c →
  (∃ n, id = ClientType_build_client_id (any_client_type cs) n)
  ∧ match cs with
    | CsTendermint _ => ∃ tc, ConsensusStateType_try_from c = Ok tc
    | CsMock _ => ∃ mc, MockConsensusState_try_from_any c = Ok mc
    end.
Proof.
  intros Hr Hcs Hc.
  pose proof (chain_run_states client_named cons_named new_client_named any_methods_named
    r os st Hr id) as Hs.
  apply client_state_Ok in Hcs as (rec & Hrec & Hcs). destruct (Hs rec Hrec) as [Hs1 Hs2].
  apply Hs1 in Hcs. split; [exact Hcs|].
  unfold consensus_state, err_client in Hc. cbn [ccsp_client_id state_path] in Hc.
  rewrite Hrec in Hc. inv_ok.
  assert (cons_named id c) as Hcn.
  { match goal with H : _ = Ok c |- _ =>
      destruct (consensus_states rec !! _) eqn:E in H; inv_ok; by eapply Hs2 end. }
  pose proof (named_for_inj _ _ _ Hcs Hcn) as E. destruct cs, c; cbn in *; eauto; done.
Qed.
End kinds.
