(* ===== verification/Fixtures.v ===== *)
(** * Fixtures of the testkit

    The values ibc-testkit/src/fixtures builds for tests: raw and domain messages of every
    kind, packets, Tendermint and mock client states, and the applications of
    testapp/ibc/applications that agree to everything.  The builders [typed_builder] derives
    are the records of their fields, with the defaults of the attributes as values.

    The theorems are about the [expect("Never fails")] of the fixtures: which arguments make
    a fixture convert to a message and back, and which make it panic. *)

From S2P Require Import Prelude RustStr Identifiers Primitives Path Connection Channel Context.
From S2P Require Import Merkle ConnHandlers Module ChanHandlers PacketHandlers PacketSpec.
From S2P Require Import ClientHandlers MockClient TmTypes Messages NftTypes Denom.
From S2P Require Import NftTransfer Transfer.
Local Open Scope string_scope.
Local Open Scope N_scope.

(** ** Signers and proofs *)

Definition dummy_account_id : Signer := "0CDA3F47EF3C4906693B170EF650EB968C5F4B2C".
Definition dummy_bech32_account : string := "cosmos1wxeyh7zgn4tctjzs0vtqpc6p5cxq5t2muzl7ng".
Definition dummy_proof : bytes := as_bytes "Y29uc2Vuc3VzU3RhdGUvaWJjb25lY2xpZW50LzIy".

Definition dummy_commitment_proof_bytes `{Ics23Check} {E} : outcome E CommitmentProofBytes :=
  let parsed := mkCommitmentProof None in
  let mproofs := [parsed] in
  let raw_mp := mkRawMerkleProof mproofs in
  expect (CommitmentProofBytes_from_raw raw_mp).

(** ** Connections *)

Record CounterpartyConfig := mkCounterpartyConfig {
  ccfg_client_id : string; ccfg_connection_id : string; ccfg_prefix : option bytes }.
Definition CounterpartyConfig_default : CounterpartyConfig :=
  mkCounterpartyConfig "07-tendermint-0" "connection-0" (Some (as_bytes "ibc")).
Definition RawConnCounterparty_from (config : CounterpartyConfig) : RawConnCounterparty :=
  mkRawConnCounterparty (ccfg_client_id config) (ccfg_connection_id config) (ccfg_prefix config).

Definition dummy_raw_counterparty_conn (conn_id : option N) : RawConnCounterparty :=
  let connection_id := match conn_id with
                       | Some id => connection_id_str (ConnectionId_new id)
                       | None => ""
                       end in
  mkRawConnCounterparty "07-tendermint-0" connection_id (Some (as_bytes "ibc")).

Definition raw_version_from_identifier (identifier : string) : option RawVersion :=
  if (identifier =? "")%string then None else Some (mkRawVersion identifier []).

(** [ConnectionVersion::compatibles()[0].clone().into()] *)
Definition dummy_raw_version : option RawVersion := Version_into <$> head compatibles.

Definition dummy_raw_msg_conn_open_init : RawMsgConnectionOpenInit :=
  mkRawMsgConnectionOpenInit "07-tendermint-0" (Some (dummy_raw_counterparty_conn None))
    dummy_raw_version 0 dummy_bech32_account.

Section connections.
Context `{MockCodec, Unicode} {E : Type}.

Definition dummy_msg_conn_open_init : outcome E MsgConnectionOpenInit :=
  expect (MsgConnectionOpenInit_try_from dummy_raw_msg_conn_open_init).
Definition dummy_msg_conn_open_init_with_client_id (msg : MsgConnectionOpenInit)
    (client_id : ClientId) : MsgConnectionOpenInit :=
  mkMsgConnectionOpenInit client_id (coi_counterparty msg) (coi_version msg) (coi_delay_period msg)
    (coi_signer msg).
Definition msg_conn_open_init_with_counterparty_conn_id (msg : MsgConnectionOpenInit)
    (counterparty_conn_id : N) : outcome E MsgConnectionOpenInit :=
  counterparty ← expect (ConnCounterparty_try_from
    (dummy_raw_counterparty_conn (Some counterparty_conn_id)));
  Ok (mkMsgConnectionOpenInit (coi_client_id_on_a msg) counterparty (coi_version msg)
        (coi_delay_period msg) (coi_signer msg)).
Definition msg_conn_open_with_version (msg : MsgConnectionOpenInit) (identifier : option string) :
    outcome E MsgConnectionOpenInit :=
  version ← match identifier with
            | Some v => Some <$> expect (Version_try_from (mkRawVersion v []))
            | None => Ok None
            end;
  Ok (mkMsgConnectionOpenInit (coi_client_id_on_a msg) (coi_counterparty msg) version
        (coi_delay_period msg) (coi_signer msg)).

(** The mock client state both later messages carry. *)
Definition dummy_client_state (consensus_height : N) : outcome E Any :=
  client_state_height ← expect (Height_new 0 consensus_height);
  MockClientState_into (MockClientState_new (MockHeader_new client_state_height)).

Definition dummy_raw_msg_conn_open_try (proof_height consensus_height : N) :
    outcome E RawMsgConnectionOpenTry :=
  client_state ← dummy_client_state consensus_height;
  Ok (mkRawMsgConnectionOpenTry "07-tendermint-0" (connection_id_str (ConnectionId_new 0))
        (Some client_state) (Some (dummy_raw_counterparty_conn (Some 0))) 0
        (Version_into <$> compatibles) (Some (mkRawHeight 0 proof_height)) dummy_proof dummy_proof
        dummy_proof (Some (mkRawHeight 0 consensus_height)) dummy_bech32_account []).
Definition dummy_msg_conn_open_try (proof_height consensus_height : N) :
    outcome E MsgConnectionOpenTry :=
  raw ← dummy_raw_msg_conn_open_try proof_height consensus_height;
  expect (MsgConnectionOpenTry_try_from raw).
Definition msg_conn_open_try_with_client_id (msg : MsgConnectionOpenTry) (client_id : ClientId) :
    MsgConnectionOpenTry :=
  mkMsgConnectionOpenTry client_id (cot_client_state_of_b_on_a msg) (cot_counterparty msg)
    (cot_versions_on_a msg) (cot_proof_conn_end_on_a msg) (cot_proof_client_state_of_b_on_a msg)
    (cot_proof_consensus_state_of_b_on_a msg) (cot_proofs_height_on_a msg)
    (cot_consensus_height_of_b_on_a msg) (cot_delay_period msg) (cot_signer msg)
    (cot_proof_consensus_state_of_b msg) (cot_previous_connection_id msg).

Definition dummy_raw_msg_conn_open_ack (proof_height consensus_height : N) :
    outcome E RawMsgConnectionOpenAck :=
  client_state ← dummy_client_state consensus_height;
  Ok (mkRawMsgConnectionOpenAck (connection_id_str (ConnectionId_new 0))
        (connection_id_str (ConnectionId_new 1)) (Some client_state)
        (Some (mkRawHeight 0 proof_height)) dummy_proof dummy_proof dummy_proof
        (Some (mkRawHeight 0 consensus_height)) dummy_raw_version dummy_bech32_account []).
Definition dummy_msg_conn_open_ack (proof_height consensus_height : N) :
    outcome E MsgConnectionOpenAck :=
  raw ← dummy_raw_msg_conn_open_ack proof_height consensus_height;
  expect (MsgConnectionOpenAck_try_from raw).

Definition dummy_raw_msg_conn_open_confirm : RawMsgConnectionOpenConfirm :=
  mkRawMsgConnectionOpenConfirm "srcconnection" dummy_proof (Some (mkRawHeight 0 10))
    dummy_bech32_account.
Definition dummy_conn_open_confirm : outcome E MsgConnectionOpenConfirm :=
  expect (MsgConnectionOpenConfirm_try_from dummy_raw_msg_conn_open_confirm).
End connections.

(** ** Channels *)

Definition dummy_raw_counterparty_chan (channel_id : string) : RawChanCounterparty :=
  mkRawChanCounterparty (port_id_str PortId_transfer) channel_id.
Definition dummy_raw_channel_end (state : Z) (channel_id : option N) : RawChannel :=
  let channel_id := match channel_id with
                    | Some id => channel_id_str (ChannelId_new id)
                    | None => ""
                    end in
  mkRawChannel state 2 (Some (dummy_raw_counterparty_chan channel_id))
    [connection_id_str (ConnectionId_new 0)] "" 0.

Definition dummy_raw_msg_chan_open_init (counterparty_channel_id : option N) : RawMsgChannelOpenInit :=
  mkRawMsgChannelOpenInit (port_id_str PortId_transfer)
    (Some (dummy_raw_channel_end 1 counterparty_channel_id)) dummy_bech32_account.
Definition dummy_raw_msg_chan_open_try (proof_height : N) : RawMsgChannelOpenTry :=
  mkRawMsgChannelOpenTry (port_id_str PortId_transfer) "" (Some (dummy_raw_channel_end 2 (Some 0))) ""
    dummy_proof (Some (mkRawHeight 0 proof_height)) dummy_bech32_account.
Definition dummy_raw_msg_chan_open_ack (proof_height : N) : RawMsgChannelOpenAck :=
  mkRawMsgChannelOpenAck (port_id_str PortId_transfer) (channel_id_str (ChannelId_new 0))
    (channel_id_str (ChannelId_new 0)) "" dummy_proof (Some (mkRawHeight 0 proof_height))
    dummy_bech32_account.
Definition dummy_raw_msg_chan_open_confirm (proof_height : N) : RawMsgChannelOpenConfirm :=
  mkRawMsgChannelOpenConfirm (port_id_str PortId_transfer) (channel_id_str (ChannelId_new 0))
    dummy_proof (Some (mkRawHeight 0 proof_height)) dummy_bech32_account.
Definition dummy_raw_msg_chan_close_init : RawMsgChannelCloseInit :=
  mkRawMsgChannelCloseInit (port_id_str PortId_transfer) (channel_id_str (ChannelId_new 0))
    dummy_bech32_account.
Definition dummy_raw_msg_chan_close_confirm (proof_height : N) : RawMsgChannelCloseConfirm :=
  mkRawMsgChannelCloseConfirm (port_id_str PortId_transfer) (channel_id_str (ChannelId_new 0))
    dummy_proof (Some (mkRawHeight 0 proof_height)) dummy_bech32_account 0.

(** ** Packets *)

Definition dummy_raw_packet (timeout_height timeout_timestamp : N) : RawPacket :=
  mkRawPacket 1 (port_id_str PortId_transfer) (channel_id_str (ChannelId_new 0))
    (port_id_str PortId_transfer) (channel_id_str (ChannelId_new 0)) [Byte.x00]
    (Some (mkRawHeight 0 timeout_height)) timeout_timestamp.

Definition dummy_raw_msg_ack_with_packet (packet : RawPacket) (height : N) : RawMsgAcknowledgement :=
  mkRawMsgAcknowledgement (Some packet) dummy_proof dummy_proof (Some (mkRawHeight 0 height))
    dummy_bech32_account.
Definition dummy_raw_msg_acknowledgement (height : N) : RawMsgAcknowledgement :=
  dummy_raw_msg_ack_with_packet (dummy_raw_packet height 1) height.
Definition dummy_raw_msg_timeout (proof_height timeout_height timeout_timestamp : N) : RawMsgTimeout :=
  mkRawMsgTimeout (Some (dummy_raw_packet timeout_height timeout_timestamp)) dummy_proof
    (Some (mkRawHeight 0 proof_height)) 1 dummy_bech32_account.
Definition dummy_raw_msg_timeout_on_close (height timeout_timestamp : N) : RawMsgTimeoutOnClose :=
  mkRawMsgTimeoutOnClose (Some (dummy_raw_packet height timeout_timestamp)) dummy_proof dummy_proof
    (Some (mkRawHeight 0 height)) 1 dummy_bech32_account 0.

Section packets.
Context `{TmTime}.

Record PacketConfig := mkPacketConfig {
  pcfg_seq_on_a : Sequence;
  pcfg_port_id_on_a : PortId;
  pcfg_chan_id_on_a : ChannelId;
  pcfg_port_id_on_b : PortId;
  pcfg_chan_id_on_b : ChannelId;
  pcfg_data : bytes;
  pcfg_timeout_height_on_b : TimeoutHeight;
  pcfg_timeout_timestamp_on_b : Timestamp }.
Definition PacketConfig_default : PacketConfig :=
  mkPacketConfig 0 PortId_transfer (ChannelId_new 0) PortId_transfer (ChannelId_new 0) [] Never
    Timestamp_none.
Definition Packet_from_config (config : PacketConfig) : Packet :=
  mkPacket (pcfg_seq_on_a config) (pcfg_port_id_on_a config) (pcfg_chan_id_on_a config)
    (pcfg_port_id_on_b config) (pcfg_chan_id_on_b config) (pcfg_data config)
    (pcfg_timeout_height_on_b config) (pcfg_timeout_timestamp_on_b config).

Definition dummy_msg_recv_packet (packet : Packet) (proof_commitment_on_a : CommitmentProofBytes)
    (proof_height_on_a : Height) (signer : Signer) : MsgRecvPacket :=
  mkMsgRecvPacket packet proof_commitment_on_a proof_height_on_a signer.
(** [now] is what [Timestamp::now()] returns. *)
Definition dummy_raw_msg_recv_packet {E} (now : Timestamp) (height : N) : outcome E RawMsgRecvPacket :=
  timestamp ← expect (Timestamp_add now (Duration_from_secs 9));
  nanoseconds ← Timestamp_nanoseconds timestamp;
  Ok (mkRawMsgRecvPacket (Some (dummy_raw_packet height nanoseconds)) dummy_proof
        (Some (mkRawHeight 0 height)) dummy_bech32_account).
End packets.

(** ** Clients *)

Definition dummy_new_mock_header `{TmTime} {E} (revision_height : N) : outcome E MockHeader :=
  height ← expect (Height_new 0 revision_height);
  Ok (MockHeader_new height).

Section upgrades.
Context `{MockCodec, Unicode, Ics23Check} {E : Type}.

Definition dummy_msg_upgrade_client (client_id : ClientId) (upgrade_height : Height) :
    outcome E MsgUpgradeClient :=
  client_state ← MockClientState_into (MockClientState_new (MockHeader_new upgrade_height));
  consensus_state ← MockConsensusState_into (MockConsensusState_new (MockHeader_new upgrade_height));
  proof_client ← dummy_commitment_proof_bytes;
  proof_consensus ← dummy_commitment_proof_bytes;
  Ok (mkMsgUpgradeClient client_id client_state consensus_state proof_client proof_consensus
        dummy_account_id).
Definition dummy_raw_msg_upgrade_client : outcome E RawMsgUpgradeClient :=
  let client_id := "07-tendermint-0" in
  upgrade_height ← expect (Height_new 0 10);
  client_state ← MockClientState_into (MockClientState_new (MockHeader_new upgrade_height));
  consensus_state ← MockConsensusState_into (MockConsensusState_new (MockHeader_new upgrade_height));
  proof_client ← dummy_commitment_proof_bytes;
  proof_consensus ← dummy_commitment_proof_bytes;
  Ok (mkRawMsgUpgradeClient client_id (Some client_state) (Some consensus_state)
        (proof_bytes proof_client) (proof_bytes proof_consensus) dummy_bech32_account).
End upgrades.

(** [ics23::iavl_spec] and [ics23::tendermint_spec]. *)
Class CosmosSpecs := { iavl_spec : RawProofSpec; tendermint_spec : RawProofSpec }.
Definition ProofSpecs_cosmos `{CosmosSpecs} : ProofSpecs := ProofSpecs_from [iavl_spec; tendermint_spec].

Section tendermint.
Context `{Unicode, TmText, CosmosSpecs}.

Definition dummy_raw_tm_client_state {E} (frozen_height : RawHeight) : outcome E RawTmClientState :=
  chain ← expect (ChainId_new "ibc-0");
  latest_height ← expect (Height_new 0 10);
  Ok (mkRawTmClientState (chain_id chain) (Some (mkFraction 1 3))
        (Some (duration_into (Duration_from_secs 64000)))
        (Some (duration_into (Duration_from_secs 128000)))
        (Some (duration_into (3000 * 1000000))) (Some frozen_height)
        (Some (Height_into_raw latest_height)) (RawProofSpecs_from ProofSpecs_cosmos) [] false false).
Definition dummy_tm_client_state_from_raw (frozen_height : RawHeight) : outcome TmError TmClientState :=
  raw ← dummy_raw_tm_client_state frozen_height;
  TmClientState_try_from_raw raw.

(** [tendermint::block::Header] is the header of a signed one. *)
Definition dummy_tm_client_state_from_header {E} (tm_header : SignedHeader) : outcome E TmClientState :=
  chain_id ← expect (ChainId_from_str (sh_chain_id tm_header));
  latest_height ← expect (Height_new (revision_number chain_id) (sh_height tm_header));
  expect (TmClientState_new chain_id TrustThreshold_ONE_THIRD (Duration_from_secs 64000)
    (Duration_from_secs 128000) (3000 * 1000000) latest_height ProofSpecs_cosmos []
    (mkAllowUpdate false false)).

Record ClientStateConfig := mkClientStateConfig {
  cscfg_chain_id : ChainId;
  cscfg_trust_level : TrustThreshold;
  cscfg_trusting_period : Duration;
  cscfg_unbonding_period : Duration;
  cscfg_max_clock_drift : Duration;
  cscfg_latest_height : Height;
  cscfg_proof_specs : ProofSpecs;
  cscfg_upgrade_path : list string;
  cscfg_allow_update : AllowUpdate }.
(** The two fields without a default are arguments. *)
Definition ClientStateConfig_default (chain_id : ChainId) (latest_height : Height) : ClientStateConfig :=
  mkClientStateConfig chain_id TrustThreshold_ONE_THIRD (Duration_from_secs 64000)
    (Duration_from_secs 128000) (3000 * 1000000) latest_height ProofSpecs_cosmos []
    (mkAllowUpdate false false).
Definition TmClientState_from_config (config : ClientStateConfig) : outcome TmError TmClientState :=
  TmClientState_new (cscfg_chain_id config) (cscfg_trust_level config) (cscfg_trusting_period config)
    (cscfg_unbonding_period config) (cscfg_max_clock_drift config) (cscfg_latest_height config)
    (cscfg_proof_specs config) (cscfg_upgrade_path config) (cscfg_allow_update config).

(** [shdr] is the signed header of tests/data/json/signed_header.json as tendermint reads it,
    [vs] the set of the one validator that tendermint builds. *)
Definition dummy_ics07_header (shdr : SignedHeader) (vs : ValidatorSet) : TmHeader :=
  mkTmHeader shdr vs (Height_min 0) vs.

Context `{!TmCodec}.
Definition dummy_raw_msg_create_client {E} (tm_header : SignedHeader) : outcome E RawMsgCreateClient :=
  tm_client_state ← dummy_tm_client_state_from_header tm_header;
  Ok (mkRawMsgCreateClient (Some (TmClientState_into_any tm_client_state))
        (Some (TmConsensusState_into_any (TmConsensusState_from_block tm_header)))
        dummy_bech32_account).
Definition dummy_raw_msg_update_client (shdr : SignedHeader) (vs : ValidatorSet) : RawMsgUpdateClient :=
  let client_id := "07-tendermint-0" in
  let tm_header := dummy_ics07_header shdr vs in
  mkRawMsgUpdateClient client_id (Some (TmHeader_into_any tm_header)) dummy_bech32_account.
End tendermint.

(** ** Transfers *)

Section transfers.
Context `{TmTime, Unicode, U256Dec, TransferJson}.

Record MsgTransferConfig := mkMsgTransferConfig {
  tcfg_port_id_on_a : PortId;
  tcfg_chan_id_on_a : ChannelId;
  tcfg_packet_data : PacketData;
  tcfg_timeout_height_on_b : TimeoutHeight;
  tcfg_timeout_timestamp_on_b : Timestamp }.
Definition MsgTransferConfig_default (packet_data : PacketData) : MsgTransferConfig :=
  mkMsgTransferConfig PortId_transfer (ChannelId_new 0) packet_data Never Timestamp_none.
Definition MsgTransfer_from_config (config : MsgTransferConfig) : MsgTransfer :=
  mkMsgTransfer (tcfg_port_id_on_a config) (tcfg_chan_id_on_a config) (tcfg_packet_data config)
    (tcfg_timeout_height_on_b config) (tcfg_timeout_timestamp_on_b config).

Definition extract_transfer_packet (msg : MsgTransfer) (sequence : Sequence) : Packet :=
  let data := packet_data_to_vec (packet_data msg) in
  mkPacket sequence (mt_port_id_on_a msg) (mt_chan_id_on_a msg) PortId_transfer (ChannelId_new 0) data
    (mt_timeout_height_on_b msg) (mt_timeout_timestamp_on_b msg).

Record PacketDataConfig := mkPacketDataConfig {
  pdcfg_token : PrefixedCoin; pdcfg_sender : Signer; pdcfg_receiver : Signer; pdcfg_memo : Memo }.
Definition PacketDataConfig_default (token : PrefixedCoin) : PacketDataConfig :=
  mkPacketDataConfig token dummy_account_id dummy_account_id (mkMemo "").
Definition PacketData_from_config (config : PacketDataConfig) : PacketData :=
  mkPacketData (pdcfg_token config) (pdcfg_sender config) (pdcfg_receiver config) (pdcfg_memo config).
End transfers.

(** ** Applications that agree to everything *)

(** [DummyTransferModule] has no fields: its state is the unit, as a module and as a bank.
    What it does not write out, the traits default. *)
Definition DummyTransferModule_module `{TmTime} : Module () := null_module.
Definition DummyNftTransferModule_module `{TmTime} : Module () := null_module.

Definition DummyTransferModule_bank `{TmTime} : TokenContext () := {|
  AccountId := Signer;
  account_try_from signer := Some signer;
  get_port _ := Ok PortId_transfer;
  can_send_coins _ := Ok tt;
  can_receive_coins _ := Ok tt;
  escrow_coins_validate _ _ _ _ _ _ := Ok tt;
  unescrow_coins_validate _ _ _ _ _ := Ok tt;
  mint_coins_validate _ _ _ := Ok tt;
  burn_coins_validate _ _ _ _ := Ok tt;
  denom_hash_string _ _ := None;
  escrow_coins_execute _ _ _ _ _ := mret tt;
  unescrow_coins_execute _ _ _ _ := mret tt;
  mint_coins_execute _ _ := mret tt;
  burn_coins_execute _ _ _ := mret tt;
|}.

Section nfts.
Context `{TmTime, HttpUri, Unicode}.

Record DummyNft := mkDummyNft {
  dn_class_id : ClassId; dn_token_id : TokenId; dn_token_uri : option TokenUri;
  dn_token_data : option TokenData }.
Record DummyNftClass := mkDummyNftClass {
  dc_class_id : ClassId; dc_class_uri : option ClassUri; dc_class_data : option ClassData }.

Definition quote : string := String (Ascii.ascii_of_N 34) EmptyString.
Definition DUMMY_DATA : string :=
  let q s := quote ++ s ++ quote in
  "{" ++ q "name" ++ ":{" ++ q "value" ++ ":" ++ q "Crypto Creatures" ++ "}," ++ q "image" ++ ":{"
  ++ q "value" ++ ":" ++ q "binary" ++ "," ++ q "mime" ++ ":" ++ q "image/png" ++ "}}".

Definition DummyNft_default {E} : outcome E DummyNft :=
  class_id ← expect (ClassId_from_str "class_0");
  token_id ← expect (TokenId_from_str "token_0");
  token_uri ← expect (TokenUri_from_str "http://example.com");
  token_data ← expect (TokenData_from_str DUMMY_DATA);
  Ok (mkDummyNft class_id token_id (Some token_uri) (Some token_data)).
Definition DummyNftClass_default {E} : outcome E DummyNftClass :=
  class_id ← expect (ClassId_from_str "class_0");
  class_uri ← expect (ClassUri_from_str "http://example.com");
  class_data ← expect (ClassData_from_str DUMMY_DATA);
  Ok (mkDummyNftClass class_id (Some class_uri) (Some class_data)).

Definition DummyNftTransferModule_nfts : NftTransferContext () := {|
  NftTransfer.AccountId := Signer;
  NftTransfer.account_try_from signer := Some signer;
  Nft := DummyNft;
  nft_class_id := dn_class_id;
  nft_id := dn_token_id;
  nft_uri := dn_token_uri;
  nft_data := dn_token_data;
  NftClass := DummyNftClass;
  nft_class_get_id := dc_class_id;
  nft_class_uri := dc_class_uri;
  nft_class_data := dc_class_data;
  NftTransfer.get_port _ := Ok PortId_transfer;
  can_send_nft _ := Ok tt;
  can_receive_nft _ := Ok tt;
  create_or_update_class_validate _ _ _ _ := Ok tt;
  escrow_nft_validate _ _ _ _ _ _ _ := Ok tt;
  unescrow_nft_validate _ _ _ _ _ _ := Ok tt;
  mint_nft_validate _ _ _ _ _ _ := Ok tt;
  burn_nft_validate _ _ _ _ _ := Ok tt;
  token_hash_string _ _ _ := None;
  get_nft _ _ _ := DummyNft_default;
  get_nft_class _ _ := DummyNftClass_default;
  create_or_update_class_execute _ _ _ := mret tt;
  escrow_nft_execute _ _ _ _ _ _ := mret tt;
  unescrow_nft_execute _ _ _ _ _ := mret tt;
  mint_nft_execute _ _ _ _ _ := mret tt;
  burn_nft_execute _ _ _ _ := mret tt;
|}.
End nfts.

(** ** Theorems *)

(** A raw message converts to a message that converts back to it, as the tests
    [to_and_from] check. *)
Definition to_and_from {R M E} (try_from : R → outcome E M) (from : M → R) (raw : R) : Prop :=
  ∃ m, try_from raw = Ok m ∧ from m = raw.

Section theorems.
Context `{MockCodec, Unicode}.

(** The fixtures of the connection handshake convert, and back, for every proof height and
    consensus height but zero, where those that take heights panic. *)
Theorem dummy_connection_messages (p c : N) :
  to_and_from MsgConnectionOpenInit_try_from RawMsgConnectionOpenInit_from dummy_raw_msg_conn_open_init
  ∧ to_and_from MsgConnectionOpenConfirm_try_from RawMsgConnectionOpenConfirm_from
      dummy_raw_msg_conn_open_confirm
  ∧ (if (p =? 0) || (c =? 0) then
       dummy_msg_conn_open_try (E:=Empty_set) p c = Panic ∧ dummy_msg_conn_open_ack (E:=Empty_set) p c = Panic
     else
       (∃ m, dummy_msg_conn_open_try (E:=Empty_set) p c = Ok m
          ∧ dummy_raw_msg_conn_open_try (E:=Empty_set) p c = Ok (RawMsgConnectionOpenTry_from m))
       ∧ (∃ m, dummy_msg_conn_open_ack (E:=Empty_set) p c = Ok m
          ∧ dummy_raw_msg_conn_open_ack (E:=Empty_set) p c = Ok (RawMsgConnectionOpenAck_from m))).
Proof.
  split_and!; [by eexists..|].
  unfold dummy_msg_conn_open_try, dummy_msg_conn_open_ack, dummy_raw_msg_conn_open_try, dummy_raw_msg_conn_open_ack.
  destruct c as [|c]; [by destruct p|]. destruct p as [|p]; [done|]. cbn [N.eqb orb]. split; by eexists.
Qed.

(** The fixtures of the channel handshake: the first message converts when no channel of the
    counterparty is named, and the others when the height of the proof is not zero. *)
Theorem dummy_channel_messages (channel_id_debug : option ChannelId → string) (n p : N) :
  let open_init := dummy_raw_msg_chan_open_init in
  to_and_from (MsgChannelOpenInit_try_from channel_id_debug) RawMsgChannelOpenInit_from (open_init None)
  ∧ (is_u64 n → ∃ e, MsgChannelOpenInit_try_from channel_id_debug (open_init (Some n)) = Err e)
  ∧ to_and_from MsgChannelCloseInit_try_from RawMsgChannelCloseInit_from dummy_raw_msg_chan_close_init
  ∧ (if p =? 0 then
       MsgChannelOpenTry_try_from (dummy_raw_msg_chan_open_try p) = Err ChanMissingHeight
       ∧ MsgChannelOpenAck_try_from (dummy_raw_msg_chan_open_ack p) = Err ChanMissingHeight
       ∧ MsgChannelOpenConfirm_try_from (dummy_raw_msg_chan_open_confirm p) = Err ChanMissingHeight
       ∧ MsgChannelCloseConfirm_try_from (dummy_raw_msg_chan_close_confirm p) = Err ChanMissingHeight
     else
       to_and_from MsgChannelOpenTry_try_from RawMsgChannelOpenTry_from (dummy_raw_msg_chan_open_try p)
       ∧ to_and_from MsgChannelOpenAck_try_from RawMsgChannelOpenAck_from (dummy_raw_msg_chan_open_ack p)
       ∧ to_and_from MsgChannelOpenConfirm_try_from RawMsgChannelOpenConfirm_from
           (dummy_raw_msg_chan_open_confirm p)
       ∧ to_and_from MsgChannelCloseConfirm_try_from RawMsgChannelCloseConfirm_from
           (dummy_raw_msg_chan_close_confirm p)).
Proof.
  cbv zeta. split_and!; [by eexists| |by eexists|].
  - intros Hn. assert (ChanCounterparty_try_from (dummy_raw_counterparty_chan (channel_id_str (ChannelId_new n)))
      = Ok (mkChanCounterparty PortId_transfer (Some (ChannelId_new n)))) as Hc.
    { destruct (generated_ids_valid n n Hn) as (_ & Hv & _). unfold ChanCounterparty_try_from.
      cbn [dummy_raw_counterparty_chan raw_rem_channel_id raw_rem_port_id]. rewrite Hv. done. }
    unfold MsgChannelOpenInit_try_from, ChannelEnd_try_from. eexists.
    cbn -[ChanCounterparty_try_from dummy_raw_counterparty_chan ChannelId_new ConnectionId_from_str].
    rewrite Hc. done.
  - destruct p as [|p]; split_and!; (done || by eexists).
Qed.

Context `{!TmTimeLaws}.

(** The packet of the fixtures converts, and back, when one of its timeouts is set. *)
Lemma dummy_packet_converts (h ts : N) :
  is_u64 ts →
  if (h =? 0) && (ts =? 0) then Packet_try_from (dummy_raw_packet h ts) = Err MissingTimeout
  else ∃ p, Packet_try_from (dummy_raw_packet h ts) = Ok p
         ∧ ∀ E, Packet_into (E:=E) p = Ok (dummy_raw_packet h ts).
Proof.
  intros Hts. destruct (timestamp_nanoseconds_roundtrip ts ts Hts Hts) as (t & ? & Ht & _ & Hn & Hset & _).
  assert (∀ E, Timestamp_nanoseconds (E:=E) t = Ok ts) as Hany by (intros E; by eapply Timestamp_nanoseconds_any).
  unfold Packet_try_from, Packet_into. cbn [dummy_raw_packet raw_timeout_timestamp]. rewrite Ht. clear Ht.
  destruct h as [|h].
  - cbn [N.eqb andb]. destruct (ts =? 0); cbn -[Timestamp_is_set]; rewrite Hset; [done|].
    eexists. split; [done|]. intros E. cbn [timeout_timestamp_on_b]. by rewrite Hany.
  - cbn [N.eqb andb]. eexists. split; [done|]. intros E. cbn [timeout_timestamp_on_b]. by rewrite Hany.
Qed.

Lemma dummy_packet_or (h ts : N) :
  is_u64 ts →
  if (h =? 0) && (ts =? 0) then packet_or (Some (dummy_raw_packet h ts)) = Err MissingTimeout
  else ∃ p, packet_or (Some (dummy_raw_packet h ts)) = Ok p
         ∧ ∀ E, Packet_into (E:=E) p = Ok (dummy_raw_packet h ts).
Proof. apply dummy_packet_converts. Qed.

(** The fixtures of packet messages convert, and back, when the height of the proof is not
    zero and the packet has a timeout. *)
Theorem dummy_packet_messages (p h ts : N) :
  is_u64 ts →
  (if (h =? 0) && (ts =? 0) then
     MsgTimeout_try_from (dummy_raw_msg_timeout p h ts) = Err MissingTimeout
     ∧ MsgTimeoutOnClose_try_from (dummy_raw_msg_timeout_on_close h ts) = Err MissingTimeout
   else
     (if p =? 0 then MsgTimeout_try_from (dummy_raw_msg_timeout p h ts) = Err PktMissingHeight
      else ∃ m, MsgTimeout_try_from (dummy_raw_msg_timeout p h ts) = Ok m
             ∧ ∀ E, RawMsgTimeout_from (E:=E) m = Ok (dummy_raw_msg_timeout p h ts))
     ∧ (if h =? 0 then MsgTimeoutOnClose_try_from (dummy_raw_msg_timeout_on_close h ts) = Err PktMissingHeight
        else ∃ m, MsgTimeoutOnClose_try_from (dummy_raw_msg_timeout_on_close h ts) = Ok m
               ∧ ∀ E, RawMsgTimeoutOnClose_from (E:=E) m = Ok (dummy_raw_msg_timeout_on_close h ts)))
  ∧ (if h =? 0 then MsgAcknowledgement_try_from (dummy_raw_msg_acknowledgement h) = Err PktMissingHeight
     else ∃ m, MsgAcknowledgement_try_from (dummy_raw_msg_acknowledgement h) = Ok m
            ∧ ∀ E, RawMsgAcknowledgement_from (E:=E) m = Ok (dummy_raw_msg_acknowledgement h)).
Proof.
  intros Hts. pose proof (dummy_packet_or h ts Hts) as Hp. pose proof (dummy_packet_or h 1 eq_refl) as Hack.
  rewrite andb_false_r in Hack. destruct Hack as (pa & Hpa & Hba).
  unfold MsgTimeout_try_from, MsgTimeoutOnClose_try_from, MsgAcknowledgement_try_from.
  split.
  - destruct (_ && _).
    + cbn -[packet_or]. rewrite Hp. done.
    + destruct Hp as (pk & Hpk & Hb). cbn -[packet_or Packet_into]. rewrite Hpk. split.
      * destruct p as [|p]; [done|]. eexists. split; [done|]. intros E.
        unfold RawMsgTimeout_from. cbn [to_packet]. by rewrite Hb.
      * destruct h as [|h]; [done|]. eexists. split; [done|]. intros E.
        unfold RawMsgTimeoutOnClose_from. cbn [toc_packet]. by rewrite Hb.
  - cbn -[packet_or Packet_into]. rewrite Hpa.
    destruct h as [|h]; [done|]. eexists. split; [done|]. intros E.
    unfold RawMsgAcknowledgement_from. cbn [ack_packet]. by rewrite Hba.
Qed.
End theorems.

Section client_theorems.
Context `{Unicode, TmText, CosmosSpecs, !TmLibLaws}.

(** The Tendermint client of the fixtures is read from its raw form for every frozen height,
    and is frozen exactly when that height is not zero. *)
Theorem dummy_tm_client_states (frozen_height : RawHeight) :
  ∃ cs, dummy_tm_client_state_from_raw frozen_height = Ok cs
    ∧ TmClientState_is_frozen cs = negb (raw_revision_height frozen_height =? 0)
    ∧ tm_latest_height cs = mkHeight 0 10
    ∧ tm_trusting_period cs < tm_unbonding_period cs.
Proof.
  assert (dummy_raw_tm_client_state (E:=TmError) frozen_height = Ok (mkRawTmClientState "ibc-0"
    (Some (mkFraction 1 3)) (Some (duration_into (64000 * NANOS_PER_SEC)))
    (Some (duration_into (128000 * NANOS_PER_SEC))) (Some (duration_into (3 * NANOS_PER_SEC)))
    (Some frozen_height) (Some (mkRawHeight 0 10)) (RawProofSpecs_from ProofSpecs_cosmos) [] false false))
    as Hraw by done.
  assert (∃ c, ChainId_from_str "ibc-0" = Ok c) as [c Hc] by (by eexists).
  unfold dummy_tm_client_state_from_raw. rewrite Hraw. mstep. unfold TmClientState_try_from_raw.
  cbn [rtc_chain_id rtc_trust_level rtc_trusting_period rtc_unbonding_period rtc_max_clock_drift
    rtc_frozen_height rtc_latest_height]. rewrite Hc. mstep.
  rewrite !duration_roundtrip by done. eexists. split; [done|].
  cbn [tm_latest_height tm_trusting_period tm_unbonding_period]. split_and!; try done.
  unfold TmClientState_is_frozen. cbn [tm_frozen_height]. unfold Height_try_from_raw, Height_new.
  by destruct (raw_revision_height frozen_height =? 0).
Qed.

End client_theorems.

Section upgrade_theorem.
Context `{MockCodec, Unicode, Ics23Check}.

(** The upgrade message converts, and back, when a Merkle proof with one empty part has an
    encoding that is not empty. *)
Theorem dummy_upgrade_message :
  let enc := raw_merkle_proof_encode (mkRawMerkleProof [mkCommitmentProof None]) in
  if is_empty enc then dummy_raw_msg_upgrade_client (E:=Empty_set) = Panic
  else ∃ raw, dummy_raw_msg_upgrade_client (E:=Empty_set) = Ok raw
    ∧ to_and_from MsgUpgradeClient_try_from RawMsgUpgradeClient_from raw.
Proof.
  unfold dummy_raw_msg_upgrade_client, dummy_commitment_proof_bytes, CommitmentProofBytes_from_raw,
    CommitmentProofBytes_try_from. cbv zeta. destruct (raw_merkle_proof_encode _); [done|].
  eexists. split; [done|]. by eexists.
Qed.
End upgrade_theorem.

Section transfer_theorem.
Context `{TmTime, !ChainTypes, !LightClient, host : !Host, !Codec, !Sha256}.
Context `{Unicode, U256Dec, TransferJson}.

(** The packet the fixtures extract from a transfer is the one the transfer sends: over the
    channel of the fixtures, to a bank that agrees to everything, validating the transfer is
    validating that packet. *)
Theorem extracted_packet_is_sent s (msg : MsgTransfer) c seq :
  let path_port := mt_port_id_on_a msg in
  let path_chan := mt_chan_id_on_a msg in
  channel_end s (mkChannelEndPath path_port path_chan) = Ok c →
  chan_remote c = mkChanCounterparty PortId_transfer (Some (ChannelId_new 0)) →
  get_next_sequence_send s (mkSeqSendPath path_port path_chan) = Ok seq →
  send_transfer_validate (TokenContext0:=DummyTransferModule_bank) s tt msg
  = err_context (send_packet_validate s (extract_transfer_packet msg seq)).
Proof.
  cbv zeta. intros Hc Hr Hseq. unfold send_transfer_validate. rewrite Hc, Hseq. cbn. rewrite Hr. cbn.
  by destruct (is_sender_chain_source _ _ _).
Qed.
End transfer_theorem.
