(* ===== verification/Testkit.v ===== *)
(** * The context of the testkit

    [MockContext] of [ibc-testkit/src/testapp/ibc/core/types.rs] in full: the blocks
    of [hosts/block.rs] (mock headers, or Tendermint light blocks made by the
    [tendermint-testgen] crate), its constructors ([fixtures/core/context.rs]), the
    builders that put clients, connections, channels, sequences and commitments in
    its store, block production, [deliver] and the queries of a relayer
    ([relayer/context.rs]).  [MockClient] has the host half of it for a chain of
    mock blocks only.

    The store is kept by value: [ibc_store_share], which hands out another
    reference to it, is not modelled, nor is the clock [Timestamp::now()], which is
    an argument.  The crate [tendermint-testgen] is the parameter [TmTestgen]. *)

From S2P Require Import Prelude RustStr Identifiers Primitives Path Connection Channel Context Merkle.
From S2P Require Import ConnHandlers Module ChanHandlers PacketHandlers ClientHandlers MockClient.
From S2P Require Import TmTypes TmClient TmSafety Entrypoint Chain AnyClient.
Local Open Scope string_scope.
Local Open Scope N_scope.
#[local] Existing Instance any_types | 0.

(** ** tendermint-testgen *)

(** [tendermint_testgen::light_block::TmLightBlock]. *)
Record TmLightBlock `{TmLib} := mkTmLightBlock {
  lb_signed_header : SignedHeader;
  lb_validators : ValidatorSet;
  lb_next_validators : ValidatorSet }.
Arguments mkTmLightBlock {_ _} _ _ _.

Class TmTestgen `{TmLib} := {
  TestgenValidator : Type;
  (** [Validator::new(id).voting_power(power)] *)
  testgen_validator : string → N → TestgenValidator;
  (** [LightBlock::new_default_with_header(Header::new(validators).height(height)
      .chain_id(chain_id).next_validators(next).time(time))], with its own
      validators and next validators if given, and [generate()] *)
  testgen_light_block : list TestgenValidator → N → string → list TestgenValidator → Time →
    option (list TestgenValidator * list TestgenValidator) → option TmLightBlock;
  (** [ProofSpecs::cosmos()], made of the specifications of the ics23 crate *)
  cosmos_specs : ProofSpecs;
}.
(** The header that is generated has the height, chain and time it was asked for. *)
Class TmTestgenLaws `{TmTestgen} := {
  testgen_header vs h c nvs t own lb :
    testgen_light_block vs h c nvs t own = Some lb →
    sh_height (lb_signed_header lb) = h ∧ sh_chain_id (lb_signed_header lb) = c
    ∧ sh_time (lb_signed_header lb) = t;
}.

(** [Duration * u32], which panics on overflow, and the cast [as u32]. *)
Definition as_u32 (n : N) : N := n mod 2 ^ 32.
Definition Duration_mul {E} (d : Duration) (k : N) : outcome E Duration :=
  if as_secs (d * k) <? U64_SIZE then Ok (d * k) else Panic.

Module Testkit.

(** ** hosts/block.rs *)

Inductive HostType := HtMock | HtSyntheticTendermint.

Section block.
Context `{TmText, Unicode, !TmCodec, !MockCodec, !TmTestgen}.

Record SyntheticTmBlock := mkSyntheticTmBlock {
  stb_trusted_height : Height;
  stb_trusted_next_validators : ValidatorSet;
  stb_light_block : TmLightBlock }.

Definition SyntheticTmBlock_header (self : SyntheticTmBlock) : SignedHeader :=
  lb_signed_header (stb_light_block self).
Definition Header_from (light_block : SyntheticTmBlock) : TmHeader :=
  mkTmHeader (lb_signed_header (stb_light_block light_block))
    (lb_validators (stb_light_block light_block))
    (stb_trusted_height light_block) (stb_trusted_next_validators light_block).

Inductive HostBlock :=
| HbMock (header : MockHeader)
| HbSyntheticTendermint (light_block : SyntheticTmBlock).

Definition HostBlock_height {E} (self : HostBlock) : outcome E Height :=
  match self with
  | HbMock header => Ok (mh_height header)
  | HbSyntheticTendermint light_block =>
    chain_id ← expect (ChainId_from_str (sh_chain_id (SyntheticTmBlock_header light_block)));
    expect (Height_new (revision_number chain_id) (sh_height (SyntheticTmBlock_header light_block)))
  end.

Definition set_trusted_height (self : HostBlock) (height : Height) : HostBlock :=
  match self with
  | HbMock _ => self
  | HbSyntheticTendermint b => HbSyntheticTendermint
      (mkSyntheticTmBlock height (stb_trusted_next_validators b) (stb_light_block b))
  end.
Definition set_trusted_next_validators_set (self : HostBlock)
    (trusted_next_validators : ValidatorSet) : HostBlock :=
  match self with
  | HbMock _ => self
  | HbSyntheticTendermint b => HbSyntheticTendermint
      (mkSyntheticTmBlock (stb_trusted_height b) trusted_next_validators (stb_light_block b))
  end.

Definition HostBlock_timestamp (self : HostBlock) : Timestamp :=
  match self with
  | HbMock header => mh_timestamp header
  | HbSyntheticTendermint b => mkTimestamp (Some (sh_time (SyntheticTmBlock_header b)))
  end.

(** A light block with its trusted fields; every step is an [expect]. *)
Definition tm_block_of {E} (chain_id : ChainId) (light_block : option TmLightBlock) :
    outcome E SyntheticTmBlock :=
  light_block ← match light_block with Some b => Ok b | None => Panic end;
  trusted_height ← expect (Height_new (revision_number chain_id) 1);
  Ok (mkSyntheticTmBlock trusted_height (lb_next_validators light_block) light_block).
Definition tm_time_of {E} (timestamp : Timestamp) : outcome E Time :=
  match time timestamp with Some t => Ok t | None => Panic end.

Definition generate_tm_block {E} (chain_id : ChainId) (height : N) (timestamp : Timestamp) :
    outcome E SyntheticTmBlock :=
  let validators := [testgen_validator "1" 50; testgen_validator "2" 50] in
  t ← tm_time_of timestamp;
  tm_block_of chain_id
    (testgen_light_block validators height (Identifiers.chain_id chain_id) validators t None).

Definition generate_block {E} (chain_id : ChainId) (chain_type : HostType) (height : N)
    (timestamp : Timestamp) : outcome E HostBlock :=
  match chain_type with
  | HtMock => HbMock <$> MockClient.generate_block chain_id height timestamp
  | HtSyntheticTendermint => HbSyntheticTendermint <$> generate_tm_block chain_id height timestamp
  end.

Definition generate_block_with_validators {E} (chain_id : ChainId) (chain_type : HostType)
    (height : N) (timestamp : Timestamp) (validators next_validators : list TestgenValidator) :
    outcome E HostBlock :=
  match chain_type with
  | HtMock => HbMock <$> MockClient.generate_block chain_id height timestamp
  | HtSyntheticTendermint =>
    t ← tm_time_of timestamp;
    HbSyntheticTendermint <$> tm_block_of chain_id
      (testgen_light_block validators height (Identifiers.chain_id chain_id) next_validators t
         (Some (validators, next_validators)))
  end.

Definition try_into_tm_block (self : HostBlock) : option SyntheticTmBlock :=
  match self with HbMock _ => None | HbSyntheticTendermint tm_block => Some tm_block end.

Definition AnyConsensusState_from_tm_block (light_block : SyntheticTmBlock) : AnyConsensusState :=
  ConsTendermint (TmConsensusState_from_block (SyntheticTmBlock_header light_block)).
Definition AnyConsensusState_from_block (any_block : HostBlock) : AnyConsensusState :=
  match any_block with
  | HbMock mock_header => ConsMock (MockConsensusState_new mock_header)
  | HbSyntheticTendermint light_block =>
    ConsTendermint (TmConsensusState_from_block (SyntheticTmBlock_header light_block))
  end.

(** [todo!()]. *)
Definition HostBlock_try_from (_ : Any) : outcome ClientError HostBlock := Panic.
Definition HostBlock_into {E} (value : HostBlock) : outcome E Any :=
  match value with
  | HbMock mock_header => MockHeader_into mock_header
  | HbSyntheticTendermint light_block =>
    Ok (mkAny TENDERMINT_HEADER_TYPE_URL
          (encode_tm_header (RawTmHeader_from (Header_from light_block))))
  end.
End block.

(** ** MockContext *)

Section context.
Context `{TmText, Unicode, !TmCodec, !MockCodec, !Codec, !TmTestgen}.

Record MockContext := mkMockContext {
  host_chain_type : HostType;
  host_chain_id : ChainId;
  max_history_size : N;
  history : list HostBlock;
  block_time : Duration;
  ibc_store : IbcStore }.

Definition set_history (f : list HostBlock) (self : MockContext) : MockContext :=
  mkMockContext (host_chain_type self) (host_chain_id self) (max_history_size self) f
    (block_time self) (ibc_store self).
Definition set_store (f : IbcStore → IbcStore) (self : MockContext) : MockContext :=
  mkMockContext (host_chain_type self) (host_chain_id self) (max_history_size self) (history self)
    (block_time self) (f (ibc_store self)).

(** [assert_ne!] and [assert_eq!]. *)
Definition assert {E} (b : bool) : outcome E () := if b then Ok tt else Panic.

(** *** Constructors *)

(** [(0..n).rev()]. *)
Definition countdown (n : N) : list N := N.of_nat <$> rev (seq 0 (N.to_nat n)).

Record MockContextConfig := mkMockContextConfig {
  cfg_host_type : HostType;
  cfg_host_id : ChainId;
  cfg_block_time : Duration;
  cfg_max_history_size : N;
  cfg_validator_set_history : option (list (list TestgenValidator));
  cfg_latest_height : Height;
  cfg_latest_timestamp : Timestamp }.

Definition DEFAULT_BLOCK_TIME_SECS : N := 3.
(** The defaults of the builder; [now] is [Timestamp::now()]. *)
Definition MockContextConfig_default {E} (now : Timestamp) : outcome E MockContextConfig :=
  host_id ← expect (ChainId_new "mockgaia-0");
  latest_height ← expect (Height_new 0 5);
  Ok (mkMockContextConfig HtMock host_id (Duration_from_secs DEFAULT_BLOCK_TIME_SECS) 5 None
        latest_height now).

(** The time of the block [i] before the last one. *)
Definition history_time {E} (params : MockContextConfig) (next_block_timestamp : Timestamp) (i : N) :
    outcome E Timestamp :=
  age ← Duration_mul (cfg_block_time params) (as_u32 (i + 1));
  expect (Timestamp_sub next_block_timestamp age).
Definition history_block {E} (params : MockContextConfig) (n : N) (next_block_timestamp : Timestamp)
    (i : N) : outcome E HostBlock :=
  height ← expect (Height_sub (cfg_latest_height params) i);
  timestamp ← history_time params next_block_timestamp i;
  match cfg_validator_set_history params with
  | Some validator_set_history =>
    validators ← index validator_set_history (N.to_nat (n - i - 1));
    next_validators ← index validator_set_history (N.to_nat (n - i));
    generate_block_with_validators (cfg_host_id params) (cfg_host_type params)
      (revision_height height) timestamp validators next_validators
  | None =>
    generate_block (cfg_host_id params) (cfg_host_type params) (revision_height height) timestamp
  end.

Definition MockContext_from {E} (params : MockContextConfig) : outcome E MockContext :=
  assert (negb (cfg_max_history_size params =? 0));;
  assert (negb (revision_height (cfg_latest_height params) =? 0));;
  let n := N.min (cfg_max_history_size params) (revision_height (cfg_latest_height params)) in
  assert (revision_number (cfg_host_id params) =? height_revision_number (cfg_latest_height params));;
  next_block_timestamp ← expect (Timestamp_add (cfg_latest_timestamp params) (cfg_block_time params));
  history ← try_map (history_block params n next_block_timestamp) (countdown n);
  Ok (mkMockContext (cfg_host_type params) (cfg_host_id params) (cfg_max_history_size params)
        history (cfg_block_time params) empty_store).

Definition MockContext_default {E} (now : Timestamp) : outcome E MockContext :=
  params ← MockContextConfig_default now; MockContext_from params.

(** The deprecated constructors, with the default block time; the age of a block
    is computed in [u64] seconds there. *)
Definition old_history_time {E} (next_block_timestamp : Timestamp) (i : N) : outcome E Timestamp :=
  n ← u64_add i 1;
  secs ← (if DEFAULT_BLOCK_TIME_SECS * n <? U64_SIZE then Ok (DEFAULT_BLOCK_TIME_SECS * n) else Panic);
  expect (Timestamp_sub next_block_timestamp (Duration_from_secs secs)).

Definition MockContext_new {E} (now : Timestamp) (host_id : ChainId) (host_type : HostType)
    (max_history_size : N) (latest_height : Height) : outcome E MockContext :=
  assert (negb (max_history_size =? 0));;
  assert (negb (revision_height latest_height =? 0));;
  let n := N.min max_history_size (revision_height latest_height) in
  assert (revision_number host_id =? height_revision_number latest_height);;
  let block_time := Duration_from_secs DEFAULT_BLOCK_TIME_SECS in
  next_block_timestamp ← expect (Timestamp_add now block_time);
  history ← try_map (λ i,
    height ← expect (Height_sub latest_height i);
    timestamp ← old_history_time next_block_timestamp i;
    generate_block host_id host_type (revision_height height) timestamp) (countdown n);
  Ok (mkMockContext host_type host_id max_history_size history block_time empty_store).

Definition MockContext_new_with_validator_history {E} (now : Timestamp) (host_id : ChainId)
    (host_type : HostType) (validator_history : list (list TestgenValidator))
    (latest_height : Height) : outcome E MockContext :=
  assert (negb (length validator_history =? 0)%nat);;
  let max_history_size := N.of_nat (length validator_history) - 1 in
  assert (negb (max_history_size =? 0));;
  assert (negb (revision_height latest_height =? 0));;
  assert (max_history_size <=? revision_height latest_height);;
  assert (revision_number host_id =? height_revision_number latest_height);;
  let block_time := Duration_from_secs DEFAULT_BLOCK_TIME_SECS in
  next_block_timestamp ← expect (Timestamp_add now block_time);
  history ← try_map (λ i,
    height ← expect (Height_sub latest_height i);
    timestamp ← old_history_time next_block_timestamp i;
    validators ← index validator_history (N.to_nat (max_history_size - i - 1));
    next_validators ← index validator_history (N.to_nat (max_history_size - i));
    generate_block_with_validators host_id host_type (revision_height height) timestamp validators
      next_validators) (countdown max_history_size);
  Ok (mkMockContext host_type host_id max_history_size history block_time empty_store).

(** *** Blocks *)

Definition latest_block {E} (self : MockContext) : outcome E HostBlock :=
  match list.last (history self) with Some b => Ok b | None => Panic end.
Definition latest_height {E} (self : MockContext) : outcome E Height :=
  block ← latest_block self; HostBlock_height block.
Definition host_timestamp {E} (self : MockContext) : outcome E Timestamp :=
  block ← latest_block self; expect (Timestamp_add (HostBlock_timestamp block) (block_time self)).

(** The first subtraction is in [u64], the index in [usize]. *)
Definition host_block {E} (self : MockContext) (target_height : Height) :
    outcome E (option HostBlock) :=
  let target := revision_height target_height in
  latest ← revision_height <$> latest_height self;
  let len := N.of_nat (length (history self)) in
  if latest <? target then Ok None
  else if latest <? len then Panic
  else if target <=? latest - len then Ok None
  else Some <$> index (history self) (N.to_nat (len + target - latest - 1)).

Definition push_block {E} (max_history_size : N) (history : list HostBlock) (new_block : HostBlock) :
    outcome E (list HostBlock) :=
  if max_history_size <=? N.of_nat (length history) then
    let rotated := (tail history ++ take 1 history)%list in
    if max_history_size =? 0 then Panic
    else index rotated (N.to_nat (max_history_size - 1));;
         Ok (<[N.to_nat (max_history_size - 1) := new_block]> rotated)
  else Ok (history ++ [new_block])%list.

Definition advance_host_chain_height {E} (self : MockContext) : outcome E MockContext :=
  latest_block ← latest_block self;
  latest_height ← HostBlock_height latest_block;
  next_height ← Height_increment latest_height;
  timestamp ← expect (Timestamp_add (HostBlock_timestamp latest_block) (block_time self));
  new_block ← generate_block (host_chain_id self) (host_chain_type self)
                (revision_height next_height) timestamp;
  history ← push_block (max_history_size self) (history self) new_block;
  Ok (set_history history self).

Fixpoint sequential {E} (blocks : list HostBlock) : outcome E bool :=
  match blocks with
  | ph :: ((h :: _) as rest) =>
    ph_height ← HostBlock_height ph;
    next ← Height_increment ph_height;
    h_height ← HostBlock_height h;
    if bool_decide (next = h_height) then sequential rest else Ok false
  | _ => Ok true
  end.
Definition validate (self : MockContext) : outcome string () :=
  fail_if (max_history_size self <? N.of_nat (length (history self))) "too many entries";;
  match list.last (history self) with
  | Some lh =>
    height ← HostBlock_height lh;
    latest ← latest_height self;
    fail_if (negb (bool_decide (height = latest))) "latest height is not updated"
  | None => Ok tt
  end;;
  in_order ← sequential (history self);
  fail_if (negb in_order) "headers in history not sequential".

Definition query_latest_header {E} (self : MockContext) : outcome E (option HostBlock) :=
  height ← latest_height self; host_block self height.

(** *** Clients *)

Record MockClientConfig := mkMockClientConfig {
  mcc_client_chain_id : ChainId;
  mcc_client_id : ClientId;
  mcc_client_type : ClientType;
  mcc_latest_height : Height;
  mcc_consensus_state_heights : list Height;
  mcc_latest_timestamp : Timestamp;
  mcc_trusting_period : Duration;
  mcc_max_clock_drift : Duration;
  mcc_unbonding_period : Duration }.

(** The builder with the fields a caller sets; [now] is [Timestamp::now()]. *)
Definition MockClientConfig_build (now : Timestamp) (client_chain_id : ChainId)
    (client_id : ClientId) (client_type : ClientType) (latest_height : Height)
    (consensus_state_heights : list Height) : MockClientConfig :=
  mkMockClientConfig client_chain_id client_id client_type latest_height consensus_state_heights now
    (Duration_from_secs 64000) (Duration_from_nanos 3000000000) (Duration_from_secs 128000).

Definition blocks_since (a b : Height) : option N :=
  if (height_revision_number a =? height_revision_number b)
     && (revision_height b <=? revision_height a)
  then Some (revision_height a - revision_height b) else None.

(** The time of the block of a consensus state, counted back from the latest one. *)
Definition cs_timestamp {E} (self : MockContext) (client : MockClientConfig) (cs_height : Height) :
    outcome E Timestamp :=
  n_blocks ← match blocks_since (mcc_latest_height client) cs_height with
             | Some n => Ok n | None => Panic end;
  age ← Duration_mul (block_time self) (as_u32 n_blocks);
  expect (Timestamp_sub (mcc_latest_timestamp client) age).

(** [collect] into a [BTreeMap]: the last of equal keys. *)
Definition collect_map {A} (l : list (Height * A)) : gmap Height A := list_to_map (rev l).

(** [TmClientStateConfig] with the defaults of its builder. *)
Definition tm_client_state_of {E} (client : MockClientConfig) : outcome E TmClientState :=
  client_state ← expect (TmClientState_new (mcc_client_chain_id client) TrustThreshold_ONE_THIRD
    (mcc_trusting_period client) (mcc_unbonding_period client) (mcc_max_clock_drift client)
    (mcc_latest_height client) cosmos_specs [] (mkAllowUpdate false false));
  expect (TmClientState_validate client_state);;
  Ok client_state.

Definition client_record_of {E} (self : MockContext) (client : MockClientConfig) :
    outcome E ClientRecord :=
  let cs_heights := match mcc_consensus_state_heights client with
                    | [] => [mcc_latest_height client] | hs => hs end in
  if (client_type_str (mcc_client_type client) =? MOCK_CLIENT_TYPE)%string then
    cs_states ← try_map (λ cs_height,
      timestamp ← cs_timestamp self client cs_height;
      Ok (cs_height, (ConsMock (MockConsensusState_new (mkMockHeader cs_height timestamp))
                      : ConsensusState))) cs_heights;
    Ok (mkClientRecord (Some (CsMock (MockClientState_new
          (mkMockHeader (mcc_latest_height client) (mcc_latest_timestamp client))) : ClientState))
          (collect_map cs_states))
  else if (client_type_str (mcc_client_type client) =? TENDERMINT_CLIENT_TYPE)%string then
    blocks ← try_map (λ cs_height,
      timestamp ← cs_timestamp self client cs_height;
      block ← generate_tm_block (mcc_client_chain_id client) (revision_height cs_height) timestamp;
      Ok (cs_height, (AnyConsensusState_from_tm_block block : ConsensusState))) cs_heights;
    client_state ← tm_client_state_of client;
    Ok (mkClientRecord (Some (CsTendermint client_state : ClientState)) (collect_map blocks))
  else Panic.

Definition with_client_config {E} (self : MockContext) (client : MockClientConfig) :
    outcome E MockContext :=
  client_record ← client_record_of self client;
  Ok (set_store (set_clients (λ m, <[mcc_client_id client := client_record]> m)) self).

(** The deprecated builders. *)
Definition with_client {E} (now : Timestamp) (self : MockContext) (client_id : ClientId)
    (height : Height) : outcome E MockContext :=
  with_client_config self
    (MockClientConfig_build now (host_chain_id self) client_id mock_client_type height []).
Definition with_client_parametrized_with_chain_id {E} (now : Timestamp) (self : MockContext)
    (client_chain_id : ChainId) (client_id : ClientId) (client_state_height : Height)
    (client_type : option ClientType) (consensus_state_height : option Height) :
    outcome E MockContext :=
  with_client_config self (MockClientConfig_build now client_chain_id client_id
    (default mock_client_type client_type) client_state_height
    [default client_state_height consensus_state_height]).
Definition with_client_parametrized {E} (now : Timestamp) (self : MockContext)
    (client_id : ClientId) (client_state_height : Height) (client_type : option ClientType)
    (consensus_state_height : option Height) : outcome E MockContext :=
  with_client_parametrized_with_chain_id now self (host_chain_id self) client_id
    client_state_height client_type consensus_state_height.
Definition with_client_parametrized_history_with_chain_id {E} (now : Timestamp)
    (self : MockContext) (client_chain_id : ChainId) (client_id : ClientId)
    (client_state_height : Height) (client_type : option ClientType)
    (consensus_state_height : option Height) : outcome E MockContext :=
  let current_consensus_height := default client_state_height consensus_state_height in
  let prev_consensus_height := match Height_sub current_consensus_height 1 with
                               | Ok h => h | _ => client_state_height end in
  with_client_config self (MockClientConfig_build now client_chain_id client_id
    (default mock_client_type client_type) client_state_height
    [prev_consensus_height; current_consensus_height]).
Definition with_client_parametrized_history {E} (now : Timestamp) (self : MockContext)
    (client_id : ClientId) (client_state_height : Height) (client_type : option ClientType)
    (consensus_state_height : option Height) : outcome E MockContext :=
  with_client_parametrized_history_with_chain_id now self (host_chain_id self) client_id
    client_state_height client_type consensus_state_height.

Definition latest_client_states {E} (self : MockContext) (client_id : ClientId) :
    outcome E AnyClientState :=
  match clients (ibc_store self) !! client_id with
  | Some record => match client_state_of record with Some cs => Ok cs | None => Panic end
  | None => Panic
  end.
Definition latest_consensus_states {E} (self : MockContext) (client_id : ClientId) (height : Height) :
    outcome E AnyConsensusState :=
  match clients (ibc_store self) !! client_id with
  | Some record => match consensus_states record !! height with Some c => Ok c | None => Panic end
  | None => Panic
  end.

(** *** Connections, channels and packets *)

Definition with_connection (self : MockContext) (connection_id : ConnectionId)
    (connection_end : ConnectionEnd) : MockContext :=
  set_store (set_connections (λ m, <[connection_id := connection_end]> m)) self.
Definition with_channel (self : MockContext) (port_id : PortId) (chan_id : ChannelId)
    (channel_end : ChannelEnd) : MockContext :=
  set_store (set_channels (pc_insert port_id chan_id channel_end)) self.
Definition with_send_sequence (self : MockContext) (port_id : PortId) (chan_id : ChannelId)
    (seq_number : Sequence) : MockContext :=
  set_store (set_next_sequence_send (pc_insert port_id chan_id seq_number)) self.
Definition with_recv_sequence (self : MockContext) (port_id : PortId) (chan_id : ChannelId)
    (seq_number : Sequence) : MockContext :=
  set_store (set_next_sequence_recv (pc_insert port_id chan_id seq_number)) self.
(** It starts from a copy of the sequences for sending. *)
Definition with_ack_sequence (self : MockContext) (port_id : PortId) (chan_id : ChannelId)
    (seq_number : Sequence) : MockContext :=
  set_store (λ s, set_next_sequence_ack
    (λ _, pc_insert port_id chan_id seq_number (next_sequence_send s)) s) self.
Definition with_packet_commitment (self : MockContext) (port_id : PortId) (chan_id : ChannelId)
    (seq : Sequence) (data : PacketCommitment) : MockContext :=
  set_store (set_packet_commitment (pcs_insert port_id chan_id seq data)) self.

(** [while ctx.latest_height() < target { ctx.advance_host_chain_height() }]. *)
Fixpoint advance_while {E} (fuel : nat) (target : N) (ctx : MockContext) : outcome E MockContext :=
  latest ← latest_height ctx;
  if revision_height latest <? target then
    match fuel with
    | O => Panic
    | S fuel => ctx ← advance_host_chain_height ctx; advance_while fuel target ctx
    end
  else Ok ctx.
Definition with_height {E} (self : MockContext) (target_height : Height) : outcome E MockContext :=
  latest_height ← latest_height self;
  if height_revision_number latest_height <? height_revision_number target_height then Panic
  else if height_revision_number target_height <? height_revision_number latest_height then Panic
  else if revision_height target_height <? revision_height latest_height then Panic
  else advance_while (N.to_nat (revision_height target_height - revision_height latest_height))
         (revision_height target_height) self.

Definition get_events (self : MockContext) : list IbcEvent := events (ibc_store self).
Definition get_logs (self : MockContext) : list string := logs (ibc_store self).

(** *** As a host *)

Definition host_consensus_state (self : MockContext) (height : Height) :
    outcome ContextError MockConsensusState :=
  block ← host_block self height;
  match block with
  | Some block =>
    match AnyConsensusState_from_block block with
    | ConsMock cs => Ok cs
    | _ => Err (CtxClient (ClientOther "unexpected consensus state type"))
    end
  | None => Err (CtxClient (MissingLocalConsensusState height))
  end.

Definition validate_self_client (self : MockContext) (cs : MockClientState) :
    outcome ContextError () :=
  fail_if (frozen cs) (CtxClient (ClientFrozen ""));;
  let self_revision_number := revision_number (host_chain_id self) in
  let height := MockClientState_latest_height cs in
  fail_if (negb (self_revision_number =? height_revision_number height))
    (CtxConnection (ConnInvalidClientState (REVISION_MISMATCH self_revision_number
                                         (height_revision_number height))));;
  latest ← latest_height self;
  host_current_height ← Height_increment latest;
  fail_if (negb (Height_ltb height host_current_height))
    (CtxConnection (ConnInvalidClientState (HEIGHT_TOO_HIGH height host_current_height))).

Definition testkit_host (self : MockContext) : Host := {|
  Context.host_height := latest_height self;
  Context.host_timestamp := host_timestamp self;
  Context.host_consensus_state := host_consensus_state self : _ → outcome _ HostConsensusState;
  host_consensus_state_encode_vec :=
    mock_consensus_state_encode_vec : HostConsensusState → outcome _ bytes;
  host_client_state_try_from := MockClientState_try_from : _ → outcome _ HostClientState;
  Context.validate_self_client := validate_self_client self : HostClientState → _;
  commitment_prefix := mkCommitmentPrefix [Byte.x6d; Byte.x6f; Byte.x63; Byte.x6b];
  max_expected_time_per_block := block_time self;
  validate_message_signer _ := Ok tt;
|}.
End context.

(** ** Delivering messages *)

Section deliver.
Context `{TmText, Unicode, !TmCodec, !MockCodec, !Codec, !TmTestgen, !Ics23, !Ics23Check}.
Context `{!TmVerifier, !Sha256}.
Context {App : Type} `{!Module App}.
#[local] Existing Instance any_client | 0.

Inductive RelayerError :=
| RelClientStateNotFound (client_id : ClientId)
| ClientAlreadyUpToDate (client_id : ClientId) (source_height destination_height : Height)
| ClientAtHigherHeight (client_id : ClientId) (source_height destination_height : Height)
| TransactionFailed (e : ContextError)
| RelConnection (e : ConnectionError).

Definition deliver (msg : MsgEnvelope) : exec (MockContext * MockRouter App) RelayerError () :=
  λ '(self, router),
  let '((s, router), r) := dispatch (host:=testkit_host self) msg (ibc_store self, router) in
  let self := set_store (λ _, s) self in
  match r with
  | Ok _ =>
    match advance_host_chain_height self with
    | Ok self => ((self, router), Ok tt)
    | Err e => ((self, router), Err e)
    | Panic => ((self, router), Panic)
    end
  | Err e => ((self, router), Err (TransactionFailed e))
  | Panic => ((self, router), Panic)
  end.

(** [RelayerContext for MockContext]. *)
Definition query_latest_height (self : MockContext) : outcome ContextError Height :=
  latest_height self.
Definition query_client_full_state (self : MockContext) (client_id : ClientId) :
    option AnyClientState := ok (client_state (ibc_store self) client_id).
Definition signer : Signer := "0CDA3F47EF3C4906693B170EF650EB968C5F4B2C".
End deliver.

(** ** Theorems *)

(** *** The context behaves as the one of [MockClient] *)

Section simulation.
Context `{TmText, Unicode, !TmCodec, !MockCodec, !Codec, !TmTestgen, !TmTestgenLaws}.

(** All that counts of a block: its height and its time. *)
Definition shows (b : HostBlock) (h : MockHeader) : Prop :=
  (∀ E, HostBlock_height (E:=E) b = Ok (mh_height h)) ∧ HostBlock_timestamp b = mh_timestamp h.

Record simulates (c : MockContext) (m : MockClient.MockContext) : Prop := mkSimulates {
  sim_chain_id : MockClient.host_chain_id m = host_chain_id c;
  sim_max : MockClient.max_history_size m = max_history_size c;
  sim_history : Forall2 shows (history c) (block_history m);
  sim_block_time : MockClient.block_time m = block_time c;
}.

Lemma shows_mock h : shows (HbMock h) h.
Proof. done. Qed.

Lemma sim_latest_block {E} c m :
  simulates c m →
  match latest_block (E:=E) c, MockClient.latest_block (E:=E) m with
  | Ok b, Ok h => shows b h
  | Panic, Panic => True
  | _, _ => False
  end.
Proof.
  intros [_ _ Hh _]. unfold latest_block, MockClient.latest_block.
  apply Forall2_last in Hh. by inversion Hh.
Qed.

Lemma sim_latest_height {E} c m :
  simulates c m → latest_height (E:=E) c = mock_latest_height m.
Proof.
  intros Hs. unfold latest_height, mock_latest_height. pose proof (sim_latest_block (E:=E) _ _ Hs) as Hl.
  destruct (latest_block c), (MockClient.latest_block m); try done. cbn. apply Hl.
Qed.

Lemma sim_host_timestamp {E} c m :
  simulates c m → host_timestamp (E:=E) c = next_timestamp m.
Proof.
  intros Hs. unfold host_timestamp, next_timestamp. pose proof (sim_latest_block (E:=E) _ _ Hs) as Hl.
  destruct (latest_block c), (MockClient.latest_block m); try done. cbn. destruct Hl as [_ ->].
  destruct Hs as [_ _ _ ->]. by destruct (Timestamp_add _ _).
Qed.

Lemma sim_sequential {E} bs hs :
  Forall2 shows bs hs → sequential (E:=E) bs = MockClient.sequential hs.
Proof.
  induction 1 as [|b h bs hs Hb Hbs IH]; [done|]. destruct Hbs as [|b' h' bs hs Hb' Hbs]; [done|].
  transitivity (ph ← HostBlock_height b; next ← Height_increment ph; hh ← HostBlock_height b';
    if bool_decide (next = hh) then sequential (E:=E) (b' :: bs) else Ok false); [done|].
  rewrite IH. destruct Hb as [-> _], Hb' as [-> _]. cbn [mbind outcome_bind].
  reflexivity.
Qed.

Lemma sim_validate c m : simulates c m → validate c = MockContext_validate m.
Proof.
  intros Hs. unfold validate, MockContext_validate. rewrite (sim_latest_height _ _ Hs).
  destruct Hs as [_ -> Hh _]. rewrite (sim_sequential _ _ Hh), (Forall2_length Hh).
  destruct (fail_if _ _); cbn; [|done..]. apply Forall2_last in Hh.
  destruct Hh as [b h [Hb _]|]; cbn; [|done]. by rewrite Hb.
Qed.

Lemma sim_push_block {E} n bs hs b h bs' :
  Forall2 shows bs hs → shows b h → push_block (E:=E) n bs b = Ok bs' →
  ∃ hs', (∀ E', MockClient.push_block (E:=E') n hs h = Ok hs') ∧ Forall2 shows bs' hs'.
Proof.
  intros Hs Hb. unfold push_block, MockClient.push_block. rewrite (Forall2_length Hs).
  destruct (n <=? _); [|intros [= <-]; eexists; split; [done|]; by apply Forall2_app; [|constructor; [|constructor]]].
  destruct (n =? 0); [done|].
  assert (Forall2 shows (tail bs ++ take 1 bs) (tail hs ++ take 1 hs)) as Hr
    by (apply Forall2_app; [by apply Forall2_tail|by apply Forall2_take]).
  unfold index. destruct ((tail bs ++ take 1 bs)%list !! _) as [x|] eqn:Ex; [|done].
  destruct (Forall2_lookup_l _ _ _ _ _ Hr Ex) as (y & -> & _). cbn. intros [= <-].
  eexists. split; [done|]. by apply Forall2_insert.
Qed.

(** A chain identifier that is written the way it was read. *)
Definition chain_ok (c : ChainId) : Prop := ChainId_from_str (chain_id c) = Ok c.

Lemma shows_tm_block {E} c n t vs nvs own b :
  chain_ok c → n ≠ 0 →
  tm_block_of (E:=E) c (testgen_light_block vs n (chain_id c) nvs t own) = Ok b →
  shows (HbSyntheticTendermint b) (mkMockHeader (mkHeight (revision_number c) n) (mkTimestamp (Some t))).
Proof.
  intros Hc Hn Hb. unfold tm_block_of in Hb.
  destruct (testgen_light_block _ _ _ _ _ _) as [lb|] eqn:El; [|done].
  cbn in Hb. inv_ok. apply testgen_header in El as (Eh & Ec & Et). split; cbn.
  - intros E'. unfold SyntheticTmBlock_header. cbn. rewrite Ec, Eh, Hc. cbn.
    by rewrite (proj2 (Height_new_Ok (revision_number c) n (mkHeight (revision_number c) n))).
  - unfold SyntheticTmBlock_header. cbn. by rewrite Et.
Qed.

Lemma sim_generate_block {E} c ty n t b :
  chain_ok c → n ≠ 0 → generate_block (E:=E) c ty n t = Ok b →
  shows b (mkMockHeader (mkHeight (revision_number c) n) t).
Proof.
  intros Hc Hn Hb. destruct ty; cbn in Hb.
  - unfold MockClient.generate_block in Hb. inv_ok.
    match goal with H : expect _ = Ok _ |- _ => unfold expect in H;
      destruct (Height_new _ _) eqn:Eh in H; [|done..]; injection H as <- end.
    apply Height_new_Ok in Eh as [-> _]. apply shows_mock.
  - unfold generate_tm_block, tm_time_of in Hb. destruct t as [[t|]]; cbn in Hb; [|done]. inv_ok.
    by eapply shows_tm_block.
Qed.

Lemma sim_advance {E} c m c' :
  simulates c m → chain_ok (host_chain_id c) →
  advance_host_chain_height (E:=E) c = Ok c' →
  ∃ m', MockClient.advance_host_chain_height m = (m', Ok tt) ∧ simulates c' m'
    ∧ host_chain_id c' = host_chain_id c ∧ max_history_size c' = max_history_size c
    ∧ ibc_store c' = ibc_store c.
Proof.
  intros Hs Hc Ha. unfold advance_host_chain_height in Ha.
  pose proof (sim_latest_block (E:=ContextError) _ _ Hs) as Hl.
  destruct Hs as [E1 E2 Hh E3]. apply bind_Ok in Ha as (b & Hb & Ha).
  assert (latest_block (E:=ContextError) c = Ok b) as Hb'.
  { unfold latest_block in *. by destruct (list.last _); simplify_eq/=. }
  rewrite Hb' in Hl. destruct (MockClient.latest_block m) as [h| |] eqn:El; [|done..].
  destruct Hl as [Hbh Hbt]. rewrite Hbh in Ha. cbn [mbind outcome_bind] in Ha. inv_ok.
  match goal with H : Height_increment _ = Ok ?n |- _ => rename n into next; rename H into Hn end.
  assert (Height_increment (E:=ContextError) (mh_height h) = Ok next ∧ revision_height next ≠ 0)
    as [Hn' Hnz].
  { unfold Height_increment, Height_add, u64_add in *. destruct (_ <? _); [|done].
    cbn in *. simplify_eq/=. split; [done|lia]. }
  match goal with H : generate_block _ _ _ _ = Ok _ |- _ => apply sim_generate_block in H as Hg; [|done..] end.
  match goal with H : push_block _ _ _ = Ok _ |- _ =>
    eapply sim_push_block in H as (hs' & Hp & Hsh); [|exact Hh|exact Hg] end.
  match goal with H : expect _ = Ok ?x |- _ => rename x into t; rename H into Ht end.
  exists (MockClient.mkMockContext (host_chain_id c) (max_history_size c) hs' (block_time c)).
  split_and!; [|by split|done..].
  unfold MockClient.advance_host_chain_height, next_timestamp. run_exec. rewrite El. cbn.
  rewrite Hn'. cbn. rewrite E3, <- Hbt. unfold expect in Ht.
  destruct (Timestamp_add _ _); [|done..]. injection Ht as ->. cbn.
  unfold MockClient.generate_block.
  rewrite E1, (proj2 (Height_new_Ok _ _ (mkHeight (revision_number (host_chain_id c)) (revision_height next)))) by done.
  cbn. by rewrite E2, Hp.
Qed.

(** *** Construction *)

Lemma countdown_succ k : countdown (N.succ k) = k :: countdown k.
Proof.
  unfold countdown. rewrite N2Nat.inj_succ, seq_S, rev_app_distr. cbn. by rewrite N2Nat.id.
Qed.

(** Blocks at the heights below a latest one, from the oldest on. *)
Lemma sequential_countdown {E} rn L k hs :
  Forall2 (λ i h, mh_height h = mkHeight rn (L - i)) (countdown k) hs → k <= L → is_u64 L →
  MockClient.sequential (E:=E) hs = Ok true.
Proof.
  intros Hhs HkL HL. revert hs Hhs HkL. induction k as [|k IH] using N.peano_ind; intros hs Hhs HkL.
  - by inversion Hhs.
  - rewrite countdown_succ in Hhs. inversion Hhs as [|? h ? hs' Hh Hhs' E1 E2]; subst.
    apply sequential_cons. split; [apply IH; [done|lia]|].
    intros h' Hh'. destruct k as [|k _] using N.peano_ind.
    { by inversion Hhs'; subst. }
    rewrite countdown_succ in Hhs'. inversion Hhs' as [|? h0 ? hs0 Hh0 _ E1 E2]; subst.
    injection Hh' as ->. rewrite Hh, Hh0. unfold Height_increment, Height_add. cbn.
    rewrite u64_add_fits by (unfold is_u64 in *; lia). cbn. do 2 f_equal. lia.
Qed.

Lemma history_block_shows {E} params n next i b :
  chain_ok (cfg_host_id params) →
  revision_number (cfg_host_id params) = height_revision_number (cfg_latest_height params) →
  history_block (E:=E) params n next i = Ok b →
  ∃ t, history_time (E:=E) params next i = Ok t
    ∧ shows b (mkMockHeader (mkHeight (height_revision_number (cfg_latest_height params))
                 (revision_height (cfg_latest_height params) - i)) t).
Proof.
  intros Hc Hr Hb. unfold history_block in Hb. inv_ok.
  match goal with H : expect (Height_sub _ _) = Ok ?x |- _ => rename x into hh; rename H into Hh end.
  unfold expect, Height_sub in Hh. destruct (N.leb_spec (revision_height (cfg_latest_height params)) i);
    [done|]. cbn in Hh. injection Hh as <-.
  eexists. split; [done|]. rewrite <- Hr. cbn in *.
  destruct (cfg_validator_set_history params); [|apply (sim_generate_block (E:=E)) with (ty := cfg_host_type params); [done|lia|done]].
  inv_ok. destruct (cfg_host_type params); cbn in *.
  - apply (sim_generate_block (E:=E)) with (ty := HtMock); [done|lia|done].
  - inv_ok. match goal with t : Timestamp |- _ => unfold tm_time_of in *; destruct t as [[t|]] end;
      cbn in *; [|done]. simplify_eq.
    eapply shows_tm_block; [done|lia|done].
Qed.

Lemma Timestamp_add_sub `{!TmTimeLaws} t d t1 t2 :
  Timestamp_add t d = Ok t1 → Timestamp_sub t1 d = Ok t2 → t2 = t.
Proof.
  unfold Timestamp_add, Timestamp_sub. destruct t as [[t|]]; cbn; [|intros [= <-]; by intros [= <-]].
  intros Ha Hs. inv_ok. cbn in Hs. inv_ok.
  match goal with Ha : time_add _ _ = Some _, Hs : time_sub _ _ = Some _ |- _ =>
    apply time_add_Some in Ha; apply time_sub_Some in Hs end.
  do 2 f_equal. apply unix_nanos_inj. lia.
Qed.

Lemma history_shows {E} params n next l bs :
  chain_ok (cfg_host_id params) →
  revision_number (cfg_host_id params) = height_revision_number (cfg_latest_height params) →
  Forall2 (λ i b, history_block (E:=E) params n next i = Ok b) l bs →
  ∃ hs, Forall2 shows bs hs
    ∧ Forall2 (λ i h, mh_height h = mkHeight (height_revision_number (cfg_latest_height params))
                                      (revision_height (cfg_latest_height params) - i)
                      ∧ history_time (E:=E) params next i = Ok (mh_timestamp h)) l hs.
Proof.
  intros Hc Hr. induction 1 as [|i b l bs Hb _ (hs & H1' & H2')]; [by exists []|].
  destruct (history_block_shows _ _ _ _ _ Hc Hr Hb) as (t & Ht & Hs).
  eexists (_ :: hs). split; constructor; eauto.
Qed.

Lemma last_countdown n : n ≠ 0 → list.last (countdown n) = Some 0.
Proof.
  induction n as [|n IH] using N.peano_ind; [done|]. intros _. rewrite countdown_succ.
  destruct (decide (n = 0)) as [->|Hn]; [done|]. rewrite last_cons, IH by done. done.
Qed.

Lemma last_of_history `{!TmTimeLaws} {E} params next n hs :
  expect (E':=E) (Timestamp_add (cfg_latest_timestamp params) (cfg_block_time params)) = Ok next →
  n ≠ 0 →
  Forall2 (λ i h, mh_height h = mkHeight (height_revision_number (cfg_latest_height params))
                                  (revision_height (cfg_latest_height params) - i)
                  ∧ history_time (E:=E) params next i = Ok (mh_timestamp h)) (countdown n) hs →
  ∃ h, list.last hs = Some h ∧ mh_height h = cfg_latest_height params
    ∧ mh_timestamp h = cfg_latest_timestamp params.
Proof.
  intros Hnext Hn Hat. pose proof (Forall2_last _ _ _ Hat) as Hl. rewrite last_countdown in Hl by done.
  inversion Hl as [? h [Hh Ht]|]; subst. exists h. split_and!; [done| |].
  - rewrite Hh, N.sub_0_r. by destruct (cfg_latest_height params).
  - unfold history_time, Duration_mul in Ht. destruct (_ <? U64_SIZE); [|done].
    cbn in Ht. rewrite N.mul_1_r in Ht. unfold expect in *.
    destruct (Timestamp_add _ _) eqn:Ea; [|done..]. destruct (Timestamp_sub _ _) eqn:Es; [|done..].
    simplify_eq. by eapply Timestamp_add_sub.
Qed.

Lemma assert_Ok {E} b u : assert (E:=E) b = Ok u ↔ b = true.
Proof. destruct b, u; naive_solver. Qed.

(** A new context is valid: it has as many blocks as it may keep, at consecutive
    heights that end at the configured one, the last of them has the configured
    time, and its store is empty. *)
Theorem context_built_valid `{!TmTimeLaws} (params : MockContextConfig) c :
  chain_ok (cfg_host_id params) → is_u64 (revision_height (cfg_latest_height params)) →
  MockContext_from (E:=string) params = Ok c →
  validate c = Ok tt ∧ latest_height (E:=string) c = Ok (cfg_latest_height params)
  ∧ (∃ b, list.last (history c) = Some b ∧ HostBlock_timestamp b = cfg_latest_timestamp params)
  ∧ N.of_nat (length (history c))
    = N.min (cfg_max_history_size params) (revision_height (cfg_latest_height params))
  ∧ ibc_store c = empty_store ∧ ∃ m, simulates c m.
Proof.
  intros Hc Hu Hb. unfold MockContext_from in Hb.
  apply bind_Ok in Hb as (u1 & Hmax%assert_Ok & Hb). apply bind_Ok in Hb as (u2 & Hlat%assert_Ok & Hb).
  apply bind_Ok in Hb as (u3 & Hrev%assert_Ok & Hb). apply bind_Ok in Hb as (next & Hnext & Hb).
  apply bind_Ok in Hb as (bs & Hbs%try_map_Ok & [= <-]).
  set (n := N.min _ _) in *. apply negb_true_iff, N.eqb_neq in Hmax, Hlat. apply N.eqb_eq in Hrev.
  destruct (history_shows _ _ _ _ _ Hc Hrev Hbs) as (hs & Hsh & Hat).
  set (c := mkMockContext _ _ _ _ _ _).
  set (m := MockClient.mkMockContext (cfg_host_id params) (cfg_max_history_size params) hs
    (cfg_block_time params)).
  assert (simulates c m) as Hsim by by split.
  assert (length bs = N.to_nat n) as Hlen.
  { rewrite <- (Forall2_length Hbs). unfold countdown. by rewrite length_fmap, length_rev, length_seq. }
  assert (n ≠ 0) as Hn by lia.
  destruct (last_of_history _ _ _ _ Hnext Hn Hat) as (h & Hl & Hh & Ht).
  split_and!.
  - rewrite (sim_validate _ _ Hsim). apply MockContext_validate_Ok. cbn.
    rewrite <- (Forall2_length Hsh), Hlen, N2Nat.id. split; [lia|].
    apply (sequential_countdown (height_revision_number (cfg_latest_height params))
      (revision_height (cfg_latest_height params)) n); [|lia|done].
    eapply Forall2_impl; [|exact Hat]. by intros ?? [? _].
  - rewrite (sim_latest_height _ _ Hsim). unfold mock_latest_height, MockClient.latest_block. cbn.
    rewrite Hl. cbn. by rewrite Hh.
  - pose proof (Forall2_last _ _ _ Hsh) as Hlast. rewrite Hl in Hlast.
    inversion Hlast as [b ? [_ Hbt] E1|]; subst. exists b. cbn. split; [done|]. by rewrite Hbt.
  - cbn. by rewrite Hlen, N2Nat.id.
  - done.
  - by exists m.
Qed.

(** *** Producing blocks *)

(** A valid context whose latest block is at [h], in the revision of its chain. *)
Record context_at (c : MockContext) (h : Height) : Prop := mkContextAt {
  ca_chain : chain_ok (host_chain_id c);
  ca_valid : ∃ m, simulates c m ∧ MockContext_validate m = Ok tt;
  ca_latest : ∀ E, latest_height (E:=E) c = Ok h;
  ca_revision : height_revision_number h = revision_number (host_chain_id c);
}.

Lemma latest_height_any {E E'} c h : latest_height (E:=E) c = Ok h → latest_height (E:=E') c = Ok h.
Proof.
  unfold latest_height, latest_block. destruct (list.last (history c)) as [[m|b]|]; cbn; [by intros [= ->]| |done].
  unfold expect. destruct (ChainId_from_str _); cbn; [|done..].
  destruct (Height_new _ _); [by intros [= ->]|done..].
Qed.

(** What a block that was produced says of the latest one. *)
Lemma mock_advance_Ok m m' :
  MockClient.advance_host_chain_height m = (m', Ok tt) →
  ∃ b t, list.last (block_history m) = Some b ∧ MockClient.max_history_size m ≠ 0
    ∧ is_u64 (revision_height (mh_height b) + 1)
    ∧ Timestamp_add (mh_timestamp b) (MockClient.block_time m) = Ok t.
Proof.
  intros Hx. unfold MockClient.advance_host_chain_height in Hx.
  apply exec_bind_Ok in Hx as (m1 & b & [-> Hb]%reads_Ok & Hx).
  apply exec_bind_Ok in Hx as (m2 & next & Hn & Hx).
  apply exec_bind_Ok in Hx as (m3 & t & [-> Ht]%reads_Ok & Hx).
  apply exec_bind_Ok in Hx as (m4 & nb & [-> Hnb]%reads_Ok & Hx).
  apply exec_bind_Ok in Hx as (m5 & hs & [-> Hp]%reads_Ok & Hx).
  injection Hn as <- Hn. unfold next_timestamp in Ht. rewrite Hb in Ht. cbn in Ht.
  destruct (Timestamp_add _ _) as [t'| |] eqn:Ea; [|done..]. exists b, t'.
  unfold MockClient.latest_block in Hb. destruct (list.last (block_history m)); [|done].
  split_and!; [by injection Hb as ->| | |done].
  - intros E0. unfold MockClient.push_block in Hp. rewrite E0 in Hp.
    by rewrite (proj2 (N.leb_le 0 _)) in Hp by lia.
  - unfold Height_increment, Height_add, u64_add in Hn. by destruct (N.ltb_spec (revision_height (mh_height b) + 1) U64_SIZE).
Qed.

Lemma advance_context_at {E} c h c' :
  context_at c h → advance_host_chain_height (E:=E) c = Ok c' →
  context_at c' (mkHeight (height_revision_number h) (revision_height h + 1))
  ∧ ibc_store c' = ibc_store c.
Proof.
  intros [Hc (m & Hs & Hv) Hl Hr] Ha.
  destruct (sim_advance _ _ _ Hs Hc Ha) as (m' & Hm & Hs' & Ei & Ex & Es). split; [|done].
  destruct (mock_advance_Ok _ _ Hm) as (b & t & Hb & Hmax & Hu & Ht).
  assert (mh_height b = h) as Hbh.
  { specialize (Hl string). rewrite (sim_latest_height _ _ Hs) in Hl.
    unfold mock_latest_height, MockClient.latest_block in Hl. rewrite Hb in Hl. by injection Hl. }
  destruct (advance_host_chain_spec m b t Hv Hmax Hb) as (m'' & k & Hm' & Hv' & Hh & _);
    [by rewrite Hbh, Hr, (sim_chain_id _ _ Hs)|done..|].
  rewrite Hm in Hm'. injection Hm' as <-. split.
  - by rewrite Ei.
  - by exists m'.
  - intros E'. rewrite (sim_latest_height _ _ Hs').
    unfold mock_latest_height, MockClient.latest_block. rewrite Hh, last_snoc. cbn. by rewrite Hbh.
  - cbn. by rewrite Ei.
Qed.

Lemma context_at_valid c h : context_at c h → validate c = Ok tt.
Proof. intros [_ (m & Hs & Hv) _ _]. by rewrite (sim_validate _ _ Hs). Qed.

Lemma context_at_store f c h : context_at c h → context_at (set_store f c) h.
Proof. intros [Hc (m & [? ? ? ?] & Hv) Hl Hr]. split; [done| |done|done]. exists m. by split. Qed.

Lemma context_from_at `{!TmTimeLaws} params c :
  chain_ok (cfg_host_id params) → is_u64 (revision_height (cfg_latest_height params)) →
  MockContext_from (E:=string) params = Ok c →
  context_at c (cfg_latest_height params) ∧ ibc_store c = empty_store.
Proof.
  intros Hc Hu Hb. pose proof Hb as Hb'. unfold MockContext_from in Hb'.
  apply bind_Ok in Hb' as (u1 & _ & Hb'). apply bind_Ok in Hb' as (u2 & _ & Hb').
  apply bind_Ok in Hb' as (u3 & Hrev%assert_Ok%N.eqb_eq & Hb').
  apply bind_Ok in Hb' as (next & _ & Hb'). apply bind_Ok in Hb' as (bs & _ & [= <-]).
  destruct (context_built_valid _ _ Hc Hu Hb) as (Hv & Hl & _ & _ & _ & m & Hs). split; [|done].
  split; [done| | |done].
  - exists m. split; [done|]. by rewrite <- (sim_validate _ _ Hs).
  - intros E. by eapply latest_height_any.
Qed.

Lemma advance_while_at {E} fuel d c h c' :
  context_at c h → advance_while (E:=E) fuel d c = Ok c' → revision_height h <= d →
  context_at c' (mkHeight (height_revision_number h) d) ∧ ibc_store c' = ibc_store c.
Proof.
  revert c h. induction fuel as [|fuel IH]; intros c h Hc Hw Hd; cbn in Hw;
    rewrite (ca_latest _ _ Hc) in Hw; cbn in Hw;
    destruct (N.ltb_spec (revision_height h) d) as [Hlt|]; try done.
  2: { apply bind_Ok in Hw as (c1 & Ha & Hw).
       destruct (advance_context_at _ _ _ Hc Ha) as [Hc1 Es].
       apply (IH _ _ Hc1) in Hw as [? ?]; [|cbn; lia]. split; [done|congruence]. }
  all: injection Hw as <-; assert (revision_height h = d) as <- by lia; by destruct h.
Qed.

(** [with_height] stops at the height it is asked for, with the store as it was. *)
Theorem with_height_reaches {E} c h target c' :
  context_at c h → with_height (E:=E) c target = Ok c' →
  context_at c' target ∧ ibc_store c' = ibc_store c.
Proof.
  intros Hc Hw. unfold with_height in Hw. rewrite (ca_latest _ _ Hc) in Hw. cbn in Hw.
  destruct (N.ltb_spec (height_revision_number h) (height_revision_number target)); [done|].
  destruct (N.ltb_spec (height_revision_number target) (height_revision_number h)); [done|].
  destruct (N.ltb_spec (revision_height target) (revision_height h)) as [|Hle]; [done|].
  destruct target as [rn d]. cbn in *. assert (rn = height_revision_number h) as -> by lia.
  by apply (advance_while_at _ _ _ _ _ Hc Hw).
Qed.

(** The loop of [with_height] produces as many blocks as the height is away: any
    larger bound on it gives the same result. *)
Theorem with_height_fuel {E} c h target fuel :
  context_at c h → (N.to_nat (target - revision_height h) <= fuel)%nat →
  advance_while (E:=E) fuel target c
  = advance_while (E:=E) (N.to_nat (target - revision_height h)) target c.
Proof.
  remember (N.to_nat (target - revision_height h)) as k eqn:Ek. revert fuel c h Ek.
  induction k as [|k IH]; intros fuel c h Ek Hc Hf.
  - destruct fuel; [done|]. cbn. rewrite (ca_latest _ _ Hc). cbn.
    by rewrite (proj2 (N.ltb_ge _ _)) by lia.
  - destruct fuel as [|fuel]; [lia|]. cbn. rewrite (ca_latest _ _ Hc). cbn.
    destruct (revision_height h <? target); [|done].
    destruct (advance_host_chain_height c) as [c1| |] eqn:Ha; [|done..]. cbn.
    destruct (advance_context_at _ _ _ Hc Ha) as [Hc1 _].
    eapply IH; [|exact Hc1|]; cbn; lia.
Qed.
End simulation.

(** *** Sequences *)

(** [with_ack_sequence] does not only set one sequence: it replaces those of all
    other channels by their sequences for sending. *)
Theorem with_ack_sequence_copies_send `{TmText, Unicode, !TmCodec, !MockCodec, !Codec, !TmTestgen}
    (self : MockContext) p c n p' c' :
  (p', c') ≠ (p, c) →
  pc_get (next_sequence_ack (ibc_store (with_ack_sequence self p c n))) p' c'
  = pc_get (next_sequence_send (ibc_store self)) p' c'.
Proof. intros Hne. cbn. rewrite pc_get_insert. by rewrite decide_False by naive_solver. Qed.

(** *** Delivering messages *)

Section delivery.
Context `{TmText, Unicode, !TmCodec, !MockCodec, !Codec, !TmTestgen, !TmTestgenLaws}.
Context `{!Ics23, !Ics23Check, !TmVerifier, !Sha256, !TmTimeLaws}.
Context {App : Type} `{!Module App}.
#[local] Existing Instance any_client | 0.

Lemma deliver_Ok msg c (r : MockRouter App) c' r' :
  deliver msg (c, r) = ((c', r'), Ok tt) →
  ∃ s, dispatch (host:=testkit_host c) msg (ibc_store c, r) = ((s, r'), Ok tt)
    ∧ advance_host_chain_height (E:=RelayerError) (set_store (λ _, s) c) = Ok c'.
Proof.
  unfold deliver. destruct (dispatch msg (ibc_store c, r)) as [[s r1] [[]|e|]]; [|done..].
  destruct (advance_host_chain_height _) as [c1| |] eqn:Ha; [|done..]. intros [= <- <-]. eauto.
Qed.

Lemma deliveries_run msgs c (r : MockRouter App) h st0 os c' r' :
  context_at c h → chain_run st0 os (ibc_store c, r) →
  for_each deliver msgs (c, r) = ((c', r'), Ok tt) →
  context_at c' (mkHeight (height_revision_number h) (revision_height h + N.of_nat (length msgs)))
  ∧ ∃ os', chain_run st0 os' (ibc_store c', r').
Proof.
  revert c r h os. induction msgs as [|msg msgs IH]; intros c r h os Hc Hrun Hd; cbn in Hd.
  - injection Hd as <- <-. rewrite N.add_0_r. destruct h. eauto.
  - apply exec_bind_Ok in Hd as ([c1 r1] & [] & Hm & Hd).
    apply deliver_Ok in Hm as (s & Hs & Ha).
    destruct (advance_context_at _ _ _ (context_at_store (λ _, s) _ _ Hc) Ha) as [Hc1 Es].
    assert (chain_run st0 (os ++ observed (ibc_store c) msg) (ibc_store c1, r1)) as Hrun1.
    { rewrite Es. eapply run_step; [exact Hrun|]. by exists (testkit_host c); apply step_dispatch. }
    destruct (IH c1 r1 _ _ Hc1 Hrun1 Hd) as [Hat Hex].
    split; [|done]. cbn in Hat. cbn [length].
    by replace (revision_height h + N.of_nat (S (length msgs)))
      with (revision_height h + 1 + N.of_nat (length msgs)) by lia.
Qed.

(** C23: A session with the testkit is a run of a chain: when messages are delivered one
    after the other to a new context, and all are accepted, its store is one that
    a chain reaches from genesis, to which every theorem on runs applies; the
    context stays valid, and is one block higher for every message. *)
Theorem deliveries_are_a_run params c (r : MockRouter App) msgs c' r' :
  chain_ok (cfg_host_id params) → is_u64 (revision_height (cfg_latest_height params)) →
  MockContext_from (E:=string) params = Ok c →
  for_each deliver msgs (c, r) = ((c', r'), Ok tt) →
  (∃ os, chain_run (genesis r) os (ibc_store c', r'))
  ∧ validate c' = Ok tt
  ∧ latest_height (E:=string) c'
    = Ok (mkHeight (height_revision_number (cfg_latest_height params))
            (revision_height (cfg_latest_height params) + N.of_nat (length msgs))).
Proof.
  intros Hc Hu Hb Hd. destruct (context_from_at _ _ Hc Hu Hb) as [Hat Es].
  assert (chain_run (genesis r) [] (ibc_store c, r)) as Hrun by (rewrite Es; constructor).
  destruct (deliveries_run _ _ _ _ _ _ _ _ Hat Hrun Hd) as [Hat' Hex].
  split_and!; [done|by eapply context_at_valid|apply (ca_latest _ _ Hat')].
Qed.
End delivery.
End Testkit.
