(* ===== verification/TestChain.v ===== *)
(** * A concrete chain

    Instances of the interfaces the development is generic in, and a short
    history of a chain built on them: a client is created and updated, a
    connection and two channels are opened, packets are received, sent,
    acknowledged and timed out.  The witnesses of the theorems are evaluated on
    the stores of this history. *)

From S2P Require Import Prelude RustStr Identifiers Primitives Path Connection Channel Context.
From S2P Require Import ConnHandlers Module ChanHandlers PacketHandlers PacketSpec.
From S2P Require Import ClientHandlers MockClient Entrypoint Chain PacketSafety.
Local Open Scope string_scope.
Local Open Scope N_scope.

(** ** An encoding of countable data as bytes *)

Fixpoint pos_to_bytes (p : positive) : bytes :=
  match p with
  | xH => [Byte.x02]
  | xO p => Byte.x00 :: pos_to_bytes p
  | xI p => Byte.x01 :: pos_to_bytes p
  end.
Fixpoint bytes_to_pos (b : bytes) : option positive :=
  match b with
  | [Byte.x02] => Some xH
  | Byte.x00 :: b => xO <$> bytes_to_pos b
  | Byte.x01 :: b => xI <$> bytes_to_pos b
  | _ => None
  end.
Lemma pos_bytes_roundtrip p : bytes_to_pos (pos_to_bytes p) = Some p.
Proof.
  induction p as [p IH|p IH|]; cbn; [by rewrite IH..|done].
Qed.

Definition to_bytes `{Countable A} (x : A) : bytes := pos_to_bytes (encode x).
Definition from_bytes `{Countable A} (b : bytes) : option A := bytes_to_pos b ≫= decode.
Lemma from_to_bytes `{Countable A} (x : A) : from_bytes (to_bytes x) = Some x.
Proof. unfold from_bytes, to_bytes. rewrite pos_bytes_roundtrip. cbn. apply decode_encode. Qed.
#[export] Instance to_bytes_inj `{Countable A} : Inj (=) (=) (to_bytes (A:=A)).
Proof.
  intros x y E. apply (f_equal (from_bytes (A:=A))) in E. rewrite !from_to_bytes in E. congruence.
Qed.

#[export] Instance byte_eq_dec : EqDecision Byte.byte := Byte.byte_eq_dec.
#[export] Instance byte_countable : Countable Byte.byte :=
  inj_countable Byte.to_N Byte.of_N Byte.of_to_N.

Ltac countable_record f g :=
  refine (inj_countable' f g _); by intros [].

#[export] Instance Any_countable : Countable Any.
Proof. countable_record (λ a, (type_url a, any_value a)) (λ '(u, v), mkAny u v). Defined.
#[export] Instance RawVersion_eq_dec : EqDecision RawVersion.
Proof. solve_decision. Defined.
#[export] Instance RawVersion_countable : Countable RawVersion.
Proof.
  countable_record (λ v, (raw_identifier v, raw_features v)) (λ '(i, f), mkRawVersion i f).
Defined.
#[export] Instance RawConnCounterparty_eq_dec : EqDecision RawConnCounterparty.
Proof. solve_decision. Defined.
#[export] Instance RawConnCounterparty_countable : Countable RawConnCounterparty.
Proof.
  countable_record (λ c, (raw_cpty_client_id c, raw_cpty_connection_id c, raw_cpty_prefix c))
    (λ '(a, b, p), mkRawConnCounterparty a b p).
Defined.
#[export] Instance RawConnectionEnd_eq_dec : EqDecision RawConnectionEnd.
Proof. solve_decision. Defined.
#[export] Instance RawConnectionEnd_countable : Countable RawConnectionEnd.
Proof.
  countable_record (λ c, (raw_conn_client_id c, raw_conn_versions c, raw_conn_state c,
    raw_conn_counterparty c, raw_conn_delay_period c))
    (λ '(a, b, s, c, d), mkRawConnectionEnd a b s c d).
Defined.
#[export] Instance RawChanCounterparty_eq_dec : EqDecision RawChanCounterparty.
Proof. solve_decision. Defined.
#[export] Instance RawChanCounterparty_countable : Countable RawChanCounterparty.
Proof.
  countable_record (λ c, (raw_rem_port_id c, raw_rem_channel_id c))
    (λ '(a, b), mkRawChanCounterparty a b).
Defined.
#[export] Instance RawChannel_eq_dec : EqDecision RawChannel.
Proof. solve_decision. Defined.
#[export] Instance RawChannel_countable : Countable RawChannel.
Proof.
  countable_record (λ c, (raw_chan_state c, raw_chan_ordering c, raw_chan_counterparty c,
    raw_chan_connection_hops c, raw_chan_version c, raw_chan_upgrade_sequence c))
    (λ '(a, b, c, d, e, f), mkRawChannel a b c d e f).
Defined.
#[export] Instance RawHeight_eq_dec : EqDecision RawHeight.
Proof. solve_decision. Defined.
#[export] Instance RawHeight_countable : Countable RawHeight.
Proof.
  countable_record (λ h, (raw_revision_number h, raw_revision_height h))
    (λ '(a, b), mkRawHeight a b).
Defined.
#[export] Instance RawMockHeader_eq_dec : EqDecision RawMockHeader.
Proof. solve_decision. Defined.
#[export] Instance RawMockHeader_countable : Countable RawMockHeader.
Proof.
  countable_record (λ h, (raw_header_height h, raw_header_timestamp h))
    (λ '(a, b), mkRawMockHeader a b).
Defined.
#[export] Instance RawMockClientState_eq_dec : EqDecision RawMockClientState.
Proof. solve_decision. Defined.
#[export] Instance RawMockClientState_countable : Countable RawMockClientState.
Proof.
  countable_record (λ h, (raw_cs_header h, raw_cs_trusting_period h, raw_cs_frozen h))
    (λ '(a, b, c), mkRawMockClientState a b c).
Defined.
#[export] Instance RawMockConsensusState_eq_dec : EqDecision RawMockConsensusState.
Proof. solve_decision. Defined.
#[export] Instance RawMockConsensusState_countable : Countable RawMockConsensusState.
Proof. countable_record raw_cons_header mkRawMockConsensusState. Defined.
#[export] Instance RawMisbehaviour_eq_dec : EqDecision RawMisbehaviour.
Proof. solve_decision. Defined.
#[export] Instance RawMisbehaviour_countable : Countable RawMisbehaviour.
Proof.
  countable_record (λ h, (raw_mb_client_id h, raw_mb_header1 h, raw_mb_header2 h))
    (λ '(a, b, c), mkRawMisbehaviour a b c).
Defined.

(** ** Instances *)

#[export] Existing Instance nanos_time.
#[export] Existing Instance nanos_time_laws.
#[export] Instance no_unicode : Unicode := λ _, false.

(** A stand-in for SHA-256 of the right length: the first bytes, padded. *)
#[export] Instance padding_hash : Sha256.
Proof.
  refine {| sha256 b := take 32 (b ++ repeat Byte.x00 32)%list |}.
  intros b. rewrite length_take, length_app, repeat_length. lia.
Defined.

#[export] Instance test_codec : Codec := {|
  encode_connection_end := to_bytes;
  encode_channel_end := to_bytes;
  encode_any := to_bytes;
  context_error_to_string _ := "context error" |}.
#[export] Instance test_codec_laws : CodecLaws.
Proof. split; cbn; apply _. Qed.

Definition decode_or_fail `{Countable A} (b : bytes) : outcome string A :=
  ok_or (from_bytes b) "failed to decode".
#[export] Instance test_mock_codec : MockCodec := {|
  encode_mock_header := to_bytes; decode_mock_header := decode_or_fail;
  encode_mock_client_state := to_bytes; decode_mock_client_state := decode_or_fail;
  encode_mock_consensus_state := to_bytes; decode_mock_consensus_state := decode_or_fail;
  encode_mock_misbehaviour := to_bytes; decode_mock_misbehaviour := decode_or_fail;
  conversion_error_to_string _ := "conversion error";
  future_consensus_state _ _ := "latest consensus state is in the future" |}.

(** ** The host and its router *)

Definition seconds (n : N) : Timestamp := mkTimestamp (Some (Z.of_N (n * NANOS_PER_SEC))).
Definition at_height (n : N) : Height := mkHeight 0 n.

Definition test_context : MockContext :=
  mkMockContext (mkChainId "chain" 0) 10
    [mkMockHeader (at_height 9) (seconds 997); mkMockHeader (at_height 10) (seconds 1000)]
    (Duration_from_secs 3).
#[export] Instance test_host : Host := mock_host test_context.

#[export] Existing Instance null_module.
Definition transfer : PortId := mkPortId "transfer".
Definition test_router : MockRouter () :=
  scope_port_to_module transfer (mkModuleId "transfer")
    (mkMockRouter {[mkModuleId "transfer" := tt]} ∅).

(** ** Messages *)

Definition any_or_empty (m : outcome string Any) : Any :=
  match m with Ok a => a | _ => mkAny "" [] end.
Definition header_at (h t : N) : MockHeader := mkMockHeader (at_height h) (seconds t).
Definition client_state_at (h t : N) : MockClientState := MockClientState_new (header_at h t).

Definition client_0 : ClientId := mkClientId "9999-mock-0".
Definition remote_client : ClientId := mkClientId "07-tendermint-3".
Definition remote_connection : ConnectionId := mkConnectionId "connection-7".
Definition remote_channel : ChannelId := mkChannelId "channel-5".
Definition remote_prefix : CommitmentPrefix := mkCommitmentPrefix [Byte.x69; Byte.x62; Byte.x63].
Definition proof : CommitmentProofBytes := mkCommitmentProofBytes [Byte.x01].
Definition version_1 : Version := mkVersion "1" ["ORDER_ORDERED"; "ORDER_UNORDERED"].

Definition msg_create : MsgCreateClient :=
  mkMsgCreateClient (any_or_empty (MockClientState_into (client_state_at 5 500)))
    (any_or_empty (MockConsensusState_into (MockConsensusState_new (header_at 5 500)))) "signer".
Definition msg_update : MsgUpdateClient :=
  mkMsgUpdateClient client_0 (any_or_empty (MockHeader_into (header_at 7 600))) "signer".
Definition msg_update_8 : MsgUpdateClient :=
  mkMsgUpdateClient client_0 (any_or_empty (MockHeader_into (header_at 8 700))) "signer".
Definition msg_misbehaviour : MsgSubmitMisbehaviour :=
  mkMsgSubmitMisbehaviour client_0
    (mkAny MOCK_MISBEHAVIOUR_TYPE_URL (to_bytes (mkRawMisbehaviour "07-tendermint-0"
      (Some (mkRawMockHeader (Some (mkRawHeight 0 8)) 1)) (Some (mkRawMockHeader (Some (mkRawHeight 0 8)) 2)))))
    "signer".

Definition msg_conn_try : MsgConnectionOpenTry :=
  mkMsgConnectionOpenTry client_0 (any_or_empty (MockClientState_into (client_state_at 9 997)))
    (mkConnCounterparty remote_client (Some remote_connection) remote_prefix) [version_1]
    proof proof proof (at_height 7) (at_height 9) 0 "signer" None "".
Definition msg_conn_confirm : MsgConnectionOpenConfirm :=
  mkMsgConnectionOpenConfirm (ConnectionId_new 0) proof (at_height 7) "signer".

Definition msg_chan_try (order : Order) : MsgChannelOpenTry :=
  mkMsgChannelOpenTry transfer [ConnectionId_new 0] transfer remote_channel (mkChanVersion "ics20-1") proof
    (at_height 7) order "signer" (mkChanVersion "").
Definition msg_chan_confirm (n : N) : MsgChannelOpenConfirm :=
  mkMsgChannelOpenConfirm transfer (ChannelId_new n) proof (at_height 7) "signer".

(** A packet from the counterparty, and one to it. *)
Definition packet_in (n seq : N) : Packet :=
  mkPacket seq transfer remote_channel transfer (ChannelId_new n) [Byte.x61] (At (at_height 20))
    Timestamp_none.
Definition packet_out (n seq : N) (timeout : N) : Packet :=
  mkPacket seq transfer (ChannelId_new n) transfer remote_channel [Byte.x62]
    (At (at_height timeout)) Timestamp_none.

Definition msg_recv (n seq : N) : MsgRecvPacket :=
  mkMsgRecvPacket (packet_in n seq) proof (at_height 7) "signer".
Definition msg_ack (p : Packet) : MsgAcknowledgement :=
  mkMsgAcknowledgement p (mkAcknowledgement [Byte.x01]) proof (at_height 7) "signer".
Definition msg_timeout (p : Packet) : MsgTimeout :=
  mkMsgTimeout p 1 proof (at_height 8) "signer".

(** ** The history *)

Notation test_chain := (chain (App:=())).

(** Runs a script of messages to dispatch and packets to send, if all succeed. *)
Fixpoint play (script : list (MsgEnvelope + Packet)) (os : list obs) (st : test_chain) :
    option (list obs * test_chain) :=
  match script with
  | [] => Some (os, st)
  | inl msg :: script =>
    match dispatch msg st with
    | (st', Ok _) => play script (os ++ observed st.1 msg) st'
    | _ => None
    end
  | inr p :: script =>
    match send_packet p st.1 with
    | (s', Ok _) => play script (os ++ [Sent p]) (s', st.2)
    | _ => None
    end
  end.

Lemma play_run script st0 os st os' st' :
  chain_run st0 os st → play script os st = Some (os', st') → chain_run st0 os' st'.
Proof.
  revert os st. induction script as [|[msg|p] script IH]; intros os [s r] Hrun; cbn.
  - by intros [= <- <-].
  - destruct (dispatch msg (s, r)) as [st1 [[]|e|]] eqn:Ed; [|done..].
    apply IH. eapply run_step; [done|]. by exists test_host; apply step_dispatch.
  - destruct (send_packet p s) as [s1 [[]|e|]] eqn:Ed; [|done..].
    apply IH. eapply run_step; [done|]. exists test_host. by eapply step_send; [|apply same_state_refl].
Qed.

Definition open_script : list (MsgEnvelope + Packet) := [
  inl (EnvClient (ClCreateClient msg_create));
  inl (EnvClient (ClUpdateClient msg_update));
  inl (EnvConnection (ConnOpenTry msg_conn_try));
  inl (EnvConnection (ConnOpenConfirm msg_conn_confirm));
  inl (EnvChannel (ChanOpenTry (msg_chan_try Unordered)));
  inl (EnvChannel (ChanOpenConfirm (msg_chan_confirm 0)));
  inl (EnvChannel (ChanOpenTry (msg_chan_try Ordered)));
  inl (EnvChannel (ChanOpenConfirm (msg_chan_confirm 1)))].

Definition packet_script : list (MsgEnvelope + Packet) := [
  inl (EnvPacket (PktRecv (msg_recv 0 4)));
  inl (EnvPacket (PktRecv (msg_recv 1 1)));
  inl (EnvPacket (PktRecv (msg_recv 1 2)));
  inr (packet_out 0 1 20); inr (packet_out 0 2 7); inr (packet_out 1 1 7);
  inl (EnvPacket (PktAck (msg_ack (packet_out 0 1 20))));
  inl (EnvClient (ClUpdateClient msg_update_8));
  inl (EnvPacket (PktTimeout (msg_timeout (packet_out 1 1 7))))].

(** The state after a prefix of the history. *)
Definition after (script : list (MsgEnvelope + Packet)) : test_chain :=
  match play script [] (genesis test_router) with
  | Some (_, st) => st
  | None => genesis test_router
  end.
Definition observations (script : list (MsgEnvelope + Packet)) : list obs :=
  match play script [] (genesis test_router) with Some (os, _) => os | None => [] end.

Definition plays (script : list (MsgEnvelope + Packet)) : bool :=
  match play script [] (genesis test_router) with Some _ => true | None => false end.

Lemma ran script :
  plays script = true →
  chain_run (genesis test_router) (observations script) ((after script).1, (after script).2).
Proof.
  unfold plays, observations, after.
  destruct (play script [] (genesis test_router)) as [[os [s r]]|] eqn:E; [|done].
  intros _. eapply play_run, E. constructor.
Qed.

Lemma ran_to script :
  plays script = true → chain_run (genesis test_router) (observations script) (after script).
Proof. intros Hp. rewrite (surjective_pairing (after script)). by apply ran. Qed.

Lemma after_inv script :
  plays script = true → store_inv (after script).1 (observations script).
Proof. intros Hp. apply (chain_run_inv test_router _ ((after script).1, (after script).2)), ran, Hp. Qed.

Definition st_client : test_chain := after (take 2 open_script).
Definition st_conn_try : test_chain := after (take 3 open_script).
Definition st_conn : test_chain := after (take 4 open_script).
Definition st_chan_try : test_chain := after (take 5 open_script).
Definition st_open : test_chain := after open_script.
Definition st_sent : test_chain := after (open_script ++ take 6 packet_script).
Definition st_updated : test_chain := after (open_script ++ take 8 packet_script).
Definition st_end : test_chain := after (open_script ++ packet_script).

(** The whole history succeeds, and this is what it leaves behind. *)
Definition full_script : list (MsgEnvelope + Packet) := (open_script ++ packet_script)%list.
Example history_outcome :
  plays full_script = true
  ∧ seqs_at delivery transfer (ChannelId_new 0) (observations full_script) = [4]
  ∧ seqs_at delivery transfer (ChannelId_new 1) (observations full_script) = [1; 2]
  ∧ seqs_at resolution transfer (ChannelId_new 0) (observations full_script) = [1]
  ∧ (chan_state <$> pc_get (channels st_end.1) transfer (ChannelId_new 0)) = Some ChanOpen
  ∧ (chan_state <$> pc_get (channels st_end.1) transfer (ChannelId_new 1)) = Some ChanClosed.
Proof. by vm_compute. Qed.

(** Checks by evaluation of a boolean. *)
Lemma accepted {E} (m : outcome E ()) : is_ok m = true → m = Ok tt.
Proof. by destruct m as [[]| |]. Qed.
Definition value_of {E A} (d : A) (m : outcome E A) : A := match m with Ok a => a | _ => d end.
Lemma has_value {E A} (d : A) (m : outcome E A) : is_ok m = true → m = Ok (value_of d m).
Proof. by destruct m. Qed.
Lemma executed {S E} (m : S * outcome E ()) : is_ok m.2 = true → m = (m.1, Ok tt).
Proof. by destruct m as [s [[]| |]]. Qed.
Lemma executed2 {S T E} (m : (S * T) * outcome E ()) :
  is_ok m.2 = true → m = ((m.1.1, m.1.2), Ok tt).
Proof. by destruct m as [[s t] [[]| |]]. Qed.

Definition frozen_at (s : IbcStore) (id : ClientId) : bool :=
  match clients s !! id with
  | Some rec => match client_state_of rec with Some cs => frozen cs | None => false end
  | None => false
  end.
Lemma frozen_inert s id : frozen_at s id = true → ∃ rec, inert id s rec.
Proof.
  unfold frozen_at, inert. destruct (clients s !! id) as [rec|]; cbn; [|done].
  destruct (client_state_of rec) as [cs|] eqn:E; cbn; [|done]. intros Hf. exists rec.
  split; [done|]. exists cs. split; [done|]. intros host s'. cbn. unfold mock_status. by rewrite Hf.
Qed.

(** ** Sound light clients

    The mock client with its proof checks replaced: [ledger_client] accepts the
    values written in a ledger and the absence of everything else; in
    [keyed_client] a proof names the path it is for. *)

Definition with_proofs
    (membership : CommitmentPrefix → CommitmentProofBytes → CommitmentRoot → Path → bytes →
                  outcome ClientError ())
    (absence : CommitmentPrefix → CommitmentProofBytes → CommitmentRoot → Path →
               outcome ClientError ()) : LightClient := {|
  cons_root := cons_root; cons_timestamp := cons_timestamp;
  client_state_try_from := client_state_try_from; verify_consensus_state := verify_consensus_state;
  client_type := client_type; latest_height := latest_height;
  validate_proof_height := validate_proof_height; verify_upgrade_client := verify_upgrade_client;
  verify_membership _ := membership; verify_non_membership _ := absence;
  verify_client_message := verify_client_message; check_for_misbehaviour := check_for_misbehaviour;
  status := status; initialise := initialise; update_state := update_state;
  update_state_on_misbehaviour := update_state_on_misbehaviour;
  update_state_on_upgrade := update_state_on_upgrade |}.

Definition accept_if (b : bool) : outcome ClientError () :=
  if b then Ok tt else Err (ClientOther "proof rejected").
Lemma accept_if_Ok b : accept_if b = Ok tt ↔ b = true.
Proof. by destruct b. Qed.

Definition ledger_client (ledger : list (Path * bytes)) : LightClient :=
  with_proofs (λ _ _ _ path value, accept_if (bool_decide ((path, value) ∈ ledger)))
              (λ _ _ _ path, accept_if (negb (bool_decide (path ∈ ledger.*1)))).
Definition in_ledger (ledger : list (Path * bytes)) (_ : CommitmentRoot) (_ : CommitmentPrefix)
    (path : Path) (value : bytes) : Prop := (path, value) ∈ ledger.

Lemma ledger_sound ledger : SoundClient (H1:=ledger_client ledger) (in_ledger ledger).
Proof.
  split. intros cs prefix pf root path value. cbn. rewrite accept_if_Ok.
  apply bool_decide_eq_true.
Qed.
Lemma ledger_sound_absence ledger :
  SoundAbsence (H1:=ledger_client ledger) (in_ledger ledger).
Proof.
  split. intros cs prefix pf root path. cbn.
  rewrite accept_if_Ok, negb_true_iff, bool_decide_eq_false. intros Hn value Hin.
  apply Hn. apply list_elem_of_fmap. by exists (path, value).
Qed.

Definition keyed_client : LightClient :=
  with_proofs
    (λ _ pf _ path _, accept_if (bool_decide
       (proof_bytes pf = Byte.x01 :: to_bytes (Path_to_string path))))
    (λ _ pf _ path, accept_if (bool_decide
       (proof_bytes pf = Byte.x00 :: to_bytes (Path_to_string path)))).
Lemma keyed_single : SingleKeyProofs (H1:=keyed_client).
Proof.
  split; intros *; cbn; rewrite !accept_if_Ok, !bool_decide_eq_true; intros ->; [|done].
  intros [= E]. by apply to_bytes_inj.
Qed.
