(* ===== verification/TestScript.v ===== *)
(** * Scripts of chains

    Blocks with messages, and with actions of applications, to execute; and the life of a
    chain, in the sense of [Network], that a script which succeeds gives rise to. *)

From S2P Require Import Prelude RustStr Identifiers Primitives Path Connection Channel Context.
From S2P Require Import ConnHandlers Module ChanHandlers PacketHandlers PacketSpec ClientHandlers.
From S2P Require Import MockClient Entrypoint Chain Network TestChain.
Local Open Scope N_scope.

Lemma elem_of_forallb {A} (f : A → bool) l x : forallb f l = true → x ∈ l → f x = true.
Proof. intros Hf Hx. by apply (proj1 (forallb_forall f l) Hf), list_elem_of_In. Qed.

Definition block_secs (n : N) : N := 1000 + 3 * (n - 10).

(** A block at a height, with the messages and the actions of the block. *)
Definition script (X : Type) : Type := list (N * list (MsgEnvelope + X)).

Section scripts.
Context {types : ChainTypes} {client : LightClient} (host_at : N → Host) (root_at : N → CommitmentRoot).
Context {App : Type} `{!Module App} (router : MockRouter App).
Notation chain := (chain (App:=App)).
Context {X : Type} (act : Host → X → chain → option (list obs * chain)).

(** Executes a script; the stores before and after every step have to pass [ok]. *)
Fixpoint live_block (ok : IbcStore → IbcStore → bool) (n : N) (todo : list (MsgEnvelope + X))
    (os : list obs) (st : chain) : option (list obs * chain) :=
  match todo with
  | [] => Some (os, st)
  | inl msg :: todo =>
    match dispatch (host:=host_at n) msg st with
    | (st', Ok _) => if ok st.1 st'.1 then live_block ok n todo (os ++ observed st.1 msg) st' else None
    | _ => None
    end
  | inr x :: todo =>
    match act (host_at n) x st with
    | Some (o, st') => if ok st.1 st'.1 then live_block ok n todo (os ++ o) st' else None
    | None => None
    end
  end.

Definition block_at (n : N) (os : list obs) (st : chain) : block :=
  mkBlock (at_height n) (seconds (block_secs n)) (root_at n) (view st.1) os.
(** [b] is no earlier than the block at height [n]. *)
Definition not_before (n : N) (b : block) : bool :=
  bool_decide (revision_height (block_height b) < n)
  && bool_decide (block_time b = seconds (block_secs (revision_height (block_height b))))
  && bool_decide (block_height b = at_height (revision_height (block_height b))).

Fixpoint live (ok : IbcStore → IbcStore → bool) (sc : script X) (bs : list block) (os : list obs)
    (st : chain) : option (list block * list obs * chain) :=
  match sc with
  | [] => Some (bs, os, st)
  | (n, todo) :: sc =>
    if forallb (not_before n) bs then
      match live_block ok n todo os st with
      | Some (os', st') => live ok sc (bs ++ [block_at n os st]) os' st'
      | None => None
      end
    else None
  end.

Lemma not_before_spec n b os st : not_before n b = true → no_earlier_block b (block_at n os st).
Proof.
  unfold not_before. rewrite !andb_true_iff, !bool_decide_eq_true. intros [[Hn Ht] Hh].
  unfold no_earlier_block. rewrite Hh, Ht. cbn. split.
  - right. unfold height_lt. cbn. lia.
  - intros t [= <-]. eexists. split; [done|]. cbn. unfold block_secs, NANOS_PER_SEC. lia.
Qed.

(** Checks do not change the outcome. *)
Lemma live_block_unchecked ok n todo os st x :
  live_block ok n todo os st = Some x → live_block (λ _ _, true) n todo os st = Some x.
Proof.
  revert os st. induction todo as [|[msg|y] todo IH]; intros os st; cbn; [done|..].
  - destruct (dispatch msg st) as [st1 [[]|e|]]; [|done..]. destruct (ok _ _); [apply IH|done].
  - destruct (act _ y st) as [[o st1]|]; [|done]. destruct (ok _ _); [apply IH|done].
Qed.
Lemma live_unchecked ok sc bs os st x :
  live ok sc bs os st = Some x → live (λ _ _, true) sc bs os st = Some x.
Proof.
  revert bs os st. induction sc as [|[n todo] sc IH]; intros bs os st; cbn [live]; [done|].
  destruct (forallb (not_before n) bs); [|done].
  destruct (live_block ok n todo os st) as [[os1 st1]|] eqn:El; [|done].
  rewrite (live_block_unchecked _ _ _ _ _ _ El). apply IH.
Qed.

Definition lived (sc : script X) : option (list block * list obs * chain) :=
  live (λ _ _, true) sc [] [] (genesis router).
Definition blocks (sc : script X) : list block :=
  match lived sc with Some (bs, _, _) => bs | None => [] end.
Definition log (sc : script X) : list obs :=
  match lived sc with Some (_, os, _) => os | None => [] end.
(** The chain at the end of a script. *)
Definition final (sc : script X) : chain :=
  match lived sc with Some (_, _, st) => st | None => genesis router end.
Definition lives (ok : IbcStore → IbcStore → bool) (sc : script X) : bool :=
  match live ok sc [] [] (genesis router) with Some _ => true | None => false end.

Section sound.
Context (Hheight : ∀ n, host_height (Host:=host_at n) = Ok (at_height n)).
Context (Htime : ∀ n, host_timestamp (Host:=host_at n) = Ok (seconds (block_secs n))).
Context (G : Host → chain → list obs → chain → Prop) (ok : IbcStore → IbcStore → bool).
Context (Hstep : ∀ host x st o st', act host x st = Some (o, st') → chain_step_in host st o st').
Context (Hmsg : ∀ (host : Host) msg s r st', ok s st'.1 = true → dispatch msg (s, r) = (st', Ok tt) →
  G host (s, r) (observed s msg) st').
Context (Hact : ∀ host x st o st', ok st.1 st'.1 = true → act host x st = Some (o, st') → G host st o st').
Notation script_life := (life G router).

Lemma live_block_life n todo bs os st os' st' b :
  block_height b = at_height n → block_time b = seconds (block_secs n) →
  script_life (bs ++ [b])%list os st → live_block ok n todo os st = Some (os', st') →
  script_life (bs ++ [b])%list os' st'.
Proof.
  intros Hh Ht. revert os st. induction todo as [|[msg|x] todo IH]; intros os [s r] Hl; cbn.
  - by intros [= <- <-].
  - destruct (dispatch msg (s, r)) as [st1 [[]|e|]] eqn:Ed; [|done..].
    destruct (ok s st1.1) eqn:Eok; [|done]. apply IH.
    eapply (life_step _ _ (host_at n)); [exact Hl|by rewrite Hh|by rewrite Ht|by apply Hmsg|].
    by apply step_dispatch.
  - destruct (act (host_at n) x (s, r)) as [[o st1]|] eqn:Ed; [|done..].
    destruct (ok s st1.1) eqn:Eok; [|done]. apply IH.
    eapply (life_step _ _ (host_at n)); [exact Hl|by rewrite Hh|by rewrite Ht|by eapply Hact|].
    by eapply Hstep.
Qed.

Lemma live_life sc bs os st bs' os' st' :
  script_life bs os st → live ok sc bs os st = Some (bs', os', st') → script_life bs' os' st'.
Proof.
  revert bs os st. induction sc as [|[n todo] sc IH]; intros bs os st Hl; cbn [live].
  - by intros [= <- <- <-].
  - destruct (forallb (not_before n) bs) eqn:Eb; [|done].
    destruct (live_block ok n todo os st) as [[os1 st1]|] eqn:El; [|done]. apply IH.
    eapply live_block_life; [| | |exact El]; try done. apply life_block; try done.
    intros b' Hb'. apply not_before_spec. by apply (elem_of_forallb _ _ _ Eb).
Qed.

Lemma script_lives sc : lives ok sc = true → script_life (blocks sc) (log sc) (final sc).
Proof.
  unfold lives, blocks, log, final, lived.
  destruct (live ok sc [] [] (genesis router)) as [[[bs os] st]|] eqn:El; [|done]. intros _.
  rewrite (live_unchecked _ _ _ _ _ _ El). eapply live_life; [|exact El]. apply life_start.
Qed.
End sound.
End scripts.

(** ** Scripts that send packets *)

Section sending.
Context {types : ChainTypes} {client : LightClient} (host_at : N → Host) (root_at : N → CommitmentRoot).

Definition send_act (host : Host) (p : Packet) (st : test_chain) : option (list obs * test_chain) :=
  match send_packet p st.1 with
  | (s', Ok _) => Some ([Sent p], (s', st.2))
  | _ => None
  end.

Lemma send_act_step (host : Host) p st o st' : send_act host p st = Some (o, st') → chain_step_in host st o st'.
Proof.
  destruct st as [s r]. unfold send_act. cbn. destruct (send_packet p s) as [s1 [[]|e|]] eqn:Ed; [|done..].
  intros [= <- <-]. by eapply step_send; [|apply same_state_refl].
Qed.

Context (Hheight : ∀ n, host_height (Host:=host_at n) = Ok (at_height n)).
Context (Htime : ∀ n, host_timestamp (Host:=host_at n) = Ok (seconds (block_secs n))).

Lemma lives_life (G : relation IbcStore) ok sc :
  (∀ s s', ok s s' = true → G s s') → lives host_at root_at test_router send_act ok sc = true →
  ∃ st, life (λ _ st _ st', G st.1 st'.1) test_router (blocks host_at root_at test_router send_act sc)
    (log host_at root_at test_router send_act sc) st.
Proof.
  intros Hok Hl. eexists. apply (script_lives host_at root_at test_router send_act Hheight Htime _ ok); [| | |done].
  - apply send_act_step.
  - intros. by apply Hok.
  - intros. by apply Hok.
Qed.
End sending.
