(* ===== verification/TestNetwork.v ===== *)
(** * Two concrete chains

    The script of two chains that open a channel with each other and exchange packets, one
    of which is acknowledged and one timed out: the theorems of [Network] apply to it.  The
    light clients are the mock client with roots that depend on the height, and with proof
    checks that accept, for channels and packets, what is written in a ledger of the other
    chain. *)

From S2P Require Import Prelude RustStr Identifiers Primitives Path Connection Channel Context.
From S2P Require Import ConnHandlers Module ChanHandlers PacketHandlers PacketSpec ClientHandlers.
From S2P Require Import MockClient Entrypoint Chain Network TestChain TestScript.
Local Open Scope string_scope.
Local Open Scope N_scope.

(** ** The clients *)

Record Ledger := mkLedger {
  ledger_entries : list (CommitmentRoot * Path * bytes);
  ledger_absent : list (CommitmentRoot * Path) }.

Definition net_root (h : Height) : CommitmentRoot := mkCommitmentRoot (to_be_bytes (revision_height h)).

Definition net_client (l : Ledger) : LightClient := {|
  cons_root := (λ c, net_root (mh_height (mcons_header c))) : ConsensusState → _;
  cons_timestamp := cons_timestamp;
  client_state_try_from := client_state_try_from; verify_consensus_state := verify_consensus_state;
  client_type := client_type; latest_height := latest_height;
  validate_proof_height := validate_proof_height; verify_upgrade_client := verify_upgrade_client;
  verify_membership _ _ _ root path value := accept_if (negb (packet_path path)
    || bool_decide ((root, path, value) ∈ ledger_entries l));
  verify_non_membership _ _ _ root path := accept_if (negb (packet_path path)
    || bool_decide ((root, path) ∈ ledger_absent l));
  verify_client_message := verify_client_message; check_for_misbehaviour := check_for_misbehaviour;
  status := status; initialise := initialise; update_state := update_state;
  update_state_on_misbehaviour := update_state_on_misbehaviour;
  update_state_on_upgrade := update_state_on_upgrade |}.

Lemma net_client_frame l : ClientFrame (H1:=net_client l).
Proof.
  split; [apply (initialise_frame (H1:=mock_client))|apply (update_state_frame (H1:=mock_client))
    |apply (update_state_on_misbehaviour_frame (H1:=mock_client))
    |apply (update_state_on_upgrade_frame (H1:=mock_client))].
Qed.

(** The ledger is true of the blocks. *)
Definition ledger_true (l : Ledger) (bs : list block) : bool :=
  forallb (λ b,
    forallb (λ '(root, path, value), negb (bool_decide (root = block_root b))
      || bool_decide (view_value (block_view b) path = Some value)) (ledger_entries l)
    && forallb (λ '(root, path), negb (bool_decide (root = block_root b))
      || bool_decide (view_value (block_view b) path = None)) (ledger_absent l)) bs.

Lemma ledger_faithful l prefix bs :
  ledger_true l bs = true → FaithfulProofs (lc:=net_client l) (λ _, True) prefix bs.
Proof.
  intros Hl. split.
  - intros cs pf b path value _ Hb Hp _ Hv. apply (elem_of_forallb _ _ _ Hl) in Hb.
    apply andb_true_iff in Hb as [Hb _]. cbn in Hv. apply accept_if_Ok in Hv. rewrite Hp in Hv.
    apply bool_decide_eq_true in Hv. apply (elem_of_forallb _ _ _ Hb) in Hv. cbn in Hv.
    rewrite bool_decide_eq_true_2 in Hv by done. by apply bool_decide_eq_true in Hv.
  - intros cs pf b path _ Hb Hp _ Hv. apply (elem_of_forallb _ _ _ Hl) in Hb.
    apply andb_true_iff in Hb as [_ Hb]. cbn in Hv. apply accept_if_Ok in Hv. rewrite Hp in Hv.
    apply bool_decide_eq_true in Hv. apply (elem_of_forallb _ _ _ Hb) in Hv. cbn in Hv.
    rewrite bool_decide_eq_true_2 in Hv by done. by apply bool_decide_eq_true in Hv.
Qed.

(** ** Scripts with blocks *)

Definition net_host (n : N) : Host := {|
  host_height := Ok (at_height n);
  host_timestamp := Ok (seconds (block_secs n));
  host_consensus_state :=
    (λ _, Ok (MockConsensusState_new (header_at 9 997))) : _ → outcome _ HostConsensusState;
  host_consensus_state_encode_vec := (λ c, mock_consensus_state_encode_vec c) : HostConsensusState → _;
  host_client_state_try_from := MockClientState_try_from : _ → outcome _ HostClientState;
  validate_self_client _ := Ok tt;
  commitment_prefix := remote_prefix;
  max_expected_time_per_block := Duration_from_secs 3;
  validate_message_signer _ := Ok tt |}.

Notation net_lived l := (TestScript.lives (client:=net_client l) net_host (λ n, net_root (at_height n)) test_router send_act).
Notation net_blocks l := (blocks (client:=net_client l) net_host (λ n, net_root (at_height n)) test_router send_act).
Notation net_log l := (log (client:=net_client l) net_host (λ n, net_root (at_height n)) test_router send_act).

(** Whether the client behind the channel end of the scripts has only headers of [bs]. *)
Definition header_of (bs : list block) (h : Height) (c : MockConsensusState) : bool :=
  existsb (λ b, bool_decide (block_height b = h)
    && bool_decide (block_root b = net_root (mh_height (mcons_header c)))
    && bool_decide (block_time b = mh_timestamp (mcons_header c))) bs.
Definition follows_b (bs : list block) (s _ : IbcStore) : bool :=
  match pc_get (channels s) transfer (ChannelId_new 0) with
  | Some c =>
    match chan_connection_hops c with
    | hop :: _ =>
      match connections s !! hop with
      | Some conn =>
        bool_decide (cpty_prefix (conn_counterparty conn) = remote_prefix)
        && match clients s !! conn_client_id conn with
           | Some rec => bool_decide (map_Forall (λ h c, header_of bs h c = true) (consensus_states rec))
           | None => true
           end
      | None => true
      end
    | [] => true
    end
  | None => true
  end.

Lemma follows_b_sound l bs s s' :
  follows_b bs s s' = true →
  follows (lc:=net_client l) (λ _, True) remote_prefix bs transfer (ChannelId_new 0) s.
Proof.
  unfold follows_b. intros Hf c conn Hc (hop & rest & Hh & Hconn). rewrite Hc, Hh, Hconn in Hf.
  apply andb_true_iff in Hf as [Hp Hf]. apply bool_decide_eq_true in Hp. split_and!; [done..|].
  intros h cons (rec & Er & Ec)%consensus_state_Ok. rewrite Er in Hf.
  apply bool_decide_eq_true in Hf. apply (map_Forall_lookup_1 _ _ _ _ Hf) in Ec.
  apply existsb_exists in Ec as (b & Hb & Ec). apply list_elem_of_In in Hb.
  rewrite !andb_true_iff, !bool_decide_eq_true in Ec. destruct Ec as [[E1 E2] E3].
  exists b. split_and!; try done. by destruct h.
Qed.

(** ** The two scripts *)

Definition net_header (n : N) : MockHeader := header_at n (block_secs n).
Definition net_create : MsgEnvelope :=
  EnvClient (ClCreateClient (mkMsgCreateClient
    (any_or_empty (MockClientState_into (MockClientState_new (net_header 10))))
    (any_or_empty (MockConsensusState_into (MockConsensusState_new (net_header 10)))) "signer")).
Definition net_update (n : N) : MsgEnvelope :=
  EnvClient (ClUpdateClient (mkMsgUpdateClient client_0 (any_or_empty (MockHeader_into (net_header n))) "signer")).
Definition net_conn_try : MsgEnvelope :=
  EnvConnection (ConnOpenTry (mkMsgConnectionOpenTry client_0
    (any_or_empty (MockClientState_into (client_state_at 9 997)))
    (mkConnCounterparty client_0 (Some (ConnectionId_new 0)) remote_prefix) [version_1]
    proof proof proof (at_height 10) (at_height 9) 0 "signer" None "")).
Definition net_conn_confirm : MsgEnvelope :=
  EnvConnection (ConnOpenConfirm (mkMsgConnectionOpenConfirm (ConnectionId_new 0) proof (at_height 10) "signer")).

Definition net_version : ChanVersion := mkChanVersion "ics20-1".
Definition net_chan : ChannelId := ChannelId_new 0.
Definition net_end (st : ChannelState) (remote : option ChannelId) : ChannelEnd :=
  mkChannelEnd st Unordered (mkChanCounterparty transfer remote) [ConnectionId_new 0] net_version.
Definition net_chan_init : MsgEnvelope :=
  EnvChannel (ChanOpenInit (mkMsgChannelOpenInit transfer [ConnectionId_new 0] transfer Unordered "signer"
    net_version)).
Definition net_chan_try : MsgEnvelope :=
  EnvChannel (ChanOpenTry (mkMsgChannelOpenTry transfer [ConnectionId_new 0] transfer net_chan
    net_version proof (at_height 11) Unordered "signer" (mkChanVersion ""))).
Definition net_chan_ack : MsgEnvelope :=
  EnvChannel (ChanOpenAck (mkMsgChannelOpenAck transfer net_chan net_chan net_version proof
    (at_height 12) "signer")).
Definition net_chan_confirm : MsgEnvelope :=
  EnvChannel (ChanOpenConfirm (mkMsgChannelOpenConfirm transfer net_chan proof (at_height 13) "signer")).

(** The packet that arrives and the packet that does not. *)
Definition net_packet (seq timeout : N) : Packet :=
  mkPacket seq transfer net_chan transfer net_chan [Byte.x62] (At (at_height timeout)) Timestamp_none.
Definition packet_1 : Packet := net_packet 1 20.
Definition packet_2 : Packet := net_packet 2 12.
Definition net_recv : MsgRecvPacket := mkMsgRecvPacket packet_1 proof (at_height 13) "signer".
Definition net_ack : MsgAcknowledgement :=
  mkMsgAcknowledgement packet_1 (mkAcknowledgement [Byte.x01]) proof (at_height 14) "signer".
Definition net_timeout : MsgTimeout := mkMsgTimeout packet_2 1 proof (at_height 14) "signer".

Definition script_a : script Packet := [
  (10, [inl net_create; inl net_conn_try; inl net_conn_confirm; inl net_chan_init]);
  (11, []);
  (12, [inl (net_update 12); inl net_chan_ack; inr packet_1; inr packet_2]);
  (13, []);
  (14, [inl (net_update 14); inl (EnvPacket (PktAck net_ack)); inl (EnvPacket (PktTimeout net_timeout))])].
Definition script_b : script Packet := [
  (10, [inl net_create; inl net_conn_try; inl net_conn_confirm]);
  (11, [inl (net_update 11); inl net_chan_try]);
  (12, []);
  (13, [inl (net_update 13); inl net_chan_confirm; inl (EnvPacket (PktRecv net_recv))]);
  (14, [])].

(** What each chain accepts of the other. *)
Definition root_at (n : N) : CommitmentRoot := net_root (at_height n).
Definition end_path : Path := PathChannelEnd (mkChannelEndPath transfer net_chan).
Definition commitment_of (p : Packet) : bytes :=
  match packet_commitment_of p with Ok cm => commitment_bytes cm | _ => [] end.
Definition ledger_a : Ledger := mkLedger
  [(root_at 12, end_path, ChannelEnd_encode_vec (net_end ChanTryOpen (Some net_chan)));
   (root_at 14, PathAck (mkAckPath transfer net_chan 1),
      ack_commitment_bytes (compute_ack_commitment (mkAcknowledgement [Byte.x01])))]
  [(root_at 14, PathReceipt (mkReceiptPath transfer net_chan 2))].
Definition ledger_b : Ledger := mkLedger
  [(root_at 11, end_path, ChannelEnd_encode_vec (net_end ChanInit None));
   (root_at 13, end_path, ChannelEnd_encode_vec (net_end ChanOpen (Some net_chan)));
   (root_at 13, PathCommitment (mkCommitmentPath transfer net_chan 1), commitment_of packet_1)] [].

(** The scripts succeed, the clients follow the other chain's blocks, and the ledgers are true. *)
Definition blocks_a : list block := net_blocks ledger_a script_a.
Definition blocks_b : list block := net_blocks ledger_b script_b.
Example net_scripts_run :
  net_lived ledger_a (follows_b blocks_b) script_a = true
  ∧ net_lived ledger_b (follows_b blocks_a) script_b = true
  ∧ ledger_true ledger_a blocks_b = true ∧ ledger_true ledger_b blocks_a = true
  ∧ length blocks_a = 5%nat
  ∧ seqs_at sending transfer net_chan (net_log ledger_a script_a) = [1; 2]
  ∧ seqs_at resolution transfer net_chan (net_log ledger_a script_a) = [1; 2]
  ∧ seqs_at delivery transfer net_chan (net_log ledger_b script_b) = [1].
Proof. by vm_compute. Qed.

Notation test_net := (linked (client_a:=net_client ledger_a) (client_b:=net_client ledger_b)
  (module_a:=null_module) (module_b:=null_module)
  (λ _, True) (λ _, True) remote_prefix remote_prefix (transfer, net_chan) (transfer, net_chan) blocks_a blocks_b
  (net_log ledger_a script_a) (net_log ledger_b script_b)).

Lemma net_linked : test_net.
Proof.
  destruct net_scripts_run as (La & Lb & Ta & Tb & _). constructor.
  - exact (ledger_faithful ledger_a remote_prefix blocks_b Ta).
  - exact (ledger_faithful ledger_b remote_prefix blocks_a Tb).
  - exists test_router.
    exact (lives_life (client:=net_client ledger_a) net_host _ (λ _, eq_refl) (λ _, eq_refl) _ (follows_b blocks_b)
      script_a (follows_b_sound ledger_a blocks_b) La).
  - exists test_router.
    exact (lives_life (client:=net_client ledger_b) net_host _ (λ _, eq_refl) (λ _, eq_refl) _ (follows_b blocks_a)
      script_b (follows_b_sound ledger_b blocks_a) Lb).
Qed.

Lemma net_log_a :
  net_log ledger_a script_a = [Sent packet_1; Sent packet_2; Acted (PktAck net_ack); Acted (PktTimeout net_timeout)].
Proof. reflexivity. Qed.
Lemma net_log_b : net_log ledger_b script_b = [Acted (PktRecv net_recv)].
Proof. reflexivity. Qed.

Lemma net_named n timeout : is_u64 n → named_packet (net_packet n timeout).
Proof. intros Hn. unfold named_packet. split_and!; [reflexivity..|done]. Qed.

Lemma network_deliveries_sent_witness :
  ∃ q, Sent q ∈ net_log ledger_a script_a ∧ same_packet q packet_1.
Proof.
  apply (network_deliveries_sent (frame_a:=net_client_frame ledger_a) (frame_b:=net_client_frame ledger_b)
    _ _ _ _ _ _ _ _ _ _ net_linked net_recv); [|reflexivity|by apply net_named].
  rewrite net_log_b. apply list_elem_of_here.
Defined.

(** The first packet was delivered and acknowledged; the second was timed out, and the packet
    delivered is not the second one. *)
Lemma network_resolutions_true_witness :
  (∃ m', Acted (PktRecv m') ∈ net_log ledger_b script_b ∧ same_packet (recv_packet m') packet_1)
  ∧ ∀ m', Acted (PktRecv m') ∈ net_log ledger_b script_b → key_on_b (recv_packet m') = (transfer, net_chan) →
      seq_on_a (recv_packet m') = 2 → recv_packet m' ≠ packet_2 ∧ same_packet (recv_packet m') packet_2.
Proof.
  pose proof (network_resolutions_true (frame_a:=net_client_frame ledger_a)
    (frame_b:=net_client_frame ledger_b) _ _ _ _ _ _ _ _ _ _ net_linked) as (Hack & Hto & _). split.
  - apply (Hack net_ack); [|reflexivity..|by apply net_named]. rewrite net_log_a. do 2 apply list_elem_of_further.
    apply list_elem_of_here.
  - apply (Hto net_timeout); [|reflexivity..|by apply net_named]. rewrite net_log_a. do 3 apply list_elem_of_further.
    apply list_elem_of_here.
Defined.
