(* ===== verification/TestTransfer.v ===== *)
(** * A concrete bank

    Instances of the interfaces of the token transfer application: decimal
    printing of 256-bit numbers, a JSON decoder for acknowledgements, and a bank
    that keeps its accounts as functions; and the theorems on transfers applied on
    the chain of [TestChain] with this bank. *)

From S2P Require Import Prelude RustStr Identifiers Primitives Path Connection Channel Context.
From S2P Require Import ConnHandlers Module ChanHandlers PacketHandlers PacketSpec.
From S2P Require Import ClientHandlers MockClient Entrypoint Chain PacketSafety.
From S2P Require Import AckStatus Denom Transfer TokenSupply TestChain.
Local Open Scope string_scope.
Local Open Scope N_scope.

(** ** Library functions *)

#[export] Instance test_u256 : U256Dec := {|
  u256_from_dec_str s :=
    if all_digits s then
      if dec_value 0 s <? U256_SIZE then Ok (dec_value 0 s) else Err InvalidLength
    else Err InvalidCharacter;
  u256_to_string := show_u64 |}.
#[export] Instance test_u256_laws : U256DecLaws.
Proof.
  split; cbn.
  - intros s. by destruct (all_digits s), (dec_value 0 s <? U256_SIZE).
  - intros s n. destruct (all_digits s), (N.ltb_spec (dec_value 0 s) U256_SIZE); naive_solver.
  - intros n Hn. destruct (show_u64_spec n) as (_ & -> & -> & _). by rewrite (proj2 (N.ltb_lt _ _) Hn).
  - intros n. apply show_u64_spec.
  - intros n. apply show_u64_spec.
Qed.

(** The Arabic-Indic digits. *)
#[export] Instance test_numeric : UnicodeNumeric := {|
  numeric_beyond_ascii c := (1632 <=? c) && (c <=? 1641) |}.

#[export] Instance RawPacketData_eq_dec : EqDecision RawPacketData.
Proof. solve_decision. Defined.
#[export] Instance RawPacketData_countable : Countable RawPacketData.
Proof.
  countable_record (λ r, (rpd_denom r, rpd_amount r, rpd_sender r, rpd_receiver r, rpd_memo r))
    (λ '(a, b, c, d, e), mkRawPacketData a b c d e).
Defined.

(** Decodes an object with one plain text field. *)
Fixpoint strip_prefix (p s : string) : option string :=
  match p, s with
  | EmptyString, _ => Some s
  | String a p, String b s => if bool_decide (a = b) then strip_prefix p s else None
  | String _ _, EmptyString => None
  end.
Fixpoint text_until_quote (s : string) : option (string * string) :=
  match s with
  | EmptyString => None
  | String a s =>
    if bool_decide (a = QUOTE) then Some ("", s)
    else if plain_char a then '(v, rest) ← text_until_quote s; Some (String a v, rest) else None
  end.
Definition ack_of_text (key : string) (make : StatusValue → AcknowledgementStatus) (s : string) :
    option AcknowledgementStatus :=
  s ← strip_prefix ("{" ++ quoted key ++ ":" ++ String QUOTE "") s;
  '(v, rest) ← text_until_quote s;
  if (rest =? "}")%string then Some (make (mkStatusValue v)) else None.
Definition decode_ack (b : bytes) : option AcknowledgementStatus :=
  let s := String.string_of_list_byte b in
  match ack_of_text "result" AckSuccess s with
  | Some ack => Some ack
  | None => ack_of_text "error" AckError s
  end.

#[export] Instance test_ack_json : AckJson := {|
  ack_status_from_slice := decode_ack;
  identifier_error_to_string _ := "invalid identifier";
  utf8_error_to_string _ := "invalid text" |}.
#[export] Instance test_json : TransferJson := {|
  raw_packet_data_to_vec := to_bytes;
  raw_packet_data_from_slice := from_bytes;
  from_dec_str_err_to_string _ := "invalid number" |}.

Lemma text_until_quote_plain v rest :
  plain v = true → text_until_quote (v ++ String QUOTE rest) = Some (v, rest).
Proof.
  induction v as [|a v IH]; [done|]. cbn [plain]. intros [Ha Hv]%andb_true_iff.
  rewrite app_cons. cbn [text_until_quote]. rewrite Ha. rewrite IH by done.
  case_bool_decide as Hq; [|done]. subst a. by vm_compute in Ha.
Qed.

(** What the decoder makes of an acknowledgement. *)
Definition decoded (make : StatusValue → AcknowledgementStatus) (text : string) :
    option AcknowledgementStatus :=
  '(v, rest) ← text_until_quote text;
  if (rest =? "}")%string then Some (make (mkStatusValue v)) else None.
Lemma decode_success v :
  decode_ack (AcknowledgementStatus_into_vec (AckSuccess v)) =
  match decoded AckSuccess ((status_value v ++ String QUOTE "") ++ "}") with
  | Some ack => Some ack | None => None end.
Proof.
  unfold decode_ack, AcknowledgementStatus_into_vec, as_bytes.
  by rewrite String.string_of_list_byte_of_string.
Qed.
Lemma decode_error v :
  decode_ack (AcknowledgementStatus_into_vec (AckError v)) =
  decoded AckError ((status_value v ++ String QUOTE "") ++ "}").
Proof.
  unfold decode_ack, AcknowledgementStatus_into_vec, as_bytes.
  by rewrite String.string_of_list_byte_of_string.
Qed.

Lemma decoded_plain make v :
  plain v = true → decoded make ((v ++ String QUOTE "") ++ "}") = Some (make (mkStatusValue v)).
Proof.
  intros Hv. unfold decoded. rewrite app_assoc_str.
  change (String QUOTE "" ++ "}") with (String QUOTE "}"). by rewrite text_until_quote_plain.
Qed.

#[export] Instance test_ack_json_laws : AckJsonLaws.
Proof.
  split; cbn [ack_status_from_slice test_ack_json].
  - intros [v|v]; cbn [AcknowledgementStatus_to_string]; intros Hv.
    + rewrite decode_success, decoded_plain by done. by destruct v.
    + rewrite decode_error, decoded_plain by done. by destruct v.
  - intros v ack. rewrite decode_error. unfold decoded.
    destruct (text_until_quote _) as [[t rest]|]; cbn; [|done].
    destruct (rest =? "}")%string; naive_solver.
  - intros v w Hv _. rewrite decode_error. unfold decoded. cbn [status_value].
    rewrite !app_assoc_str, app_cons.
    rewrite text_until_quote_plain by done. cbn [mbind option_bind].
    rewrite (proj2 (String.eqb_neq _ _)); [done|]. intros E%(f_equal String.length).
    rewrite !length_app_str in E. cbn in E. lia.
Qed.
#[export] Instance test_json_laws : TransferJsonLaws.
Proof. split; [exact test_ack_json_laws|exact from_to_bytes]. Qed.

(** ** The bank *)

Record TestBank := mkTestBank {
  tb_balance : string → PrefixedDenom → N;
  tb_escrow : PortId * ChannelId → PrefixedDenom → N;
  tb_supply : PrefixedDenom → N;
  tb_frozen : option string }.

Definition shift {K} `{EqDecision K} (f : K → N) (k : K) (z : Z) : K → N :=
  λ k', Z.to_N (Z.of_N (f k') + delta k k' z).
Definition funds (n : N) (z : Z) : bool := (0 <=? Z.of_N n + z)%Z.

(** Changes an account, the escrow of a channel and the supply, if the funds are
    there. *)
Definition bank_apply (account : string) (chan : PortId * ChannelId) (coin : PrefixedCoin)
    (b e s : Z) : exec TestBank TokenTransferError () := λ t,
  let n := Z.of_N (amount coin) in
  if funds (tb_balance t account (denom coin)) (b * n)
     && funds (tb_escrow t chan (denom coin)) (e * n) && funds (tb_supply t (denom coin)) (s * n)
  then (mkTestBank (λ a d, shift (λ k, tb_balance t k.1 k.2) (account, denom coin) (b * n) (a, d))
          (λ c d, shift (λ k, tb_escrow t k.1 k.2) (chan, denom coin) (e * n) (c, d))
          (shift (tb_supply t) (denom coin) (s * n)) (tb_frozen t), Ok tt)
  else (t, Err (InsufficientFunds (show_u64 (amount coin)) "less")).

Definition no_channel : PortId * ChannelId := (mkPortId "", mkChannelId "").
(** Minting is refused while the bank is frozen, with the reason as the error. *)
Definition unless_frozen (m : exec TestBank TokenTransferError ()) :
    exec TestBank TokenTransferError () := λ t,
  match tb_frozen t with Some reason => (t, Err (TTOther reason)) | None => m t end.

#[export] Instance test_bank : TokenContext TestBank := {|
  AccountId := string;
  account_try_from signer := if (signer =? "")%string then None else Some signer;
  get_port _ := Ok transfer;
  can_send_coins _ := Ok tt;
  can_receive_coins _ := Ok tt;
  escrow_coins_validate _ _ _ _ _ _ := Ok tt;
  unescrow_coins_validate _ _ _ _ _ := Ok tt;
  mint_coins_validate _ _ _ := Ok tt;
  burn_coins_validate _ _ _ _ := Ok tt;
  denom_hash_string _ _ := None;
  escrow_coins_execute a p c coin _ := bank_apply a (p, c) coin (-1) 1 0;
  unescrow_coins_execute a p c coin := bank_apply a (p, c) coin 1 (-1) 0;
  mint_coins_execute a coin := unless_frozen (bank_apply a no_channel coin 1 0 1);
  burn_coins_execute a coin _ := bank_apply a no_channel coin (-1) 0 (-1) |}.
#[export] Instance test_bank_views : Bank TestBank := {|
  account_eq_dec := String.eq_dec;
  balance t a d := tb_balance t a d; escrowed t c d := tb_escrow t c d; supply t d := tb_supply t d |}.

Lemma shift_value {K} `{EqDecision K} (f : K → N) k z k' :
  funds (f k) z = true → Z.of_N (shift f k z k') = (Z.of_N (f k') + delta k k' z)%Z.
Proof.
  unfold funds, shift, delta. intros Hf%Z.leb_le. case_decide; subst; rewrite Z2N.id; lia.
Qed.

Lemma bank_apply_changes a chan coin b e s t t' :
  bank_apply a chan coin b e s t = (t', Ok tt) → changes t t' a chan coin b e s.
Proof.
  unfold bank_apply. destruct (_ && _ && _) eqn:E; [|done]. intros [= <-].
  apply andb_true_iff in E as [[Hb He]%andb_true_iff Hs]. split; intros; cbn.
  - by rewrite shift_value.
  - by rewrite shift_value.
  - by rewrite shift_value.
Qed.
Lemma bank_apply_failure a chan coin b e s t t' err :
  bank_apply a chan coin b e s t = (t', Err err) → t' = t.
Proof. unfold bank_apply. destruct (_ && _ && _); naive_solver. Qed.
Lemma changes_any_channel (t t' : TestBank) a chan chan' coin b s :
  changes t t' a chan coin b 0 s → changes t t' a chan' coin b 0 s.
Proof.
  intros [Hb He Hs]. split; [done| |done]. intros c d. rewrite He. unfold delta. do 2 case_decide; lia.
Qed.

#[export] Instance test_bank_laws : BankLaws TestBank.
Proof.
  split; intros *.
  - apply bank_apply_changes.
  - apply bank_apply_changes.
  - cbn. unfold unless_frozen. destruct (tb_frozen t); [done|].
    intros ?%bank_apply_changes. by eapply changes_any_channel.
  - intros ?%bank_apply_changes. by eapply changes_any_channel.
  - intros ->%bank_apply_failure. by repeat split.
  - cbn. unfold unless_frozen. destruct (tb_frozen t); [by intros [= <- _]; repeat split|].
    intros ->%bank_apply_failure. by repeat split.
Qed.

(** ** A transfer *)

Definition uatom : PrefixedDenom := PrefixedDenom_from_base (mkBaseDenom "uatom").
Definition coins (n : N) : PrefixedCoin := mkCoin uatom n.
Definition transfer_data (n : N) : PacketData :=
  mkPacketData (coins n) "alice" "bob" (mkMemo "rent").
Definition transfer_msg : MsgTransfer :=
  mkMsgTransfer transfer (ChannelId_new 0) (transfer_data 40) (At (at_height 20)) Timestamp_none.

(** Alice has a hundred tokens; the bank of the other chain is empty. *)
Definition bank_a : TestBank :=
  mkTestBank (λ a d, if bool_decide (a = "alice" ∧ d = uatom) then 100 else 0) (λ _ _, 0)
    (λ d, if bool_decide (d = uatom) then 100 else 0) None.
Definition bank_b : TestBank := mkTestBank (λ _ _, 0) (λ _ _, 0) (λ _, 0) None.

Definition run_send : (IbcStore * TestBank) * outcome TokenTransferError () :=
  send_transfer transfer_msg (st_open.1, bank_a).
Definition test_ends (σ : side) : PortId * ChannelId :=
  match σ with SideA => (transfer, ChannelId_new 0) | SideB => (transfer, remote_channel) end.
Definition test_packet : Packet := transfer_packet transfer_msg 1 (test_ends SideB).

Lemma transfer_data_wf n : is_u256 n → data_wf (transfer_data n).
Proof. intros Hn. split; [|done]. split_and!; [constructor|by vm_compute|by vm_compute]. Qed.

Lemma run_send_ok : run_send = ((run_send.1.1, run_send.1.2), Ok tt).
Proof. refine (executed2 run_send _). vm_compute. reflexivity. Qed.

Definition run_recv (bank : TestBank) : TestBank * outcome Empty_set (ModuleExtras * Acknowledgement) :=
  Ics20.on_recv_packet_execute test_packet bank.
Lemma returned {S A B} (m : S * outcome Empty_set (A * B)) (d : A * B) :
  is_ok m.2 = true → m = (m.1, Ok ((value_of d m.2).1, (value_of d m.2).2)).
Proof. by destruct m as [s [[]|[]|]]. Qed.
Notation no_answer := (ModuleExtras_empty, mkAcknowledgement []).
Lemma run_recv_ok : run_recv bank_b =
  ((run_recv bank_b).1, Ok ((value_of no_answer (run_recv bank_b).2).1,
                            (value_of no_answer (run_recv bank_b).2).2)).
Proof. refine (returned (run_recv bank_b) no_answer _). vm_compute. reflexivity. Qed.

Example transfer_outcome :
  balance run_send.1.2 "alice" uatom = 60
  ∧ escrowed run_send.1.2 (test_ends SideA) uatom = 40
  ∧ balance (run_recv bank_b).1 "bob" (voucher test_ends SideA uatom) = 40
  ∧ supply (run_recv bank_b).1 (voucher test_ends SideA uatom) = 40.
Proof. by vm_compute. Qed.

(** ** Witnesses *)

Lemma refund_undoes_transfer_witness :
  ∃ seq remote sender,
    get_packet_commitment run_send.1.1 (commitment_path_on_a (transfer_packet transfer_msg seq remote))
      = packet_commitment_of (transfer_packet transfer_msg seq remote)
    ∧ sent_out bank_a run_send.1.2 sender transfer (ChannelId_new 0) (coins 40).
Proof.
  destruct (refund_undoes_transfer transfer_msg st_open.1 bank_a run_send.1.1 run_send.1.2)
    as (seq & remote & sender & _ & Hc & _ & Ho & _).
  - exact run_send_ok.
  - apply transfer_data_wf. vm_compute. reflexivity.
  - exists seq, remote, sender. split; [exact Hc|exact Ho].
Defined.

Lemma transfer_received_once_witness :
  match packet_data_from_slice (data test_packet) with
  | Some d => ((value_of no_answer (run_recv bank_b).2).2 = success_ack
     ∧ ∃ receiver, account_try_from (pd_receiver d) = Some receiver
       ∧ paid_out bank_b (run_recv bank_b).1 receiver test_packet (token d))
    ∨ ∃ err, (value_of no_answer (run_recv bank_b).2).2 = error_ack err
       ∧ same_bank bank_b (run_recv bank_b).1
  | None => (value_of no_answer (run_recv bank_b).2).2 = error_ack PacketDataDeserialization
       ∧ (run_recv bank_b).1 = bank_b
  end.
Proof.
  apply (transfer_received_once test_packet bank_b (run_recv bank_b).1
    (value_of no_answer (run_recv bank_b).2).1 (value_of no_answer (run_recv bank_b).2).2).
  exact run_recv_ok.
Defined.

(** A bank whose minting is refused with a quoted reason. *)
Definition reason : string := "denom " ++ String QUOTE "uatom".
Definition bank_frozen : TestBank := mkTestBank (λ _ _, 0) (λ _ _, 0) (λ _, 0) (Some reason).
Definition run_refused : TestBank * outcome (ModuleExtras * TokenTransferError) ModuleExtras :=
  process_recv_packet_execute test_packet (transfer_data 40) bank_frozen.
Definition failure_of {S A B E} (d : A * B) (m : S * outcome (A * B) E) : A * B :=
  match m.2 with Err e => e | _ => d end.

Lemma quoted_error_never_refunded_witness :
  Ics20.on_acknowledgement_packet_validate bank_a test_packet (error_ack (TTOther reason)) "relayer"
    = Err AckDeserialization.
Proof.
  destruct (quoted_error_never_refunded test_packet (transfer_data 40) (TTOther reason)
    "other error: `denom " "uatom`" bank_frozen bank_frozen bank_a
    (failure_of (ModuleExtras_empty, InvalidToken) run_refused).1 "relayer") as (ex & _ & Hv & _).
  - apply packet_data_json. apply transfer_data_wf. vm_compute. reflexivity.
  - reflexivity.
  - reflexivity.
  - vm_compute. reflexivity.
  - vm_compute. reflexivity.
  - exact Hv.
Defined.

(** *** The two banks and the channel *)

Definition system_0 : System :=
  mkSystem (λ σ, match σ with SideA => bank_a | SideB => bank_b end) [].
Definition system_1 : System :=
  set_bank SideA run_send.1.2 (set_flights [mkFlight SideA test_packet None] system_0).
Definition system_2 : System :=
  set_bank SideB (run_recv bank_b).1 (set_flights
    [mkFlight SideA test_packet (Some (value_of no_answer (run_recv bank_b).2).2)] system_1).

Lemma system_0_initial : initial test_ends system_0.
Proof.
  split; [done|]. intros σ. split; [by destruct σ|]. intros d. destruct σ; [|done]. cbn.
  case_bool_decide; [|done]. subst d. by vm_compute.
Qed.

Lemma system_1_reachable : reachable test_ends system_1.
Proof.
  exists system_0. split; [exact system_0_initial|]. eapply rtc_l; [|apply rtc_refl].
  destruct (pc_get (channels st_open.1) transfer (ChannelId_new 0)) as [c|] eqn:Ec.
  - eapply (step_send test_ends test_host SideA transfer_msg st_open.1 run_send.1.1 run_send.1.2 c 1).
    + reflexivity.
    + exact Ec.
    + vm_compute in Ec. injection Ec as <-. reflexivity.
    + vm_compute. reflexivity.
    + apply transfer_data_wf. vm_compute. reflexivity.
    + exact run_send_ok.
  - vm_compute in Ec. discriminate Ec.
Qed.

Lemma system_2_reachable : reachable test_ends system_2.
Proof.
  destruct system_1_reachable as (S0 & Hi & Hr). exists S0. split; [exact Hi|].
  eapply rtc_r; [exact Hr|].
  apply (step_recv test_ends system_1 [] SideA test_packet [] (run_recv bank_b).1
    (value_of no_answer (run_recv bank_b).2).1).
  - reflexivity.
  - exact run_recv_ok.
Qed.

Lemma vouchers_backed_witness :
  (40 = Z.of_N (supply (bank_of system_2 SideB) (voucher test_ends SideA uatom))
   + total_pending test_ends SideA uatom (flights system_2))%Z.
Proof.
  transitivity (Z.of_N (escrowed (bank_of system_2 SideA) (test_ends SideA) uatom)).
  - vm_compute. reflexivity.
  - apply (vouchers_backed test_ends system_2 SideA uatom); [exact system_2_reachable|].
    vm_compute. reflexivity.
Defined.

Lemma escrow_covers_returns_witness :
  supply (bank_of system_1 SideB) (voucher test_ends SideA uatom) + 40
  <= escrowed (bank_of system_1 SideA) (test_ends SideA) uatom.
Proof.
  apply (escrow_covers_returns test_ends system_1 SideA uatom
    (mkFlight SideA test_packet None) (transfer_data 40)).
  - exact system_1_reachable.
  - vm_compute. reflexivity.
  - constructor.
  - apply packet_data_json. apply transfer_data_wf. vm_compute. reflexivity.
  - discriminate.
  - reflexivity.
Defined.

Definition bank_escrowed : TestBank :=
  (bank_apply "alice" (transfer, ChannelId_new 0) (coins 40) (-1) 1 0 bank_a).1.
Lemma bank_escrowed_ok : bank_apply "alice" (transfer, ChannelId_new 0) (coins 40) (-1) 1 0 bank_a
  = (bank_escrowed, Ok tt).
Proof. refine (executed (bank_apply _ _ _ _ _ _ _) _). vm_compute. reflexivity. Qed.
Definition alice : @AccountId nanos_time TestBank test_bank := "alice".

Lemma other_channels_untouched_witness :
  untouched (λ _, (transfer, ChannelId_new 9)) SideA bank_a bank_escrowed.
Proof.
  destruct (other_channels_untouched (λ _, (transfer, ChannelId_new 9)) SideA bank_a bank_escrowed
    alice transfer (ChannelId_new 0) (coins 40) test_packet) as (Hs & _ & _).
  - vm_compute. discriminate.
  - vm_compute. discriminate.
  - apply Hs. apply bank_apply_changes. exact bank_escrowed_ok.
Defined.

(** *** Data *)

Lemma amount_borsh_roundtrip_witness :
  Amount_deserialize_reader (Amount_serialize (2 ^ 200 + 7) ++ [Byte.x05]) = Ok (2 ^ 200 + 7)
  ∧ Amount_deserialize_reader [Byte.x01] = Err 1.
Proof.
  destruct (amount_borsh_roundtrip (2 ^ 200 + 7) [Byte.x05] [Byte.x01]) as (_ & H1 & H2).
  - vm_compute. reflexivity.
  - split; [exact H1|exact H2].
Defined.

Definition hop : TracePrefix := mkTracePrefix transfer remote_channel.
Definition traced (b : string) : PrefixedDenom := mkPrefixedDenom (mkTracePath [hop]) (mkBaseDenom b).
Lemma denom_trace_raw_roundtrip_witness :
  PrefixedDenom_try_from (RawDenomTrace_from (traced "gamm/pool/1")) = Ok (traced "gamm/pool/1").
Proof.
  apply (denom_trace_raw_roundtrip (traced "gamm/pool/1")).
  - repeat constructor; vm_compute; reflexivity.
  - vm_compute. discriminate.
Defined.

Lemma coin_display_parse_roundtrip_witness :
  Coin_from_str PrefixedDenom_from_str (Coin_to_string PrefixedDenom_to_string (coins 40))
  = Ok (coins 40).
Proof.
  apply (coin_display_parse_roundtrip PrefixedDenom_from_str PrefixedDenom_to_string (coins 40)
    "u"%char "atom"); try reflexivity; vm_compute; reflexivity.
Defined.

Lemma coin_from_str_panics_witness :
  Coin_from_str PrefixedDenom_from_str (encode_char 1632 ++ "uatom") = Panic.
Proof. apply (coin_from_str_panics PrefixedDenom_from_str). vm_compute. reflexivity. Defined.

Lemma transfer_msg_raw_roundtrip_witness :
  ∃ r, RawMsgTransfer_from (E:=TokenTransferError) transfer_msg = Ok r
    ∧ MsgTransfer_try_from r = Ok transfer_msg.
Proof.
  apply (transfer_msg_raw_roundtrip transfer_msg).
  split; [vm_compute; reflexivity|]. split; [vm_compute; reflexivity|].
  split; [apply transfer_data_wf; vm_compute; reflexivity|].
  split; [split; [|split]; vm_compute; [reflexivity|reflexivity|discriminate]|].
  split; [exact I|]. left. reflexivity.
Defined.
