(* ===== verification/TestTendermint.v ===== *)
(** * A concrete Tendermint client

    Instances of the tendermint and ics23 crates that are small enough to compute
    with, a client of a remote chain with two consensus states, and the theorems on
    Merkle proofs and on the Tendermint client applied to it. *)

From S2P Require Import Prelude RustStr Identifiers Primitives Path Connection Channel Context Merkle.
From S2P Require Import ConnHandlers Module ClientHandlers Entrypoint Chain TmNetwork.
From S2P Require Import TmTypes TmClient TmSafety TestChain.
Local Open Scope string_scope.
Local Open Scope N_scope.

(** ** The tendermint crates *)

Record TestHeader := mkTestHeader {
  th_chain_id : string; th_height : N; th_time : Z; th_validators : bytes;
  th_next_validators : bytes; th_app_hash : bytes; th_block_hash : bytes }.

#[export] Instance test_tm_lib : TmLib := {|
  TmHash := bytes;
  SignedHeader := TestHeader;
  ValidatorSet := bytes;
  RawSignedHeader := TestHeader;
  RawValidatorSet := bytes;
  TendermintError := string;
  sh_chain_id := th_chain_id;
  sh_height := th_height;
  sh_time := th_time : _ → Time;
  sh_validators_hash := th_validators;
  sh_next_validators_hash := th_next_validators;
  sh_app_hash := th_app_hash;
  sh_block_id_hash := th_block_hash;
  validator_set_hash v := v;
  signed_header_try_from := Ok;
  signed_header_into h := h;
  validator_set_try_from := Ok;
  validator_set_into v := v;
  hash_from_bytes := Ok;
  hash_as_bytes h := h;
  time_try_from p := Ok (pt_seconds p : Time);
  time_into t := mkProtoTimestamp t 0;
  duration_try_from p :=
    let d := Z.to_N (pd_seconds p) in if as_secs d <? 2 ^ 63 then Some d else None;
  duration_into d := mkProtoDuration (Z.of_N d) 0;
  trust_threshold_fraction_new n d :=
    if (d <=? 3 * n) && (n <=? d) && negb (d =? 0) then Ok tt else Err "not a trust threshold";
  tm_chain_id_try_from := Ok;
  block_height_try_from := Ok;
  MAX_CHAIN_ID_LEN := 50;
  tendermint_error_to_string e := e;
  duration_debug _ := "a duration" |}.
#[export] Instance test_tm_lib_laws : TmLibLaws.
Proof.
  split; try done.
  - intros d Hd. cbn. rewrite N2Z.id. by rewrite (proj2 (N.ltb_lt _ _) Hd).
  - intros p d. cbn. destruct (N.ltb_spec (as_secs (Z.to_N (pd_seconds p))) (2 ^ 63)); naive_solver.
Qed.
#[export] Instance test_tm_text : TmText := {|
  tm_error_to_string _ := "tendermint error";
  tm_client_error_to_string _ := "client error";
  tm_conversion_text _ := "conversion error" |}.

(** ** Encodings *)

#[export] Instance ProtoDuration_eq_dec : EqDecision ProtoDuration.
Proof. solve_decision. Defined.
#[export] Instance ProtoDuration_countable : Countable ProtoDuration.
Proof. countable_record (λ d, (pd_seconds d, pd_nanos d)) (λ '(s, n), mkProtoDuration s n). Defined.
#[export] Instance ProtoTimestamp_eq_dec : EqDecision ProtoTimestamp.
Proof. solve_decision. Defined.
#[export] Instance ProtoTimestamp_countable : Countable ProtoTimestamp.
Proof. countable_record (λ d, (pt_seconds d, pt_nanos d)) (λ '(s, n), mkProtoTimestamp s n). Defined.
#[export] Instance Fraction_eq_dec : EqDecision Fraction.
Proof. solve_decision. Defined.
#[export] Instance Fraction_countable : Countable Fraction.
Proof. countable_record (λ f, (fr_numerator f, fr_denominator f)) (λ '(n, d), mkFraction n d). Defined.
#[export] Instance RawLeafOp_countable : Countable RawLeafOp.
Proof.
  countable_record (λ l, (lo_hash l, (lo_prehash_key l, lo_prehash_value l), (lo_length l, lo_prefix l)))
    (λ '(a, (b, c), (d, e)), mkRawLeafOp a b c d e).
Defined.
#[export] Instance RawInnerSpec_countable : Countable RawInnerSpec.
Proof.
  countable_record (λ i, ((is_child_order i, is_child_size i, is_min_prefix_length i),
    (is_max_prefix_length i, is_empty_child i, is_hash i)))
    (λ '((a, b, c), (d, e, f)), mkRawInnerSpec a b c d e f).
Defined.
#[export] Instance RawProofSpec_countable : Countable RawProofSpec.
Proof.
  countable_record (λ s, ((leaf_spec s, inner_spec s), (max_depth s, min_depth s,
    prehash_key_before_comparison s))) (λ '((a, b), (c, d, e)), mkRawProofSpec a b c d e).
Defined.
#[export] Instance RawTmClientState_eq_dec : EqDecision RawTmClientState.
Proof. solve_decision. Defined.
#[export] Instance RawTmClientState_countable : Countable RawTmClientState.
Proof.
  countable_record (λ c,
    (((rtc_chain_id c, rtc_trust_level c), (rtc_trusting_period c, rtc_unbonding_period c)),
     ((rtc_max_clock_drift c, rtc_frozen_height c), (rtc_latest_height c, rtc_proof_specs c)),
     (rtc_upgrade_path c, (rtc_allow_update_after_expiry c, rtc_allow_update_after_misbehaviour c))))
    (λ '(((a, b), (c, d)), ((e, f), (g, h)), (i, (j, k))), mkRawTmClientState a b c d e f g h i j k).
Defined.
#[export] Instance RawTmConsensusState_eq_dec : EqDecision RawTmConsensusState.
Proof. solve_decision. Defined.
#[export] Instance RawTmConsensusState_countable : Countable RawTmConsensusState.
Proof.
  countable_record (λ c, (rcs_timestamp c, rcs_root c, rcs_next_validators_hash c))
    (λ '(a, b, c), mkRawTmConsensusState a b c).
Defined.
#[export] Instance TestHeader_eq_dec : EqDecision TestHeader.
Proof. solve_decision. Defined.
#[export] Instance TestHeader_countable : Countable TestHeader.
Proof.
  countable_record (λ h, ((th_chain_id h, th_height h), (th_time h, th_validators h),
    (th_next_validators h, (th_app_hash h, th_block_hash h))))
    (λ '((a, b), (c, d), (e, (f, g))), mkTestHeader a b c d e f g).
Defined.
#[export] Instance test_raw_signed_header_eq_dec : EqDecision RawSignedHeader := TestHeader_eq_dec.
#[export] Instance test_raw_signed_header_countable : Countable RawSignedHeader :=
  TestHeader_countable.
#[export] Instance test_raw_validator_set_eq_dec : EqDecision RawValidatorSet.
Proof. change (EqDecision (list Byte.byte)). apply _. Defined.
#[export] Instance test_raw_validator_set_countable : Countable RawValidatorSet.
Proof. exact (list_countable (A:=Byte.byte)). Defined.
#[export] Instance RawTmHeader_eq_dec : EqDecision RawTmHeader.
Proof. solve_decision. Defined.
#[export] Instance RawTmHeader_countable : Countable RawTmHeader.
Proof.
  countable_record (λ h, ((rh_signed_header h, rh_validator_set h),
    (rh_trusted_height h, rh_trusted_validators h)))
    (λ '((a, b), (c, d)), mkRawTmHeader a b c d).
Defined.
#[export] Instance RawTmMisbehaviour_eq_dec : EqDecision RawTmMisbehaviour.
Proof. solve_decision. Defined.
#[export] Instance RawTmMisbehaviour_countable : Countable RawTmMisbehaviour.
Proof.
  countable_record (λ m, (rmb_client_id m, (rmb_header_1 m, rmb_header_2 m)))
    (λ '(a, (b, c)), mkRawTmMisbehaviour a b c).
Defined.

#[export] Instance test_tm_codec : TmCodec := {|
  encode_tm_client_state := to_bytes; decode_tm_client_state := decode_or_fail;
  encode_tm_consensus_state := to_bytes; decode_tm_consensus_state := decode_or_fail;
  encode_tm_header := to_bytes; decode_tm_header := decode_or_fail;
  encode_tm_misbehaviour := to_bytes; decode_tm_misbehaviour := decode_or_fail |}.
#[export] Instance test_tm_codec_laws : TmCodecLaws.
Proof. split; intros r; cbn; unfold decode_or_fail; by rewrite from_to_bytes. Qed.

(** ** The ics23 crate

    A tree with one entry: its root spells out the key, byte by byte after a one,
    then a zero, then the value. *)

Fixpoint entry_root (key value : bytes) : bytes :=
  match key with
  | [] => Byte.x00 :: value
  | b :: key => Byte.x01 :: b :: entry_root key value
  end.
Lemma entry_root_inj k1 v1 k2 v2 : entry_root k1 v1 = entry_root k2 v2 → k1 = k2 ∧ v1 = v2.
Proof.
  revert k2. induction k1 as [|b k1 IH]; intros [|b2 k2]; cbn; try done.
  - by intros [= ->].
  - intros [= -> [-> ->]%IH]. done.
Qed.

#[export] Instance test_ics23 : Ics23 := {|
  ExistenceProof := bytes * bytes;
  OtherProof := ();
  calculate_existence_root e := Some (entry_root e.1 e.2) |}.
Definition test_neighbour (n : NonExistenceProof) : option (bytes * bytes) :=
  match left_neighbour n with Some e => Some e | None => right_neighbour n end.
#[export] Instance test_existence_eq_dec : EqDecision ExistenceProof.
Proof. change (EqDecision (list Byte.byte * list Byte.byte)). apply _. Defined.
#[export] Instance test_other_eq_dec : EqDecision OtherProof.
Proof. change (EqDecision ()). apply _. Defined.
#[export] Instance NonExistenceProof_eq_dec : EqDecision NonExistenceProof.
Proof. solve_decision. Defined.
#[export] Instance Proof_eq_dec : EqDecision Proof.
Proof. solve_decision. Defined.
#[export] Instance Proof_countable : Countable Proof.
Proof.
  refine (inj_countable' (A:=((bytes * bytes) + ((bytes * (option (bytes * bytes)) * (option (bytes * bytes)))) + ()))
    (λ p, match p with
          | Exist e => inl (inl e)
          | Nonexist n => inl (inr (nonexist_key n, left_neighbour n, right_neighbour n))
          | BatchOrCompressed o => inr o
          end)
    (λ x, match x with
          | inl (inl e) => Exist (e : ExistenceProof)
          | inl (inr (k, l, r)) =>
            Nonexist (mkNonExistenceProof k (l : option ExistenceProof) (r : option ExistenceProof))
          | inr o => BatchOrCompressed (o : OtherProof)
          end) _).
  by intros [|[]|].
Defined.

#[export] Instance test_ics23_check : Ics23Check := {|
  ics23_verify_membership p _ root key value :=
    match proof_of p with
    | Some (Exist e) => bool_decide (e.1 = key) && bool_decide (e.2 = value)
                        && bool_decide (root = entry_root e.1 e.2)
    | _ => false
    end;
  ics23_verify_non_membership p _ root key :=
    match proof_of p with
    | Some (Nonexist n) =>
      match test_neighbour n with
      | Some e => bool_decide (root = entry_root e.1 e.2) && negb (bool_decide (e.1 = key))
      | None => false
      end
    | _ => false
    end;
  raw_merkle_proof_decode b :=
    l ← decode_or_fail (A:=list (option Proof)) b; Ok (mkRawMerkleProof (mkCommitmentProof <$> l));
  raw_merkle_proof_encode r := to_bytes (A:=list (option Proof)) (proof_of <$> raw_proofs r) |}.

#[export] Instance test_ics23_laws : Ics23Laws.
Proof.
  refine {| tree_has _ root key value := root = entry_root key value;
            tree_lacks _ root key := ∃ k v, root = entry_root k v ∧ k ≠ key;
            hash_collision := False |}.
  - intros p spec root key value. cbn. destruct (proof_of p) as [[e| |]|]; try done.
    rewrite !andb_true_iff, !bool_decide_eq_true. naive_solver.
  - intros p spec root key. cbn. destruct (proof_of p) as [[|n|]|]; try done.
    destruct (test_neighbour n) as [e|]; [|done].
    rewrite andb_true_iff, negb_true_iff, bool_decide_eq_true, bool_decide_eq_false. eauto.
  - intros spec root key v1 v2 -> [_ ->]%entry_root_inj. by left.
  - intros spec root key value -> (k & v & [-> _]%entry_root_inj & ?). done.
Defined.

(** ** A client of a remote chain *)

#[export] Instance test_verifier : TmVerifier := {|
  verify_update_header u t _ _ :=
    if (tb_header_time t <? sh_time (ub_signed_header u))%Z then Success else Invalid "not later";
  verifier_misbehaviour_header _ _ _ _ := Success |}.

Definition sec (n : N) : Z := Z.of_N (n * NANOS_PER_SEC).
Definition vals : bytes := [Byte.x41].
Definition block (h t : N) (app : bytes) : TestHeader :=
  mkTestHeader "remote-0" h (sec t) vals vals app [Byte.x42].
Definition tm_header (h t : N) (app : bytes) : TmHeader :=
  mkTmHeader (block h t app : SignedHeader) (vals : ValidatorSet) (at_height 5) (vals : ValidatorSet).
Definition test_specs : ProofSpecs := ProofSpecs_from
  [mkRawProofSpec None None 8 0 false; mkRawProofSpec None None 8 0 false].
Definition tm_state (h : N) (path : list string) : TmClientState :=
  mkTmClientState (mkChainId "remote-0" 0) (mkTrustThreshold 1 3) (Duration_from_secs 100)
    (Duration_from_secs 200) (Duration_from_secs 5) (at_height h) test_specs path
    (mkAllowUpdate false false) None.
Definition tm_cons (t : N) (root : bytes) : TmConsensusState :=
  mkTmConsensusState (sec t : Time) (mkCommitmentRoot root) (vals : TmHash).

Definition tm_id : ClientId := mkClientId "07-tendermint-0".
Definition tm_current : TmClientState := tm_state 8 ["upgrade"; "upgradedIBCState"].
Definition tm_record : @ClientRecord tm_types :=
  mkClientRecord (Some (tm_current : @ClientState tm_types))
    {[ at_height 5 := (tm_cons 10 [Byte.x01] : @ConsensusState tm_types);
       at_height 8 := (tm_cons 20 [Byte.x02] : @ConsensusState tm_types) ]}.
Definition tm_store : @IbcStore nanos_time tm_types :=
  set_clients (λ _, {[ tm_id := tm_record ]}) empty_store.
(** The host: at height 10, when the state at height 5 has expired. *)
Definition tm_host : @Host nanos_time tm_types := {|
  host_height := Ok (at_height 10);
  host_timestamp := Ok (seconds 115);
  host_consensus_state _ := Ok (tm_cons 1 [] : @HostConsensusState tm_types);
  host_consensus_state_encode_vec _ := Ok [];
  host_client_state_try_from := TmClientState_try_from : _ → outcome _ (@HostClientState tm_types);
  validate_self_client _ := Ok tt;
  commitment_prefix := remote_prefix;
  max_expected_time_per_block := Duration_from_secs 3;
  validate_message_signer _ := Ok tt |}.

Lemma tm_record_known : clients tm_store !! tm_id = Some tm_record.
Proof. reflexivity. Qed.

(** The states of the record. *)
Lemma tm_record_lookup h c :
  consensus_states tm_record !! h = Some c →
  (h = at_height 5 ∧ c = tm_cons 10 [Byte.x01]) ∨ (h = at_height 8 ∧ c = tm_cons 20 [Byte.x02]).
Proof.
  intros Hc. unfold tm_record in Hc. cbn [consensus_states] in Hc.
  apply lookup_insert_Some in Hc as [[<- <-]|[_ Hc]]; [by left|].
  apply lookup_singleton_Some in Hc as [<- <-]. by right.
Qed.
Lemma tm_recorded h c :
  recorded (consensus_states tm_record) h = Some c →
  (h = at_height 5 ∧ c = tm_cons 10 [Byte.x01]) ∨ (h = at_height 8 ∧ c = tm_cons 20 [Byte.x02]).
Proof. intros (c' & Hc & [= <-])%recorded_Some. by apply tm_record_lookup. Qed.

Lemma tm_record_history : history_ok tm_current (consensus_states tm_record).
Proof.
  split.
  - intros h [c [[-> _]|[-> _]]%tm_record_lookup]; (split; [done|]); unfold height_lt; cbn; lia.
  - intros h c _. by exists c.
  - intros h1 h2 c1 c2 Hlt [[-> ->]|[-> ->]]%tm_recorded [[-> ->]|[-> ->]]%tm_recorded;
      unfold height_lt in Hlt; cbn in Hlt; try lia. vm_compute. done.
Qed.

Definition header_9 : TmHeader := tm_header 9 30 [Byte.x03].
(** At a recorded height, but not the recorded state. *)
Definition header_8_fork : TmHeader := tm_header 8 21 [Byte.x04].
Definition msg_tm_update (h : TmHeader) : MsgUpdateOrMisbehaviour :=
  UmUpdateClient (mkMsgUpdateClient tm_id (TmHeader_into_any h) "signer").

Lemma header_any_roundtrip h :
  revision_height (trusted_height h) ≠ 0 → TmHeader_try_from (TmHeader_into_any h) = Ok h.
Proof.
  intros Hh. unfold TmHeader_try_from, TmHeader_into_any, decode_as. cbn [type_url any_value].
  rewrite String.eqb_refl, tm_header_codec. mstep. by rewrite TmHeader_raw_roundtrip.
Qed.

(** ** Witnesses *)

Lemma tm_header_height_panics_witness :
  TmHeader_validate_basic (tm_header 0 1 []) = Panic.
Proof. apply (tm_header_height_panics (tm_header 0 1 [])). right. reflexivity. Defined.

Definition tm_evidence : TmMisbehaviour := mkTmMisbehaviour tm_id header_8_fork header_9.
Lemma tm_any_roundtrip_witness :
  TmClientState_try_from (TmClientState_into_any tm_current) = Ok tm_current
  ∧ TmMisbehaviour_try_from (TmMisbehaviour_into_any tm_evidence) = Ok tm_evidence.
Proof.
  destruct (tm_any_roundtrip tm_current (tm_cons 10 []) header_9 tm_evidence) as (Hc & _ & _ & Hm);
    [|vm_compute; done..|by split].
  split; [vm_compute; reflexivity|reflexivity|vm_compute; reflexivity..|vm_compute; discriminate|].
  exact I.
Defined.

Definition tm_now : @Time nanos_time := sec 115.
Lemma prune_removes_expired_witness :
  ∃ s', prune_oldest_consensus_state tm_current tm_host tm_id tm_store = (s', Ok tt)
  ∧ client_frame tm_id tm_store s'
  ∧ clients s' !! tm_id = Some (mkClientRecord (client_state_of tm_record)
      (filter (λ hc, expired tm_current tm_now hc.2 = false) (consensus_states tm_record))).
Proof.
  apply (prune_removes_expired tm_current tm_host tm_id tm_now tm_store tm_record
    tm_record_known tm_record_history).
  - reflexivity.
  - intros h [c Hc]. exists c. split.
    + apply recorded_Some. by exists c.
    + apply tm_record_lookup in Hc as [[_ ->]|[_ ->]]; vm_compute; by eexists.
Defined.

Lemma tm_misbehaviour_check_exact_witness :
  ∃ b, tm_check_for_misbehaviour tm_current tm_store tm_id (TmHeader_into_any header_9) = Ok b
  ∧ (b = false ↔ fits (history tm_store tm_id) (at_height 9) (TmConsensusState_from_header header_9)).
Proof.
  apply (tm_misbehaviour_check_exact tm_current tm_store tm_id tm_record (TmHeader_into_any header_9)
    header_9 (at_height 9) tm_record_known tm_record_history).
  - by apply header_any_roundtrip.
  - reflexivity.
Defined.

Lemma executed_to {S E A} `{EqDecision A} (a : A) (m : S * outcome E A) :
  bool_decide (ok m.2 = Some a) = true → m = (m.1, Ok a).
Proof. destruct m as [s r]. cbn. rewrite bool_decide_eq_true, ok_Some. by intros ->. Qed.

(** The header at height 9 is accepted and recorded; the state at height 5, which has expired,
    is pruned. *)
Definition s_tm_updated : @IbcStore nanos_time tm_types :=
  (tm_update_state tm_current tm_host tm_id (TmHeader_into_any header_9) tm_store).1.
Lemma tm_update_extends_history_witness :
  ∃ cs', clients s_tm_updated !! tm_id = Some (mkClientRecord (Some (cs' : @ClientState tm_types))
    (updated_states tm_current tm_now (at_height 9) (TmConsensusState_from_header header_9)
       (consensus_states tm_record)))
  ∧ history_ok cs' (history s_tm_updated tm_id)
  ∧ recorded (history s_tm_updated tm_id) (at_height 9) = Some (TmConsensusState_from_header header_9).
Proof.
  destruct (tm_update_extends_history tm_current tm_host tm_store tm_id tm_record
    (TmHeader_into_any header_9) header_9 s_tm_updated [at_height 9] tm_record_known)
    as (cs' & h & now & [= <-] & _ & Hnow & Hcs & Hok & Hrec & _).
  - reflexivity.
  - exact tm_record_history.
  - by apply header_any_roundtrip.
  - rewrite (tm_check_header _ _ _ _ header_9) by by apply header_any_roundtrip. reflexivity.
  - refine (executed_to [at_height 9] _ _). vm_compute. reflexivity.
  - exists cs'. split; [|split; [exact Hok|exact Hrec]].
    destruct Hnow as [He|Hnow]; [|injection Hnow as <-; exact Hcs].
    apply (f_equal (.!! at_height 5)) in He. discriminate He.
Defined.

Lemma tm_status_spec_witness :
  ∃ st, tm_status tm_current tm_host tm_store tm_id = Ok st ∧ st = Active.
Proof.
  destruct (tm_status_spec tm_current tm_host tm_store tm_id (seconds 115))
    as (st & Hst & _ & _ & Ha).
  - vm_compute. discriminate.
  - intros h c _. by exists c.
  - reflexivity.
  - exists st. split; [exact Hst|]. apply Ha. split; [reflexivity|].
    exists (tm_cons 20 [Byte.x02]). split; [reflexivity|].
    intros (age & Hage & Hlt). injection Hage as <-. vm_compute in Hlt. discriminate.
Defined.

Definition tm_upgraded : TmClientState := tm_state 12 ["upgrade"; "next"].
Definition s_tm_upgraded : @IbcStore nanos_time tm_types :=
  (tm_update_on_upgrade tm_current tm_host tm_id (TmClientState_into_any tm_upgraded)
     (TmConsensusState_into_any (tm_cons 40 [Byte.x07])) tm_store).1.
Lemma client_any_roundtrip cs :
  client_state_wf cs → TmClientState_try_from (TmClientState_into_any cs) = Ok cs.
Proof.
  intros Hcs. unfold TmClientState_try_from, TmClientState_into_any, decode_as. cbn [type_url any_value].
  rewrite String.eqb_refl, tm_client_state_codec. mstep. by rewrite TmClientState_raw_roundtrip.
Qed.
Lemma consensus_any_roundtrip c : TmConsensusState_try_from (TmConsensusState_into_any c) = Ok c.
Proof.
  unfold TmConsensusState_try_from, TmConsensusState_into_any, decode_as. cbn [type_url any_value].
  rewrite String.eqb_refl, tm_consensus_state_codec. mstep. by rewrite TmConsensusState_raw_roundtrip.
Qed.
Lemma tm_upgraded_wf : client_state_wf tm_upgraded.
Proof.
  split; [vm_compute; reflexivity|reflexivity|vm_compute; reflexivity..|vm_compute; discriminate|].
  exact I.
Qed.
Lemma tm_upgrade_spec_witness :
  ∃ cs', client_state_valid cs'
  ∧ client_state s_tm_upgraded tm_id = Ok (cs' : @ClientState tm_types)
  ∧ client_frame tm_id tm_store s_tm_upgraded.
Proof.
  destruct (tm_upgrade_spec tm_current tm_host tm_id (TmClientState_into_any tm_upgraded)
    (TmConsensusState_into_any (tm_cons 40 [Byte.x07])) tm_store s_tm_upgraded (at_height 12))
    as (u & c & cs' & _ & _ & _ & Hv & _ & Hcs & _ & Hf).
  - unfold s_tm_upgraded, tm_update_on_upgrade.
    rewrite client_any_roundtrip, consensus_any_roundtrip by exact tm_upgraded_wf. reflexivity.
  - exists cs'. split; [exact Hv|split; [exact Hcs|exact Hf]].
Defined.

Lemma tm_single_upgrade_key_panics_witness :
  tm_verify_upgrade_client (tm_state 8 ["upgrade"]) (TmClientState_into_any tm_upgraded)
    (TmConsensusState_into_any (tm_cons 40 [Byte.x07])) proof proof (mkCommitmentRoot [Byte.x01])
  = Panic.
Proof.
  apply (tm_single_upgrade_key_panics (tm_state 8 ["upgrade"]) "upgrade" _ _ tm_upgraded
    (tm_cons 40 [Byte.x07])).
  - reflexivity.
  - apply client_any_roundtrip, tm_upgraded_wf.
  - apply consensus_any_roundtrip.
  - vm_compute. right. split; [reflexivity|reflexivity].
Defined.

Lemma tm_verify_header_sound_witness :
  tm_verify_header tm_current tm_host tm_store tm_id header_9 = Ok tt
  ∧ ∃ h trusted, header_verified tm_current tm_host tm_store tm_id header_9 h trusted.
Proof.
  assert (tm_verify_header tm_current tm_host tm_store tm_id header_9 = Ok tt) as Hv.
  { apply accepted. vm_compute. reflexivity. }
  split; [exact Hv|]. exact (tm_verify_header_sound tm_current tm_host tm_store tm_id header_9 Hv).
Defined.

(** A chain creates the client at height 5 and updates it with a header at height 8; then a
    forged header at height 8 shows misbehaviour. *)
Definition host_then : @Host nanos_time tm_types := {|
  host_height := Ok (at_height 10);
  host_timestamp := Ok (seconds 50);
  host_consensus_state _ := Ok (tm_cons 1 [] : @HostConsensusState tm_types);
  host_consensus_state_encode_vec _ := Ok [];
  host_client_state_try_from := TmClientState_try_from : _ → outcome _ (@HostClientState tm_types);
  validate_self_client _ := Ok tt;
  commitment_prefix := remote_prefix;
  max_expected_time_per_block := Duration_from_secs 3;
  validate_message_signer _ := Ok tt |}.
Definition tm_dispatch (m : ClientMsg) (st : chain) : chain * outcome ContextError () :=
  dispatch (H1:=tm_client) (host:=host_then) (EnvClient m) st.
Definition msg_tm_create : ClientMsg := ClCreateClient (mkMsgCreateClient
  (TmClientState_into_any (tm_state 5 ["upgrade"; "upgradedIBCState"]))
  (TmConsensusState_into_any (tm_cons 10 [Byte.x01])) "signer").
Definition st_tm_created : chain := (tm_dispatch msg_tm_create (genesis test_router)).1.
Definition st_tm_updated : chain :=
  (tm_dispatch (client_msg_of (msg_tm_update (tm_header 8 20 [Byte.x02]))) st_tm_created).1.
Definition rec_tm : @ClientRecord tm_types :=
  default (mkClientRecord None ∅) (clients st_tm_updated.1 !! tm_id).

Lemma tm_dispatched m os st st' :
  chain_run (H1:=tm_client) (genesis test_router) os st →
  tm_dispatch m st = (st', Ok tt) → chain_run (H1:=tm_client) (genesis test_router) (os ++ []) st'.
Proof.
  intros Hr Hd. eapply run_step; [exact Hr|]. exists host_then. destruct st as [s r].
  exact (step_dispatch host_then (EnvClient m) s r st' Hd).
Qed.

Lemma misbehaviour_found {E} (m : outcome E bool) : value_of false m = true → m = Ok true.
Proof. by destruct m as [[]| |]. Qed.

Lemma tm_misbehaviour_freezes_witness :
  let st' := (frozen_store tm_id tm_current rec_tm st_tm_updated.1, st_tm_updated.2) in
  tm_dispatch (client_msg_of (msg_tm_update header_8_fork)) st_tm_updated = (st', Ok tt)
  ∧ clients st'.1 !! tm_id = Some (frozen_record tm_current rec_tm)
  ∧ tm_dispatch (client_msg_of (msg_tm_update header_9)) st'
    = (st', Err (CtxClient (ClientNotActive Frozen))).
Proof.
  intros st'. destruct (tm_misbehaviour_freezes test_router [] st_tm_updated host_then
    (msg_tm_update header_8_fork) rec_tm tm_current) as [Hd Hlater].
  - refine (tm_dispatched _ [] st_tm_created _ (tm_dispatched msg_tm_create [] _ _ (run_start _) _) _).
    + refine (executed (tm_dispatch msg_tm_create (genesis test_router)) _). vm_compute. reflexivity.
    + refine (executed (tm_dispatch _ st_tm_created) _). vm_compute. reflexivity.
  - unfold rec_tm. change (um_client_id (msg_tm_update header_8_fork)) with tm_id.
    assert (bool_decide (is_Some (clients st_tm_updated.1 !! tm_id)) = true) as Hs by (vm_compute; reflexivity).
    destruct (clients st_tm_updated.1 !! tm_id); [reflexivity|discriminate Hs].
  - vm_compute. reflexivity.
  - apply accepted. vm_compute. reflexivity.
  - apply (misbehaviour_found _). vm_compute. reflexivity.
  - destruct (Hlater [] st' (run_start _)) as [Hc Hm].
    split; [exact Hd|split; [exact Hc|]].
    exact (Hm host_then (client_msg_of (msg_tm_update header_9)) "signer" eq_refl).
Defined.

(** A value under a path of the remote chain, in a tree under its prefix. *)
Definition proven_path : Path := PathSeqSend (mkSeqSendPath transfer remote_channel).
Definition proven_keys : MerklePath := apply_prefix remote_prefix [Path_to_string proven_path].
Definition proven_value : bytes := [Byte.x05].
Definition leaf_key : bytes := as_bytes (Path_to_string proven_path).
Definition store_root : bytes := entry_root leaf_key proven_value.
Definition app_root : bytes := entry_root (as_bytes "ibc") store_root.
Definition exist (k v : bytes) : CommitmentProof :=
  mkCommitmentProof (Some (Exist ((k, v) : ExistenceProof))).
Definition good_proof : MerkleProof :=
  mkMerkleProof [exist leaf_key proven_value; exist (as_bytes "ibc") store_root].
Definition good_bytes : CommitmentProofBytes :=
  mkCommitmentProofBytes (raw_merkle_proof_encode (RawMerkleProof_from good_proof)).

Lemma merkle_proofs_binding_witness :
  MerkleProof_verify_membership good_proof test_specs app_root proven_keys proven_value 0 = Ok tt
  ∧ nested (trees_of test_specs proven_keys) app_root proven_value
  ∧ MerkleProof_verify_membership good_proof test_specs app_root proven_keys [Byte.x06] 0 ≠ Ok tt.
Proof.
  assert (MerkleProof_verify_membership good_proof test_specs app_root proven_keys proven_value 0
          = Ok tt) as Hv by (apply accepted; vm_compute; reflexivity).
  destruct (merkle_proofs_binding test_specs app_root proven_keys) as (Hn & _ & Hb & _).
  split; [exact Hv|split; [exact (proj2 (Hn good_proof proven_value Hv))|]].
  intros H2. destruct (Hb good_proof good_proof proven_value [Byte.x06] Hv H2) as [E|E];
    [discriminate E|exact E].
Defined.

Lemma tm_proofs_consistent_witness :
  tm_verify_membership tm_current remote_prefix good_bytes (mkCommitmentRoot app_root) proven_path
    proven_value = Ok tt
  ∧ tm_verify_non_membership tm_current remote_prefix good_bytes (mkCommitmentRoot app_root)
      proven_path ≠ Ok tt.
Proof.
  assert (tm_verify_membership tm_current remote_prefix good_bytes (mkCommitmentRoot app_root)
    proven_path proven_value = Ok tt) as Hv by (apply accepted; vm_compute; reflexivity).
  destruct (tm_proofs_consistent tm_current tm_current remote_prefix (mkCommitmentRoot app_root)
    proven_path good_bytes good_bytes proven_value proven_value eq_refl Hv) as [_ Ha].
  split; [exact Hv|]. intros E%Ha. exact E.
Defined.
