(* ===== verification/TestTmNetwork.v ===== *)
(** * Two concrete Tendermint chains

    Two chains create Tendermint clients of each other, open a connection and a channel by the
    four steps of each handshake, and exchange packets, one of which is acknowledged and one
    timed out, all with proofs against the headers the clients were updated with.  The crates
    are stood in for by tables: a root names a list of entries, and the verifier knows the
    headers of the two chains. *)

From S2P Require Import Prelude RustStr Identifiers Primitives Path Connection Channel Context Merkle.
From S2P Require Import ConnHandlers Module ChanHandlers PacketHandlers PacketSpec ClientHandlers.
From S2P Require Import MockClient TmTypes TmClient TmSafety Entrypoint Chain Network TmNetwork.
From S2P Require Import TestChain TestTendermint TestScript.
Local Open Scope string_scope.
Local Open Scope N_scope.

(** ** Trees as tables *)

Fixpoint assoc {K V} `{EqDecision K} (l : list (K * V)) (k : K) : option V :=
  match l with
  | [] => None
  | (k', v) :: l => if decide (k = k') then Some v else assoc l k
  end.

Lemma assoc_elem {K V} `{EqDecision K} (l : list (K * V)) k v : assoc l k = Some v → (k, v) ∈ l.
Proof.
  induction l as [|[k' v'] l IH]; cbn; [done|]. case_decide as Hk.
  - intros [= ->]. subst. apply list_elem_of_here.
  - intros ?%IH. by apply list_elem_of_further.
Qed.
Lemma elem_assoc {K V} `{EqDecision K} (l : list (K * V)) k v : (k, v) ∈ l → is_Some (assoc l k).
Proof.
  induction l as [|[k' v'] l IH]; [by intros ?%not_elem_of_nil|]. cbn. case_decide; [by eexists|].
  intros [[= <- <-]|?]%elem_of_cons; [done|by apply IH].
Qed.

Inductive side := SideA | SideB.
#[local] Instance side_eq_dec : EqDecision side.
Proof. solve_decision. Defined.
Definition tag (x : side) : Byte.byte := match x with SideA => Byte.x0a | SideB => Byte.x0b end.
Definition other (x : side) : side := match x with SideA => SideB | SideB => SideA end.

(** The root of the application at a height, and of the tree of its IBC store. *)
Definition app_root_at (x : side) (n : N) : bytes := tag x :: to_be_bytes n.
Definition ibc_root (root : bytes) : bytes := Byte.xff :: root.
Definition net_heights : list N := [10; 11; 12; 13; 14; 15; 16].

(** ** What the two chains are *)

Definition vals_of (x : side) : bytes := [tag x].
Definition chain_name (x : side) : string := match x with SideA => "chaina-0" | SideB => "chainb-0" end.
Definition time_at (n : N) : Z := sec (block_secs n).
Definition state_at (x : side) (n : N) : TmConsensusState :=
  mkTmConsensusState (time_at n : Time) (mkCommitmentRoot (app_root_at x n)) (vals_of x : TmHash).
Definition config (x : side) (latest : N) : TmClientState :=
  mkTmClientState (mkChainId (chain_name x) 0) (mkTrustThreshold 1 3) (Duration_from_secs 100)
    (Duration_from_secs 200) (Duration_from_secs 5) (at_height latest) test_specs
    ["upgrade"; "upgradedIBCState"] (mkAllowUpdate false false) None.
Definition header_for (x : side) (n trusted : N) : TmHeader :=
  mkTmHeader (mkTestHeader (chain_name x) n (time_at n) (vals_of x) (vals_of x) (app_root_at x n) [Byte.x42]
    : SignedHeader) (vals_of x : ValidatorSet) (at_height trusted) (vals_of x : ValidatorSet).

(** The verifier accepts the known headers with the validators it trusts. *)
Definition known_headers (x : side) : list (N * TmConsensusState) := (λ n, (n, state_at x n)) <$> net_heights.
Definition header_accepted (h : TestHeader) (trusted : TmHash) : Prop :=
  (th_height h, mkTmConsensusState (th_time h : Time) (mkCommitmentRoot (th_app_hash h))
     (th_next_validators h : TmHash)) ∈ (known_headers SideA ++ known_headers SideB)%list
  ∧ (th_next_validators h : TmHash) = trusted.
#[local] Instance header_accepted_dec h trusted : Decision (header_accepted h trusted).
Proof. unfold header_accepted. apply _. Defined.
#[local] Instance known_verifier : TmVerifier := {|
  verify_update_header u t _ _ :=
    if bool_decide (header_accepted (ub_signed_header u) (tb_next_validators_hash t)) then Success
    else Invalid "unknown";
  verifier_misbehaviour_header _ _ _ _ := Invalid "unknown" |}.

(** *** Their ends and packets *)

Definition tm_conn : ConnectionId := ConnectionId_new 0.
Definition tm_chan : ChannelId := ChannelId_new 0.
Definition conn_at (st : ConnectionState) (remote : option ConnectionId) : ConnectionEnd :=
  mkConnectionEnd st tm_id (mkConnCounterparty tm_id remote remote_prefix) [version_1] 0.
Definition tm_version : ChanVersion := mkChanVersion "ics20-1".
Definition chan_at (st : ChannelState) (remote : option ChannelId) : ChannelEnd :=
  mkChannelEnd st Unordered (mkChanCounterparty transfer remote) [tm_conn] tm_version.
Definition tm_packet (seq timeout : N) : Packet :=
  mkPacket seq transfer tm_chan transfer tm_chan [Byte.x62] (At (at_height timeout)) Timestamp_none.
Definition arrives : Packet := tm_packet 1 20.
Definition expires : Packet := tm_packet 2 15.
Definition commitment_of (p : Packet) : bytes :=
  match packet_commitment_of p with Ok cm => commitment_bytes cm | _ => [] end.
Definition tm_acknowledgement : Acknowledgement := mkAcknowledgement [Byte.x01].

(** *** The entries of the IBC store before the block at a height is executed *)

Definition conn_entry (c : ConnectionEnd) : Path * bytes :=
  (PathConnection (mkConnectionPath tm_conn), ConnectionEnd_encode_vec c).
Definition client_entries (cs : TmClientState) (x : side) (n : N) : list (Path * bytes) :=
  [(PathClientState (mkClientStatePath tm_id), encode_any (TmClientState_into_any cs));
   (PathClientConsensusState (state_path tm_id (at_height n)),
      encode_any (TmConsensusState_into_any (state_at x n)))].
Definition chan_entries (c : ChannelEnd) : list (Path * bytes) :=
  [(PathChannelEnd (mkChannelEndPath transfer tm_chan), ChannelEnd_encode_vec c);
   (PathSeqRecv (mkSeqRecvPath transfer tm_chan), to_be_bytes 1)].
Definition commitment_entry (p : Packet) : Path * bytes :=
  (PathCommitment (mkCommitmentPath transfer tm_chan (seq_on_a p)), commitment_of p).

Definition entries (x : side) (n : N) : list (Path * bytes) :=
  match x with
  | SideA =>
    (if n =? 11 then conn_entry (conn_at ConnInit None) :: client_entries (config SideB 10) SideB 10 else [])
    ++ (if n =? 13 then [conn_entry (conn_at ConnOpen (Some tm_conn))] else [])
    ++ (if n <? 13 then [] else if n <? 15 then chan_entries (chan_at ChanInit None)
        else chan_entries (chan_at ChanOpen (Some tm_chan)))
    ++ (if n <? 15 then [] else [commitment_entry arrives; commitment_entry expires])
  | SideB =>
    (if n =? 12 then conn_entry (conn_at ConnTryOpen (Some tm_conn))
       :: client_entries (config SideA 11) SideA 11 else [])
    ++ (if n <? 14 then [] else if n <? 16 then chan_entries (chan_at ChanTryOpen (Some tm_chan))
        else chan_entries (chan_at ChanOpen (Some tm_chan)))
    ++ (if n <? 16 then [] else
        [(PathReceipt (mkReceiptPath transfer tm_chan 1), [Byte.x01]);
         (PathAck (mkAckPath transfer tm_chan 1), ack_commitment_bytes (compute_ack_commitment tm_acknowledgement))])
  end%list.

Definition tree_entries (root : bytes) : list (bytes * bytes) :=
  match root with
  | Byte.xff :: root =>
    match assoc ((λ xn, (app_root_at xn.1 xn.2, xn)) <$> (x ← [SideA; SideB]; (x,.) <$> net_heights)) root with
    | Some (x, n) => (λ e, (as_bytes (Path_to_string e.1), e.2)) <$> entries x n
    | None => []
    end
  | root => [(as_bytes "ibc", ibc_root root)]
  end.

(** ** The crate ics23 over such trees

    A proof names the root of its tree; on the wire it is one byte for its kind and the root
    of the application. *)

#[local] Instance table_ics23 : Ics23 := {|
  ExistenceProof := bytes; OtherProof := (); calculate_existence_root e := Some e |}.
#[local] Instance table_check : Ics23Check := {|
  ics23_verify_membership p _ root key value :=
    match proof_of p with
    | Some (Exist _) => bool_decide (assoc (tree_entries root) key = Some value)
    | _ => false
    end;
  ics23_verify_non_membership p _ root key :=
    match proof_of p with
    | Some (Nonexist _) => bool_decide (assoc (tree_entries root) key = None)
    | _ => false
    end;
  raw_merkle_proof_decode b :=
    match b with
    | Byte.x01 :: root => Ok (mkRawMerkleProof [mkCommitmentProof (Some (Exist (ibc_root root : ExistenceProof)));
        mkCommitmentProof (Some (Exist (root : ExistenceProof)))])
    | Byte.x00 :: root => Ok (mkRawMerkleProof [mkCommitmentProof (Some (Nonexist
          (mkNonExistenceProof [] (Some (ibc_root root : ExistenceProof)) None)));
        mkCommitmentProof (Some (Exist (root : ExistenceProof)))])
    | _ => Err "not a proof"
    end;
  raw_merkle_proof_encode _ := [] |}.
#[local] Instance table_laws : Ics23Laws.
Proof.
  refine {| tree_has _ root key value := assoc (tree_entries root) key = Some value;
            tree_lacks _ root key := assoc (tree_entries root) key = None;
            hash_collision := False |}.
  - intros p spec root key value. cbn. destruct (proof_of p) as [[]|]; try done. by apply bool_decide_eq_true.
  - intros p spec root key. cbn. destruct (proof_of p) as [[]|]; try done. by apply bool_decide_eq_true.
  - intros spec root key v1 v2 E1 E2. left. congruence.
  - intros spec root key value. congruence.
Defined.
#[local] Existing Instance tm_client.
#[local] Existing Instance tm_types.

Definition present (x : side) (n : N) : CommitmentProofBytes := mkCommitmentProofBytes (Byte.x01 :: app_root_at x n).
Definition absent (x : side) (n : N) : CommitmentProofBytes := mkCommitmentProofBytes (Byte.x00 :: app_root_at x n).

(** ** The scripts *)

Definition tm_host_at (x : side) (n : N) : @Host nanos_time tm_types := {|
  host_height := Ok (at_height n);
  host_timestamp := Ok (seconds (block_secs n));
  host_consensus_state h := Ok (state_at x (revision_height h) : @HostConsensusState tm_types);
  host_consensus_state_encode_vec (c : @HostConsensusState tm_types) := Ok (encode_any (TmConsensusState_into_any c));
  host_client_state_try_from := TmClientState_try_from : _ → outcome _ (@HostClientState tm_types);
  validate_self_client _ := Ok tt;
  commitment_prefix := remote_prefix;
  max_expected_time_per_block := Duration_from_secs 3;
  validate_message_signer _ := Ok tt |}.
Definition root_of (x : side) (n : N) : CommitmentRoot := mkCommitmentRoot (app_root_at x n).

(** Messages to a chain about the chain [x]. *)
Definition tm_create (x : side) : MsgEnvelope :=
  EnvClient (ClCreateClient (mkMsgCreateClient (TmClientState_into_any (config x 10))
    (TmConsensusState_into_any (state_at x 10)) "signer")).
Definition tm_update (x : side) (n trusted : N) : MsgEnvelope :=
  EnvClient (ClUpdateClient (mkMsgUpdateClient tm_id (TmHeader_into_any (header_for x n trusted)) "signer")).

Definition tm_conn_init : MsgEnvelope :=
  EnvConnection (ConnOpenInit (mkMsgConnectionOpenInit tm_id (mkConnCounterparty tm_id None remote_prefix)
    (Some version_1) 0 "signer")).
Definition tm_conn_try : MsgEnvelope :=
  EnvConnection (ConnOpenTry (mkMsgConnectionOpenTry tm_id (TmClientState_into_any (config SideB 10))
    (mkConnCounterparty tm_id (Some tm_conn) remote_prefix) [version_1]
    (present SideA 11) (present SideA 11) (present SideA 11) (at_height 11) (at_height 10) 0 "signer" None "")).
Definition tm_conn_ack : MsgEnvelope :=
  EnvConnection (ConnOpenAck (mkMsgConnectionOpenAck tm_conn tm_conn (TmClientState_into_any (config SideA 11))
    (present SideB 12) (present SideB 12) (present SideB 12) (at_height 12) (at_height 11) version_1 "signer" None)).
Definition tm_conn_confirm : MsgEnvelope :=
  EnvConnection (ConnOpenConfirm (mkMsgConnectionOpenConfirm tm_conn (present SideA 13) (at_height 13) "signer")).

Definition tm_chan_init : MsgEnvelope :=
  EnvChannel (ChanOpenInit (mkMsgChannelOpenInit transfer [tm_conn] transfer Unordered "signer" tm_version)).
Definition tm_chan_try : MsgEnvelope :=
  EnvChannel (ChanOpenTry (mkMsgChannelOpenTry transfer [tm_conn] transfer tm_chan tm_version
    (present SideA 13) (at_height 13) Unordered "signer" (mkChanVersion ""))).
Definition tm_chan_ack : MsgEnvelope :=
  EnvChannel (ChanOpenAck (mkMsgChannelOpenAck transfer tm_chan tm_chan tm_version (present SideB 14)
    (at_height 14) "signer")).
Definition tm_chan_confirm : MsgEnvelope :=
  EnvChannel (ChanOpenConfirm (mkMsgChannelOpenConfirm transfer tm_chan (present SideA 15) (at_height 15) "signer")).

Definition tm_recv : MsgRecvPacket := mkMsgRecvPacket arrives (present SideA 15) (at_height 15) "signer".
Definition tm_ack : MsgAcknowledgement :=
  mkMsgAcknowledgement arrives tm_acknowledgement (present SideB 16) (at_height 16) "signer".
Definition tm_timeout : MsgTimeout := mkMsgTimeout expires 1 (absent SideB 16) (at_height 16) "signer".

Definition tm_script (x : side) : script Packet :=
  match x with
  | SideA => [
    (10, [inl (tm_create SideB); inl tm_conn_init]);
    (11, []);
    (12, [inl (tm_update SideB 12 10); inl tm_conn_ack; inl tm_chan_init]);
    (13, []);
    (14, [inl (tm_update SideB 14 12); inl tm_chan_ack; inr arrives; inr expires]);
    (15, []);
    (16, [inl (tm_update SideB 16 14); inl (EnvPacket (PktAck tm_ack)); inl (EnvPacket (PktTimeout tm_timeout))])]
  | SideB => [
    (10, [inl (tm_create SideA)]);
    (11, [inl (tm_update SideA 11 10); inl tm_conn_try]);
    (12, []);
    (13, [inl (tm_update SideA 13 11); inl tm_conn_confirm; inl tm_chan_try]);
    (14, []);
    (15, [inl (tm_update SideA 15 13); inl tm_chan_confirm; inl (EnvPacket (PktRecv tm_recv))]);
    (16, [])]
  end.

Definition tm_lives (x : side) := lives (client:=tm_client) (tm_host_at x) (root_of x) test_router send_act.
Definition tm_log (x : side) : list obs := log (client:=tm_client) (tm_host_at x) (root_of x) test_router send_act (tm_script x).
Definition tm_lived (x : side) : list Network.block := blocks (client:=tm_client) (tm_host_at x) (root_of x) test_router send_act (tm_script x).
Definition tm_of (x : side) (b : Network.block) : tm_block :=
  mkTmBlock (block_height b) (state_at x (revision_height (block_height b))) (block_view b) (block_log b).
Definition tm_blocks (x : side) : list tm_block := tm_of x <$> tm_lived x.

(** ** Roots commit to packet states *)

Definition pc_list {V} (m : gmap PortId (gmap ChannelId V)) : list (PortId * ChannelId * V) :=
  pi ← map_to_list m; cv ← map_to_list pi.2; [(pi.1, cv.1, cv.2)].
Definition pcs_list {V} (m : gmap PortId (gmap ChannelId (gmap Sequence V))) :
    list (PortId * ChannelId * Sequence * V) :=
  pcm ← pc_list m; nv ← map_to_list pcm.2; [(pcm.1.1, pcm.1.2, nv.1, nv.2)].
Lemma elem_pc_list {V} (m : gmap PortId (gmap ChannelId V)) p c v : pc_get m p c = Some v → (p, c, v) ∈ pc_list m.
Proof.
  intros (i & Hi & Hv)%bind_Some. apply list_elem_of_bind. exists (p, i). split; [|by apply elem_of_map_to_list].
  apply list_elem_of_bind. exists (c, v). split; [apply list_elem_of_here|by apply elem_of_map_to_list].
Qed.
Lemma elem_pcs_list {V} (m : gmap PortId (gmap ChannelId (gmap Sequence V))) p c n v :
  pcs_get m p c n = Some v → (p, c, n, v) ∈ pcs_list m.
Proof.
  intros (i & Hi%elem_pc_list & Hv)%bind_Some. apply list_elem_of_bind. exists (p, c, i). split; [|done].
  apply list_elem_of_bind. exists (n, v). split; [apply list_elem_of_here|by apply elem_of_map_to_list].
Qed.

(** What a packet state holds, in a list. *)
Definition view_entries (v : PacketView) : list (Path * bytes) :=
  (((λ '(p, i, c), (PathChannelEnd (mkChannelEndPath p i), ChannelEnd_encode_vec c)) <$> pc_list (pv_channels v))
  ++ ((λ '(p, i, n), (PathSeqRecv (mkSeqRecvPath p i), to_be_bytes n)) <$> pc_list (pv_recv v))
  ++ ((λ '(p, i, n, c), (PathCommitment (mkCommitmentPath p i n), commitment_bytes c)) <$> pcs_list (pv_commitments v))
  ++ ((λ '(p, i, n, c), (PathAck (mkAckPath p i n), ack_commitment_bytes c)) <$> pcs_list (pv_acks v))
  ++ ((λ '(p, i, n, c), (PathReceipt (mkReceiptPath p i n), [Byte.x01])) <$> pcs_list (pv_receipts v)))%list.

Lemma view_entries_complete v path x : view_value v path = Some x → (path, x) ∈ view_entries v.
Proof.
  unfold view_entries. rewrite !elem_of_app, !list_elem_of_fmap.
  destruct path as [| | |[]|[]|[]|[]|[]|[]|[]|[p i]|[]|[p i]|[]|[p i n]|[p i n]|[p i n]|[]]; cbn; try done;
    intros (y & Hy & Ex)%fmap_Some.
  - left. exists (p, i, y). by rewrite Ex; split; [|apply elem_pc_list].
  - right; left. exists (p, i, y). by rewrite Ex; split; [|apply elem_pc_list].
  - do 2 right; left. exists (p, i, n, y). by rewrite Ex; split; [|apply elem_pcs_list].
  - do 3 right; left. exists (p, i, n, y). by rewrite Ex; split; [|apply elem_pcs_list].
  - do 4 right. exists (p, i, n, y). by rewrite Ex; split; [|apply elem_pcs_list].
Qed.

(** The entries of a block are those of its packet state, and no planned upgrades. *)
Definition entries_right (x : side) (b : Network.block) : bool :=
  let l := entries x (revision_height (block_height b)) in
  forallb (λ e, bool_decide (e ∈ l)) (view_entries (block_view b))
  && forallb (λ e, negb (packet_path e.1) || bool_decide (view_value (block_view b) e.1 = Some e.2)) l
  && forallb (λ e, match Path_to_string e.1 with String c _ => negb (Ascii.eqb c "u") | _ => false end) l
  && bool_decide (revision_height (block_height b) ∈ net_heights)
  && bool_decide (block_height b = at_height (revision_height (block_height b)))
  && bool_decide (block_time b = seconds (block_secs (revision_height (block_height b))))
  && bool_decide (block_root b = root_of x (revision_height (block_height b))).

Lemma entries_wf x n : Forall (λ e, Path_wf e.1) (entries x n).
Proof.
  assert (∀ (b : bool) (l1 l2 : list (Path * bytes)), Forall (λ e, Path_wf e.1) l1 → Forall (λ e, Path_wf e.1) l2 →
    Forall (λ e, Path_wf e.1) (if b then l1 else l2)) as Hif by (by intros []).
  destruct x; unfold entries, chan_entries, client_entries, conn_entry, commitment_entry;
    repeat (apply Forall_app_2 || apply Hif || apply Forall_cons || apply Forall_nil || done).
Qed.

Lemma tree_at x n :
  n ∈ net_heights →
  tree_entries (ibc_root (app_root_at x n)) = (λ e, (as_bytes (Path_to_string e.1), e.2)) <$> entries x n.
Proof. intros Hn. repeat (apply elem_of_cons in Hn as [->|Hn]; [by destruct x|]). by apply not_elem_of_nil in Hn. Qed.

Lemma assoc_path (l : list (Path * bytes)) path :
  Forall (λ e, Path_wf e.1) l → Path_wf path →
  assoc ((λ e, (as_bytes (Path_to_string e.1), e.2)) <$> l) (as_bytes (Path_to_string path)) = assoc l path.
Proof.
  intros Hl Hp. induction Hl as [|[q v] l Hq Hl IH]; [done|]. cbn.
  destruct (decide (path = q)) as [->|Hne]; [by rewrite decide_True|].
  rewrite decide_False; [done|]. intros E%as_bytes_inj. by apply Hne, Path_to_string_inj.
Qed.

Lemma keys_of prefix path :
  proof_keys test_specs prefix path = match RawProofSpecs_from test_specs with
    | [s1; s2] => [(s1, Path_to_string path); (s2, CommitmentPrefix_debug prefix)] | _ => [] end.
Proof. reflexivity. Qed.

Section right_blocks.
Context (x : side) (b : Network.block) (Hb : entries_right x b = true).
Notation n := (revision_height (block_height b)).

Lemma right_facts :
  (∀ e, e ∈ view_entries (block_view b) → e ∈ entries x n)
  ∧ (∀ path v, (path, v) ∈ entries x n → packet_path path = true → view_value (block_view b) path = Some v)
  ∧ (∀ e, e ∈ entries x n → ∀ s, Path_to_string e.1 ≠ String "u" s)
  ∧ n ∈ net_heights ∧ block_height b = at_height n ∧ block_of (tm_of x b) = b.
Proof.
  unfold entries_right in Hb. rewrite !andb_true_iff, !bool_decide_eq_true in Hb.
  destruct Hb as [[[[[[H1 H2] H3] H4] H5] H6] H7]. split_and!; try done.
  - intros e He. apply (elem_of_forallb _ _ _ H1) in He. by apply bool_decide_eq_true in He.
  - intros path v He Hp. apply (elem_of_forallb _ _ _ H2) in He. cbn in He. rewrite Hp in He. cbn in He.
    by apply bool_decide_eq_true in He.
  - intros e He s E. apply (elem_of_forallb _ _ _ H3) in He. cbn beta in He. by rewrite E in He.
  - destruct b as [h t r v l]. cbn in *. unfold block_of, tm_of. cbn.
    by rewrite H6, H7.
Qed.

Lemma right_commits : commits_to test_specs remote_prefix (block_root b) (block_view b).
Proof.
  destruct right_facts as (F1 & F2 & _ & Hn & _ & E). intros path Hp Hwf. rewrite keys_of.
  assert (root_bytes (block_root b) = app_root_at x n) as -> by by rewrite <- E.
  assert (assoc (tree_entries (ibc_root (app_root_at x n))) (as_bytes (Path_to_string path))
    = view_value (block_view b) path) as Ha.
  { rewrite tree_at, assoc_path by (done || apply entries_wf).
    destruct (view_value (block_view b) path) as [v|] eqn:Ev.
    - destruct (elem_assoc (entries x n) path v) as [v' Ev']; [by apply F1, view_entries_complete|].
      rewrite Ev'. apply assoc_elem, F2 in Ev'; [congruence|done].
    - destruct (assoc _ path) as [v|] eqn:Ea; [|done]. apply assoc_elem, F2 in Ea; [congruence|done]. }
  assert (assoc (tree_entries (app_root_at x n)) (as_bytes "ibc") = Some (ibc_root (app_root_at x n))) as Ho
    by by destruct x.
  destruct (view_value (block_view b) path) as [v|]; cbn; (eexists; split; [exact Ha|]);
    eexists; (split; [exact Ho|done]).
Qed.

Lemma right_no_upgrade key m value :
  ¬ committed_under (proof_keys test_specs key (PathUpgradeClient (UpgradedClientState m))) value
      (root_bytes (block_root b)).
Proof.
  destruct right_facts as (_ & _ & F3 & Hn & _ & E). rewrite keys_of.
  assert (root_bytes (block_root b) = app_root_at x n) as -> by by rewrite <- E.
  assert (∃ s, Path_to_string (PathUpgradeClient (UpgradedClientState m)) = String "u" s) as [s Es] by by eexists.
  rewrite Es. intros (sub & Ha & root & Ho & ->). cbn [tree_has table_laws] in Ha, Ho.
  assert (sub = ibc_root (app_root_at x n)) as ->.
  { apply assoc_elem in Ho. assert (tree_entries (app_root_at x n) = [(as_bytes "ibc", ibc_root (app_root_at x n))])
      as Et by by destruct x. rewrite Et in Ho. by apply list_elem_of_singleton in Ho as [= _ ->]. }
  rewrite tree_at in Ha by done. apply assoc_elem, list_elem_of_fmap in Ha as (e & Ee & He).
  injection Ee as Ee _. by apply (as_bytes_inj (String "u" s)), symmetry, (F3 e He) in Ee.
Qed.
End right_blocks.

(** ** The link is set up *)

Definition configured_b (x : side) (cs : TmClientState) : bool :=
  bool_decide (cs = let c := config x 10 in
    mkTmClientState (tm_chain_id c) (tm_trust_level c) (tm_trusting_period c)
    (tm_unbonding_period c) (tm_max_clock_drift c) (tm_latest_height cs) (tm_proof_specs c)
    (tm_upgrade_path c) (tm_allow_update c) (tm_frozen_height cs)).
Definition header_known (x : side) (h : Height) (c : TmConsensusState) : bool :=
  bool_decide (h = at_height (revision_height h)) && bool_decide (revision_height h ∈ net_heights)
  && bool_decide (c = state_at x (revision_height h)).

(** [x] is the chain the client is of. *)
Definition set_up_b (x : side) (s s' : @IbcStore nanos_time tm_types) : bool :=
  match pc_get (channels s) transfer tm_chan with
  | Some c =>
    match chan_connection_hops c with
    | hop :: _ =>
      match connections s !! hop with
      | Some conn => bool_decide (conn_client_id conn = tm_id)
                     && bool_decide (cpty_prefix (conn_counterparty conn) = remote_prefix)
      | None => true
      end
    | [] => true
    end
  | None => true
  end
  && match clients s !! tm_id, clients s' !! tm_id with
     | None, Some r =>
       match client_state_of r with Some cs => configured_b x cs | None => true end
       && bool_decide (map_Forall (λ h c, header_known x h c = true) (consensus_states r))
     | _, _ => true
     end.

(** Everything that has to be evaluated: both scripts succeed with the link set up, the blocks
    are right. *)
Example tm_scripts_run :
  tm_lives SideA (set_up_b SideB) (tm_script SideA) = true
  ∧ tm_lives SideB (set_up_b SideA) (tm_script SideB) = true
  ∧ forallb (entries_right SideA) (tm_lived SideA) = true
  ∧ forallb (entries_right SideB) (tm_lived SideB) = true
  ∧ (revision_height ∘ block_height) <$> tm_lived SideA = net_heights
  ∧ (revision_height ∘ block_height) <$> tm_lived SideB = net_heights.
Proof. by vm_compute. Qed.
(** One packet is sent, delivered and acknowledged, the other sent and timed out. *)
Example tm_packets :
  tm_log SideA = [Sent arrives; Sent expires; Acted (PktAck tm_ack); Acted (PktTimeout tm_timeout)]
  ∧ tm_log SideB = [Acted (PktRecv tm_recv)].
Proof. split; [vm_cast_no_check (eq_refl (tm_log SideA))|vm_cast_no_check (eq_refl (tm_log SideB))]. Qed.

Lemma tm_lived_right x : forallb (entries_right x) (tm_lived x) = true.
Proof. destruct tm_scripts_run as (_ & _ & Ha & Hb & _). destruct x; [exact Ha|exact Hb]. Qed.

Lemma blocks_of_lived x : block_of <$> tm_blocks x = tm_lived x.
Proof.
  unfold tm_blocks. rewrite <- list_fmap_compose. rewrite <- (list_fmap_id (tm_lived x)) at 2.
  apply list_fmap_ext. intros i b Hb%list_elem_of_lookup_2.
  apply (elem_of_forallb _ _ _ (tm_lived_right x)) in Hb. by destruct (right_facts x b Hb) as (_ & _ & _ & _ & _ & ?).
Qed.

Lemma block_known x n : n ∈ net_heights → ∃ b, b ∈ tm_blocks x ∧ tmb_height b = at_height n ∧ tmb_state b = state_at x n.
Proof.
  assert ((revision_height ∘ block_height) <$> tm_lived x = net_heights) as <-.
  { destruct tm_scripts_run as (_ & _ & _ & _ & Ha & Hb). destruct x; [exact Ha|exact Hb]. }
  intros (b & -> & Hb)%list_elem_of_fmap. exists (tm_of x b). split; [by apply list_elem_of_fmap_2|]. split; [|done].
  apply (elem_of_forallb _ _ _ (tm_lived_right x)) in Hb. by destruct (right_facts x b Hb) as (_ & _ & _ & _ & ? & _).
Qed.

Lemma known_side x n c : (n, c) ∈ known_headers x → n ∈ net_heights ∧ c = state_at x n.
Proof. by intros (m & [= -> ->] & Hm)%list_elem_of_fmap. Qed.

Lemma accepted_known x (h : TestHeader) :
  header_accepted h (vals_of x : TmHash) →
  ∃ b, b ∈ tm_blocks x ∧ tmb_height b = at_height (th_height h)
    ∧ tmb_state b = mkTmConsensusState (th_time h : Time) (mkCommitmentRoot (th_app_hash h))
        (th_next_validators h : TmHash).
Proof.
  intros [Hk Hvals].
  assert (th_height h ∈ net_heights ∧ mkTmConsensusState (th_time h : Time) (mkCommitmentRoot (th_app_hash h))
    (th_next_validators h : TmHash) = state_at x (th_height h)) as [Hn ->]; [|by apply block_known].
  apply elem_of_app in Hk as [Hk|Hk]; apply known_side in Hk as [Hn E]; (split; [done|]);
    destruct x; try exact E; injection E as _ _ E; rewrite E in Hvals; discriminate Hvals.
Qed.

Lemma tm_chain_right x : tm_chain (config x 10) remote_prefix (tm_blocks x).
Proof.
  split.
  - intros b (b' & -> & Hb)%list_elem_of_fmap. apply (elem_of_forallb _ _ _ (tm_lived_right x)) in Hb.
    pose proof (right_commits x b' Hb) as Hc. destruct (right_facts x b' Hb) as (_ & _ & _ & _ & _ & E).
    rewrite <- E in Hc. exact Hc.
  - intros b key n any upgraded (b' & -> & Hb)%list_elem_of_fmap _ _.
    apply (elem_of_forallb _ _ _ (tm_lived_right x)) in Hb.
    pose proof (right_no_upgrade x b' Hb key n (encode_any any)) as Hc.
    destruct (right_facts x b' Hb) as (_ & _ & _ & _ & _ & E). rewrite <- E in Hc. exact Hc.
  - intros b cs host s id header h (b' & -> & Hb)%list_elem_of_fmap _ Ht Hv.
    apply (elem_of_forallb _ _ _ (tm_lived_right x)) in Hb.
    destruct (right_facts x b' Hb) as (_ & _ & _ & _ & Hh & _). cbn in Ht. rewrite Hh in Ht.
    destruct Hv as [Hhh _ [Hrev _] _ _ _ (name & height & options & now & _ & _ & _ & _ & Hver)].
    cbn in Hver. case_bool_decide as Hk; [|done]. destruct Hk as [Hk Hvals].
    assert (h = at_height (th_height (signed_header header))) as ->.
    { rewrite Ht in Hrev. cbn in Hrev. unfold TmHeader_height, expect in Hhh.
      apply bind_Ok in Hhh as (c & _ & Hhh). destruct (Height_new _ _) as [h'|?|] eqn:Eh; [|done..].
      apply Height_new_Ok in Eh as [-> _]. injection Hhh as <-. cbn in Hrev. by rewrite Hrev. }
    by apply accepted_known.
Qed.

Lemma set_up_b_sound x s s' :
  set_up_b x s s' = true → set_up (config x 10) remote_prefix (tm_blocks x) tm_id transfer tm_chan s s'.
Proof.
  unfold set_up_b. rewrite andb_true_iff. intros [Hl Hn]. split.
  - intros c conn Hc (hop & rest & Hh & Hconn). rewrite Hc, Hh, Hconn in Hl.
    by rewrite andb_true_iff, !bool_decide_eq_true in Hl.
  - intros Hnone r Hr. rewrite Hnone, Hr in Hn. apply andb_true_iff in Hn as [H1 H2]. split.
    + intros cs Hcs. rewrite Hcs in H1. apply bool_decide_eq_true in H1. by do 2 eexists.
    + intros h c Hc. apply bool_decide_eq_true in H2. apply (map_Forall_lookup_1 _ _ _ _ H2) in Hc.
      unfold header_known in Hc. rewrite !andb_true_iff, !bool_decide_eq_true in Hc.
      destruct Hc as [[Eh Hh] Ec]. destruct (block_known x _ Hh) as (b & ? & ? & ?).
      exists b. split_and!; [done|congruence..].
Qed.

Lemma tm_life x : ∃ st, life (H1:=tm_client)
  (λ _ st _ st', set_up (config (other x) 10) remote_prefix (tm_blocks (other x)) tm_id transfer tm_chan st.1 st'.1)
  test_router
  (block_of <$> tm_blocks x) (tm_log x) st.
Proof.
  rewrite blocks_of_lived.
  apply (lives_life (client:=tm_client) (tm_host_at x) (root_of x) (λ _, eq_refl) (λ _, eq_refl) _
    (set_up_b (other x))); [apply set_up_b_sound|].
  destruct tm_scripts_run as (Ha & Hb & _). destruct x; [exact Ha|exact Hb].
Qed.

(** The two chains are linked. *)
Lemma tm_chains_linked_witness :
  linked (client_a:=tm_client) (client_b:=tm_client) (module_a:=null_module) (module_b:=null_module)
    (configured (config SideB 10)) (configured (config SideA 10)) remote_prefix remote_prefix
    (transfer, tm_chan) (transfer, tm_chan) (block_of <$> tm_blocks SideA) (block_of <$> tm_blocks SideB)
    (tm_log SideA) (tm_log SideB).
Proof.
  destruct (tm_life SideA) as [st_a La]. destruct (tm_life SideB) as [st_b Lb].
  apply (tm_chains_linked (config SideB 10) (config SideA 10) tm_id tm_id remote_prefix remote_prefix
    (transfer, tm_chan) (transfer, tm_chan) (tm_blocks SideA) (tm_blocks SideB) _ _ test_router test_router st_a st_b).
  - exact (λ x, x).
  - exact (tm_chain_right SideA).
  - exact (tm_chain_right SideB).
  - exact La.
  - exact Lb.
Defined.
