(* ===== verification/TestTransferNetwork.v ===== *)
(** * Two concrete chains that transfer tokens

    The chains of [TestNetwork] with the bank of [TestTransfer] behind the channel: tokens are
    sent over, one transfer arrives, one is timed out and given back, one is still under way,
    and some of the vouchers return.  The theorem of [TransferNetwork] applies to this history. *)

From S2P Require Import Prelude RustStr Identifiers Primitives Path Connection Channel Context.
From S2P Require Import ConnHandlers Module ChanHandlers PacketHandlers PacketSpec ClientHandlers.
From S2P Require Import MockClient Entrypoint Chain Answers Network AckStatus Denom Transfer TokenSupply TransferNetwork.
From S2P Require Import TestChain TestScript TestNetwork TestTransfer.
Local Open Scope string_scope.
Local Open Scope N_scope.

(** ** The bank as a module *)

Definition channel_result {A} (r : outcome TokenTransferError A) : outcome ChannelError A :=
  map_err (λ e, ChanAppModule (TokenTransferError_to_string e)) r.
Definition packet_result {A} (r : outcome TokenTransferError A) : outcome PacketError A :=
  map_err (λ e, PktAppModule (TokenTransferError_to_string e)) r.
Definition channel_run {A} (m : exec TestBank TokenTransferError A) : exec TestBank ChannelError A := λ t,
  let '(t', r) := m t in (t', channel_result r).
Definition packet_run (m : callback TestBank (ModuleExtras * outcome TokenTransferError ())) :
    callback TestBank (ModuleExtras * outcome PacketError ()) := λ t,
  let '(t', r) := m t in
  (t', match r with Ok (extras, r) => Ok (extras, packet_result r) | Err e => Err e | Panic => Panic end).

Definition bank_module : Module TestBank := {|
  on_chan_open_init_validate t o hops p c rem v :=
    (channel_result (Ics20.on_chan_open_init_validate t o hops p c rem v);; Ok Ics20.expected_version);
  on_chan_open_init_execute o hops p c rem v := channel_run (Ics20.on_chan_open_init_execute o hops p c rem v);
  on_chan_open_try_validate t o hops p c rem v :=
    (channel_result (Ics20.on_chan_open_try_validate t o hops p c rem v);; Ok Ics20.expected_version);
  on_chan_open_try_execute o hops p c rem v := channel_run (Ics20.on_chan_open_try_execute o hops p c rem v);
  on_chan_open_ack_validate t p c v := channel_result (Ics20.on_chan_open_ack_validate t p c v);
  on_chan_open_ack_execute p c v := channel_run (Ics20.on_chan_open_ack_execute p c v);
  on_chan_open_confirm_validate t p c := channel_result (Ics20.on_chan_open_confirm_validate t p c);
  on_chan_open_confirm_execute p c := channel_run (Ics20.on_chan_open_confirm_execute p c);
  on_chan_close_init_validate t p c := channel_result (Ics20.on_chan_close_init_validate t p c);
  on_chan_close_init_execute p c := channel_run (Ics20.on_chan_close_init_execute p c);
  on_chan_close_confirm_validate t p c := channel_result (Ics20.on_chan_close_confirm_validate t p c);
  on_chan_close_confirm_execute p c := channel_run (Ics20.on_chan_close_confirm_execute p c);
  on_recv_packet_execute packet _ := Ics20.on_recv_packet_execute packet;
  on_acknowledgement_packet_validate t packet ack signer :=
    packet_result (Ics20.on_acknowledgement_packet_validate t packet ack signer);
  on_acknowledgement_packet_execute packet ack signer :=
    packet_run (Ics20.on_acknowledgement_packet_execute packet ack signer);
  on_timeout_packet_validate t packet signer :=
    packet_result (Ics20.on_timeout_packet_validate t packet signer);
  on_timeout_packet_execute packet signer := packet_run (Ics20.on_timeout_packet_execute packet signer);
|}.
#[local] Existing Instance bank_module.

Lemma packet_run_Ok m (t t' : TestBank) extras :
  packet_run m t = (t', Ok (extras, Ok tt)) → m t = (t', Ok (extras, Ok tt)).
Proof.
  unfold packet_run, packet_result. destruct (m t) as [t1 [[ex [[]|e|]]|[]|]]; cbn; congruence.
Qed.

#[local] Instance bank_app : Ics20App TestBank TestBank.
Proof.
  refine {| bank_of_app := Some |}.
  - intros a t packet signer a' answer [= ->] Hx. by exists a'.
  - intros a t packet ack signer a' extras [= ->] Hx%packet_run_Ok. by exists a'.
  - intros a t packet signer a' extras [= ->] Hx%packet_run_Ok. by exists a'.
  - intros a t [= ->]. by split.
Defined.

(** ** Transfers as actions *)

(** An order for a transfer of tokens or of vouchers. *)
Record TransferOrder := mkOrder {
  order_voucher : bool; order_amount : N; order_sender : string; order_receiver : string; order_timeout : N }.

Definition vatom : PrefixedDenom := add_trace_prefix uatom (mkTracePrefix transfer net_chan).
Definition order_msg (x : TransferOrder) : MsgTransfer :=
  mkMsgTransfer transfer net_chan
    (mkPacketData (mkCoin (if order_voucher x then vatom else uatom) (order_amount x))
      (order_sender x) (order_receiver x) (mkMemo ""))
    (At (at_height (order_timeout x))) Timestamp_none.

Lemma order_wf x : (order_amount x <? U256_SIZE) = true → data_wf (packet_data (order_msg x)).
Proof.
  intros Ha%N.ltb_lt. split; [|exact Ha]. cbn. destruct (order_voucher x).
  - split_and!; [repeat constructor; by vm_compute|by vm_compute..].
  - split_and!; [constructor|by vm_compute..].
Qed.

Definition module_id : ModuleId := mkModuleId "transfer".

Section orders.
Context (l : Ledger).
#[local] Existing Instance net_client.
Notation bank_chain := (chain (App:=TestBank)).

Definition order_act (host : Host) (x : TransferOrder) (st : bank_chain) : option (list obs * bank_chain) :=
  let msg := order_msg x in
  if order_amount x <? U256_SIZE then
    t ← routes st.2 !! module_id;
    c ← pc_get (channels st.1) transfer net_chan;
    chan_b ← rem_channel_id (chan_remote c);
    seq ← pc_get (next_sequence_send st.1) transfer net_chan;
    match send_transfer (H1:=net_client l) msg (st.1, t) with
    | ((s', t'), Ok _) => Some ([Sent (transfer_packet msg seq (rem_port_id (chan_remote c), chan_b))],
                                (s', put_route st.2 module_id t'))
    | _ => None
    end
  else None.

Lemma order_act_transfers ends τ (host : Host) x st o st' :
  order_act host x st = Some (o, st') → transfers (H1:=net_client l) ends τ module_id host st o st'.
Proof.
  unfold order_act. destruct (_ <? _) eqn:Ea; [|done]. intros Hx.
  apply bind_Some in Hx as (t & Et & (c & Ec & (chan_b & Er & (seq & Es & Hx)%bind_Some)%bind_Some)%bind_Some).
  destruct (send_transfer (order_msg x) (st.1, t)) as [[s' t'] [[]|e|]] eqn:Ex; [|done..].
  injection Hx as <- <-. pose proof Ex as Heff.
  apply send_transfer_effect in Heff as (c' & chan_b' & seq' & sender & s1 & [F1 F2 F3 F4] & _).
  destruct st as [s r]. cbn in *. simplify_eq. eapply (ts_transfer _ _ _ _ _ _ _ t _ _ t'); try done.
  - unfold bank_at. by rewrite Et.
  - by apply order_wf.
  - by rewrite bank_at_put, decide_True.
Qed.
End orders.

(** ** The two scripts *)

Definition bank_router (t : TestBank) : MockRouter TestBank :=
  scope_port_to_module transfer module_id (mkMockRouter {[module_id := t]} ∅).

(** A's transfers: one arrives, one expires, one stays under way; and B's, which returns
    vouchers. *)
Definition arriving : TransferOrder := mkOrder false 40 "alice" "bob" 20.
Definition expiring : TransferOrder := mkOrder false 7 "alice" "bob" 12.
Definition waiting : TransferOrder := mkOrder false 5 "alice" "bob" 30.
Definition returning : TransferOrder := mkOrder true 15 "bob" "alice" 21.
Definition order_packet (x : TransferOrder) (seq : Sequence) : Packet :=
  transfer_packet (order_msg x) seq (transfer, net_chan).

Definition recv_of (p : Packet) (n : N) : MsgRecvPacket := mkMsgRecvPacket p proof (at_height n) "relayer".
Definition bank_ack : MsgAcknowledgement :=
  mkMsgAcknowledgement (order_packet arriving 1) success_ack proof (at_height 14) "relayer".
Definition bank_timeout : MsgTimeout := mkMsgTimeout (order_packet expiring 2) 1 proof (at_height 14) "relayer".

Definition orders_a : script TransferOrder := [
  (10, [inl net_create; inl net_conn_try; inl net_conn_confirm; inl net_chan_init]);
  (11, []);
  (12, [inl (net_update 12); inl net_chan_ack; inr arriving; inr expiring; inr waiting]);
  (13, []);
  (14, [inl (net_update 14); inl (EnvPacket (PktAck bank_ack)); inl (EnvPacket (PktTimeout bank_timeout));
        inl (EnvPacket (PktRecv (recv_of (order_packet returning 1) 14)))])].
Definition orders_b : script TransferOrder := [
  (10, [inl net_create; inl net_conn_try; inl net_conn_confirm]);
  (11, [inl (net_update 11); inl net_chan_try]);
  (12, []);
  (13, [inl (net_update 13); inl net_chan_confirm;
        inl (EnvPacket (PktRecv (recv_of (order_packet arriving 1) 13))); inr returning]);
  (14, [])].

Definition known_a : Ledger := mkLedger
  [(root_at 12, end_path, ChannelEnd_encode_vec (net_end ChanTryOpen (Some net_chan)));
   (root_at 14, PathAck (mkAckPath transfer net_chan 1), ack_commitment_bytes (compute_ack_commitment success_ack));
   (root_at 14, PathCommitment (mkCommitmentPath transfer net_chan 1), commitment_of (order_packet returning 1))]
  [(root_at 14, PathReceipt (mkReceiptPath transfer net_chan 2))].
Definition known_b : Ledger := mkLedger
  [(root_at 11, end_path, ChannelEnd_encode_vec (net_end ChanInit None));
   (root_at 13, end_path, ChannelEnd_encode_vec (net_end ChanOpen (Some net_chan)));
   (root_at 13, PathCommitment (mkCommitmentPath transfer net_chan 1), commitment_of (order_packet arriving 1))] [].

Notation bank_lives l t := (TestScript.lives (client:=net_client l) net_host root_at (bank_router t) (order_act l)).
Notation bank_blocks l t := (blocks (client:=net_client l) net_host root_at (bank_router t) (order_act l)).
Notation bank_log l t := (log (client:=net_client l) net_host root_at (bank_router t) (order_act l)).
Notation bank_final l t := (final (client:=net_client l) net_host root_at (bank_router t) (order_act l)).

Definition bank_blocks_a : list block := bank_blocks known_a bank_a orders_a.
Definition bank_blocks_b : list block := bank_blocks known_b bank_b orders_b.
Definition bank_end (_ : side) : PortId * ChannelId := (transfer, net_chan).

Example bank_scripts_run :
  bank_lives known_a bank_a (follows_b bank_blocks_b) orders_a = true
  ∧ bank_lives known_b bank_b (follows_b bank_blocks_a) orders_b = true
  ∧ ledger_true known_a bank_blocks_b = true ∧ ledger_true known_b bank_blocks_a = true.
Proof. by vm_compute. Qed.

Definition bank_log_a : list obs :=
  [Sent (order_packet arriving 1); Sent (order_packet expiring 2); Sent (order_packet waiting 3);
   Acted (PktAck bank_ack); Acted (PktTimeout bank_timeout); Acted (PktRecv (recv_of (order_packet returning 1) 14))].
Definition bank_log_b : list obs :=
  [Acted (PktRecv (recv_of (order_packet arriving 1) 13)); Sent (order_packet returning 1)].
Lemma bank_logs : bank_log known_a bank_a orders_a = bank_log_a ∧ bank_log known_b bank_b orders_b = bank_log_b.
Proof. split; [vm_cast_no_check (eq_refl bank_log_a)|vm_cast_no_check (eq_refl bank_log_b)]. Qed.

(** In the end A has thirty tokens in escrow: twenty-five for the vouchers of B, and five that
    are under way. *)
Example bank_books :
  (t ← bank_at module_id (bank_final known_a bank_a orders_a).2; Some (escrowed t (bank_end SideA) uatom)) = Some 30
  ∧ (t ← bank_at module_id (bank_final known_b bank_b orders_b).2; Some (supply t (voucher bank_end SideA uatom))) = Some 25
  ∧ carry bank_end SideA uatom SideA [order_packet waiting 3] = 5%Z.
Proof. by vm_compute. Qed.

(** ** The chains transfer tokens *)

Section bank_chain.
Context (l : Ledger) (τ : side) (t0 : TestBank) (peer : list block) (sc : script TransferOrder).
Notation st := (bank_final l t0 sc).

Lemma bank_life :
  bank_lives l t0 (follows_b peer) sc = true →
  life (H1:=net_client l) (transferring (H1:=net_client l) bank_end τ module_id
    (following (H1:=net_client l) bank_end τ (λ _, True) remote_prefix peer)) (bank_router t0)
    (bank_blocks l t0 sc) (bank_log l t0 sc) st.
Proof.
  apply (script_lives (client:=net_client l) net_host root_at (bank_router t0) (order_act l) (λ _, eq_refl) (λ _, eq_refl)
    (transferring (H1:=net_client l) bank_end τ module_id
    (following (H1:=net_client l) bank_end τ (λ _, True) remote_prefix peer)) (follows_b peer)).
  - intros host x st0 o st' Hx. by eapply transfers_chain, (order_act_transfers l bank_end τ).
  - intros host msg s r st' Hf Hd. split; [by eapply follows_b_sound|by apply ts_dispatch].
  - intros host x st0 o st' Hf Hx. split; [by eapply follows_b_sound|by eapply order_act_transfers].
Qed.

(** The end names the other one, which has the same identifiers. *)
Definition peered_b (s : IbcStore) : bool :=
  match pc_get (channels s) transfer net_chan with
  | Some c => bool_decide (chan_remote c = mkChanCounterparty transfer (Some net_chan))
  | None => false
  end.
Definition named_packet_b (p : Packet) : bool :=
  bool_decide (key_on_a p = (transfer, net_chan) ∧ key_on_b p = (transfer, net_chan)) && (seq_on_a p <? U64_SIZE).

Lemma bank_transfers os :
  (∀ d, tb_escrow t0 (transfer, net_chan) d = 0) → (∀ d, source bank_end τ d = false → tb_supply t0 d = 0) →
  bank_lives l t0 (follows_b peer) sc = true → bank_log l t0 sc = os → peered_b st.1 = true →
  forallb (λ o, match o with Acted msg => named_packet_b (packet_of msg) | _ => true end) os = true →
  transfer_chain (H1:=net_client l) bank_end τ module_id
    (following (H1:=net_client l) bank_end τ (λ _, True) remote_prefix peer)
    (bank_blocks l t0 sc) os st.
Proof.
  intros He Hs Hl <- Hp Hn. split.
  - exists (bank_router t0), t0. split_and!; [reflexivity|reflexivity|by split|by apply bank_life].
  - intros c Hc _. unfold peered_b in Hp. cbn in Hc. rewrite Hc in Hp. by apply bool_decide_eq_true in Hp.
  - intros msg Hin. apply (elem_of_forallb _ _ _ Hn) in Hin. unfold named_packet_b in Hin.
    rewrite andb_true_iff, bool_decide_eq_true in Hin. destruct Hin as [[Ha Hb] Hu%N.ltb_lt].
    unfold named_packet. injection Ha as -> ->. injection Hb as -> ->. split_and!; [reflexivity..|done].
Qed.
End bank_chain.

(** No collisions in the two histories. *)
Definition packets_of (os : list obs) : list Packet :=
  (λ o, match o with Sent p => p | Acted msg => packet_of msg end) <$> os.
Definition same_packet_b (p q : Packet) : bool :=
  bool_decide (key_on_a p = key_on_a q ∧ key_on_b p = key_on_b q ∧ seq_on_a p = seq_on_a q)
  && bool_decide (commitment_of p = commitment_of q).

Lemma same_packet_true p q : same_packet p q → same_packet_b p q = true.
Proof.
  intros (? & ? & ? & E). unfold same_packet_b, commitment_of. by rewrite E, !bool_decide_eq_true_2.
Qed.
Lemma mentioned_packets os p : mentioned os p → p ∈ packets_of os.
Proof.
  unfold packets_of. rewrite list_elem_of_fmap. intros [Hin|(msg & Hin & <-)].
  - by exists (Sent p).
  - by exists (Acted msg).
Qed.

Lemma histories_collision_free : collision_free (bank_log_a ++ bank_log_b).
Proof.
  split.
  - assert (forallb (λ p, forallb (λ q, negb (same_packet_b p q) || bool_decide (p = q))
      (packets_of (bank_log_a ++ bank_log_b))) (packets_of (bank_log_a ++ bank_log_b)) = true) as Hall by by vm_compute.
    intros p q Hp%mentioned_packets Hq%mentioned_packets Hsame.
    apply (elem_of_forallb _ _ _ Hall) in Hp. apply (elem_of_forallb _ _ _ Hp) in Hq.
    rewrite (same_packet_true _ _ Hsame) in Hq. by apply bool_decide_eq_true in Hq.
  - intros m ack Hin Hack.
    assert (m = bank_ack) as ->.
    { apply list_elem_of_In in Hin. cbn in Hin. destruct_or?; naive_solver. }
    destruct Hack as [->|[err ->]]; [done|]. intros E. apply (f_equal (take 3 ∘ ack_commitment_bytes)) in E. discriminate E.
Qed.

Example bank_ends_checked :
  peered_b (bank_final known_a bank_a orders_a).1 && peered_b (bank_final known_b bank_b orders_b).1
  && forallb (λ o, match o with Acted msg => named_packet_b (packet_of msg) | _ => true end) bank_log_a
  && forallb (λ o, match o with Acted msg => named_packet_b (packet_of msg) | _ => true end) bank_log_b = true.
Proof. by vm_compute. Qed.

Lemma bank_chain_a :
  transfer_chain (H1:=net_client known_a) bank_end SideA module_id
    (following (H1:=net_client known_a) bank_end SideA (λ _, True) remote_prefix bank_blocks_b)
    bank_blocks_a bank_log_a (bank_final known_a bank_a orders_a).
Proof.
  pose proof bank_ends_checked as Hc. rewrite !andb_true_iff in Hc. destruct Hc as [[[Hp _] Hn] _].
  refine (bank_transfers known_a SideA bank_a bank_blocks_b orders_a bank_log_a (λ _, eq_refl) _
    (proj1 bank_scripts_run) (proj1 bank_logs) Hp Hn).
  intros d Hd. cbn. rewrite bool_decide_eq_false_2; [done|]. intros ->. by vm_compute in Hd.
Qed.
Lemma bank_chain_b :
  transfer_chain (H1:=net_client known_b) bank_end SideB module_id
    (following (H1:=net_client known_b) bank_end SideB (λ _, True) remote_prefix bank_blocks_a)
    bank_blocks_b bank_log_b (bank_final known_b bank_b orders_b).
Proof.
  pose proof bank_ends_checked as Hc. rewrite !andb_true_iff in Hc. destruct Hc as [[[_ Hp] _] Hn].
  exact (bank_transfers known_b SideB bank_b bank_blocks_a orders_b bank_log_b (λ _, eq_refl) (λ _ _, eq_refl)
    (proj1 (proj2 bank_scripts_run)) (proj2 bank_logs) Hp Hn).
Qed.

Lemma transfer_books_close_witness :
  ∃ t_a t_b, bank_at module_id (bank_final known_a bank_a orders_a).2 = Some t_a
    ∧ bank_at module_id (bank_final known_b bank_b orders_b).2 = Some t_b
    ∧ backed bank_end bank_log_a bank_log_b t_a t_b
    ∧ supply t_b (voucher bank_end SideA uatom) <= escrowed t_a (bank_end SideA) uatom.
Proof.
  destruct bank_scripts_run as (_ & _ & Ta & Tb).
  destruct (transfer_books_close (frame_a:=net_client_frame known_a) (frame_b:=net_client_frame known_b)
    (module_a:=bank_module) (module_b:=bank_module) bank_end module_id module_id (λ _, True) (λ _, True)
    remote_prefix remote_prefix bank_blocks_a bank_blocks_b bank_log_a bank_log_b
    (bank_final known_a bank_a orders_a) (bank_final known_b bank_b orders_b))
    as (t_a & t_b & Ha & Hb & Hbk & Hle).
  - exact (ledger_faithful known_a remote_prefix bank_blocks_b Ta).
  - exact (ledger_faithful known_b remote_prefix bank_blocks_a Tb).
  - exact bank_chain_a.
  - exact bank_chain_b.
  - exact histories_collision_free.
  - exists t_a, t_b. exact (conj Ha (conj Hb (conj Hbk (proj1 (Hle uatom) eq_refl)))).
Defined.
