(* ===== verification/TestMessages.v ===== *)
(** * Messages and events of the concrete chain on the wire

    An encoder of the raw messages that is small enough to compute with, and the
    theorems on decoding and on ABCI events applied to [TestChain]'s history. *)

From S2P Require Import Prelude RustStr Identifiers Primitives Path Connection Channel Context.
From S2P Require Import ConnHandlers Module ChanHandlers PacketHandlers PacketSpec.
From S2P Require Import ClientHandlers Entrypoint Messages TestChain Merkle Events.
Local Open Scope string_scope.
Local Open Scope N_scope.

(** ** Encodings *)

#[export] Instance RawPacket_eq_dec : EqDecision RawPacket.
Proof. solve_decision. Defined.
#[export] Instance RawPacket_countable : Countable RawPacket.
Proof.
  countable_record (λ r, (((raw_sequence r, raw_source_port r), (raw_source_channel r,
    raw_destination_port r)), ((raw_destination_channel r, raw_data r), (raw_timeout_height r,
    raw_timeout_timestamp r)))) (λ '(((a, b), (c, d)), ((e, f), (g, h))), mkRawPacket a b c d e
    f g h).
Defined.
#[export] Instance RawMsgCreateClient_eq_dec : EqDecision RawMsgCreateClient.
Proof. solve_decision. Defined.
#[export] Instance RawMsgCreateClient_countable : Countable RawMsgCreateClient.
Proof.
  countable_record (λ r, (rcc_client_state r, rcc_consensus_state r, rcc_signer r)) (λ '(a, b,
    c), mkRawMsgCreateClient a b c).
Defined.
#[export] Instance RawMsgUpdateClient_eq_dec : EqDecision RawMsgUpdateClient.
Proof. solve_decision. Defined.
#[export] Instance RawMsgUpdateClient_countable : Countable RawMsgUpdateClient.
Proof.
  countable_record (λ r, (ruc_client_id r, ruc_client_message r, ruc_signer r)) (λ '(a, b, c),
    mkRawMsgUpdateClient a b c).
Defined.
#[export] Instance RawMsgSubmitMisbehaviour_eq_dec : EqDecision RawMsgSubmitMisbehaviour.
Proof. solve_decision. Defined.
#[export] Instance RawMsgSubmitMisbehaviour_countable : Countable RawMsgSubmitMisbehaviour.
Proof.
  countable_record (λ r, (rsm_client_id r, rsm_misbehaviour r, rsm_signer r)) (λ '(a, b, c),
    mkRawMsgSubmitMisbehaviour a b c).
Defined.
#[export] Instance RawMsgUpgradeClient_eq_dec : EqDecision RawMsgUpgradeClient.
Proof. solve_decision. Defined.
#[export] Instance RawMsgUpgradeClient_countable : Countable RawMsgUpgradeClient.
Proof.
  countable_record (λ r, ((rug_client_id r, rug_client_state r, rug_consensus_state r),
    (rug_proof_upgrade_client r, rug_proof_upgrade_consensus_state r, rug_signer r))) (λ '((a,
    b, c), (d, e, f)), mkRawMsgUpgradeClient a b c d e f).
Defined.
#[export] Instance RawMsgConnectionOpenInit_eq_dec : EqDecision RawMsgConnectionOpenInit.
Proof. solve_decision. Defined.
#[export] Instance RawMsgConnectionOpenInit_countable : Countable RawMsgConnectionOpenInit.
Proof.
  countable_record (λ r, ((rcoi_client_id r, rcoi_counterparty r, rcoi_version r),
    (rcoi_delay_period r, rcoi_signer r))) (λ '((a, b, c), (d, e)), mkRawMsgConnectionOpenInit a
    b c d e).
Defined.
#[export] Instance RawMsgConnectionOpenTry_eq_dec : EqDecision RawMsgConnectionOpenTry.
Proof. solve_decision. Defined.
#[export] Instance RawMsgConnectionOpenTry_countable : Countable RawMsgConnectionOpenTry.
Proof.
  countable_record (λ r, ((((rcot_client_id r, rcot_previous_connection_id r),
    (rcot_client_state r, rcot_counterparty r)), (rcot_delay_period r,
    rcot_counterparty_versions r, rcot_proof_height r)), ((rcot_proof_init r, rcot_proof_client
    r, rcot_proof_consensus r), (rcot_consensus_height r, rcot_signer r,
    rcot_host_consensus_state_proof r)))) (λ '((((a, b), (c, d)), (e, f, g)), ((h, i, j), (k, l,
    m))), mkRawMsgConnectionOpenTry a b c d e f g h i j k l m).
Defined.
#[export] Instance RawMsgConnectionOpenAck_eq_dec : EqDecision RawMsgConnectionOpenAck.
Proof. solve_decision. Defined.
#[export] Instance RawMsgConnectionOpenAck_countable : Countable RawMsgConnectionOpenAck.
Proof.
  countable_record (λ r, (((rcoa_connection_id r, rcoa_counterparty_connection_id r,
    rcoa_client_state r), (rcoa_proof_height r, rcoa_proof_try r, rcoa_proof_client r)),
    ((rcoa_proof_consensus r, rcoa_consensus_height r, rcoa_version r), (rcoa_signer r,
    rcoa_host_consensus_state_proof r)))) (λ '(((a, b, c), (d, e, f)), ((g, h, i), (j, k))),
    mkRawMsgConnectionOpenAck a b c d e f g h i j k).
Defined.
#[export] Instance RawMsgConnectionOpenConfirm_eq_dec : EqDecision RawMsgConnectionOpenConfirm.
Proof. solve_decision. Defined.
#[export] Instance RawMsgConnectionOpenConfirm_countable : Countable RawMsgConnectionOpenConfirm.
Proof.
  countable_record (λ r, ((rcoc_connection_id r, rcoc_proof_ack r), (rcoc_proof_height r,
    rcoc_signer r))) (λ '((a, b), (c, d)), mkRawMsgConnectionOpenConfirm a b c d).
Defined.
#[export] Instance RawMsgChannelOpenInit_eq_dec : EqDecision RawMsgChannelOpenInit.
Proof. solve_decision. Defined.
#[export] Instance RawMsgChannelOpenInit_countable : Countable RawMsgChannelOpenInit.
Proof.
  countable_record (λ r, (rchi_port_id r, rchi_channel r, rchi_signer r)) (λ '(a, b, c),
    mkRawMsgChannelOpenInit a b c).
Defined.
#[export] Instance RawMsgChannelOpenTry_eq_dec : EqDecision RawMsgChannelOpenTry.
Proof. solve_decision. Defined.
#[export] Instance RawMsgChannelOpenTry_countable : Countable RawMsgChannelOpenTry.
Proof.
  countable_record (λ r, (((rcht_port_id r, rcht_previous_channel_id r), (rcht_channel r,
    rcht_counterparty_version r)), (rcht_proof_init r, rcht_proof_height r, rcht_signer r))) (λ
    '(((a, b), (c, d)), (e, f, g)), mkRawMsgChannelOpenTry a b c d e f g).
Defined.
#[export] Instance RawMsgChannelOpenAck_eq_dec : EqDecision RawMsgChannelOpenAck.
Proof. solve_decision. Defined.
#[export] Instance RawMsgChannelOpenAck_countable : Countable RawMsgChannelOpenAck.
Proof.
  countable_record (λ r, (((rcha_port_id r, rcha_channel_id r), (rcha_counterparty_channel_id r,
    rcha_counterparty_version r)), (rcha_proof_try r, rcha_proof_height r, rcha_signer r))) (λ
    '(((a, b), (c, d)), (e, f, g)), mkRawMsgChannelOpenAck a b c d e f g).
Defined.
#[export] Instance RawMsgChannelOpenConfirm_eq_dec : EqDecision RawMsgChannelOpenConfirm.
Proof. solve_decision. Defined.
#[export] Instance RawMsgChannelOpenConfirm_countable : Countable RawMsgChannelOpenConfirm.
Proof.
  countable_record (λ r, ((rchc_port_id r, rchc_channel_id r, rchc_proof_ack r),
    (rchc_proof_height r, rchc_signer r))) (λ '((a, b, c), (d, e)), mkRawMsgChannelOpenConfirm a
    b c d e).
Defined.
#[export] Instance RawMsgChannelCloseInit_eq_dec : EqDecision RawMsgChannelCloseInit.
Proof. solve_decision. Defined.
#[export] Instance RawMsgChannelCloseInit_countable : Countable RawMsgChannelCloseInit.
Proof.
  countable_record (λ r, (rcli_port_id r, rcli_channel_id r, rcli_signer r)) (λ '(a, b, c),
    mkRawMsgChannelCloseInit a b c).
Defined.
#[export] Instance RawMsgChannelCloseConfirm_eq_dec : EqDecision RawMsgChannelCloseConfirm.
Proof. solve_decision. Defined.
#[export] Instance RawMsgChannelCloseConfirm_countable : Countable RawMsgChannelCloseConfirm.
Proof.
  countable_record (λ r, ((rclc_port_id r, rclc_channel_id r, rclc_proof_init r),
    (rclc_proof_height r, rclc_signer r, rclc_counterparty_upgrade_sequence r))) (λ '((a, b, c),
    (d, e, f)), mkRawMsgChannelCloseConfirm a b c d e f).
Defined.
#[export] Instance RawMsgRecvPacket_eq_dec : EqDecision RawMsgRecvPacket.
Proof. solve_decision. Defined.
#[export] Instance RawMsgRecvPacket_countable : Countable RawMsgRecvPacket.
Proof.
  countable_record (λ r, ((rrp_packet r, rrp_proof_commitment r), (rrp_proof_height r,
    rrp_signer r))) (λ '((a, b), (c, d)), mkRawMsgRecvPacket a b c d).
Defined.
#[export] Instance RawMsgAcknowledgement_eq_dec : EqDecision RawMsgAcknowledgement.
Proof. solve_decision. Defined.
#[export] Instance RawMsgAcknowledgement_countable : Countable RawMsgAcknowledgement.
Proof.
  countable_record (λ r, ((rma_packet r, rma_acknowledgement r, rma_proof_acked r),
    (rma_proof_height r, rma_signer r))) (λ '((a, b, c), (d, e)), mkRawMsgAcknowledgement a b c
    d e).
Defined.
#[export] Instance RawMsgTimeout_eq_dec : EqDecision RawMsgTimeout.
Proof. solve_decision. Defined.
#[export] Instance RawMsgTimeout_countable : Countable RawMsgTimeout.
Proof.
  countable_record (λ r, ((rto_packet r, rto_proof_unreceived r, rto_proof_height r),
    (rto_next_sequence_recv r, rto_signer r))) (λ '((a, b, c), (d, e)), mkRawMsgTimeout a b c d
    e).
Defined.
#[export] Instance RawMsgTimeoutOnClose_eq_dec : EqDecision RawMsgTimeoutOnClose.
Proof. solve_decision. Defined.
#[export] Instance RawMsgTimeoutOnClose_countable : Countable RawMsgTimeoutOnClose.
Proof.
  countable_record (λ r, (((rtc_packet r, rtc_proof_unreceived r), (rtc_proof_close r,
    rtc_proof_height r)), (rtc_next_sequence_recv r, rtc_signer r,
    rtc_counterparty_upgrade_sequence r))) (λ '(((a, b), (c, d)), (e, f, g)),
    mkRawMsgTimeoutOnClose a b c d e f g).
Defined.

Definition countable_prost `{Countable R} : Prost R :=
  {| prost_decode := decode_or_fail; prost_encode := to_bytes |}.
Lemma countable_prost_laws `{Countable R} : ProstLaws R (H:=countable_prost).
Proof. split. intros r. cbn. unfold decode_or_fail. by rewrite from_to_bytes. Qed.

#[export] Instance test_msg_codec : MsgCodec.
Proof. split; exact countable_prost. Defined.
#[export] Instance test_msg_codec_laws : MsgCodecLaws.
Proof. split; exact countable_prost_laws. Qed.
#[export] Instance test_msg_text : MsgText := {|
  client_conversion_text _ := "client error";
  connection_conversion_text _ := "connection error";
  channel_conversion_text _ := "channel error";
  packet_conversion_text _ := "packet error";
  channel_id_debug _ := "a channel identifier" |}.

(** ** Theorems *)

Lemma messages_wire_roundtrip_witness :
  ∃ a, MsgEnvelope_to_any (E:=RouterError) (EnvConnection (ConnOpenTry msg_conn_try)) = Ok a
    ∧ MsgEnvelope_try_from a = Ok (EnvConnection (ConnOpenTry msg_conn_try)).
Proof.
  apply (messages_wire_roundtrip (EnvConnection (ConnOpenTry msg_conn_try))).
  cbn. split_and!; try done.
  - split_and!; cbn; [done|by intros i [= <-]|done].
  - intros v ->%list_elem_of_singleton. split; [done|].
    intros f [->|[->|[]%not_elem_of_nil]%list.elem_of_cons]%list.elem_of_cons; done.
Defined.

Definition ack_any : Any :=
  wrap ACKNOWLEDGEMENT_TYPE_URL (mkRawMsgAcknowledgement
    (Some (mkRawPacket 1 "transfer" "channel-0" "transfer" "channel-5" [Byte.x62]
      (Some (mkRawHeight 0 20)) 0)) [Byte.x01] [Byte.x01] (Some (mkRawHeight 0 7)) "signer").
Lemma decoded_messages_well_formed_witness :
  PacketMsg_wf Packet_checked (PktAck (msg_ack (packet_out 0 1 20))).
Proof.
  apply (decoded_messages_well_formed ack_any (EnvPacket (PktAck (msg_ack (packet_out 0 1 20))))).
  reflexivity.
Defined.

(** ** Events *)

#[export] Instance test_abci : Abci := {|
  EventAttribute := string * string * bool;
  attribute k v := (k, v, true); attribute_indexed k v b := (k, v, b);
  attribute_key a := a.1.1; attribute_value a := a.1.2;
  hex_encode := String.string_of_list_byte |}.
#[export] Instance test_abci_laws : AbciLaws.
Proof.
  split; [done..|]. intros b1 b2 E.
  change (String.string_of_list_byte b1 = String.string_of_list_byte b2) in E.
  apply (f_equal String.list_byte_of_string) in E. by rewrite !String.list_byte_of_string_of_list_byte in E.
Qed.

(** Two acknowledgements of packets that differ in their data only. *)
Definition acknowledged (d : bytes) : IbcEvent :=
  AcknowledgePacket (mkPacket 1 transfer (ChannelId_new 0) transfer remote_channel d
    (At (at_height 20)) Timestamp_none) Unordered (ConnectionId_new 0).
Definition no_event : AbciEvent := mkAbciEvent "" [].
Lemma abci_event_determines_witness :
  announced (acknowledged [Byte.x61]) = announced (acknowledged [Byte.x62])
  ∧ abci_kind (value_of no_event (IbcEvent_try_into (acknowledged [Byte.x61])))
    = ACK_PACKET_EVENT.
Proof.
  apply (abci_event_determines (acknowledged [Byte.x61]) (acknowledged [Byte.x62])
    (value_of no_event (IbcEvent_try_into (acknowledged [Byte.x61])))).
  - split; [|done]. by split_and!.
  - split; [|done]. by split_and!.
  - apply has_value. vm_compute. reflexivity.
  - rewrite <- (has_value no_event); [reflexivity|]. vm_compute. reflexivity.
Defined.
