(* ===== verification/TestQuery.v ===== *)
(** * Queries of the concrete chain

    A host that lists its store and proves every path, the client that a
    counterparty would keep of it, and the theorems on queries applied to the stores
    of [TestChain]. *)

From S2P Require Import Prelude RustStr Identifiers Primitives Path Connection Channel Context.
From S2P Require Import PacketHandlers PacketSpec MockClient Query TestChain.
Local Open Scope string_scope.
Local Open Scope N_scope.

#[export] Instance test_provable : ProvableContext := {| get_proof _ _ _ := Some [Byte.x01] |}.
#[export] Instance test_any_states : AnyStates := {|
  client_state_any cs := MockClientState_into cs;
  consensus_state_any cs := MockConsensusState_into cs |}.

#[export] Instance test_host_bytes : HostBytes := {|
  receipt_bytes _ := [Byte.x01];
  client_connection_bytes c := as_bytes (connection_id_str c) |}.

Definition all_channels (s : IbcStore) : list IdentifiedChannelEnd :=
  '(p, m) ← map_to_list (channels s);
  (λ '(c, ch), mkIdentifiedChannelEnd p c ch) <$> map_to_list m.
Definition all_packets {V} (data : V → bytes) (m : gmap PortId (gmap ChannelId (gmap Sequence V)))
    (path : ChannelEndPath) : list PacketState :=
  (λ '(n, v), mkPacketState (cep_port_id path) (cep_channel_id path) n (data v))
    <$> map_to_list (default ∅ (pc_get m (cep_port_id path) (cep_channel_id path))).
Definition states_of (s : IbcStore) (id : ClientId) : list (Height * ConsensusState) :=
  match clients s !! id with Some rec => map_to_list (consensus_states rec) | None => [] end.

#[export] Instance test_query_context : QueryContext := {|
  list_client_states s := Ok (omap (λ '(id, rec), pair id <$> client_state_of rec)
    (map_to_list (clients s)));
  list_consensus_states s id := Ok (states_of s id);
  list_consensus_state_heights s id := Ok (states_of s id).*1;
  list_connection_ends s := Ok ((λ '(i, c), mkIdentifiedConnectionEnd i c)
    <$> map_to_list (connections s));
  list_client_connection_ends s id := Ok (option_list (client_connections s !! id));
  list_channel_ends s := Ok (all_channels s);
  list_packet_commitments s path := Ok (all_packets commitment_bytes (packet_commitment s) path);
  list_packet_acknowledgements s path _ :=
    Ok (all_packets ack_commitment_bytes (packet_acknowledgement s) path);
  list_unreceived_packets s path l := Ok (List.filter (λ n, bool_decide (eq None
    (pcs_get (packet_receipt s) (cep_port_id path) (cep_channel_id path) n))) l);
  list_unreceived_acks s path l := Ok (List.filter (λ n, bool_decide (is_Some
    (pcs_get (packet_commitment s) (cep_port_id path) (cep_channel_id path) n))) l) |}.
#[export] Instance test_query_laws : QueryLaws.
Proof.
  split.
  - intros s l [= <-] p c ch. unfold all_channels, pc_get. rewrite list_elem_of_bind. split.
    + intros ([q m] & Hin & Hm%elem_of_map_to_list).
      apply list_elem_of_fmap in Hin as ([c' ch'] & [= -> -> ->] & Hc%elem_of_map_to_list).
      by rewrite Hm.
    + intros (m & Hm & Hc)%bind_Some. exists (p, m). split.
      * apply list_elem_of_fmap. exists (c, ch). split; [done|]. by apply elem_of_map_to_list.
      * by apply elem_of_map_to_list.
  - intros s id l [= <-] h c. unfold states_of. destruct (clients s !! id) as [rec|].
    + rewrite elem_of_map_to_list. naive_solver.
    + split; [by intros ?%not_elem_of_nil|naive_solver].
Qed.
#[export] Instance test_query_text : QueryText := {|
  channel_end_path_debug _ := "a channel"; consensus_path_debug _ := "a consensus state";
  commitment_path_debug _ := "a commitment"; receipt_path_debug _ := "a receipt";
  ack_path_debug _ := "an acknowledgement"; client_id_debug := client_id_str;
  connection_id_debug := connection_id_str |}.

(** A client that accepts the proofs of the contents of one store. *)
Definition honest_client (s : IbcStore) : LightClient :=
  with_proofs (λ _ _ _ path value, accept_if (bool_decide (provable s path = Some value)))
              (λ _ _ _ path, accept_if (bool_decide (provable s path = None))).
Lemma honest_client_proofs s h cs prefix root :
  HonestProofs (lc:=honest_client s) s h cs prefix root.
Proof.
  split.
  - intros p π v _ Hv. cbn. rewrite Hv. by rewrite bool_decide_eq_true_2.
  - intros p π _ Hv. cbn. rewrite Hv. by rewrite bool_decide_eq_true_2.
Qed.

(** ** Theorems *)

Definition test_root : CommitmentRoot := mkCommitmentRoot [Byte.x01].

(** The second packet of the unordered channel is neither acknowledged nor timed out. *)
Definition commitment_request : PacketRequest := mkPacketRequest "transfer" "channel-0" 2.
Definition commitment_response : outcome QueryError (Proved bytes) :=
  query_packet_commitment st_end.1 commitment_request.
Definition no_response : Proved bytes := mkProved [] [] None.

Lemma query_responses_verify_witness :
  ∃ p c, verifies (lc:=honest_client st_end.1) (at_height 10) (client_state_at 5 500)
    remote_prefix test_root (value_of no_response commitment_response)
    (PathCommitment (mkCommitmentPath p c 2)) (proved (value_of no_response commitment_response)).
Proof.
  assert (commitment_response = Ok (value_of no_response commitment_response)) as E.
  { apply has_value. vm_compute. reflexivity. }
  pose proof (query_responses_verify (lc:=honest_client st_end.1) st_end.1 (at_height 10)
    (client_state_at 5 500) remote_prefix test_root eq_refl (honest_client_proofs _ _ _ _ _))
    as (_ & _ & _ & _ & _ & _ & _ & _ & _ & _ & _ & Hc & _).
  destruct (Hc commitment_request _ E) as (p & c & _ & _ & Hv). exists p, c. exact Hv.
Defined.

(** The fourteen queries answer on this chain. *)
Definition answers {A} (m : outcome QueryError A) : bool := is_ok m.
Example queries_answer :
  answers (query_client_state st_end.1 "9999-mock-0")
  && answers (query_consensus_state st_end.1 (mkConsensusStateRequest "9999-mock-0" 0 0 true))
  && answers (query_connection st_end.1 "connection-0")
  && answers (query_client_connections st_end.1 "9999-mock-0")
  && answers (query_connection_client_state st_end.1 "connection-0")
  && answers (query_connection_consensus_state st_end.1 (mkConnectionConsensusRequest "connection-0" 0 7))
  && answers (query_channel st_end.1 (mkChannelRequest "transfer" "channel-0"))
  && answers (query_channel_client_state st_end.1 (mkChannelRequest "transfer" "channel-0"))
  && answers (query_channel_consensus_state st_end.1 (mkChannelConsensusRequest "transfer" "channel-0" 0 7))
  && answers (query_next_sequence_send st_end.1 (mkChannelRequest "transfer" "channel-0"))
  && answers (query_next_sequence_receive st_end.1 (mkChannelRequest "transfer" "channel-0"))
  && answers (query_packet_commitment st_end.1 commitment_request)
  && answers (query_packet_acknowledgement st_end.1 (mkPacketRequest "transfer" "channel-0" 4))
  && answers (query_packet_receipt st_end.1 (mkPacketRequest "transfer" "channel-0" 4)) = true.
Proof. vm_compute. reflexivity. Qed.




Definition latest_request : ConsensusStateRequest := mkConsensusStateRequest "9999-mock-0" 0 0 true.
Definition latest_response : outcome QueryError (Proved (option Any)) :=
  query_consensus_state st_end.1 latest_request.
Lemma query_latest_consensus_state_witness :
  ∃ id h rec c any, clients st_end.1 !! id = Some rec ∧ consensus_states rec !! h = Some c
    ∧ consensus_state_any c = Ok any ∧ proved (value_of (mkProved None [] None) latest_response) = Some any
    ∧ ∀ h', is_Some (consensus_states rec !! h') → ¬ height_lt h h'.
Proof.
  destruct (query_latest_consensus_state st_end.1 latest_request
    (value_of (mkProved None [] None) latest_response))
    as (id & h & rec & c & any & _ & Hrec & Hc & Ha & Hp & _ & Hmax).
  - apply has_value. vm_compute. reflexivity.
  - exists id, h, rec, c, any. split; [exact Hrec|]. split; [exact Hc|]. split; [exact Ha|].
    split; [exact Hp|exact Hmax].
Defined.
