(* ===== verification/TestNft.v ===== *)
(** * A concrete host of non-fungible tokens

    Instances of the interfaces of the non-fungible token application: URIs, base64
    and JSON, and a host that keeps the holder and the metadata of every token; and
    the theorems on transfers applied on the chain of [TestChain] with this host. *)

From S2P Require Import Prelude RustStr Identifiers Primitives Path Connection Channel Context.
From S2P Require Import ConnHandlers Module ChanHandlers PacketHandlers PacketSpec.
From S2P Require Import ClientHandlers MockClient Entrypoint Chain PacketSafety.
From S2P Require Import AckStatus Denom TestChain TestTransfer.
From S2P Require Import NftTypes NftTransfer NftSafety NftSystem.
Local Open Scope string_scope.
Local Open Scope N_scope.

(** ** Library functions *)

(** Any text without a space is a URI. *)
#[export] Instance test_uri : HttpUri := {|
  Uri := { s : string | contains " "%char s = false };
  InvalidUri := ();
  uri_eq_dec := _;
  uri_from_str s := match Bool.bool_dec (contains " "%char s) false with
                    | left H => Ok (exist _ s H)
                    | right _ => Err tt
                    end;
  uri_to_string u := proj1_sig u;
  invalid_uri_to_string _ := "invalid character" |}.
#[export] Instance test_uri_laws : HttpUriLaws.
Proof.
  split; cbn.
  - intros [s Hs]. cbn. destruct (Bool.bool_dec _ _) as [H'|H']; [|done]. f_equal.
    by apply (sig_eq_pi _).
  - intros s. by destruct (Bool.bool_dec _ _).
Qed.

#[export] Instance test_base64 : Base64 := {|
  base64_encode b := String.string_of_list_byte b;
  base64_decode s := Some (String.list_byte_of_string s) |}.
#[export] Instance test_base64_laws : Base64Laws.
Proof.
  split. intros b. change (Some (String.list_byte_of_string (String.string_of_list_byte b)) = Some b).
  f_equal. apply String.list_byte_of_string_of_list_byte.
Qed.

#[export] Instance JsonPacketData_eq_dec : EqDecision JsonPacketData.
Proof. solve_decision. Defined.
#[export] Instance JsonPacketData_countable : Countable JsonPacketData.
Proof.
  countable_record (λ j, (j_class_id j, j_class_uri j, j_class_data j, j_token_ids j,
      j_token_uris j, j_token_data j, j_sender j, j_receiver j, j_memo j))
    (λ '(a, b, c, d, e, f, g, h, i), mkJsonPacketData a b c d e f g h i).
Defined.
#[export] Instance test_nft_json : NftJson := {|
  json_packet_data_to_vec := to_bytes;
  json_packet_data_from_slice := from_bytes |}.
#[export] Instance test_nft_json_laws : NftJsonLaws.
Proof. split; [exact test_ack_json_laws|exact from_to_bytes]. Qed.

(** ** The host *)

#[export] Instance Holder_eq_dec : EqDecision (Holder string).
Proof. solve_decision. Defined.

Record TestNft := mkTestNft { tn_uri : option TokenUri; tn_data : option TokenData }.
Record TestTokens := mkTestTokens {
  tt_holder : PrefixedClassId → TokenId → option (Holder string);
  tt_nft : PrefixedClassId → TokenId → TestNft;
  (** the token that is not accepted *)
  tt_refused : option TokenId }.

Definition move (cls : PrefixedClassId) (k : TokenId) (from to : option (Holder string)) :
    exec TestTokens NftTransferError () := λ t,
  if bool_decide (tt_holder t cls k = from)
  then (mkTestTokens (λ c i, if decide (c = cls ∧ i ∈ [k]) then to else tt_holder t c i)
          (tt_nft t) (tt_refused t), Ok tt)
  else (t, Err OwnerNotFound).
Definition set_nft (cls : PrefixedClassId) (k : TokenId) (nft : TestNft) :
    exec TestTokens NftTransferError () := λ t,
  (mkTestTokens (tt_holder t) (λ c i, if decide (c = cls ∧ i = k) then nft else tt_nft t c i)
     (tt_refused t), Ok tt).
Definition check_holder (t : TestTokens) (cls : PrefixedClassId) (k : TokenId)
    (h : option (Holder string)) : outcome NftTransferError () :=
  if bool_decide (tt_holder t cls k = h) then Ok tt else Err OwnerNotFound.

#[export] Instance test_tokens : NftTransferContext TestTokens := {|
  AccountId := string;
  account_try_from signer := if (signer =? "")%string then None else Some signer;
  Nft := TestNft;
  nft_class_id _ := mkClassId ""; nft_id _ := mkTokenId "";
  nft_uri := tn_uri;
  nft_data nft := match tn_data nft with
    | Some d => if valid_utf8 (data_str (token_data_value d)) then Some d else None
    | None => None
    end;
  NftClass := ();
  nft_class_get_id _ := mkClassId ""; nft_class_uri _ := None; nft_class_data _ := None;
  get_port _ := Ok transfer;
  can_send_nft _ := Ok tt;
  can_receive_nft _ := Ok tt;
  create_or_update_class_validate _ _ _ _ := Ok tt;
  escrow_nft_validate t a p c cls k _ := check_holder t cls k (Some (Owned a));
  unescrow_nft_validate t a p c cls k := check_holder t cls k (Some (InEscrow p c));
  mint_nft_validate t a cls k _ _ :=
    if bool_decide (tt_refused t = Some k) then Err (NftOther "refused") else Ok tt;
  burn_nft_validate t a cls k _ := check_holder t cls k (Some (Owned a));
  token_hash_string _ _ _ := None;
  get_nft t cls k := match tt_holder t cls k with
                     | Some _ => Ok (tt_nft t cls k)
                     | None => Err NftNotFound
                     end;
  get_nft_class _ _ := Ok tt;
  create_or_update_class_execute _ _ _ := mret tt;
  escrow_nft_execute a p c cls k _ := move cls k (Some (Owned a)) (Some (InEscrow p c));
  unescrow_nft_execute a p c cls k := move cls k (Some (InEscrow p c)) (Some (Owned a));
  mint_nft_execute a cls k uri data :=
    move cls k None (Some (Owned a));; set_nft cls k (mkTestNft uri data);
  burn_nft_execute a cls k _ := move cls k (Some (Owned a)) None |}.
#[export] Instance test_ledger : NftLedger TestTokens := {| holder t cls k := tt_holder t cls k |}.

Lemma move_Ok cls k from to t t' u :
  move cls k from to t = (t', Ok u) →
  relocated t t' cls [k] to ∧ tt_holder t cls k = from ∧ tt_nft t' = tt_nft t.
Proof. unfold move. case_bool_decide; [|done]. by intros [= <- _]. Qed.
Lemma move_Err cls k from to t t' e : move cls k from to t = (t', Err e) → same_tokens t t'.
Proof. unfold move. case_bool_decide; [done|]. by intros [= <- _]. Qed.
Lemma check_holder_Ok t cls k h u : check_holder t cls k h = Ok u → holder t cls k = h.
Proof. unfold check_holder. by case_bool_decide. Qed.

#[export] Instance test_nft_laws : NftLaws TestTokens.
Proof.
  split; intros *.
  - apply check_holder_Ok.
  - apply check_holder_Ok.
  - apply check_holder_Ok.
  - by intros [? _]%move_Ok.
  - by intros [? _]%move_Ok.
  - cbn. intros (t1 & u1 & Hm & Hs)%exec_bind_Ok. apply move_Ok in Hm as [Hm _].
    injection Hs as <- _. exact Hm.
  - by intros [? _]%move_Ok.
  - cbn. by intros [= <- _].
  - apply move_Err.
  - cbn. intros [Hm|(t1 & u1 & _ & Hs)]%exec_bind_Err; [by eapply move_Err|done].
  - done.
  - cbn. destruct (tn_data nft) as [x|]; [|done].
    destruct (valid_utf8 _) eqn:E; [|done]. by intros [= <-].
  - done.
Qed.
#[export] Instance test_strict : StrictNfts TestTokens.
Proof. split. intros t cls k. cbn. by intros ->. Qed.

Lemma move_metadata cls k a to t t' u cls' k' nft' :
  move cls k (Some (Owned a)) to t = (t', Ok u) → get_nft t' cls' k' = Ok nft' →
  ∃ nft, get_nft t cls' k' = Ok nft ∧ nft_uri nft' = nft_uri nft ∧ nft_data nft' = nft_data nft.
Proof.
  intros (Hr & Hh & Hn)%move_Ok. specialize (Hr cls' k'). cbn in *. rewrite Hr, Hn.
  case_decide as Hx.
  - destruct Hx as [-> ->%list_elem_of_singleton]. rewrite Hh. destruct to; [|done].
    intros [= <-]. by eexists.
  - destruct (tt_holder t cls' k'); [|done]. intros [= <-]. by eexists.
Qed.
#[export] Instance test_stable : StableNfts TestTokens.
Proof. split; intros *; apply move_metadata. Qed.

(** ** A transfer of two tokens *)

Definition kitties : PrefixedClassId := PrefixedClassId_from_class (mkClassId "kitties").
Definition token_a : TokenId := mkTokenId "a".
Definition token_b : TokenId := mkTokenId "b".
Definition uri_of (s : string) : option TokenUri := ok (TokenUri_from_str s).
Definition pictures (_ : PrefixedClassId) (k : TokenId) : TestNft :=
  mkTestNft (uri_of ("https://kitties/" ++ token_id_str k)) (Some (mkTokenData (mkData "{}"))).

(** Alice has two tokens; the other chain has none, and may refuse the second. *)
Definition tokens_a : TestTokens :=
  mkTestTokens (λ c k, if bool_decide (c = kitties ∧ (k = token_a ∨ k = token_b))
                       then Some (Owned "alice") else None) pictures None.
Definition tokens_b (refused : option TokenId) : TestTokens :=
  mkTestTokens (λ _ _, None) (λ _ _, mkTestNft None None) refused.

Definition nft_msg : MsgTransfer :=
  mkMsgTransfer transfer (ChannelId_new 0)
    (mkPacketData kitties None None (mkTokenIds [token_a; token_b]) None None "alice" "bob" None)
    (At (at_height 20)) Timestamp_none.
Definition nft_ends (σ : side) : PortId * ChannelId :=
  match σ with SideA => (transfer, ChannelId_new 0) | SideB => (transfer, remote_channel) end.

Definition run_nft : (IbcStore * TestTokens) * outcome NftTransferError () :=
  send_nft_transfer nft_msg (st_open.1, tokens_a).
Lemma run_nft_ok : run_nft = ((run_nft.1.1, run_nft.1.2), Ok tt).
Proof. refine (executed2 run_nft _). vm_compute. reflexivity. Qed.

Definition sent : PacketData := value_of (packet_data nft_msg) (sent_data nft_msg tokens_a).
Lemma sent_ok : sent_data nft_msg tokens_a = Ok sent.
Proof. reflexivity. Qed.
Definition test_nft_packet : Packet := nft_packet nft_msg 1 (nft_ends SideB) sent.

Lemma kitties_wf : class_wf kitties.
Proof. split_and!; [constructor|by vm_compute|by vm_compute]. Qed.
Lemma sent_wf : data_wf sent.
Proof. split_and!; [exact kitties_wf|constructor|]. repeat constructor. Qed.
Lemma sent_json : packet_data_from_slice (data test_nft_packet) = Some sent.
Proof. apply nft_packet_data_json. exact sent_wf. Qed.

Notation run_nft_recv := (Ics721.on_recv_packet_execute test_nft_packet (tokens_b None)).
Definition received_b : TestTokens := run_nft_recv.1.
Definition recv_extras : ModuleExtras := (value_of no_answer run_nft_recv.2).1.
Lemma run_nft_recv_ok : run_nft_recv = (received_b, Ok (recv_extras, nft_success_ack)).
Proof.
  assert ((value_of no_answer run_nft_recv.2).2 = nft_success_ack) as <-
    by (vm_compute; reflexivity).
  refine (returned run_nft_recv no_answer _). vm_compute. reflexivity.
Qed.

Example nft_transfer_outcome :
  holder run_nft.1.2 kitties token_a = Some (InEscrow transfer (ChannelId_new 0))
  ∧ holder received_b (voucher nft_ends SideA kitties) token_b = Some (Owned "bob").
Proof. split; reflexivity. Qed.

(** ** Witnesses *)

Lemma nft_refund_undoes_transfer_witness :
  ∃ seq remote sender d, same_transfer (packet_data nft_msg) d
    ∧ get_packet_commitment run_nft.1.1 (commitment_path_on_a (nft_packet nft_msg seq remote d))
      = packet_commitment_of (nft_packet nft_msg seq remote d)
    ∧ relocated tokens_a run_nft.1.2 kitties [token_a; token_b]
        (sent_to (T:=TestTokens) transfer (ChannelId_new 0) kitties)
    ∧ holder tokens_a kitties token_b = Some (Owned sender).
Proof.
  destruct (nft_refund_undoes_transfer nft_msg st_open.1 tokens_a run_nft.1.1 run_nft.1.2)
    as (seq & remote & sender & d & _ & Hc & _ & Hs & Ho & Hr & _).
  - exact run_nft_ok.
  - exact kitties_wf.
  - exists seq, remote, sender, d. split_and!; [exact Hs|exact Hc|exact Hr|].
    apply Ho. right. left.
Defined.

Lemma nft_metadata_aligned_witness :
  ∃ d nft, sent_data nft_msg tokens_a = Ok d ∧ get_nft tokens_a kitties token_b = Ok nft
    ∧ get_nth (pd_token_uris d) 1 = fst <$> metadata nft
    ∧ ((∀ k, k ∈ [token_a; token_b] → ∃ m, has_metadata tokens_a kitties k (Some m))
       ∨ ∀ k, k ∈ [token_a; token_b] → has_metadata tokens_a kitties k None).
Proof.
  destruct (nft_metadata_aligned nft_msg st_open.1 tokens_a run_nft.1.1 run_nft.1.2)
    as (d & Hd & Hm & Hall); [exact run_nft_ok|].
  destruct (Hm 1%nat token_b) as (nft & Hn & Hu & _); [reflexivity|].
  exists d, nft. split_and!; [exact Hd|exact Hn|exact Hu|exact Hall].
Defined.

Lemma nft_received_spec_witness :
  (∃ receiver, account_try_from (pd_receiver sent) = Some receiver
     ∧ relocated (tokens_b None) received_b (received_class test_nft_packet kitties)
         [token_a; token_b] (Some (Owned receiver)))
  ∨ ∃ err, nft_success_ack = nft_error_ack err.
Proof.
  pose proof (nft_received_spec test_nft_packet (tokens_b None) received_b recv_extras
    nft_success_ack run_nft_recv_ok) as H. rewrite sent_json in H.
  destruct H as [(_ & a & Hp & Hr & _)|(err & Ha & _)].
  - left. exists a. split; [exact Hp|exact Hr].
  - right. exists err. exact Ha.
Defined.

(** The second token is refused after the first was minted. *)
Definition refused : NftTransferError := NftOther "refused".
Definition run_partial : TestTokens * outcome (ModuleExtras * NftTransferError) ModuleExtras :=
  process_recv_packet_execute test_nft_packet sent (tokens_b (Some token_b)).
Definition run_refund : TestTokens * outcome Empty_set (ModuleExtras * outcome NftTransferError ()) :=
  Ics721.on_acknowledgement_packet_execute test_nft_packet (nft_error_ack refused) "relayer"
    run_nft.1.2.
Definition refund_extras : ModuleExtras :=
  match run_refund.2 with Ok (ex, _) => ex | _ => ModuleExtras_empty end.

Lemma partial_receive_duplicates_witness :
  ∃ sender receiver,
    holder run_refund.1 kitties token_a = Some (Owned sender)
    ∧ holder run_partial.1 (voucher nft_ends SideA kitties) token_a = Some (Owned receiver).
Proof.
  destruct (partial_receive_duplicates test_nft_packet sent (tokens_b (Some token_b)) run_partial.1
    run_nft.1.2 run_refund.1 (failure_of (ModuleExtras_empty, refused) run_partial).1 refused
    (AckError (mkStatusValue (NftTransferError_to_string refused))) "relayer" refund_extras token_a)
    as (sender & receiver & _ & _ & _ & _ & Ha & Hb).
  - exact sent_json.
  - reflexivity.
  - discriminate.
  - reflexivity.
  - reflexivity.
  - exists sender, receiver. split; [exact Ha|exact Hb].
Defined.

(** *** Vouchers *)

Definition kitty_vouchers : PrefixedClassId :=
  add_trace_prefix kitties (mkTracePrefix transfer (ChannelId_new 0)).
Definition voucher_msg : MsgTransfer :=
  mkMsgTransfer transfer (ChannelId_new 0)
    (mkPacketData kitty_vouchers None None (mkTokenIds [token_a]) None None "alice" "bob" None)
    (At (at_height 20)) Timestamp_none.
Definition tokens_v : TestTokens :=
  mkTestTokens (λ c k, if bool_decide (c = kitty_vouchers ∧ k = token_a)
                       then Some (Owned "alice") else None) pictures None.
Definition run_burn : TestTokens * outcome NftTransferError () :=
  burn_nft_execute "alice" kitty_vouchers token_a (mkMemo "") tokens_v.
Definition alice_account : @AccountId nanos_time test_uri TestTokens test_tokens := "alice".

(** Validation accepts the transfer, execution burns the token and fails. *)
Example voucher_transfer_validates :
  is_ok (send_nft_transfer_validate st_open.1 tokens_v voucher_msg) = true.
Proof. vm_compute. reflexivity. Qed.

Lemma voucher_transfer_fails_witness :
  send_nft_transfer_execute voucher_msg (st_open.1, tokens_v)
    = ((st_open.1, run_burn.1), Err NftNotFound)
  ∧ holder run_burn.1 kitty_vouchers token_a = None.
Proof.
  destruct (pc_get (channels st_open.1) transfer (ChannelId_new 0)) as [c|] eqn:Ec;
    [|vm_compute in Ec; discriminate Ec].
  apply (voucher_transfer_fails voucher_msg st_open.1 tokens_v run_burn.1 c remote_channel 1
    alice_account token_a []).
  - split; [exact Ec| |vm_compute; reflexivity|reflexivity].
    vm_compute in Ec. injection Ec as <-. reflexivity.
  - vm_compute. reflexivity.
  - reflexivity.
  - reflexivity.
Defined.

(** *** The two chains and the channel *)

Definition nft_system_0 : System :=
  mkSystem (λ σ, match σ with SideA => tokens_a | SideB => tokens_b None end) [].
Definition nft_system_1 : System :=
  set_tokens SideA run_nft.1.2 (set_flights [mkFlight SideA test_nft_packet None] nft_system_0).
Definition nft_system_2 : System :=
  set_tokens SideB received_b (set_flights
    [mkFlight SideA test_nft_packet (Some nft_success_ack)] nft_system_1).

Lemma nft_system_0_initial : initial nft_ends nft_system_0.
Proof.
  split; [done|]. intros σ. split.
  - intros d k. destruct σ; [|done]. unfold in_escrow. cbn. by case_bool_decide.
  - intros d k. destruct σ; [|done]. unfold exists_token. cbn. case_bool_decide as Hd; [|done].
    destruct Hd as [-> _]. by vm_compute.
Qed.

Lemma nft_ids_wf : TokenIds_wf (mkTokenIds [token_a; token_b]).
Proof.
  split_and!; [done| | |].
  - repeat constructor; by vm_compute.
  - repeat constructor; [by intros ?%list_elem_of_singleton|by intros ?%not_elem_of_nil].
  - repeat constructor.
Qed.

Lemma nft_step_1 : step nft_ends nft_system_0 nft_system_1.
Proof.
  destruct (pc_get (channels st_open.1) transfer (ChannelId_new 0)) as [c|] eqn:Ec.
  - eapply (step_send nft_ends test_host SideA nft_msg st_open.1 run_nft.1.1 run_nft.1.2 c 1 sent).
    + reflexivity.
    + exact Ec.
    + vm_compute in Ec. injection Ec as <-. reflexivity.
    + vm_compute. reflexivity.
    + exact kitties_wf.
    + exact nft_ids_wf.
    + exact sent_ok.
    + exact run_nft_ok.
  - vm_compute in Ec. discriminate Ec.
Qed.
Lemma nft_step_2 : step nft_ends nft_system_1 nft_system_2.
Proof.
  apply (step_recv nft_ends nft_system_1 [] SideA test_nft_packet [] received_b recv_extras).
  - reflexivity.
  - assert (tokens_of nft_system_1 (other SideA) = tokens_b None) as -> by reflexivity.
    exact run_nft_recv_ok.
Qed.

Lemma nft_system_1_reachable d k : reachable nft_ends SideA d k nft_system_1.
Proof.
  exists nft_system_0. split; [exact nft_system_0_initial|]. eapply rtc_l; [|apply rtc_refl].
  split; [exact nft_step_1|]. right. constructor.
Qed.

Lemma nft_system_2_reachable d k : reachable nft_ends SideA d k nft_system_2.
Proof.
  destruct (nft_system_1_reachable d k) as (S0 & Hi & Hr). exists S0. split; [exact Hi|].
  eapply rtc_r; [exact Hr|]. split; [exact nft_step_2|]. left.
  intros [|f l1] τ packet ack l2 Hf Hf'.
  - injection Hf' as _ _ <- _. by intros [].
  - exfalso. apply (f_equal length) in Hf. cbn in Hf. rewrite length_app in Hf. cbn in Hf. lia.
Qed.

Lemma nft_in_one_place_witness :
  in_escrow nft_ends SideA (tokens_of nft_system_2 SideA) kitties token_a = true
  ∧ exists_token (tokens_of nft_system_2 SideB) (voucher nft_ends SideA kitties) token_a = true
  ∧ total_pending nft_ends SideA kitties token_a (flights nft_system_2) = 0%nat.
Proof.
  destruct (nft_in_one_place nft_ends SideA kitties token_a eq_refl nft_system_2)
    as [(H & _)|[H|(_ & H & _)]].
  - exact (nft_system_2_reachable kitties token_a).
  - vm_compute in H. discriminate H.
  - exact H.
  - vm_compute in H. discriminate H.
Defined.

(** A receive that fails after the first of two tokens was minted spares the second token,
    which stays in one place; the first is in escrow, has a voucher and is under way. *)
Definition nft_system_b : System :=
  mkSystem (λ σ, match σ with SideA => tokens_a | SideB => tokens_b (Some token_b) end) [].
Definition nft_system_3 : System :=
  set_tokens SideA run_nft.1.2 (set_flights [mkFlight SideA test_nft_packet None] nft_system_b).
Definition nft_system_4 : System :=
  set_tokens SideB run_partial.1 (set_flights
    [mkFlight SideA test_nft_packet (Some (nft_error_ack refused))] nft_system_3).
Example partial_receive_spares :
  spared nft_ends SideA kitties token_b nft_system_3 nft_system_4
  ∧ ¬ spared nft_ends SideA kitties token_a nft_system_3 nft_system_4.
Proof.
  split.
  - intros [|f l1] τ packet ack l2 Hf Hf'.
    + injection Hf as <- _ _. reflexivity.
    + exfalso. apply (f_equal length) in Hf. cbn in Hf. rewrite length_app in Hf. cbn in Hf. lia.
  - intros Hs. specialize (Hs [] SideA test_nft_packet (nft_error_ack refused) [] eq_refl eq_refl
      (nft_error_ack_ne refused)). discriminate Hs.
Qed.

Lemma nft_returns_covered_witness :
  in_escrow nft_ends SideA (tokens_of nft_system_1 SideA) kitties token_b = true.
Proof.
  refine (proj1 (nft_returns_covered nft_ends SideA kitties token_b eq_refl nft_system_1 []
    (mkFlight SideA test_nft_packet None) [] sent _ _ _ _ _ _)).
  - exact (nft_system_1_reachable kitties token_b).
  - reflexivity.
  - exact sent_json.
  - discriminate.
  - reflexivity.
  - right. left.
Defined.

(** *** Data *)

(** Lengths in unary. *)
Fixpoint read_unary (b : bytes) : option (nat * bytes) :=
  match b with
  | [] => None
  | Byte.x01 :: b => '(n, rest) ← read_unary b; Some (S n, rest)
  | _ :: b => Some (O, b)
  end.
#[export] Instance test_string_codec : StringCodec := {|
  CodecError := ();
  other_error := tt;
  write_string s := (repeat Byte.x01 (String.length s) ++ Byte.x00 :: as_bytes s)%list;
  read_string b :=
    '(n, rest) ← ok_or (read_unary b) tt;
    Ok (String.string_of_list_byte (take n rest), drop n rest) |}.
Lemma read_unary_repeat n b : read_unary (repeat Byte.x01 n ++ Byte.x00 :: b) = Some (n, b).
Proof. induction n as [|n IH]; [done|]. cbn. by rewrite IH. Qed.
Lemma length_as_bytes s : length (as_bytes s) = String.length s.
Proof. unfold as_bytes. induction s as [|a s IH]; [done|]. cbn. by rewrite <- IH. Qed.
#[export] Instance test_string_codec_laws : StringCodecLaws.
Proof.
  split. intros s rest. cbn [read_string write_string test_string_codec].
  rewrite <- app_assoc. cbn [app]. rewrite read_unary_repeat. mstep.
  rewrite take_app_length', drop_app_length' by (by rewrite length_as_bytes).
  unfold as_bytes. by rewrite String.string_of_list_byte_of_string.
Qed.

#[export] Instance test_mime : MimeLib := {|
  Mime := bool;
  mime_from_str s := if (s =? "text/plain")%string then Some true
                     else if (s =? "image/png")%string then Some false else None;
  mime_to_string m := if m then "text/plain" else "image/png" |}.
#[export] Instance test_mime_laws : MimeLaws.
Proof. by split; intros []. Qed.

Definition kitty_uri : Uri :=
  exist (λ s, contains " "%char s = false) "https://kitties" eq_refl.
Lemma nft_encodings_roundtrip_witness :
  Data_deserialize (Data_serialize (mkData "{}")) = Some (mkData "{}").
Proof.
  apply (nft_encodings_roundtrip (mkClassUri kitty_uri) (mkTokenUri kitty_uri)
    (mkDataValue "v" None) (mkData "{}") []). reflexivity.
Defined.

Lemma nft_msg_raw_roundtrip_witness :
  ∃ r, RawMsgTransfer_from (E:=NftTransferError) nft_msg = Ok r ∧ MsgTransfer_try_from r = Ok nft_msg.
Proof.
  apply (nft_msg_raw_roundtrip nft_msg).
  split; [vm_compute; reflexivity|]. split; [vm_compute; reflexivity|].
  split; [exact kitties_wf|]. split; [exact nft_ids_wf|]. do 4 (split; [reflexivity|]).
  split; [discriminate|].
  split; [split; [|split]; vm_compute; [reflexivity|reflexivity|discriminate]|].
  split; [exact I|]. left. reflexivity.
Defined.

Lemma packet_data_not_validated_witness :
  ∃ d, token_id_list (pd_token_ids d) = [] ∧ PacketData_validate_basic d = Err NoTokenId.
Proof.
  destruct (packet_data_not_validated (PacketData_serialize sent) sent []) as (d & _ & Hd & Hv).
  - reflexivity.
  - exists d. split; [exact Hd|]. by apply Hv.
Defined.

Lemma vouchers_never_sent_witness s' t' :
  send_nft_transfer voucher_msg (st_open.1, tokens_v) ≠ ((s', t'), Ok tt).
Proof.
  apply (vouchers_never_sent voucher_msg st_open.1 tokens_v s' t' token_a []).
  - vm_compute. reflexivity.
  - reflexivity.
Qed.
