(* ===== verification/TestAny.v ===== *)
(** * A concrete chain with clients of two kinds

    A Tendermint client and a mock client created on one chain, with the instances
    of [TestChain] and [TestTendermint], and the theorems of [AnyClient] and
    [Testkit] applied to them. *)

From S2P Require Import Prelude RustStr Identifiers Primitives Path Connection Channel Context Merkle.
From S2P Require Import ConnHandlers Module ChanHandlers PacketHandlers ClientHandlers MockClient.
From S2P Require Import TmTypes TmClient TmSafety Entrypoint Chain AnyClient Testkit TestChain TestTendermint.
Local Open Scope string_scope.
Local Open Scope N_scope.

#[local] Existing Instance any_types | 0.
#[local] Existing Instance any_client | 0.

#[export] Instance test_mock_codec_laws : MockCodecLaws.
Proof. split; intros r; cbn; unfold decode_or_fail; by rewrite from_to_bytes. Qed.

Definition any_test_host : Host := {|
  host_height := Ok (at_height 10);
  host_timestamp := Ok (seconds 115);
  host_consensus_state :=
    (λ _, Ok (MockConsensusState_new (header_at 9 100))) : _ → outcome _ HostConsensusState;
  host_consensus_state_encode_vec := (λ c, mock_consensus_state_encode_vec c) : HostConsensusState → _;
  host_client_state_try_from := MockClientState_try_from : _ → outcome _ HostClientState;
  validate_self_client _ := Ok tt;
  commitment_prefix := remote_prefix;
  max_expected_time_per_block := Duration_from_secs 3;
  validate_message_signer _ := Ok tt |}.
#[local] Existing Instance any_test_host | 0.

Definition any_msg_tm : MsgCreateClient :=
  mkMsgCreateClient (TmClientState_into_any tm_current)
    (TmConsensusState_into_any (tm_cons 110 [Byte.x01])) "signer".
Notation any_start := (genesis (App:=()) test_router).
Notation any_chain_1 := (dispatch (EnvClient (ClCreateClient any_msg_tm)) any_start).1.
Notation any_chain_2 := (dispatch (EnvClient (ClCreateClient msg_create)) any_chain_1).1.

Lemma any_chain_ran : chain_run any_start [] any_chain_2.
Proof.
  apply (run_step _ [] any_chain_1 [] any_chain_2).
  - apply (run_step _ [] any_start [] any_chain_1); [constructor|].
    exists any_test_host. apply (step_dispatch any_test_host (EnvClient (ClCreateClient any_msg_tm))).
    rewrite (surjective_pairing (dispatch _ _)) at 1. f_equal.
  - rewrite (surjective_pairing any_chain_1) at 1.
    exists any_test_host. apply (step_dispatch any_test_host (EnvClient (ClCreateClient msg_create))).
    rewrite <- (surjective_pairing any_chain_1).
    rewrite (surjective_pairing (dispatch _ _)) at 1. f_equal.
Qed.

Lemma client_kinds_never_mix_witness :
  (∃ tc, ConsensusStateType_try_from (ConsTendermint (tm_cons 110 [Byte.x01])) = Ok tc)
  ∧ ∃ n, mkClientId "9999-mock-1" = ClientType_build_client_id mock_client_type n.
Proof.
  split.
  - apply (client_kinds_never_mix test_router [] any_chain_2 tm_id (CsTendermint tm_current)
      (at_height 8) (ConsTendermint (tm_cons 110 [Byte.x01])) any_chain_ran); reflexivity.
  - apply (client_kinds_never_mix test_router [] any_chain_2 (mkClientId "9999-mock-1")
      (CsMock (client_state_at 5 500)) (at_height 5)
      (ConsMock (MockConsensusState_new (header_at 5 500))) any_chain_ran); reflexivity.
Defined.

Lemma any_states_roundtrip_witness :
  ∃ a a', AnyClientState_try_from a = Ok (CsMock (client_state_at 5 500))
    ∧ AnyConsensusState_try_from a' = Ok (ConsTendermint (tm_cons 110 [])).
Proof.
  eexists _, _. apply (any_states_roundtrip (E:=string) (CsMock (client_state_at 5 500))
    (ConsTendermint (tm_cons 110 []))); [split; vm_compute; done|exact I|reflexivity|reflexivity].
Defined.

(** ** A session with the testkit *)

#[export] Instance test_testgen : TmTestgen := {|
  TestgenValidator := string;
  testgen_validator id _ := id;
  testgen_light_block _ h c _ t _ := Some (mkTmLightBlock
    (mkTestHeader c h t vals vals [Byte.x07] [Byte.x42] : SignedHeader)
    (vals : ValidatorSet) (vals : ValidatorSet));
  cosmos_specs := test_specs |}.
#[export] Instance test_testgen_laws : TmTestgenLaws.
Proof. split. intros vs h c nvs t own lb [= <-]. done. Qed.

Definition kit_config (ty : Testkit.HostType) : Testkit.MockContextConfig :=
  Testkit.mkMockContextConfig ty (mkChainId "mockgaia-0" 0) (Duration_from_secs 3) 5 None
    (at_height 7) (seconds 1000).

Lemma context_built_valid_witness :
  ∃ c, Testkit.validate c = Ok tt
    ∧ Testkit.latest_height (E:=string) c = Ok (at_height 7).
Proof.
  eexists. edestruct (Testkit.context_built_valid (kit_config Testkit.HtSyntheticTendermint))
    as (Hv & Hl & _); [..|split; [exact Hv|exact Hl]].
  - vm_compute. reflexivity.
  - done.
  - reflexivity.
Defined.

Definition kit_context : Testkit.MockContext :=
  Testkit.mkMockContext Testkit.HtMock (mkChainId "mockgaia-0" 0) 5
    [Testkit.HbMock (header_at 3 988); Testkit.HbMock (header_at 4 991);
     Testkit.HbMock (header_at 5 994); Testkit.HbMock (header_at 6 997);
     Testkit.HbMock (header_at 7 1000)] (Duration_from_secs 3) empty_store.
Notation kit_msgs :=
  [EnvClient (ClCreateClient any_msg_tm); EnvClient (ClCreateClient msg_create)].
Notation kit_session := (for_each Testkit.deliver kit_msgs (kit_context, test_router)).

Lemma kit_ran : kit_session = ((kit_session.1.1, kit_session.1.2), Ok tt).
Proof.
  rewrite (surjective_pairing kit_session) at 1. rewrite (surjective_pairing kit_session.1) at 1.
  f_equal.
Qed.

Lemma deliveries_are_a_run_witness :
  Testkit.latest_height (E:=string) kit_session.1.1 = Ok (at_height 9)
  ∧ Testkit.validate kit_session.1.1 = Ok tt.
Proof.
  destruct (Testkit.deliveries_are_a_run (App:=()) (kit_config Testkit.HtMock) kit_context test_router
    kit_msgs kit_session.1.1 kit_session.1.2) as (_ & Hv & Hl);
    [vm_compute; reflexivity|done|reflexivity|exact kit_ran|split; [exact Hl|exact Hv]].
Defined.
