(* ===== verification/TestWasm.v ===== *)
(** * Concrete CosmWasm states

    An encoding of the structs of [Wasm] that computes, and the theorems of that
    file applied to concrete states and messages. *)

From S2P Require Import Prelude RustStr Identifiers Primitives Path Connection Channel Context.
From S2P Require Import Messages Wasm TestChain TestMessages TestNft.
Local Open Scope string_scope.
Local Open Scope N_scope.

#[export] Instance RawWasmClientState_eq_dec : EqDecision RawWasmClientState.
Proof. solve_decision. Defined.
#[export] Instance RawWasmClientState_countable : Countable RawWasmClientState.
Proof.
  countable_record (λ c, (rw_data c, rw_checksum c, rw_latest_height c))
    (λ '(a, b, c), mkRawWasmClientState a b c).
Defined.
#[export] Instance RawWasmConsensusState_eq_dec : EqDecision RawWasmConsensusState.
Proof. solve_decision. Defined.
#[export] Instance RawWasmConsensusState_countable : Countable RawWasmConsensusState.
Proof. countable_record rwc_data mkRawWasmConsensusState. Defined.

#[export] Instance test_wasm_codec : WasmCodec := {|
  prost_wasm_client_state := {| prost_decode := decode_or_fail; prost_encode := to_bytes |};
  prost_wasm_consensus_state := {| prost_decode := decode_or_fail; prost_encode := to_bytes |} |}.
#[export] Instance test_wasm_codec_laws : WasmCodecLaws.
Proof. split; split; intros r; cbn; unfold decode_or_fail; by rewrite from_to_bytes. Qed.
#[export] Instance test_wasm_text : WasmText := {|
  wasm_conversion_text _ := "conversion error";
  wasm_client_conversion_text _ := "conversion error" |}.

Definition wasm_state : WasmClientState :=
  mkWasmClientState (as_bytes "data") (as_bytes "checksum") (at_height 1).
Definition wasm_migrate : MsgMigrateContract :=
  mkMsgMigrateContract "signer" (mkClientId "08-wasm-2") (as_bytes "checksum") (as_bytes "msg").

Lemma wasm_roundtrip_witness :
  WasmClientState_try_from (WasmClientState_into wasm_state) = Ok wasm_state
  ∧ MsgMigrateContract_try_from (RawMsgMigrateContract_from wasm_migrate) = Ok wasm_migrate.
Proof.
  destruct (wasm_roundtrip wasm_state (mkWasmConsensusState []) (mkWasmClientMessage [])
    (mkMsgStoreCode "signer" []) wasm_migrate (mkMsgRemoveChecksum "signer" []) [])
    as (Hc & _ & _ & _ & Hm & _); [done|vm_compute; reflexivity|by split].
Defined.
