(* ===== verification/TestCosmos.v ===== *)
(** * A concrete Cosmos host

    An upgrade module in memory and the configuration of the chain that the client
    of [TestTendermint] follows, with the theorems of [Cosmos] applied to them. *)

From S2P Require Import Prelude RustStr Identifiers Primitives Path Connection Channel Context Merkle.
From S2P Require Import Events Query TmTypes Cosmos TestChain TestTendermint TestMessages.
Local Open Scope string_scope.
Local Open Scope N_scope.

#[export] Instance UpgradeClientPath_eq_dec : EqDecision UpgradeClientPath.
Proof. solve_decision. Defined.

(** The scheduled plan and the stored client states. *)
Record UpgradeStore := mkUpgradeStore {
  us_plan : option Plan; us_states : UpgradeClientPath → option TmClientState }.
Definition us_clear (h : N) (states : UpgradeClientPath → option TmClientState) :
    UpgradeClientPath → option TmClientState :=
  λ q, if decide (q = UpgradedClientState h) then None else states q.

#[export] Instance test_upgrade : UpgradeContext UpgradeStore := {|
  upgrade_plan u := ok_or (us_plan u) (UpgradeOther "no plan");
  upgraded_client_state u q := ok_or (us_states u q) (UpgradeOther "no client state");
  upgraded_consensus_state _ _ := Err (UpgradeOther "no consensus state");
  schedule_upgrade p := modify (λ u, mkUpgradeStore (Some p) (us_states u));
  clear_upgrade_plan h := modify (λ u, mkUpgradeStore None (us_clear h (us_states u)));
  store_upgraded_client_state q cs := modify (λ u, mkUpgradeStore (us_plan u)
    (λ q', if decide (q' = q) then Some cs else us_states u q'));
  store_upgraded_consensus_state _ _ := modify id |}.
#[export] Instance test_upgrade_laws : UpgradeLaws.
Proof.
  split.
  - intros p u u' [= <-]. done.
  - intros q cs u u' [= <-]. cbn. by rewrite decide_True.
Qed.

(** The chain [remote-0], which the client [tm_current] is a client of. *)
#[export] Instance test_self_host : SelfHost := {|
  self_chain_id := mkChainId "remote-0" 0;
  host_current_height := at_height 9;
  self_proof_specs := test_specs;
  self_unbonding_period := Duration_from_secs 200;
  self_upgrade_path := ["upgrade"; "upgradedIBCState"];
  proof_specs_debug _ := "proof specs";
  string_list_debug _ := "upgrade path" |}.

(** The client is accepted, and a client at the host's height is not. *)
Lemma self_client_examples :
  is_ok (validate_self_tendermint_client tm_current) = true
  ∧ is_ok (validate_self_tendermint_client (tm_state 9 [])) = false.
Proof. split; vm_compute; reflexivity. Qed.

#[export] Instance RawPlan_eq_dec : EqDecision RawPlan.
Proof. solve_decision. Defined.
#[export] Instance RawPlan_countable : Countable RawPlan.
Proof.
  countable_record (λ r, ((rpl_name r, rpl_time r), (rpl_height r, rpl_info r, rpl_upgraded_client_state r)))
    (λ '((a, b), (c, d, e)), mkRawPlan a b c d e).
Defined.
#[export] Instance test_plan_codec : PlanCodec := {|
  decode_plan := decode_or_fail; encode_plan := to_bytes; plan_error_text _ := "plan error" |}.
#[export] Instance test_plan_codec_laws : PlanCodecLaws.
Proof. split. intros r. cbn. unfold decode_or_fail. by rewrite from_to_bytes. Qed.

Definition upgrade_9 : Plan := mkPlan "v9" 9 "info".
Lemma plan_any_roundtrip_witness :
  ∃ a, Plan_into_any (E:=UpgradeClientError) upgrade_9 = Ok a ∧ Plan_try_from_any a = Ok upgrade_9.
Proof.
  destruct (plan_any_roundtrip upgrade_9) as (Hr & _). apply Hr.
  - discriminate.
  - vm_compute. reflexivity.
Defined.

(** A proposal that replaces the plan at height 7. *)
Definition proposal_9 : UpgradeProposal :=
  mkUpgradeProposal "upgrade" "to v9" upgrade_9 (TmClientState_into_any (tm_state 10 [])).
Definition planned_7 : UpgradeStore :=
  mkUpgradeStore (Some (mkPlan "v7" 7 ""))
    (λ q, if decide (q = UpgradedClientState 7) then Some tm_current else None).

(** The client state of the replaced plan is still there: the handler clears at the height of
    the new plan. *)
Example replaced_plan_stays :
  upgraded_client_state (upgrade_client_proposal_handler proposal_9 planned_7).1 (UpgradedClientState 7)
  = Ok tm_current.
Proof. reflexivity. Qed.

Lemma upgrade_proposal_published_witness :
  ∃ any, query_upgraded_client_state (upgrade_client_proposal_handler proposal_9 planned_7).1 = Ok any
  ∧ TmClientState_try_from any = Ok (zero_custom_fields (tm_state 10 [])).
Proof.
  destruct (upgrade_proposal_published proposal_9 planned_7) as [Hok _].
  destruct (Hok (upgrade_client_proposal_handler proposal_9 planned_7).1
    (UpgradeClientProposal_into "upgrade" 9)) as (cs & u1 & Hcs & _ & _ & Hst & _ & Hq).
  - reflexivity.
  - assert (zero_custom_fields cs = zero_custom_fields (tm_state 10 [])) as <-.
    { apply (f_equal (value_of cs)) in Hst. cbn [value_of] in Hst. rewrite <- Hst. reflexivity. }
    exact (Hq (upgrade_client_proposal_handler proposal_9 planned_7).1 upgrade_9 eq_refl eq_refl eq_refl).
Defined.
