(* ===== verification/TestCodecs.v ===== *)
(** * Concrete encodings beside protobuf

    A binary codec and a self-describing format that are small enough to compute with and
    satisfy the laws of [Codecs], and the round trips of [Codecs] applied to them. *)

From S2P Require Import Prelude RustStr Identifiers Primitives Path Connection Channel Context Merkle.
From S2P Require Import ConnHandlers Codecs TestChain.
Local Open Scope string_scope.
Local Open Scope N_scope.

(** ** A binary codec *)

(** Reads one positive number in the binary form of [pos_to_bytes], which ends itself. *)
Fixpoint read_pos (b : bytes) : option (positive * bytes) :=
  match b with
  | Byte.x00 :: b => '(p, rest) ← read_pos b; Some (xO p, rest)
  | Byte.x01 :: b => '(p, rest) ← read_pos b; Some (xI p, rest)
  | Byte.x02 :: b => Some (xH, b)
  | _ => None
  end.
Lemma read_pos_to_bytes p rest : read_pos (pos_to_bytes p ++ rest)%list = Some (p, rest).
Proof. induction p as [p IH|p IH|]; cbn; by rewrite ?IH. Qed.

(** A value is read if it is one that fits its integer types. *)
Definition read_fitting `{Countable A} (fits : A → Prop) `{∀ a, Decision (fits a)} (b : bytes) :
    outcome string (A * bytes) :=
  match read_pos b with
  | Some (p, rest) =>
    match decode p with
    | Some a => if decide (fits a) then Ok (a, rest) else Err "out of range"
    | None => Err "no value"
    end
  | None => Err "unexpected end"
  end.
Lemma read_fitting_written `{Countable A} (fits : A → Prop) `{∀ a, Decision (fits a)} a rest :
  fits a → read_fitting fits (to_bytes a ++ rest)%list = Ok (a, rest).
Proof.
  intros Ha. unfold read_fitting, to_bytes. rewrite read_pos_to_bytes, decode_encode. by case_decide.
Qed.
Lemma read_fitting_fits `{Countable A} (fits : A → Prop) `{∀ a, Decision (fits a)} b a rest :
  read_fitting fits b = Ok (a, rest) → fits a.
Proof.
  unfold read_fitting. destruct (read_pos b) as [[p r]|]; [|done]. destruct (decode p); [|done].
  case_decide; naive_solver.
Qed.

#[export] Instance is_u64_dec n : Decision (is_u64 n).
Proof. unfold is_u64. apply _. Defined.
#[export] Instance test_binary : BinaryCodec := {|
  BinError := string;
  kind_other := "other";
  custom s := s;
  write_u64 := to_bytes;
  read_u64 := read_fitting is_u64;
|}.
#[export] Instance test_binary_laws : BinaryLaws.
Proof. split; [exact (read_fitting_written is_u64)|exact (read_fitting_fits is_u64)]. Qed.

Definition derived_codec `{Countable A} (fits : A → Prop) `{∀ a, Decision (fits a)} : Derived A := {|
  write_value := to_bytes;
  read_value := read_fitting fits : _ → outcome BinError _;
|}.
Lemma derived_codec_laws `{Countable A} (fits : A → Prop) `{∀ a, Decision (fits a)} :
  DerivedLaws A fits (Derived0:=derived_codec fits).
Proof. split; [exact (read_fitting_written fits)|exact (read_fitting_fits fits)]. Qed.

(** ** The inner structs *)

#[export] Instance ConnectionState_countable : Countable ConnectionState.
Proof.
  apply (inj_countable' (λ s, match s with ConnUninitialized => 0 | ConnInit => 1 | ConnTryOpen => 2 | ConnOpen => 3 end)
    (λ n, match n with 0 => ConnUninitialized | 1 => ConnInit | 2 => ConnTryOpen | _ => ConnOpen end)).
  by intros [].
Defined.
#[export] Instance Version_countable : Countable Version.
Proof. countable_record (λ v, (identifier v, features v)) (λ '(a, b), mkVersion a b). Defined.
#[export] Instance CommitmentPrefix_countable : Countable CommitmentPrefix.
Proof. countable_record (λ p, prefix_bytes p) (λ a, mkCommitmentPrefix a). Defined.
#[export] Instance CommitmentProofBytes_countable : Countable CommitmentProofBytes.
Proof. countable_record (λ p, proof_bytes p) (λ a, mkCommitmentProofBytes a). Defined.
#[export] Instance ConnCounterparty_countable : Countable ConnCounterparty.
Proof.
  countable_record (λ c, (cpty_client_id c, cpty_connection_id c, cpty_prefix c))
    (λ '(a, b, c), mkConnCounterparty a b c).
Defined.
#[export] Instance InnerConnectionEnd_eq_dec : EqDecision InnerConnectionEnd.
Proof. solve_decision. Defined.
#[export] Instance InnerConnectionEnd_countable : Countable InnerConnectionEnd.
Proof.
  countable_record (λ i, ((ice_state i, ice_client_id i, ice_counterparty i),
    (ice_versions i, ice_delay_period_secs i, ice_delay_period_nanos i)))
    (λ '((a, b, c), (d, e, f)), mkInnerConnectionEnd a b c d e f).
Defined.
#[export] Instance InnerMsgConnectionOpenInit_eq_dec : EqDecision InnerMsgConnectionOpenInit.
Proof. solve_decision. Defined.
#[export] Instance InnerMsgConnectionOpenInit_countable : Countable InnerMsgConnectionOpenInit.
Proof.
  countable_record (λ i, ((icoi_client_id_on_a i, icoi_counterparty i, icoi_version i),
    (icoi_delay_period_nanos i, icoi_signer i)))
    (λ '((a, b, c), (d, e)), mkInnerMsgConnectionOpenInit a b c d e).
Defined.
#[export] Instance InnerMsgConnectionOpenTry_eq_dec : EqDecision InnerMsgConnectionOpenTry.
Proof. solve_decision. Defined.
#[export] Instance InnerMsgConnectionOpenTry_countable : Countable InnerMsgConnectionOpenTry.
Proof.
  countable_record (λ i, (((icot_client_id_on_b i, icot_client_state_of_b_on_a i),
    (icot_counterparty i, icot_versions_on_a i), (icot_proof_conn_end_on_a i,
    icot_proof_client_state_of_b_on_a i, icot_proof_consensus_state_of_b_on_a i)),
    ((icot_proofs_height_on_a i, icot_consensus_height_of_b_on_a i), (icot_delay_period_nanos i,
    icot_signer i), (icot_proof_consensus_state_of_b i, icot_previous_connection_id i))))
    (λ '(((a, b), (c, d), (e, f, g)), ((h, i), (j, k), (l, m))),
      mkInnerMsgConnectionOpenTry a b c d e f g h i j k l m).
Defined.

#[export] Instance inner_end_fits_dec i : Decision (inner_end_fits i).
Proof. unfold inner_end_fits. apply _. Defined.
#[export] Instance inner_init_fits_dec i : Decision (inner_init_fits i).
Proof. unfold inner_init_fits. apply _. Defined.
#[export] Instance inner_try_fits_dec i : Decision (inner_try_fits i).
Proof. unfold inner_try_fits. apply _. Defined.

#[export] Instance test_inner_end : Derived InnerConnectionEnd := derived_codec inner_end_fits.
#[export] Instance test_inner_init : Derived InnerMsgConnectionOpenInit := derived_codec inner_init_fits.
#[export] Instance test_inner_try : Derived InnerMsgConnectionOpenTry := derived_codec inner_try_fits.
#[export] Instance test_inner_end_laws : DerivedLaws InnerConnectionEnd inner_end_fits := derived_codec_laws _.
#[export] Instance test_inner_init_laws : DerivedLaws InnerMsgConnectionOpenInit inner_init_fits :=
  derived_codec_laws _.
#[export] Instance test_inner_try_laws : DerivedLaws InnerMsgConnectionOpenTry inner_try_fits :=
  derived_codec_laws _.

(** ** Witnesses *)

Definition test_counterparty : ConnCounterparty :=
  mkConnCounterparty (mkClientId "07-tendermint-1") (Some (ConnectionId_new 3)) (mkCommitmentPrefix (as_bytes "ibc")).
(** A delay of twelve seconds and one nanosecond. *)
Definition test_end : ConnectionEnd :=
  mkConnectionEnd ConnOpen (mkClientId "07-tendermint-0") test_counterparty compatibles (12 * NANOS_PER_SEC + 1).
(** A delay that needs more than 64 bits of nanoseconds. *)
Definition test_open_init : MsgConnectionOpenInit :=
  mkMsgConnectionOpenInit (mkClientId "07-tendermint-0") test_counterparty None U64_SIZE "relayer".
Definition test_open_try : MsgConnectionOpenTry :=
  let proof := mkCommitmentProofBytes (as_bytes "proof") in
  mkMsgConnectionOpenTry (mkClientId "07-tendermint-0") (mkAny "/client" []) test_counterparty compatibles
    proof proof proof (mkHeight 0 7) (mkHeight 0 5) (U64_SIZE - 1) "relayer" None "".

Lemma connection_borsh_roundtrip_witness :
  as_secs (conn_delay_period test_end) < U64_SIZE
  ∧ ConnectionEnd_borsh_deserialize (ConnectionEnd_borsh_serialize test_end ++ [Byte.x07])%list
    = Ok (test_end, [Byte.x07])
  ∧ (∃ e, MsgConnectionOpenInit_borsh_serialize test_open_init = Err e)
  ∧ (∃ b, MsgConnectionOpenTry_borsh_serialize test_open_try = Ok b
       ∧ MsgConnectionOpenTry_borsh_deserialize (b ++ [Byte.x07])%list = Ok (test_open_try, [Byte.x07])).
Proof.
  assert (as_secs (conn_delay_period test_end) < U64_SIZE) as Hs by reflexivity.
  split; [exact Hs|].
  exact (connection_borsh_roundtrip test_end test_open_init test_open_try [Byte.x07] Hs).
Defined.

(** Seconds at their maximum and a whole second of nanoseconds. *)
Lemma connection_end_borsh_panics_witness :
  let i := mkInnerConnectionEnd ConnOpen (mkClientId "07-tendermint-0") test_counterparty compatibles
    (U64_SIZE - 1) NANOS_PER_SEC in
  ConnectionEnd_borsh_deserialize (write_value i ++ [])%list = Panic.
Proof.
  intros i. apply (connection_end_borsh_panics i []); [reflexivity|]. split; [apply N.le_refl|reflexivity].
Defined.

(** ** A self-describing format *)

Inductive TestValue := VStr (s : string) | VHeight (n h : N) | VBytes (b : bytes).
Definition hex_digit (n : N) : string :=
  match String.get (N.to_nat n) "0123456789ABCDEF" with Some c => String c "" | None => "" end.
#[export] Instance test_serde : SerdeLib := {|
  SerValue := TestValue;
  SerError := string;
  ser_custom s := s;
  ser_str := VStr;
  ser_height_struct := VHeight;
  de_height_struct v := match v with VHeight n h => Ok (n, h) | _ => Err "expected a height" end;
  de_vec_u8 v := match v with VBytes b => Ok b | _ => Err "expected a sequence" end;
  de_prefix_struct v := match v with VBytes b => Ok b | _ => Err "expected a struct" end;
  hex_upper b := Ok (String.concat "" ((λ x, hex_digit (Byte.to_N x / 16) ++ hex_digit (Byte.to_N x mod 16)) <$> b));
|}.
#[export] Instance test_serde_laws : SerdeLaws.
Proof. split; [done|by eexists..]. Qed.

(** A root is written as the text of its bytes, and that text is not read as a root. *)
Lemma hex_fields_unreadable_witness :
  CommitmentRoot_serialize (mkCommitmentRoot [Byte.xab; Byte.x01]) = Ok (VStr "AB01")
  ∧ ∃ e, CommitmentRoot_deserialize (VStr "AB01") = Err e.
Proof.
  split; [reflexivity|].
  exact (proj1 (hex_fields_unreadable (VStr "AB01")) (mkCommitmentRoot [Byte.xab; Byte.x01]) eq_refl).
Defined.

Lemma timeout_height_serde_witness :
  TimeoutHeight_deserialize (H0:=nanos_time) (TimeoutHeight_serialize (At (mkHeight 1 5))) = Ok (At (mkHeight 1 5))
  ∧ TimeoutHeight_deserialize (H0:=nanos_time) (ser_height_struct 3 0) = Ok Never.
Proof.
  destruct (timeout_height_serde (H:=nanos_time) (At (mkHeight 1 5)) 3) as (Ha & Hb & _).
  - intros h [= <-]. repeat split; done.
  - reflexivity.
  - split; [exact Ha|exact Hb].
Defined.
