(* ===== verification/Witnesses.v ===== *)
(** * Witnesses

    Each theorem of the development with hypotheses, applied on the concrete
    chain of [TestChain] or on concrete data, where its hypotheses are checked by
    evaluation. *)

From S2P Require Import Prelude RustStr Identifiers Primitives Path Connection Channel Context.
From S2P Require Import ConnHandlers Module ChanHandlers PacketHandlers PacketSpec.
From S2P Require Import PacketSafety ClientHandlers MockClient Entrypoint Chain TestChain.
Local Open Scope string_scope.
Local Open Scope N_scope.

(** ** Runs of a chain *)

Notation os_end := (observations full_script).

Lemma packets_delivered_once_witness :
  base.NoDup (seqs_at delivery transfer (ChannelId_new 1) os_end)
  ∧ ∀ ch, pc_get (channels st_end.1) transfer (ChannelId_new 1) = Some ch →
      chan_ordering ch = Ordered →
      ∃ m, pc_get (next_sequence_recv st_end.1) transfer (ChannelId_new 1) = Some m
        ∧ seqs_at delivery transfer (ChannelId_new 1) os_end = upto m.
Proof.
  destruct (packets_delivered_once test_router os_end st_end.1 st_end.2 transfer (ChannelId_new 1))
    as (Hnd & _ & Hc).
  - apply (ran full_script). vm_compute. reflexivity.
  - split; [exact Hnd|]. intros ch Hch Ho. specialize (Hc ch Hch). rewrite Ho in Hc. exact Hc.
Defined.

Lemma packets_resolved_once_witness :
  pcs_get (packet_commitment st_end.1) transfer (ChannelId_new 0) 1 = None
  ∧ is_Some (pcs_get (packet_commitment st_end.1) transfer (ChannelId_new 0) 2)
  ∧ base.NoDup (seqs_at resolution transfer (ChannelId_new 0) os_end).
Proof.
  split; [vm_compute; reflexivity|]. split; [vm_compute; eexists; reflexivity|].
  apply (packets_resolved_once test_router os_end st_end.1 st_end.2 transfer (ChannelId_new 0)).
  apply (ran full_script). vm_compute. reflexivity.
Defined.

Lemma reachable_stores_well_formed_witness :
  chans_inv (connections st_end.1) (channel_ids_counter st_end.1) (channels st_end.1).
Proof.
  apply (reachable_stores_well_formed test_router os_end st_end.1 st_end.2).
  apply (ran full_script). vm_compute. reflexivity.
Defined.

Lemma packets_sent_in_sequence_witness :
  ∃ m, pc_get (next_sequence_send st_end.1) transfer (ChannelId_new 0) = Some m ∧ 1 <= m
    ∧ seqs_at sending transfer (ChannelId_new 0) os_end = upto m.
Proof.
  destruct (pc_get (channels st_end.1) transfer (ChannelId_new 0)) as [ch|] eqn:Ech.
  - apply (packets_sent_in_sequence test_router os_end st_end.1 st_end.2 transfer
             (ChannelId_new 0) ch); [|exact Ech].
    apply (ran full_script). vm_compute. reflexivity.
  - vm_compute in Ech. discriminate Ech.
Defined.

Lemma unordered_redelivery_rejected_witness : acts st_open.1 (PktRecv (msg_recv 0 4)) = true.
Proof.
  destruct (pc_get (channels st_open.1) transfer (ChannelId_new 0)) as [c|] eqn:Ec.
  - apply (unordered_redelivery_rejected test_host test_router (observations open_script)
             st_open.1 st_open.2 (msg_recv 0 4) c).
    + apply (ran open_script). vm_compute. reflexivity.
    + exact Ec.
    + vm_compute in Ec. injection Ec as <-. reflexivity.
    + apply accepted. vm_compute. reflexivity.
  - vm_compute in Ec. discriminate Ec.
Defined.

(** A frozen client: misbehaviour is submitted right after the client exists. *)
Definition frozen_script : list (MsgEnvelope + Packet) :=
  (take 2 open_script ++ [inl (EnvClient (ClMisbehaviour msg_misbehaviour))])%list.
Definition st_frozen : test_chain := after frozen_script.

Lemma inert_clients_never_change_witness :
  ∃ rec, inert client_0 st_frozen.1 rec ∧ clients st_frozen.1 !! client_0 = Some rec.
Proof.
  destruct (frozen_inert st_frozen.1 client_0) as [rec Hin].
  - vm_compute. reflexivity.
  - exists rec. split; [exact Hin|].
    apply (inert_clients_never_change test_router (observations frozen_script)
             st_frozen [] st_frozen client_0 rec).
    + apply (ran_to frozen_script). vm_compute. reflexivity.
    + exact Hin.
    + constructor.
Defined.

(** ** Packets *)

Lemma packet_handlers_refine_spec_witness :
  let msg := PktRecv (msg_recv 0 4) in
  let st' := (packet_execute msg (st_open.1, tt)).1 in
  ∃ acted, packet_transition (view st_open.1) msg acted (view st'.1)
    ∧ st'.2 = (if acted then module_effect msg tt else tt)
    ∧ same_clients st_open.1 st'.1 ∧ same_connections st_open.1 st'.1.
Proof.
  intros msg st'. apply (packet_handlers_refine_spec st_open.1 tt msg st'.1 st'.2).
  - apply accepted. vm_compute. reflexivity.
  - refine (executed2 (packet_execute msg (st_open.1, tt)) _). vm_compute. reflexivity.
Defined.

Lemma send_packet_refines_spec_witness :
  let p := packet_out 0 1 20 in
  let s' := (send_packet p st_open.1).1 in
  send_transition (view st_open.1) p (view s') ∧ same_clients st_open.1 s'
  ∧ same_connections st_open.1 s'.
Proof.
  intros p s'. apply (send_packet_refines_spec st_open.1 p s').
  refine (executed (send_packet p st_open.1) _). vm_compute. reflexivity.
Defined.

(** The counterparty's ledger holds the commitment of the packet. *)
Definition commitment_or_empty (p : Packet) : PacketCommitment :=
  match packet_commitment_of p with Ok c => c | _ => mkPacketCommitment [] end.
Definition sent_ledger : list (Path * bytes) :=
  [(PathCommitment (commitment_path_on_a (packet_in 0 4)),
    commitment_bytes (commitment_or_empty (packet_in 0 4)))].
Definition remote_sent (_ : CommitmentRoot) (p : PortId) (c : ChannelId) (n : Sequence) :
    option Packet :=
  if bool_decide ((p, c, n) = (transfer, remote_channel, 4)) then Some (packet_in 0 4) else None.

Lemma at_20_wf : TimeoutHeight_wf (At (at_height 20)).
Proof. vm_compute. repeat split; discriminate. Qed.

Lemma received_packet_was_sent_witness :
  ∃ c conn root q, pc_get (channels st_open.1) transfer (ChannelId_new 0) = Some c
    ∧ first_hop st_open.1 (chan_connection_hops c) conn
    ∧ proven_root (H1:=ledger_client sent_ledger) st_open.1 (conn_client_id conn) (at_height 7) root
    ∧ remote_sent root transfer remote_channel 4 = Some q
    ∧ ((data q = [Byte.x61] ∧ timeout_height_on_b q = At (at_height 20)
        ∧ timeout_timestamp_on_b q = Timestamp_none)
       ∨ commitments_collide (data q) (timeout_height_on_b q) (timeout_timestamp_on_b q)
           [Byte.x61] (At (at_height 20)) Timestamp_none).
Proof.
  apply (received_packet_was_sent (H1:=ledger_client sent_ledger) (in_ledger sent_ledger)
           (ledger_sound _) st_open.1 (msg_recv 0 4) remote_sent).
  - apply accepted. vm_compute. reflexivity.
  - intros root prefix p c n value Hin%list_elem_of_singleton. injection Hin as -> -> -> ->.
    exists (packet_in 0 4), (commitment_or_empty (packet_in 0 4)).
    split; [reflexivity|]. split; [reflexivity|]. split; [reflexivity|].
    split; [exact at_20_wf|exact I].
  - exact at_20_wf.
  - exact I.
Defined.

Definition ack_ledger : list (Path * bytes) :=
  [(PathAck (mkAckPath transfer remote_channel 1),
    ack_commitment_bytes (compute_ack_commitment (mkAcknowledgement [Byte.x01])))].
Definition remote_written (_ : CommitmentRoot) (p : PortId) (c : ChannelId) (n : Sequence) :
    option Acknowledgement :=
  if bool_decide ((p, c, n) = (transfer, remote_channel, 1))
  then Some (mkAcknowledgement [Byte.x01]) else None.

Lemma acknowledgement_was_written_witness :
  let cm := commitment_or_empty (packet_out 0 1 20) in
  packet_commitment_of (packet_out 0 1 20) = Ok cm
  ∧ ∃ c conn root k, pc_get (channels st_sent.1) transfer (ChannelId_new 0) = Some c
      ∧ first_hop st_sent.1 (chan_connection_hops c) conn
      ∧ proven_root (H1:=ledger_client ack_ledger) st_sent.1 (conn_client_id conn) (at_height 7) root
      ∧ remote_written root transfer remote_channel 1 = Some k
      ∧ (k = mkAcknowledgement [Byte.x01] ∨ collide (ack_bytes k) [Byte.x01]).
Proof.
  intros cm.
  apply (acknowledgement_was_written (H1:=ledger_client ack_ledger) (in_ledger ack_ledger)
           (ledger_sound _) st_sent.1 tt (msg_ack (packet_out 0 1 20)) remote_written cm).
  - apply accepted. vm_compute. reflexivity.
  - vm_compute. reflexivity.
  - intros root prefix p c n value Hin%list_elem_of_singleton. injection Hin as -> -> -> ->.
    eexists. split; reflexivity.
Defined.

Definition chan_or_none (st : test_chain) (n : N) : option ChannelEnd :=
  pc_get (channels st.1) transfer (ChannelId_new n).

Lemma timed_out_packet_not_received_witness :
  ∃ conn cs cons,
    active_client_at st_updated.1 (conn_client_id conn) (at_height 8) = Ok (cs, cons)
    ∧ ∀ value, ¬ in_ledger [] (cons_root cons) (cpty_prefix (conn_counterparty conn))
        (PathReceipt (mkReceiptPath transfer remote_channel 2)) value.
Proof.
  destruct (chan_or_none st_updated 0) as [c|] eqn:Ec.
  - destruct (timed_out_packet_not_received (H1:=ledger_client []) (in_ledger [])
      (ledger_sound_absence _) st_updated.1 tt (msg_timeout (packet_out 0 2 7))
      (commitment_or_empty (packet_out 0 2 7)) c) as (conn & cs & cons & _ & Ha & _ & Hb).
    + apply accepted. vm_compute. reflexivity.
    + vm_compute. reflexivity.
    + exact Ec.
    + exists conn, cs, cons. split; [exact Ha|]. apply Hb.
      vm_compute in Ec. injection Ec as <-. reflexivity.
  - vm_compute in Ec. discriminate Ec.
Defined.

Lemma timeout_on_close_never_acts_witness :
  pcs_get (packet_commitment st_open.1) transfer (ChannelId_new 0) 1 = None.
Proof.
  apply (timeout_on_close_never_acts (H1:=keyed_client) keyed_single st_open.1 tt
           (mkMsgTimeoutOnClose (packet_out 0 1 20) 1 proof proof (at_height 7) "signer")).
  apply accepted. vm_compute. reflexivity.
Defined.

(** ** Connections and channels *)

Definition msg_confirm : ConnectionMsg := ConnOpenConfirm msg_conn_confirm.
Definition s_conn : IbcStore := (connection_execute msg_confirm st_conn_try.1).1.

Lemma connection_handlers_refine_spec_witness :
  conn_transition (connection_ids_counter st_conn_try.1) (connections st_conn_try.1) msg_confirm
                  (connection_ids_counter s_conn) (connections s_conn)
  ∧ same_clients st_conn_try.1 s_conn ∧ same_channels st_conn_try.1 s_conn
  ∧ same_packets st_conn_try.1 s_conn.
Proof.
  apply (connection_handlers_refine_spec st_conn_try.1 msg_confirm s_conn).
  - apply accepted. vm_compute. reflexivity.
  - refine (executed (connection_execute msg_confirm st_conn_try.1) _). vm_compute. reflexivity.
Defined.

Lemma connection_validate_sufficient_witness :
  (connection_execute msg_confirm st_conn_try.1).2 = Ok tt.
Proof.
  apply (connection_validate_sufficient st_conn_try.1 msg_confirm).
  - apply accepted. vm_compute. reflexivity.
  - vm_compute. reflexivity.
Defined.

Lemma connections_invariant_witness :
  conns_inv (connection_ids_counter s_conn) (connections s_conn).
Proof.
  apply (connections_invariant st_conn_try.1 msg_confirm s_conn).
  - apply (inv_connections _ _ (after_inv (take 3 open_script) eq_refl)).
  - apply accepted. vm_compute. reflexivity.
  - refine (executed (connection_execute msg_confirm st_conn_try.1) _). vm_compute. reflexivity.
Defined.

(** The end the counterparty of the connection has when it is confirmed. *)
Definition remote_conn_end : ConnectionEnd :=
  mkConnectionEnd ConnOpen remote_client
    (mkConnCounterparty client_0 (Some (ConnectionId_new 0)) commitment_prefix) [version_1] 0.
Definition conn_ledger : list (Path * bytes) :=
  [(PathConnection (mkConnectionPath remote_connection), ConnectionEnd_encode_vec remote_conn_end)].
Definition remote_conns (_ : CommitmentRoot) (id : ConnectionId) : option ConnectionEnd :=
  if bool_decide (id = remote_connection) then Some remote_conn_end else None.

Lemma handshake_agreement_witness :
  ∃ root c_b id_a c_a,
    connections s_conn !! ConnectionId_new 0 = Some c_b ∧ conn_state c_b = ConnOpen
    ∧ cpty_connection_id (conn_counterparty c_b) = Some id_a
    ∧ remote_conns root id_a = Some c_a ∧ conn_state c_a = ConnOpen.
Proof.
  destruct (handshake_agreement (H1:=ledger_client conn_ledger) (in_ledger conn_ledger)
    (ledger_sound _) test_codec_laws st_conn_try.1 msg_confirm s_conn remote_conns)
    as (root & id_a & c_a & c_b & Hagree).
  - apply (inv_connections _ _ (after_inv (take 3 open_script) eq_refl)).
  - apply accepted. vm_compute. reflexivity.
  - refine (executed (connection_execute msg_confirm st_conn_try.1) _). vm_compute. reflexivity.
  - intros root prefix id value Hin%list_elem_of_singleton. injection Hin as -> ->.
    exists remote_conn_end. split; [reflexivity|]. split; [|reflexivity].
    intros i Hi. injection Hi as <-. discriminate.
  - exists root, c_b, id_a, c_a. tauto.
Defined.

Definition msg_chan : ChannelMsg := ChanOpenConfirm (msg_chan_confirm 0).
Definition st_chan : IbcStore * () := (channel_execute msg_chan (st_chan_try.1, tt)).1.

Lemma channel_handlers_refine_spec_witness :
  chan_transition (connections st_chan_try.1) (channel_ids_counter st_chan_try.1)
    (channels st_chan_try.1) msg_chan (channel_ids_counter st_chan.1) (channels st_chan.1)
  ∧ chan_sequences st_chan_try.1 msg_chan st_chan.1 ∧ same_clients st_chan_try.1 st_chan.1
  ∧ same_connections st_chan_try.1 st_chan.1.
Proof.
  apply (channel_handlers_refine_spec st_chan_try.1 tt msg_chan st_chan.1 st_chan.2).
  - apply accepted. vm_compute. reflexivity.
  - refine (executed2 (channel_execute msg_chan (st_chan_try.1, tt)) _). vm_compute. reflexivity.
Defined.

Lemma channels_invariant_witness :
  chans_inv (connections st_chan.1) (channel_ids_counter st_chan.1) (channels st_chan.1).
Proof.
  apply (channels_invariant st_chan_try.1 tt msg_chan st_chan.1 st_chan.2).
  - apply (inv_channels _ _ (after_inv (take 5 open_script) eq_refl)).
  - apply accepted. vm_compute. reflexivity.
  - refine (executed2 (channel_execute msg_chan (st_chan_try.1, tt)) _). vm_compute. reflexivity.
Defined.

Definition remote_chan_end : ChannelEnd :=
  mkChannelEnd ChanOpen Unordered (mkChanCounterparty transfer (Some (ChannelId_new 0)))
    [remote_connection] (mkChanVersion "ics20-1").
Definition chan_ledger : list (Path * bytes) :=
  [(PathChannelEnd (mkChannelEndPath transfer remote_channel),
    ChannelEnd_encode_vec remote_chan_end)].
Definition remote_chans (_ : CommitmentRoot) (p : PortId) (c : ChannelId) : option ChannelEnd :=
  if bool_decide ((p, c) = (transfer, remote_channel)) then Some remote_chan_end else None.

Lemma channel_agreement_witness :
  ∃ root c rem c', pc_get (channels st_chan.1) transfer (ChannelId_new 0) = Some c
    ∧ chan_state c = ChanOpen ∧ rem_channel_id (chan_remote c) = Some rem
    ∧ remote_chans root (rem_port_id (chan_remote c)) rem = Some c' ∧ chan_state c' = ChanOpen.
Proof.
  destruct (channel_agreement (H1:=ledger_client chan_ledger) (in_ledger chan_ledger)
    (ledger_sound _) test_codec_laws st_chan_try.1 tt msg_chan st_chan.1 st_chan.2 remote_chans)
    as (root & c & rem & c' & conn & Hagree).
  - apply (inv_channels _ _ (after_inv (take 5 open_script) eq_refl)).
  - apply accepted. vm_compute. reflexivity.
  - refine (executed2 (channel_execute msg_chan (st_chan_try.1, tt)) _). vm_compute. reflexivity.
  - intros root prefix p c value Hin%list_elem_of_singleton. injection Hin as -> -> ->.
    exists remote_chan_end. split; [reflexivity|]. split; [|reflexivity].
    intros i Hi. injection Hi as <-. discriminate.
  - exists root, c, rem, c'. tauto.
Defined.

(** A channel this chain starts: the module's version and a close that fails. *)
Definition msg_chan_init : MsgChannelOpenInit :=
  mkMsgChannelOpenInit transfer [ConnectionId_new 0] transfer Unordered "signer"
    (mkChanVersion "ics20-1").
Definition v2_module : Module () := answering_module (λ _, mkChanVersion "v2").
Definition st_init : IbcStore * () :=
  (chan_open_init_execute (Module0:=v2_module) msg_chan_init (st_conn.1, tt)).1.

Lemma open_init_ignores_module_version_witness :
  ∃ c hop, pc_get (channels st_init.1) transfer (ChannelId_new 0) = Some c
    ∧ chan_version c = mkChanVersion "ics20-1"
    ∧ OpenInitChannel transfer (ChannelId_new 0) transfer hop (mkChanVersion "v2")
        ∈ events st_init.1.
Proof.
  apply (open_init_ignores_module_version (Module0:=v2_module) st_conn.1 tt msg_chan_init
           st_init.1 st_init.2 ModuleExtras_empty (mkChanVersion "v2")).
  - destruct st_init as [s []]. reflexivity.
  - refine (executed2 (chan_open_init_execute msg_chan_init (st_conn.1, tt)) _).
    vm_compute. reflexivity.
Defined.

Definition init_chan_end : ChannelEnd :=
  mkChannelEnd ChanInit Unordered (mkChanCounterparty transfer None) [ConnectionId_new 0]
    (mkChanVersion "ics20-1").

Lemma close_init_fails_after_write_witness :
  let msg := mkMsgChannelCloseInit transfer (ChannelId_new 0) "signer" in
  ∃ s', chan_close_init_execute msg (st_init.1, tt)
      = ((s', tt), Err (CtxChannel (ChanOther NO_COUNTERPARTY_IN_CLOSE_INIT)))
    ∧ pc_get (channels s') transfer (ChannelId_new 0)
      = Some (ChannelEnd_set_state init_chan_end ChanClosed).
Proof.
  intros msg.
  apply (close_init_fails_after_write st_init.1 tt msg init_chan_end tt ModuleExtras_empty).
  - vm_compute. reflexivity.
  - reflexivity.
  - reflexivity.
Defined.

(** ** Clients *)

Definition no_client_state : MockClientState := client_state_at 1 1.
Definition client_at (s : IbcStore) (id : ClientId) : MockClientState :=
  value_of no_client_state (client_state s id).
Definition s_created : IbcStore := (client_execute (ClCreateClient msg_create) empty_store).1.

Lemma client_messages_confined_witness :
  clients_inv (client_ids_counter s_created) (clients s_created)
  ∧ ∃ id, client_step id empty_store (ClCreateClient msg_create) s_created
    ∧ clients empty_store !! id = None.
Proof.
  apply (client_messages_confined empty_store (ClCreateClient msg_create) s_created).
  - apply (inv_clients _ _ genesis_inv).
  - refine (executed (client_execute (ClCreateClient msg_create) empty_store) _).
    vm_compute. reflexivity.
Defined.

Definition um_evidence : MsgUpdateOrMisbehaviour := UmMisbehaviour msg_misbehaviour.
Definition no_evidence : MsgUpdateOrMisbehaviour :=
  UmMisbehaviour (mkMsgSubmitMisbehaviour client_0 (uc_client_message msg_update) "signer").

Lemma update_client_branches_witness :
  update_client_execute no_evidence st_client.1 = (st_client.1, Err NO_MISBEHAVIOUR_FOUND).
Proof.
  apply (update_client_branches st_client.1 no_evidence (client_at st_client.1 client_0) false).
  - apply has_value. vm_compute. reflexivity.
  - reflexivity.
Defined.

Definition evidence : Misbehaviour :=
  value_of (mkMisbehaviour client_0 (header_at 1 1) (header_at 1 1))
    (Misbehaviour_try_from (sm_misbehaviour msg_misbehaviour)).

Lemma misbehaviour_freezes_witness :
  ∃ s', update_client_execute um_evidence st_client.1 = (s', Ok tt)
    ∧ client_state s' client_0
      = Ok (MockClientState_frozen (client_at st_client.1 client_0) : ClientState).
Proof.
  destruct (misbehaviour_freezes test_host st_client.1 um_evidence (client_at st_client.1 client_0)
    evidence) as (s' & Hx & Hf & _).
  - apply has_value. vm_compute. reflexivity.
  - reflexivity.
  - apply has_value. vm_compute. reflexivity.
  - vm_compute. reflexivity.
  - right. split; vm_compute; reflexivity.
  - exists s'. split; [exact Hx|exact Hf].
Defined.

Lemma mock_update_records_header_witness :
  ∃ s', mock_update_state no_client_state test_host client_0 (uc_client_message msg_update)
          empty_store = (s', Ok [at_height 7])
    ∧ client_update_meta s' client_0 (at_height 7) = Ok (seconds 1003, at_height 10).
Proof.
  destruct (mock_update_records_header no_client_state test_host client_0
    (uc_client_message msg_update) (header_at 7 600) (seconds 1003) (at_height 10) empty_store)
    as (s' & Hx & _ & _ & Hm).
  - reflexivity.
  - vm_compute. repeat split; discriminate.
  - reflexivity.
  - reflexivity.
  - exists s'. split; [exact Hx|exact Hm].
Defined.

Lemma advance_host_chain_spec_witness :
  ∃ ctx' k, advance_host_chain_height test_context = (ctx', Ok tt)
    ∧ MockContext_validate ctx' = Ok tt
    ∧ block_history ctx' = (drop k (block_history test_context) ++ [header_at 11 1003])%list
    ∧ (k <= 1)%nat.
Proof.
  apply (advance_host_chain_spec test_context (header_at 10 1000) (seconds 1003)).
  - apply accepted. vm_compute. reflexivity.
  - discriminate.
  - reflexivity.
  - reflexivity.
  - vm_compute. reflexivity.
  - reflexivity.
Defined.

(** ** Data *)

Lemma packet_commitment_binding_witness :
  ([Byte.x61] = [Byte.x61] ∧ At (at_height 20) = At (at_height 20)
   ∧ Timestamp_none = Timestamp_none)
  ∨ commitments_collide [Byte.x61] (At (at_height 20)) Timestamp_none
      [Byte.x61] (At (at_height 20)) Timestamp_none.
Proof.
  apply (packet_commitment_binding [Byte.x61] (At (at_height 20)) Timestamp_none
           [Byte.x61] (At (at_height 20)) Timestamp_none).
  - exact at_20_wf.
  - exact at_20_wf.
  - exact I.
  - exact I.
  - reflexivity.
Defined.

Definition open_conn_end : ConnectionEnd :=
  mkConnectionEnd ConnOpen client_0 (mkConnCounterparty remote_client (Some remote_connection)
    remote_prefix) [version_1] (Duration_from_secs 5).

Lemma conn_delay_spec_witness :
  verify_conn_delay_passed st_client.1 (at_height 7) open_conn_end = Ok tt ↔
  ∃ t0 h0 t1, client_processed_times st_client.1 !! (client_0, at_height 7) = Some t0
    ∧ client_processed_heights st_client.1 !! (client_0, at_height 7) = Some h0
    ∧ Timestamp_add t0 (Duration_from_secs 5) = Ok t1 ∧ Timestamp_ltb (seconds 1003) t1 = false
    ∧ is_u64 (revision_height h0 + block_delay (Duration_from_secs 5))
    ∧ ¬ height_lt (at_height 10) (mkHeight (height_revision_number h0)
          (revision_height h0 + block_delay (Duration_from_secs 5))).
Proof.
  apply (conn_delay_spec st_client.1 (at_height 7) open_conn_end (seconds 1003) (at_height 10)).
  - reflexivity.
  - reflexivity.
Defined.

Definition a_path : Path := PathCommitment (mkCommitmentPath transfer (ChannelId_new 0) 1).

Lemma path_keys_disjoint_witness : a_path = a_path.
Proof.
  apply (path_keys_disjoint a_path a_path).
  - vm_compute. repeat split.
  - vm_compute. repeat split.
  - reflexivity.
Defined.

Lemma picked_version_accepted_witness :
  verify_is_supported version_1 [version_1] = Ok tt
  ∧ (base.NoDup (identifier <$> compatibles) → verify_is_supported version_1 compatibles = Ok tt).
Proof.
  apply (picked_version_accepted compatibles [version_1] version_1). reflexivity.
Defined.

Lemma packet_raw_roundtrip_witness :
  ∃ r, Packet_into (E:=PacketError) (packet_out 0 1 20) = Ok r
    ∧ Packet_try_from r = Ok (packet_out 0 1 20).
Proof.
  apply (packet_raw_roundtrip (H1:=nanos_time_laws) (packet_out 0 1 20)).
  split; [vm_compute; reflexivity|]. split; [discriminate|]. split; [discriminate|].
  split; [reflexivity|]. split; [reflexivity|]. split; [reflexivity|]. split; [reflexivity|].
  split; [exact at_20_wf|]. split; [exact I|]. left. reflexivity.
Defined.

Lemma generated_ids_valid_witness :
  ConnectionId_from_str "connection-12" = Ok (ConnectionId_new 12)
  ∧ ChannelId_from_str "channel-12" = Ok (ChannelId_new 12).
Proof.
  destruct (generated_ids_valid 12 7) as (Hc & Hch & _).
  - vm_compute. reflexivity.
  - split; [exact Hc|exact Hch].
Defined.

Lemma timestamp_nanoseconds_roundtrip_witness :
  ∃ tn tm, Timestamp_from_nanoseconds 7 = Ok tn ∧ Timestamp_from_nanoseconds 5 = Ok tm
    ∧ Timestamp_nanoseconds (E:=ParseTimestampError) tn = Ok 7
    ∧ (Timestamp_check_expiry tn tm = Expired ↔ 7 ≠ 0 ∧ 5 ≠ 0 ∧ 5 < 7).
Proof.
  destruct (timestamp_nanoseconds_roundtrip (H0:=nanos_time_laws) 7 5)
    as (tn & tm & Hn & Hm & Hr & _ & He & _).
  - vm_compute. reflexivity.
  - vm_compute. reflexivity.
  - exists tn, tm. split; [exact Hn|]. split; [exact Hm|]. split; [exact Hr|exact He].
Defined.
